(* ===== verification/_CoqProject ===== *)
-Q . S2P
Prelude.v
Float64.v
OptTypes.v
OptErrors.v
Plugins.v
RawScores.v
Energy.v
Communication.v
Objective.v
Diagnostics.v
ScoreLog.v
Plan.v
HumanReadable.v
Ilp.v
OrTools.v
GoTime.v
GoText.v
ApiTypes.v
KubeApi.v
Scripts.v
ClusterController.v
PlanController.v
MemberClients.v
Profiles.v
PolicyInputs.v
PolicyController.v
LeaseRace.v
PolicyEvaluate.v
ReplicaBinding.v
BindingRace.v
PlanRace.v
DoubleMove.v
Scheduler.v
GlobalDeployment.v
RollingMigration.v
ServerBase.v
ServerKube.v
ClusterHandler.v
DeploymentHandler.v
OptimizationHandler.v
KvHandler.v
System.v
DeploymentRace.v
DeletionRace.v
Interleaving.v
Manager.v
ServerSystem.v
Router.v
Pipeline.v
EvaluationRace.v
Metrics.v
Startup.v
