(* ===== verification/Prelude.v ===== *)
(** * KubeMorph: a verification of the optimizer, the controllers and the REST server

    KubeMorph places the replicas of an application ("global deployment") on the
    nodes of several member clusters and re-orchestrates them when a better
    placement exists. The Go code modelled here is under src/controller and
    src/server; the web client (src/web) and the generated code are not part of
    the model.

    ** The program

    - The optimizer (internal/optimizer) is a library of pure functions. Scoring
      plugins rate every replica on every node (lower is better); the weighted
      sum of the plugins' matrices is the objective; an integer program assigns
      every replica to a node within CPU and memory capacities; a plan is the
      list of replicas whose node changes, with scores before and after.
    - The controllers (internal/controller) react to stored objects. The Cluster
      controller probes the member clusters and sums up their nodes. The
      GlobalDeployment controller creates one ReplicaBinding per replica and
      assigns pending bindings to nodes. The ReplicaBinding controller turns a
      binding into a Deployment of a member cluster and follows it. The
      OptimizationPolicy controller collects the current layout under a lease,
      arms a timer, and when it fires runs the optimizer and writes a
      ReOrchestrationPlan; the plan controller turns the moves of a plan into
      reschedule requests on the bindings and follows those.
    - Controllers share state only through the API server: a phase string and a
      few spec fields of each object are the protocol between them.
    - The REST server (src/server) is the users' way in: it writes clusters and
      their kubeconfigs, deployments and policies to the same API server, reads
      them with the plans, and offers a small key-value store on etcd.

    ** Files, in the order they build on each other

    - Prelude (this file): results, loops, machine integers, the iteration order
      of maps and the unstable sort of Go as classes, tactics and generic lemmas.
    - Float64: float64 as IEEE binary64 (the Standard Library's SpecFloat), with
      the order and rounding facts the scores need. No real-number idealisation:
      every score theorem is about the rounded values.
    - OptTypes, OptErrors: identities of the optimizer (types.go) and its errors,
      one constructor per error the package creates.
    - Plugins, RawScores, Energy, Communication: the five scoring plugins.
      RawScores is the loop that energy and communication share.
    - Objective (objective.go), Plan (plan.go, end_to_end.go), HumanReadable
      (human_readable.go, human_readable_impl.go): aggregation, plans and metrics.
    - Ilp (ilp.go and the stub solver), OrTools (ortools_solver_cgo.go): the
      integer program; the mixed-integer solver is a parameter whose contract
      ([ort_sound]) is that a returned solution satisfies the rows of integers it
      was given, as long as these stay below a magnitude, a parameter as well: a
      solver computes with a tolerance, and larger integers need not be kept apart.
    - GoTime, GoText: strconv.Atoi, time.ParseDuration, strings.TrimSpace and
      strconv.ParseFloat.
    - ApiTypes: the custom resources (api/v1alpha1), one record per struct.
    - KubeApi: the environment of the controllers: stored objects, member
      clusters, clock, and the monad [M] in which handlers run; each request may
      fail by an arbitrary [fault]. Two program logics: [preserves] (what a
      computation cannot change) and [hoare] triples over all outcomes.
    - Scripts: a call as the sequence of its steps, which others interrupt, and a
      logic of rely and guarantee for it.
    - ClusterController (cluster_controller.go), PlanController
      (reorchestrationplan_controller.go), ReplicaBinding
      (replicabinding_controller.go), Scheduler and GlobalDeployment
      (globaldeployment_controller.go): one file per controller, [Reconcile]
      last. A handler that the code inlines in a long function is a definition of
      its own here, named after what it does (for instance
      [reconcile_rescheduling] for the Rescheduling branch of
      [ReplicaBindingReconciler.Reconcile]).
    - BindingRace, PlanRace, DeploymentRace: the calls of the binding, plan and
      deployment controllers as scripts of their requests, with the merge patches
      and the conflicting updates they send, and what their steps do when others
      write in between. Run alone, each script is the [Reconcile] of its controller.
    - DeletionRace (globaldeployment_delete_handler.go): the server's deletion of a
      deployment as such a script.
    - DoubleMove: a binding that plans move twice.
    - RollingMigration: the two handlers of globaldeployment_controller.go that
      replace a binding by a revision of it.
    - MemberClients (multicluster/member_client_cache.go): the client cache, on
      any [ClientCache] of the environment; bindings and policies have their own.
    - Profiles (profiles_configmaps.go): prices, power curves, latencies and the
      topology read from config maps; the decoders are the class
      [ProfileDecoders].
    - PolicyInputs (optimizationpolicy_solver_wiring.go, and the parts of
      [defaultEvaluate] that repeat it): what the optimizer is given. The code has
      the gathering twice; [gather] is one function with a flag for the single
      difference, the namespace of the services.
    - PolicyController (optimizationpolicy_controller.go): validation, layout,
      lease, timer and [Reconcile].
    - PolicyEvaluate: [defaultEvaluate] of the same file. The solver backend is
      the class [Backend]; [SoundBackend] is what an evaluation relies on, and
      both builds of the solver (the stub and OR-Tools) are instances.
    - LeaseRace: [tryAcquirePolicyLease] as a sequence of single requests, which
      any number of attempts interleave.
    - ServerBase (what the handlers share: requests, pages, selectors, times),
      ServerKube (cluster_apply.go, kubeconfig.go), ClusterHandler,
      DeploymentHandler, OptimizationHandler and KvHandler (the handler files of
      server/internal/api and the store): the REST server, one definition per
      handler. ServerKube has the defaults and the schema of the CRD of policies;
      in KvHandler a write that failed, by the time limit of the store or otherwise,
      may still take effect later.
    - System: the five controllers and the evaluations as one transition relation
      on the environment, by an executable [handle] of events, interleaved with
      restarts, cluster changes, time and the users' changes, with an inductive
      invariant of the reachable states. The interleaving is between whole calls
      of [Reconcile]; the files named Race look inside the calls.
    - Interleaving: System with the calls of the binding, plan and deployment
      controllers and the server's deletions taken apart, any number of them at a time.
    - Manager (cmd/main.go and the SetupWithManager functions): what the process
      gives its reconcilers, and which calls the change of an object leads to.
    - ServerSystem: the requests of the server as further steps of System.
    - Router (router.go, the Register functions, config.go, server/main.go): the
      routes, the probes and the configuration; a request of HTTP goes through the
      table to its handler.
    - Diagnostics: the statistics the optimizer computes for its log; ScoreLog: what
      the communication plugin logs while it scores.
    - Pipeline: an evaluation followed by the execution of its plan; EvaluationRace:
      an evaluation whose plan is executed before its status is written.
    - Metrics (metrics.go): the registration of the collectors, and what status
      writes and evaluations count.
    - Startup (cmd/main.go, server/main.go, kube/client.go, storage/etcd.go,
      logging.go, middleware.go): flags, options and the order of the steps of both
      processes, the server's clients, its shutdown and its log of requests.

    ** What the theorems show

    - Plugins: the cost plugin fails exactly on the documented input errors;
      scores cover every pair, are never negative, and the best nodes get zero;
      the centroid of a service minimises average latency; marginal power is
      total on usable curves.
    - Objective and plans: the objective is the weighted sum of the enabled goals
      for every iteration order of the maps; a plan moves exactly the replicas
      whose node changes; improvement is never negative.
    - Integer program: accepted problems are exactly the well-formed ones; an
      answer of the solver backend is a total assignment to candidate nodes that
      respects both capacities.
    - Bindings: the phase machine as an inductive relation that every call
      follows whatever fails; finalizers go only when the member Deployment is
      gone, also when any other writer interrupts the call; a completed reschedule
      leaves exactly one Deployment; the node list of
      the scheduler, its next fit, and that scheduled bindings are never touched.
    - Plans and deployments: a plan ends only when all its moves ended; execution
      writes exactly the intents; a deployment under deletion keeps its finalizer
      while it controls a binding; a replica is sent only where the template fits; the
      reported status counts the bindings of the store by phase; revision labels are
      printed and read back.
    - Rolling migration: whatever fails, nothing but old revisions is deleted, and
      only once the new replica is seen ready; a request gets one revision; a
      migration that completes is acknowledged and triggers nothing any more.
    - Clusters: the phases follow a state machine ([phase_step]) by what the probe of
      the member finds, whatever fails, and nothing else is written; conditions stay
      one of each type, and the free resources of a node are what the pods on it leave.
    - Policies: [Reconcile] refines an abstract specification ([reconciled]: the
      phase, the lease, the timer and the result a policy is to have) and writes
      nothing else ([elsewhere]); validation accepts exactly [valid_spec]; the layout
      has one item for each binding of the selected deployments in any loop order,
      with its index and place, and settles; the lease excludes,
      also when attempts interleave request by request, as long as it has not
      expired, and does not when it has.
    - Evaluations: at most one plan, controlled by the policy and Pending, whose moves
      take stable replicas to candidate nodes; two triggers within a minute make one plan; without a
      backend nothing moves.
    - The system: no binding outlives its deployment, also when requests of calls
      interleave and calls are cut off; every step of a call keeps to what its
      controller may change however late it comes; between whole calls a plan that ended
      is in the phase its moves ask for and stays as it is; a plan reaches no binding but
      those its moves name; from an evaluation to the bindings, every replica of a
      move is sent to a candidate node and no other binding changes.
    - The REST server: every request is answered with a known status, and one
      answered with 400 changed nothing; imports, updates and deletions do what
      their answer says, whatever fails; policies are stored when the CRD describes them
      and read back as they were sent, with its defaults; pages cut a list; the
      key-value API refines a map, with the failed writes that may come late; the only
      request that takes the deployment, or its finalizer, from a binding is the
      creation of a deployment that has bindings.
    - The manager: every change of a binding reaches its deployment; every change
      of a secret reaches its clusters; the flag for the control namespace does not
      reach the evaluations; it starts only when all its parts are set up, and so
      does the server.
    - Diagnostics: the counters and the sample of the latency matrix do not depend
      on the order of the loops; the sample of the inputs does. A logger changes no
      score, and what is logged of the scores is true of them.
    - Metrics: the collectors are registered once; which events are counted, and
      which are not.
    - Some theorems state behaviour that is not what the code's comments intend
      (a timeout that fails nothing, an observed revision that is lost, a deletion
      that waits for ever, a periodic policy that is never evaluated, a threshold
      that stops no plan, a cluster that stays NotReady, a lease two holders
      acquire, a reschedule that is lost or cut short and reported as done, a second
      move that leaves a Deployment behind, an ended plan that is executed again, a
      key no route reaches, moves and plans that are not counted as described): they
      are the proofs behind the findings.

    Theorems about safety quantify over all faults; theorems that a call achieves
    something assume none ([no_faults]). A fault may be any error at any request;
    the one restriction, stated where it is needed, is that NotFound is truthful.

    ** Bounds and fuel

    Loops are structural on the data they range over. The retry loops carry the
    attempt counts of the code (five, ten); the next-fit loop runs once around
    the list, and its theorem says that this is enough for every cursor from which the
    index does not wrap around; every cursor it returns is one. [itoa32] has the fuel of
    its eleven-byte buffer, proved sufficient for every int32 but the smallest.
    [TrimSpace] has the length of its string as fuel. Integers wrap at their width
    ([wrap32], [wrap64]); where a theorem excludes overflow it says so.

    ** Not modelled

    Log lines but those of the optimizer's diagnostics and the access log, events,
    the values and the export of metrics, scheme registration; what the
    constructors of clients, loggers and servers do, which are parameters of
    Startup; deep copies; nil receivers the callers exclude; the locks; the garbage
    collection of owned objects; truncation of stored times to seconds; the texts of
    [%g], [%q] and [%.3f] and of the errors of time.ParseDuration, which are
    parameters ([GoFmt], [PolicyTexts]). What the API server refuses by its own
    validation (metadata, and specs other than those of policies) is one of the
    requests that fail; a request to it that fails has changed nothing. gin, viper, etcd and the JSON and YAML
    decoders are parameters with their documented laws. Generated code, the solver
    placeholder (internal/solver, without behaviour), unused records
    (server/internal/models), the web client and tests are outside the model.

    Concurrency: one worker runs a handler at a time. The calls of the binding, plan
    and deployment controllers, the attempts on the lease and the end of an
    evaluation are taken apart into requests. The calls of the cluster and the policy
    controller and the requests to the server are single steps, but for the deletion of
    a deployment, which is taken apart too: the first two write only the status of their
    own object, besides the lease, the cluster controller with updates that a change in
    between refuses; what others see between the requests of the other calls of the
    server is not looked at. Reads give what is
    stored. The informer cache of the manager may lag: where a call reads an object
    once, the theorems on interrupted calls cover that as a call whose later steps
    come late; a cache that lags differently for the reads of one call is not
    modelled.

    ** Plan

    The development covers the parts of the program named above. What could be added
    is a model of the cache, with a version of its own for every object that is read,
    and the other calls of the server taken apart like its deletion of a deployment. *)

From Stdlib Require Export Ascii.
From stdpp Require Export base tactics option list gmap sets strings pretty sorting.
From Stdlib Require Export ZArith Lia.

#[export] Set Default Goal Selector "!".

(** ** Fallible Go functions

    A Go function returning [(T, error)] is a function returning [result E T]:
    [Ok v] is a return with a nil error, [Err e] a return with error [e]
    (the value next to a non-nil error is never read by the callers). *)

Inductive result (E A : Type) : Type :=
| Ok (a : A)
| Err (e : E).
Arguments Ok {E A} a.
Arguments Err {E A} e.

#[export] Instance result_ret {E} : MRet (result E) := fun A a => Ok a.
#[export] Instance result_bind {E} : MBind (result E) := fun A B f m =>
  match m with Ok a => f a | Err e => Err e end.
#[export] Instance result_fmap {E} : FMap (result E) := fun A B f m =>
  match m with Ok a => Ok (f a) | Err e => Err e end.

Definition is_ok {E A} (r : result E A) : bool :=
  match r with Ok _ => true | Err _ => false end.

(** [if bad { return ..., err }]: leave with [e] when the guard holds. *)
Definition fail_if {E} (b : bool) (e : E) : result E unit :=
  if b then Err e else Ok tt.

(** [v, ok := m[k]; if !ok { return ..., err }]. *)
Definition require {E A} (o : option A) (e : E) : result E A :=
  match o with Some a => Ok a | None => Err e end.

(** A Go [for ... range] loop with an accumulator and early error returns. *)
Fixpoint foldM {E A B} (f : A -> B -> result E A) (a : A) (l : list B) : result E A :=
  match l with
  | [] => Ok a
  | b :: l' => f a b ≫= fun a' => foldM f a' l'
  end.

(** A loop that only checks its elements and stops at the first failure. *)
Fixpoint checkM {E B} (f : B -> result E unit) (l : list B) : result E unit :=
  match l with
  | [] => Ok tt
  | b :: l' => f b ≫= fun _ => checkM f l'
  end.

(** ** Machine integers *)

Definition wrap32 (z : Z) : Z := (z + 2 ^ 31) `mod` 2 ^ 32 - 2 ^ 31.
Definition wrap64 (z : Z) : Z := (z + 2 ^ 63) `mod` 2 ^ 64 - 2 ^ 63.
Definition int32_range (z : Z) : Prop := (- 2 ^ 31 <= z < 2 ^ 31)%Z.
Definition int64_range (z : Z) : Prop := (- 2 ^ 63 <= z < 2 ^ 63)%Z.

(** ** Iteration order of Go maps

    [range] over a Go map visits every entry once, in an order the language
    leaves open and changes from one loop to the next. [go_range t m] is the
    order in which the [t]-th executed loop visits [m]; a theorem that
    quantifies over the class holds for every order. *)

Class MapOrder := {
  go_range : forall {A : Type} `{Countable K}, nat -> gmap K A -> list (K * A);
  go_range_perm : forall {A : Type} `{Countable K} (t : nat) (m : gmap K A),
    go_range t m ≡ₚ map_to_list m
}.

(** The order in which [gmap] lists its entries, and its reverse. *)
#[export] Instance map_order_forward : MapOrder | 100.
Proof.
  refine {| go_range := fun A K _ _ _ m => map_to_list m |}. done.
Defined.

Definition map_order_backward : MapOrder.
Proof.
  refine {| go_range := fun A K _ _ _ m => rev (map_to_list m) |}.
  intros. symmetry. apply Permutation_rev.
Defined.

(** ** [sort.Slice]

    The sorting function of Go's library: it permutes the slice, and leaves it
    sorted for [less] when [less] is a strict weak order on its elements. It is
    not stable: equal elements may end up in any order. *)

Definition strict_weak {A} (less : A -> A -> bool) (l : list A) : Prop :=
  (forall x, x ∈ l -> less x x = false) /\
  (forall x y z, x ∈ l -> y ∈ l -> z ∈ l ->
     less x y = true -> less y z = true -> less x z = true) /\
  (forall x y z, x ∈ l -> y ∈ l -> z ∈ l ->
     less x y = false -> less y z = false -> less x z = false).

Class GoSort := {
  sort_slice : forall {A : Type}, (A -> A -> bool) -> list A -> list A;
  sort_slice_perm : forall {A : Type} (less : A -> A -> bool) (l : list A),
    sort_slice less l ≡ₚ l;
  sort_slice_sorted : forall {A : Type} (less : A -> A -> bool) (l : list A),
    strict_weak less l ->
    StronglySorted (fun x y => less y x = false) (sort_slice less l)
}.

(** An implementation of the class: insertion sort. *)
Fixpoint insert_by {A} (less : A -> A -> bool) (x : A) (l : list A) : list A :=
  match l with
  | [] => [x]
  | y :: l' => if less y x then y :: insert_by less x l' else x :: l
  end.

Fixpoint insertion_sort {A} (less : A -> A -> bool) (l : list A) : list A :=
  match l with
  | [] => []
  | x :: l' => insert_by less x (insertion_sort less l')
  end.

Lemma insert_by_perm {A} (less : A -> A -> bool) x l : insert_by less x l ≡ₚ x :: l.
Proof.
  induction l as [|y l IH]; simpl; [done|].
  destruct (less y x); [|done]. rewrite IH. constructor.
Qed.

Lemma insertion_sort_perm {A} (less : A -> A -> bool) l : insertion_sort less l ≡ₚ l.
Proof. induction l as [|x l IH]; simpl; [done|]. by rewrite insert_by_perm, IH. Qed.

Lemma strict_weak_subseteq {A} (less : A -> A -> bool) l l' :
  l ⊆ l' -> strict_weak less l' -> strict_weak less l.
Proof.
  intros Hsub (H1 & H2 & H3). split_and!; [naive_solver| |].
  - intros x y z Hx Hy Hz. apply H2; by apply Hsub.
  - intros x y z Hx Hy Hz. apply H3; by apply Hsub.
Qed.

Lemma insert_by_sorted {A} (less : A -> A -> bool) x l :
  strict_weak less (x :: l) ->
  StronglySorted (fun x y => less y x = false) l ->
  StronglySorted (fun x y => less y x = false) (insert_by less x l).
Proof.
  intros Hw Hs. induction Hs as [|y l Hs IH Hall]; simpl.
  { by repeat constructor. }
  pose proof Hw as (Hirr & Htr & Hneg). rewrite Forall_forall in Hall.
  destruct (less y x) eqn:Hyx.
  - constructor; [apply IH; refine (strict_weak_subseteq _ _ _ _ Hw); set_solver|].
    rewrite insert_by_perm. constructor; [|by apply Forall_forall].
    destruct (less x y) eqn:Hxy; [|done].
    rewrite <-(Htr x y x), Hirr; [done|set_solver..|done|done].
  - constructor; [constructor; [done|by apply Forall_forall]|].
    constructor; [done|]. apply Forall_forall. intros z Hz.
    apply (Hneg z y x); [set_solver..|by apply Hall|done].
Qed.

Lemma insertion_sort_sorted {A} (less : A -> A -> bool) l :
  strict_weak less l ->
  StronglySorted (fun x y => less y x = false) (insertion_sort less l).
Proof.
  induction l as [|x l IH]; simpl; intros Hw; [constructor|].
  apply insert_by_sorted.
  - refine (strict_weak_subseteq _ _ _ _ Hw). intros y. rewrite insertion_sort_perm. done.
  - apply IH. refine (strict_weak_subseteq _ _ _ _ Hw). set_solver.
Qed.

#[export] Instance go_sort_insertion : GoSort | 100.
Proof.
  refine {| sort_slice := fun A => @insertion_sort A |}.
  - intros. apply insertion_sort_perm.
  - intros. by apply insertion_sort_sorted.
Defined.

(** A slice sorted for a total order is determined by its elements, whatever sorted
    it. *)
Lemma sorted_determined {A} (less : A -> A -> bool) (l l' : list A) :
  (forall x y, less x y = false -> less y x = false -> x = y) ->
  StronglySorted (fun x y => less y x = false) l -> StronglySorted (fun x y => less y x = false) l' ->
  l ≡ₚ l' -> l = l'.
Proof. intros Htotal. apply StronglySorted_unique_strong. intros x y _ _ H1 H2. by apply Htotal. Qed.

(** ** Strings *)

Lemma ltb_le (s t : string) : String.ltb s t = true <-> ~ String.le t s.
Proof.
  unfold String.ltb, String.le, String.leb. rewrite String.compare_antisym.
  destruct (String.compare t s); cbn; naive_solver.
Qed.
Lemma ltb_false_le (s t : string) : String.ltb s t = false <-> String.le t s.
Proof.
  rewrite <- not_true_iff_false, ltb_le. split; [apply dec_stable|]. by intros H Hn.
Qed.

Lemma strict_weak_by_text {A} (f : A -> string) l : strict_weak (fun x y => String.ltb (f x) (f y)) l.
Proof.
  split_and!.
  - intros x _. by apply ltb_false_le.
  - intros x y z _ _ _ H1 H2. rewrite !ltb_le in *. intros Hzx. destruct (String.le_total (f z) (f y)) as [H|H]; [done|].
    apply H1. by etrans.
  - intros x y z _ _ _ H1 H2. rewrite !ltb_false_le in *. by etrans.
Qed.

Definition has_prefix (s pre : string) : bool := String.prefix pre s.

(** [strings.Contains(s, sub)]. *)
Fixpoint str_contains (s sub : string) : bool :=
  String.prefix sub s ||
  match s with
  | EmptyString => false
  | String _ s' => str_contains s' sub
  end.

Definition str_empty (s : string) : bool :=
  match s with EmptyString => true | String _ _ => false end.

(** ** Lemmas on results and loops *)

Create HintDb go.
Create Rewrite HintDb go_rw.

Lemma bind_Ok {E A B} (m : result E A) (f : A -> result E B) b :
  m ≫= f = Ok b <-> exists a, m = Ok a /\ f a = Ok b.
Proof. destruct m; simpl; naive_solver. Qed.

Lemma bind_Err {E A B} (m : result E A) (f : A -> result E B) e :
  m ≫= f = Err e <-> m = Err e \/ exists a, m = Ok a /\ f a = Err e.
Proof. destruct m; simpl; naive_solver. Qed.

Lemma is_ok_Ok {E A} (r : result E A) : is_ok r = true -> exists a, r = Ok a.
Proof. destruct r; [eauto|done]. Qed.

Lemma fail_if_Ok {E} b (e : E) u : fail_if b e = Ok u <-> b = false.
Proof. destruct b, u; simpl; naive_solver. Qed.

Lemma fail_if_Err {E} b (e e' : E) : fail_if b e = Err e' <-> b = true /\ e = e'.
Proof. destruct b; simpl; naive_solver. Qed.

Lemma require_Ok {E A} (o : option A) (e : E) a : require o e = Ok a <-> o = Some a.
Proof. destruct o; simpl; naive_solver. Qed.

Lemma require_Err {E A} (o : option A) (e e' : E) :
  require o e = Err e' <-> o = None /\ e = e'.
Proof. destruct o; simpl; naive_solver. Qed.

#[export] Hint Rewrite @bind_Ok @fail_if_Ok @require_Ok @bind_Err @fail_if_Err @require_Err : go_rw.

(** Turn an equation on a sequence of fallible steps into the facts of each step. *)
Ltac inv_result :=
  repeat match goal with
  | H : _ ≫= _ = Ok _ |- _ => apply bind_Ok in H as (? & ? & ?)
  | H : fail_if _ _ = Ok _ |- _ => apply fail_if_Ok in H
  | H : fail_if _ _ = Err _ |- _ => apply fail_if_Err in H as [? ?]
  | H : require _ _ = Ok _ |- _ => apply require_Ok in H
  | H : require _ _ = Err _ |- _ => apply require_Err in H as [? ?]
  | H : Ok _ = Ok _ |- _ => injection H as H; subst
  | H : Err _ = Err _ |- _ => injection H as H; subst
  | H : Ok _ = Err _ |- _ => discriminate H
  | H : Err _ = Ok _ |- _ => discriminate H
  end.

(** Decide a closed proposition by evaluating its decision procedure. *)
Ltac by_computation := apply (bool_decide_unpack _); vm_compute; exact I.

(** Prove a closed equation by evaluating both sides. *)
Ltac by_eval := vm_compute; reflexivity.

(** Prove a statement on the elements of a concrete list one by one. *)
Ltac by_elements :=
  refine (proj1 (Forall_forall _ _) _); simpl;
  repeat first [apply List.Forall_nil | apply List.Forall_cons].

Lemma foldM_app {E A B} (f : A -> B -> result E A) a l1 l2 :
  foldM f a (l1 ++ l2) = foldM f a l1 ≫= fun a' => foldM f a' l2.
Proof.
  revert a. induction l1 as [|b l1 IH]; intros a; simpl; [done|].
  destruct (f a b); simpl; [apply IH|done].
Qed.

(** Invariant rule for loops that run to the end. *)
Lemma foldM_inv {E A B} (P : list B -> A -> Prop) (f : A -> B -> result E A) a l r :
  P [] a ->
  (forall done b a a', P done a -> b ∈ l -> f a b = Ok a' -> P (done ++ [b]) a') ->
  foldM f a l = Ok r -> P l r.
Proof.
  intros H0 Hstep.
  enough (G : forall done todo a, P done a -> (forall x, x ∈ todo -> x ∈ l) ->
            foldM f a todo = Ok r -> P (done ++ todo) r).
  { intros Hf. apply (G [] l a); [done|done|done]. }
  intros done todo. revert done. induction todo as [|b todo IH]; intros done a0 HP Hin Hf; simpl in Hf.
  - inv_result. by rewrite app_nil_r.
  - inv_result. replace (done ++ b :: todo) with ((done ++ [b]) ++ todo) by by rewrite <-app_assoc.
    eapply IH; [|set_solver|eassumption]. eapply Hstep; [done|set_solver|eassumption].
Qed.

Lemma foldM_pure {E A B} (f : A -> B -> A) a l :
  foldM (E:=E) (fun a b => Ok (f a b)) a l = Ok (foldl f a l).
Proof. revert a. induction l as [|b l IH]; intros a; simpl; [done|]. apply IH. Qed.

(** A loop whose steps succeed or fail whatever the accumulator. *)
Lemma foldM_ok_iff {E A B} (P : B -> Prop) (f : A -> B -> result E A) l a :
  (forall a b, is_ok (f a b) = true <-> P b) ->
  is_ok (foldM f a l) = true <-> forall b, b ∈ l -> P b.
Proof.
  intros Hf. revert a. induction l as [|b l IH]; intros a; simpl; [split; [set_solver|done]|].
  specialize (Hf a b). destruct (f a b) as [a'|e]; simpl in *; [rewrite (IH a')|]; set_solver.
Qed.

Lemma checkM_Ok {E B} (f : B -> result E unit) l u :
  checkM f l = Ok u <-> Forall (fun b => f b = Ok tt) l.
Proof.
  destruct u. induction l as [|b l IH]; simpl.
  - split; [constructor|done].
  - rewrite bind_Ok, Forall_cons, <-IH. split.
    + by intros ([] & -> & ->).
    + intros [-> ->]. eauto.
Qed.

Lemma checkM_Err {E B} (f : B -> result E unit) l e :
  checkM f l = Err e <->
  exists l1 b l2, l = l1 ++ b :: l2 /\ Forall (fun b => f b = Ok tt) l1 /\ f b = Err e.
Proof.
  induction l as [|b l IH]; simpl.
  - split; [done|]. intros ([|??] & ? & ? & ? & _); simplify_list_eq.
  - rewrite bind_Err. split.
    + intros [Hb|([] & Hb & Hl)].
      * exists [], b, l. repeat split; [constructor|done].
      * apply IH in Hl as (l1 & b' & l2 & -> & H1 & H2).
        exists (b :: l1), b', l2. repeat split; [by constructor|done].
    + intros (l1 & b' & l2 & Heq & H1 & H2). destruct l1 as [|x l1]; simplify_list_eq.
      * by left.
      * apply Forall_cons in H1 as [Hx H1]. right. exists tt. split; [done|].
        apply IH. eauto 10.
Qed.

(** Filtering does not look at the order. *)
Lemma filter_perm {A} (p : A -> bool) l l' : l ≡ₚ l' -> List.filter p l ≡ₚ List.filter p l'.
Proof.
  induction 1 as [|x l l' _ IH|x y l|]; cbn; [done| | |by etrans]; repeat case_match; rewrite ?IH; try done.
  constructor.
Qed.

Lemma existsb_perm {A} (f : A -> bool) (l l' : list A) : l ≡ₚ l' -> existsb f l = existsb f l'.
Proof.
  induction 1 as [|x l l' _ IH|x y l|l1 l2 l3 _ IH1 _ IH2]; cbn; [done|by rewrite IH| |by etrans].
  by rewrite !orb_assoc, (orb_comm (f y)).
Qed.
Lemma forallb_perm {A} (f : A -> bool) (l l' : list A) : l ≡ₚ l' -> forallb f l = forallb f l'.
Proof.
  induction 1 as [|x l l' _ IH|x y l|l1 l2 l3 _ IH1 _ IH2]; cbn; [done|by rewrite IH| |by etrans].
  by rewrite !andb_assoc, (andb_comm (f y)).
Qed.

(** The two first and the two last elements of a slice. *)
Lemma slice_ends {A} (s : list A) :
  (2 <= length s)%nat -> exists s0 s1 rest l sm sn,
    s = s0 :: s1 :: rest /\ s = l ++ [sm; sn] /\
    s !! 0%nat = Some s0 /\ s !! 1%nat = Some s1 /\
    s !! (length s - 1)%nat = Some sn /\ s !! (length s - 2)%nat = Some sm.
Proof.
  intros Hlen. destruct s as [|s0 [|s1 rest]] eqn:E; simpl in Hlen; [lia..|]. rewrite <-E in *.
  destruct s as [|sn l _] using rev_ind; [done|].
  destruct l as [|sm l _] using rev_ind; [by destruct rest|].
  exists s0, s1, rest, l, sm, sn. rewrite <-app_assoc in *. split_and!; [done..|by rewrite E|by rewrite E| |].
  - rewrite length_app, lookup_app_r by (simpl; lia). simpl.
    by replace (length l + 2 - 1 - length l)%nat with 1%nat by lia.
  - rewrite length_app, lookup_app_r by (simpl; lia). simpl.
    by replace (length l + 2 - 2 - length l)%nat with 0%nat by lia.
Qed.

Lemma wrap32_id z : int32_range z -> wrap32 z = z.
Proof. unfold int32_range, wrap32. intros. rewrite Z.mod_small; lia. Qed.

Lemma wrap64_id z : int64_range z -> wrap64 z = z.
Proof. unfold int64_range, wrap64. intros. rewrite Z.mod_small; lia. Qed.

Lemma wrap32_range z : int32_range (wrap32 z).
Proof. unfold int32_range, wrap32. pose proof (Z.mod_pos_bound (z + 2 ^ 31) (2 ^ 32)). lia. Qed.

Lemma wrap64_range z : int64_range (wrap64 z).
Proof. unfold int64_range, wrap64. pose proof (Z.mod_pos_bound (z + 2 ^ 63) (2 ^ 64)). lia. Qed.

(** Counting at width 32 wraps once, at the end. *)
Lemma wrap32_succ z : wrap32 (wrap32 z + 1) = wrap32 (z + 1).
Proof.
  unfold wrap32. replace ((z + 2 ^ 31) `mod` 2 ^ 32 - 2 ^ 31 + 1 + 2 ^ 31)%Z with ((z + 2 ^ 31) `mod` 2 ^ 32 + 1)%Z by lia.
  rewrite Zplus_mod_idemp_l. by replace (z + 2 ^ 31 + 1)%Z with (z + 1 + 2 ^ 31)%Z by lia.
Qed.

#[export] Hint Resolve wrap32_range wrap64_range : go.

Section range.
Context `{Countable K} {A : Type} {MAPS : MapOrder}.
Implicit Types (m : gmap K A).

Lemma elem_of_go_range t m k a : (k, a) ∈ go_range t m <-> m !! k = Some a.
Proof. rewrite go_range_perm. apply elem_of_map_to_list. Qed.

Lemma NoDup_go_range t m : NoDup (go_range t m).*1.
Proof. rewrite go_range_perm. apply NoDup_fst_map_to_list. Qed.

Lemma go_range_to_map t m : list_to_map (go_range t m) = m.
Proof.
  rewrite (list_to_map_proper _ _ (NoDup_go_range t m) (go_range_perm t m)).
  apply list_to_map_to_list.
Qed.

(** A loop that updates, for every entry of a map, the same key of another map:
    the result does not depend on the iteration order. *)
Lemma range_update_lookup {B} t m (g : option B -> A -> B) (m0 : gmap K B) k :
  foldl (fun acc e => <[e.1 := g (acc !! e.1) e.2]> acc) m0 (go_range t m) !! k =
    match m !! k with Some a => Some (g (m0 !! k) a) | None => m0 !! k end.
Proof.
  rewrite <-(go_range_to_map t m) at 2.
  generalize (NoDup_go_range t m). generalize (go_range t m). intros l. revert m0.
  induction l as [|[k' a] l IH]; intros m0 Hnd; simpl; [by rewrite lookup_empty|].
  apply NoDup_cons in Hnd as [Hnin Hnd]. rewrite IH by done. simpl in Hnin.
  destruct (decide (k = k')) as [->|Hne].
  - rewrite lookup_insert_eq, (not_elem_of_list_to_map_1 l k') by done.
    by rewrite lookup_insert_eq.
  - by rewrite !lookup_insert_ne by done.
Qed.

End range.
