(* ===== verification/Float64.v ===== *)
(** * Go's float64

    IEEE 754 binary64 with rounding to nearest even, as the Standard Library's
    executable specification of floating-point numbers defines it
    (SpecFloat, precision 53, largest exponent 1024). A Go expression on
    float64 values is the corresponding composition of [fadd], [fsub], [fmul],
    [fdiv]; its comparisons are [flt], [fle], [feq]. NaN compares false with
    everything, as in Go. *)

From S2P Require Import Prelude.
From Stdlib Require Export SpecFloat.

Notation f64 := spec_float.

Definition fprec : Z := 53.
Definition femax : Z := 1024.

Definition fadd : f64 -> f64 -> f64 := SFadd fprec femax.
Definition fsub : f64 -> f64 -> f64 := SFsub fprec femax.
Definition fmul : f64 -> f64 -> f64 := SFmul fprec femax.
Definition fdiv : f64 -> f64 -> f64 := SFdiv fprec femax.

Definition flt : f64 -> f64 -> bool := SFltb.
Definition fle : f64 -> f64 -> bool := SFleb.
Definition feq : f64 -> f64 -> bool := SFeqb.

(** [float64(z)] for an integer [z]. *)
Definition f64_of_Z (z : Z) : f64 := binary_normalize fprec femax z 0 false.

Definition fzero : f64 := S754_zero false.
Definition f100 : f64 := f64_of_Z 100.

(** [math.IsNaN], [math.IsInf(v, 0)], [math.Abs]. *)
Definition is_nan (x : f64) : bool :=
  match x with S754_nan => true | _ => false end.
Definition is_inf (x : f64) : bool :=
  match x with S754_infinity _ => true | _ => false end.
Definition fabs (x : f64) : f64 := SFabs x.

(** The values a float64 variable can hold: canonical mantissa and exponent. *)
Definition fvalid (x : f64) : Prop := valid_binary fprec femax x = true.

#[export] Instance f64_eq_dec : EqDecision f64.
Proof. solve_decision. Defined.

(** [x] is not below zero: a non-negative number, a zero of either sign or NaN. *)
Definition never_neg (x : f64) : Prop := flt x fzero = false.

(** [x] is strictly positive: a positive number or +Inf. *)
Definition fpos (x : f64) : bool :=
  match x with S754_infinity s | S754_finite s _ _ => negb s | _ => false end.

(** A value that is a number, infinities included. *)
Definition fok (x : f64) : Prop := fvalid x /\ is_nan x = false.

(** A finite number. *)
Definition fnum (x : f64) : Prop := fvalid x /\ is_nan x = false /\ is_inf x = false.

(** The running minimum and maximum of the scoring loops:
    [if !init { min, max = v, v; init = true } else { if v < min ...; if v > max ... }]. *)
Definition minmax_step (acc : option (f64 * f64)) (v : f64) : option (f64 * f64) :=
  match acc with
  | None => Some (v, v)
  | Some (mn, mx) =>
      Some (if flt v mn then v else mn, if flt mx v then v else mx)
  end.

Definition minmax (l : list f64) : option (f64 * f64) := foldl minmax_step None l.

(** [var min, max = 0.0, 0.0] when the loop saw no value. *)
Definition minmax_or_zero (acc : option (f64 * f64)) : f64 * f64 :=
  default (fzero, fzero) acc.

(** [for _, x := range l { sum += x }]. *)
Definition fsum (l : list f64) : f64 := foldl fadd fzero l.

(** ** Order *)

Lemma fcompare_swap x y :
  SFcompare y x = match SFcompare x y with Some c => Some (CompOpp c) | None => None end.
Proof.
  assert (Hp : forall p q, Pos.compare_cont Eq q p = CompOpp (Pos.compare_cont Eq p q)).
  { intros p q. apply (Pos.compare_antisym p q). }
  destruct x as [[]|[]| |[] m e], y as [[]|[]| |[] m' e']; try reflexivity; simpl;
    rewrite (Z.compare_antisym e e'); destruct (e ?= e')%Z; simpl; try reflexivity;
    rewrite (Hp m m'); destruct (Pos.compare_cont Eq m m'); reflexivity.
Qed.

Lemma flt_irrefl x : flt x x = false.
Proof.
  unfold flt, SFltb. pose proof (fcompare_swap x x) as H.
  destruct (SFcompare x x) as [[]|]; simpl in H; congruence.
Qed.

(** On numbers, [SFcompare] is the lexicographic comparison of this key. *)
Definition fkey (x : f64) : Z * (Z * Z) :=
  match x with
  | S754_nan => (2, (0, 0))
  | S754_infinity s => (if s then -2 else 2, (0, 0))
  | S754_zero _ => (0, (0, 0))
  | S754_finite s m e => if s then (-1, (- e, Z.neg m)) else (1, (e, Z.pos m))
  end%Z.

Definition key_cmp (a b : Z * (Z * Z)) : comparison :=
  match (a.1 ?= b.1)%Z with
  | Eq => match (a.2.1 ?= b.2.1)%Z with Eq => (a.2.2 ?= b.2.2)%Z | c => c end
  | c => c
  end.

Lemma fcompare_key x y :
  is_nan x = false -> is_nan y = false -> SFcompare x y = Some (key_cmp (fkey x) (fkey y)).
Proof.
  destruct x as [[]|[]| |[] m e], y as [[]|[]| |[] m' e']; try done; intros _ _; cbn.
  f_equal. rewrite Z.compare_opp, (Z.compare_antisym e e').
  by destruct (e ?= e')%Z.
Qed.

Lemma key_cmp_trans c a b d :
  key_cmp a b = c -> key_cmp b d = c -> key_cmp a d = c.
Proof.
  unfold key_cmp. destruct a as [a1 [a2 a3]], b as [b1 [b2 b3]], d as [d1 [d2 d3]]; simpl.
  destruct (Z.compare_spec a1 b1), (Z.compare_spec b1 d1), (Z.compare_spec a1 d1);
    try lia; try congruence; subst;
  destruct (Z.compare_spec a2 b2), (Z.compare_spec b2 d2), (Z.compare_spec a2 d2);
    try lia; try congruence; subst;
  destruct (Z.compare_spec a3 b3), (Z.compare_spec b3 d3), (Z.compare_spec a3 d3);
    subst; try lia; try congruence.
Qed.

Lemma key_cmp_eq a b : key_cmp a b = Eq -> a = b.
Proof.
  unfold key_cmp. destruct a as [a1 [a2 a3]], b as [b1 [b2 b3]]; simpl.
  destruct (Z.compare_spec a1 b1); [|done..].
  destruct (Z.compare_spec a2 b2); [|done..].
  destruct (Z.compare_spec a3 b3); [|done..]. by subst.
Qed.

Lemma key_cmp_swap a b : key_cmp b a = CompOpp (key_cmp a b).
Proof.
  unfold key_cmp. destruct a as [a1 [a2 a3]], b as [b1 [b2 b3]]; simpl.
  rewrite (Z.compare_antisym a1 b1), (Z.compare_antisym a2 b2), (Z.compare_antisym a3 b3).
  by destruct (a1 ?= b1)%Z, (a2 ?= b2)%Z.
Qed.

Lemma flt_iff x y :
  flt x y = true <->
  is_nan x = false /\ is_nan y = false /\ key_cmp (fkey x) (fkey y) = Lt.
Proof.
  unfold flt, SFltb. destruct (is_nan x) eqn:Hx.
  { destruct x; naive_solver. }
  destruct (is_nan y) eqn:Hy.
  { destruct x as [| | |[]], y; naive_solver. }
  rewrite fcompare_key by done. destruct (key_cmp _ _); naive_solver.
Qed.

Lemma fle_iff x y :
  fle x y = true <->
  is_nan x = false /\ is_nan y = false /\ key_cmp (fkey x) (fkey y) <> Gt.
Proof.
  unfold fle, SFleb. destruct (is_nan x) eqn:Hx.
  { destruct x; naive_solver. }
  destruct (is_nan y) eqn:Hy.
  { destruct x as [| | |[]], y; naive_solver. }
  rewrite fcompare_key by done. destruct (key_cmp _ _); naive_solver.
Qed.

Lemma flt_trans x y z : flt x y = true -> flt y z = true -> flt x z = true.
Proof.
  rewrite !flt_iff. intros (? & ? & ?) (? & ? & ?). eauto using key_cmp_trans.
Qed.

Lemma fle_refl x : is_nan x = false -> fle x x = true.
Proof.
  intros. apply fle_iff. split_and!; [done..|].
  pose proof (key_cmp_swap (fkey x) (fkey x)). by destruct (key_cmp _ _).
Qed.

Lemma fle_trans x y z : fle x y = true -> fle y z = true -> fle x z = true.
Proof.
  rewrite !fle_iff. intros (? & ? & H1) (? & ? & H2). split_and!; [done..|].
  destruct (key_cmp (fkey x) (fkey y)) eqn:E1; [| |done].
  { apply key_cmp_eq in E1 as ->. done. }
  destruct (key_cmp (fkey y) (fkey z)) eqn:E2; [| |done].
  { apply key_cmp_eq in E2 as <-. by rewrite E1. }
  by rewrite (key_cmp_trans _ _ _ _ E1 E2).
Qed.

Lemma flt_fle x y : flt x y = true -> fle x y = true.
Proof. rewrite flt_iff, fle_iff. intros (? & ? & ->). done. Qed.

(** On numbers the order is total. *)
Lemma flt_false_fle x y :
  is_nan x = false -> is_nan y = false -> flt x y = false -> fle y x = true.
Proof.
  intros Hx Hy Hlt. apply fle_iff. split_and!; [done..|].
  rewrite (key_cmp_swap (fkey x) (fkey y)).
  destruct (key_cmp (fkey x) (fkey y)) eqn:E; try done.
  by rewrite (proj2 (flt_iff x y)) in Hlt.
Qed.

Lemma fle_false_flt x y :
  is_nan x = false -> is_nan y = false -> fle x y = false -> flt y x = true.
Proof.
  intros Hx Hy Hle. apply flt_iff. split_and!; [done..|].
  rewrite (key_cmp_swap (fkey x) (fkey y)).
  destruct (key_cmp (fkey x) (fkey y)) eqn:E; try done;
    by rewrite (proj2 (fle_iff x y)) in Hle by (rewrite E; done).
Qed.

Lemma fle_flt_false x y : fle x y = true -> flt y x = false.
Proof.
  intros Hle. destruct (flt y x) eqn:E; [|done]. exfalso.
  apply fle_iff in Hle as (_ & _ & Hle). apply flt_iff in E as (_ & _ & E).
  rewrite (key_cmp_swap (fkey y) (fkey x)), E in Hle. done.
Qed.

Lemma fle_not_nan x y : fle x y = true -> is_nan x = false /\ is_nan y = false.
Proof. rewrite fle_iff. naive_solver. Qed.

#[export] Hint Resolve flt_irrefl fle_refl flt_fle flt_false_fle fle_flt_false : go.

(** The loops' running minimum and maximum bound every value seen, and are
    values of the list. *)
Lemma minmax_spec l mn mx :
  Forall (fun v => is_nan v = false) l ->
  minmax l = Some (mn, mx) ->
  mn ∈ l /\ mx ∈ l /\ Forall (fun v => fle mn v = true /\ fle v mx = true) l.
Proof.
  revert mn mx. unfold minmax. induction l as [|v l IH] using rev_ind; [done|].
  intros mn mx Hn. apply Forall_app in Hn as [Hn Hv]. rewrite Forall_singleton in Hv.
  rewrite foldl_app. simpl. destruct (foldl minmax_step None l) as [[mn0 mx0]|] eqn:E.
  2:{ destruct l as [|w l _] using rev_ind.
      { simpl. intros [= <- <-]. split_and!; [set_solver..|]. simpl. rewrite Forall_singleton. auto with go. }
      exfalso. rewrite foldl_app in E. simpl in E.
      by destruct (foldl minmax_step None l) as [[]|]. }
  destruct (IH mn0 mx0 Hn eq_refl) as (Hmn & Hmx & Hall). simpl. intros [= <- <-].
  assert (Nmn : is_nan mn0 = false) by (rewrite Forall_forall in Hn; eauto).
  assert (Nmx : is_nan mx0 = false) by (rewrite Forall_forall in Hn; eauto).
  assert (L1 : fle (if flt v mn0 then v else mn0) mn0 = true) by (destruct (flt v mn0) eqn:?; eauto with go).
  assert (L2 : fle mx0 (if flt mx0 v then v else mx0) = true) by (destruct (flt mx0 v) eqn:?; eauto with go).
  split_and!.
  - destruct (flt v mn0); set_solver.
  - destruct (flt mx0 v); set_solver.
  - apply Forall_app. split.
    + eapply Forall_impl; [exact Hall|]. simpl. intros w [? ?]. eauto using fle_trans.
    + rewrite Forall_singleton. split.
      * destruct (flt v mn0) eqn:?; eauto with go.
      * destruct (flt mx0 v) eqn:?; eauto with go.
Qed.

Lemma minmax_nonempty l : l <> [] -> exists mn mx, minmax l = Some (mn, mx).
Proof.
  unfold minmax. destruct l as [|v l _] using rev_ind; [done|]. intros _.
  rewrite foldl_app. simpl. destruct (foldl minmax_step None l) as [[]|]; simpl; eauto.
Qed.

(** ** Signs *)

Lemma never_neg_iff x :
  never_neg x <-> is_nan x = true \/ fle fzero x = true.
Proof.
  unfold never_neg. destruct (is_nan x) eqn:Hx.
  - split; [by left|]. intros _. by destruct x.
  - split; [|intros [?|?]; [done|by apply fle_flt_false]].
    intros H. right. by apply flt_false_fle.
Qed.

(** Rounding keeps the sign: a non-negative magnitude never rounds below zero. *)
Lemma binary_round_aux_never_neg m e l : never_neg (binary_round_aux fprec femax false m e l).
Proof.
  unfold binary_round_aux, never_neg.
  destruct (shr_fexp _ _ m e l) as [mrs' e'].
  destruct (shr_fexp _ _ _ e' loc_Exact) as [mrs'' e''].
  destruct (shr_m mrs''); [done| |done].
  by destruct (e'' <=? femax - fprec)%Z.
Qed.

Lemma binary_normalize_never_neg z e : (0 <= z)%Z -> never_neg (binary_normalize fprec femax z e false).
Proof.
  destruct z as [|p|p]; [done| |lia]. intros _. simpl. unfold binary_round.
  destruct (shl_align _ _ _). apply binary_round_aux_never_neg.
Qed.

Lemma f64_of_Z_never_neg z : (0 <= z)%Z -> never_neg (f64_of_Z z).
Proof. apply binary_normalize_never_neg. Qed.

Lemma never_neg_cases x :
  never_neg x ->
  x = S754_nan \/ x = S754_infinity false \/ (exists s, x = S754_zero s) \/
  (exists m e, x = S754_finite false m e).
Proof. destruct x as [[]|[]| |[]]; unfold never_neg; cbn; naive_solver. Qed.

Ltac never_neg_cases H :=
  let s := fresh "s" in let m := fresh "m" in let e := fresh "e" in
  apply never_neg_cases in H as [-> | [-> | [[s ->] | (m & e & ->)]]].

Lemma fadd_never_neg x y : never_neg x -> never_neg y -> never_neg (fadd x y).
Proof.
  intros Hx Hy. never_neg_cases Hx; never_neg_cases Hy; try done;
    try by repeat match goal with s : bool |- _ => destruct s end.
  apply binary_normalize_never_neg. simpl. lia.
Qed.

Lemma fmul_never_neg x y : never_neg x -> never_neg y -> never_neg (fmul x y).
Proof.
  intros Hx Hy. never_neg_cases Hx; never_neg_cases Hy; try done.
  apply binary_round_aux_never_neg.
Qed.

Lemma fdiv_never_neg x y :
  never_neg x -> never_neg y -> feq y fzero = false -> never_neg (fdiv x y).
Proof.
  intros Hx Hy Hz. never_neg_cases Hx; never_neg_cases Hy; try done.
  unfold fdiv, SFdiv. destruct (SFdiv_core_binary _ _ _ _ _ _) as [[mz ez] lz].
  apply binary_round_aux_never_neg.
Qed.

#[export] Hint Resolve fadd_never_neg fmul_never_neg f64_of_Z_never_neg : go.

Lemma fsum_never_neg l : Forall never_neg l -> never_neg (fsum l).
Proof.
  intros Hl. unfold fsum. assert (H0 : never_neg fzero) by done. revert H0.
  generalize fzero. induction Hl as [|x l Hx Hl IH]; intros a Ha; simpl; eauto with go.
Qed.

(** [x - x] is zero for every finite [x]. *)
Lemma fsub_diag x : is_nan x = false -> is_inf x = false -> fsub x x = fzero.
Proof.
  destruct x as [[]|[]| |s m e]; try done. intros _ _.
  unfold fsub, SFsub. rewrite Z.sub_diag. done.
Qed.

(** ** Values of canonical floats *)

Lemma pos_iter_xO m d : Z.pos (Pos.iter xO m d) = (Z.pos m * 2 ^ Z.pos d)%Z.
Proof.
  revert m. induction d as [|d IH] using Pos.peano_ind; intros m.
  - simpl. lia.
  - rewrite Pos.iter_succ, Pos2Z.inj_succ, Z.pow_succ_r by lia.
    rewrite (Pos2Z.inj_xO (Pos.iter xO m d)), IH. lia.
Qed.

Lemma shl_align_value m e ez :
  (ez <= e)%Z -> Z.pos (shl_align m e ez).1 = (Z.pos m * 2 ^ (e - ez))%Z.
Proof.
  intros H. unfold shl_align. destruct (ez - e)%Z eqn:E; simpl.
  - replace (e - ez)%Z with 0%Z by lia. lia.
  - lia.
  - rewrite pos_iter_xO. f_equal. f_equal. lia.
Qed.

Lemma digits2_pos_log2 m : Z.pos (digits2_pos m) = (Z.log2 (Z.pos m) + 1)%Z.
Proof.
  induction m as [m IH|m IH|]; simpl digits2_pos; [| |done].
  - rewrite Pos2Z.inj_succ, IH, (Pos2Z.inj_xI m), Z.log2_succ_double by lia. lia.
  - rewrite Pos2Z.inj_succ, IH, (Pos2Z.inj_xO m), Z.log2_double by lia. lia.
Qed.

Lemma digits2_pos_bounds m :
  (2 ^ (Z.pos (digits2_pos m) - 1) <= Z.pos m < 2 ^ Z.pos (digits2_pos m))%Z.
Proof.
  rewrite digits2_pos_log2, Z.add_simpl_r.
  pose proof (Z.log2_spec (Z.pos m) ltac:(lia)). rewrite <-Z.add_1_r in H. lia.
Qed.

Lemma fexp_unfold e : fexp fprec femax e = Z.max (e - 53) (-1074).
Proof. reflexivity. Qed.

(** A canonical mantissa has at most 53 digits, and exactly 53 above the
    smallest exponent. *)
Lemma fvalid_finite s m e :
  fvalid (S754_finite s m e) ->
  (-1074 <= e <= 971 /\ Z.pos m < 2 ^ 53 /\ (-1074 < e -> 2 ^ 52 <= Z.pos m))%Z.
Proof.
  unfold fvalid, valid_binary, bounded, canonical_mantissa.
  rewrite andb_true_iff, Z.eqb_eq, Z.leb_le, fexp_unfold. unfold femax, fprec.
  pose proof (digits2_pos_bounds m) as [Hl Hu]. intros [He Hm]. split_and!; [lia|lia| |].
  - eapply Z.lt_le_trans; [exact Hu|]. apply Z.pow_le_mono_r; lia.
  - intros Hgt. replace (Z.pos (digits2_pos m) - 1)%Z with 52%Z in Hl by lia. lia.
Qed.

(** The integer [x / 2^ez], for a common exponent [ez] below those of [x]. *)
Definition fval (x : f64) (ez : Z) : Z :=
  match x with
  | S754_finite s m e => cond_Zopp s (Z.pos m * 2 ^ (e - ez))
  | _ => 0
  end.

Lemma scaled_lt m e m' e' ez :
  (Z.pos m < 2 ^ 53 -> (-1074 < e' -> 2 ^ 52 <= Z.pos m') -> -1074 <= e -> ez <= e -> e < e' ->
  Z.pos m * 2 ^ (e - ez) < Z.pos m' * 2 ^ (e' - ez))%Z.
Proof.
  intros Hm Hm' He Hez Hlt.
  replace (e' - ez)%Z with ((e - ez) + 1 + (e' - e - 1))%Z by lia.
  rewrite !Z.pow_add_r by lia.
  pose proof (Z.pow_pos_nonneg 2 (e - ez) ltac:(lia) ltac:(lia)).
  pose proof (Z.pow_pos_nonneg 2 (e' - e - 1) ltac:(lia) ltac:(lia)).
  assert (H1 : (Z.pos m < Z.pos m' * 2)%Z) by (specialize (Hm' ltac:(lia)); lia).
  pose proof (Pos2Z.is_pos m') as H2. revert H H0 H1 H2. change (2 ^ 1)%Z with 2%Z.
  generalize (Z.pos m) (Z.pos m') (2 ^ (e - ez))%Z (2 ^ (e' - e - 1))%Z.
  intros a b c d Hc Hd Hab Hb. assert (a * c < b * 2 * c)%Z by nia.
  assert (0 < b * 2 * c)%Z by nia. nia.
Qed.

(** For canonical floats the lexicographic comparison is the numerical one. *)
Definition below_exp (ez : Z) (x : f64) : Prop :=
  match x with S754_finite _ _ e => (ez <= e)%Z | _ => True end.

Lemma flt_fval x y ez :
  fvalid x -> fvalid y -> is_inf x = false -> is_inf y = false ->
  below_exp ez x -> below_exp ez y ->
  flt x y = true -> (fval x ez < fval y ez)%Z.
Proof.
  intros Vx Vy Ix Iy Ex Ey Hlt.
  assert (P : forall m e, (ez <= e)%Z -> (0 < Z.pos m * 2 ^ (e - ez))%Z).
  { intros m e Hle. pose proof (Z.pow_pos_nonneg 2 (e - ez) ltac:(lia) ltac:(lia)). lia. }
  destruct x as [sx|sx| |sx m e], y as [sy|sy| |sy m' e']; try done; simpl in *.
  - pose proof (P m' e' Ey). destruct sy; [by vm_compute in Hlt|simpl; lia].
  - pose proof (P m e Ex). destruct sx; [simpl; lia|by vm_compute in Hlt].
  - pose proof (P m e Ex) as P1. pose proof (P m' e' Ey) as P2.
    apply fvalid_finite in Vx as (Vx1 & Vx2 & Vx3).
    apply fvalid_finite in Vy as (Vy1 & Vy2 & Vy3).
    apply flt_iff in Hlt as (_ & _ & Hlt). unfold key_cmp in Hlt.
    destruct sx, sy; simpl in *; try lia; try done.
    + destruct (Z.compare_spec (- e) (- e')); [| |done].
      * assert (e = e') as -> by lia. destruct (Pos.compare_spec m m'); [done..|nia].
      * pose proof (scaled_lt m' e' m e ez). lia.
    + destruct (Z.compare_spec e e'); [| |done].
      * subst. destruct (Pos.compare_spec m m'); [done|nia|done].
      * pose proof (scaled_lt m e m' e' ez). lia.
Qed.

Lemma fle_fval x y ez :
  fvalid x -> fvalid y -> is_inf x = false -> is_inf y = false ->
  below_exp ez x -> below_exp ez y ->
  fle x y = true -> (fval x ez <= fval y ez)%Z.
Proof.
  intros Vx Vy Ix Iy Ex Ey Hle. destruct (flt x y) eqn:Hlt.
  { apply Z.lt_le_incl. by apply flt_fval. }
  assert (Hk : fkey x = fkey y).
  { apply fle_iff in Hle as (Nx & Ny & Hle). apply key_cmp_eq.
    destruct (key_cmp (fkey x) (fkey y)) eqn:E; [done| |done].
    by rewrite (proj2 (flt_iff x y)) in Hlt. }
  destruct x as [sx|sx| |[] m e], y as [sy|sy| |[] m' e']; try done; simpl in *;
    simplify_eq; try lia. by replace e' with e by lia.
Qed.

(** Subtracting the smaller of two numbers never goes below zero. *)
Lemma fsub_never_neg x y :
  fvalid x -> fvalid y -> fle y x = true -> never_neg (fsub x y).
Proof.
  intros Vx Vy Hle.
  destruct (is_inf x) eqn:Ix.
  { destruct x as [|[]| |]; try done; destruct y as [[]|[]| |[]]; by vm_compute in Hle |- *. }
  destruct (is_inf y) eqn:Iy.
  { destruct y as [|[]| |]; try done; destruct x as [[]|[]| |[]]; by vm_compute in Hle |- *. }
  destruct x as [sx|sx| |sx m e], y as [sy|sy| |sy m' e']; try done; try (by destruct sx, sy);
    try (by destruct sx); try (by destruct sy).
  unfold fsub, SFsub. apply binary_normalize_never_neg.
  rewrite !shl_align_value by lia. apply Z.le_0_sub.
  apply (fle_fval _ _ (Z.min e e') Vy Vx); simpl; [done|done|lia|lia|done].
Qed.

(** ** Gradual underflow: distinct floats have a non-zero difference *)

Lemma shr_1_m mrs : (0 <= shr_m mrs)%Z -> shr_m (shr_1 mrs) = (shr_m mrs / 2)%Z.
Proof.
  destruct mrs as [m r s]. simpl. intros Hm.
  destruct m as [|[p|p|]|]; simpl; [done| | |done|lia].
  - apply (Z.div_unique _ _ _ 1); lia.
  - apply (Z.div_unique _ _ _ 0); lia.
Qed.

Lemma iter_shr_1_m p mrs :
  (0 <= shr_m mrs)%Z -> shr_m (iter_pos shr_1 p mrs) = (shr_m mrs / 2 ^ Z.pos p)%Z.
Proof.
  assert (Hpow : forall q, (0 < 2 ^ Z.pos q)%Z) by (intros; apply Z.pow_pos_nonneg; lia).
  revert mrs. induction p as [p IH|p IH|]; intros mrs Hm; simpl iter_pos.
  - assert (H1 : (0 <= shr_m (shr_1 mrs))%Z) by (rewrite shr_1_m by done; apply Z.div_pos; lia).
    assert (H2 : (0 <= shr_m (iter_pos shr_1 p (shr_1 mrs)))%Z)
      by (rewrite IH by done; apply Z.div_pos; [lia|apply Hpow]).
    rewrite !IH, shr_1_m by done. rewrite !Z.div_div by (specialize (Hpow p); lia).
    replace (Z.pos p~1) with (1 + Z.pos p + Z.pos p)%Z by lia.
    rewrite !Z.pow_add_r, Z.pow_1_r by lia. f_equal. lia.
  - assert (H1 : (0 <= shr_m (iter_pos shr_1 p mrs))%Z)
      by (rewrite IH by done; apply Z.div_pos; [lia|apply Hpow]).
    rewrite !IH by done. rewrite Z.div_div by (specialize (Hpow p); lia).
    replace (Z.pos p~0) with (Z.pos p + Z.pos p)%Z by lia.
    by rewrite Z.pow_add_r by lia.
  - rewrite shr_1_m by done. done.
Qed.

Lemma shr_fexp_pos p e l :
  (-1074 <= e)%Z ->
  (0 < shr_m (shr_fexp fprec femax (Z.pos p) e l).1 /\
   -1074 <= (shr_fexp fprec femax (Z.pos p) e l).2)%Z.
Proof.
  intros He. unfold shr_fexp, shr. rewrite fexp_unfold. simpl Zdigits2.
  assert (Hr : shr_m (shr_record_of_loc (Z.pos p) l) = Z.pos p) by (by destruct l as [|[]]).
  destruct (Z.max _ _ - e)%Z eqn:En; simpl; rewrite ?Hr; [lia| |lia].
  rewrite iter_shr_1_m, Hr by (rewrite Hr; lia). split; [|lia].
  apply Z.div_str_pos. split; [apply Z.pow_pos_nonneg; lia|].
  pose proof (digits2_pos_bounds p) as [Hl _]. etransitivity; [|exact Hl].
  apply Z.pow_le_mono_r; lia.
Qed.

Lemma binary_round_aux_pos p e :
  (-1074 <= e)%Z -> fpos (binary_round_aux fprec femax false (Z.pos p) e loc_Exact) = true.
Proof.
  intros He. unfold binary_round_aux.
  pose proof (shr_fexp_pos p e loc_Exact He) as [H1 H2].
  destruct (shr_fexp fprec femax (Z.pos p) e loc_Exact) as [mrs' e']. simpl in *.
  assert (Hr : (0 < round_nearest_even (shr_m mrs') (loc_of_shr_record mrs'))%Z).
  { unfold round_nearest_even. destruct (loc_of_shr_record mrs') as [|[]]; try lia.
    destruct (Z.even (shr_m mrs')); lia. }
  destruct (round_nearest_even _ _) as [|q|q]; [lia| |lia].
  pose proof (shr_fexp_pos q e' loc_Exact H2) as [H3 _].
  destruct (shr_fexp fprec femax (Z.pos q) e' loc_Exact) as [mrs'' e'']. simpl in *.
  destruct (shr_m mrs''); [lia| |lia]. by destruct (e'' <=? femax - fprec)%Z.
Qed.

Lemma binary_normalize_pos z e :
  (0 < z)%Z -> (-1074 <= e)%Z -> fpos (binary_normalize fprec femax z e false) = true.
Proof.
  intros Hz He. destruct z as [|p|p]; [lia| |lia]. simpl. unfold binary_round.
  destruct (shl_align p e _) as [mz ez] eqn:E. apply binary_round_aux_pos.
  unfold shl_align in E. rewrite fexp_unfold in E.
  destruct (Z.max _ _ - e)%Z eqn:En; simplify_eq; lia.
Qed.

Lemma fsub_pos x y :
  fvalid x -> fvalid y -> flt y x = true -> fpos (fsub x y) = true.
Proof.
  intros Vx Vy Hlt.
  destruct (is_inf x) eqn:Ix.
  { destruct x as [|[]| |]; try done; destruct y as [[]|[]| |[]]; by vm_compute in Hlt |- *. }
  destruct (is_inf y) eqn:Iy.
  { destruct y as [|[]| |]; try done; destruct x as [[]|[]| |[]]; by vm_compute in Hlt |- *. }
  destruct x as [sx|sx| |sx m e], y as [sy|sy| |sy m' e']; try done; try (by destruct sx, sy);
    try (by destruct sx); try (by destruct sy).
  assert (Hlt' : (fval (S754_finite sy m' e') (Z.min e e') < fval (S754_finite sx m e) (Z.min e e'))%Z).
  { apply flt_fval; simpl; [done..|lia|lia|done]. }
  apply fvalid_finite in Vx as (Vx1 & _). apply fvalid_finite in Vy as (Vy1 & _).
  unfold fsub, SFsub. apply binary_normalize_pos; [|lia].
  rewrite !shl_align_value by lia. simpl in Hlt'. lia.
Qed.

Lemma fpos_iff x : fpos x = true <-> flt fzero x = true.
Proof. by destruct x as [[]|[]| |[]]. Qed.

(** Dividing a non-negative value by a positive one. *)
Lemma fdiv_pos_never_neg x y : never_neg x -> fpos y = true -> never_neg (fdiv x y).
Proof.
  intros Hx Hy. apply fdiv_never_neg; [done| |].
  - by destruct y as [[]|[]| |[]].
  - by destruct y as [[]|[]| |[]].
Qed.

(** Values equal for Go's [==] are identical, or zeros of different signs. *)
Lemma feq_iff x y :
  feq x y = true <->
  (is_nan x = false /\ x = y) \/ (exists s s', x = S754_zero s /\ y = S754_zero s').
Proof.
  unfold feq, SFeqb. destruct (is_nan x) eqn:Nx.
  { destruct x as [| | |]; try done. simpl. naive_solver. }
  destruct (is_nan y) eqn:Ny.
  { destruct y as [| | |]; try done. destruct x as [| | |[]]; naive_solver. }
  rewrite fcompare_key by done. split.
  - destruct (key_cmp _ _) eqn:E; try done. intros _. apply key_cmp_eq in E.
    destruct x as [s|[]| |[]], y as [s'|[]| |[]]; try done; simpl in E; simplify_eq;
      try (by left); try (by right; eauto).
    left. split; [done|]. f_equal. lia.
  - intros [[_ ->]|(s & s' & -> & ->)]; [|done].
    pose proof (key_cmp_swap (fkey y) (fkey y)). by destruct (key_cmp _ _).
Qed.

Lemma fle_antisym x y : fle x y = true -> fle y x = true -> feq x y = true.
Proof.
  rewrite !fle_iff. intros (Nx & Ny & H1) (_ & _ & H2).
  unfold feq, SFeqb. rewrite fcompare_key by done.
  rewrite (key_cmp_swap (fkey x) (fkey y)) in H2. by destruct (key_cmp _ _).
Qed.

(** ** Rounding gives canonical floats *)

Lemma Zdigits2_log2 m : (0 < m)%Z -> Zdigits2 m = (Z.log2 m + 1)%Z.
Proof. destruct m as [|p|p]; [lia| |lia]. intros _. apply digits2_pos_log2. Qed.

Lemma shr_m_nonneg_iter m l p :
  (0 <= m)%Z -> shr_m (iter_pos shr_1 p (shr_record_of_loc m l)) = (m / 2 ^ Z.pos p)%Z.
Proof.
  intros Hm. assert (Hr : shr_m (shr_record_of_loc m l) = m) by (by destruct l as [|[]]).
  rewrite iter_shr_1_m, Hr by (by rewrite Hr). done.
Qed.

(** One right shift to the exponent of the format: the exponent reached, and a
    mantissa that is zero or fits it. *)
Lemma shr_fexp_canonical m e l :
  (0 < m)%Z -> (e <= fexp fprec femax (Zdigits2 m + e))%Z ->
  let r := shr_fexp fprec femax m e l in
  (0 <= shr_m r.1)%Z /\ r.2 = fexp fprec femax (Zdigits2 m + e) /\
  (shr_m r.1 = 0 /\ r.2 = -1074 \/
   0 < shr_m r.1 /\ fexp fprec femax (Zdigits2 (shr_m r.1) + r.2) = r.2)%Z.
Proof.
  intros Hm He. cbv zeta. rewrite (Zdigits2_log2 m) in * by done.
  unfold shr_fexp, shr. rewrite (Zdigits2_log2 m) by done. rewrite !fexp_unfold in *.
  assert (Hr : shr_m (shr_record_of_loc m l) = m) by (by destruct l as [|[]]).
  destruct (Z.max _ _ - e)%Z as [|p|p] eqn:En; cbn [fst snd]; [|rewrite shr_m_nonneg_iter by lia|lia].
  - rewrite Hr. split_and!; [lia|lia|]. right. split; [lia|]. rewrite (Zdigits2_log2 m) by done. lia.
  - assert (0 < 2 ^ Z.pos p)%Z by (apply Z.pow_pos_nonneg; lia).
    split_and!; [apply Z.div_pos; lia|lia|].
    destruct (Z.le_gt_cases (Z.pos p) (Z.log2 m)) as [Hp|Hp].
    + right. assert (Hpos : (0 < m / 2 ^ Z.pos p)%Z).
      { apply Z.div_str_pos. split; [done|]. transitivity (2 ^ Z.log2 m)%Z; [|by apply Z.log2_spec].
        apply Z.pow_le_mono_r; lia. }
      split; [done|]. rewrite Zdigits2_log2 by done.
      rewrite <-Z.shiftr_div_pow2, Z.log2_shiftr, (Z.max_r 0) by lia. lia.
    + left. split; [|lia]. apply Z.div_small. split; [lia|].
      apply Z.log2_lt_pow2; lia.
Qed.

Lemma round_nearest_even_cases m l :
  round_nearest_even m l = m \/ round_nearest_even m l = (m + 1)%Z.
Proof. destruct l as [|[]]; simpl; [auto|destruct (Z.even m)|..]; auto. Qed.

Lemma fexp_mono a b : (a <= b)%Z -> (fexp fprec femax a <= fexp fprec femax b)%Z.
Proof. rewrite !fexp_unfold. lia. Qed.

Lemma shr_fexp_zero e : shr_m (shr_fexp fprec femax 0 e loc_Exact).1 = 0%Z.
Proof.
  unfold shr_fexp, shr. destruct (_ - e)%Z; [done| |done]. cbn [fst].
  by rewrite shr_m_nonneg_iter.
Qed.

(** Rounding a positive mantissa never gives NaN, and gives a canonical float. *)
Lemma binary_round_aux_valid s m e l :
  (0 < m)%Z -> (e <= fexp fprec femax (Zdigits2 m + e))%Z ->
  fvalid (binary_round_aux fprec femax s m e l) /\
  is_nan (binary_round_aux fprec femax s m e l) = false.
Proof.
  intros Hm He. unfold binary_round_aux.
  pose proof (shr_fexp_canonical m e l Hm He) as (H0 & _ & H1).
  destruct (shr_fexp fprec femax m e l) as [mrs' e']. cbn [fst snd] in *.
  set (m1 := round_nearest_even _ _).
  assert (Hm1 : m1 = shr_m mrs' \/ m1 = (shr_m mrs' + 1)%Z) by apply round_nearest_even_cases.
  destruct (Z.eq_dec m1 0) as [->|Hne].
  { pose proof (shr_fexp_zero e') as Hz. destruct (shr_fexp _ _ 0 e' _). cbn [fst] in *. by rewrite Hz. }
  assert (He' : (e' <= fexp fprec femax (Zdigits2 m1 + e'))%Z).
  { rewrite fexp_unfold. destruct H1 as [[Hz ->]|[Hpos Hc]]; [lia|].
    transitivity (fexp fprec femax (Zdigits2 (shr_m mrs') + e')); [lia|].
    rewrite <-fexp_unfold. apply fexp_mono. rewrite !Zdigits2_log2 by lia.
    pose proof (Z.log2_le_mono (shr_m mrs') m1). lia. }
  pose proof (shr_fexp_canonical m1 e' loc_Exact ltac:(lia) He') as (H2 & _ & H3).
  destruct (shr_fexp fprec femax m1 e' loc_Exact) as [mrs'' e'']. cbn [fst snd] in *.
  destruct (shr_m mrs'') as [|q|q]; [done| |lia].
  destruct (Z.leb_spec e'' (femax - fprec)); [|done]. split; [|done].
  destruct H3 as [[? _]|[_ Hc]]; [lia|].
  unfold fvalid, valid_binary, bounded, canonical_mantissa. simpl in Hc.
  rewrite andb_true_iff, Z.eqb_eq, Z.leb_le. split; [done|lia].
Qed.

Lemma binary_normalize_valid z e :
  fvalid (binary_normalize fprec femax z e false) /\
  is_nan (binary_normalize fprec femax z e false) = false.
Proof.
  assert (Hround : forall s p, fvalid (binary_round fprec femax s p e) /\
            is_nan (binary_round fprec femax s p e) = false).
  { intros s p. unfold binary_round.
    pose proof (shl_align_value p e (fexp fprec femax (Z.pos (digits2_pos p) + e))) as Hv.
    destruct (shl_align p e _) as [mz ez] eqn:E. apply binary_round_aux_valid; [lia|].
    unfold shl_align in E. destruct (_ - e)%Z as [|d|d] eqn:Ed.
    - injection E as <- <-. simpl. lia.
    - injection E as <- <-. simpl. lia.
    - injection E as Hmz <-. subst mz. cbn [fst] in Hv.
      assert (Hlog : Zdigits2 (Z.pos (Pos.iter xO p d)) =
                (Z.pos (digits2_pos p) + (e - fexp fprec femax (Z.pos (digits2_pos p) + e)))%Z).
      { rewrite Zdigits2_log2, Hv, Z.log2_mul_pow2, digits2_pos_log2 by lia. lia. }
      rewrite Hlog. rewrite <-Z.add_assoc, Z.sub_add. lia. }
  destruct z; simpl; auto. done.
Qed.

Lemma fadd_valid x y : fvalid x -> fvalid y -> fvalid (fadd x y).
Proof.
  intros Vx Vy. destruct x as [[]|[]| |s m e], y as [[]|[]| |s' m' e']; try done.
  apply binary_normalize_valid.
Qed.

Lemma fadd_num x y :
  never_neg x -> never_neg y -> is_nan x = false -> is_nan y = false -> is_nan (fadd x y) = false.
Proof.
  intros Hx Hy Nx Ny. never_neg_cases Hx; never_neg_cases Hy; try done;
    try by repeat match goal with s : bool |- _ => destruct s end.
  apply binary_normalize_valid.
Qed.

Lemma f64_of_Z_valid z : fvalid (f64_of_Z z) /\ is_nan (f64_of_Z z) = false.
Proof. apply binary_normalize_valid. Qed.

Lemma fadd_ok x y : fok x -> fok y -> never_neg x -> never_neg y -> fok (fadd x y).
Proof. intros [] [] ??. split; [by apply fadd_valid|by apply fadd_num]. Qed.

Lemma fmul_valid x y : fvalid x -> fvalid y -> fvalid (fmul x y).
Proof.
  intros Vx Vy. destruct x as [[]|[]| |s m e], y as [[]|[]| |s' m' e']; try done.
  unfold fmul, SFmul. apply binary_round_aux_valid; [done|].
  assert (Hc : forall s m e, fvalid (S754_finite s m e) ->
            fexp fprec femax (Z.log2 (Z.pos m) + 1 + e) = e).
  { intros s0 m0 e0. unfold fvalid, valid_binary, bounded, canonical_mantissa.
    rewrite andb_true_iff, Z.eqb_eq, digits2_pos_log2. intros [H _]. exact H. }
  apply Hc in Vx, Vy. rewrite Zdigits2_log2 by lia.
  pose proof (Z.log2_mul_below (Z.pos m) (Z.pos m')). rewrite Pos2Z.inj_mul, fexp_unfold in *.
  pose proof (Z.log2_nonneg (Z.pos m)). pose proof (Z.log2_nonneg (Z.pos m')). lia.
Qed.

(** ** Subtraction compares *)

Lemma binary_normalize_not_pos z e :
  (z <= 0)%Z -> flt fzero (binary_normalize fprec femax z e false) = false.
Proof.
  destruct z as [|p|p]; [done|lia|]. intros _. simpl. unfold binary_round.
  destruct (shl_align _ _ _) as [mz ez]. unfold binary_round_aux.
  destruct (shr_fexp _ _ _ ez _) as [mrs' e'].
  destruct (shr_fexp _ _ _ e' loc_Exact) as [mrs'' e''].
  destruct (shr_m mrs''); [done| |done]. by destruct (e'' <=? femax - fprec)%Z.
Qed.

Lemma fsub_not_pos x y :
  fvalid x -> fvalid y -> fle x y = true -> flt fzero (fsub x y) = false.
Proof.
  intros Vx Vy Hle.
  destruct (is_inf x) eqn:Ix.
  { destruct x as [|[]| |]; try done; destruct y as [[]|[]| |[]]; by vm_compute in Hle |- *. }
  destruct (is_inf y) eqn:Iy.
  { destruct y as [|[]| |]; try done; destruct x as [[]|[]| |[]]; by vm_compute in Hle |- *. }
  destruct x as [sx|sx| |sx m e], y as [sy|sy| |sy m' e']; try done; try (by destruct sx, sy);
    try (by destruct sx); try (by destruct sy).
  unfold fsub, SFsub. apply binary_normalize_not_pos.
  rewrite !shl_align_value by lia. apply Z.le_sub_0.
  apply (fle_fval _ _ (Z.min e e') Vx Vy); simpl; [done|done|lia|lia|done].
Qed.

(** [x - y] is above zero exactly when [x] is above [y]: no difference
    underflows to zero. *)
Lemma fsub_pos_iff x y :
  fok x -> fok y -> flt fzero (fsub x y) = flt y x.
Proof.
  intros [Vx Nx] [Vy Ny]. destruct (flt y x) eqn:Hlt.
  - by apply fpos_iff, fsub_pos.
  - by apply fsub_not_pos, flt_false_fle.
Qed.

Lemma fsum_ok l : Forall (fun x => fok x /\ never_neg x) l -> fok (fsum l) /\ never_neg (fsum l).
Proof.
  intros Hl. unfold fsum. assert (H0 : fok fzero /\ never_neg fzero) by done. revert H0.
  generalize fzero. induction Hl as [|x l [Hx Hn] Hl IH]; intros a [Ha Hna]; simpl; [done|].
  apply IH. split; [by apply fadd_ok|by apply fadd_never_neg].
Qed.

Lemma fsum_app l1 l2 : fsum (l1 ++ l2) = foldl fadd (fsum l1) l2.
Proof. unfold fsum. apply foldl_app. Qed.
