(* ===== verification/OptTypes.v ===== *)
(** * Optimizer identities (optimizer/types.go)

    Node and replica identities, their map keys and their printed forms. *)

From S2P Require Import Prelude.

Local Open Scope string_scope.

(** [type ClusterNodeID struct]. *)
Record ClusterNodeID := mkNode { ClusterID : string; NodeName : string }.

(** [type ResourceQuantity struct]; int64 fields. *)
Record ResourceQuantity := mkRes { MilliCPU : Z; MemoryMi : Z }.

(** [type ReplicaKey struct]; [ReplicaIndex] is an int32. *)
Record ReplicaKey := mkReplica {
  RK_Namespace : string; RK_Name : string; ReplicaIndex : Z
}.

(** [type NamespacedName struct] of optimizer/plugin_communication.go. *)
Record NamespacedName := mkNN { NN_Namespace : string; NN_Name : string }.

#[export] Instance ClusterNodeID_eq_dec : EqDecision ClusterNodeID.
Proof. solve_decision. Defined.
#[export] Instance ResourceQuantity_eq_dec : EqDecision ResourceQuantity.
Proof. solve_decision. Defined.
#[export] Instance ReplicaKey_eq_dec : EqDecision ReplicaKey.
Proof. solve_decision. Defined.
#[export] Instance NamespacedName_eq_dec : EqDecision NamespacedName.
Proof. solve_decision. Defined.

#[export] Instance ClusterNodeID_countable : Countable ClusterNodeID.
Proof.
  refine (inj_countable' (fun n => (ClusterID n, NodeName n)) (fun p => mkNode p.1 p.2) _).
  by intros [].
Defined.
#[export] Instance ReplicaKey_countable : Countable ReplicaKey.
Proof.
  refine (inj_countable' (fun k => (RK_Namespace k, RK_Name k, ReplicaIndex k))
            (fun p => mkReplica p.1.1 p.1.2 p.2) _).
  by intros [].
Defined.
#[export] Instance NamespacedName_countable : Countable NamespacedName.
Proof.
  refine (inj_countable' (fun n => (NN_Namespace n, NN_Name n)) (fun p => mkNN p.1 p.2) _).
  by intros [].
Defined.

(** [func (id ClusterNodeID) String() string]. *)
Definition ClusterNodeID_String (id : ClusterNodeID) : string :=
  if str_empty (ClusterID id) then NodeName id
  else if str_empty (NodeName id) then ClusterID id
  else ClusterID id +:+ "/" +:+ NodeName id.

(** [func (n NamespacedName) String() string]. *)
Definition NamespacedName_String (n : NamespacedName) : string :=
  NN_Namespace n +:+ "/" +:+ NN_Name n.

(** [digits[d]] for [const digits = "0123456789"]; [None] is an index panic. *)
Definition digit_char (d : Z) : option Ascii.ascii :=
  if (d <? 0)%Z then None else String.get (Z.to_nat d) "0123456789".

(** [i--; buf[i] = c] on the state [i], [buf[i:]]; [None] is an index panic. *)
Definition push_byte (c : Ascii.ascii) (st : Z * string) : option (Z * string) :=
  let '(i, tail) := st in
  if (i - 1 <? 0)%Z then None else Some (i - 1, String c tail)%Z.

(** [for v > 0 { i--; buf[i] = digits[v%10]; v /= 10 }]. *)
Fixpoint itoa_loop (fuel : nat) (v : Z) (st : Z * string) : option (Z * string) :=
  if (v >? 0)%Z then
    match fuel with
    | O => None
    | S fuel' =>
        c ← digit_char (Z.rem v 10);
        st' ← push_byte c st;
        itoa_loop fuel' (Z.quot v 10) st'
    end
  else Some st.

(** [func itoa32(v int32) string]; the loop writes at most one byte of the
    12-byte buffer per step, so 12 steps of fuel are enough. *)
Definition itoa32 (v : Z) : option string :=
  if (v =? 0)%Z then Some "0"
  else
    let neg := (v <? 0)%Z in
    let v := if neg then wrap32 (- v) else v in
    st ← itoa_loop 12 v (12%Z, "");
    st ← (if neg then push_byte "-"%char st else Some st);
    Some st.2.

(** [func (k ReplicaKey) String() string]. *)
Definition ReplicaKey_String (k : ReplicaKey) : option string :=
  idx ← itoa32 (ReplicaIndex k);
  Some (RK_Namespace k +:+ "/" +:+ RK_Name k +:+ "/" +:+ idx).

(** Kubernetes names hold no slash. *)
Fixpoint no_slash (s : string) : bool :=
  match s with
  | EmptyString => true
  | String c s' => negb (Ascii.eqb c "/") && no_slash s'
  end.

(** ** Lemmas *)

Lemma digit_char_pretty (n : N) :
  digit_char (Z.of_N (n `mod` 10)) = Some (pretty_N_char (n `mod` 10)).
Proof.
  pose proof (N.mod_upper_bound n 10 ltac:(done)) as H.
  destruct (n `mod` 10)%N as [|p]; [done|].
  do 4 (destruct p as [p|p|]; try done; try lia).
Qed.

(** The loop prints the decimal digits in front of the tail, one byte each. *)
Lemma itoa_loop_spec fuel (k : nat) (n : N) i tail :
  (k <= fuel)%nat -> (n < 10 ^ N.of_nat k)%N -> (Z.of_nat k <= i)%Z ->
  exists i', itoa_loop fuel (Z.of_N n) (i, tail) = Some (i', pretty_N_go n tail) /\
    (i - Z.of_nat k <= i')%Z.
Proof.
  revert k n i tail. induction fuel as [|fuel IH]; intros k n i tail Hk Hn Hi.
  - assert (k = O) as -> by lia. assert (n = 0%N) as -> by (simpl in Hn; lia).
    rewrite pretty_N_go_0. simpl. eauto with lia.
  - destruct (decide (n = 0%N)) as [->|Hn0].
    { rewrite pretty_N_go_0. simpl. exists i. split; [done|lia]. }
    destruct k as [|k]; [simpl in Hn; lia|].
    simpl itoa_loop. rewrite (proj2 (Z.gtb_lt (Z.of_N n) 0)) by lia.
    replace (Z.rem (Z.of_N n) 10) with (Z.of_N (n `mod` 10)) by
      (rewrite N2Z.inj_mod, Z.rem_mod_nonneg by lia; done).
    rewrite digit_char_pretty. simpl. destruct (Z.ltb_spec (i - 1) 0); [lia|]. simpl.
    replace (Z.quot (Z.of_N n) 10) with (Z.of_N (n `div` 10)) by
      (rewrite N2Z.inj_div, Z.quot_div_nonneg by lia; done).
    destruct (IH k (n `div` 10)%N (i - 1)%Z (String (pretty_N_char (n `mod` 10)) tail)) as (i' & -> & ?).
    + lia.
    + apply N.Div0.div_lt_upper_bound. rewrite Nat2N.inj_succ, N.pow_succ_r' in Hn. done.
    + lia.
    + exists i'. rewrite (pretty_N_go_step n) by lia. split; [done|lia].
Qed.

(** [itoa32] never runs out of its buffer, and agrees with the decimal printer
    on every int32 except the smallest. *)
Lemma itoa32_pretty v :
  int32_range v -> v <> (- 2 ^ 31)%Z -> itoa32 v = Some (pretty v).
Proof.
  unfold int32_range. intros Hr Hmin. unfold itoa32.
  destruct (Z.eqb_spec v 0) as [->|H0]; [done|].
  destruct (itoa_loop_spec 12 10 (Z.to_N (Z.abs v)) 12 "") as (i & Hl & Hi); [lia| |lia|].
  { simpl N.of_nat. lia. }
  destruct (Z.ltb_spec v 0).
  - rewrite wrap32_id by (unfold int32_range; lia).
    replace (- v)%Z with (Z.of_N (Z.to_N (Z.abs v))) by lia. rewrite Hl. simpl.
    destruct (Z.ltb_spec (i - 1) 0); [lia|]. destruct v as [|p|p]; [lia..|].
    reflexivity.
  - replace v with (Z.of_N (Z.to_N (Z.abs v))) at 1 by lia. rewrite Hl. simpl.
    destruct v as [|p|p]; [lia| |lia].
    reflexivity.
Qed.

Lemma append_slash_inj a a' b b' :
  no_slash a = true -> no_slash a' = true ->
  a +:+ "/" +:+ b = a' +:+ "/" +:+ b' -> a = a' /\ b = b'.
Proof.
  revert a'. induction a as [|c a IH]; intros [|c' a'] Ha Ha' Heq; simpl in *.
  - by simplify_eq.
  - injection Heq as <- _. done.
  - injection Heq as -> _. done.
  - apply andb_true_iff in Ha as [_ Ha]. apply andb_true_iff in Ha' as [_ Ha'].
    injection Heq as <- Heq. by destruct (IH a' Ha Ha' Heq) as [-> ->].
Qed.

(** ** Properties *)

(** [itoa32] prints every int32 but the smallest as its decimal numeral
    (the reference printer), without ever indexing outside its 12-byte buffer. *)
Theorem itoa32_decimal (v : Z) :
  (- 2 ^ 31 < v < 2 ^ 31)%Z -> itoa32 v = Some (pretty v).
Proof. intros H. apply itoa32_pretty; unfold int32_range; lia. Qed.

Lemma itoa32_decimal_witness : itoa32 (-2147483647) = Some "-2147483647".
Proof. apply (itoa32_decimal (-2147483647)). split; reflexivity. Defined.

(** on the smallest int32 the negation wraps around, the digit loop does not
    run, and [itoa32] prints a bare minus sign. *)
Theorem itoa32_min : itoa32 (- 2 ^ 31) = Some "-".
Proof. reflexivity. Qed.

(** Distinct replicas print as distinct strings, when namespaces and names
    hold no slash and the index is not the smallest int32: [ReplicaKey.String]
    is injective. *)
Theorem ReplicaKey_String_inj (k k' : ReplicaKey) :
  no_slash (RK_Namespace k) = true -> no_slash (RK_Name k) = true ->
  no_slash (RK_Namespace k') = true -> no_slash (RK_Name k') = true ->
  (- 2 ^ 31 < ReplicaIndex k < 2 ^ 31)%Z -> (- 2 ^ 31 < ReplicaIndex k' < 2 ^ 31)%Z ->
  ReplicaKey_String k = ReplicaKey_String k' -> k = k'.
Proof.
  destruct k as [ns n i], k' as [ns' n' i']; simpl. intros Hns Hn Hns' Hn' Hi Hi'.
  unfold ReplicaKey_String; simpl.
  rewrite !itoa32_pretty by (unfold int32_range; lia). simpl. intros [= Heq].
  apply append_slash_inj in Heq as [-> Heq]; [|done..].
  apply append_slash_inj in Heq as [-> Heq]; [|done..].
  by apply pretty_Z_inj in Heq as ->.
Qed.

Lemma ReplicaKey_String_inj_witness :
  ReplicaKey_String (mkReplica "default" "web" 3) = Some "default/web/3" /\
  (ReplicaKey_String (mkReplica "default" "web" 3) =
     ReplicaKey_String (mkReplica "default" "web" (1 + 2)) ->
   mkReplica "default" "web" 3 = mkReplica "default" "web" (1 + 2)).
Proof.
  split; [reflexivity|].
  apply (ReplicaKey_String_inj (mkReplica "default" "web" 3) (mkReplica "default" "web" (1 + 2)));
    try reflexivity; split; reflexivity.
Defined.
