(* ===== verification/OptErrors.v ===== *)
(** * Errors of the optimizer package

    One constructor per [fmt.Errorf] of optimizer/, with the values its message
    prints; an error wrapped with [%w] keeps the wrapped one. *)

From S2P Require Import Prelude Float64 OptTypes.

Local Open Scope string_scope.

Inductive opt_error : Type :=
(* plugins *)
| ErrMustBeNonEmpty (name : string)
| ErrInstancePriceEmpty
| ErrMissingLabel (key : string) (node : ClusterNodeID)
| ErrMissingPrice (instanceType : string) (node : ClusterNodeID)
| ErrInvalidPrice (instanceType : string) (price : f64)
| ErrMissingLatencyRow (sourceCity : string)
| ErrMissingRegion (node : ClusterNodeID)
| ErrNoRegionOnNode (node : ClusterNodeID)
| ErrMissingLatency (sourceCity region : string) (node : ClusterNodeID)
| ErrInvalidLatency (sourceCity region : string) (lat : f64)
| ErrInvalidPenalty (pen : f64)
| ErrInstancePowerEmpty
| ErrReplicaRequestsNil
| ErrMissingPowerCurve (instanceType : string) (node : ClusterNodeID)
| ErrInvalidCPUAllocatable (node : ClusterNodeID)
| ErrMissingReplicaRequest (r : ReplicaKey)
| ErrInvalidReplicaCPU (r : ReplicaKey) (milli : Z)
| ErrInvalidTotalCores (cores : f64)
| ErrPowerCurveTooShort
| ErrInvalidUtil (util : f64)
| ErrDuplicateUtil
| ErrNoUtilSegment
| ErrDependenciesEmpty
| ErrRegionLatencyEmpty
| ErrReplicaServiceEmpty
| ErrMissingReplicaService (r : ReplicaKey)
| ErrMissingRegionRow (a : string)
| ErrMissingRegionLatency (a b : string)
| ErrInvalidRegionLatency (a b : string) (v : f64)
| ErrNoReplicaRegions (svc : NamespacedName)
| ErrNoCandidateRegions
| ErrCommCost (r : ReplicaKey) (e : opt_error)
(* objective and plan *)
| ErrInvalidWeight (goal : string) (w : f64)
| ErrUnknownGoal (goal : string)
| ErrPlugin (name : string) (e : opt_error)
| ErrPlacementScoresNil
(* readable metrics *)
| ErrReadable (goal : string) (e : opt_error)
| ErrReadableRegion (node : ClusterNodeID)
| ErrNodesEmpty
| ErrSourceCityEmpty
(* model and solver *)
| ErrNoCandidateNodes
| ErrTooManyVariables (Variables Limit : Z)
| ErrInvalidMemoryRequest (r : ReplicaKey) (mi : Z)
| ErrMissingCapacity (node : ClusterNodeID)
| ErrInvalidCPUCapacity (node : ClusterNodeID) (milli : Z)
| ErrInvalidMemoryCapacity (node : ClusterNodeID) (mi : Z)
| ErrNodeContextsEmpty
| ErrForeignNodeContext (node : ClusterNodeID)
| ErrMigrationNoPlacement
| ErrNoSolver
| ErrSolverNotImplemented
| ErrPlain (msg : string)
(* a Go run-time panic: index out of range *)
| ErrIndexPanic.

(** How package fmt prints a float64 with [%v] and a string with [%q]. *)
Class GoFmt := { fmt_v : f64 -> string; fmt_q : string -> string }.

Section messages.
Context {FMT : GoFmt}.

Definition show_replica (r : ReplicaKey) : string := default "" (ReplicaKey_String r).
Definition show_int (z : Z) : string := pretty z.

(** The message of each error: what [Error()] returns. *)
Fixpoint Error (e : opt_error) : string :=
  match e with
  | ErrMustBeNonEmpty name => name +:+ " must be non-empty"
  | ErrInstancePriceEmpty => "InstancePrice is empty"
  | ErrMissingLabel key n => "missing " +:+ key +:+ " label on node " +:+ ClusterNodeID_String n
  | ErrMissingPrice it n =>
      "missing price for instanceType " +:+ fmt_q it +:+ " (node " +:+ ClusterNodeID_String n +:+ ")"
  | ErrInvalidPrice it v => "invalid price for instanceType " +:+ fmt_q it +:+ ": " +:+ fmt_v v
  | ErrMissingLatencyRow city => "missing latency row for sourceCity " +:+ fmt_q city
  | ErrMissingRegion n => "missing region for node " +:+ ClusterNodeID_String n
  | ErrNoRegionOnNode n => "missing region on node " +:+ ClusterNodeID_String n
  | ErrMissingLatency city reg n =>
      "missing latency for sourceCity=" +:+ fmt_q city +:+ " region=" +:+ fmt_q reg +:+
      " (node " +:+ ClusterNodeID_String n +:+ ")"
  | ErrInvalidLatency city reg v =>
      "invalid latency for sourceCity=" +:+ fmt_q city +:+ " region=" +:+ fmt_q reg +:+ ": " +:+ fmt_v v
  | ErrInvalidPenalty pen => "invalid Penalty: " +:+ fmt_v pen
  | ErrInstancePowerEmpty => "InstancePower is empty"
  | ErrReplicaRequestsNil => "ReplicaRequests is nil"
  | ErrMissingPowerCurve it n =>
      "missing power curve for instanceType " +:+ fmt_q it +:+ " (node " +:+ ClusterNodeID_String n +:+ ")"
  | ErrInvalidCPUAllocatable n =>
      "missing/invalid CPUAllocatableMilli for node " +:+ ClusterNodeID_String n
  | ErrMissingReplicaRequest r => "missing replica request for " +:+ show_replica r
  | ErrInvalidReplicaCPU r milli =>
      "invalid replica cpu request for " +:+ show_replica r +:+ ": " +:+ show_int milli
  | ErrInvalidTotalCores c => "invalid totalCores: " +:+ fmt_v c
  | ErrPowerCurveTooShort => "power curve must have at least 2 samples"
  | ErrInvalidUtil u => "invalid util in power curve: " +:+ fmt_v u
  | ErrDuplicateUtil => "invalid power curve (duplicate util)"
  | ErrNoUtilSegment => "cannot find util segment"
  | ErrDependenciesEmpty => "Dependencies is empty"
  | ErrRegionLatencyEmpty => "RegionLatencyMs is empty"
  | ErrReplicaServiceEmpty => "ReplicaService is empty"
  | ErrMissingReplicaService r => "missing ReplicaService for replica " +:+ show_replica r
  | ErrMissingRegionRow a => "missing region latency row: " +:+ fmt_q a
  | ErrMissingRegionLatency a b => "missing region latency value: " +:+ fmt_q a +:+ "->" +:+ fmt_q b
  | ErrInvalidRegionLatency a b v =>
      "invalid region latency value: " +:+ fmt_q a +:+ "->" +:+ fmt_q b +:+ "=" +:+ fmt_v v
  | ErrNoReplicaRegions svc =>
      "cannot compute centroid: no current replica regions for service " +:+ NamespacedName_String svc
  | ErrNoCandidateRegions => "cannot compute centroid: no candidate regions"
  | ErrCommCost r e => "replica " +:+ show_replica r +:+ " commcost error: " +:+ Error e
  | ErrInvalidWeight goal w => "invalid weight for goal " +:+ fmt_q goal +:+ ": " +:+ fmt_v w
  | ErrUnknownGoal goal => "unknown goal type " +:+ fmt_q goal
  | ErrPlugin name e => name +:+ " plugin: " +:+ Error e
  | ErrPlacementScoresNil => "PlacementScores is nil"
  | ErrReadable goal e => goal +:+ " readable metric: " +:+ Error e
  | ErrReadableRegion n => "readable metric: missing region for node " +:+ ClusterNodeID_String n
  | ErrNodesEmpty => "Nodes is empty"
  | ErrSourceCityEmpty => "SourceCity is empty"
  | ErrNoCandidateNodes => "no candidate nodes"
  | ErrTooManyVariables vars limit =>
      "too many decision variables: " +:+ show_int vars +:+ " > " +:+ show_int limit
  | ErrInvalidMemoryRequest r mi =>
      "invalid replica memory request for " +:+ show_replica r +:+ ": " +:+ show_int mi
  | ErrMissingCapacity n => "missing node capacity for " +:+ ClusterNodeID_String n
  | ErrInvalidCPUCapacity n milli =>
      "invalid node cpu capacity for " +:+ ClusterNodeID_String n +:+ ": " +:+ show_int milli
  | ErrInvalidMemoryCapacity n mi =>
      "invalid node memory capacity for " +:+ ClusterNodeID_String n +:+ ": " +:+ show_int mi
  | ErrNodeContextsEmpty => "objective enabled but NodeContexts is empty"
  | ErrForeignNodeContext n =>
      "NodeContexts contains node " +:+ ClusterNodeID_String n +:+ " not present in CandidateNodes"
  | ErrMigrationNoPlacement => "Migration goal enabled but CurrentPlacement is empty"
  | ErrNoSolver => "no solver configured"
  | ErrSolverNotImplemented => "solver not implemented"
  | ErrPlain msg => msg
  | ErrIndexPanic => "index out of range"
  end.
End messages.
