(* ===== verification/Plugins.v ===== *)
(** * Scoring plugins: common parts, Cost, Latency and Migration

    optimizer/plugins.go, plugin_cost.go, plugin_latency.go, plugin_migration.go.
    The Go pointers [p *XPlugin] are never nil in the callers, so the plugin
    records are passed by value. *)

From S2P Require Import Prelude Float64 OptTypes OptErrors.

Local Open Scope string_scope.
Local Open Scope list_scope.

(** [type NodeContext struct]; reading a missing label gives the empty string,
    for a nil map too. The three amounts are int64. *)
Record NodeContext := mkNodeContext {
  NC_ID : ClusterNodeID;
  NC_Labels : gmap string string;
  NC_Region : string;
  CPUFreeMilli : Z;
  CPUAllocatableMilli : Z;
  MemoryAllocatableMi : Z
}.

(** [type PluginContext struct]; [None] is a nil map. *)
Record PluginContext := mkPluginContext {
  PC_Replicas : list ReplicaKey;
  PC_Nodes : list NodeContext;
  PC_ReplicaRequests : option (gmap ReplicaKey ResourceQuantity);
  PC_CurrentPlacement : gmap ReplicaKey ClusterNodeID
}.

(** [map[ReplicaKey]map[ClusterNodeID]float64]. *)
Notation ScoreMatrix := (gmap ReplicaKey (gmap ClusterNodeID f64)).

Definition LabelInstanceType : string := "node.kubex.io/type".

(** [func normalizeTo0_100(v, min, max float64) float64]. *)
Definition normalizeTo0_100 (v mn mx : f64) : f64 :=
  if is_nan v || is_inf v then f100
  else if fle mx mn then fzero
  else
    let v := if flt v mn then mn else v in
    let v := if flt mx v then mx else v in
    fdiv (fmul (fsub v mn) f100) (fsub mx mn).

(** [func requireNonEmpty(name string, v string) error]. *)
Definition requireNonEmpty (name v : string) : result opt_error unit :=
  fail_if (str_empty v) (ErrMustBeNonEmpty name).

(** [for _, k := range ks { m[k] = f(k) }] on a fresh map. *)
Definition build_map `{Countable K} {A} (f : K -> A) (ks : list K) : gmap K A :=
  foldl (fun m k => <[k := f k]> m) ∅ ks.

(** The last loop of the plugins whose score depends on the node alone: every
    replica gets the same fresh row. *)
Definition replicate_rows (ctx : PluginContext) (f : ClusterNodeID -> f64) : ScoreMatrix :=
  build_map (fun _ => build_map f (NC_ID <$> PC_Nodes ctx)) (PC_Replicas ctx).

(** [if len(ctx.Replicas) == 0 || len(ctx.Nodes) == 0]. *)
Definition nothing_to_score (ctx : PluginContext) : bool :=
  match PC_Replicas ctx, PC_Nodes ctx with [], _ | _, [] => true | _, _ => false end.

(** State of the first loop: value per node, running minimum and maximum. *)
Notation NodeValues := (gmap ClusterNodeID f64 * option (f64 * f64))%type.

Definition record_value (acc : NodeValues) (n : ClusterNodeID) (v : f64) : NodeValues :=
  (<[n := v]> acc.1, minmax_step acc.2 v).

(** [m[n.ID] = normalizeTo0_100(values[n.ID], min, max)]. *)
Definition normalize_values (acc : NodeValues) (n : ClusterNodeID) : f64 :=
  let '(mn, mx) := minmax_or_zero acc.2 in
  normalizeTo0_100 (default fzero (acc.1 !! n)) mn mx.

(** ** Cost *)

(** One turn of the loop over the nodes in [CostPlugin.ScorePlacement]. *)
Definition cost_of_node (InstancePrice : gmap string f64) (n : NodeContext) : result opt_error f64 :=
  let it := default "" (NC_Labels n !! LabelInstanceType) in
  _ ← fail_if (str_empty it) (ErrMissingLabel LabelInstanceType (NC_ID n));
  price ← require (InstancePrice !! it) (ErrMissingPrice it (NC_ID n));
  _ ← fail_if (flt price fzero) (ErrInvalidPrice it price);
  Ok price.

Definition cost_step (InstancePrice : gmap string f64) (acc : NodeValues) (n : NodeContext)
    : result opt_error NodeValues :=
  price ← cost_of_node InstancePrice n;
  Ok (record_value acc (NC_ID n) price).

(** [func (p *CostPlugin) ScorePlacement(ctx PluginContext)]. *)
Definition Cost_ScorePlacement (InstancePrice : gmap string f64) (ctx : PluginContext)
    : result opt_error ScoreMatrix :=
  if nothing_to_score ctx then Ok ∅
  else
    _ ← fail_if (bool_decide (InstancePrice = ∅)) ErrInstancePriceEmpty;
    acc ← foldM (cost_step InstancePrice) (∅, None) (PC_Nodes ctx);
    Ok (replicate_rows ctx (normalize_values acc)).

(** ** Latency *)

(** One turn of the loop over the nodes in [LatencyPlugin.ScorePlacement]. *)
Definition latency_of_node (SourceCity : string) (row : gmap string f64) (n : NodeContext)
    : result opt_error f64 :=
  _ ← fail_if (str_empty (NC_Region n)) (ErrNoRegionOnNode (NC_ID n));
  lat ← require (row !! NC_Region n) (ErrMissingLatency SourceCity (NC_Region n) (NC_ID n));
  _ ← fail_if (flt lat fzero) (ErrInvalidLatency SourceCity (NC_Region n) lat);
  Ok lat.

Definition latency_step (SourceCity : string) (row : gmap string f64) (acc : NodeValues)
    (n : NodeContext) : result opt_error NodeValues :=
  lat ← latency_of_node SourceCity row n;
  Ok (record_value acc (NC_ID n) lat).

(** [row, ok := p.LatencyMs[city]; if !ok || len(row) == 0]. *)
Definition nonempty_row (LatencyMs : gmap string (gmap string f64)) (city : string)
    : result opt_error (gmap string f64) :=
  row ← require (LatencyMs !! city) (ErrMissingLatencyRow city);
  _ ← fail_if (bool_decide (row = ∅)) (ErrMissingLatencyRow city);
  Ok row.

(** [func (p *LatencyPlugin) ScorePlacement(ctx PluginContext)]. *)
Definition Latency_ScorePlacement (SourceCity : string)
    (LatencyMs : gmap string (gmap string f64)) (ctx : PluginContext)
    : result opt_error ScoreMatrix :=
  if nothing_to_score ctx then Ok ∅
  else
    _ ← requireNonEmpty "SourceCity" SourceCity;
    row ← nonempty_row LatencyMs SourceCity;
    acc ← foldM (latency_step SourceCity row) (∅, None) (PC_Nodes ctx);
    Ok (replicate_rows ctx (normalize_values acc)).

(** ** Migration *)

(** [func (p *MigrationPlugin) ScoreMigration(ctx PluginContext)]. *)
Definition Migration_ScoreMigration (Penalty : f64) (ctx : PluginContext)
    : result opt_error (gmap ReplicaKey f64) :=
  match PC_Replicas ctx with
  | [] => Ok ∅
  | _ =>
      let pen := if feq Penalty fzero then f100 else Penalty in
      _ ← fail_if (flt pen fzero) (ErrInvalidPenalty pen);
      Ok (build_map (fun _ => pen) (PC_Replicas ctx))
  end.

(** ** Lemmas *)

Lemma lookup_build_map `{Countable K} {A} (f : K -> A) ks k :
  build_map f ks !! k = if decide (k ∈ ks) then Some (f k) else None.
Proof.
  unfold build_map. enough (G : forall m : gmap K A, foldl (fun m k => <[k := f k]> m) m ks !! k =
      if decide (k ∈ ks) then Some (f k) else m !! k).
  { rewrite G. by destruct (decide _). }
  induction ks as [|k' ks IH]; intros m; simpl; [done|]. rewrite IH.
  destruct (decide (k ∈ ks)); [rewrite decide_True by set_solver; done|].
  destruct (decide (k = k')) as [->|].
  - rewrite lookup_insert_eq, decide_True by set_solver. done.
  - rewrite lookup_insert_ne, decide_False by set_solver. done.
Qed.

Lemma build_map_Some `{Countable K} {A} (f : K -> A) ks k a :
  build_map f ks !! k = Some a <-> k ∈ ks /\ a = f k.
Proof. rewrite lookup_build_map. destruct (decide _); naive_solver. Qed.

Lemma replicate_rows_lookup ctx f r n :
  r ∈ PC_Replicas ctx -> n ∈ PC_Nodes ctx ->
  replicate_rows ctx f !! r ≫= (.!! NC_ID n) = Some (f (NC_ID n)).
Proof.
  intros Hr Hn. unfold replicate_rows. rewrite lookup_build_map, decide_True by done. simpl.
  rewrite lookup_build_map, decide_True; [done|]. by apply list_elem_of_fmap_2.
Qed.

Lemma nothing_to_score_false ctx r n :
  r ∈ PC_Replicas ctx -> n ∈ PC_Nodes ctx -> nothing_to_score ctx = false.
Proof. unfold nothing_to_score. destruct (PC_Replicas ctx), (PC_Nodes ctx); set_solver. Qed.

(** The first loop, for any per-node value [value]: it succeeds exactly when
    every node has a value, and collects the values and their extrema. *)
Definition collect (value : NodeContext -> result opt_error f64) (acc : NodeValues)
    (n : NodeContext) : result opt_error NodeValues :=
  v ← value n; Ok (record_value acc (NC_ID n) v).

Lemma collect_values value nodes acc0 acc :
  foldM (collect value) acc0 nodes = Ok acc ->
  exists vs, Forall2 (fun n v => value n = Ok v) nodes vs /\
    acc.1 = foldl (fun m p => <[p.1 := p.2]> m) acc0.1 (zip (NC_ID <$> nodes) vs) /\
    acc.2 = foldl minmax_step acc0.2 vs.
Proof.
  revert acc0. induction nodes as [|n nodes IH]; intros acc0; simpl; intros Hf.
  - inv_result. exists []. by split_and!.
  - inv_result. unfold collect in *. inv_result.
    destruct (IH _ H0) as (vs & Hvs & -> & ->). exists (x0 :: vs). split_and!; [by constructor|done..].
Qed.

Lemma collect_Err value nodes acc0 e :
  foldM (collect value) acc0 nodes = Err e ->
  exists l1 n l2, nodes = (l1 ++ n :: l2)%list /\ Forall (fun n => is_ok (value n) = true) l1 /\
    value n = Err e.
Proof.
  revert acc0. induction nodes as [|n nodes IH]; intros acc0; simpl; intros Hf; [done|].
  destruct (value n) as [v|e'] eqn:Hv.
  - replace (collect value acc0 n) with (Ok (E:=opt_error) (record_value acc0 (NC_ID n) v)) in Hf
      by (unfold collect; by rewrite Hv). simpl in Hf.
    destruct (IH _ Hf) as (l1 & n' & l2 & -> & H1 & H2).
    exists (n :: l1), n', l2. split_and!; [done| |done]. constructor; [by rewrite Hv|done].
  - replace (collect value acc0 n) with (Err (A:=NodeValues) e') in Hf
      by (unfold collect; by rewrite Hv). simpl in Hf.
    injection Hf as <-. exists [], n, nodes. by split_and!.
Qed.

Lemma zip_insert_lookup (ids : list ClusterNodeID) (vs : list f64) (m0 : gmap ClusterNodeID f64) i id v :
  NoDup ids -> ids !! i = Some id -> vs !! i = Some v ->
  foldl (fun m p => <[p.1 := p.2]> m) m0 (zip ids vs) !! id = Some v.
Proof.
  revert vs m0 i. induction ids as [|id' ids IH]; intros vs m0 i Hnd Hi Hv; [done|].
  apply NoDup_cons in Hnd as [Hnin Hnd]. destruct vs as [|v' vs]; [done|]. simpl.
  destruct i as [|i]; simpl in *; [|by eapply IH].
  simplify_eq.
  enough (G : forall vs (m : gmap ClusterNodeID f64), m !! id = Some v ->
      foldl (fun m p => <[p.1 := p.2]> m) m (zip ids vs) !! id = Some v).
  { apply G. simpl. apply lookup_insert_eq. }
  clear -Hnin. induction ids as [|id' ids IH]; intros vs m Hm; [done|].
  destruct vs as [|v' vs]; [done|]. simpl. apply IH; [set_solver|].
  rewrite lookup_insert_ne; [done|set_solver].
Qed.

(** What the node-score plugins compute: with distinct node identities, the
    score of a node is its value normalised between the extrema of all values. *)
Lemma collect_scores value nodes acc :
  nodes <> [] -> NoDup (NC_ID <$> nodes) ->
  foldM (collect value) (∅, None) nodes = Ok acc ->
  exists vs mn mx, Forall2 (fun n v => value n = Ok v) nodes vs /\
    minmax vs = Some (mn, mx) /\
    forall n v, value n = Ok v -> n ∈ nodes ->
      normalize_values acc (NC_ID n) = normalizeTo0_100 v mn mx.
Proof.
  intros Hne Hnd Hf. apply collect_values in Hf as (vs & Hvs & H1 & H2). simpl in *.
  destruct (minmax_nonempty vs) as (mn & mx & Hm).
  { intros ->. by inversion Hvs. }
  exists vs, mn, mx. split_and!; [done|done|]. intros n v Hv Hn.
  apply list_elem_of_lookup in Hn as [i Hi].
  destruct (Forall2_lookup_l _ _ _ _ _ Hvs Hi) as (v' & Hi' & Hv'). assert (v' = v) as -> by congruence.
  unfold normalize_values. rewrite H2. unfold minmax in Hm. rewrite Hm. simpl.
  rewrite H1, (zip_insert_lookup _ _ _ i (NC_ID n) v); [done|done| |done].
  by rewrite list_lookup_fmap, Hi.
Qed.

Lemma cost_of_node_Ok prices n v :
  cost_of_node prices n = Ok v <->
  exists it, NC_Labels n !! LabelInstanceType = Some it /\ it <> "" /\
    prices !! it = Some v /\ flt v fzero = false.
Proof.
  unfold cost_of_node. split.
  - intros H. inv_result. subst. exists (default "" (NC_Labels n !! LabelInstanceType)).
    destruct (NC_Labels n !! LabelInstanceType) as [it|]; simpl in *; [|done].
    split_and!; [done| |done|done]. by intros ->.
  - intros (it & -> & Hne & Hp & Hn). simpl. destruct it; [done|]. simpl. rewrite Hp. simpl.
    by rewrite Hn.
Qed.

Lemma latency_of_node_Ok city row n v :
  latency_of_node city row n = Ok v <->
  NC_Region n <> "" /\ row !! NC_Region n = Some v /\ flt v fzero = false.
Proof.
  unfold latency_of_node. split.
  - intros H. inv_result. subst. split_and!; [|done|done]. intros E. by rewrite E in *.
  - intros (Hne & Hp & Hn). destruct (NC_Region n) eqn:E; [done|]. simpl. rewrite Hp. simpl.
    by rewrite Hn.
Qed.

(** ** Normalisation *)

Lemma normalize_cases v mn mx :
  is_nan v = false -> is_inf v = false -> fle mx mn = false ->
  normalizeTo0_100 v mn mx =
    fdiv (fmul (fsub (if flt mx (if flt v mn then mn else v) then mx
                      else if flt v mn then mn else v) mn) f100) (fsub mx mn).
Proof. unfold normalizeTo0_100. by intros -> -> ->. Qed.

Lemma f100_never_neg : never_neg f100.
Proof. done. Qed.

#[export] Hint Resolve f100_never_neg : go.

(** Clamping moves a value into the range. *)
Lemma clamp_ge v mn mx :
  is_nan v = false -> fle mn mx = true ->
  fle mn (if flt mx (if flt v mn then mn else v) then mx else if flt v mn then mn else v) = true.
Proof.
  intros Nv Hle. destruct (fle_not_nan _ _ Hle).
  destruct (flt v mn) eqn:?; destruct (flt mx _) eqn:?; auto with go.
Qed.

Lemma normalize_nonneg v mn mx :
  fvalid v -> fvalid mn -> fvalid mx -> is_nan mn = false -> is_nan mx = false ->
  never_neg (normalizeTo0_100 v mn mx).
Proof.
  intros Vv Vmn Vmx Nmn Nmx.
  destruct (is_nan v) eqn:Nv; [unfold normalizeTo0_100; by rewrite Nv|].
  destruct (is_inf v) eqn:Iv; [unfold normalizeTo0_100; by rewrite Nv, Iv|].
  destruct (fle mx mn) eqn:Hle; [unfold normalizeTo0_100; by rewrite Nv, Iv, Hle|].
  rewrite normalize_cases by done. apply fle_false_flt in Hle; [|done..].
  apply fdiv_pos_never_neg; [|by apply fsub_pos].
  apply fmul_never_neg; [|auto with go].
  apply fsub_never_neg; [|done|apply clamp_ge; auto with go].
  destruct (flt v mn), (flt mx _); done.
Qed.

Lemma fdiv_zero s y : fpos y = true -> feq (fdiv (S754_zero s) y) fzero = true.
Proof. by destruct y as [[]|[]| |[]], s. Qed.

Lemma fsub_feq x y :
  is_inf x = false -> feq x y = true -> exists s, fsub x y = S754_zero s.
Proof.
  intros Ix Heq. apply feq_iff in Heq as [[Nx ->]|(s & s' & -> & ->)].
  - exists false. by apply fsub_diag.
  - destruct s, s'; eexists; reflexivity.
Qed.

Lemma normalize_low v mn mx :
  fvalid v -> fvalid mn -> fvalid mx -> is_nan mx = false ->
  is_inf v = false -> fle v mn = true ->
  feq (normalizeTo0_100 v mn mx) fzero = true.
Proof.
  intros Vv Vmn Vmx Nmx Iv Hv. destruct (fle_not_nan _ _ Hv) as [Nv Nmn].
  destruct (fle mx mn) eqn:Hle; [unfold normalizeTo0_100; by rewrite Nv, Iv, Hle|].
  rewrite normalize_cases by done. apply fle_false_flt in Hle; [|done..].
  set (w := if flt v mn then mn else v).
  assert (Hw : feq w mn = true).
  { unfold w. destruct (flt v mn) eqn:E; [apply fle_antisym; auto with go|].
    apply fle_antisym; auto with go. }
  assert (Hc : flt mx w = false).
  { apply fle_flt_false. apply fle_trans with mn; [|auto with go].
    unfold w. destruct (flt v mn) eqn:E; auto with go. }
  rewrite Hc. assert (Iw : is_inf w = false).
  { apply feq_iff in Hw as [[_ Hw]|(s & s' & -> & _)]; [|done].
    destruct (is_inf w) eqn:E; [|done]. exfalso. unfold w in *.
    destruct (flt v mn) eqn:Hlt; [|congruence].
    destruct mn as [|[]| |]; try done.
    - by destruct v as [|[]| |].
    - by destruct mx as [|[]| |[]]. }
  destruct (fsub_feq w mn Iw Hw) as [s ->].
  assert (fmul (S754_zero s) f100 = S754_zero s) as -> by (by destruct s).
  apply fdiv_zero. by apply fsub_pos.
Qed.

Lemma foldM_collect_ok value nodes acc0 :
  is_ok (foldM (collect value) acc0 nodes) = true <->
  forall n, n ∈ nodes -> exists v, value n = Ok v.
Proof.
  apply foldM_ok_iff. intros a n. unfold collect. destruct (value n); naive_solver.
Qed.

(** The score matrix of a plugin whose score depends on the node alone. *)
Lemma collect_grid value ctx acc r n v :
  NoDup (NC_ID <$> PC_Nodes ctx) ->
  foldM (collect value) (∅, None) (PC_Nodes ctx) = Ok acc ->
  (forall n v, n ∈ PC_Nodes ctx -> value n = Ok v -> fnum v) ->
  r ∈ PC_Replicas ctx -> n ∈ PC_Nodes ctx -> value n = Ok v ->
  exists s, replicate_rows ctx (normalize_values acc) !! r ≫= (.!! NC_ID n) = Some s /\
    never_neg s /\
    ((forall n' v', n' ∈ PC_Nodes ctx -> value n' = Ok v' -> fle v v' = true) -> feq s fzero = true).
Proof.
  intros Hnd Hf Hnum Hr Hn Hv. exists (normalize_values acc (NC_ID n)).
  split; [by apply replicate_rows_lookup|].
  destruct (collect_scores value (PC_Nodes ctx) acc) as (vs & mn & mx & Hvs & Hm & Hs); [|done..|].
  { intros E. rewrite E in Hn. set_solver. }
  assert (Hall : forall w, w ∈ vs -> fnum w /\ exists n', n' ∈ PC_Nodes ctx /\ value n' = Ok w).
  { intros w Hw. apply list_elem_of_lookup in Hw as [i Hi].
    destruct (Forall2_lookup_r _ _ _ _ _ Hvs Hi) as (n' & Hi' & Hw).
    apply list_elem_of_lookup_2 in Hi'. eauto. }
  destruct (minmax_spec vs mn mx) as (Hmn & Hmx & Hb); [|done|].
  { apply Forall_forall. intros w Hw. by apply Hall. }
  rewrite (Hs n v) by done. destruct (Hnum n v Hn Hv) as (Vv & Nv & Iv).
  destruct (Hall mn Hmn) as [(Vmn & Nmn & _) (nmn & Hnmn & Hvmn)].
  destruct (Hall mx Hmx) as [(Vmx & Nmx & _) _].
  split; [by apply normalize_nonneg|]. intros Hbest. apply normalize_low; eauto.
Qed.

(** ** Properties *)

(** A value between finite bounds never gets a negative score, whatever
    the rounding of the subtraction, the multiplication and the division. *)
Theorem normalizeTo0_100_never_neg (v mn mx : f64) :
  fvalid v -> fvalid mn -> fvalid mx -> is_nan mn = false -> is_nan mx = false ->
  never_neg (normalizeTo0_100 v mn mx).
Proof. apply normalize_nonneg. Qed.

Lemma normalizeTo0_100_never_neg_witness :
  never_neg (normalizeTo0_100 (f64_of_Z 7) (f64_of_Z 3) (f64_of_Z 11)).
Proof. apply (normalizeTo0_100_never_neg (f64_of_Z 7) (f64_of_Z 3) (f64_of_Z 11)); reflexivity. Defined.

(** the upper end of the documented range [0,100] is not kept: with minimum
    0 the largest value 0.69 itself is scored just above 100, because
    [(v - min) * 100] is rounded before the division. *)
Theorem normalizeTo0_100_above_100 :
  exists v, fnum v /\ flt f100 (normalizeTo0_100 v fzero v) = true.
Proof. exists (fdiv (f64_of_Z 69) f100). by vm_compute. Qed.

(** [CostPlugin.ScorePlacement] succeeds exactly when there is nothing to
    score, or the price table is not empty and every node has a non-empty
    instance-type label with a price that is not negative. *)
Theorem Cost_ScorePlacement_ok_iff (InstancePrice : gmap string f64) (ctx : PluginContext) :
  is_ok (Cost_ScorePlacement InstancePrice ctx) = true <->
  PC_Replicas ctx = [] \/ PC_Nodes ctx = [] \/
  InstancePrice <> ∅ /\
  forall n, n ∈ PC_Nodes ctx -> exists it price,
    NC_Labels n !! LabelInstanceType = Some it /\ it <> "" /\
    InstancePrice !! it = Some price /\ flt price fzero = false.
Proof.
  unfold Cost_ScorePlacement, nothing_to_score.
  destruct (PC_Replicas ctx) as [|r rs] eqn:Er; [simpl; naive_solver|].
  destruct (PC_Nodes ctx) as [|n ns] eqn:En; [simpl; naive_solver|]. rewrite <-En.
  case_bool_decide as Hp; simpl.
  { split; [done|]. intros [?|[?|[? _]]]; [done|congruence|done]. }
  transitivity (is_ok (foldM (collect (cost_of_node InstancePrice)) (∅, None) (PC_Nodes ctx)) = true).
  { change (foldM (cost_step InstancePrice)) with (foldM (collect (cost_of_node InstancePrice))).
    by destruct (foldM _ _ _). }
  rewrite foldM_collect_ok. setoid_rewrite cost_of_node_Ok. split.
  - intros Hall. right. right. split; [done|]. intros m Hm.
    destruct (Hall m Hm) as (v & it & ?). eauto.
  - intros [?|[?|[_ Hall]]] m Hm; [done|congruence|].
    destruct (Hall m Hm) as (it & v & ?). eauto.
Qed.

(** With distinct nodes and finite prices, the cost plugin scores every
    replica on every node, never below zero, and a node no dearer than any other
    gets score 0: minimising the score prefers the cheapest nodes. *)
Theorem Cost_ScorePlacement_scores InstancePrice ctx M r n price :
  Cost_ScorePlacement InstancePrice ctx = Ok M ->
  NoDup (NC_ID <$> PC_Nodes ctx) ->
  map_Forall (fun _ p => fnum p) InstancePrice ->
  r ∈ PC_Replicas ctx -> n ∈ PC_Nodes ctx -> cost_of_node InstancePrice n = Ok price ->
  exists s, M !! r ≫= (.!! NC_ID n) = Some s /\ never_neg s /\
    ((forall n' p', n' ∈ PC_Nodes ctx -> cost_of_node InstancePrice n' = Ok p' ->
        fle price p' = true) -> feq s fzero = true).
Proof.
  intros Hok Hnd Hnum Hr Hn Hv. unfold Cost_ScorePlacement in Hok.
  rewrite (nothing_to_score_false ctx r n) in Hok by done. inv_result.
  eapply collect_grid; [done|eassumption| |done..].
  intros m v _ Hm. apply cost_of_node_Ok in Hm as (it & _ & _ & Hp & _). by apply (Hnum it).
Qed.

(** Two nodes of two instance types, one replica: data for the witnesses. *)
Definition demo_node (name it region : string) : NodeContext :=
  mkNodeContext (mkNode "c1" name) {[LabelInstanceType := it]} region 1000 2000 4096.
Definition demo_ctx : PluginContext :=
  mkPluginContext [mkReplica "default" "web" 0]
    [demo_node "n1" "small" "eu"; demo_node "n2" "large" "us"]
    (Some {[mkReplica "default" "web" 0 := mkRes 500 256]}) ∅.
Definition demo_prices : gmap string f64 :=
  {["small" := f64_of_Z 2; "large" := f64_of_Z 5]}.

Lemma Cost_ScorePlacement_scores_witness :
  exists M s,
    Cost_ScorePlacement demo_prices demo_ctx = Ok M /\
    M !! mkReplica "default" "web" 0 ≫= (.!! mkNode "c1" "n1") = Some s /\ never_neg s /\
    feq s fzero = true.
Proof.
  destruct (is_ok_Ok (Cost_ScorePlacement demo_prices demo_ctx)) as [M E]; [reflexivity|].
  destruct (Cost_ScorePlacement_scores demo_prices demo_ctx M (mkReplica "default" "web" 0)
              (demo_node "n1" "small" "eu") (f64_of_Z 2)) as (s & H1 & H2 & H3).
  - exact E.
  - by_computation.
  - by_computation.
  - apply list_elem_of_here.
  - apply list_elem_of_here.
  - reflexivity.
  - exists M, s. split; [exact E|]. split; [exact H1|]. split; [exact H2|]. apply H3.
    intros n' p' Hn'. revert n' Hn' p'. by_elements; intros p' Hp; vm_compute in Hp; injection Hp as <-; reflexivity.
Defined.

(** The same for latency: with a latency row for the source city that covers
    the regions of all nodes, scores are never below zero and the nodes with the
    least latency get score 0. *)
Theorem Latency_ScorePlacement_scores SourceCity LatencyMs ctx row :
  SourceCity <> "" -> LatencyMs !! SourceCity = Some row ->
  map_Forall (fun _ l => fnum l /\ flt l fzero = false) row ->
  NoDup (NC_ID <$> PC_Nodes ctx) ->
  (forall n, n ∈ PC_Nodes ctx -> NC_Region n <> "" /\ is_Some (row !! NC_Region n)) ->
  exists M, Latency_ScorePlacement SourceCity LatencyMs ctx = Ok M /\
    forall r n lat, r ∈ PC_Replicas ctx -> n ∈ PC_Nodes ctx -> row !! NC_Region n = Some lat ->
      exists s, M !! r ≫= (.!! NC_ID n) = Some s /\ never_neg s /\
        ((forall n' l', n' ∈ PC_Nodes ctx -> row !! NC_Region n' = Some l' ->
            fle lat l' = true) -> feq s fzero = true).
Proof.
  intros Hcity Hrow Hlat Hnd Hreg. unfold Latency_ScorePlacement.
  destruct (nothing_to_score ctx) eqn:E.
  { eexists. split; [done|]. intros r n lat Hr Hn. by rewrite (nothing_to_score_false ctx r n) in E. }
  assert (Hval : forall n l, n ∈ PC_Nodes ctx -> row !! NC_Region n = Some l <->
            latency_of_node SourceCity row n = Ok l).
  { intros n l Hn. rewrite latency_of_node_Ok. split; [|naive_solver].
    intros Hl. split_and!; [by apply Hreg|done|by apply (Hlat _ _ Hl)]. }
  assert (Hne : row <> ∅).
  { intros ->. unfold nothing_to_score in E. destruct (PC_Replicas ctx); [done|].
    destruct (PC_Nodes ctx) as [|n]; [done|]. destruct (Hreg n) as [_ [? ?]]; [set_solver|done]. }
  unfold requireNonEmpty, nonempty_row. rewrite Hrow. destruct SourceCity; [done|]. simpl.
  rewrite bool_decide_false by done. simpl.
  change (foldM (latency_step ?c row)) with (foldM (collect (latency_of_node c row))).
  destruct (foldM _ _ _) as [acc|e] eqn:Hf.
  - simpl. eexists. split; [done|]. intros r n lat Hr Hn Hl.
    destruct (collect_grid _ ctx acc r n lat Hnd Hf) as (s & ? & ? & Hs); [|done|done|by apply Hval|].
    { intros m v Hm Hv. apply Hval in Hv; [|done]. by apply (Hlat _ _ Hv). }
    exists s. split_and!; [done..|]. intros Hbest. apply Hs. intros n' v' Hn' Hv'.
    apply Hval in Hv'; [|done]. eauto.
  - exfalso. assert (Hok : is_ok (foldM (collect (latency_of_node (String a SourceCity) row))
      (∅, None) (PC_Nodes ctx)) = true); [|by rewrite Hf in Hok].
    apply foldM_collect_ok. intros n Hn. destruct (Hreg n Hn) as [_ [l Hl]].
    exists l. by apply Hval.
Qed.

Definition demo_latency : gmap string (gmap string f64) :=
  {["Shanghai" := {["eu" := f64_of_Z 180; "us" := f64_of_Z 140]}]}.

Lemma Latency_ScorePlacement_scores_witness :
  exists M, Latency_ScorePlacement "Shanghai" demo_latency demo_ctx = Ok M.
Proof.
  destruct (Latency_ScorePlacement_scores "Shanghai" demo_latency demo_ctx
    {["eu" := f64_of_Z 180; "us" := f64_of_Z 140]}) as (M & HM & _).
  - discriminate.
  - reflexivity.
  - by_computation.
  - by_computation.
  - by_elements; (split; [discriminate|by eexists]).
  - exists M. exact HM.
Defined.

(** The migration penalty of every replica is the configured one, 100 when
    it is zero; a negative (non-zero) penalty is an error as soon as there is a replica. *)
Theorem Migration_ScoreMigration_spec Penalty ctx :
  PC_Replicas ctx <> [] ->
  Migration_ScoreMigration Penalty ctx =
    if flt Penalty fzero then Err (ErrInvalidPenalty Penalty)
    else Ok (gset_to_gmap (if feq Penalty fzero then f100 else Penalty)
               (list_to_set (PC_Replicas ctx))).
Proof.
  unfold Migration_ScoreMigration. intros Hne.
  assert (Hpen : forall p : f64, build_map (fun _ : ReplicaKey => p) (PC_Replicas ctx) =
            gset_to_gmap p (list_to_set (PC_Replicas ctx))).
  { intros p. apply map_eq. intros k. rewrite lookup_build_map, lookup_gset_to_gmap.
    case_decide; [rewrite option_guard_True|rewrite option_guard_False];
      by rewrite ?elem_of_list_to_set. }
  destruct (PC_Replicas ctx) as [|r rs]; [done|]. rewrite <-Hpen.
  destruct (feq Penalty fzero) eqn:E.
  - assert (flt Penalty fzero = false) as -> by (by destruct Penalty as [[]|[]| |[]]). done.
  - by destruct (flt Penalty fzero).
Qed.

Lemma Migration_ScoreMigration_spec_witness :
  exists M, Migration_ScoreMigration fzero demo_ctx = Ok M /\
    M !! mkReplica "default" "web" 0 = Some f100.
Proof.
  rewrite (Migration_ScoreMigration_spec fzero demo_ctx) by discriminate.
  eexists. split; reflexivity.
Defined.
