(* ===== verification/RawScores.v ===== *)
(** * Scores normalised over all (replica, node) pairs

    The energy and the communication plugin share one shape: a raw value per
    pair of replica and node, computed in nested loops that also track the
    global minimum and maximum, and a last pass that normalises every value
    between them. [prep] is what a replica contributes before the inner loop
    (its checks included), [cell] the raw value on a node. *)

From S2P Require Import Prelude Float64 OptTypes OptErrors Plugins.

Section raw.
Context {X : Type}.
Variable prep : ReplicaKey -> result opt_error X.
Variable cell : X -> NodeContext -> result opt_error f64.

(** One turn of the outer loop: the row of [r] is a fresh map, the running
    extrema continue. *)
Definition raw_row (nodes : list NodeContext) (acc : ScoreMatrix * option (f64 * f64))
    (r : ReplicaKey) : result opt_error (ScoreMatrix * option (f64 * f64)) :=
  x ← prep r;
  row ← foldM (collect (cell x)) (∅, acc.2) nodes;
  Ok (<[r := row.1]> acc.1, row.2).

(** [for r, m := range raw { for nid, v := range m { ... } }]: every entry is
    written to the same key of a fresh map, in any order. *)
Definition normalize_raw (acc : ScoreMatrix * option (f64 * f64)) : ScoreMatrix :=
  let '(mn, mx) := minmax_or_zero acc.2 in
  (fun row : gmap ClusterNodeID f64 => (fun v => normalizeTo0_100 v mn mx) <$> row) <$> acc.1.

Definition raw_scores (ctx : PluginContext) : result opt_error ScoreMatrix :=
  acc ← foldM (raw_row (PC_Nodes ctx)) (∅, None) (PC_Replicas ctx);
  Ok (normalize_raw acc).

(** ** Lemmas *)

(** The raw value of a pair. *)
Definition raw_value (r : ReplicaKey) (n : NodeContext) : result opt_error f64 :=
  x ← prep r; cell x n.

(** State of the outer loop after the replicas [done]. *)
Definition raw_inv (nodes : list NodeContext) (done : list ReplicaKey)
    (acc : ScoreMatrix * option (f64 * f64)) : Prop :=
  (forall r n, r ∈ done -> n ∈ nodes ->
     exists v, raw_value r n = Ok v /\ acc.1 !! r ≫= (.!! NC_ID n) = Some v) /\
  exists vs, acc.2 = minmax vs /\
    (forall v, v ∈ vs <-> exists r n, r ∈ done /\ n ∈ nodes /\ raw_value r n = Ok v).

Lemma raw_row_inv nodes done acc r acc' :
  NoDup (NC_ID <$> nodes) -> raw_inv nodes done acc ->
  raw_row nodes acc r = Ok acc' -> raw_inv nodes (done ++ [r]) acc'.
Proof.
  intros Hnd (Hg & vs & Hm & Hvs) Hrow. unfold raw_row in Hrow.
  inv_result. rename x into px, x0 into row, H into Hprep, H0 into Hrow.
  apply collect_values in Hrow as (ws & Hws & Hr1 & Hr2). simpl in *.
  assert (Hval : forall n v, raw_value r n = Ok v <-> cell px n = Ok v).
  { intros n v. unfold raw_value. rewrite Hprep. done. }
  split.
  - intros r' n Hr' Hn. simpl. destruct (decide (r' = r)) as [->|Hne].
    + rewrite lookup_insert_eq. simpl.
      apply list_elem_of_lookup in Hn as [i Hi].
      destruct (Forall2_lookup_l _ _ _ _ _ Hws Hi) as (v & Hiv & Hv).
      exists v. split; [by apply Hval|]. rewrite Hr1.
      rewrite (zip_insert_lookup _ _ _ i (NC_ID n) v); [done|done| |done].
      by rewrite list_lookup_fmap, Hi.
    + rewrite lookup_insert_ne by done. apply Hg; [set_solver|done].
  - exists (vs ++ ws). simpl. rewrite Hr2, Hm. unfold minmax. rewrite foldl_app. split; [done|].
    intros v. rewrite elem_of_app, Hvs. split.
    + intros [(r' & n & ? & ? & ?)|Hv]; [exists r', n; set_solver|].
      apply list_elem_of_lookup in Hv as [i Hi].
      destruct (Forall2_lookup_r _ _ _ _ _ Hws Hi) as (n & Hin & Hv).
      exists r, n. split_and!; [set_solver|by eapply list_elem_of_lookup_2|by apply Hval].
    + intros (r' & n & Hr' & Hn & Hv). apply elem_of_app in Hr' as [Hr'|Hr'].
      { left. by exists r', n. }
      apply list_elem_of_singleton in Hr' as ->. right.
      apply list_elem_of_lookup in Hn as [i Hi].
      destruct (Forall2_lookup_l _ _ _ _ _ Hws Hi) as (v' & Hiv & Hv').
      apply Hval in Hv. assert (v' = v) as -> by congruence. by eapply list_elem_of_lookup_2.
Qed.

Lemma raw_loop_inv nodes replicas acc :
  NoDup (NC_ID <$> nodes) ->
  foldM (raw_row nodes) (∅, None) replicas = Ok acc -> raw_inv nodes replicas acc.
Proof.
  intros Hnd. apply (foldM_inv (raw_inv nodes)).
  - split; [set_solver|]. exists []. split; [done|]. set_solver.
  - eauto using raw_row_inv.
Qed.

(** Every pair has a raw value, its score is never negative, and the pairs with
    the least raw value have score 0. *)
Lemma raw_scores_grid ctx M r n :
  raw_scores ctx = Ok M -> NoDup (NC_ID <$> PC_Nodes ctx) ->
  (forall r n v, r ∈ PC_Replicas ctx -> n ∈ PC_Nodes ctx -> raw_value r n = Ok v -> fok v) ->
  r ∈ PC_Replicas ctx -> n ∈ PC_Nodes ctx ->
  exists v s, raw_value r n = Ok v /\ M !! r ≫= (.!! NC_ID n) = Some s /\ never_neg s /\
    (is_inf v = false ->
     (forall r' n' v', r' ∈ PC_Replicas ctx -> n' ∈ PC_Nodes ctx -> raw_value r' n' = Ok v' ->
        fle v v' = true) -> feq s fzero = true).
Proof.
  intros Hok Hnd Hnum Hr Hn. unfold raw_scores in Hok.
  inv_result. rename H into Hf, x into acc.
  apply raw_loop_inv in Hf as (Hg & vs & Hm & Hvs); [|done].
  destruct (Hg r n Hr Hn) as (v & Hv & Hl).
  destruct (minmax_nonempty vs) as (mn & mx & Hmm).
  { intros ->. assert (v ∈ []) as H; [|set_solver]. apply Hvs. by exists r, n. }
  exists v, (normalizeTo0_100 v mn mx). split; [done|].
  assert (Hall : forall w, w ∈ vs -> fok w).
  { intros w (r' & n' & ? & ? & ?)%Hvs. by apply (Hnum r' n'). }
  destruct (minmax_spec vs mn mx) as (Hmn & Hmx & Hb); [|done|].
  { apply Forall_forall. intros w Hw. by apply Hall. }
  assert (Hvin : v ∈ vs) by (apply Hvs; by exists r, n).
  destruct (Hall v Hvin), (Hall mn Hmn), (Hall mx Hmx).
  split_and!.
  - unfold normalize_raw. rewrite Hm, Hmm. simpl. rewrite lookup_fmap.
    destruct (acc.1 !! r) as [row|]; [|done]. simpl in *. by rewrite lookup_fmap, Hl.
  - by apply normalize_nonneg.
  - intros Hfin Hbest. apply normalize_low; [done..|].
    apply Hvs in Hmn as (r' & n' & ? & ? & ?). by apply (Hbest r' n').
Qed.

(** The loops fail exactly when some pair has no raw value; with nodes to score,
    a replica that fails its checks has none. *)
Lemma raw_scores_ok ctx :
  PC_Nodes ctx <> [] ->
  is_ok (raw_scores ctx) = true <->
  forall r n, r ∈ PC_Replicas ctx -> n ∈ PC_Nodes ctx -> exists v, raw_value r n = Ok v.
Proof.
  intros Hne. unfold raw_scores.
  transitivity (is_ok (foldM (raw_row (PC_Nodes ctx)) (∅, None) (PC_Replicas ctx)) = true).
  { by destruct (foldM _ _ _). }
  rewrite (foldM_ok_iff (fun r => forall n, n ∈ PC_Nodes ctx -> exists v, raw_value r n = Ok v)).
  { naive_solver. }
  intros acc r. unfold raw_row, raw_value. destruct (prep r) as [x|e]; simpl.
  - rewrite <-(foldM_collect_ok (cell x) (PC_Nodes ctx) (∅, acc.2)).
    by destruct (foldM (collect (cell x)) _ _) as [row|e].
  - split; [done|]. intros H. destruct (PC_Nodes ctx) as [|n ns]; [done|].
    destruct (H n) as [? ?]; [set_solver|done].
Qed.
End raw.
