(* ===== verification/Energy.v ===== *)
(** * The energy plugin (optimizer/plugin_energy.go)

    Marginal watts per core of a node from the power curve of its instance type,
    and the scores built from them. *)

From S2P Require Import Prelude Float64 OptTypes OptErrors Plugins RawScores.

Local Open Scope string_scope.
Local Open Scope list_scope.

(** [type PowerSample struct], [type PowerCurve struct]. *)
Record PowerSample := mkSample { Util : f64; Power : f64 }.
Record PowerCurve := mkCurve { Samples : list PowerSample }.

#[export] Instance PowerSample_eq_dec : EqDecision PowerSample.
Proof. solve_decision. Defined.

(** [func(i, j int) bool { return s[i].Util < s[j].Util }]. *)
Definition util_less (a b : PowerSample) : bool := flt (Util a) (Util b).

(** [du := b.Util - a.Util; if du <= 0 { error }; slope := ...; return slope / totalCores]. *)
Definition segment_slope (a b : PowerSample) (totalCores : f64) : result opt_error f64 :=
  let du := fsub (Util b) (Util a) in
  _ ← fail_if (fle du fzero) ErrDuplicateUtil;
  Ok (fdiv (fdiv (fsub (Power b) (Power a)) du) totalCores).

(** The last loop: the first segment [s[i], s[i+1]] that contains [util]. *)
Fixpoint find_segment (util totalCores : f64) (s : list PowerSample) : result opt_error f64 :=
  match s with
  | a :: ((b :: _) as s') =>
      if fle (Util a) util && fle util (Util b) then segment_slope a b totalCores
      else find_segment util totalCores s'
  | _ => Err ErrNoUtilSegment
  end.

(** [float64(milli) / 1000.0]. *)
Definition cores (milli : Z) : f64 := fdiv (f64_of_Z milli) (f64_of_Z 1000).

Definition fone : f64 := f64_of_Z 1.

(** Baseline utilisation of a node, clamped to [0,1]. *)
Definition baseline_util (n : NodeContext) : f64 :=
  let baselineUsed := wrap64 (CPUAllocatableMilli n - CPUFreeMilli n) in
  let baselineUsed := if (baselineUsed <? 0)%Z then 0%Z else baselineUsed in
  let util := fdiv (f64_of_Z baselineUsed) (f64_of_Z (CPUAllocatableMilli n)) in
  let util := if flt util fzero then fzero else util in
  if flt fone util then fone else util.

Section energy.
Context {SORT : GoSort}.

(** [func marginalWattsPerCore(curve PowerCurve, util float64, totalCores float64)];
    [ErrIndexPanic] stands for an index out of range. *)
Definition marginalWattsPerCore (curve : PowerCurve) (util totalCores : f64) : result opt_error f64 :=
  _ ← fail_if (fle totalCores fzero) (ErrInvalidTotalCores totalCores);
  _ ← fail_if (length (Samples curve) <? 2)%nat ErrPowerCurveTooShort;
  let s := sort_slice util_less (Samples curve) in
  _ ← checkM (fun p => fail_if (flt (Util p) fzero || flt fone (Util p)) (ErrInvalidUtil (Util p))) s;
  s0 ← require (s !! 0%nat) ErrIndexPanic;
  s1 ← require (s !! 1%nat) ErrIndexPanic;
  if fle util (Util s0) then segment_slope s0 s1 totalCores
  else
    sn ← require (s !! (length s - 1)%nat) ErrIndexPanic;
    sm ← require (s !! (length s - 2)%nat) ErrIndexPanic;
    if fle (Util sn) util then segment_slope sm sn totalCores
    else find_segment util totalCores s.

(** One turn of the loop over the nodes: [coeff[n.ID]]. *)
Definition energy_coeff (InstancePower : gmap string PowerCurve) (key : string) (n : NodeContext)
    : result opt_error f64 :=
  let it := default "" (NC_Labels n !! key) in
  _ ← fail_if (str_empty it) (ErrMissingLabel key (NC_ID n));
  curve ← require (InstancePower !! it) (ErrMissingPowerCurve it (NC_ID n));
  _ ← fail_if (CPUAllocatableMilli n <=? 0)%Z (ErrInvalidCPUAllocatable (NC_ID n));
  marginalWattsPerCore curve (baseline_util n) (cores (CPUAllocatableMilli n)).

Definition energy_coeff_step InstancePower key (coeff : gmap ClusterNodeID f64) (n : NodeContext)
    : result opt_error (gmap ClusterNodeID f64) :=
  w ← energy_coeff InstancePower key n;
  Ok (<[NC_ID n := w]> coeff).

(** The checks on a replica's request before the inner loop. *)
Definition energy_request (requests : gmap ReplicaKey ResourceQuantity) (r : ReplicaKey)
    : result opt_error Z :=
  req ← require (requests !! r) (ErrMissingReplicaRequest r);
  _ ← fail_if (MilliCPU req <=? 0)%Z (ErrInvalidReplicaCPU r (MilliCPU req));
  Ok (MilliCPU req).

(** [coeff[n.ID] * (float64(req.MilliCPU) / 1000.0)]. *)
Definition energy_cell (coeff : gmap ClusterNodeID f64) (milli : Z) (n : NodeContext)
    : result opt_error f64 :=
  Ok (fmul (default fzero (coeff !! NC_ID n)) (cores milli)).

(** [func (p *EnergyPlugin) ScorePlacement(ctx PluginContext)]. *)
Definition Energy_ScorePlacement (InstancePower : gmap string PowerCurve)
    (InstanceTypeLabelKey : string) (ctx : PluginContext) : result opt_error ScoreMatrix :=
  if nothing_to_score ctx then Ok ∅
  else
    _ ← fail_if (bool_decide (InstancePower = ∅)) ErrInstancePowerEmpty;
    let key := if str_empty InstanceTypeLabelKey then LabelInstanceType else InstanceTypeLabelKey in
    requests ← require (PC_ReplicaRequests ctx) ErrReplicaRequestsNil;
    coeff ← foldM (energy_coeff_step InstancePower key) ∅ (PC_Nodes ctx);
    raw_scores (energy_request requests) (energy_cell coeff) ctx.

(** ** Lemmas *)

Definition utils_numbers (l : list PowerSample) : Prop :=
  forall p, p ∈ l -> fnum (Util p) /\ flt (Util p) fzero = false /\ flt fone (Util p) = false.

(** A usable power curve: two samples at least, utilisations in [0,1], no
    utilisation sampled twice. *)
Definition curve_ok (c : PowerCurve) : Prop :=
  (2 <= length (Samples c))%nat /\ NoDup (Samples c) /\ utils_numbers (Samples c) /\
  (forall a b, a ∈ Samples c -> b ∈ Samples c -> feq (Util a) (Util b) = true -> a = b).

(** [a] and [b] are neighbours: no sample lies strictly between them. *)
Definition neighbours (l : list PowerSample) (a b : PowerSample) : Prop :=
  a ∈ l /\ b ∈ l /\ flt (Util a) (Util b) = true /\
  (forall p, p ∈ l -> fle (Util p) (Util a) = true \/ fle (Util b) (Util p) = true).

(** [sort.Slice] by utilisation puts numbers in ascending order. *)
Lemma sorted_utils l :
  utils_numbers l ->
  StronglySorted (fun a b => fle (Util a) (Util b) = true) (sort_slice util_less l).
Proof.
  intros Hu.
  assert (Hle : forall a b, a ∈ l -> b ∈ l -> util_less b a = false -> fle (Util a) (Util b) = true).
  { intros a b Ha Hb. apply flt_false_fle; by apply Hu. }
  assert (Hs : StronglySorted (fun x y => util_less y x = false) (sort_slice util_less l)).
  { apply sort_slice_sorted. split_and!; unfold util_less.
    - intros. apply flt_irrefl.
    - intros. eauto using flt_trans.
    - intros x y z Hx Hy Hz H1 H2. apply fle_flt_false. apply fle_trans with (Util y); auto. }
  assert (Hin : forall x, x ∈ sort_slice util_less l -> x ∈ l) by (intros x; by rewrite sort_slice_perm).
  induction Hs as [|x s Hs IH Hall]; constructor; [apply IH; set_solver|].
  rewrite Forall_forall in *. intros y Hy. apply Hle; [set_solver..|by apply Hall].
Qed.

(** Neighbours in the sorted slice. *)
Lemma sorted_neighbours c l1 a b l2 :
  curve_ok c -> sort_slice util_less (Samples c) = l1 ++ a :: b :: l2 ->
  neighbours (Samples c) a b.
Proof.
  intros (_ & Hnd & Hu & Hd) Hs.
  pose proof (sorted_utils _ Hu) as Hss. rewrite Hs in Hss.
  assert (Hin : forall x, x ∈ Samples c <-> x ∈ l1 ++ a :: b :: l2).
  { intros x. by rewrite <-Hs, sort_slice_perm. }
  assert (Hnd' : NoDup (l1 ++ a :: b :: l2)) by (by rewrite <-Hs, sort_slice_perm).
  assert (Hab : a ∈ Samples c /\ b ∈ Samples c) by (rewrite !Hin; set_solver).
  destruct Hab as [Ha Hb].
  destruct (Hu a Ha) as ((_ & Na & _) & _), (Hu b Hb) as ((_ & Nb & _) & _).
  apply StronglySorted_app in Hss as (Hcross & _ & Hss).
  apply StronglySorted_inv in Hss as [Hss Hab].
  apply StronglySorted_inv in Hss as [_ Hbl]. rewrite Forall_forall in *.
  split_and!; [done|done| |].
  - destruct (flt (Util a) (Util b)) eqn:E; [done|]. exfalso.
    assert (a = b) as ->.
    { apply Hd; [done..|]. apply fle_antisym; [apply Hab; set_solver|by apply flt_false_fle]. }
    apply NoDup_app in Hnd' as (_ & _ & [? _]%NoDup_cons). set_solver.
  - intros p Hp. apply Hin, elem_of_app in Hp as [Hp|Hp].
    + left. apply Hcross; set_solver.
    + apply elem_of_cons in Hp as [->|Hp]; [left; by apply fle_refl|].
      apply elem_of_cons in Hp as [->|Hp]; [right; by apply fle_refl|].
      right. by apply Hbl.
Qed.

Lemma segment_slope_Ok a b totalCores :
  fnum (Util a) -> fnum (Util b) -> flt (Util a) (Util b) = true ->
  segment_slope a b totalCores =
    Ok (fdiv (fdiv (fsub (Power b) (Power a)) (fsub (Util b) (Util a))) totalCores).
Proof.
  intros (Va & _) (Vb & _) Hlt. unfold segment_slope.
  pose proof (fsub_pos (Util b) (Util a) Vb Va Hlt) as Hpos.
  assert (fle (fsub (Util b) (Util a)) fzero = false) as ->; [|done].
  by destruct (fsub _ _) as [|[]| |[]].
Qed.

Lemma find_segment_cons util totalCores a b s :
  find_segment util totalCores (a :: b :: s) =
    if fle (Util a) util && fle util (Util b) then segment_slope a b totalCores
    else find_segment util totalCores (b :: s).
Proof. reflexivity. Qed.

(** The loop finds a segment when [util] lies between the ends of the slice. *)
Lemma find_segment_Ok util totalCores s :
  is_nan util = false -> (forall p, p ∈ s -> is_nan (Util p) = false) ->
  (exists s0, head s = Some s0 /\ fle (Util s0) util = true) ->
  (exists sn, last s = Some sn /\ flt util (Util sn) = true) ->
  exists l1 a b l2, s = l1 ++ a :: b :: l2 /\
    find_segment util totalCores s = segment_slope a b totalCores /\
    fle (Util a) util = true /\ fle util (Util b) = true.
Proof.
  intros Hn. induction s as [|a s IH]; [naive_solver|].
  intros Hs (s0 & [= <-] & Ha) (sn & Hsn & Hlast). destruct s as [|b s].
  { injection Hsn as <-. by rewrite (fle_flt_false _ _ Ha) in Hlast. }
  rewrite find_segment_cons. destruct (fle util (Util b)) eqn:Hb.
  - rewrite Ha. exists [], a, b, s. by split_and!.
  - rewrite Ha. cbn [andb]. destruct IH as (l1 & a' & b' & l2 & -> & ? & ? & ?).
    + set_solver.
    + exists b. split; [done|]. apply flt_fle, fle_false_flt; [done| |done]. set_solver.
    + by exists sn.
    + exists (a :: l1), a', b', l2. by split_and!.
Qed.

Lemma utils_checked c (e : f64 -> opt_error) :
  utils_numbers (Samples c) ->
  checkM (fun p => fail_if (flt (Util p) fzero || flt fone (Util p)) (e (Util p)))
    (sort_slice util_less (Samples c)) = Ok tt.
Proof.
  intros Hu. apply checkM_Ok, Forall_forall. intros p Hp. rewrite sort_slice_perm in Hp.
  destruct (Hu p Hp) as (_ & -> & ->). done.
Qed.

(** What the function promises: the slope of one segment between neighbouring
    samples, the one around [util] or the end segment when [util] lies outside
    the samples, per core. *)
Definition marginal_spec (l : list PowerSample) (util totalCores w : f64) : Prop :=
  exists a b, neighbours l a b /\
    w = fdiv (fdiv (fsub (Power b) (Power a)) (fsub (Util b) (Util a))) totalCores /\
    (fle (Util a) util = true /\ fle util (Util b) = true \/
     (forall p, p ∈ l -> fle util (Util p) = true) \/
     (forall p, p ∈ l -> fle (Util p) util = true)).

Lemma marginal_neighbours c util totalCores l1 a b l2 :
  curve_ok c -> sort_slice util_less (Samples c) = l1 ++ a :: b :: l2 ->
  (fle (Util a) util = true /\ fle util (Util b) = true \/
   (forall p, p ∈ Samples c -> fle util (Util p) = true) \/
   (forall p, p ∈ Samples c -> fle (Util p) util = true)) ->
  exists w, segment_slope a b totalCores = Ok w /\ marginal_spec (Samples c) util totalCores w.
Proof.
  intros Hc Hs Hu. pose proof (sorted_neighbours _ _ _ _ _ Hc Hs) as Hn.
  pose proof Hn as (Ha & Hb & Hlt & _). destruct Hc as (_ & _ & Hnum & _).
  eexists. split; [apply segment_slope_Ok; [by apply Hnum|by apply Hnum|done]|].
  exists a, b. by split_and!.
Qed.

(** The ends of the sorted slice bound every sample. *)
Lemma sorted_head_least (s : list PowerSample) s0 rest p :
  StronglySorted (fun a b => fle (Util a) (Util b) = true) s ->
  (forall p, p ∈ s -> is_nan (Util p) = false) ->
  s = s0 :: rest -> p ∈ s -> fle (Util s0) (Util p) = true.
Proof.
  intros Hs Hn -> Hp. apply StronglySorted_inv in Hs as [_ Hall]. rewrite Forall_forall in Hall.
  apply elem_of_cons in Hp as [->|Hp]; [|by apply Hall]. apply fle_refl, Hn, list_elem_of_here.
Qed.

Lemma sorted_last_greatest (s : list PowerSample) l sn p :
  StronglySorted (fun a b => fle (Util a) (Util b) = true) s ->
  (forall p, p ∈ s -> is_nan (Util p) = false) ->
  s = l ++ [sn] -> p ∈ s -> fle (Util p) (Util sn) = true.
Proof.
  intros Hs Hn -> Hp. apply StronglySorted_app in Hs as (Hall & _ & _).
  apply elem_of_app in Hp as [Hp|Hp%list_elem_of_singleton]; [apply Hall; set_solver|].
  subst. apply fle_refl, Hn. set_solver.
Qed.

Lemma marginal_total c util totalCores :
  curve_ok c -> is_nan util = false -> fle totalCores fzero = false ->
  exists w, marginalWattsPerCore c util totalCores = Ok w /\
    marginal_spec (Samples c) util totalCores w.
Proof.
  intros Hc Hn Ht. pose proof Hc as (Hlen & _ & Hu & _).
  unfold marginalWattsPerCore. rewrite Ht. cbn [fail_if mbind result_bind].
  destruct (Nat.ltb_spec (length (Samples c)) 2); [lia|]. cbn [fail_if mbind result_bind].
  rewrite (utils_checked c ErrInvalidUtil) by done. cbn [mbind result_bind].
  pose proof (sorted_utils _ Hu) as Hss.
  assert (Hin : forall x, x ∈ Samples c -> x ∈ sort_slice util_less (Samples c)).
  { intros x. by rewrite sort_slice_perm. }
  assert (Hnn : forall p, p ∈ sort_slice util_less (Samples c) -> is_nan (Util p) = false).
  { intros p. rewrite sort_slice_perm. intros Hp. by apply Hu. }
  rewrite <-(sort_slice_perm util_less) in Hlen.
  remember (sort_slice util_less (Samples c)) as s eqn:Hs. symmetry in Hs.
  destruct (slice_ends s Hlen) as (s0 & s1 & rest & l & sm & sn & E0 & E1 & -> & -> & -> & ->).
  cbn [require mbind result_bind].
  destruct (fle util (Util s0)) eqn:Hlow.
  { apply (marginal_neighbours c util totalCores [] s0 s1 rest Hc); [by rewrite Hs|]. right. left.
    intros p Hp. apply fle_trans with (Util s0); [done|]. by eapply sorted_head_least; eauto. }
  destruct (fle (Util sn) util) eqn:Hhigh.
  { apply (marginal_neighbours c util totalCores l sm sn [] Hc); [by rewrite Hs|]. right. right.
    intros p Hp. apply fle_trans with (Util sn); [|done].
    apply (sorted_last_greatest s (l ++ [sm])); eauto. by rewrite <-app_assoc. }
  destruct (find_segment_Ok util totalCores s Hn Hnn) as (l1 & a & b & l2 & E & -> & Ha & Hb).
  - exists s0. split; [by rewrite E0|]. apply flt_fle, fle_false_flt; [done| |done].
    apply Hnn. rewrite E0. set_solver.
  - exists sn. split; [rewrite E1; by rewrite last_app|].
    apply fle_false_flt; [|done|done]. apply Hnn. rewrite E1. set_solver.
  - apply (marginal_neighbours c util totalCores l1 a b l2 Hc); [by rewrite Hs|]. by left.
Qed.
End energy.

Lemma energy_coeff_loop_ok InstancePower key {SORT : GoSort} nodes acc :
  is_ok (foldM (energy_coeff_step InstancePower key) acc nodes) = true <->
  forall n, n ∈ nodes -> is_ok (energy_coeff InstancePower key n) = true.
Proof.
  apply foldM_ok_iff. intros a n. unfold energy_coeff_step.
  by destruct (energy_coeff InstancePower key n).
Qed.

Lemma energy_request_Ok requests r milli :
  energy_request requests r = Ok milli <->
  exists req, requests !! r = Some req /\ MilliCPU req = milli /\ (0 < milli)%Z.
Proof.
  unfold energy_request. destruct (requests !! r) as [req|]; simpl; [|naive_solver].
  destruct (Z.leb_spec (MilliCPU req) 0); simpl; split; try naive_solver lia.
Qed.

(** ** Properties *)

(** C38: for a usable power curve (two samples at least, utilisations in [0,1]
    and pairwise different, in any order) and a utilisation that is a number,
    [marginalWattsPerCore] always returns: the slope between two neighbouring
    samples that enclose the utilisation (the first or last two when it lies
    outside), per core. No segment is missed, no index is out of range, and no
    zero division happens, whatever order [sort.Slice] gives. *)
Theorem marginalWattsPerCore_total {SORT : GoSort} (c : PowerCurve) (util totalCores : f64) :
  curve_ok c -> is_nan util = false -> fle totalCores fzero = false ->
  exists w, marginalWattsPerCore c util totalCores = Ok w /\
    marginal_spec (Samples c) util totalCores w.
Proof. apply marginal_total. Qed.

Definition demo_curve : PowerCurve :=
  mkCurve [mkSample (f64_of_Z 1) (f64_of_Z 200); mkSample fzero (f64_of_Z 80);
           mkSample (fdiv (f64_of_Z 1) (f64_of_Z 2)) (f64_of_Z 120)].

Lemma marginalWattsPerCore_total_witness :
  exists w, marginalWattsPerCore demo_curve (fdiv (f64_of_Z 3) (f64_of_Z 4)) (f64_of_Z 4) = Ok w /\
    w = f64_of_Z 40.
Proof.
  destruct (marginalWattsPerCore_total demo_curve (fdiv (f64_of_Z 3) (f64_of_Z 4)) (f64_of_Z 4))
    as (w & Hw & _); [|reflexivity|reflexivity|].
  - split; [simpl; lia|]. split; [by_computation|]. split.
    + unfold utils_numbers. by_elements; by_computation.
    + intros a b Ha Hb. revert a Ha b Hb. by_elements; by_elements; vm_compute; congruence.
  - exists w. split; [exact Hw|]. vm_compute in Hw. injection Hw as <-. reflexivity.
Defined.

(** [EnergyPlugin.ScorePlacement] succeeds exactly when there is nothing to
    score, or power curves and requests are given, every node has a marginal
    power, and every replica asks for a positive amount of CPU. *)
Theorem Energy_ScorePlacement_ok_iff {SORT : GoSort} InstancePower key ctx :
  is_ok (Energy_ScorePlacement InstancePower key ctx) = true <->
  PC_Replicas ctx = [] \/ PC_Nodes ctx = [] \/
  InstancePower <> ∅ /\
  exists requests, PC_ReplicaRequests ctx = Some requests /\
    (forall n, n ∈ PC_Nodes ctx ->
       is_ok (energy_coeff InstancePower (if str_empty key then LabelInstanceType else key) n) = true) /\
    (forall r, r ∈ PC_Replicas ctx -> exists req, requests !! r = Some req /\ (0 < MilliCPU req)%Z).
Proof.
  unfold Energy_ScorePlacement, nothing_to_score.
  destruct (PC_Replicas ctx) as [|r0 rs] eqn:Er; [simpl; naive_solver|].
  destruct (PC_Nodes ctx) as [|n0 ns] eqn:En; [simpl; naive_solver|]. rewrite <-En, <-Er.
  assert (Hn : n0 ∈ PC_Nodes ctx) by (rewrite En; set_solver).
  case_bool_decide as Hp; simpl.
  { split; [done|]. intros [?|[?|[? _]]]; congruence. }
  destruct (PC_ReplicaRequests ctx) as [requests|]; simpl.
  2: { split; [done|]. intros [?|[?|(_ & ? & ? & _)]]; congruence. }
  set (key' := if str_empty key then LabelInstanceType else key).
  pose proof (energy_coeff_loop_ok InstancePower key' (PC_Nodes ctx) ∅) as Hloop.
  destruct (foldM _ _ _) as [coeff|e]; simpl in *.
  2: { split; [done|]. intros [?|[?|(_ & ? & _ & Hall & _)]]; [congruence..|]. by apply Hloop. }
  rewrite raw_scores_ok by (by rewrite En). split.
  - intros Hall. right. right. split; [done|]. exists requests. split_and!; [done|by apply Hloop|].
    intros r Hr. destruct (Hall r n0 Hr Hn) as [v Hv]. unfold raw_value in Hv.
    apply bind_Ok in Hv as (milli & Hm & _). apply energy_request_Ok in Hm as (req & ? & <- & ?). eauto.
  - intros [?|[?|(_ & ? & [= <-] & _ & Hreq)]] r n Hr _; [congruence..|].
    destruct (Hreq r Hr) as (req & ? & ?). unfold raw_value.
    rewrite (proj2 (energy_request_Ok requests r (MilliCPU req))) by eauto.
    eexists. reflexivity.
Qed.
