(* ===== verification/Communication.v ===== *)
(** * The communication plugin (optimizer/plugin_communication.go)

    The centroid region of a service, the cost of placing a replica as the sum
    of the latencies to the centroids of the services it depends on, and the
    average latency of a placement. Reading a nil map is reading an empty one, so
    the optional maps of the plugin are plain maps. *)

From S2P Require Import Prelude Float64 OptTypes OptErrors Plugins RawScores.

Local Open Scope string_scope.
Local Open Scope list_scope.

(** [type CommunicationPlugin struct]. *)
Record CommunicationPlugin := mkComm {
  Dependencies : gmap NamespacedName (list NamespacedName);
  RegionLatencyMs : gmap string (gmap string f64);
  ReplicaService : gmap ReplicaKey NamespacedName;
  NodeRegion : gmap ClusterNodeID string;
  CurrentReplicaRegion : gmap ReplicaKey string
}.

(** [func lookupRegionLatency(mat, a, b)]. *)
Definition lookupRegionLatency (mat : gmap string (gmap string f64)) (a b : string)
    : result opt_error f64 :=
  row ← require (mat !! a) (ErrMissingRegionRow a);
  v ← require (row !! b) (ErrMissingRegionLatency a b);
  _ ← fail_if (flt v fzero) (ErrInvalidRegionLatency a b v);
  Ok v.

(** [if svc.Namespace == "" { s.Name == svc.Name } else { s == svc }]. *)
Definition service_matches (svc s : NamespacedName) : bool :=
  if str_empty (NN_Namespace svc) then String.eqb (NN_Name s) (NN_Name svc)
  else bool_decide (s = svc).

(** The first loop of [computeServiceCentroidRegion], over the replicas in the
    order the map yields them. *)
Definition service_regions (svc : NamespacedName) (currentReplicaRegion : gmap ReplicaKey string)
    (replicas : list (ReplicaKey * NamespacedName)) : list string :=
  omap (fun '(rk, s) =>
    if service_matches svc s then
      let reg := default "" (currentReplicaRegion !! rk) in
      if str_empty reg then None else Some reg
    else None) replicas.

(** [sum / float64(len(regions))] for a candidate region. *)
Definition average_latency (mat : gmap string (gmap string f64)) (regions : list string)
    (cand : string) : result opt_error f64 :=
  sum ← foldM (fun sum r => v ← lookupRegionLatency mat cand r; Ok (fadd sum v)) fzero regions;
  Ok (fdiv sum (f64_of_Z (Z.of_nat (length regions)))).

(** One turn of the loop over the candidates, on the state [best, bestAvg]. *)
Definition centroid_step mat regions (acc : string * f64) (cand : string)
    : result opt_error (string * f64) :=
  avg ← average_latency mat regions cand;
  Ok (if str_empty acc.1 || flt avg acc.2 then (cand, avg) else acc).

(** [reg := n.Region; if r, ok := NodeRegion[n.ID]; ok { reg = r }; if reg == "" { error }]. *)
Definition region_of_node (err : ClusterNodeID -> opt_error) (override : gmap ClusterNodeID string)
    (n : NodeContext) : result opt_error string :=
  let reg := default (NC_Region n) (override !! NC_ID n) in
  _ ← fail_if (str_empty reg) (err (NC_ID n));
  Ok reg.

(** The loop over the nodes that fills [nodeRegion]. *)
Definition node_regions (err : ClusterNodeID -> opt_error) (override : gmap ClusterNodeID string)
    (nodes : list NodeContext) : result opt_error (gmap ClusterNodeID string) :=
  foldM (fun m n => reg ← region_of_node err override n; Ok (<[NC_ID n := reg]> m)) ∅ nodes.

(** Regions of the current replicas: the given ones, or those of the placement. *)
Definition current_regions (p : CommunicationPlugin) (nodeRegion : gmap ClusterNodeID string)
    (placement : gmap ReplicaKey ClusterNodeID) : gmap ReplicaKey string :=
  if decide (CurrentReplicaRegion p = ∅) then omap (fun nid => nodeRegion !! nid) placement
  else CurrentReplicaRegion p.

(** The checks on the plugin's data, in the order of the code. *)
Definition comm_inputs_given (p : CommunicationPlugin) : result opt_error unit :=
  _ ← fail_if (bool_decide (Dependencies p = ∅)) ErrDependenciesEmpty;
  _ ← fail_if (bool_decide (RegionLatencyMs p = ∅)) ErrRegionLatencyEmpty;
  fail_if (bool_decide (ReplicaService p = ∅)) ErrReplicaServiceEmpty.

Section communication.
Context {MAPS : MapOrder}.

(** [func computeServiceCentroidRegion]; [t] numbers its first [range] loop. *)
Definition computeServiceCentroidRegion (t : nat) (svc : NamespacedName)
    (currentReplicaRegion : gmap ReplicaKey string)
    (replicaService : gmap ReplicaKey NamespacedName)
    (regionLatencyMs : gmap string (gmap string f64)) : result opt_error string :=
  let regions := service_regions svc currentReplicaRegion (go_range t replicaService) in
  _ ← fail_if (length regions =? 0)%nat (ErrNoReplicaRegions svc);
  best ← foldM (centroid_step regionLatencyMs regions) ("", fzero)
           (go_range (S t) regionLatencyMs).*1;
  _ ← fail_if (str_empty best.1) ErrNoCandidateRegions;
  Ok best.1.

(** One dependency of the centroid loop; [acc.2] numbers the [range] loops. *)
Definition centroid_of_dep (p : CommunicationPlugin) (cur : gmap ReplicaKey string)
    (acc : gmap NamespacedName string * nat) (dep : NamespacedName)
    : result opt_error (gmap NamespacedName string * nat) :=
  match acc.1 !! dep with
  | Some _ => Ok acc
  | None =>
      cr ← computeServiceCentroidRegion acc.2 dep cur (ReplicaService p) (RegionLatencyMs p);
      Ok (<[dep := cr]> acc.1, acc.2 + 2)%nat
  end.

(** [for svc := range p.Dependencies { for _, dep := range deps { ... } }]. *)
Definition centroids (t : nat) (p : CommunicationPlugin) (cur : gmap ReplicaKey string)
    : result opt_error (gmap NamespacedName string * nat) :=
  foldM (fun acc e => foldM (centroid_of_dep p cur) acc e.2) (∅, S t)
    (go_range t (Dependencies p)).

(** [svc, ok := p.ReplicaService[r]; deps := p.Dependencies[svc]]. *)
Definition deps_of_replica (p : CommunicationPlugin) (r : ReplicaKey)
    : result opt_error (ReplicaKey * list NamespacedName) :=
  svc ← require (ReplicaService p !! r) (ErrMissingReplicaService r);
  Ok (r, default [] (Dependencies p !! svc)).

(** [sum := 0.0; for _, dep := range deps { sum += lat }] with the wrapped error. *)
Definition comm_cost (mat : gmap string (gmap string f64)) (nodeRegion : gmap ClusterNodeID string)
    (centroid : gmap NamespacedName string) (x : ReplicaKey * list NamespacedName)
    (n : NodeContext) : result opt_error f64 :=
  let regJ := default "" (nodeRegion !! NC_ID n) in
  foldM (fun sum dep =>
    match lookupRegionLatency mat regJ (default "" (centroid !! dep)) with
    | Err e => Err (ErrCommCost x.1 e)
    | Ok lat => Ok (fadd sum lat)
    end) fzero x.2.

(** [func (p *CommunicationPlugin) scorePlacementWithLogger(diagCtx, ctx)]. *)
Definition Communication_ScorePlacement (t : nat) (p : CommunicationPlugin) (ctx : PluginContext)
    : result opt_error ScoreMatrix :=
  if nothing_to_score ctx then Ok ∅
  else
    _ ← comm_inputs_given p;
    nodeRegion ← node_regions ErrMissingRegion (NodeRegion p) (PC_Nodes ctx);
    let cur := current_regions p nodeRegion (PC_CurrentPlacement ctx) in
    cs ← centroids t p cur;
    raw_scores (deps_of_replica p) (comm_cost (RegionLatencyMs p) nodeRegion cs.1) ctx.

(** Sum and count of the latencies of one replica over its dependencies. *)
Definition replica_latency mat (centroid : gmap NamespacedName string) (regJ : string)
    (deps : list NamespacedName) : result opt_error (f64 * Z) :=
  foldM (fun acc dep =>
    match centroid !! dep with
    | None => Ok acc
    | Some cr => lat ← lookupRegionLatency mat regJ cr; Ok (fadd acc.1 lat, acc.2 + 1)%Z
    end) (fzero, 0%Z) deps.

(** One turn of the last loop of [AverageCommunicationLatencyMs]; each [continue]
    of the code is an [Ok acc]. *)
Definition average_step (p : CommunicationPlugin) (placement : gmap ReplicaKey ClusterNodeID)
    (nodeRegion : gmap ClusterNodeID string) (centroid : gmap NamespacedName string)
    (acc : f64 * Z) (r : ReplicaKey) : result opt_error (f64 * Z) :=
  match ReplicaService p !! r with
  | None => Ok acc
  | Some svc =>
      match default [] (Dependencies p !! svc), placement !! r ≫= (fun nid => nodeRegion !! nid) with
      | [], _ | _, None => Ok acc
      | deps, Some regJ =>
          rs ← replica_latency (RegionLatencyMs p) centroid regJ deps;
          if (rs.2 =? 0)%Z then Ok acc
          else Ok (fadd acc.1 (fdiv rs.1 (f64_of_Z rs.2)), acc.2 + 1)%Z
      end
  end.

(** [func (p *CommunicationPlugin) AverageCommunicationLatencyMs(ctx)]. *)
Definition AverageCommunicationLatencyMs (t : nat) (p : CommunicationPlugin) (ctx : PluginContext)
    : result opt_error f64 :=
  match PC_Replicas ctx with
  | [] => Ok fzero
  | _ =>
      _ ← comm_inputs_given p;
      nodeRegion ← node_regions ErrMissingRegion (NodeRegion p) (PC_Nodes ctx);
      let cur := current_regions p nodeRegion (PC_CurrentPlacement ctx) in
      cs ← centroids t p cur;
      acc ← foldM (average_step p (PC_CurrentPlacement ctx) nodeRegion cs.1) (fzero, 0%Z)
              (PC_Replicas ctx);
      if (acc.2 =? 0)%Z then Ok fzero else Ok (fdiv acc.1 (f64_of_Z acc.2))
  end.
End communication.

(** ** Lemmas *)

Lemma lookupRegionLatency_Ok mat a b v :
  lookupRegionLatency mat a b = Ok v <->
  exists row, mat !! a = Some row /\ row !! b = Some v /\ never_neg v.
Proof.
  unfold lookupRegionLatency, never_neg. split.
  - intros H. inv_result. naive_solver.
  - intros (row & -> & H & Hv). simpl. rewrite H. simpl. by rewrite Hv.
Qed.

Lemma str_empty_false s : str_empty s = false <-> s <> "".
Proof. by destruct s. Qed.

(** No average over the regions is NaN (a sum of infinities, or no region). *)
Definition averages_are_numbers (mat : gmap string (gmap string f64)) (regions : list string) : bool :=
  forallb (fun c => match average_latency mat regions c with Ok a => negb (is_nan a) | Err _ => true end)
    (map_to_list mat).*1.

Lemma averages_are_numbers_spec mat regions c a :
  averages_are_numbers mat regions = true -> is_Some (mat !! c) ->
  average_latency mat regions c = Ok a -> is_nan a = false.
Proof.
  unfold averages_are_numbers. rewrite forallb_forall. intros Hall [row Hc] Ha.
  specialize (Hall c). rewrite Ha in Hall. apply negb_true_iff, Hall.
  apply list_elem_of_In, list_elem_of_fmap. exists (c, row). split; [done|].
  by apply elem_of_map_to_list.
Qed.

(** The loop over the candidates keeps the best average seen so far. *)
Definition best_so_far (mat : gmap string (gmap string f64)) (regions : list string)
    (done : list string) (acc : string * f64) : Prop :=
  match done with
  | [] => acc.1 = ""
  | _ =>
      acc.1 ∈ done /\ acc.1 <> "" /\ average_latency mat regions acc.1 = Ok acc.2 /\
      forall c, c ∈ done -> exists a, average_latency mat regions c = Ok a /\ fle acc.2 a = true
  end.

Lemma centroid_step_best mat regions done acc cand acc' :
  cand <> "" ->
  (forall c a, c ∈ cand :: done -> average_latency mat regions c = Ok a -> is_nan a = false) ->
  best_so_far mat regions done acc -> centroid_step mat regions acc cand = Ok acc' ->
  best_so_far mat regions (done ++ [cand]) acc'.
Proof.
  intros Hc Hnum Hinv Hstep. unfold centroid_step in Hstep. inv_result.
  rename H into Havg, x into avg.
  assert (Navg : is_nan avg = false) by (apply (Hnum cand); [set_solver|done]).
  destruct done as [|d done].
  { simpl in Hinv. rewrite Hinv. simpl. split_and!; [set_solver|done|done|].
    intros c Hin. apply list_elem_of_singleton in Hin as ->. eauto using fle_refl. }
  destruct Hinv as (Hin & Hne & Hbest & Hall). cbn [app best_so_far].
  assert (Nbest : is_nan acc.2 = false) by (apply (Hnum acc.1); [set_solver|done]).
  rewrite (proj2 (str_empty_false acc.1)) by done. simpl. destruct (flt avg acc.2) eqn:E; simpl.
  - split_and!; [set_solver|done|done|]. intros c Hcin. rewrite app_comm_cons, elem_of_app in Hcin.
    destruct Hcin as [Hcin| ->%list_elem_of_singleton]; [|eauto using fle_refl].
    destruct (Hall c Hcin) as (a & Ha & Hle). exists a. eauto using fle_trans, flt_fle.
  - split_and!; [set_solver|done|done|]. intros c Hcin. rewrite app_comm_cons, elem_of_app in Hcin.
    destruct Hcin as [Hcin| ->%list_elem_of_singleton]; [by apply Hall|].
    exists avg. split; [done|]. by apply flt_false_fle.
Qed.

Lemma centroid_loop_best mat regions cands best :
  (forall c, c ∈ cands -> c <> "") ->
  (forall c a, c ∈ cands -> average_latency mat regions c = Ok a -> is_nan a = false) ->
  foldM (centroid_step mat regions) ("", fzero) cands = Ok best ->
  best_so_far mat regions cands best.
Proof.
  intros Hne Hnum Hf.
  apply (foldM_inv (fun done acc => done ⊆ cands /\ best_so_far mat regions done acc)) in Hf;
    [by destruct Hf|split; [set_solver|done]|].
  intros done c a a' [Hsub Hinv] Hc Hstep. split; [set_solver|].
  apply (centroid_step_best _ _ _ a); [by apply Hne| |done|done].
  intros c' a0 Hc'. apply Hnum. set_solver.
Qed.

Lemma elem_of_range_keys {MAPS : MapOrder} {A} t (m : gmap string A) k :
  k ∈ (go_range t m).*1 <-> is_Some (m !! k).
Proof.
  rewrite list_elem_of_fmap. split.
  - intros ([k' a] & -> & Hin%elem_of_go_range). by eexists.
  - intros [a Ha]. exists (k, a). split; [done|]. by apply elem_of_go_range.
Qed.

(** The entries of a matrix are numbers. *)
Definition matrix_ok (mat : gmap string (gmap string f64)) : Prop :=
  map_Forall (fun _ row => map_Forall (fun _ v => fok v) row) mat.

Lemma comm_cost_value mat nodeRegion centroid x n v :
  matrix_ok mat -> comm_cost mat nodeRegion centroid x n = Ok v -> fok v /\ never_neg v.
Proof.
  unfold comm_cost. intros Hmat Hf.
  apply (foldM_inv (fun _ sum => fok sum /\ never_neg sum)) in Hf; [done|done|].
  intros done dep sum sum' [Hs Hn] _ Hstep. cbv beta in Hstep.
  destruct (lookupRegionLatency _ _ _) as [lat|e] eqn:E; [|done]. inv_result.
  apply lookupRegionLatency_Ok in E as (row & Hrow & Hlat & ?).
  pose proof (Hmat _ _ Hrow _ _ Hlat). split; [by apply fadd_ok|by apply fadd_never_neg].
Qed.

Lemma fpos_feq_false x : fpos x = true -> feq x fzero = false.
Proof. by destruct x as [|[]| |[]]. Qed.

Lemma count_positive z : (0 < z)%Z -> feq (f64_of_Z z) fzero = false /\ never_neg (f64_of_Z z).
Proof.
  intros Hz. split; [|apply f64_of_Z_never_neg; lia].
  apply fpos_feq_false. apply binary_normalize_pos; lia.
Qed.

(** An average of a non-negative sum over a positive count is not negative. *)
Lemma mean_never_neg s z : never_neg s -> (0 < z)%Z -> never_neg (fdiv s (f64_of_Z z)).
Proof. intros Hs Hz. destruct (count_positive z Hz). by apply fdiv_never_neg. Qed.

(** Accumulators (sum, count) whose sum is not negative. *)
Definition mean_acc (acc : f64 * Z) : Prop := never_neg acc.1 /\ (0 <= acc.2)%Z.

Lemma replica_latency_mean mat centroid regJ deps acc :
  replica_latency mat centroid regJ deps = Ok acc -> mean_acc acc.
Proof.
  unfold replica_latency. apply (foldM_inv (fun _ => mean_acc)); [by split|].
  intros _ dep [s z] acc' [Hs Hz] _ Hstep. simpl in *.
  destruct (centroid !! dep) as [cr|]; inv_result; [|by split].
  apply lookupRegionLatency_Ok in H as (_ & _ & _ & ?). split; simpl; [by apply fadd_never_neg|lia].
Qed.

Lemma average_step_mean p placement nodeRegion centroid acc r acc' :
  mean_acc acc -> average_step p placement nodeRegion centroid acc r = Ok acc' -> mean_acc acc'.
Proof.
  intros [Hs Hz] Hstep. unfold average_step in Hstep.
  destruct (ReplicaService p !! r) as [svc|]; [|by inv_result].
  destruct (default [] (Dependencies p !! svc)) as [|d ds]; [by inv_result|].
  destruct (placement !! r ≫= _) as [regJ|]; [|by inv_result].
  apply bind_Ok in Hstep as (rs & Hrs%replica_latency_mean & Hstep). destruct Hrs as [Hrs Hc].
  destruct (Z.eqb_spec rs.2 0); inv_result; [done|].
  split; simpl; [|lia]. apply fadd_never_neg; [done|]. apply mean_never_neg; [done|lia].
Qed.

(** ** Properties *)

(** The centroid region of a service is a region of the latency matrix whose
    average latency to the regions of the service's replicas is least: no other
    region has a smaller one, in whatever order the maps are visited. *)
Theorem computeServiceCentroidRegion_argmin {MAPS : MapOrder} t svc cur rs mat best :
  computeServiceCentroidRegion t svc cur rs mat = Ok best ->
  mat !! "" = None ->
  let regions := service_regions svc cur (go_range t rs) in
  averages_are_numbers mat regions = true ->
  regions <> [] /\ is_Some (mat !! best) /\
  exists b, average_latency mat regions best = Ok b /\
    forall c, is_Some (mat !! c) -> exists a, average_latency mat regions c = Ok a /\ fle b a = true.
Proof.
  intros Hok Hempty regions Hnum. unfold computeServiceCentroidRegion in Hok. fold regions in Hok.
  apply bind_Ok in Hok as (_ & Hlen%fail_if_Ok & Hok).
  apply bind_Ok in Hok as (acc & Hloop & Hok).
  apply bind_Ok in Hok as (_ & Hacc%fail_if_Ok & [= <-]).
  apply Nat.eqb_neq in Hlen. apply centroid_loop_best in Hloop.
  2: { intros c Hc ->. apply elem_of_range_keys in Hc as [? ?]. congruence. }
  2: { intros c a Hc. by apply averages_are_numbers_spec, (elem_of_range_keys (S t)). }
  unfold best_so_far in Hloop. destruct (go_range (S t) mat).*1 as [|c0 cs] eqn:E.
  { by rewrite Hloop in Hacc. }
  destruct Hloop as (Hin & _ & Hb & Hall). rewrite <-E in *. split_and!.
  - intros Hr. by rewrite Hr in Hlen.
  - by eapply elem_of_range_keys.
  - exists acc.2. split; [done|]. intros c Hc. by apply Hall, elem_of_range_keys.
Qed.

Definition demo_service : NamespacedName := mkNN "default" "db".
Definition demo_services : gmap ReplicaKey NamespacedName :=
  {[mkReplica "default" "db" 0 := demo_service; mkReplica "default" "web" 0 := mkNN "default" "web"]}.
Definition demo_regions : gmap ReplicaKey string :=
  {[mkReplica "default" "db" 0 := "us"; mkReplica "default" "web" 0 := "eu"]}.
Definition demo_matrix : gmap string (gmap string f64) :=
  {["eu" := {["eu" := fzero; "us" := f64_of_Z 90]}; "us" := {["eu" := f64_of_Z 80; "us" := f64_of_Z 1]}]}.

Lemma computeServiceCentroidRegion_argmin_witness :
  exists best, computeServiceCentroidRegion 0 demo_service demo_regions demo_services demo_matrix = Ok best /\
    is_Some (demo_matrix !! best).
Proof.
  destruct (is_ok_Ok (computeServiceCentroidRegion 0 demo_service demo_regions demo_services demo_matrix))
    as [best E]; [by_eval|].
  destruct (computeServiceCentroidRegion_argmin 0 demo_service demo_regions demo_services demo_matrix best)
    as (_ & Hb & _); [exact E|by_eval|by_eval|]. exists best. split; [exact E|exact Hb].
Defined.

(** with ties the centroid is whatever region the map iteration yields
    first: the same inputs can give different centroids on different runs, and so
    different scores and plans. *)
Theorem computeServiceCentroidRegion_order_dependent :
  exists svc cur rs mat,
    @computeServiceCentroidRegion map_order_forward 0 svc cur rs mat <>
    @computeServiceCentroidRegion map_order_backward 0 svc cur rs mat.
Proof.
  exists demo_service, demo_regions, demo_services,
    {["eu" := {["us" := fzero]}; "us" := {["us" := fzero]}]}.
  vm_compute. discriminate.
Qed.

(** With distinct nodes and a latency matrix of numbers, every replica is scored on
    every node, never below zero, and a replica whose service depends on nothing
    gets score 0 everywhere. *)
Theorem Communication_ScorePlacement_scores {MAPS : MapOrder} t p ctx M r n :
  Communication_ScorePlacement t p ctx = Ok M ->
  NoDup (NC_ID <$> PC_Nodes ctx) ->
  matrix_ok (RegionLatencyMs p) ->
  r ∈ PC_Replicas ctx -> n ∈ PC_Nodes ctx ->
  exists svc s, ReplicaService p !! r = Some svc /\
    M !! r ≫= (.!! NC_ID n) = Some s /\ never_neg s /\
    (default [] (Dependencies p !! svc) = [] -> feq s fzero = true).
Proof.
  intros Hok Hnd Hmat Hr Hn. unfold Communication_ScorePlacement in Hok.
  rewrite (nothing_to_score_false ctx r n) in Hok by done.
  apply bind_Ok in Hok as (_ & _ & Hok). apply bind_Ok in Hok as (nodeRegion & _ & Hok).
  apply bind_Ok in Hok as (cs & _ & Hok).
  assert (Hval : forall r n v, raw_value (deps_of_replica p)
            (comm_cost (RegionLatencyMs p) nodeRegion cs.1) r n = Ok v -> fok v /\ never_neg v).
  { intros r0 n0 v0 Hv. apply bind_Ok in Hv as (x & _ & Hv). by eapply comm_cost_value. }
  eapply raw_scores_grid in Hok as (v & s & Hv & Hs & Hneg & Hbest);
    [|done|intros; by eapply Hval|done|done].
  unfold raw_value, deps_of_replica in Hv.
  destruct (ReplicaService p !! r) as [svc|] eqn:Esvc; [|done]. exists svc, s.
  split_and!; [done..|]. intros Hdeps. simpl in Hv. rewrite Hdeps in Hv. injection Hv as <-.
  apply Hbest; [done|]. intros r' n' v' _ _ [[_ Nv] Hn']%Hval.
  by apply never_neg_iff in Hn' as [?|?]; [congruence|].
Qed.

(** the average communication latency of a placement is never negative,
    whatever is missing from the inputs. *)
Theorem AverageCommunicationLatencyMs_never_neg {MAPS : MapOrder} t p ctx v :
  AverageCommunicationLatencyMs t p ctx = Ok v -> never_neg v.
Proof.
  unfold AverageCommunicationLatencyMs. destruct (PC_Replicas ctx) as [|r rs]; [intros [= <-]; done|].
  intros Hok. apply bind_Ok in Hok as (_ & _ & Hok). apply bind_Ok in Hok as (nodeRegion & _ & Hok).
  apply bind_Ok in Hok as (cs & _ & Hok). apply bind_Ok in Hok as (acc & Hf & Hok).
  assert (Hacc : mean_acc acc).
  { revert Hf. apply (foldM_inv (fun _ => mean_acc)); [by split|].
    intros _ r' a a' Ha _. by apply average_step_mean. }
  destruct Hacc as [Hs Hz]. destruct (Z.eqb_spec acc.2 0); injection Hok as <-; [done|].
  apply mean_never_neg; [done|lia].
Qed.

Definition demo_comm : CommunicationPlugin :=
  mkComm {[mkNN "default" "web" := [demo_service]]} demo_matrix demo_services ∅ demo_regions.
Definition demo_comm_ctx : PluginContext :=
  mkPluginContext [mkReplica "default" "web" 0; mkReplica "default" "db" 0]
    [demo_node "n1" "small" "eu"; demo_node "n2" "large" "us"] None
    {[mkReplica "default" "web" 0 := mkNode "c1" "n1"]}.

Lemma Communication_ScorePlacement_scores_witness :
  exists M s, Communication_ScorePlacement 0 demo_comm demo_comm_ctx = Ok M /\
    M !! mkReplica "default" "db" 0 ≫= (.!! mkNode "c1" "n1") = Some s /\ feq s fzero = true.
Proof.
  destruct (is_ok_Ok (Communication_ScorePlacement 0 demo_comm demo_comm_ctx)) as [M E]; [by_eval|].
  destruct (Communication_ScorePlacement_scores 0 demo_comm demo_comm_ctx M
    (mkReplica "default" "db" 0) (demo_node "n1" "small" "eu")) as (svc & s & Hsvc & Hs & _ & Hz).
  - exact E.
  - by_computation.
  - by_computation.
  - apply list_elem_of_further, list_elem_of_here.
  - apply list_elem_of_here.
  - exists M, s. split; [exact E|]. split; [exact Hs|]. apply Hz.
    vm_compute in Hsvc. injection Hsvc as <-. reflexivity.
Defined.

Lemma AverageCommunicationLatencyMs_never_neg_witness :
  exists v, AverageCommunicationLatencyMs 0 demo_comm demo_comm_ctx = Ok v /\ never_neg v.
Proof.
  destruct (is_ok_Ok (AverageCommunicationLatencyMs 0 demo_comm demo_comm_ctx)) as [v E]; [by_eval|].
  exists v. split; [exact E|].
  apply (AverageCommunicationLatencyMs_never_neg 0 demo_comm demo_comm_ctx v E).
Defined.
