(* ===== verification/Objective.v ===== *)
(** * Goals and their aggregation (optimizer/objective.go)

    [BuildObjective] runs the plugin of every enabled goal and adds the weighted
    scores into one matrix; the migration goal fills a penalty per replica. The
    statistics gathered for the log are in Diagnostics; the log lines are not
    modelled. *)

From S2P Require Import Prelude Float64 OptTypes OptErrors Plugins RawScores Energy Communication.

Local Open Scope string_scope.
Local Open Scope list_scope.

(** [type WeightedGoal struct]. *)
Record WeightedGoal := mkGoal {
  G_Type : string; Weight : f64; SourceCity : string; TopologyRef : string
}.

(** [type ObjectiveInputs struct]. *)
Record ObjectiveInputs := mkObjectiveInputs {
  Goals : list WeightedGoal;
  OI_Ctx : PluginContext;
  InstancePrice : gmap string f64;
  CityRegionLatencyMs : gmap string (gmap string f64);
  OI_Dependencies : gmap NamespacedName (list NamespacedName);
  OI_RegionLatencyMs : gmap string (gmap string f64);
  OI_ReplicaService : gmap ReplicaKey NamespacedName;
  OI_NodeRegion : gmap ClusterNodeID string;
  InstancePower : gmap string PowerCurve
}.

(** [type ObjectiveOutput struct]; a nil penalty map is [None]. *)
Record ObjectiveOutput := mkObjectiveOutput {
  PlacementScores : ScoreMatrix;
  MigrationPenalty : option (gmap ReplicaKey f64)
}.

(** The communication plugin as [BuildObjective] and the readable metric build it. *)
Definition comm_plugin (inp : ObjectiveInputs) : CommunicationPlugin :=
  mkComm (OI_Dependencies inp) (OI_RegionLatencyMs inp) (OI_ReplicaService inp)
    (OI_NodeRegion inp) ∅.

(** [m[k] += weight * v] on a float64 map: a missing entry reads as zero. *)
Definition add_weighted (weight : f64) (old : option f64) (v : f64) : f64 :=
  fadd (default fzero old) (fmul weight v).

(** [fmt.Errorf("%s plugin: %w", name, err)]. *)
Definition wrap_plugin {A} (name : string) (r : result opt_error A) : result opt_error A :=
  match r with Ok a => Ok a | Err e => Err (ErrPlugin name e) end.

(** State of the loop over the goals: [ps], [migPenalty] and the number of the
    next [range] loop. *)
Record ObjectiveState := mkObjectiveState {
  os_ps : ScoreMatrix;
  os_mig : option (gmap ReplicaKey f64);
  os_loops : nat
}.

(** The matrix of zeros [BuildObjective] starts from. *)
Definition zero_scores (ctx : PluginContext) : ScoreMatrix :=
  build_map (fun _ => build_map (fun _ => fzero) (NC_ID <$> PC_Nodes ctx)) (PC_Replicas ctx).

Section objective.
Context {SORT : GoSort} {MAPS : MapOrder}.

(** [for n, v := range m { dm[n] += weight * v }]. *)
Definition accumulate_row (t : nat) (weight : f64) (dm m : gmap ClusterNodeID f64)
    : gmap ClusterNodeID f64 :=
  foldl (fun dm e => <[e.1 := add_weighted weight (dm !! e.1) e.2]> dm) dm (go_range t m).

(** [func accumulatePlacementScores(dst, add, weight)]; [dst] is owned by the
    caller, so updating it in place is returning it. *)
Definition accumulatePlacementScores (t : nat) (dst add : ScoreMatrix) (weight : f64) : ScoreMatrix :=
  foldl (fun dst e => <[e.1 := accumulate_row (S t) weight (default ∅ (dst !! e.1)) e.2]> dst)
    dst (go_range t add).

(** [for r, v := range pen { migPenalty[r] += g.Weight * v }]. *)
Definition accumulate_penalty (t : nat) (mig pen : gmap ReplicaKey f64) (weight : f64)
    : gmap ReplicaKey f64 :=
  foldl (fun mig e => <[e.1 := add_weighted weight (mig !! e.1) e.2]> mig) mig (go_range t pen).

(** The plugin of a linear goal and its scores; [None] for the other goals. *)
Definition linear_scores (t : nat) (inp : ObjectiveInputs) (g : WeightedGoal)
    : option (result opt_error ScoreMatrix) :=
  if String.eqb (G_Type g) "Cost" then
    Some (wrap_plugin "Cost" (Cost_ScorePlacement (InstancePrice inp) (OI_Ctx inp)))
  else if String.eqb (G_Type g) "Latency" then
    Some (wrap_plugin "Latency"
      (Latency_ScorePlacement (SourceCity g) (CityRegionLatencyMs inp) (OI_Ctx inp)))
  else if String.eqb (G_Type g) "Communication" then
    Some (wrap_plugin "Communication" (Communication_ScorePlacement t (comm_plugin inp) (OI_Ctx inp)))
  else if String.eqb (G_Type g) "Energy" then
    Some (wrap_plugin "Energy" (Energy_ScorePlacement (InstancePower inp) "" (OI_Ctx inp)))
  else None.

(** Loops a goal can execute before its accumulation; the numbers of the loops
    of different goals do not overlap. *)
Definition goal_loops (inp : ObjectiveInputs) : nat :=
  2 * (size (OI_Dependencies inp) + sum_list (length <$> (map_to_list (OI_Dependencies inp)).*2)) + 4.

(** One turn of the loop over the goals. *)
Definition goal_step (inp : ObjectiveInputs) (st : ObjectiveState) (g : WeightedGoal)
    : result opt_error ObjectiveState :=
  let t := os_loops st in
  let next := (t + goal_loops inp)%nat in
  if feq (Weight g) fzero then Ok st
  else if flt (Weight g) fzero then Err (ErrInvalidWeight (G_Type g) (Weight g))
  else match linear_scores t inp g with
  | Some r =>
      sc ← r;
      Ok (mkObjectiveState (accumulatePlacementScores (next - 2) (os_ps st) sc (Weight g)) (os_mig st) next)
  | None =>
      if String.eqb (G_Type g) "Migration" then
        pen ← wrap_plugin "Migration" (Migration_ScoreMigration fzero (OI_Ctx inp));
        Ok (mkObjectiveState (os_ps st)
              (Some (accumulate_penalty t (default ∅ (os_mig st)) pen (Weight g))) next)
      else Err (ErrUnknownGoal (G_Type g))
  end.

(** [func BuildObjective(ctx, in ObjectiveInputs) (ObjectiveOutput, error)]. *)
Definition BuildObjective (t : nat) (inp : ObjectiveInputs) : result opt_error ObjectiveOutput :=
  st ← foldM (goal_step inp) (mkObjectiveState (zero_scores (OI_Ctx inp)) None t) (Goals inp);
  Ok (mkObjectiveOutput (os_ps st) (os_mig st)).
End objective.

(** ** Lemmas *)

(** The score of a pair in a matrix. *)
Definition score_at (M : ScoreMatrix) (r : ReplicaKey) (n : ClusterNodeID) : option f64 :=
  M !! r ≫= (.!! n).

(** One goal's contribution to the score of a pair. *)
Definition add_goal (r : ReplicaKey) (n : ClusterNodeID) (old : option f64) (wm : f64 * ScoreMatrix)
    : option f64 :=
  match score_at wm.2 r n with
  | Some s => Some (fadd (default fzero old) (fmul wm.1 s))
  | None => old
  end.

Lemma accumulate_score_at {MAPS : MapOrder} t dst add w r n :
  score_at (accumulatePlacementScores t dst add w) r n = add_goal r n (score_at dst r n) (w, add).
Proof.
  unfold accumulatePlacementScores, add_goal, score_at.
  rewrite (range_update_lookup t add
    (fun old m => accumulate_row (S t) w (default ∅ old) m) dst r). simpl.
  destruct (add !! r) as [m|]; simpl; [|done].
  unfold accumulate_row. rewrite (range_update_lookup (S t) m (add_weighted w)).
  destruct (m !! n); [|by destruct (dst !! r)].
  by destruct (dst !! r).
Qed.

Lemma accumulate_penalty_lookup {MAPS : MapOrder} t mig pen w r :
  accumulate_penalty t mig pen w !! r =
    match pen !! r with Some v => Some (fadd (default fzero (mig !! r)) (fmul w v)) | None => mig !! r end.
Proof. apply (range_update_lookup t pen (add_weighted w)). Qed.

Lemma zero_scores_at ctx r n :
  r ∈ PC_Replicas ctx -> n ∈ PC_Nodes ctx -> score_at (zero_scores ctx) r (NC_ID n) = Some fzero.
Proof. intros Hr Hn. by apply (replicate_rows_lookup ctx (fun _ => fzero)). Qed.

Definition enabled (g : WeightedGoal) : bool := negb (feq (Weight g) fzero).
Definition is_migration (g : WeightedGoal) : bool := String.eqb (G_Type g) "Migration".

(** Weights and matrices of the linear goals among [gs], each matrix a result of
    the goal's plugin. *)
Inductive goal_matrices {SORT : GoSort} {MAPS : MapOrder} (inp : ObjectiveInputs)
    : list WeightedGoal -> list (f64 * ScoreMatrix) -> Prop :=
| gm_nil : goal_matrices inp [] []
| gm_skip g gs ms : enabled g = false \/ is_migration g = true ->
    goal_matrices inp gs ms -> goal_matrices inp (gs ++ [g]) ms
| gm_goal g gs ms t sc : enabled g = true -> linear_scores t inp g = Some (Ok sc) ->
    goal_matrices inp gs ms -> goal_matrices inp (gs ++ [g]) (ms ++ [(Weight g, sc)]).

(** The penalty of a replica after the goals [gs]. *)
Definition penalty_after (gs : list WeightedGoal) : option f64 :=
  foldl (fun acc g => if enabled g && is_migration g then Some (fadd (default fzero acc) (fmul (Weight g) f100))
                      else acc) None gs.

Section objective_lemmas.
Context {SORT : GoSort} {MAPS : MapOrder} (inp : ObjectiveInputs).

(** What the state holds after the goals [gs]. *)
Definition objective_inv (gs : list WeightedGoal) (st : ObjectiveState) : Prop :=
  exists ms, goal_matrices inp gs ms /\
    (forall r n, r ∈ PC_Replicas (OI_Ctx inp) -> n ∈ PC_Nodes (OI_Ctx inp) ->
       score_at (os_ps st) r (NC_ID n) = foldl (add_goal r (NC_ID n)) (Some fzero) ms) /\
    (forall r, r ∈ PC_Replicas (OI_Ctx inp) ->
       os_mig st ≫= (.!! r) = penalty_after gs) /\
    (is_Some (os_mig st) <-> Exists (fun g => enabled g && is_migration g = true) gs).

Lemma migration_not_linear t g : is_migration g = true -> linear_scores t inp g = None.
Proof. unfold is_migration, linear_scores. intros ->%String.eqb_eq. done. Qed.

Lemma linear_not_migration t g r : linear_scores t inp g = Some r -> is_migration g = false.
Proof. intros Hl. destruct (is_migration g) eqn:E; [|done]. by rewrite migration_not_linear in Hl. Qed.

Lemma penalty_after_snoc gs g :
  penalty_after (gs ++ [g]) =
    if enabled g && is_migration g then Some (fadd (default fzero (penalty_after gs)) (fmul (Weight g) f100))
    else penalty_after gs.
Proof. unfold penalty_after. by rewrite foldl_app. Qed.

Lemma migration_scores_lookup ctx pen r :
  Migration_ScoreMigration fzero ctx = Ok pen -> r ∈ PC_Replicas ctx -> pen !! r = Some f100.
Proof.
  unfold Migration_ScoreMigration. destruct (PC_Replicas ctx) as [|r0 rs]; [set_solver|].
  intros H Hr. vm_compute (feq fzero fzero) in H. inv_result. by apply build_map_Some.
Qed.

Lemma goal_step_inv gs st g st' :
  objective_inv gs st -> goal_step inp st g = Ok st' -> objective_inv (gs ++ [g]) st'.
Proof.
  intros (ms & Hms & Hs & Hp & Hm) Hstep. unfold goal_step in Hstep.
  assert (Hex : forall b, enabled g && is_migration g = b ->
            Exists (fun g => enabled g && is_migration g = true) (gs ++ [g]) <->
            Exists (fun g => enabled g && is_migration g = true) gs \/ b = true).
  { intros b <-. rewrite Exists_app, Exists_cons, Exists_nil. naive_solver. }
  destruct (feq (Weight g) fzero) eqn:Hw.
  { inv_result. assert (He : enabled g = false) by (unfold enabled; by rewrite Hw).
    exists ms. rewrite penalty_after_snoc, (Hex false), He by (by rewrite He).
    split_and!; [apply gm_skip; auto|done|done|]. rewrite Hm. naive_solver. }
  assert (He : enabled g = true) by (unfold enabled; by rewrite Hw).
  destruct (flt (Weight g) fzero); [done|].
  destruct (linear_scores _ inp g) as [r|] eqn:Hl.
  - pose proof (linear_not_migration _ _ _ Hl) as Hmig.
    apply bind_Ok in Hstep as (sc & -> & [= <-]).
    exists (ms ++ [(Weight g, sc)]). rewrite penalty_after_snoc, (Hex false), Hmig, andb_false_r
      by (by rewrite Hmig, andb_false_r).
    split_and!; [by eapply gm_goal| |done|simpl; rewrite Hm; naive_solver].
    intros r n Hr Hn. cbn [os_ps]. by rewrite accumulate_score_at, Hs, foldl_app.
  - destruct (String.eqb (G_Type g) "Migration") eqn:Hmig; [|done].
    apply bind_Ok in Hstep as (pen & Hpen & [= <-]).
    destruct (Migration_ScoreMigration fzero (OI_Ctx inp)) as [pen'|] eqn:E; [|done].
    injection Hpen as <-.
    exists ms. rewrite penalty_after_snoc, (Hex true), He by (by rewrite He).
    unfold is_migration at 1. rewrite Hmig. cbn [os_ps os_mig andb].
    split_and!; [apply gm_skip; auto|done| |naive_solver].
    intros r Hr. simpl. rewrite accumulate_penalty_lookup, (migration_scores_lookup _ _ _ E Hr).
    rewrite <-(Hp r Hr). by destruct (os_mig st).
Qed.

Lemma BuildObjective_inv t out :
  BuildObjective t inp = Ok out ->
  objective_inv (Goals inp) (mkObjectiveState (PlacementScores out) (MigrationPenalty out) 0).
Proof.
  unfold BuildObjective. intros H. apply bind_Ok in H as (st & Hf & [= <-]).
  apply (foldM_inv objective_inv) in Hf.
  - destruct Hf as (ms & ?). by exists ms.
  - exists []. split_and!; [constructor| |done|].
    + intros r n Hr Hn. by apply zero_scores_at.
    + rewrite Exists_nil. split; [by intros [? ?]|done].
  - intros gs g st0 st' Hinv _. by apply goal_step_inv.
Qed.
End objective_lemmas.

Lemma foldM_filter_skip {E A B} (keep : B -> bool) (f : A -> B -> result E A) a l :
  (forall a b, keep b = false -> f a b = Ok a) ->
  foldM f a (filter (fun b => keep b = true) l) = foldM f a l.
Proof.
  intros Hskip. revert a. induction l as [|b l IH]; intros a; [done|].
  destruct (keep b) eqn:Hb.
  - rewrite filter_cons_True by done. simpl. destruct (f a b); simpl; [apply IH|done].
  - rewrite filter_cons_False by congruence. simpl. rewrite Hskip by done. apply IH.
Qed.

Lemma foldM_all_ok {E A B} (f : A -> B -> result E A) a l r b :
  foldM f a l = Ok r -> b ∈ l -> exists a0 a1, f a0 b = Ok a1.
Proof.
  revert a. induction l as [|b' l IH]; intros a Hf Hb; [set_solver|]. simpl in Hf.
  apply bind_Ok in Hf as (a1 & H1 & Hf). apply elem_of_cons in Hb as [->|Hb]; eauto.
Qed.

(** The inputs with other goals. *)
Definition with_goals (inp : ObjectiveInputs) (gs : list WeightedGoal) : ObjectiveInputs :=
  mkObjectiveInputs gs (OI_Ctx inp) (InstancePrice inp) (CityRegionLatencyMs inp)
    (OI_Dependencies inp) (OI_RegionLatencyMs inp) (OI_ReplicaService inp) (OI_NodeRegion inp)
    (InstancePower inp).

Definition known_goal (g : WeightedGoal) : bool :=
  String.eqb (G_Type g) "Cost" || String.eqb (G_Type g) "Latency" ||
  String.eqb (G_Type g) "Communication" || String.eqb (G_Type g) "Energy" || is_migration g.

Lemma known_goal_cases {SORT : GoSort} {MAPS : MapOrder} t inp g :
  known_goal g = true <-> is_Some (linear_scores t inp g) \/ is_migration g = true.
Proof.
  unfold known_goal, linear_scores.
  destruct (String.eqb (G_Type g) "Cost"); [simpl; split; [left; by eexists|done]|].
  destruct (String.eqb (G_Type g) "Latency"); [simpl; split; [left; by eexists|done]|].
  destruct (String.eqb (G_Type g) "Communication"); [simpl; split; [left; by eexists|done]|].
  destruct (String.eqb (G_Type g) "Energy"); [simpl; split; [left; by eexists|done]|].
  simpl. split; [by right|]. by intros [[? ?]|?].
Qed.

(** ** Properties *)

(** C36: aggregation. When [BuildObjective] succeeds, the score of every replica
    on every node is the weighted sum, in goal order, of the scores the plugins of
    the enabled linear goals gave the pair; disabled and migration goals add
    nothing, and the order in which the score maps are visited does not matter. *)
Theorem BuildObjective_scores {SORT : GoSort} {MAPS : MapOrder} t inp out :
  BuildObjective t inp = Ok out ->
  exists ms, goal_matrices inp (Goals inp) ms /\
    forall r n, r ∈ PC_Replicas (OI_Ctx inp) -> n ∈ PC_Nodes (OI_Ctx inp) ->
      score_at (PlacementScores out) r (NC_ID n) = foldl (add_goal r (NC_ID n)) (Some fzero) ms.
Proof. intros (ms & Hms & Hs & _)%BuildObjective_inv. by exists ms. Qed.

(** The penalty map is nil exactly when no migration goal is enabled;
    otherwise every replica's penalty is the sum of 100 times the weight of each
    enabled migration goal. *)
Theorem BuildObjective_penalty {SORT : GoSort} {MAPS : MapOrder} t inp out :
  BuildObjective t inp = Ok out ->
  (MigrationPenalty out = None <->
     Forall (fun g => enabled g && is_migration g = false) (Goals inp)) /\
  forall r, r ∈ PC_Replicas (OI_Ctx inp) ->
    MigrationPenalty out ≫= (.!! r) = penalty_after (Goals inp).
Proof.
  intros (ms & _ & _ & Hp & Hm)%BuildObjective_inv. cbn [os_mig] in *. split; [|done].
  rewrite eq_None_not_Some, Hm, Forall_forall, Exists_exists. split.
  - intros Hn g Hg. apply not_true_iff_false. intros Hb. apply Hn. by exists g.
  - intros Hall (g & Hg & Hb). by rewrite Hall in Hb.
Qed.

(** Goals of weight zero are ignored: removing them changes nothing. *)
Theorem BuildObjective_ignores_disabled {SORT : GoSort} {MAPS : MapOrder} t inp :
  BuildObjective t (with_goals inp (filter (fun g => enabled g = true) (Goals inp))) =
  BuildObjective t inp.
Proof.
  unfold BuildObjective. destruct inp as [gs ctx pr ci de re rs nr po]. cbn [Goals OI_Ctx with_goals].
  f_equal. apply (foldM_filter_skip enabled). intros st g Hg. unfold goal_step.
  unfold enabled in Hg. apply negb_false_iff in Hg as ->. done.
Qed.

(** An enabled goal with a negative weight, or of a type no plugin has,
    makes [BuildObjective] fail, wherever it stands in the list. *)
Theorem BuildObjective_rejects {SORT : GoSort} {MAPS : MapOrder} t inp g :
  g ∈ Goals inp -> enabled g = true ->
  flt (Weight g) fzero = true \/ known_goal g = false ->
  is_ok (BuildObjective t inp) = false.
Proof.
  intros Hg He Hbad. destruct (BuildObjective t inp) as [out|e] eqn:E; [|done].
  apply bind_Ok in E as (st & Hf & _). eapply foldM_all_ok in Hf as (st0 & st1 & Hstep); [|done].
  unfold goal_step in Hstep. unfold enabled in He. apply negb_true_iff in He. rewrite He in Hstep.
  destruct (flt (Weight g) fzero) eqn:Hw; [done|]. destruct Hbad as [?|Hk]; [done|].
  apply not_true_iff_false in Hk. destruct Hk. apply (known_goal_cases (os_loops st0) inp).
  destruct (linear_scores _ inp g) as [r|]; [left; by eexists|]. right.
  unfold is_migration. by destruct (String.eqb (G_Type g) "Migration").
Qed.

Definition demo_inputs (gs : list WeightedGoal) : ObjectiveInputs :=
  mkObjectiveInputs gs demo_comm_ctx demo_prices demo_latency ∅ ∅ ∅ ∅ ∅.
Definition demo_goals : list WeightedGoal :=
  [mkGoal "Cost" (fdiv (f64_of_Z 1) (f64_of_Z 2)) "" ""; mkGoal "Latency" fzero "" "";
   mkGoal "Migration" (f64_of_Z 1) "" ""].

Lemma BuildObjective_scores_witness :
  exists out ms, BuildObjective 0 (demo_inputs demo_goals) = Ok out /\
    goal_matrices (demo_inputs demo_goals) demo_goals ms.
Proof.
  destruct (is_ok_Ok (BuildObjective 0 (demo_inputs demo_goals))) as [out E]; [by_eval|].
  destruct (BuildObjective_scores 0 (demo_inputs demo_goals) out E) as (ms & Hms & _).
  exists out, ms. split; [exact E|exact Hms].
Defined.

Lemma BuildObjective_penalty_witness :
  exists out, BuildObjective 0 (demo_inputs demo_goals) = Ok out /\
    MigrationPenalty out ≫= (.!! mkReplica "default" "db" 0) = Some f100.
Proof.
  destruct (is_ok_Ok (BuildObjective 0 (demo_inputs demo_goals))) as [out E]; [by_eval|].
  exists out. split; [exact E|].
  destruct (BuildObjective_penalty 0 (demo_inputs demo_goals) out E) as [_ Hp].
  rewrite Hp by apply list_elem_of_further, list_elem_of_here. reflexivity.
Defined.

Lemma BuildObjective_rejects_witness :
  is_ok (BuildObjective 0 (demo_inputs (demo_goals ++ [mkGoal "Speed" (f64_of_Z 1) "" ""]))) = false.
Proof.
  apply (BuildObjective_rejects 0 _ (mkGoal "Speed" (f64_of_Z 1) "" "")).
  - do 3 apply list_elem_of_further. apply list_elem_of_here.
  - reflexivity.
  - right. reflexivity.
Defined.
