(* ===== verification/Diagnostics.v ===== *)
(** * What the optimizer logs about its inputs and scores
    (optimizer/plugin_communication.go and objective.go, the diag functions)

    The statistics are gathered in loops over maps: which of them depend on the order
    of the loops, and which do not. *)

From Stdlib Require Import Sorted.
From stdpp Require Import pretty.
From S2P Require Import Prelude Float64 OptTypes OptErrors Plugins Objective.

Local Open Scope string_scope.
Local Open Scope list_scope.

(** ** Counters *)

(** [m[k]++]. *)
Definition bump (m : gmap string Z) (k : string) : gmap string Z := <[k := (default 0 (m !! k) + 1)%Z]> m.

(** The most frequent first, then by name. *)
Definition more_frequent (x y : string * Z) : bool :=
  if negb (x.2 =? y.2)%Z then (x.2 >? y.2)%Z else String.ltb x.1 y.1.
Definition show_count (e : string * Z) : string := e.1 +:+ "=" +:+ pretty e.2.

Section diagnostics.
Context {SORT : GoSort} {MAPS : MapOrder}.

(** [func topCounts(m, topN) []any]. *)
Definition topCounts (t : nat) (m : gmap string Z) (topN : Z) : list string :=
  let topN := if (topN <=? 0)%Z then 5%Z else topN in
  show_count <$> take (Z.to_nat topN) (sort_slice more_frequent (go_range t m)).

(** [func floatBucket(m)]: the values are printed with [%.3f]. *)
Definition floatBucket (fmt_3f : f64 -> string) (t : nat) (m : gmap string f64) : gmap string Z :=
  foldl (fun out e => <[e.1 +:+ ":" +:+ fmt_3f e.2 := 1%Z]> out) ∅ (go_range t m).

(** ** The latency matrix *)

(** [type matSample struct]; [Min] and [Max] are zero until there is a value. *)
Record matSample := mkMatSample {
  MS_Rows : Z;
  MS_Cells : Z;
  MS_Range : option (f64 * f64);
  MS_HasNaN : bool;
  MS_HasInf : bool;
  MS_AllZero : bool;
  MS_Diagonal0 : Z
}.
Definition MS_Min (d : matSample) : f64 := (minmax_or_zero (MS_Range d)).1.
Definition MS_Max (d : matSample) : f64 := (minmax_or_zero (MS_Range d)).2.

(** [func diagRegionLatency(mat)]: a cell, a row, the matrix. *)
Definition sample_cell (d : matSample) (v : f64) : matSample :=
  if is_nan v then mkMatSample (MS_Rows d) (MS_Cells d) (MS_Range d) true (MS_HasInf d) (MS_AllZero d) (MS_Diagonal0 d)
  else if is_inf v then mkMatSample (MS_Rows d) (MS_Cells d) (MS_Range d) (MS_HasNaN d) true (MS_AllZero d) (MS_Diagonal0 d)
  else mkMatSample (MS_Rows d) (MS_Cells d + 1) (minmax_step (MS_Range d) v) (MS_HasNaN d) (MS_HasInf d)
         (MS_AllZero d && feq v fzero) (MS_Diagonal0 d).
Definition zero_diagonal (a : string) (row : gmap string f64) : bool :=
  match row !! a with Some v => feq v fzero | None => false end.
Definition sample_row (t : nat) (d : matSample) (e : string * gmap string f64) : matSample :=
  if str_empty e.1 then d
  else
    let d := mkMatSample (MS_Rows d + 1) (MS_Cells d) (MS_Range d) (MS_HasNaN d) (MS_HasInf d) (MS_AllZero d)
               (if zero_diagonal e.1 e.2 then MS_Diagonal0 d + 1 else MS_Diagonal0 d) in
    foldl sample_cell d (go_range t e.2).*2.
Definition diagRegionLatency (t : nat) (mat : gmap string (gmap string f64)) : matSample :=
  foldl (sample_row (S t)) (mkMatSample 0 0 None false false true 0) (go_range t mat).

(** ** The inputs of the communication goal *)

(** [type matrixDiag struct]. *)
Record matrixDiag := mkMatrixDiag {
  MD_Rows : Z;
  MD_Cols : Z;
  MD_Range : option (f64 * f64);
  UniqueValues : Z;
  MD_AllZero : bool;
  MD_HasNaN : bool;
  MD_HasInf : bool
}.

(** [type commInputDiag struct]. *)
Record commInputDiag := mkCommInputDiag {
  DistinctNodeRegions : Z;
  TopNodeRegions : list string;
  DistinctServiceNames : Z;
  TopServiceNames : list string;
  RegionLatencyRows : Z;
  RegionLatencyCells : Z;
  RegionLatencyMin : f64;
  RegionLatencyMax : f64;
  RegionLatencyAllZero : bool;
  RegionLatencyDiagonal0 : Z
}.

(** [func diagCommInputs(ctx, deps, regionLat, replicaService, nodeRegion)]: the
    counters of the regions and of the services, and the matrix, here with the cells
    that are not numbers. *)
Definition region_counts (nodes : list NodeContext) (nodeRegion : gmap ClusterNodeID string) : gmap string Z :=
  foldl (fun rc n =>
    let reg := default (NC_Region n) (nodeRegion !! NC_ID n) in
    if str_empty reg then rc else bump rc reg) ∅ nodes.
Definition service_counts (t : nat) (replicaService : gmap ReplicaKey NamespacedName) : gmap string Z :=
  foldl (fun c e => if str_empty (NN_Name e.2) then c else bump c (NN_Name e.2)) ∅ (go_range t replicaService).
Definition matrix_cell (m : matrixDiag) (v : f64) : matrixDiag :=
  mkMatrixDiag (MD_Rows m) (MD_Cols m + 1) (minmax_step (MD_Range m) v) (UniqueValues m) (MD_AllZero m && feq v fzero)
    (MD_HasNaN m) (MD_HasInf m).
Definition matrix_row (t : nat) (m : matrixDiag) (e : string * gmap string f64) : matrixDiag :=
  if str_empty e.1 then m
  else
    foldl matrix_cell
      (mkMatrixDiag (MD_Rows m + 1) (MD_Cols m) (MD_Range m) (UniqueValues m) (MD_AllZero m) (MD_HasNaN m) (MD_HasInf m))
      (go_range t e.2).*2.
Definition diagCommInputs (t : nat) (nodes : list NodeContext) (regionLat : gmap string (gmap string f64))
    (replicaService : gmap ReplicaKey NamespacedName) (nodeRegion : gmap ClusterNodeID string) : commInputDiag :=
  let rc := region_counts nodes nodeRegion in
  let svcCnt := service_counts t replicaService in
  let m := foldl (matrix_row (S (S t))) (mkMatrixDiag 0 0 None 0 true false false) (go_range (S t) regionLat) in
  mkCommInputDiag (Z.of_nat (size rc)) (topCounts (3 + t) rc 6) (Z.of_nat (size svcCnt)) (topCounts (4 + t) svcCnt 6)
    (MD_Rows m) (MD_Cols m) (minmax_or_zero (MD_Range m)).1 (minmax_or_zero (MD_Range m)).2 (MD_AllZero m) 0.

(** ** Scores *)

(** The distinct values seen: the keys of a Go map of floats, where zeros are one. *)
Definition see (seen : list f64) (v : f64) : list f64 := if existsb (feq v) seen then seen else v :: seen.

(** [func diagPlacementScores(ps)]. *)
Definition score_cell (acc : matrixDiag * list f64) (v : f64) : matrixDiag * list f64 :=
  let '(d, seen) := acc in
  if is_nan v then (mkMatrixDiag (MD_Rows d) (MD_Cols d) (MD_Range d) (UniqueValues d) (MD_AllZero d) true (MD_HasInf d), seen)
  else if is_inf v then
    (mkMatrixDiag (MD_Rows d) (MD_Cols d) (MD_Range d) (UniqueValues d) (MD_AllZero d) (MD_HasNaN d) true, seen)
  else
    (mkMatrixDiag (MD_Rows d) (MD_Cols d) (minmax_step (MD_Range d) v) (UniqueValues d) (MD_AllZero d && feq v fzero)
       (MD_HasNaN d) (MD_HasInf d), see seen v).
Definition score_row (t : nat) (acc : matrixDiag * list f64) (e : ReplicaKey * gmap ClusterNodeID f64)
    : matrixDiag * list f64 :=
  let '(d, seen) := acc in
  let cols := if (MD_Cols d =? 0)%Z then Z.of_nat (size e.2) else MD_Cols d in
  foldl score_cell
    (mkMatrixDiag (MD_Rows d + 1) cols (MD_Range d) (UniqueValues d) (MD_AllZero d) (MD_HasNaN d) (MD_HasInf d), seen)
    (go_range t e.2).*2.
Definition diagPlacementScores (t : nat) (ps : ScoreMatrix) : matrixDiag :=
  let '(d, seen) := foldl (score_row (S t)) (mkMatrixDiag 0 0 None 0 true false false, []) (go_range t ps) in
  mkMatrixDiag (MD_Rows d) (MD_Cols d) (MD_Range d) (Z.of_nat (length seen)) (MD_AllZero d) (MD_HasNaN d) (MD_HasInf d).

(** [func diagEnabledGoals(goals) (types, totalWeight, enabled)]. *)
Definition diagEnabledGoals (goals : list WeightedGoal) : list string * f64 * Z :=
  let '(types, total, enabled) :=
    foldl (fun acc g =>
      let '(types, total, enabled) := acc in
      if feq (Weight g) fzero then acc else (types ++ [G_Type g], fadd total (Weight g), (enabled + 1)%Z))
      ([], fzero, 0%Z) goals in
  (sort_slice String.ltb types, total, enabled).
End diagnostics.

(** ** The order of the counters *)

Lemma ltb_total (s t : string) : String.ltb s t = false -> String.ltb t s = false -> s = t.
Proof. rewrite !ltb_false_le. intros H1 H2. by apply (anti_symm String.le). Qed.

Lemma more_frequent_false x y :
  more_frequent x y = false <-> (x.2 < y.2)%Z \/ x.2 = y.2 /\ String.ltb x.1 y.1 = false.
Proof.
  unfold more_frequent. destruct (Z.eqb_spec x.2 y.2) as [He|He]; cbn; [intuition lia|].
  rewrite Z.gtb_ltb, Z.ltb_ge. intuition lia.
Qed.
Lemma more_frequent_true x y : more_frequent x y = true <-> (y.2 < x.2)%Z \/ x.2 = y.2 /\ String.ltb x.1 y.1 = true.
Proof.
  unfold more_frequent. destruct (Z.eqb_spec x.2 y.2) as [He|He]; cbn; [intuition lia|].
  rewrite Z.gtb_ltb, Z.ltb_lt. intuition lia.
Qed.

Lemma more_frequent_total x y : more_frequent x y = false -> more_frequent y x = false -> x = y.
Proof.
  rewrite !more_frequent_false. destruct x as [k n], y as [k' n']. cbn. intros H1 H2.
  assert (n = n') as -> by lia. f_equal. apply ltb_total; intuition lia.
Qed.

Lemma strict_weak_more_frequent l : strict_weak more_frequent l.
Proof.
  destruct (strict_weak_by_text (fst : string * Z -> string) l) as (H1 & H2 & H3). split_and!.
  - intros x Hx. apply more_frequent_false. right. split; [done|by apply H1].
  - intros x y z Hx Hy Hz. rewrite !more_frequent_true. specialize (H2 x y z Hx Hy Hz). intuition lia.
  - intros x y z Hx Hy Hz. rewrite !more_frequent_false. specialize (H3 x y z Hx Hy Hz). intuition lia.
Qed.

(** The order of the entries. *)
Definition by_frequency (m : gmap string Z) : list (string * Z) := insertion_sort more_frequent (map_to_list m).

Lemma by_frequency_spec {SORT : GoSort} {MAPS : MapOrder} t m : sort_slice more_frequent (go_range t m) = by_frequency m.
Proof.
  apply (sorted_determined more_frequent); [apply more_frequent_total| | |].
  - apply sort_slice_sorted, strict_weak_more_frequent.
  - apply insertion_sort_sorted, strict_weak_more_frequent.
  - unfold by_frequency. by rewrite sort_slice_perm, insertion_sort_perm, go_range_perm.
Qed.

(** What is logged of the counters does not depend on the order of the loop or on
    the sorting function: it is the first entries, as many as asked for (five when
    the number is not positive) and as there are, of one order in which nothing less
    frequent comes before anything more frequent, and equally frequent entries come
    by name. *)
Theorem topCounts_top m topN :
  exists shown rest,
    (forall (SORT : GoSort) (MAPS : MapOrder) t, topCounts t m topN = show_count <$> shown) /\
    shown ++ rest ≡ₚ map_to_list m /\
    length shown = Nat.min (Z.to_nat (if (topN <=? 0)%Z then 5 else topN)%Z) (size m) /\
    StronglySorted (fun x y => (y.2 <= x.2)%Z /\ (y.2 = x.2 -> String.le x.1 y.1)) (shown ++ rest).
Proof.
  set (n := Z.to_nat _). exists (take n (by_frequency m)), (drop n (by_frequency m)). rewrite take_drop.
  assert (Hperm : by_frequency m ≡ₚ map_to_list m) by apply insertion_sort_perm. split_and!; [|exact Hperm| |].
  - intros SORT MAPS t. unfold topCounts. by rewrite by_frequency_spec.
  - rewrite length_take, Hperm, length_map_to_list. done.
  - assert (Hs := insertion_sort_sorted more_frequent _ (strict_weak_more_frequent (map_to_list m))). fold (by_frequency m) in Hs.
    revert Hs. generalize (by_frequency m). induction 1 as [|x l Hs IH Hall]; constructor; [done|].
    apply (Forall_impl _ _ _ Hall). intros y Hy%more_frequent_false. split; [lia|]. intros He. apply ltb_false_le. intuition lia.
Qed.

(** ** The sample of the latency matrix *)

(** The cells of the named rows, in the order of the loops. *)
Definition named_rows {MAPS : MapOrder} (t : nat) (mat : gmap string (gmap string f64)) : list (string * gmap string f64) :=
  List.filter (fun e => negb (str_empty e.1)) (go_range t mat).
Definition cells {MAPS : MapOrder} (t : nat) (rows : list (string * gmap string f64)) : list f64 :=
  concat ((fun e => (go_range t e.2).*2) <$> rows).
Definition finite (v : f64) : bool := negb (is_nan v) && negb (is_inf v).

Lemma sample_cells d l :
  let d' := foldl sample_cell d l in
  MS_Rows d' = MS_Rows d /\ MS_Diagonal0 d' = MS_Diagonal0 d /\
  MS_Cells d' = (MS_Cells d + Z.of_nat (length (List.filter finite l)))%Z /\
  MS_Range d' = foldl minmax_step (MS_Range d) (List.filter finite l) /\
  MS_HasNaN d' = MS_HasNaN d || existsb is_nan l /\
  MS_HasInf d' = MS_HasInf d || existsb is_inf l /\
  MS_AllZero d' = MS_AllZero d && forallb (fun v => feq v fzero) (List.filter finite l).
Proof.
  revert d. induction l as [|v l IH]; intros d; cbn.
  { split_and!; first [done|lia|by rewrite orb_false_r|by rewrite andb_true_r]. }
  destruct (IH (sample_cell d v)) as (H1 & H2 & H3 & H4 & H5 & H6 & H7). rewrite H1, H2, H3, H4, H5, H6, H7.
  unfold sample_cell, finite. assert (Hni : is_nan v = true -> is_inf v = false) by by destruct v.
  destruct (is_nan v); cbn; [rewrite Hni by done; split_and!; first [done|by rewrite orb_true_r]|].
  destruct (is_inf v); cbn; split_and!; first [done|lia|by rewrite orb_true_r|by rewrite andb_assoc].
Qed.

Lemma filter_finite_app l1 l2 : List.filter finite (l1 ++ l2) = List.filter finite l1 ++ List.filter finite l2.
Proof. apply List.filter_app. Qed.

Lemma sample_rows {MAPS : MapOrder} t d rows :
  let d' := foldl (sample_row t) d rows in
  let named := List.filter (fun e => negb (str_empty e.1)) rows in
  let l := cells t named in
  MS_Rows d' = (MS_Rows d + Z.of_nat (length named))%Z /\
  MS_Diagonal0 d' = (MS_Diagonal0 d + Z.of_nat (length (List.filter (fun e => zero_diagonal e.1 e.2) named)))%Z /\
  MS_Cells d' = (MS_Cells d + Z.of_nat (length (List.filter finite l)))%Z /\
  MS_Range d' = foldl minmax_step (MS_Range d) (List.filter finite l) /\
  MS_HasNaN d' = MS_HasNaN d || existsb is_nan l /\
  MS_HasInf d' = MS_HasInf d || existsb is_inf l /\
  MS_AllZero d' = MS_AllZero d && forallb (fun v => feq v fzero) (List.filter finite l).
Proof.
  revert d. induction rows as [|e rows IH]; intros d; cbn.
  { split_and!; first [done|lia|by rewrite orb_false_r|by rewrite andb_true_r]. }
  destruct (IH (sample_row t d e)) as (H1 & H2 & H3 & H4 & H5 & H6 & H7). rewrite H1, H2, H3, H4, H5, H6, H7.
  unfold sample_row. destruct (str_empty e.1); cbn; [done|]. fold (cells t (List.filter (fun e => negb (str_empty e.1)) rows)).
  set (d1 := mkMatSample _ _ _ _ _ _ _). destruct (sample_cells d1 (go_range t e.2).*2) as (G1 & G2 & G3 & G4 & G5 & G6 & G7).
  rewrite G1, G2, G3, G4, G5, G6, G7, filter_finite_app, length_app, foldl_app, !existsb_app, forallb_app. unfold d1. cbn.
  rewrite !orb_assoc, !andb_assoc. split_and!; try done; try lia.
  destruct (zero_diagonal e.1 e.2); cbn [length]; lia.
Qed.

(** The cells of the named rows, whatever the order. *)
Definition all_cells (mat : gmap string (gmap string f64)) : list f64 :=
  concat ((fun e => (map_to_list e.2).*2) <$> List.filter (fun e => negb (str_empty e.1)) (map_to_list mat)).

Lemma cells_perm {MAPS : MapOrder} t t' mat : cells t (named_rows t' mat) ≡ₚ all_cells mat.
Proof.
  unfold cells, all_cells, named_rows.
  assert (Hrows : forall rows : list (string * gmap string f64),
    concat ((fun e => (go_range t e.2).*2) <$> rows) ≡ₚ concat ((fun e => (map_to_list e.2).*2) <$> rows)).
  { induction rows as [|e rows IH]; [done|]. cbn. by rewrite IH, go_range_perm. }
  rewrite Hrows. f_equiv. apply fmap_Permutation, filter_perm, go_range_perm.
Qed.

Lemma elem_of_all_cells mat v :
  v ∈ all_cells mat <-> exists a row b, a <> "" /\ mat !! a = Some row /\ row !! b = Some v.
Proof.
  unfold all_cells. rewrite list_elem_of_In, in_concat. split.
  - intros (l & Hl & Hv). apply list_elem_of_In, list_elem_of_fmap in Hl as ([a row] & -> & Hin).
    apply list_elem_of_In, filter_In in Hin as [Hin Ha]. apply list_elem_of_In, elem_of_map_to_list in Hin.
    apply list_elem_of_In, list_elem_of_fmap in Hv as ([b v'] & -> & Hv). apply elem_of_map_to_list in Hv.
    exists a, row, b. split_and!; [|done|done]. cbn in Ha. by destruct a.
  - intros (a & row & b & Ha & Hrow & Hv). exists (map_to_list row).*2. split.
    + apply list_elem_of_In, list_elem_of_fmap. exists (a, row). split; [done|]. apply list_elem_of_In, filter_In.
      split; [by apply list_elem_of_In, elem_of_map_to_list|]. cbn. by destruct a.
    + apply list_elem_of_In, list_elem_of_fmap. exists (b, v). split; [done|]. by apply elem_of_map_to_list.
Qed.

Lemma finite_not_nan l : Forall (fun v => is_nan v = false) (List.filter finite l).
Proof.
  apply Forall_forall. intros v Hv. apply list_elem_of_In, filter_In in Hv as [_ Hv].
  unfold finite in Hv. by destruct (is_nan v).
Qed.

(** The bounds of two orders of the same values are equal numbers. *)
Lemma minmax_perm l l' mn mx mn' mx' :
  l ≡ₚ l' -> Forall (fun v => is_nan v = false) l -> minmax l = Some (mn, mx) -> minmax l' = Some (mn', mx') ->
  feq mn mn' = true /\ feq mx mx' = true.
Proof.
  intros Hp Hn H H'. destruct (minmax_spec _ _ _ Hn H) as (Hmn & Hmx & Hall).
  assert (Hn' : Forall (fun v => is_nan v = false) l') by by rewrite <- Hp.
  destruct (minmax_spec _ _ _ Hn' H') as (Hmn' & Hmx' & Hall'). rewrite Forall_forall in Hall, Hall'.
  split; apply fle_antisym; first [apply Hall|apply Hall']; by rewrite ?Hp || rewrite <- ?Hp.
Qed.

Lemma minmax_or_zero_perm l l' :
  l ≡ₚ l' -> Forall (fun v => is_nan v = false) l ->
  feq (minmax_or_zero (minmax l)).1 (minmax_or_zero (minmax l')).1 = true /\
  feq (minmax_or_zero (minmax l)).2 (minmax_or_zero (minmax l')).2 = true.
Proof.
  intros Hp Hn. destruct l as [|x l0]; [apply Permutation_nil_l in Hp as <-; by split|].
  destruct (minmax_nonempty (x :: l0)) as (mn & mx & Hm); [done|].
  destruct (minmax_nonempty l') as (mn' & mx' & Hm'); [intros ->; by apply Permutation_nil_r in Hp|].
  rewrite Hm, Hm'. by apply (minmax_perm (x :: l0) l').
Qed.

Lemma sample_spec {MAPS : MapOrder} t mat :
  let d := diagRegionLatency t mat in
  let l := List.filter finite (cells (S t) (named_rows t mat)) in
  MS_Rows d = Z.of_nat (length (List.filter (fun e => negb (str_empty e.1)) (map_to_list mat))) /\
  MS_Diagonal0 d = Z.of_nat (length (List.filter (fun e => zero_diagonal e.1 e.2)
                     (List.filter (fun e => negb (str_empty e.1)) (map_to_list mat)))) /\
  MS_Cells d = Z.of_nat (length (List.filter finite (all_cells mat))) /\
  MS_Range d = minmax l /\
  MS_HasNaN d = existsb is_nan (all_cells mat) /\ MS_HasInf d = existsb is_inf (all_cells mat) /\
  MS_AllZero d = forallb (fun v => feq v fzero) (List.filter finite (all_cells mat)).
Proof.
  destruct (sample_rows (S t) (mkMatSample 0 0 None false false true 0) (go_range t mat)) as (H1 & H2 & H3 & H4 & H5 & H6 & H7).
  fold (diagRegionLatency t mat) in *. fold (named_rows t mat) in *. cbv zeta. rewrite H1, H2, H3, H4, H5, H6, H7. cbn.
  assert (Hn : named_rows t mat ≡ₚ List.filter (fun e => negb (str_empty e.1)) (map_to_list mat)).
  { apply filter_perm, go_range_perm. }
  assert (Hc := cells_perm (S t) t mat). assert (Hf := filter_perm finite _ _ Hc).
  split_and!; try done.
  - by rewrite Hn.
  - by rewrite (filter_perm _ _ _ Hn).
  - by rewrite Hf.
  - by apply existsb_perm.
  - by apply existsb_perm.
  - by apply forallb_perm.
Qed.

(** The sample of the latency matrix does not depend on the order of the loops, the
    sign of a zero bound apart: the rows and the cells that are numbers are counted,
    a cell that is no number or infinite sets its flag and nothing else, and the
    bounds are those of the numbers in rows with a name. *)
Theorem diagRegionLatency_ordered (MAPS MAPS' : MapOrder) t t' mat :
  let d := diagRegionLatency (MAPS := MAPS) t mat in
  let d' := diagRegionLatency (MAPS := MAPS') t' mat in
  (MS_Rows d, MS_Cells d, MS_HasNaN d, MS_HasInf d, MS_AllZero d, MS_Diagonal0 d) =
  (MS_Rows d', MS_Cells d', MS_HasNaN d', MS_HasInf d', MS_AllZero d', MS_Diagonal0 d') /\
  feq (MS_Min d) (MS_Min d') = true /\ feq (MS_Max d) (MS_Max d') = true /\
  forall a row b v, a <> "" -> mat !! a = Some row -> row !! b = Some v ->
    if is_nan v then MS_HasNaN d = true
    else if is_inf v then MS_HasInf d = true
    else fle (MS_Min d) v = true /\ fle v (MS_Max d) = true.
Proof.
  cbv zeta. destruct (@sample_spec MAPS t mat) as (H1 & H2 & H3 & H4 & H5 & H6 & H7).
  destruct (@sample_spec MAPS' t' mat) as (G1 & G2 & G3 & G4 & G5 & G6 & G7).
  assert (Hp := filter_perm finite _ _ (@cells_perm MAPS (S t) t mat)).
  assert (Gp := filter_perm finite _ _ (@cells_perm MAPS' (S t') t' mat)).
  set (l := List.filter finite (cells (S t) _)) in *. set (l' := List.filter finite (@cells MAPS' (S t') _)) in *.
  assert (Hnan : Forall (fun v => is_nan v = false) l) by apply finite_not_nan.
  assert (Hll : l ≡ₚ l') by by rewrite Hp, Gp. split; [congruence|].
  unfold MS_Min, MS_Max. rewrite H4, G4. split_and!.
  1, 2: apply (minmax_or_zero_perm l l' Hll Hnan).
  intros a row b v Ha Hrow Hv. assert (Hin : v ∈ all_cells mat) by (apply elem_of_all_cells; by exists a, row, b).
  destruct (is_nan v) eqn:Hvn; [rewrite H5; apply existsb_exists; exists v; by rewrite <- list_elem_of_In|].
  destruct (is_inf v) eqn:Hvi; [rewrite H6; apply existsb_exists; exists v; by rewrite <- list_elem_of_In|].
  assert (Hvl : v ∈ l).
  { rewrite Hp. apply list_elem_of_In, filter_In. split; [by apply list_elem_of_In|]. unfold finite. by rewrite Hvn, Hvi. }
  destruct (minmax_nonempty l) as (mn & mx & Hm); [intros Hnil; rewrite Hnil in Hvl; by apply elem_of_nil in Hvl|].
  rewrite Hm. destruct (minmax_spec _ _ _ Hnan Hm) as (_ & _ & Hall). rewrite Forall_forall in Hall. by apply Hall.
Qed.

(** The sample taken for the goal has no such test: a cell that is not a number stays
    a bound when the loop meets it first, and is passed over when it does not; and
    its diagonal is never counted. *)
Example diagCommInputs_depends_on_order :
  let mat : gmap string (gmap string f64) := {["eu" := <["a" := S754_nan]> {["b" := f64_of_Z 7]}]} in
  let sampled maps := diagCommInputs (MAPS := maps) 0 [] mat ∅ ∅ in
  is_nan (RegionLatencyMin (sampled map_order_forward)) <> is_nan (RegionLatencyMin (sampled map_order_backward)).
Proof. vm_compute. discriminate. Qed.
Lemma diagCommInputs_diagonal {SORT : GoSort} {MAPS : MapOrder} t nodes mat services regions :
  RegionLatencyDiagonal0 (diagCommInputs t nodes mat services regions) = 0%Z.
Proof. done. Qed.

(** The enabled goals: their types sorted, the sum of their weights in the order of the
    goals, their number. *)
Theorem diagEnabledGoals_spec {SORT : GoSort} goals :
  let on := List.filter (fun g => negb (feq (Weight g) fzero)) goals in
  let '(types, total, enabled) := diagEnabledGoals goals in
  types ≡ₚ (G_Type <$> on) /\ StronglySorted String.le types /\ total = fsum (Weight <$> on) /\
  enabled = Z.of_nat (length on).
Proof.
  cbv zeta. unfold diagEnabledGoals.
  set (step := fun acc g => _).
  assert (H : forall types total enabled, foldl step (types, total, enabled) goals =
    let on := List.filter (fun g => negb (feq (Weight g) fzero)) goals in
    (types ++ (G_Type <$> on), foldl fadd total (Weight <$> on), (enabled + Z.of_nat (length on))%Z)).
  { induction goals as [|g goals IH]; intros types total enabled; cbn; [by rewrite app_nil_r, Z.add_0_r|].
    destruct (feq (Weight g) fzero); cbn; rewrite IH; [done|]. cbn. rewrite <- app_assoc. cbn. f_equal. lia. }
  rewrite H. cbn. split_and!; [apply sort_slice_perm| |done|done].
  assert (Hs := sort_slice_sorted String.ltb (G_Type <$> List.filter (fun g => negb (feq (Weight g) fzero)) goals)
    (strict_weak_by_text (fun x => x) _)).
  revert Hs. generalize (sort_slice String.ltb (G_Type <$> List.filter (fun g => negb (feq (Weight g) fzero)) goals)).
  induction 1 as [|x l Hs IH Hall]; constructor; [done|]. apply (Forall_impl _ _ _ Hall). intros y. by rewrite ltb_false_le.
Qed.

(** ** Two orders of one matrix *)

Definition demo_latencies : gmap string (gmap string f64) :=
  <["eu" := <["eu" := fzero]> {["us" := f64_of_Z 90]}]> {["us" := <["us" := fzero]> {["eu" := f64_of_Z 80]}]}.
Example demo_sample :
  let d := diagRegionLatency (MAPS := map_order_backward) 0 demo_latencies in
  (MS_Rows d, MS_Cells d, MS_Diagonal0 d, MS_AllZero d) = (2, 4, 2, false)%Z /\ MS_Max d = f64_of_Z 90.
Proof. split; by_eval. Qed.
Example demo_top : topCounts 0 (<["a" := 2%Z]> (<["b" := 5%Z]> {["c" := 2%Z]})) 2 = ["b=5"; "a=2"].
Proof. by_eval. Qed.
