(* ===== verification/ScoreLog.v ===== *)
(** * What the communication plugin logs while it scores
    (optimizer/plugin_communication.go, scorePlacementWithLogger)

    The scoring of Communication with its logger: the counters and samples taken in
    the loops, and the entries that are written between them. The scores are the same
    with and without a logger. *)

From stdpp Require Import pretty.
From S2P Require Import Prelude Float64 OptTypes OptErrors Plugins RawScores Communication Objective Diagnostics.

Local Open Scope string_scope.
Local Open Scope list_scope.

(** ** The entries *)

Inductive comm_log :=
| CentroidInputs (deps regions : Z) (regionsTop : list string) (centroidRegions : Z) (centroidTop : list string) (mat : matSample)
| RawScored (replicas nodes : Z) (rawMin rawMax : f64) (rawUnique : Z) (rawAllSame : bool)
| RawSample (replica : string) (regions : Z) (values : list string)
| PairSample (replica service nodeID nodeRegion : string) (deps : Z) (pairs : list string)
| NormalizedScored (mn mx : f64) (unique : Z) (allZero : bool) (rawMin rawMax : f64).

(** ** The loops with their counters *)

(** [centroidCount], next to the centroids. *)
Definition centroid_counted {MAPS : MapOrder} (p : CommunicationPlugin) (cur : gmap ReplicaKey string)
    (acc : gmap NamespacedName string * nat * gmap string Z) (dep : NamespacedName)
    : result opt_error (gmap NamespacedName string * nat * gmap string Z) :=
  match acc.1.1 !! dep with
  | Some _ => Ok acc
  | None =>
      cr ← computeServiceCentroidRegion acc.1.2 dep cur (ReplicaService p) (RegionLatencyMs p);
      Ok (<[dep := cr]> acc.1.1, (acc.1.2 + 2)%nat, bump acc.2 cr)
  end.
Definition centroids_counted {MAPS : MapOrder} (t : nat) (p : CommunicationPlugin) (cur : gmap ReplicaKey string)
    : result opt_error (gmap NamespacedName string * nat * gmap string Z) :=
  foldM (fun acc e => foldM (centroid_counted p cur) acc e.2) (∅, S t, ∅) (go_range t (Dependencies p)).

(** [rawUnique], and what is kept of the first replica: a value and a node per region. *)
Record comm_trace := mkTrace {
  tr_unique : list f64;
  sampleReplica : option ReplicaKey;
  sampleByRegion : gmap string f64;
  sampleNodeByRegion : gmap string ClusterNodeID
}.
Definition trace_replica (r : ReplicaKey) (tr : comm_trace) : comm_trace :=
  match sampleReplica tr with
  | None => mkTrace (tr_unique tr) (Some r) (sampleByRegion tr) (sampleNodeByRegion tr)
  | Some _ => tr
  end.
Definition trace_cell (r : ReplicaKey) (regJ : string) (n : ClusterNodeID) (sum : f64) (tr : comm_trace) : comm_trace :=
  let seen := see (tr_unique tr) sum in
  if bool_decide (sampleReplica tr = Some r) then
    match sampleByRegion tr !! regJ with
    | Some _ => mkTrace seen (sampleReplica tr) (sampleByRegion tr) (sampleNodeByRegion tr)
    | None =>
        mkTrace seen (sampleReplica tr) (<[regJ := sum]> (sampleByRegion tr)) (<[regJ := n]> (sampleNodeByRegion tr))
    end
  else mkTrace seen (sampleReplica tr) (sampleByRegion tr) (sampleNodeByRegion tr).

Section loops.
Context (p : CommunicationPlugin) (nodeRegion : gmap ClusterNodeID string) (centroid : gmap NamespacedName string).

Definition region_of (n : ClusterNodeID) : string := default "" (nodeRegion !! n).
Definition scored_cell (x : ReplicaKey * list NamespacedName) (acc : NodeValues * comm_trace) (n : NodeContext)
    : result opt_error (NodeValues * comm_trace) :=
  v ← comm_cost (RegionLatencyMs p) nodeRegion centroid x n;
  Ok (record_value acc.1 (NC_ID n) v, trace_cell x.1 (region_of (NC_ID n)) (NC_ID n) v acc.2).
Definition scored_row (nodes : list NodeContext) (acc : ScoreMatrix * option (f64 * f64) * comm_trace) (r : ReplicaKey)
    : result opt_error (ScoreMatrix * option (f64 * f64) * comm_trace) :=
  x ← deps_of_replica p r;
  row ← foldM (scored_cell x) ((∅, acc.1.2), trace_replica r acc.2) nodes;
  Ok (<[r := row.1.1]> acc.1.1, row.1.2, row.2).
Definition scored (ctx : PluginContext) : result opt_error (ScoreMatrix * option (f64 * f64) * comm_trace) :=
  foldM (scored_row (PC_Nodes ctx)) (∅, None, mkTrace [] None ∅ ∅) (PC_Replicas ctx).
End loops.

(** ** The entries of a scoring *)

Section log.
Context {SORT : GoSort} {MAPS : MapOrder} {FMT : GoFmt} (fmt_3f : f64 -> string).

(** The latencies of a region to the centroids of the dependencies, ten at most. *)
Definition pair_text (p : CommunicationPlugin) (centroid : gmap NamespacedName string) (regJ : string) (dep : NamespacedName)
    : string :=
  let cr := default "" (centroid !! dep) in
  match lookupRegionLatency (RegionLatencyMs p) regJ cr with
  | Err e => regJ +:+ "->" +:+ cr +:+ "=ERR:" +:+ Error e
  | Ok lat => regJ +:+ "->" +:+ cr +:+ "=" +:+ fmt_3f lat +:+ "(dep=" +:+ NamespacedName_String dep +:+ ")"
  end.
Definition pair_sample (p : CommunicationPlugin) (centroid : gmap NamespacedName string) (r : ReplicaKey)
    (e : string * ClusterNodeID) : comm_log :=
  let svc := default (mkNN "" "") (ReplicaService p !! r) in
  let deps := take 10 (default [] (Dependencies p !! svc)) in
  PairSample (show_replica r) (NamespacedName_String svc) (ClusterNodeID_String e.2) e.1 (Z.of_nat (length deps))
    (pair_text p centroid e.1 <$> deps).

(** What is logged of the raw costs. *)
Definition raw_log (t : nat) (p : CommunicationPlugin) (centroid : gmap NamespacedName string) (ctx : PluginContext)
    (range : option (f64 * f64)) (tr : comm_trace) : list comm_log :=
  let '(minC, maxC) := minmax_or_zero range in
  [RawScored (Z.of_nat (length (PC_Replicas ctx))) (Z.of_nat (length (PC_Nodes ctx))) minC maxC
     (Z.of_nat (length (tr_unique tr))) (fle maxC minC)] ++
  match sampleReplica tr with
  | None => []
  | Some r =>
      RawSample (show_replica r) (Z.of_nat (size (sampleByRegion tr)))
        (topCounts (S t) (floatBucket fmt_3f t (sampleByRegion tr)) 10)
      :: (pair_sample p centroid r <$> go_range (S (S t)) (sampleNodeByRegion tr))
  end.

(** The pass that normalises, with its counters. *)
Definition normalized_values (t : nat) (M : ScoreMatrix) : list f64 :=
  concat ((fun e => (go_range (S t) e.2).*2) <$> go_range t M).
Definition normalized_log (t : nat) (range : option (f64 * f64)) (M : ScoreMatrix) : comm_log :=
  let '(minC, maxC) := minmax_or_zero range in
  let vs := normalized_values t M in
  let '(mn, mx) := minmax_or_zero (minmax vs) in
  let unique := Z.of_nat (length (foldl see [] vs)) in
  NormalizedScored mn mx unique ((unique =? 1)%Z && feq mn fzero && feq mx fzero) minC maxC.

(** [func (p) scorePlacementWithLogger(diagCtx, ctx)]; [lg] tells whether the context
    has a logger. The entries are those of a scoring that succeeds. *)
Definition scorePlacementWithLogger (lg : bool) (t : nat) (p : CommunicationPlugin) (ctx : PluginContext)
    : result opt_error (ScoreMatrix * list comm_log) :=
  if nothing_to_score ctx then Ok (∅, [])
  else
    _ ← comm_inputs_given p;
    nodeRegion ← node_regions ErrMissingRegion (NodeRegion p) (PC_Nodes ctx);
    let regionCount := region_counts (PC_Nodes ctx) (NodeRegion p) in
    let cur := current_regions p nodeRegion (PC_CurrentPlacement ctx) in
    cs ← centroids_counted t p cur;
    let '(centroid, t', centroidCount) := cs in
    let inputs := CentroidInputs (Z.of_nat (size (Dependencies p))) (Z.of_nat (size regionCount)) (topCounts t' regionCount 6)
      (Z.of_nat (size centroidCount)) (topCounts (1 + t') centroidCount 6) (diagRegionLatency (2 + t') (RegionLatencyMs p)) in
    acc ← scored p nodeRegion centroid ctx;
    let M := normalize_raw acc.1 in
    Ok (M, if lg then inputs :: raw_log (4 + t') p centroid ctx acc.1.2 acc.2 ++ [normalized_log (7 + t') acc.1.2 M] else []).
End log.

(** ** Logging changes no score *)

(** A loop that keeps more than another. *)
Definition erase {E A A'} (pr : A' -> A) (r : result E A') : result E A :=
  match r with Ok a => Ok (pr a) | Err e => Err e end.
Lemma foldM_erase {E A A' B} (pr : A' -> A) (f' : A' -> B -> result E A') (f : A -> B -> result E A) a l :
  (forall a b, erase pr (f' a b) = f (pr a) b) -> erase pr (foldM f' a l) = foldM f (pr a) l.
Proof.
  intros Hf. revert a. induction l as [|b l IH]; intros a; [done|]. cbn. rewrite <- Hf. by destruct (f' a b); cbn.
Qed.

Lemma centroids_erased {MAPS : MapOrder} t p cur : erase fst (centroids_counted t p cur) = centroids t p cur.
Proof.
  apply (foldM_erase fst). intros acc e. apply (foldM_erase fst). intros acc' dep. unfold centroid_counted, centroid_of_dep.
  destruct (acc'.1.1 !! dep); [done|]. by destruct (computeServiceCentroidRegion _ _ _ _ _).
Qed.
Lemma scored_erased p nodeRegion centroid ctx :
  erase fst (scored p nodeRegion centroid ctx) =
  foldM (raw_row (deps_of_replica p) (comm_cost (RegionLatencyMs p) nodeRegion centroid) (PC_Nodes ctx)) (∅, None) (PC_Replicas ctx).
Proof.
  apply (foldM_erase fst). intros acc r. unfold scored_row, raw_row. destruct (deps_of_replica p r) as [x|e]; [cbn|done].
  assert (H := foldM_erase fst (scored_cell p nodeRegion centroid x) (collect (comm_cost (RegionLatencyMs p) nodeRegion centroid x))
    ((∅, acc.1.2), trace_replica r acc.2) (PC_Nodes ctx)).
  cbn [fst] in H. rewrite <- H.
  - by destruct (foldM (scored_cell _ _ _ _) _ _).
  - intros a n. unfold scored_cell, collect. by destruct (comm_cost _ _ _ _ _).
Qed.

(** With or without a logger: the scores, or the error, are those of [ScorePlacement]. *)
Theorem logging_keeps_scores {SORT : GoSort} {MAPS : MapOrder} {FMT : GoFmt} fmt_3f lg t p ctx :
  erase fst (scorePlacementWithLogger fmt_3f lg t p ctx) = Communication_ScorePlacement t p ctx.
Proof.
  unfold scorePlacementWithLogger, Communication_ScorePlacement. destruct (nothing_to_score ctx); [done|].
  destruct (comm_inputs_given p); [cbn|done]. destruct (node_regions _ _ _) as [nodeRegion|]; [cbn|done].
  rewrite <- centroids_erased. destruct (centroids_counted _ _ _) as [[[centroid t'] cnt]|]; [cbn|done].
  unfold raw_scores. rewrite <- scored_erased. by destruct (scored _ _ _ _).
Qed.

(** ** What the entries say of the scores *)

Lemma see_grows l : forall seen, (length seen <= length (foldl see seen l))%nat.
Proof.
  induction l as [|v l IH]; intros seen; [done|]. cbn. etrans; [|apply IH]. unfold see. destruct (existsb _ _); cbn; lia.
Qed.
Lemma see_nan l v : v ∈ l -> is_nan v = true -> forall seen, (length seen < length (foldl see seen l))%nat.
Proof.
  intros Hin Hn. induction l as [|w l IH]; intros seen; [by apply not_elem_of_nil in Hin|]. cbn.
  apply elem_of_cons in Hin as [<-|Hin].
  - assert (see seen v = v :: seen) as ->; [|assert (H := see_grows l (v :: seen)); cbn in H; lia].
    unfold see. enough (existsb (feq v) seen = false) as -> by done. apply not_true_iff_false. intros (x & _ & Hx)%existsb_exists.
    by destruct v.
  - eapply Nat.le_lt_trans; [|by apply (IH Hin (see seen w))]. unfold see. destruct (existsb _ _); cbn; lia.
Qed.
Lemma feq_zeros x y : feq x fzero = true -> feq y fzero = true -> feq x y = true.
Proof. by destruct x as [[]|[]| |[]], y as [[]|[]| |[]]. Qed.
Lemma see_zeros l : forall x, feq x fzero = true -> Forall (fun v => feq v fzero = true) l -> foldl see [x] l = [x].
Proof.
  intros x Hx. induction 1 as [|v l Hv _ IH]; [done|]. cbn. unfold see at 2. cbn. by rewrite (feq_zeros v x).
Qed.
Lemma minmax_nan_first l : forall acc, is_nan acc.1 = true -> exists acc', foldl minmax_step (Some acc) l = Some acc' /\ is_nan acc'.1 = true.
Proof.
  induction l as [|v l IH]; intros [mn mx] Hn; [by exists (mn, mx)|]. cbn in *.
  destruct (IH (if flt v mn then v else mn, if flt mx v then v else mx)) as (acc' & -> & H); [|by exists acc'].
  cbn. by destruct mn as [| | |], v as [[]|[]| |[]].
Qed.

(** Unique, and zero at both ends: exactly when all values are zero. *)
Lemma all_zero_iff l : l <> [] ->
  (Z.of_nat (length (foldl see [] l)) =? 1)%Z && feq (minmax_or_zero (minmax l)).1 fzero && feq (minmax_or_zero (minmax l)).2 fzero = true <->
  Forall (fun v => feq v fzero = true) l.
Proof.
  intros Hne. destruct l as [|x l]; [done|]. rewrite !andb_true_iff, Z.eqb_eq. split.
  - intros [[Hu Hmn] Hmx]. assert (Hnan : Forall (fun v => is_nan v = false) (x :: l)).
    { apply Forall_forall. intros v Hv. apply not_true_is_false. intros Hn. apply elem_of_cons in Hv as [<-|Hv].
      - destruct (minmax_nan_first l (v, v) Hn) as (acc & Hacc & Hn'). change (minmax (v :: l)) with (foldl minmax_step (Some (v, v)) l) in Hmn.
        rewrite Hacc in Hmn. cbn in Hmn. by destruct acc.1.
      - assert (H := see_nan l v Hv Hn (see [] x)). cbn in H, Hu. lia. }
    destruct (minmax_nonempty (x :: l) Hne) as (mn & mx & Hm). rewrite Hm in Hmn, Hmx. cbn in Hmn, Hmx.
    destruct (minmax_spec _ _ _ Hnan Hm) as (_ & _ & Hall). apply (Forall_impl _ _ _ Hall). intros v [H1 H2].
    apply feq_iff in Hmn as [[_ ->]|(s & s' & -> & _)], Hmx as [[_ ->]|(s1 & s1' & -> & _)]; apply fle_antisym;
      by destruct v as [[]|[]| |[]].
  - intros Hall. apply Forall_cons in Hall as [Hx Hall]. assert (Hnan : Forall (fun v => is_nan v = false) (x :: l)).
    { apply Forall_cons. split; [by destruct x as [| | |]|]. apply (Forall_impl _ _ _ Hall). intros v Hv. by destruct v as [| | |]. }
    destruct (minmax_nonempty (x :: l) Hne) as (mn & mx & Hm). destruct (minmax_spec _ _ _ Hnan Hm) as (Hmn & Hmx & _). rewrite Hm.
    assert (Hz : forall v, v ∈ x :: l -> feq v fzero = true)
      by (intros v [->|Hv]%elem_of_cons; [done|]; rewrite Forall_forall in Hall; by apply Hall).
    split_and!; [|by apply Hz|by apply Hz].
    change (foldl see [] (x :: l)) with (foldl see [x] l). by rewrite see_zeros.
Qed.

Lemma elem_of_normalized_values {MAPS : MapOrder} t M v :
  v ∈ normalized_values t M <-> exists r row n, M !! r = Some row /\ row !! n = Some v.
Proof.
  unfold normalized_values. rewrite list_elem_of_In, in_concat. split.
  - intros (l & Hl & Hv). apply list_elem_of_In, list_elem_of_fmap in Hl as ([r row] & -> & Hin%elem_of_go_range).
    apply list_elem_of_In, list_elem_of_fmap in Hv as ([n v'] & -> & Hv%elem_of_go_range). by exists r, row, n.
  - intros (r & row & n & Hr & Hn). exists (go_range (S t) row).*2. split; apply list_elem_of_In, list_elem_of_fmap.
    + exists (r, row). split; [done|]. by apply elem_of_go_range.
    + exists (n, v). split; [done|]. by apply elem_of_go_range.
Qed.

(** What the entries of a scoring say is true of its scores: [allZero] is logged exactly
    when every score is zero, and when all raw costs are the same every score is 0, or
    100 where the cost is not finite. *)
Theorem logged_scores {SORT : GoSort} {MAPS : MapOrder} {FMT : GoFmt} fmt_3f t p ctx M logs :
  scorePlacementWithLogger fmt_3f true t p ctx = Ok (M, logs) ->
  nothing_to_score ctx = false -> NoDup (NC_ID <$> PC_Nodes ctx) ->
  exists mn mx unique same least greatest unique' zero,
    RawScored (Z.of_nat (length (PC_Replicas ctx))) (Z.of_nat (length (PC_Nodes ctx))) mn mx unique same ∈ logs /\
    NormalizedScored least greatest unique' zero mn mx ∈ logs /\
    (zero = true <-> forall r row n v, M !! r = Some row -> row !! n = Some v -> feq v fzero = true) /\
    (same = true -> forall r row n v, M !! r = Some row -> row !! n = Some v -> v = fzero \/ v = f100).
Proof.
  intros Hok Hsome Hnd. unfold scorePlacementWithLogger in Hok. rewrite Hsome in Hok.
  apply bind_Ok in Hok as (_ & _ & Hok). apply bind_Ok in Hok as (nodeRegion & _ & Hok).
  apply bind_Ok in Hok as ([[centroid t'] cnt] & _ & Hok). apply bind_Ok in Hok as ([acc tr] & Hs & Hok). cbn [fst snd] in Hok.
  injection Hok as <- <-. assert (Hraw := scored_erased p nodeRegion centroid ctx). rewrite Hs in Hraw. cbn [erase fst] in Hraw.
  unfold raw_log, normalized_log. destruct (minmax_or_zero acc.2) as [minC maxC] eqn:Hmm.
  match goal with |- context [normalized_values ?k ?N] => set (vs := normalized_values k N) end.
  assert (Hvs : forall v, v ∈ vs <-> exists r row n, normalize_raw acc !! r = Some row /\ row !! n = Some v)
    by (intros v; apply elem_of_normalized_values). clearbody vs.
  destruct (minmax_or_zero (minmax vs)) as [least greatest] eqn:Hmm'.
  do 8 eexists. split; [apply list_elem_of_further; apply list_elem_of_here|].
  split; [apply list_elem_of_further, elem_of_app; right; apply list_elem_of_here|]. split.
  - assert (Hz := all_zero_iff vs). rewrite Hmm' in Hz. cbn [fst snd] in Hz.
    rewrite Hz; clear Hz.
    + rewrite Forall_forall. setoid_rewrite Hvs. split; [intros H r row n v Hr Hn; apply H; by exists r, row, n|].
      intros H v (r & row & n & Hr & Hn). by apply (H r row n v).
    + destruct (raw_loop_inv _ _ (PC_Nodes ctx) (PC_Replicas ctx) acc Hnd (eq_sym Hraw)) as [Hgrid _].
      unfold nothing_to_score in Hsome. destruct (PC_Replicas ctx) as [|r rs]; [done|]. destruct (PC_Nodes ctx) as [|n ns]; [done|].
      destruct (Hgrid r n) as (v & _ & Hv); [apply list_elem_of_here..|]. destruct (acc.1 !! r) as [row|] eqn:Hr; [|done].
      intros Hnil. assert (Hin : normalizeTo0_100 v minC maxC ∈ vs);
        [|rewrite Hnil in Hin; by apply not_elem_of_nil in Hin].
      apply Hvs. exists r, ((fun v => normalizeTo0_100 v minC maxC) <$> row), (NC_ID n).
      unfold normalize_raw. rewrite Hmm, lookup_fmap, Hr. cbn. split; [done|]. cbn in Hv. by rewrite lookup_fmap, Hv.
  - intros Hsame r row n v. unfold normalize_raw. rewrite Hmm, lookup_fmap. destruct (acc.1 !! r) as [row0|]; [|done].
    intros [= <-]. rewrite lookup_fmap. destruct (row0 !! n) as [v0|]; [|done]. intros [= <-]. unfold normalizeTo0_100.
    rewrite Hsame. destruct (is_nan v0 || is_inf v0); [by right|by left].
Qed.

(** ** The sample of the first replica *)

Section sample.
Context (p : CommunicationPlugin) (nodeRegion : gmap ClusterNodeID string) (centroid : gmap NamespacedName string).

(** The first node of a region. *)
Definition first_of (reg : string) (nodes : list NodeContext) : option NodeContext :=
  head (List.filter (fun n => String.eqb (region_of nodeRegion (NC_ID n)) reg) nodes).
Lemma first_of_snoc reg nodes n :
  first_of reg (nodes ++ [n]) =
  match first_of reg nodes with
  | Some m => Some m
  | None => if String.eqb (region_of nodeRegion (NC_ID n)) reg then Some n else None
  end.
Proof.
  unfold first_of. rewrite List.filter_app. cbn. destruct (List.filter _ nodes); [cbn|done]. by destruct (String.eqb _ _).
Qed.

(** The cost of a replica on a node. *)
Definition cost_on (r : ReplicaKey) (n : NodeContext) : option f64 :=
  match raw_value (deps_of_replica p) (comm_cost (RegionLatencyMs p) nodeRegion centroid) r n with
  | Ok v => Some v
  | Err _ => None
  end.

(** The sample of [r] after some nodes. *)
Definition sampled (r : ReplicaKey) (nodes : list NodeContext) (tr : comm_trace) : Prop :=
  sampleReplica tr = Some r /\
  forall reg, sampleNodeByRegion tr !! reg = NC_ID <$> first_of reg nodes /\
    sampleByRegion tr !! reg = first_of reg nodes ≫= cost_on r.

Lemma sampled_cell r x nodes n v tr :
  deps_of_replica p r = Ok x -> comm_cost (RegionLatencyMs p) nodeRegion centroid x n = Ok v ->
  Forall (fun m => is_Some (cost_on r m)) nodes -> sampled r nodes tr ->
  sampled r (nodes ++ [n]) (trace_cell r (region_of nodeRegion (NC_ID n)) (NC_ID n) v tr).
Proof.
  intros Hx Hv Hall [Hr Hs]. unfold trace_cell. rewrite bool_decide_eq_true_2 by done.
  assert (Hcost : cost_on r n = Some v) by (unfold cost_on, raw_value; rewrite Hx; cbn; by rewrite Hv).
  destruct (Hs (region_of nodeRegion (NC_ID n))) as [Hn0 Hv0].
  destruct (sampleByRegion tr !! _) as [v0|] eqn:Hreg; (split; [exact Hr|]); intros reg; cbn; rewrite first_of_snoc;
    destruct (Hs reg) as [Hn1 Hv1]; destruct (String.eqb_spec (region_of nodeRegion (NC_ID n)) reg) as [<-|Hne].
  - destruct (first_of _ nodes); [by split|discriminate Hv0].
  - destruct (first_of reg nodes); by split.
  - destruct (first_of _ nodes) as [m|] eqn:Hf.
    + exfalso. cbn in Hv0. assert (Hm : m ∈ nodes).
      { apply list_elem_of_In. apply (List.filter_In (fun n' => String.eqb (region_of nodeRegion (NC_ID n')) (region_of nodeRegion (NC_ID n)))).
        unfold first_of in Hf. destruct (List.filter _ nodes); [done|]. injection Hf as ->. by left. }
      rewrite Forall_forall in Hall. destruct (Hall m Hm) as [? Hc]. congruence.
    + rewrite !lookup_insert_eq. split; [done|by symmetry].
  - rewrite !lookup_insert_ne by done. destruct (first_of reg nodes); by split.
Qed.

Lemma sampled_other r x nodes n v tr r' :
  r' <> r -> sampled r nodes tr -> sampled r nodes (trace_cell r' (region_of nodeRegion (NC_ID n)) x v tr).
Proof.
  intros Hne [Hr Hs]. unfold trace_cell. rewrite bool_decide_eq_false_2 by congruence. by split.
Qed.

(** A second turn of the same replica adds nothing. *)
Lemma sampled_again r nodes n v tr :
  n ∈ nodes -> Forall (fun m => is_Some (cost_on r m)) nodes -> sampled r nodes tr ->
  sampled r nodes (trace_cell r (region_of nodeRegion (NC_ID n)) (NC_ID n) v tr).
Proof.
  intros Hin Hall [Hr Hs]. unfold trace_cell. rewrite bool_decide_eq_true_2 by done.
  destruct (sampleByRegion tr !! _) as [v0|] eqn:Hreg; [by split|]. exfalso.
  destruct (Hs (region_of nodeRegion (NC_ID n))) as [_ Hv0]. rewrite Hreg in Hv0.
  destruct (first_of _ nodes) as [m|] eqn:Hf; unfold first_of in Hf.
  - assert (Hm : m ∈ nodes).
    { apply list_elem_of_In. apply (List.filter_In (fun n' => String.eqb (region_of nodeRegion (NC_ID n')) (region_of nodeRegion (NC_ID n)))).
      destruct (List.filter _ nodes); [done|]. injection Hf as ->. by left. }
    rewrite Forall_forall in Hall. destruct (Hall m Hm) as [? Hc]. cbn in Hv0. congruence.
  - assert (Hn : In n (List.filter (fun n' => String.eqb (region_of nodeRegion (NC_ID n')) (region_of nodeRegion (NC_ID n))) nodes)).
    { apply List.filter_In. split; [by apply list_elem_of_In|apply String.eqb_refl]. }
    by destruct (List.filter _ nodes).
Qed.

Lemma row_first r x nodes acc row :
  deps_of_replica p r = Ok x -> sampled r [] acc.2 -> foldM (scored_cell p nodeRegion centroid x) acc nodes = Ok row ->
  sampled r nodes row.2 /\ Forall (fun n => is_Some (cost_on r n)) nodes.
Proof.
  intros Hx H0 Hrow.
  assert (x.1 = r) as Hxr by (unfold deps_of_replica in Hx; by destruct (ReplicaService p !! r); [injection Hx as <-|]).
  revert Hrow. apply (foldM_inv (fun done acc => sampled r done acc.2 /\ Forall (fun n => is_Some (cost_on r n)) done)); [by split|].
  intros seen n a a' [Hs Hall] _ Hstep. apply bind_Ok in Hstep as (v & Hv & [= <-]). cbn [snd]. rewrite Hxr. split.
  - by apply (sampled_cell r x).
  - apply Forall_app. split; [done|]. apply Forall_singleton. unfold cost_on, raw_value. rewrite Hx. cbn. rewrite Hv. by eexists.
Qed.
Lemma row_later r r' x nodes acc row :
  deps_of_replica p r' = Ok x -> Forall (fun n => is_Some (cost_on r n)) nodes -> sampled r nodes acc.2 ->
  foldM (scored_cell p nodeRegion centroid x) acc nodes = Ok row -> sampled r nodes row.2.
Proof.
  intros Hx Hall H0 Hrow.
  assert (x.1 = r') as Hxr by (unfold deps_of_replica in Hx; by destruct (ReplicaService p !! r'); [injection Hx as <-|]).
  revert Hrow. apply (foldM_inv (fun _ acc => sampled r nodes acc.2)); [done|].
  intros seen n a a' Hs Hn Hstep. apply bind_Ok in Hstep as (v & Hv & [= <-]). cbn [snd]. rewrite Hxr.
  destruct (decide (r' = r)) as [->|Hne]; [by apply sampled_again|by apply sampled_other].
Qed.

(** The sample that is logged is of the first replica: for every region that a node
    has, its first node and the cost of the replica there, and nothing for others. *)
Theorem sample_of_first ctx r rs acc tr :
  scored p nodeRegion centroid ctx = Ok (acc, tr) -> PC_Replicas ctx = r :: rs -> sampled r (PC_Nodes ctx) tr.
Proof.
  unfold scored. intros Hs Hr. rewrite Hr in Hs. cbn [foldM] in Hs. apply bind_Ok in Hs as (acc1 & Hrow & Hs).
  apply bind_Ok in Hrow as (x & Hx & Hrow). apply bind_Ok in Hrow as (row & Hrow & [= <-]).
  apply (row_first r) in Hrow as [Hrow Hall]; [|done|split; [done|by intros reg]].
  assert (H : forall l a a', sampled r (PC_Nodes ctx) a.2 -> foldM (scored_row p nodeRegion centroid (PC_Nodes ctx)) a l = Ok a' ->
    sampled r (PC_Nodes ctx) a'.2); [|exact (H rs (<[r:=row.1.1]> ∅, row.1.2, row.2) (acc, tr) Hrow Hs)].
  clear -Hall. intros l a a' Ha. apply (foldM_inv (fun _ a => sampled r (PC_Nodes ctx) a.2)); [done|].
  intros seen r' b b' Hb _ Hstep. apply bind_Ok in Hstep as (x & Hx & Hstep). apply bind_Ok in Hstep as (row & Hrow & [= <-]).
  cbn [snd]. apply (row_later r r' x (PC_Nodes ctx) _ row Hx Hall) in Hrow; [done|]. cbn [snd]. unfold trace_replica.
  destruct Hb as [Hb Hs]. by rewrite Hb.
Qed.
End sample.

(** ** One scoring with its entries *)

Definition no_fmt : GoFmt := {| fmt_v := fun _ => "v"; fmt_q := fun s => s |}.
#[local] Existing Instance no_fmt.
Definition demo_log : result opt_error (ScoreMatrix * list comm_log) :=
  scorePlacementWithLogger (fun _ => "x") true 0 demo_comm demo_comm_ctx.

Example demo_entries :
  match demo_log with
  | Ok (_, [CentroidInputs deps regions top _ _ _; RawScored replicas nodes _ _ _ same; RawSample replica 2 _;
            PairSample _ _ "c1/n2" "us" 1 _; PairSample _ _ "c1/n1" "eu" 1 _; NormalizedScored _ _ _ zero _ _]) =>
      (deps, regions, top, replicas, nodes, same, zero) = (1, 2, ["eu=1"; "us=1"], 2, 2, false, false)%Z
  | _ => False
  end.
Proof. by_eval. Qed.

Lemma logged_scores_witness :
  exists M logs replicas nodes mn mx unique same, demo_log = Ok (M, logs) /\ RawScored replicas nodes mn mx unique same ∈ logs.
Proof.
  destruct (is_ok_Ok demo_log) as [[M logs] E]; [by_eval|].
  destruct (logged_scores (fun _ => "x") 0 demo_comm demo_comm_ctx M logs) as (mn & mx & unique & same & _ & _ & _ & _ & H & _);
    [exact E|done|by_computation|].
  do 8 eexists. split; [exact E|exact H].
Defined.

Lemma sample_of_first_witness :
  exists acc tr, scored demo_comm {[mkNode "c1" "n1" := "eu"]} {[demo_service := "eu"]}
      (mkPluginContext [mkReplica "default" "web" 0] [demo_node "n1" "small" "eu"] None ∅) = Ok (acc, tr) /\
    sampleNodeByRegion tr !! "eu" = Some (mkNode "c1" "n1").
Proof.
  destruct (is_ok_Ok (scored demo_comm {[mkNode "c1" "n1" := "eu"]} {[demo_service := "eu"]}
      (mkPluginContext [mkReplica "default" "web" 0] [demo_node "n1" "small" "eu"] None ∅))) as [[acc tr] E]; [by_eval|].
  exists acc, tr. split; [exact E|].
  destruct (sample_of_first _ _ _ _ (mkReplica "default" "web" 0) [] acc tr E eq_refl) as [_ H]. rewrite (proj1 (H "eu")). reflexivity.
Defined.
