(* ===== verification/Plan.v ===== *)
(** * Plan metrics and moves (optimizer/plan.go, optimizer/end_to_end.go)

    From a placement score matrix, the current and the expected placement: the
    score sums, the improvement and the list of replicas to move. *)

From S2P Require Import Prelude Float64 OptTypes OptErrors Plugins RawScores Energy Communication Objective.

Local Open Scope string_scope.
Local Open Scope list_scope.

(** [type ExpectedPlacement map[ReplicaKey]ClusterNodeID]; nil reads as empty. *)
Notation ExpectedPlacement := (gmap ReplicaKey ClusterNodeID).

(** [type PlanInputs struct]; the score and penalty maps can be nil. *)
Record PlanInputs := mkPlanInputs {
  PI_Replicas : list ReplicaKey;
  PI_PlacementScores : option ScoreMatrix;
  PI_CurrentPlacement : gmap ReplicaKey ClusterNodeID;
  PI_ExpectedPlacement : ExpectedPlacement;
  PI_MigrationPenalty : option (gmap ReplicaKey f64)
}.

(** [type PlanMetrics struct]. *)
Record PlanMetrics := mkPlanMetrics {
  CurrentScore : f64;
  ExpectedScore : f64;
  EstimatedImprovement : f64;
  EstimatedImprovementPct : f64;
  PodsToMove : Z
}.

(** [type PlanMoveLite struct]. *)
Record PlanMoveLite := mkMove {
  Replica : ReplicaKey; Source : ClusterNodeID; Destination : ClusterNodeID
}.

(** [func getPlacementScore(scores, r, n)]. *)
Definition getPlacementScore (scores : ScoreMatrix) (r : ReplicaKey) (n : ClusterNodeID) : option f64 :=
  match scores !! r with None => None | Some m => m !! n end.

(** [if ok { if s, ok := getPlacementScore(...); ok { sum += s } }]. *)
Definition add_score (scores : ScoreMatrix) (r : ReplicaKey) (node : option ClusterNodeID) (sum : f64) : f64 :=
  match node with
  | None => sum
  | Some n => match getPlacementScore scores r n with Some s => fadd sum s | None => sum end
  end.

(** [if curOk && expOk && (curNode != expNode)]: the move of a replica. *)
Definition move_of (cur exp : gmap ReplicaKey ClusterNodeID) (r : ReplicaKey) : option PlanMoveLite :=
  match cur !! r, exp !! r with
  | Some c, Some e => if bool_decide (c <> e) then Some (mkMove r c e) else None
  | _, _ => None
  end.

(** State of the loop over the replicas: [curSum], [expSum], [moves]. *)
Definition plan_step (scores : ScoreMatrix) (cur exp : gmap ReplicaKey ClusterNodeID)
    (acc : f64 * f64 * list PlanMoveLite) (r : ReplicaKey) : f64 * f64 * list PlanMoveLite :=
  let '(curSum, expSum, moves) := acc in
  (add_score scores r (cur !! r) curSum,
   add_score scores r (exp !! r) expSum,
   match move_of cur exp r with Some mv => moves ++ [mv] | None => moves end).

(** [for _, mv := range moves { if pen, ok := ...; ok { expSum += pen } }]. *)
Definition add_penalties (pens : option (gmap ReplicaKey f64)) (moves : list PlanMoveLite) (expSum : f64) : f64 :=
  match pens with
  | None => expSum
  | Some m => foldl (fun sum mv => match m !! Replica mv with Some pen => fadd sum pen | None => sum end)
                expSum moves
  end.

(** The metrics computed from the sums. *)
Definition plan_metrics (curSum expSum : f64) (moves : list PlanMoveLite) : PlanMetrics :=
  let impr := fsub curSum expSum in
  let impr := if flt impr fzero then fzero else impr in
  let imprPct := if flt fzero curSum then fdiv (fmul impr f100) curSum else fzero in
  mkPlanMetrics curSum expSum impr imprPct (wrap32 (Z.of_nat (length moves))).

(** [func BuildPlanMetricsAndMoves(in PlanInputs)]. *)
Definition BuildPlanMetricsAndMoves (inp : PlanInputs)
    : result opt_error (PlanMetrics * list PlanMoveLite) :=
  match PI_Replicas inp with
  | [] => Ok (mkPlanMetrics fzero fzero fzero fzero 0, [])
  | _ =>
      scores ← require (PI_PlacementScores inp) ErrPlacementScoresNil;
      let '(curSum, expSum, moves) :=
        foldl (plan_step scores (PI_CurrentPlacement inp) (PI_ExpectedPlacement inp))
          (fzero, fzero, []) (PI_Replicas inp) in
      Ok (plan_metrics curSum (add_penalties (PI_MigrationPenalty inp) moves expSum) moves, moves)
  end.

Section end_to_end.
Context {SORT : GoSort} {MAPS : MapOrder}.

(** [func ComputePlanFromGoals(ctx, in ObjectiveInputs, expected)]. *)
Definition ComputePlanFromGoals (t : nat) (inp : ObjectiveInputs) (expected : ExpectedPlacement)
    : result opt_error (PlanMetrics * list PlanMoveLite) :=
  out ← BuildObjective t inp;
  BuildPlanMetricsAndMoves
    (mkPlanInputs (PC_Replicas (OI_Ctx inp)) (Some (PlacementScores out))
       (PC_CurrentPlacement (OI_Ctx inp)) expected (MigrationPenalty out)).

(** [func ComputePlanForSingleGoal(ctx, in, goal, expected)]. *)
Definition ComputePlanForSingleGoal (t : nat) (inp : ObjectiveInputs) (goal : WeightedGoal)
    (expected : ExpectedPlacement) : result opt_error (PlanMetrics * list PlanMoveLite) :=
  ComputePlanFromGoals t (with_goals inp [goal]) expected.
End end_to_end.

(** ** Lemmas *)

(** Reference definitions: the sum of the known scores, and the moves. *)
Definition known_scores (scores : ScoreMatrix) (placement : gmap ReplicaKey ClusterNodeID)
    (replicas : list ReplicaKey) : list f64 :=
  omap (fun r => n ← placement !! r; score_at scores r n) replicas.

Definition expected_moves (cur exp : gmap ReplicaKey ClusterNodeID) (replicas : list ReplicaKey)
    : list PlanMoveLite := omap (move_of cur exp) replicas.

Definition known_penalties (pens : option (gmap ReplicaKey f64)) (moves : list PlanMoveLite) : list f64 :=
  omap (fun mv => m ← pens; m !! Replica mv) moves.

Lemma foldl_omap {A B C} (f : A -> B -> A) (g : C -> option B) a l :
  foldl (fun a c => match g c with Some b => f a b | None => a end) a l = foldl f a (omap g l).
Proof. revert a. induction l as [|c l IH]; intros a; simpl; [done|]. rewrite IH. by destruct (g c). Qed.

Lemma add_score_known scores (placement : gmap ReplicaKey ClusterNodeID) r sum :
  add_score scores r (placement !! r) sum =
    match n ← placement !! r; score_at scores r n with Some s => fadd sum s | None => sum end.
Proof.
  unfold add_score, getPlacementScore, score_at. destruct (placement !! r) as [n|]; simpl; [|done].
  by destruct (scores !! r).
Qed.

Lemma plan_loop scores cur exp replicas :
  foldl (plan_step scores cur exp) (fzero, fzero, []) replicas =
    (fsum (known_scores scores cur replicas), fsum (known_scores scores exp replicas),
     expected_moves cur exp replicas).
Proof.
  enough (G : forall a b l, foldl (plan_step scores cur exp) (a, b, l) replicas =
    (foldl fadd a (known_scores scores cur replicas), foldl fadd b (known_scores scores exp replicas),
     l ++ expected_moves cur exp replicas)) by apply G.
  induction replicas as [|r replicas IH]; intros a b l; simpl; [by rewrite app_nil_r|].
  rewrite IH, !add_score_known. unfold known_scores, expected_moves. simpl.
  destruct (cur !! r ≫= _), (exp !! r ≫= _), (move_of cur exp r); simpl; by rewrite <-?app_assoc.
Qed.

Lemma add_penalties_sum pens moves s :
  add_penalties pens moves s = foldl fadd s (known_penalties pens moves).
Proof.
  unfold add_penalties, known_penalties. destruct pens as [m|]; simpl; [apply foldl_omap|].
  by induction moves.
Qed.

(** The whole computation in terms of the reference definitions. *)
Lemma BuildPlan_spec inp scores :
  PI_Replicas inp <> [] -> PI_PlacementScores inp = Some scores ->
  let moves := expected_moves (PI_CurrentPlacement inp) (PI_ExpectedPlacement inp) (PI_Replicas inp) in
  BuildPlanMetricsAndMoves inp =
    Ok (plan_metrics (fsum (known_scores scores (PI_CurrentPlacement inp) (PI_Replicas inp)))
          (foldl fadd (fsum (known_scores scores (PI_ExpectedPlacement inp) (PI_Replicas inp)))
             (known_penalties (PI_MigrationPenalty inp) moves)) moves, moves).
Proof.
  intros Hne Hs moves. unfold BuildPlanMetricsAndMoves. rewrite Hs. cbn [require mbind result_bind].
  rewrite plan_loop, add_penalties_sum. by destruct (PI_Replicas inp).
Qed.

Lemma expected_moves_same placement replicas : expected_moves placement placement replicas = [].
Proof.
  induction replicas as [|r replicas IH]; [done|]. unfold expected_moves. simpl.
  unfold move_of at 1. destruct (placement !! r); [|done]. by rewrite bool_decide_false by auto.
Qed.

Lemma elem_of_expected_moves cur exp replicas mv :
  mv ∈ expected_moves cur exp replicas <->
  Replica mv ∈ replicas /\ cur !! Replica mv = Some (Source mv) /\
  exp !! Replica mv = Some (Destination mv) /\ Source mv <> Destination mv.
Proof.
  unfold expected_moves. rewrite list_elem_of_omap. unfold move_of. split.
  - intros (r & Hr & Hm). destruct (cur !! r) eqn:Hc, (exp !! r) eqn:He; try done.
    case_bool_decide; [|done]. injection Hm as <-. done.
  - intros (Hr & Hc & He & Hne). exists (Replica mv). split; [done|].
    rewrite Hc, He, bool_decide_true by done. by destruct mv.
Qed.

(** What [plan_metrics] guarantees of the reported numbers. *)
Lemma clamp_never_neg x : never_neg (if flt x fzero then fzero else x).
Proof. unfold never_neg. by destruct (flt x fzero) eqn:E. Qed.

Lemma plan_metrics_never_neg c e moves :
  never_neg (EstimatedImprovement (plan_metrics c e moves)) /\
  never_neg (EstimatedImprovementPct (plan_metrics c e moves)).
Proof.
  split; simpl; [apply clamp_never_neg|].
  destruct (flt fzero c) eqn:Hc; [|done].
  apply fdiv_pos_never_neg; [apply fmul_never_neg; [apply clamp_never_neg|apply f100_never_neg]|].
  by apply fpos_iff.
Qed.

(** Scores and penalties that are numbers not below zero. *)
Definition scores_ok (scores : ScoreMatrix) : Prop :=
  map_Forall (fun _ row => map_Forall (fun _ s => fok s /\ never_neg s) row) scores.
Definition penalties_ok (pens : option (gmap ReplicaKey f64)) : Prop :=
  match pens with None => True | Some m => map_Forall (fun _ s => fok s /\ never_neg s) m end.

Lemma known_scores_ok scores placement replicas :
  scores_ok scores -> Forall (fun x => fok x /\ never_neg x) (known_scores scores placement replicas).
Proof.
  intros Hs. apply Forall_forall. intros x Hx. unfold known_scores in Hx.
  apply list_elem_of_omap in Hx as (r & _ & Hx).
  apply bind_Some in Hx as (n & _ & Hx). unfold score_at in Hx.
  apply bind_Some in Hx as (row & Hrow & Hx). exact (Hs _ _ Hrow _ _ Hx).
Qed.

Lemma known_penalties_ok pens moves :
  penalties_ok pens -> Forall (fun x => fok x /\ never_neg x) (known_penalties pens moves).
Proof.
  intros Hp. apply Forall_forall. intros x Hx. unfold known_penalties in Hx.
  apply list_elem_of_omap in Hx as (mv & _ & Hx).
  destruct pens as [m|]; [|done]. exact (Hp _ _ Hx).
Qed.

Lemma ComputePlan_moves {SORT : GoSort} {MAPS : MapOrder} t inp expected m moves :
  ComputePlanFromGoals t inp expected = Ok (m, moves) ->
  moves = expected_moves (PC_CurrentPlacement (OI_Ctx inp)) expected (PC_Replicas (OI_Ctx inp)).
Proof.
  unfold ComputePlanFromGoals. intros H. apply bind_Ok in H as (out & _ & H).
  destruct (decide (PC_Replicas (OI_Ctx inp) = [])) as [E|E].
  - rewrite E in *. by injection H as _ <-.
  - erewrite BuildPlan_spec in H by done. by injection H as _ <-.
Qed.

(** ** Properties *)

(** C37: the plan moves exactly the replicas whose current and expected nodes are
    both known and differ, from the one to the other, in the order of the replica
    list; [PodsToMove] counts them. *)
Theorem BuildPlanMetricsAndMoves_moves inp scores m moves :
  PI_PlacementScores inp = Some scores ->
  (Z.of_nat (length (PI_Replicas inp)) < 2 ^ 31)%Z ->
  BuildPlanMetricsAndMoves inp = Ok (m, moves) ->
  (forall mv, mv ∈ moves <->
     Replica mv ∈ PI_Replicas inp /\
     PI_CurrentPlacement inp !! Replica mv = Some (Source mv) /\
     PI_ExpectedPlacement inp !! Replica mv = Some (Destination mv) /\
     Source mv <> Destination mv) /\
  (Replica <$> moves) `sublist_of` PI_Replicas inp /\
  PodsToMove m = Z.of_nat (length moves).
Proof.
  intros Hs Hlen Hok.
  assert (Hm : moves = expected_moves (PI_CurrentPlacement inp) (PI_ExpectedPlacement inp) (PI_Replicas inp)
            /\ PodsToMove m = wrap32 (Z.of_nat (length moves))).
  { destruct (decide (PI_Replicas inp = [])) as [E|E].
    - unfold BuildPlanMetricsAndMoves in Hok. rewrite E in *. by injection Hok as <- <-.
    - erewrite BuildPlan_spec in Hok by done. by injection Hok as <- <-. }
  destruct Hm as [Hm Hcount].
  assert (Hsub : (Replica <$> moves) `sublist_of` PI_Replicas inp).
  { rewrite Hm. clear. unfold expected_moves. induction (PI_Replicas inp) as [|r rs IH]; simpl; [done|].
    unfold move_of at 1. destruct (PI_CurrentPlacement inp !! r), (PI_ExpectedPlacement inp !! r);
      try case_bool_decide; simpl; by constructor. }
  split_and!; [intros mv; rewrite Hm; apply elem_of_expected_moves|done|].
  rewrite Hcount. apply sublist_length in Hsub. rewrite length_fmap in Hsub.
  apply wrap32_id. unfold int32_range. lia.
Qed.

(** The current score is the sum of the known scores of the current
    placement, the expected score that of the expected placement plus the
    penalties of the moves, in replica order; with scores and penalties not below
    zero both are numbers not below zero, and the reported improvement is never
    negative and positive exactly when the expected score is strictly smaller: no
    gain underflows to zero and no loss is reported as a gain. *)
Theorem BuildPlanMetricsAndMoves_improvement inp scores m moves :
  PI_Replicas inp <> [] -> PI_PlacementScores inp = Some scores ->
  scores_ok scores -> penalties_ok (PI_MigrationPenalty inp) ->
  BuildPlanMetricsAndMoves inp = Ok (m, moves) ->
  CurrentScore m = fsum (known_scores scores (PI_CurrentPlacement inp) (PI_Replicas inp)) /\
  ExpectedScore m = fsum (known_scores scores (PI_ExpectedPlacement inp) (PI_Replicas inp) ++
                          known_penalties (PI_MigrationPenalty inp) moves) /\
  never_neg (EstimatedImprovement m) /\ never_neg (EstimatedImprovementPct m) /\
  flt fzero (EstimatedImprovement m) = flt (ExpectedScore m) (CurrentScore m).
Proof.
  intros Hne Hs Hok Hpen Hplan. erewrite BuildPlan_spec in Hplan by done.
  injection Hplan as <- Hmoves. rewrite Hmoves.
  destruct (plan_metrics_never_neg
    (fsum (known_scores scores (PI_CurrentPlacement inp) (PI_Replicas inp)))
    (foldl fadd (fsum (known_scores scores (PI_ExpectedPlacement inp) (PI_Replicas inp)))
       (known_penalties (PI_MigrationPenalty inp) moves)) moves) as [Hi Hp].
  rewrite <-fsum_app in *. split_and!; [done..|].
  destruct (fsum_ok _ (known_scores_ok scores (PI_CurrentPlacement inp) (PI_Replicas inp) Hok)) as [Hc _].
  destruct (fsum_ok (known_scores scores (PI_ExpectedPlacement inp) (PI_Replicas inp) ++
                     known_penalties (PI_MigrationPenalty inp) moves)) as [He _].
  { apply Forall_app. split; [by apply known_scores_ok|by apply known_penalties_ok]. }
  simpl. rewrite <-(fsub_pos_iff _ _ Hc He).
  destruct (flt (fsub _ _) fzero) eqn:E; [|done]. symmetry.
  by apply fle_flt_false, flt_fle.
Qed.

(** when the expected placement is the current one the plan is empty: no
    move, the same two scores, no improvement. *)
Theorem BuildPlanMetricsAndMoves_same inp scores m moves :
  PI_PlacementScores inp = Some scores ->
  PI_ExpectedPlacement inp = PI_CurrentPlacement inp ->
  BuildPlanMetricsAndMoves inp = Ok (m, moves) ->
  is_nan (CurrentScore m) = false -> is_inf (CurrentScore m) = false ->
  moves = [] /\ PodsToMove m = 0%Z /\ ExpectedScore m = CurrentScore m /\
  EstimatedImprovement m = fzero /\ EstimatedImprovementPct m = fzero.
Proof.
  intros Hs Hsame Hok. destruct (decide (PI_Replicas inp = [])) as [E|E].
  { unfold BuildPlanMetricsAndMoves in Hok. rewrite E in Hok. by injection Hok as <- <-. }
  erewrite BuildPlan_spec in Hok by done. rewrite Hsame, expected_moves_same in Hok.
  injection Hok as <- <-. generalize (fsum (known_scores scores (PI_CurrentPlacement inp) (PI_Replicas inp))).
  intros c. unfold plan_metrics. cbn [CurrentScore]. intros Nc Ic. rewrite fsub_diag by done. simpl.
  split_and!; [done..|]. by destruct c as [[]|[]| |[]].
Qed.

(** planning fails only when there are replicas and no score matrix. *)
Theorem BuildPlanMetricsAndMoves_ok_iff inp :
  is_ok (BuildPlanMetricsAndMoves inp) = true <->
  PI_Replicas inp = [] \/ is_Some (PI_PlacementScores inp).
Proof.
  unfold BuildPlanMetricsAndMoves. destruct (PI_Replicas inp) as [|r rs]; [simpl; naive_solver|].
  destruct (PI_PlacementScores inp) as [scores|]; cbn [require mbind result_bind].
  - rewrite plan_loop. split; [right; by eexists|done].
  - split; [done|]. by intros [?|[? ?]].
Qed.

(** The moves of an end-to-end plan depend on the placements alone: the
    plan of all goals and the breakdown computed for a single goal list the same
    moves. *)
Theorem ComputePlanForSingleGoal_same_moves {SORT : GoSort} {MAPS : MapOrder} t t' inp goal expected m moves m' moves' :
  ComputePlanFromGoals t inp expected = Ok (m, moves) ->
  ComputePlanForSingleGoal t' inp goal expected = Ok (m', moves') ->
  moves' = moves.
Proof.
  intros ->%ComputePlan_moves Hs. unfold ComputePlanForSingleGoal in Hs.
  by apply ComputePlan_moves in Hs.
Qed.

Definition demo_replica (i : Z) : ReplicaKey := mkReplica "default" "web" i.
Definition demo_scores : ScoreMatrix :=
  {[demo_replica 0 := {[mkNode "c1" "n1" := f64_of_Z 100; mkNode "c2" "n2" := fzero]};
    demo_replica 1 := {[mkNode "c1" "n1" := f64_of_Z 100; mkNode "c2" "n2" := fzero]}]}.
Definition demo_plan : PlanInputs :=
  mkPlanInputs [demo_replica 0; demo_replica 1] (Some demo_scores)
    {[demo_replica 0 := mkNode "c1" "n1"; demo_replica 1 := mkNode "c1" "n1"]}
    {[demo_replica 0 := mkNode "c2" "n2"; demo_replica 1 := mkNode "c1" "n1"]}
    (Some {[demo_replica 0 := f64_of_Z 10]}).

Lemma BuildPlanMetricsAndMoves_moves_witness :
  exists m moves, BuildPlanMetricsAndMoves demo_plan = Ok (m, moves) /\
    mkMove (demo_replica 0) (mkNode "c1" "n1") (mkNode "c2" "n2") ∈ moves /\
    PodsToMove m = Z.of_nat (length moves).
Proof.
  destruct (is_ok_Ok (BuildPlanMetricsAndMoves demo_plan)) as [[m moves] E]; [by_eval|].
  destruct (BuildPlanMetricsAndMoves_moves demo_plan demo_scores m moves eq_refl) as (Hm & _ & Hc);
    [reflexivity|exact E|].
  exists m, moves. split; [exact E|]. split; [|exact Hc].
  apply Hm. simpl. split; [apply list_elem_of_here|]. split; [by_eval|]. split; [by_eval|].
  discriminate.
Defined.

Lemma BuildPlanMetricsAndMoves_improvement_witness :
  exists m moves, BuildPlanMetricsAndMoves demo_plan = Ok (m, moves) /\
    flt fzero (EstimatedImprovement m) = true.
Proof.
  destruct (is_ok_Ok (BuildPlanMetricsAndMoves demo_plan)) as [[m moves] E]; [by_eval|].
  destruct (BuildPlanMetricsAndMoves_improvement demo_plan demo_scores m moves) as (_ & _ & _ & _ & Hi).
  - discriminate.
  - reflexivity.
  - by_computation.
  - unfold penalties_ok. simpl. by_computation.
  - exact E.
  - exists m, moves. split; [exact E|]. rewrite Hi. vm_compute in E. injection E as <- <-. reflexivity.
Defined.

Definition demo_stay : PlanInputs :=
  mkPlanInputs (PI_Replicas demo_plan) (Some demo_scores) (PI_CurrentPlacement demo_plan)
    (PI_CurrentPlacement demo_plan) None.

Lemma BuildPlanMetricsAndMoves_same_witness :
  exists m moves, BuildPlanMetricsAndMoves demo_stay = Ok (m, moves) /\ moves = [].
Proof.
  destruct (is_ok_Ok (BuildPlanMetricsAndMoves demo_stay)) as [[m moves] E]; [by_eval|].
  exists m, moves. split; [exact E|].
  apply (BuildPlanMetricsAndMoves_same demo_stay demo_scores m moves eq_refl eq_refl E);
    vm_compute in E; injection E as <- <-; reflexivity.
Defined.

Lemma ComputePlanForSingleGoal_same_moves_witness :
  exists m moves m', ComputePlanFromGoals 0 (demo_inputs demo_goals) ∅ = Ok (m, moves) /\
    ComputePlanForSingleGoal 0 (demo_inputs demo_goals) (mkGoal "Cost" (f64_of_Z 1) "" "") ∅ = Ok (m', moves).
Proof.
  destruct (is_ok_Ok (ComputePlanFromGoals 0 (demo_inputs demo_goals) ∅)) as [[m moves] E]; [by_eval|].
  destruct (is_ok_Ok (ComputePlanForSingleGoal 0 (demo_inputs demo_goals)
    (mkGoal "Cost" (f64_of_Z 1) "" "") ∅)) as [[m' moves'] E']; [by_eval|].
  exists m, moves, m'. split; [exact E|].
  rewrite <-(ComputePlanForSingleGoal_same_moves 0 0 (demo_inputs demo_goals)
    (mkGoal "Cost" (f64_of_Z 1) "" "") ∅ m moves m' moves' E E'). exact E'.
Defined.
