(* ===== verification/HumanReadable.v ===== *)
(** * Readable metrics (optimizer/human_readable.go, human_readable_impl.go)

    Goal metrics in original units, before and after a plan. *)

From S2P Require Import Prelude Float64 OptTypes OptErrors Plugins RawScores Energy Communication.
From S2P Require Import Objective Plan.

Local Open Scope string_scope.
Local Open Scope list_scope.

(** [type GoalHumanReadableMetric struct]; nil pointers and the nil map are [None]. *)
Record GoalHumanReadableMetric := mkMetric {
  Kind : string;
  Unit : string;
  From : option f64;
  To : option f64;
  Delta : option f64;
  Detail : option (gmap string string)
}.

(** [func buildMetric(kind, unit string, from, to float64, detail)]. *)
Definition buildMetric (kind unit : string) (from to : f64) (detail : option (gmap string string))
    : GoalHumanReadableMetric :=
  mkMetric kind unit (Some from) (Some to) (Some (fsub from to)) detail.

(** One turn of the loop of [buildNodeInstancePrice]. *)
Definition price_of_node (instPrice : gmap string f64) (out : gmap ClusterNodeID f64) (n : NodeContext)
    : result opt_error (gmap ClusterNodeID f64) :=
  let it := default "" (NC_Labels n !! LabelInstanceType) in
  _ ← fail_if (str_empty it) (ErrReadable "Cost" (ErrMissingLabel LabelInstanceType (NC_ID n)));
  p ← require (instPrice !! it) (ErrReadable "Cost" (ErrMissingPrice it (NC_ID n)));
  Ok (<[NC_ID n := p]> out).

(** [func buildNodeInstancePrice(nodes, instPrice)]. *)
Definition buildNodeInstancePrice (nodes : list NodeContext) (instPrice : gmap string f64)
    : result opt_error (gmap ClusterNodeID f64) := foldM (price_of_node instPrice) ∅ nodes.

(** [if node, ok := placement[r]; ok { sum += value(node) }]. *)
Definition add_placed (value : ClusterNodeID -> f64) (placement : gmap ReplicaKey ClusterNodeID)
    (sum : f64) (r : ReplicaKey) : f64 :=
  match placement !! r with Some n => fadd sum (value n) | None => sum end.

(** [func computeCostTotal(in, expected)]. *)
Definition computeCostTotal (inp : ObjectiveInputs) (expected : ExpectedPlacement)
    : result opt_error (f64 * f64) :=
  if (length (PC_Replicas (OI_Ctx inp)) =? 0)%nat then Ok (fzero, fzero)
  else
    _ ← fail_if (bool_decide (InstancePrice inp = ∅)) (ErrReadable "Cost" ErrInstancePriceEmpty);
    _ ← fail_if (length (PC_Nodes (OI_Ctx inp)) =? 0)%nat (ErrReadable "Cost" ErrNodesEmpty);
    priceByNode ← buildNodeInstancePrice (PC_Nodes (OI_Ctx inp)) (InstancePrice inp);
    let price := fun n => default fzero (priceByNode !! n) in
    Ok (foldl (add_placed price (PC_CurrentPlacement (OI_Ctx inp))) fzero (PC_Replicas (OI_Ctx inp)),
        foldl (add_placed price expected) fzero (PC_Replicas (OI_Ctx inp))).

(** [func buildNodeRegion(nodes, override)]. *)
Definition buildNodeRegion (nodes : list NodeContext) (override : gmap ClusterNodeID string)
    : result opt_error (gmap ClusterNodeID string) := node_regions ErrReadableRegion override nodes.

(** Sum and count of the latencies of the placed replicas. *)
Definition add_latency (regionByNode : gmap ClusterNodeID string) (row : gmap string f64)
    (placement : gmap ReplicaKey ClusterNodeID) (acc : f64 * Z) (r : ReplicaKey) : f64 * Z :=
  match (n ← placement !! r; reg ← regionByNode !! n; row !! reg) with
  | Some lat => (fadd acc.1 lat, acc.2 + 1)%Z
  | None => acc
  end.

(** [if n > 0 { sum = sum / float64(n) }]. *)
Definition mean (acc : f64 * Z) : f64 :=
  if (acc.2 >? 0)%Z then fdiv acc.1 (f64_of_Z acc.2) else acc.1.

(** [func computeLatencyAvgMs(in, goal, expected)]. *)
Definition computeLatencyAvgMs (inp : ObjectiveInputs) (goal : WeightedGoal) (expected : ExpectedPlacement)
    : result opt_error (f64 * f64) :=
  if (length (PC_Replicas (OI_Ctx inp)) =? 0)%nat then Ok (fzero, fzero)
  else
    _ ← fail_if (str_empty (SourceCity goal)) (ErrReadable "Latency" ErrSourceCityEmpty);
    let missing := ErrReadable "Latency" (ErrMissingLatencyRow (SourceCity goal)) in
    row ← require (CityRegionLatencyMs inp !! SourceCity goal) missing;
    _ ← fail_if (bool_decide (row = ∅)) missing;
    regionByNode ← buildNodeRegion (PC_Nodes (OI_Ctx inp)) (OI_NodeRegion inp);
    let sums := fun placement =>
      foldl (add_latency regionByNode row placement) (fzero, 0%Z) (PC_Replicas (OI_Ctx inp)) in
    Ok (mean (sums (PC_CurrentPlacement (OI_Ctx inp))), mean (sums expected)).

(** [ctx2 := in.Ctx; ctx2.CurrentPlacement = copy of expected]. *)
Definition with_placement (ctx : PluginContext) (placement : gmap ReplicaKey ClusterNodeID) : PluginContext :=
  mkPluginContext (PC_Replicas ctx) (PC_Nodes ctx) (PC_ReplicaRequests ctx) placement.

(** [if node, ok := placement[r]; ok { sum += wPerCore[node] * cores }]. *)
Definition add_watts (requests : gmap ReplicaKey ResourceQuantity) (wPerCore : gmap ClusterNodeID f64)
    (placement : gmap ReplicaKey ClusterNodeID) (sum : f64) (r : ReplicaKey) : f64 :=
  let milli := default 0%Z (MilliCPU <$> requests !! r) in
  match placement !! r with
  | Some n => fadd sum (fmul (default fzero (wPerCore !! n)) (cores milli))
  | None => sum
  end.

(** [if ok1 && ok2 && cur != exp { moves++ }]. *)
Definition count_move (cur exp : gmap ReplicaKey ClusterNodeID) (moves : Z) (r : ReplicaKey) : Z :=
  match move_of cur exp r with Some _ => moves + 1 | None => moves end.

(** [func computeMigrationMoves(in, expected)]. *)
Definition computeMigrationMoves (inp : ObjectiveInputs) (expected : ExpectedPlacement)
    : result opt_error (f64 * f64) :=
  Ok (fzero, f64_of_Z (foldl (count_move (PC_CurrentPlacement (OI_Ctx inp)) expected) 0%Z
                         (PC_Replicas (OI_Ctx inp)))).

Section readable.
Context {SORT : GoSort} {MAPS : MapOrder}.

(** [func computeCommunicationAvgMs(in, expected)]. *)
Definition computeCommunicationAvgMs (t : nat) (inp : ObjectiveInputs) (expected : ExpectedPlacement)
    : result opt_error (f64 * f64) :=
  if (length (PC_Replicas (OI_Ctx inp)) =? 0)%nat then Ok (fzero, fzero)
  else
    avgCur ← AverageCommunicationLatencyMs t (comm_plugin inp) (OI_Ctx inp);
    avgExp ← AverageCommunicationLatencyMs (t + goal_loops inp) (comm_plugin inp)
               (with_placement (OI_Ctx inp) expected);
    Ok (avgCur, avgExp).

(** One turn of the loop of [buildNodeWattsPerCore]. *)
Definition watts_of_node (instPower : gmap string PowerCurve) (out : gmap ClusterNodeID f64) (n : NodeContext)
    : result opt_error (gmap ClusterNodeID f64) :=
  let it := default "" (NC_Labels n !! LabelInstanceType) in
  _ ← fail_if (str_empty it) (ErrReadable "Energy" (ErrMissingLabel LabelInstanceType (NC_ID n)));
  curve ← require (instPower !! it) (ErrReadable "Energy" (ErrMissingPowerCurve it (NC_ID n)));
  _ ← fail_if (CPUAllocatableMilli n <=? 0)%Z (ErrReadable "Energy" (ErrInvalidCPUAllocatable (NC_ID n)));
  val ← marginalWattsPerCore curve (baseline_util n) (cores (CPUAllocatableMilli n));
  Ok (<[NC_ID n := val]> out).

(** [func buildNodeWattsPerCore(nodes, instPower)]. *)
Definition buildNodeWattsPerCore (nodes : list NodeContext) (instPower : gmap string PowerCurve)
    : result opt_error (gmap ClusterNodeID f64) := foldM (watts_of_node instPower) ∅ nodes.

(** [func computeEnergyTotalW(in, expected)]. *)
Definition computeEnergyTotalW (inp : ObjectiveInputs) (expected : ExpectedPlacement)
    : result opt_error (f64 * f64) :=
  if (length (PC_Replicas (OI_Ctx inp)) =? 0)%nat then Ok (fzero, fzero)
  else
    _ ← fail_if (bool_decide (InstancePower inp = ∅)) (ErrReadable "Energy" ErrInstancePowerEmpty);
    requests ← require (PC_ReplicaRequests (OI_Ctx inp)) (ErrReadable "Energy" ErrReplicaRequestsNil);
    wPerCore ← buildNodeWattsPerCore (PC_Nodes (OI_Ctx inp)) (InstancePower inp);
    let total := fun placement =>
      foldl (add_watts requests wPerCore placement) fzero (PC_Replicas (OI_Ctx inp)) in
    Ok (total (PC_CurrentPlacement (OI_Ctx inp)), total expected).

(** [func ComputeHumanReadableMetric(ctx, in, goal, expected)]. *)
Definition ComputeHumanReadableMetric (t : nat) (inp : ObjectiveInputs) (goal : WeightedGoal)
    (expected : ExpectedPlacement) : result opt_error GoalHumanReadableMetric :=
  if String.eqb (G_Type goal) "Cost" then
    v ← computeCostTotal inp expected; Ok (buildMetric "Cost" "USD" v.1 v.2 None)
  else if String.eqb (G_Type goal) "Latency" then
    v ← computeLatencyAvgMs inp goal expected;
    let detail := if str_empty (SourceCity goal) then ∅ else {["sourceCity" := SourceCity goal]} in
    Ok (buildMetric "Latency" "ms" v.1 v.2 (Some detail))
  else if String.eqb (G_Type goal) "Communication" then
    v ← computeCommunicationAvgMs t inp expected; Ok (buildMetric "Communication" "ms" v.1 v.2 None)
  else if String.eqb (G_Type goal) "Energy" then
    v ← computeEnergyTotalW inp expected; Ok (buildMetric "Energy" "W" v.1 v.2 None)
  else if String.eqb (G_Type goal) "Migration" then
    v ← computeMigrationMoves inp expected; Ok (buildMetric "Migration" "moves" v.1 v.2 None)
  else Err (ErrUnknownGoal (G_Type goal)).
End readable.

(** ** Lemmas *)

Lemma count_moves cur exp replicas :
  foldl (count_move cur exp) 0%Z replicas = Z.of_nat (length (expected_moves cur exp replicas)).
Proof.
  enough (G : forall z, foldl (count_move cur exp) z replicas =
    (z + Z.of_nat (length (expected_moves cur exp replicas)))%Z) by apply G.
  induction replicas as [|r rs IH]; intros z; simpl; [lia|].
  rewrite IH. unfold count_move, expected_moves. simpl.
  destruct (move_of cur exp r); [|done]. cbn [length]. rewrite Nat2Z.inj_succ.
  generalize (Z.of_nat (length (omap (move_of cur exp) rs))). intros k.
  rewrite <-Z.add_assoc, (Z.add_comm 1 k), <-Z.add_1_r. done.
Qed.

(** ** Properties *)

(** A metric of a known goal names the goal, has both values, and its delta
    is their difference; every other goal type is an error. *)
Theorem ComputeHumanReadableMetric_shape {SORT : GoSort} {MAPS : MapOrder} t inp goal expected m :
  ComputeHumanReadableMetric t inp goal expected = Ok m ->
  known_goal goal = true /\ Kind m = G_Type goal /\
  exists a b, From m = Some a /\ To m = Some b /\ Delta m = Some (fsub a b).
Proof.
  unfold ComputeHumanReadableMetric, known_goal, is_migration. intros Hm.
  repeat match type of Hm with
  | (if String.eqb ?x ?y then _ else _) = _ => destruct (String.eqb_spec x y) as [->|]
  end; [apply bind_Ok in Hm as ([a b] & _ & [= <-]); simpl; split_and!; [done|done|by exists a, b]..|done].
Qed.

(** The migration metric agrees with the plan: it counts exactly the moves
    the plan of the same placements lists. *)
Theorem migration_metric_counts_moves {SORT : GoSort} {MAPS : MapOrder} t t' inp goal expected m metrics moves :
  G_Type goal = "Migration" ->
  ComputeHumanReadableMetric t inp goal expected = Ok m ->
  ComputePlanFromGoals t' inp expected = Ok (metrics, moves) ->
  From m = Some fzero /\ To m = Some (f64_of_Z (Z.of_nat (length moves))).
Proof.
  unfold ComputeHumanReadableMetric. intros -> Hm ->%ComputePlan_moves. simpl in Hm.
  injection Hm as <-. simpl. by rewrite count_moves.
Qed.

Lemma ComputeHumanReadableMetric_shape_witness :
  exists m, ComputeHumanReadableMetric 0 (demo_inputs demo_goals) (mkGoal "Cost" (f64_of_Z 1) "" "") ∅ = Ok m /\
    Kind m = "Cost".
Proof.
  destruct (is_ok_Ok (ComputeHumanReadableMetric 0 (demo_inputs demo_goals)
    (mkGoal "Cost" (f64_of_Z 1) "" "") ∅)) as [m E]; [by_eval|].
  exists m. split; [exact E|].
  apply (ComputeHumanReadableMetric_shape 0 (demo_inputs demo_goals) (mkGoal "Cost" (f64_of_Z 1) "" "") ∅ m E).
Defined.

Lemma migration_metric_counts_moves_witness :
  exists m, ComputeHumanReadableMetric 0 (demo_inputs demo_goals) (mkGoal "Migration" (f64_of_Z 1) "" "") ∅ = Ok m /\
    From m = Some fzero.
Proof.
  destruct (is_ok_Ok (ComputeHumanReadableMetric 0 (demo_inputs demo_goals)
    (mkGoal "Migration" (f64_of_Z 1) "" "") ∅)) as [m E]; [by_eval|].
  destruct (is_ok_Ok (ComputePlanFromGoals 0 (demo_inputs demo_goals) ∅)) as [[pm moves] E']; [by_eval|].
  exists m. split; [exact E|].
  apply (migration_metric_counts_moves 0 0 (demo_inputs demo_goals) (mkGoal "Migration" (f64_of_Z 1) "" "") ∅
           m pm moves eq_refl E E').
Defined.
