(* ===== verification/Ilp.v ===== *)
(** * The assignment problem (optimizer/ilp.go, optimizer/ortools_solver_stub.go)

    Validation and size of the model, the solver interface, and the stub solver
    of builds without OR-Tools. Logging and the start time kept for it are not
    modelled; a context carries only what the code reads of it. *)

From S2P Require Import Prelude Float64 OptTypes OptErrors Plugins RawScores Energy Communication.
From S2P Require Import Objective.

Local Open Scope string_scope.
Local Open Scope list_scope.

(** [type ProblemObjective struct]. *)
Record ProblemObjective := mkProblemObjective {
  PO_Goals : list WeightedGoal;
  PO_InstancePrice : gmap string f64;
  PO_CityRegionLatencyMs : gmap string (gmap string f64);
  PO_Dependencies : gmap NamespacedName (list NamespacedName);
  PO_RegionLatencyMs : gmap string (gmap string f64);
  PO_ReplicaService : gmap ReplicaKey NamespacedName;
  PO_NodeRegion : gmap ClusterNodeID string;
  PO_InstancePower : gmap string PowerCurve
}.

(** [type Problem struct]; [MaximumVariables] is an int. *)
Record Problem := mkProblem {
  StableReplicas : list ReplicaKey;
  CandidateNodes : list ClusterNodeID;
  P_CurrentPlacement : option (gmap ReplicaKey ClusterNodeID);
  NodeContexts : list NodeContext;
  P_ReplicaRequests : option (gmap ReplicaKey ResourceQuantity);
  NodeCapacities : gmap ClusterNodeID ResourceQuantity;
  P_Objective : option ProblemObjective;
  MaximumVariables : Z;
  RequireCPU : bool;
  RequireMemory : bool
}.

(** [const DefaultMaximumVariables]; [const DefaultSolveTimeout] in nanoseconds. *)
Definition DefaultMaximumVariables : Z := 10000.
Definition DefaultSolveTimeout : Z := 5 * 60 * 1000000000.

(** [type SolveResult struct], [type SolveOptions struct], [type BuildResult struct]. *)
Record SolveResult := mkSolveResult {
  Status : string; Assignment : option (gmap ReplicaKey ClusterNodeID)
}.
Record SolveOptions := mkSolveOptions { Timeout : Z }.
Record BuildResult := mkBuildResult { NumDecisionVars : Z; NumConstraints : Z }.

(** [func (o SolveOptions) withDefaults()]. *)
Definition withDefaults (o : SolveOptions) : SolveOptions :=
  if (Timeout o <=? 0)%Z then mkSolveOptions DefaultSolveTimeout else o.

(** The context of a solver run: the time left to its deadline in milliseconds
    when there is one, and whether it has expired when the solver returns. *)
Record SolveContext := mkSolveContext {
  deadline_ms : option Z; deadline_exceeded : bool
}.

(** [type Solver interface]: a result pointer or an error. *)
Notation Solver := (SolveContext -> Problem -> result opt_error (option SolveResult)).

Definition requests_of (p : Problem) : gmap ReplicaKey ResourceQuantity :=
  default ∅ (P_ReplicaRequests p).

(** The checks of one replica and of one node for a resource [get]. *)
Definition check_request (p : Problem) (get : ResourceQuantity -> Z)
    (invalid : ReplicaKey -> Z -> opt_error) (i : ReplicaKey) : result opt_error unit :=
  req ← require (requests_of p !! i) (ErrMissingReplicaRequest i);
  fail_if (get req <=? 0)%Z (invalid i (get req)).

Definition check_capacity (p : Problem) (get : ResourceQuantity -> Z)
    (invalid : ClusterNodeID -> Z -> opt_error) (j : ClusterNodeID) : result opt_error unit :=
  cap ← require (NodeCapacities p !! j) (ErrMissingCapacity j);
  fail_if (get cap <=? 0)%Z (invalid j (get cap)).

(** [if p.RequireCPU { ... }]. *)
Definition check_cpu (p : Problem) : result opt_error unit :=
  if RequireCPU p then
    _ ← checkM (check_request p MilliCPU ErrInvalidReplicaCPU) (StableReplicas p);
    checkM (check_capacity p MilliCPU ErrInvalidCPUCapacity) (CandidateNodes p)
  else Ok tt.

(** [if p.RequireMemory { ... }]. *)
Definition check_memory (p : Problem) : result opt_error unit :=
  if RequireMemory p then
    _ ← checkM (check_request p MemoryMi ErrInvalidMemoryRequest) (StableReplicas p);
    checkM (check_capacity p MemoryMi ErrInvalidMemoryCapacity) (CandidateNodes p)
  else Ok tt.

(** [if g.Weight == 0 { continue }; if g.Type == "Migration" && len(p.CurrentPlacement) == 0]. *)
Definition check_goal (p : Problem) (g : WeightedGoal) : result opt_error unit :=
  if feq (Weight g) fzero then Ok tt
  else fail_if (String.eqb (G_Type g) "Migration" &&
                bool_decide (default ∅ (P_CurrentPlacement p) = ∅)) ErrMigrationNoPlacement.

(** [if p.Objective != nil { ... }]. *)
Definition check_objective (p : Problem) : result opt_error unit :=
  match P_Objective p with
  | None => Ok tt
  | Some o =>
      _ ← fail_if (length (NodeContexts p) =? 0)%nat ErrNodeContextsEmpty;
      _ ← checkM (fun nc => fail_if (negb (bool_decide (NC_ID nc ∈ CandidateNodes p)))
                              (ErrForeignNodeContext (NC_ID nc))) (NodeContexts p);
      checkM (check_goal p) (PO_Goals o)
  end.

Definition len_int {A} (l : list A) : Z := Z.of_nat (length l).

(** [func BuildILPModel(_, p Problem) ( *BuildResult, error)]. *)
Definition BuildILPModel (p : Problem) : result opt_error BuildResult :=
  if (length (StableReplicas p) =? 0)%nat then Ok (mkBuildResult 0 0)
  else
    _ ← fail_if (length (CandidateNodes p) =? 0)%nat ErrNoCandidateNodes;
    let limit := if (MaximumVariables p <=? 0)%Z then DefaultMaximumVariables else MaximumVariables p in
    let vars := wrap64 (len_int (StableReplicas p) * len_int (CandidateNodes p)) in
    _ ← fail_if (vars >? limit)%Z (ErrTooManyVariables vars limit);
    _ ← check_cpu p;
    _ ← check_memory p;
    _ ← check_objective p;
    let constraints := len_int (StableReplicas p) in
    let constraints := if RequireCPU p then (constraints + len_int (CandidateNodes p))%Z else constraints in
    let constraints := if RequireMemory p then (constraints + len_int (CandidateNodes p))%Z else constraints in
    Ok (mkBuildResult vars constraints).

(** [context.WithTimeout(ctx, d)]: the earlier of the two deadlines. *)
Definition with_timeout (ctx : SolveContext) (d : Z) : SolveContext :=
  mkSolveContext
    (Some (match deadline_ms ctx with
           | Some ms => Z.min ms (d / 1000000)
           | None => d / 1000000
           end))%Z
    (deadline_exceeded ctx).

(** [func (s *ORToolsSolver) Solve] of builds without the kubex_ortools tag. *)
Definition ORToolsSolver_stub : Solver :=
  fun _ _ => Err (ErrPlain "ORTools backend is disabled; rebuild with -tags=kubex_ortools").

Section solve.
Context {FMT : GoFmt}.

(** [func SolveProblem(ctx, s Solver, p Problem, opts SolveOptions)]; a nil
    solver is [None]. *)
Definition SolveProblem (ctx : SolveContext) (s : option Solver) (p : Problem) (opts : SolveOptions)
    : result opt_error (option SolveResult) :=
  _ ← BuildILPModel p;
  if (length (StableReplicas p) =? 0)%nat then Ok (Some (mkSolveResult "NoReplicas" (Some ∅)))
  else
    solve ← require s ErrNoSolver;
    let o := withDefaults opts in
    match solve (with_timeout ctx (Timeout o)) p with
    | Err e =>
        if str_contains (Error e) "ORTools backend is disabled" then Err ErrSolverNotImplemented
        else Err e
    | Ok res => Ok res
    end.
End solve.

(** ** Lemmas *)

Definition positive_requests (p : Problem) (get : ResourceQuantity -> Z) : Prop :=
  forall i, i ∈ StableReplicas p -> exists req, requests_of p !! i = Some req /\ (0 < get req)%Z.
Definition positive_capacities (p : Problem) (get : ResourceQuantity -> Z) : Prop :=
  forall j, j ∈ CandidateNodes p -> exists cap, NodeCapacities p !! j = Some cap /\ (0 < get cap)%Z.

(** What the objective inputs must satisfy. *)
Definition objective_ok (p : Problem) (o : ProblemObjective) : Prop :=
  NodeContexts p <> [] /\
  (forall nc, nc ∈ NodeContexts p -> NC_ID nc ∈ CandidateNodes p) /\
  (forall g, g ∈ PO_Goals o -> enabled g = true -> is_migration g = true ->
     default ∅ (P_CurrentPlacement p) <> ∅).

(** A well-formed problem with replicas to place. *)
Definition well_formed (p : Problem) : Prop :=
  CandidateNodes p <> [] /\
  (wrap64 (len_int (StableReplicas p) * len_int (CandidateNodes p)) <=
     if (MaximumVariables p <=? 0)%Z then DefaultMaximumVariables else MaximumVariables p)%Z /\
  (RequireCPU p = true -> positive_requests p MilliCPU /\ positive_capacities p MilliCPU) /\
  (RequireMemory p = true -> positive_requests p MemoryMi /\ positive_capacities p MemoryMi) /\
  (forall o, P_Objective p = Some o -> objective_ok p o).

Lemma checkM_Ok_elem {E B} (f : B -> result E unit) l :
  checkM f l = Ok tt <-> forall b, b ∈ l -> f b = Ok tt.
Proof. by rewrite checkM_Ok, Forall_forall. Qed.

Lemma requests_checked p get invalid :
  checkM (check_request p get invalid) (StableReplicas p) = Ok tt <-> positive_requests p get.
Proof.
  rewrite checkM_Ok_elem. unfold positive_requests, check_request.
  split; intros Hall i Hi; specialize (Hall i Hi); destruct (requests_of p !! i) as [req|]; simpl in *;
    try naive_solver; destruct (Z.leb_spec (get req) 0); naive_solver lia.
Qed.

Lemma capacities_checked p get invalid :
  checkM (check_capacity p get invalid) (CandidateNodes p) = Ok tt <-> positive_capacities p get.
Proof.
  rewrite checkM_Ok_elem. unfold positive_capacities, check_capacity.
  split; intros Hall j Hj; specialize (Hall j Hj); destruct (NodeCapacities p !! j) as [cap|]; simpl in *;
    try naive_solver; destruct (Z.leb_spec (get cap) 0); naive_solver lia.
Qed.

Lemma bind_unit_Ok {E B} (m : result E unit) (k : result E B) b :
  (m ≫= fun _ => k) = Ok b <-> m = Ok tt /\ k = Ok b.
Proof. destruct m as [[]|]; simpl; naive_solver. Qed.

Lemma check_cpu_Ok p :
  check_cpu p = Ok tt <->
  (RequireCPU p = true -> positive_requests p MilliCPU /\ positive_capacities p MilliCPU).
Proof.
  unfold check_cpu. destruct (RequireCPU p); [|naive_solver].
  rewrite bind_unit_Ok, requests_checked, capacities_checked. naive_solver.
Qed.

Lemma check_memory_Ok p :
  check_memory p = Ok tt <->
  (RequireMemory p = true -> positive_requests p MemoryMi /\ positive_capacities p MemoryMi).
Proof.
  unfold check_memory. destruct (RequireMemory p); [|naive_solver].
  rewrite bind_unit_Ok, requests_checked, capacities_checked. naive_solver.
Qed.

Lemma contexts_checked p :
  checkM (fun nc => fail_if (negb (bool_decide (NC_ID nc ∈ CandidateNodes p)))
            (ErrForeignNodeContext (NC_ID nc))) (NodeContexts p) = Ok tt <->
  forall nc, nc ∈ NodeContexts p -> NC_ID nc ∈ CandidateNodes p.
Proof.
  rewrite checkM_Ok_elem. split; intros H nc Hnc; specialize (H nc Hnc);
    rewrite fail_if_Ok, negb_false_iff, bool_decide_eq_true in *; done.
Qed.

Lemma goals_checked p gs :
  checkM (check_goal p) gs = Ok tt <->
  forall g, g ∈ gs -> enabled g = true -> is_migration g = true ->
    default ∅ (P_CurrentPlacement p) <> ∅.
Proof.
  rewrite checkM_Ok_elem. unfold check_goal, enabled, is_migration.
  split; intros H g Hg; specialize (H g Hg); destruct (feq (Weight g) fzero); simpl in *; try done;
    destruct (String.eqb (G_Type g) "Migration"); simpl in *; try done;
    case_bool_decide; naive_solver.
Qed.

Lemma check_objective_Ok p :
  check_objective p = Ok tt <-> (forall o, P_Objective p = Some o -> objective_ok p o).
Proof.
  unfold check_objective. destruct (P_Objective p) as [o|]; [|naive_solver].
  rewrite !bind_unit_Ok, fail_if_Ok, contexts_checked, goals_checked, Nat.eqb_neq, length_zero_iff_nil.
  split; [intros H o' [= <-]; exact H|intros H; by apply (H o)].
Qed.

(** ** Properties *)

(** [BuildILPModel] accepts exactly the problems without replicas and the
    well-formed ones (nodes to choose from, within the variable limit, positive
    requests and capacities for every required resource, consistent objective),
    and reports one variable per (replica, node) pair and one constraint per
    replica plus one per node for each required resource. *)
Theorem BuildILPModel_spec p res :
  BuildILPModel p = Ok res <->
  StableReplicas p = [] /\ res = mkBuildResult 0 0 \/
  StableReplicas p <> [] /\ well_formed p /\
  NumDecisionVars res = wrap64 (len_int (StableReplicas p) * len_int (CandidateNodes p)) /\
  (NumConstraints res = len_int (StableReplicas p) +
     (if RequireCPU p then len_int (CandidateNodes p) else 0) +
     (if RequireMemory p then len_int (CandidateNodes p) else 0))%Z.
Proof.
  unfold BuildILPModel. destruct (Nat.eqb_spec (length (StableReplicas p)) 0) as [E|E];
    rewrite length_zero_iff_nil in E; [naive_solver|].
  cbv zeta. rewrite !bind_unit_Ok, !fail_if_Ok, check_cpu_Ok, check_memory_Ok, check_objective_Ok.
  rewrite Nat.eqb_neq, length_zero_iff_nil, Z.gtb_ltb, Z.ltb_ge. unfold well_formed.
  destruct res as [v c]; simpl. split.
  - intros (H1 & H2 & H3 & H4 & H5 & [= <- <-]). right. split_and!; try done.
    destruct (RequireCPU p), (RequireMemory p); lia.
  - intros [[? _]|(_ & (H1 & H2 & H3 & H4 & H5) & -> & ->)]; [done|]. split_and!; try done.
    do 2 f_equal. destruct (RequireCPU p), (RequireMemory p); lia.
Qed.

(** an accepted model never exceeds the configured number of variables, or
    10000 when no limit is configured. *)
Theorem BuildILPModel_limit p res :
  BuildILPModel p = Ok res ->
  (Z.of_nat (length (StableReplicas p)) * Z.of_nat (length (CandidateNodes p)) < 2 ^ 63)%Z ->
  StableReplicas p = [] \/
  (Z.of_nat (length (StableReplicas p)) * Z.of_nat (length (CandidateNodes p)) <=
     if (MaximumVariables p <=? 0)%Z then 10000 else MaximumVariables p)%Z.
Proof.
  unfold BuildILPModel. intros Hok Hsize.
  destruct (Nat.eqb_spec (length (StableReplicas p)) 0) as [E|E];
    rewrite length_zero_iff_nil in E; [by left|]. right.
  cbv zeta in Hok. rewrite !bind_unit_Ok, !fail_if_Ok, Z.gtb_ltb, Z.ltb_ge in Hok.
  destruct Hok as (_ & Hlim & _). unfold len_int in Hlim.
  rewrite wrap64_id in Hlim by (unfold int64_range; lia). done.
Qed.

(** A rejected model is never handed to the solver, and neither is a problem
    without replicas, which has the empty assignment. *)
Theorem SolveProblem_guards {FMT : GoFmt} ctx s p opts :
  (forall e, BuildILPModel p = Err e -> SolveProblem ctx s p opts = Err e) /\
  (StableReplicas p = [] ->
     SolveProblem ctx s p opts = Ok (Some (mkSolveResult "NoReplicas" (Some ∅)))) /\
  (StableReplicas p <> [] -> is_ok (BuildILPModel p) = true ->
     SolveProblem ctx None p opts = Err ErrNoSolver).
Proof.
  unfold SolveProblem. split_and!.
  - by intros e ->.
  - intros E. unfold BuildILPModel. by rewrite E.
  - intros E Hok. destruct (BuildILPModel p); [|done]. simpl.
    by rewrite (proj2 (Nat.eqb_neq _ _)) by (by rewrite length_zero_iff_nil).
Qed.

(** builds without OR-Tools report every accepted problem with replicas as
    [ErrSolverNotImplemented], the sentinel the callers test for. *)
Theorem SolveProblem_stub {FMT : GoFmt} ctx p opts :
  StableReplicas p <> [] -> is_ok (BuildILPModel p) = true ->
  SolveProblem ctx (Some ORToolsSolver_stub) p opts = Err ErrSolverNotImplemented.
Proof.
  unfold SolveProblem. intros E Hok. destruct (BuildILPModel p); [|done]. simpl.
  rewrite (proj2 (Nat.eqb_neq _ _)) by (by rewrite length_zero_iff_nil). reflexivity.
Qed.

Definition demo_problem : Problem :=
  mkProblem [mkReplica "default" "web" 0; mkReplica "default" "web" 1]
    [mkNode "c1" "n1"; mkNode "c1" "n2"] None []
    (Some {[mkReplica "default" "web" 0 := mkRes 600 0; mkReplica "default" "web" 1 := mkRes 600 0]})
    {[mkNode "c1" "n1" := mkRes 1000 0; mkNode "c1" "n2" := mkRes 1000 0]}
    None 0 true false.

Lemma BuildILPModel_limit_witness :
  (length (StableReplicas demo_problem) * length (CandidateNodes demo_problem) <= 10000)%nat.
Proof.
  destruct (is_ok_Ok (BuildILPModel demo_problem)) as [res E]; [by_eval|].
  destruct (BuildILPModel_limit demo_problem res E) as [H|H]; [reflexivity|discriminate|].
  apply Nat2Z.inj_le. exact H.
Defined.

#[export] Instance plain_fmt : GoFmt | 100 := {| fmt_v := fun _ => "?"; fmt_q := fun s => s |}.

Lemma SolveProblem_stub_witness :
  SolveProblem (mkSolveContext None false) (Some ORToolsSolver_stub) demo_problem (mkSolveOptions 0) =
    Err ErrSolverNotImplemented.
Proof. apply (SolveProblem_stub _ demo_problem); [discriminate|by_eval]. Defined.

Lemma SolveProblem_guards_witness :
  SolveProblem (mkSolveContext None false) None demo_problem (mkSolveOptions 0) = Err ErrNoSolver.
Proof.
  apply (SolveProblem_guards (mkSolveContext None false) None demo_problem (mkSolveOptions 0));
    [discriminate|by_eval].
Defined.
