(* ===== verification/OrTools.v ===== *)
(** * The OR-Tools solver (optimizer/ortools_solver_cgo.go)

    The model built through the C wrapper of OR-Tools, the call of the solver
    and the decoding of its answer. The wrapper's variables and constraints are
    numbered in the order of their creation; the mixed-integer solver behind
    [kubex_ort_solve] is a parameter. *)

From S2P Require Import Prelude Float64 OptTypes OptErrors Plugins RawScores Energy Communication.
From S2P Require Import Objective Ilp.

Local Open Scope string_scope.
Local Open Scope list_scope.

(** [KubexORTStatus]. *)
Inductive OrtStatus :=
| ORT_OPTIMAL | ORT_FEASIBLE | ORT_INFEASIBLE | ORT_ABNORMAL | ORT_NOT_SOLVED | ORT_ERROR.

(** A row [lb <= sum coeff * var <= ub] and the model; every variable is an
    integer between 0 and 1, the objective is minimised. *)
Record MpRow := mkRow { row_lb : f64; row_ub : f64; row_coeffs : gmap nat f64 }.
Record Mip := mkMip {
  mp_vars : list string;
  mp_obj : gmap nat f64;
  mp_rows : list MpRow;
  mp_time_limit_ms : option Z
}.

(** The library behind the wrapper: whether a backend exists, whether it hands
    out a new variable and a new row, and what it answers for a model. *)
Class OrTools := {
  ort_backend : bool;
  ort_var_ok : Mip -> bool;
  ort_row_ok : Mip -> bool;
  ort_solve : Mip -> OrtStatus * (nat -> f64)
}.

Definition half : f64 := fdiv (f64_of_Z 1) (f64_of_Z 2).
Definition fneg_inf : f64 := S754_infinity true.

Notation VarTable := (gmap ReplicaKey (gmap ClusterNodeID nat)).

(** [x[r][n]]: a null handle when missing. *)
Definition var_of (x : VarTable) (r : ReplicaKey) (n : ClusterNodeID) : option nat :=
  x !! r ≫= (.!! n).

(** [kubex_ort_objective_set_coeff] and [kubex_ort_constraint_set_coeff] with the
    test of the last error that follows each of them. *)
Definition objective_set_coeff (s : Mip) (v : option nat) (k : f64) : result opt_error Mip :=
  v ← require v (ErrPlain "failed setting objective coeff: solver or var is null");
  Ok (mkMip (mp_vars s) (<[v := k]> (mp_obj s)) (mp_rows s) (mp_time_limit_ms s)).

Definition row_set (v : nat) (k : f64) (row : MpRow) : MpRow :=
  mkRow (row_lb row) (row_ub row) (<[v := k]> (row_coeffs row)).

Definition constraint_set_coeff (what : string) (s : Mip) (c : nat) (v : option nat) (k : f64)
    : result opt_error Mip :=
  v ← require v (ErrPlain ("failed setting " +:+ what +:+ ": constraint or var is null"));
  Ok (mkMip (mp_vars s) (mp_obj s) (alter (row_set v k) c (mp_rows s)) (mp_time_limit_ms s)).

(** [kubex_ort_set_time_limit_ms] under [if dl, ok := ctx.Deadline(); ok && ms > 0]. *)
Definition set_time_limit (ctx : SolveContext) (s : Mip) : Mip :=
  match deadline_ms ctx with
  | Some ms => if (ms >? 0)%Z then mkMip (mp_vars s) (mp_obj s) (mp_rows s) (Some ms) else s
  | None => s
  end.

(** The penalty written into a row of coefficients: [row[n] += pen] on every
    entry, then [row[cur] -= pen]. *)
Definition penalize_row (pen : f64) (cur : ClusterNodeID) (row : gmap ClusterNodeID f64)
    : gmap ClusterNodeID f64 :=
  let row := (fun v => fadd v pen) <$> row in
  <[cur := fsub (default fzero (row !! cur)) pen]> row.

(** One turn of the loop over the penalties. *)
Definition penalize (cur : gmap ReplicaKey ClusterNodeID) (coeff : ScoreMatrix) (e : ReplicaKey * f64)
    : ScoreMatrix :=
  if feq e.2 fzero then coeff
  else match cur !! e.1, coeff !! e.1 with
  | Some n, Some row => <[e.1 := penalize_row e.2 n row]> coeff
  | _, _ => coeff
  end.

(** The objective inputs of the solver. *)
Definition problem_inputs (p : Problem) (o : ProblemObjective) : ObjectiveInputs :=
  mkObjectiveInputs (PO_Goals o)
    (mkPluginContext (StableReplicas p) (NodeContexts p) (P_ReplicaRequests p)
       (default ∅ (P_CurrentPlacement p)))
    (PO_InstancePrice o) (PO_CityRegionLatencyMs o) (PO_Dependencies o) (PO_RegionLatencyMs o)
    (PO_ReplicaService o) (PO_NodeRegion o) (PO_InstancePower o).

Section solver.
Context {SORT : GoSort} {MAPS : MapOrder} {ORT : OrTools}.

(** [func buildObjectiveCoefficients(solveCtx, p)]; without an objective the
    coefficients are nil. *)
Definition buildObjectiveCoefficients (t : nat) (p : Problem)
    : result opt_error (option ScoreMatrix * option (gmap ReplicaKey f64)) :=
  match P_Objective p with
  | None => Ok (None, None)
  | Some o =>
      out ← BuildObjective t (problem_inputs p o);
      let coeff := PlacementScores out in
      match MigrationPenalty out, P_CurrentPlacement p with
      | Some pens, Some cur =>
          Ok (Some (foldl (penalize cur) coeff (go_range t pens)), Some pens)
      | pens, _ => Ok (Some coeff, pens)
      end
  end.

(** [kubex_ort_int_var] and [kubex_ort_constraint] with the nil tests. *)
Definition int_var (s : Mip) (name : string) : result opt_error (Mip * nat) :=
  _ ← fail_if (negb (ort_var_ok s)) (ErrPlain "failed creating var: failed to create int var");
  Ok (mkMip (mp_vars s ++ [name]) (mp_obj s) (mp_rows s) (mp_time_limit_ms s), length (mp_vars s)).

Definition new_row (what : string) (s : Mip) (lb ub : f64) : result opt_error (Mip * nat) :=
  _ ← fail_if (negb (ort_row_ok s))
        (ErrPlain ("failed creating " +:+ what +:+ ": failed to create constraint"));
  Ok (mkMip (mp_vars s) (mp_obj s) (mp_rows s ++ [mkRow lb ub ∅]) (mp_time_limit_ms s),
      length (mp_rows s)).

(** The variables of one replica, then of all. *)
Definition var_step (r : ReplicaKey) (acc : Mip * gmap ClusterNodeID nat) (n : ClusterNodeID)
    : result opt_error (Mip * gmap ClusterNodeID nat) :=
  sv ← int_var acc.1 ("x_" +:+ show_replica r +:+ "_" +:+ ClusterNodeID_String n);
  Ok (sv.1, <[n := sv.2]> acc.2).

Definition vars_step (J : list ClusterNodeID) (acc : Mip * VarTable) (r : ReplicaKey)
    : result opt_error (Mip * VarTable) :=
  sm ← foldM (var_step r) (acc.1, ∅) J;
  Ok (sm.1, <[r := sm.2]> acc.2).

Definition make_vars (I : list ReplicaKey) (J : list ClusterNodeID) (s : Mip)
    : result opt_error (Mip * VarTable) := foldM (vars_step J) (s, ∅) I.

(** The objective: [sum_i sum_j coeff_ij * x_ij] over the non-zero coefficients. *)
Definition objective_terms (x : VarTable) (scores : ScoreMatrix) (J : list ClusterNodeID) (s : Mip)
    (r : ReplicaKey) : result opt_error Mip :=
  foldM (fun s n =>
    let coeff := default fzero (scores !! r ≫= (.!! n)) in
    if feq coeff fzero then Ok s else objective_set_coeff s (var_of x r n) coeff) s J.

Definition set_objective (x : VarTable) (scores : option ScoreMatrix) (I : list ReplicaKey)
    (J : list ClusterNodeID) (s : Mip) : result opt_error Mip :=
  match scores with
  | None => Ok s
  | Some scores => foldM (objective_terms x scores J) s I
  end.

(** [sum_n x[r][n] == 1]. *)
Definition assignment_row (x : VarTable) (J : list ClusterNodeID) (s : Mip) (r : ReplicaKey)
    : result opt_error Mip :=
  sc ← new_row "constraint" s (f64_of_Z 1) (f64_of_Z 1);
  foldM (fun s n => constraint_set_coeff "coeff" s sc.2 (var_of x r n) (f64_of_Z 1)) sc.1 J.

(** [sum_r req[r] * x[r][n] <= cap[n]] for one resource. *)
Definition capacity_row (what : string) (get : ResourceQuantity -> Z) (p : Problem) (x : VarTable)
    (s : Mip) (n : ClusterNodeID) : result opt_error Mip :=
  cap ← require (NodeCapacities p !! n) (ErrMissingCapacity n);
  sc ← new_row (what +:+ " constraint") s fneg_inf (f64_of_Z (get cap));
  foldM (fun s r =>
    req ← require (requests_of p !! r) (ErrMissingReplicaRequest r);
    constraint_set_coeff (what +:+ " coeff") s sc.2 (var_of x r n) (f64_of_Z (get req)))
    sc.1 (StableReplicas p).

(** [if p.RequireCPU { ... }] and [if p.RequireMemory { ... }]. *)
Definition capacity_rows (required : bool) (what : string) (get : ResourceQuantity -> Z) (p : Problem)
    (x : VarTable) (s : Mip) : result opt_error Mip :=
  if required then foldM (capacity_row what get p x) s (CandidateNodes p) else Ok s.

(** The node of a replica: the first whose variable is at least 0.5. *)
Definition chosen_node (x : VarTable) (sol : nat -> f64) (J : list ClusterNodeID) (r : ReplicaKey)
    : option ClusterNodeID :=
  snd <$> list_find (fun n => fle half (default fzero (sol <$> var_of x r n)) = true) J.

Definition decode_step (x : VarTable) (sol : nat -> f64) (J : list ClusterNodeID)
    (asg : gmap ReplicaKey ClusterNodeID) (r : ReplicaKey) : result opt_error (gmap ReplicaKey ClusterNodeID) :=
  n ← require (chosen_node x sol J r)
        (ErrPlain ("ortools returned no assignment for " +:+ show_replica r));
  Ok (<[r := n]> asg).

(** The model of a problem: variables, objective, rows. *)
Definition build_mip (ctx : SolveContext) (scores : option ScoreMatrix) (p : Problem)
    : result opt_error (Mip * VarTable) :=
  let s := set_time_limit ctx (mkMip [] ∅ [] None) in
  sx ← make_vars (StableReplicas p) (CandidateNodes p) s;
  s ← set_objective sx.2 scores (StableReplicas p) (CandidateNodes p) sx.1;
  s ← foldM (assignment_row sx.2 (CandidateNodes p)) s (StableReplicas p);
  s ← capacity_rows (RequireCPU p) "cpu" MilliCPU p sx.2 s;
  s ← capacity_rows (RequireMemory p) "memory" MemoryMi p sx.2 s;
  Ok (s, sx.2).

(** [switch st { ... }]. *)
Definition check_status (ctx : SolveContext) (st : OrtStatus) : result opt_error unit :=
  match st with
  | ORT_OPTIMAL | ORT_FEASIBLE => Ok tt
  | ORT_INFEASIBLE => Err (ErrPlain "ortools infeasible")
  | ORT_NOT_SOLVED =>
      if deadline_exceeded ctx then Err (ErrPlain "context deadline exceeded")
      else Err (ErrPlain "ortools not solved")
  | ORT_ABNORMAL | ORT_ERROR => Err (ErrPlain "ortools solve failed: unknown")
  end.

(** [func (s *ORToolsSolver) Solve(ctx, p Problem)] of builds with the tag. *)
Definition ORToolsSolver_Solve (t : nat) : Solver := fun ctx p =>
  _ ← BuildILPModel p;
  if (length (StableReplicas p) =? 0)%nat then Ok (Some (mkSolveResult "NoReplicas" (Some ∅)))
  else
    _ ← fail_if (length (CandidateNodes p) =? 0)%nat ErrNoCandidateNodes;
    coeffs ← buildObjectiveCoefficients t p;
    _ ← fail_if (negb ort_backend) (ErrPlain
          "failed to create ortools solver: failed to create MPSolver backend (SCIP/CBC unavailable)");
    sx ← build_mip ctx coeffs.1 p;
    let answer := ort_solve sx.1 in
    _ ← check_status ctx answer.1;
    asg ← foldM (decode_step sx.2 answer.2 (CandidateNodes p)) ∅ (StableReplicas p);
    Ok (Some (mkSolveResult "Feasible" (Some asg))).
End solver.

(** ** What the solver promises *)

(** The integer a float64 stands for, if it is one. *)
Definition fint (x : f64) : option Z :=
  match x with
  | S754_zero _ => Some 0%Z
  | S754_finite s m e =>
      if (0 <=? e)%Z then Some (cond_Zopp s (Z.pos m * 2 ^ e))%Z
      else if (Z.pos m mod 2 ^ (- e) =? 0)%Z then Some (cond_Zopp s (Z.pos m / 2 ^ (- e)))%Z
      else None
  | _ => None
  end.
Definition fint_or_zero (x : f64) : Z := default 0%Z (fint x).

Section magnitude.
(** The magnitude below which the solver, which computes with a tolerance, keeps the
    integers of a row apart; [Hmagnitude] is for the rows of the code, whose assignment rows
    hold ones. *)
Context (b : Z).
Hypothesis Hmagnitude : (1 < b <= 2 ^ 53)%Z.

Definition small_integer (x : f64) : bool := match fint x with Some z => (Z.abs z <? b)%Z | None => false end.

(** A row whose coefficients and bounds are small integers, or no bound. *)
Definition row_integral (row : MpRow) : bool :=
  forallb (fun e => small_integer e.2) (map_to_list (row_coeffs row)) &&
  (bool_decide (row_lb row = fneg_inf) || small_integer (row_lb row)) &&
  small_integer (row_ub row).

(** Value of the left-hand side for integer values of the variables. *)
Definition row_total (coeffs : gmap nat f64) (z : nat -> Z) : Z :=
  map_fold (fun v c acc => fint_or_zero c * z v + acc)%Z 0%Z coeffs.

Definition row_holds (z : nat -> Z) (row : MpRow) : bool :=
  let total := row_total (row_coeffs row) z in
  (bool_decide (row_lb row = fneg_inf) || (fint_or_zero (row_lb row) <=? total)%Z) &&
  (total <=? fint_or_zero (row_ub row))%Z.

(** The contract of a mixed-integer solver: an optimal or feasible answer gives
    every variable a value that reads as 0 or 1 at the threshold 0.5, and those
    integers satisfy every row of small integers. Nothing is promised for other rows: a
    solver takes a row for satisfied when it is so up to a tolerance. *)
Definition ort_sound (ORT : OrTools) : Prop :=
  forall s st sol, ort_solve s = (st, sol) -> st = ORT_OPTIMAL \/ st = ORT_FEASIBLE ->
  exists z : nat -> Z,
    (forall v, (v < length (mp_vars s))%nat -> (z v = 0 \/ z v = 1)%Z /\ fle half (sol v) = (z v =? 1)%Z) /\
    (forall row, row ∈ mp_rows s -> row_integral row = true -> row_holds z row = true).

(** A solver that keeps the contract: try every vector of zeros and ones. *)
Fixpoint all_vectors (n : nat) : list (list Z) :=
  match n with
  | O => [[]]
  | S n' => flat_map (fun v => [0%Z :: v; 1%Z :: v]) (all_vectors n')
  end.
Definition vector_value (v : list Z) (i : nat) : Z := default 0%Z (v !! i).

Definition exhaustive_solver : OrTools := {|
  ort_backend := true;
  ort_var_ok := fun _ => true;
  ort_row_ok := fun _ => true;
  ort_solve := fun s =>
    match list_find (fun v => forallb (row_holds (vector_value v)) (mp_rows s) = true)
            (all_vectors (length (mp_vars s))) with
    | Some (_, v) => (ORT_FEASIBLE, fun i => f64_of_Z (vector_value v i))
    | None => (ORT_INFEASIBLE, fun _ => fzero)
    end
|}.

(** ** Lemmas: integers as float64 *)

Lemma shr_fexp_exact m e :
  (0 < m)%Z -> fexp fprec femax (Zdigits2 m + e) = e ->
  shr_fexp fprec femax m e loc_Exact = (shr_record_of_loc m loc_Exact, e).
Proof. intros Hm He. unfold shr_fexp. rewrite He, Z.sub_diag. done. Qed.

Lemma round_exact m e :
  (0 < m)%Z -> fexp fprec femax (Zdigits2 m + e) = e -> (e <= 971)%Z ->
  binary_round_aux fprec femax false m e loc_Exact = S754_finite false (Z.to_pos m) e.
Proof.
  intros Hm He Hmax. unfold binary_round_aux. rewrite (shr_fexp_exact m e) by done.
  cbn [shr_record_of_loc loc_of_shr_record round_nearest_even shr_m].
  rewrite (shr_fexp_exact m e) by done. cbn [shr_record_of_loc shr_m].
  destruct m as [|q|q]; [lia| |lia].
  by rewrite (proj2 (Z.leb_le e (femax - fprec))) by (unfold femax, fprec; lia).
Qed.

(** Integers below 2^53 are exact. *)
Lemma fint_of_Z z : (0 <= z < 2 ^ 53)%Z -> fint (f64_of_Z z) = Some z.
Proof.
  destruct z as [|p|p]; [done| |lia]. intros [_ Hp]. unfold f64_of_Z, binary_normalize, binary_round.
  pose proof (digits2_pos_log2 p) as Hd. pose proof (Z.log2_nonneg (Z.pos p)).
  assert (Hl : (Z.log2 (Z.pos p) < 53)%Z) by (apply Z.log2_lt_pow2; lia).
  assert (Hf : fexp fprec femax (Z.pos (digits2_pos p) + 0) = (Z.log2 (Z.pos p) - 52)%Z).
  { rewrite fexp_unfold. lia. }
  rewrite Hf. pose proof (shl_align_value p 0 (Z.log2 (Z.pos p) - 52) ltac:(lia)) as Hv.
  assert (He : (shl_align p 0 (Z.log2 (Z.pos p) - 52)).2 = (Z.log2 (Z.pos p) - 52)%Z).
  { unfold shl_align. destruct (_ - 0)%Z eqn:E; cbn [snd]; lia. }
  destruct (shl_align p 0 _) as [mz ez]. cbn [fst snd] in *. subst ez.
  set (k := (0 - (Z.log2 (Z.pos p) - 52))%Z) in *.
  rewrite round_exact; [|lia| |lia].
  - cbn [Z.to_pos fint cond_Zopp]. rewrite Hv.
    assert (Hk : (0 < 2 ^ k)%Z) by (apply Z.pow_pos_nonneg; lia).
    destruct (Z.leb_spec 0 (Z.log2 (Z.pos p) - 52)).
    + assert (k = 0%Z) as -> by lia. replace (Z.log2 (Z.pos p) - 52)%Z with 0%Z by lia.
      f_equal. lia.
    + replace (- (Z.log2 (Z.pos p) - 52))%Z with k by lia.
      rewrite Z.mod_mul, Z.div_mul by lia. done.
  - rewrite Zdigits2_log2, Hv, Z.log2_mul_pow2, fexp_unfold by lia. lia.
Qed.

Lemma fint_or_zero_of_Z z : (0 <= z < 2 ^ 53)%Z -> fint_or_zero (f64_of_Z z) = z.
Proof. intros Hz. unfold fint_or_zero. by rewrite fint_of_Z. Qed.
Lemma small_fint x z : fint x = Some z -> (0 <= z < b)%Z -> small_integer x = true.
Proof. intros Hx Hz. unfold small_integer. rewrite Hx, Z.abs_eq by lia. apply Z.ltb_lt. lia. Qed.


(** ** Lemmas: the variables *)

Section vars.
Context {ORT : OrTools}.

(** Numbers handed out so far, each to one pair. *)
Definition table_inv (x : VarTable) (s : Mip) : Prop :=
  (forall r n v, var_of x r n = Some v -> (v < length (mp_vars s))%nat) /\
  (forall r n r' n' v, var_of x r n = Some v -> var_of x r' n' = Some v -> r = r' /\ n = n').

Definition row_inv (base : nat) (m : gmap ClusterNodeID nat) (s : Mip) : Prop :=
  (base <= length (mp_vars s))%nat /\
  (forall n v, m !! n = Some v -> (base <= v < length (mp_vars s))%nat) /\
  (forall n n' v, m !! n = Some v -> m !! n' = Some v -> n = n').

Lemma var_step_inv base rows r acc n acc' :
  row_inv base acc.2 acc.1 /\ mp_rows acc.1 = rows -> var_step r acc n = Ok acc' ->
  row_inv base acc'.2 acc'.1 /\ mp_rows acc'.1 = rows.
Proof.
  intros [(Hb & Hr & Hi) Hrows] Hstep. unfold var_step, int_var in Hstep.
  destruct (negb (ort_var_ok acc.1)); [done|]. injection Hstep as <-. split; [|done].
  cbn [fst snd mp_vars]. split_and!.
  - simpl. rewrite length_app. lia.
  - intros n' v Hv. simpl in *. rewrite length_app. simpl.
    apply lookup_insert_Some in Hv as [[_ <-]|[_ Hv]]; [lia|]. specialize (Hr n' v Hv). lia.
  - intros n1 n2 v H1 H2. simpl in *.
    apply lookup_insert_Some in H1 as [[<- <-]|[_ H1]]; apply lookup_insert_Some in H2 as [[<- H2]|[_ H2]];
      [done|specialize (Hr _ _ H2); lia|subst v; specialize (Hr _ _ H1); lia|eauto].
Qed.

Lemma var_steps_spec rows r J s sm base :
  base = length (mp_vars s) -> mp_rows s = rows ->
  foldM (var_step r) (s, ∅) J = Ok sm ->
  row_inv base sm.2 sm.1 /\ mp_rows sm.1 = rows /\ (forall n, n ∈ J -> is_Some (sm.2 !! n)).
Proof.
  intros -> Hrows Hf.
  apply (foldM_inv (fun done sm => (row_inv (length (mp_vars s)) sm.2 sm.1 /\ mp_rows sm.1 = rows) /\
           (forall n, n ∈ done -> is_Some (sm.2 !! n)))) in Hf; [naive_solver|..].
  - split; [|set_solver]. split; [|done]. split_and!; [done|set_solver|set_solver].
  - intros done n a a' [Hinv Hin] _ Hstep. split; [by eapply var_step_inv|].
    unfold var_step, int_var in Hstep. destruct (negb (ort_var_ok a.1)); [done|]. injection Hstep as <-.
    intros n' Hn'. simpl. destruct (decide (n = n')) as [->|]; [rewrite lookup_insert_eq; by eexists|].
    rewrite lookup_insert_ne by done. apply Hin. set_solver.
Qed.

Lemma make_vars_spec I J s sx :
  make_vars I J s = Ok sx ->
  table_inv sx.2 sx.1 /\ mp_rows sx.1 = mp_rows s /\
  (forall r n, r ∈ I -> n ∈ J -> is_Some (var_of sx.2 r n)).
Proof.
  unfold make_vars. intros Hf.
  apply (foldM_inv (fun done sx => table_inv sx.2 sx.1 /\ mp_rows sx.1 = mp_rows s /\
    (forall r n, r ∈ done -> n ∈ J -> is_Some (var_of sx.2 r n)))) in Hf; [done|..].
  - split_and!; [split; set_solver|done|set_solver].
  - intros done r [s0 x0] sx' ([Hlt Hinj] & Hrows & Hall) _ Hstep. unfold vars_step in Hstep.
    apply bind_Ok in Hstep as (sm & Hsm & [= <-]). simpl in *.
    apply (var_steps_spec (mp_rows s)) with (base := length (mp_vars s0)) in Hsm as ((Hb & Hr & Hi) & Hrows' & Hin); [|done..].
    assert (Hv : forall r' n', var_of (<[r := sm.2]> x0) r' n' =
              if decide (r' = r) then sm.2 !! n' else var_of x0 r' n').
    { intros r' n'. unfold var_of. destruct (decide (r' = r)) as [->|].
      - by rewrite lookup_insert_eq.
      - by rewrite lookup_insert_ne by done. }
    split_and!; [split|done|].
    + intros r' n' v. rewrite Hv. case_decide; [intros ?%Hr; simpl; lia|intros ?%Hlt; simpl; lia].
    + intros r1 n1 r2 n2 v. rewrite !Hv. repeat case_decide; subst.
      * intros H1 H2. split; [done|eauto].
      * intros H1%Hr H2%Hlt. lia.
      * intros H1%Hlt H2%Hr. lia.
      * apply Hinj.
    + intros r' n' Hr' Hn'. rewrite Hv. case_decide; [by apply Hin|].
      apply Hall; [|done]. apply elem_of_app in Hr' as [?|?%list_elem_of_singleton]; done.
Qed.
End vars.

(** ** Lemmas: the rows *)

Definition zsum (l : list Z) : Z := foldr Z.add 0%Z l.

(** Inserting a list of distinct new keys adds their terms. *)
Lemma row_total_insert m v c z :
  m !! v = None -> row_total (<[v := c]> m) z = (fint_or_zero c * z v + row_total m z)%Z.
Proof.
  intros Hv. unfold row_total. rewrite map_fold_insert_L; [done| |done].
  intros. lia.
Qed.

Lemma row_total_inserts (l : list (nat * f64)) m z :
  NoDup l.*1 -> (forall v, v ∈ l.*1 -> m !! v = None) ->
  row_total (foldl (fun m e => <[e.1 := e.2]> m) m l) z =
    (row_total m z + zsum ((fun e => fint_or_zero e.2 * z e.1) <$> l))%Z.
Proof.
  revert m. induction l as [|[v c] l IH]; intros m Hnd Hm; simpl; [by rewrite Z.add_0_r|].
  simpl in Hnd. apply NoDup_cons in Hnd as [Hnin Hnd]. rewrite IH; [|done|].
  - rewrite row_total_insert by (apply Hm; set_solver). cbn [fmap list_fmap zsum foldr fst snd].
    rewrite Z.add_assoc, (Z.add_comm (row_total m z)). done.
  - intros v' Hv'. rewrite lookup_insert_ne by (intros ->; done). apply Hm. set_solver.
Qed.

(** [row] has the bounds [lb] and [ub] and the integer coefficient [c k] on the
    variable of every [k] of [ks]. *)
Definition row_describes {K} (row : MpRow) (lb ub : f64) (ks : list K) (key : K -> option nat)
    (c : K -> Z) : Prop :=
  row_lb row = lb /\ row_ub row = ub /\
  (forall v k, row_coeffs row !! v = Some k -> small_integer k = true) /\
  (forall z, row_total (row_coeffs row) z =
     zsum ((fun k => c k * from_option z 0 (key k)) <$> ks))%Z.

Lemma inserts_lookup (l : list (nat * f64)) (m : gmap nat f64) v k :
  foldl (fun m e => <[e.1 := e.2]> m) m l !! v = Some k -> k ∈ l.*2 \/ m !! v = Some k.
Proof.
  revert m. induction l as [|[v' c] l IH]; intros m Hk; simpl in *; [by right|].
  apply IH in Hk as [?|Hk]; [left; set_solver|].
  apply lookup_insert_Some in Hk as [[_ ->]|[_ ?]]; [left; set_solver|by right].
Qed.

Lemma alter_last {A} (f : A -> A) l a : alter f (length l) (l ++ [a]) = l ++ [f a].
Proof. rewrite alter_app_r_alt by lia. by rewrite Nat.sub_diag. Qed.

(** The loop that fills the row just created. *)
Lemma fill_row {K} (step : Mip -> K -> result opt_error Mip) (key : K -> option nat) (val : K -> f64)
    ks s s' rows lb ub coeffs :
  (forall s k s', k ∈ ks -> step s k = Ok s' -> exists v, key k = Some v /\ mp_vars s' = mp_vars s /\
     mp_rows s' = alter (row_set v (val k)) (length rows) (mp_rows s)) ->
  mp_rows s = rows ++ [mkRow lb ub coeffs] -> foldM step s ks = Ok s' ->
  mp_vars s' = mp_vars s /\ exists vs, Forall2 (fun k v => key k = Some v) ks vs /\
    mp_rows s' = rows ++ [mkRow lb ub
      (foldl (fun m e => <[e.1 := e.2]> m) coeffs (zip vs (val <$> ks)))].
Proof.
  revert s coeffs. induction ks as [|k ks IH]; intros s coeffs Hstep Hrows Hf; simpl in Hf.
  - injection Hf as <-. split; [done|]. exists []. by split.
  - apply bind_Ok in Hf as (s1 & H1 & Hf). apply Hstep in H1 as (v & Hv & Hvars & Hr); [|set_solver].
    rewrite Hrows, alter_last in Hr. unfold row_set in Hr. simpl in Hr.
    destruct (IH s1 (<[v := val k]> coeffs)) as (Hvars' & vs & Hvs & Hrows'); [|done|done|].
    { intros. apply Hstep; set_solver. }
    split; [congruence|]. exists (v :: vs). split; [by constructor|]. done.
Qed.

Lemma zip_fst {A B} (l : list A) (k : list B) : length l = length k -> (zip l k).*1 = l.
Proof. revert k. induction l as [|a l IH]; intros [|a' k] H; simpl in *; [done..|]. f_equal. apply IH. lia. Qed.
Lemma zip_snd {A B} (l : list A) (k : list B) : length l = length k -> (zip l k).*2 = k.
Proof. revert k. induction l as [|a l IH]; intros [|a' k] H; simpl in *; [done..|]. f_equal. apply IH. lia. Qed.

Lemma filled_row_describes {K} (key : K -> option nat) (val : K -> f64) (c : K -> Z) ks vs lb ub :
  Forall2 (fun k v => key k = Some v) ks vs -> NoDup ks ->
  (forall k k' v, key k = Some v -> key k' = Some v -> k = k') ->
  (forall k, k ∈ ks -> fint (val k) = Some (c k) /\ (0 <= c k < b)%Z) ->
  row_describes (mkRow lb ub (foldl (fun m e => <[e.1 := e.2]> m) ∅ (zip vs (val <$> ks)))) lb ub ks key c.
Proof.
  intros Hvs Hnd Hinj Hval. pose proof (Forall2_length _ _ _ Hvs) as Hlen.
  assert (Hlen' : length vs = length (val <$> ks)) by (rewrite length_fmap; done).
  split_and!; [done|done| |]; cbn [row_coeffs].
  - intros v k Hk. apply inserts_lookup in Hk as [Hk|Hk]; [|done].
    rewrite zip_snd in Hk by done. apply list_elem_of_fmap in Hk as (k' & -> & Hk').
    destruct (Hval k' Hk'). by eapply small_fint.
  - intros z. rewrite row_total_inserts; [|rewrite zip_fst by done|done].
    + change (row_total ∅ z) with 0%Z. rewrite Z.add_0_l. clear Hlen Hlen' Hnd Hinj.
      induction Hvs as [|k v ks vs Hk Hvs IH]; [done|]. simpl. f_equal.
      * rewrite Hk. simpl. unfold fint_or_zero. by rewrite (proj1 (Hval k ltac:(set_solver))).
      * apply IH. intros k' Hk'. apply Hval. set_solver.
    + clear Hlen Hlen' Hval. induction Hvs as [|k v ks vs Hk Hvs IH]; [constructor|].
      apply NoDup_cons in Hnd as [Hnin Hnd]. constructor; [|by apply IH]. intros Hv.
      apply list_elem_of_lookup in Hv as [i Hi].
      destruct (Forall2_lookup_r _ _ _ _ _ Hvs Hi) as (k' & Hk' & Hkey).
      apply Hnin. rewrite (Hinj k k' v) by done. by eapply list_elem_of_lookup_2.
Qed.

Section phases.
Context {ORT : OrTools}.

Definition var_inj (x : VarTable) : Prop :=
  forall r n r' n' v, var_of x r n = Some v -> var_of x r' n' = Some v -> r = r' /\ n = n'.

(** A loop each of whose steps appends one row. *)
Lemma append_rows {K} (step : Mip -> K -> result opt_error Mip) (P : K -> MpRow -> Prop) ks s s' :
  (forall s k s', k ∈ ks -> step s k = Ok s' -> mp_vars s' = mp_vars s /\
     exists row, mp_rows s' = mp_rows s ++ [row] /\ P k row) ->
  foldM step s ks = Ok s' ->
  mp_vars s' = mp_vars s /\
  exists rows, mp_rows s' = mp_rows s ++ rows /\ (forall k, k ∈ ks -> exists row, row ∈ rows /\ P k row).
Proof.
  revert s. induction ks as [|k ks IH]; intros s Hstep Hf; simpl in Hf.
  - injection Hf as <-. split; [done|]. exists []. split; [by rewrite app_nil_r|set_solver].
  - apply bind_Ok in Hf as (s1 & H1 & Hf). apply Hstep in H1 as (Hv & row & Hr & HP); [|set_solver].
    destruct (IH s1) as (Hv' & rows & Hr' & HP'); [intros; apply Hstep; set_solver|done|].
    split; [congruence|]. exists (row :: rows). split; [by rewrite Hr', Hr, <-app_assoc|].
    intros k' Hk'. apply elem_of_cons in Hk' as [->|Hk']; [exists row; set_solver|].
    destruct (HP' k' Hk') as (row' & ? & ?). exists row'. set_solver.
Qed.

Lemma new_row_Ok what s lb ub sc :
  new_row what s lb ub = Ok sc ->
  mp_vars sc.1 = mp_vars s /\ mp_rows sc.1 = mp_rows s ++ [mkRow lb ub ∅] /\ sc.2 = length (mp_rows s).
Proof. unfold new_row. destruct (negb (ort_row_ok s)); [done|]. by intros [= <-]. Qed.

Lemma constraint_set_coeff_Ok what s c v k s' :
  constraint_set_coeff what s c v k = Ok s' ->
  exists i, v = Some i /\ mp_vars s' = mp_vars s /\ mp_rows s' = alter (row_set i k) c (mp_rows s).
Proof.
  unfold constraint_set_coeff. intros H. apply bind_Ok in H as (i & Hi%require_Ok & [= <-]). by exists i.
Qed.

Lemma assignment_row_spec x J s r s' :
  NoDup J -> var_inj x -> assignment_row x J s r = Ok s' ->
  mp_vars s' = mp_vars s /\ exists row, mp_rows s' = mp_rows s ++ [row] /\
    row_describes row (f64_of_Z 1) (f64_of_Z 1) J (var_of x r) (fun _ => 1%Z).
Proof.
  intros Hnd Hinj H. unfold assignment_row in H.
  apply bind_Ok in H as ([s1 c] & (Hv & Hr & Hc)%new_row_Ok & H). cbn [fst snd] in *. subst c.
  eapply (fill_row _ (var_of x r) (fun _ => f64_of_Z 1)) in H as (Hv' & vs & Hvs & Hr'); [| |exact Hr].
  2: { intros s0 n s2 _ (v & ? & ? & ?)%constraint_set_coeff_Ok. by exists v. }
  split; [congruence|]. eexists. split; [exact Hr'|].
  apply filled_row_describes; [done|done| |intros; split; [by apply fint_of_Z|lia]].
  intros n n' v H1 H2. by destruct (Hinj _ _ _ _ _ H1 H2).
Qed.

Definition demand (p : Problem) (get : ResourceQuantity -> Z) (r : ReplicaKey) : Z :=
  default 0%Z (get <$> requests_of p !! r).

(** Requests and capacities that float64 represents exactly and the solver keeps apart. *)
Definition exact_amounts (p : Problem) (get : ResourceQuantity -> Z) : Prop :=
  map_Forall (fun _ q => 0 <= get q < b)%Z (requests_of p) /\
  map_Forall (fun _ q => 0 <= get q < b)%Z (NodeCapacities p).

Lemma capacity_row_spec what get p x s n s' :
  NoDup (StableReplicas p) -> var_inj x -> exact_amounts p get ->
  capacity_row what get p x s n = Ok s' ->
  mp_vars s' = mp_vars s /\ exists row, mp_rows s' = mp_rows s ++ [row] /\
    exists cap, NodeCapacities p !! n = Some cap /\
      row_describes row fneg_inf (f64_of_Z (get cap)) (StableReplicas p)
        (fun r => var_of x r n) (demand p get).
Proof.
  intros Hnd Hinj [Hreq _] H. unfold capacity_row in H.
  apply bind_Ok in H as (cap & Hcap%require_Ok & H).
  apply bind_Ok in H as ([s1 c] & (Hv & Hr & Hc)%new_row_Ok & H). cbn [fst snd] in *. subst c.
  assert (Hall : forall r, r ∈ StableReplicas p -> is_Some (requests_of p !! r)).
  { intros r Hin. destruct (foldM_all_ok _ _ _ _ _ H Hin) as (a0 & a1 & Hs).
    apply bind_Ok in Hs as (q & Hq%require_Ok & _). by eexists. }
  eapply (fill_row _ (fun r => var_of x r n) (fun r => f64_of_Z (demand p get r)))
    in H as (Hv' & vs & Hvs & Hr'); [| |exact Hr].
  2: { intros s0 r s2 _ Hs. apply bind_Ok in Hs as (q & Hq%require_Ok & Hs).
       apply constraint_set_coeff_Ok in Hs as (v & ? & ? & Hs). exists v. split_and!; [done..|].
       unfold demand. by rewrite Hq. }
  split; [congruence|]. eexists. split; [exact Hr'|]. exists cap. split; [done|].
  apply filled_row_describes; [done|done| |].
  - intros r r' v H1 H2. by destruct (Hinj _ _ _ _ _ H1 H2).
  - intros r Hin. destruct (Hall r Hin) as [q Hq]. unfold demand. rewrite Hq.
    assert (Hsmall := Hreq _ _ Hq). cbn in Hsmall |- *. split; [apply fint_of_Z; lia|exact Hsmall].
Qed.

Lemma set_objective_rows x scores I J s s' :
  set_objective x scores I J s = Ok s' -> mp_vars s' = mp_vars s /\ mp_rows s' = mp_rows s.
Proof.
  unfold set_objective. destruct scores as [scores|]; [|by intros [= <-]].
  intros Hf. refine (foldM_inv (fun _ s' => mp_vars s' = mp_vars s /\ mp_rows s' = mp_rows s) _ _ _ _ _ _ Hf);
    [done|].
  clear. intros _ r s1 s2 [Hv Hr] _ Hf. unfold objective_terms in Hf.
  refine (foldM_inv (fun _ s' => mp_vars s' = mp_vars s /\ mp_rows s' = mp_rows s) _ _ _ _ _ _ Hf); [done|].
  intros _ n a a' [Hv' Hr'] _ Hs. cbv beta zeta in Hs. destruct (feq _ fzero); [by injection Hs as <-|].
  unfold objective_set_coeff in Hs. apply bind_Ok in Hs as (i & _ & [= <-]). done.
Qed.
End phases.

Section build.
Context {ORT : OrTools}.

(** The rows of a resource in the final model. *)
Definition capacity_described (p : Problem) (get : ResourceQuantity -> Z) (s : Mip) (x : VarTable) : Prop :=
  forall n, n ∈ CandidateNodes p -> exists row cap, row ∈ mp_rows s /\
    NodeCapacities p !! n = Some cap /\
    row_describes row fneg_inf (f64_of_Z (get cap)) (StableReplicas p)
      (fun r => var_of x r n) (demand p get).

Lemma capacity_rows_spec required what get p x s s' :
  NoDup (StableReplicas p) -> var_inj x -> (required = true -> exact_amounts p get) ->
  capacity_rows required what get p x s = Ok s' ->
  mp_vars s' = mp_vars s /\ (forall row, row ∈ mp_rows s -> row ∈ mp_rows s') /\
  (required = true -> capacity_described p get s' x).
Proof.
  intros Hnd Hinj Hex H. unfold capacity_rows in H. destruct required; [|by injection H as <-].
  specialize (Hex eq_refl).
  eapply append_rows in H as (Hv & rows & Hr & Hall); [|intros; by eapply capacity_row_spec].
  split_and!; [done|intros row Hrow; rewrite Hr; set_solver|]. intros _ n Hn.
  destruct (Hall n Hn) as (row & Hrow & cap & Hcap & Hd). exists row, cap.
  split; [rewrite Hr; set_solver|done].
Qed.

Lemma build_mip_spec ctx scores p s x :
  NoDup (StableReplicas p) -> NoDup (CandidateNodes p) ->
  (RequireCPU p = true -> exact_amounts p MilliCPU) ->
  (RequireMemory p = true -> exact_amounts p MemoryMi) ->
  build_mip ctx scores p = Ok (s, x) ->
  (forall r n, r ∈ StableReplicas p -> n ∈ CandidateNodes p ->
     exists v, var_of x r n = Some v /\ (v < length (mp_vars s))%nat) /\
  (forall r, r ∈ StableReplicas p -> exists row, row ∈ mp_rows s /\
     row_describes row (f64_of_Z 1) (f64_of_Z 1) (CandidateNodes p) (var_of x r) (fun _ => 1%Z)) /\
  (RequireCPU p = true -> capacity_described p MilliCPU s x) /\
  (RequireMemory p = true -> capacity_described p MemoryMi s x).
Proof.
  intros HI HJ Hcpu Hmem H. unfold build_mip in H.
  apply bind_Ok in H as ([s0 x0] & ([Hlt Hinj] & _ & Hvar)%make_vars_spec & H). cbn [fst snd] in *.
  apply bind_Ok in H as (s1 & [Hv1 _]%set_objective_rows & H).
  apply bind_Ok in H as (s2 & H2 & H).
  eapply append_rows in H2 as (Hv2 & rows & Hr2 & Hall); [|intros; by eapply assignment_row_spec].
  apply bind_Ok in H as (s3 & H3 & H).
  apply capacity_rows_spec in H3 as (Hv3 & Hk3 & Hc3); [|done..].
  apply bind_Ok in H as (s4 & H4 & [= <- <-]).
  apply capacity_rows_spec in H4 as (Hv4 & Hk4 & Hc4); [|done..].
  split_and!.
  - intros r n Hr Hn. destruct (Hvar r n Hr Hn) as [v Hv]. exists v. split; [done|].
    rewrite Hv4, Hv3, Hv2, Hv1. by eapply Hlt.
  - intros r Hr. destruct (Hall r Hr) as (row & Hrow & Hd). exists row. split; [|done].
    apply Hk4, Hk3. rewrite Hr2. set_solver.
  - intros Hreq n Hn. destruct (Hc3 Hreq n Hn) as (row & cap & ? & ? & ?). exists row, cap.
    split; [by apply Hk4|done].
  - done.
Qed.

(** A described row of a sound answer, as a statement on integers. *)
Lemma described_row_holds {K} (z : nat -> Z) row lb ub (ks : list K) key c lo hi :
  row_describes row lb ub ks key c ->
  (row_integral row = true -> row_holds z row = true) ->
  lb = fneg_inf \/ fint lb = Some lo /\ (0 <= lo < b)%Z -> fint ub = Some hi -> (0 <= hi < b)%Z ->
  (lb = fneg_inf \/ lo <= zsum ((fun k => c k * from_option z 0 (key k)) <$> ks))%Z /\
  (zsum ((fun k => c k * from_option z 0 (key k)) <$> ks) <= hi)%Z.
Proof.
  intros (Hlb & Hub & Hint & Htot) Hsound Hlo Hhi Hbound. subst lb ub.
  assert (Hi : row_integral row = true).
  { unfold row_integral. rewrite !andb_true_iff, orb_true_iff, bool_decide_eq_true, forallb_forall. split_and!.
    - intros [v k] Hin. apply (Hint v). by apply elem_of_map_to_list, list_elem_of_In.
    - destruct Hlo as [?|[Hlo ?]]; [by left|]. right. by eapply small_fint.
    - by eapply small_fint. }
  apply Hsound in Hi. unfold row_holds in Hi.
  rewrite andb_true_iff, orb_true_iff, bool_decide_eq_true, !Z.leb_le, Htot in Hi.
  unfold fint_or_zero in Hi. rewrite Hhi in Hi. destruct Hi as [Hi1 Hi2]. split; [|done].
  destruct Hlo as [?|[Hlo _]]; [by left|]. rewrite Hlo in Hi1.
  destruct Hi1; [by left|by right].
Qed.
End build.

(** ** Lemmas: the answer *)

(** Zeros and ones that sum to one: exactly one of them is one. *)
Lemma zsum_cons a l : zsum (a :: l) = (a + zsum l)%Z.
Proof. done. Qed.

Lemma zsum_nonneg l : Forall (fun a => 0 <= a)%Z l -> (0 <= zsum l)%Z.
Proof. induction 1; [done|]. rewrite zsum_cons. lia. Qed.

Lemma zsum_one {K} (f : K -> Z) ks :
  NoDup ks -> (forall k, k ∈ ks -> f k = 0 \/ f k = 1)%Z -> zsum (f <$> ks) = 1%Z ->
  exists k, k ∈ ks /\ f k = 1%Z /\ (forall k', k' ∈ ks -> f k' = 1%Z -> k' = k).
Proof.
  induction ks as [|k ks IH]; intros Hnd H01 Hsum; [done|].
  apply NoDup_cons in Hnd as [Hnin Hnd]. rewrite fmap_cons, zsum_cons in Hsum.
  destruct (H01 k) as [Hk|Hk]; [set_solver| |].
  - destruct IH as (k0 & H1 & H2 & H3); [done|intros; apply H01; set_solver|lia|].
    exists k0. split_and!; [set_solver|done|]. intros k' Hk' Hf.
    apply elem_of_cons in Hk' as [->|Hk']; [lia|auto].
  - exists k. split_and!; [set_solver|done|]. intros k' Hk' Hf.
    apply elem_of_cons in Hk' as [->|Hk']; [done|]. exfalso.
    assert (Hz : zsum (f <$> ks) = 0%Z) by lia. clear Hsum IH Hnin Hnd.
    revert Hz. induction ks as [|k0 ks IH]; [set_solver|]. rewrite fmap_cons, zsum_cons. intros Hz.
    assert (0 <= zsum (f <$> ks))%Z.
    { apply zsum_nonneg, Forall_fmap, Forall_forall. intros k1 Hk1. simpl.
      destruct (H01 k1); [set_solver|lia|lia]. }
    destruct (H01 k0); [set_solver| |].
    + apply elem_of_cons in Hk' as [->|Hk']; [lia|]. apply IH; [|done|lia]. intros; apply H01; set_solver.
    + lia.
Qed.

Lemma zsum_ext {K} (f g : K -> Z) ks :
  (forall k, k ∈ ks -> f k = g k) -> zsum (f <$> ks) = zsum (g <$> ks).
Proof.
  induction ks as [|k ks IH]; intros Hfg; [done|]. rewrite !fmap_cons, !zsum_cons, Hfg, IH; [done| |];
    set_solver.
Qed.

Lemma chosen_node_Some x sol J r n :
  chosen_node x sol J r = Some n ->
  n ∈ J /\ fle half (default fzero (sol <$> var_of x r n)) = true.
Proof.
  unfold chosen_node. intros ([i n'] & (Hi & Hn & _)%list_find_Some & ->)%fmap_Some.
  split; [by eapply list_elem_of_lookup_2|done].
Qed.

Lemma decode_spec x sol J I asg :
  foldM (decode_step x sol J) ∅ I = Ok asg ->
  (forall r, r ∈ I -> exists n, chosen_node x sol J r = Some n /\ asg !! r = Some n) /\
  (forall r, is_Some (asg !! r) -> r ∈ I).
Proof using Type.
  clear Hmagnitude.
  intros Hf.
  refine (foldM_inv (fun done (asg : gmap ReplicaKey ClusterNodeID) =>
    (forall r, r ∈ done -> exists n, chosen_node x sol J r = Some n /\ asg !! r = Some n) /\
    (forall r, is_Some (asg !! r) -> r ∈ done)) _ _ _ _ _ _ Hf).
  { split; [set_solver|]. intros r [? H]. done. }
  intros done r a a' [H1 H2] _ Hs. unfold decode_step in Hs.
  apply bind_Ok in Hs as (n & Hn%require_Ok & [= <-]). split.
  - intros r' Hr'. destruct (decide (r' = r)) as [->|].
    { exists n. by rewrite lookup_insert_eq. }
    rewrite lookup_insert_ne by done. apply H1. apply elem_of_app in Hr' as [?|?%list_elem_of_singleton]; done.
  - intros r' Hr'. destruct (decide (r' = r)) as [->|]; [set_solver|].
    rewrite lookup_insert_ne in Hr' by done. apply elem_of_app. left. auto.
Qed.

Lemma check_status_Ok ctx st u : check_status ctx st = Ok u -> st = ORT_OPTIMAL \/ st = ORT_FEASIBLE.
Proof. destruct st; simpl; auto; try done. by destruct (deadline_exceeded ctx). Qed.

(** Amount of a resource the assignment puts on a node. *)
Definition used (p : Problem) (get : ResourceQuantity -> Z) (asg : gmap ReplicaKey ClusterNodeID)
    (n : ClusterNodeID) : Z :=
  zsum ((fun r => if decide (asg !! r = Some n) then demand p get r else 0%Z) <$> StableReplicas p).

Section answer.
Context {ORT : OrTools} (p : Problem) (s : Mip) (x : VarTable) (sol : nat -> f64) (z : nat -> Z).
Context (asg : gmap ReplicaKey ClusterNodeID).
Hypothesis HJ : NoDup (CandidateNodes p).
Hypothesis Hvars : forall r n, r ∈ StableReplicas p -> n ∈ CandidateNodes p ->
  exists v, var_of x r n = Some v /\ (v < length (mp_vars s))%nat.
Hypothesis Hz : forall v, (v < length (mp_vars s))%nat ->
  (z v = 0 \/ z v = 1)%Z /\ fle half (sol v) = (z v =? 1)%Z.
Hypothesis Hrows : forall row, row ∈ mp_rows s -> row_integral row = true -> row_holds z row = true.
Hypothesis Hassign : forall r, r ∈ StableReplicas p -> exists row, row ∈ mp_rows s /\
  row_describes row (f64_of_Z 1) (f64_of_Z 1) (CandidateNodes p) (var_of x r) (fun _ => 1%Z).
Hypothesis Hasg : foldM (decode_step x sol (CandidateNodes p)) ∅ (StableReplicas p) = Ok asg.

(** A pair is chosen exactly when its variable is one. *)
Lemma chosen_iff r n :
  r ∈ StableReplicas p -> n ∈ CandidateNodes p ->
  asg !! r = Some n <-> from_option z 0%Z (var_of x r n) = 1%Z.
Proof.
  intros Hr Hn. destruct (proj1 (decode_spec _ _ _ _ _ Hasg) r Hr) as (n0 & Hch & Ha).
  apply chosen_node_Some in Hch as [Hn0 Hval].
  destruct (Hassign r Hr) as (row & Hrow & Hd).
  assert (Hone : zsum ((fun n => 1 * from_option z 0 (var_of x r n))%Z <$> CandidateNodes p) = 1%Z).
  { destruct (described_row_holds z row (f64_of_Z 1) (f64_of_Z 1) (CandidateNodes p) (var_of x r)
      (fun _ => 1%Z) 1%Z 1%Z Hd (Hrows _ Hrow)) as [[?|?] ?]; [right; split; [by apply fint_of_Z|lia]|by apply fint_of_Z|lia|done|lia]. }
  apply zsum_one in Hone as (n1 & Hn1 & H1 & Huniq); [|done|].
  2: { intros n' Hn'. destruct (Hvars r n' Hr Hn') as (v & -> & Hv). simpl. destruct (Hz v Hv). lia. }
  assert (Hn01 : n0 = n1).
  { apply Huniq; [done|]. destruct (Hvars r n0 Hr Hn0) as (v & Hv & Hlt). rewrite Hv in *. simpl in *.
    destruct (Hz v Hlt) as [_ Hf]. rewrite Hf in Hval. apply Z.eqb_eq in Hval. lia. }
  subst n1. rewrite Ha. split; [intros [= ->]; lia|]. intros Hone. f_equal. symmetry.
  apply Huniq; [done|]. cbv beta. lia.
Qed.

Lemma capacity_respected get n :
  capacity_described p get s x -> exact_amounts p get -> n ∈ CandidateNodes p ->
  exists cap, NodeCapacities p !! n = Some cap /\ (used p get asg n <= get cap)%Z.
Proof.
  intros Hcap [_ Hex] Hn. destruct (Hcap n Hn) as (row & cap & Hrow & Hc & Hd). exists cap. split; [done|].
  destruct (described_row_holds z row fneg_inf (f64_of_Z (get cap)) (StableReplicas p)
    (fun r => var_of x r n) (demand p get) 0%Z (get cap) Hd (Hrows _ Hrow)) as [_ Hle].
  - by left.
  - apply fint_of_Z. assert (H := Hex _ _ Hc). cbn in H. lia.
  - exact (Hex _ _ Hc).
  - unfold used. erewrite zsum_ext; [exact Hle|]. intros r Hr. cbv beta.
    destruct (Hvars r n Hr Hn) as (v & Hv & Hlt). destruct (Hz v Hlt) as [Hzv _].
    pose proof (chosen_iff r n Hr Hn) as Hiff. rewrite Hv in *. simpl in *.
    case_decide as Hd'; [apply Hiff in Hd'; lia|].
    destruct Hzv as [->|Hone]; [lia|]. exfalso. by apply Hd', Hiff.
Qed.
End answer.

Lemma all_vectors_spec n v :
  v ∈ all_vectors n -> length v = n /\ Forall (fun a => a = 0 \/ a = 1)%Z v.
Proof.
  revert v. induction n as [|n IH]; simpl; intros v Hv.
  - apply list_elem_of_singleton in Hv as ->. by split.
  - apply list_elem_of_In, in_flat_map in Hv as (v' & Hv'%list_elem_of_In & Hv).
    apply IH in Hv' as [<- Hall]. destruct Hv as [<-|[<-|[]]]; simpl; split; auto.
Qed.

(** The exhaustive solver keeps the contract: the class of sound solvers is not empty. *)
Lemma exhaustive_solver_sound : ort_sound exhaustive_solver.
Proof.
  intros s st sol Hsolve Hst. simpl in Hsolve.
  destruct (list_find _ _) as [[i v]|] eqn:E; [|injection Hsolve as <- <-; by destruct Hst].
  injection Hsolve as <- <-. apply list_find_Some in E as (Hi & Hall & _).
  apply list_elem_of_lookup_2, all_vectors_spec in Hi as [Hlen H01].
  exists (vector_value v). split.
  - intros k Hk. unfold vector_value. rewrite <-Hlen in Hk. apply lookup_lt_is_Some in Hk as [a Ha].
    rewrite Ha. simpl. rewrite Forall_lookup in H01. destruct (H01 k a Ha) as [->| ->]; auto.
  - intros row Hrow _. rewrite forallb_forall in Hall. by apply Hall, list_elem_of_In.
Qed.

End magnitude.

(** ** Properties *)

(** C19: with a solver that keeps its contract up to some magnitude, at most 2^53, that the
    requests and capacities stay below, an assignment returned by the
    OR-Tools backend is total and sound: every replica of the problem, and no
    other, is placed on a candidate node, and on no node do the requests of the
    replicas placed there exceed its CPU capacity (memory, when required). *)
Theorem ORToolsSolver_Solve_sound {SORT : GoSort} {MAPS : MapOrder} (ORT : OrTools) b t ctx p res :
  (1 < b <= 2 ^ 53)%Z -> ort_sound b ORT ->
  NoDup (StableReplicas p) -> NoDup (CandidateNodes p) ->
  (RequireCPU p = true -> exact_amounts b p MilliCPU) ->
  (RequireMemory p = true -> exact_amounts b p MemoryMi) ->
  ORToolsSolver_Solve t ctx p = Ok res ->
  exists asg, option_map Assignment res = Some (Some asg) /\
    (forall r, is_Some (asg !! r) <-> r ∈ StableReplicas p) /\
    (forall r n, asg !! r = Some n -> n ∈ CandidateNodes p) /\
    (StableReplicas p <> [] -> RequireCPU p = true -> forall n, n ∈ CandidateNodes p ->
       exists cap, NodeCapacities p !! n = Some cap /\ (used p MilliCPU asg n <= MilliCPU cap)%Z) /\
    (StableReplicas p <> [] -> RequireMemory p = true -> forall n, n ∈ CandidateNodes p ->
       exists cap, NodeCapacities p !! n = Some cap /\ (used p MemoryMi asg n <= MemoryMi cap)%Z).
Proof.
  intros Hb Hsound HI HJ Hcpu Hmem Hok. unfold ORToolsSolver_Solve in Hok.
  apply bind_Ok in Hok as (_ & _ & Hok).
  destruct (Nat.eqb_spec (length (StableReplicas p)) 0) as [E|_].
  { apply length_zero_iff_nil in E. injection Hok as <-. rewrite E. exists ∅. split; [done|].
    split; [|done]. intros r. split; [by intros [? ?]|set_solver]. }
  apply bind_Ok in Hok as (_ & _ & Hok). apply bind_Ok in Hok as (coeffs & _ & Hok).
  apply bind_Ok in Hok as (_ & _ & Hok). apply bind_Ok in Hok as ([s x] & Hmip & Hok).
  cbn [fst snd] in Hok. destruct (ort_solve s) as [st sol] eqn:Hsolve. cbn [fst snd] in Hok.
  apply bind_Ok in Hok as (u & Hst & Hok). apply bind_Ok in Hok as (asg & Hasg & [= <-]).
  apply (build_mip_spec b) in Hmip as (Hvars & Hassign & Hc & Hm); [|done..].
  destruct (Hsound s st sol Hsolve) as (z & Hz & Hrows); [by eapply check_status_Ok|].
  pose proof (decode_spec _ _ _ _ _ Hasg) as [Hin Hdom].
  exists asg. split_and!; [done| | | |].
  - intros r. split; [apply Hdom|]. intros Hr. destruct (Hin r Hr) as (n & _ & Ha). by exists n.
  - intros r n Ha. destruct (Hin r) as (n' & (? & _)%chosen_node_Some & Ha'); [apply Hdom; by exists n|].
    congruence.
  - intros _ Hreq n Hn. eapply (capacity_respected b); eauto.
  - intros _ Hreq n Hn. eapply (capacity_respected b); eauto.
Qed.

Lemma ORToolsSolver_Solve_sound_witness :
  exists asg, @ORToolsSolver_Solve go_sort_insertion map_order_forward exhaustive_solver 0
      (mkSolveContext (Some 300000%Z) false) demo_problem = Ok (Some (mkSolveResult "Feasible" (Some asg))) /\
    exists cap, NodeCapacities demo_problem !! mkNode "c1" "n1" = Some cap /\
      (used demo_problem MilliCPU asg (mkNode "c1" "n1") <= MilliCPU cap)%Z.
Proof.
  destruct (is_ok_Ok (@ORToolsSolver_Solve go_sort_insertion map_order_forward exhaustive_solver 0
      (mkSolveContext (Some 300000%Z) false) demo_problem)) as [res E]; [by_eval|].
  destruct (ORToolsSolver_Solve_sound exhaustive_solver (10 ^ 6) 0 (mkSolveContext (Some 300000%Z) false)
    demo_problem res ltac:(lia) (exhaustive_solver_sound _)) as (asg & Hres & _ & _ & Hcpu & _).
  - by_computation.
  - by_computation.
  - intros _. split; by_computation.
  - discriminate.
  - exact E.
  - exists asg. destruct res as [[st a]|]; [|discriminate]. simpl in Hres. injection Hres as ->.
    assert (Hst : exists a, st = "Feasible" /\ Some asg = a).
    { vm_compute in E. injection E as <- <-. by eexists. }
    destruct Hst as (? & -> & _). split; [exact E|].
    apply Hcpu; [discriminate|reflexivity|apply list_elem_of_here].
Defined.
