(* ===== verification/GoTime.v ===== *)
(** * Numbers and durations of Go's library

    [strconv.Atoi] and [time.ParseDuration], as far as the controllers read them:
    the value of a well-formed text, an error otherwise ([None]). A duration is
    an int64 number of nanoseconds. *)

From S2P Require Import Prelude Float64.

Local Open Scope string_scope.
Local Open Scope Z_scope.

Definition Millisecond : Z := 1000000.
Definition Second : Z := 1000 * Millisecond.
Definition Minute : Z := 60 * Second.
Definition Hour : Z := 60 * Minute.

(** The digit value of a byte. *)
Definition digit_value (c : Ascii.ascii) : option Z :=
  let n := Z.of_nat (Ascii.nat_of_ascii c) in
  if (48 <=? n) && (n <=? 57) then Some (n - 48) else None.

(** A text of digits only, most significant first. *)
Fixpoint digits_value (acc : Z) (s : string) : option Z :=
  match s with
  | EmptyString => Some acc
  | String c s' => match digit_value c with Some d => digits_value (10 * acc + d) s' | None => None end
  end.

(** An optional sign in front. *)
Definition split_sign (s : string) : bool * string :=
  match s with
  | String c s' => if Ascii.eqb c "-" then (true, s') else if Ascii.eqb c "+" then (false, s') else (false, s)
  | EmptyString => (false, s)
  end.

(** [strconv.Atoi(s)]: a decimal int64. *)
Definition Atoi (s : string) : option Z :=
  let '(neg, digits) := split_sign s in
  match digits with
  | EmptyString => None
  | _ =>
      v ← digits_value 0 digits;
      let v := if neg then - v else v in
      if (- 2 ^ 63 <=? v) && (v <? 2 ^ 63) then Some v else None
  end.

(** [leadingInt]: the leading digits, [None] when they exceed 2^63. *)
Fixpoint leadingInt (v : Z) (s : string) : option (Z * string) :=
  match s with
  | String c s' =>
      match digit_value c with
      | Some d =>
          if (v >? 2 ^ 63 / 10) then None
          else let v := 10 * v + d in
               if (v >? 2 ^ 63) then None else leadingInt v s'
      | None => Some (v, s)
      end
  | EmptyString => Some (v, s)
  end.

(** [leadingFraction]: digits after the point and the power of ten they are over;
    digits that would overflow are dropped. *)
Fixpoint leadingFraction (f : Z) (scale : f64) (overflow : bool) (s : string) : Z * f64 * string :=
  match s with
  | String c s' =>
      match digit_value c with
      | Some d =>
          if overflow then leadingFraction f scale overflow s'
          else if (f >? (2 ^ 63 - 1) / 10) then leadingFraction f scale true s'
          else let y := 10 * f + d in
               if (y >? 2 ^ 63) then leadingFraction f scale true s'
               else leadingFraction y (fmul scale (f64_of_Z 10)) false s'
      | None => (f, scale, s)
      end
  | EmptyString => (f, scale, s)
  end.

(** The unit: everything up to the next digit or point. *)
Fixpoint split_unit (s : string) : string * string :=
  match s with
  | String c s' =>
      if Ascii.eqb c "." || bool_decide (is_Some (digit_value c)) then ("", s)
      else let '(u, rest) := split_unit s' in (String c u, rest)
  | EmptyString => ("", "")
  end.

(** The two spellings of the microsecond sign, in UTF-8. *)
Definition micro_sign : string := String (Ascii.ascii_of_nat 194) (String (Ascii.ascii_of_nat 181) "s").
Definition greek_mu : string := String (Ascii.ascii_of_nat 206) (String (Ascii.ascii_of_nat 188) "s").

Definition unit_value (u : string) : option Z :=
  if String.eqb u "ns" then Some 1
  else if String.eqb u "us" || String.eqb u micro_sign || String.eqb u greek_mu then Some 1000
  else if String.eqb u "ms" then Some Millisecond
  else if String.eqb u "s" then Some Second
  else if String.eqb u "m" then Some Minute
  else if String.eqb u "h" then Some Hour
  else None.

(** [uint64(x)] of a non-negative float64. *)
Definition ftrunc (x : f64) : Z :=
  match x with
  | S754_finite false m e => if 0 <=? e then Z.pos m * 2 ^ e else Z.pos m / 2 ^ (- e)
  | _ => 0
  end.

(** One group [digits.digits unit]: its value and the rest of the text. *)
Definition duration_group (s : string) : option (Z * string) :=
  '(v, s1) ← leadingInt 0 s;
  let pre := negb (String.length s1 =? String.length s)%nat in
  let '(f, scale, post, s2) :=
    match s1 with
    | String "." s' =>
        let '(f, scale, s2) := leadingFraction 0 (f64_of_Z 1) false s' in
        (f, scale, negb (String.length s2 =? String.length s')%nat, s2)
    | _ => (0, f64_of_Z 1, false, s1)
    end in
  if negb pre && negb post then None
  else
    let '(u, rest) := split_unit s2 in
    if str_empty u then None
    else
      unit ← unit_value u;
      if (v >? 2 ^ 63 / unit) then None
      else
        let v := v * unit in
        let v := if f >? 0 then v + ftrunc (fmul (f64_of_Z f) (fdiv (f64_of_Z unit) scale)) else v in
        if (v >? 2 ^ 63) then None else Some (v, rest).

(** The loop over the groups; every group consumes at least one byte. *)
Fixpoint duration_loop (fuel : nat) (d : Z) (s : string) : option Z :=
  match s, fuel with
  | EmptyString, _ => Some d
  | _, O => None
  | _, S fuel' =>
      '(v, rest) ← duration_group s;
      if (d + v >? 2 ^ 63) then None else duration_loop fuel' (d + v) rest
  end.

(** [time.ParseDuration(s)]. *)
Definition ParseDuration (s : string) : option Z :=
  let '(neg, s) := split_sign s in
  if String.eqb s "0" then Some 0
  else if str_empty s then None
  else
    d ← duration_loop (String.length s) 0 s;
    if neg then Some (- d)
    else if (d >? 2 ^ 63 - 1) then None else Some d.

Example ParseDuration_10m : ParseDuration "10m" = Some (10 * Minute).
Proof. reflexivity. Qed.
Example ParseDuration_mixed : ParseDuration "-1h1.5s20ms" = Some (- (Hour + 1520 * Millisecond)).
Proof. reflexivity. Qed.
Example ParseDuration_bad : ParseDuration "600" = None.
Proof. reflexivity. Qed.
Example Atoi_600 : Atoi "-600" = Some (-600).
Proof. reflexivity. Qed.

(** [strconv.Atoi] reads what [strconv.Itoa] prints. *)
Lemma digit_value_char (n : N) : (n < 10)%N -> digit_value (pretty_N_char n) = Some (Z.of_N n).
Proof. intros H. assert (n ∈ [0;1;2;3;4;5;6;7;8;9]%N) as Hin; [repeat (rewrite elem_of_cons); lia|].
  repeat (apply elem_of_cons in Hin as [->|Hin]; [reflexivity|]). by apply not_elem_of_nil in Hin. Qed.

Lemma digits_value_go (n : N) s : digits_value 0 (pretty_N_go n s) = digits_value (Z.of_N n) s.
Proof.
  revert s. induction (N.lt_wf_0 n) as [n _ IH]. intros s. destruct (decide (n = 0)%N) as [->|Hn].
  - by rewrite pretty_N_go_0.
  - rewrite pretty_N_go_step by lia. rewrite IH by (apply N.div_lt; lia). cbn [digits_value].
    rewrite digit_value_char by (apply N.mod_lt; lia). f_equal.
    rewrite (N.div_mod n 10) at 3 by lia. lia.
Qed.

Lemma Atoi_pretty n : 0 <= n < 2 ^ 63 -> Atoi (pretty n) = Some n.
Proof.
  intros Hn.
  assert (Hd : digits_value 0 (pretty n) = Some n /\ pretty n <> "").
  { destruct n as [|p|p]; [done| |lia].
    assert (Hv : digits_value 0 (pretty (Zpos p)) = Some (Zpos p)).
    { change (pretty (Zpos p)) with (pretty_N_go (Npos p) ""). by rewrite digits_value_go. }
    split; [done|]. intros He. rewrite He in Hv. done. }
  destruct Hd as [Hd Hne]. unfold Atoi. destruct (pretty n) as [|c s]; [done|]. cbn [split_sign].
  destruct (Ascii.eqb_spec c "-") as [->|]; [done|]. destruct (Ascii.eqb_spec c "+") as [->|]; [done|].
  rewrite Hd. cbn [mbind option_bind].
  destruct (Z.leb_spec (- 2 ^ 63) n); [|lia]. by destruct (Z.ltb_spec n (2 ^ 63)); [|lia].
Qed.
