(* ===== verification/GoText.v ===== *)
(** * Texts, as Go's library reads them

    [strings.TrimSpace] and [strconv.ParseFloat], which the policy controller uses
    on annotations. A text is its UTF-8 bytes. *)

From S2P Require Import Prelude Float64 GoTime.

Local Open Scope string_scope.
Local Open Scope list_scope.
Local Open Scope Z_scope.

(** ** [strings.TrimSpace] *)

Fixpoint of_bytes (l : list nat) : string :=
  match l with [] => "" | n :: l' => String (Ascii.ascii_of_nat n) (of_bytes l') end.

(** The code points with the White_Space property, in UTF-8. *)
Definition white_space : list string :=
  of_bytes <$> ([[9]; [10]; [11]; [12]; [13]; [32]; [194; 133]; [194; 160]; [225; 154; 128];
                 [226; 128; 128]; [226; 128; 129]; [226; 128; 130]; [226; 128; 131]; [226; 128; 132]; [226; 128; 133];
                 [226; 128; 134]; [226; 128; 135]; [226; 128; 136]; [226; 128; 137]; [226; 128; 138]; [226; 128; 168];
                 [226; 128; 169]; [226; 128; 175]; [226; 129; 159]; [227; 128; 128]]%nat : list (list nat)).

Fixpoint drop_prefix (pre s : string) : option string :=
  match pre, s with
  | EmptyString, _ => Some s
  | String c pre', String c' s' => if Ascii.eqb c c' then drop_prefix pre' s' else None
  | String _ _, EmptyString => None
  end.
Definition drop_any (pres : list string) (s : string) : option string :=
  head (omap (fun pre => drop_prefix pre s) pres).
Fixpoint trim_left (fuel : nat) (pres : list string) (s : string) : string :=
  match fuel with
  | O => s
  | S fuel' => match drop_any pres s with Some s' => trim_left fuel' pres s' | None => s end
  end.
Fixpoint reverse_onto (acc s : string) : string :=
  match s with EmptyString => acc | String c s' => reverse_onto (String c acc) s' end.
Definition reversed (s : string) : string := reverse_onto "" s.

(** Each code point dropped is at least a byte: the length is fuel enough. *)
Definition TrimSpace (s : string) : string :=
  let s := trim_left (String.length s) white_space s in
  reversed (trim_left (String.length s) (reversed <$> white_space) (reversed s)).

(** ** [strconv.ParseFloat(s, 64)] *)

Definition lower (c : Ascii.ascii) : Ascii.ascii :=
  let n := Ascii.nat_of_ascii c in
  if ((65 <=? n) && (n <=? 90))%nat then Ascii.ascii_of_nat (n + 32) else c.
Fixpoint lower_all (s : string) : string :=
  match s with EmptyString => "" | String c s' => String (lower c) (lower_all s') end.

Definition hex_value (c : Ascii.ascii) : option Z :=
  match digit_value c with
  | Some d => Some d
  | None =>
      let n := Z.of_nat (Ascii.nat_of_ascii (lower c)) in
      if (97 <=? n) && (n <=? 102) then Some (n - 87) else None
  end.

(** [func underscoreOK(s string) bool]: an underscore stands between digits, or
    between a base prefix and a digit. *)
Inductive Saw := SawStart | SawDigit | SawUnderscore | SawOther.
Fixpoint underscores_ok (hex : bool) (saw : Saw) (s : string) : bool :=
  match s with
  | EmptyString => match saw with SawUnderscore => false | _ => true end
  | String c s' =>
      if bool_decide (is_Some (if hex then hex_value c else digit_value c)) then underscores_ok hex SawDigit s'
      else if Ascii.eqb c "_" then
        match saw with SawDigit => underscores_ok hex SawUnderscore s' | _ => false end
      else match saw with SawUnderscore => false | _ => underscores_ok hex SawOther s' end
  end.
Definition underscoreOK (s : string) : bool :=
  match (split_sign s).2 with
  | String c0 (String c s') =>
      if Ascii.eqb c0 "0" && existsb (Ascii.eqb (lower c)) ["b"; "o"; "x"]%char
      then underscores_ok (Ascii.eqb (lower c) "x") SawDigit s'
      else underscores_ok false SawStart (String c0 (String c s'))
  | s' => underscores_ok false SawStart s'
  end.
Fixpoint strip_underscores (s : string) : string :=
  match s with
  | EmptyString => ""
  | String c s' => if Ascii.eqb c "_" then strip_underscores s' else String c (strip_underscores s')
  end.

(** Digits with at most one point: the value, the number of digits behind the
    point, whether there are digits, and the rest. *)
Fixpoint float_digits (hex : bool) (v frac : Z) (dot digits : bool) (s : string) : Z * Z * bool * string :=
  match s with
  | EmptyString => (v, frac, digits, "")
  | String c s' =>
      if Ascii.eqb c "." then if dot then (v, frac, digits, s) else float_digits hex v frac true digits s'
      else match (if hex then hex_value c else digit_value c) with
           | Some d => float_digits hex ((if hex then 16 else 10) * v + d) (if dot then frac + 1 else frac) dot true s'
           | None => (v, frac, digits, s)
           end
  end.

(** The exponent behind its letter: everything up to the end; from 10000 on it does
    not grow any more. *)
Fixpoint exponent_digits (e : Z) (s : string) : option Z :=
  match s with
  | EmptyString => Some e
  | String c s' =>
      match digit_value c with
      | Some d => exponent_digits (if e <? 10000 then 10 * e + d else e) s'
      | None => None
      end
  end.
Definition exponent (s : string) : option Z :=
  let '(neg, digits) := split_sign s in
  if str_empty digits then None
  else match exponent_digits 0 digits with Some e => Some (if neg : bool then - e else e) | None => None end.

(** The value nearest to [m * 10^e] and to [m * 2^e]. *)
Definition signed_zero_or (neg : bool) (m : Z) (x : positive -> f64) : f64 :=
  match m with Zpos p => x p | _ => S754_zero neg end.
Definition decimal_float (neg : bool) (m e : Z) : f64 :=
  signed_zero_or neg m (fun p =>
    if 0 <=? e then binary_normalize fprec femax ((if neg then -1 else 1) * m * 10 ^ e) 0 neg
    else match 10 ^ (- e) with
         | Zpos q => SFdiv fprec femax (S754_finite neg p 0) (S754_finite false q 0)
         | _ => S754_zero neg
         end).
Definition hex_float (neg : bool) (m e : Z) : f64 :=
  signed_zero_or neg m (fun _ => binary_normalize fprec femax ((if neg then -1 else 1) * m) e neg).

(** A text without underscores. *)
Definition read_float (s : string) : option f64 :=
  let '(neg, body) := split_sign s in
  let '(hex, body) :=
    match body with
    | String "0" (String c (String _ _ as rest)) => if Ascii.eqb (lower c) "x" then (true, rest) else (false, body)
    | _ => (false, body)
    end in
  let '(v, frac, digits, rest) := float_digits hex 0 0 false false body in
  if negb digits then None
  else
    let value (e : Z) := if hex : bool then hex_float neg v (e - 4 * frac) else decimal_float neg v (e - frac) in
    match rest with
    | EmptyString => if hex then None else Some (value 0)
    | String c rest' =>
        if Ascii.eqb (lower c) (if hex then "p" else "e")
        then match exponent rest' with Some e => Some (value e) | None => None end
        else None
    end.

(** [inf], [infinity], [nan] in any case. *)
Definition special_float (s : string) : option f64 :=
  let '(neg, body) := split_sign s in
  if String.eqb (lower_all body) "inf" || String.eqb (lower_all body) "infinity" then Some (S754_infinity neg)
  else if String.eqb (lower_all s) "nan" then Some S754_nan
  else None.

Fixpoint has_underscore (s : string) : bool :=
  match s with EmptyString => false | String c s' => Ascii.eqb c "_" || has_underscore s' end.

(** [None]: an error; a value out of range is one. *)
Definition ParseFloat (s : string) : option f64 :=
  match special_float s with
  | Some x => Some x
  | None =>
      if has_underscore s && negb (underscoreOK s) then None
      else match read_float (strip_underscores s) with
           | Some x => if is_inf x then None else Some x
           | None => None
           end
  end.

Example TrimSpace_both : TrimSpace (of_bytes [32; 9; 194; 160]%nat +:+ "a b" +:+ of_bytes [227; 128; 128; 10]%nat) = "a b".
Proof. by_eval. Qed.
Example ParseFloat_percent : ParseFloat "12.5" = Some (fdiv (f64_of_Z 25) (f64_of_Z 2)).
Proof. by_eval. Qed.
Example ParseFloat_exponent : ParseFloat "+1_0e-1" = Some (f64_of_Z 1).
Proof. by_eval. Qed.
Example ParseFloat_hex : ParseFloat "-0x1.8p1" = Some (f64_of_Z (-3)).
Proof. by_eval. Qed.
Example ParseFloat_bad : (ParseFloat "5%", ParseFloat "", ParseFloat "1e400", ParseFloat "_1") = (None, None, None, None).
Proof. by_eval. Qed.
