(* ===== verification/ApiTypes.v ===== *)
(** * API objects (api/v1alpha1/)

    The custom resources and the parts of the built-in Kubernetes objects the
    controllers read or write. Phases, statuses and strategies are strings, as in
    the source: a stored object can hold any value. A nil and an empty map read
    the same and are both the empty map; [metav1.Time] is the nanosecond of the
    time, [None] for the zero time; [*T] is [option T]. *)

From S2P Require Import Prelude Float64.

Local Open Scope string_scope.

Notation Time := (option Z).

(** [types.NamespacedName] as a map key: namespace, then name. *)
Notation Key := (string * string)%type.

(** The fields of [metav1.ObjectMeta] and [metav1.OwnerReference] in use. *)
Record OwnerReference := mkOwner {
  Owner_Kind : string;
  Owner_Name : string;
  Owner_UID : string;
  Owner_Controller : option bool
}.
Record ObjectMeta := mkMeta {
  Name : string;
  Namespace : string;
  UID : string;
  Generation : Z;
  Labels : gmap string string;
  Annotations : gmap string string;
  Finalizers : list string;
  DeletionTimestamp : Time;
  OwnerReferences : list OwnerReference
}.

(** [metav1.Condition]. *)
Record Condition := mkCondition {
  Cond_Type : string;
  Cond_Status : string;
  Cond_ObservedGeneration : Z;
  Cond_LastTransitionTime : Time;
  Cond_Reason : string;
  Cond_Message : string
}.

(** ** ReplicaBinding *)

Definition ReplicaBindingPhasePending : string := "Pending".
Definition ReplicaBindingPhaseAssigned : string := "Assigned".
Definition ReplicaBindingPhaseApplying : string := "Applying".
Definition ReplicaBindingPhaseRunning : string := "Running".
Definition ReplicaBindingPhaseFailed : string := "Failed".
Definition ReplicaBindingPhaseRescheduling : string := "Rescheduling".
Definition ReplicaBindingPhaseDeleting : string := "Deleting".

Record NamespacedObjectRef := mkRef { Ref_Name : string; Ref_Namespace : string }.

Record ReplicaBindingSpec := mkRBSpec {
  RBS_GlobalDeploymentRef : NamespacedObjectRef;
  RBS_ReplicaIndex : Z;
  TargetCluster : string;
  TargetNodeName : string;
  Reschedule : bool;
  RescheduleRequest : string
}.

Record RescheduleObservedLocation := mkObserved {
  Obs_ClusterId : string; Obs_NodeName : string; Obs_PodName : string
}.

Record ReplicaBindingRescheduleStatus := mkRescheduleStatus {
  LastHandledRequest : string;
  LastHandledTime : Time;
  ObservedLocation : RescheduleObservedLocation;
  LastResult : string;
  RS_Message : string;
  RS_LastError : string
}.

Record ReplicaBindingStatus := mkRBStatus {
  RB_Phase : string;
  LastError : string;
  LastTransitionTime : Time;
  RB_NodeName : string;
  RB_ClusterName : string;
  RB_Reschedule : ReplicaBindingRescheduleStatus
}.

Record ReplicaBinding := mkRB {
  RB_Meta : ObjectMeta; RB_Spec : ReplicaBindingSpec; RB_Status : ReplicaBindingStatus
}.

(** ** ReOrchestrationPlan *)

Definition PlanPhasePending : string := "Pending".
Definition PlanPhaseExecuting : string := "Executing".
Definition PlanPhaseSucceeded : string := "Succeeded".
Definition PlanPhaseFailed : string := "Failed".
Definition PlanPhasePartiallyFailed : string := "PartiallyFailed".
Definition PlanPhaseTerminating : string := "Terminating".

Definition MoveExecutionStatusPending : string := "Pending".
Definition MoveExecutionStatusInProgress : string := "InProgress".
Definition MoveExecutionStatusSucceeded : string := "Succeeded".
Definition MoveExecutionStatusFailed : string := "Failed".

(** Of [type OptimizationStrategy]. *)
Definition OptimizationStrategyPreview : string := "Preview".
Definition OptimizationStrategyConservative : string := "Conservative".
Definition OptimizationStrategyAggressive : string := "Aggressive".

Record MoveLocation := mkLocation {
  Loc_ClusterID : string; Loc_ClusterName : string; Loc_NodeName : string
}.

Record GoalHumanReadableSummary := mkReadableSummary {
  HR_Kind : string; HR_Unit : string;
  HR_From : option f64; HR_To : option f64; HR_Delta : option f64;
  HR_Detail : gmap string string
}.

Record GoalScoreSummary := mkGoalSummary {
  GS_Weight : option f64;
  GS_CurrentScore : option f64;
  GS_ExpectedScore : option f64;
  GS_EstimatedImprovementScore : option f64;
  GS_HumanReadable : option GoalHumanReadableSummary
}.

Record PlanSummary := mkPlanSummary {
  PolicyName : string;
  GoalScores : gmap string GoalScoreSummary;
  PS_EstimatedImprovementScore : option f64;
  PS_PodsToMove : option Z;
  PS_CurrentScore : option f64;
  PS_ExpectedScore : option f64
}.

Record PlanMove := mkPlanMove {
  PM_GlobalDeploymentRef : NamespacedObjectRef;
  PM_ReplicaIndex : Z;
  PM_Source : MoveLocation;
  PM_Destination : MoveLocation
}.

Record ReOrchestrationPlanSpec := mkPlanSpec { Spec_Summary : PlanSummary; Moves : list PlanMove }.

Record MoveStatus := mkMoveStatus {
  MS_GlobalDeploymentRef : NamespacedObjectRef;
  MS_ReplicaIndex : Z;
  MS_Status : string;
  MS_Message : string
}.

Record PlanExecutionSummary := mkExecutionSummary {
  TotalMoves : Z; SucceededMoves : Z; FailedMoves : Z; PendingMoves : Z
}.

Record ReOrchestrationPlanStatus := mkPlanStatus {
  Plan_Phase : string;
  Status_Summary : PlanExecutionSummary;
  StartTime : Time;
  CompletionTime : Time;
  MoveStatuses : list MoveStatus;
  Plan_Conditions : list Condition
}.

Record ReOrchestrationPlan := mkPlan {
  Plan_Meta : ObjectMeta; Plan_Spec : ReOrchestrationPlanSpec; Plan_Status : ReOrchestrationPlanStatus
}.

(** ** GlobalDeployment and Cluster, as far as modelled *)

(** [runtime.RawExtension]: the raw text of the template. *)
Record GlobalDeploymentSpec := mkGDSpec { Replicas : option Z; Template : string }.

Record GlobalDeploymentStatus := mkGDStatus {
  GD_Phase : string; GD_Running : Z; GD_Failed : Z; GD_Pending : Z;
  GD_UpdatedAt : Time; ObservedRevision : string
}.

Record GlobalDeployment := mkGD {
  GD_Meta : ObjectMeta; GD_Spec : GlobalDeploymentSpec; GD_Status : GlobalDeploymentStatus
}.

#[export] Instance owner_eq_dec : EqDecision OwnerReference.
Proof. solve_decision. Defined.
#[export] Instance meta_eq_dec : EqDecision ObjectMeta.
Proof. solve_decision. Defined.
#[export] Instance object_ref_eq_dec : EqDecision NamespacedObjectRef.
Proof. solve_decision. Defined.
#[export] Instance rb_spec_eq_dec : EqDecision ReplicaBindingSpec.
Proof. solve_decision. Defined.
#[export] Instance observed_eq_dec : EqDecision RescheduleObservedLocation.
Proof. solve_decision. Defined.
#[export] Instance reschedule_status_eq_dec : EqDecision ReplicaBindingRescheduleStatus.
Proof. solve_decision. Defined.
#[export] Instance rb_status_eq_dec : EqDecision ReplicaBindingStatus.
Proof. solve_decision. Defined.
#[export] Instance rb_eq_dec : EqDecision ReplicaBinding.
Proof. solve_decision. Defined.
#[export] Instance deployment_spec_eq_dec : EqDecision GlobalDeploymentSpec.
Proof. solve_decision. Defined.
#[export] Instance deployment_status_eq_dec : EqDecision GlobalDeploymentStatus.
Proof. solve_decision. Defined.
#[export] Instance deployment_eq_dec : EqDecision GlobalDeployment.
Proof. solve_decision. Defined.

Definition GlobalDeploymentPhasePending : string := "Pending".
Definition GlobalDeploymentPhaseProgressing : string := "Progressing".
Definition GlobalDeploymentPhaseRunning : string := "Running".
Definition GlobalDeploymentPhaseDegraded : string := "Degraded".
Definition GlobalDeploymentPhaseDeleting : string := "Deleting".

(** [resource.Quantity]: an exact number, in units of 10^-9, the finest scale of
    a quantity. *)
Notation Quantity := Z.

Definition ClusterPhaseImporting : string := "Importing".
Definition ClusterPhaseReady : string := "Ready".
Definition ClusterPhaseNotReady : string := "NotReady".
Definition ClusterPhaseFailed : string := "Failed".

Record ClusterSpec := mkClusterSpec { APIEndpoint : string; SecretRef : string }.
Record ResourceList := mkResourceList { RL_CPU : Quantity; RL_Memory : Quantity }.
Record Resources := mkResources {
  Capacity : ResourceList; Allocatable : ResourceList; NodeCount : Z; PodCount : Z
}.
Record NodeResources := mkNodeResources { NR_CPU : Quantity; NR_Memory : Quantity; NR_Pods : Quantity }.
Record NodeSummary := mkNodeSummary {
  NS_Name : string;
  NS_UID : string;
  NS_Ready : bool;
  NS_Allocatable : NodeResources;
  NS_Requested : NodeResources;
  NS_Free : NodeResources;
  NS_Labels : gmap string string
}.
Record ClusterStatus := mkClusterStatus {
  Cluster_Phase : string;
  Cluster_UpdatedAt : Time;
  LastProbeTime : Time;
  Cluster_Conditions : list Condition;
  Cluster_Resources : Resources;
  Cluster_Nodes : list NodeSummary
}.
Record Cluster := mkCluster {
  Cluster_Meta : ObjectMeta; Cluster_Spec : ClusterSpec; Cluster_Status : ClusterStatus
}.
(** [corev1.Secret]: its controllers and its data. *)
Record Secret := mkSecret { Secret_Owners : list OwnerReference; Secret_Data : gmap string string }.

(** ** Objects of the member clusters *)

(** A node selector requirement [key operator values]. *)
Record NodeSelectorRequirement := mkRequirement {
  Req_Key : string; Req_Operator : string; Req_Values : list string
}.
Record NodeAffinity := mkNodeAffinity {
  Required : option (list (list NodeSelectorRequirement));
  NodeAffinity_Other : string
}.
Record Affinity := mkAffinity { Aff_Node : option NodeAffinity; Aff_Other : string }.

(** [corev1.Volume]: whether it is a host path, and a claim. *)
Record Volume := mkVolume { Vol_HostPath : bool; Vol_PersistentVolumeClaim : bool }.

(** [appsv1.DeploymentSpec]: the fields the controllers read or set, and the rest;
    of the selector its match labels, of the containers their CPU and memory
    requests. *)
Record DeploymentSpec := mkDepSpec {
  Dep_Replicas : option Z;
  Dep_MatchLabels : option (gmap string string);
  Dep_TemplateLabels : gmap string string;
  Dep_Requests : list (option Quantity * option Quantity);
  Dep_Volumes : list Volume;
  Dep_Affinity : option Affinity;
  Dep_Other : string
}.
Record DeploymentStatus := mkDepStatus {
  AvailableReplicas : Z; Dep_StatusReplicas : Z; UpdatedReplicas : Z;
  Dep_Conditions : list (string * string)
}.
Record Deployment := mkDeployment {
  Dep_Name : string; Dep_Namespace : string; Dep_Labels : gmap string string;
  Dep_Finalizers : list string; Dep_Deleting : bool;
  Dep_Spec : DeploymentSpec; Dep_Status : DeploymentStatus
}.

(** [corev1.Pod]: labels, phase, node, conditions (type, status), the CPU and memory
    requests of its containers and init containers, and of its container statuses
    whether they are ready. *)
Record Pod := mkPod {
  Pod_Name : string; Pod_Labels : gmap string string; Pod_Phase : string;
  Pod_NodeName : string; Pod_Conditions : list (string * string);
  Pod_Requests : list (option Quantity * option Quantity);
  Pod_InitRequests : list (option Quantity * option Quantity);
  Pod_ContainersReady : list bool
}.

(** [corev1.Node]: of [corev1.ResourceList] the three resources in use, [None] for
    a missing entry. *)
Record NodeResourceList := mkNodeResourceList {
  NRL_CPU : option Quantity; NRL_Memory : option Quantity; NRL_Pods : option Quantity
}.
Record Node := mkNodeObject {
  Node_Name : string;
  Node_UID : string;
  Node_Labels : gmap string string;
  Node_Capacity : NodeResourceList;
  Node_Allocatable : NodeResourceList;
  Node_Conditions : list (string * string)
}.

(** ** OptimizationPolicy *)

Definition OptimizationRunModeOnce : string := "Once".
Definition OptimizationRunModePeriodic : string := "Periodic".

Definition OptimizationPolicyPhasePending : string := "Pending".
Definition OptimizationPolicyPhaseActive : string := "Active".
Definition OptimizationPolicyPhaseFailed : string := "Failed".
Definition OptimizationPolicyPhaseDisabled : string := "Disabled".

Record OptimizationGoal := mkOptimizationGoal {
  Goal_Type : string; Goal_Weight : f64; Goal_SourceCity : string; Goal_TopologyRef : string
}.

(** [metav1.LabelSelector]: required labels, and requirements. *)
Record LabelSelector := mkLabelSelector {
  MatchLabels : gmap string string; MatchExpressions : list NodeSelectorRequirement
}.

Record OptimizationPolicySpec := mkPolicySpec {
  Enabled : bool;
  TargetSelector : option LabelSelector;
  OptimizationGoals : list OptimizationGoal;
  RunMode : string;
  RebalancePoint : string;
  Strategy : string;
  ImprovementThresholdPercent : Z
}.

Record LocalObjectRef := mkLocalRef { LRef_Name : string; LRef_Namespace : string }.

Record CurrentReplicaLocation := mkReplicaLocation {
  CL_Name : string;
  CL_Namespace : string;
  CL_ReplicaIndex : Z;
  CL_ClusterId : string;
  CL_NodeName : string;
  CL_Source : string;
  Stable : bool;
  UnstableReason : string
}.

Record OptimizationPolicyStatus := mkPolicyStatus {
  OP_Phase : string;
  ObservedDeployments : Z;
  ObservedReplicas : Z;
  CurrentLayout : list CurrentReplicaLocation;
  StableCount : Z;
  UnstableCount : Z;
  UnstableReasonsCount : gmap string Z;
  LastEvaluationTime : Time;
  LatestPlanRef : option LocalObjectRef;
  OP_Conditions : list Condition
}.

Record OptimizationPolicy := mkPolicy {
  OP_Meta : ObjectMeta; OP_Spec : OptimizationPolicySpec; OP_Status : OptimizationPolicyStatus
}.

(** [coordinationv1.Lease]; its object name is its key. *)
Record Lease := mkLease {
  HolderIdentity : option string;
  LeaseDurationSeconds : option Z;
  AcquireTime : Time;
  RenewTime : Time
}.
