(* ===== verification/KubeApi.v ===== *)
(** * The Kubernetes API the controllers talk to

    The environment of the controllers, not code of the repository: the objects
    stored in the control cluster and in the member clusters, the documented
    effect of each request, and the errors a request can end with.

    A controller function is a function of type [M A]: it takes the state of the
    environment and returns the new one with a value or an error. Any request can
    fail for reasons outside the model (network, conflict, admission): [fault k]
    is the error of the [k]-th request, if it has one. Reads see the latest
    state, and nothing else runs during one call of a reconciler: interleavings
    with other writers are sequences of calls (the files named Race take calls apart
    into their requests). A merge patch computed against the object just read
    replaces the part of the object it is sent to. *)

From S2P Require Import Prelude OptErrors ApiTypes.

Local Open Scope string_scope.

Inductive api_error : Type :=
| NotFound
| AlreadyExists
| Conflict
| OptimizerError (e : opt_error)
| Wrapped (msg : string) (e : api_error)
| OtherError (msg : string).

(** The predicates see through [fmt.Errorf("msg: %w", err)]. *)
Fixpoint IsNotFound (e : api_error) : bool :=
  match e with NotFound => true | Wrapped _ e' => IsNotFound e' | _ => false end.
Fixpoint IsAlreadyExists (e : api_error) : bool :=
  match e with AlreadyExists => true | Wrapped _ e' => IsAlreadyExists e' | _ => false end.

(** A member cluster: its namespaces, its deployments and pods by namespace and
    name, and its nodes. *)
Record MemberCluster := mkMember {
  mc_namespaces : gset string;
  mc_deployments : gmap Key Deployment;
  mc_pods : gmap Key Pod;
  mc_nodes : gmap string Node
}.

(** What the policy controller works on: its objects, the data of the config maps,
    and of the reconciler its armed timers (the time a policy's timer fires) and
    its cached clients. *)
Record PolicyState := mkPolicyState {
  ps_policies : gmap Key OptimizationPolicy;
  ps_leases : gmap Key Lease;
  ps_configmaps : gmap Key (gmap string string);
  ps_timers : gmap Key Z;
  ps_clients : gmap string string
}.

(** The environment: control-cluster objects by namespace and name, member
    clusters by endpoint; of the reconcilers of bindings and deployments the cached
    clients (cluster to endpoint) and the scheduling cursors; the clock in
    nanoseconds and the number of events so far (requests, and loops over maps);
    the part of the policy controller; the clients of the cluster controller. *)
Record World := mkWorld {
  w_plans : gmap Key ReOrchestrationPlan;
  w_rbs : gmap Key ReplicaBinding;
  w_gds : gmap Key GlobalDeployment;
  w_clusters : gmap Key Cluster;
  w_secrets : gmap Key Secret;
  w_members : gmap string MemberCluster;
  w_clients : gmap string string;
  w_cursors : gmap string Z;
  w_clock : Z;
  w_requests : nat;
  w_policy : PolicyState;
  w_cluster_clients : gmap string string
}.

Definition w_policies (w : World) : gmap Key OptimizationPolicy := ps_policies (w_policy w).
Definition w_leases (w : World) : gmap Key Lease := ps_leases (w_policy w).
Definition w_configmaps (w : World) : gmap Key (gmap string string) := ps_configmaps (w_policy w).
Definition w_timers (w : World) : gmap Key Z := ps_timers (w_policy w).

(** Libraries the controllers call: the template decoder (the decoded part is
    kept on an error), the condition helper, the client configuration, the order
    in which a request lists the objects of a store, and the errors of the
    environment; label selectors; the decoding of a template into a
    [DeploymentSpec] (the decoded part is kept on an error) and into a
    [Deployment] ([None] on an error); the int64 readings of a quantity; the
    random suffixes and the object UIDs, by event number; and the errors that
    report an expired context. *)
Class KubeLib := {
  yaml_Unmarshal : string -> DeploymentSpec;
  yaml_fails : string -> bool;
  list_order : forall {A : Type}, nat -> gmap Key A -> list A;
  list_order_perm : forall {A : Type} k (m : gmap Key A), list_order k m ≡ₚ (map_to_list m).*2;
  SetStatusCondition : list Condition -> Condition -> list Condition;
  RESTConfigFromKubeConfig : string -> result api_error string;
  NewForConfig : string -> result api_error string;
  error_text : api_error -> string;
  fault : nat -> option api_error;
  LabelSelectorAsSelector : LabelSelector -> result api_error (gmap string string -> bool);
  json_DeploymentSpec : string -> DeploymentSpec;
  json_Deployment : string -> option DeploymentSpec;
  MilliValue : Quantity -> Z;
  Value : Quantity -> Z;
  rand_String : nat -> string;
  new_uid : nat -> string;
  request_timed_out : api_error -> bool
}.

(** ** The monad *)

Definition M (A : Type) : Type := World -> World * result api_error A.

#[export] Instance M_ret : MRet M := fun A a w => (w, Ok a).
#[export] Instance M_bind : MBind M := fun A B f m w =>
  match m w with
  | (w', Ok a) => f a w'
  | (w', Err e) => (w', Err e)
  end.

(** [return ..., err]. *)
Definition throw {A} (e : api_error) : M A := fun w => (w, Err e).

(** [v, err := call]: the error is a value the code looks at. *)
Definition attempt {A} (m : M A) : M (result api_error A) := fun w =>
  let '(w', r) := m w in (w', Ok r).

(** [_ = call]. *)
Definition ignore {A} (m : M A) : M unit := fun w => ((m w).1, Ok tt).

(** [return nil, fmt.Errorf("msg: %w", err)]. *)
Definition wrapping {A} (msg : string) (m : M A) : M A :=
  a ← attempt m; match a with Ok v => mret v | Err e => throw (Wrapped msg e) end.

Definition now : M Z := fun w => (w, Ok (w_clock w)).
Definition modify (f : World -> World) : M unit := fun w => (f w, Ok tt).

(** [for i := range l { body }] whose body ends in [continue] or runs through. *)
Fixpoint for_each {A} (f : A -> M unit) (l : list A) : M unit :=
  match l with
  | [] => mret tt
  | a :: l' => f a ≫= fun _ => for_each f l'
  end.

(** [ctrl.Result]: nanoseconds until the next call, 0 for none. *)
Record Result := mkResult { RequeueAfter : Z }.
Definition Done : Result := mkResult 0.

(** [return ctrl.Result{}, client.IgnoreNotFound(err)]. *)
Definition ignore_not_found {A} (a : A) (e : api_error) : M A :=
  if IsNotFound e then mret a else throw e.

(** Field updates. *)
Definition set_plans (f : gmap Key ReOrchestrationPlan -> gmap Key ReOrchestrationPlan) (w : World) : World :=
  mkWorld (f (w_plans w)) (w_rbs w) (w_gds w) (w_clusters w) (w_secrets w) (w_members w) (w_clients w) (w_cursors w)
    (w_clock w) (w_requests w) (w_policy w) (w_cluster_clients w).
Definition set_rbs (f : gmap Key ReplicaBinding -> gmap Key ReplicaBinding) (w : World) : World :=
  mkWorld (w_plans w) (f (w_rbs w)) (w_gds w) (w_clusters w) (w_secrets w) (w_members w) (w_clients w) (w_cursors w)
    (w_clock w) (w_requests w) (w_policy w) (w_cluster_clients w).
Definition set_members (f : gmap string MemberCluster -> gmap string MemberCluster) (w : World) : World :=
  mkWorld (w_plans w) (w_rbs w) (w_gds w) (w_clusters w) (w_secrets w) (f (w_members w)) (w_clients w) (w_cursors w)
    (w_clock w) (w_requests w) (w_policy w) (w_cluster_clients w).
Definition set_clients (f : gmap string string -> gmap string string) (w : World) : World :=
  mkWorld (w_plans w) (w_rbs w) (w_gds w) (w_clusters w) (w_secrets w) (w_members w) (f (w_clients w)) (w_cursors w)
    (w_clock w) (w_requests w) (w_policy w) (w_cluster_clients w).
Definition set_gds (f : gmap Key GlobalDeployment -> gmap Key GlobalDeployment) (w : World) : World :=
  mkWorld (w_plans w) (w_rbs w) (f (w_gds w)) (w_clusters w) (w_secrets w) (w_members w) (w_clients w) (w_cursors w)
    (w_clock w) (w_requests w) (w_policy w) (w_cluster_clients w).
Definition set_cursors (f : gmap string Z -> gmap string Z) (w : World) : World :=
  mkWorld (w_plans w) (w_rbs w) (w_gds w) (w_clusters w) (w_secrets w) (w_members w) (w_clients w) (f (w_cursors w))
    (w_clock w) (w_requests w) (w_policy w) (w_cluster_clients w).
Definition set_clusters (f : gmap Key Cluster -> gmap Key Cluster) (w : World) : World :=
  mkWorld (w_plans w) (w_rbs w) (w_gds w) (f (w_clusters w)) (w_secrets w) (w_members w) (w_clients w) (w_cursors w)
    (w_clock w) (w_requests w) (w_policy w) (w_cluster_clients w).
Definition set_secrets (f : gmap Key Secret -> gmap Key Secret) (w : World) : World :=
  mkWorld (w_plans w) (w_rbs w) (w_gds w) (w_clusters w) (f (w_secrets w)) (w_members w) (w_clients w) (w_cursors w)
    (w_clock w) (w_requests w) (w_policy w) (w_cluster_clients w).
Definition set_policy (f : PolicyState -> PolicyState) (w : World) : World :=
  mkWorld (w_plans w) (w_rbs w) (w_gds w) (w_clusters w) (w_secrets w) (w_members w) (w_clients w) (w_cursors w)
    (w_clock w) (w_requests w) (f (w_policy w)) (w_cluster_clients w).
Definition set_cluster_clients (f : gmap string string -> gmap string string) (w : World) : World :=
  mkWorld (w_plans w) (w_rbs w) (w_gds w) (w_clusters w) (w_secrets w) (w_members w) (w_clients w) (w_cursors w)
    (w_clock w) (w_requests w) (w_policy w) (f (w_cluster_clients w)).
Definition set_policies (f : gmap Key OptimizationPolicy -> gmap Key OptimizationPolicy) : World -> World :=
  set_policy (fun s => mkPolicyState (f (ps_policies s)) (ps_leases s) (ps_configmaps s) (ps_timers s) (ps_clients s)).
Definition set_leases (f : gmap Key Lease -> gmap Key Lease) : World -> World :=
  set_policy (fun s => mkPolicyState (ps_policies s) (f (ps_leases s)) (ps_configmaps s) (ps_timers s) (ps_clients s)).
Definition set_timers (f : gmap Key Z -> gmap Key Z) : World -> World :=
  set_policy (fun s => mkPolicyState (ps_policies s) (ps_leases s) (ps_configmaps s) (f (ps_timers s)) (ps_clients s)).
Definition set_policy_clients (f : gmap string string -> gmap string string) : World -> World :=
  set_policy (fun s => mkPolicyState (ps_policies s) (ps_leases s) (ps_configmaps s) (ps_timers s) (f (ps_clients s))).
Definition set_clock (t : Z) (w : World) : World :=
  mkWorld (w_plans w) (w_rbs w) (w_gds w) (w_clusters w) (w_secrets w) (w_members w) (w_clients w) (w_cursors w)
    t (w_requests w) (w_policy w) (w_cluster_clients w).
Definition tick (w : World) : World :=
  mkWorld (w_plans w) (w_rbs w) (w_gds w) (w_clusters w) (w_secrets w) (w_members w) (w_clients w) (w_cursors w)
    (w_clock w) (S (w_requests w)) (w_policy w) (w_cluster_clients w).

Section requests.
Context {KUBE : KubeLib}.

(** One request: it fails with its fault or takes effect. *)
Definition request {A} (f : World -> World * result api_error A) : M A := fun w =>
  match fault (w_requests w) with
  | Some e => (tick w, Err e)
  | None => f (tick w)
  end.

(** [Get] of an object of the store [sel]. *)
Definition get_object {A} (sel : World -> gmap Key A) (k : Key) : M A :=
  request (fun w => (w, require (sel w !! k) NotFound)).

(** [List], in a namespace or everywhere. *)
Definition list_objects {A} (sel : World -> gmap Key A) (within : Key -> bool) : M (list A) :=
  request (fun w => (w, Ok (list_order (w_requests w) (filter (fun e => within e.1 = true) (sel w))))).
Definition in_namespace (ns : string) (k : Key) : bool := String.eqb k.1 ns.

(** [Status().Patch]: the status of the stored object is replaced. *)
Definition patch_plan_status (plan : ReOrchestrationPlan) : M unit :=
  request (fun w =>
    let k := (Namespace (Plan_Meta plan), Name (Plan_Meta plan)) in
    match w_plans w !! k with
    | None => (w, Err NotFound)
    | Some old => (set_plans <[k := mkPlan (Plan_Meta old) (Plan_Spec old) (Plan_Status plan)]> w, Ok tt)
    end).

Definition patch_rb_status (rb : ReplicaBinding) : M unit :=
  request (fun w =>
    let k := (Namespace (RB_Meta rb), Name (RB_Meta rb)) in
    match w_rbs w !! k with
    | None => (w, Err NotFound)
    | Some old => (set_rbs <[k := mkRB (RB_Meta old) (RB_Spec old) (RB_Status rb)]> w, Ok tt)
    end).

(** [Patch] of the object: metadata and spec are replaced, the status subresource
    is not; an object under deletion whose last finalizer goes is removed. *)
Definition patch_rb (rb : ReplicaBinding) : M unit :=
  request (fun w =>
    let k := (Namespace (RB_Meta rb), Name (RB_Meta rb)) in
    match w_rbs w !! k with
    | None => (w, Err NotFound)
    | Some old =>
        match DeletionTimestamp (RB_Meta rb), Finalizers (RB_Meta rb) with
        | Some _, [] => (set_rbs (delete k) w, Ok tt)
        | _, _ => (set_rbs <[k := mkRB (RB_Meta rb) (RB_Spec rb) (RB_Status old)]> w, Ok tt)
        end
    end).

(** [Create]: the status subresource is not written. *)
Definition empty_rb_status : ReplicaBindingStatus :=
  mkRBStatus "" "" None "" "" (mkRescheduleStatus "" None (mkObserved "" "" "") "" "" "").
Definition create_rb (rb : ReplicaBinding) : M unit :=
  request (fun w =>
    let k := (Namespace (RB_Meta rb), Name (RB_Meta rb)) in
    match w_rbs w !! k with
    | Some _ => (w, Err AlreadyExists)
    | None => (set_rbs <[k := mkRB (RB_Meta rb) (RB_Spec rb) empty_rb_status]> w, Ok tt)
    end).

(** [Update] and [Status().Update] of an object as it was read: the same effect as
    the patches; a stale object is a fault. *)
Definition update_rb : ReplicaBinding -> M unit := patch_rb.
Definition update_rb_status : ReplicaBinding -> M unit := patch_rb_status.

(** [Delete]: an object with finalizers is marked. *)
Definition mark_rb_deleting (t : Z) (rb : ReplicaBinding) : ReplicaBinding :=
  let m := RB_Meta rb in
  mkRB (mkMeta (Name m) (Namespace m) (UID m) (Generation m) (Labels m) (Annotations m) (Finalizers m)
          (match DeletionTimestamp m with None => Some t | d => d end) (OwnerReferences m)) (RB_Spec rb) (RB_Status rb).
Definition delete_rb (k : Key) : M unit :=
  request (fun w =>
    match w_rbs w !! k with
    | None => (w, Err NotFound)
    | Some rb =>
        match Finalizers (RB_Meta rb) with
        | [] => (set_rbs (delete k) w, Ok tt)
        | _ => (set_rbs <[k := mark_rb_deleting (w_clock w) rb]> w, Ok tt)
        end
    end).

Definition patch_gd_status (gd : GlobalDeployment) : M unit :=
  request (fun w =>
    let k := (Namespace (GD_Meta gd), Name (GD_Meta gd)) in
    match w_gds w !! k with
    | None => (w, Err NotFound)
    | Some old => (set_gds <[k := mkGD (GD_Meta old) (GD_Spec old) (GD_Status gd)]> w, Ok tt)
    end).

Definition patch_gd (gd : GlobalDeployment) : M unit :=
  request (fun w =>
    let k := (Namespace (GD_Meta gd), Name (GD_Meta gd)) in
    match w_gds w !! k with
    | None => (w, Err NotFound)
    | Some old =>
        match DeletionTimestamp (GD_Meta gd), Finalizers (GD_Meta gd) with
        | Some _, [] => (set_gds (delete k) w, Ok tt)
        | _, _ => (set_gds <[k := mkGD (GD_Meta gd) (GD_Spec gd) (GD_Status old)]> w, Ok tt)
        end
    end).

(** [List] of the objects a selector chooses. *)
Definition list_selected {A} (sel : World -> gmap Key A) (chosen : A -> bool) : M (list A) :=
  request (fun w => (w, Ok (List.filter chosen (list_order (w_requests w) (sel w))))).

(** [Create] of a plan: the status subresource is not written; the object's UID is
    the server's. *)
Definition empty_plan_status : ReOrchestrationPlanStatus :=
  mkPlanStatus "" (mkExecutionSummary 0 0 0 0) None None [] [].
Definition created_meta (uid : string) (m : ObjectMeta) : ObjectMeta :=
  mkMeta (Name m) (Namespace m) uid 1 (Labels m) (Annotations m) (Finalizers m) (DeletionTimestamp m)
    (OwnerReferences m).
Definition create_plan (p : ReOrchestrationPlan) : M unit :=
  request (fun w =>
    let k := (Namespace (Plan_Meta p), Name (Plan_Meta p)) in
    match w_plans w !! k with
    | Some _ => (w, Err AlreadyExists)
    | None =>
        (set_plans <[k := mkPlan (created_meta (new_uid (w_requests w)) (Plan_Meta p)) (Plan_Spec p) empty_plan_status]> w,
         Ok tt)
    end).

(** [Status().Patch] against an empty status: of a status with a phase and
    conditions, these two go into the stored status. *)
Definition merge_plan_status (phase : string) (conds : list Condition) (st : ReOrchestrationPlanStatus)
    : ReOrchestrationPlanStatus :=
  mkPlanStatus phase (Status_Summary st) (StartTime st) (CompletionTime st) (MoveStatuses st)
    (match conds with [] => Plan_Conditions st | _ => conds end).
Definition patch_new_plan_status (k : Key) (phase : string) (conds : list Condition) : M unit :=
  request (fun w =>
    match w_plans w !! k with
    | None => (w, Err NotFound)
    | Some old =>
        (set_plans <[k := mkPlan (Plan_Meta old) (Plan_Spec old) (merge_plan_status phase conds (Plan_Status old))]> w,
         Ok tt)
    end).

(** [Status().Patch] of a policy: the fields that differ from the copy made before,
    as an update of the stored status. *)
Definition patch_policy_status (k : Key) (f : OptimizationPolicyStatus -> OptimizationPolicyStatus) : M unit :=
  request (fun w =>
    match w_policies w !! k with
    | None => (w, Err NotFound)
    | Some old => (set_policies <[k := mkPolicy (OP_Meta old) (OP_Spec old) (f (OP_Status old))]> w, Ok tt)
    end).
(** [Status().Update] of a policy as it was read: the whole status. *)
Definition update_policy_status (k : Key) (st : OptimizationPolicyStatus) : M unit :=
  patch_policy_status k (fun _ => st).

Definition create_lease (k : Key) (l : Lease) : M unit :=
  request (fun w =>
    match w_leases w !! k with
    | Some _ => (w, Err AlreadyExists)
    | None => (set_leases <[k := l]> w, Ok tt)
    end).
Definition patch_lease (k : Key) (l : Lease) : M unit :=
  request (fun w =>
    match w_leases w !! k with
    | None => (w, Err NotFound)
    | Some _ => (set_leases <[k := l]> w, Ok tt)
    end).

(** [Status().Update] of a cluster. *)
Definition update_cluster_status (c : Cluster) : M unit :=
  request (fun w =>
    let k := (Namespace (Cluster_Meta c), Name (Cluster_Meta c)) in
    match w_clusters w !! k with
    | None => (w, Err NotFound)
    | Some old => (set_clusters <[k := mkCluster (Cluster_Meta old) (Cluster_Spec old) (Cluster_Status c)]> w, Ok tt)
    end).

(** ** Requests to a member cluster *)

(** A request to the API server behind a client. *)
Definition member_request {A} (cs : string)
    (f : MemberCluster -> MemberCluster * result api_error A) : M A :=
  request (fun w =>
    match w_members w !! cs with
    | None => (w, Err (OtherError "connection refused"))
    | Some mc => let '(mc', r) := f mc in (set_members <[cs := mc']> w, r)
    end).

(** [Deployments(ns).Get], [.Create], [.Delete]: a deleted deployment with
    finalizers stays until they are gone. *)
Definition deployment_get (cs ns name : string) : M Deployment :=
  member_request cs (fun mc => (mc, require (mc_deployments mc !! (ns, name)) NotFound)).

Definition with_deployments (mc : MemberCluster) (deps : gmap Key Deployment) : MemberCluster :=
  mkMember (mc_namespaces mc) deps (mc_pods mc) (mc_nodes mc).

Definition deployment_create (cs ns : string) (dep : Deployment) : M unit :=
  member_request cs (fun mc =>
    if decide (ns ∈ mc_namespaces mc) then
      match mc_deployments mc !! (ns, Dep_Name dep) with
      | Some _ => (mc, Err AlreadyExists)
      | None => (with_deployments mc (<[(ns, Dep_Name dep) := dep]> (mc_deployments mc)), Ok tt)
      end
    else (mc, Err NotFound)).

Definition mark_deleting (dep : Deployment) : Deployment :=
  mkDeployment (Dep_Name dep) (Dep_Namespace dep) (Dep_Labels dep) (Dep_Finalizers dep) true
    (Dep_Spec dep) (Dep_Status dep).

Definition deployment_delete (cs ns name : string) : M unit :=
  member_request cs (fun mc =>
    match mc_deployments mc !! (ns, name) with
    | None => (mc, Err NotFound)
    | Some dep =>
        match Dep_Finalizers dep with
        | [] => (with_deployments mc (delete (ns, name) (mc_deployments mc)), Ok tt)
        | _ => (with_deployments mc (<[(ns, name) := mark_deleting dep]> (mc_deployments mc)), Ok tt)
        end
    end).

Definition namespace_get (cs ns : string) : M unit :=
  member_request cs (fun mc =>
    (mc, if decide (ns ∈ mc_namespaces mc) then Ok tt else Err NotFound)).

Definition namespace_create (cs ns : string) : M unit :=
  member_request cs (fun mc =>
    if decide (ns ∈ mc_namespaces mc) then (mc, Err AlreadyExists)
    else (mkMember ({[ns]} ∪ mc_namespaces mc) (mc_deployments mc) (mc_pods mc) (mc_nodes mc), Ok tt)).

(** [Pods(ns).List] with the selector [key=value]; the order is the server's. *)
Definition pods_list (cs ns key value : string) : M (list Pod) :=
  member_request cs (fun mc =>
    (mc, Ok (omap (fun e => if String.eqb e.1.1 ns && bool_decide (Pod_Labels e.2 !! key = Some value)
                            then Some e.2 else None) (map_to_list (mc_pods mc))))).

(** [Pods(ns).List] with a selector that joins [key=value] for every label of a map;
    the empty selector chooses every pod. *)
Definition pods_matching (cs ns : string) (labels : gmap string string) : M (list Pod) :=
  member_request cs (fun mc =>
    (mc, Ok (omap (fun e => if String.eqb e.1.1 ns && bool_decide (labels ⊆ Pod_Labels e.2)
                            then Some e.2 else None) (map_to_list (mc_pods mc))))).

(** [Pods("").List], [Nodes().Get], [Nodes().List], [Discovery().ServerVersion]. *)
Definition all_pods_list (cs : string) : M (list Pod) :=
  member_request cs (fun mc => (mc, Ok (map_to_list (mc_pods mc)).*2)).
Definition node_get (cs name : string) : M Node :=
  member_request cs (fun mc => (mc, require (mc_nodes mc !! name) NotFound)).
Definition nodes_list (cs : string) : M (list Node) :=
  member_request cs (fun mc => (mc, Ok (map_to_list (mc_nodes mc)).*2)).
Definition server_version (cs : string) : M unit := member_request cs (fun mc => (mc, Ok tt)).
End requests.

(** The number of a loop over a map: the order of its iteration. *)
Definition loop_number : M nat := fun w => (tick w, Ok (w_requests w)).

(** [client.MergeFrom(read)]: the patch holds the fields that changed, and replaces
    these in the stored object; it names no resource version. *)
Definition merge_field {A} `{EqDecision A} (read new stored : A) : A := if decide (read = new) then stored else new.

(** The key of a binding; stored bindings sit under their key, and a binding under
    deletion still has a finalizer. *)
Definition rb_key (rb : ReplicaBinding) : Key := (Namespace (RB_Meta rb), Name (RB_Meta rb)).
Definition rbs_ok (rbs : gmap Key ReplicaBinding) : Prop :=
  map_Forall (fun k rb => rb_key rb = k /\ (DeletionTimestamp (RB_Meta rb) = None \/ Finalizers (RB_Meta rb) <> []))
    rbs.

(** ** Lemmas *)

Lemma merge_field_same {A} `{EqDecision A} (read new : A) : merge_field read new read = new.
Proof. unfold merge_field. by destruct (decide (read = new)). Qed.
Lemma merge_field_changed {A} `{EqDecision A} (read new stored : A) : read <> new -> merge_field read new stored = new.
Proof. intros H. unfold merge_field. by rewrite decide_False. Qed.

Lemma bind_run {A B} (m : M A) (f : A -> M B) w :
  (m ≫= f) w = match m w with (w', Ok a) => f a w' | (w', Err e) => (w', Err e) end.
Proof. done. Qed.

Lemma bind_run_Ok {A B} (m : M A) (f : A -> M B) w w' b :
  (m ≫= f) w = (w', Ok b) -> exists w1 a, m w = (w1, Ok a) /\ f a w1 = (w', Ok b).
Proof. rewrite bind_run. destruct (m w) as [w1 [a|e]]; [|done]. by exists w1, a. Qed.

Lemma run_result {A} (m : M A) w r : (m w).2 = r -> m w = ((m w).1, r).
Proof. intros <-. by destruct (m w). Qed.

(** What a computation leaves alone: [proj] of the environment. *)
Definition preserves {A T} (proj : World -> T) (m : M A) : Prop := forall w, proj (m w).1 = proj w.

Section preserves.
Context {T : Type} (proj : World -> T).

Lemma preserves_ret {A} (a : A) : preserves proj (mret a).
Proof. done. Qed.
Lemma preserves_throw {A} e : preserves proj (throw (A:=A) e).
Proof. done. Qed.
Lemma preserves_now : preserves proj now.
Proof. done. Qed.
Lemma preserves_bind {A B} (m : M A) (f : A -> M B) :
  preserves proj m -> (forall a, preserves proj (f a)) -> preserves proj (m ≫= f).
Proof.
  intros Hm Hf w. rewrite bind_run. specialize (Hm w). destruct (m w) as [w' [a|e]]; simpl in *; [|done].
  by rewrite Hf.
Qed.
Lemma preserves_attempt {A} (m : M A) : preserves proj m -> preserves proj (attempt m).
Proof. intros Hm w. unfold attempt. specialize (Hm w). by destruct (m w). Qed.
Lemma preserves_ignore {A} (m : M A) : preserves proj m -> preserves proj (ignore m).
Proof. intros Hm w. apply Hm. Qed.
Lemma preserves_ignore_not_found {A} (a : A) e : preserves proj (ignore_not_found a e).
Proof. unfold ignore_not_found. by destruct (IsNotFound e). Qed.
End preserves.

Section request_lemmas.
Context {KUBE : KubeLib} {T : Type} (proj : World -> T).
Hypothesis Htick : forall w, proj (tick w) = proj w.

Lemma preserves_request {A} (f : World -> World * result api_error A) :
  preserves proj f -> preserves proj (request f).
Proof. intros Hf w. unfold request. destruct (fault _); simpl; [apply Htick|]. by rewrite (Hf (tick w)). Qed.

Lemma preserves_get_object {A} (sel : World -> gmap Key A) k : preserves proj (get_object sel k).
Proof. apply preserves_request. by intros w. Qed.

Lemma preserves_patch_plan_status plan :
  (forall f w, proj (set_plans f w) = proj w) -> preserves proj (patch_plan_status plan).
Proof. intros H. apply preserves_request. intros w. simpl. destruct (w_plans w !! _); simpl; auto. Qed.

Lemma preserves_patch_rb_status rb :
  (forall f w, proj (set_rbs f w) = proj w) -> preserves proj (patch_rb_status rb).
Proof. intros H. apply preserves_request. intros w. simpl. destruct (w_rbs w !! _); simpl; auto. Qed.

Lemma preserves_patch_rb rb :
  (forall f w, proj (set_rbs f w) = proj w) -> preserves proj (patch_rb rb).
Proof.
  intros H. apply preserves_request. intros w. simpl. destruct (w_rbs w !! _); [|done].
  destruct (DeletionTimestamp (RB_Meta rb)), (Finalizers (RB_Meta rb)); simpl; auto.
Qed.

Lemma preserves_list_objects {A} (sel : World -> gmap Key A) within : preserves proj (list_objects sel within).
Proof. apply preserves_request. by intros w. Qed.

Lemma preserves_create_rb rb : (forall f w, proj (set_rbs f w) = proj w) -> preserves proj (create_rb rb).
Proof. intros H. apply preserves_request. intros w. simpl. destruct (w_rbs w !! _); simpl; auto. Qed.

Lemma preserves_delete_rb k : (forall f w, proj (set_rbs f w) = proj w) -> preserves proj (delete_rb k).
Proof.
  intros H. apply preserves_request. intros w. simpl. destruct (w_rbs w !! k); [|done].
  destruct (Finalizers _); simpl; auto.
Qed.

Lemma preserves_patch_gd_status gd : (forall f w, proj (set_gds f w) = proj w) -> preserves proj (patch_gd_status gd).
Proof. intros H. apply preserves_request. intros w. simpl. destruct (w_gds w !! _); simpl; auto. Qed.

Lemma preserves_patch_gd gd : (forall f w, proj (set_gds f w) = proj w) -> preserves proj (patch_gd gd).
Proof.
  intros H. apply preserves_request. intros w. simpl. destruct (w_gds w !! _); [|done].
  destruct (DeletionTimestamp (GD_Meta gd)), (Finalizers (GD_Meta gd)); simpl; auto.
Qed.

Lemma preserves_list_selected {A} (sel : World -> gmap Key A) chosen : preserves proj (list_selected sel chosen).
Proof. apply preserves_request. by intros w. Qed.

Lemma preserves_create_plan p : (forall f w, proj (set_plans f w) = proj w) -> preserves proj (create_plan p).
Proof. intros H. apply preserves_request. intros w. simpl. destruct (w_plans w !! _); simpl; auto. Qed.

Lemma preserves_patch_new_plan_status k phase conds :
  (forall f w, proj (set_plans f w) = proj w) -> preserves proj (patch_new_plan_status k phase conds).
Proof. intros H. apply preserves_request. intros w. simpl. destruct (w_plans w !! _); simpl; auto. Qed.

Lemma preserves_patch_policy_status k f :
  (forall f w, proj (set_policies f w) = proj w) -> preserves proj (patch_policy_status k f).
Proof. intros H. apply preserves_request. intros w. simpl. destruct (w_policies w !! _); simpl; auto. Qed.

Lemma preserves_create_lease k l :
  (forall w, proj (set_leases <[k := l]> w) = proj w) -> preserves proj (create_lease k l).
Proof. intros H. apply preserves_request. intros w. simpl. destruct (w_leases w !! _); simpl; auto. Qed.

Lemma preserves_patch_lease k l :
  (forall w, proj (set_leases <[k := l]> w) = proj w) -> preserves proj (patch_lease k l).
Proof. intros H. apply preserves_request. intros w. simpl. destruct (w_leases w !! _); simpl; auto. Qed.

Lemma preserves_update_cluster_status c :
  (forall f w, proj (set_clusters f w) = proj w) -> preserves proj (update_cluster_status c).
Proof. intros H. apply preserves_request. intros w. simpl. destruct (w_clusters w !! _); simpl; auto. Qed.

Lemma preserves_loop_number : preserves proj loop_number.
Proof. intros w. apply Htick. Qed.

(** Requests that only read a member cluster. *)
Lemma preserves_member_read {A} cs (f : MemberCluster -> result api_error A) :
  (forall w, proj (set_members (fun m => m) w) = proj w) -> preserves proj (member_request cs (fun mc => (mc, f mc))).
Proof.
  intros H. apply preserves_request. intros w. destruct (w_members w !! cs) as [mc|] eqn:Hmc; [|done]. cbn.
  rewrite <- (H w). f_equal. unfold set_members. by rewrite insert_id.
Qed.

Lemma preserves_member_request {A} cs (f : MemberCluster -> MemberCluster * result api_error A) :
  (forall f w, proj (set_members f w) = proj w) -> preserves proj (member_request cs f).
Proof.
  intros H. apply preserves_request. intros w. destruct (w_members w !! cs); [|done].
  destruct (f m); simpl; auto.
Qed.
End request_lemmas.

#[export] Hint Resolve preserves_ret preserves_throw preserves_now preserves_bind preserves_attempt
  preserves_ignore preserves_ignore_not_found preserves_request preserves_get_object
  preserves_patch_plan_status preserves_patch_rb_status preserves_patch_rb preserves_list_objects preserves_create_rb
  preserves_delete_rb preserves_patch_gd_status preserves_patch_gd preserves_member_request : go.

(** A handler whose requests all leave a projection alone: its case analyses and
    binds, then the lemmas above with the assumptions on the projection. *)
Ltac quiet_one :=
  match goal with
  | |- preserves _ (mbind _ _) => apply preserves_bind; [|intros ?]
  | |- preserves _ (match ?x with _ => _ end) => destruct x
  | |- preserves _ (let _ := _ in _) => cbv zeta
  | |- preserves _ (attempt _) => apply preserves_attempt
  | |- preserves _ (ignore _) => apply preserves_ignore
  | |- preserves _ (mret _) => apply preserves_ret
  | |- preserves _ (throw _) => apply preserves_throw
  | |- preserves _ now => apply preserves_now
  | |- preserves _ (ignore_not_found _ _) => apply preserves_ignore_not_found
  | |- preserves _ (get_object _ _) => apply preserves_get_object
  | |- preserves _ (list_objects _ _) => apply preserves_list_objects
  | |- preserves _ (patch_plan_status _) => apply preserves_patch_plan_status
  | |- preserves _ (patch_rb_status _) => apply preserves_patch_rb_status
  | |- preserves _ (patch_rb _) => apply preserves_patch_rb
  | |- preserves _ (create_rb _) => apply preserves_create_rb
  | |- preserves _ (delete_rb _) => apply preserves_delete_rb
  | |- preserves _ (patch_gd_status _) => apply preserves_patch_gd_status
  | |- preserves _ (patch_gd _) => apply preserves_patch_gd
  | |- preserves _ (member_request _ _) => apply preserves_member_request
  | |- preserves _ (list_selected _ _) => apply preserves_list_selected
  | |- preserves _ (create_plan _) => apply preserves_create_plan
  | |- preserves _ (patch_new_plan_status _ _ _) => apply preserves_patch_new_plan_status
  | |- preserves _ (patch_policy_status _ _) => apply preserves_patch_policy_status
  | |- preserves _ (create_lease _ _) => apply preserves_create_lease
  | |- preserves _ (patch_lease _ _) => apply preserves_patch_lease
  | |- preserves _ (update_cluster_status _) => apply preserves_update_cluster_status
  | |- preserves _ loop_number => apply preserves_loop_number
  end.

Ltac quiet := repeat first [assumption | quiet_one].

Lemma preserves_for_each {A T} (proj : World -> T) (f : A -> M unit) l :
  (forall a, preserves proj (f a)) -> preserves proj (for_each f l).
Proof. intros Hf. induction l as [|a l IH]; cbn; quiet; auto. Qed.

(** ** Triples: [hoare P m Q] holds when [m], run where [P] holds, ends where [Q]
    holds of its result. *)

Definition hoare {A} (P : World -> Prop) (m : M A) (Q : result api_error A -> World -> Prop) : Prop :=
  forall w, P w -> Q (m w).2 (m w).1.

(** [m] keeps [I], whatever it returns. *)
Definition keeps {A} (I : World -> Prop) (m : M A) : Prop := hoare I m (fun _ => I).

Section hoare.
Context {A B : Type}.
Implicit Types (P I : World -> Prop).

Lemma hoare_conseq P P' (m : M A) (Q Q' : result api_error A -> World -> Prop) :
  hoare P' m Q' -> (forall w, P w -> P' w) -> (forall r w, Q' r w -> Q r w) -> hoare P m Q.
Proof. intros Hm HP HQ w Hw. apply HQ, Hm, HP, Hw. Qed.

(** Facts the precondition gives whatever the state. *)
Lemma hoare_facts P (F : Prop) (m : M A) (Q : result api_error A -> World -> Prop) :
  (forall w, P w -> F) -> (F -> hoare P m Q) -> hoare P m Q.
Proof. intros HF Hm w Hw. exact (Hm (HF w Hw) w Hw). Qed.

Lemma hoare_ret P (a : A) (Q : result api_error A -> World -> Prop) :
  (forall w, P w -> Q (Ok a) w) -> hoare P (mret a) Q.
Proof. intros H w. apply H. Qed.

Lemma hoare_throw P e (Q : result api_error A -> World -> Prop) :
  (forall w, P w -> Q (Err e) w) -> hoare P (throw e) Q.
Proof. intros H w. apply H. Qed.

Lemma hoare_bind P (m : M A) (f : A -> M B) (R : A -> World -> Prop) (Q : result api_error B -> World -> Prop) :
  hoare P m (fun r w => match r with Ok a => R a w | Err e => Q (Err e) w end) ->
  (forall a, hoare (R a) (f a) Q) ->
  hoare P (m ≫= f) Q.
Proof.
  intros Hm Hf w Hw. specialize (Hm w Hw). rewrite bind_run.
  destruct (m w) as [w' [a|e]]; [exact (Hf a w' Hm)|exact Hm].
Qed.

Lemma hoare_attempt P (m : M A) (Q : result api_error (result api_error A) -> World -> Prop) :
  hoare P m (fun r => Q (Ok r)) -> hoare P (attempt m) Q.
Proof. intros Hm w Hw. specialize (Hm w Hw). unfold attempt. by destruct (m w). Qed.

Lemma hoare_ignore P (m : M A) (Q : result api_error unit -> World -> Prop) :
  hoare P m (fun _ => Q (Ok tt)) -> hoare P (ignore m) Q.
Proof. intros Hm w Hw. apply (Hm w Hw). Qed.

Lemma keeps_ret I (a : A) : keeps I (mret a).
Proof. by intros w. Qed.
Lemma keeps_throw I e : keeps I (throw (A:=A) e).
Proof. by intros w. Qed.
Lemma keeps_bind I (m : M A) (f : A -> M B) : keeps I m -> (forall a, keeps I (f a)) -> keeps I (m ≫= f).
Proof.
  intros Hm Hf. apply hoare_bind with (R := fun _ => I); [|exact Hf].
  apply (hoare_conseq I I _ _ _ Hm); [done|]. by intros [].
Qed.
Lemma keeps_attempt I (m : M A) : keeps I m -> keeps I (attempt m).
Proof. exact (hoare_attempt I m (fun _ => I)). Qed.
Lemma keeps_ignore I (m : M A) : keeps I m -> keeps I (ignore m).
Proof. exact (hoare_ignore I m (fun _ => I)). Qed.
Lemma keeps_ignore_not_found I (a : A) e : keeps I (ignore_not_found a e).
Proof. unfold ignore_not_found. destruct (IsNotFound e); by intros w. Qed.
Lemma hoare_ignore_not_found P I (a : A) e :
  (forall w, P w -> I w) -> hoare P (ignore_not_found a e) (fun _ => I).
Proof. intros H. unfold ignore_not_found. destruct (IsNotFound e); intros w; apply H. Qed.
Lemma hoare_now P (Q : result api_error Z -> World -> Prop) :
  (forall w, P w -> Q (Ok (w_clock w)) w) -> hoare P now Q.
Proof. intros H w. apply H. Qed.
Lemma keeps_now I : keeps I now.
Proof. by intros w. Qed.
End hoare.

Lemma keeps_for_each {A} (I : World -> Prop) (f : A -> M unit) l :
  (forall a, a ∈ l -> keeps I (f a)) -> keeps I (for_each f l).
Proof.
  induction l as [|a l IH]; intros Hf; [apply keeps_ret|].
  apply keeps_bind; [apply Hf, list_elem_of_here|]. intros _. apply IH. intros a' Ha. apply Hf. by apply list_elem_of_further.
Qed.

Section hoare_requests.
Context {KUBE : KubeLib}.
Implicit Types (P I : World -> Prop).

(** A request that fails has no effect but the count. *)
Lemma hoare_request {A} P (f : World -> World * result api_error A)
    (Q : result api_error A -> World -> Prop) :
  (forall w e, P w -> Q (Err e) (tick w)) ->
  (forall w, P w -> Q (f (tick w)).2 (f (tick w)).1) ->
  hoare P (request f) Q.
Proof. intros He Hf w Hw. unfold request. destruct (fault _); [by apply He|by apply Hf]. Qed.

Lemma keeps_get_object {A} I (sel : World -> gmap Key A) k :
  (forall w, I w -> I (tick w)) -> keeps I (get_object sel k).
Proof. intros HI. apply hoare_request; intros; by apply HI. Qed.

(** What a read returns is what is stored. *)
Lemma hoare_get_object {A} I (sel : World -> gmap Key A) k (Q : result api_error A -> World -> Prop) :
  (forall w, I w -> I (tick w)) -> (forall w, sel (tick w) = sel w) ->
  (forall w e, I w -> Q (Err e) w) ->
  (forall w a, I w -> sel w !! k = Some a -> Q (Ok a) w) ->
  hoare I (get_object sel k) Q.
Proof.
  intros HI Hsel He Ha. apply hoare_request; [auto|]. intros w Hw. cbn [fst snd].
  destruct (sel (tick w) !! k) eqn:Hk; simpl; [|auto]. apply Ha; auto.
Qed.
End hoare_requests.

(** ** Writes to stored bindings *)

(** An object that may stay is not removed by a write. *)
Lemma match_kept {A} (m : ObjectMeta) (x y : A) :
  DeletionTimestamp m = None \/ Finalizers m <> [] ->
  match DeletionTimestamp m, Finalizers m with Some _, [] => x | _, _ => y end = y.
Proof. intros [->|Hf]; [done|]. destruct (DeletionTimestamp m), (Finalizers m); done. Qed.

Lemma rbs_ok_insert rbs k rb : rbs_ok rbs -> rb_key rb = k ->
  DeletionTimestamp (RB_Meta rb) = None \/ Finalizers (RB_Meta rb) <> [] -> rbs_ok (<[k := rb]> rbs).
Proof. intros H Hk Hd. by apply map_Forall_insert_2. Qed.

Section writes.
Context {KUBE : KubeLib}.
Implicit Types (P : World -> Prop).

Lemma hoare_patch_rb P rb old (Q : result api_error unit -> World -> Prop) :
  (forall w, P w -> w_rbs w !! rb_key rb = Some old) ->
  DeletionTimestamp (RB_Meta rb) = None \/ Finalizers (RB_Meta rb) <> [] ->
  (forall w e, P w -> Q (Err e) (tick w)) ->
  (forall w, P w -> Q (Ok tt) (set_rbs <[rb_key rb := mkRB (RB_Meta rb) (RB_Spec rb) (RB_Status old)]> (tick w))) ->
  hoare P (patch_rb rb) Q.
Proof.
  intros Hold Hd He Hok. apply hoare_request; [exact He|]. intros w Hw. cbn.
  change (Namespace (RB_Meta rb), Name (RB_Meta rb)) with (rb_key rb). rewrite (Hold w Hw).
  rewrite match_kept by done. by apply Hok.
Qed.

Lemma hoare_patch_rb_status P rb old (Q : result api_error unit -> World -> Prop) :
  (forall w, P w -> w_rbs w !! rb_key rb = Some old) ->
  (forall w e, P w -> Q (Err e) (tick w)) ->
  (forall w, P w -> Q (Ok tt) (set_rbs <[rb_key rb := mkRB (RB_Meta old) (RB_Spec old) (RB_Status rb)]> (tick w))) ->
  hoare P (patch_rb_status rb) Q.
Proof.
  intros Hold He Hok. apply hoare_request; [exact He|]. intros w Hw. cbn.
  change (Namespace (RB_Meta rb), Name (RB_Meta rb)) with (rb_key rb). rewrite (Hold w Hw). by apply Hok.
Qed.
End writes.

(** ** Requests without faults *)

Section faultless.
Context {KUBE : KubeLib}.
Hypothesis no_faults : forall k, fault k = None.

Lemma request_run {A} (f : World -> World * result api_error A) w : request f w = f (tick w).
Proof. unfold request. by rewrite no_faults. Qed.

Lemma get_object_run {A} (sel : World -> gmap Key A) k w :
  get_object sel k w = (tick w, require (sel (tick w) !! k) NotFound).
Proof. apply request_run. Qed.

Lemma member_request_run {A} cs mc (f : MemberCluster -> MemberCluster * result api_error A) w :
  w_members w !! cs = Some mc ->
  member_request cs f w = (set_members <[cs := (f mc).1]> (tick w), (f mc).2).
Proof. intros Hmc. unfold member_request. rewrite request_run. cbn. rewrite Hmc. by destruct (f mc). Qed.

Lemma attempt_run {A} (m : M A) w : attempt m w = ((m w).1, Ok (m w).2).
Proof. unfold attempt. by destruct (m w). Qed.
End faultless.

#[export] Hint Resolve keeps_ret keeps_throw keeps_bind keeps_attempt keeps_ignore keeps_ignore_not_found
  keeps_now keeps_get_object : go.

(** An environment for concrete runs: no faults, every template empty, endpoints
    are their own clients. *)
Definition reliable_kube : KubeLib.
Proof.
  refine {|
    yaml_Unmarshal := fun _ => mkDepSpec None None ∅ [] [] None "";
    yaml_fails := fun _ => false;
    list_order := fun A _ m => (map_to_list m).*2;
    SetStatusCondition := fun cs c =>
      app (List.filter (fun c' => negb (String.eqb (Cond_Type c') (Cond_Type c))) cs) [c];
    RESTConfigFromKubeConfig := fun s => Ok s;
    NewForConfig := fun s => Ok s;
    error_text := fun _ => "error";
    fault := fun _ => None;
    LabelSelectorAsSelector := fun s => Ok (fun ls => bool_decide (MatchLabels s ⊆ ls));
    json_DeploymentSpec := fun _ => mkDepSpec None None ∅ [] [] None "";
    json_Deployment := fun _ => None;
    MilliValue := fun q => (- ((- q) / 10 ^ 6))%Z;
    Value := fun q => (- ((- q) / 10 ^ 9))%Z;
    rand_String := fun n => pretty n;
    new_uid := fun n => pretty n;
    request_timed_out := fun _ => false
  |}. done.
Defined.

Definition empty_policy_state : PolicyState := mkPolicyState ∅ ∅ ∅ ∅ ∅.
Definition empty_world : World := mkWorld ∅ ∅ ∅ ∅ ∅ ∅ ∅ ∅ 0 0 empty_policy_state ∅.
