(* ===== verification/Scripts.v ===== *)
(** * Calls that others interrupt

    A call of a controller as the sequence of its steps, each a computation that runs
    without an interruption: a request, a look at the clock. Between two steps the
    environment may change. Run alone, a script is the computation of its steps; in
    an environment that keeps to a relation (the rely), a program logic gives what
    every step of it does (the guarantee). *)

From S2P Require Import Prelude ApiTypes KubeApi.

Local Open Scope list_scope.

(** ** Scripts *)

(** [return v, err], or the next step and what follows its result. *)
Inductive script (A : Type) : Type :=
| Finish (r : result api_error A)
| Step {X : Type} (m : M X) (next : result api_error X -> script A).
Arguments Finish {A} r.
Arguments Step {A X} m next.

Fixpoint script_bind {A B} (f : A -> script B) (s : script A) : script B :=
  match s with
  | Finish (Ok a) => f a
  | Finish (Err e) => Finish (Err e)
  | Step m next => Step m (fun r => script_bind f (next r))
  end.
#[export] Instance script_MRet : MRet script := fun A a => Finish (Ok a).
#[export] Instance script_MBind : MBind script := fun A B f s => script_bind f s.

Definition step {A} (m : M A) : script A := Step m Finish.
Definition raise {A} (e : api_error) : script A := Finish (Err e).

(** [v, err := call], and [_ = call]. *)
Fixpoint trying {A} (s : script A) : script (result api_error A) :=
  match s with
  | Finish r => Finish (Ok r)
  | Step m next => Step m (fun r => trying (next r))
  end.
Definition dropping {A} (s : script A) : script unit := trying s ≫= fun _ => mret tt.

(** The loops of [for_each] and of a loop that carries a value. *)
Fixpoint each_step {A} (f : A -> script unit) (l : list A) : script unit :=
  match l with
  | [] => mret tt
  | a :: l' => f a ≫= fun _ => each_step f l'
  end.
Fixpoint folding {A S} (f : S -> A -> script S) (s : S) (l : list A) : script S :=
  match l with
  | [] => mret s
  | a :: l' => f s a ≫= fun s' => folding f s' l'
  end.

(** Nobody else runs. *)
Fixpoint alone {A} (s : script A) : M A := fun w =>
  match s with
  | Finish r => (w, r)
  | Step m next => alone (next (m w).2) (m w).1
  end.

Lemma alone_step {A} (m : M A) w : alone (step m) w = m w.
Proof. cbn. by destruct (m w). Qed.
Lemma alone_bind {A B} (s : script A) (f : A -> script B) w : alone (s ≫= f) w = (alone s ≫= fun a => alone (f a)) w.
Proof.
  revert w. induction s as [[a|e]|X m next IH]; intros w; [done|done|].
  exact (IH (m w).2 (m w).1).
Qed.
Lemma alone_trying {A} (s : script A) w : alone (trying s) w = attempt (alone s) w.
Proof. revert w. induction s as [r|X m next IH]; intros w; [done|]. exact (IH (m w).2 (m w).1). Qed.

(** From [P], the script run alone is the computation. *)
Definition follows {A} (P : World -> Prop) (s : script A) (m : M A) : Prop := forall w, P w -> alone s w = m w.

Section follows.
Implicit Types P : World -> Prop.

Lemma follows_finish {A} P (r : result api_error A) (m : M A) : (forall w, m w = (w, r)) -> follows P (Finish r) m.
Proof. intros Hm w _. by rewrite Hm. Qed.
Lemma follows_ret {A} P (a : A) : follows P (mret a) (mret a).
Proof. done. Qed.
Lemma follows_raise {A} P e : follows (A:=A) P (raise e) (throw e).
Proof. done. Qed.
Lemma follows_step {A} P (m : M A) : follows P (step m) m.
Proof. intros w _. apply alone_step. Qed.
Lemma follows_conseq {A} P P' (s : script A) m : follows P' s m -> (forall w, P w -> P' w) -> follows P s m.
Proof. intros Hs HP w Hw. by apply Hs, HP. Qed.

(** What comes next starts where the computation ends. *)
Lemma follows_bind {A B} P (R : A -> World -> Prop) (s : script A) m (f : A -> script B) g :
  follows P s m -> hoare P m (fun r w => match r with Ok a => R a w | Err _ => True end) ->
  (forall a, follows (R a) (f a) (g a)) -> follows P (s ≫= f) (m ≫= g).
Proof.
  intros Hs Hm Hf w Hw. specialize (Hm w Hw). rewrite alone_bind, !bind_run, Hs by done.
  destruct (m w) as [w' [a|e]]; [by apply Hf|done].
Qed.
Lemma follows_trying {A B} P (R : result api_error A -> World -> Prop) (s : script A) m (f : result api_error A -> script B) g :
  follows P s m -> hoare P m R -> (forall r, follows (R r) (f r) (g r)) ->
  follows P (trying s ≫= f) (attempt m ≫= g).
Proof.
  intros Hs Hm Hf w Hw. specialize (Hm w Hw). rewrite alone_bind, !bind_run, alone_trying. unfold attempt. rewrite Hs by done.
  destruct (m w) as [w' r]. by apply Hf.
Qed.
Lemma follows_last {A B} P (s : script A) m (b : B) : follows P s m -> follows P (s ≫= fun _ => mret b) (m ≫= fun _ => mret b).
Proof. intros Hs. apply follows_bind with (fun _ _ => True); [done| |by intros]. intros w _. by destruct (m w).2. Qed.
Lemma follows_dropping {A} P (s : script A) m : follows P s m -> follows P (dropping s) (ignore m).
Proof.
  intros Hs w Hw. unfold dropping. rewrite alone_bind, bind_run, alone_trying. unfold attempt, ignore. rewrite Hs by done.
  by destruct (m w).
Qed.

Lemma follows_each {A} P (f : A -> script unit) g l :
  (forall a, a ∈ l -> follows P (f a) (g a) /\ keeps P (g a)) -> follows P (each_step f l) (for_each g l).
Proof.
  induction l as [|a l IH]; intros Hf; [done|]. destruct (Hf a (list_elem_of_here _ _)) as [H1 H2].
  apply follows_bind with (fun _ => P); [done| |].
  - intros w Hw. specialize (H2 w Hw). by destruct (g a w).2.
  - intros _. apply IH. intros a' Ha. apply Hf. by apply list_elem_of_further.
Qed.
End follows.

(** ** Interruptions *)

(** The next step of a script. *)
Definition advance {A} (s : script A) (w : World) : script A * World :=
  match s with
  | Finish _ => (s, w)
  | Step m next => (next (m w).2, (m w).1)
  end.

Section turns.
Context (rely : World -> World -> Prop) {A : Type}.

(** The next step of the script, or a change by others. *)
Inductive turn : script A * World -> script A * World -> Prop :=
| turn_step s w : turn (s, w) (advance s w)
| turn_other s w w' : rely w w' -> turn (s, w) (s, w').

Lemma alone_turns s w : rtc turn (s, w) (Finish (alone s w).2, (alone s w).1).
Proof.
  revert w. induction s as [r|X m next IH]; intros w; [apply rtc_refl|].
  eapply rtc_l; [apply turn_step|]. apply (IH (m w).2).
Qed.
End turns.

(** ** Rely and guarantee *)

Section logic.
Context (rely guarantee : World -> World -> Prop).

(** A condition that others keep. *)
Definition stable (P : World -> Prop) : Prop := forall w w', rely w w' -> P w -> P w'.

(** From [P], every step keeps the guarantee, and a result comes with [Q]; the
    conditions between the steps are stable. *)
Fixpoint guarded {A} (P : World -> Prop) (s : script A) (Q : result api_error A -> World -> Prop) : Prop :=
  match s with
  | Finish r => forall w, P w -> Q r w
  | Step m next =>
      exists R, (forall w, P w -> guarantee w (m w).1 /\ R (m w).2 (m w).1) /\ (forall r, stable (R r)) /\
        forall r, guarded (R r) (next r) Q
  end.

Lemma guarded_conseq {A} P P' (s : script A) (Q Q' : result api_error A -> World -> Prop) :
  guarded P s Q -> (forall w, P' w -> P w) -> (forall r w, Q r w -> Q' r w) -> guarded P' s Q'.
Proof.
  revert P P'. induction s as [r|X m next IH]; intros P P'; cbn; [by auto|].
  intros (R & Hm & Hst & Hnext) HP HQ. exists R. split_and!; [by auto|done|]. intros r. by apply (IH r (R r)).
Qed.

Lemma guarded_absurd {A} P (s : script A) Q : (forall w, ~ P w) -> guarded P s Q.
Proof.
  revert P. induction s as [r|X m next IH]; intros P HP; cbn; [by intros w Hw%HP|].
  exists (fun _ _ => False). split_and!; [by intros w Hw%HP|by intros r w w' _ []|]. intros r. apply IH. by intros w [].
Qed.

Lemma guarded_bind {A B} P (s : script A) (f : A -> script B) R Q :
  guarded P s R -> (forall a, guarded (R (Ok a)) (f a) Q) -> (forall e w, R (Err e) w -> Q (Err e) w) ->
  guarded P (s ≫= f) Q.
Proof.
  intros Hs Hf He. revert P Hs. induction s as [[a|e]|X m next IH]; intros P; cbn; intros Hs.
  - by apply (guarded_conseq (R (Ok a)) P (f a) Q Q (Hf a)).
  - auto.
  - destruct Hs as (R' & Hm & Hst & Hnext). exists R'. split_and!; [done|done|]. intros r. by apply IH.
Qed.

Lemma guarded_trying {A} P (s : script A) R :
  guarded P s R -> guarded P (trying s) (fun r w => match r with Ok r' => R r' w | Err _ => False end).
Proof.
  revert P. induction s as [r|X m next IH]; intros P; cbn; [done|].
  intros (R' & Hm & Hst & Hnext). exists R'. split_and!; [done|done|]. intros r. by apply IH.
Qed.

(** A step, and a step whose error is looked at. *)
Lemma guarded_step {A} P (m : M A) Q :
  (forall w, P w -> guarantee w (m w).1 /\ Q (m w).2 (m w).1) -> (forall r, stable (Q r)) -> guarded P (step m) Q.
Proof. intros Hm HQ. exists Q. split_and!; [exact Hm|exact HQ|]. cbn. auto. Qed.
Lemma guarded_attempt {A B} P (m : M A) (f : result api_error A -> script B) R Q :
  (forall w, P w -> guarantee w (m w).1 /\ R (m w).2 (m w).1) -> (forall r, stable (R r)) ->
  (forall r, guarded (R r) (f r) Q) -> guarded P (trying (step m) ≫= f) Q.
Proof. intros Hm HR Hf. exists R. split_and!; [exact Hm|exact HR|exact Hf]. Qed.

(** Scripts of which nothing is asked but the guarantee. *)
Definition free {A} (s : script A) : Prop := guarded (fun _ => True) s (fun _ _ => True).

Lemma free_finish {A} (r : result api_error A) : free (Finish r).
Proof. done. Qed.
Lemma free_step {A} (m : M A) : (forall w, guarantee w (m w).1) -> free (step m).
Proof. intros Hm. by apply guarded_step. Qed.
Lemma free_bind {A B} (s : script A) (f : A -> script B) : free s -> (forall a, free (f a)) -> free (s ≫= f).
Proof. intros Hs Hf. by apply guarded_bind with (fun _ _ => True). Qed.
Lemma free_trying {A} (s : script A) : free s -> free (trying s).
Proof. intros Hs. apply (guarded_conseq _ _ _ _ _ (guarded_trying _ _ _ Hs)); by auto. Qed.
Lemma free_dropping {A} (s : script A) : free s -> free (dropping s).
Proof. intros Hs. apply free_bind; [by apply free_trying|]. intros. apply free_finish. Qed.
Lemma free_each {A} (f : A -> script unit) l : (forall a, free (f a)) -> free (each_step f l).
Proof. intros Hf. induction l as [|a l IH]; [apply free_finish|]. by apply free_bind. Qed.
Lemma free_folding {A S} (f : S -> A -> script S) s l : (forall s a, free (f s a)) -> free (folding f s l).
Proof. intros Hf. revert s. induction l as [|a l IH]; intros s; [apply free_finish|]. by apply free_bind. Qed.
Lemma free_from {A} P (s : script A) : free s -> guarded P s (fun _ _ => True).
Proof. intros Hs. by apply (guarded_conseq _ _ _ _ _ Hs). Qed.

(** Scripts that keep a stable condition throughout. *)
Definition steady {A} (P : World -> Prop) (s : script A) : Prop := guarded P s (fun _ => P).

Section steady.
Context (P : World -> Prop).

Lemma steady_finish {A} (r : result api_error A) : steady P (Finish r).
Proof. by intros w. Qed.
Lemma steady_step {A} (m : M A) : stable P -> (forall w, P w -> guarantee w (m w).1 /\ P (m w).1) -> steady P (step m).
Proof. intros Hst Hm. by apply guarded_step. Qed.
Lemma steady_bind {A B} (s : script A) (f : A -> script B) : steady P s -> (forall a, steady P (f a)) -> steady P (s ≫= f).
Proof. intros Hs Hf. by apply guarded_bind with (fun _ => P). Qed.
Lemma steady_trying {A} (s : script A) : steady P s -> steady P (trying s).
Proof. intros Hs. apply (guarded_conseq _ _ _ _ _ (guarded_trying _ _ _ Hs)); [done|]. by intros [r|e]. Qed.
Lemma steady_dropping {A} (s : script A) : steady P s -> steady P (dropping s).
Proof. intros Hs. apply steady_bind; [by apply steady_trying|]. intros. apply steady_finish. Qed.
Lemma steady_each {A} (f : A -> script unit) l : (forall a, steady P (f a)) -> steady P (each_step f l).
Proof. intros Hf. induction l as [|a l IH]; [apply steady_finish|]. by apply steady_bind. Qed.
Lemma steady_folding {A S} (f : S -> A -> script S) s l : (forall s a, steady P (f s a)) -> steady P (folding f s l).
Proof. intros Hf. revert s. induction l as [|a l IH]; intros s; [apply steady_finish|]. by apply steady_bind. Qed.
End steady.

(** Soundness: wherever others let a guarded script get to, what is left of it is
    guarded from a condition that holds. *)
Lemma guarded_turn {A} P (s : script A) Q w c :
  guarded P s Q -> stable P -> P w -> turn rely (s, w) c ->
  exists P', stable P' /\ P' c.2 /\ guarded P' c.1 Q.
Proof.
  intros Hs HP Hw Ht. inversion Ht as [s1 w1|s1 w1 w1' Hr]; subst.
  - destruct s as [r|X m next]; [by exists P|]. destruct Hs as (R & Hm & Hst & Hnext).
    exists (R (m w).2). split_and!; [apply Hst|by apply Hm|apply Hnext].
  - exists P. split_and!; [done| |done]. by eapply HP.
Qed.
Lemma guarded_turns {A} P (s : script A) Q w c :
  guarded P s Q -> stable P -> P w -> rtc (turn rely) (s, w) c ->
  exists P', stable P' /\ P' c.2 /\ guarded P' c.1 Q.
Proof.
  intros Hs HP Hw Hrt. remember (s, w) as c0 eqn:Hc. revert P s w Hs HP Hw Hc.
  induction Hrt as [c|c1 c2 c3 Ht _ IH]; intros P s w Hs HP Hw ->; [by exists P|].
  destruct (guarded_turn P s Q w c2 Hs HP Hw Ht) as (P' & HP' & Hw' & Hs'). destruct c2 as [s2 w2]. by apply (IH P' s2 w2).
Qed.

(** What others and the guarantee keep holds wherever the script gets to. *)
Lemma guarded_keeps {A} P (s : script A) Q I w c :
  guarded P s Q -> stable P -> P w -> stable I -> (forall w w', guarantee w w' -> I w -> I w') -> I w ->
  rtc (turn rely) (s, w) c -> I c.2.
Proof.
  intros Hs HP Hw HI Hg HIw Hrt. remember (s, w) as c0 eqn:Hc. revert P s w Hs HP Hw HIw Hc.
  induction Hrt as [c|c1 c2 c3 Ht _ IH]; intros P s w Hs HP Hw HIw ->; [done|].
  destruct (guarded_turn P s Q w c2 Hs HP Hw Ht) as (P' & HP' & Hw' & Hs'). destruct c2 as [s2 w2].
  apply (IH P' s2 w2); try done. cbn. inversion Ht as [s1 w1 Hc1 Hadv|s1 w1 w1' Hr]; subst; [|by eapply HI].
  apply (f_equal snd) in Hadv. cbn in Hadv. subst w2. destruct s as [r|X m next]; [done|]. destruct Hs as (R & Hm & _).
  by eapply Hg; [apply Hm|].
Qed.

(** Every step keeps the guarantee. *)
Lemma guarded_acts {A} P (s0 s : script A) Q w0 w :
  (forall w, guarantee w w) -> guarded P s0 Q -> stable P -> P w0 -> rtc (turn rely) (s0, w0) (s, w) ->
  guarantee w (advance s w).2.
Proof.
  intros Hrefl Hs HP Hw Hrt. destruct (guarded_turns P s0 Q w0 (s, w) Hs HP Hw Hrt) as (P' & _ & HP' & Hg).
  destruct s as [r|X m next]; [apply Hrefl|]. destruct Hg as (R & Hm & _). by apply (Hm w HP').
Qed.
End logic.
