(* ===== verification/ClusterController.v ===== *)
(** * Cluster controller (internal/controller/cluster_controller.go)

    Importing a member cluster, watching its health, and the summary of its nodes
    in the status that the policy controller takes its candidates from. Log lines
    and the mapping of a secret's events to clusters are not modelled. *)

From S2P Require Import Prelude GoTime ApiTypes KubeApi.

Local Open Scope string_scope.
Local Open Scope list_scope.

Definition ConditionTypeReady : string := "Ready".
Definition ConditionTypeImported : string := "Imported".

(** [ctrl.Result] with [Requeue]. *)
Record ClusterResult := mkClusterResult { Requeue : bool; Requeue_After : Z }.
Definition no_requeue : ClusterResult := mkClusterResult false 0.
Definition requeue_now : ClusterResult := mkClusterResult true 0.
Definition requeue_after (d : Z) : ClusterResult := mkClusterResult false d.

Definition cluster_key (c : Cluster) : Key := (Namespace (Cluster_Meta c), Name (Cluster_Meta c)).
Definition with_cluster_status (f : ClusterStatus -> ClusterStatus) (c : Cluster) : Cluster :=
  mkCluster (Cluster_Meta c) (Cluster_Spec c) (f (Cluster_Status c)).

(** Changes of the status. *)
Definition set_cluster_phase (phase : string) : Cluster -> Cluster :=
  with_cluster_status (fun st => mkClusterStatus phase (Cluster_UpdatedAt st) (LastProbeTime st)
    (Cluster_Conditions st) (Cluster_Resources st) (Cluster_Nodes st)).
Definition set_cluster_conditions (f : list Condition -> list Condition) : Cluster -> Cluster :=
  with_cluster_status (fun st => mkClusterStatus (Cluster_Phase st) (Cluster_UpdatedAt st) (LastProbeTime st)
    (f (Cluster_Conditions st)) (Cluster_Resources st) (Cluster_Nodes st)).
Definition set_probe (t : Z) (res : Resources) (nodes : list NodeSummary) : Cluster -> Cluster :=
  with_cluster_status (fun st => mkClusterStatus (Cluster_Phase st) (Cluster_UpdatedAt st) (Some t)
    (Cluster_Conditions st) res nodes).

(** [func touchStatus(cluster)]. *)
Definition touchStatus (t : Z) : Cluster -> Cluster :=
  with_cluster_status (fun st => mkClusterStatus (Cluster_Phase st) (Some t) (LastProbeTime st)
    (Cluster_Conditions st) (Cluster_Resources st) (Cluster_Nodes st)).

(** [func mergeCondition(conds, newCond) []metav1.Condition]: the transition time is
    kept when the status does not change. *)
Definition with_transition (t : Time) (c : Condition) : Condition :=
  mkCondition (Cond_Type c) (Cond_Status c) (Cond_ObservedGeneration c) t (Cond_Reason c) (Cond_Message c).
Fixpoint mergeCondition (conds : list Condition) (newCond : Condition) : list Condition :=
  match conds with
  | [] => [newCond]
  | c :: conds' =>
      if String.eqb (Cond_Type c) (Cond_Type newCond) then
        (if String.eqb (Cond_Status c) (Cond_Status newCond) then with_transition (Cond_LastTransitionTime c) newCond
         else newCond) :: conds'
      else c :: mergeCondition conds' newCond
  end.

(** [func setCondition(cluster, condType, status, reason, message)]. *)
Definition setCondition (t : Z) (condType status reason message : string) (c : Cluster) : Cluster :=
  set_cluster_conditions (fun cs =>
    mergeCondition cs (mkCondition condType status (Generation (Cluster_Meta c)) (Some t) reason message)) c.

(** ** Resources *)

Definition quantity (q : option Quantity) : Quantity := default 0%Z q.

(** [func sumNodeResources(nodes)]: capacity and allocatable. *)
Definition add_node (acc : ResourceList * ResourceList) (n : Node) : ResourceList * ResourceList :=
  (mkResourceList (RL_CPU acc.1 + quantity (NRL_CPU (Node_Capacity n)))
                  (RL_Memory acc.1 + quantity (NRL_Memory (Node_Capacity n))),
   mkResourceList (RL_CPU acc.2 + quantity (NRL_CPU (Node_Allocatable n)))
                  (RL_Memory acc.2 + quantity (NRL_Memory (Node_Allocatable n))))%Z.
Definition sumNodeResources (nodes : list Node) : ResourceList * ResourceList :=
  foldl add_node (mkResourceList 0 0, mkResourceList 0 0)%Z nodes.

(** The value [1] of a quantity, in the unit of [Quantity]. *)
Definition quantity_one : Quantity := (10 ^ 9)%Z.

(** The requests of a container add to those of the node; those of an init container
    raise them. *)
Definition add_requests (agg : NodeResources) (c : option Quantity * option Quantity) : NodeResources :=
  mkNodeResources
    (match c.1 with Some q => NR_CPU agg + q | None => NR_CPU agg end)
    (match c.2 with Some q => NR_Memory agg + q | None => NR_Memory agg end) (NR_Pods agg)%Z.
Definition raise_requests (agg : NodeResources) (c : option Quantity * option Quantity) : NodeResources :=
  mkNodeResources
    (match c.1 with Some q => if (NR_CPU agg <? q)%Z then q else NR_CPU agg | None => NR_CPU agg end)
    (match c.2 with Some q => if (NR_Memory agg <? q)%Z then q else NR_Memory agg | None => NR_Memory agg end)
    (NR_Pods agg).

Definition no_resources : NodeResources := mkNodeResources 0 0 0.

(** One turn of the loop of [sumPodRequestsByNode]. *)
Definition counted_pod (p : Pod) : bool :=
  negb (str_empty (Pod_NodeName p)) &&
  negb (String.eqb (Pod_Phase p) "Succeeded" || String.eqb (Pod_Phase p) "Failed").
Definition pod_requests (agg : NodeResources) (p : Pod) : NodeResources :=
  let agg := mkNodeResources (NR_CPU agg) (NR_Memory agg) (NR_Pods agg + quantity_one)%Z in
  foldl raise_requests (foldl add_requests agg (Pod_Requests p)) (Pod_InitRequests p).
Definition add_pod (res : gmap string NodeResources) (p : Pod) : gmap string NodeResources :=
  if counted_pod p
  then <[Pod_NodeName p := pod_requests (default no_resources (res !! Pod_NodeName p)) p]> res
  else res.
Definition sumPodRequestsByNode (pods : list Pod) : gmap string NodeResources := foldl add_pod ∅ pods.

(** [func pickNodeLabels(in)]. *)
Definition pickNodeLabels (labels : gmap string string) : gmap string string :=
  match labels !! "kubernetes.io/hostname" with
  | None => ∅
  | Some v => if str_empty v then ∅ else {["kubernetes.io/hostname" := v]}
  end.

(** The first Ready condition decides. *)
Definition node_ready (n : Node) : bool :=
  match list_find (fun c => c.1 = "Ready") (Node_Conditions n) with
  | Some (_, c) => String.eqb c.2 "True"
  | None => false
  end.

(** [func buildNodeSummaries(nodes, requestedByNode)]. *)
Definition node_summary (requestedByNode : gmap string NodeResources) (n : Node) : NodeSummary :=
  let req := default no_resources (requestedByNode !! Node_Name n) in
  let a := Node_Allocatable n in
  let alloc := mkNodeResources (quantity (NRL_CPU a)) (quantity (NRL_Memory a)) (quantity (NRL_Pods a)) in
  let free := mkNodeResources (NR_CPU alloc - NR_CPU req) (NR_Memory alloc - NR_Memory req)
                              (NR_Pods alloc - NR_Pods req)%Z in
  mkNodeSummary (Node_Name n) (Node_UID n) (node_ready n) alloc req free (pickNodeLabels (Node_Labels n)).
Definition buildNodeSummaries (nodes : list Node) (requestedByNode : gmap string NodeResources) : list NodeSummary :=
  node_summary requestedByNode <$> nodes.

Definition cluster_resources (nodes : list Node) (pods : list Pod) : Resources :=
  let sums := sumNodeResources nodes in
  mkResources sums.1 sums.2 (Z.of_nat (length nodes)) (Z.of_nat (length pods)).

Section controller.
Context {KUBE : KubeLib}.

(** ** Clients *)

Definition getKubeconfigSecret (c : Cluster) : M Secret :=
  get_object w_secrets (Namespace (Cluster_Meta c), SecretRef (Cluster_Spec c)).

Definition lift_result {A} (x : result api_error A) : M A := match x with Ok a => mret a | Err e => throw e end.

(** [func (r) getOrBuildClient(clusterID, sec)]; [name] is the secret's. *)
Definition getOrBuildClient (clusterID name : string) (sec : Secret) : M string := fun w =>
  match w_cluster_clients w !! clusterID with
  | Some cs => (w, Ok cs)
  | None =>
      let kcfg := default "" (Secret_Data sec !! "kubeconfig") in
      (if str_empty kcfg then throw (OtherError ("secret " +:+ name +:+ " missing data.kubeconfig"))
       else
         restCfg ← lift_result (RESTConfigFromKubeConfig kcfg);
         newCS ← lift_result (NewForConfig restCfg);
         modify (set_cluster_clients <[clusterID := newCS]>) ≫= fun _ => mret newCS) w
  end.
Definition clearClient (clusterID : string) : M unit := modify (set_cluster_clients (delete clusterID)).

(** ** The phases *)

Definition cluster_id (c : Cluster) : string := Name (Cluster_Meta c).
Definition set_ready (t : Z) (status reason message : string) : Cluster -> Cluster :=
  setCondition t ConditionTypeReady status reason message.
Definition set_imported (t : Z) (status reason message : string) : Cluster -> Cluster :=
  setCondition t ConditionTypeImported status reason message.

(** [_ = r.Status().Update(ctx, cluster)], then a result. *)
Definition report (c : Cluster) (res : ClusterResult) : M ClusterResult :=
  ignore (update_cluster_status c) ≫= fun _ => mret res.

Definition secret_text : string := "referenced secret not found".

(** [func (r) reconcileImporting(ctx, cluster)]. *)
Definition reconcileImporting (c : Cluster) : M ClusterResult :=
  t ← now;
  s ← attempt (getKubeconfigSecret c);
  match s with
  | Err e =>
      if IsNotFound e then
        report (touchStatus t (set_cluster_phase ClusterPhaseNotReady
          (set_ready t "False" "SecretNotFound" secret_text (set_imported t "False" "SecretNotFound" secret_text c))))
          (requeue_after (30 * Second))
      else throw e
  | Ok sec =>
      b ← attempt (getOrBuildClient (cluster_id c) (SecretRef (Cluster_Spec c)) sec);
      match b with
      | Err e =>
          clearClient (cluster_id c) ≫= fun _ =>
          report (touchStatus t (set_cluster_phase ClusterPhaseFailed
            (set_ready t "False" "InvalidKubeconfig" (error_text e)
               (set_imported t "False" "InvalidKubeconfig" (error_text e) c)))) no_requeue
      | Ok cs =>
          v ← attempt (server_version cs);
          match v with
          | Err e =>
              clearClient (cluster_id c) ≫= fun _ =>
              report (touchStatus t (set_cluster_phase ClusterPhaseFailed
                (set_ready t "False" "Unreachable" (error_text e) c))) no_requeue
          | Ok _ =>
              update_cluster_status (touchStatus t (set_cluster_phase ClusterPhaseReady
                (set_ready t "True" "Reachable" "api server reachable"
                   (set_imported t "True" "Imported" "cluster credentials secret found" c)))) ≫= fun _ =>
              mret requeue_now
          end
      end
  end.

(** A cluster that is not ready any more. *)
Definition not_ready (t : Z) (reason message : string) (c : Cluster) : Cluster :=
  touchStatus t (set_cluster_phase ClusterPhaseNotReady (set_ready t "False" reason message c)).

(** [func (r) reconcileReady(ctx, cluster)]. *)
Definition reconcileReady (c : Cluster) : M ClusterResult :=
  t ← now;
  s ← attempt (getKubeconfigSecret c);
  match s with
  | Err e =>
      if IsNotFound e then
        clearClient (cluster_id c) ≫= fun _ =>
        report (not_ready t "SecretNotFound" secret_text c) (requeue_after (30 * Second))
      else throw e
  | Ok sec =>
      b ← attempt (getOrBuildClient (cluster_id c) (SecretRef (Cluster_Spec c)) sec);
      match b with
      | Err e =>
          clearClient (cluster_id c) ≫= fun _ =>
          report (not_ready t "InvalidKubeconfig" (error_text e) c) (requeue_after (30 * Second))
      | Ok cs =>
          v ← attempt (server_version cs);
          match v with
          | Err e => report (not_ready t "Unreachable" (error_text e) c) (requeue_after (30 * Second))
          | Ok _ =>
              let c := set_ready t "True" "Reachable" "api server reachable" c in
              ns ← attempt (nodes_list cs);
              match ns with
              | Err e => report (not_ready t "ListNodesFailed" (error_text e) c) (requeue_after (30 * Second))
              | Ok nodes =>
                  ps ← attempt (all_pods_list cs);
                  match ps with
                  | Err e => report (not_ready t "ListPodsFailed" (error_text e) c) (requeue_after (30 * Second))
                  | Ok pods =>
                      update_cluster_status (touchStatus t (set_imported t "True" "Imported" "cluster imported"
                        (set_probe t (cluster_resources nodes pods)
                           (buildNodeSummaries nodes (sumPodRequestsByNode pods)) c))) ≫= fun _ =>
                      mret (requeue_after (60 * Second))
                  end
              end
          end
      end
  end.

(** [func (r) reconcileNotReady(ctx, cluster)]: the phase stays until the member
    answers. *)
Definition reconcileNotReady (c : Cluster) : M ClusterResult :=
  t ← now;
  s ← attempt (getKubeconfigSecret c);
  match s with
  | Err e =>
      if IsNotFound e then
        report (touchStatus t (set_ready t "False" "SecretNotFound" secret_text c)) (requeue_after (30 * Second))
      else throw e
  | Ok sec =>
      b ← attempt (getOrBuildClient (cluster_id c) (SecretRef (Cluster_Spec c)) sec);
      match b with
      | Err e =>
          clearClient (cluster_id c) ≫= fun _ =>
          report (touchStatus t (set_ready t "False" "InvalidKubeconfig" (error_text e) c)) (requeue_after (30 * Second))
      | Ok cs =>
          v ← attempt (server_version cs);
          match v with
          | Err e =>
              report (touchStatus t (set_ready t "False" "Unreachable" (error_text e) c)) (requeue_after (30 * Second))
          | Ok _ =>
              update_cluster_status (touchStatus t (set_cluster_phase ClusterPhaseReady
                (set_ready t "True" "Reachable" "api server reachable" c))) ≫= fun _ =>
              mret (requeue_after (60 * Second))
          end
      end
  end.

(** [func (r) Reconcile(ctx, req)]. *)
Definition spec_text : string := "apiEndpoint/secretRef is required".
Definition invalid_cluster (c : Cluster) : bool :=
  str_empty (APIEndpoint (Cluster_Spec c)) || str_empty (SecretRef (Cluster_Spec c)).
Definition Reconcile (key : Key) : M ClusterResult :=
  g ← attempt (get_object w_clusters key);
  match g with
  | Err e => ignore_not_found no_requeue e
  | Ok c0 =>
      t ← now;
      let c := if str_empty (Cluster_Phase (Cluster_Status c0)) then set_cluster_phase ClusterPhaseImporting c0 else c0 in
      let phase := Cluster_Phase (Cluster_Status c) in
      if invalid_cluster c then
        clearClient (cluster_id c) ≫= fun _ =>
        update_cluster_status (touchStatus t (set_cluster_phase ClusterPhaseFailed
          (set_ready t "False" "InvalidSpec" spec_text (set_imported t "False" "InvalidSpec" spec_text c)))) ≫= fun _ =>
        mret no_requeue
      else if String.eqb phase ClusterPhaseFailed then
        clearClient (cluster_id c) ≫= fun _ => mret no_requeue
      else if String.eqb phase ClusterPhaseImporting then reconcileImporting c
      else if String.eqb phase ClusterPhaseReady then reconcileReady c
      else if String.eqb phase ClusterPhaseNotReady then reconcileNotReady c
      else
        update_cluster_status (touchStatus t (set_cluster_phase ClusterPhaseImporting c)) ≫= fun _ => mret requeue_now
  end.
End controller.

(** ** What a reconciliation leaves alone: everything but the clusters and the
    controller's clients. *)

Section quiet.
Context {KUBE : KubeLib} {T : Type} (proj : World -> T).
Hypothesis Htick : forall w, proj (tick w) = proj w.
Hypothesis Hclusters : forall f w, proj (set_clusters f w) = proj w.
Hypothesis Hclients : forall f w, proj (set_cluster_clients f w) = proj w.
Hypothesis Hread : forall w, proj (set_members (fun m => m) w) = proj w.

Lemma quiet_clear id : preserves proj (clearClient id).
Proof. intros w. apply Hclients. Qed.
Lemma quiet_built_client id name sec : preserves proj (getOrBuildClient id name sec).
Proof.
  intros w. unfold getOrBuildClient. destruct (_ !! id); [done|]. destruct (str_empty _); [done|].
  rewrite bind_run. destruct (RESTConfigFromKubeConfig _); [|done]. cbn. rewrite bind_run.
  destruct (NewForConfig _); [|done]. apply Hclients.
Qed.
Lemma quiet_member_read {A} cs (f : MemberCluster -> result api_error A) :
  preserves proj (attempt (member_request cs (fun mc => (mc, f mc)))).
Proof. by apply preserves_attempt, preserves_member_read. Qed.
Lemma preserves_cluster_call key : preserves proj (Reconcile key).
Proof.
  unfold Reconcile, reconcileImporting, reconcileReady, reconcileNotReady, report, getKubeconfigSecret.
  repeat first [assumption | apply quiet_clear | apply quiet_built_client | apply quiet_member_read | quiet_one]; done.
Qed.
End quiet.

(** ** Conditions *)

Definition cond_types (cs : list Condition) : list string := Cond_Type <$> cs.

Lemma mergeCondition_types cs c : cond_types (mergeCondition cs c) =
  if decide (Cond_Type c ∈ cond_types cs) then cond_types cs else cond_types cs ++ [Cond_Type c].
Proof.
  induction cs as [|c0 cs IH]; [done|]. unfold cond_types in *. cbn.
  destruct (String.eqb_spec (Cond_Type c0) (Cond_Type c)) as [He|He].
  - rewrite decide_True by (rewrite He; apply list_elem_of_here). cbn.
    destruct (String.eqb _ _); cbn; by rewrite <- He.
  - cbn. rewrite IH. destruct (decide (Cond_Type c ∈ Cond_Type <$> cs)) as [Hin|Hin].
    + by rewrite decide_True by by apply list_elem_of_further.
    + rewrite decide_False; [done|]. rewrite elem_of_cons. intros [|]; congruence.
Qed.

Lemma mergeCondition_NoDup cs c : NoDup (cond_types cs) -> NoDup (cond_types (mergeCondition cs c)).
Proof.
  intros Hnd. rewrite mergeCondition_types. destruct (decide _) as [|Hn]; [done|].
  apply NoDup_app. split; [done|]. split; [|apply NoDup_singleton].
  intros x Hx ->%list_elem_of_singleton. done.
Qed.

(** The condition of a type. *)
Definition condition_of (type : string) (cs : list Condition) : option Condition :=
  snd <$> list_find (fun c => Cond_Type c = type) cs.

Lemma condition_of_cons type c cs :
  condition_of type (c :: cs) = if decide (Cond_Type c = type) then Some c else condition_of type cs.
Proof.
  unfold condition_of. cbn. destruct (decide (Cond_Type c = type)); [done|].
  by destruct (list_find _ cs) as [[? ?]|].
Qed.

(** C40: Conditions are kept by type: after a merge there is still one of each type,
    that of the new condition's type is the new one (with the old transition time
    if the status is the old one), and those of other types are as before. *)
Theorem mergeCondition_spec cs c : NoDup (cond_types cs) ->
  NoDup (cond_types (mergeCondition cs c)) /\
  condition_of (Cond_Type c) (mergeCondition cs c) = Some
    (match condition_of (Cond_Type c) cs with
     | Some old => if String.eqb (Cond_Status old) (Cond_Status c)
                   then with_transition (Cond_LastTransitionTime old) c else c
     | None => c
     end) /\
  (forall type, type <> Cond_Type c -> condition_of type (mergeCondition cs c) = condition_of type cs).
Proof.
  intros Hnd. split; [by apply mergeCondition_NoDup|]. clear Hnd.
  induction cs as [|c0 cs [IH IH']]; cbn [mergeCondition].
  { split; [by rewrite condition_of_cons, decide_True by done|]. intros type Hne.
    by rewrite condition_of_cons, decide_False by congruence. }
  rewrite !condition_of_cons. destruct (String.eqb_spec (Cond_Type c0) (Cond_Type c)) as [He|He].
  - rewrite (decide_True (P := Cond_Type c0 = Cond_Type c)) by done. split.
    + rewrite condition_of_cons. by destruct (String.eqb _ _); rewrite decide_True by done.
    + intros type Hne. rewrite !condition_of_cons. destruct (String.eqb _ _);
        by rewrite !decide_False by (cbn; congruence).
  - rewrite (decide_False (P := Cond_Type c0 = Cond_Type c)) by done. split.
    + by rewrite condition_of_cons, decide_False by done.
    + intros type Hne. rewrite !condition_of_cons. by destruct (decide _); [|apply IH'].
Qed.

(** ** The state machine *)

(** What a probe of the member cluster finds. *)
Inductive health := NoSecret | NoClient | Unreachable | Healthy.

(** One reconciliation of a cluster; [invalid]: its spec is. Each phase and finding lead
    to one phase. *)
Inductive phase_step (invalid : bool) (h : health) : string -> string -> Prop :=
| step_invalid p : invalid = true -> phase_step invalid h p "Failed"
| step_imported p : invalid = false -> p = "" \/ p = "Importing" -> h = Healthy -> phase_step invalid h p "Ready"
| step_no_secret p : invalid = false -> p = "" \/ p = "Importing" -> h = NoSecret -> phase_step invalid h p "NotReady"
| step_unusable p : invalid = false -> p = "" \/ p = "Importing" -> h = NoClient \/ h = Unreachable ->
    phase_step invalid h p "Failed"
| step_healthy : invalid = false -> h = Healthy -> phase_step invalid h "Ready" "Ready"
| step_lost : invalid = false -> h <> Healthy -> phase_step invalid h "Ready" "NotReady"
| step_waiting : invalid = false -> h <> Healthy -> phase_step invalid h "NotReady" "NotReady"
| step_back : invalid = false -> h = Healthy -> phase_step invalid h "NotReady" "Ready"
| step_unknown p : invalid = false -> p ∉ [""; "Importing"; "Ready"; "NotReady"; "Failed"] ->
    phase_step invalid h p "Importing".

(** A status whose conditions went through merges only. *)
Ltac conditions := intros; cbn; repeat apply mergeCondition_NoDup; assumption.

Section machine.
Context {KUBE : KubeLib} (w0 : World) (c0 : Cluster).

(** Some request fails. *)
Definition some_fault : Prop := exists k e, fault k = Some e.

(** What there is to be found in [w0]: the secret of the cluster, a client, cached or
    made of the kubeconfig in the secret, and the API server behind it. *)
Definition its_secret : option Secret := w_secrets w0 !! (Namespace (Cluster_Meta c0), SecretRef (Cluster_Spec c0)).
Definition its_client (sec : Secret) : option string :=
  match w_cluster_clients w0 !! Name (Cluster_Meta c0) with
  | Some cs => Some cs
  | None =>
      match Secret_Data sec !! "kubeconfig" with
      | Some kcfg =>
          if decide (kcfg = "") then None
          else match RESTConfigFromKubeConfig kcfg with
               | Ok cfg => match NewForConfig cfg with Ok cs => Some cs | Err _ => None end
               | Err _ => None
               end
      | None => None
      end
  end.
Definition its_health : health :=
  match its_secret with
  | None => NoSecret
  | Some sec =>
      match its_client sec with
      | None => NoClient
      | Some cs => match w_members w0 !! cs with None => Unreachable | Some _ => Healthy end
      end
  end.

(** A fault makes a probe find less than there is. *)
Definition found (h : health) : Prop := h = its_health \/ some_fault /\ h <> Healthy.

(** What a reconciliation may make of [c0]. *)
Record stepped (h : health) (c : Cluster) : Prop := {
  stepped_meta : Cluster_Meta c = Cluster_Meta c0;
  stepped_spec : Cluster_Spec c = Cluster_Spec c0;
  stepped_phase : phase_step (invalid_cluster c0) h (Cluster_Phase (Cluster_Status c0)) (Cluster_Phase (Cluster_Status c));
  stepped_conditions : NoDup (cond_types (Cluster_Conditions (Cluster_Status c0))) ->
    NoDup (cond_types (Cluster_Conditions (Cluster_Status c)))
}.

(** The state while the cluster is not written yet, and before its client is looked up. *)
Definition untouched (w : World) : Prop :=
  w_clusters w = w_clusters w0 /\ w_secrets w = w_secrets w0 /\ w_members w = w_members w0 /\
  delete (Name (Cluster_Meta c0)) (w_cluster_clients w) = delete (Name (Cluster_Meta c0)) (w_cluster_clients w0).
Definition probing (w : World) : Prop := untouched w /\ w_cluster_clients w = w_cluster_clients w0.
Definition after (w : World) : Prop :=
  delete (Name (Cluster_Meta c0)) (w_cluster_clients w) = delete (Name (Cluster_Meta c0)) (w_cluster_clients w0) /\
  (w_clusters w = w_clusters w0 /\ (some_fault \/ invalid_cluster c0 = false /\ Cluster_Phase (Cluster_Status c0) = "Failed") \/
   exists h c, found h /\ stepped h c /\ w_clusters w = <[cluster_key c0 := c]> (w_clusters w0)).

Lemma after_fault w : some_fault -> untouched w -> after w.
Proof. intros Hf (Hc & _ & _ & Hd). split; [exact Hd|]. left. auto. Qed.
Lemma faulted {A} (m : World -> World * result api_error A) P (Q : result api_error A -> World -> Prop) :
  (forall w e, some_fault -> P w -> Q (Err e) (tick w)) -> (forall w, P w -> Q (m (tick w)).2 (m (tick w)).1) ->
  hoare P (request m) Q.
Proof. intros He Hm w Hw. unfold request. destruct (fault _) as [e|] eqn:Hf; [|by apply Hm]. apply He; [by eexists _, _|done]. Qed.

(** ** The probes *)

Lemma hoare_secret : hoare probing (attempt (get_object w_secrets (Namespace (Cluster_Meta c0), SecretRef (Cluster_Spec c0))))
  (fun r w => probing w /\ match r with
    | Ok (Ok sec) => its_secret = Some sec
    | Ok (Err e) => if IsNotFound e then found NoSecret else some_fault
    | Err _ => False end).
Proof.
  apply hoare_attempt, faulted.
  - intros w e Hf Hw. split; [exact Hw|]. destruct (IsNotFound e); [right; by split|done].
  - intros w Hw. split; [exact Hw|]. change (w_secrets (tick w)) with (w_secrets w). rewrite (proj1 (proj2 (proj1 Hw))).
    fold its_secret. destruct its_secret eqn:Hs; cbn; [done|]. left. unfold its_health. by rewrite Hs.
Qed.

Lemma hoare_client name sec : hoare probing (attempt (getOrBuildClient (Name (Cluster_Meta c0)) name sec))
  (fun r w => untouched w /\ match r with
    | Ok (Ok cs) => its_client sec = Some cs
    | Ok (Err _) => its_client sec = None
    | Err _ => False end).
Proof.
  apply hoare_attempt. intros w [Hw Hcs]. unfold getOrBuildClient, its_client. rewrite Hcs.
  destruct (w_cluster_clients w0 !! _) as [cs|] eqn:Hid; [by split|].
  destruct (Secret_Data sec !! "kubeconfig") as [kcfg|]; cbn; [|by split]. destruct kcfg as [|ch kcfg]; [by split|].
  rewrite decide_False by done. cbn. rewrite bind_run. destruct (RESTConfigFromKubeConfig _) as [cfg|e]; [|by split].
  cbn. rewrite bind_run. destruct (NewForConfig cfg) as [cs|e]; [|by split]. cbn. split; [|done].
  destruct Hw as (H1 & H2 & H3 & H4). split_and!; [done|done|done|]. rewrite <- H4. apply delete_insert_eq.
Qed.

Lemma hoare_member {A} cs (f : MemberCluster -> A) :
  hoare untouched (attempt (member_request cs (fun mc => (mc, Ok (f mc)))))
    (fun r w => untouched w /\ match r with
      | Ok (Ok _) => is_Some (w_members w0 !! cs)
      | Ok (Err _) => w_members w0 !! cs = None \/ some_fault
      | Err _ => False end).
Proof.
  apply hoare_attempt, faulted; [intros w e Hf Hw; by auto|].
  intros w Hw. destruct (Hw) as (H1 & H2 & H3 & H4). cbn. rewrite H3. destruct (w_members w0 !! cs) as [mc|] eqn:Hmc; cbn; [|by auto].
  split; [|by eexists]. split_and!; [done|done| |done]. cbn. by rewrite H3, insert_id.
Qed.

(** What the probes found, as a finding. *)
Lemma found_client sec : its_secret = Some sec -> its_client sec = None -> found NoClient.
Proof. intros Hs Hc. left. unfold its_health. by rewrite Hs, Hc. Qed.
Lemma found_member sec cs : its_secret = Some sec -> its_client sec = Some cs ->
  w_members w0 !! cs = None \/ some_fault -> found Unreachable.
Proof. intros Hs Hc [Hm|Hf]; [left|by right]. unfold its_health. by rewrite Hs, Hc, Hm. Qed.
Lemma found_healthy sec cs : its_secret = Some sec -> its_client sec = Some cs -> is_Some (w_members w0 !! cs) -> found Healthy.
Proof. intros Hs Hc [mc Hm]. left. unfold its_health. by rewrite Hs, Hc, Hm. Qed.

(** ** The writes *)

Hypothesis Hc0 : w_clusters w0 !! cluster_key c0 = Some c0.

Lemma hoare_write h c : found h -> stepped h c -> hoare untouched (update_cluster_status c) (fun _ => after).
Proof.
  intros Hh Hc. apply faulted; [intros; by apply after_fault|]. intros w (Hw & _ & _ & Hd). cbn.
  assert ((Namespace (Cluster_Meta c), Name (Cluster_Meta c)) = cluster_key c0) as ->
    by (unfold cluster_key; by rewrite (stepped_meta _ _ Hc)).
  rewrite Hw, Hc0. cbn. split; [exact Hd|]. right. exists h, c. split_and!; [done|done|]. cbn.
  rewrite Hw, <- (stepped_meta _ _ Hc), <- (stepped_spec _ _ Hc). by destruct c.
Qed.
Lemma hoare_report h c res : found h -> stepped h c -> hoare untouched (report c res) (fun _ => after).
Proof.
  intros Hh Hc. apply hoare_bind with (R := fun _ => after); [|by intros ? ?].
  apply hoare_ignore. eapply hoare_conseq; [by apply (hoare_write h)|done|]. by intros [] w.
Qed.
Lemma hoare_store h c (res : ClusterResult) : found h -> stepped h c ->
  hoare untouched (update_cluster_status c ≫= fun _ => mret res) (fun _ => after).
Proof.
  intros Hh Hc. apply hoare_bind with (R := fun _ => after); [|by intros ? ?].
  eapply hoare_conseq; [by apply (hoare_write h)|done|]. by intros [] w.
Qed.
Lemma hoare_clear {A} (m : M A) : hoare untouched m (fun _ => after) ->
  hoare untouched (clearClient (Name (Cluster_Meta c0)) ≫= fun _ => m) (fun _ => after).
Proof.
  intros Hm. apply hoare_bind with (R := fun _ => untouched); [|done]. intros w (H1 & H2 & H3 & H4).
  split_and!; [done|done|done|]. rewrite <- H4. apply delete_delete_eq.
Qed.

(** A probe, and what its results lead to. *)
Lemma hoare_probe {A B} P (m : M (result api_error A)) (f : result api_error A -> M B) (good : A -> Prop) (bad : api_error -> Prop) P' :
  hoare P m (fun r w => P' w /\ match r with Ok (Ok a) => good a | Ok (Err e) => bad e | Err _ => False end) ->
  (forall a, good a -> hoare P' (f (Ok a)) (fun _ => after)) -> (forall e, bad e -> hoare P' (f (Err e)) (fun _ => after)) ->
  hoare P (m ≫= f) (fun _ => after).
Proof.
  intros Hm Hok Herr w Hw. specialize (Hm w Hw). rewrite bind_run. destruct (m w) as [w' [[a|e]|e]]; destruct Hm as [HP H];
    [by apply Hok|by apply Herr|done].
Qed.
Lemma hoare_then_now {A} P (f : Z -> M A) : (forall t, hoare P (f t) (fun _ => after)) -> hoare P (now ≫= f) (fun _ => after).
Proof. intros Hf w Hw. by apply Hf. Qed.
Lemma hoare_lost_secret {A} e (m : M A) : (if IsNotFound e then found NoSecret else some_fault) ->
  (found NoSecret -> hoare untouched m (fun _ => after)) ->
  hoare probing (if IsNotFound e then m else throw e) (fun _ => after).
Proof.
  intros He Hm. destruct (IsNotFound e); [intros w [Hw _]; by apply Hm|]. intros w [Hw _]. by apply after_fault.
Qed.
Lemma hoare_unprobed {A} (m : M A) Q : hoare untouched m Q -> hoare probing m Q.
Proof. intros Hm w [Hw _]. by apply Hm. Qed.

(** The probes of a handler, in their order. *)
Ltac probe c :=
  apply hoare_then_now; intros t;
  apply (hoare_probe probing _ _ (fun sec => its_secret = Some sec) (fun e => if IsNotFound e then found NoSecret else some_fault) probing);
    [exact hoare_secret| |intros e He; apply (hoare_lost_secret e); [exact He|intros Hf]].
Ltac client sec Hsec :=
  apply (hoare_probe probing _ _ (fun cs => its_client sec = Some cs) (fun _ => its_client sec = None) untouched);
    [exact (hoare_client _ sec)| |intros e He; assert (Hf := found_client sec Hsec He)].
Ltac member cs Hsec Hcs :=
  apply (hoare_probe untouched _ _ (fun _ => is_Some (w_members w0 !! cs)) (fun _ => w_members w0 !! cs = None \/ some_fault) untouched);
    [exact (hoare_member cs _)| |intros e He; assert (Hf := found_member _ cs Hsec Hcs He)].

Hypothesis Hvalid : invalid_cluster c0 = false.

Lemma hoare_Importing c : Cluster_Meta c = Cluster_Meta c0 -> Cluster_Spec c = Cluster_Spec c0 ->
  Cluster_Conditions (Cluster_Status c) = Cluster_Conditions (Cluster_Status c0) ->
  Cluster_Phase (Cluster_Status c0) = "" \/ Cluster_Phase (Cluster_Status c0) = "Importing" ->
  hoare probing (reconcileImporting c) (fun _ => after).
Proof.
  intros Hm Hs Hc Hp. unfold reconcileImporting, getKubeconfigSecret, cluster_id. rewrite Hm, Hs.
  assert (Hstep : forall h p t f, phase_step (invalid_cluster c0) h (Cluster_Phase (Cluster_Status c0)) p ->
    (forall cs, NoDup (cond_types cs) -> NoDup (cond_types (f cs))) ->
    stepped h (touchStatus t (set_cluster_phase p (set_cluster_conditions f c)))).
  { intros h p t f H1 H2. split; [exact Hm|exact Hs|exact H1|]. intros Hnd. apply H2. by rewrite Hc. }
  assert (Hstep2 : forall h p t f g, phase_step (invalid_cluster c0) h (Cluster_Phase (Cluster_Status c0)) p ->
    (forall cs, NoDup (cond_types cs) -> NoDup (cond_types (f cs))) -> (forall cs, NoDup (cond_types cs) -> NoDup (cond_types (g cs))) ->
    stepped h (touchStatus t (set_cluster_phase p (set_cluster_conditions f (set_cluster_conditions g c))))).
  { intros h p t f g H1 H2 H3. apply (Hstep h p t (fun cs => f (g cs)) H1). auto. }
  probe c; [intros sec Hsec|].
  2: { apply (hoare_report NoSecret); [exact Hf|]. apply Hstep2; [by apply step_no_secret|conditions..]. }
  client sec Hsec; [intros cs Hcs|].
  2: { apply hoare_clear, (hoare_report NoClient); [exact Hf|]. apply Hstep2; [|conditions..]. apply step_unusable; auto. }
  member cs Hsec Hcs; [intros [] Hup|].
  2: { apply hoare_clear, (hoare_report Unreachable); [exact Hf|]. apply Hstep; [|conditions]. apply step_unusable; auto. }
  apply (hoare_store Healthy); [by eapply found_healthy|]. apply Hstep2; [by apply step_imported|conditions..].
Qed.

Lemma stepped_here h p f : phase_step (invalid_cluster c0) h (Cluster_Phase (Cluster_Status c0)) p ->
  Cluster_Phase (f (Cluster_Status c0)) = p ->
  (NoDup (cond_types (Cluster_Conditions (Cluster_Status c0))) -> NoDup (cond_types (Cluster_Conditions (f (Cluster_Status c0))))) ->
  stepped h (with_cluster_status f c0).
Proof. intros H1 H2 H3. split; [done|done|by rewrite <- H2 in H1|exact H3]. Qed.

Lemma hoare_Ready : Cluster_Phase (Cluster_Status c0) = "Ready" -> hoare probing (reconcileReady c0) (fun _ => after).
Proof.
  intros Hp. unfold reconcileReady, getKubeconfigSecret, cluster_id.
  assert (Hlost : forall h t reason msg, h <> Healthy -> stepped h (not_ready t reason msg c0)).
  { intros h t reason msg Hh. split; [done|done| |conditions]. rewrite Hp. by apply step_lost. }
  assert (Hlost2 : forall h t reason msg, h <> Healthy ->
    stepped h (not_ready t reason msg (set_ready t "True" "Reachable" "api server reachable" c0))).
  { intros h t reason msg Hh. split; [done|done| |conditions]. rewrite Hp. by apply step_lost. }
  probe c0; [intros sec Hsec|apply hoare_clear, (hoare_report NoSecret); [exact Hf|by apply Hlost]].
  client sec Hsec; [intros cs Hcs|apply hoare_clear, (hoare_report NoClient); [exact Hf|by apply Hlost]].
  member cs Hsec Hcs; [intros [] Hup|apply (hoare_report Unreachable); [exact Hf|by apply Hlost]].
  member cs Hsec Hcs; [intros nodes _|apply (hoare_report Unreachable); [exact Hf|by apply Hlost2]].
  member cs Hsec Hcs; [intros pods _|apply (hoare_report Unreachable); [exact Hf|by apply Hlost2]].
  apply (hoare_store Healthy); [by eapply found_healthy|]. split; [done|done| |conditions]. cbn. rewrite Hp. by apply step_healthy.
Qed.

Lemma hoare_NotReady : Cluster_Phase (Cluster_Status c0) = "NotReady" -> hoare probing (reconcileNotReady c0) (fun _ => after).
Proof.
  intros Hp. unfold reconcileNotReady, getKubeconfigSecret, cluster_id.
  assert (Hwait : forall h t reason msg, h <> Healthy -> stepped h (touchStatus t (set_ready t "False" reason msg c0))).
  { intros h t reason msg Hh. split; [done|done| |conditions]. cbn. rewrite Hp. by apply step_waiting. }
  probe c0; [intros sec Hsec|apply (hoare_report NoSecret); [exact Hf|by apply Hwait]].
  client sec Hsec; [intros cs Hcs|apply hoare_clear, (hoare_report NoClient); [exact Hf|by apply Hwait]].
  member cs Hsec Hcs; [intros [] Hup|apply (hoare_report Unreachable); [exact Hf|by apply Hwait]].
  apply (hoare_store Healthy); [by eapply found_healthy|]. split; [done|done| |conditions]. cbn. rewrite Hp. by apply step_back.
Qed.
End machine.

Section properties.
Context {KUBE : KubeLib}.

(** All but the clusters and the clients of this controller. *)
Definition elsewhere (w : World) :=
  ((w_plans w, w_rbs w, w_gds w, w_secrets w, w_policy w), (w_members w, w_clients w, w_cursors w, w_clock w)).

(** C11: Whatever requests fail, a reconciliation of a stored cluster writes at most the
    status of this cluster and the cached client of it, and nothing else that is stored or
    cached. The phase follows the state machine, by what a probe of the member finds: the
    secret, a client, the API server. An invalid spec fails; an imported cluster becomes
    Ready when the member answers, NotReady without a secret, Failed otherwise; Ready and
    NotReady become Ready when the member answers and NotReady otherwise; an unknown phase
    starts over. What is found is what there is, or less when a request failed; the
    cluster is left as it was only when one did, or when it is Failed. The conditions stay
    one of each type. *)
Theorem Reconcile_cluster key c w :
  w_clusters w !! key = Some c -> cluster_key c = key ->
  let w' := (Reconcile key w).1 in
  elsewhere w' = elsewhere w /\ delete key.2 (w_cluster_clients w') = delete key.2 (w_cluster_clients w) /\
  (w_clusters w' = w_clusters w /\ (some_fault \/ invalid_cluster c = false /\ Cluster_Phase (Cluster_Status c) = "Failed") \/
   exists h c', (h = its_health w c \/ some_fault /\ h <> Healthy) /\ w_clusters w' = <[key := c']> (w_clusters w) /\
     Cluster_Meta c' = Cluster_Meta c /\ Cluster_Spec c' = Cluster_Spec c /\
     phase_step (invalid_cluster c) h (Cluster_Phase (Cluster_Status c)) (Cluster_Phase (Cluster_Status c')) /\
     (NoDup (cond_types (Cluster_Conditions (Cluster_Status c))) ->
      NoDup (cond_types (Cluster_Conditions (Cluster_Status c'))))).
Proof.
  intros Hc <-. cbv zeta. split; [by apply preserves_cluster_call|].
  enough (after w c (Reconcile (cluster_key c) w).1) as (Hd & Hafter).
  { split; [exact Hd|]. destruct Hafter as [Hu|(h & c' & Hh & [] & Hw)]; [by left|right]. by exists h, c'. }
  unfold Reconcile. rewrite bind_run. unfold attempt, get_object, request. destruct (fault _) as [e|] eqn:Hfault.
  { apply after_fault; [by eexists _, _|]. unfold ignore_not_found. by destruct (IsNotFound e). }
  rewrite (Hc : w_clusters (tick w) !! cluster_key c = Some c). cbn [require]. rewrite bind_run. cbn [now].
  set (c1 := if str_empty _ then _ else _). cbv zeta.
  assert (Cluster_Meta c1 = Cluster_Meta c /\ Cluster_Spec c1 = Cluster_Spec c /\
    Cluster_Conditions (Cluster_Status c1) = Cluster_Conditions (Cluster_Status c) /\
    (Cluster_Phase (Cluster_Status c) = "" /\ Cluster_Phase (Cluster_Status c1) = ClusterPhaseImporting \/
     Cluster_Phase (Cluster_Status c) <> "" /\ c1 = c)) as (Hm & Hs & Hcs & Hph).
  { unfold c1. destruct (Cluster_Phase (Cluster_Status c)) eqn:Hp; cbn; [by split_and!; auto|].
    split_and!; auto. }
  clearbody c1.
  match goal with |- after _ _ (?m _).1 =>
    enough (hoare (probing w c) m (fun _ => after w c)) as H by (apply (H (tick w)); by split) end.
  assert (invalid_cluster c1 = invalid_cluster c) as Hinv by (unfold invalid_cluster; by rewrite Hs).
  rewrite Hinv. unfold cluster_id. rewrite Hm. destruct (invalid_cluster c) eqn:Hi.
  { apply hoare_unprobed, hoare_clear, (hoare_store w c Hc (its_health w c)); [by left|].
    split; [exact Hm|exact Hs|rewrite Hi; by apply step_invalid|]. rewrite <- Hcs. conditions. }
  destruct (String.eqb_spec (Cluster_Phase (Cluster_Status c1)) ClusterPhaseFailed) as [Hf|Hf].
  { apply hoare_unprobed, hoare_clear. intros w1 (H1 & _ & _ & H4). split; [exact H4|]. left. split; [exact H1|]. right.
    split; [done|]. destruct Hph as [[_ H]|[_ ->]]; [by rewrite H in Hf|exact Hf]. }
  destruct (String.eqb_spec (Cluster_Phase (Cluster_Status c1)) ClusterPhaseImporting) as [Hp|Hp].
  { apply hoare_Importing; [done..|]. destruct Hph as [[? _]|[? ->]]; auto. }
  destruct Hph as [[_ ?]|[Hne ->]]; [done|].
  destruct (String.eqb_spec (Cluster_Phase (Cluster_Status c)) ClusterPhaseReady) as [Hr|Hr]; [by apply hoare_Ready|].
  destruct (String.eqb_spec (Cluster_Phase (Cluster_Status c)) ClusterPhaseNotReady) as [Hn|Hn]; [by apply hoare_NotReady|].
  apply hoare_unprobed, (hoare_store w c Hc (its_health w c)); [by left|]. split; [done|done| |conditions].
  rewrite Hi. apply step_unknown; [done|]. rewrite !elem_of_cons, elem_of_nil. naive_solver.
Qed.
End properties.

(** ** Requests *)

Definition total (l : list Z) : Z := foldr Z.add 0%Z l.
Lemma total_app l l' : total (l ++ l') = (total l + total l')%Z.
Proof. unfold total. induction l as [|x l IH]; cbn; [done|]. rewrite IH. lia. Qed.

(** What the containers of a pod request, and the pods that count for a node. *)
Definition container_cpu (p : Pod) : Z := total ((fun c => quantity c.1) <$> Pod_Requests p).
Definition container_memory (p : Pod) : Z := total ((fun c => quantity c.2) <$> Pod_Requests p).
Definition pods_on (node : string) (pods : list Pod) : list Pod :=
  List.filter (fun p => counted_pod p && String.eqb (Pod_NodeName p) node) pods.
Definition requested_on (node : string) (pods : list Pod) : NodeResources :=
  let l := pods_on node pods in
  mkNodeResources (total (container_cpu <$> l)) (total (container_memory <$> l)) (Z.of_nat (length l) * quantity_one)%Z.

Lemma add_requests_total cs agg : foldl add_requests agg cs =
  mkNodeResources (NR_CPU agg + total ((fun c => quantity c.1) <$> cs))
    (NR_Memory agg + total ((fun c => quantity c.2) <$> cs)) (NR_Pods agg)%Z.
Proof.
  revert agg. induction cs as [|[cpu mem] cs IH]; intros agg; cbn.
  - rewrite !Z.add_0_r. by destruct agg.
  - rewrite IH. destruct cpu, mem; cbn; unfold quantity, total; cbn; f_equal; lia.
Qed.

Lemma requested_snoc node pods p : Pod_InitRequests p = [] ->
  requested_on node (pods ++ [p]) =
    if counted_pod p && String.eqb (Pod_NodeName p) node then pod_requests (requested_on node pods) p
    else requested_on node pods.
Proof.
  intros Hinit. unfold requested_on, pods_on. rewrite List.filter_app. cbn.
  destruct (counted_pod p && _); cbn; [|by rewrite app_nil_r].
  unfold pod_requests. rewrite Hinit. cbn [foldl]. rewrite add_requests_total. cbn [NR_CPU NR_Memory NR_Pods].
  rewrite !fmap_app, !total_app, length_app. cbn. unfold container_cpu, container_memory, quantity_one. f_equal; lia.
Qed.

(** Without init containers, what is requested on a node is the sum over its
    pods that have not ended, one pod each; the node's summary has it, and what is
    free is what can be allocated less that. *)
Theorem node_summary_requests pods n :
  Forall (fun p => Pod_InitRequests p = []) pods ->
  let s := node_summary (sumPodRequestsByNode pods) n in
  let a := Node_Allocatable n in
  NS_Requested s = requested_on (Node_Name n) pods /\
  NR_CPU (NS_Free s) = (quantity (NRL_CPU a) - total (container_cpu <$> pods_on (Node_Name n) pods))%Z /\
  NR_Memory (NS_Free s) = (quantity (NRL_Memory a) - total (container_memory <$> pods_on (Node_Name n) pods))%Z /\
  NR_Pods (NS_Free s) = (quantity (NRL_Pods a) - Z.of_nat (length (pods_on (Node_Name n) pods)) * quantity_one)%Z.
Proof.
  intros Hinit. cbv zeta.
  assert (forall node, default no_resources (sumPodRequestsByNode pods !! node) = requested_on node pods) as Hreq.
  { unfold sumPodRequestsByNode. induction pods as [|p pods IH] using rev_ind; intros node; [done|].
    apply Forall_app in Hinit as [Hinit Hp]. rewrite Forall_singleton in Hp. rewrite foldl_app, (requested_snoc _ _ _ Hp). cbn.
    unfold add_pod. destruct (counted_pod p); cbn [andb]; [|by apply IH].
    rewrite (IH Hinit). destruct (String.eqb_spec (Pod_NodeName p) node) as [->|Hne].
    - by rewrite lookup_insert_eq.
    - rewrite lookup_insert_ne by done. by apply IH. }
  unfold node_summary. rewrite Hreq. done.
Qed.

(** With init containers the result depends on the order of the pods: the maximum is
    taken with the sum over the pods so far. *)
Definition init_pod (name : string) (cpu init : Z) : Pod :=
  mkPod name ∅ "Running" "n1" [] [(Some cpu, None)] [(Some init, None)] [true].
Example init_requests_order :
  NR_CPU <$> (sumPodRequestsByNode [init_pod "a" 1 10; init_pod "b" 5 0] !! "n1") = Some 15%Z /\
  NR_CPU <$> (sumPodRequestsByNode [init_pod "b" 5 0; init_pod "a" 1 10] !! "n1") = Some 10%Z.
Proof. split; by_eval. Qed.

(** ** A client that is out of date *)

Section stale.
Context {KUBE : KubeLib} (key : Key).

(** A valid cluster that is NotReady, and whose cached client has nobody to talk to. *)
Definition stale (w : World) : Prop :=
  exists c cs, w_clusters w !! key = Some c /\ cluster_key c = key /\ invalid_cluster c = false /\
    Cluster_Phase (Cluster_Status c) = ClusterPhaseNotReady /\
    w_cluster_clients w !! key.2 = Some cs /\ w_members w !! cs = None.

(** Reconciliations, with the secrets changed before each. *)
Definition retries (secrets : list (gmap Key Secret)) (w : World) : World :=
  foldl (fun w ss => (Reconcile key (set_secrets (fun _ => ss) w)).1) w secrets.

Lemma stale_report c c' cs w res : w_clusters w !! key = Some c ->
  Cluster_Meta c' = Cluster_Meta c -> Cluster_Spec c' = Cluster_Spec c ->
  Cluster_Phase (Cluster_Status c') = ClusterPhaseNotReady -> cluster_key c = key -> invalid_cluster c = false ->
  Cluster_Phase (Cluster_Status c) = ClusterPhaseNotReady ->
  w_cluster_clients w !! key.2 = Some cs -> w_members w !! cs = None -> stale (report c' res w).1.
Proof.
  intros Hc Hm Hs Hp Hkey Hinv Hp0 Hcs Hmem. unfold report. rewrite bind_run. unfold ignore, update_cluster_status, request.
  destruct (fault _); cbn; [by exists c, cs|].
  assert ((Namespace (Cluster_Meta c'), Name (Cluster_Meta c')) = key) as -> by (by rewrite Hm, <- Hkey).
  rewrite Hc. cbn. exists (mkCluster (Cluster_Meta c) (Cluster_Spec c) (Cluster_Status c')), cs.
  cbn. rewrite lookup_insert_eq. split_and!; done.
Qed.

Lemma stale_step w : stale w -> stale (Reconcile key w).1.
Proof.
  intros (c & cs & Hc & Hkey & Hinv & Hp & Hcs & Hmem). unfold Reconcile. rewrite bind_run.
  unfold attempt, get_object, request. destruct (fault _) as [e|].
  { unfold ignore_not_found. cbn. destruct (IsNotFound e); by exists c, cs. }
  rewrite (Hc : w_clusters (tick w) !! key = Some c). cbn [require]. rewrite bind_run. cbn [now]. cbv beta iota zeta.
  assert (str_empty (Cluster_Phase (Cluster_Status c)) = false) as -> by (by rewrite Hp). rewrite Hinv, Hp.
  match goal with |- stale ?x.1 => change x with (reconcileNotReady c (tick w)) end.
  assert (Name (Cluster_Meta c) = key.2) as Hname by (by rewrite <- Hkey).
  assert (forall res c', Cluster_Meta c' = Cluster_Meta c -> Cluster_Spec c' = Cluster_Spec c ->
    Cluster_Phase (Cluster_Status c') = ClusterPhaseNotReady -> forall w', w_clusters w' = w_clusters w ->
    w_cluster_clients w' = w_cluster_clients w -> w_members w' = w_members w -> stale (report c' res w').1) as Hrep.
  { intros res c' Hm Hs Hp' w' H1 H2 H3. apply (stale_report c c' cs); by rewrite ?H1, ?H2, ?H3. }
  unfold reconcileNotReady. rewrite bind_run. cbn [now]. rewrite bind_run. unfold attempt, getKubeconfigSecret, get_object, request.
  destruct (fault _) as [e|]; [destruct (IsNotFound e); [by apply Hrep|by exists c, cs]|].
  destruct (w_secrets _ !! _) as [sec|]; cbn [require]; [|by apply Hrep].
  rewrite bind_run. unfold getOrBuildClient, cluster_id. rewrite Hname.
  rewrite (Hcs : w_cluster_clients (tick (tick w)) !! key.2 = Some cs). rewrite bind_run.
  unfold server_version, member_request, request. destruct (fault _); [by apply Hrep|].
  rewrite (Hmem : w_members (tick (tick (tick w))) !! cs = None). by apply Hrep.
Qed.

(** A cluster whose member moved stays NotReady: the client in the cache is
    used again and again, whatever becomes of the secrets, of the requests and of
    the rest of the member, so that a corrected kubeconfig is never tried. *)
Theorem stale_client_keeps_NotReady secrets w : stale w -> stale (retries secrets w).
Proof.
  unfold retries. revert w. induction secrets as [|ss secrets IH]; intros w Hw; [exact Hw|]. cbn.
  apply IH, stale_step. destruct Hw as (c & cs & Hw). by exists c, cs.
Qed.
End stale.

(** ** Concrete runs *)

#[local] Existing Instance reliable_kube.

Definition demo_member_cluster (phase : string) : Cluster :=
  mkCluster (mkMeta "c1" "kubex-system" "u" 1 ∅ ∅ [] None []) (mkClusterSpec "https://c1" "c1-secret")
    (mkClusterStatus phase None None [] (mkResources (mkResourceList 0 0) (mkResourceList 0 0) 0 0) []).
Definition demo_secrets (endpoint : string) : gmap Key Secret :=
  {[("kubex-system", "c1-secret") := mkSecret [] {["kubeconfig" := endpoint]}]}.
Definition demo_cluster_world (phase : string) (clients : gmap string string) : World :=
  mkWorld ∅ ∅ ∅ {[("kubex-system", "c1") := demo_member_cluster phase]} (demo_secrets "https://c1")
    {["https://c1" := mkMember ∅ ∅ ∅ ∅]} ∅ ∅ 7 0 empty_policy_state clients.

Example demo_import :
  (fun c => Cluster_Phase (Cluster_Status c)) <$>
    w_clusters (Reconcile ("kubex-system", "c1") (demo_cluster_world "" ∅)).1 !! ("kubex-system", "c1") = Some "Ready".
Proof. by_eval. Qed.

Lemma mergeCondition_spec_witness :
  condition_of "Ready" (mergeCondition [mkCondition "Ready" "True" 1 (Some 5%Z) "Old" ""]
    (mkCondition "Ready" "True" 2 (Some 9%Z) "New" "")) = Some (mkCondition "Ready" "True" 2 (Some 5%Z) "New" "").
Proof.
  exact (proj1 (proj2 (mergeCondition_spec [mkCondition "Ready" "True" 1 (Some 5%Z) "Old" ""]
    (mkCondition "Ready" "True" 2 (Some 9%Z) "New" "") ltac:(by_computation)))).
Defined.

Lemma Reconcile_cluster_witness :
  exists c', w_clusters (Reconcile ("kubex-system", "c1") (demo_cluster_world "" ∅)).1 =
      <[("kubex-system", "c1") := c']> (w_clusters (demo_cluster_world "" ∅)) /\
    phase_step false Healthy "" (Cluster_Phase (Cluster_Status c')).
Proof.
  destruct (Reconcile_cluster ("kubex-system", "c1") (demo_member_cluster "") (demo_cluster_world "" ∅))
    as (_ & _ & [[_ [(n & e & H)|[_ H]]]|(h & c' & Hh & Hw & _ & _ & Hstep & _)]); [reflexivity|reflexivity|discriminate|discriminate|].
  exists c'. split; [exact Hw|]. destruct Hh as [->|[(n & e & H) _]]; [exact Hstep|discriminate].
Defined.

Definition busy_pod : Pod := mkPod "a" ∅ "Running" "n1" [] [(Some 3%Z, Some 5%Z)] [] [true].
Lemma node_summary_requests_witness :
  NR_CPU (NS_Free (node_summary (sumPodRequestsByNode [busy_pod])
    (mkNodeObject "n1" "u" ∅ (mkNodeResourceList None None None) (mkNodeResourceList (Some 10%Z) None None) []))) = 7%Z.
Proof.
  exact (proj1 (proj2 (node_summary_requests [busy_pod]
    (mkNodeObject "n1" "u" ∅ (mkNodeResourceList None None None) (mkNodeResourceList (Some 10%Z) None None) [])
    ltac:(by_computation)))).
Defined.

Lemma stale_client_keeps_NotReady_witness :
  stale ("kubex-system", "c1") (retries ("kubex-system", "c1") [demo_secrets "https://c1"; demo_secrets "https://c1"]
    (demo_cluster_world "NotReady" {["c1" := "https://old"]})).
Proof.
  apply stale_client_keeps_NotReady. exists (demo_member_cluster "NotReady"), "https://old".
  split_and!; reflexivity.
Defined.
