(* ===== verification/PlanController.v ===== *)
(** * The ReOrchestrationPlan controller (internal/controller/reorchestrationplan_controller.go)

    A plan is decided on by its strategy annotation, its moves are turned into
    reschedule requests on the replica bindings, and its phase converges with
    the bindings. Metrics and log lines are not modelled. *)

From S2P Require Import Prelude GoTime ApiTypes KubeApi.

Local Open Scope string_scope.
Local Open Scope list_scope.

Definition planExecutionTimeoutAnnotation : string := "kubex.io/execution-timeout".
Definition defaultPlanExecutionTimeout : Z := 10 * Minute.

Definition plan_key (plan : ReOrchestrationPlan) : Key := (Namespace (Plan_Meta plan), Name (Plan_Meta plan)).

(** [fmt.Sprintf("%s-rb-%d", ref.Name, index)] in the namespace of the reference. *)
Definition rb_key_of_move (mv : PlanMove) : Key :=
  (Ref_Namespace (PM_GlobalDeploymentRef mv),
   Ref_Name (PM_GlobalDeploymentRef mv) +:+ "-rb-" +:+ pretty (PM_ReplicaIndex mv)).

(** The same deployment and replica. *)
Definition same_move (ms : MoveStatus) (mv : PlanMove) : bool :=
  String.eqb (Ref_Name (MS_GlobalDeploymentRef ms)) (Ref_Name (PM_GlobalDeploymentRef mv)) &&
  String.eqb (Ref_Namespace (MS_GlobalDeploymentRef ms)) (Ref_Namespace (PM_GlobalDeploymentRef mv)) &&
  (MS_ReplicaIndex ms =? PM_ReplicaIndex mv)%Z.

Definition with_status (plan : ReOrchestrationPlan) (st : ReOrchestrationPlanStatus) : ReOrchestrationPlan :=
  mkPlan (Plan_Meta plan) (Plan_Spec plan) st.
Definition with_phase (phase : string) (st : ReOrchestrationPlanStatus) : ReOrchestrationPlanStatus :=
  mkPlanStatus phase (Status_Summary st) (StartTime st) (CompletionTime st) (MoveStatuses st) (Plan_Conditions st).
Definition with_conditions (cs : list Condition) (st : ReOrchestrationPlanStatus) : ReOrchestrationPlanStatus :=
  mkPlanStatus (Plan_Phase st) (Status_Summary st) (StartTime st) (CompletionTime st) (MoveStatuses st) cs.
Definition with_moves (ms : list MoveStatus) (st : ReOrchestrationPlanStatus) : ReOrchestrationPlanStatus :=
  mkPlanStatus (Plan_Phase st) (Status_Summary st) (StartTime st) (CompletionTime st) ms (Plan_Conditions st).
Definition with_summary (s : PlanExecutionSummary) (st : ReOrchestrationPlanStatus) : ReOrchestrationPlanStatus :=
  mkPlanStatus (Plan_Phase st) s (StartTime st) (CompletionTime st) (MoveStatuses st) (Plan_Conditions st).
Definition with_start (t : Time) (st : ReOrchestrationPlanStatus) : ReOrchestrationPlanStatus :=
  mkPlanStatus (Plan_Phase st) (Status_Summary st) t (CompletionTime st) (MoveStatuses st) (Plan_Conditions st).
Definition with_completion (t : Time) (st : ReOrchestrationPlanStatus) : ReOrchestrationPlanStatus :=
  mkPlanStatus (Plan_Phase st) (Status_Summary st) (StartTime st) t (MoveStatuses st) (Plan_Conditions st).

(** Move statuses created from the moves of the spec. *)
Definition initial_move_statuses (moves : list PlanMove) : list MoveStatus :=
  (fun mv => mkMoveStatus (PM_GlobalDeploymentRef mv) (PM_ReplicaIndex mv) MoveExecutionStatusPending "") <$> moves.

(** [strings.Trim(s, "/")]. *)
Fixpoint trim_left (s : string) : string :=
  match s with String "/" s' => trim_left s' | _ => s end.
Fixpoint trim_right (s : string) : string :=
  match s with
  | EmptyString => EmptyString
  | String c s' =>
      let r := trim_right s' in
      if str_empty r && Ascii.eqb c "/" then EmptyString else String c r
  end.
Definition trim_slashes (s : string) : string := trim_right (trim_left s).

(** [if v, ok := m[k]; ok && v != "" { x = v }]. *)
Definition label_or (m : gmap string string) (k default_value : string) : string :=
  match m !! k with
  | Some v => if str_empty v then default_value else v
  | None => default_value
  end.

(** [func (r) buildRescheduleRequestToken(plan) string]. *)
Definition buildRescheduleRequestToken (plan : ReOrchestrationPlan) : string :=
  let labels := Labels (Plan_Meta plan) in
  let policyNS := label_or labels "kubex.io/policy-namespace" (Namespace (Plan_Meta plan)) in
  let policyName := label_or labels "kubex.io/policy-name" (PolicyName (Spec_Summary (Plan_Spec plan))) in
  let tok := trim_slashes (policyNS +:+ "/" +:+ policyName +:+ "/" +:+ Name (Plan_Meta plan)) in
  if str_empty (UID (Plan_Meta plan)) then tok else tok +:+ "#" +:+ UID (Plan_Meta plan).

(** [func (r) computeMoveStatus(plan, rb, mv) (status, message)]; the move is not read. *)
Definition computeMoveStatus (plan : ReOrchestrationPlan) (rb : ReplicaBinding) : string * string :=
  if String.eqb (RB_Phase (RB_Status rb)) ReplicaBindingPhaseFailed then
    (MoveExecutionStatusFailed,
     if str_empty (LastError (RB_Status rb)) then "replicabinding failed" else LastError (RB_Status rb))
  else
    let expectedReq := buildRescheduleRequestToken plan in
    if negb (str_empty expectedReq) && negb (String.eqb (RescheduleRequest (RB_Spec rb)) expectedReq) then
      (MoveExecutionStatusInProgress,
       "waiting for intent applied (wantRescheduleRequest=" +:+ expectedReq +:+ ")")
    else if String.eqb (RB_Phase (RB_Status rb)) ReplicaBindingPhaseRescheduling ||
            String.eqb (RB_Phase (RB_Status rb)) ReplicaBindingPhaseApplying then
      (MoveExecutionStatusInProgress, "waiting for reschedule handling")
    else if String.eqb (RB_Phase (RB_Status rb)) ReplicaBindingPhaseRunning then
      (MoveExecutionStatusSucceeded, "reschedule completed")
    else (MoveExecutionStatusInProgress, "handled, waiting for terminal result").

(** The first status of the move, replaced by [f]; [None] when there is none. *)
Fixpoint update_first (mv : PlanMove) (f : MoveStatus -> MoveStatus) (l : list MoveStatus)
    : option (list MoveStatus) :=
  match l with
  | [] => None
  | ms :: l' =>
      if same_move ms mv then Some (f ms :: l')
      else match update_first mv f l' with Some r => Some (ms :: r) | None => None end
  end.

Definition set_move_status (st msg : string) (ms : MoveStatus) : MoveStatus :=
  mkMoveStatus (MS_GlobalDeploymentRef ms) (MS_ReplicaIndex ms) st msg.

(** The counters of the summary loop: int32 increments. *)
Definition summary_step (acc : PlanExecutionSummary) (ms : MoveStatus) : PlanExecutionSummary :=
  let total := wrap32 (TotalMoves acc + 1) in
  if String.eqb (MS_Status ms) MoveExecutionStatusSucceeded then
    mkExecutionSummary total (wrap32 (SucceededMoves acc + 1)) (FailedMoves acc) (PendingMoves acc)
  else if String.eqb (MS_Status ms) MoveExecutionStatusFailed then
    mkExecutionSummary total (SucceededMoves acc) (wrap32 (FailedMoves acc + 1)) (PendingMoves acc)
  else mkExecutionSummary total (SucceededMoves acc) (FailedMoves acc) (wrap32 (PendingMoves acc + 1)).

Definition summarize (l : list MoveStatus) : PlanExecutionSummary :=
  foldl summary_step (mkExecutionSummary 0 0 0 0) l.

Definition terminal_move (ms : MoveStatus) : bool :=
  String.eqb (MS_Status ms) MoveExecutionStatusSucceeded || String.eqb (MS_Status ms) MoveExecutionStatusFailed.

(** [allTerminal], [anyFailed], [anySucceeded] and the final phase. *)
Definition final_phase (l : list MoveStatus) : option string :=
  let anyFailed := existsb (fun ms => String.eqb (MS_Status ms) MoveExecutionStatusFailed) l in
  let anySucceeded := existsb (fun ms => String.eqb (MS_Status ms) MoveExecutionStatusSucceeded) l in
  if forallb terminal_move l then
    Some (if anyFailed && anySucceeded then PlanPhasePartiallyFailed
          else if anyFailed then PlanPhaseFailed else PlanPhaseSucceeded)
  else None.

(** The strategy of a plan and the phase and condition it leads to. *)
Definition plan_strategy (plan : ReOrchestrationPlan) : string :=
  default OptimizationStrategyPreview (Annotations (Plan_Meta plan) !! "kubex.io/strategy").

Definition desired_phase (strategy : string) : string :=
  if String.eqb strategy OptimizationStrategyPreview then PlanPhasePending
  else if String.eqb strategy OptimizationStrategyConservative ||
          String.eqb strategy OptimizationStrategyAggressive then PlanPhaseExecuting
  else PlanPhasePending.

Definition decision_condition (plan : ReOrchestrationPlan) (t : Z) (quoted strategy : string) : Condition :=
  let cond := mkCondition "ExecutionDecision" in
  if String.eqb strategy OptimizationStrategyPreview then
    cond "True" (Generation (Plan_Meta plan)) (Some t) "Preview" "Preview strategy: plan will not be executed"
  else if String.eqb strategy OptimizationStrategyConservative ||
          String.eqb strategy OptimizationStrategyAggressive then
    cond "True" (Generation (Plan_Meta plan)) (Some t) "AutoExecute"
      ("strategy=" +:+ strategy +:+ ": plan enters Executing")
  else
    cond "False" (Generation (Plan_Meta plan)) (Some t) "UnknownStrategy"
      ("unknown strategy " +:+ quoted +:+ ": keep Pending").

(** [PlanPhaseSucceeded || PlanPhaseFailed || PlanPhasePartiallyFailed || PlanPhaseTerminating]. *)
Definition finished_phase (phase : string) : bool :=
  String.eqb phase PlanPhaseSucceeded || String.eqb phase PlanPhaseFailed ||
  String.eqb phase PlanPhasePartiallyFailed || String.eqb phase PlanPhaseTerminating.

(** The timeout of a plan. *)
Definition plan_timeout (plan : ReOrchestrationPlan) : Z :=
  match Annotations (Plan_Meta plan) !! planExecutionTimeoutAnnotation with
  | None => defaultPlanExecutionTimeout
  | Some v =>
      match ParseDuration v with
      | Some d => d
      | None => match Atoi v with Some secs => wrap64 (secs * Second) | None => defaultPlanExecutionTimeout end
      end
  end.

Definition timed_out (plan : ReOrchestrationPlan) (t : Z) : bool :=
  match StartTime (Plan_Status plan) with
  | None => false
  | Some start => (t - start >? plan_timeout plan)%Z
  end.

Section controller.
Context {KUBE : KubeLib}.
(** [%q] of package fmt. *)
Variable fmt_q : string -> string.

(** [func (r) patchMoveStatusIf(ctx, plan, mv, from, to, msg)]. *)
Definition patchMoveStatusIf (plan : ReOrchestrationPlan) (mv : PlanMove) (from to msg : string) : M unit :=
  r ← attempt (get_object w_plans (plan_key plan));
  match r with
  | Err e => ignore_not_found tt e
  | Ok latest =>
      match list_find (fun ms => same_move ms mv = true) (MoveStatuses (Plan_Status latest)) with
      | Some (_, ms) =>
          if String.eqb (MS_Status ms) from then
            match update_first mv (set_move_status to msg) (MoveStatuses (Plan_Status latest)) with
            | Some l => patch_plan_status (with_status latest (with_moves l (Plan_Status latest)))
            | None => mret tt
            end
          else mret tt
      | None => mret tt
      end
  end.

(** The move statuses after [patchMoveStatus]: updated in place or appended. *)
Definition put_move_status (mv : PlanMove) (st msg : string) (l : list MoveStatus) : list MoveStatus :=
  match update_first mv (set_move_status st msg) l with
  | Some l' => l'
  | None => l ++ [mkMoveStatus (PM_GlobalDeploymentRef mv) (PM_ReplicaIndex mv) st msg]
  end.

(** [func (r) patchMoveStatus(ctx, plan, mv, st, msg)]. *)
Definition patchMoveStatus (plan : ReOrchestrationPlan) (mv : PlanMove) (st msg : string) : M unit :=
  r ← attempt (get_object w_plans (plan_key plan));
  match r with
  | Err e => ignore_not_found tt e
  | Ok latest =>
      patch_plan_status (with_status latest
        (with_moves (put_move_status mv st msg (MoveStatuses (Plan_Status latest))) (Plan_Status latest)))
  end.

(** [func (r) recomputePlanExecutionSummary(ctx, plan)]. *)
Definition recomputePlanExecutionSummary (plan : ReOrchestrationPlan) : M unit :=
  r ← attempt (get_object w_plans (plan_key plan));
  match r with
  | Err e => ignore_not_found tt e
  | Ok latest =>
      patch_plan_status (with_status latest
        (with_summary (summarize (MoveStatuses (Plan_Status latest))) (Plan_Status latest)))
  end.

(** The intent of a move written on a replica binding, and its absence. *)
Definition needPatch (rb : ReplicaBinding) (mv : PlanMove) (reqToken : string) : bool :=
  negb (String.eqb (TargetCluster (RB_Spec rb)) (Loc_ClusterID (PM_Destination mv))) ||
  negb (String.eqb (TargetNodeName (RB_Spec rb)) (Loc_NodeName (PM_Destination mv))) ||
  negb (Bool.eqb (Reschedule (RB_Spec rb)) true) ||
  negb (String.eqb (RescheduleRequest (RB_Spec rb)) reqToken).

Definition with_intent (rb : ReplicaBinding) (mv : PlanMove) (reqToken : string) : ReplicaBinding :=
  mkRB (RB_Meta rb)
    (mkRBSpec (RBS_GlobalDeploymentRef (RB_Spec rb)) (RBS_ReplicaIndex (RB_Spec rb))
       (Loc_ClusterID (PM_Destination mv)) (Loc_NodeName (PM_Destination mv)) true reqToken)
    (RB_Status rb).

Definition with_rescheduling (rb : ReplicaBinding) (t : Z) : ReplicaBinding :=
  mkRB (RB_Meta rb) (RB_Spec rb)
    (mkRBStatus ReplicaBindingPhaseRescheduling "" (Some t) (RB_NodeName (RB_Status rb))
       (RB_ClusterName (RB_Status rb)) (RB_Reschedule (RB_Status rb))).

(** One pass of the loop of [executeMoves]. *)
Definition apply_move (latest : ReOrchestrationPlan) (mv : PlanMove) : M unit :=
  let rbKey := rb_key_of_move mv in
  let fail msg := ignore (patchMoveStatus latest mv MoveExecutionStatusFailed msg) in
  let applied :=
    ignore (patchMoveStatusIf latest mv MoveExecutionStatusPending MoveExecutionStatusInProgress
              "reschedule intent applied") in
  r ← attempt (get_object w_rbs rbKey);
  match r with
  | Err e => fail ("ReplicaBinding " +:+ rbKey.1 +:+ "/" +:+ rbKey.2 +:+ " not found: " +:+ error_text e)
  | Ok rb =>
      let reqToken := buildRescheduleRequestToken latest in
      if needPatch rb mv reqToken then
        p ← attempt (patch_rb (with_intent rb mv reqToken));
        match p with
        | Err e => fail ("patch ReplicaBinding spec failed: " +:+ error_text e)
        | Ok _ =>
            g ← attempt (get_object w_rbs rbKey);
            match g with
            | Err e => fail ("re-get ReplicaBinding failed after spec patch: " +:+ error_text e)
            | Ok rbLatest =>
                if String.eqb (RB_Phase (RB_Status rbLatest)) ReplicaBindingPhaseRescheduling then applied
                else
                  t ← now;
                  s ← attempt (patch_rb_status (with_rescheduling rbLatest t));
                  match s with
                  | Err e => fail ("patch ReplicaBinding status failed: " +:+ error_text e)
                  | Ok _ => applied
                  end
            end
        end
      else applied
  end.

(** The statuses a plan with moves and no statuses starts with. *)
Definition ensure_moves (plan : ReOrchestrationPlan) (st : ReOrchestrationPlanStatus) : ReOrchestrationPlanStatus :=
  match MoveStatuses st, Moves (Plan_Spec plan) with
  | [], _ :: _ => with_moves (initial_move_statuses (Moves (Plan_Spec plan))) st
  | _, _ => st
  end.

(** No move statuses although the plan has moves. *)
Definition moves_uninitialised (plan : ReOrchestrationPlan) : bool :=
  match MoveStatuses (Plan_Status plan), Moves (Plan_Spec plan) with
  | [], _ :: _ => true
  | _, _ => false
  end.

(** [func (r) executeMoves(ctx, plan) error]. *)
Definition executeMoves (plan : ReOrchestrationPlan) : M unit :=
  r ← attempt (get_object w_plans (plan_key plan));
  match r with
  | Err e => ignore_not_found tt e
  | Ok read =>
      t ← now;
      let unstarted := match StartTime (Plan_Status read) with None => true | Some _ => false end in
      let st := if unstarted then with_start (Some t) (Plan_Status read) else Plan_Status read in
      let latest := with_status read (ensure_moves read st) in
      (if unstarted || moves_uninitialised read then patch_plan_status latest else mret tt) ≫= fun _ =>
      for_each (apply_move latest) (Moves (Plan_Spec latest)) ≫= fun _ =>
      ignore (recomputePlanExecutionSummary latest)
  end.

(** [cond] of a finished plan. *)
Definition completed_condition (plan : ReOrchestrationPlan) (t : Z) (finalPhase : string) : Condition :=
  mkCondition "ExecutionCompleted" "True" (Generation (Plan_Meta plan)) (Some t) finalPhase
    ("plan finished with phase=" +:+ finalPhase).

(** The status written when every move is terminal. *)
Definition finished_status (plan : ReOrchestrationPlan) (t : Z) (finalPhase : string) : ReOrchestrationPlanStatus :=
  let st := Plan_Status plan in
  let completion := match CompletionTime st with None => Some t | c => c end in
  with_conditions (SetStatusCondition (Plan_Conditions st) (completed_condition plan t finalPhase))
    (with_completion completion (with_phase finalPhase st)).

(** [func (r) convergePlanPhase(ctx, plan) (ctrl.Result, error)]; of its argument
    only the key is read. *)
Definition convergePlanPhase (key : Key) : M Result :=
  r ← attempt (get_object w_plans key);
  match r with
  | Err e => ignore_not_found Done e
  | Ok read =>
      ignore (recomputePlanExecutionSummary read) ≫= fun _ =>
      r2 ← attempt (get_object w_plans key);
      match r2 with
      | Err e => ignore_not_found Done e
      | Ok latest =>
          if moves_uninitialised latest then mret (mkResult (500 * Millisecond))
          else
            match final_phase (MoveStatuses (Plan_Status latest)) with
            | None => mret (mkResult (2 * Second))
            | Some finalPhase =>
                if String.eqb (Plan_Phase (Plan_Status latest)) finalPhase &&
                   match CompletionTime (Plan_Status latest) with Some _ => true | None => false end
                then mret Done
                else
                  t ← now;
                  patch_plan_status (with_status latest (finished_status latest t finalPhase)) ≫= fun _ =>
                  mret Done
            end
      end
  end.

(** One pass of the loop of [monitorAndConverge]. *)
Definition observe_move (latest : ReOrchestrationPlan) (mv : PlanMove) : M unit :=
  r ← attempt (get_object w_rbs (rb_key_of_move mv));
  match r with
  | Err _ => mret tt
  | Ok rb =>
      let '(desired, msg) := computeMoveStatus latest rb in
      ignore (patchMoveStatus latest mv desired msg)
  end.

(** The body of [monitorAndConverge] once the statuses exist. The statuses a
    timeout marks belong to the copy [latest] of this call; [convergePlanPhase]
    reads only the name and the namespace of that copy. *)
Definition monitor_moves (latest : ReOrchestrationPlan) : M Result :=
  t ← now;
  if timed_out latest t then convergePlanPhase (plan_key latest)
  else
    for_each (observe_move latest) (Moves (Plan_Spec latest)) ≫= fun _ =>
    convergePlanPhase (plan_key latest).

(** [func (r) monitorAndConverge(ctx, plan) (ctrl.Result, error)]. *)
Definition monitorAndConverge (plan : ReOrchestrationPlan) : M Result :=
  r ← attempt (get_object w_plans (plan_key plan));
  match r with
  | Err e => ignore_not_found Done e
  | Ok read =>
      if moves_uninitialised read then
        patch_plan_status (with_status read (ensure_moves read (Plan_Status read))) ≫= fun _ =>
        r2 ← attempt (get_object w_plans (plan_key plan));
        match r2 with
        | Err e => ignore_not_found Done e
        | Ok latest => monitor_moves latest
        end
      else monitor_moves read
  end.

(** [func (r) Reconcile(ctx, req) (ctrl.Result, error)]. *)
Definition Reconcile (key : Key) : M Result :=
  r ← attempt (get_object w_plans key);
  match r with
  | Err e => ignore_not_found Done e
  | Ok plan =>
      let strategy := plan_strategy plan in
      if finished_phase (Plan_Phase (Plan_Status plan)) then mret Done
      else
        t ← now;
        let desiredPhase := desired_phase strategy in
        let cond := decision_condition plan t (fmt_q strategy) strategy in
        let decided :=
          with_status plan (with_conditions (SetStatusCondition (Plan_Conditions (Plan_Status plan)) cond)
                              (with_phase desiredPhase (Plan_Status plan))) in
        let phaseChanged := negb (String.eqb (Plan_Phase (Plan_Status plan)) desiredPhase) in
        let execute (plan : ReOrchestrationPlan) :=
          if String.eqb desiredPhase PlanPhaseExecuting then
            executeMoves plan ≫= fun _ => monitorAndConverge plan
          else mret Done in
        if phaseChanged then
          p ← attempt (patch_plan_status decided);
          match p with
          | Err e => ignore_not_found Done e
          | Ok _ => execute decided
          end
        else execute plan
  end.
End controller.

(** ** One plan in the store: everything else in the store of plans, and the
    plan's metadata and spec, are as in the beginning. *)

Definition stored (plans0 : gmap Key ReOrchestrationPlan) (p0 : ReOrchestrationPlan)
    (phi : ReOrchestrationPlanStatus -> Prop) (w : World) : Prop :=
  exists st, w_plans w = <[plan_key p0 := with_status p0 st]> plans0 /\ phi st.

(** [latest] is what is stored. *)
Definition current (plans0 : gmap Key ReOrchestrationPlan) (latest : ReOrchestrationPlan) (w : World) : Prop :=
  w_plans w = <[plan_key latest := latest]> plans0.

Section stored.
Context {KUBE : KubeLib} (plans0 : gmap Key ReOrchestrationPlan) (p0 : ReOrchestrationPlan).
Implicit Types (phi psi : ReOrchestrationPlanStatus -> Prop).
Local Notation stored := (stored plans0 p0).

Lemma keeps_stored {A} phi (m : M A) : preserves w_plans m -> keeps (stored phi) m.
Proof. intros Hm w (st & Hw & Hst). exists st. by rewrite Hm. Qed.

Lemma stored_weaken phi psi w : (forall st, phi st -> psi st) -> stored phi w -> stored psi w.
Proof. intros H (st & Hw & Hst). exists st. auto. Qed.

Lemma hoare_read phi :
  hoare (stored phi) (get_object w_plans (plan_key p0)) (fun r w =>
    match r with
    | Ok latest => exists st, latest = with_status p0 st /\ phi st /\ current plans0 (with_status p0 st) w
    | Err _ => stored phi w
    end).
Proof.
  apply hoare_get_object; [done|done|done|].
  intros w latest (st & Hw & Hst) Hk. rewrite Hw, lookup_insert_eq in Hk. simplify_eq.
  exists st. done.
Qed.

Lemma hoare_patch_exact phi psi st st' :
  phi st -> psi st' ->
  hoare (current plans0 (with_status p0 st)) (patch_plan_status (with_status p0 st'))
    (fun r => match r with Ok _ => stored psi | Err _ => stored phi end).
Proof.
  intros Hst Hst'. apply hoare_request.
  - intros w _ Hw. exists st. done.
  - intros w Hw. unfold current in Hw. cbn [w_plans tick]. rewrite Hw. cbn.
    change (Namespace (Plan_Meta p0), Name (Plan_Meta p0)) with (plan_key p0).
    change (plan_key (with_status p0 st)) with (plan_key p0).
    rewrite lookup_insert_eq. exists st'. split; [|done]. cbn. rewrite Hw.
    change (plan_key (with_status p0 st)) with (plan_key p0).
    by rewrite insert_insert_eq.
Qed.

Lemma hoare_patch phi st st' :
  phi st -> phi st' ->
  hoare (current plans0 (with_status p0 st)) (patch_plan_status (with_status p0 st')) (fun _ => stored phi).
Proof. intros H H'. eapply hoare_conseq; [apply (hoare_patch_exact phi phi st st' H H')|done|by intros []]. Qed.

(** A step that reads the plan and goes on with what is stored. *)
Lemma hoare_reading {B} phi (f : result api_error ReOrchestrationPlan -> M B)
    (Q : result api_error B -> World -> Prop) :
  (forall e, hoare (stored phi) (f (Err e)) Q) ->
  (forall st, phi st -> hoare (current plans0 (with_status p0 st)) (f (Ok (with_status p0 st))) Q) ->
  hoare (stored phi) (attempt (get_object w_plans (plan_key p0)) ≫= f) Q.
Proof.
  intros He Hf.
  apply hoare_bind with (R := fun r w =>
    match r with
    | Ok latest => exists st, latest = with_status p0 st /\ phi st /\ current plans0 (with_status p0 st) w
    | Err _ => stored phi w
    end).
  - apply hoare_attempt, hoare_read.
  - intros [latest|e]; [|apply He]. intros w (st & -> & Hst & Hw). by apply Hf.
Qed.

(** Read, compute a status, write it. *)
Lemma keeps_update phi (g : ReOrchestrationPlan -> ReOrchestrationPlanStatus) :
  (forall st, phi st -> phi (g (with_status p0 st))) ->
  keeps (stored phi)
    (r ← attempt (get_object w_plans (plan_key p0));
     match r with
     | Err e => ignore_not_found tt e
     | Ok latest => patch_plan_status (with_status latest (g latest))
     end).
Proof.
  intros Hg. apply hoare_reading; [apply keeps_ignore_not_found|].
  intros st Hst. apply (hoare_patch phi st); auto.
Qed.

(** The updates that keep the phase. *)
Definition phase_is (phase : string) (st : ReOrchestrationPlanStatus) : Prop := Plan_Phase st = phase.

Lemma keeps_patchMoveStatus phase st mv s msg :
  keeps (stored (phase_is phase)) (patchMoveStatus (with_status p0 st) mv s msg).
Proof. apply (keeps_update (phase_is phase) (fun latest => with_moves _ _)). done. Qed.

Lemma keeps_recompute phase st : keeps (stored (phase_is phase)) (recomputePlanExecutionSummary (with_status p0 st)).
Proof. apply (keeps_update (phase_is phase) (fun latest => with_summary _ _)). done. Qed.

Lemma keeps_patchMoveStatusIf phase st mv from to msg :
  keeps (stored (phase_is phase)) (patchMoveStatusIf (with_status p0 st) mv from to msg).
Proof.
  apply hoare_reading; [apply keeps_ignore_not_found|]. intros st1 Hst w Hw. cbn.
  assert (Hs : stored (phase_is phase) w) by (by exists st1).
  destruct (list_find _ _) as [[? ms]|]; [|done]. destruct (String.eqb _ _); [|done].
  destruct (update_first _ _ _); [|done]. by apply (hoare_patch (phase_is phase) st1).
Qed.

(** A step that reads or writes no plan, whatever it returns. *)
Lemma hoare_step {A B} phi (m : M A) (f : A -> M B) (Q : result api_error B -> World -> Prop) :
  preserves w_plans m ->
  (forall w e, stored phi w -> Q (Err e) w) ->
  (forall a, hoare (stored phi) (f a) Q) -> hoare (stored phi) (m ≫= f) Q.
Proof.
  intros Hm He Hf. apply hoare_bind with (R := fun _ => stored phi); [|done].
  eapply hoare_conseq; [exact (keeps_stored phi m Hm)|done|]. intros []; auto.
Qed.

Lemma keeps_apply_move phase st mv :
  keeps (stored (phase_is phase)) (apply_move (with_status p0 st) mv).
Proof.
  assert (forall k, keeps (stored (phase_is phase)) (get_object w_rbs k)) as Hget.
  { intros k. apply keeps_stored, preserves_get_object. done. }
  assert (forall rb, keeps (stored (phase_is phase)) (patch_rb rb)) as Hrb.
  { intros rb. apply keeps_stored, preserves_patch_rb; done. }
  assert (forall rb, keeps (stored (phase_is phase)) (patch_rb_status rb)) as Hrs.
  { intros rb. apply keeps_stored, preserves_patch_rb_status; done. }
  unfold apply_move. apply keeps_bind; [by apply keeps_attempt|]. intros [rb|e];
    [|apply keeps_ignore, keeps_patchMoveStatus].
  destruct (needPatch _ _ _); [|apply keeps_ignore, keeps_patchMoveStatusIf].
  apply keeps_bind; [by apply keeps_attempt|]. intros [[]|e]; [|apply keeps_ignore, keeps_patchMoveStatus].
  apply keeps_bind; [by apply keeps_attempt|]. intros [rb'|e]; [|apply keeps_ignore, keeps_patchMoveStatus].
  destruct (String.eqb _ _); [apply keeps_ignore, keeps_patchMoveStatusIf|].
  apply keeps_bind; [apply keeps_now|]. intros t.
  apply keeps_bind; [by apply keeps_attempt|]. intros [[]|e];
    [apply keeps_ignore, keeps_patchMoveStatusIf|apply keeps_ignore, keeps_patchMoveStatus].
Qed.

Lemma keeps_executeMoves phase st :
  keeps (stored (phase_is phase)) (executeMoves (with_status p0 st)).
Proof.
  eapply hoare_bind; [apply hoare_attempt, hoare_read|]. intros [read|e]; cbn; [|apply keeps_ignore_not_found].
  intros w (st1 & -> & Hst & Hw). rewrite bind_run. cbn.
  set (st2 := ensure_moves _ _).
  assert (Hst2 : phase_is phase st2).
  { subst st2. unfold ensure_moves. cbn. destruct (StartTime st1); cbn;
      by destruct (MoveStatuses st1), (Moves (Plan_Spec p0)). }
  set (rest := fun _ : unit => _).
  assert (Hrest : forall u, keeps (stored (phase_is phase)) (rest u)).
  { intros u. apply keeps_bind; [apply keeps_for_each; intros; apply keeps_apply_move|].
    intros []. apply keeps_ignore, keeps_recompute. }
  destruct (_ || _).
  - refine (hoare_bind _ _ _ (fun _ => stored (phase_is phase)) (fun _ => stored (phase_is phase)) _ Hrest w Hw).
    eapply hoare_conseq; [apply (hoare_patch (phase_is phase) _ st2 Hst Hst2)|done|]. by intros [].
  - exact (Hrest tt w (ex_intro _ st1 (conj Hw Hst))).
Qed.

(** After an execution: still executing, or in the phase its moves ask for. *)
Definition executed (st : ReOrchestrationPlanStatus) : Prop :=
  Plan_Phase st = PlanPhaseExecuting \/
  (final_phase (MoveStatuses st) = Some (Plan_Phase st) /\ moves_uninitialised (with_status p0 st) = false).

Lemma executing_executed w : stored (phase_is PlanPhaseExecuting) w -> stored executed w.
Proof. apply stored_weaken. intros st H. by left. Qed.

Lemma hoare_convergePlanPhase :
  hoare (stored (phase_is PlanPhaseExecuting)) (convergePlanPhase (plan_key p0)) (fun _ => stored executed).
Proof.
  set (I := stored (phase_is PlanPhaseExecuting)).
  assert (Hnf : forall e, hoare I (ignore_not_found Done e) (fun _ => stored executed)).
  { intros e. apply hoare_ignore_not_found, executing_executed. }
  apply hoare_reading; [apply Hnf|]. intros st1 Hst w Hw. cbn.
  refine (hoare_bind I _ _ (fun _ => I) (fun _ => stored executed) _ _ w _); [| |by exists st1].
  { apply hoare_ignore. eapply hoare_conseq; [apply (keeps_recompute PlanPhaseExecuting)|done|done]. }
  clear w st1 Hst Hw. intros [].
  apply hoare_reading; [apply Hnf|]. intros st Hst w Hw. cbn.
  assert (Hs : stored executed w) by (apply executing_executed; by exists st).
  destruct (moves_uninitialised _) eqn:Hu; [done|]. cbn.
  destruct (final_phase _) as [fp|] eqn:Hfp; [|done].
  destruct (_ && _); [done|]. rewrite bind_run. cbn.
  set (st' := finished_status _ _ _).
  assert (Hdone : executed st') by (right; split; [exact Hfp|exact Hu]).
  assert (Hpatch := hoare_patch executed st st' (or_introl Hst) Hdone w Hw). revert Hpatch.
  change (with_status (with_status p0 st) st') with (with_status p0 st').
  rewrite bind_run. by destruct (patch_plan_status _ w) as [w' []].
Qed.

Lemma hoare_monitor_moves st :
  hoare (stored (phase_is PlanPhaseExecuting)) (monitor_moves (with_status p0 st)) (fun _ => stored executed).
Proof.
  unfold monitor_moves. apply hoare_step; [done|intros; by apply executing_executed|]. intros t.
  destruct (timed_out _ _); [apply hoare_convergePlanPhase|].
  apply hoare_bind with (R := fun _ => stored (phase_is PlanPhaseExecuting)); [|intros; apply hoare_convergePlanPhase].
  eapply hoare_conseq; [apply (keeps_for_each (stored (phase_is PlanPhaseExecuting)))|done|].
  - intros mv _. apply keeps_bind; [apply keeps_attempt, keeps_stored, preserves_get_object; done|].
    intros [rb|e]; [|apply keeps_ret]. destruct (computeMoveStatus _ _) as [d m].
    apply keeps_ignore, keeps_patchMoveStatus.
  - intros [] w; [done|]. apply executing_executed.
Qed.

Lemma hoare_monitorAndConverge st :
  hoare (stored (phase_is PlanPhaseExecuting)) (monitorAndConverge (with_status p0 st)) (fun _ => stored executed).
Proof.
  assert (Hnf : forall e, hoare (stored (phase_is PlanPhaseExecuting)) (ignore_not_found Done e)
                            (fun _ => stored executed)).
  { intros e. apply hoare_ignore_not_found, executing_executed. }
  apply hoare_reading; [apply Hnf|]. intros st1 Hst w Hw. cbn.
  destruct (moves_uninitialised _).
  2: { apply hoare_monitor_moves. by exists st1. }
  assert (Hst2 : phase_is PlanPhaseExecuting (ensure_moves (with_status p0 st1) st1)).
  { unfold ensure_moves. cbn. by destruct (MoveStatuses st1), (Moves (Plan_Spec p0)). }
  refine (hoare_bind _ _ _ (fun _ => stored (phase_is PlanPhaseExecuting)) (fun _ => stored executed) _ _ w Hw).
  { eapply hoare_conseq; [apply (hoare_patch (phase_is PlanPhaseExecuting) _ _ Hst Hst2)|done|].
    intros []; [done|]. intros w'. apply executing_executed. }
  clear w st1 Hst Hw Hst2. intros [].
  apply hoare_reading; [apply Hnf|]. intros st2 Hst2 w Hw. cbn.
  apply hoare_monitor_moves. by exists st2.
Qed.
End stored.

Section reconcile_store.
Context {KUBE : KubeLib} (fmt_q : string -> string) (plans0 : gmap Key ReOrchestrationPlan) (p0 : ReOrchestrationPlan).

(** What a call does to the status of an unfinished plan. *)
Definition reconciled (st : ReOrchestrationPlanStatus) : Prop :=
  st = Plan_Status p0 \/
  Plan_Phase st = desired_phase (plan_strategy p0) \/
  (desired_phase (plan_strategy p0) = PlanPhaseExecuting /\
   final_phase (MoveStatuses st) = Some (Plan_Phase st) /\ moves_uninitialised (with_status p0 st) = false).

Lemma executed_reconciled w :
  desired_phase (plan_strategy p0) = PlanPhaseExecuting ->
  stored plans0 p0 (executed p0) w -> stored plans0 p0 reconciled w.
Proof.
  intros Hd. apply stored_weaken. intros st [H|[H1 H2]]; right.
  - left. by rewrite H, Hd.
  - right. done.
Qed.

Lemma hoare_execution st :
  desired_phase (plan_strategy p0) = PlanPhaseExecuting ->
  hoare (stored plans0 p0 (phase_is PlanPhaseExecuting))
    (executeMoves (with_status p0 st) ≫= fun _ => monitorAndConverge (with_status p0 st))
    (fun _ => stored plans0 p0 reconciled).
Proof.
  intros Hd. apply hoare_bind with (R := fun _ => stored plans0 p0 (phase_is PlanPhaseExecuting)).
  - eapply hoare_conseq; [apply keeps_executeMoves|done|].
    intros [] w H; [done|]. by apply executed_reconciled, executing_executed.
  - intros _. eapply hoare_conseq; [apply hoare_monitorAndConverge|done|].
    intros r w. by apply executed_reconciled.
Qed.

Lemma unchanged_reconciled w : stored plans0 p0 (fun st => st = Plan_Status p0) w -> stored plans0 p0 reconciled w.
Proof. apply stored_weaken. intros st ->. by left. Qed.

(** The decision is written, then executed. *)
Lemma hoare_decided st' :
  Plan_Phase st' = desired_phase (plan_strategy p0) ->
  hoare (current plans0 (with_status p0 (Plan_Status p0)))
    (p ← attempt (patch_plan_status (with_status p0 st'));
     match p with
     | Err e => ignore_not_found Done e
     | Ok _ =>
         if String.eqb (desired_phase (plan_strategy p0)) PlanPhaseExecuting
         then executeMoves (with_status p0 st') ≫= fun _ => monitorAndConverge (with_status p0 st')
         else mret Done
     end)
    (fun _ => stored plans0 p0 reconciled).
Proof.
  intros Hst'.
  apply hoare_bind with (R := fun r =>
    match r with
    | Ok _ => stored plans0 p0 (phase_is (desired_phase (plan_strategy p0)))
    | Err _ => stored plans0 p0 reconciled
    end).
  - apply hoare_attempt.
    eapply hoare_conseq; [apply (hoare_patch_exact plans0 p0 (fun st => st = Plan_Status p0)
      (phase_is (desired_phase (plan_strategy p0))))| |]; [done|done|done|].
    intros [[]|e] w'; [done|]. apply unchanged_reconciled.
  - intros [[]|e]; [|by apply hoare_ignore_not_found].
    destruct (String.eqb_spec (desired_phase (plan_strategy p0)) PlanPhaseExecuting) as [Hd|Hd].
    + eapply hoare_conseq; [apply (hoare_execution st' Hd)|by rewrite Hd|done].
    + intros w'. apply stored_weaken. intros st2 H2. right. by left.
Qed.

Lemma hoare_Reconcile :
  finished_phase (Plan_Phase (Plan_Status p0)) = false ->
  hoare (current plans0 p0) (Reconcile fmt_q (plan_key p0)) (fun _ => stored plans0 p0 reconciled).
Proof.
  intros Hnf w Hw.
  assert (Hs : stored plans0 p0 (fun st => st = Plan_Status p0) w).
  { exists (Plan_Status p0). split; [|done]. unfold with_status. destruct p0; exact Hw. }
  enough (hoare (stored plans0 p0 (fun st => st = Plan_Status p0)) (Reconcile fmt_q (plan_key p0))
            (fun _ => stored plans0 p0 reconciled)) as H by exact (H w Hs).
  clear w Hw Hs. apply hoare_reading.
  - intros e. apply hoare_ignore_not_found, unchanged_reconciled.
  - intros st -> w Hw. cbn -[String.eqb]. rewrite Hnf. rewrite bind_run. cbn -[String.eqb].
    set (st' := with_conditions _ _).
    assert (Hsame : stored plans0 p0 (fun st => st = Plan_Status p0) w) by (eexists; split; [exact Hw|done]).
    change (plan_strategy (with_status p0 (Plan_Status p0))) with (plan_strategy p0).
    destruct (String.eqb_spec (Plan_Phase (Plan_Status p0)) (desired_phase (plan_strategy p0))) as [Hp|Hp]; cbn -[String.eqb].
    + destruct (String.eqb_spec (desired_phase (plan_strategy p0)) PlanPhaseExecuting) as [Hd|Hd]; [|by apply unchanged_reconciled].
      apply (hoare_execution _ Hd). eexists. split; [exact Hw|]. by unfold phase_is; rewrite Hp.
    + change (with_status (with_status p0 (Plan_Status p0)) st') with (with_status p0 st').
      apply (hoare_decided st' eq_refl w Hw).
Qed.
End reconcile_store.

(** A plan that is not stored, or finished, is not touched. *)
Lemma Reconcile_idle {KUBE : KubeLib} fmt_q key w :
  (forall p, w_plans w !! key = Some p -> finished_phase (Plan_Phase (Plan_Status p)) = true) ->
  (Reconcile fmt_q key w).1 = tick w.
Proof.
  intros Hp. unfold Reconcile. rewrite bind_run. unfold attempt, get_object, request.
  assert (Hnf : forall e, (ignore_not_found Done e (tick w)).1 = tick w).
  { intros e. unfold ignore_not_found. by destruct (IsNotFound e). }
  destruct (fault _) as [e|]; cbn -[finished_phase ignore_not_found]; [apply Hnf|].
  destruct (w_plans w !! key) as [p|]; cbn -[finished_phase ignore_not_found]; [|apply Hnf].
  by rewrite (Hp p eq_refl).
Qed.

(** What a call leaves alone: everything but plans and bindings. *)
Section quiet.
Context {KUBE : KubeLib} {T : Type} (proj : World -> T).
Hypothesis Htick : forall w, proj (tick w) = proj w.
Hypothesis Hplans : forall f w, proj (set_plans f w) = proj w.
Hypothesis Hrbs : forall f w, proj (set_rbs f w) = proj w.

Lemma preserves_apply_move latest mv : preserves proj (apply_move latest mv).
Proof. unfold apply_move, patchMoveStatus, patchMoveStatusIf. quiet. Qed.

Lemma preserves_plan_call fmt_q key : preserves proj (Reconcile fmt_q key).
Proof.
  unfold Reconcile, monitorAndConverge, monitor_moves, executeMoves, convergePlanPhase, recomputePlanExecutionSummary.
  quiet; apply preserves_for_each; intros mv; first [apply preserves_apply_move|unfold observe_move, patchMoveStatus, patchMoveStatusIf; quiet].
Qed.
End quiet.

(** ** What an execution does to the replica bindings *)

(** A binding after the move's intent is applied at time [t]. *)
Definition intended (reqToken : string) (t : Z) (mv : PlanMove) (rb : ReplicaBinding) : ReplicaBinding :=
  if needPatch rb mv reqToken then
    let rb' := with_intent rb mv reqToken in
    if String.eqb (RB_Phase (RB_Status rb)) ReplicaBindingPhaseRescheduling then rb' else with_rescheduling rb' t
  else rb.

Section intents.
Context {KUBE : KubeLib}.

(** The writes of move statuses touch nothing but plans. *)
Lemma preserves_patchMoveStatus {T} (proj : World -> T) plan mv st msg :
  (forall w, proj (tick w) = proj w) -> (forall f w, proj (set_plans f w) = proj w) ->
  preserves proj (patchMoveStatus plan mv st msg).
Proof. intros. apply preserves_bind; [eauto with go|]. intros []; auto with go. Qed.

Lemma preserves_patchMoveStatusIf {T} (proj : World -> T) plan mv from to msg :
  (forall w, proj (tick w) = proj w) -> (forall f w, proj (set_plans f w) = proj w) ->
  preserves proj (patchMoveStatusIf plan mv from to msg).
Proof.
  intros. apply preserves_bind; [eauto with go|]. intros [latest|e]; [|auto with go].
  destruct (list_find _ _) as [[? ms]|]; [|auto with go]. destruct (String.eqb _ _); [|auto with go].
  destruct (update_first _ _ _); auto with go.
Qed.

Lemma preserves_recompute {T} (proj : World -> T) plan :
  (forall w, proj (tick w) = proj w) -> (forall f w, proj (set_plans f w) = proj w) ->
  preserves proj (recomputePlanExecutionSummary plan).
Proof. intros. apply preserves_bind; [eauto with go|]. intros []; auto with go. Qed.

Hypothesis no_faults : forall k, fault k = None.

(** The bindings and the clock. *)
Definition bindings (w : World) : gmap Key ReplicaBinding * Z := (w_rbs w, w_clock w).

#[local] Arguments bindings : simpl never.
#[local] Arguments ignore : simpl never.

Lemma ignore_bindings {A} (m : M A) w : preserves bindings m -> bindings (ignore m w).1 = bindings w.
Proof. intros Hm. apply (preserves_ignore bindings m Hm). Qed.

Lemma apply_move_bindings latest mv w :
  rbs_ok (w_rbs w) ->
  bindings (apply_move latest mv w).1 =
  (alter (intended (buildRescheduleRequestToken latest) (w_clock w) mv) (rb_key_of_move mv) (w_rbs w), w_clock w).
Proof.
  intros Hok. unfold apply_move. rewrite bind_run, attempt_run, (get_object_run no_faults). cbn [fst snd].
  change (w_rbs (tick w)) with (w_rbs w).
  assert (Hfail : forall msg w', bindings (ignore (patchMoveStatus latest mv MoveExecutionStatusFailed msg) w').1 = bindings w')
    by (intros; apply ignore_bindings, preserves_patchMoveStatus; done).
  assert (Hdone : forall msg w', bindings (ignore (patchMoveStatusIf latest mv MoveExecutionStatusPending
      MoveExecutionStatusInProgress msg) w').1 = bindings w')
    by (intros; apply ignore_bindings, preserves_patchMoveStatusIf; done).
  destruct (w_rbs w !! rb_key_of_move mv) as [rb|] eqn:Hrb; cbn [require].
  2: { rewrite Hfail. unfold bindings. cbn. f_equal. symmetry. apply alter_id. intros ? H. congruence. }
  destruct (Hok _ _ Hrb) as [Hkey Hdel]. unfold rb_key in Hkey.
  destruct (needPatch rb mv _) eqn:Hneed; cycle 1.
  { rewrite Hdone. unfold bindings. cbn. f_equal. symmetry. apply alter_id. intros rb' H.
    rewrite Hrb in H. simplify_eq. unfold intended. by rewrite Hneed. }
  rewrite bind_run, attempt_run. unfold patch_rb. rewrite (request_run no_faults). cbn.
  rewrite Hkey, Hrb.
  assert (Hrm : forall A (x y : A), match DeletionTimestamp (RB_Meta rb), Finalizers (RB_Meta rb) with
                             | Some _, [] => x | _, _ => y end = y).
  { intros A x y. destruct Hdel as [->|Hf]; [done|].
    destruct (DeletionTimestamp _), (Finalizers (RB_Meta rb)); done. }
  rewrite Hrm. cbn. rewrite bind_run, attempt_run, (get_object_run no_faults). cbn.
  rewrite lookup_insert_eq. cbn.
  destruct (String.eqb (RB_Phase (RB_Status rb)) ReplicaBindingPhaseRescheduling) eqn:Hphase.
  - rewrite Hdone. unfold bindings. cbn. f_equal.
    apply map_eq. intros k. destruct (decide (k = rb_key_of_move mv)) as [->|Hk].
    + rewrite lookup_insert_eq, lookup_alter_eq, Hrb. cbn. unfold intended. by rewrite Hneed, Hphase.
    + by rewrite lookup_insert_ne, lookup_alter_ne.
  - rewrite bind_run. cbn. rewrite bind_run, attempt_run. unfold patch_rb_status.
    rewrite (request_run no_faults). cbn. rewrite Hkey, lookup_insert_eq. cbn.
    rewrite Hdone. unfold bindings. cbn. f_equal.
    apply map_eq. intros k. destruct (decide (k = rb_key_of_move mv)) as [->|Hk].
    + rewrite lookup_insert_eq, lookup_alter_eq, Hrb. cbn. unfold intended. by rewrite Hneed, Hphase.
    + rewrite !lookup_insert_ne, lookup_alter_ne by done. done.
Qed.

(** The moves applied one after the other. *)
Definition apply_intents (reqToken : string) (t : Z) (moves : list PlanMove)
    (rbs : gmap Key ReplicaBinding) : gmap Key ReplicaBinding :=
  foldl (fun rbs mv => alter (intended reqToken t mv) (rb_key_of_move mv) rbs) rbs moves.

(** The binding carries the intent of the move, whether it was written or there. *)
Lemma intended_spec reqToken t mv rb : let s := RB_Spec (intended reqToken t mv rb) in
  TargetCluster s = Loc_ClusterID (PM_Destination mv) /\ TargetNodeName s = Loc_NodeName (PM_Destination mv) /\
  Reschedule s = true /\ RescheduleRequest s = reqToken.
Proof.
  unfold intended. destruct (needPatch rb mv reqToken) eqn:Hneed; [by destruct (String.eqb _ _)|].
  unfold needPatch in Hneed. rewrite !orb_false_iff, !negb_false_iff, !String.eqb_eq in Hneed.
  destruct Hneed as [[[H1 H2] H3%eqb_prop] H4]. by split_and!.
Qed.

Lemma intended_meta reqToken t mv rb : RB_Meta (intended reqToken t mv rb) = RB_Meta rb.
Proof. unfold intended. destruct (needPatch _ _ _); [|done]. cbn. by destruct (String.eqb _ _). Qed.

Lemma rbs_ok_alter rbs f k : rbs_ok rbs -> (forall rb, RB_Meta (f rb) = RB_Meta rb) -> rbs_ok (alter f k rbs).
Proof.
  intros Hok Hf k' rb H. apply lookup_alter_Some in H as [(<- & rb' & Hrb & ->)|[_ H]]; [|exact (Hok _ _ H)].
  destruct (Hok _ _ Hrb) as [H1 H2]. unfold rb_key. rewrite Hf. done.
Qed.

Lemma apply_moves_bindings latest moves w :
  rbs_ok (w_rbs w) ->
  bindings (for_each (apply_move latest) moves w).1 =
  (apply_intents (buildRescheduleRequestToken latest) (w_clock w) moves (w_rbs w), w_clock w) /\
  (for_each (apply_move latest) moves w).2 = Ok tt.
Proof.
  revert w. induction moves as [|mv moves IH]; intros w Hok; [done|]. cbn [for_each]. rewrite bind_run.
  assert (Hmv := apply_move_bindings latest mv w Hok).
  assert (Hres : exists w', apply_move latest mv w = (w', Ok tt)).
  { clear. unfold apply_move. rewrite bind_run, attempt_run.
    destruct (_.2); [|by eexists]. destruct (needPatch _ _ _); [|by eexists].
    rewrite bind_run, attempt_run. destruct (_.2); [|by eexists].
    rewrite bind_run, attempt_run. destruct (_.2); [|by eexists].
    destruct (String.eqb _ _); [by eexists|]. rewrite bind_run. cbn. rewrite bind_run, attempt_run.
    destruct (_.2); by eexists. }
  destruct Hres as [w' Hw']. rewrite Hw' in Hmv |- *. cbn [fst] in Hmv. unfold bindings in Hmv.
  injection Hmv as Hrbs Hclock. destruct (IH w') as [IH1 IH2].
  { rewrite Hrbs. apply rbs_ok_alter; [done|apply intended_meta]. }
  split; [|done]. rewrite IH1, Hrbs, Hclock. done.
Qed.

Lemma apply_intents_cons reqToken t mv moves rbs :
  apply_intents reqToken t (mv :: moves) rbs =
  apply_intents reqToken t moves (alter (intended reqToken t mv) (rb_key_of_move mv) rbs).
Proof. done. Qed.

Lemma apply_intents_other reqToken t moves rbs k :
  k ∉ rb_key_of_move <$> moves -> apply_intents reqToken t moves rbs !! k = rbs !! k.
Proof.
  revert rbs. induction moves as [|mv moves IH]; intros rbs Hk; [done|]. apply not_elem_of_cons in Hk as [Hne Hk].
  rewrite apply_intents_cons, IH by done. by rewrite lookup_alter_ne.
Qed.

(** With distinct bindings every move finds its own as it was. *)
Lemma apply_intents_lookup reqToken t moves rbs mv :
  NoDup (rb_key_of_move <$> moves) -> mv ∈ moves ->
  apply_intents reqToken t moves rbs !! rb_key_of_move mv = intended reqToken t mv <$> rbs !! rb_key_of_move mv.
Proof.
  revert rbs. induction moves as [|mv' moves IH]; intros rbs Hnd Hin; [by apply not_elem_of_nil in Hin|].
  cbn in Hnd. apply NoDup_cons in Hnd as [Hn Hnd]. rewrite apply_intents_cons. apply elem_of_cons in Hin as [<-|Hin].
  - rewrite apply_intents_other by done. by rewrite lookup_alter_eq.
  - rewrite IH by done. rewrite lookup_alter_ne; [done|]. intros Heq. apply Hn. rewrite Heq.
    by apply list_elem_of_fmap_2.
Qed.

Lemma executeMoves_bindings plan p w :
  rbs_ok (w_rbs w) -> w_plans w !! plan_key plan = Some p -> plan_key p = plan_key plan ->
  bindings (executeMoves plan w).1 =
  (apply_intents (buildRescheduleRequestToken p) (w_clock w) (Moves (Plan_Spec p)) (w_rbs w), w_clock w) /\
  (executeMoves plan w).2 = Ok tt.
Proof.
  intros Hok Hp Hkey. unfold executeMoves. rewrite bind_run, attempt_run, (get_object_run no_faults). cbn [fst snd].
  change (w_plans (tick w)) with (w_plans w). rewrite Hp. cbn [require]. rewrite bind_run. cbn [now].
  set (st := ensure_moves _ _). set (latest := with_status p st).
  set (rest := fun _ : unit => _).
  assert (Hrest : forall w', bindings w' = bindings w ->
    bindings (rest tt w').1 =
    (apply_intents (buildRescheduleRequestToken p) (w_clock w) (Moves (Plan_Spec p)) (w_rbs w), w_clock w) /\
    (rest tt w').2 = Ok tt).
  { intros w' Hb. unfold bindings in Hb. injection Hb as Hrbs Hclock. unfold rest. rewrite bind_run.
    destruct (apply_moves_bindings latest (Moves (Plan_Spec latest)) w') as [H1 H2]; [by rewrite Hrbs|].
    destruct (for_each _ _ w') as [w2 r]. cbn in H1, H2. subst r.
    rewrite ignore_bindings, H1, Hrbs, Hclock; [done|]. by apply preserves_recompute. }
  clearbody rest. rewrite bind_run. destruct (_ || _); [|by apply Hrest].
  unfold patch_plan_status. rewrite (request_run no_faults). cbn.
  change (Namespace (Plan_Meta p), Name (Plan_Meta p)) with (plan_key p). rewrite Hkey, Hp. by apply Hrest.
Qed.
End intents.

(** ** Convergence *)

Definition has_status (st : string) (ms : MoveStatus) : bool := String.eqb (MS_Status ms) st.

Definition count_status (st : string) (l : list MoveStatus) : Z :=
  Z.of_nat (length (List.filter (has_status st) l)).

Lemma summarize_counts l :
  (Z.of_nat (length l) < 2 ^ 31)%Z ->
  summarize l =
  mkExecutionSummary (Z.of_nat (length l)) (count_status MoveExecutionStatusSucceeded l)
    (count_status MoveExecutionStatusFailed l)
    (Z.of_nat (length l) - count_status MoveExecutionStatusSucceeded l - count_status MoveExecutionStatusFailed l).
Proof.
  unfold summarize, count_status. induction l as [|ms l IH] using rev_ind; intros Hlen; [done|].
  rewrite length_app in Hlen. cbn in Hlen.
  rewrite foldl_app, IH by lia. rewrite !List.filter_app, !length_app. cbn.
  assert (Hsum : (length (List.filter (has_status MoveExecutionStatusSucceeded) l) +
                  length (List.filter (has_status MoveExecutionStatusFailed) l) <= length l)%nat).
  { clear. induction l as [|ms l IH]; cbn; [lia|]. unfold has_status in *.
    destruct (String.eqb_spec (MS_Status ms) MoveExecutionStatusSucceeded) as [->|]; cbn; [lia|].
    destruct (String.eqb _ _); cbn; lia. }
  assert (Hw : forall z, (0 <= z <= Z.of_nat (length l))%Z -> wrap32 (z + 1) = (z + 1)%Z).
  { intros z Hz. apply wrap32_id. unfold int32_range. lia. }
  unfold summary_step. cbn -[Z.of_nat].
  change (String.eqb (MS_Status ms) MoveExecutionStatusFailed) with (has_status MoveExecutionStatusFailed ms).
  destruct (String.eqb (MS_Status ms) MoveExecutionStatusSucceeded) eqn:Hs.
  - assert (has_status MoveExecutionStatusSucceeded ms = true) as -> by exact Hs.
    assert (has_status MoveExecutionStatusFailed ms = false) as ->.
    { apply String.eqb_eq in Hs. unfold has_status. by rewrite Hs. }
    cbn -[Z.of_nat]. rewrite !Hw by lia. f_equal; lia.
  - assert (has_status MoveExecutionStatusSucceeded ms = false) as -> by exact Hs.
    destruct (has_status MoveExecutionStatusFailed ms); cbn -[Z.of_nat]; rewrite !Hw by lia; f_equal; lia.
Qed.

Lemma final_phase_None l : final_phase l = None <-> Exists (fun ms => terminal_move ms = false) l.
Proof.
  unfold final_phase. destruct (forallb terminal_move l) eqn:H; split; try done.
  - rewrite forallb_forall in H. intros HE%Exists_exists. destruct HE as (ms & Hin & Hms).
    rewrite H in Hms; [done|]. by apply list_elem_of_In.
  - intros _. revert H. induction l as [|ms l IH]; cbn; [done|]. intros H%andb_false_iff.
    destruct H; [by left|right; auto].
Qed.

(** How a plan has ended, told without the code: each of its moves succeeded or failed,
    and the phase says whether all did the one, all the other, or some each. *)
Definition ended_with (phase : string) (l : list MoveStatus) : Prop :=
  let all s := forall ms, ms ∈ l -> MS_Status ms = s in
  let some s := exists ms, ms ∈ l /\ MS_Status ms = s in
  (forall ms, ms ∈ l -> MS_Status ms = "Succeeded" \/ MS_Status ms = "Failed") /\
  (phase = "Succeeded" /\ all "Succeeded" \/ phase = "Failed" /\ some "Failed" /\ all "Failed" \/
   phase = "PartiallyFailed" /\ some "Failed" /\ some "Succeeded").

Lemma existsb_status s l :
  existsb (fun ms => String.eqb (MS_Status ms) s) l = true <-> exists ms, ms ∈ l /\ MS_Status ms = s.
Proof.
  rewrite existsb_exists. split; intros (ms & Hin & Hs); exists ms; (split; [by apply list_elem_of_In|]); by apply String.eqb_eq.
Qed.
Lemma existsb_no_status s l ms :
  existsb (fun ms => String.eqb (MS_Status ms) s) l = false -> ms ∈ l -> MS_Status ms <> s.
Proof. intros H Hin Hs. by rewrite (proj2 (existsb_status s l)) in H; [|exists ms]. Qed.
Lemma forallb_terminal l :
  forallb terminal_move l = true <-> forall ms, ms ∈ l -> MS_Status ms = "Succeeded" \/ MS_Status ms = "Failed".
Proof.
  rewrite forallb_forall. unfold terminal_move. split; intros H ms Hin.
  - apply list_elem_of_In, H in Hin. apply orb_true_iff in Hin as [Hs%String.eqb_eq|Hs%String.eqb_eq]; auto.
  - apply list_elem_of_In, H in Hin as [-> | ->]; done.
Qed.
Lemma final_phase_ended l phase : final_phase l = Some phase -> ended_with phase l.
Proof.
  unfold final_phase, ended_with. destruct (forallb terminal_move l) eqn:Ht; [|done]. intros Hp. split; [by apply forallb_terminal|].
  assert (Hend := proj1 (forallb_terminal l) Ht). revert Hp.
  destruct (existsb (fun ms => String.eqb (MS_Status ms) MoveExecutionStatusFailed) l) eqn:Hf;
    [|intros [= <-]; left; split; [done|]; intros ms Hin; destruct (Hend ms Hin) as [|Hms]; [done|];
      by apply (existsb_no_status _ _ _ Hf) in Hms].
  apply existsb_status in Hf.
  destruct (existsb (fun ms => String.eqb (MS_Status ms) MoveExecutionStatusSucceeded) l) eqn:Hs; intros [= <-].
  - right. right. by apply existsb_status in Hs.
  - right. left. split_and!; [done|done|]. intros ms Hin. destruct (Hend ms Hin) as [Hms|]; [|done].
    by apply (existsb_no_status _ _ _ Hs) in Hms.
Qed.

(** The strategies under which a plan is executed. *)
Definition executes (p : ReOrchestrationPlan) : Prop :=
  Annotations (Plan_Meta p) !! "kubex.io/strategy" ∈ [Some "Conservative"; Some "Aggressive"].
Lemma desired_phase_cases p :
  desired_phase (plan_strategy p) = "Executing" /\ executes p \/ desired_phase (plan_strategy p) = "Pending" /\ ~ executes p.
Proof.
  unfold desired_phase, plan_strategy, executes. rewrite !elem_of_cons, elem_of_nil.
  destruct (Annotations (Plan_Meta p) !! _) as [s|]; cbn; [|right; split; [done|naive_solver]].
  destruct (String.eqb_spec s OptimizationStrategyPreview) as [->|Hp]; [right; split; [done|naive_solver]|].
  destruct (String.eqb_spec s OptimizationStrategyConservative) as [->|Hc]; [left; split; [done|by left]|].
  destruct (String.eqb_spec s OptimizationStrategyAggressive) as [->|Ha]; [left; split; [done|by right; left]|].
  right. split; [done|]. intros [H|[H|[]]]; by injection H.
Qed.
Lemma finished_phase_cases phase :
  finished_phase phase = bool_decide (phase ∈ ["Succeeded"; "Failed"; "PartiallyFailed"; "Terminating"]).
Proof.
  symmetry. unfold finished_phase. destruct (bool_decide _) eqn:H.
  - apply bool_decide_eq_true in H. rewrite !elem_of_cons, elem_of_nil in H. by destruct H as [->|[->|[->|[->|[]]]]].
  - apply bool_decide_eq_false in H. rewrite !elem_of_cons, elem_of_nil in H. symmetry.
    rewrite !orb_false_iff. split_and!; apply String.eqb_neq; naive_solver.
Qed.

Section converge.
Context {KUBE : KubeLib}.
Hypothesis no_faults : forall k, fault k = None.

(** The status and the result of [convergePlanPhase] on a stored plan. *)
Definition converged (p : ReOrchestrationPlan) (t : Z) : ReOrchestrationPlanStatus * Result :=
  let ms := MoveStatuses (Plan_Status p) in
  let st := with_summary (summarize ms) (Plan_Status p) in
  if moves_uninitialised p then (st, mkResult (500 * Millisecond))
  else
    match final_phase ms with
    | None => (st, mkResult (2 * Second))
    | Some fp =>
        (if String.eqb (Plan_Phase st) fp && match CompletionTime st with Some _ => true | None => false end
         then st else finished_status (with_status p st) t fp, Done)
    end.

Lemma patch_plan_status_run p st w plans0 :
  current plans0 p w ->
  exists w', patch_plan_status (with_status p st) w = (w', Ok tt) /\
    current plans0 (with_status p st) w' /\ w_clock w' = w_clock w.
Proof.
  unfold current. intros Hw. unfold patch_plan_status. rewrite (request_run no_faults). cbn. rewrite Hw.
  change (Namespace (Plan_Meta p), Name (Plan_Meta p)) with (plan_key p).
  change (plan_key (with_status p st)) with (plan_key p).
  rewrite lookup_insert_eq. eexists. split; [done|]. cbn. by rewrite Hw, insert_insert_eq.
Qed.

Lemma get_plan_run p w plans0 :
  current plans0 p w ->
  exists w', attempt (get_object w_plans (plan_key p)) w = (w', Ok (Ok p)) /\
    current plans0 p w' /\ w_clock w' = w_clock w.
Proof.
  unfold current. intros Hw. rewrite attempt_run, (get_object_run no_faults). cbn. rewrite Hw, lookup_insert_eq.
  by eexists.
Qed.

Lemma recompute_run p w plans0 :
  current plans0 p w ->
  exists w', ignore (recomputePlanExecutionSummary p) w = (w', Ok tt) /\
    current plans0 (with_status p (with_summary (summarize (MoveStatuses (Plan_Status p))) (Plan_Status p))) w' /\
    w_clock w' = w_clock w.
Proof.
  intros Hw. unfold ignore, recomputePlanExecutionSummary. rewrite bind_run.
  destruct (get_plan_run _ _ _ Hw) as (w1 & -> & Hw1 & Ht1).
  destruct (patch_plan_status_run _ (with_summary (summarize (MoveStatuses (Plan_Status p))) (Plan_Status p)) _ _ Hw1)
    as (w2 & -> & Hw2 & Ht2). exists w2. rewrite Ht2. done.
Qed.

Lemma converge_run p w plans0 :
  current plans0 p w ->
  exists w', convergePlanPhase (plan_key p) w = (w', Ok (converged p (w_clock w)).2) /\
    current plans0 (with_status p (converged p (w_clock w)).1) w'.
Proof.
  intros Hw. unfold convergePlanPhase, converged. rewrite bind_run.
  destruct (get_plan_run _ _ _ Hw) as (w1 & -> & Hw1 & Ht1). rewrite bind_run.
  destruct (recompute_run _ _ _ Hw1) as (w2 & -> & Hw2 & Ht2). rewrite bind_run.
  set (st := with_summary _ _) in *. change (plan_key p) with (plan_key (with_status p st)).
  destruct (get_plan_run _ _ _ Hw2) as (w3 & -> & Hw3 & Ht3). rewrite <- Ht1, <- Ht2, <- Ht3.
  change (moves_uninitialised (with_status p st)) with (moves_uninitialised p).
  destruct (moves_uninitialised p); [by eexists|]. cbn -[final_phase String.eqb].
  destruct (final_phase _) as [fp|]; [|by eexists].
  destruct (_ && _); [by eexists|]. rewrite bind_run. cbn [now]. rewrite bind_run.
  destruct (patch_plan_status_run _ (finished_status (with_status p st) (w_clock w3) fp) _ _ Hw3)
    as (w4 & -> & Hw4 & _). by eexists.
Qed.

(** A plan that is to be executed is executing afterwards, or has ended. *)
Lemma Reconcile_executes fmt_q plans0 p0 w : current plans0 p0 w ->
  finished_phase (Plan_Phase (Plan_Status p0)) = false -> desired_phase (plan_strategy p0) = PlanPhaseExecuting ->
  stored plans0 p0 (executed p0) (Reconcile fmt_q (plan_key p0) w).1.
Proof.
  intros Hw Hnf Hd.
  assert (forall st w, stored plans0 p0 (phase_is PlanPhaseExecuting) w ->
    stored plans0 p0 (executed p0)
      ((executeMoves (with_status p0 st) ≫= fun _ => monitorAndConverge (with_status p0 st)) w).1) as Hexec.
  { intros st. apply (hoare_bind (stored plans0 p0 (phase_is PlanPhaseExecuting)) _ _
      (fun _ => stored plans0 p0 (phase_is PlanPhaseExecuting)) (fun _ => stored plans0 p0 (executed p0))).
    - eapply hoare_conseq; [apply keeps_executeMoves|done|]. intros [] w'; [done|]. apply executing_executed.
    - intros _. apply hoare_monitorAndConverge. }
  unfold Reconcile. rewrite bind_run. destruct (get_plan_run _ _ _ Hw) as (w1 & -> & Hw1 & _). cbv beta zeta.
  rewrite Hnf, bind_run. cbn [now]. rewrite Hd. set (st' := with_conditions _ _). cbn [String.eqb].
  destruct (negb _) eqn:Hch.
  - rewrite bind_run, (attempt_run (patch_plan_status _)).
    destruct (patch_plan_status_run p0 st' w1 plans0 Hw1) as (w2 & -> & Hw2 & _). cbn [fst snd].
    apply Hexec. exists st'. split; [exact Hw2|]. done.
  - apply negb_false_iff, String.eqb_eq in Hch.
    assert (with_status p0 (Plan_Status p0) = p0) as Hid by (by destruct p0).
    pose proof (Hexec (Plan_Status p0) w1) as H. rewrite Hid in H. apply H. exists (Plan_Status p0).
    split; [by rewrite Hid|exact Hch].
Qed.
(** Monitoring writes plans only. *)
Lemma preserves_monitor {T} (proj : World -> T) p :
  (forall w, proj (tick w) = proj w) -> (forall f w, proj (set_plans f w) = proj w) ->
  preserves proj (monitorAndConverge p).
Proof.
  intros Htick Hplans. unfold monitorAndConverge, monitor_moves, convergePlanPhase. quiet; try by apply preserves_recompute.
  all: apply preserves_for_each; intros mv; unfold observe_move; quiet; by apply preserves_patchMoveStatus.
Qed.

(** What the execution of a plan does to the bindings. *)
Lemma Reconcile_bindings fmt_q plans0 p0 w : current plans0 p0 w -> rbs_ok (w_rbs w) ->
  finished_phase (Plan_Phase (Plan_Status p0)) = false -> desired_phase (plan_strategy p0) = PlanPhaseExecuting ->
  w_rbs (Reconcile fmt_q (plan_key p0) w).1 =
  apply_intents (buildRescheduleRequestToken p0) (w_clock w) (Moves (Plan_Spec p0)) (w_rbs w).
Proof.
  intros Hw Hok Hnf Hd.
  assert (forall st w', current plans0 (with_status p0 st) w' -> w_rbs w' = w_rbs w -> w_clock w' = w_clock w ->
    w_rbs ((executeMoves (with_status p0 st) ≫= fun _ => monitorAndConverge (with_status p0 st)) w').1 =
    apply_intents (buildRescheduleRequestToken p0) (w_clock w) (Moves (Plan_Spec p0)) (w_rbs w)) as Hexec.
  { intros st w' Hw' Hrbs Hclock.
    destruct (executeMoves_bindings no_faults (with_status p0 st) (with_status p0 st) w') as [Hb Hr];
      [by rewrite Hrbs|unfold current in Hw'; by rewrite Hw', lookup_insert_eq|done|].
    rewrite bind_run. destruct (executeMoves _ w') as [w2 res]. cbn in Hr. subst res. rewrite (preserves_monitor w_rbs) by done.
    injection Hb as Hb _. rewrite Hb, Hrbs, Hclock. done. }
  unfold Reconcile. rewrite bind_run. unfold attempt at 1, get_object. rewrite (request_run no_faults). cbn [fst snd].
  change (w_plans (tick w)) with (w_plans w). rewrite (Hw : w_plans w = _), lookup_insert_eq. cbn [require]. cbv beta zeta.
  rewrite Hnf, bind_run. cbn [now]. rewrite Hd. set (st' := with_conditions _ _). cbn [String.eqb].
  assert (current plans0 p0 (tick w)) as Hw1 by exact Hw. destruct (negb _) eqn:Hch.
  - rewrite bind_run, (attempt_run (patch_plan_status _)).
    assert (w_rbs (patch_plan_status (with_status p0 st') (tick w)).1 = w_rbs w) as Hrbs
      by (rewrite (preserves_patch_plan_status w_rbs); done).
    destruct (patch_plan_status_run p0 st' (tick w) plans0 Hw1) as (w2 & Hrun & Hw2 & Hclock).
    rewrite Hrun in Hrbs |- *. by apply Hexec.
  - assert (with_status p0 (Plan_Status p0) = p0) as Hid by (by destruct p0).
    pose proof (Hexec (Plan_Status p0) (tick w)) as H. rewrite Hid in H. by apply H.
Qed.
End converge.

(** ** Properties *)

Section properties.
Context {KUBE : KubeLib} (fmt_q : string -> string).
#[local] Arguments ignore_not_found : simpl never.


(** A plan that is finished, or whose strategy is not to execute (Preview, an
    unknown one, or none), causes no write to the replica bindings, and no call
    of this controller touches a member cluster, whatever requests fail. *)
Theorem Reconcile_touches_no_bindings key w :
  (forall p, w_plans w !! key = Some p ->
     finished_phase (Plan_Phase (Plan_Status p)) = true \/
     desired_phase (plan_strategy p) <> PlanPhaseExecuting) ->
  w_rbs (Reconcile fmt_q key w).1 = w_rbs w /\ w_members (Reconcile fmt_q key w).1 = w_members w.
Proof.
  intros Hp.
  assert (Hall : forall T (proj : World -> T), (forall w, proj (tick w) = proj w) ->
            (forall f w, proj (set_plans f w) = proj w) -> proj (Reconcile fmt_q key w).1 = proj w).
  2: { split; by apply Hall. }
  intros T proj Htick Hset. unfold Reconcile. rewrite bind_run. unfold attempt, get_object, request.
  destruct (fault _) as [e|]; cbn -[finished_phase]; [by rewrite (preserves_ignore_not_found proj Done e)|].
  destruct (w_plans w !! key) as [p|] eqn:Hk; cbn -[finished_phase];
    [|by rewrite (preserves_ignore_not_found proj Done NotFound)].
  destruct (finished_phase _) eqn:Hf; [by apply Htick|].
  destruct (Hp p eq_refl) as [?|Hd]; [congruence|].
  apply String.eqb_neq in Hd. rewrite Hd, <- (Htick w).
  refine (preserves_bind proj _ _ (preserves_now proj) _ (tick w)). intros t. destruct (negb _); [|by intros w'].
  apply preserves_bind; [by apply preserves_attempt, preserves_patch_plan_status|].
  intros [[]|e]; [by intros w'|apply preserves_ignore_not_found].
Qed.

(** C21: when no request fails, executing a plan whose moves name distinct bindings
    gives each stored binding of a move the move's destination, the reschedule
    flag and the plan's token; a binding without that intent enters
    Rescheduling, one that has it already is untouched, and so is every other
    binding. *)
Theorem executeMoves_intents plan p w :
  (forall k, fault k = None) ->
  rbs_ok (w_rbs w) -> w_plans w !! plan_key plan = Some p -> plan_key p = plan_key plan ->
  NoDup (rb_key_of_move <$> Moves (Plan_Spec p)) ->
  (executeMoves plan w).2 = Ok tt /\
  (forall k, k ∉ rb_key_of_move <$> Moves (Plan_Spec p) -> w_rbs (executeMoves plan w).1 !! k = w_rbs w !! k) /\
  (forall mv rb, mv ∈ Moves (Plan_Spec p) -> w_rbs w !! rb_key_of_move mv = Some rb ->
     exists rb', w_rbs (executeMoves plan w).1 !! rb_key_of_move mv = Some rb' /\
       TargetCluster (RB_Spec rb') = Loc_ClusterID (PM_Destination mv) /\
       TargetNodeName (RB_Spec rb') = Loc_NodeName (PM_Destination mv) /\
       Reschedule (RB_Spec rb') = true /\
       RescheduleRequest (RB_Spec rb') = buildRescheduleRequestToken p /\
       (needPatch rb mv (buildRescheduleRequestToken p) = true -> RB_Phase (RB_Status rb') = ReplicaBindingPhaseRescheduling) /\
       (needPatch rb mv (buildRescheduleRequestToken p) = false -> rb' = rb)).
Proof.
  intros Hn Hok Hp Hkey Hnd. destruct (executeMoves_bindings Hn plan p w Hok Hp Hkey) as [Hb Hr].
  injection Hb as Hrbs _. rewrite Hrbs. split_and!; [done|intros k; apply apply_intents_other|].
  intros mv rb Hin Hrb. rewrite apply_intents_lookup, Hrb by done. eexists. split; [done|].
  destruct (intended_spec (buildRescheduleRequestToken p) (w_clock w) mv rb) as (H1 & H2 & H3 & H4).
  split_and!; [done..| |]; intros Hneed; unfold intended; rewrite Hneed; [|done].
  by destruct (String.eqb_spec (RB_Phase (RB_Status rb)) ReplicaBindingPhaseRescheduling).
Qed.

(** When no request fails, [convergePlanPhase] writes the summary that counts
    the move statuses and ends the plan exactly when every move is terminal:
    Succeeded without a failed move, Failed without a succeeded one,
    PartiallyFailed otherwise, with a completion time. Before that the phase
    stays and the call is repeated after two seconds (half a second while the
    statuses do not exist yet). *)
Theorem convergePlanPhase_spec key p w :
  (forall k, fault k = None) ->
  w_plans w !! key = Some p -> plan_key p = key ->
  let ms := MoveStatuses (Plan_Status p) in
  let has s := existsb (has_status s) ms in
  exists st r, w_plans (convergePlanPhase key w).1 = <[key := with_status p st]> (w_plans w) /\
    (convergePlanPhase key w).2 = Ok r /\ MoveStatuses st = ms /\
    (Z.of_nat (length ms) < 2 ^ 31 ->
     TotalMoves (Status_Summary st) = Z.of_nat (length ms) /\
     SucceededMoves (Status_Summary st) = count_status MoveExecutionStatusSucceeded ms /\
     FailedMoves (Status_Summary st) = count_status MoveExecutionStatusFailed ms /\
     TotalMoves (Status_Summary st) = SucceededMoves (Status_Summary st) + FailedMoves (Status_Summary st)
                                      + PendingMoves (Status_Summary st))%Z /\
    if moves_uninitialised p then Plan_Phase st = Plan_Phase (Plan_Status p) /\ r = mkResult (500 * Millisecond)
    else if forallb terminal_move ms then
      r = Done /\ CompletionTime st <> None /\
      Plan_Phase st = (if has MoveExecutionStatusFailed
                       then if has MoveExecutionStatusSucceeded then PlanPhasePartiallyFailed else PlanPhaseFailed
                       else PlanPhaseSucceeded)
    else Plan_Phase st = Plan_Phase (Plan_Status p) /\ r = mkResult (2 * Second).
Proof.
  intros Hn Hp <- ms has.
  assert (Hcur : current (w_plans w) p w) by (unfold current; by rewrite insert_id).
  destruct (converge_run Hn p w _ Hcur) as (w' & -> & Hw'). exists (converged p (w_clock w)).1, (converged p (w_clock w)).2.
  split; [exact Hw'|]. split; [done|]. unfold converged. fold ms.
  assert (Hsum : (Z.of_nat (length ms) < 2 ^ 31)%Z -> summarize ms = _) by exact (summarize_counts ms).
  unfold final_phase. subst has. unfold has_status. cbn beta.
  assert (Hcount : (Z.of_nat (length ms) < 2 ^ 31)%Z ->
    (TotalMoves (summarize ms) = Z.of_nat (length ms) /\
     SucceededMoves (summarize ms) = count_status MoveExecutionStatusSucceeded ms /\
     FailedMoves (summarize ms) = count_status MoveExecutionStatusFailed ms /\
     TotalMoves (summarize ms) = SucceededMoves (summarize ms) + FailedMoves (summarize ms)
                                 + PendingMoves (summarize ms))%Z).
  { intros Hlen. rewrite (Hsum Hlen). cbn -[Z.of_nat]. split_and!; lia. }
  destruct (moves_uninitialised p); [by split_and!; [|exact Hcount|..]|].
  destruct (forallb terminal_move ms); [|by split_and!; [|exact Hcount|..]].
  set (failed := existsb (fun ms => String.eqb (MS_Status ms) MoveExecutionStatusFailed) ms).
  set (succeeded := existsb (fun ms => String.eqb (MS_Status ms) MoveExecutionStatusSucceeded) ms).
  set (fp := if failed && succeeded then PlanPhasePartiallyFailed
             else if failed then PlanPhaseFailed else PlanPhaseSucceeded).
  assert (Hfp : (if failed then if succeeded then PlanPhasePartiallyFailed else PlanPhaseFailed
                 else PlanPhaseSucceeded) = fp) by (by destruct failed, succeeded).
  rewrite Hfp. clearbody fp. cbn -[String.eqb].
  destruct (String.eqb_spec (Plan_Phase (Plan_Status p)) fp) as [Heq|].
  - destruct (CompletionTime (Plan_Status p)) eqn:Hc; cbn; rewrite ?Hc; by split_and!.
  - cbn. split_and!; try done. by destruct (CompletionTime _).
Qed.

(** A plan past its timeout is not ended by the timeout: when no request fails
    and some move is not terminal, [monitorAndConverge] leaves every stored move
    status and the phase as they are and asks for another call in two seconds. *)
Theorem monitorAndConverge_timeout plan p w :
  (forall k, fault k = None) ->
  w_plans w !! plan_key plan = Some p -> plan_key p = plan_key plan ->
  timed_out p (w_clock w) = true -> moves_uninitialised p = false ->
  forallb terminal_move (MoveStatuses (Plan_Status p)) = false ->
  exists st, w_plans (monitorAndConverge plan w).1 = <[plan_key plan := with_status p st]> (w_plans w) /\
    (monitorAndConverge plan w).2 = Ok (mkResult (2 * Second)) /\
    MoveStatuses st = MoveStatuses (Plan_Status p) /\ Plan_Phase st = Plan_Phase (Plan_Status p) /\
    CompletionTime st = CompletionTime (Plan_Status p).
Proof.
  intros Hn Hp Hkey Hto Hu Ht.
  assert (Hcur : current (w_plans w) p w) by (unfold current; by rewrite Hkey, insert_id).
  unfold monitorAndConverge. rewrite bind_run. rewrite <- Hkey.
  destruct (get_plan_run Hn _ _ _ Hcur) as (w1 & -> & Hw1 & Ht1). rewrite Hu.
  unfold monitor_moves. rewrite bind_run. cbn [now]. rewrite Ht1, Hto.
  destruct (converge_run Hn p w1 _ Hw1) as (w2 & -> & Hw2). exists (converged p (w_clock w1)).1.
  split; [exact Hw2|]. unfold converged, final_phase. rewrite Hu, Ht. done.
Qed.

(** A move counts as succeeded exactly when its binding runs and carries the
    plan's own token (any token, if the plan has none), and as failed exactly
    when its binding failed. *)
Theorem computeMoveStatus_terminal plan rb :
  ((computeMoveStatus plan rb).1 = MoveExecutionStatusSucceeded <->
     RB_Phase (RB_Status rb) = ReplicaBindingPhaseRunning /\
     (buildRescheduleRequestToken plan = "" \/ RescheduleRequest (RB_Spec rb) = buildRescheduleRequestToken plan)) /\
  ((computeMoveStatus plan rb).1 = MoveExecutionStatusFailed <-> RB_Phase (RB_Status rb) = ReplicaBindingPhaseFailed).
Proof.
  unfold computeMoveStatus. set (tok := buildRescheduleRequestToken plan). clearbody tok.
  set (phase := RB_Phase (RB_Status rb)). clearbody phase.
  destruct (String.eqb_spec phase ReplicaBindingPhaseFailed) as [->|Hf].
  { cbn. split; split; try done. intros [? _]. done. }
  destruct (negb (str_empty tok) && negb (String.eqb (RescheduleRequest (RB_Spec rb)) tok)) eqn:Htok.
  { apply andb_true_iff in Htok as [He Hr]. rewrite negb_true_iff in He, Hr. apply String.eqb_neq in Hr.
    cbn. split; split; try done. intros [_ [->|?]]; done. }
  assert (Ht : tok = "" \/ RescheduleRequest (RB_Spec rb) = tok).
  { apply andb_false_iff in Htok as [He|Hr].
    - left. destruct tok; [done|]. done.
    - right. rewrite negb_false_iff in Hr. by apply String.eqb_eq. }
  destruct (String.eqb_spec phase ReplicaBindingPhaseRescheduling) as [->|]; cbn [orb].
  { split; split; try done. by intros [? _]. }
  destruct (String.eqb_spec phase ReplicaBindingPhaseApplying) as [->|].
  { split; split; try done. by intros [? _]. }
  destruct (String.eqb_spec phase ReplicaBindingPhaseRunning) as [->|].
  - split; split; done.
  - split; split; try done. by intros [? _].
Qed.
End properties.

(** ** Concrete runs *)

#[local] Existing Instance reliable_kube.

Definition demo_meta (name : string) (annotations : gmap string string) : ObjectMeta :=
  mkMeta name "default" "u1" 1 ∅ annotations ["f"] None [].
Definition demo_move : PlanMove :=
  mkPlanMove (mkRef "web" "default") 0 (mkLocation "c1" "c1" "n1") (mkLocation "c2" "c2" "n2").
Definition demo_plan (strategy : string) (st : ReOrchestrationPlanStatus) : ReOrchestrationPlan :=
  mkPlan (demo_meta "plan" {["kubex.io/strategy" := strategy]})
    (mkPlanSpec (mkPlanSummary "policy" ∅ None None None None) [demo_move]) st.
Definition fresh_status : ReOrchestrationPlanStatus := mkPlanStatus "" (mkExecutionSummary 0 0 0 0) None None [] [].
Definition late_status : ReOrchestrationPlanStatus :=
  mkPlanStatus PlanPhaseExecuting (mkExecutionSummary 1 0 0 1) (Some 1%Z) None
    [mkMoveStatus (mkRef "web" "default") 0 MoveExecutionStatusInProgress ""] [].
Definition demo_rb : ReplicaBinding :=
  mkRB (demo_meta "web-rb-0" ∅) (mkRBSpec (mkRef "web" "default") 0 "c1" "n1" false "")
    (mkRBStatus ReplicaBindingPhaseRunning "" None "n1" "c1" (mkRescheduleStatus "" None (mkObserved "" "" "") "" "" "")).
Definition demo_world (plan : ReOrchestrationPlan) (t : Z) : World :=
  mkWorld {[plan_key plan := plan]} {[rb_key demo_rb := demo_rb]} ∅ ∅ ∅ ∅ ∅ ∅ t 0 empty_policy_state ∅.


Lemma Reconcile_touches_no_bindings_witness :
  w_rbs (Reconcile (fun s => s) ("default", "plan") (demo_world (demo_plan "Preview" fresh_status) 5)).1 =
  w_rbs (demo_world (demo_plan "Preview" fresh_status) 5).
Proof.
  apply (Reconcile_touches_no_bindings (fun s => s) ("default", "plan")).
  intros p Hp. right. assert (p = demo_plan "Preview" fresh_status) as ->.
  { apply (inj Some). rewrite <- Hp. by_eval. }
  vm_compute. discriminate.
Defined.

Lemma demo_rbs_ok plan t : rbs_ok (w_rbs (demo_world plan t)).
Proof. apply map_Forall_singleton. split; [reflexivity|by left]. Qed.

Lemma executeMoves_intents_witness :
  exists rb', w_rbs (executeMoves (demo_plan "Aggressive" late_status)
      (demo_world (demo_plan "Aggressive" late_status) 5)).1 !! rb_key demo_rb = Some rb' /\
    TargetNodeName (RB_Spec rb') = "n2" /\ RB_Phase (RB_Status rb') = ReplicaBindingPhaseRescheduling.
Proof.
  destruct (executeMoves_intents (demo_plan "Aggressive" late_status) (demo_plan "Aggressive" late_status)
    (demo_world (demo_plan "Aggressive" late_status) 5)) as (_ & _ & H).
  - reflexivity.
  - apply demo_rbs_ok.
  - by_eval.
  - reflexivity.
  - apply NoDup_singleton.
  - destruct (H demo_move demo_rb) as (rb' & Hrb & _ & Hnode & _ & _ & Hphase & _).
    + apply list_elem_of_singleton. reflexivity.
    + by_eval.
    + exists rb'. split_and!; [exact Hrb|exact Hnode|apply Hphase; by_eval].
Defined.

Lemma convergePlanPhase_spec_witness :
  exists st r, w_plans (convergePlanPhase ("default", "plan") (demo_world (demo_plan "Aggressive" late_status) 5)).1 =
    <[("default", "plan") := with_status (demo_plan "Aggressive" late_status) st]>
      (w_plans (demo_world (demo_plan "Aggressive" late_status) 5)) /\ r = mkResult (2 * Second).
Proof.
  destruct (convergePlanPhase_spec ("default", "plan") (demo_plan "Aggressive" late_status)
    (demo_world (demo_plan "Aggressive" late_status) 5)) as (st & r & Hst & _ & _ & _ & H);
    [reflexivity|by_eval|reflexivity|].
  exists st, r. split; [exact Hst|]. exact (proj2 H).
Defined.

Lemma monitorAndConverge_timeout_witness :
  (monitorAndConverge (demo_plan "Aggressive" late_status)
     (demo_world (demo_plan "Aggressive" late_status) (60 * Minute))).2 = Ok (mkResult (2 * Second)).
Proof.
  destruct (monitorAndConverge_timeout (demo_plan "Aggressive" late_status) (demo_plan "Aggressive" late_status)
    (demo_world (demo_plan "Aggressive" late_status) (60 * Minute))) as (st & _ & H & _);
    [reflexivity|by_eval|reflexivity|by_eval|by_eval|by_eval|]. exact H.
Defined.
