(* ===== verification/MemberClients.v ===== *)
(** * Clients of the member clusters (internal/controller/multicluster/member_client_cache.go)

    Every reconciler has a cache of its own: a [ClientCache] says where in the
    environment it lives, and the functions work on any cache. A client is the
    endpoint it talks to. The lock is not modelled: a call runs alone, and the
    second look at the map under the write lock is kept. *)

From S2P Require Import Prelude ApiTypes KubeApi.

Local Open Scope string_scope.
Local Open Scope list_scope.

(** A place in the environment that holds a cache, apart from the count of requests
    and from the bindings and the member clusters. *)
Class ClientCache := {
  cached : World -> gmap string string;
  set_cached : (gmap string string -> gmap string string) -> World -> World;
  cached_set : forall f w, cached (set_cached f w) = f (cached w);
  cached_tick : forall w, cached (tick w) = cached w;
  cached_apart : forall f w, w_rbs (set_cached f w) = w_rbs w /\ w_members (set_cached f w) = w_members w
}.

(** The caches of the binding and of the policy controller. *)
Definition binding_clients : ClientCache.
Proof. by refine {| cached := w_clients; set_cached := set_clients |}. Defined.
Definition policy_clients : ClientCache.
Proof. by refine {| cached := fun w => ps_clients (w_policy w); set_cached := set_policy_clients |}. Defined.

Module MemberClientCache.
Section cache.
Context {CACHE : ClientCache}.

(** [func (c) Get(clusterID)] and [Clear(clusterID)]. *)
Definition Get (clusterID : string) : M (option string) := fun w => (w, Ok (cached w !! clusterID)).
Definition Clear (clusterID : string) : M unit := modify (set_cached (delete clusterID)).

Section build.
Context {KUBE : KubeLib}.

(** [return nil, err]. *)
Definition lift {A} (r : result api_error A) : M A :=
  match r with Ok a => mret a | Err e => throw e end.

(** [if c.clients[clusterID] ... else c.clients[clusterID] = newCS]. *)
Definition store (clusterID newCS : string) : M string :=
  existing ← Get clusterID;
  match existing with
  | Some cs => mret cs
  | None => modify (set_cached <[clusterID := newCS]>) ≫= fun _ => mret newCS
  end.

(** [func (c) GetOrBuild(ctx, k8sClient, controlNamespace, clusterID)]. *)
Definition GetOrBuild (controlNamespace clusterID : string) : M string :=
  if str_empty clusterID then throw (OtherError "clusterID is empty")
  else if str_empty controlNamespace then throw (OtherError "controlNamespace is empty")
  else
    found ← Get clusterID;
    match found with
    | Some cs => mret cs
    | None =>
        cl ← get_object w_clusters (controlNamespace, clusterID);
        if str_empty (SecretRef (Cluster_Spec cl)) then
          throw (OtherError ("cluster " +:+ clusterID +:+ " missing secretRef"))
        else
          sec ← get_object w_secrets (controlNamespace, SecretRef (Cluster_Spec cl));
          let kubeconfig := default "" (Secret_Data sec !! "kubeconfig") in
          if str_empty kubeconfig then
            throw (OtherError ("secret " +:+ SecretRef (Cluster_Spec cl) +:+ " missing kubeconfig"))
          else
            restCfg ← lift (RESTConfigFromKubeConfig kubeconfig);
            newCS ← lift (NewForConfig restCfg);
            store clusterID newCS
    end.
End build.

(** ** Lemmas *)

Section lemmas.
Context {KUBE : KubeLib}.

(** What building a client leaves alone: everything but the cache and the count
    of requests. *)
Lemma preserves_GetOrBuild {T} (proj : World -> T) ns id :
  (forall w, proj (tick w) = proj w) -> (forall f w, proj (set_cached f w) = proj w) ->
  preserves proj (GetOrBuild ns id).
Proof.
  intros Ht Hc. unfold GetOrBuild. destruct (str_empty id); [apply preserves_throw|].
  destruct (str_empty ns); [apply preserves_throw|].
  apply preserves_bind; [by intros w|]. intros [cs|]; [apply preserves_ret|].
  apply preserves_bind; [by apply preserves_get_object|]. intros cl.
  destruct (str_empty _); [apply preserves_throw|].
  apply preserves_bind; [by apply preserves_get_object|]. intros sec.
  destruct (str_empty _); [apply preserves_throw|].
  apply preserves_bind; [unfold lift; destruct (RESTConfigFromKubeConfig _); [apply preserves_ret|apply preserves_throw]|].
  intros cfg. apply preserves_bind; [unfold lift; destruct (NewForConfig _); [apply preserves_ret|apply preserves_throw]|].
  intros new. apply preserves_bind; [by intros w|]. intros [cs|]; [apply preserves_ret|].
  apply preserves_bind; [intros w; apply Hc|]. intros. apply preserves_ret.
Qed.

(** The client the control cluster's objects give. *)
Definition configured (w : World) (ns id : string) : option string :=
  cl ← w_clusters w !! (ns, id);
  sec ← w_secrets w !! (ns, SecretRef (Cluster_Spec cl));
  cfg ← Secret_Data sec !! "kubeconfig";
  if str_empty (SecretRef (Cluster_Spec cl)) || str_empty cfg then None
  else match RESTConfigFromKubeConfig cfg with
       | Ok rc => match NewForConfig rc with Ok cs => Some cs | Err _ => None end
       | Err _ => None
       end.

(** A client comes from the cache or from the configuration, and is in the cache
    afterwards; a failure leaves the cache alone. *)
Lemma GetOrBuild_outcome ns id w :
  match GetOrBuild ns id w with
  | (w', Ok cs) => id <> "" /\ ns <> "" /\ cached w' = <[id := cs]> (cached w) /\
      (cached w !! id = Some cs \/ (cached w !! id = None /\ configured w ns id = Some cs))
  | (w', Err _) => cached w' = cached w
  end.
Proof.
  unfold GetOrBuild. destruct (str_empty id) eqn:Hid; [done|]. destruct (str_empty ns) eqn:Hns; [done|].
  assert (id <> "") by (by destruct id). assert (ns <> "") by (by destruct ns).
  rewrite bind_run. cbn [Get]. destruct (cached w !! id) as [cs|] eqn:Hc.
  { cbn. split_and!; [done|done|by rewrite insert_id|by left]. }
  rewrite bind_run. unfold get_object at 1, request at 1. destruct (fault _); [apply cached_tick|]. cbn.
  destruct (w_clusters w !! (ns, id)) as [cl|] eqn:Hcl; [|apply cached_tick]. cbn.
  destruct (str_empty (SecretRef _)) eqn:Hsr; [apply cached_tick|].
  rewrite bind_run. unfold get_object, request. destruct (fault _); [by cbn; rewrite !cached_tick|]. cbn.
  destruct (w_secrets w !! _) as [sec|] eqn:Hsec; [|by cbn; rewrite !cached_tick]. cbn.
  destruct (Secret_Data sec !! "kubeconfig") as [cfg|] eqn:Hcfg; [|by unfold throw; cbn; rewrite !cached_tick]. cbn.
  destruct (str_empty cfg) eqn:Hemp; [by unfold throw; cbn; rewrite !cached_tick|]. rewrite bind_run.
  destruct (RESTConfigFromKubeConfig cfg) as [rc|] eqn:Hrc; [|by unfold throw; cbn; rewrite !cached_tick]. cbn.
  rewrite bind_run. destruct (NewForConfig rc) as [cs|] eqn:Hnew; [|by unfold throw; cbn; rewrite !cached_tick]. cbn.
  unfold store. rewrite bind_run. cbn. rewrite !cached_tick, Hc. rewrite bind_run. cbn. rewrite cached_set, !cached_tick.
  split_and!; [done|done|done|]. right. split; [done|]. unfold configured. rewrite Hcl. cbn. rewrite Hsec. cbn.
  rewrite Hcfg. cbn. by rewrite Hsr, Hemp, Hrc, Hnew.
Qed.
Lemma GetOrBuild_cached ns id cs w :
  id <> "" -> ns <> "" -> cached w !! id = Some cs -> GetOrBuild ns id w = (w, Ok cs).
Proof.
  intros Hid Hns Hc. unfold GetOrBuild. assert (str_empty id = false) as -> by (by destruct id).
  assert (str_empty ns = false) as -> by (by destruct ns). rewrite bind_run. cbn. by rewrite Hc.
Qed.

(** A cached client is returned without a request, whatever the control cluster
    now says about the cluster. Otherwise a client comes from the cluster's secret
    and is in the cache afterwards; a failure leaves the cache alone. *)
Theorem GetOrBuild_spec ns id w :
  (forall cs, id <> "" -> ns <> "" -> cached w !! id = Some cs -> GetOrBuild ns id w = (w, Ok cs)) /\
  match GetOrBuild ns id w with
  | (w', Ok cs) => id <> "" /\ ns <> "" /\ cached w' = <[id := cs]> (cached w) /\
      (cached w !! id = Some cs \/ (cached w !! id = None /\ configured w ns id = Some cs))
  | (w', Err _) => cached w' = cached w
  end.
Proof.
  split; [intros cs; apply GetOrBuild_cached|apply GetOrBuild_outcome].
Qed.
End lemmas.
End cache.

Lemma GetOrBuild_spec_witness :
  GetOrBuild (CACHE:=binding_clients) (KUBE:=reliable_kube) "ns" "c1"
    (set_clients <["c1" := "https://c1"]> empty_world) = (set_clients <["c1" := "https://c1"]> empty_world, Ok "https://c1").
Proof.
  apply (proj1 (GetOrBuild_spec (CACHE:=binding_clients) (KUBE:=reliable_kube) "ns" "c1" (set_clients <["c1" := "https://c1"]> empty_world)));
    [discriminate|discriminate|by_eval].
Defined.
End MemberClientCache.
