(* ===== verification/Profiles.v ===== *)
(** * Profiles and topologies (internal/controller/profiles_configmaps.go)

    What the policy controller reads from config maps: instance prices, power
    curves, the region latency matrix, and the service topology of the
    communication goal. The decoders of the config map values are parameters. *)

From S2P Require Import Prelude Float64 OptTypes Energy ApiTypes KubeApi.

Local Open Scope string_scope.
Local Open Scope list_scope.

Definition configMapInstanceCostName : string := "instance-cost-profiles".
Definition configMapFamilyEnergyName : string := "instance-family-energy-profiles".
Definition configMapRegionLatencyName : string := "region-latency-matrix".
Definition configMapRegionLatencyKey : string := "matrix.yaml".
Definition defaultProfilesNamespace : string := "kubex-system".

(** [type instanceCostProfile struct], [familyEnergyProfile], [topologyTemplate],
    [regionLatencyMatrix]; CPU and BaseCores are ints. *)
Record instanceCostProfile := mkCostProfile { Family : string; ICP_CPU : Z; Price : f64 }.
Record familyEnergyProfile := mkEnergyProfile { BaseCores : Z; PowerSamples : list PowerSample }.
Record topologyTemplate := mkTopology { Nodes : list string; Adjacency : list (list Z) }.
Record regionLatencyMatrix := mkLatencyMatrix {
  Regions : list string; LatencyRows : gmap string (gmap string f64)
}.

(** [type profilesData struct]; a nil map reads as empty. *)
Record profilesData := mkProfiles {
  PD_InstancePrice : gmap string f64;
  PD_InstancePower : gmap string PowerCurve;
  PD_CityRegionLatencyMs : gmap string (gmap string f64);
  PD_RegionLatencyMs : gmap string (gmap string f64)
}.

(** The decoders of sigs.k8s.io/yaml and encoding/json at these types: a value or
    the text of the error. *)
Class ProfileDecoders := {
  yaml_CostProfile : string -> result string instanceCostProfile;
  yaml_EnergyProfile : string -> result string familyEnergyProfile;
  yaml_LatencyMatrix : string -> result string regionLatencyMatrix;
  json_Topology : string -> result string topologyTemplate
}.

(** The orders of the loops over maps, by the number of the loop. *)
Class LoopOrders := loop_order : nat -> MapOrder.
Definition range_loop {ORDERS : LoopOrders} `{Countable K} {A} (k t : nat) (m : gmap K A) : list (K * A) :=
  go_range (MapOrder := loop_order k) t m.

(** [return nil, fmt.Errorf(...)]. *)
Definition plain_error {A} (msg : string) : result api_error A := Err (OtherError msg).
(** [fmt.Errorf("parse %s/%s[%s]: %w", namespace, name, key, err)]. *)
Definition parsed {A} (ns name key : string) (r : result string A) : result api_error A :=
  match r with
  | Ok a => Ok a
  | Err e => plain_error ("parse " +:+ ns +:+ "/" +:+ name +:+ "[" +:+ key +:+ "]: " +:+ e)
  end.
Definition returning {A} (r : result api_error A) : M A := match r with Ok a => mret a | Err e => throw e end.

(** ** Topology *)

(** The services a row of the matrix names. *)
Definition row_services (nodes : list string) (row : list Z) : list NamespacedName :=
  omap (fun e => if (e.1 =? 0)%Z then None else Some (mkNN "" e.2)) (zip row nodes).

(** [deps[from] = out] for every node, in order. *)
Definition dependencies (tpl : topologyTemplate) : gmap NamespacedName (list NamespacedName) :=
  foldl (fun deps e => <[mkNN "" e.1 := row_services (Nodes tpl) e.2]> deps) ∅ (zip (Nodes tpl) (Adjacency tpl)).

(** The shape of a template: a square matrix over a non-empty list of nodes. *)
Definition check_topology (where_ : string) (tpl : topologyTemplate) : result api_error unit :=
  let n := length (Nodes tpl) in
  let invalid := "invalid topology " +:+ where_ +:+ ": " in
  if (n =? 0)%nat then plain_error (invalid +:+ "nodes is empty")
  else if negb (length (Adjacency tpl) =? n)%nat then
    plain_error (invalid +:+ "adjacency rows=" +:+ pretty (length (Adjacency tpl)) +:+ " nodes=" +:+ pretty n)
  else
    checkM (fun e => if (length e.2 =? n)%nat then Ok tt
                     else plain_error (invalid +:+ "adjacency row " +:+ pretty e.1 +:+ " len=" +:+ pretty (length e.2) +:+
                                       " nodes=" +:+ pretty n))
      (imap pair (Adjacency tpl)).

Section load.
Context {KUBE : KubeLib} {DEC : ProfileDecoders} {ORDERS : LoopOrders}.

(** The key of the template: the config map's own name, or the first key met. *)
Definition topology_key (k : nat) (cmName : string) (data : gmap string string) : string :=
  match data !! cmName with
  | Some _ => cmName
  | None => match range_loop k 0 data with [] => "" | e :: _ => e.1 end
  end.

(** [func loadTopologyFromConfigMap(ctx, c, namespace, cmName)]. *)
Definition loadTopologyFromConfigMap (namespace cmName : string) : M (gmap NamespacedName (list NamespacedName)) :=
  if str_empty cmName then throw (OtherError "topologyRef is empty")
  else
    data ← get_object w_configmaps (namespace, cmName);
    if bool_decide (data = ∅) then throw (OtherError ("configmap " +:+ namespace +:+ "/" +:+ cmName +:+ " has empty data"))
    else
      k ← loop_number;
      let key := topology_key k cmName data in
      tpl ← returning (parsed namespace cmName key (json_Topology (default "" (data !! key))));
      returning (check_topology (namespace +:+ "/" +:+ cmName +:+ "[" +:+ key +:+ "]") tpl) ≫= fun _ =>
      mret (dependencies tpl).

(** ** Prices and power curves *)

(** [for k, raw := range cmEnergy.Data { ... familyProfiles[k] = fp }]. *)
Definition family_step (ns : string) (acc : gmap string familyEnergyProfile) (e : string * string)
    : result api_error (gmap string familyEnergyProfile) :=
  fp ← parsed ns configMapFamilyEnergyName e.1 (yaml_EnergyProfile e.2);
  Ok (<[e.1 := fp]> acc).

(** The power curve of an instance: the samples of its family, scaled by cores. *)
Definition scale_sample (scale : f64) (s : PowerSample) : PowerSample := mkSample (Util s) (fmul (Power s) scale).
Definition instance_curve (families : gmap string familyEnergyProfile) (p : instanceCostProfile) : option PowerCurve :=
  if str_empty (Family p) || (ICP_CPU p <=? 0)%Z then None
  else
    fp ← families !! Family p;
    if (BaseCores fp <=? 0)%Z || (length (PowerSamples fp) <? 2)%nat then None
    else
      let scale := fdiv (f64_of_Z (ICP_CPU p)) (f64_of_Z (BaseCores fp)) in
      Some (mkCurve (scale_sample scale <$> PowerSamples fp)).

(** One turn of [for inst, raw := range cmCost.Data]. *)
Definition instance_step (ns : string) (families : gmap string familyEnergyProfile)
    (acc : gmap string f64 * gmap string PowerCurve) (e : string * string)
    : result api_error (gmap string f64 * gmap string PowerCurve) :=
  p ← parsed ns configMapInstanceCostName e.1 (yaml_CostProfile e.2);
  Ok (<[e.1 := Price p]> acc.1,
      match instance_curve families p with Some c => <[e.1 := c]> acc.2 | None => acc.2 end).

(** ** Latencies *)

(** [outRow]: the entries of a row whose region is listed. *)
Definition allowed_row (k : nat) (allowed : gset string) (row : gmap string f64) : gmap string f64 :=
  foldl (fun out e => if decide (e.1 ∈ allowed) then <[e.1 := e.2]> out else out) ∅ (range_loop k 1 row).

(** [regionRegionLatency]: the rows of the listed regions. *)
Definition region_latency (k : nat) (m : regionLatencyMatrix) : gmap string (gmap string f64) :=
  let allowed : gset string := list_to_set (List.filter (fun r => negb (str_empty r)) (Regions m)) in
  foldl (fun out e =>
           if str_empty e.1 then out
           else if decide (e.1 ∈ allowed) then <[e.1 := allowed_row k allowed e.2]> out else out)
    ∅ (range_loop k 0 (LatencyRows m)).

(** [for src, row := range regionRegionLatency { cityRegionLatency[src] = row }]. *)
Definition copy_rows (k : nat) (rows : gmap string (gmap string f64)) : gmap string (gmap string f64) :=
  foldl (fun out e => <[e.1 := e.2]> out) ∅ (range_loop k 2 rows).

(** Both matrices, empty when the config map has no matrix. *)
Definition latencies (ns : string) (k : nat) (data : gmap string string)
    : result api_error (gmap string (gmap string f64) * gmap string (gmap string f64)) :=
  let raw := default "" (data !! configMapRegionLatencyKey) in
  if str_empty raw then Ok (∅, ∅)
  else
    m ← parsed ns configMapRegionLatencyName configMapRegionLatencyKey (yaml_LatencyMatrix raw);
    let rows := region_latency k m in
    Ok (copy_rows k rows, rows).

(** What the three config maps say. *)
Definition parse_profiles (ns : string) (k : nat) (cost energy latency : gmap string string)
    : result api_error profilesData :=
  families ← foldM (family_step ns) ∅ (range_loop k 3 energy);
  pp ← foldM (instance_step ns families) (∅, ∅) (range_loop k 4 cost);
  lat ← latencies ns k latency;
  Ok (mkProfiles pp.1 pp.2 lat.1 lat.2).

(** [func loadProfilesFromConfigMaps(ctx, c, namespace) ( *profilesData, error)]. *)
Definition loadProfilesFromConfigMaps (namespace : string) : M profilesData :=
  let ns := if str_empty namespace then defaultProfilesNamespace else namespace in
  cost ← get_object w_configmaps (ns, configMapInstanceCostName);
  energy ← get_object w_configmaps (ns, configMapFamilyEnergyName);
  latency ← get_object w_configmaps (ns, configMapRegionLatencyName);
  k ← loop_number;
  returning (parse_profiles ns k cost energy latency).
End load.

(** ** Lemmas *)

Definition decoded {E A} (r : result E A) : option A := match r with Ok a => Some a | Err _ => None end.

(** A loop over the entries of a map that sets, or leaves, the entry of each key. *)
Section folds.
Context `{Countable K} {A B E S : Type} (step : S -> K * A -> result E S) (view : S -> gmap K B) (g : K -> A -> option B).
Hypothesis Hstep : forall s e s', step s e = Ok s' ->
  forall k, view s' !! k = if decide (k = e.1) then match g e.1 e.2 with Some v => Some v | None => view s !! k end
                           else view s !! k.

Lemma foldM_keyed l s0 s :
  NoDup l.*1 -> foldM step s0 l = Ok s ->
  forall k, view s !! k = match (list_to_map l : gmap K A) !! k ≫= g k with Some v => Some v | None => view s0 !! k end.
Proof.
  revert s0. induction l as [|[k0 a0] l IH]; intros s0 Hnd Hf k; cbn in Hf.
  { injection Hf as <-. cbn. by rewrite lookup_empty. }
  apply NoDup_cons in Hnd as [Hnin Hnd]. apply bind_Ok in Hf as (s1 & H1 & Hf).
  rewrite (IH s1 Hnd Hf k), (Hstep _ _ _ H1 k). cbn in Hnin |- *.
  destruct (decide (k = k0)) as [->|Hne]; cbn.
  - rewrite lookup_insert_eq, (not_elem_of_list_to_map_1 l k0) by done. done.
  - by rewrite lookup_insert_ne.
Qed.

Lemma foldM_range {ORDERS : LoopOrders} n t (m : gmap K A) s0 s :
  foldM step s0 (range_loop n t m) = Ok s ->
  forall k, view s !! k = match m !! k ≫= g k with Some v => Some v | None => view s0 !! k end.
Proof.
  intros Hf k. rewrite (foldM_keyed _ _ _ (NoDup_go_range (MAPS := loop_order n) t m) Hf k).
  unfold range_loop. by rewrite go_range_to_map.
Qed.
End folds.

Lemma parsed_decoded {A} ns name key (r : result string A) a :
  parsed ns name key r = Ok a -> decoded r = Some a.
Proof. by destruct r as [b|]; cbn; [intros [= ->]|]. Qed.

(** A pure loop of that kind over a map, from the empty map. *)
Lemma foldl_range {ORDERS : LoopOrders} `{Countable K} {A B} (step : gmap K B -> K * A -> gmap K B)
    (g : K -> A -> option B) n t (m : gmap K A) k :
  (forall s e, step s e = match g e.1 e.2 with Some v => <[e.1 := v]> s | None => s end) ->
  foldl step ∅ (range_loop n t m) !! k = m !! k ≫= g k.
Proof.
  intros Hstep.
  assert (Hkeyed : forall s e s', Ok (E := unit) (step s e) = Ok s' -> forall k',
    id s' !! k' = if decide (k' = e.1) then match g e.1 e.2 with Some v => Some v | None => id s !! k' end else id s !! k').
  { intros s e s' [= <-] k'. rewrite Hstep. destruct (g e.1 e.2); cbn; [|by destruct (decide _)].
    destruct (decide (k' = e.1)) as [->|]; [by rewrite lookup_insert_eq|by rewrite lookup_insert_ne]. }
  assert (Hf := foldM_range _ id g Hkeyed n t m _ _ (foldM_pure step ∅ (range_loop n t m)) k). cbn in Hf.
  rewrite Hf, lookup_empty. by destruct (m !! k ≫= g k).
Qed.

(** Reference definitions: what the config maps mean, without an order. *)
Definition families_of {DEC : ProfileDecoders} (energy : gmap string string) : gmap string familyEnergyProfile :=
  omap (fun raw => decoded (yaml_EnergyProfile raw)) energy.
Definition prices_of {DEC : ProfileDecoders} (cost : gmap string string) : gmap string f64 :=
  omap (fun raw => Price <$> decoded (yaml_CostProfile raw)) cost.
Definition curves_of {DEC : ProfileDecoders} (cost energy : gmap string string) : gmap string PowerCurve :=
  omap (fun raw => p ← decoded (yaml_CostProfile raw); instance_curve (families_of energy) p) cost.
Definition listed_latency (m : regionLatencyMatrix) (a b : string) : option f64 :=
  if decide (a <> "" /\ b <> "" /\ a ∈ Regions m /\ b ∈ Regions m) then LatencyRows m !! a ≫= (.!! b) else None.

Section profiles.
Context {KUBE : KubeLib} {DEC : ProfileDecoders} {ORDERS : LoopOrders}.

Lemma family_step_keyed ns s e s' : family_step ns s e = Ok s' -> forall i,
  s' !! i = if decide (i = e.1) then match decoded (yaml_EnergyProfile e.2) with Some v => Some v | None => s !! i end
            else s !! i.
Proof.
  intros Hs i. unfold family_step in Hs. apply bind_Ok in Hs as (fp & Hp & [= <-]).
  rewrite (parsed_decoded _ _ _ _ _ Hp).
  destruct (decide (i = e.1)) as [->|]; [by rewrite lookup_insert_eq|by rewrite lookup_insert_ne].
Qed.

Lemma families_loaded ns k energy families :
  foldM (family_step ns) ∅ (range_loop k 3 energy) = Ok families -> families = families_of energy.
Proof.
  intros Hf. apply map_eq. intros i. unfold families_of. rewrite lookup_omap.
  assert (H := foldM_range (family_step ns) id (fun _ raw => decoded (yaml_EnergyProfile raw))
    (family_step_keyed ns) _ _ _ _ _ Hf i).
  cbn in H. rewrite H, lookup_empty. by destruct (energy !! i ≫= _).
Qed.

Lemma instance_step_keyed ns families s e s' : instance_step ns families s e = Ok s' -> forall i,
  s'.1 !! i = (if decide (i = e.1) then
                 match Price <$> decoded (yaml_CostProfile e.2) with Some v => Some v | None => s.1 !! i end
               else s.1 !! i) /\
  s'.2 !! i = (if decide (i = e.1) then
                 match p ← decoded (yaml_CostProfile e.2); instance_curve families p with Some v => Some v | None => s.2 !! i end
               else s.2 !! i).
Proof.
  intros Hs i. unfold instance_step in Hs. apply bind_Ok in Hs as (p & Hp & [= <-]).
  rewrite (parsed_decoded _ _ _ _ _ Hp). cbn. split.
  - destruct (decide (i = e.1)) as [->|]; [by rewrite lookup_insert_eq|by rewrite lookup_insert_ne].
  - destruct (instance_curve families p); [|by destruct (decide _)].
    destruct (decide (i = e.1)) as [->|]; [by rewrite lookup_insert_eq|by rewrite lookup_insert_ne].
Qed.

Lemma instances_loaded ns k cost energy pp :
  foldM (instance_step ns (families_of energy)) (∅, ∅) (range_loop k 4 cost) = Ok pp ->
  pp = (prices_of cost, curves_of cost energy).
Proof.
  intros Hf. destruct pp as [prices curves]. f_equal; apply map_eq; intros i; unfold prices_of, curves_of; rewrite lookup_omap.
  - assert (H := foldM_range (instance_step ns (families_of energy)) fst (fun _ raw => Price <$> decoded (yaml_CostProfile raw))
      (fun s e s' Hs i => proj1 (instance_step_keyed ns _ s e s' Hs i)) _ _ _ _ _ Hf i).
    cbn in H. rewrite H, lookup_empty. by destruct (cost !! i ≫= _).
  - assert (H := foldM_range (instance_step ns (families_of energy)) snd
      (fun _ raw => p ← decoded (yaml_CostProfile raw); instance_curve (families_of energy) p)
      (fun s e s' Hs i => proj2 (instance_step_keyed ns _ s e s' Hs i)) _ _ _ _ _ Hf i).
    cbn in H. rewrite H, lookup_empty. by destruct (cost !! i ≫= _).
Qed.

Lemma allowed_row_lookup k allowed row b :
  allowed_row k allowed row !! b = if decide (b ∈ allowed) then row !! b else None.
Proof.
  unfold allowed_row. rewrite (foldl_range _ (fun b v => if decide (b ∈ allowed) then Some v else None)).
  - destruct (row !! b); cbn; by destruct (decide _).
  - intros s e. by destruct (decide _).
Qed.

Lemma region_latency_lookup k m a b :
  region_latency k m !! a ≫= (.!! b) = listed_latency m a b.
Proof.
  unfold region_latency. set (allowed := list_to_set _).
  assert (Hin : forall x, x ∈ allowed <-> x <> "" /\ x ∈ Regions m).
  { intros x. unfold allowed. rewrite elem_of_list_to_set, list_elem_of_In, List.filter_In, <- list_elem_of_In.
    destruct x; cbn; naive_solver. }
  rewrite (foldl_range _ (fun a row => if str_empty a then None
                            else if decide (a ∈ allowed) then Some (allowed_row k allowed row) else None)).
  2: { intros s [x row]. cbn. destruct (str_empty x); [done|]. by destruct (decide _). }
  unfold listed_latency. destruct (LatencyRows m !! a) as [row|] eqn:Ha; cbn; [|by destruct (decide _)].
  destruct (str_empty a) eqn:Hempty; cbn.
  { destruct a; [|done]. by rewrite decide_False by naive_solver. }
  destruct (decide (a ∈ allowed)) as [Ha'|Ha']; cbn.
  - rewrite allowed_row_lookup. rewrite Hin in Ha'. destruct (decide (b ∈ allowed)) as [Hb|Hb]; rewrite Hin in Hb.
    + by rewrite decide_True by naive_solver.
    + by rewrite decide_False by naive_solver.
  - rewrite Hin in Ha'. by rewrite decide_False by naive_solver.
Qed.

Lemma copy_rows_id k rows : copy_rows k rows = rows.
Proof.
  apply map_eq. intros i. unfold copy_rows. rewrite (foldl_range _ (fun _ row => Some row)) by done.
  by destruct (rows !! i).
Qed.

Lemma parsed_ok {A} ns name key (r : result string A) : is_ok (parsed ns name key r) = is_ok r.
Proof. by destruct r. Qed.

Lemma elem_of_range_loop `{Countable K} {A} k t (m : gmap K A) e : e ∈ range_loop k t m <-> m !! e.1 = Some e.2.
Proof. destruct e as [i a]. unfold range_loop. apply (elem_of_go_range (MAPS := loop_order k)). Qed.

Lemma latencies_spec ns k latency :
  (is_ok (latencies ns k latency) = true <->
     forall raw, latency !! configMapRegionLatencyKey = Some raw -> raw <> "" -> is_ok (yaml_LatencyMatrix raw) = true) /\
  (forall lat, latencies ns k latency = Ok lat -> lat.1 = lat.2 /\ forall a b, lat.2 !! a ≫= (.!! b) =
     raw ← latency !! configMapRegionLatencyKey;
     m ← (if str_empty raw then None else decoded (yaml_LatencyMatrix raw)); listed_latency m a b).
Proof.
  unfold latencies. destruct (latency !! _) as [raw|]; cbn; [|split; [done|by intros lat [= <-]]].
  destruct raw as [|c raw]; cbn [str_empty].
  { split; [|by intros lat [= <-]]. split; [|done]. by intros _ raw [= <-]. }
  destruct (yaml_LatencyMatrix _) as [m|e] eqn:Hm; cbn.
  - split; [split; [|done]|]; [intros _ raw' [= <-]; by rewrite Hm|].
    intros lat [= <-]. cbn. split; [apply copy_rows_id|apply region_latency_lookup].
  - split; [|done]. split; [done|]. intros H. specialize (H _ eq_refl). rewrite Hm in H. by apply H.
Qed.

Lemma is_ok_bind {E A B} (r : result E A) (f : A -> result E B) :
  is_ok (r ≫= f) = true <-> exists a, r = Ok a /\ is_ok (f a) = true.
Proof. destruct r as [a|e]; cbn; [|split; [done|by intros (? & ? & _)]]. split; [eauto|by intros (? & [= <-] & ?)]. Qed.

Lemma families_ok ns k energy :
  is_ok (foldM (family_step ns) ∅ (range_loop k 3 energy)) = true <->
  forall i raw, energy !! i = Some raw -> is_ok (yaml_EnergyProfile raw) = true.
Proof.
  rewrite (foldM_ok_iff (fun e => is_ok (yaml_EnergyProfile e.2) = true)).
  - split; [intros H i raw Hi; by apply (H (i, raw)), elem_of_range_loop|].
    intros H [i raw] He%elem_of_range_loop. by apply (H i).
  - intros acc e. unfold family_step. by destruct (yaml_EnergyProfile e.2).
Qed.

Lemma instances_ok ns k families cost :
  is_ok (foldM (instance_step ns families) (∅, ∅) (range_loop k 4 cost)) = true <->
  forall i raw, cost !! i = Some raw -> is_ok (yaml_CostProfile raw) = true.
Proof.
  rewrite (foldM_ok_iff (fun e => is_ok (yaml_CostProfile e.2) = true)).
  - split; [intros H i raw Hi; by apply (H (i, raw)), elem_of_range_loop|].
    intros H [i raw] He%elem_of_range_loop. by apply (H i).
  - intros acc e. unfold instance_step. by destruct (yaml_CostProfile e.2).
Qed.

(** C31: whatever the order of the loops, the profiles are read exactly when every
    value of the cost and energy maps and the latency matrix, if there is one,
    decodes; and then the prices, the scaled power curves and the latencies of
    the listed regions are the ones of the reference definitions, and the
    latencies of cities are those of regions. *)
Theorem parse_profiles_spec ns k cost energy latency :
  (is_ok (parse_profiles ns k cost energy latency) = true <->
     (forall i raw, energy !! i = Some raw -> is_ok (yaml_EnergyProfile raw) = true) /\
     (forall i raw, cost !! i = Some raw -> is_ok (yaml_CostProfile raw) = true) /\
     (forall raw, latency !! configMapRegionLatencyKey = Some raw -> raw <> "" -> is_ok (yaml_LatencyMatrix raw) = true)) /\
  (forall d, parse_profiles ns k cost energy latency = Ok d ->
     PD_InstancePrice d = prices_of cost /\ PD_InstancePower d = curves_of cost energy /\
     PD_CityRegionLatencyMs d = PD_RegionLatencyMs d /\
     forall a b, PD_RegionLatencyMs d !! a ≫= (.!! b) =
       raw ← latency !! configMapRegionLatencyKey;
       m ← (if str_empty raw then None else decoded (yaml_LatencyMatrix raw));
       listed_latency m a b).
Proof.
  destruct (latencies_spec ns k latency) as [Hlat1 Hlat2]. split.
  - unfold parse_profiles. rewrite <- (families_ok ns k), <- Hlat1, is_ok_bind. split.
    + intros (families & Hf & Hrest). apply is_ok_bind in Hrest as (pp & Hp & Hrest).
      apply is_ok_bind in Hrest as (lat & Hl & _). rewrite Hf, Hl. split_and!; [done| |done].
      apply (instances_ok ns k families). by rewrite Hp.
    + intros (Hf & Hc & Hl). apply is_ok_Ok in Hf as [families Hf]. exists families. split; [done|]. apply is_ok_bind.
      apply (instances_ok ns k families), is_ok_Ok in Hc as [pp Hc]. exists pp. split; [done|].
      by apply is_ok_Ok in Hl as [lat ->].
  - intros d Hd. unfold parse_profiles in Hd. apply bind_Ok in Hd as (families & Hf & Hd).
    apply families_loaded in Hf as ->. apply bind_Ok in Hd as (pp & Hp & Hd). apply instances_loaded in Hp as ->.
    apply bind_Ok in Hd as (lat & Hl & [= <-]). apply Hlat2 in Hl as [H1 H2]. cbn. by split_and!.
Qed.

(** ** Topology *)

Lemma elem_of_row_services nodes row b :
  mkNN "" b ∈ row_services nodes row <-> exists j v, row !! j = Some v /\ nodes !! j = Some b /\ v <> 0%Z.
Proof.
  unfold row_services. rewrite list_elem_of_omap. split.
  - intros ([v n] & Hin & Hb). apply list_elem_of_lookup in Hin as [j Hj]. apply lookup_zip_Some in Hj as [Hv Hn].
    cbn in Hb. destruct (Z.eqb_spec v 0); [done|]. injection Hb as <-. by exists j, v.
  - intros (j & v & Hv & Hn & H0). exists (v, b). split.
    + apply list_elem_of_lookup. exists j. by apply lookup_zip_Some.
    + cbn. by rewrite (proj2 (Z.eqb_neq v 0) H0).
Qed.

Lemma check_topology_shape where_ tpl :
  check_topology where_ tpl = Ok tt ->
  length (Adjacency tpl) = length (Nodes tpl) /\ forall row, row ∈ Adjacency tpl -> length row = length (Nodes tpl).
Proof.
  unfold check_topology. destruct (_ =? 0)%nat; [done|].
  destruct (Nat.eqb_spec (length (Adjacency tpl)) (length (Nodes tpl))) as [Hl|]; [|done]. cbn [negb].
  rewrite checkM_Ok, Forall_forall. intros Hall. split; [done|]. intros row [i Hi]%list_elem_of_lookup.
  assert (Hin : (i, row) ∈ imap pair (Adjacency tpl)).
  { apply list_elem_of_lookup. exists i. rewrite list_lookup_imap. by rewrite Hi. }
  apply Hall in Hin. cbn in Hin. by destruct (Nat.eqb_spec (length row) (length (Nodes tpl))).
Qed.

Lemma dependencies_lookup nodes rows (f : list Z -> list NamespacedName)
    (deps : gmap NamespacedName (list NamespacedName)) i a row :
  NoDup nodes -> nodes !! i = Some a -> rows !! i = Some row ->
  foldl (fun deps e => <[mkNN "" e.1 := f e.2]> deps) deps (zip nodes rows) !! mkNN "" a = Some (f row).
Proof.
  revert rows deps i. induction nodes as [|n nodes IH]; intros rows deps i Hnd Ha Hrow; [done|].
  destruct rows as [|r rows]; [by rewrite lookup_nil in Hrow|]. apply NoDup_cons in Hnd as [Hnin Hnd]. cbn.
  destruct i as [|i]; cbn in Ha, Hrow; [|by apply (IH rows _ i)]. simplify_eq.
  enough (forall (l : list (string * list Z)) (deps : gmap NamespacedName (list NamespacedName)), a ∉ l.*1 -> deps !! mkNN "" a = Some (f row) ->
            foldl (fun deps e => <[mkNN "" e.1 := f e.2]> deps) deps l !! mkNN "" a = Some (f row)) as H.
  - apply H; [|by rewrite lookup_insert_eq]. intros ([x y] & Hx & Hin)%list_elem_of_fmap. cbn in Hx. subst x.
    apply Hnin. apply list_elem_of_lookup in Hin as [j Hj]. apply lookup_zip_Some in Hj as [Hj _].
    apply list_elem_of_lookup. eauto.
  - intros l. induction l as [|[x y] l IHl]; intros d Hl Hd; [done|]. cbn in *. apply not_elem_of_cons in Hl as [Hx Hl].
    apply IHl; [done|]. rewrite lookup_insert_ne by congruence. done.
Qed.

(** A template that passes the checks is a square matrix over its nodes, and
    with distinct names a service depends on exactly those whose entry in its row
    is not zero. *)
Theorem dependencies_spec where_ tpl i a row :
  check_topology where_ tpl = Ok tt -> NoDup (Nodes tpl) ->
  Nodes tpl !! i = Some a -> Adjacency tpl !! i = Some row ->
  length row = length (Nodes tpl) /\
  exists deps, dependencies tpl !! mkNN "" a = Some deps /\
    forall b, mkNN "" b ∈ deps <-> exists j v, row !! j = Some v /\ Nodes tpl !! j = Some b /\ v <> 0%Z.
Proof.
  intros Hc Hnd Ha Hrow. apply check_topology_shape in Hc as [_ Hrows].
  split; [by apply Hrows, list_elem_of_lookup; exists i|].
  exists (row_services (Nodes tpl) row). split; [by apply (dependencies_lookup _ _ _ _ i)|].
  intros b. apply elem_of_row_services.
Qed.
End profiles.

(** ** Concrete runs *)

Definition demo_topology : topologyTemplate := mkTopology ["web"; "db"] [[0; 1]%Z; [0; 0]%Z].

Lemma dependencies_spec_witness :
  exists deps, dependencies demo_topology !! mkNN "" "web" = Some deps /\ mkNN "" "db" ∈ deps.
Proof.
  destruct (dependencies_spec "ns/cm[k]" demo_topology 0 "web" [0; 1]%Z) as (_ & deps & Hd & Hin);
    [reflexivity|by_computation|reflexivity|reflexivity|].
  exists deps. split; [exact Hd|]. apply Hin. exists 1%nat, 1%Z. split_and!; [reflexivity|reflexivity|discriminate].
Defined.
