(* ===== verification/PolicyInputs.v ===== *)
(** * The optimizer as the policy controller calls it

    internal/controller/optimizationpolicy_solver_wiring.go, and the parts of
    [defaultEvaluate] (optimizationpolicy_controller.go) that gather the same
    inputs: stable replicas, candidate nodes, requests, capacities, goals,
    profiles, the communication inputs; the call of the solver; the improvement in
    percent. *)

From S2P Require Import Prelude Float64 OptTypes OptErrors Plugins RawScores Energy Communication Objective Plan Ilp.
From S2P Require Import ApiTypes KubeApi MemberClients Profiles.

Local Open Scope string_scope.
Local Open Scope list_scope.

(** The configuration of the reconciler, and [os.Getenv("POD_NAME")]. *)
Record PolicyReconciler := mkPolicyReconciler {
  LockNamespace : string;
  LockName : string;
  R_LeaseDurationSeconds : Z;
  ProfilesNamespace : string;
  SolverTimeout : Z;
  R_ControlNamespace : string;
  POD_NAME : string
}.

Definition getLockNamespace (r : PolicyReconciler) : string :=
  if str_empty (LockNamespace r) then "kubex-system" else LockNamespace r.
Definition getLockName (r : PolicyReconciler) : string :=
  if str_empty (LockName r) then "kubex-optimization-policy-lock" else LockName r.
Definition getLeaseDurationSeconds (r : PolicyReconciler) : Z :=
  if (0 <? R_LeaseDurationSeconds r)%Z then R_LeaseDurationSeconds r else 15%Z.
Definition getProfilesNamespace (r : PolicyReconciler) : string :=
  if str_empty (ProfilesNamespace r) then "kubex-system" else ProfilesNamespace r.
Definition identity (r : PolicyReconciler) : string :=
  if str_empty (POD_NAME r) then "kubeX-controller" else POD_NAME r.

(** [NewORToolsSolver()] of the build, and whether the context of the [k]-th event
    has expired when the solver returns. *)
Class Backend := { NewORToolsSolver : MapOrder -> Solver; expired : nat -> bool }.

(** [return ..., err] of an optimizer function. *)
Definition optimizing {A} (r : result opt_error A) : M A :=
  match r with Ok a => mret a | Err e => throw (OptimizerError e) end.

(** ** Stable replicas *)

Definition replica_of (loc : CurrentReplicaLocation) : ReplicaKey :=
  mkReplica (CL_Namespace loc) (CL_Name loc) (CL_ReplicaIndex loc).
Definition node_of (loc : CurrentReplicaLocation) : ClusterNodeID := mkNode (CL_ClusterId loc) (CL_NodeName loc).

Definition stable_replicas (layout : list CurrentReplicaLocation) : list ReplicaKey :=
  replica_of <$> List.filter Stable layout.
Definition stable_placement (layout : list CurrentReplicaLocation) : gmap ReplicaKey ClusterNodeID :=
  foldl (fun m loc => <[replica_of loc := node_of loc]> m) ∅ (List.filter Stable layout).

(** ** Candidate nodes *)

(** The ready, named nodes of a cluster in phase Ready. *)
Definition ready_nodes_of (c : Cluster) : list ClusterNodeID :=
  if String.eqb (Cluster_Phase (Cluster_Status c)) ClusterPhaseReady then
    omap (fun ns => if negb (NS_Ready ns) then None
                    else if str_empty (NS_Name ns) then None
                    else Some (mkNode (Name (Cluster_Meta c)) (NS_Name ns)))
      (Cluster_Nodes (Cluster_Status c))
  else [].
Definition ready_nodes (clusters : list Cluster) : list ClusterNodeID := concat (ready_nodes_of <$> clusters).

(** Without any: the nodes of the current placement, in some order. *)
Definition placement_nodes {ORDERS : LoopOrders} (k : nat) (placement : gmap ReplicaKey ClusterNodeID)
    : list ClusterNodeID :=
  let candSet : gmap ClusterNodeID unit := foldl (fun m e => <[e.2 := tt]> m) ∅ (range_loop k 0 placement) in
  (range_loop k 1 candSet).*1.

(** ** Requests and capacities *)

Definition mebibyte : Z := 1024 * 1024.

(** The sums over the containers of a template, as int64. *)
Definition add_container {KUBE : KubeLib} (acc : Z * Z) (c : option Quantity * option Quantity) : Z * Z :=
  (match c.1 with Some q => wrap64 (acc.1 + MilliValue q) | None => acc.1 end,
   match c.2 with Some q => wrap64 (acc.2 + Z.quot (Value q) mebibyte) | None => acc.2 end)%Z.
Definition or_default (v d : Z) : Z := if (v <=? 0)%Z then d else v.
Definition template_request {KUBE : KubeLib} (raw : string) : Z * Z :=
  let sums := match json_Deployment raw with
              | Some spec => foldl add_container (0, 0)%Z (Dep_Requests spec)
              | None => (0, 0)%Z
              end in
  (or_default sums.1 1000, or_default sums.2 1024).

Definition gd_name (gd : GlobalDeployment) : string := Namespace (GD_Meta gd) +:+ "/" +:+ Name (GD_Meta gd).
Definition replica_gd (rk : ReplicaKey) : string := RK_Namespace rk +:+ "/" +:+ RK_Name rk.

Definition replica_requests {KUBE : KubeLib} (gds : list GlobalDeployment) (stable : list ReplicaKey)
    : gmap ReplicaKey ResourceQuantity :=
  let requests : gmap string (Z * Z) :=
    foldl (fun m gd => <[gd_name gd := template_request (Template (GD_Spec gd))]> m) ∅ gds in
  foldl (fun m rk =>
           let rq := default (1000, 1024)%Z (requests !! replica_gd rk) in
           <[rk := mkRes rq.1 rq.2]> m) ∅ stable.

Definition node_capacities (nodes : list NodeContext) : gmap ClusterNodeID ResourceQuantity :=
  foldl (fun m nc => <[NC_ID nc := mkRes (or_default (CPUAllocatableMilli nc) 4000)
                                         (or_default (MemoryAllocatableMi nc) 8192)]> m) ∅ nodes.

(** ** Goals and the inputs of the communication goal *)

Definition enabled_goals (goals : list OptimizationGoal) : list WeightedGoal :=
  omap (fun g => if feq (Goal_Weight g) fzero then None
                 else Some (mkGoal (Goal_Type g) (Goal_Weight g) (Goal_SourceCity g) (Goal_TopologyRef g))) goals.

(** [hasComm], [topologyRef]. *)
Definition comm_goal (goals : list WeightedGoal) : option WeightedGoal :=
  snd <$> list_find (fun g => String.eqb (G_Type g) "Communication" && negb (feq (Weight g) fzero) = true) goals.

(** The service of a deployment: a label, or its name. *)
Definition service_name (gd : GlobalDeployment) : string :=
  let by_label := default "" (Labels (GD_Meta gd) !! "kubex.io/service") in
  let by_app := default "" (Labels (GD_Meta gd) !! "app") in
  let name := if negb (str_empty by_label) then by_label else by_app in
  if str_empty name then Name (GD_Meta gd) else name.

(** [replicaService]: [defaultEvaluate] leaves the namespace out, as the topology
    does; [computeImprovementPct] keeps it. *)
Definition replica_services (omit_namespace : bool) (gds : list GlobalDeployment) (stable : list ReplicaKey)
    : gmap ReplicaKey NamespacedName :=
  let svcByGD : gmap string NamespacedName :=
    foldl (fun m gd => <[gd_name gd := mkNN (Namespace (GD_Meta gd)) (service_name gd)]> m) ∅ gds in
  foldl (fun m rk =>
           let s := default (mkNN (RK_Namespace rk) (RK_Name rk)) (svcByGD !! replica_gd rk) in
           <[rk := if omit_namespace then mkNN "" (NN_Name s) else s]> m) ∅ stable.

Definition node_regions_of (nodes : list NodeContext) : gmap ClusterNodeID string :=
  foldl (fun m nc => if str_empty (NC_Region nc) then m else <[NC_ID nc := NC_Region nc]> m) ∅ nodes.

(** The optional inputs; nil maps are empty. *)
Record CommInputs := mkCommInputs {
  CI_Dependencies : gmap NamespacedName (list NamespacedName);
  CI_ReplicaService : gmap ReplicaKey NamespacedName;
  CI_NodeRegion : gmap ClusterNodeID string;
  CI_RegionLatencyMs : gmap string (gmap string f64)
}.

(** All that goes into a problem. *)
Record OptimizerInputs := mkOptimizerInputs {
  In_Stable : list ReplicaKey;
  In_Placement : gmap ReplicaKey ClusterNodeID;
  In_Candidates : list ClusterNodeID;
  In_Nodes : list NodeContext;
  In_Requests : gmap ReplicaKey ResourceQuantity;
  In_Goals : list WeightedGoal;
  In_Profiles : profilesData;
  In_Comm : CommInputs
}.

Definition problem_of (i : OptimizerInputs) : Problem :=
  mkProblem (In_Stable i) (In_Candidates i) (Some (In_Placement i)) (In_Nodes i) (Some (In_Requests i))
    (node_capacities (In_Nodes i))
    (Some (mkProblemObjective (In_Goals i) (PD_InstancePrice (In_Profiles i)) (PD_CityRegionLatencyMs (In_Profiles i))
             (CI_Dependencies (In_Comm i)) (CI_RegionLatencyMs (In_Comm i)) (CI_ReplicaService (In_Comm i))
             (CI_NodeRegion (In_Comm i)) (PD_InstancePower (In_Profiles i))))
    0 true true.

Definition plugin_ctx (i : OptimizerInputs) : PluginContext :=
  mkPluginContext (In_Stable i) (In_Nodes i) (Some (In_Requests i)) (In_Placement i).
Definition objective_inputs (i : OptimizerInputs) (goals : list WeightedGoal) : ObjectiveInputs :=
  mkObjectiveInputs goals (plugin_ctx i) (PD_InstancePrice (In_Profiles i)) (PD_CityRegionLatencyMs (In_Profiles i))
    (CI_Dependencies (In_Comm i)) (CI_RegionLatencyMs (In_Comm i)) (CI_ReplicaService (In_Comm i))
    (CI_NodeRegion (In_Comm i)) (PD_InstancePower (In_Profiles i)).

(** ** Improvement *)

(** [math.Max]. *)
Definition fmax (x y : f64) : f64 :=
  match x, y with
  | S754_infinity false, _ | _, S754_infinity false => S754_infinity false
  | S754_nan, _ | _, S754_nan => S754_nan
  | S754_zero sx, S754_zero sy => S754_zero (sx && sy)
  | _, _ => if flt y x then x else y
  end.

(** The constant [1e-9]. *)
Definition f1e9 : f64 := fdiv (f64_of_Z 1) (f64_of_Z (10 ^ 9)).

(** [max(0, (current-expected)/max(|current|,eps)*100)]. *)
Definition improvement_pct (m : PlanMetrics) : f64 :=
  let delta := fsub (CurrentScore m) (ExpectedScore m) in
  if fle delta fzero then fzero
  else fmax fzero (fmul (fdiv delta (fmax (fabs (CurrentScore m)) f1e9)) f100).

(** The assignment that leaves every stable replica where it is. *)
Definition fallback_assignment (pol : OptimizationPolicy) : gmap ReplicaKey ClusterNodeID :=
  stable_placement (CurrentLayout (OP_Status pol)).

Section wiring.
Context {KUBE : KubeLib} {DEC : ProfileDecoders} {ORDERS : LoopOrders} {SORT : GoSort} {FMT : GoFmt} {BACK : Backend}.
Context (r : PolicyReconciler).

(** [labels.Everything()], or the policy's selector when it is valid. *)
Definition selected_gds (pol : OptimizationPolicy) : M (list GlobalDeployment) :=
  let chosen := match TargetSelector (OP_Spec pol) with
                | None => fun _ => true
                | Some s => match LabelSelectorAsSelector s with Ok f => f | Err _ => fun _ => true end
                end in
  list_selected w_gds (fun gd => chosen (Labels (GD_Meta gd))).

Definition candidate_nodes (placement : gmap ReplicaKey ClusterNodeID) : M (list ClusterNodeID) :=
  clusters ← list_objects w_clusters (fun _ => true);
  match ready_nodes clusters with
  | [] => k ← loop_number; mret (placement_nodes k placement)
  | l => mret l
  end.

(** [func (r) getMemberClient(ctx, clusterID)]. *)
Definition getMemberClient (clusterID : string) : M string :=
  MemberClientCache.GetOrBuild (CACHE := policy_clients)
    (if str_empty (R_ControlNamespace r) then "kubex-system" else R_ControlNamespace r) clusterID.

(** What the optimizer reads of a node. *)
Definition node_context (id : ClusterNodeID) (n : Node) : NodeContext :=
  mkNodeContext id (Node_Labels n) (default "" (Node_Labels n !! "node.kubex.io/region")) 0
    (match NRL_CPU (Node_Allocatable n) with Some q => MilliValue q | None => 0 end)
    (match NRL_Memory (Node_Allocatable n) with Some q => Z.quot (Value q) mebibyte | None => 0 end)%Z.

(** One turn of the loop of [buildNodeContexts]. *)
Definition build_context (out : list NodeContext) (id : ClusterNodeID) : M (list NodeContext) :=
  if str_empty (ClusterID id) || str_empty (NodeName id) then
    throw (OtherError ("buildNodeContexts: empty clusterID/nodeName: clusterID=" +:+ fmt_q (ClusterID id) +:+
                       " nodeName=" +:+ fmt_q (NodeName id)))
  else
    cs ← wrapping ("buildNodeContexts: get member client for cluster " +:+ fmt_q (ClusterID id)) (getMemberClient (ClusterID id));
    n ← wrapping ("buildNodeContexts: get node " +:+ fmt_q (NodeName id) +:+ " in cluster " +:+ fmt_q (ClusterID id))
          (node_get cs (NodeName id));
    mret (out ++ [node_context id n]).

(** [func (r) buildNodeContexts(ctx, nodes)]. *)
Fixpoint build_contexts (out : list NodeContext) (ids : list ClusterNodeID) : M (list NodeContext) :=
  match ids with
  | [] => mret out
  | id :: ids' => out' ← build_context out id; build_contexts out' ids'
  end.
Definition buildNodeContexts (nodes : list ClusterNodeID) : M (list NodeContext) := build_contexts [] nodes.

(** The inputs of the communication goal, if there is one. *)
Definition comm_inputs (omit_namespace : bool) (pol : OptimizationPolicy) (goals : list WeightedGoal)
    (profiles : profilesData) (stable : list ReplicaKey) (nodes : list NodeContext) : M CommInputs :=
  match comm_goal goals with
  | None => mret (mkCommInputs ∅ ∅ ∅ ∅)
  | Some g =>
      deps ← loadTopologyFromConfigMap (getProfilesNamespace r) (TopologyRef g);
      gds ← selected_gds pol;
      mret (mkCommInputs deps (replica_services omit_namespace gds stable) (node_regions_of nodes)
              (PD_RegionLatencyMs profiles))
  end.

(** The inputs, gathered in the order of both functions. *)
Definition gather (omit_namespace : bool) (pol : OptimizationPolicy) : M OptimizerInputs :=
  let layout := CurrentLayout (OP_Status pol) in
  let stable := stable_replicas layout in
  let placement := stable_placement layout in
  candidates ← candidate_nodes placement;
  nodes ← buildNodeContexts candidates;
  gds ← selected_gds pol;
  let goals := enabled_goals (OptimizationGoals (OP_Spec pol)) in
  profiles ← loadProfilesFromConfigMaps (getProfilesNamespace r);
  comm ← comm_inputs omit_namespace pol goals profiles stable nodes;
  mret (mkOptimizerInputs stable placement candidates nodes (replica_requests gds stable) goals profiles comm).

(** [func (r) solvePlacement(ctx, pol, p)]: without a backend the fallback; the
    two kinds of failure return the same error. *)
Definition solvePlacement (pol : OptimizationPolicy) (p : Problem) : M (gmap ReplicaKey ClusterNodeID) :=
  k ← loop_number;
  let opts := mkSolveOptions (if (0 <? SolverTimeout r)%Z then SolverTimeout r else 0)%Z in
  match SolveProblem (mkSolveContext None (expired k)) (Some (NewORToolsSolver (loop_order k))) p opts with
  | Err ErrSolverNotImplemented => mret (fallback_assignment pol)
  | Err e => throw (OptimizerError e)
  | Ok None => mret ∅
  | Ok (Some res) => mret (default ∅ (Assignment res))
  end.

(** [func (r) computeImprovementPct(ctx, pol) (float64, string, error)]. *)
Definition computeImprovementPct (pol : OptimizationPolicy) : M (f64 * string) :=
  match stable_replicas (CurrentLayout (OP_Status pol)) with
  | [] => mret (fzero, "summary")
  | _ =>
      i ← gather false pol;
      assignment ← solvePlacement pol (problem_of i);
      k ← loop_number;
      pm ← optimizing (ComputePlanFromGoals (MAPS := loop_order k) 0 (objective_inputs i (In_Goals i)) assignment);
      mret (improvement_pct pm.1, "summary")
  end.
End wiring.

(** ** What gathering leaves alone: everything but the client cache and the count of
    events. *)

Section quiet.
Context {KUBE : KubeLib} {DEC : ProfileDecoders} {ORDERS : LoopOrders} {SORT : GoSort} {FMT : GoFmt} {BACK : Backend}.
Context {T : Type} (proj : World -> T).
Hypothesis Htick : forall w, proj (tick w) = proj w.
Hypothesis Hclients : forall f w, proj (set_policy_clients f w) = proj w.
Hypothesis Hread : forall w, proj (set_members (fun m => m) w) = proj w.

Lemma quiet_returning {A} (x : result api_error A) : preserves proj (returning x).
Proof. destruct x; [apply preserves_ret|apply preserves_throw]. Qed.
Lemma quiet_optimizing {A} (x : result opt_error A) : preserves proj (optimizing x).
Proof. destruct x; [apply preserves_ret|apply preserves_throw]. Qed.

Lemma quiet_topology ns name : preserves proj (loadTopologyFromConfigMap ns name).
Proof. unfold loadTopologyFromConfigMap. quiet; auto using quiet_returning. Qed.
Lemma quiet_profiles ns : preserves proj (loadProfilesFromConfigMaps ns).
Proof. unfold loadProfilesFromConfigMaps. quiet; auto using quiet_returning. Qed.

Lemma quiet_selected pol : preserves proj (selected_gds pol).
Proof. by apply preserves_list_selected. Qed.
Lemma quiet_candidates placement : preserves proj (candidate_nodes placement).
Proof. unfold candidate_nodes. quiet. Qed.
Lemma quiet_getMemberClient r id : preserves proj (getMemberClient r id).
Proof. apply MemberClientCache.preserves_GetOrBuild; [exact Htick|exact Hclients]. Qed.
Lemma quiet_wrapping {A} msg (m : M A) : preserves proj m -> preserves proj (wrapping msg m).
Proof. intros. unfold wrapping. quiet. Qed.
Lemma quiet_contexts r out ids : preserves proj (build_contexts r out ids).
Proof.
  revert out. induction ids as [|id ids IH]; intros out; cbn; [apply preserves_ret|].
  apply preserves_bind; [|auto]. unfold build_context. quiet.
  - apply quiet_wrapping, quiet_getMemberClient.
  - apply quiet_wrapping. by apply preserves_member_read.
Qed.
Lemma quiet_comm r b pol goals profiles stable nodes : preserves proj (comm_inputs r b pol goals profiles stable nodes).
Proof. unfold comm_inputs. quiet; auto using quiet_topology, quiet_selected. Qed.
Lemma quiet_gather r b pol : preserves proj (gather r b pol).
Proof.
  unfold gather, buildNodeContexts.
  quiet; auto using quiet_candidates, quiet_contexts, quiet_selected, quiet_profiles, quiet_comm.
Qed.
Lemma quiet_solve r pol p : preserves proj (solvePlacement r pol p).
Proof. unfold solvePlacement. quiet. Qed.
Lemma quiet_improvement r pol : preserves proj (computeImprovementPct r pol).
Proof. unfold computeImprovementPct. quiet; auto using quiet_gather, quiet_solve, quiet_optimizing. Qed.
End quiet.
