(* ===== verification/PolicyController.v ===== *)
(** * OptimizationPolicy controller: reconciliation

    internal/controller/optimizationpolicy_controller.go without the evaluation:
    validation of the spec, the shared lease, the current layout and its
    stability, the timer, and [Reconcile]. Events and log lines are not modelled. *)

From S2P Require Import Prelude Float64 OptErrors Ilp GoTime ApiTypes KubeApi Profiles PolicyInputs.

Local Open Scope string_scope.
Local Open Scope list_scope.

Definition policy_key (pol : OptimizationPolicy) : Key := (Namespace (OP_Meta pol), Name (OP_Meta pol)).
Definition with_policy_status (pol : OptimizationPolicy) (st : OptimizationPolicyStatus) : OptimizationPolicy :=
  mkPolicy (OP_Meta pol) (OP_Spec pol) st.

(** Field updates of a status. *)
Definition set_phase_conditions (phase : string) (cs : list Condition) (st : OptimizationPolicyStatus)
    : OptimizationPolicyStatus :=
  mkPolicyStatus phase (ObservedDeployments st) (ObservedReplicas st) (CurrentLayout st) (StableCount st)
    (UnstableCount st) (UnstableReasonsCount st) (LastEvaluationTime st) (LatestPlanRef st) cs.
Definition set_observed (n : Z) (st : OptimizationPolicyStatus) : OptimizationPolicyStatus :=
  mkPolicyStatus (OP_Phase st) n (ObservedReplicas st) (CurrentLayout st) (StableCount st)
    (UnstableCount st) (UnstableReasonsCount st) (LastEvaluationTime st) (LatestPlanRef st) (OP_Conditions st).

(** Texts of package fmt and of errors that end up in messages: [%.4g], and the
    error of [time.ParseDuration]. *)
Class PolicyTexts := { fmt_4g : f64 -> string; duration_error : string -> string }.

(** ** Validation *)

Definition allowed_goal (type : string) : bool :=
  existsb (String.eqb type) ["Cost"; "Latency"; "Communication"; "Energy"; "Migration"].

(** The constants [1.0] and [1e-6]. *)
Definition f1 : f64 := f64_of_Z 1.
Definition sumEps : f64 := fdiv (f64_of_Z 1) (f64_of_Z (10 ^ 6)).

Definition positive_weights (goals : list OptimizationGoal) : list f64 :=
  List.filter (flt fzero) (Goal_Weight <$> goals).

Section validate.
Context {FMT : GoFmt} {TEXT : PolicyTexts}.

Definition spec_invalid (pol : OptimizationPolicy) (t : Z) (reason message : string) : Condition :=
  mkCondition "SpecValid" "False" (Generation (OP_Meta pol)) (Some t) reason message.

(** [func validateOptimizationPolicySpec(pol)]: the condition of the first check
    that fails; the phase is Failed then. *)
Definition validateOptimizationPolicySpec (pol : OptimizationPolicy) (t : Z) : result Condition unit :=
  let s := OP_Spec pol in
  match list_find (fun g => allowed_goal (Goal_Type g) = false) (OptimizationGoals s) with
  | Some (i, g) => Err (spec_invalid pol t "InvalidGoalType"
      ("goal[" +:+ pretty i +:+ "].type=" +:+ fmt_q (Goal_Type g) +:+ " is not supported"))
  | None =>
      let sum := fsum (positive_weights (OptimizationGoals s)) in
      if negb (length (OptimizationGoals s) =? 0)%nat && flt sumEps (fabs (fsub sum f1)) then
        Err (spec_invalid pol t "InvalidGoalWeights"
          ("sum(weights where weight>0) must be 1 (eps=" +:+ fmt_v sumEps +:+ "), got " +:+ fmt_v sum))
      else
        let periodic := String.eqb (RunMode s) OptimizationRunModePeriodic in
        if periodic && str_empty (RebalancePoint s) then
          Err (spec_invalid pol t "InvalidRebalancePoint" "rebalancePoint is required when runMode=Periodic")
        else if periodic && negb (bool_decide (is_Some (ParseDuration (RebalancePoint s)))) then
          Err (spec_invalid pol t "InvalidRebalancePoint"
            ("rebalancePoint " +:+ fmt_q (RebalancePoint s) +:+ " is not a valid duration: " +:+
             duration_error (RebalancePoint s)))
        else if String.eqb (Strategy s) OptimizationStrategyConservative &&
                ((ImprovementThresholdPercent s <? 0) || (100 <? ImprovementThresholdPercent s))%Z then
          Err (spec_invalid pol t "InvalidImprovementThreshold"
            ("improvementThresholdPercent must be in [0,100], got " +:+ pretty (ImprovementThresholdPercent s)))
        else Ok tt
  end.
End validate.

(** ** Layout *)

(** [func globalDeploymentMigratable(gd) (bool, string)]. *)
Fixpoint volume_reason (vs : list Volume) : bool * string :=
  match vs with
  | [] => (true, "")
  | v :: vs' =>
      if Vol_HostPath v then (false, "NonMigratableHostPath")
      else if Vol_PersistentVolumeClaim v then (false, "NonMigratablePVC")
      else volume_reason vs'
  end.
Definition empty_deployment_spec : DeploymentSpec := mkDepSpec None None ∅ [] [] None "".
Definition globalDeploymentMigratable {KUBE : KubeLib} (gd : GlobalDeployment) : bool * string :=
  let raw := Template (GD_Spec gd) in
  let spec := if str_empty raw then empty_deployment_spec else json_DeploymentSpec raw in
  let required := match Dep_Affinity spec with
                  | Some a => match Aff_Node a with Some na => Required na | None => None end
                  | None => None
                  end in
  match required with
  | Some _ => (false, "NonMigratableRequiredNodeAffinity")
  | None => volume_reason (Dep_Volumes spec)
  end.

(** [rbIndex[gdKey][rb.Spec.ReplicaIndex] = rb]. *)
Definition index_binding (m : gmap string (gmap Z ReplicaBinding)) (rb : ReplicaBinding)
    : gmap string (gmap Z ReplicaBinding) :=
  let ref := RBS_GlobalDeploymentRef (RB_Spec rb) in
  let gdKey := Ref_Namespace ref +:+ "/" +:+ Ref_Name ref in
  <[gdKey := <[RBS_ReplicaIndex (RB_Spec rb) := rb]> (default ∅ (m !! gdKey))]> m.

(** Cluster, node and source of a binding. *)
Definition location_of (rb : ReplicaBinding) : string * string * string :=
  let st := RB_Status rb in
  let s := RB_Spec rb in
  if negb (str_empty (RB_NodeName st)) || negb (str_empty (RB_ClusterName st)) then
    (RB_ClusterName st, RB_NodeName st, "RBStatus")
  else if negb (str_empty (TargetNodeName s)) || negb (str_empty (TargetCluster s)) then
    (TargetCluster s, TargetNodeName s, "RBSpecFallback")
  else ("", "", "Unknown").

(** Stable, or why not. *)
Definition stability (migratable : bool * string) (clusterId nodeName phase : string) : bool * string :=
  if negb migratable.1 then (false, migratable.2)
  else if str_empty clusterId then (false, "ClusterIdEmpty")
  else if str_empty nodeName then (false, "NodeNameEmpty")
  else if negb (String.eqb phase ReplicaBindingPhaseRunning) then (false, "ReplicaNotRunning")
  else (true, "").

Definition replica_location (gd : GlobalDeployment) (migratable : bool * string) (idx : Z) (rb : ReplicaBinding)
    : CurrentReplicaLocation :=
  let '(cid, node, src) := location_of rb in
  let '(stable, reason) := stability migratable cid node (RB_Phase (RB_Status rb)) in
  mkReplicaLocation (Name (GD_Meta gd)) (Namespace (GD_Meta gd)) idx cid node src stable reason.

(** [reasonCounts], [stableCount], [unstableCount] over the items; int32. *)
Definition tally (acc : Z * Z * gmap string Z) (loc : CurrentReplicaLocation) : Z * Z * gmap string Z :=
  let '(stable, unstable, reasons) := acc in
  if Stable loc then (wrap32 (stable + 1), unstable, reasons)
  else (stable, wrap32 (unstable + 1),
        <[UnstableReason loc := wrap32 (default 0 (reasons !! UnstableReason loc) + 1)]> reasons)%Z.

(** [func equalStringInt32Map(a, b map[string]int32) bool]. *)
Definition equalStringInt32Map (a b : gmap string Z) : bool :=
  if negb (size a =? size b)%nat then false
  else forallb (fun e => match b !! e.1 with Some bv => (bv =? e.2)%Z | None => false end) (map_to_list a).

(** [type sig struct] and [func equalCurrentLayout(a, b) bool]. *)
Notation Sig := (string * string * Z * string * string * string)%type.
Definition sig_of (v : CurrentReplicaLocation) : Sig :=
  (CL_Namespace v, CL_Name v, CL_ReplicaIndex v, CL_ClusterId v, CL_NodeName v, CL_Source v).
Definition count_of (ma : gmap Sig Z) (s : Sig) : Z := default 0%Z (ma !! s).
Fixpoint match_sigs (ma : gmap Sig Z) (b : list CurrentReplicaLocation) : option (gmap Sig Z) :=
  match b with
  | [] => Some ma
  | v :: b' =>
      if (count_of ma (sig_of v) =? 0)%Z then None
      else match_sigs (<[sig_of v := (count_of ma (sig_of v) - 1)%Z]> ma) b'
  end.
Definition equalCurrentLayout (a b : list CurrentReplicaLocation) : bool :=
  if negb (length a =? length b)%nat then false
  else
    let ma := foldl (fun ma v => <[sig_of v := (count_of ma (sig_of v) + 1)%Z]> ma) ∅ a in
    match match_sigs ma b with
    | None => false
    | Some ma' => forallb (fun e => (e.2 =? 0)%Z) (map_to_list ma')
    end.

Definition set_layout (items : list CurrentReplicaLocation) (st : OptimizationPolicyStatus) : OptimizationPolicyStatus :=
  let '(stable, unstable, reasons) := foldl tally (0, 0, ∅)%Z items in
  mkPolicyStatus (OP_Phase st) (ObservedDeployments st) (wrap32 (Z.of_nat (length items))) items stable unstable reasons
    (LastEvaluationTime st) (LatestPlanRef st) (OP_Conditions st).

(** Nothing to write. *)
Definition layout_unchanged (st st' : OptimizationPolicyStatus) : bool :=
  (ObservedReplicas st =? ObservedReplicas st')%Z && (StableCount st =? StableCount st')%Z &&
  (UnstableCount st =? UnstableCount st')%Z &&
  equalStringInt32Map (UnstableReasonsCount st) (UnstableReasonsCount st') &&
  equalCurrentLayout (CurrentLayout st) (CurrentLayout st').

Section controller.
Context {KUBE : KubeLib} {ORDERS : LoopOrders} {FMT : GoFmt} {TEXT : PolicyTexts}.
Context (r : PolicyReconciler).

(** The items of one deployment, in the order of the loop over its bindings. *)
Definition deployment_items (k : nat) (index : gmap string (gmap Z ReplicaBinding)) (i : nat) (gd : GlobalDeployment)
    : list CurrentReplicaLocation :=
  match index !! gd_name gd with
  | None => []
  | Some m =>
      (fun e => replica_location gd (globalDeploymentMigratable gd) e.1 e.2) <$> range_loop k i m
  end.
Definition layout_items (k : nat) (gds : list GlobalDeployment) (rbs : list ReplicaBinding) : list CurrentReplicaLocation :=
  concat (imap (deployment_items k (foldl index_binding ∅ rbs)) gds).

(** [return err] of an invalid selector. *)
Definition selected_strictly (pol : OptimizationPolicy) : M (list GlobalDeployment) :=
  match TargetSelector (OP_Spec pol) with
  | None => list_selected w_gds (fun _ => true)
  | Some s => match LabelSelectorAsSelector s with
              | Ok chosen => list_selected w_gds (fun gd => chosen (Labels (GD_Meta gd)))
              | Err e => throw e
              end
  end.

(** A change of the status in place, and its patch. *)
Definition write_policy (pol : OptimizationPolicy) (f : OptimizationPolicyStatus -> OptimizationPolicyStatus)
    : M OptimizationPolicy :=
  patch_policy_status (policy_key pol) f ≫= fun _ => mret (with_policy_status pol (f (OP_Status pol))).

(** [func (r) reconcileObservedDeployments(ctx, pol) error]; the policy is changed
    in place. *)
Definition reconcileObservedDeployments (pol : OptimizationPolicy) : M OptimizationPolicy :=
  gds ← selected_strictly pol;
  let observed := wrap32 (Z.of_nat (length gds)) in
  if (ObservedDeployments (OP_Status pol) =? observed)%Z then mret pol
  else write_policy pol (set_observed observed).

(** [func (r) reconcileCurrentLayout(ctx, pol) error]. *)
Definition reconcileCurrentLayout (pol : OptimizationPolicy) : M OptimizationPolicy :=
  gds ← selected_strictly pol;
  rbs ← list_objects w_rbs (fun _ => true);
  k ← loop_number;
  let items := layout_items k gds rbs in
  if layout_unchanged (OP_Status pol) (set_layout items (OP_Status pol)) then mret pol
  else write_policy pol (set_layout items).

(** [func (r) setStatusPhaseAndCondition(ctx, pol, phase, cond) error]. *)
Definition same_condition (c cond : Condition) : bool :=
  String.eqb (Cond_Type c) (Cond_Type cond) && String.eqb (Cond_Status c) (Cond_Status cond) &&
  String.eqb (Cond_Reason c) (Cond_Reason cond) && String.eqb (Cond_Message c) (Cond_Message cond) &&
  (Cond_ObservedGeneration c =? Cond_ObservedGeneration cond)%Z.
Fixpoint condition_differs (cs : list Condition) (cond : Condition) (needUpdate : bool) : bool :=
  match cs with
  | [] => needUpdate
  | c :: cs' => if same_condition c cond then false else condition_differs cs' cond true
  end.
Definition setStatusPhaseAndCondition (pol : OptimizationPolicy) (phase : string) (cond : Condition)
    : M OptimizationPolicy :=
  let st := OP_Status pol in
  if negb (String.eqb (OP_Phase st) phase) || condition_differs (OP_Conditions st) cond false then
    write_policy pol (set_phase_conditions phase (SetStatusCondition (OP_Conditions st) cond))
  else mret pol.

(** ** Lease *)

Definition lease_key : Key := (getLockNamespace r, getLockName r).
Definition holder_id (pol : OptimizationPolicy) : string :=
  identity r +:+ ":" +:+ Namespace (OP_Meta pol) +:+ "/" +:+ Name (OP_Meta pol).

(** Renewed less than its duration ago. *)
Definition lease_valid (l : Lease) (t : Z) : bool :=
  match RenewTime l with
  | None => false
  | Some renewed =>
      (t - renewed <=? default (getLeaseDurationSeconds r) (LeaseDurationSeconds l) * Second)%Z
  end.

(** [func (r) tryAcquirePolicyLease(ctx, pol) (acquired, holder, err)]. *)
Definition tryAcquirePolicyLease (pol : OptimizationPolicy) : M (bool * string) :=
  let selfId := holder_id pol in
  let dur := Some (getLeaseDurationSeconds r) in
  g ← attempt (get_object w_leases lease_key);
  t ← now;
  match g with
  | Err e =>
      if negb (IsNotFound e) then throw e
      else create_lease lease_key (mkLease (Some selfId) dur (Some t) (Some t)) ≫= fun _ => mret (true, selfId)
  | Ok lease =>
      let holder := default "" (HolderIdentity lease) in
      if String.eqb holder selfId then
        patch_lease lease_key (mkLease (HolderIdentity lease) dur (AcquireTime lease) (Some t)) ≫= fun _ =>
        mret (true, selfId)
      else if lease_valid lease t then mret (false, holder)
      else patch_lease lease_key (mkLease (Some selfId) dur (Some t) (Some t)) ≫= fun _ => mret (true, selfId)
  end.

(** ** Timer *)

(** [func (r) cancelTimer(key)]; a timer that is not armed has no entry. *)
Definition cancelTimer (key : Key) : M unit := modify (set_timers (delete key)).

(** When the timer is to fire; [None]: no timer. *)
Definition next_trigger (pol : OptimizationPolicy) (t : Z) : result api_error (option Z) :=
  let s := OP_Spec pol in
  if String.eqb (RunMode s) OptimizationRunModeOnce then
    Ok (match LastEvaluationTime (OP_Status pol) with None => Some t | Some _ => None end)
  else if String.eqb (RunMode s) OptimizationRunModePeriodic then
    match ParseDuration (RebalancePoint s) with
    | None => Err (OtherError (duration_error (RebalancePoint s)))
    | Some d =>
        Ok (Some (match LastEvaluationTime (OP_Status pol) with
                  | None => t + d
                  | Some last => if last + d <=? t then t else last + d
                  end))%Z
    end
  else Ok None.

(** [func (r) ensureTimer(parent, pol) error]: a delay below zero is zero. *)
Definition ensureTimer (pol : OptimizationPolicy) : M unit :=
  t ← now;
  next ← returning (next_trigger pol t);
  match next with
  | None => cancelTimer (policy_key pol)
  | Some at_ => cancelTimer (policy_key pol) ≫= fun _ => modify (set_timers <[policy_key pol := Z.max at_ t]>)
  end.

(** ** [Reconcile] *)

Definition spec_valid (pol : OptimizationPolicy) (t : Z) : Condition :=
  mkCondition "SpecValid" "True" (Generation (OP_Meta pol)) (Some t) "Valid" "spec is valid".
Definition lease_condition (pol : OptimizationPolicy) (t : Z) (status reason message : string) : Condition :=
  mkCondition "LeaseAcquired" status (Generation (OP_Meta pol)) (Some t) reason message.

(** The part of an enabled, valid policy. *)
Definition reconcile_enabled (pol : OptimizationPolicy) : M Result :=
  lease ← tryAcquirePolicyLease pol;
  let '(acquired, holder) := lease in
  t ← now;
  if negb acquired then
    cancelTimer (policy_key pol) ≫= fun _ =>
    ignore (setStatusPhaseAndCondition pol OptimizationPolicyPhaseFailed
      (lease_condition pol t "False" "Conflict"
        ("conflict: another policy holds lease " +:+ getLockNamespace r +:+ "/" +:+ getLockName r +:+ ": " +:+ holder))) ≫= fun _ =>
    mret Done
  else
    pol1 ← setStatusPhaseAndCondition pol OptimizationPolicyPhaseActive
             (lease_condition pol t "True" "Acquired" "lease acquired");
    pol2 ← reconcileObservedDeployments pol1;
    pol3 ← reconcileCurrentLayout pol2;
    ensureTimer pol3 ≫= fun _ =>
    mret (mkResult (Z.quot (getLeaseDurationSeconds r) 2 * Second)).

(** [func (r) Reconcile(ctx, req)]. *)
Definition Reconcile (key : Key) : M Result :=
  g ← attempt (get_object w_policies key);
  match g with
  | Err e => if IsNotFound e then cancelTimer key ≫= fun _ => mret Done else throw e
  | Ok pol =>
      t ← now;
      match validateOptimizationPolicySpec pol t with
      | Err cond => ignore (setStatusPhaseAndCondition pol OptimizationPolicyPhaseFailed cond) ≫= fun _ => mret Done
      | Ok _ =>
          if negb (Enabled (OP_Spec pol)) then
            cancelTimer key ≫= fun _ =>
            setStatusPhaseAndCondition pol OptimizationPolicyPhaseDisabled (spec_valid pol t) ≫= fun _ => mret Done
          else reconcile_enabled pol
      end
  end.
End controller.

(** ** What a reconciliation leaves alone: everything but the policies, its lease and
    the timers. *)

Section quiet.
Context {KUBE : KubeLib} {ORDERS : LoopOrders} {FMT : GoFmt} {TEXT : PolicyTexts} (r : PolicyReconciler).
Context {T : Type} (proj : World -> T).
Hypothesis Htick : forall w, proj (tick w) = proj w.
Hypothesis Hpolicies : forall f w, proj (set_policies f w) = proj w.
Hypothesis Hlease : forall l w, proj (set_leases <[lease_key r := l]> w) = proj w.
Hypothesis Htimers : forall f w, proj (set_timers f w) = proj w.

Lemma quiet_write_policy pol f : preserves proj (write_policy pol f).
Proof. unfold write_policy. quiet. Qed.
Lemma quiet_setStatus pol phase cond : preserves proj (setStatusPhaseAndCondition pol phase cond).
Proof. unfold setStatusPhaseAndCondition. quiet; auto using quiet_write_policy. Qed.
Lemma quiet_strictly pol : preserves proj (selected_strictly pol).
Proof. unfold selected_strictly. quiet. Qed.
Lemma quiet_cancelTimer key : preserves proj (cancelTimer key).
Proof. intros w. apply Htimers. Qed.
Lemma quiet_ensureTimer pol : preserves proj (ensureTimer pol).
Proof.
  unfold ensureTimer. quiet; auto using quiet_cancelTimer, quiet_returning. intros w. apply Htimers.
Qed.
Lemma quiet_layout pol : preserves proj (reconcileCurrentLayout pol).
Proof. unfold reconcileCurrentLayout. quiet; auto using quiet_strictly, quiet_write_policy. Qed.
Lemma quiet_observed pol : preserves proj (reconcileObservedDeployments pol).
Proof. unfold reconcileObservedDeployments. quiet; auto using quiet_strictly, quiet_write_policy. Qed.
Lemma preserves_policy_call key : preserves proj (Reconcile r key).
Proof.
  unfold Reconcile, reconcile_enabled, tryAcquirePolicyLease.
  quiet; auto using quiet_cancelTimer, quiet_setStatus, quiet_observed, quiet_layout, quiet_ensureTimer.
Qed.
End quiet.

(** ** Equality tests *)

Lemma equalStringInt32Map_spec (a b : gmap string Z) : equalStringInt32Map a b = true <-> a = b.
Proof.
  unfold equalStringInt32Map. split.
  - destruct (size a =? size b)%nat eqn:Hsize; [|done]. apply Nat.eqb_eq in Hsize. cbn.
    rewrite forallb_forall. intros Hall.
    assert (a ⊆ b) as Hsub.
    { apply map_subseteq_spec. intros k v Hk. specialize (Hall (k, v)). cbn in Hall.
      rewrite <- list_elem_of_In, elem_of_map_to_list in Hall. specialize (Hall Hk).
      destruct (b !! k) as [bv|]; [|done]. apply Z.eqb_eq in Hall. by subst. }
    apply map_subseteq_size_eq; [done|lia].
  - intros ->. rewrite Nat.eqb_refl. cbn. apply forallb_forall. intros [k v] Hkv.
    apply list_elem_of_In, elem_of_map_to_list in Hkv. cbn. rewrite Hkv. apply Z.eqb_refl.
Qed.

(** [ma] counts the elements of [l]. *)
Definition occurrences (s : Sig) (l : list Sig) : Z := Z.of_nat (length (filter (.= s) l)).
Definition counts (ma : gmap Sig Z) (l : list Sig) : Prop := forall s, count_of ma s = occurrences s l.

Lemma occurrences_cons s s' l : occurrences s (s' :: l) = ((if decide (s' = s) then 1 else 0) + occurrences s l)%Z.
Proof. unfold occurrences. rewrite filter_cons. destruct (decide (s' = s)); cbn [length]; lia. Qed.

Lemma occurrences_perm s l l' : l ≡ₚ l' -> occurrences s l = occurrences s l'.
Proof. unfold occurrences. by intros ->. Qed.

Lemma occurrences_in s l : occurrences s l <> 0%Z <-> s ∈ l.
Proof.
  unfold occurrences. split.
  - destruct (filter (.= s) l) as [|x xs] eqn:Hf; [done|]. intros _.
    assert (x ∈ filter (.= s) l) as Hx by (rewrite Hf; apply list_elem_of_here).
    apply list_elem_of_filter in Hx as [-> Hx]. done.
  - intros Hs. destruct (filter (.= s) l) eqn:Hf; cbn; [|lia].
    assert (s ∈ filter (.= s) l) as Hin by by apply list_elem_of_filter. by rewrite Hf in Hin; apply elem_of_nil in Hin.
Qed.

Lemma count_of_insert ma s v s' : count_of (<[s := v]> ma) s' = if decide (s = s') then v else count_of ma s'.
Proof. unfold count_of. destruct (decide (s = s')) as [->|Hs]; by rewrite ?lookup_insert_eq, ?lookup_insert_ne. Qed.

Lemma counts_layout a ma l : counts ma l ->
  counts (foldl (fun ma v => <[sig_of v := (count_of ma (sig_of v) + 1)%Z]> ma) ma a) ((sig_of <$> a) ++ l).
Proof.
  revert ma l. induction a as [|v a IH]; intros ma l Hma; [done|]. cbn [foldl].
  intros s. rewrite (IH _ (sig_of v :: l)).
  - apply occurrences_perm. by rewrite <- Permutation_middle.
  - intros s'. rewrite count_of_insert, occurrences_cons, (Hma s'), (Hma (sig_of v)).
    destruct (decide (sig_of v = s')) as [->|]; lia.
Qed.

Lemma match_sigs_spec b : forall ma l, counts ma l ->
  match match_sigs ma b with
  | Some ma' => exists l', l ≡ₚ (sig_of <$> b) ++ l' /\ counts ma' l'
  | None => forall l', ~ l ≡ₚ (sig_of <$> b) ++ l'
  end.
Proof.
  induction b as [|v b IH]; intros ma l Hma; [by exists l|]. cbn [match_sigs fmap list_fmap].
  destruct (count_of ma (sig_of v) =? 0)%Z eqn:Hz; rewrite (Hma (sig_of v)) in Hz.
  - apply Z.eqb_eq in Hz. intros l' Hp. assert (sig_of v ∈ l) as Hin by (rewrite Hp; apply list_elem_of_here).
    by apply occurrences_in in Hin.
  - apply Z.eqb_neq, occurrences_in, elem_of_Permutation in Hz as [l0 Hl].
    assert (counts (<[sig_of v := (count_of ma (sig_of v) - 1)%Z]> ma) l0) as H0.
    { intros s. rewrite count_of_insert, (Hma (sig_of v)), (Hma s), !(occurrences_perm _ _ _ Hl), !occurrences_cons.
      destruct (decide (sig_of v = s)) as [<-|]; [rewrite decide_True by done|]; lia. }
    specialize (IH _ _ H0). destruct (match_sigs _ b) as [ma'|].
    + destruct IH as (l' & Hl' & Hc). exists l'. split; [|done]. by rewrite Hl, Hl'.
    + intros l' Hp. apply (IH l'). rewrite Hl in Hp. by apply Permutation_cons_inv in Hp.
Qed.

(** [equalCurrentLayout] decides whether two layouts list the same replicas at
    the same places with the same source, up to order: the signatures of the one
    are a permutation of those of the other. *)
Lemma equalCurrentLayout_spec a b :
  equalCurrentLayout a b = true <-> (sig_of <$> a) ≡ₚ (sig_of <$> b).
Proof.
  unfold equalCurrentLayout. destruct (length a =? length b)%nat eqn:Hlen; cbn [negb].
  - apply Nat.eqb_eq in Hlen.
    assert (counts ∅ []) as H0 by done. apply (counts_layout a) in H0. rewrite app_nil_r in H0.
    pose proof (match_sigs_spec b _ _ H0) as Hb. destruct (match_sigs _ b) as [ma'|].
    + destruct Hb as (l' & Hp & Hc).
      assert (l' = []) as ->.
      { apply Permutation_length in Hp. rewrite length_app, !length_fmap in Hp. destruct l'; [done|cbn in Hp; lia]. }
      rewrite app_nil_r in Hp. split; [done|]. intros _. apply forallb_forall. intros [s c] Hsc.
      apply list_elem_of_In, elem_of_map_to_list in Hsc. specialize (Hc s). unfold count_of in Hc. rewrite Hsc in Hc.
      cbn in *. by rewrite Hc.
    + split; [done|]. intros Hp. exfalso. apply (Hb []). by rewrite app_nil_r.
  - split; [done|]. intros Hp. apply Permutation_length in Hp. rewrite !length_fmap in Hp.
    apply Nat.eqb_neq in Hlen. lia.
Qed.

(** ** Validation *)

(** The rules of a valid spec. *)
Record valid_spec (s : OptimizationPolicySpec) : Prop := {
  valid_goals : Forall (fun g => Goal_Type g ∈ ["Cost"; "Latency"; "Communication"; "Energy"; "Migration"])
                  (OptimizationGoals s);
  valid_weights : OptimizationGoals s = [] \/
    flt sumEps (fabs (fsub (fsum (positive_weights (OptimizationGoals s))) f1)) = false;
  valid_period : RunMode s = OptimizationRunModePeriodic -> is_Some (ParseDuration (RebalancePoint s));
  valid_threshold : Strategy s = OptimizationStrategyConservative -> (0 <= ImprovementThresholdPercent s <= 100)%Z
}.

Lemma allowed_goal_spec t : allowed_goal t = true <-> t ∈ ["Cost"; "Latency"; "Communication"; "Energy"; "Migration"].
Proof.
  unfold allowed_goal. rewrite existsb_exists. setoid_rewrite <- list_elem_of_In. split.
  - by intros (x & Hx & ->%String.eqb_eq).
  - intros Ht. exists t. by rewrite String.eqb_refl.
Qed.

Lemma ParseDuration_nonempty : ParseDuration "" = None.
Proof. by_eval. Qed.

Ltac rejected := repeat split; repeat first [apply list_elem_of_here | apply list_elem_of_further].

Section validate_spec.
Context {FMT : GoFmt} {TEXT : PolicyTexts}.

Lemma validation_cases pol t :
  match validateOptimizationPolicySpec pol t with
  | Ok _ => valid_spec (OP_Spec pol)
  | Err c => ~ valid_spec (OP_Spec pol) /\ Cond_Type c = "SpecValid" /\ Cond_Status c = "False" /\
             Cond_ObservedGeneration c = Generation (OP_Meta pol) /\
             Cond_Reason c ∈ ["InvalidGoalType"; "InvalidGoalWeights"; "InvalidRebalancePoint";
                              "InvalidImprovementThreshold"]
  end.
Proof.
  unfold validateOptimizationPolicySpec. set (s := OP_Spec pol).
  destruct (list_find _ (OptimizationGoals s)) as [[i g]|] eqn:Hfind.
  { apply list_find_Some in Hfind as (Hg & Hbad & _). split; [|rejected].
    intros [Hgoals _ _ _]. rewrite Forall_lookup in Hgoals. apply Hgoals in Hg. apply allowed_goal_spec in Hg.
    by rewrite Hg in Hbad. }
  apply list_find_None in Hfind.
  assert (Forall (fun g => Goal_Type g ∈ ["Cost"; "Latency"; "Communication"; "Energy"; "Migration"])
            (OptimizationGoals s)) as Hgoals.
  { eapply Forall_impl; [exact Hfind|]. intros g Hg. apply allowed_goal_spec.
    by apply not_false_iff_true. }
  destruct (negb _ && _) eqn:Hw.
  { split; [|rejected]. intros [_ [Hn|Hf] _ _]; [by rewrite Hn in Hw|].
    rewrite Hf in Hw. by rewrite andb_false_r in Hw. }
  destruct (String.eqb (RunMode s) _ && str_empty _) eqn:Hp1.
  { split; [|rejected]. intros [_ _ Hp _]. apply andb_true_iff in Hp1 as [Hm%String.eqb_eq He].
    apply Hp in Hm. destruct (RebalancePoint s); [|done]. rewrite ParseDuration_nonempty in Hm. by destruct Hm. }
  destruct (String.eqb (RunMode s) _ && negb _) eqn:Hp2.
  { split; [|rejected]. intros [_ _ Hp _]. apply andb_true_iff in Hp2 as [Hm%String.eqb_eq He].
    apply Hp in Hm. rewrite bool_decide_eq_true_2 in He by done. done. }
  destruct (String.eqb (Strategy s) _ && _) eqn:Ht.
  { split; [|rejected]. intros [_ _ _ Hthr]. apply andb_true_iff in Ht as [Hm%String.eqb_eq He].
    specialize (Hthr Hm). lia. }
  split; [exact Hgoals| | |].
  - destruct (OptimizationGoals s); [by left|right]. exact Hw.
  - intros Hm. rewrite Hm in Hp2. cbn in Hp2.
    destruct (bool_decide _) eqn:Hd; [by apply bool_decide_eq_true_1 in Hd|done].
  - intros Hm. rewrite Hm in Ht. cbn in Ht. lia.
Qed.

(** The validation accepts exactly the specs that follow the rules: every goal
    of a known type; if there are goals, the positive weights add up to one but for
    [1e-6] (in floating point, in the order of the list); a periodic policy with a
    parsable period; a conservative one with a threshold in [[0,100]]. A rejection
    is always a false [SpecValid] condition of the generation that was checked. *)
Theorem validateOptimizationPolicySpec_spec pol t :
  (is_ok (validateOptimizationPolicySpec pol t) = true <-> valid_spec (OP_Spec pol)) /\
  (forall c, validateOptimizationPolicySpec pol t = Err c ->
     Cond_Type c = "SpecValid" /\ Cond_Status c = "False" /\ Cond_ObservedGeneration c = Generation (OP_Meta pol) /\
     Cond_Reason c ∈ ["InvalidGoalType"; "InvalidGoalWeights"; "InvalidRebalancePoint";
                      "InvalidImprovementThreshold"]).
Proof.
  pose proof (validation_cases pol t) as H. destruct (validateOptimizationPolicySpec pol t) as [u|c]; cbn.
  - by split; [split|].
  - destruct H as [Hnot H]. split; [by split|]. by intros c' [= <-].
Qed.
End validate_spec.

(** ** The layout *)

(** The counters of a list of items. *)
Definition stable_number (items : list CurrentReplicaLocation) : Z := Z.of_nat (length (List.filter Stable items)).
Definition unstable_number (items : list CurrentReplicaLocation) : Z :=
  Z.of_nat (length (List.filter (fun l => negb (Stable l)) items)).
Definition reason_number (items : list CurrentReplicaLocation) (reason : string) : Z :=
  Z.of_nat (length (List.filter (fun l => negb (Stable l) && String.eqb (UnstableReason l) reason) items)).

Lemma filter_snoc {A} (p : A -> bool) l x :
  Z.of_nat (length (List.filter p (l ++ [x]))) = (Z.of_nat (length (List.filter p l)) + if p x then 1 else 0)%Z.
Proof. rewrite List.filter_app, length_app. cbn. destruct (p x); cbn; lia. Qed.

Lemma tally_spec items :
  let '(stable, unstable, reasons) := foldl tally (0, 0, ∅)%Z items in
  stable = wrap32 (stable_number items) /\ unstable = wrap32 (unstable_number items) /\
  forall reason, reasons !! reason =
    if decide (reason_number items reason = 0%Z) then None else Some (wrap32 (reason_number items reason)).
Proof.
  induction items as [|loc items IH] using rev_ind; [repeat split; intros; by rewrite lookup_empty|].
  rewrite foldl_app. cbn [foldl]. destruct (foldl tally _ items) as [[stable unstable] reasons].
  destruct IH as (-> & -> & Hr). unfold tally, stable_number, unstable_number.
  destruct (Stable loc) eqn:Hs.
  - rewrite !filter_snoc, Hs. cbn. rewrite wrap32_succ, Z.add_0_r. split_and!; [done..|]. intros reason.
    rewrite Hr. unfold reason_number. rewrite filter_snoc, Hs. cbn. by rewrite Z.add_0_r.
  - rewrite !filter_snoc, Hs. cbn. rewrite wrap32_succ, Z.add_0_r. split_and!; [done..|]. intros reason.
    unfold reason_number. rewrite filter_snoc, Hs. cbn [negb andb].
    change (Z.of_nat (length (List.filter _ items))) with (reason_number items reason).
    destruct (String.eqb_spec (UnstableReason loc) reason) as [->|Hne].
    + rewrite lookup_insert_eq, Hr. assert (0 <= reason_number items reason)%Z by (unfold reason_number; lia).
      rewrite (decide_False (P := (_ + 1 = 0)%Z)) by lia. f_equal.
      destruct (decide _) as [->|]; [done|]. apply wrap32_succ.
    + rewrite lookup_insert_ne by done. by rewrite Hr, Z.add_0_r.
Qed.

Lemma count_perm {A} (p : A -> bool) l l' : l ≡ₚ l' -> length (List.filter p l) = length (List.filter p l').
Proof. intros. by apply Permutation_length, filter_perm. Qed.

Lemma tally_perm items items' : items ≡ₚ items' -> foldl tally (0, 0, ∅)%Z items = foldl tally (0, 0, ∅)%Z items'.
Proof.
  intros Hp. pose proof (tally_spec items) as H. pose proof (tally_spec items') as H'.
  destruct (foldl tally _ items) as [[s u] m], (foldl tally _ items') as [[s' u'] m'].
  destruct H as (-> & -> & Hm), H' as (-> & -> & Hm').
  assert (forall p, Z.of_nat (length (List.filter p items)) = Z.of_nat (length (List.filter p items'))) as Hc
    by (intros p; f_equal; by apply count_perm).
  unfold stable_number, unstable_number. rewrite !Hc. f_equal. apply map_eq. intros reason. rewrite Hm, Hm'.
  unfold reason_number. by rewrite !Hc.
Qed.

(** The counters of the status: below [2^31] items, the observed, stable and
    unstable replicas are as many as the layout lists, and every reason is counted
    as often as an unstable replica has it. *)
Theorem set_layout_counts items st : (Z.of_nat (length items) < 2 ^ 31)%Z ->
  let st' := set_layout items st in
  CurrentLayout st' = items /\ ObservedReplicas st' = Z.of_nat (length items) /\
  StableCount st' = stable_number items /\ UnstableCount st' = unstable_number items /\
  (StableCount st' + UnstableCount st' = ObservedReplicas st')%Z /\
  (forall reason, default 0%Z (UnstableReasonsCount st' !! reason) = reason_number items reason).
Proof.
  intros Hlen. unfold set_layout. pose proof (tally_spec items) as H.
  destruct (foldl tally _ items) as [[s u] m]. destruct H as (-> & -> & Hm). cbn.
  assert (forall p : CurrentReplicaLocation -> bool, length (List.filter p items) <= length items) as Hle
    by (intros p; apply List.filter_length_le).
  assert (stable_number items + unstable_number items = Z.of_nat (length items))%Z as Hsum.
  { unfold stable_number, unstable_number. clear. induction items as [|x items IH]; [done|]. cbn.
    destruct (Stable x); cbn; lia. }
  assert (forall p : CurrentReplicaLocation -> bool, wrap32 (Z.of_nat (length (List.filter p items))) =
    Z.of_nat (length (List.filter p items))) as Hid.
  { intros p. specialize (Hle p). apply wrap32_id. unfold int32_range. lia. }
  unfold stable_number, unstable_number in *. rewrite !Hid, wrap32_id by (unfold int32_range; lia).
  split_and!; [done..|exact Hsum|]. intros reason. rewrite Hm. unfold reason_number. rewrite Hid.
  destruct (decide _) as [->|]; done.
Qed.

(** The deployment and the index of a binding: what the index is keyed by. *)
Definition slot (rb : ReplicaBinding) : string * Z :=
  (Ref_Namespace (RBS_GlobalDeploymentRef (RB_Spec rb)) +:+ "/" +:+ Ref_Name (RBS_GlobalDeploymentRef (RB_Spec rb)),
   RBS_ReplicaIndex (RB_Spec rb)).

Lemma index_binding_slot m rb :
  index_binding m rb = <[(slot rb).1 := <[(slot rb).2 := rb]> (default ∅ (m !! (slot rb).1))]> m.
Proof. done. Qed.

Lemma index_lookup m rb g i :
  index_binding m rb !! g ≫= lookup i =
    if decide (slot rb = (g, i)) then Some rb else m !! g ≫= lookup i.
Proof.
  rewrite index_binding_slot. destruct (slot rb) as [g' i']. cbn [fst snd].
  destruct (decide (g' = g)) as [->|Hg].
  - rewrite lookup_insert_eq. cbn. destruct (decide (i' = i)) as [->|Hi].
    + by rewrite lookup_insert_eq, decide_True.
    + rewrite lookup_insert_ne, decide_False by congruence. by destruct (m !! g); cbn; rewrite ?lookup_empty.
  - by rewrite lookup_insert_ne, decide_False by congruence.
Qed.

(** Every binding is found at its slot. *)
Lemma index_spec rbs : NoDup (slot <$> rbs) -> forall g i rb,
  foldl index_binding ∅ rbs !! g ≫= lookup i = Some rb <-> rb ∈ rbs /\ slot rb = (g, i).
Proof.
  induction rbs as [|rb0 rbs IH] using rev_ind; intros Hnd g i rb.
  - cbn. rewrite lookup_empty. cbn. split; [done|]. by intros [?%elem_of_nil _].
  - rewrite fmap_app in Hnd. apply NoDup_app in Hnd as (Hnd & Hnew & _). rewrite foldl_app. cbn [foldl].
    rewrite index_lookup, elem_of_app, list_elem_of_singleton. destruct (decide _) as [Hs|Hs].
    + split; [intros [= <-]; auto|]. intros [[Hin| ->] Hs']; [|done]. exfalso.
      apply (Hnew (slot rb)); [by apply list_elem_of_fmap_2|]. cbn. rewrite Hs', <- Hs. apply list_elem_of_here.
    + rewrite IH by done. split; [by intros []; auto|]. by intros [[?| ->] ?].
Qed.

(** The bindings of a deployment. *)
Definition slots_of (rbs : list ReplicaBinding) (g : string) : gmap Z ReplicaBinding :=
  default ∅ (foldl index_binding ∅ rbs !! g).

Lemma slots_of_lookup rbs g i rb : NoDup (slot <$> rbs) ->
  slots_of rbs g !! i = Some rb <-> rb ∈ rbs /\ slot rb = (g, i).
Proof.
  intros Hnd. rewrite <- (index_spec rbs Hnd). unfold slots_of.
  destruct (_ !! g); cbn; [done|]. by rewrite lookup_empty.
Qed.

Lemma slots_of_perm rbs rbs' g : NoDup (slot <$> rbs) -> rbs ≡ₚ rbs' -> slots_of rbs g = slots_of rbs' g.
Proof.
  intros Hnd Hp. apply map_eq. intros i. apply option_eq. intros rb.
  rewrite !slots_of_lookup by (first [done | by rewrite <- Hp]). by rewrite Hp.
Qed.

Lemma concat_imap_perm {A B} (f : nat -> A -> list B) (g : A -> list B) l :
  (forall i x, f i x ≡ₚ g x) -> concat (imap f l) ≡ₚ (l ≫= g).
Proof.
  revert f. induction l as [|x l IH]; intros f Hf; [done|]. rewrite imap_cons. cbn.
  apply Permutation_app; [apply Hf|]. apply IH. intros. apply Hf.
Qed.

Section layout.
Context {KUBE : KubeLib} {ORDERS : LoopOrders}.

Definition locations (rbs : list ReplicaBinding) (gd : GlobalDeployment) : list CurrentReplicaLocation :=
  (fun e => replica_location gd (globalDeploymentMigratable gd) e.1 e.2) <$> map_to_list (slots_of rbs (gd_name gd)).

Lemma layout_items_perm k gds rbs : layout_items k gds rbs ≡ₚ (gds ≫= locations rbs).
Proof.
  apply concat_imap_perm. intros i gd. unfold deployment_items, locations, slots_of.
  destruct (foldl index_binding ∅ rbs !! gd_name gd) as [m|]; cbn; [|by rewrite map_to_list_empty].
  apply fmap_Permutation. apply go_range_perm.
Qed.

(** The order of the lists and of the loop does not matter but for the order of the
    items. *)
Lemma layout_items_order k k' gds gds' rbs rbs' : NoDup (slot <$> rbs) ->
  gds ≡ₚ gds' -> rbs ≡ₚ rbs' -> layout_items k gds rbs ≡ₚ layout_items k' gds' rbs'.
Proof.
  intros Hnd Hg Hr. rewrite !layout_items_perm. rewrite Hg. apply reflexive_eq, list_bind_ext; [|done].
  intros gd. unfold locations. by rewrite (slots_of_perm rbs rbs').
Qed.

(** The bindings of a deployment, with their indices. *)
Definition refers (gd : GlobalDeployment) (rb : ReplicaBinding) : Prop :=
  let ref := RBS_GlobalDeploymentRef (RB_Spec rb) in
  Ref_Namespace ref +:+ "/" +:+ Ref_Name ref = Namespace (GD_Meta gd) +:+ "/" +:+ Name (GD_Meta gd).
#[export] Instance refers_decision gd rb : Decision (refers gd rb) := String.string_dec _ _.
Lemma slots_of_filter rbs gd : NoDup (slot <$> rbs) ->
  map_to_list (slots_of rbs (gd_name gd)) ≡ₚ (fun rb => (RBS_ReplicaIndex (RB_Spec rb), rb)) <$> filter (refers gd) rbs.
Proof.
  intros Hnd. apply NoDup_Permutation; [apply NoDup_map_to_list| |].
  - apply NoDup_fmap_2_strong; [by intros x y _ _ [= _ ->]|]. apply NoDup_filter. by eapply NoDup_fmap_1.
  - intros [i rb]. rewrite elem_of_map_to_list, slots_of_lookup, list_elem_of_fmap by done.
    setoid_rewrite list_elem_of_filter. split.
    + intros [Hrb [= Hs <-]]. exists rb. done.
    + intros (rb' & [= -> ->] & Hs & Hrb). split; [done|]. unfold slot. by rewrite Hs.
Qed.

(** What an item says of a binding, told without the code: which replica it is, where
    the binding was last seen or, before it was, where it is to go; and when the
    replica may be moved, with the first reason against it. *)
Record located (gd : GlobalDeployment) (rb : ReplicaBinding) (loc : CurrentReplicaLocation) : Prop := {
  located_deployment : CL_Namespace loc = Namespace (GD_Meta gd) /\ CL_Name loc = Name (GD_Meta gd);
  located_index : CL_ReplicaIndex loc = RBS_ReplicaIndex (RB_Spec rb);
  located_seen : RB_NodeName (RB_Status rb) <> "" \/ RB_ClusterName (RB_Status rb) <> "" ->
    CL_ClusterId loc = RB_ClusterName (RB_Status rb) /\ CL_NodeName loc = RB_NodeName (RB_Status rb) /\ CL_Source loc = "RBStatus";
  located_target : RB_NodeName (RB_Status rb) = "" -> RB_ClusterName (RB_Status rb) = "" ->
    CL_ClusterId loc = TargetCluster (RB_Spec rb) /\ CL_NodeName loc = TargetNodeName (RB_Spec rb) /\
    CL_Source loc = if decide (TargetCluster (RB_Spec rb) = "" /\ TargetNodeName (RB_Spec rb) = "") then "Unknown" else "RBSpecFallback";
  located_stable : Stable loc = true <->
    (globalDeploymentMigratable gd).1 = true /\ CL_ClusterId loc <> "" /\ CL_NodeName loc <> "" /\ RB_Phase (RB_Status rb) = "Running";
  located_reason : ((globalDeploymentMigratable gd).1 = false -> UnstableReason loc = (globalDeploymentMigratable gd).2) /\
    ((globalDeploymentMigratable gd).1 = true ->
      (CL_ClusterId loc = "" -> UnstableReason loc = "ClusterIdEmpty") /\
      (CL_ClusterId loc <> "" -> CL_NodeName loc = "" -> UnstableReason loc = "NodeNameEmpty") /\
      (CL_ClusterId loc <> "" -> CL_NodeName loc <> "" -> RB_Phase (RB_Status rb) <> "Running" -> UnstableReason loc = "ReplicaNotRunning"))
}.

Lemma stability_spec m c n phase : let '(stable, reason) := stability m c n phase in
  (stable = true <-> m.1 = true /\ c <> "" /\ n <> "" /\ phase = "Running") /\
  (m.1 = false -> reason = m.2) /\
  (m.1 = true -> (c = "" -> reason = "ClusterIdEmpty") /\ (c <> "" -> n = "" -> reason = "NodeNameEmpty") /\
     (c <> "" -> n <> "" -> phase <> "Running" -> reason = "ReplicaNotRunning")).
Proof.
  destruct m as [[] why]; cbn; [|naive_solver]. destruct c; cbn; [naive_solver|]. destruct n; cbn; [naive_solver|].
  destruct (String.eqb_spec phase ReplicaBindingPhaseRunning); cbn; naive_solver.
Qed.
Lemma location_located gd rb :
  located gd rb (replica_location gd (globalDeploymentMigratable gd) (RBS_ReplicaIndex (RB_Spec rb)) rb).
Proof.
  unfold replica_location. destruct (location_of rb) as [[cid node] src] eqn:Hl.
  assert (Hs := stability_spec (globalDeploymentMigratable gd) cid node (RB_Phase (RB_Status rb))).
  destruct (stability _ _ _ _) as [stable reason]. destruct Hs as (H1 & H2 & H3). revert Hl. unfold location_of.
  destruct (RB_NodeName (RB_Status rb)) eqn:Hn, (RB_ClusterName (RB_Status rb)) eqn:Hc,
    (TargetNodeName (RB_Spec rb)) eqn:Htn, (TargetCluster (RB_Spec rb)) eqn:Htc; cbn; intros [= <- <- <-];
    split; cbn; rewrite ?Hn, ?Hc, ?Htn, ?Htc; naive_solver.
Qed.

(** A list of pairs by the deployments, without repetition. *)
Definition replica_id (e : GlobalDeployment * ReplicaBinding) : string * string * Z :=
  (Namespace (GD_Meta e.1), Name (GD_Meta e.1), RBS_ReplicaIndex (RB_Spec e.2)).
Lemma replica_ids_once gds rbs :
  NoDup (slot <$> rbs) -> NoDup ((fun gd => (Namespace (GD_Meta gd), Name (GD_Meta gd))) <$> gds) ->
  NoDup (replica_id <$> (gds ≫= fun gd => pair gd <$> filter (refers gd) rbs)).
Proof.
  intros Hnd Hgds. apply NoDup_fmap_2_strong.
  - intros [gd rb] [gd' rb'] H1 H2 [= Hns Hn Hi].
    apply list_elem_of_bind in H1 as (? & (? & [= <- <-] & [Hr Hrb]%list_elem_of_filter)%list_elem_of_fmap & Hgd).
    apply list_elem_of_bind in H2 as (? & (? & [= <- <-] & [Hr' Hrb']%list_elem_of_filter)%list_elem_of_fmap & Hgd').
    assert (gd = gd') as <-.
    { apply list_elem_of_lookup in Hgd as [i Hgd], Hgd' as [j Hgd']. enough (i = j) by congruence.
      eapply NoDup_lookup; [exact Hgds|by rewrite list_lookup_fmap, Hgd|]. rewrite list_lookup_fmap, Hgd'. cbn. congruence. }
    f_equal. apply list_elem_of_lookup in Hrb as [i Hrb], Hrb' as [j Hrb']. enough (i = j) by congruence.
    eapply NoDup_lookup; [exact Hnd|by rewrite list_lookup_fmap, Hrb|]. rewrite list_lookup_fmap, Hrb'. cbn. unfold slot, refers in *. congruence.
  - apply NoDup_bind.
    + intros gd gd' [x y] _ _ (? & [= -> _] & _)%list_elem_of_fmap (? & [= -> _] & _)%list_elem_of_fmap. done.
    + intros gd _. apply NoDup_fmap_2_strong; [by intros x y _ _ [= ->]|]. apply NoDup_filter. by eapply NoDup_fmap_1.
    + by eapply NoDup_fmap_1.
Qed.

(** C32: The layout has exactly one item for every binding of a selected deployment, with
    the index of the binding, at the place of its status, else of its spec; the item is
    stable exactly when the template can be moved, both cluster and node are known and
    the binding is Running, and otherwise tells the first of these that fails. No replica
    is listed twice. The order in which the loops visit the maps changes the order of
    the items only. *)
Theorem layout_items_spec k gds rbs : NoDup (slot <$> rbs) ->
  (exists listed : list (GlobalDeployment * ReplicaBinding),
     listed ≡ₚ (gds ≫= fun gd => pair gd <$> filter (refers gd) rbs) /\
     Forall2 (fun e loc => located e.1 e.2 loc) listed (layout_items k gds rbs)) /\
  (NoDup ((fun gd => (Namespace (GD_Meta gd), Name (GD_Meta gd))) <$> gds) ->
   NoDup ((fun loc => (CL_Namespace loc, CL_Name loc, CL_ReplicaIndex loc)) <$> layout_items k gds rbs)).
Proof.
  intros Hnd. set (pairs := gds ≫= fun gd => pair gd <$> filter (refers gd) rbs).
  set (item := fun e : GlobalDeployment * ReplicaBinding =>
    replica_location e.1 (globalDeploymentMigratable e.1) (RBS_ReplicaIndex (RB_Spec e.2)) e.2).
  assert (Hitems : layout_items k gds rbs ≡ₚ item <$> pairs).
  { rewrite layout_items_perm. unfold pairs. clear pairs. induction gds as [|gd gds IH]; [done|]. cbn.
    rewrite fmap_app. f_equiv; [|exact IH]. unfold locations. by rewrite slots_of_filter, <- !list_fmap_compose. }
  destruct (Permutation_map_inv _ _ Hitems) as (listed & Heq & Hp). rewrite Heq. split.
  - exists listed. split; [by symmetry|]. apply Forall2_fmap_r, Forall_Forall2_diag, Forall_true. intros e. apply location_located.
  - intros Hgds. rewrite <- list_fmap_compose, <- Hp.
    rewrite (list_fmap_ext _ replica_id); [by apply replica_ids_once|]. intros _ [gd rb] _. unfold item, replica_id, compose. cbn [fst snd].
    by destruct (location_located gd rb) as [[-> ->] -> _ _ _ _].
Qed.
End layout.

(** ** No status churn *)

Section churn.
Context {KUBE : KubeLib} {ORDERS : LoopOrders}.

(** The deployments a policy selects. *)
Definition chooses (pol : OptimizationPolicy) (gd : GlobalDeployment) : bool :=
  match TargetSelector (OP_Spec pol) with
  | None => true
  | Some s => match LabelSelectorAsSelector s with Ok chosen => chosen (Labels (GD_Meta gd)) | Err _ => false end
  end.

(** Some request fails. *)
Definition faulty : Prop := exists k e, fault k = Some e.
Lemma faulty_at k e : fault k = Some e -> faulty.
Proof. by exists k, e. Qed.

(** What can go wrong with a read: a fault, or the selector is invalid. *)
Definition failure (pol : OptimizationPolicy) (e : api_error) : Prop :=
  faulty \/
  (exists s, TargetSelector (OP_Spec pol) = Some s /\ LabelSelectorAsSelector s = Err e).

Lemma request_fault {A} (f : World -> World * result api_error A) w :
  (exists e, fault (w_requests w) = Some e /\ request f w = (tick w, Err e)) \/ request f w = f (tick w).
Proof. unfold request. destruct (fault _) as [e|]; [left; by exists e|by right]. Qed.

Lemma selected_strictly_run pol w :
  match selected_strictly pol w with
  | (w', Ok gds) => w' = tick w /\ gds ≡ₚ List.filter (chooses pol) (map_to_list (w_gds w)).*2
  | (w', Err e) => (w' = w \/ w' = tick w) /\ failure pol e
  end.
Proof.
  unfold selected_strictly, chooses.
  assert (forall chosen : GlobalDeployment -> bool,
    match list_selected w_gds chosen w with
    | (w', Ok gds) => w' = tick w /\ gds ≡ₚ List.filter chosen (map_to_list (w_gds w)).*2
    | (w', Err e) => (w' = w \/ w' = tick w) /\ failure pol e
    end) as Hlist.
  { intros chosen. unfold list_selected.
    destruct (request_fault (fun w => (w, Ok (List.filter chosen (list_order (w_requests w) (w_gds w))))) w)
      as [(e & Hf & ->)| ->]; cbn.
    - split; [by right|]. left. by eapply faulty_at.
    - split; [done|]. apply filter_perm, list_order_perm. }
  destruct (TargetSelector (OP_Spec pol)) as [s|] eqn:Hsel; [|apply Hlist].
  destruct (LabelSelectorAsSelector s) as [chosen|e] eqn:Hs; [apply Hlist|].
  cbn. split; [by left|]. right. by exists s.
Qed.

Lemma all_bindings_run w :
  match list_objects w_rbs (fun _ => true) w with
  | (w', Ok rbs) => w' = tick w /\ rbs ≡ₚ (map_to_list (w_rbs w)).*2
  | (w', Err e) => w' = tick w /\ faulty
  end.
Proof.
  unfold list_objects.
  destruct (request_fault (fun w => (w, Ok (list_order (w_requests w) (filter (fun _ => true = true) (w_rbs w))))) w)
    as [(e & Hf & ->)| ->]; cbn; (split; [done|]); [by eapply faulty_at|].
  rewrite list_order_perm. by rewrite map_filter_id by done.
Qed.

Lemma layout_unchanged_spec items st st' :
  layout_unchanged st (set_layout items st') = true <->
    ObservedReplicas st = wrap32 (Z.of_nat (length items)) /\
    (StableCount st, UnstableCount st, UnstableReasonsCount st) = foldl tally (0, 0, ∅)%Z items /\
    (sig_of <$> CurrentLayout st) ≡ₚ (sig_of <$> items).
Proof.
  unfold layout_unchanged, set_layout. destruct (foldl tally _ items) as [[s u] m]. cbn.
  rewrite !andb_true_iff, !Z.eqb_eq, equalStringInt32Map_spec, equalCurrentLayout_spec. split.
  - by intros [[[[-> ->] ->] ->] ?].
  - by intros (-> & [= -> -> ->] & ?).
Qed.

Lemma set_layout_unchanged items items' st st' : items ≡ₚ items' ->
  layout_unchanged st (set_layout items st') = true -> layout_unchanged st (set_layout items' st') = true.
Proof. rewrite !layout_unchanged_spec. intros Hp. by rewrite (tally_perm _ _ Hp), Hp. Qed.

Lemma layout_unchanged_itself items st st' : layout_unchanged (set_layout items st) (set_layout items st') = true.
Proof.
  apply layout_unchanged_spec. unfold set_layout. destruct (foldl tally _ items) as [[s u] m]. done.
Qed.

(** What the two lists of a run in [w] give, up to their order. *)
Definition current_locations (pol : OptimizationPolicy) (w : World) : list CurrentReplicaLocation :=
  List.filter (chooses pol) (map_to_list (w_gds w)).*2 ≫= locations (map_to_list (w_rbs w)).*2.

Lemma patch_policy_status_run key f w :
  match patch_policy_status key f w with
  | (w', Ok _) => exists old, w_policies w !! key = Some old /\
      w' = set_policies <[key := mkPolicy (OP_Meta old) (OP_Spec old) (f (OP_Status old))]> (tick w)
  | (w', Err e) => w' = tick w /\ (w_policies w !! key = None \/ faulty)
  end.
Proof.
  unfold patch_policy_status, request. destruct (fault _) as [e|] eqn:Hf; [split; [done|right; by eapply faulty_at]|].
  change (w_policies (tick w)) with (w_policies w).
  destruct (w_policies w !! key) as [old|]; [by exists old|]. split; [done|by left].
Qed.

Lemma reconcileCurrentLayout_run pol w : NoDup (slot <$> (map_to_list (w_rbs w)).*2) ->
  let '(w', res) := reconcileCurrentLayout pol w in
  w_gds w' = w_gds w /\ w_rbs w' = w_rbs w /\
  match res with
  | Err _ => w_policies w' = w_policies w
  | Ok p => exists items, items ≡ₚ current_locations pol w /\
      let st' := set_layout items (OP_Status pol) in
      if layout_unchanged (OP_Status pol) st' then p = pol /\ w_policies w' = w_policies w
      else p = with_policy_status pol st' /\
        exists old, w_policies w !! policy_key pol = Some old /\
          w_policies w' = <[policy_key pol := mkPolicy (OP_Meta old) (OP_Spec old) (set_layout items (OP_Status old))]>
                            (w_policies w)
  end.
Proof.
  intros Hnd. unfold reconcileCurrentLayout. rewrite bind_run.
  pose proof (selected_strictly_run pol w) as Hsel.
  destruct (selected_strictly pol w) as [w1 [gds|e]]; [|by destruct Hsel as [[-> | ->] _]].
  destruct Hsel as [-> Hgds]. rewrite bind_run.
  pose proof (all_bindings_run (tick w)) as Hrbs.
  destruct (list_objects w_rbs _ (tick w)) as [w2 [rbs|e]]; [|by destruct Hrbs as [-> _]].
  destruct Hrbs as [-> Hrbs]. rewrite bind_run. unfold loop_number. cbn [w_rbs tick] in Hrbs.
  set (k := w_requests _). cbv zeta. set (st' := set_layout _ _).
  assert (layout_items k gds rbs ≡ₚ current_locations pol w) as Hitems.
  { unfold current_locations. rewrite <- (layout_items_perm k). apply layout_items_order; [|done..].
    by rewrite Hrbs. }
  destruct (layout_unchanged (OP_Status pol) st') eqn:Hch.
  { cbn. split_and!; [done..|]. exists (layout_items k gds rbs). split; [done|]. fold st'. by rewrite Hch. }
  unfold write_policy. rewrite bind_run.
  pose proof (patch_policy_status_run (policy_key pol) (set_layout (layout_items k gds rbs)) (tick (tick (tick w)))) as Hp.
  destruct (patch_policy_status _ _ _) as [w' [u|e]]; [|by destruct Hp as [-> _]].
  destruct Hp as (old & Hold & ->).
  split_and!; [done..|]. exists (layout_items k gds rbs). split; [done|]. fold st'. rewrite Hch. split; [done|].
  by exists old.
Qed.

(** Status is not churned: when the layout of a policy has been reconciled and
    no object changed, reconciling it again writes nothing, whatever the order in
    which the API server lists the objects and the loops visit their maps. *)
Theorem layout_settles pol w : NoDup (slot <$> (map_to_list (w_rbs w)).*2) ->
  forall w1 pol1, reconcileCurrentLayout pol w = (w1, Ok pol1) ->
  let '(w2, res) := reconcileCurrentLayout pol1 w1 in
  w_policies w2 = w_policies w1 /\ match res with Ok pol2 => pol2 = pol1 | Err _ => True end.
Proof.
  intros Hnd w1 pol1 Hrun. pose proof (reconcileCurrentLayout_run pol w Hnd) as H1. rewrite Hrun in H1.
  destruct H1 as (Hg & Hr & items & Hitems & H1).
  pose proof (reconcileCurrentLayout_run pol1 w1) as H2. rewrite Hr in H2. specialize (H2 Hnd).
  destruct (reconcileCurrentLayout pol1 w1) as [w2 [pol2|e]]; [|tauto].
  destruct H2 as (_ & _ & items' & Hitems' & H2). cbn zeta in H1, H2.
  assert (layout_unchanged (OP_Status pol1) (set_layout items' (OP_Status pol1)) = true) as Hun; [|by rewrite Hun in H2; destruct H2].
  assert (current_locations pol1 w1 = current_locations pol w) as Hcur.
  { unfold current_locations, chooses. rewrite Hg, Hr.
    destruct (layout_unchanged _ _); by destruct H1 as [-> _]. }
  rewrite Hcur, <- Hitems in Hitems'. apply (set_layout_unchanged items); [done|].
  destruct (layout_unchanged (OP_Status pol) _) eqn:Hch; destruct H1 as [-> H1].
  - done.
  - apply layout_unchanged_itself.
Qed.
End churn.

(** ** The lease *)

Section lease.
Context {KUBE : KubeLib} (r : PolicyReconciler).

(** [pol] holds the lease, renewed at [t]. *)
Definition held (pol : OptimizationPolicy) (t : Z) (leases : gmap Key Lease) : Prop :=
  exists l, leases !! lease_key r = Some l /\ HolderIdentity l = Some (holder_id r pol) /\
    LeaseDurationSeconds l = Some (getLeaseDurationSeconds r) /\ RenewTime l = Some t.

(** Nobody else holds a valid lease. *)
Definition lease_free (pol : OptimizationPolicy) (w : World) : bool :=
  match w_leases w !! lease_key r with
  | None => true
  | Some l => String.eqb (default "" (HolderIdentity l)) (holder_id r pol) || negb (lease_valid r l (w_clock w))
  end.

Lemma holder_id_nonempty pol : holder_id r pol <> "".
Proof. unfold holder_id. by destruct (identity r). Qed.

Lemma get_object_result {A} (sel : World -> gmap Key A) k w : sel (tick w) = sel w ->
  match get_object sel k w with
  | (w', Ok a) => w' = tick w /\ sel w !! k = Some a
  | (w', Err e) => w' = tick w /\ (faulty \/ e = NotFound /\ sel w !! k = None)
  end.
Proof.
  intros Hsel. unfold get_object, request. destruct (fault _) as [e|] eqn:Hf; [split; [done|left; by eapply faulty_at]|].
  rewrite Hsel. destruct (sel w !! k); cbn; auto.
Qed.
Lemma create_lease_run k l w :
  match create_lease k l w with
  | (w', Ok _) => w' = set_leases <[k := l]> (tick w) /\ w_leases w !! k = None
  | (w', Err e) => w' = tick w /\ (faulty \/ is_Some (w_leases w !! k))
  end.
Proof.
  unfold create_lease, request. destruct (fault _) as [e|] eqn:Hf; [split; [done|left; by eapply faulty_at]|].
  change (w_leases (tick w)) with (w_leases w). destruct (w_leases w !! k); cbn; eauto.
Qed.
Lemma patch_lease_run k l w :
  match patch_lease k l w with
  | (w', Ok _) => w' = set_leases <[k := l]> (tick w) /\ is_Some (w_leases w !! k)
  | (w', Err e) => w' = tick w /\ (faulty \/ w_leases w !! k = None)
  end.
Proof.
  unfold patch_lease, request. destruct (fault _) as [e|] eqn:Hf; [split; [done|left; by eapply faulty_at]|].
  change (w_leases (tick w)) with (w_leases w). destruct (w_leases w !! k); cbn; eauto.
Qed.

(** The request on the lease that follows a read of it. *)
Ltac lease_request :=
  let Hr := fresh "Hr" in
  match goal with
  | |- context [create_lease ?k ?l (tick ?w)] =>
      pose proof (create_lease_run k l (tick w)) as Hr; change (w_leases (tick w)) with (w_leases w) in Hr;
      destruct (create_lease k l (tick w)) as [? [?|?]]
  | |- context [patch_lease ?k ?l (tick ?w)] =>
      pose proof (patch_lease_run k l (tick w)) as Hr; change (w_leases (tick w)) with (w_leases w) in Hr;
      destruct (patch_lease k l (tick w)) as [? [?|?]]
  end; destruct Hr as [-> Hr]; [|split_and!; [done..|]; rewrite ?eq_None_not_Some in *; naive_solver].

(** Everything a run can do to the environment but to the leases. *)
Lemma tryAcquire_run pol w :
  let '(w', res) := tryAcquirePolicyLease r pol w in
  w_policies w' = w_policies w /\ w_timers w' = w_timers w /\ w_clock w' = w_clock w /\
  match res with
  | Ok (true, id) => lease_free pol w = true /\ id = holder_id r pol /\ held pol (w_clock w) (w_leases w')
  | Ok (false, holder) => lease_free pol w = false /\ w_leases w' = w_leases w /\
      exists l, w_leases w !! lease_key r = Some l /\ holder = default "" (HolderIdentity l)
  | Err e => w_leases w' = w_leases w /\ faulty
  end.
Proof.
  unfold tryAcquirePolicyLease, lease_free. rewrite bind_run. unfold attempt.
  pose proof (get_object_result w_leases (lease_key r) w eq_refl) as Hget.
  destruct (get_object w_leases (lease_key r) w) as [w1 [l|e]]; destruct Hget as [-> Hl]; rewrite bind_run; cbn [now].
  - rewrite Hl. destruct (String.eqb_spec (default "" (HolderIdentity l)) (holder_id r pol)) as [Hh|Hh]; cbn [orb].
    + rewrite bind_run. lease_request.
      split_and!; [done..|]. exists (mkLease (HolderIdentity l) (Some (getLeaseDurationSeconds r)) (AcquireTime l) (Some (w_clock w))).
      split; [apply lookup_insert_eq|]. split_and!; [cbn|done..].
      destruct (HolderIdentity l); cbn in Hh; [by subst|]. by destruct (holder_id_nonempty pol).
    + cbn [w_clock tick]. destruct (lease_valid r l (w_clock w)); [by split_and!; [..|exists l]|].
      rewrite bind_run. lease_request. split_and!; [done..|]. eexists. by split; [apply lookup_insert_eq|].
  - destruct (IsNotFound e) eqn:He; [|destruct Hl as [?|[-> _]]; [done|done]]. cbn [negb].
    rewrite bind_run. lease_request.
    rewrite Hr. split_and!; [done..|]. eexists. by split; [apply lookup_insert_eq|].
Qed.

Lemma held_not_free pol t leases (r' : PolicyReconciler) pol' w :
  held pol t leases -> w_leases w = leases -> lease_key r' = lease_key r -> holder_id r' pol' <> holder_id r pol ->
  (w_clock w <= t + getLeaseDurationSeconds r * Second)%Z -> 
  exists l, w_leases w !! lease_key r' = Some l /\ HolderIdentity l = Some (holder_id r pol) /\
    String.eqb (default "" (HolderIdentity l)) (holder_id r' pol') || negb (lease_valid r' l (w_clock w)) = false.
Proof.
  intros (l & Hl & Hh & Hd & Ht) Hw Hk Hne Hc. exists l. rewrite Hw, Hk. split_and!; [done..|].
  rewrite Hh. cbn. destruct (String.eqb_spec (holder_id r pol) (holder_id r' pol')) as [He|_]; [by destruct Hne|].
  unfold lease_valid. rewrite Ht, Hd. cbn. apply negb_false_iff, Z.leb_le. lia.
Qed.
End lease.

(** The lease excludes: after a policy has acquired it, an attempt of any other
    policy with the same lock, in the same or another process, leaves the lease
    alone and is refused with the holder's name (or fails), as long as the lease is
    the one acquired and its duration has not passed. *)
Theorem lease_exclusive {KUBE : KubeLib} r pol w w1 id (r' : PolicyReconciler) pol' w2 :
  tryAcquirePolicyLease r pol w = (w1, Ok (true, id)) ->
  lease_key r' = lease_key r -> holder_id r' pol' <> holder_id r pol ->
  w_leases w2 = w_leases w1 -> (w_clock w2 <= w_clock w + getLeaseDurationSeconds r * Second)%Z ->
  let '(w3, res) := tryAcquirePolicyLease r' pol' w2 in
  w_leases w3 = w_leases w2 /\
  match res with Ok v => v = (false, holder_id r pol) | Err e => faulty end.
Proof.
  intros Hrun Hk Hne Hw Hc. pose proof (tryAcquire_run r pol w) as H1. rewrite Hrun in H1.
  destruct H1 as (_ & _ & _ & _ & _ & Hheld).
  destruct (held_not_free r pol _ _ r' pol' w2 Hheld Hw Hk Hne Hc) as (l & Hl & Hh & Hfree).
  pose proof (tryAcquire_run r' pol' w2) as H2. destruct (tryAcquirePolicyLease r' pol' w2) as [w3 [[[] holder]|e]].
  - destruct H2 as (_ & _ & _ & H2 & _). unfold lease_free in H2. by rewrite Hl, Hfree in H2.
  - destruct H2 as (_ & _ & _ & _ & H2 & l' & Hl' & ->). split; [done|]. rewrite Hl in Hl'. injection Hl' as <-.
    by rewrite Hh.
  - tauto.
Qed.

(** ** What a reconciliation does *)

(** Status writes keep the object: metadata, spec and the last evaluation. *)
Definition same_policy (p p' : OptimizationPolicy) : Prop :=
  OP_Meta p' = OP_Meta p /\ OP_Spec p' = OP_Spec p /\
  LastEvaluationTime (OP_Status p') = LastEvaluationTime (OP_Status p).
#[export] Instance same_policy_preorder : PreOrder same_policy.
Proof. split; [by repeat split|]. intros p q s (?&?&?) (?&?&?). repeat split; congruence. Qed.

Section updates.
Context {KUBE : KubeLib} {ORDERS : LoopOrders} {FMT : GoFmt} {TEXT : PolicyTexts}.
Context (key : Key) (L : World -> Prop).
Hypothesis L_tick : forall w, L w -> L (tick w).
Hypothesis L_write : forall w p, L w -> L (set_policies <[key := p]> w).

(** [m] updates the stored policy [pol], or leaves it; it keeps [L]. *)
Definition updates {A} (pol : OptimizationPolicy) (m : M A) (post : A -> OptimizationPolicy -> Prop) : Prop :=
  hoare (fun w => w_policies w !! key = Some pol /\ L w) m (fun res w => L w /\
    match res with
    | Ok a => exists p, w_policies w !! key = Some p /\ same_policy pol p /\ post a p
    | Err e => failure pol e /\ exists p, w_policies w !! key = Some p /\ same_policy pol p /\
        OP_Phase (OP_Status p) = OP_Phase (OP_Status pol)
    end).

Lemma updates_ret {A} pol (a : A) (post : A -> OptimizationPolicy -> Prop) : post a pol -> updates pol (mret a) post.
Proof. intros Hpost w [Hpol HL]. cbn. split; [done|]. by exists pol. Qed.

(** A step that only reads. *)
Lemma updates_read {A B} pol (m : M A) (f : A -> M B) post :
  (forall w, match m w with
             | (w', Ok _) => w' = tick w
             | (w', Err e) => (w' = w \/ w' = tick w) /\ failure pol e
             end) ->
  (forall a, updates pol (f a) post) -> updates pol (m ≫= f) post.
Proof.
  intros Hm Hf w Hw. rewrite bind_run. specialize (Hm w). destruct (m w) as [w' [a|e]].
  - subst. apply Hf. destruct Hw as [Hpol HL]. split; [exact Hpol|by apply L_tick].
  - destruct Hm as [Hw' He]. destruct Hw as [Hpol HL].
    cbn. destruct Hw' as [-> | ->]; (split; [by auto|]; split; [done|]; by exists pol).
Qed.

Lemma updates_patch pol f : policy_key pol = key ->
  LastEvaluationTime (f (OP_Status pol)) = LastEvaluationTime (OP_Status pol) ->
  updates pol (write_policy pol f) (fun p p' => p = p' /\ p' = with_policy_status pol (f (OP_Status pol))).
Proof.
  intros Hkey Ht w [Hpol HL]. unfold write_policy. rewrite bind_run, Hkey.
  pose proof (patch_policy_status_run key f w) as H. destruct (patch_policy_status key f w) as [w' [u|e]]; cbn.
  - destruct H as (old & Hold & ->). split; [auto|]. rewrite Hpol in Hold. injection Hold as <-.
    exists (with_policy_status pol (f (OP_Status pol))). split; [apply lookup_insert_eq|]. done.
  - destruct H as [-> [H|H]]; [by rewrite Hpol in H|]. split; [auto|]. split; [by left|]. by exists pol.
Qed.

Lemma failure_same pol p e : same_policy pol p -> failure p e -> failure pol e.
Proof. intros (_ & Hs & _). unfold failure. by rewrite Hs. Qed.

(** One update after another that set the phase. *)
Lemma updates_then {A} pol (m : M OptimizationPolicy) (f : OptimizationPolicy -> M A) phase post :
  OP_Phase (OP_Status pol) = phase ->
  updates pol m (fun p p' => p = p' /\ OP_Phase (OP_Status p') = phase) ->
  (forall p, same_policy pol p -> OP_Phase (OP_Status p) = phase -> updates p (f p) post) ->
  updates pol (m ≫= f) post.
Proof.
  intros Hphase Hm Hf w Hw. specialize (Hm w Hw). rewrite bind_run. destruct (m w) as [w' [p|e]]; [|exact Hm].
  destruct Hm as (HL & p' & Hp & Hsame & -> & Hph). specialize (Hf p' Hsame Hph w' (conj Hp HL)).
  destruct Hf as [HL' Hf]. split; [done|]. destruct (f p' w').2 as [a|e].
  - destruct Hf as (q & Hq & Hpq & Hpost). exists q. split; [done|split; [by etrans|done]].
  - destruct Hf as (He & q & Hq & Hpq & Hpost). split; [by eapply failure_same|].
    exists q. split; [done|split; [by etrans|congruence]].
Qed.

Lemma updates_observed pol : policy_key pol = key ->
  updates pol (reconcileObservedDeployments pol)
    (fun p p' => p = p' /\ OP_Phase (OP_Status p') = OP_Phase (OP_Status pol)).
Proof.
  intros Hkey. apply updates_read.
  { intros w. pose proof (selected_strictly_run pol w) as H. destruct (selected_strictly pol w) as [w' []]; tauto. }
  intros gds. cbv zeta. destruct (_ =? _)%Z; [by apply updates_ret|].
  eapply hoare_conseq; [apply updates_patch; [done|]| |]; [by repeat split|done|].
  intros [a|e] w [HL H]; (split; [done|]); [|done]. destruct H as (p & ? & ? & -> & ->). by eexists.
Qed.

Lemma set_layout_phase items st : OP_Phase (set_layout items st) = OP_Phase st.
Proof. unfold set_layout. by destruct (foldl tally _ items) as [[? ?] ?]. Qed.
Lemma set_layout_evaluated items st : LastEvaluationTime (set_layout items st) = LastEvaluationTime st.
Proof. unfold set_layout. by destruct (foldl tally _ items) as [[? ?] ?]. Qed.

Lemma updates_layout pol : policy_key pol = key ->
  updates pol (reconcileCurrentLayout pol)
    (fun p p' => p = p' /\ OP_Phase (OP_Status p') = OP_Phase (OP_Status pol)).
Proof.
  intros Hkey. apply updates_read.
  { intros w. pose proof (selected_strictly_run pol w) as H. destruct (selected_strictly pol w) as [w' []]; tauto. }
  intros gds. apply updates_read.
  { intros w. pose proof (all_bindings_run w) as H. destruct (list_objects _ _ w) as [w' [?|?]]; [tauto|].
    destruct H. split; [by right|by left]. }
  intros rbs. apply updates_read; [done|].
  intros k. cbv zeta. destruct (layout_unchanged _ _); [by apply updates_ret|].
  eapply hoare_conseq; [apply updates_patch; [done|]| |]; [|done|].
  - repeat split. apply set_layout_evaluated.
  - intros [a|e] w [HL H]; (split; [done|]); [|done]. destruct H as (p & ? & ? & -> & ->).
    eexists. split; [done|split; [done|split; [done|]]]. apply set_layout_phase.
Qed.
End updates.

Section outcome.
Context {KUBE : KubeLib} {ORDERS : LoopOrders} {FMT : GoFmt} {TEXT : PolicyTexts}.
Context (r : PolicyReconciler).

(** The abstract specification of a reconciliation: the phase a policy is to have,
    and the timer it is to have. *)
Definition expected_phase (pol : OptimizationPolicy) (w : World) : string :=
  match validateOptimizationPolicySpec pol (w_clock w) with
  | Err _ => OptimizationPolicyPhaseFailed
  | Ok _ =>
      if negb (Enabled (OP_Spec pol)) then OptimizationPolicyPhaseDisabled
      else if lease_free r pol w then OptimizationPolicyPhaseActive else OptimizationPolicyPhaseFailed
  end.
Definition expected_timers (pol : OptimizationPolicy) (w : World) : gmap Key Z :=
  match validateOptimizationPolicySpec pol (w_clock w) with
  | Err _ => w_timers w
  | Ok _ =>
      if negb (Enabled (OP_Spec pol) && lease_free r pol w) then delete (policy_key pol) (w_timers w)
      else match next_trigger pol (w_clock w) with
           | Ok (Some at_) => <[policy_key pol := Z.max at_ (w_clock w)]> (w_timers w)
           | _ => delete (policy_key pol) (w_timers w)
           end
  end.

Definition expected_result (pol : OptimizationPolicy) (w : World) : Result :=
  if decide (expected_phase pol w = OptimizationPolicyPhaseActive)
  then mkResult (Z.quot (getLeaseDurationSeconds r) 2 * Second) else Done.

(** What a reconciliation never touches: the objects of the other kinds, the member
    clusters, the caches of the other controllers, and the other leases. *)
Definition elsewhere (w : World) :=
  ((w_plans w, w_rbs w, w_gds w, w_clusters w, w_secrets w, w_configmaps w),
   (w_members w, w_clients w, w_cursors w, w_cluster_clients w, ps_clients (w_policy w)),
   delete (lease_key r) (w_leases w)).

(** A run in [w] that ends in [w'] with [res] meets the specification. *)
Record reconciled (pol : OptimizationPolicy) (w w' : World) (res : result api_error Result)
    (pol' : OptimizationPolicy) : Prop := {
  rec_stored : w_policies w' !! policy_key pol = Some pol';
  rec_same : same_policy pol pol';
  rec_others : delete (policy_key pol) (w_policies w') = delete (policy_key pol) (w_policies w);
  rec_clock : w_clock w' = w_clock w;
  rec_timers : delete (policy_key pol) (w_timers w') = delete (policy_key pol) (w_timers w);
  rec_phase : OP_Phase (OP_Status pol') = OP_Phase (OP_Status pol) \/ OP_Phase (OP_Status pol') = expected_phase pol w;
  rec_lease : if decide (expected_phase pol w = OptimizationPolicyPhaseActive)
              then held r pol (w_clock w) (w_leases w') \/ ~ is_ok res /\
                   w_leases w' = w_leases w /\ OP_Phase (OP_Status pol') = OP_Phase (OP_Status pol)
              else w_leases w' = w_leases w;
  rec_result : match res with
    | Ok v => v = expected_result pol w /\ w_timers w' = expected_timers pol w /\
        (OP_Phase (OP_Status pol') = expected_phase pol w \/
         expected_phase pol w = OptimizationPolicyPhaseFailed /\ faulty)
    | Err e => failure pol e
    end
}.

Lemma next_trigger_same pol p t : same_policy pol p -> next_trigger p t = next_trigger pol t.
Proof. intros (_ & Hs & Ht). unfold next_trigger. by rewrite Hs, Ht. Qed.

Lemma next_trigger_valid pol t u : validateOptimizationPolicySpec pol t = Ok u -> exists next, next_trigger pol t = Ok next.
Proof.
  intros Hv. pose proof (validation_cases pol t) as H. rewrite Hv in H. destruct H as [_ _ Hp _]. unfold next_trigger.
  destruct (String.eqb _ OptimizationRunModeOnce); [by eexists|].
  destruct (String.eqb_spec (RunMode (OP_Spec pol)) OptimizationRunModePeriodic) as [Hm|]; [|by eexists].
  destruct (Hp Hm) as [d ->]. by eexists.
Qed.

(** What the status writes of a run leave alone. *)
Definition frozen (key : Key) (w0 w : World) : Prop :=
  w_timers w = w_timers w0 /\ w_leases w = w_leases w0 /\ w_clock w = w_clock w0 /\
  delete key (w_policies w) = delete key (w_policies w0).
Lemma frozen_refl key w : frozen key w w.
Proof. done. Qed.
Lemma frozen_tick key w0 w : frozen key w0 w -> frozen key w0 (tick w).
Proof. done. Qed.
Lemma frozen_write key w0 w p : frozen key w0 w -> frozen key w0 (set_policies <[key := p]> w).
Proof.
  intros (Ht & Hl & Hc & Hd). repeat split; [done..|]. rewrite <- Hd. unfold w_policies, set_policies, set_policy. cbn.
  by rewrite delete_insert_eq.
Qed.

Hypothesis truthful : forall k e, fault k = Some e -> IsNotFound e = false.

(** The status write of a run that keeps going whatever it returns. *)
Lemma write_status pol phase cond w :
  w_policies w !! policy_key pol = Some pol ->
  let '(w', res) := setStatusPhaseAndCondition pol phase cond w in
  frozen (policy_key pol) w w' /\ exists p, w_policies w' !! policy_key pol = Some p /\ same_policy pol p /\
    match res with
    | Ok p' => p' = p /\ OP_Phase (OP_Status p) = phase
    | Err e => faulty /\ OP_Phase (OP_Status p) = OP_Phase (OP_Status pol)
    end.
Proof.
  intros Hpol. unfold setStatusPhaseAndCondition. destruct (_ || _) eqn:Hneed.
  - unfold write_policy. rewrite bind_run. set (f := set_phase_conditions _ _).
    pose proof (patch_policy_status_run (policy_key pol) f w) as H. destruct (patch_policy_status _ f w) as [w' [?|e]].
    + destruct H as (old & Hold & ->). rewrite Hpol in Hold. injection Hold as <-.
      split; [by apply frozen_write|]. exists (with_policy_status pol (f (OP_Status pol))).
      split; [apply lookup_insert_eq|done].
    + destruct H as [-> H]. split; [done|]. exists pol. split; [done|]. split; [done|]. split; [|done].
      destruct H as [H|H]; [by rewrite Hpol in H|done].
  - apply orb_false_iff in Hneed as [Hneed%negb_false_iff%String.eqb_eq _]. split; [done|]. by exists pol.
Qed.

(** The steps after the policy has become Active. *)
Lemma active_steps pol w : OP_Phase (OP_Status pol) = OptimizationPolicyPhaseActive ->
  w_policies w !! policy_key pol = Some pol ->
  let '(w', res) := (pol2 ← reconcileObservedDeployments pol; reconcileCurrentLayout pol2) w in
  frozen (policy_key pol) w w' /\ exists p, w_policies w' !! policy_key pol = Some p /\ same_policy pol p /\
    OP_Phase (OP_Status p) = OptimizationPolicyPhaseActive /\
    match res with Ok p' => p' = p | Err e => failure pol e end.
Proof.
  intros Hact Hpol.
  assert (updates (policy_key pol) (frozen (policy_key pol) w) pol
    (pol2 ← reconcileObservedDeployments pol; reconcileCurrentLayout pol2)
    (fun p p' => p = p' /\ OP_Phase (OP_Status p') = OptimizationPolicyPhaseActive)) as H.
  { pose proof (frozen_tick (policy_key pol) w) as Ht. pose proof (frozen_write (policy_key pol) w) as Hw.
    apply updates_then with (phase := OptimizationPolicyPhaseActive); [done| |].
    - rewrite <- Hact. by apply updates_observed.
    - intros p Hs Hp. rewrite <- Hp. apply updates_layout; [done..|]. unfold policy_key. by destruct Hs as [-> _]. }
  specialize (H w (conj Hpol (frozen_refl _ w))).
  destruct ((reconcileObservedDeployments pol ≫= _) w) as [w' [p'|e]]; destruct H as [HL H]; split; try exact HL.
  - destruct H as (p & Hp & Hs & -> & Hph). by exists p.
  - destruct H as (He & p & Hp & Hs & Hph). exists p. split_and!; try done. by rewrite Hph.
Qed.

Lemma ensureTimer_run pol p w next : same_policy pol p -> next_trigger pol (w_clock w) = Ok next ->
  ensureTimer p w =
    (set_timers (fun timers => match next with
                               | Some at_ => <[policy_key pol := Z.max at_ (w_clock w)]> timers
                               | None => delete (policy_key pol) timers
                               end) w, Ok tt).
Proof.
  intros Hs Hn. unfold ensureTimer. rewrite bind_run. cbn [now]. rewrite (next_trigger_same _ _ _ Hs), Hn.
  assert (policy_key p = policy_key pol) as -> by (unfold policy_key; by destruct Hs as [-> _]).
  cbn [returning]. rewrite bind_run. destruct next as [at_|]; [|done]. unfold mret, M_ret. rewrite bind_run.
  unfold cancelTimer, modify, set_timers, set_policy. cbn. by rewrite insert_delete_eq.
Qed.

Lemma bind_assoc_run {A B C} (m : M A) (f : A -> M B) (g : B -> M C) w :
  (m ≫= fun a => f a ≫= g) w = ((m ≫= f) ≫= g) w.
Proof. rewrite !bind_run. by destruct (m w) as [w' [a|e]]. Qed.

Lemma expected_valid pol w u : validateOptimizationPolicySpec pol (w_clock w) = Ok u -> Enabled (OP_Spec pol) = true ->
  expected_phase pol w = (if lease_free r pol w then OptimizationPolicyPhaseActive else OptimizationPolicyPhaseFailed) /\
  expected_timers pol w =
    if lease_free r pol w then
      match next_trigger pol (w_clock w) with
      | Ok (Some at_) => <[policy_key pol := Z.max at_ (w_clock w)]> (w_timers w)
      | _ => delete (policy_key pol) (w_timers w)
      end
    else delete (policy_key pol) (w_timers w).
Proof. intros Hv Hen. unfold expected_phase, expected_timers. rewrite Hv, Hen. cbn. by destruct (lease_free r pol w). Qed.

Lemma reconcile_conflict pol w w1 u t cond :
  validateOptimizationPolicySpec pol (w_clock w) = Ok u -> Enabled (OP_Spec pol) = true ->
  w_policies w !! policy_key pol = Some pol -> lease_free r pol w = false ->
  w_policies w1 = w_policies w -> w_timers w1 = w_timers w -> w_clock w1 = w_clock w -> w_leases w1 = w_leases w ->
  let '(w', res) := (cancelTimer (policy_key pol) ≫= fun _ =>
    ignore (setStatusPhaseAndCondition pol OptimizationPolicyPhaseFailed (lease_condition pol t "False" "Conflict" cond))
      ≫= fun _ => mret Done) w1 in
  exists pol', reconciled pol w w' res pol'.
Proof.
  intros Hv Hen Hpol Hfree Hp Ht Hc Hl. destruct (expected_valid pol w u Hv Hen) as [Hph Htm]. rewrite Hfree in Hph, Htm.
  rewrite bind_run. cbn [cancelTimer modify]. rewrite bind_run. unfold ignore.
  set (w2 := set_timers _ w1). rewrite <- Hp in Hpol.
  pose proof (write_status pol OptimizationPolicyPhaseFailed (lease_condition pol t "False" "Conflict" cond) w2 Hpol) as H.
  destruct (setStatusPhaseAndCondition _ _ _ w2) as [w' res]. cbn. destruct H as ((Ht' & Hl' & Hc' & Hd) & p & Hp' & Hs & H).
  exists p. assert (w_timers w2 = delete (policy_key pol) (w_timers w)) as Ht2 by (rewrite <- Ht; done).
  split; rewrite ?Hph; try done.
  - by rewrite Hd, <- Hp.
  - by rewrite Hc'.
  - by rewrite Ht', Ht2, delete_delete_eq.
  - destruct res; destruct H as [H1 H2]; auto.
  - case_decide; [done|]. by rewrite Hl', <- Hl.
  - rewrite Ht', Ht2, Htm. split; [unfold expected_result; by rewrite Hph|]. split; [done|]. destruct res as [p'|e]; destruct H as [H1 H2]; [by left|by right].
Qed.

Lemma same_policy_key pol p : same_policy pol p -> policy_key p = policy_key pol.
Proof. intros [Hm _]. unfold policy_key. by rewrite Hm. Qed.

Lemma reconcile_acquired pol w w1 u cond :
  validateOptimizationPolicySpec pol (w_clock w) = Ok u -> Enabled (OP_Spec pol) = true ->
  w_policies w !! policy_key pol = Some pol -> lease_free r pol w = true ->
  w_policies w1 = w_policies w -> w_timers w1 = w_timers w -> w_clock w1 = w_clock w ->
  held r pol (w_clock w) (w_leases w1) ->
  let '(w', res) := (pol1 ← setStatusPhaseAndCondition pol OptimizationPolicyPhaseActive cond;
    pol2 ← reconcileObservedDeployments pol1;
    pol3 ← reconcileCurrentLayout pol2;
    ensureTimer pol3 ≫= fun _ => mret (mkResult (Z.quot (getLeaseDurationSeconds r) 2 * Second))) w1 in
  exists pol', reconciled pol w w' res pol'.
Proof.
  intros Hv Hen Hpol Hfree Hp Ht Hc Hheld. destruct (expected_valid pol w u Hv Hen) as [Hph Htm]. rewrite Hfree in Hph, Htm.
  destruct (next_trigger_valid _ _ _ Hv) as [next Hnext]. rewrite Hnext in Htm.
  rewrite <- Hp in Hpol. rewrite bind_run. pose proof (write_status pol OptimizationPolicyPhaseActive cond w1 Hpol) as H.
  destruct (setStatusPhaseAndCondition _ _ _ w1) as [w2 [pol1|e]];
    destruct H as ((Ht2 & Hl2 & Hc2 & Hd2) & p & Hp2 & Hs & H).
  2: { destruct H as [He H]. exists p. split; rewrite ?Hph; try done.
       - by rewrite Hd2, Hp.
       - by rewrite Hc2.
       - by rewrite Ht2, Ht.
       - by left.
       - rewrite decide_True by done. left. by rewrite Hl2.
       - by left. }
  destruct H as [-> Hact]. rewrite <- (same_policy_key _ _ Hs) in Hp2. rewrite bind_assoc_run, bind_run.
  pose proof (active_steps p w2 Hact Hp2) as H.
  destruct ((reconcileObservedDeployments p ≫= _) w2) as [w3 [p3|e]];
    destruct H as ((Ht3 & Hl3 & Hc3 & Hd3) & q & Hq & Hsq & Hactq & H);
    rewrite (same_policy_key _ _ Hs) in Hq, Hd3.
  2: { exists q. split; rewrite ?Hph; try done.
       - by etrans.
       - by rewrite Hd3, Hd2, Hp.
       - by rewrite Hc3, Hc2.
       - by rewrite Ht3, Ht2, Ht.
       - by right.
       - rewrite decide_True by done. left. by rewrite Hl3, Hl2.
       - by eapply failure_same. }
  subst p3. rewrite bind_run, (ensureTimer_run pol q w3 next); [|by etrans|by rewrite Hc3, Hc2, Hc].
  cbn [mret M_ret]. exists q. split; rewrite ?Hph; try done.
  - by etrans.
  - etrans; [exact Hd3|]. by rewrite Hd2, Hp.
  - etrans; [exact Hc3|]. by rewrite Hc2.
  - unfold set_timers, w_timers at 1. cbn. change (ps_timers (w_policy w3)) with (w_timers w3).
    rewrite Ht3, Ht2, Ht. destruct next; by rewrite ?delete_insert_eq, ?delete_delete_eq.
  - by right.
  - rewrite decide_True by done. left. change (held r pol (w_clock w) (w_leases w3)). by rewrite Hl3, Hl2.
  - split; [unfold expected_result; by rewrite Hph|]. split; [|by left]. rewrite Htm. unfold set_timers, w_timers at 1. cbn. change (ps_timers (w_policy w3)) with (w_timers w3).
    rewrite Ht3, Ht2, Ht, Hc3, Hc2, Hc. by destruct next.
Qed.

Lemma reconcile_enabled_outcome pol w u :
  validateOptimizationPolicySpec pol (w_clock w) = Ok u -> Enabled (OP_Spec pol) = true ->
  w_policies w !! policy_key pol = Some pol ->
  let '(w', res) := reconcile_enabled r pol w in exists pol', reconciled pol w w' res pol'.
Proof.
  intros Hv Hen Hpol. unfold reconcile_enabled. rewrite bind_run. pose proof (tryAcquire_run r pol w) as Hl.
  destruct (tryAcquirePolicyLease r pol w) as [w1 [[[] holder]|e]]; destruct Hl as (Hp1 & Ht1 & Hc1 & Hl).
  - destruct Hl as (Hfree & _ & Hheld). rewrite bind_run. cbn [now negb].
    pose proof (reconcile_acquired pol w w1 u (lease_condition pol (w_clock w1) "True" "Acquired" "lease acquired")
      Hv Hen Hpol Hfree Hp1 Ht1 Hc1 Hheld) as H. destruct ((setStatusPhaseAndCondition _ _ _ ≫= _) w1). exact H.
  - destruct Hl as (Hfree & Hl & _). rewrite bind_run. cbn [now negb].
    exact (reconcile_conflict pol w w1 u _ _ Hv Hen Hpol Hfree Hp1 Ht1 Hc1 Hl).
  - destruct Hl as [Hl He]. exists pol. split; rewrite ?Hp1; try done.
    + by rewrite Ht1.
    + by left.
    + case_decide; [right; split; [by intros []|done]|exact Hl].
    + by left.
Qed.

Lemma reconcile_elsewhere key : preserves elsewhere (Reconcile r key).
Proof.
  apply preserves_policy_call; [done|done| |done]. intros l w. unfold elsewhere, w_leases at 1, set_leases, set_policy. cbn.
  by rewrite delete_insert_eq.
Qed.

Lemma Reconcile_reconciled pol w : w_policies w !! policy_key pol = Some pol ->
  let '(w', res) := Reconcile r (policy_key pol) w in exists pol', reconciled pol w w' res pol'.
Proof.
  intros Hpol. unfold Reconcile. rewrite bind_run. unfold attempt.
  pose proof (get_object_result w_policies (policy_key pol) w eq_refl) as Hget.
  destruct (get_object w_policies _ w) as [w1 [pol0|e]] eqn:Hrun; destruct Hget as [-> Hg].
  2: { destruct (IsNotFound e) eqn:He; cbn.
       - exfalso. unfold get_object, request in Hrun. destruct (fault (w_requests w)) as [e'|] eqn:Hf.
         + injection Hrun as <-. by rewrite (truthful _ _ Hf) in He.
         + by rewrite (Hpol : w_policies (tick w) !! _ = _) in Hrun.
       - exists pol. destruct Hg as [Hg|[-> Hg]]; [|done]. split; try done.
         + by left.
         + case_decide; [right; split; [by intros []|done]|done].
         + by left. }
  rewrite Hpol in Hg. injection Hg as <-. rewrite bind_run. cbn [now w_clock tick].
  destruct (validateOptimizationPolicySpec pol (w_clock w)) as [u|cond] eqn:Hv.
  - destruct (Enabled (OP_Spec pol)) eqn:Hen; cbn [negb].
    + pose proof (reconcile_enabled_outcome pol (tick w) u Hv Hen Hpol) as H.
      destruct (reconcile_enabled r pol (tick w)) as [w' res]. destruct H as [p []]. by exists p; split.
    + rewrite bind_run. cbn [cancelTimer modify]. rewrite bind_run. set (w2 := set_timers _ (tick w)).
      pose proof (write_status pol OptimizationPolicyPhaseDisabled (spec_valid pol (w_clock w)) w2 Hpol) as H.
      destruct (setStatusPhaseAndCondition _ _ _ w2) as [w' [p'|e]];
        destruct H as ((Ht & Hl & Hc & Hd) & p & Hp & Hs & H); cbn [mret M_ret];
        exists p; split; unfold expected_phase, expected_timers; rewrite ?Hv, ?Hen; try done.
      * rewrite Ht. apply delete_delete_eq.
      * right. by destruct H.
      * unfold expected_result, expected_phase. rewrite Hv, Hen. split_and!; [done..|]. left. by destruct H.
      * rewrite Ht. apply delete_delete_eq.
      * left. by destruct H.
      * left. by destruct H.
  - rewrite bind_run. unfold ignore.
    pose proof (write_status pol OptimizationPolicyPhaseFailed cond (tick w) Hpol) as H.
    destruct (setStatusPhaseAndCondition _ _ _ (tick w)) as [w' res]. cbn.
    destruct H as ((Ht & Hl & Hc & Hd) & p & Hp & Hs & H).
    exists p; split; unfold expected_phase, expected_timers; rewrite ?Hv; try done.
    + by rewrite Ht.
    + destruct res; destruct H as [H1 H2]; auto.
    + unfold expected_result, expected_phase. rewrite Hv. split_and!; [done..|].
      destruct res; destruct H as [H1 H2]; [by left|by right].
Qed.

(** C3: A reconciliation of a stored policy meets its specification, whatever
    requests fail: of all that is stored and cached only that policy's status, its timer
    and the lease of the controller change, and of the policy metadata, spec and the
    last evaluation stay; the phase is the expected one or the old one; with an
    error, something did fail, and without one the phase is the expected one (but
    for a rejection whose status write failed) and the timer is armed, disarmed or
    left as specified. A policy that turns Active holds the lease, renewed now. If
    nothing fails, the reconciliation ends in the expected phase. *)
Theorem Reconcile_refines pol w : w_policies w !! policy_key pol = Some pol ->
  let '(w', res) := Reconcile r (policy_key pol) w in
  exists pol', reconciled pol w w' res pol' /\ elsewhere w' = elsewhere w /\
    (OP_Phase (OP_Status pol') = OptimizationPolicyPhaseActive ->
     OP_Phase (OP_Status pol) = OptimizationPolicyPhaseActive \/ held r pol (w_clock w) (w_leases w')) /\
    ((forall e, ~ failure pol e) ->
     res = Ok (expected_result pol w) /\ OP_Phase (OP_Status pol') = expected_phase pol w).
Proof.
  intros Hpol. pose proof (Reconcile_reconciled pol w Hpol) as H. pose proof (reconcile_elsewhere (policy_key pol) w) as He.
  destruct (Reconcile r (policy_key pol) w) as [w' res]. destruct H as [pol' H]. exists pol'. split; [exact H|]. split; [exact He|].
  destruct H as [_ _ _ _ _ Hph Hl Hres]. split.
  - intros Hact. destruct Hph as [Hph|Hph]; [left; congruence|]. rewrite decide_True in Hl by congruence.
    destruct Hl as [Hl|(_ & _ & Hl)]; [by right|left; congruence].
  - intros Hno. destruct res as [v|e]; [|by destruct (Hno e)]. destruct Hres as (-> & _ & [Hp|[_ Hf]]); [done|].
    by destruct (Hno NotFound); left.
Qed.
End outcome.

(** ** The first evaluation of a periodic policy *)

Section starvation.
Context {KUBE : KubeLib} {ORDERS : LoopOrders} {FMT : GoFmt} {TEXT : PolicyTexts}.
Context (r : PolicyReconciler).

(** [n] reconciliations, each when the one before asked to be called again. *)
Fixpoint requeued (key : Key) (n : nat) (w : World) : World :=
  match n with
  | O => w
  | S n' => let '(w1, res) := Reconcile r key w in
            let wait := match res with Ok v => RequeueAfter v | Err _ => 0%Z end in
            requeued key n' (set_clock (w_clock w1 + wait) w1)
  end.

(** A policy as the theorem below has it. *)
Definition waiting (pol : OptimizationPolicy) (w : World) : Prop :=
  exists p, w_policies w !! policy_key pol = Some p /\ same_policy pol p /\ lease_free r p w = true.

Lemma is_ok_validate pol p t t' : same_policy pol p ->
  is_ok (validateOptimizationPolicySpec pol t) = true -> exists u, validateOptimizationPolicySpec p t' = Ok u.
Proof.
  intros (_ & Hs & _) Hv. pose proof (validation_cases pol t) as H. pose proof (validation_cases p t') as H'.
  rewrite Hs in H'. destruct (validateOptimizationPolicySpec pol t); [|done].
  destruct (validateOptimizationPolicySpec p t') as [u|]; [by exists u|]. by destruct H' as [H' _].
Qed.

Lemma lease_renewable pol t w : held r pol t (w_leases w) -> lease_free r pol w = true.
Proof. intros (l & Hl & Hh & _). unfold lease_free. rewrite Hl, Hh. cbn. by rewrite String.eqb_refl. Qed.

Lemma getLeaseDurationSeconds_pos : (0 < getLeaseDurationSeconds r)%Z.
Proof. unfold getLeaseDurationSeconds. destruct (Z.ltb_spec 0 (R_LeaseDurationSeconds r)); lia. Qed.

Lemma starving_round pol w d :
  (forall k, fault k = None) -> TargetSelector (OP_Spec pol) = None ->
  is_ok (validateOptimizationPolicySpec pol 0) = true -> Enabled (OP_Spec pol) = true ->
  RunMode (OP_Spec pol) = OptimizationRunModePeriodic -> LastEvaluationTime (OP_Status pol) = None ->
  ParseDuration (RebalancePoint (OP_Spec pol)) = Some d ->
  (Z.quot (getLeaseDurationSeconds r) 2 * Second < d)%Z -> waiting pol w ->
  let w' := requeued (policy_key pol) 1 w in
  waiting pol w' /\ exists t, w_timers w' !! policy_key pol = Some t /\ (w_clock w' < t)%Z.
Proof.
  intros Hf Hsel Hv Hen Hmode Hlast Hd Hlong (p & Hp & Hs & Hfree). cbn zeta.
  pose proof (same_policy_key _ _ Hs) as Hkey. rewrite <- Hkey in Hp.
  destruct (is_ok_validate pol p 0 (w_clock w) Hs Hv) as [u Hvp].
  assert (forall e, ~ failure p e) as Hno.
  { intros e [(k & e' & Hk)|(s & Hk & _)]; [by rewrite Hf in Hk|]. destruct Hs as (_ & Hs & _). by rewrite Hs, Hsel in Hk. }
  assert (Enabled (OP_Spec p) = true) as Henp by (destruct Hs as (_ & -> & _); done).
  destruct (expected_valid r p w u Hvp Henp) as [Hph Htm]. rewrite Hfree in Hph, Htm.
  pose proof (Reconcile_reconciled r) as H. specialize (H ltac:(intros k e Hk; by rewrite Hf in Hk) p w Hp).
  cbn [requeued]. rewrite Hkey in H, Htm, Hp. destruct (Reconcile r (policy_key pol) w) as [w1 res].
  destruct H as [p1 [Hst Hsame _ Hclock _ _ Hlease Hres]]. destruct res as [v|e]; [|by destruct (Hno e)].
  destruct Hres as (-> & Ht & _). unfold expected_result. rewrite !decide_True in * by exact Hph.
  destruct Hlease as [Hheld|[Hno' _]]; [|by destruct Hno'].
  assert (next_trigger p (w_clock w) = Ok (Some (w_clock w + d)%Z)) as Hnext.
  { rewrite (next_trigger_same _ _ _ Hs). unfold next_trigger. by rewrite Hmode, Hlast, Hd. }
  pose proof getLeaseDurationSeconds_pos as Hpos.
  assert (0 <= Z.quot (getLeaseDurationSeconds r) 2 * Second)%Z as Hq.
  { apply Z.mul_nonneg_nonneg; [apply Z.quot_pos; lia|by apply Z.leb_le]. }
  rewrite Hnext in Htm. set (w' := set_clock _ w1). split.
  - exists p1. split; [by rewrite <- Hkey|]. split; [by etrans|]. apply (lease_renewable p1 (w_clock w)).
    unfold held, holder_id in *. destruct Hsame as (-> & _). exact Hheld.
  - exists (w_clock w + d)%Z. change (w_timers w') with (w_timers w1). rewrite Ht, Htm, lookup_insert_eq. split.
    + f_equal. lia.
    + cbn. rewrite Hclock. cbn. lia.
Qed.

(** A periodic policy that has not been evaluated yet never is, as long as
    reconciliations follow one another when they ask to and nothing fails: each of
    them arms the timer anew, a full period ahead, and when the next one is due the
    timer has not fired, if the period is longer than half the lease's duration (7
    seconds by default). *)
Theorem periodic_starvation pol w d n :
  (forall k, fault k = None) -> TargetSelector (OP_Spec pol) = None ->
  w_policies w !! policy_key pol = Some pol -> is_ok (validateOptimizationPolicySpec pol (w_clock w)) = true ->
  Enabled (OP_Spec pol) = true -> lease_free r pol w = true ->
  RunMode (OP_Spec pol) = OptimizationRunModePeriodic -> LastEvaluationTime (OP_Status pol) = None ->
  ParseDuration (RebalancePoint (OP_Spec pol)) = Some d ->
  (Z.quot (getLeaseDurationSeconds r) 2 * Second < d)%Z -> n <> 0%nat ->
  let w' := requeued (policy_key pol) n w in
  exists t, w_timers w' !! policy_key pol = Some t /\ (w_clock w' < t)%Z.
Proof.
  intros Hf Hsel Hp Hv Hen Hfree Hmode Hlast Hd Hlong Hn. cbn zeta.
  assert (waiting pol w) as Hw by (exists pol; done).
  destruct (is_ok_validate pol pol _ 0 (reflexivity pol) Hv) as [u Hv0].
  clear Hp Hfree Hv. revert w Hw. induction n as [|n IH]; intros w Hw; [done|].
  destruct (starving_round pol w d) as [Hw' Ht]; try done; [by rewrite Hv0|].
  assert (requeued (policy_key pol) (S n) w = requeued (policy_key pol) n (requeued (policy_key pol) 1 w)) as ->.
  { cbn [requeued]. by destruct (Reconcile r (policy_key pol) w). }
  destruct n as [|n]; [exact Ht|]. apply IH; done.
Qed.
End starvation.

(** ** Concrete runs: a periodic policy, and a deployment with two replicas. *)

#[local] Existing Instance reliable_kube.
#[export] Instance any_loop_order : LoopOrders | 100 := fun _ => map_order_forward.
#[export] Instance plain_texts : PolicyTexts | 100 := {| fmt_4g := fun _ => "?"; duration_error := fun _ => "invalid" |}.


Definition demo_reconciler : PolicyReconciler := mkPolicyReconciler "" "" 0 "" 0 "" "".
Definition demo_policy (name : string) : OptimizationPolicy :=
  mkPolicy (mkMeta name "default" "p1" 3 ∅ ∅ [] None [])
    (mkPolicySpec true None [mkOptimizationGoal "Cost" (f64_of_Z 1) "" ""] "Periodic" "30s" "Conservative" 10)
    (mkPolicyStatus "" 0 0 [] 0 0 ∅ None None []).
Definition demo_binding (idx : Z) (cluster node phase : string) : ReplicaBinding :=
  mkRB (mkMeta ("web-rb-" +:+ pretty idx) "default" "u1" 1 ∅ ∅ [] None [])
    (mkRBSpec (mkRef "web" "default") idx "c1" "n1" false "")
    (mkRBStatus phase "" None node cluster (mkRescheduleStatus "" None (mkObserved "" "" "") "" "" "")).
Definition demo_deployment : GlobalDeployment :=
  mkGD (mkMeta "web" "default" "u2" 1 ∅ ∅ [] None []) (mkGDSpec (Some 2%Z) "") (mkGDStatus "" 0 0 0 None "").
Definition demo_bindings : list ReplicaBinding :=
  [demo_binding 0 "c1" "n1" "Running"; demo_binding 1 "" "" "Pending"].
Definition policy_world (pols : gmap Key OptimizationPolicy) : World :=
  mkWorld ∅ (list_to_map ((fun rb => (rb_key rb, rb)) <$> demo_bindings)) {[("default", "web") := demo_deployment]} ∅ ∅
    ∅ ∅ ∅ (5 * Second) 0 (mkPolicyState pols ∅ ∅ ∅ ∅) ∅.
Definition demo_policy_world : World := policy_world {[("default", "p") := demo_policy "p"]}.

Lemma set_layout_counts_witness :
  let st := set_layout (layout_items 0 [demo_deployment] demo_bindings) (OP_Status (demo_policy "p")) in
  (StableCount st + UnstableCount st = 2)%Z.
Proof.
  destruct (set_layout_counts (layout_items 0 [demo_deployment] demo_bindings) (OP_Status (demo_policy "p")))
    as (_ & _ & _ & _ & H & _); [by_eval|]. exact H.
Defined.

Lemma layout_items_spec_witness :
  NoDup ((fun loc => (CL_Namespace loc, CL_Name loc, CL_ReplicaIndex loc)) <$> layout_items 0 [demo_deployment] demo_bindings) /\
  exists e loc, loc ∈ layout_items 0 [demo_deployment] demo_bindings /\ located e.1 e.2 loc /\ e.2 = demo_binding 0 "c1" "n1" "Running".
Proof.
  destruct (layout_items_spec 0 [demo_deployment] demo_bindings ltac:(by_computation)) as [(listed & Hp & Hl) Hnd].
  split; [apply Hnd; by_computation|].
  assert (He : (demo_deployment, demo_binding 0 "c1" "n1" "Running") ∈ listed).
  { rewrite Hp. apply list_elem_of_bind. exists demo_deployment. split; [|by left]. apply list_elem_of_fmap. eexists. split; [reflexivity|].
    apply list_elem_of_filter. split; [reflexivity|apply list_elem_of_here]. }
  destruct (proj1 (list_elem_of_lookup _ _) He) as [i Hi]. destruct (Forall2_lookup_l _ _ _ _ _ Hl Hi) as (loc & Hloc & H).
  exists (demo_deployment, demo_binding 0 "c1" "n1" "Running"), loc. split_and!; [by eapply list_elem_of_lookup_2|exact H|reflexivity].
Defined.

Definition demo_settled : OptimizationPolicy :=
  with_policy_status (demo_policy "p")
    (set_layout (layout_items 2 [demo_deployment] demo_bindings) (OP_Status (demo_policy "p"))).

Lemma layout_settles_witness :
  CurrentLayout (OP_Status demo_settled) <> [] /\
  let w1 := (reconcileCurrentLayout (demo_policy "p") demo_policy_world).1 in
  w_policies (reconcileCurrentLayout demo_settled w1).1 = w_policies w1.
Proof.
  split; [discriminate|]. cbv zeta.
  pose proof (layout_settles (demo_policy "p") demo_policy_world ltac:(by_computation) _ demo_settled
    (run_result _ _ _ ltac:(by_eval))) as H.
  destruct (reconcileCurrentLayout demo_settled _) as [w2 res]. exact (proj1 H).
Defined.

Lemma lease_exclusive_witness :
  let w2 := set_clock (20 * Second) (tryAcquirePolicyLease demo_reconciler (demo_policy "p") demo_policy_world).1 in
  let '(w3, res) := tryAcquirePolicyLease demo_reconciler (demo_policy "q") w2 in
  w_leases w3 = w_leases w2 /\
  match res with Ok v => v = (false, holder_id demo_reconciler (demo_policy "p")) | Err e => faulty end.
Proof.
  exact (lease_exclusive demo_reconciler (demo_policy "p") demo_policy_world _
    (holder_id demo_reconciler (demo_policy "p")) demo_reconciler (demo_policy "q") _
    (run_result _ _ _ eq_refl) eq_refl ltac:(discriminate) eq_refl ltac:(by_computation)).
Defined.

Lemma demo_truthful k e : fault k = Some e -> IsNotFound e = false.
Proof. discriminate. Qed.

Lemma Reconcile_refines_witness :
  let '(w', res) := Reconcile demo_reconciler ("default", "p") demo_policy_world in
  exists pol', reconciled demo_reconciler (demo_policy "p") demo_policy_world w' res pol' /\
    OP_Phase (OP_Status pol') = "Active".
Proof.
  pose proof (Reconcile_refines demo_reconciler demo_truthful (demo_policy "p") demo_policy_world eq_refl) as H.
  change (policy_key (demo_policy "p")) with ("default", "p") in H.
  destruct (Reconcile demo_reconciler ("default", "p") demo_policy_world) as [w' res].
  destruct H as (pol' & H & _ & _ & Hok). exists pol'. split; [exact H|].
  destruct Hok as [_ ->]; [|by_eval].
  intros e [(k & e' & Hk)|(s & Hk & _)]; discriminate.
Defined.

Lemma periodic_starvation_witness :
  exists t, w_timers (requeued demo_reconciler ("default", "p") 10 demo_policy_world) !! ("default", "p") = Some t /\
    (w_clock (requeued demo_reconciler ("default", "p") 10 demo_policy_world) < t)%Z.
Proof.
  apply (periodic_starvation demo_reconciler (demo_policy "p") demo_policy_world (30 * Second) 10);
    [reflexivity|reflexivity|reflexivity|by_eval|reflexivity|reflexivity|reflexivity|reflexivity|by_eval|by_eval|discriminate].
Defined.
