(* ===== verification/LeaseRace.v ===== *)
(** * The policy lease, request by request
    (optimizationpolicy_controller.go, tryAcquirePolicyLease)

    PolicyController runs an attempt on the lease as a whole. Here an attempt is the
    sequence of its requests, and any number of attempts, of one process or of
    several, take turns at the level of single requests; a read from a cache that
    lags behind is a read that took its turn early. Run alone, the sequence is
    [tryAcquirePolicyLease]. *)

From S2P Require Import Prelude OptErrors GoTime GoText ApiTypes KubeApi PolicyInputs PolicyController.

Local Open Scope string_scope.
Local Open Scope list_scope.

(** ** Attempts as sequences of requests *)

(** What an attempt asks for: the lease, the time, and its two writes. *)
Inductive ask : Type -> Type :=
| GetLease : ask (result api_error Lease)
| Now : ask Z
| CreateLease (l : Lease) : ask (result api_error unit)
| PatchLease (read new : Lease) : ask (result api_error unit).

(** [return acquired, holder, err], or the next request and what follows it. *)
Inductive attempt_at : Type :=
| Return (res : result api_error (bool * string))
| Ask {X : Type} (q : ask X) (next : X -> attempt_at).

(** The patch of [client.MergeFrom(read)]. *)
Definition merge_lease (read new stored : Lease) : Lease :=
  mkLease (merge_field (HolderIdentity read) (HolderIdentity new) (HolderIdentity stored))
    (merge_field (LeaseDurationSeconds read) (LeaseDurationSeconds new) (LeaseDurationSeconds stored))
    (merge_field (AcquireTime read) (AcquireTime new) (AcquireTime stored))
    (merge_field (RenewTime read) (RenewTime new) (RenewTime stored)).

Section attempts.
Context (r : PolicyReconciler) (pol : OptimizationPolicy).

(** [if err := r.Create(...); err != nil { return false, "", err }; return true, id, nil],
    and the same of [r.Patch]. *)
Definition answered (res : result api_error unit) : attempt_at :=
  Return (match res with Ok _ => Ok (true, holder_id r pol) | Err e => Err e end).

(** What follows [metav1.NowMicro()] and [time.Since]. *)
Definition after_now (g : result api_error Lease) (t : Z) : attempt_at :=
  let selfId := holder_id r pol in
  let dur := Some (getLeaseDurationSeconds r) in
  match g with
  | Err e =>
      if negb (IsNotFound e) then Return (Err e)
      else Ask (CreateLease (mkLease (Some selfId) dur (Some t) (Some t))) answered
  | Ok lease =>
      let holder := default "" (HolderIdentity lease) in
      if String.eqb holder selfId then
        Ask (PatchLease lease (mkLease (HolderIdentity lease) dur (AcquireTime lease) (Some t))) answered
      else if lease_valid r lease t then Return (Ok (false, holder))
      else Ask (PatchLease lease (mkLease (Some selfId) dur (Some t) (Some t))) answered
  end.
Definition after_get (g : result api_error Lease) : attempt_at := Ask Now (after_now g).
Definition acquire : attempt_at := Ask GetLease after_get.
End attempts.

Section semantics.
Context {KUBE : KubeLib} (key : Key).

(** The patch of the lease as the API server applies it. *)
Definition merge_patch_lease (read new : Lease) : M unit :=
  request (fun w =>
    match w_leases w !! key with
    | None => (w, Err NotFound)
    | Some stored => (set_leases <[key := merge_lease read new stored]> w, Ok tt)
    end).

(** One request, and a whole attempt that nobody disturbs. *)
Definition perform {X} (q : ask X) : World -> World * X :=
  match q with
  | GetLease => get_object w_leases key
  | Now => fun w => (w, w_clock w)
  | CreateLease l => create_lease key l
  | PatchLease read new => merge_patch_lease read new
  end.
Fixpoint alone (a : attempt_at) (w : World) : World * result api_error (bool * string) :=
  match a with
  | Return res => (w, res)
  | Ask q next => let '(w', x) := perform q w in alone (next x) w'
  end.

(** One turn of an attempt. *)
Definition advance (a : attempt_at) (w : World) : World * attempt_at :=
  match a with
  | Return _ => (w, a)
  | Ask q next => let '(w', x) := perform q w in (w', next x)
  end.
End semantics.

Lemma merge_lease_same read new : merge_lease read new read = new.
Proof. unfold merge_lease. rewrite !merge_field_same. by destruct new. Qed.

(** An attempt that nobody disturbs is [tryAcquirePolicyLease]: the same result
    and the same environment, whatever requests fail. *)
Theorem acquire_alone {KUBE : KubeLib} r pol w :
  alone (lease_key r) (acquire r pol) w = tryAcquirePolicyLease r pol w.
Proof.
  assert (Hget : forall w, (get_object w_leases (lease_key r) w).1 = tick w).
  { intros w0. unfold get_object, request. by destruct (fault _). }
  assert (Hend : forall (m : M unit) w0, (let '(w', x) := m w0 in alone (lease_key r) (answered r pol x) w') =
    (m ≫= fun _ => mret (true, holder_id r pol)) w0).
  { intros m w0. rewrite bind_run. by destruct (m w0) as [w' [u|e]]. }
  unfold acquire, after_get, tryAcquirePolicyLease. cbn [alone perform]. rewrite bind_run. unfold attempt.
  specialize (Hget w). destruct (get_object w_leases (lease_key r) w) as [w1 g] eqn:Hrun. cbn [fst] in Hget. subst w1.
  rewrite bind_run. cbn [now alone perform w_clock tick]. unfold after_now.
  destruct g as [lease|e]; [|destruct (negb (IsNotFound e)); [done|apply Hend]].
  assert (Hpatch : forall new, merge_patch_lease (lease_key r) lease new (tick w) = patch_lease (lease_key r) new (tick w)).
  { intros new. unfold merge_patch_lease, patch_lease, request. destruct (fault _); [done|].
    unfold get_object, request in Hrun. destruct (fault (w_requests w)); [done|].
    change (w_leases (tick (tick w))) with (w_leases (tick w)).
    destruct (w_leases (tick w) !! lease_key r) as [stored|]; [|done]. injection Hrun as ->. by rewrite merge_lease_same. }
  cbv zeta. cbn [w_clock tick]. destruct (String.eqb _ _); [|destruct (lease_valid _ _ _); [done|]];
    cbn [alone perform]; rewrite Hpatch; apply Hend.
Qed.

(** ** Attempts that take turns *)

(** An attempt under way: who makes it, and where it is. *)
Record party := mkParty { P_reconciler : PolicyReconciler; P_policy : OptimizationPolicy; P_at : attempt_at }.
Definition starting (r : PolicyReconciler) (pol : OptimizationPolicy) : party := mkParty r pol (acquire r pol).
Definition party_id (p : party) : string := holder_id (P_reconciler p) (P_policy p).
Definition moved_to (a : attempt_at) (p : party) : party := mkParty (P_reconciler p) (P_policy p) a.

(** It returned [acquired = true]. *)
Definition acquired (p : party) : Prop := P_at p = Return (Ok (true, party_id p)).

Section turns.
Context {KUBE : KubeLib} (key : Key) (dur : Z).

(** The attempts on one lock whose reconcilers agree on the duration. *)
Definition on_lock (r : PolicyReconciler) : Prop := lease_key r = key /\ getLeaseDurationSeconds r = dur.

(** One attempt makes its next request, a new one begins, or anything else happens
    that leaves the lease alone, time passing among it. *)
Inductive turn : list party * World -> list party * World -> Prop :=
| turn_request ps i p w :
    ps !! i = Some p ->
    turn (ps, w) (<[i := moved_to (advance key (P_at p) w).2 p]> ps, (advance key (P_at p) w).1)
| turn_begin r pol ps w : on_lock r -> turn (ps, w) (ps ++ [starting r pol], w)
| turn_other ps w w' :
    w_leases w' !! key = w_leases w !! key -> (w_clock w <= w_clock w')%Z -> turn (ps, w) (ps, w').

(** ** Where an attempt can be while the lease is in the hands of one holder *)

Context (t0 : Z).

(** A lease of [id], renewed at [t0] or later. *)
Definition lease_of (id : string) (l : Lease) : Prop :=
  HolderIdentity l = Some id /\ LeaseDurationSeconds l = Some dur /\ exists t, RenewTime l = Some t /\ (t0 <= t)%Z.
Definition stored (owner : option string) (w : World) : Prop :=
  match owner with
  | None => w_leases w !! key = None
  | Some id => exists l, w_leases w !! key = Some l /\ lease_of id l
  end.

Inductive stage (owner : option string) (r : PolicyReconciler) (pol : OptimizationPolicy) : attempt_at -> Prop :=
| stage_start : stage owner r pol (acquire r pol)
| stage_failed_read e : stage owner r pol (after_get r pol (Err e))
| stage_read id l : owner = Some id -> lease_of id l -> stage owner r pol (after_get r pol (Ok l))
| stage_create t : (t0 <= t)%Z ->
    stage owner r pol (Ask (CreateLease (mkLease (Some (holder_id r pol)) (Some dur) (Some t) (Some t))) (answered r pol))
| stage_renew l t : owner = Some (holder_id r pol) -> lease_of (holder_id r pol) l -> (t0 <= t)%Z ->
    stage owner r pol
      (Ask (PatchLease l (mkLease (HolderIdentity l) (Some dur) (AcquireTime l) (Some t))) (answered r pol))
| stage_refused res : (forall id, res <> Ok (true, id)) -> stage owner r pol (Return res)
| stage_acquired : owner = Some (holder_id r pol) -> stage owner r pol (Return (Ok (true, holder_id r pol))).

Definition party_ok (owner : option string) (p : party) : Prop :=
  on_lock (P_reconciler p) /\ stage owner (P_reconciler p) (P_policy p) (P_at p).

Lemma stage_taken id r pol a : stage None r pol a -> stage (Some id) r pol a.
Proof. intros H. inversion H; subst; try done; by constructor. Qed.
Lemma parties_taken id ps : Forall (party_ok None) ps -> Forall (party_ok (Some id)) ps.
Proof. intros H. apply (Forall_impl _ _ _ H). intros p [H1 H2]. split; [done|by apply stage_taken]. Qed.

Lemma lease_of_merge id l l' t : lease_of id l -> lease_of id l' -> (t0 <= t)%Z ->
  lease_of id (merge_lease l (mkLease (HolderIdentity l) (Some dur) (AcquireTime l) (Some t)) l').
Proof.
  intros (H1 & H2 & t1 & H3 & H4) (H1' & H2' & t1' & H3' & H4') Ht.
  unfold lease_of, merge_lease, merge_field. cbn. rewrite H2, !decide_True by done. split_and!; [done..|].
  destruct (decide _); [|by exists t]. by exists t1'.
Qed.

(** A reader of a lease that is held: its holder renews, another one is refused. *)
Lemma stage_after_read owner r pol id l t :
  on_lock r -> owner = Some id -> lease_of id l -> (t0 <= t)%Z -> (t <= t0 + dur * Second)%Z ->
  stage owner r pol (after_now r pol (Ok l) t).
Proof.
  intros [Hk Hd] -> Hl Ht Hlim. assert (Hl' := Hl). destruct Hl' as (H1 & H2 & t1 & H3 & H4). unfold after_now. rewrite H1, Hd.
  change (default "" (Some id)) with id.
  destruct (String.eqb_spec id (holder_id r pol)) as [->|Hne].
  - rewrite <- H1 at 2. by apply stage_renew.
  - unfold lease_valid. rewrite H3, H2. change (default (getLeaseDurationSeconds r) (Some dur)) with dur.
    replace (t - t1 <=? dur * Second)%Z with true by (symmetry; apply Z.leb_le; lia). by apply stage_refused.
Qed.

(** One turn keeps every attempt at a stage, and the lease with its holder; a free
    lease may be taken, by the attempt whose turn it is. *)
Lemma advance_ok owner p w :
  party_ok owner p -> stored owner w -> (t0 <= w_clock w)%Z -> (w_clock w <= t0 + dur * Second)%Z ->
  let '(w', a) := advance key (P_at p) w in
  exists owner', stored owner' w' /\ party_ok owner' (moved_to a p) /\ (owner = owner' \/ owner = None).
Proof.
  destruct p as [r pol a]. intros [Hon Hst] Hstored Ht Hlim. cbn [P_reconciler P_policy P_at] in *. unfold moved_to, party_ok. cbn.
  assert (Hsame : forall a', stage owner r pol a' ->
    exists owner', stored owner' (tick w) /\ (on_lock r /\ stage owner' r pol a') /\ (owner = owner' \/ owner = None)).
  { intros a' Ha'. exists owner. split_and!; [exact Hstored|done|done|by left]. }
  inversion Hst as [|e|id l Ho Hl|t Htt|l t Ho Hl Htt|res Hres|Ho]; subst a; try unfold acquire; try unfold after_get; cbn [advance perform].
  - unfold get_object, request. destruct (fault (w_requests w)); cbn; apply Hsame; [constructor|].
    change (w_leases (tick w)) with (w_leases w). destruct owner as [id|]; [|cbn in Hstored; rewrite Hstored; constructor].
    destruct Hstored as (l & -> & Hl). by eapply stage_read.
  - exists owner. split_and!; [done|done| |by left]. unfold after_now.
    destruct (negb _); [by apply stage_refused|]. destruct Hon as [_ ->]. by apply stage_create.
  - exists owner. split_and!; [done|done| |by left]. by apply (stage_after_read _ _ _ id).
  - unfold create_lease, request, answered. destruct (fault (w_requests w)); cbn; [apply Hsame; by apply stage_refused|].
    change (w_leases (tick w)) with (w_leases w). destruct (w_leases w !! key) as [l|] eqn:Hl.
    + cbn. apply Hsame. by apply stage_refused.
    + cbn. exists (Some (holder_id r pol)). split_and!; [|done|by apply stage_acquired|].
      * eexists. split; [apply lookup_insert_eq|]. split_and!; [done..|]. by exists t.
      * destruct owner as [id|]; [|by right]. destruct Hstored as (l & Hl' & _). congruence.
  - subst owner. unfold merge_patch_lease, request, answered. destruct (fault (w_requests w)); cbn; [apply Hsame; by apply stage_refused|].
    change (w_leases (tick w)) with (w_leases w). destruct Hstored as (l' & Hl' & Hof). rewrite Hl'. cbn.
    exists (Some (holder_id r pol)). split_and!; [|done|by apply stage_acquired|by left].
    eexists. split; [apply lookup_insert_eq|]. by apply lease_of_merge.
  - exists owner. split_and!; [done|done|by apply stage_refused|by left].
  - exists owner. split_and!; [done|done|by apply stage_acquired|by left].
Qed.

Lemma advance_clock a w : w_clock (advance key a w).1 = w_clock w.
Proof.
  destruct a as [res|X q next]; [done|]. cbn [advance].
  assert (Hq : w_clock (perform key q w).1 = w_clock w).
  { destruct q; cbn; unfold get_object, create_lease, merge_patch_lease, request;
      repeat (match goal with |- context [match ?x with _ => _ end] => destruct x end); done. }
  by destruct (perform key q w).
Qed.

Definition pool_ok (owner0 : option string) (s : list party * World) : Prop :=
  (t0 <= w_clock s.2)%Z /\
  exists owner, stored owner s.2 /\ Forall (party_ok owner) s.1 /\ (owner0 = owner \/ owner0 = None).

Lemma turn_ok owner0 s s' :
  turn s s' -> pool_ok owner0 s -> (w_clock s'.2 <= t0 + dur * Second)%Z -> pool_ok owner0 s'.
Proof.
  intros Ht (Hc & owner & Hst & Hps & Ho) Hlim. destruct Ht as [ps i p w Hi|r pol ps w Hon|ps w w' Hl Hcl]; cbn [fst snd] in *.
  - assert (Hp := Forall_lookup_1 _ _ _ _ Hps Hi). assert (Hadv := advance_ok owner p w Hp Hst Hc).
    destruct (advance key (P_at p) w) as [w' a] eqn:Hw.
    rewrite ?Hw in Hlim. cbn [fst snd] in *.
    assert (Hcw : w_clock w' = w_clock w) by exact (eq_trans (f_equal (fun x => w_clock x.1) (eq_sym Hw)) (advance_clock (P_at p) w)).
    destruct Hadv as (owner' & Hst' & Hp' & Ho'); [lia|]. split; [cbn; lia|]. exists owner'. split_and!; [done| |].
    + apply Forall_insert; [|done]. destruct Ho' as [->| ->]; [done|].
      destruct owner'; [by apply parties_taken|done].
    + destruct Ho as [->| ->]; [|by right]. destruct Ho' as [->| ->]; [by left|by right].
  - split; [done|]. exists owner. split_and!; [done| |done]. apply Forall_app_2; [done|]. constructor; [|done].
    split; [done|constructor].
  - split; [cbn; lia|]. exists owner. split_and!; [|done|done]. unfold stored. cbn. by rewrite Hl.
Qed.

Lemma turns_clock s s' : rtc turn s s' -> (w_clock s.2 <= w_clock s'.2)%Z.
Proof.
  induction 1 as [|s s1 s2 Ht _ IH]; [lia|]. assert (w_clock s.2 <= w_clock s1.2)%Z; [|lia].
  destruct Ht as [ps i p w Hi|r pol ps w Hon|ps w w' Hl Hcl]; cbn; [|lia|lia].
  rewrite advance_clock. lia.
Qed.

Lemma turns_ok owner0 s s' :
  rtc turn s s' -> pool_ok owner0 s -> (w_clock s'.2 <= t0 + dur * Second)%Z -> pool_ok owner0 s'.
Proof.
  intros Hrt. induction Hrt as [|s s1 s2 Ht Hrt IH]; intros Hok Hlim; [done|].
  apply IH; [|done]. apply (turn_ok _ _ _ Ht Hok). pose proof (turns_clock _ _ Hrt). lia.
Qed.
End turns.

(** ** Exclusion *)

(** C8: However attempts on one lock take turns, in one process or several, with
    any reads served late and any requests failing, from a moment at which the
    lease does not exist, or was just acquired, and no attempt is under way: until
    the duration has passed every attempt that acquires has the one holder the
    stored lease names; if the lease was held at the start, it is that holder. *)
Theorem lease_exclusive_interleaved {KUBE : KubeLib} key dur parties w0 ps w :
  (forall p, p ∈ parties -> exists r pol, on_lock key dur r /\ p = starting r pol) ->
  match w_leases w0 !! key with None => True | Some l => exists id, lease_of dur (w_clock w0) id l end ->
  rtc (turn key dur) (parties, w0) (ps, w) -> (w_clock w <= w_clock w0 + dur * Second)%Z ->
  forall p, p ∈ ps -> acquired p ->
    exists l, w_leases w !! key = Some l /\ HolderIdentity l = Some (party_id p) /\
      forall l0, w_leases w0 !! key = Some l0 -> HolderIdentity l0 = HolderIdentity l.
Proof.
  intros Hstart H0 Hrt Hlim p Hp Hacq.
  set (owner0 := match w_leases w0 !! key with None => None | Some l => HolderIdentity l end).
  assert (Hok : pool_ok key dur (w_clock w0) owner0 (parties, w0)).
  { split; [cbn; lia|]. exists owner0. cbn [fst snd]. split_and!; [| |by left].
    - unfold owner0. destruct (w_leases w0 !! key) as [l|] eqn:Hl; [|exact Hl]. destruct H0 as [id Hid].
      assert (H := Hid). destruct H as [-> _]. by exists l.
    - apply Forall_forall. intros q Hq. destruct (Hstart q Hq) as (r & pol & Hon & ->). split; [done|apply stage_start]. }
  destruct (turns_ok _ _ _ _ _ _ Hrt Hok Hlim) as (_ & owner & Hst & Hps & Ho). cbn [fst snd] in *.
  assert (Hp' := proj1 (Forall_forall _ _) Hps p Hp). destruct Hp' as [_ Hstage]. unfold acquired in Hacq. rewrite Hacq in Hstage.
  inversion Hstage as [| | | | |res Hres|Howner]; subst; [by destruct (Hres (party_id p))|].
  destruct Hst as (l & Hl & Hof & _). exists l. split_and!; [done|done|].
  intros l0 Hl0. unfold owner0 in Ho. rewrite Hl0 in Ho, H0. destruct H0 as [id [Hid _]].
  rewrite Hof, Hid. destruct Ho as [Ho|Ho]; congruence.
Qed.

(** ** The race for an expired lease *)

(** The turns of a schedule: the attempts that make a request, by number. *)
Fixpoint turns_of {KUBE : KubeLib} (key : Key) (schedule : list nat) (s : list party * World) : list party * World :=
  match schedule with
  | [] => s
  | i :: rest =>
      match s.1 !! i with
      | None => turns_of key rest s
      | Some p =>
          let '(w', a) := advance key (P_at p) s.2 in turns_of key rest (<[i := moved_to a p]> s.1, w')
      end
  end.

Lemma turns_of_turns {KUBE : KubeLib} key dur schedule s : rtc (turn key dur) s (turns_of key schedule s).
Proof.
  revert s. induction schedule as [|i rest IH]; intros [ps w]; [apply rtc_refl|]. cbn [turns_of fst snd].
  destruct (ps !! i) as [p|] eqn:Hp; [|apply IH]. eapply rtc_l; [exact (turn_request _ _ _ _ _ w Hp)|].
  destruct (advance key (P_at p) w) as [w' a]. apply IH.
Qed.

(** What the requests of an attempt on an expired lease do when they succeed. *)
Section race.
Context {KUBE : KubeLib}.
Hypothesis no_faults : forall k, fault k = None.
Context (r : PolicyReconciler) (pol : OptimizationPolicy) (key : Key).

Lemma advance_read l w : w_leases w !! key = Some l -> advance key (acquire r pol) w = (tick w, after_get r pol (Ok l)).
Proof.
  intros Hl. unfold acquire. cbn [advance perform]. rewrite get_object_run by done.
  change (w_leases (tick w)) with (w_leases w). by rewrite Hl.
Qed.

(** It reads the clock, and is about to take the lease over. *)
Definition taking_over (l : Lease) (t : Z) : attempt_at :=
  Ask (PatchLease l (mkLease (Some (holder_id r pol)) (Some (getLeaseDurationSeconds r)) (Some t) (Some t))) (answered r pol).
Lemma advance_expired l w :
  default "" (HolderIdentity l) <> holder_id r pol -> lease_valid r l (w_clock w) = false ->
  advance key (after_get r pol (Ok l)) w = (w, taking_over l (w_clock w)).
Proof.
  intros Hne Hexp. unfold after_get. cbn [advance perform]. unfold after_now.
  destruct (String.eqb_spec (default "" (HolderIdentity l)) (holder_id r pol)) as [He|_]; [done|]. by rewrite Hexp.
Qed.

Lemma advance_taken l t w stored :
  w_leases w !! key = Some stored -> HolderIdentity l <> Some (holder_id r pol) ->
  exists new, HolderIdentity new = Some (holder_id r pol) /\
    advance key (taking_over l t) w = (set_leases <[key := new]> (tick w), Return (Ok (true, holder_id r pol))).
Proof.
  intros Hst Hne. unfold taking_over. cbn [advance perform]. unfold merge_patch_lease. rewrite request_run by done.
  change (w_leases (tick w)) with (w_leases w). rewrite Hst. eexists. split; [|reflexivity].
  unfold merge_lease, merge_field. cbn. by rewrite decide_False.
Qed.
End race.

(** C9: The takeover does not exclude: from any stored lease that has expired for two
    attempts of different holders, both read it, both write it, and both return
    acquired, at the same time; the stored lease names the second only. *)
Theorem lease_race {KUBE : KubeLib} key r1 pol1 r2 pol2 l w :
  (forall k, fault k = None) -> holder_id r1 pol1 <> holder_id r2 pol2 ->
  w_leases w !! key = Some l ->
  default "" (HolderIdentity l) <> holder_id r1 pol1 -> default "" (HolderIdentity l) <> holder_id r2 pol2 ->
  lease_valid r1 l (w_clock w) = false -> lease_valid r2 l (w_clock w) = false ->
  exists p1 p2 w' l',
    (forall dur, rtc (turn key dur) ([starting r1 pol1; starting r2 pol2], w) ([p1; p2], w')) /\
    w_clock w' = w_clock w /\
    acquired p1 /\ party_id p1 = holder_id r1 pol1 /\ acquired p2 /\ party_id p2 = holder_id r2 pol2 /\
    w_leases w' !! key = Some l' /\ HolderIdentity l' = Some (holder_id r2 pol2).
Proof.
  intros Hno Hids Hl Hne1 Hne2 Hv1 Hv2.
  destruct (advance_taken Hno r1 pol1 key l (w_clock w) (tick (tick w)) l Hl) as (n1 & Hn1 & Ht1); [intros H; by rewrite H in Hne1|].
  set (w1 := set_leases <[key := n1]> (tick (tick (tick w)))) in Ht1.
  destruct (advance_taken Hno r2 pol2 key l (w_clock w) w1 n1) as (n2 & Hn2 & Ht2);
    [apply lookup_insert_eq|intros H; by rewrite H in Hne2|].
  assert (Hrun : turns_of key [0; 1; 0; 1; 0; 1]%nat ([starting r1 pol1; starting r2 pol2], w) =
    ([mkParty r1 pol1 (Return (Ok (true, holder_id r1 pol1))); mkParty r2 pol2 (Return (Ok (true, holder_id r2 pol2)))],
     set_leases <[key := n2]> (tick w1))).
  { unfold starting, moved_to. cbn [turns_of lookup list_lookup fst snd P_at P_reconciler P_policy].
    rewrite (advance_read Hno _ _ _ l) by done. cbn -[advance tick].
    rewrite (advance_read Hno _ _ _ l) by done. cbn -[advance tick].
    rewrite advance_expired by done. cbn -[advance tick]. rewrite advance_expired by done. cbn -[advance tick].
    change (w_clock (tick (tick w))) with (w_clock w). rewrite Ht1. cbn -[advance tick w1]. by rewrite Ht2. }
  eexists _, _, _, n2. split; [intros dur; rewrite <- Hrun; apply turns_of_turns|].
  split_and!; try done. apply lookup_insert_eq.
Qed.

(** ** Two policies and one lock *)

#[local] Existing Instance reliable_kube.

Definition demo_key : Key := lease_key demo_reconciler.
Definition demo_start : list party * World :=
  ([starting demo_reconciler (demo_policy "p"); starting demo_reconciler (demo_policy "q")], demo_policy_world).

(** Both find no lease and ask for its creation: "p" gets it, "q" an error. *)
Definition demo_end : list party * World := turns_of demo_key [0; 1; 0; 1; 0; 1]%nat demo_start.

Lemma lease_exclusive_interleaved_witness :
  exists l, w_leases demo_end.2 !! demo_key = Some l /\ HolderIdentity l = Some "kubeX-controller:default/p".
Proof.
  assert (Hend : demo_end = (demo_end.1, demo_end.2)) by by destruct demo_end.
  assert (Hrt := turns_of_turns demo_key 15 [0; 1; 0; 1; 0; 1]%nat demo_start). fold demo_end in Hrt. rewrite Hend in Hrt.
  assert (Hfirst : exists p, demo_end.1 !! 0%nat = Some p /\ acquired p /\ party_id p = "kubeX-controller:default/p").
  { eexists. split; [vm_compute; reflexivity|]. split; by vm_compute. }
  destruct Hfirst as (p & Hp & Hacq & Hid).
  destruct (lease_exclusive_interleaved demo_key 15 demo_start.1 demo_start.2 demo_end.1 demo_end.2) with (p := p)
    as (l & Hl & Hh & _).
  - intros q Hq. apply elem_of_cons in Hq as [->|Hq]; [|apply list_elem_of_singleton in Hq as ->];
      eexists _, _; (split; [|reflexivity]); by split.
  - exact I.
  - exact Hrt.
  - vm_compute. discriminate.
  - by eapply list_elem_of_lookup_2.
  - exact Hacq.
  - exists l. by rewrite Hl, Hh, Hid.
Defined.

Definition demo_expired : Lease := mkLease (Some "gone") (Some 15%Z) (Some (- 60 * Second)%Z) (Some (- 60 * Second)%Z).
Lemma lease_race_witness :
  exists p1 p2 w', (forall dur, rtc (turn demo_key dur) (demo_start.1, set_leases (fun _ => {[demo_key := demo_expired]}) demo_policy_world) ([p1; p2], w')) /\
    acquired p1 /\ acquired p2 /\ party_id p1 <> party_id p2.
Proof.
  destruct (lease_race demo_key demo_reconciler (demo_policy "p") demo_reconciler (demo_policy "q") demo_expired
    (set_leases (fun _ => {[demo_key := demo_expired]}) demo_policy_world)) as (p1 & p2 & w' & l' & Hrt & _ & H1 & Hid1 & H2 & Hid2 & _);
    [done|discriminate|apply lookup_singleton_eq|discriminate|discriminate|by vm_compute|by vm_compute|].
  exists p1, p2, w'. split_and!; [exact Hrt|done|done|]. rewrite Hid1, Hid2. discriminate.
Defined.
