(* ===== verification/PolicyEvaluate.v ===== *)
(** * OptimizationPolicy controller: evaluation

    [defaultEvaluate] of internal/controller/optimizationpolicy_controller.go, run
    when the timer of a policy fires: the guard against two runs in a row, the
    improvement, the plan with its moves and scores, the threshold, and the writes.
    Events, log lines, metrics and the lock against concurrent evaluations of a
    policy are not modelled. *)

From S2P Require Import Prelude Float64 OptTypes OptErrors Plugins RawScores Energy Communication Objective Plan.
From S2P Require Import HumanReadable Ilp OrTools GoTime GoText ApiTypes KubeApi MemberClients Profiles.
From S2P Require Import PolicyInputs PolicyController.
From S2P Require PlanController.

Local Open Scope string_scope.
Local Open Scope list_scope.

Definition dedupWindow : Z := 60 * Second.

(** Evaluated less than the window ago. *)
Definition evaluated_recently (cur : OptimizationPolicy) (t : Z) : bool :=
  match LastEvaluationTime (OP_Status cur) with
  | None => false
  | Some last => (0 <=? t - last)%Z && (t - last <? dedupWindow)%Z
  end.

Definition set_evaluated (t : Z) (st : OptimizationPolicyStatus) : OptimizationPolicyStatus :=
  mkPolicyStatus (OP_Phase st) (ObservedDeployments st) (ObservedReplicas st) (CurrentLayout st) (StableCount st)
    (UnstableCount st) (UnstableReasonsCount st) (Some t) (LatestPlanRef st) (OP_Conditions st).
Definition set_result (ref : LocalObjectRef) (cs : list Condition) (st : OptimizationPolicyStatus)
    : OptimizationPolicyStatus :=
  mkPolicyStatus (OP_Phase st) (ObservedDeployments st) (ObservedReplicas st) (CurrentLayout st) (StableCount st)
    (UnstableCount st) (UnstableReasonsCount st) (LastEvaluationTime st) (Some ref) cs.
Definition set_conditions (cs : list Condition) (st : OptimizationPolicyStatus) : OptimizationPolicyStatus :=
  set_phase_conditions (OP_Phase st) cs st.

(** [errors.Is], [errors.As]: the optimizer's error inside a chain, and whether it is
    [context.DeadlineExceeded]. *)
Fixpoint optimizer_error (e : api_error) : option opt_error :=
  match e with
  | OptimizerError o => Some o
  | Wrapped _ e' => optimizer_error e'
  | _ => None
  end.
Fixpoint deadline_error {KUBE : KubeLib} (e : api_error) : bool :=
  match e with
  | OptimizerError (ErrPlain msg) => String.eqb msg "context deadline exceeded"
  | Wrapped _ e' => deadline_error e'
  | _ => request_timed_out e
  end.
Definition solver_disabled (e : api_error) : bool :=
  match optimizer_error e with Some ErrSolverNotImplemented => true | _ => false end.

Definition annImprovementPct : string := "kubex.io/debug-improvement-percent".

Section evaluate.
Context {KUBE : KubeLib} {DEC : ProfileDecoders} {ORDERS : LoopOrders} {SORT : GoSort} {FMT : GoFmt}
  {TEXT : PolicyTexts} {BACK : Backend}.
Context (r : PolicyReconciler).

Definition rebalance_condition (pol : OptimizationPolicy) (t : Z) (status reason msg : string) : Condition :=
  mkCondition "RebalanceSucceeded" status (Generation (OP_Meta pol)) (Some t) reason msg.

(** ** The improvement *)

(** The improvement and its source; a failure goes to the status and ends the
    evaluation. *)
Definition improvement (pol : OptimizationPolicy) (t : Z) : M (f64 * string) :=
  v ← attempt (computeImprovementPct r pol);
  match v with
  | Ok v => mret v
  | Err e =>
      if solver_disabled e then mret (fzero, "solver-disabled")
      else
        let '(reason, msg) := if deadline_error e then ("SolverTimeout", "solver timed out")
                              else ("SolverError", error_text e) in
        ignore (setStatusPhaseAndCondition pol (OP_Phase (OP_Status pol))
                  (rebalance_condition pol t "False" reason msg)) ≫= fun _ => throw e
  end.

(** The annotation replaces it. *)
Definition annotated_improvement (pol : OptimizationPolicy) (v : f64 * string) : f64 * string :=
  match Annotations (OP_Meta pol) !! annImprovementPct with
  | Some s => match ParseFloat (TrimSpace s) with Some p => (p, "annotation") | None => v end
  | None => v
  end.

(** ** The plan *)

Definition zero_summary (pol : OptimizationPolicy) : PlanSummary :=
  mkPlanSummary (Name (OP_Meta pol)) ∅ (Some fzero) (Some 0%Z) (Some fzero) (Some fzero).

Definition new_plan (pol : OptimizationPolicy) (suffix : string) (v : f64 * string) : ReOrchestrationPlan :=
  mkPlan
    (mkMeta (Name (OP_Meta pol) +:+ "-" +:+ suffix) (Namespace (OP_Meta pol)) "" 0
       {["kubex.io/policy" := Name (OP_Meta pol)]}
       (<["kubex.io/strategy" := Strategy (OP_Spec pol)]>
          (<[annImprovementPct := fmt_v v.1]> {["kubex.io/improvementPctSource" := v.2]}))
       [] None [mkOwner "OptimizationPolicy" (Name (OP_Meta pol)) (UID (OP_Meta pol)) (Some true)])
    (mkPlanSpec (zero_summary pol) []) empty_plan_status.

(** [getClusterName(clusterID)] and its cache. *)
Definition cluster_display_name (clusterID : string) (g : result api_error Cluster) : string :=
  match g with
  | Err _ => clusterID
  | Ok c =>
      let v := TrimSpace (default "" (Annotations (Cluster_Meta c) !! "kubex.io/name")) in
      if negb (str_empty v) then v
      else if negb (str_empty (Name (Cluster_Meta c))) then Name (Cluster_Meta c) else clusterID
  end.
Definition getClusterName (cache : gmap string string) (clusterID : string) : M (gmap string string * string) :=
  match cache !! clusterID with
  | Some n => mret (cache, n)
  | None =>
      g ← attempt (get_object w_clusters (R_ControlNamespace r, clusterID));
      let n := cluster_display_name clusterID g in
      mret (<[clusterID := n]> cache, n)
  end.

(** The loop over the stable replicas. *)
Definition plan_move (mv : PlanMoveLite) (srcName dstName : string) : PlanMove :=
  mkPlanMove (mkRef (RK_Name (Replica mv)) (RK_Namespace (Replica mv))) (ReplicaIndex (Replica mv))
    (mkLocation (ClusterID (Plan.Source mv)) srcName (NodeName (Plan.Source mv)))
    (mkLocation (ClusterID (Destination mv)) dstName (NodeName (Destination mv))).
Fixpoint plan_moves (cur exp : gmap ReplicaKey ClusterNodeID) (cache : gmap string string)
    (moves : list PlanMove) (replicas : list ReplicaKey) : M (list PlanMove) :=
  match replicas with
  | [] => mret moves
  | rk :: replicas' =>
      match move_of cur exp rk with
      | None => plan_moves cur exp cache moves replicas'
      | Some mv =>
          src ← getClusterName cache (ClusterID (Plan.Source mv));
          dst ← getClusterName src.1 (ClusterID (Destination mv));
          plan_moves cur exp dst.1 (moves ++ [plan_move mv src.2 dst.2]) replicas'
      end
  end.

(** ** Scores *)

Definition readable_summary (h : GoalHumanReadableMetric) : GoalHumanReadableSummary :=
  mkReadableSummary (Kind h) (Unit h) (From h) (To h) (Delta h) (default ∅ (Detail h)).

Definition goal_summary (i : OptimizerInputs) (assignment : gmap ReplicaKey ClusterNodeID) (g : WeightedGoal)
    : M GoalScoreSummary :=
  k ← loop_number;
  m2 ← optimizing (ComputePlanForSingleGoal (MAPS := loop_order k) 0 (objective_inputs i []) g assignment);
  k' ← loop_number;
  let hr := match ComputeHumanReadableMetric (MAPS := loop_order k') 0 (objective_inputs i []) g assignment with
            | Ok h => Some (readable_summary h)
            | Err _ => None
            end in
  mret (mkGoalSummary (Some (Weight g)) (Some (CurrentScore m2.1)) (Some (ExpectedScore m2.1))
          (Some (EstimatedImprovement m2.1)) hr).
Fixpoint goal_summaries (i : OptimizerInputs) (assignment : gmap ReplicaKey ClusterNodeID)
    (acc : gmap string GoalScoreSummary) (goals : list WeightedGoal) : M (gmap string GoalScoreSummary) :=
  match goals with
  | [] => mret acc
  | g :: goals' =>
      if feq (Weight g) fzero then goal_summaries i assignment acc goals'
      else s ← goal_summary i assignment g; goal_summaries i assignment (<[G_Type g := s]> acc) goals'
  end.

(** The summary, left as it is without goals. *)
Definition plan_summary (i : OptimizerInputs) (assignment : gmap ReplicaKey ClusterNodeID) (s : PlanSummary)
    : M PlanSummary :=
  match In_Goals i with
  | [] => mret s
  | goals =>
      k ← loop_number;
      pm ← optimizing (ComputePlanFromGoals (MAPS := loop_order k) 0 (objective_inputs i goals) assignment);
      scores ← goal_summaries i assignment ∅ goals;
      mret (mkPlanSummary (PolicyName s) scores (Some (EstimatedImprovement pm.1)) (Some (PodsToMove pm.1))
              (Some (CurrentScore pm.1)) (Some (ExpectedScore pm.1)))
  end.

(** The text of the TooManyVariables condition. *)
Definition too_many_text (vars limit : Z) : string :=
  "ILP 变量规模超限：variables=" +:+ pretty vars +:+ " limit=" +:+ pretty limit +:+
  "；请缩小目标范围（更少 replicas / nodes）或提升上限".

(** The assignment of the plan; [None] when the evaluation ends with its status
    written. *)
Definition plan_assignment (pol : OptimizationPolicy) (t : Z) (i : OptimizerInputs)
    : M (option (gmap ReplicaKey ClusterNodeID)) :=
  a ← attempt (solvePlacement r pol (problem_of i));
  match a with
  | Ok assignment => mret (Some assignment)
  | Err e =>
      match optimizer_error e with
      | Some (ErrTooManyVariables vars limit) =>
          let cond := rebalance_condition pol t "False" "TooManyVariables" (too_many_text vars limit) in
          update_policy_status (policy_key pol)
            (set_conditions (SetStatusCondition (OP_Conditions (OP_Status pol)) cond) (OP_Status pol)) ≫= fun _ =>
          mret None
      | Some ErrSolverNotImplemented => mret (Some (In_Placement i))
      | _ => throw e
      end
  end.

(** Moves and scores, if there are stable replicas. *)
Definition plan_spec (pol : OptimizationPolicy) (t : Z) : M (option ReOrchestrationPlanSpec) :=
  match stable_replicas (CurrentLayout (OP_Status pol)) with
  | [] => mret (Some (mkPlanSpec (zero_summary pol) []))
  | _ =>
      i ← gather r true pol;
      a ← plan_assignment pol t i;
      match a with
      | None => mret None
      | Some assignment =>
          moves ← plan_moves (In_Placement i) assignment ∅ [] (In_Stable i);
          summary ← plan_summary i assignment (zero_summary pol);
          mret (Some (mkPlanSpec summary moves))
      end
  end.

(** ** The threshold *)

(** [float64(pol.Spec.ImprovementThresholdPercent)]. *)
Definition below_threshold (pol : OptimizationPolicy) (pct : f64) : bool :=
  String.eqb (Strategy (OP_Spec pol)) OptimizationStrategyConservative &&
  flt pct (f64_of_Z (ImprovementThresholdPercent (OP_Spec pol))).

Definition not_executed_annotations (pol : OptimizationPolicy) (m : gmap string string) : gmap string string :=
  <["kubex.io/improvementThresholdPercent" := fmt_v (f64_of_Z (ImprovementThresholdPercent (OP_Spec pol)))]>
    (<["kubex.io/notExecutedReason" := "ImprovementBelowThreshold"]>
      (<["kubex.io/notExecuted" := "improvement below threshold"]> m)).
Definition not_executed_condition (pol : OptimizationPolicy) (t : Z) (pct : f64) : Condition :=
  mkCondition "NotExecuted" "True" 0 (Some t) "ImprovementBelowThreshold"
    ("NotExecuted: improvement below threshold (got " +:+ fmt_4g pct +:+ "%, threshold " +:+
     fmt_4g (f64_of_Z (ImprovementThresholdPercent (OP_Spec pol))) +:+ "%)").

Definition with_annotations (m : ObjectMeta) (a : gmap string string) : ObjectMeta :=
  mkMeta (Name m) (Namespace m) (UID m) (Generation m) (Labels m) a (Finalizers m) (DeletionTimestamp m)
    (OwnerReferences m).

(** The plan as it is created, and the conditions of its status. *)
Definition final_plan (pol : OptimizationPolicy) (t : Z) (pct : f64) (plan : ReOrchestrationPlan)
    (spec : ReOrchestrationPlanSpec) : ReOrchestrationPlan * list Condition :=
  if below_threshold pol pct
  then (mkPlan (with_annotations (Plan_Meta plan) (not_executed_annotations pol (Annotations (Plan_Meta plan)))) spec
          (Plan_Status plan),
        [not_executed_condition pol t pct])
  else (mkPlan (Plan_Meta plan) spec (Plan_Status plan), []).

(** ** The writes *)

Definition persist_plan (pol : OptimizationPolicy) (t : Z) (plan : ReOrchestrationPlan) (conds : list Condition)
    : M unit :=
  let key := (Namespace (Plan_Meta plan), Name (Plan_Meta plan)) in
  c ← attempt (create_plan plan);
  match c with
  | Err e => if negb (IsAlreadyExists e) then throw e else mret tt
  | Ok _ => mret tt
  end ≫= fun _ =>
  patch_new_plan_status key PlanPhasePending conds ≫= fun _ =>
  let cond := rebalance_condition pol t "True" "PlanCreated"
                ("created plan " +:+ Namespace (Plan_Meta plan) +:+ "/" +:+ Name (Plan_Meta plan)) in
  patch_policy_status (policy_key pol)
    (set_result (mkLocalRef (Name (Plan_Meta plan)) (Namespace (Plan_Meta plan)))
       (SetStatusCondition (OP_Conditions (OP_Status pol)) cond)).

(** An Active policy. *)
Definition evaluate_active (pol : OptimizationPolicy) (t : Z) : M unit :=
  v ← improvement pol t;
  let v := annotated_improvement pol v in
  k ← loop_number;
  let plan := new_plan pol (rand_String k) v in
  s ← plan_spec pol t;
  match s with
  | None => mret tt
  | Some spec =>
      let '(plan', conds) := final_plan pol t v.1 plan spec in
      persist_plan pol t plan' conds
  end.

(** [func (r) defaultEvaluate(ctx, key) error]. *)
Definition defaultEvaluate (key : Key) : M unit :=
  cur ← attempt (get_object w_policies key);
  t ← now;
  if match cur with Ok c => evaluated_recently c t | Err _ => false end then mret tt
  else
    g ← attempt (get_object w_policies key);
    match g with
    | Err e => ignore_not_found tt e
    | Ok pol0 =>
        ignore (patch_policy_status key (set_evaluated t)) ≫= fun _ =>
        let pol := with_policy_status pol0 (set_evaluated t (OP_Status pol0)) in
        if negb (String.eqb (OP_Phase (OP_Status pol)) OptimizationPolicyPhaseActive) then mret tt
        else evaluate_active pol t
    end.
End evaluate.

(** ** Backends *)

(** What the evaluation relies on: an assignment uses the candidate nodes only. *)
Class SoundBackend (BACK : Backend) : Prop := returns_candidates :
  forall maps ctx p res asg rk n, NewORToolsSolver maps ctx p = Ok (Some res) -> Assignment res = Some asg ->
    asg !! rk = Some n -> n ∈ CandidateNodes p.

(** The two builds of the solver. *)
#[export] Instance stub_backend : Backend | 100 :=
  {| NewORToolsSolver := fun _ => ORToolsSolver_stub; expired := fun _ => false |}.
#[export] Instance stub_sound : SoundBackend stub_backend.
Proof. by intros ???????. Qed.

Definition ortools_backend {SORT : GoSort} (ORT : OrTools) (late : nat -> bool) : Backend :=
  {| NewORToolsSolver := fun maps => ORToolsSolver_Solve (MAPS := maps) 0; expired := late |}.
#[export] Instance ortools_sound {SORT : GoSort} (ORT : OrTools) late : SoundBackend (ortools_backend ORT late).
Proof.
  intros maps ctx p res asg rk n Hok Hasg Hn. cbn in Hok. unfold ORToolsSolver_Solve in Hok.
  apply bind_Ok in Hok as (_ & _ & Hok). destruct (Nat.eqb_spec (length (StableReplicas p)) 0).
  { injection Hok as <-. injection Hasg as <-. by rewrite lookup_empty in Hn. }
  apply bind_Ok in Hok as (_ & _ & Hok). apply bind_Ok in Hok as (coeffs & _ & Hok).
  apply bind_Ok in Hok as (_ & _ & Hok). apply bind_Ok in Hok as ([s x] & _ & Hok). cbn [fst snd] in Hok.
  apply bind_Ok in Hok as (u & _ & Hok). apply bind_Ok in Hok as (asg' & Hdec & [= <-]).
  injection Hasg as <-. apply decode_spec in Hdec as [Hin Hdom].
  destruct (Hin rk) as (n' & Hch & Hn'); [by apply Hdom|]. rewrite Hn in Hn'. injection Hn' as <-.
  by apply chosen_node_Some in Hch as [? _].
Qed.

Lemma SolveProblem_candidates {FMT : GoFmt} {BACK : Backend} {SOUND : SoundBackend BACK} maps ctx p opts res asg rk n :
  SolveProblem ctx (Some (NewORToolsSolver maps)) p opts = Ok (Some res) -> Assignment res = Some asg ->
  asg !! rk = Some n -> n ∈ CandidateNodes p.
Proof.
  intros Hok Hasg Hn. unfold SolveProblem in Hok. apply bind_Ok in Hok as (_ & _ & Hok).
  destruct (length (StableReplicas p) =? 0)%nat.
  { injection Hok as <-. injection Hasg as <-. by rewrite lookup_empty in Hn. }
  cbn in Hok. destruct (NewORToolsSolver maps _ p) as [r|e] eqn:Hs; [|by destruct (str_contains _ _)].
  injection Hok as ->. by eapply returns_candidates.
Qed.

(** ** What a computation returns *)

(** [m] keeps [I], and a value it returns satisfies [P]. *)
Definition yields {A} (I : World -> Prop) (m : M A) (P : A -> Prop) : Prop :=
  hoare I m (fun res w => I w /\ match res with Ok a => P a | Err _ => True end).

Section yields.
Context {A B : Type} (I : World -> Prop).

Lemma yields_ret (a : A) (P : A -> Prop) : P a -> yields I (mret a) P.
Proof. by intros Ha w Hw. Qed.
Lemma yields_throw e (P : A -> Prop) : yields I (throw e) P.
Proof. by intros w Hw. Qed.
Lemma yields_bind (m : M A) (f : A -> M B) (P : A -> Prop) (Q : B -> Prop) :
  yields I m P -> (forall a, P a -> yields I (f a) Q) -> yields I (m ≫= f) Q.
Proof.
  intros Hm Hf w Hw. specialize (Hm w Hw). rewrite bind_run. destruct (m w) as [w' [a|e]]; cbn in Hm.
  - destruct Hm as [HI Ha]. exact (Hf a Ha w' HI).
  - exact Hm.
Qed.
Lemma yields_attempt (m : M A) (P : A -> Prop) :
  yields I m P -> yields I (attempt m) (fun res => match res with Ok a => P a | Err _ => True end).
Proof. intros Hm w Hw. specialize (Hm w Hw). unfold attempt. by destruct (m w) as [w' []]. Qed.
Lemma yields_weaken (m : M A) (P Q : A -> Prop) : yields I m P -> (forall a, P a -> Q a) -> yields I m Q.
Proof. intros Hm HPQ w Hw. destruct (Hm w Hw) as [HI HP]. split; [done|]. destruct (m w).2; auto. Qed.
End yields.

(** A computation that leaves a projection alone. *)
Lemma yields_quiet {A T} (proj : World -> T) (v : T) (m : M A) :
  preserves proj m -> yields (fun w => proj w = v) m (fun _ => True).
Proof. intros Hm w Hw. split; [by rewrite (Hm w)|by destruct (m w).2]. Qed.

Section sound.
Context {KUBE : KubeLib} {DEC : ProfileDecoders} {ORDERS : LoopOrders} {SORT : GoSort} {FMT : GoFmt}
  {TEXT : PolicyTexts} {BACK : Backend} {SOUND : SoundBackend BACK}.
Context (r : PolicyReconciler) (pol : OptimizationPolicy) (clusters : gmap Key Cluster).

Let layout := CurrentLayout (OP_Status pol).
Let I (w : World) : Prop := w_clusters w = clusters.

(** A node a replica may go to: ready, in a ready cluster; or, when no cluster has
    such a node, in the current placement. *)
Definition candidate (n : ClusterNodeID) : Prop :=
  (exists k c, clusters !! k = Some c /\ n ∈ ready_nodes_of c) \/
  ((forall k c, clusters !! k = Some c -> ready_nodes_of c = []) /\ exists rk, stable_placement layout !! rk = Some n).

Lemma placement_nodes_in k placement n : n ∈ placement_nodes k placement -> exists rk, placement !! rk = Some n.
Proof.
  intros Hn. unfold placement_nodes in Hn. apply list_elem_of_fmap in Hn as ([n' []] & -> & Hn).
  apply elem_of_range_loop in Hn. cbn in Hn. revert Hn.
  assert (forall e, e ∈ range_loop k 0 placement -> exists rk, placement !! rk = Some e.2) as Hl.
  { intros e He. apply elem_of_range_loop in He. by exists e.1. }
  revert Hl. generalize (range_loop k 0 placement). intros l Hl.
  induction l as [|e l IH] using rev_ind; [cbn; by rewrite lookup_empty|].
  rewrite foldl_app. cbn. destruct (decide (e.2 = n')) as [<-|Hne].
  - intros _. apply Hl, elem_of_app. right. apply list_elem_of_here.
  - rewrite lookup_insert_ne by done. apply IH. intros e' He'. apply Hl, elem_of_app. by left.
Qed.

Lemma yields_candidates : yields I (candidate_nodes (stable_placement layout)) (fun l => forall n, n ∈ l -> candidate n).
Proof.
  unfold candidate_nodes. eapply yields_bind with (P := fun cs => cs ≡ₚ (map_to_list clusters).*2).
  { intros w Hw. unfold list_objects.
    destruct (request_fault (fun w => (w, Ok (list_order (w_requests w) (filter (fun _ => true = true) (w_clusters w))))) w)
      as [(e & Hf & ->)| ->]; (split; [done|]); [done|]. cbn. rewrite list_order_perm.
    rewrite map_filter_id by done. by rewrite Hw. }
  intros cs Hcs.
  assert (forall c, c ∈ cs <-> exists k, clusters !! k = Some c) as Hin.
  { intros c. rewrite Hcs, list_elem_of_fmap. split.
    - intros ([k c'] & -> & Hk%elem_of_map_to_list). by exists k.
    - intros [k Hk]. exists (k, c). by rewrite elem_of_map_to_list. }
  assert (forall n, n ∈ ready_nodes cs <-> exists k c, clusters !! k = Some c /\ n ∈ ready_nodes_of c) as Hready.
  { intros n. unfold ready_nodes. rewrite list_elem_of_In, in_concat. setoid_rewrite <- list_elem_of_In. setoid_rewrite list_elem_of_fmap. split.
    - intros (l & (c & -> & Hc) & Hn). apply Hin in Hc as [k Hk]. by exists k, c.
    - intros (k & c & Hk & Hn). exists (ready_nodes_of c). split; [|done]. exists c. split; [done|]. apply Hin. by exists k. }
  destruct (ready_nodes cs) as [|n0 l0] eqn:Hnodes.
  - apply (yields_bind I _ _ (fun _ => True)).
    { intros w Hw. by split. }
    intros k _. apply yields_ret. intros n Hn. right. split; [|by apply placement_nodes_in in Hn].
    intros k' c Hk. destruct (ready_nodes_of c) as [|n' l'] eqn:Hr; [done|]. exfalso.
    assert (n' ∈ []) as H; [|by apply elem_of_nil in H]. apply Hready. exists k', c. split; [done|].
    rewrite Hr. apply list_elem_of_here.
  - apply yields_ret. intros n Hn. left. by apply Hready.
Qed.

Lemma quiet_clusters {A} (m : M A) : preserves w_clusters m -> yields I m (fun _ => True).
Proof. apply yields_quiet. Qed.

Lemma yields_gather b : yields I (gather r b pol)
  (fun i => In_Stable i = stable_replicas layout /\ In_Placement i = stable_placement layout /\
            forall n, n ∈ In_Candidates i -> candidate n).
Proof.
  unfold gather. eapply yields_bind; [apply yields_candidates|]. intros cs Hcs.
  eapply yields_bind; [apply quiet_clusters, quiet_contexts; done|]. intros nodes _.
  eapply yields_bind; [apply quiet_clusters, quiet_selected; done|]. intros gds _.
  eapply yields_bind; [apply quiet_clusters, quiet_profiles; done|]. intros profiles _.
  eapply yields_bind; [apply quiet_clusters, quiet_comm; done|]. intros comm _.
  by apply yields_ret.
Qed.

(** An assignment moves replicas to candidates only. *)
Definition goes_to_candidates (asg : gmap ReplicaKey ClusterNodeID) : Prop :=
  forall rk n, asg !! rk = Some n -> candidate n \/ stable_placement layout !! rk = Some n.

Lemma yields_solve p : (forall n, n ∈ CandidateNodes p -> candidate n) ->
  yields I (solvePlacement r pol p) goes_to_candidates.
Proof.
  intros Hp. unfold solvePlacement. eapply yields_bind with (P := fun _ => True); [by intros w Hw|]. intros k _. cbv zeta.
  destruct (SolveProblem _ _ p _) as [[res|]|e] eqn:Hs.
  - apply yields_ret. intros rk n Hn. left. apply Hp.
    destruct (Assignment res) as [asg|] eqn:Hasg; cbn in Hn; [|by rewrite lookup_empty in Hn].
    exact (SolveProblem_candidates _ _ _ _ _ _ _ _ Hs Hasg Hn).
  - apply yields_ret. intros rk n Hn. by rewrite lookup_empty in Hn.
  - destruct e; try apply yields_throw. apply yields_ret. intros rk n Hn. by right.
Qed.

Lemma yields_assignment t i :
  In_Placement i = stable_placement layout -> (forall n, n ∈ In_Candidates i -> candidate n) ->
  yields I (plan_assignment r pol t i) (fun a => match a with Some asg => goes_to_candidates asg | None => True end).
Proof.
  intros Hpl Hc. unfold plan_assignment. eapply yields_bind; [apply yields_attempt, yields_solve, Hc|].
  intros [asg|e] Hasg; [by apply yields_ret|].
  destruct (optimizer_error e) as [[]|]; try apply yields_throw.
  - eapply yields_bind; [apply quiet_clusters, preserves_patch_policy_status; done|]. intros. by apply yields_ret.
  - apply yields_ret. rewrite Hpl. intros rk n Hn. by right.
Qed.

(** A move of a plan: of a stable replica, from where it is to a candidate that is
    not where it is. *)
Definition sound_move (mv : PlanMove) : Prop :=
  exists rk src dst,
    rk ∈ stable_replicas layout /\ stable_placement layout !! rk = Some src /\ candidate dst /\ src <> dst /\
    PM_GlobalDeploymentRef mv = mkRef (RK_Name rk) (RK_Namespace rk) /\ PM_ReplicaIndex mv = ReplicaIndex rk /\
    Loc_ClusterID (PM_Source mv) = ClusterID src /\ Loc_NodeName (PM_Source mv) = NodeName src /\
    Loc_ClusterID (PM_Destination mv) = ClusterID dst /\ Loc_NodeName (PM_Destination mv) = NodeName dst.

(** The replica of a move; the moves of a plan, at most one for each stable replica. *)
Definition move_replica (mv : PlanMove) : ReplicaKey :=
  mkReplica (Ref_Namespace (PM_GlobalDeploymentRef mv)) (Ref_Name (PM_GlobalDeploymentRef mv)) (PM_ReplicaIndex mv).
Definition sound_moves (moves : list PlanMove) : Prop :=
  Forall sound_move moves /\ move_replica <$> moves `sublist_of` stable_replicas layout.

Lemma quiet_name {T} (proj : World -> T) cache id :
  (forall w, proj (tick w) = proj w) -> preserves proj (getClusterName r cache id).
Proof. intros. unfold getClusterName. quiet. Qed.

Lemma yields_moves asg replicas : goes_to_candidates asg ->
  forall cache moves, Forall sound_move moves -> (move_replica <$> moves) ++ replicas `sublist_of` stable_replicas layout ->
  yields I (plan_moves r (stable_placement layout) asg cache moves replicas) sound_moves.
Proof.
  intros Hasg. induction replicas as [|rk replicas IH]; intros cache moves Hmoves Hsub.
  { apply yields_ret. rewrite app_nil_r in Hsub. by split. }
  cbn. assert (rk ∈ stable_replicas layout) as Hrk.
  { eapply elem_of_sublist; [|exact Hsub]. apply elem_of_app. right. apply list_elem_of_here. }
  destruct (move_of _ asg rk) as [mv|] eqn:Hmv.
  2: { apply IH; [done|]. etrans; [|exact Hsub]. apply sublist_app; [done|]. by apply sublist_cons. }
  unfold move_of in Hmv. destruct (stable_placement layout !! rk) as [src|] eqn:Hsrc; [|done].
  destruct (asg !! rk) as [dst|] eqn:Hdst; [|done]. case_bool_decide as Hne; [|done]. injection Hmv as <-.
  eapply yields_bind; [by apply quiet_clusters, quiet_name|]. intros srcName _.
  eapply yields_bind; [by apply quiet_clusters, quiet_name|]. intros dstName _.
  apply IH.
  - apply Forall_app. split; [done|]. apply Forall_singleton. exists rk, src, dst.
    split_and!; try done. destruct (Hasg rk dst Hdst) as [?|Hsame]; [done|congruence].
  - rewrite fmap_app, <- app_assoc. cbn. by destruct rk.
Qed.

Lemma quiet_summaries {T} (proj : World -> T) i asg acc goals :
  (forall w, proj (tick w) = proj w) -> preserves proj (goal_summaries i asg acc goals).
Proof.
  intros Ht. revert acc. induction goals as [|g goals IH]; intros acc; cbn; [apply preserves_ret|].
  destruct (feq _ _); [done|]. apply preserves_bind; [|done]. unfold goal_summary. quiet. apply quiet_optimizing.
Qed.
Lemma quiet_summary {T} (proj : World -> T) i asg s :
  (forall w, proj (tick w) = proj w) -> preserves proj (plan_summary i asg s).
Proof. intros. unfold plan_summary. quiet; auto using quiet_optimizing, quiet_summaries. Qed.

Lemma yields_plan_spec t : yields I (plan_spec r pol t)
  (fun s => match s with Some spec => sound_moves (Moves spec) | None => True end).
Proof.
  unfold plan_spec. destruct (stable_replicas _) as [|rk0 rks] eqn:Hst.
  { apply yields_ret. split; [by apply Forall_nil|apply sublist_nil_l]. }
  eapply yields_bind; [apply yields_gather|]. intros i (Hs & Hp & Hc). cbn beta.
  eapply yields_bind; [by apply yields_assignment|]. intros [asg|] Hasg; [|by apply yields_ret].
  eapply yields_bind.
  { rewrite Hp, Hs. apply (yields_moves asg (stable_replicas layout) Hasg); [by apply Forall_nil|done]. }
  intros moves Hmoves. eapply yields_bind; [by apply quiet_clusters, quiet_summary|]. intros summary _.
  by apply yields_ret.
Qed.
End sound.

(** ** What an evaluation leaves alone until it writes *)

Section quiet.
Context {KUBE : KubeLib} {DEC : ProfileDecoders} {ORDERS : LoopOrders} {SORT : GoSort} {FMT : GoFmt}
  {TEXT : PolicyTexts} {BACK : Backend}.
Context (r : PolicyReconciler) {T : Type} (proj : World -> T).
Hypothesis Htick : forall w, proj (tick w) = proj w.
Hypothesis Hpolicy : forall f w, proj (set_policy f w) = proj w.
Hypothesis Hread : forall w, proj (set_members (fun m => m) w) = proj w.

Let Hpolicies f w : proj (set_policies f w) = proj w := Hpolicy _ w.
Let Hlease l w : proj (set_leases <[lease_key r := l]> w) = proj w := Hpolicy _ w.
Let Htimers f w : proj (set_timers f w) = proj w := Hpolicy _ w.

Lemma quiet_improved pol t : preserves proj (improvement r pol t).
Proof.
  unfold improvement. quiet.
  - apply quiet_improvement; [exact Htick|intros; apply Hpolicy|exact Hread].
  - by apply quiet_setStatus.
Qed.
Lemma quiet_assignment pol t i : preserves proj (plan_assignment r pol t i).
Proof. unfold plan_assignment, update_policy_status. quiet; auto using quiet_solve. Qed.
Lemma quiet_moves cur asg replicas : forall cache moves, preserves proj (plan_moves r cur asg cache moves replicas).
Proof.
  induction replicas as [|rk replicas IH]; intros cache moves; cbn; [apply preserves_ret|].
  destruct (move_of cur asg rk); [|done]. quiet; auto using quiet_name.
Qed.
Lemma quiet_plan_spec pol t : preserves proj (plan_spec r pol t).
Proof.
  unfold plan_spec. quiet; auto using quiet_assignment, quiet_moves, quiet_summary.
  apply quiet_gather; [exact Htick|intros; apply Hpolicy|exact Hread].
Qed.
End quiet.

(** ** The plan that is written *)

Definition new_plan_key (pol : OptimizationPolicy) (suffix : string) : Key :=
  (Namespace (OP_Meta pol), Name (OP_Meta pol) +:+ "-" +:+ suffix).

(** The object behind the name of the plan: the plan itself, without or with its
    status; or one that was there, whose status is overwritten. *)
Definition written_plan {KUBE : KubeLib} (old : option ReOrchestrationPlan) (plan : ReOrchestrationPlan) (conds : list Condition)
    (p : ReOrchestrationPlan) : Prop :=
  match old with
  | Some o => p = mkPlan (Plan_Meta o) (Plan_Spec o) (merge_plan_status PlanPhasePending conds (Plan_Status o))
  | None => (exists uid, Plan_Meta p = created_meta uid (Plan_Meta plan)) /\ Plan_Spec p = Plan_Spec plan /\
      (Plan_Status p = empty_plan_status /\ faulty \/ Plan_Status p = merge_plan_status PlanPhasePending conds empty_plan_status)
  end.

Section written.
Context {KUBE : KubeLib} {DEC : ProfileDecoders} {ORDERS : LoopOrders} {SORT : GoSort} {FMT : GoFmt}
  {TEXT : PolicyTexts} {BACK : Backend}.
Context (r : PolicyReconciler).

Lemma create_plan_run p w :
  let key := (Namespace (Plan_Meta p), Name (Plan_Meta p)) in
  match create_plan p w with
  | (w', Ok _) => w_plans w !! key = None /\ exists uid,
      w' = set_plans <[key := mkPlan (created_meta uid (Plan_Meta p)) (Plan_Spec p) empty_plan_status]> (tick w)
  | (w', Err e) => w' = tick w
  end.
Proof.
  unfold create_plan, request. destruct (fault _); [done|].
  destruct (w_plans (tick w) !! _) as [o|] eqn:Hk; [done|]. split; [exact Hk|]. by eexists.
Qed.

Lemma patch_new_plan_run k phase conds w :
  match patch_new_plan_status k phase conds w with
  | (w', Ok _) => exists o, w_plans w !! k = Some o /\
      w' = set_plans <[k := mkPlan (Plan_Meta o) (Plan_Spec o) (merge_plan_status phase conds (Plan_Status o))]> (tick w)
  | (w', Err e) => w' = tick w /\ (w_plans w !! k = None \/ faulty)
  end.
Proof.
  unfold patch_new_plan_status, request. destruct (fault _) eqn:Hf; [split; [done|right; by eapply faulty_at]|].
  change (w_plans (tick w)) with (w_plans w). destruct (w_plans w !! k) as [o|] eqn:Hk; [by exists o|]. split; [done|by left].
Qed.

Lemma persist_plan_outcome pol t plan conds w :
  let key := (Namespace (Plan_Meta plan), Name (Plan_Meta plan)) in
  let w' := (persist_plan pol t plan conds w).1 in
  w_plans w' = w_plans w \/
  exists p, w_plans w' = <[key := p]> (w_plans w) /\ written_plan (w_plans w !! key) plan conds p.
Proof.
  cbv zeta. unfold persist_plan. set (key := (Namespace _, Name _)).
  set (finish := patch_policy_status _ _).
  assert (preserves w_plans finish) as Hfin by (by apply preserves_patch_policy_status).
  rewrite bind_run. pose proof (create_plan_run plan w) as Hc. fold key in Hc.
  unfold attempt. destruct (create_plan plan w) as [w1 [u|e]].
  - destruct Hc as (Hnone & uid & ->). rewrite bind_run. cbn [mret M_ret]. rewrite bind_run.
    set (w1 := set_plans _ _). pose proof (patch_new_plan_run key PlanPhasePending conds w1) as Hp.
    assert (w_plans w1 = <[key := mkPlan (created_meta uid (Plan_Meta plan)) (Plan_Spec plan) empty_plan_status]> (w_plans w))
      as Hw1 by done.
    destruct (patch_new_plan_status key _ conds w1) as [w2 [u2|e]]; right.
    + destruct Hp as (o & Ho & ->). rewrite (Hfin _). rewrite Hw1, lookup_insert_eq in Ho. injection Ho as <-.
      cbn [w_plans set_plans tick]. rewrite Hw1, insert_insert_eq. eexists. split; [done|]. rewrite Hnone.
      cbn. split; [by exists uid|]. split; [done|by right].
    + cbn. destruct Hp as [-> Hp]. cbn [w_plans tick]. rewrite Hw1. eexists. split; [done|]. rewrite Hnone.
      cbn. split; [by exists uid|]. split; [done|left]. split; [done|]. destruct Hp as [Hp|Hp]; [|done].
      by rewrite Hw1, lookup_insert_eq in Hp.
  - rewrite Hc. destruct (IsAlreadyExists e) eqn:He; rewrite bind_run; cbn; [|by left]. rewrite bind_run.
    pose proof (patch_new_plan_run key PlanPhasePending conds (tick w)) as Hp.
    destruct (patch_new_plan_status key _ conds (tick w)) as [w2 [u2|e2]]; [|left; by cbn; destruct Hp as [-> _]].
    destruct Hp as (o & Ho & ->). right. rewrite (Hfin _). eexists. split; [done|].
    rewrite (Ho : w_plans w !! key = Some o). done.
Qed.
End written.

(** The suffix the evaluation of an Active policy draws, and the name of its plan. *)
Definition drawn_suffix {KUBE : KubeLib} {DEC : ProfileDecoders} {ORDERS : LoopOrders} {SORT : GoSort}
    {FMT : GoFmt} {TEXT : PolicyTexts} {BACK : Backend} r pol t w : string :=
  rand_String (w_requests (improvement r pol t w).1).
Definition drawn_plan {KUBE : KubeLib} {DEC : ProfileDecoders} {ORDERS : LoopOrders} {SORT : GoSort}
    {FMT : GoFmt} {TEXT : PolicyTexts} {BACK : Backend} r key w : option Key :=
  pol ← w_policies w !! key;
  let t := w_clock w in
  let pol' := with_policy_status pol (set_evaluated t (OP_Status pol)) in
  Some (new_plan_key pol' (drawn_suffix r pol' t (patch_policy_status key (set_evaluated t) (tick (tick w))).1)).

Lemma evaluate_active_outcome {KUBE : KubeLib} {DEC : ProfileDecoders} {ORDERS : LoopOrders} {SORT : GoSort}
    {FMT : GoFmt} {TEXT : PolicyTexts} {BACK : Backend} {SOUND : SoundBackend BACK} r pol t w :
  let w' := (evaluate_active r pol t w).1 in
  let suffix := drawn_suffix r pol t w in
  w_plans w' = w_plans w \/
  exists v spec p,
    sound_moves pol (w_clusters w) (Moves spec) /\
    w_plans w' = <[new_plan_key pol suffix := p]> (w_plans w) /\
    let '(plan, conds) := final_plan pol t v.1 (new_plan pol suffix v) spec in
    written_plan (w_plans w !! new_plan_key pol suffix) plan conds p.
Proof.
  cbv zeta. unfold evaluate_active, drawn_suffix. rewrite bind_run.
  pose proof (quiet_improved r w_plans ltac:(done) ltac:(done) ltac:(done) pol t w) as Hp.
  pose proof (quiet_improved r w_clusters ltac:(done) ltac:(done) ltac:(done) pol t w) as Hc.
  destruct (improvement r pol t w) as [w1 [v|e]]; cbn [fst] in Hp, Hc; [|by left].
  rewrite bind_run. cbn [loop_number fst]. set (v' := annotated_improvement pol v). set (suffix := rand_String _).
  rewrite bind_run.
  pose proof (quiet_plan_spec r w_plans ltac:(done) ltac:(done) ltac:(done) pol t (tick w1)) as Hp2.
  pose proof (yields_plan_spec r pol (w_clusters w) t (tick w1) Hc) as [_ Hmoves].
  destruct (plan_spec r pol t (tick w1)) as [w2 [[spec|]|e]]; cbn [fst snd] in Hp2, Hmoves; [|left|left].
  2, 3: by etrans; [exact Hp2|exact Hp].
  destruct (final_plan pol t v'.1 (new_plan pol suffix v') spec) as [plan conds] eqn:Hfin.
  assert ((Namespace (Plan_Meta plan), Name (Plan_Meta plan)) = new_plan_key pol suffix) as Hkey.
  { unfold final_plan in Hfin. by destruct (below_threshold _ _); injection Hfin as <- <-. }
  pose proof (persist_plan_outcome pol t plan conds w2) as H. cbv zeta in H. rewrite Hkey in H.
  assert (w_plans w2 = w_plans w) as Hw2 by (etrans; [exact Hp2|exact Hp]). rewrite Hw2 in H.
  destruct H as [H|(p & H & Hw)]; [by left|]. right. exists v', spec, p. rewrite Hfin. done.
Qed.

(** A run writes no plan, or goes on with an Active policy. *)
Lemma defaultEvaluate_cases {KUBE : KubeLib} {DEC : ProfileDecoders} {ORDERS : LoopOrders} {SORT : GoSort}
    {FMT : GoFmt} {TEXT : PolicyTexts} {BACK : Backend} r key w :
  w_plans (defaultEvaluate r key w).1 = w_plans w \/
  exists pol, w_policies w !! key = Some pol /\ OP_Phase (OP_Status pol) = OptimizationPolicyPhaseActive /\
    defaultEvaluate r key w =
      evaluate_active r (with_policy_status pol (set_evaluated (w_clock w) (OP_Status pol))) (w_clock w)
        (patch_policy_status key (set_evaluated (w_clock w)) (tick (tick w))).1.
Proof.
  remember (defaultEvaluate r key w) as out eqn:Hout. unfold defaultEvaluate in Hout.
  rewrite bind_run in Hout. unfold attempt at 1 in Hout.
  pose proof (get_object_result w_policies key w eq_refl) as H1.
  destruct (get_object _ _ w) as [w1 cur]. assert (w1 = tick w) as -> by (by destruct cur, H1).
  rewrite bind_run in Hout. cbn [now] in Hout.
  destruct (match cur with Ok c => _ | Err _ => _ end); [left; by rewrite Hout|]. rewrite bind_run in Hout.
  unfold attempt in Hout. pose proof (get_object_result w_policies key (tick w) eq_refl) as H.
  destruct (get_object _ _ (tick w)) as [w1 [pol0|e]]; destruct H as [-> H].
  2: { left. rewrite Hout. unfold ignore_not_found. by destruct (IsNotFound e). }
  rewrite bind_run in Hout. unfold ignore in Hout. cbn [OP_Status OP_Phase with_policy_status set_evaluated] in Hout.
  destruct (String.eqb_spec (OP_Phase (OP_Status pol0)) OptimizationPolicyPhaseActive) as [Hact|Hact]; cbn [negb] in Hout.
  - right. exists pol0. by split.
  - left. rewrite Hout. cbn. by rewrite (preserves_patch_policy_status w_plans ltac:(done) key _ ltac:(done) _).
Qed.

(** Plans apart, an evaluation writes policies only. *)
Lemma preserves_evaluation {KUBE : KubeLib} {DEC : ProfileDecoders} {ORDERS : LoopOrders} {SORT : GoSort}
    {FMT : GoFmt} {TEXT : PolicyTexts} {BACK : Backend} {T} r (proj : World -> T) key :
  (forall w, proj (tick w) = proj w) -> (forall f w, proj (set_policy f w) = proj w) ->
  (forall w, proj (set_members (fun m => m) w) = proj w) -> (forall f w, proj (set_plans f w) = proj w) ->
  preserves proj (defaultEvaluate r key).
Proof.
  intros Htick Hpolicy Hread Hplans. assert (Hpolicies : forall f w, proj (set_policies f w) = proj w) by (intros; apply Hpolicy).
  unfold defaultEvaluate, evaluate_active, persist_plan. quiet.
  - by apply quiet_improved.
  - by apply quiet_plan_spec.
Qed.

(** What an evaluation does to the plans, and the name it draws. *)
Lemma evaluation_effect {KUBE : KubeLib} {DEC : ProfileDecoders} {ORDERS : LoopOrders} {SORT : GoSort}
    {FMT : GoFmt} {TEXT : PolicyTexts} {BACK : Backend} {SOUND : SoundBackend BACK} r key w :
  let w' := (defaultEvaluate r key w).1 in
  w_plans w' = w_plans w \/
  exists k plan conds p, drawn_plan r key w = Some k /\ (Namespace (Plan_Meta plan), Name (Plan_Meta plan)) = k /\
    w_plans w' = <[k := p]> (w_plans w) /\ written_plan (w_plans w !! k) plan conds p.
Proof.
  cbv zeta. destruct (defaultEvaluate_cases r key w) as [H|(pol & Hpol & Hact & ->)]; [by left|].
  unfold drawn_plan. rewrite Hpol. cbn [mbind option_bind]. cbv zeta.
  set (w2 := (patch_policy_status _ _ _).1). set (pol' := with_policy_status _ _).
  assert (w_plans w2 = w_plans w) as Hp
    by (unfold w2; rewrite (preserves_patch_policy_status w_plans ltac:(done) key _ ltac:(done) _); done).
  destruct (evaluate_active_outcome r pol' (w_clock w) w2) as [H|(v & spec & p & _ & Hw & Hwr)]; rewrite Hp in *; [by left|].
  right. destruct (final_plan _ _ _ _ _) as [plan conds] eqn:Hfin. eexists _, plan, conds, p.
  split; [done|]. split; [|by split].
  unfold final_plan in Hfin. by destruct (below_threshold _ _); injection Hfin as <- _.
Qed.

(** What a plan is that an evaluation stores: the policy controls it, nothing keeps it
    from going, and it waits for its execution with nothing started; when the request for
    its phase fails, it is left without one. *)
Record fresh_plan {KUBE : KubeLib} (pol : OptimizationPolicy) (clusters : gmap Key Cluster) (p : ReOrchestrationPlan) : Prop := {
  fresh_owner : OwnerReferences (Plan_Meta p) =
    [mkOwner "OptimizationPolicy" (Name (OP_Meta pol)) (UID (OP_Meta pol)) (Some true)];
  fresh_label : Labels (Plan_Meta p) = {["kubex.io/policy" := Name (OP_Meta pol)]};
  fresh_life : Finalizers (Plan_Meta p) = [] /\ DeletionTimestamp (Plan_Meta p) = None;
  fresh_moves : sound_moves pol clusters (Moves (Plan_Spec p));
  fresh_phase : Plan_Phase (Plan_Status p) = "Pending" \/ Plan_Phase (Plan_Status p) = "" /\ faulty;
  fresh_status : MoveStatuses (Plan_Status p) = [] /\ StartTime (Plan_Status p) = None /\ CompletionTime (Plan_Status p) = None
}.

(** A plan that is stored under the drawn name: it is taken for the new one. *)
Definition taken_over (o p : ReOrchestrationPlan) : Prop :=
  Plan_Meta p = Plan_Meta o /\ Plan_Spec p = Plan_Spec o /\ Plan_Phase (Plan_Status p) = "Pending" /\
  MoveStatuses (Plan_Status p) = MoveStatuses (Plan_Status o).

Lemma written_plan_shape {KUBE : KubeLib} {FMT : GoFmt} {TEXT : PolicyTexts} pol clusters suffix t v spec old p :
  sound_moves pol clusters (Moves spec) ->
  (let '(plan, conds) := final_plan pol t v.1 (new_plan pol suffix v) spec in written_plan old plan conds p) ->
  match old with Some o => taken_over o p | None => fresh_plan pol clusters p end.
Proof.
  intros Hm Hw. destruct (final_plan _ _ _ _ _) as [plan conds] eqn:Hfin. unfold written_plan in Hw.
  destruct old as [o|]; [by rewrite Hw|]. destruct Hw as ([uid Hmeta] & Hspec & Hst).
  assert (Hshape : OwnerReferences (Plan_Meta plan) = OwnerReferences (Plan_Meta (new_plan pol suffix v)) /\
    Labels (Plan_Meta plan) = Labels (Plan_Meta (new_plan pol suffix v)) /\ Finalizers (Plan_Meta plan) = [] /\
    DeletionTimestamp (Plan_Meta plan) = None /\ Plan_Spec plan = spec).
  { unfold final_plan in Hfin. by destruct (below_threshold _ _); injection Hfin as <- _. }
  destruct Hshape as (Ho & Hl & Hf & Hd & Hs). split; rewrite ?Hmeta; cbn; rewrite ?Ho, ?Hl, ?Hspec, ?Hs; try done.
  - destruct Hst as [[-> Hfaulty]| ->]; [by right|by left].
  - by destruct Hst as [[-> _]| ->].
Qed.


(** ** One evaluation in a minute *)

Section once.
Context {KUBE : KubeLib} {DEC : ProfileDecoders} {ORDERS : LoopOrders} {SORT : GoSort} {FMT : GoFmt}
  {TEXT : PolicyTexts} {BACK : Backend}.
Context (r : PolicyReconciler) (key : Key) (t : Z).

(** The stored policy was evaluated at [t]. *)
Definition evaluated_at (w : World) : Prop :=
  exists p, w_policies w !! key = Some p /\ LastEvaluationTime (OP_Status p) = Some t.

Lemma keeps_evaluated_quiet {A} (m : M A) : preserves w_policies m -> keeps evaluated_at m.
Proof. intros Hm w (p & Hp & Ht). exists p. by rewrite (Hm w). Qed.

Lemma keeps_evaluated_patch k f :
  (forall st, LastEvaluationTime st = Some t -> LastEvaluationTime (f st) = Some t) ->
  keeps evaluated_at (patch_policy_status k f).
Proof.
  intros Hf w (p & Hp & Ht). pose proof (patch_policy_status_run k f w) as H.
  destruct (patch_policy_status k f w) as [w' [u|e]]; cbn; [|destruct H as [-> _]; by exists p].
  destruct H as (old & Hold & ->). unfold evaluated_at, w_policies, set_policies, set_policy. cbn.
  destruct (decide (k = key)) as [->|Hne].
  - rewrite lookup_insert_eq. eexists. split; [done|]. cbn. apply Hf. rewrite Hold in Hp. by injection Hp as ->.
  - rewrite lookup_insert_ne by done. by exists p.
Qed.

Lemma keeps_evaluated_improvement pol : keeps evaluated_at (improvement r pol t).
Proof.
  unfold improvement. apply keeps_bind.
  { apply keeps_evaluated_quiet, preserves_attempt, quiet_improvement; done. }
  intros [v|e]; [apply keeps_ret|]. destruct (solver_disabled e); [apply keeps_ret|].
  destruct (if deadline_error e then _ else _) as [reason msg].
  apply keeps_bind; [|intros; apply keeps_throw]. apply keeps_ignore. unfold setStatusPhaseAndCondition.
  destruct (_ || _); [|apply keeps_ret]. unfold write_policy.
  apply keeps_bind; [by apply keeps_evaluated_patch|intros; apply keeps_ret].
Qed.

Lemma keeps_evaluated_spec pol : LastEvaluationTime (OP_Status pol) = Some t -> keeps evaluated_at (plan_spec r pol t).
Proof.
  intros Ht. unfold plan_spec. destruct (stable_replicas _); [apply keeps_ret|].
  apply keeps_bind; [by apply keeps_evaluated_quiet, quiet_gather|]. intros i. apply keeps_bind.
  { unfold plan_assignment. apply keeps_bind; [by apply keeps_evaluated_quiet, preserves_attempt, quiet_solve|].
    intros [a|e]; [apply keeps_ret|]. destruct (optimizer_error e) as [[]|]; try apply keeps_throw; try apply keeps_ret.
    apply keeps_bind; [by apply keeps_evaluated_patch|intros; apply keeps_ret]. }
  intros [asg|]; [|apply keeps_ret].
  apply keeps_bind; [by apply keeps_evaluated_quiet, quiet_moves|]. intros moves.
  apply keeps_bind; [by apply keeps_evaluated_quiet, quiet_summary|]. intros. apply keeps_ret.
Qed.

Lemma keeps_evaluated_active pol : LastEvaluationTime (OP_Status pol) = Some t -> keeps evaluated_at (evaluate_active r pol t).
Proof.
  intros Ht. unfold evaluate_active. apply keeps_bind; [apply keeps_evaluated_improvement|]. intros v.
  apply keeps_bind; [by apply keeps_evaluated_quiet|]. intros k. apply keeps_bind; [by apply keeps_evaluated_spec|].
  intros [spec|]; [|apply keeps_ret]. destruct (final_plan _ _ _ _ _) as [plan conds]. unfold persist_plan.
  apply keeps_bind; [by apply keeps_evaluated_quiet, preserves_attempt, preserves_create_plan|]. intros c.
  apply keeps_bind; [destruct c as [|e]; [|destruct (IsAlreadyExists e)]; by intros w|]. intros [].
  apply keeps_bind; [by apply keeps_evaluated_quiet, preserves_patch_new_plan_status|]. intros [].
  by apply keeps_evaluated_patch.
Qed.
End once.

(** Within a minute of an evaluation, evaluating the policy again does nothing
    but read it, if no request fails: two triggers in a row make one plan. *)
Theorem evaluation_deduplicated {KUBE : KubeLib} {DEC : ProfileDecoders} {ORDERS : LoopOrders} {SORT : GoSort}
    {FMT : GoFmt} {TEXT : PolicyTexts} {BACK : Backend} r key w w2 pol :
  (forall k, fault k = None) -> w_policies w !! key = Some pol -> evaluated_recently pol (w_clock w) = false ->
  w_policies w2 !! key = w_policies (defaultEvaluate r key w).1 !! key ->
  (w_clock w <= w_clock w2 < w_clock w + dedupWindow)%Z ->
  defaultEvaluate r key w2 = (tick w2, Ok tt).
Proof.
  intros Hf Hpol Hrec Hsame Hclock.
  assert (evaluated_at key (w_clock w) (defaultEvaluate r key w).1) as (p & Hp & Hlast).
  { unfold defaultEvaluate. rewrite bind_run, attempt_run, (get_object_run Hf). cbn [fst snd].
    rewrite (Hpol : w_policies (tick w) !! key = Some pol). cbn [require]. rewrite bind_run. cbn [now].
    change (w_clock (tick w)) with (w_clock w). rewrite Hrec, bind_run, attempt_run, (get_object_run Hf). cbn [fst snd].
    rewrite (Hpol : w_policies (tick (tick w)) !! key = Some pol). cbn [require]. rewrite bind_run. unfold ignore.
    assert (evaluated_at key (w_clock w) (patch_policy_status key (set_evaluated (w_clock w)) (tick (tick w))).1) as He.
    { unfold patch_policy_status. rewrite (request_run Hf).
      rewrite (Hpol : w_policies (tick (tick (tick w))) !! key = Some pol). eexists. split; [apply lookup_insert_eq|done]. }
    destruct (String.eqb _ OptimizationPolicyPhaseActive); cbn [negb]; [|exact He]. by apply keeps_evaluated_active. }
  rewrite Hp in Hsame. unfold defaultEvaluate. rewrite bind_run, attempt_run, (get_object_run Hf). cbn [fst snd].
  rewrite (Hsame : w_policies (tick w2) !! key = Some p). cbn [require]. rewrite bind_run. cbn [now].
  assert (evaluated_recently p (w_clock (tick w2)) = true) as ->; [|done].
  unfold evaluated_recently. rewrite Hlast. cbn [w_clock tick]. apply andb_true_iff. split; lia.
Qed.

(** ** Without a backend *)

Lemma move_of_same cur rk : move_of cur cur rk = None.
Proof. unfold move_of. destruct (cur !! rk); [|done]. by case_bool_decide. Qed.

(** ** The threshold and the execution of a plan *)

Lemma final_plan_strategy {FMT : GoFmt} {TEXT : PolicyTexts} pol t pct suffix v spec :
  PlanController.plan_strategy (final_plan pol t pct (new_plan pol suffix v) spec).1 = Strategy (OP_Spec pol).
Proof.
  unfold final_plan, PlanController.plan_strategy. destruct (below_threshold pol pct); cbn.
  - unfold not_executed_annotations. rewrite !lookup_insert_ne by done. by rewrite lookup_insert_eq.
  - by rewrite lookup_insert_eq.
Qed.

(** The threshold of a conservative policy is not enforced: the plan of an
    evaluation below it carries the annotations and the condition that say it is
    not executed, and its strategy is still Conservative, so the next
    reconciliation of the plan, if no request fails, executes it: it is Executing
    afterwards, or its moves have ended. *)
Theorem threshold_not_enforced {KUBE : KubeLib} {FMT : GoFmt} {TEXT : PolicyTexts} quote pol t suffix v spec uid w :
  (forall k, fault k = None) -> Strategy (OP_Spec pol) = OptimizationStrategyConservative ->
  below_threshold pol v.1 = true ->
  let '(plan, conds) := final_plan pol t v.1 (new_plan pol suffix v) spec in
  let p := mkPlan (created_meta uid (Plan_Meta plan)) spec
             (merge_plan_status PlanPhasePending conds empty_plan_status) in
  w_plans w !! PlanController.plan_key p = Some p ->
  Plan_Conditions (Plan_Status p) = [not_executed_condition pol t v.1] /\
  Annotations (Plan_Meta p) !! "kubex.io/notExecuted" = Some "improvement below threshold" /\
  exists p', w_plans (PlanController.Reconcile quote (PlanController.plan_key p) w).1 !! PlanController.plan_key p = Some p' /\
    PlanController.executed p (Plan_Status p').
Proof.
  intros Hf Hcons Hbelow. pose proof (final_plan_strategy pol t v.1 suffix v spec) as Hst.
  unfold final_plan in *. rewrite Hbelow in *. cbn [fst] in Hst. cbv zeta. set (p := mkPlan _ _ _). intros Hp.
  split; [done|]. split.
  { cbn. unfold not_executed_annotations. rewrite !lookup_insert_ne by done. by rewrite lookup_insert_eq. }
  assert (PlanController.plan_strategy p = OptimizationStrategyConservative) as Hps by (rewrite <- Hcons, <- Hst; done).
  destruct (PlanController.Reconcile_executes Hf quote (w_plans w) p w) as (st & Hst' & Hex).
  - unfold PlanController.current. by rewrite insert_id.
  - done.
  - by rewrite Hps.
  - rewrite Hst'. exists (PlanController.with_status p st). by rewrite lookup_insert_eq.
Qed.

Section stub.
Context {KUBE : KubeLib} {DEC : ProfileDecoders} {ORDERS : LoopOrders} {SORT : GoSort} {FMT : GoFmt}
  {TEXT : PolicyTexts}.
Context (r : PolicyReconciler) (pol : OptimizationPolicy).
Let layout := CurrentLayout (OP_Status pol).
Let anywhere (w : World) : Prop := True.

(** An assignment that moves nothing. *)
Definition stays (asg : gmap ReplicaKey ClusterNodeID) : Prop := asg ⊆ stable_placement layout.

Lemma yields_anything {A} (m : M A) : yields anywhere m (fun _ => True).
Proof. intros w _. split; [done|]. by destruct (m w).2. Qed.

Lemma yields_placement b : yields anywhere (gather r b pol)
  (fun i => In_Stable i = stable_replicas layout /\ In_Placement i = stable_placement layout).
Proof. unfold gather. repeat (eapply yields_bind; [apply yields_anything|]; intros ? _). by apply yields_ret. Qed.

Lemma stub_stays p : yields anywhere (solvePlacement (BACK := stub_backend) r pol p) stays.
Proof.
  unfold solvePlacement. eapply yields_bind; [apply yields_anything|]. intros k _. cbv zeta.
  destruct (SolveProblem _ _ p _) as [res|e] eqn:Hs.
  - unfold SolveProblem in Hs. apply bind_Ok in Hs as (_ & _ & Hs).
    destruct (length (StableReplicas p) =? 0)%nat.
    + injection Hs as <-. apply yields_ret. exact (map_empty_subseteq (M := gmap ReplicaKey) _).
    + done.
  - destruct e; try apply yields_throw. apply yields_ret. unfold stays. reflexivity.
Qed.

Lemma stays_moves asg replicas : stays asg ->
  forall cache moves, plan_moves r (stable_placement layout) asg cache moves replicas = mret moves.
Proof.
  intros Hasg. induction replicas as [|rk replicas IH]; intros cache moves; [done|]. cbn.
  assert (move_of (stable_placement layout) asg rk = None) as ->; [|apply IH].
  unfold move_of. destruct (_ !! rk) as [src|] eqn:Hsrc; [|done]. destruct (asg !! rk) as [dst|] eqn:Hdst; [|done].
  apply (lookup_weaken _ _ _ _ Hdst) in Hasg. case_bool_decide; congruence.
Qed.

Lemma stub_plan_spec t : yields anywhere (plan_spec (BACK := stub_backend) r pol t)
  (fun s => match s with Some spec => Moves spec = [] | None => True end).
Proof.
  unfold plan_spec. destruct (stable_replicas _) as [|rk0 rks]; [by apply yields_ret|].
  eapply yields_bind; [apply yields_placement|]. intros i [Hs Hp]. cbn beta.
  apply (yields_bind _ _ _ (fun a => match a with Some asg => stays asg | None => True end)).
  { unfold plan_assignment. eapply yields_bind; [apply yields_attempt, stub_stays|].
    intros [asg|e] Hasg; [by apply yields_ret|]. destruct (optimizer_error e) as [[]|]; try apply yields_throw.
    - eapply yields_bind; [apply yields_anything|]. intros. by apply yields_ret.
    - apply yields_ret. rewrite Hp. unfold stays. reflexivity. }
  intros [asg|] Hasg; [|by apply yields_ret]. rewrite Hp, Hs, stays_moves by done.
  apply (yields_bind _ _ _ (fun moves => moves = [])); [by apply yields_ret|]. intros moves ->.
  eapply yields_bind; [apply yields_anything|]. intros. by apply yields_ret.
Qed.
End stub.

(** Without a solver in the build, the plan of an evaluation has no moves. *)
Theorem no_backend_no_moves {KUBE : KubeLib} {DEC : ProfileDecoders} {ORDERS : LoopOrders} {SORT : GoSort}
    {FMT : GoFmt} {TEXT : PolicyTexts} r pol t w w' spec :
  plan_spec (BACK := stub_backend) r pol t w = (w', Ok (Some spec)) -> Moves spec = [].
Proof. intros H. destruct (stub_plan_spec r pol t w I) as [_ Hspec]. by rewrite H in Hspec. Qed.

(** ** The services of the improvement *)

Section services.
Context {KUBE : KubeLib} {DEC : ProfileDecoders} {ORDERS : LoopOrders} {SORT : GoSort} {FMT : GoFmt} {BACK : Backend}.
Context (r : PolicyReconciler) (pol : OptimizationPolicy) (gds : gmap Key GlobalDeployment).
Let I (w : World) : Prop := w_gds w = gds.

Lemma dependencies_namespace tpl s out : dependencies tpl !! s = Some out -> NN_Namespace s = "".
Proof.
  unfold dependencies. generalize (zip (Nodes tpl) (Adjacency tpl)). intros l. revert out.
  induction l as [|e l IH] using rev_ind; intros out; [cbn; by rewrite lookup_empty|].
  rewrite foldl_app. cbn. destruct (decide (mkNN "" e.1 = s)) as [<-|Hne]; [done|]. rewrite lookup_insert_ne by done. apply IH.
Qed.

Lemma replica_services_namespace b l stable rk s :
  (forall gd, gd ∈ l -> Namespace (GD_Meta gd) <> "") -> (forall rk, rk ∈ stable -> RK_Namespace rk <> "") ->
  replica_services b l stable !! rk = Some s -> if b : bool then NN_Namespace s = "" else NN_Namespace s <> "".
Proof.
  intros Hl Hst. unfold replica_services. set (svcByGD := foldl _ ∅ l).
  assert (forall k s, svcByGD !! k = Some s -> NN_Namespace s <> "") as Hsvc.
  { unfold svcByGD. clear svcByGD. induction l as [|gd l IH] using rev_ind; intros k s'; [cbn; by rewrite lookup_empty|].
    rewrite foldl_app. cbn. destruct (decide (gd_name gd = k)) as [<-|Hne].
    - rewrite lookup_insert_eq. intros [= <-]. apply Hl, elem_of_app. right. apply list_elem_of_here.
    - rewrite lookup_insert_ne by done. apply IH. intros gd' Hgd'. apply Hl, elem_of_app. by left. }
  revert s. induction stable as [|rk0 stable IH] using rev_ind; intros s; [cbn; by rewrite lookup_empty|].
  rewrite foldl_app. cbn. destruct (decide (rk0 = rk)) as [->|Hne].
  - rewrite lookup_insert_eq. intros [= <-]. destruct b; [done|].
    destruct (svcByGD !! replica_gd rk) as [s'|] eqn:Hs; cbn; [by eapply Hsvc|].
    apply Hst, elem_of_app. right. apply list_elem_of_here.
  - rewrite lookup_insert_ne by done. apply IH. intros rk' Hrk'. apply Hst, elem_of_app. by left.
Qed.

Lemma topology_namespace ns name : yields I (loadTopologyFromConfigMap ns name)
  (fun deps => forall s out, deps !! s = Some out -> NN_Namespace s = "").
Proof.
  unfold loadTopologyFromConfigMap. destruct (str_empty name); [apply yields_throw|].
  eapply yields_bind; [by apply yields_quiet, preserves_get_object|]. intros data _.
  case_bool_decide; [apply yields_throw|].
  eapply yields_bind; [by apply yields_quiet|]. intros k _. cbv zeta.
  eapply yields_bind; [apply yields_quiet, quiet_returning|]. intros tpl _.
  eapply yields_bind; [apply yields_quiet, quiet_returning|]. intros _ _.
  apply yields_ret, dependencies_namespace.
Qed.

Lemma listed_gds : yields I (selected_gds pol) (fun l => forall gd, gd ∈ l -> exists k, gds !! k = Some gd).
Proof.
  intros w Hw. unfold selected_gds, list_selected. set (chosen := match TargetSelector _ with Some _ => _ | None => _ end).
  destruct (request_fault (fun w => (w, Ok (List.filter (fun gd => chosen (Labels (GD_Meta gd)))
    (list_order (w_requests w) (w_gds w))))) w) as [(e & Hf & ->)| ->]; (split; [done|]); [done|]. cbn.
  intros gd Hgd. apply list_elem_of_In, filter_In in Hgd as [Hgd _]. apply list_elem_of_In in Hgd.
  rewrite list_order_perm in Hgd. apply list_elem_of_fmap in Hgd as ([k gd'] & -> & Hk%elem_of_map_to_list).
  exists k. unfold I in Hw. by rewrite <- Hw.
Qed.

Lemma comm_services b goals profiles stable nodes :
  (forall k gd, gds !! k = Some gd -> Namespace (GD_Meta gd) <> "") -> (forall rk, rk ∈ stable -> RK_Namespace rk <> "") ->
  yields I (comm_inputs r b pol goals profiles stable nodes) (fun ci =>
    (forall s out, CI_Dependencies ci !! s = Some out -> NN_Namespace s = "") /\
    (forall rk s, CI_ReplicaService ci !! rk = Some s -> if b : bool then NN_Namespace s = "" else NN_Namespace s <> "")).
Proof.
  intros Hgds Hst. unfold comm_inputs. destruct (comm_goal goals) as [g|].
  - eapply yields_bind; [apply topology_namespace|]. intros deps Hdeps.
    eapply yields_bind; [apply listed_gds|]. intros l Hl. apply yields_ret. split; [exact Hdeps|]. cbn.
    intros rk s. apply replica_services_namespace; [|done]. intros gd Hgd. destruct (Hl gd Hgd) as [k Hk]. by eapply Hgds.
  - apply yields_ret. cbn. split; intros ??; by rewrite lookup_empty.
Qed.

Lemma gathered_services b :
  (forall k gd, gds !! k = Some gd -> Namespace (GD_Meta gd) <> "") ->
  (forall loc, loc ∈ CurrentLayout (OP_Status pol) -> CL_Namespace loc <> "") ->
  yields I (gather r b pol) (fun i =>
    (forall s out, CI_Dependencies (In_Comm i) !! s = Some out -> NN_Namespace s = "") /\
    (forall rk s, CI_ReplicaService (In_Comm i) !! rk = Some s ->
       if b : bool then NN_Namespace s = "" else NN_Namespace s <> "")).
Proof.
  intros Hgds Hst. unfold gather.
  eapply yields_bind; [by apply yields_quiet, quiet_candidates|]. intros cs _.
  eapply yields_bind; [by apply yields_quiet, quiet_contexts|]. intros nodes _.
  eapply yields_bind; [by apply yields_quiet, quiet_selected|]. intros l _.
  eapply yields_bind; [by apply yields_quiet, quiet_profiles|]. intros profiles _.
  eapply yields_bind.
  - apply comm_services; [exact Hgds|]. intros rk Hrk. unfold stable_replicas in Hrk.
    apply list_elem_of_fmap in Hrk as (loc & -> & Hloc). apply list_elem_of_In, filter_In in Hloc as [Hloc _].
    by apply Hst, list_elem_of_In.
  - intros comm Hcomm. apply yields_ret. exact Hcomm.
Qed.
End services.

(** No replica's service has an entry in the dependencies. *)
Definition topology_missed (i : OptimizerInputs) : Prop :=
  forall rk s, CI_ReplicaService (In_Comm i) !! rk = Some s -> CI_Dependencies (In_Comm i) !! s = None.
(** Services are named as the topology names them. *)
Definition services_plain (i : OptimizerInputs) : Prop :=
  forall rk s, CI_ReplicaService (In_Comm i) !! rk = Some s -> NN_Namespace s = "".

(** The improvement ignores the topology: among the inputs it is computed from,
    no replica's service has an entry in the dependencies, since the former carry
    the namespace of their deployment and the latter none. Among the inputs of the
    plan both carry none. *)
Theorem improvement_misses_dependencies {KUBE : KubeLib} {DEC : ProfileDecoders} {ORDERS : LoopOrders} {FMT : GoFmt}
    r pol w :
  (forall k gd, w_gds w !! k = Some gd -> Namespace (GD_Meta gd) <> "") ->
  (forall loc, loc ∈ CurrentLayout (OP_Status pol) -> CL_Namespace loc <> "") ->
  (forall w' i, gather r false pol w = (w', Ok i) -> topology_missed i) /\
  (forall w' i, gather r true pol w = (w', Ok i) -> services_plain i).
Proof.
  intros Hgds Hst. split; intros w' i Hi rk s Hs.
  - destruct (gathered_services r pol (w_gds w) false Hgds Hst w eq_refl) as [_ H]. rewrite Hi in H. destruct H as [Hd Hsvc].
    destruct (CI_Dependencies (In_Comm i) !! s) as [out|] eqn:Hout; [|done]. exfalso.
    apply (Hsvc rk s Hs). by eapply Hd.
  - destruct (gathered_services r pol (w_gds w) true Hgds Hst w eq_refl) as [_ H]. rewrite Hi in H. destruct H as [_ Hsvc].
    exact (Hsvc rk s Hs).
Qed.

(** ** Concrete runs: one replica on [n2] of [c1], whose two nodes have room, and a
    solver that tries all assignments. *)

#[local] Existing Instance reliable_kube.
#[export] Instance plain_decoders : ProfileDecoders | 100 := {|
  yaml_CostProfile := fun s => Ok (mkCostProfile "" 0 (f64_of_Z (if String.eqb s "cheap" then 1 else 2)));
  yaml_EnergyProfile := fun _ => Ok (mkEnergyProfile 1 []);
  yaml_LatencyMatrix := fun _ => Ok (mkLatencyMatrix [] ∅);
  json_Topology := fun _ => Ok (mkTopology ["web"; "db"] [[0; 1]%Z; [0; 0]%Z])
|}.
Definition demo_backend : Backend := ortools_backend exhaustive_solver (fun _ => false).

Definition demo_goals (type : string) : list OptimizationGoal := [mkOptimizationGoal type (f64_of_Z 1) "" "topo"].
Definition demo_active (type : string) (threshold : Z) : OptimizationPolicy :=
  mkPolicy (mkMeta "p" "default" "p1" 3 ∅ ∅ [] None [])
    (mkPolicySpec true None (demo_goals type) "Periodic" "30s" "Conservative" threshold)
    (mkPolicyStatus "Active" 1 1 [mkReplicaLocation "web" "default" 0 "c1" "n2" "RBStatus" true ""] 1 0 ∅ None None []).
Definition demo_node (name type : string) : Node :=
  mkNodeObject name "u" {[LabelInstanceType := type]}
    (mkNodeResourceList None None None) (mkNodeResourceList None None None) [("Ready", "True")].
Definition demo_summary (name : string) : NodeSummary :=
  mkNodeSummary name "u" true (mkNodeResources 0 0 0) (mkNodeResources 0 0 0) (mkNodeResources 0 0 0) ∅.
Definition demo_cluster : Cluster :=
  mkCluster (mkMeta "c1" "kubex-system" "u" 1 ∅ ∅ [] None []) (mkClusterSpec "" "")
    (mkClusterStatus ClusterPhaseReady None None [] (mkResources (mkResourceList 0 0) (mkResourceList 0 0) 2 0)
       [demo_summary "n1"; demo_summary "n2"]).
Definition demo_evaluation_world (type : string) (threshold : Z) : World :=
  mkWorld ∅ ∅ {[("default", "web") := demo_deployment]} {[("kubex-system", "c1") := demo_cluster]} ∅
    {["https://c1" := mkMember ∅ ∅ ∅ (<["n1" := demo_node "n1" "small"]> {["n2" := demo_node "n2" "large"]})]}
    ∅ ∅ (5 * Second) 0
    (mkPolicyState {[("default", "p") := demo_active type threshold]} ∅
       (<[("kubex-system", "instance-cost-profiles") := <["small" := "cheap"]> {["large" := "dear"]}]>
          (<[("kubex-system", "instance-family-energy-profiles") := ∅]>
             (<[("kubex-system", "region-latency-matrix") := ∅]> {[("kubex-system", "topo") := {["t" := "t"]}]})))
       ∅ {["c1" := "https://c1"]}) ∅.

(** The whole pipeline: the replica moves to the cheaper node. *)
Example demo_evaluation :
  let w' := (defaultEvaluate (BACK := demo_backend) demo_reconciler ("default", "p") (demo_evaluation_world "Cost" 10)).1 in
  (fun p => (fun mv => (Loc_NodeName (PM_Source mv), Loc_NodeName (PM_Destination mv))) <$> Moves (Plan_Spec p))
    <$> (map_to_list (w_plans w')).*2 = [[("n2", "n1")]].
Proof. by_eval. Qed.


Lemma policies_set_clock t w : w_policies (set_clock t w) = w_policies w.
Proof. reflexivity. Qed.

Lemma evaluation_deduplicated_witness :
  exists w1, w1 = (defaultEvaluate (BACK := demo_backend) demo_reconciler ("default", "p") (demo_evaluation_world "Cost" 10)).1 /\
  defaultEvaluate (BACK := demo_backend) demo_reconciler ("default", "p") (set_clock (60 * Second) w1) =
    (tick (set_clock (60 * Second) w1), Ok tt).
Proof.
  eexists. split; [reflexivity|]. set (w1 := (defaultEvaluate _ _ (demo_evaluation_world _ _)).1).
  refine (evaluation_deduplicated (BACK := demo_backend) demo_reconciler ("default", "p")
    (demo_evaluation_world "Cost" 10) (set_clock (60 * Second) w1) (demo_active "Cost" 10) _ _ _ _ _).
  - reflexivity.
  - reflexivity.
  - reflexivity.
  - rewrite policies_set_clock. reflexivity.
  - cbn [w_clock set_clock]. split; by_computation.
Defined.

Definition demo_low_plan : ReOrchestrationPlan * list Condition :=
  final_plan (demo_active "Cost" 10) 0 fzero (new_plan (demo_active "Cost" 10) "x" (fzero, "summary"))
    (mkPlanSpec (zero_summary (demo_active "Cost" 10)) []).
Definition demo_low_world : World :=
  set_plans (fun _ => {[("default", "p-x") :=
    mkPlan (created_meta "u" (Plan_Meta demo_low_plan.1)) (Plan_Spec demo_low_plan.1)
      (merge_plan_status PlanPhasePending demo_low_plan.2 empty_plan_status)]}) empty_world.

Lemma threshold_not_enforced_witness :
  exists p', w_plans (PlanController.Reconcile fmt_q ("default", "p-x") demo_low_world).1 !! ("default", "p-x") = Some p' /\
    PlanController.executed (mkPlan (created_meta "u" (Plan_Meta demo_low_plan.1)) (Plan_Spec demo_low_plan.1)
      (merge_plan_status PlanPhasePending demo_low_plan.2 empty_plan_status)) (Plan_Status p').
Proof.
  exact (proj2 (proj2 (threshold_not_enforced fmt_q (demo_active "Cost" 10) 0 "x" (fzero, "summary")
    (mkPlanSpec (zero_summary (demo_active "Cost" 10)) []) "u" demo_low_world (fun _ => eq_refl) eq_refl eq_refl eq_refl))).
Defined.

Lemma no_backend_no_moves_witness :
  exists spec, (plan_spec (BACK := stub_backend) demo_reconciler (demo_active "Cost" 10) 0
                  (demo_evaluation_world "Cost" 10)).2 = Ok (Some spec) /\ Moves spec = [].
Proof.
  destruct (plan_spec (BACK := stub_backend) demo_reconciler (demo_active "Cost" 10) 0 (demo_evaluation_world "Cost" 10))
    as [w' res] eqn:Hrun.
  assert (match res with Ok (Some _) => True | _ => False end) as Hres.
  { apply (f_equal (fun x => match x.2 with Ok (Some _) => true | _ => false end)) in Hrun. vm_compute in Hrun.
    destruct res as [[spec|]|e]; [exact I|discriminate|discriminate]. }
  destruct res as [[spec|]|e]; [|destruct Hres|destruct Hres]. exists spec. split; [reflexivity|].
  exact (no_backend_no_moves demo_reconciler (demo_active "Cost" 10) 0 (demo_evaluation_world "Cost" 10) w' spec Hrun).
Defined.

Lemma improvement_misses_dependencies_witness :
  exists w' i, gather demo_reconciler false (demo_active "Communication" 10)
      (demo_evaluation_world "Communication" 10) = (w', Ok i) /\ topology_missed i.
Proof.
  destruct (gather demo_reconciler false (demo_active "Communication" 10) (demo_evaluation_world "Communication" 10))
    as [w' [i|e]] eqn:Hrun.
  2: { exfalso. apply (f_equal (fun x => is_ok x.2)) in Hrun. vm_compute in Hrun. discriminate. }
  exists w', i. split; [reflexivity|].
  refine (proj1 (improvement_misses_dependencies demo_reconciler (demo_active "Communication" 10)
    (demo_evaluation_world "Communication" 10) _ _) w' i Hrun).
  - intros k gd Hgd. cbn [w_gds demo_evaluation_world] in Hgd. apply lookup_singleton_Some in Hgd as [_ <-]. discriminate.
  - intros loc Hloc. apply list_elem_of_singleton in Hloc as ->. discriminate.
Defined.
