(* ===== verification/ReplicaBinding.v ===== *)
(** * The ReplicaBinding controller (internal/controller/replicabinding_controller.go)

    A binding owns one Deployment with one replica in one member cluster. Its
    phase says what the next call does; a finalizer keeps the binding until the
    Deployment is gone. Log lines are not modelled. *)

From S2P Require Import Prelude GoTime ApiTypes KubeApi MemberClients.

Local Open Scope string_scope.
Local Open Scope list_scope.

Definition replicaBindingFinalizer : string := "core.kubex.io/finalizer-replicabinding".

(** [controllerutil.ContainsFinalizer], [RemoveFinalizer], [AddFinalizer]. *)
Definition ContainsFinalizer (rb : ReplicaBinding) (f : string) : bool :=
  bool_decide (f ∈ Finalizers (RB_Meta rb)).
Definition with_finalizers (rb : ReplicaBinding) (fs : list string) : ReplicaBinding :=
  let m := RB_Meta rb in
  mkRB (mkMeta (Name m) (Namespace m) (UID m) (Generation m) (Labels m) (Annotations m) fs
          (DeletionTimestamp m) (OwnerReferences m)) (RB_Spec rb) (RB_Status rb).
Definition RemoveFinalizer (rb : ReplicaBinding) (f : string) : ReplicaBinding :=
  with_finalizers rb (List.filter (fun f' => negb (String.eqb f' f)) (Finalizers (RB_Meta rb))).
Definition AddFinalizer (rb : ReplicaBinding) (f : string) : ReplicaBinding :=
  if ContainsFinalizer rb f then rb else with_finalizers rb (Finalizers (RB_Meta rb) ++ [f]).

(** [rb.Status.Phase = ...; LastTransitionTime = metav1.Now(); LastError = ...]. *)
Definition with_phase (rb : ReplicaBinding) (phase : string) (t : Z) (err : string) : ReplicaBinding :=
  mkRB (RB_Meta rb) (RB_Spec rb)
    (mkRBStatus phase err (Some t) (RB_NodeName (RB_Status rb)) (RB_ClusterName (RB_Status rb))
       (RB_Reschedule (RB_Status rb))).

(** The status of a binding whose Deployment is available. *)
Definition with_running (rb : ReplicaBinding) (t : Z) (actualNodeName : string) : ReplicaBinding :=
  mkRB (RB_Meta rb) (RB_Spec rb)
    (mkRBStatus ReplicaBindingPhaseRunning "" (Some t)
       (if str_empty actualNodeName then RB_NodeName (RB_Status rb) else actualNodeName)
       (TargetCluster (RB_Spec rb)) (RB_Reschedule (RB_Status rb))).

(** [fmt.Sprintf("%s-r%d", gdName, index)]. *)
Definition member_deployment_name (gdName : string) (index : Z) : string := gdName +:+ "-r" +:+ pretty index.

(** [func isDeploymentFailed(dep) bool]. *)
Definition isDeploymentFailed (dep : Deployment) : bool :=
  if negb (AvailableReplicas (Dep_Status dep) =? 0)%Z then false
  else if (Dep_StatusReplicas (Dep_Status dep) =? 0)%Z && (UpdatedReplicas (Dep_Status dep) =? 0)%Z then false
  else existsb (fun c => String.eqb c.1 "ReplicaFailure" && String.eqb c.2 "True") (Dep_Conditions (Dep_Status dep)).

(** A running pod on a known node, and a ready one. *)
Definition pod_placed (p : Pod) : bool := String.eqb (Pod_Phase p) "Running" && negb (str_empty (Pod_NodeName p)).
Definition pod_ready (p : Pod) : bool :=
  existsb (fun c => String.eqb c.1 "Ready" && String.eqb c.2 "True") (Pod_Conditions p).

(** The loop over the pods: the node of the first ready pod, else of the first
    placed one. *)
Fixpoint actual_node (pods : list Pod) (actualNodeName : string) : string :=
  match pods with
  | [] => actualNodeName
  | p :: pods' =>
      if pod_placed p then
        if pod_ready p then Pod_NodeName p
        else actual_node pods' (if str_empty actualNodeName then Pod_NodeName p else actualNodeName)
      else actual_node pods' actualNodeName
  end.

(** The pods of a Deployment among those of the global deployment. *)
Definition pod_of_deployment (depName : string) (p : Pod) : bool :=
  String.eqb (Pod_Name p) depName || has_prefix (Pod_Name p) (depName +:+ "-").

Section controller.
Context {KUBE : KubeLib}.
(** The field [ControlNamespace] of the reconciler. *)
Variable ControlNamespace : string.

Definition after (d : Z) : M Result := mret (mkResult d).

(** [controlNS := r.ControlNamespace; if controlNS == "" { controlNS = rb.Namespace }]. *)
Definition controlNS (rb : ReplicaBinding) : string :=
  if str_empty ControlNamespace then Namespace (RB_Meta rb) else ControlNamespace.

(** [func (r) getMemberClient(ctx, namespace, clusterID)]. *)
Definition getMemberClient (namespace clusterID : string) : M string :=
  MemberClientCache.GetOrBuild (CACHE:=binding_clients) namespace clusterID.

(** [func ensureNamespace(ctx, cs, namespace) error]. *)
Definition ensureNamespace (cs namespace : string) : M unit :=
  if str_empty namespace then throw (OtherError "namespace is empty")
  else
    r ← attempt (namespace_get cs namespace);
    match r with
    | Ok _ => mret tt
    | Err e =>
        if negb (IsNotFound e) then throw e
        else
          c ← attempt (namespace_create cs namespace);
          match c with
          | Ok _ => mret tt
          | Err e' => if IsAlreadyExists e' then mret tt else throw e'
          end
    end.

(** The node affinity that pins a pod to a host. *)
Definition pinned (targetNodeName : string) : option (list (list NodeSelectorRequirement)) :=
  Some [[mkRequirement "kubernetes.io/hostname" "In" [targetNodeName]]].

(** [func buildMemberDeployment(gd, name, targetNodeName) *appsv1.Deployment]. *)
Definition buildMemberDeployment (gd : GlobalDeployment) (name targetNodeName : string) : Deployment :=
  let spec := yaml_Unmarshal (Template (GD_Spec gd)) in
  let labels :=
    <["core.kubex.io/deployName" := name]> (<["core.kubex.io/globaldeploy" := Name (GD_Meta gd)]> (Dep_TemplateLabels spec)) in
  let aff := default (mkAffinity None "") (Dep_Affinity spec) in
  let nodeAff := default (mkNodeAffinity None "") (Aff_Node aff) in
  let spec' :=
    mkDepSpec (Some 1%Z) (Dep_MatchLabels spec) labels (Dep_Requests spec) (Dep_Volumes spec)
      (Some (mkAffinity (Some (mkNodeAffinity (pinned targetNodeName) (NodeAffinity_Other nodeAff))) (Aff_Other aff)))
      (Dep_Other spec) in
  mkDeployment name (Namespace (GD_Meta gd))
    (<["core.kubex.io/globaldeploy" := Name (GD_Meta gd)]> {["app.kubernetes.io/name" := name]})
    [] false spec' (mkDepStatus 0 0 0 []).

(** [func (r) failBinding(ctx, rb, msg)]. *)
Definition failBinding (rb : ReplicaBinding) (msg : string) : M Result :=
  t ← now;
  ignore (patch_rb_status (with_phase rb ReplicaBindingPhaseFailed t msg)) ≫= fun _ =>
  after (10 * Second).

(** [rb.Status.Phase = phase; ...; r.Status().Patch(...)], then a result. *)
Definition move_to (rb : ReplicaBinding) (phase err : string) (res : Result) : M Result :=
  t ← now;
  patch_rb_status (with_phase rb phase t err) ≫= fun _ => mret res.

(** Phase Deleting: the finalizer goes once the member Deployment is gone. *)
Definition reconcile_deleting (rb : ReplicaBinding) : M Result :=
  if ContainsFinalizer rb replicaBindingFinalizer then
    c ← attempt (getMemberClient (controlNS rb) (TargetCluster (RB_Spec rb)));
    match c with
    | Err _ => after (2 * Second)
    | Ok cs =>
        let depName :=
          member_deployment_name (Ref_Name (RBS_GlobalDeploymentRef (RB_Spec rb))) (RBS_ReplicaIndex (RB_Spec rb)) in
        g ← attempt (deployment_get cs (Namespace (RB_Meta rb)) depName);
        match g with
        | Ok _ => after (2 * Second)
        | Err e =>
            if IsNotFound e then
              patch_rb (RemoveFinalizer rb replicaBindingFinalizer) ≫= fun _ => mret Done
            else after (2 * Second)
        end
    end
  else mret Done.

(** A deletion timestamp: the member Deployment is deleted, then phase Deleting. *)
Definition reconcile_deletion (rb : ReplicaBinding) : M Result :=
  let ref := RBS_GlobalDeploymentRef (RB_Spec rb) in
  g ← attempt (get_object w_gds (Ref_Namespace ref, Ref_Name ref));
  let '(workloadNS, gdName) :=
    match g with
    | Ok gd => (if str_empty (Namespace (GD_Meta gd)) then Namespace (RB_Meta rb) else Namespace (GD_Meta gd),
                if str_empty (Name (GD_Meta gd)) then Ref_Name ref else Name (GD_Meta gd))
    | Err _ => (Namespace (RB_Meta rb), Ref_Name ref)
    end in
  c ← attempt (getMemberClient (controlNS rb) (TargetCluster (RB_Spec rb)));
  match c with
  | Err _ => after (2 * Second)
  | Ok cs =>
      d ← attempt (deployment_delete cs workloadNS (member_deployment_name gdName (RBS_ReplicaIndex (RB_Spec rb))));
      if match d with Ok _ => true | Err e => IsNotFound e end
      then move_to rb ReplicaBindingPhaseDeleting "" (mkResult (200 * Millisecond))
      else after (2 * Second)
  end.

(** Phase Assigned: the member Deployment is created. *)
Definition reconcile_assigned (rb : ReplicaBinding) (gd : GlobalDeployment) (cs depName : string) : M Result :=
  n ← attempt (ensureNamespace cs (Namespace (GD_Meta gd)));
  match n with
  | Err e =>
      failBinding rb ("ensure member namespace failed (cluster=" +:+ TargetCluster (RB_Spec rb) +:+ ", namespace=" +:+
                      Namespace (GD_Meta gd) +:+ "): " +:+ error_text e)
  | Ok _ =>
      d ← attempt (deployment_create cs (Namespace (GD_Meta gd))
                     (buildMemberDeployment gd depName (TargetNodeName (RB_Spec rb))));
      match d with
      | Err _ => after (2 * Second)
      | Ok _ => move_to rb ReplicaBindingPhaseApplying "" (mkResult (2 * Second))
      end
  end.

(** Phase Rescheduling: the old Deployment is deleted, and once it is gone the new
    one is created. *)
Definition reconcile_rescheduling (rb : ReplicaBinding) (gd : GlobalDeployment) (cs depName : string) : M Result :=
  o ← attempt (getMemberClient (controlNS rb) (RB_ClusterName (RB_Status rb)));
  match o with
  | Err _ => after (10 * Second)
  | Ok csOld =>
      d ← attempt (deployment_delete csOld (Namespace (GD_Meta gd)) depName);
      if match d with Ok _ => true | Err e => IsNotFound e end then
        g ← attempt (deployment_get csOld (Namespace (GD_Meta gd)) depName);
        match g with
        | Ok _ => after (2 * Second)
        | Err e =>
            if IsNotFound e then
              c ← attempt (deployment_create cs (Namespace (GD_Meta gd))
                             (buildMemberDeployment gd depName (TargetNodeName (RB_Spec rb))));
              if match c with Ok _ => true | Err e => IsAlreadyExists e end
              then move_to rb ReplicaBindingPhaseApplying "" (mkResult (2 * Second))
              else after (2 * Second)
            else after (2 * Second)
        end
      else after (2 * Second)
  end.

(** The node the pods of the Deployment run on. *)
Definition find_actual_node (cs depName : string) (gd : GlobalDeployment) (currentDep : Deployment) : M string :=
  let ns := Namespace (GD_Meta gd) in
  p ← attempt (pods_list cs ns "core.kubex.io/deployName" (Dep_Name currentDep));
  let broad items :=
    p2 ← attempt (pods_list cs ns "core.kubex.io/globaldeploy" (Name (GD_Meta gd)));
    mret (match p2 with Ok pods2 => List.filter (pod_of_deployment depName) pods2 | Err _ => items end) in
  match p with
  | Err _ => broad [] ≫= fun _ => mret ""
  | Ok [] => items ← broad []; mret (actual_node items "")
  | Ok pods => mret (actual_node pods "")
  end.

(** Phase Applying: wait for the Deployment. *)
Definition reconcile_applying (rb : ReplicaBinding) (gd : GlobalDeployment) (cs depName : string) : M Result :=
  g ← attempt (deployment_get cs (Namespace (GD_Meta gd)) depName);
  match g with
  | Err e =>
      if IsNotFound e then
        ignore (deployment_create cs (Namespace (GD_Meta gd))
                  (buildMemberDeployment gd depName (TargetNodeName (RB_Spec rb)))) ≫= fun _ =>
        after (2 * Second)
      else throw e
  | Ok currentDep =>
      if (1 <=? AvailableReplicas (Dep_Status currentDep))%Z then
        actualNodeName ← find_actual_node cs depName gd currentDep;
        t ← now;
        patch_rb_status (with_running rb t actualNodeName) ≫= fun _ => mret Done
      else if isDeploymentFailed currentDep then
        move_to rb ReplicaBindingPhaseFailed "pod failed" (mkResult (2 * Second))
      else after (2 * Second)
  end.

(** The phases that need the global deployment and the member cluster. *)
Definition reconcile_workload (rb : ReplicaBinding) : M Result :=
  let ref := RBS_GlobalDeploymentRef (RB_Spec rb) in
  let phase := RB_Phase (RB_Status rb) in
  g ← attempt (get_object w_gds (Ref_Namespace ref, Ref_Name ref));
  match g with
  | Err _ => after (10 * Second)
  | Ok gd =>
      c ← attempt (getMemberClient (controlNS rb) (TargetCluster (RB_Spec rb)));
      match c with
      | Err _ => after (10 * Second)
      | Ok cs =>
          let depName := member_deployment_name (Name (GD_Meta gd)) (RBS_ReplicaIndex (RB_Spec rb)) in
          if String.eqb phase ReplicaBindingPhaseAssigned then reconcile_assigned rb gd cs depName
          else if String.eqb phase ReplicaBindingPhaseRescheduling then reconcile_rescheduling rb gd cs depName
          else if String.eqb phase ReplicaBindingPhaseApplying then reconcile_applying rb gd cs depName
          else after (2 * Second)
      end
  end.

(** [Reconcile] on a binding that was read. *)
Definition reconcile_binding (rb : ReplicaBinding) : M Result :=
  let phase := RB_Phase (RB_Status rb) in
  if String.eqb phase ReplicaBindingPhaseDeleting then reconcile_deleting rb
  else if match DeletionTimestamp (RB_Meta rb) with Some _ => true | None => false end then reconcile_deletion rb
  else if negb (ContainsFinalizer rb replicaBindingFinalizer) then
    patch_rb (AddFinalizer rb replicaBindingFinalizer) ≫= fun _ => after (100 * Millisecond)
  else if str_empty phase then move_to rb ReplicaBindingPhasePending "" (mkResult (200 * Millisecond))
  else if String.eqb phase ReplicaBindingPhaseFailed then mret Done
  else if String.eqb phase ReplicaBindingPhaseRunning then mret Done
  else if String.eqb phase ReplicaBindingPhasePending then after (2 * Second)
  else reconcile_workload rb.

(** [func (r) Reconcile(ctx, req) (ctrl.Result, error)]. *)
Definition Reconcile (key : Key) : M Result :=
  r ← attempt (get_object w_rbs key);
  match r with
  | Err e => ignore_not_found Done e
  | Ok rb => reconcile_binding rb
  end.
End controller.

(** What a call leaves alone: plans, deployments, the configuration, the clock. *)
Section quiet.
Context {KUBE : KubeLib} {T : Type} (proj : World -> T).
Hypothesis Htick : forall w, proj (tick w) = proj w.
Hypothesis Hrbs : forall f w, proj (set_rbs f w) = proj w.
Hypothesis Hmembers : forall f w, proj (set_members f w) = proj w.
Hypothesis Hclients : forall f w, proj (set_clients f w) = proj w.

Lemma preserves_binding_call ControlNamespace key : preserves proj (Reconcile ControlNamespace key).
Proof.
  assert (Hc : forall ns id, preserves proj (getMemberClient ns id)).
  { intros. by apply (MemberClientCache.preserves_GetOrBuild (CACHE:=binding_clients)). }
  unfold Reconcile, reconcile_binding, reconcile_deleting, reconcile_deletion, reconcile_workload, reconcile_assigned,
    reconcile_rescheduling, reconcile_applying, find_actual_node, failBinding, move_to, ensureNamespace, after.
  quiet; first [apply Hc | by apply preserves_member_request].
Qed.
End quiet.

(** ** What a call can do to the bindings *)

(** The phase machine of this controller; [""] is a binding without status. *)
Inductive phase_step : string -> string -> Prop :=
| step_pending : phase_step "" ReplicaBindingPhasePending
| step_created : phase_step ReplicaBindingPhaseAssigned ReplicaBindingPhaseApplying
| step_no_namespace : phase_step ReplicaBindingPhaseAssigned ReplicaBindingPhaseFailed
| step_rescheduled : phase_step ReplicaBindingPhaseRescheduling ReplicaBindingPhaseApplying
| step_available : phase_step ReplicaBindingPhaseApplying ReplicaBindingPhaseRunning
| step_failed : phase_step ReplicaBindingPhaseApplying ReplicaBindingPhaseFailed.

(** The store [rbs'] after a call on the binding [rb] of the store [rbs]. *)
Inductive rb_outcome (rbs : gmap Key ReplicaBinding) (rb : ReplicaBinding) : gmap Key ReplicaBinding -> Prop :=
| outcome_unchanged : rb_outcome rbs rb rbs
| outcome_released :
    RB_Phase (RB_Status rb) = ReplicaBindingPhaseDeleting ->
    DeletionTimestamp (RB_Meta rb) = None \/ Finalizers (RB_Meta (RemoveFinalizer rb replicaBindingFinalizer)) <> [] ->
    rb_outcome rbs rb (<[rb_key rb := RemoveFinalizer rb replicaBindingFinalizer]> rbs)
| outcome_removed :
    RB_Phase (RB_Status rb) = ReplicaBindingPhaseDeleting ->
    DeletionTimestamp (RB_Meta rb) <> None ->
    rb_outcome rbs rb (delete (rb_key rb) rbs)
| outcome_deleting st :
    DeletionTimestamp (RB_Meta rb) <> None -> RB_Phase st = ReplicaBindingPhaseDeleting ->
    RB_ClusterName st = RB_ClusterName (RB_Status rb) ->
    rb_outcome rbs rb (<[rb_key rb := mkRB (RB_Meta rb) (RB_Spec rb) st]> rbs)
| outcome_finalizer :
    DeletionTimestamp (RB_Meta rb) = None ->
    rb_outcome rbs rb (<[rb_key rb := AddFinalizer rb replicaBindingFinalizer]> rbs)
| outcome_step st :
    DeletionTimestamp (RB_Meta rb) = None -> replicaBindingFinalizer ∈ Finalizers (RB_Meta rb) ->
    phase_step (RB_Phase (RB_Status rb)) (RB_Phase st) ->
    RB_ClusterName st = (if String.eqb (RB_Phase st) ReplicaBindingPhaseRunning
                         then TargetCluster (RB_Spec rb) else RB_ClusterName (RB_Status rb)) ->
    rb_outcome rbs rb (<[rb_key rb := mkRB (RB_Meta rb) (RB_Spec rb) st]> rbs).

Section outcomes.
Context {KUBE : KubeLib} (ControlNamespace : string) (rbs : gmap Key ReplicaBinding) (rb : ReplicaBinding).
Hypothesis Hrb : rbs !! rb_key rb = Some rb.

Definition untouched (w : World) : Prop := w_rbs w = rbs.
Definition done_with (w : World) : Prop := rb_outcome rbs rb (w_rbs w).
Definition may_end {A} (m : M A) : Prop := hoare untouched m (fun _ => done_with).

Lemma untouched_done w : untouched w -> done_with w.
Proof. unfold untouched, done_with. intros ->. apply outcome_unchanged. Qed.

Lemma may_end_quiet {A} (m : M A) : preserves w_rbs m -> may_end m.
Proof. intros Hm w Hw. apply untouched_done. unfold untouched. by rewrite Hm. Qed.

(** A step that leaves the bindings alone. *)
Lemma may_end_bind {A B} (m : M A) (f : A -> M B) :
  preserves w_rbs m -> (forall a, may_end (f a)) -> may_end (m ≫= f).
Proof.
  intros Hm Hf. apply hoare_bind with (R := fun _ => untouched); [|done].
  intros w Hw. assert (Hu : untouched (m w).1) by (unfold untouched; by rewrite Hm).
  destruct (m w).2; [done|]. by apply untouched_done.
Qed.

(** A last write, then a result. *)
Lemma may_end_then {A B} (m : M A) (f : A -> M B) :
  may_end m -> (forall a, preserves w_rbs (f a)) -> may_end (m ≫= f).
Proof.
  intros Hm Hf w Hw. specialize (Hm w Hw). rewrite bind_run. destruct (m w) as [w' [a|e]]; [|done].
  unfold done_with in *. cbn in *. by rewrite Hf.
Qed.

Lemma may_end_status st :
  (rb_outcome rbs rb (<[rb_key rb := mkRB (RB_Meta rb) (RB_Spec rb) st]> rbs)) ->
  may_end (patch_rb_status (mkRB (RB_Meta rb) (RB_Spec rb) st)).
Proof.
  intros Hst. apply hoare_request; [intros; by apply untouched_done|].
  intros w Hw. unfold untouched in Hw. cbn. change (Namespace (RB_Meta rb), Name (RB_Meta rb)) with (rb_key rb).
  rewrite Hw, Hrb. cbn. unfold done_with. cbn. by rewrite Hw.
Qed.

Lemma may_end_move phase err res :
  (forall t, rb_outcome rbs rb (<[rb_key rb := with_phase rb phase t err]> rbs)) ->
  may_end (move_to rb phase err res).
Proof.
  intros H. apply may_end_bind; [apply preserves_now|]. intros t.
  apply may_end_then; [apply may_end_status, H|intros; apply preserves_ret].
Qed.

Lemma quiet_client ns id : preserves w_rbs (attempt (getMemberClient ns id)).
Proof. by apply preserves_attempt, (MemberClientCache.preserves_GetOrBuild (CACHE:=binding_clients)). Qed.
Lemma quiet_member {A} cs (f : MemberCluster -> MemberCluster * result api_error A) :
  preserves w_rbs (member_request cs f).
Proof. by apply preserves_member_request. Qed.
Lemma quiet_attempt_member {A} cs (f : MemberCluster -> MemberCluster * result api_error A) :
  preserves w_rbs (attempt (member_request cs f)).
Proof. by apply preserves_attempt, preserves_member_request. Qed.
Lemma quiet_gd k : preserves w_rbs (attempt (get_object w_gds k)).
Proof. by apply preserves_attempt, preserves_get_object. Qed.
Lemma quiet_after d : preserves w_rbs (after d).
Proof. apply preserves_ret. Qed.

Lemma quiet_ensureNamespace cs ns : preserves w_rbs (attempt (ensureNamespace cs ns)).
Proof.
  apply preserves_attempt. unfold ensureNamespace. destruct (str_empty ns); [apply preserves_throw|].
  apply preserves_bind; [apply quiet_attempt_member|]. intros [|e]; [apply preserves_ret|].
  destruct (negb _); [apply preserves_throw|].
  apply preserves_bind; [apply quiet_attempt_member|]. intros [|e']; [apply preserves_ret|].
  destruct (IsAlreadyExists e'); [apply preserves_ret|apply preserves_throw].
Qed.

Lemma quiet_find_actual_node cs depName gd dep : preserves w_rbs (find_actual_node cs depName gd dep).
Proof.
  apply preserves_bind; [apply quiet_attempt_member|].
  assert (Hb : forall items : list Pod, preserves w_rbs
    (p2 ← attempt (pods_list cs (Namespace (GD_Meta gd)) "core.kubex.io/globaldeploy" (Name (GD_Meta gd)));
     mret (match p2 with Ok pods2 => List.filter (pod_of_deployment depName) pods2 | Err _ => items end))).
  { intros items. apply preserves_bind; [apply quiet_attempt_member|]. intros. apply preserves_ret. }
  intros [[|p pods]|e]; [|apply preserves_ret|]; (apply preserves_bind; [apply Hb|intros; apply preserves_ret]).
Qed.

Lemma may_end_deleting :
  RB_Phase (RB_Status rb) = ReplicaBindingPhaseDeleting -> may_end (reconcile_deleting ControlNamespace rb).
Proof.
  intros Hp. unfold reconcile_deleting.
  destruct (ContainsFinalizer _ _); [|apply may_end_quiet, preserves_ret].
  apply may_end_bind; [apply quiet_client|]. intros [cs|e]; [|apply may_end_quiet, quiet_after].
  apply may_end_bind; [apply quiet_attempt_member|]. intros [dep|e]; [apply may_end_quiet, quiet_after|].
  destruct (IsNotFound e); [|apply may_end_quiet, quiet_after].
  apply may_end_then; [|intros; apply preserves_ret].
  apply hoare_request; [intros; by apply untouched_done|]. intros w Hw. unfold untouched in Hw. cbn.
  change (Namespace (RB_Meta rb), Name (RB_Meta rb)) with (rb_key rb). rewrite Hw, Hrb. unfold done_with.
  destruct (DeletionTimestamp (RB_Meta rb)) as [t|] eqn:Hd; [destruct (List.filter _ _) eqn:Hf|]; cbn; rewrite Hw.
  - apply outcome_removed; [done|by rewrite Hd].
  - replace (mkRB _ _ _) with (RemoveFinalizer rb replicaBindingFinalizer).
    + apply outcome_released; [done|]. right. cbn. by rewrite Hf.
    + unfold RemoveFinalizer, with_finalizers. by rewrite Hf, Hd.
  - replace (mkRB _ _ _) with (RemoveFinalizer rb replicaBindingFinalizer).
    + apply outcome_released; [done|by left].
    + unfold RemoveFinalizer, with_finalizers. by rewrite Hd.
Qed.

Lemma may_end_deletion :
  DeletionTimestamp (RB_Meta rb) <> None -> may_end (reconcile_deletion ControlNamespace rb).
Proof.
  intros Hd. unfold reconcile_deletion. apply may_end_bind; [apply quiet_gd|]. intros g.
  destruct (match g with Ok gd => _ | Err _ => _ end) as [ns gdName].
  apply may_end_bind; [apply quiet_client|]. intros [cs|e]; [|apply may_end_quiet, quiet_after].
  apply may_end_bind; [apply quiet_attempt_member|]. intros d.
  destruct (match d with Ok _ => _ | Err _ => _ end); [|apply may_end_quiet, quiet_after].
  apply may_end_move. intros t. by apply outcome_deleting.
Qed.

(** The steps of a binding that is not being deleted. *)
Hypothesis Hlive : DeletionTimestamp (RB_Meta rb) = None.

Lemma may_end_finalizer {A} (m : M A) :
  preserves w_rbs m -> may_end (patch_rb (AddFinalizer rb replicaBindingFinalizer) ≫= fun _ => m).
Proof.
  intros Hm. apply may_end_then; [|done].
  assert (Hmeta : Namespace (RB_Meta (AddFinalizer rb replicaBindingFinalizer)) = Namespace (RB_Meta rb) /\
                  Name (RB_Meta (AddFinalizer rb replicaBindingFinalizer)) = Name (RB_Meta rb) /\
                  DeletionTimestamp (RB_Meta (AddFinalizer rb replicaBindingFinalizer)) = None /\
                  RB_Spec (AddFinalizer rb replicaBindingFinalizer) = RB_Spec rb /\
                  RB_Status (AddFinalizer rb replicaBindingFinalizer) = RB_Status rb).
  { unfold AddFinalizer. by destruct (ContainsFinalizer _ _). }
  destruct Hmeta as (H1 & H2 & H3 & H4 & H5).
  apply hoare_request; [intros; by apply untouched_done|]. intros w Hw. unfold untouched in Hw. cbn.
  rewrite H1, H2, H3. change (Namespace (RB_Meta rb), Name (RB_Meta rb)) with (rb_key rb). rewrite Hw, Hrb. cbn.
  unfold done_with. cbn. rewrite Hw, H4.
  replace (mkRB _ _ _) with (AddFinalizer rb replicaBindingFinalizer); [by apply outcome_finalizer|].
  destruct (AddFinalizer rb replicaBindingFinalizer). cbn in *. by subst.
Qed.

Hypothesis Hfin : replicaBindingFinalizer ∈ Finalizers (RB_Meta rb).

Lemma may_end_step phase err res :
  phase_step (RB_Phase (RB_Status rb)) phase -> phase <> ReplicaBindingPhaseRunning ->
  may_end (move_to rb phase err res).
Proof.
  intros Hs Hr. apply may_end_move. intros t. apply outcome_step; [done|done|done|].
  cbn. by apply String.eqb_neq in Hr as ->.
Qed.

Lemma may_end_assigned gd cs depName :
  RB_Phase (RB_Status rb) = ReplicaBindingPhaseAssigned -> may_end (reconcile_assigned rb gd cs depName).
Proof.
  intros Hp. unfold reconcile_assigned. apply may_end_bind; [apply quiet_ensureNamespace|]. intros [[]|e].
  - apply may_end_bind; [apply quiet_attempt_member|]. intros [[]|e]; [|apply may_end_quiet, quiet_after].
    apply may_end_step; [rewrite Hp; constructor|done].
  - apply may_end_bind; [apply preserves_now|]. intros t.
    apply may_end_then; [|intros; apply quiet_after]. apply hoare_ignore. apply may_end_status.
    apply outcome_step; [done|done|cbn; rewrite Hp; constructor|done].
Qed.

Lemma may_end_rescheduling gd cs depName :
  RB_Phase (RB_Status rb) = ReplicaBindingPhaseRescheduling ->
  may_end (reconcile_rescheduling ControlNamespace rb gd cs depName).
Proof.
  intros Hp. unfold reconcile_rescheduling.
  apply may_end_bind; [apply quiet_client|]. intros [csOld|e]; [|apply may_end_quiet, quiet_after].
  apply may_end_bind; [apply quiet_attempt_member|]. intros d.
  destruct (match d with Ok _ => _ | Err _ => _ end); [|apply may_end_quiet, quiet_after].
  apply may_end_bind; [apply quiet_attempt_member|]. intros [dep|e]; [apply may_end_quiet, quiet_after|].
  destruct (IsNotFound e); [|apply may_end_quiet, quiet_after].
  apply may_end_bind; [apply quiet_attempt_member|]. intros c.
  destruct (match c with Ok _ => _ | Err _ => _ end); [|apply may_end_quiet, quiet_after].
  apply may_end_step; [rewrite Hp; constructor|done].
Qed.

Lemma may_end_applying gd cs depName :
  RB_Phase (RB_Status rb) = ReplicaBindingPhaseApplying -> may_end (reconcile_applying rb gd cs depName).
Proof.
  intros Hp. unfold reconcile_applying. apply may_end_bind; [apply quiet_attempt_member|]. intros [dep|e].
  - destruct (_ <=? _)%Z.
    + apply may_end_bind; [apply quiet_find_actual_node|]. intros node.
      apply may_end_bind; [apply preserves_now|]. intros t.
      apply may_end_then; [|intros; apply preserves_ret]. apply may_end_status.
      apply outcome_step; [done|done|cbn; rewrite Hp; constructor|done].
    + destruct (isDeploymentFailed dep); [|apply may_end_quiet, quiet_after].
      apply may_end_step; [rewrite Hp; constructor|done].
  - destruct (IsNotFound e); [|apply may_end_quiet, preserves_throw].
    apply may_end_bind; [apply preserves_ignore, quiet_member|]. intros. apply may_end_quiet, quiet_after.
Qed.

Lemma may_end_workload : may_end (reconcile_workload ControlNamespace rb).
Proof.
  unfold reconcile_workload. apply may_end_bind; [apply quiet_gd|].
  intros [gd|e]; [|apply may_end_quiet, quiet_after].
  apply may_end_bind; [apply quiet_client|]. intros [cs|e]; [|apply may_end_quiet, quiet_after].
  destruct (String.eqb_spec (RB_Phase (RB_Status rb)) ReplicaBindingPhaseAssigned); [by apply may_end_assigned|].
  destruct (String.eqb_spec (RB_Phase (RB_Status rb)) ReplicaBindingPhaseRescheduling); [by apply may_end_rescheduling|].
  destruct (String.eqb_spec (RB_Phase (RB_Status rb)) ReplicaBindingPhaseApplying); [by apply may_end_applying|].
  apply may_end_quiet, quiet_after.
Qed.
End outcomes.

Lemma may_end_binding {KUBE : KubeLib} ControlNamespace rbs rb :
  rbs !! rb_key rb = Some rb -> may_end rbs rb (reconcile_binding ControlNamespace rb).
Proof.
  intros Hrb. unfold reconcile_binding.
  destruct (String.eqb_spec (RB_Phase (RB_Status rb)) ReplicaBindingPhaseDeleting); [by apply may_end_deleting|].
  destruct (DeletionTimestamp (RB_Meta rb)) eqn:Hd; [apply may_end_deletion; congruence|].
  destruct (ContainsFinalizer rb _) eqn:Hf; cbn [negb]; [|apply may_end_finalizer; [done|done|apply quiet_after]].
  apply bool_decide_eq_true in Hf.
  destruct (str_empty _) eqn:He.
  { apply may_end_step; [done..| |done]. destruct (RB_Phase (RB_Status rb)); [constructor|done]. }
  do 3 (destruct (String.eqb _ _); [apply may_end_quiet, preserves_ret|]).
  by apply may_end_workload.
Qed.

#[export] Hint Resolve quiet_client quiet_member quiet_attempt_member quiet_gd quiet_after quiet_ensureNamespace
  quiet_find_actual_node may_end_quiet : go.

Lemma outcome_keeps_finalizer rbs rb rbs' :
  rb_outcome rbs rb rbs' -> rbs !! rb_key rb = Some rb -> replicaBindingFinalizer ∈ Finalizers (RB_Meta rb) ->
  RB_Phase (RB_Status rb) <> ReplicaBindingPhaseDeleting ->
  exists rb', rbs' !! rb_key rb = Some rb' /\ replicaBindingFinalizer ∈ Finalizers (RB_Meta rb').
Proof.
  intros Ho Hrb Hf Hp. destruct Ho; try done; rewrite ?lookup_insert_eq; try (by eexists; split).
  eexists; split; [done|]. unfold AddFinalizer. destruct (ContainsFinalizer _ _); [done|]. cbn.
  apply elem_of_app. by left.
Qed.

(** A NotFound that is not a fault is the answer of the member cluster. *)
Lemma deployment_get_NotFound {KUBE : KubeLib} cs ns name e w w' :
  (forall k e, fault k = Some e -> IsNotFound e = false) ->
  deployment_get cs ns name w = (w', Err e) -> IsNotFound e = true ->
  exists mc, w_members w' !! cs = Some mc /\ mc_deployments mc !! (ns, name) = None.
Proof.
  intros Hh. unfold deployment_get, member_request, request.
  destruct (fault _) as [e'|] eqn:He; [intros [= <- ->] Hnf; apply Hh in He; congruence|].
  destruct (w_members _ !! cs) as [mc|] eqn:Hmc; [|by intros [= <- <-]]. cbn in *.
  destruct (mc_deployments mc !! _) eqn:Hd; [done|]. intros [= <- <-] _.
  exists mc. split; [apply lookup_insert_eq|done].
Qed.

Section safety.
Context {KUBE : KubeLib} (ControlNamespace : string).

(** The only call that takes the finalizer is in phase Deleting, and it has seen
    that the member Deployment is gone. *)
Lemma deleting_releases rb w :
  (forall k e, fault k = Some e -> IsNotFound e = false) ->
  w_rbs w !! rb_key rb = Some rb -> replicaBindingFinalizer ∈ Finalizers (RB_Meta rb) ->
  let w' := (reconcile_deleting ControlNamespace rb w).1 in
  (exists rb', w_rbs w' !! rb_key rb = Some rb' /\ replicaBindingFinalizer ∈ Finalizers (RB_Meta rb')) \/
  (exists cs mc, w_clients w' !! TargetCluster (RB_Spec rb) = Some cs /\ w_members w' !! cs = Some mc /\
     mc_deployments mc !! (Namespace (RB_Meta rb),
       member_deployment_name (Ref_Name (RBS_GlobalDeploymentRef (RB_Spec rb))) (RBS_ReplicaIndex (RB_Spec rb))) = None).
Proof.
  intros Hh Hrb Hf w'. subst w'.
  destruct (reconcile_deleting ControlNamespace rb w) as [w' r] eqn:Hrun. cbn [fst]. revert Hrun.
  unfold reconcile_deleting, ContainsFinalizer. rewrite bool_decide_eq_true_2 by done.
  rewrite bind_run. unfold attempt at 1, getMemberClient.
  assert (Hout := MemberClientCache.GetOrBuild_outcome (CACHE:=binding_clients) (controlNS ControlNamespace rb) (TargetCluster (RB_Spec rb)) w).
  assert (Hq := MemberClientCache.preserves_GetOrBuild (CACHE:=binding_clients) w_rbs (controlNS ControlNamespace rb)
                  (TargetCluster (RB_Spec rb)) (fun _ => eq_refl) (fun _ _ => eq_refl) w).
  destruct (MemberClientCache.GetOrBuild _ _ w) as [w1 [cs|e]]; cbn [cached binding_clients] in Hout; cbn in Hq; cbv iota beta.
  2: { intros [= <- _]. left. exists rb. by rewrite Hq. }
  destruct Hout as (_ & _ & Hc & _).
  set (dep := member_deployment_name _ _).
  rewrite bind_run. unfold attempt at 1.
  assert (Hq2 : w_rbs (deployment_get cs (Namespace (RB_Meta rb)) dep w1).1 = w_rbs w1)
    by (by apply (preserves_member_request w_rbs)).
  assert (Hc2 : w_clients (deployment_get cs (Namespace (RB_Meta rb)) dep w1).1 = w_clients w1)
    by (by apply (preserves_member_request w_clients)).
  destruct (deployment_get cs (Namespace (RB_Meta rb)) dep w1) as [w2 [d|e]] eqn:Hget; cbn in Hq2, Hc2; cbv iota beta.
  { intros [= <- _]. left. exists rb. by rewrite Hq2, Hq. }
  destruct (IsNotFound e) eqn:Hnf.
  2: { intros [= <- _]. left. exists rb. by rewrite Hq2, Hq. }
  apply deployment_get_NotFound in Hget as (mc & Hmc & Hdep); [|done|done].
  intros Hrun. right. exists cs, mc.
  assert (Hpres : forall T (proj : World -> T), (forall w, proj (tick w) = proj w) ->
            (forall f w, proj (set_rbs f w) = proj w) -> proj w' = proj w2).
  { intros T proj H1 H2. change w' with (w', r).1. rewrite <- Hrun.
    apply preserves_bind; [by apply preserves_patch_rb|intros; apply preserves_ret]. }
  rewrite (Hpres _ w_clients), (Hpres _ w_members), Hc2, Hc, lookup_insert_eq by done. done.
Qed.

(** C6: whatever requests fail, one call of [Reconcile] changes no other binding and
    never the spec of its own. The phase follows the machine [phase_step]; the
    rest of the metadata changes only by the finalizer, and only a binding under
    deletion enters Deleting or disappears. *)
Theorem Reconcile_outcome key rb w :
  w_rbs w !! key = Some rb -> rb_key rb = key ->
  rb_outcome (w_rbs w) rb (w_rbs (Reconcile ControlNamespace key w).1).
Proof.
  intros Hrb <-. unfold Reconcile. rewrite bind_run. unfold attempt, get_object, request.
  destruct (fault _) as [e|].
  - rewrite (preserves_ignore_not_found w_rbs Done e). apply outcome_unchanged.
  - cbn [w_rbs tick]. rewrite Hrb. apply (may_end_binding ControlNamespace (w_rbs w) rb Hrb). done.
Qed.

(** No orphan through this controller: as long as NotFound is the truth, a call
    takes the finalizer off a binding (or lets it disappear) only when the
    cluster the binding targets no longer holds its Deployment. *)
Theorem Reconcile_finalizer_safe key rb w :
  (forall k e, fault k = Some e -> IsNotFound e = false) ->
  w_rbs w !! key = Some rb -> rb_key rb = key -> replicaBindingFinalizer ∈ Finalizers (RB_Meta rb) ->
  let w' := (Reconcile ControlNamespace key w).1 in
  (forall rb', w_rbs w' !! key = Some rb' -> replicaBindingFinalizer ∉ Finalizers (RB_Meta rb')) ->
  RB_Phase (RB_Status rb) = ReplicaBindingPhaseDeleting /\
  exists cs mc, w_clients w' !! TargetCluster (RB_Spec rb) = Some cs /\ w_members w' !! cs = Some mc /\
    mc_deployments mc !! (Namespace (RB_Meta rb),
      member_deployment_name (Ref_Name (RBS_GlobalDeploymentRef (RB_Spec rb))) (RBS_ReplicaIndex (RB_Spec rb))) = None.
Proof.
  intros Hh Hrb <- Hf w' Hgone.
  assert (Hphase : RB_Phase (RB_Status rb) = ReplicaBindingPhaseDeleting).
  { destruct (decide (RB_Phase (RB_Status rb) = ReplicaBindingPhaseDeleting)) as [|Hp]; [done|exfalso].
    assert (Ho : rb_outcome (w_rbs w) rb (w_rbs w')).
    { subst w'. unfold Reconcile. rewrite bind_run. unfold attempt, get_object, request.
      destruct (fault _) as [e|]; [rewrite (preserves_ignore_not_found w_rbs Done e); apply outcome_unchanged|].
      cbn [w_rbs tick]. rewrite Hrb. by apply (may_end_binding ControlNamespace (w_rbs w) rb Hrb). }
    destruct (outcome_keeps_finalizer _ _ _ Ho Hrb Hf Hp) as (rb' & Hrb' & Hin). by apply (Hgone rb'). }
  split; [done|]. revert Hgone. subst w'. unfold Reconcile. rewrite bind_run. unfold attempt, get_object, request.
  destruct (fault _) as [e|].
  { rewrite (preserves_ignore_not_found w_rbs Done e). intros Hgone. by apply Hgone in Hrb. }
  cbn [w_rbs tick]. rewrite Hrb. cbn [require]. unfold reconcile_binding. rewrite Hphase, String.eqb_refl.
  intros Hgone. destruct (deleting_releases rb (tick w) Hh Hrb Hf) as [(rb' & H1 & H2)|H]; [|exact H].
  exfalso. by apply (Hgone rb').
Qed.

(** ** Runs without faults *)

Hypothesis no_faults : forall k, fault k = None.

(** A binding this controller has to place, its global deployment, the client and
    the state of the target cluster. *)
Record placing (rb : ReplicaBinding) (gd : GlobalDeployment) (cs : string) (mc : MemberCluster) (w : World) : Prop := {
  placing_rb : w_rbs w !! rb_key rb = Some rb;
  placing_live : DeletionTimestamp (RB_Meta rb) = None;
  placing_finalizer : replicaBindingFinalizer ∈ Finalizers (RB_Meta rb);
  placing_gd : w_gds w !! (Ref_Namespace (RBS_GlobalDeploymentRef (RB_Spec rb)),
                           Ref_Name (RBS_GlobalDeploymentRef (RB_Spec rb))) = Some gd;
  placing_ns : controlNS ControlNamespace rb <> "";
  placing_target : TargetCluster (RB_Spec rb) <> "";
  placing_client : w_clients w !! TargetCluster (RB_Spec rb) = Some cs;
  placing_member : w_members w !! cs = Some mc;
  placing_namespace : Namespace (GD_Meta gd) ∈ mc_namespaces mc;
  placing_workload_ns : Namespace (GD_Meta gd) <> ""
}.

(** A request to a member cluster leaves the rest of the environment alone. *)
Definition member_step (w w' : World) : Prop :=
  w_rbs w' = w_rbs w /\ w_clients w' = w_clients w /\ w_clock w' = w_clock w.

(** The Deployment the binding owns. *)
Definition dep_key (rb : ReplicaBinding) (gd : GlobalDeployment) : Key :=
  (Namespace (GD_Meta gd), member_deployment_name (Name (GD_Meta gd)) (RBS_ReplicaIndex (RB_Spec rb))).

Definition dep_of (rb : ReplicaBinding) (gd : GlobalDeployment) : Deployment :=
  buildMemberDeployment gd (dep_key rb gd).2 (TargetNodeName (RB_Spec rb)).

Lemma Reconcile_placing rb gd cs mc w :
  placing rb gd cs mc w -> RB_Phase (RB_Status rb) ∈ [ReplicaBindingPhaseAssigned; ReplicaBindingPhaseRescheduling] ->
  exists w', Reconcile ControlNamespace (rb_key rb) w =
    (if String.eqb (RB_Phase (RB_Status rb)) ReplicaBindingPhaseAssigned
     then reconcile_assigned rb gd cs (dep_key rb gd).2 w'
     else reconcile_rescheduling ControlNamespace rb gd cs (dep_key rb gd).2 w') /\
    w_rbs w' = w_rbs w /\ w_members w' = w_members w /\ w_clients w' = w_clients w /\ w_clock w' = w_clock w.
Proof.
  intros [] Hp. exists (tick (tick w)). split; [|done].
  unfold Reconcile. rewrite bind_run, attempt_run, (get_object_run no_faults). cbn [fst snd].
  change (w_rbs (tick w)) with (w_rbs w). rewrite placing_rb0. cbn [require]. unfold reconcile_binding.
  assert (Hnd : String.eqb (RB_Phase (RB_Status rb)) ReplicaBindingPhaseDeleting = false /\
          str_empty (RB_Phase (RB_Status rb)) = false /\
          String.eqb (RB_Phase (RB_Status rb)) ReplicaBindingPhaseFailed = false /\
          String.eqb (RB_Phase (RB_Status rb)) ReplicaBindingPhaseRunning = false /\
          String.eqb (RB_Phase (RB_Status rb)) ReplicaBindingPhasePending = false).
  { apply elem_of_cons in Hp as [->|Hp%list_elem_of_singleton]; [done|]. by rewrite Hp. }
  destruct Hnd as (-> & -> & -> & -> & ->). rewrite placing_live0. unfold ContainsFinalizer.
  rewrite bool_decide_eq_true_2 by done. cbn [negb]. unfold reconcile_workload.
  rewrite bind_run, attempt_run, (get_object_run no_faults). cbn [fst snd].
  change (w_gds (tick (tick w))) with (w_gds w). rewrite placing_gd0. cbn [require].
  rewrite bind_run, attempt_run. unfold getMemberClient.
  rewrite (MemberClientCache.GetOrBuild_cached (CACHE:=binding_clients) _ _ cs) by done. cbn [fst snd].
  destruct (String.eqb_spec (RB_Phase (RB_Status rb)) ReplicaBindingPhaseAssigned) as [|Hna]; [done|].
  apply elem_of_cons in Hp as [?|Hp%list_elem_of_singleton]; [done|]. by rewrite Hp.
Qed.

Lemma move_to_run rb phase err res w :
  w_rbs w !! rb_key rb = Some rb ->
  exists w', move_to rb phase err res w = (w', Ok res) /\ w_members w' = w_members w /\
    w_rbs w' = <[rb_key rb := with_phase rb phase (w_clock w) err]> (w_rbs w).
Proof.
  intros Hrb. unfold move_to. rewrite bind_run. cbn [now]. rewrite bind_run. unfold patch_rb_status.
  rewrite (request_run no_faults). cbn. change (Namespace (RB_Meta rb), Name (RB_Meta rb)) with (rb_key rb).
  rewrite Hrb. by eexists.
Qed.

Lemma ensureNamespace_run cs mc ns w :
  w_members w !! cs = Some mc -> ns <> "" -> ns ∈ mc_namespaces mc ->
  exists w', ensureNamespace cs ns w = (w', Ok tt) /\ member_step w w' /\ w_members w' = w_members w.
Proof.
  intros Hmc Hns Hin. unfold ensureNamespace. assert (str_empty ns = false) as -> by (by destruct ns).
  rewrite bind_run, attempt_run. unfold namespace_get. rewrite (member_request_run no_faults _ mc) by done.
  cbn [fst snd]. rewrite decide_True by done. eexists. split; [done|]. split; [done|]. cbn. by rewrite insert_id.
Qed.

(** [Create] where the namespace exists. *)
Lemma deployment_create_run cs mc ns dep w :
  w_members w !! cs = Some mc -> ns ∈ mc_namespaces mc ->
  exists w', deployment_create cs ns dep w =
    (w', match mc_deployments mc !! (ns, Dep_Name dep) with Some _ => Err AlreadyExists | None => Ok tt end) /\
    member_step w w' /\
    w_members w' = match mc_deployments mc !! (ns, Dep_Name dep) with
                   | Some _ => w_members w
                   | None => <[cs := with_deployments mc (<[(ns, Dep_Name dep) := dep]> (mc_deployments mc))]> (w_members w)
                   end.
Proof.
  intros Hmc Hin. unfold deployment_create. rewrite (member_request_run no_faults _ mc) by done.
  rewrite decide_True by done. destruct (mc_deployments mc !! (ns, Dep_Name dep));
    (eexists; split; [done|]; split; [done|]); cbn; [by rewrite insert_id|done].
Qed.

(** Afterwards the member cluster holds a Deployment of the name. *)
Lemma deployment_ensured cs mc ns dep w :
  w_members w !! cs = Some mc -> ns ∈ mc_namespaces mc ->
  exists w' r mc', deployment_create cs ns dep w = (w', r) /\
    match r with Ok _ => true | Err e => IsAlreadyExists e end = true /\ member_step w w' /\
    w_members w' = <[cs := mc']> (w_members w) /\
    mc_deployments mc' !! (ns, Dep_Name dep) = Some (default dep (mc_deployments mc !! (ns, Dep_Name dep))).
Proof.
  intros Hmc Hin. destruct (deployment_create_run cs mc ns dep w Hmc Hin) as (w' & Hrun & Hstep & Hw').
  exists w'. destruct (mc_deployments mc !! (ns, Dep_Name dep)) as [d|] eqn:Hd; eexists.
  - exists mc. split_and!; [exact Hrun|done|done|by rewrite insert_id|exact Hd].
  - eexists. split_and!; [exact Hrun|done|done|exact Hw'|]. by apply lookup_insert_eq.
Qed.

(** [Delete] of a Deployment without finalizers, or of none. *)
Lemma deployment_delete_run cs mc ns name w :
  w_members w !! cs = Some mc ->
  (forall dep, mc_deployments mc !! (ns, name) = Some dep -> Dep_Finalizers dep = []) ->
  exists w' r, deployment_delete cs ns name w = (w', r) /\
    match r with Ok _ => true | Err e => IsNotFound e end = true /\ member_step w w' /\
    w_members w' = <[cs := with_deployments mc (delete (ns, name) (mc_deployments mc))]> (w_members w).
Proof.
  intros Hmc Hfin. unfold deployment_delete. rewrite (member_request_run no_faults _ mc) by done.
  destruct (mc_deployments mc !! (ns, name)) as [dep|] eqn:Hd; cbn.
  - rewrite (Hfin dep) by done. by eexists _, _.
  - eexists _, _. split; [done|]. split; [done|]. split; [done|]. cbn. f_equal.
    unfold with_deployments. rewrite delete_id by done. by destruct mc.
Qed.

Lemma deployment_get_run cs mc ns name w :
  w_members w !! cs = Some mc ->
  exists w', deployment_get cs ns name w = (w', require (mc_deployments mc !! (ns, name)) NotFound) /\
    member_step w w' /\ w_members w' = w_members w.
Proof.
  intros Hmc. unfold deployment_get. rewrite (member_request_run no_faults _ mc) by done.
  eexists. split; [done|]. split; [done|]. cbn. by rewrite insert_id.
Qed.

(** An Assigned binding whose target cluster has the namespace and no Deployment
    of that name gets its Deployment, one replica pinned to the target node, and
    is Applying. A Deployment that is already there is not an accepted outcome:
    the binding stays Assigned and the same call is repeated, so a binding whose
    status write failed after the Deployment was created never leaves Assigned. *)
Theorem Reconcile_assigned rb gd cs mc w :
  placing rb gd cs mc w -> RB_Phase (RB_Status rb) = ReplicaBindingPhaseAssigned ->
  let w' := (Reconcile ControlNamespace (rb_key rb) w).1 in
  (Reconcile ControlNamespace (rb_key rb) w).2 = Ok (mkResult (2 * Second)) /\
  match mc_deployments mc !! dep_key rb gd with
  | None =>
      w_members w' = <[cs := with_deployments mc (<[dep_key rb gd := dep_of rb gd]> (mc_deployments mc))]> (w_members w) /\
      w_rbs w' = <[rb_key rb := with_phase rb ReplicaBindingPhaseApplying (w_clock w) ""]> (w_rbs w)
  | Some _ => w_members w' = w_members w /\ w_rbs w' = w_rbs w
  end.
Proof.
  intros Hpl Hp w'. subst w'.
  destruct (Reconcile_placing rb gd cs mc w Hpl) as (w1 & -> & Hrbs & Hmem & _ & Hclk); [rewrite Hp; by left|].
  destruct Hpl. rewrite Hp, String.eqb_refl. unfold reconcile_assigned. rewrite bind_run, attempt_run.
  destruct (ensureNamespace_run cs mc (Namespace (GD_Meta gd)) w1) as (w2 & -> & (Hr2 & _ & Hc2) & Hm2);
    [by rewrite Hmem|done|done|]. cbn [fst snd]. rewrite bind_run, attempt_run.
  destruct (deployment_create_run cs mc (Namespace (GD_Meta gd)) (dep_of rb gd) w2)
    as (w3 & Hcreate & (Hr3 & _ & Hc3) & Hm3); [by rewrite Hm2, Hmem|done|].
  unfold dep_of in Hcreate. rewrite Hcreate. cbn [fst snd]. unfold dep_of in Hm3. cbn [Dep_Name buildMemberDeployment] in *.
  change (Namespace (GD_Meta gd), (dep_key rb gd).2) with (dep_key rb gd) in *.
  destruct (mc_deployments mc !! dep_key rb gd); cbn.
  - by rewrite Hm3, Hm2, Hmem, Hr3, Hr2, Hrbs.
  - destruct (move_to_run rb ReplicaBindingPhaseApplying "" (mkResult (2 * Second)) w3) as (w4 & -> & Hm4 & Hr4).
    { by rewrite Hr3, Hr2, Hrbs. }
    cbn. by rewrite Hm4, Hm3, Hm2, Hmem, Hr4, Hr3, Hr2, Hrbs, Hc3, Hc2, Hclk.
Qed.

Lemma move_to_clients rb phase err res : preserves w_clients (move_to rb phase err res).
Proof.
  apply preserves_bind; [apply preserves_now|]. intros t.
  apply preserves_bind; [by apply preserves_patch_rb_status|intros; apply preserves_ret].
Qed.

(** A call in phase Rescheduling, with the clients of both clusters at hand. *)
Lemma rescheduling_run rb gd cs mc csOld mcOld w :
  placing rb gd cs mc w -> RB_Phase (RB_Status rb) = ReplicaBindingPhaseRescheduling ->
  RB_ClusterName (RB_Status rb) <> "" ->
  w_clients w !! RB_ClusterName (RB_Status rb) = Some csOld -> w_members w !! csOld = Some mcOld ->
  (forall dep, mc_deployments mcOld !! dep_key rb gd = Some dep -> Dep_Finalizers dep = []) ->
  let w' := (Reconcile ControlNamespace (rb_key rb) w).1 in
  let gone := with_deployments mcOld (delete (dep_key rb gd) (mc_deployments mcOld)) in
  (Reconcile ControlNamespace (rb_key rb) w).2 = Ok (mkResult (2 * Second)) /\
  w_clients w' = w_clients w /\
  w_rbs w' = <[rb_key rb := with_phase rb ReplicaBindingPhaseApplying (w_clock w) ""]> (w_rbs w) /\
  (csOld <> cs -> w_members w' !! csOld = Some gone) /\
  (forall cs', cs' <> cs -> cs' <> csOld -> w_members w' !! cs' = w_members w !! cs') /\
  exists mc', w_members w' !! cs = Some mc' /\
    mc_deployments mc' !! dep_key rb gd =
      Some (if decide (csOld = cs) then dep_of rb gd else default (dep_of rb gd) (mc_deployments mc !! dep_key rb gd)).
Proof.
  intros Hpl Hp Hcl Hcs Hmo Hfin w' gone. subst w'.
  destruct (Reconcile_placing rb gd cs mc w Hpl) as (w1 & -> & Hrbs & Hmem & Hcli & Hclk); [rewrite Hp; right; by left|].
  destruct Hpl. rewrite Hp. cbn [String.eqb]. unfold reconcile_rescheduling.
  change (String.eqb ReplicaBindingPhaseRescheduling ReplicaBindingPhaseAssigned) with false. cbv iota.
  rewrite bind_run, attempt_run. unfold getMemberClient.
  rewrite (MemberClientCache.GetOrBuild_cached (CACHE:=binding_clients) _ _ csOld) by (try done; by cbn; rewrite Hcli). cbn [fst snd].
  rewrite bind_run, attempt_run.
  destruct (deployment_delete_run csOld mcOld (Namespace (GD_Meta gd)) (dep_key rb gd).2 w1)
    as (w2 & r & -> & Hr & (Hr2 & Hl2 & Hc2) & Hm2); [by rewrite Hmem|exact Hfin|]. cbn [fst snd]. rewrite Hr.
  change (Namespace (GD_Meta gd), (dep_key rb gd).2) with (dep_key rb gd) in *. fold gone in Hm2.
  rewrite bind_run, attempt_run.
  destruct (deployment_get_run csOld gone (Namespace (GD_Meta gd)) (dep_key rb gd).2 w2)
    as (w3 & -> & (Hr3 & Hl3 & Hc3) & Hm3); [by rewrite Hm2, lookup_insert_eq|]. cbn [fst snd].
  change (Namespace (GD_Meta gd), (dep_key rb gd).2) with (dep_key rb gd) in *.
  subst gone. cbn [mc_deployments with_deployments]. rewrite lookup_delete_eq. cbn [require IsNotFound].
  set (gone := with_deployments mcOld (delete (dep_key rb gd) (mc_deployments mcOld))) in *.
  rewrite bind_run, attempt_run.
  assert (Hnew : exists mcN, w_members w3 !! cs = Some mcN /\ Namespace (GD_Meta gd) ∈ mc_namespaces mcN /\
            mc_deployments mcN !! dep_key rb gd =
            if decide (csOld = cs) then None else mc_deployments mc !! dep_key rb gd).
  { rewrite Hm3, Hm2, Hmem. destruct (decide (csOld = cs)) as [->|Hne].
    - rewrite lookup_insert_eq. exists gone. split; [done|]. assert (mcOld = mc) as -> by congruence.
      split; [done|]. apply lookup_delete_eq.
    - rewrite lookup_insert_ne by done. exists mc. done. }
  destruct Hnew as (mcN & HmcN & HnsN & HdN).
  destruct (deployment_ensured cs mcN (Namespace (GD_Meta gd)) (dep_of rb gd) w3 HmcN HnsN)
    as (w4 & r4 & mc' & Hcreate & Hrc & (Hr4 & Hl4 & Hc4) & Hm4 & Hd').
  unfold dep_of in Hcreate. rewrite Hcreate. cbn [fst snd]. rewrite Hrc.
  change (Namespace (GD_Meta gd), Dep_Name (dep_of rb gd)) with (dep_key rb gd) in *.
  destruct (move_to_run rb ReplicaBindingPhaseApplying "" (mkResult (2 * Second)) w4) as (w5 & Hrun5 & Hm5 & Hr5).
  { by rewrite Hr4, Hr3, Hr2, Hrbs. }
  assert (Hc5 := move_to_clients rb ReplicaBindingPhaseApplying "" (mkResult (2 * Second)) w4). rewrite Hrun5 in Hc5 |- *.
  cbn [fst snd]. rewrite Hm5, Hr5, Hm4, Hm3, Hm2, Hmem, Hr4, Hr3, Hr2, Hrbs, Hc4, Hc3, Hc2, Hclk.
  split_and!; [done|cbn in Hc5; by rewrite Hc5, Hl4, Hl3, Hl2, Hcli|done| | |].
  - intros Hne. by rewrite lookup_insert_ne, lookup_insert_eq.
  - intros cs' H1 H2. by rewrite !lookup_insert_ne.
  - exists mc'. rewrite lookup_insert_eq. split; [done|]. rewrite Hd', HdN. by destruct (decide _).
Qed.

(** C23: a Rescheduling binding whose old Deployment can go at once leaves one
    Deployment behind: the old cluster loses it, the target cluster holds one of
    that name (the pinned new one, unless one was already there), and the binding
    is Applying. *)
Theorem Reconcile_rescheduling rb gd cs mc csOld mcOld w :
  placing rb gd cs mc w -> RB_Phase (RB_Status rb) = ReplicaBindingPhaseRescheduling ->
  RB_ClusterName (RB_Status rb) <> "" ->
  w_clients w !! RB_ClusterName (RB_Status rb) = Some csOld -> w_members w !! csOld = Some mcOld ->
  (forall dep, mc_deployments mcOld !! dep_key rb gd = Some dep -> Dep_Finalizers dep = []) ->
  let w' := (Reconcile ControlNamespace (rb_key rb) w).1 in
  let gone := with_deployments mcOld (delete (dep_key rb gd) (mc_deployments mcOld)) in
  (Reconcile ControlNamespace (rb_key rb) w).2 = Ok (mkResult (2 * Second)) /\
  w_rbs w' = <[rb_key rb := with_phase rb ReplicaBindingPhaseApplying (w_clock w) ""]> (w_rbs w) /\
  (csOld <> cs -> w_members w' !! csOld = Some gone) /\
  (forall cs', cs' <> cs -> cs' <> csOld -> w_members w' !! cs' = w_members w !! cs') /\
  exists mc', w_members w' !! cs = Some mc' /\
    mc_deployments mc' !! dep_key rb gd =
      Some (if decide (csOld = cs) then dep_of rb gd else default (dep_of rb gd) (mc_deployments mc !! dep_key rb gd)).
Proof.
  intros Hpl Hp Hcl Hcs Hmo Hfin w' gone.
  destruct (rescheduling_run rb gd cs mc csOld mcOld w) as (H1 & _ & H2); [done..|]. by split.
Qed.
End safety.

(** ** Concrete runs *)

#[local] Existing Instance reliable_kube.

Definition demo_rb (phase : string) (deleted : Time) : ReplicaBinding :=
  mkRB (mkMeta "web-rb-0" "default" "u1" 1 ∅ ∅ [replicaBindingFinalizer] deleted [])
    (mkRBSpec (mkRef "web" "default") 0 "c2" "n2" true "tok")
    (mkRBStatus phase "" None "n1" "c1" (mkRescheduleStatus "" None (mkObserved "" "" "") "" "" "")).
Definition demo_gd : GlobalDeployment :=
  mkGD (mkMeta "web" "default" "u2" 1 ∅ ∅ [] None []) (mkGDSpec (Some 1%Z) "{}") (mkGDStatus "" 0 0 0 None "").
Definition demo_dep : Deployment :=
  mkDeployment "web-r0" "default" ∅ [] false (mkDepSpec (Some 1%Z) None ∅ [] [] None "") (mkDepStatus 1 1 1 []).
Definition demo_member (deps : gmap Key Deployment) : MemberCluster := mkMember {["default"]} deps ∅ ∅.
Definition demo_world (rb : ReplicaBinding) (old : gmap Key Deployment) : World :=
  mkWorld ∅ {[rb_key rb := rb]} {[("default", "web") := demo_gd]} ∅ ∅
    (<["https://c1" := demo_member old]> {["https://c2" := demo_member ∅]})
    (<["c1" := "https://c1"]> {["c2" := "https://c2"]}) ∅ 7 0 empty_policy_state ∅.

Lemma Reconcile_outcome_witness :
  rb_outcome (w_rbs (demo_world (demo_rb "" None) ∅)) (demo_rb "" None)
    (w_rbs (Reconcile "kubex-system" ("default", "web-rb-0") (demo_world (demo_rb "" None) ∅)).1).
Proof. apply (Reconcile_outcome "kubex-system" ("default", "web-rb-0")); by_eval. Defined.

Lemma Reconcile_finalizer_safe_witness :
  RB_Phase (RB_Status (demo_rb ReplicaBindingPhaseDeleting (Some 3%Z))) = ReplicaBindingPhaseDeleting.
Proof.
  apply (Reconcile_finalizer_safe "kubex-system" ("default", "web-rb-0") (demo_rb ReplicaBindingPhaseDeleting (Some 3%Z))
    (demo_world (demo_rb ReplicaBindingPhaseDeleting (Some 3%Z)) ∅)).
  - discriminate.
  - by_eval.
  - by_eval.
  - apply list_elem_of_singleton. reflexivity.
  - intros rb' H. exfalso. revert H.
    assert (w_rbs (Reconcile "kubex-system" ("default", "web-rb-0")
              (demo_world (demo_rb ReplicaBindingPhaseDeleting (Some 3%Z)) ∅)).1 !! ("default", "web-rb-0") = None) as ->
      by by_eval.
    discriminate.
Defined.

Lemma demo_placing phase old :
  placing "kubex-system" (demo_rb phase None) demo_gd "https://c2" (demo_member ∅) (demo_world (demo_rb phase None) old).
Proof.
  split; try done. apply list_elem_of_singleton. reflexivity.
Qed.

Lemma Reconcile_assigned_witness :
  w_rbs (Reconcile "kubex-system" ("default", "web-rb-0") (demo_world (demo_rb ReplicaBindingPhaseAssigned None) ∅)).1 =
  <[("default", "web-rb-0") := with_phase (demo_rb ReplicaBindingPhaseAssigned None) ReplicaBindingPhaseApplying 7 ""]>
    (w_rbs (demo_world (demo_rb ReplicaBindingPhaseAssigned None) ∅)).
Proof.
  refine (proj2 (proj2 (Reconcile_assigned "kubex-system" _ (demo_rb ReplicaBindingPhaseAssigned None) demo_gd "https://c2"
    (demo_member ∅) (demo_world (demo_rb ReplicaBindingPhaseAssigned None) ∅) _ _))); [reflexivity| |reflexivity].
  apply demo_placing.
Defined.

Lemma Reconcile_rescheduling_witness :
  w_rbs (Reconcile "kubex-system" ("default", "web-rb-0")
    (demo_world (demo_rb ReplicaBindingPhaseRescheduling None) {[("default", "web-r0") := demo_dep]})).1 =
  <[("default", "web-rb-0") := with_phase (demo_rb ReplicaBindingPhaseRescheduling None) ReplicaBindingPhaseApplying 7 ""]>
    (w_rbs (demo_world (demo_rb ReplicaBindingPhaseRescheduling None) {[("default", "web-r0") := demo_dep]})).
Proof.
  refine (proj1 (proj2 (Reconcile_rescheduling "kubex-system" _ (demo_rb ReplicaBindingPhaseRescheduling None) demo_gd
    "https://c2" (demo_member ∅) "https://c1" (demo_member {[("default", "web-r0") := demo_dep]})
    (demo_world (demo_rb ReplicaBindingPhaseRescheduling None) {[("default", "web-r0") := demo_dep]}) _ _ _ _ _ _))).
  - reflexivity.
  - apply demo_placing.
  - reflexivity.
  - discriminate.
  - by_eval.
  - by_eval.
  - intros dep H. assert (dep = demo_dep) as -> by (apply (inj Some); rewrite <- H; by_eval). reflexivity.
Defined.
