(* ===== verification/BindingRace.v ===== *)
(** * The binding controller, step by step
    (replicabinding_controller.go, Reconcile)

    ReplicaBinding runs a call as a whole. Here it is a script: any of its requests may
    come late, on a binding that others have changed since it was read, and a patch
    carries the fields that differ from what was read. Looking up or building the
    client of a member cluster is one step. Run alone, the script is [Reconcile]. *)

From S2P Require Import Prelude GoTime ApiTypes KubeApi Scripts MemberClients PlanController ReplicaBinding.

Local Open Scope string_scope.
Local Open Scope list_scope.

(** ** Patches *)

(** The status after a patch: this controller does not write the record of a
    reschedule. *)
Definition merge_status (read new stored : ReplicaBindingStatus) : ReplicaBindingStatus :=
  mkRBStatus (merge_field (RB_Phase read) (RB_Phase new) (RB_Phase stored))
    (merge_field (LastError read) (LastError new) (LastError stored))
    (merge_field (LastTransitionTime read) (LastTransitionTime new) (LastTransitionTime stored))
    (merge_field (RB_NodeName read) (RB_NodeName new) (RB_NodeName stored))
    (merge_field (RB_ClusterName read) (RB_ClusterName new) (RB_ClusterName stored))
    (RB_Reschedule stored).

Section scripts.
Context {KUBE : KubeLib}.
Variable ControlNamespace : string.

(** [r.Status().Patch(ctx, &rb, client.MergeFrom(base))]. *)
Definition merge_rb_status (base rb : ReplicaBinding) : M unit :=
  request (fun w =>
    match w_rbs w !! rb_key base with
    | None => (w, Err NotFound)
    | Some old =>
        (set_rbs <[rb_key base := mkRB (RB_Meta old) (RB_Spec old)
                     (merge_status (RB_Status base) (RB_Status rb) (RB_Status old))]> w, Ok tt)
    end).

(** [r.Patch(ctx, &rb, client.MergeFrom(base))], of a binding that differs in its
    finalizers: the patch holds the whole list. *)
Definition merge_finalizers (base rb : ReplicaBinding) : M unit :=
  request (fun w =>
    match w_rbs w !! rb_key base with
    | None => (w, Err NotFound)
    | Some old =>
        let l := merge_field (Finalizers (RB_Meta base)) (Finalizers (RB_Meta rb)) (Finalizers (RB_Meta old)) in
        match DeletionTimestamp (RB_Meta old), l with
        | Some _, [] => (set_rbs (delete (rb_key base)) w, Ok tt)
        | _, _ => (set_rbs <[rb_key base := with_finalizers old l]> w, Ok tt)
        end
    end).

(** ** The handlers *)

Definition pausing (d : Z) : script Result := mret (mkResult d).

Definition ensuring (cs namespace : string) : script unit :=
  if str_empty namespace then raise (OtherError "namespace is empty")
  else
    r ← trying (step (namespace_get cs namespace));
    match r with
    | Ok _ => mret tt
    | Err e =>
        if negb (IsNotFound e) then raise e
        else
          c ← trying (step (namespace_create cs namespace));
          match c with
          | Ok _ => mret tt
          | Err e' => if IsAlreadyExists e' then mret tt else raise e'
          end
    end.

Definition failing (rb : ReplicaBinding) (msg : string) : script Result :=
  t ← step now;
  dropping (step (merge_rb_status rb (with_phase rb ReplicaBindingPhaseFailed t msg))) ≫= fun _ =>
  pausing (10 * Second).

Definition moving (rb : ReplicaBinding) (phase err : string) (res : Result) : script Result :=
  t ← step now;
  step (merge_rb_status rb (with_phase rb phase t err)) ≫= fun _ => mret res.

Definition deleting_steps (rb : ReplicaBinding) : script Result :=
  if ContainsFinalizer rb replicaBindingFinalizer then
    c ← trying (step (getMemberClient (controlNS ControlNamespace rb) (TargetCluster (RB_Spec rb))));
    match c with
    | Err _ => pausing (2 * Second)
    | Ok cs =>
        let depName :=
          member_deployment_name (Ref_Name (RBS_GlobalDeploymentRef (RB_Spec rb))) (RBS_ReplicaIndex (RB_Spec rb)) in
        g ← trying (step (deployment_get cs (Namespace (RB_Meta rb)) depName));
        match g with
        | Ok _ => pausing (2 * Second)
        | Err e =>
            if IsNotFound e then
              step (merge_finalizers rb (RemoveFinalizer rb replicaBindingFinalizer)) ≫= fun _ => mret Done
            else pausing (2 * Second)
        end
    end
  else mret Done.

Definition deletion_steps (rb : ReplicaBinding) : script Result :=
  let ref := RBS_GlobalDeploymentRef (RB_Spec rb) in
  g ← trying (step (get_object w_gds (Ref_Namespace ref, Ref_Name ref)));
  let '(workloadNS, gdName) :=
    match g with
    | Ok gd => (if str_empty (Namespace (GD_Meta gd)) then Namespace (RB_Meta rb) else Namespace (GD_Meta gd),
                if str_empty (Name (GD_Meta gd)) then Ref_Name ref else Name (GD_Meta gd))
    | Err _ => (Namespace (RB_Meta rb), Ref_Name ref)
    end in
  c ← trying (step (getMemberClient (controlNS ControlNamespace rb) (TargetCluster (RB_Spec rb))));
  match c with
  | Err _ => pausing (2 * Second)
  | Ok cs =>
      d ← trying (step (deployment_delete cs workloadNS (member_deployment_name gdName (RBS_ReplicaIndex (RB_Spec rb)))));
      if match d with Ok _ => true | Err e => IsNotFound e end
      then moving rb ReplicaBindingPhaseDeleting "" (mkResult (200 * Millisecond))
      else pausing (2 * Second)
  end.

Definition assigned_steps (rb : ReplicaBinding) (gd : GlobalDeployment) (cs depName : string) : script Result :=
  n ← trying (ensuring cs (Namespace (GD_Meta gd)));
  match n with
  | Err e =>
      failing rb ("ensure member namespace failed (cluster=" +:+ TargetCluster (RB_Spec rb) +:+ ", namespace=" +:+
                  Namespace (GD_Meta gd) +:+ "): " +:+ error_text e)
  | Ok _ =>
      d ← trying (step (deployment_create cs (Namespace (GD_Meta gd))
                          (buildMemberDeployment gd depName (TargetNodeName (RB_Spec rb)))));
      match d with
      | Err _ => pausing (2 * Second)
      | Ok _ => moving rb ReplicaBindingPhaseApplying "" (mkResult (2 * Second))
      end
  end.

Definition rescheduling_steps (rb : ReplicaBinding) (gd : GlobalDeployment) (cs depName : string) : script Result :=
  o ← trying (step (getMemberClient (controlNS ControlNamespace rb) (RB_ClusterName (RB_Status rb))));
  match o with
  | Err _ => pausing (10 * Second)
  | Ok csOld =>
      d ← trying (step (deployment_delete csOld (Namespace (GD_Meta gd)) depName));
      if match d with Ok _ => true | Err e => IsNotFound e end then
        g ← trying (step (deployment_get csOld (Namespace (GD_Meta gd)) depName));
        match g with
        | Ok _ => pausing (2 * Second)
        | Err e =>
            if IsNotFound e then
              c ← trying (step (deployment_create cs (Namespace (GD_Meta gd))
                                  (buildMemberDeployment gd depName (TargetNodeName (RB_Spec rb)))));
              if match c with Ok _ => true | Err e => IsAlreadyExists e end
              then moving rb ReplicaBindingPhaseApplying "" (mkResult (2 * Second))
              else pausing (2 * Second)
            else pausing (2 * Second)
        end
      else pausing (2 * Second)
  end.

Definition finding_node (cs depName : string) (gd : GlobalDeployment) (currentDep : Deployment) : script string :=
  let ns := Namespace (GD_Meta gd) in
  p ← trying (step (pods_list cs ns "core.kubex.io/deployName" (Dep_Name currentDep)));
  let broad items :=
    p2 ← trying (step (pods_list cs ns "core.kubex.io/globaldeploy" (Name (GD_Meta gd))));
    mret (match p2 with Ok pods2 => List.filter (pod_of_deployment depName) pods2 | Err _ => items end) in
  match p with
  | Err _ => broad [] ≫= fun _ => mret ""
  | Ok [] => items ← broad []; mret (actual_node items "")
  | Ok pods => mret (actual_node pods "")
  end.

Definition applying_steps (rb : ReplicaBinding) (gd : GlobalDeployment) (cs depName : string) : script Result :=
  g ← trying (step (deployment_get cs (Namespace (GD_Meta gd)) depName));
  match g with
  | Err e =>
      if IsNotFound e then
        dropping (step (deployment_create cs (Namespace (GD_Meta gd))
                          (buildMemberDeployment gd depName (TargetNodeName (RB_Spec rb))))) ≫= fun _ =>
        pausing (2 * Second)
      else raise e
  | Ok currentDep =>
      if (1 <=? AvailableReplicas (Dep_Status currentDep))%Z then
        actualNodeName ← finding_node cs depName gd currentDep;
        t ← step now;
        step (merge_rb_status rb (with_running rb t actualNodeName)) ≫= fun _ => mret Done
      else if isDeploymentFailed currentDep then
        moving rb ReplicaBindingPhaseFailed "pod failed" (mkResult (2 * Second))
      else pausing (2 * Second)
  end.

Definition workload_steps (rb : ReplicaBinding) : script Result :=
  let ref := RBS_GlobalDeploymentRef (RB_Spec rb) in
  let phase := RB_Phase (RB_Status rb) in
  g ← trying (step (get_object w_gds (Ref_Namespace ref, Ref_Name ref)));
  match g with
  | Err _ => pausing (10 * Second)
  | Ok gd =>
      c ← trying (step (getMemberClient (controlNS ControlNamespace rb) (TargetCluster (RB_Spec rb))));
      match c with
      | Err _ => pausing (10 * Second)
      | Ok cs =>
          let depName := member_deployment_name (Name (GD_Meta gd)) (RBS_ReplicaIndex (RB_Spec rb)) in
          if String.eqb phase ReplicaBindingPhaseAssigned then assigned_steps rb gd cs depName
          else if String.eqb phase ReplicaBindingPhaseRescheduling then rescheduling_steps rb gd cs depName
          else if String.eqb phase ReplicaBindingPhaseApplying then applying_steps rb gd cs depName
          else pausing (2 * Second)
      end
  end.

(** [Reconcile] on a binding that was read, and the whole call. *)
Definition binding_steps (rb : ReplicaBinding) : script Result :=
  let phase := RB_Phase (RB_Status rb) in
  if String.eqb phase ReplicaBindingPhaseDeleting then deleting_steps rb
  else if match DeletionTimestamp (RB_Meta rb) with Some _ => true | None => false end then deletion_steps rb
  else if negb (ContainsFinalizer rb replicaBindingFinalizer) then
    step (merge_finalizers rb (AddFinalizer rb replicaBindingFinalizer)) ≫= fun _ => pausing (100 * Millisecond)
  else if str_empty phase then moving rb ReplicaBindingPhasePending "" (mkResult (200 * Millisecond))
  else if String.eqb phase ReplicaBindingPhaseFailed then mret Done
  else if String.eqb phase ReplicaBindingPhaseRunning then mret Done
  else if String.eqb phase ReplicaBindingPhasePending then pausing (2 * Second)
  else workload_steps rb.
Definition Reconcile_steps (key : Key) : script Result :=
  r ← trying (step (get_object w_rbs key));
  match r with
  | Err e => if IsNotFound e then mret Done else raise e
  | Ok rb => binding_steps rb
  end.
End scripts.

(** ** Run alone *)

Lemma alone_attempt {A B} (m : M A) (f : result api_error A -> script B) w :
  alone (trying (step m) ≫= f) w = alone (f (m w).2) (m w).1.
Proof. done. Qed.

Section alone.
Context {KUBE : KubeLib} (ControlNamespace : string) (rb : ReplicaBinding).

(** The binding is stored as it was read. *)
Definition fresh (w : World) : Prop := w_rbs w !! rb_key rb = Some rb.
Definition same {A} (s : script A) (m : M A) : Prop := forall w, fresh w -> alone s w = m w.

Lemma same_ret {A} (a : A) : same (mret a) (mret a).
Proof. done. Qed.
Lemma same_raise {A} e : same (A:=A) (raise e) (throw e).
Proof. done. Qed.

(** A step that leaves the bindings alone. *)
Lemma same_attempt {A B} (m : M A) (f : result api_error A -> script B) g :
  preserves w_rbs (attempt m) -> (forall r, same (f r) (g r)) -> same (trying (step m) ≫= f) (attempt m ≫= g).
Proof.
  intros Hm Hf w Hw. rewrite bind_run. specialize (Hm w). unfold attempt in *. cbn.
  destruct (m w) as [w' r]. apply Hf. unfold fresh in *. cbn in Hm. by rewrite Hm.
Qed.
Lemma same_trying {A B} s (m : M A) (f : result api_error A -> script B) g :
  preserves w_rbs (attempt m) -> same s m -> (forall r, same (f r) (g r)) -> same (trying s ≫= f) (attempt m ≫= g).
Proof.
  intros Hm Hs Hf w Hw. specialize (Hm w). rewrite alone_bind, !bind_run, alone_trying. unfold attempt in *. rewrite Hs by done.
  destruct (m w) as [w' r]. apply Hf. unfold fresh in *. cbn in Hm. by rewrite Hm.
Qed.
Lemma same_bind {A B} s (m : M A) (f : A -> script B) g :
  preserves w_rbs m -> same s m -> (forall a, same (f a) (g a)) -> same (s ≫= f) (m ≫= g).
Proof.
  intros Hm Hs Hf w Hw. specialize (Hm w). rewrite alone_bind, !bind_run, Hs by done.
  destruct (m w) as [w' [a|e]]; [|done]. apply Hf. unfold fresh in *. cbn in Hm. by rewrite Hm.
Qed.
Lemma same_now {B} (f : Z -> script B) g : (forall t, same (f t) (g t)) -> same (step now ≫= f) (now ≫= g).
Proof. intros Hf w Hw. by apply Hf. Qed.

(** A last write, and a result. *)
Lemma same_last {A B} (s : script A) (m : M A) (b : B) : same s m -> same (s ≫= fun _ => mret b) (m ≫= fun _ => mret b).
Proof. intros Hs w Hw. rewrite alone_bind, !bind_run, Hs by done. by destruct (m w) as [w' []]. Qed.

Lemma same_patch st :
  RB_Reschedule st = RB_Reschedule (RB_Status rb) ->
  same (step (merge_rb_status rb (mkRB (RB_Meta rb) (RB_Spec rb) st))) (patch_rb_status (mkRB (RB_Meta rb) (RB_Spec rb) st)).
Proof.
  intros Hst w Hw. rewrite alone_step. unfold merge_rb_status, patch_rb_status, request. destruct (fault _); [done|].
  change (w_rbs (tick w)) with (w_rbs w). cbn [RB_Meta]. change (Namespace (RB_Meta rb), Name (RB_Meta rb)) with (rb_key rb).
  rewrite Hw. unfold merge_status. cbn. rewrite !merge_field_same, <- Hst. by destruct st.
Qed.
Lemma same_finalizers l :
  same (step (merge_finalizers rb (with_finalizers rb l))) (patch_rb (with_finalizers rb l)).
Proof.
  intros w Hw. rewrite alone_step. unfold merge_finalizers, patch_rb, request. destruct (fault _); [done|].
  change (w_rbs (tick w)) with (w_rbs w). cbn. change (Namespace (RB_Meta rb), Name (RB_Meta rb)) with (rb_key rb).
  rewrite Hw, merge_field_same. reflexivity.
Qed.

Lemma same_moving phase err res : same (moving rb phase err res) (move_to rb phase err res).
Proof. apply same_now. intros t. apply same_last. unfold with_phase. by apply same_patch. Qed.
Lemma same_failing msg : same (failing rb msg) (failBinding rb msg).
Proof.
  apply same_now. intros t w Hw. unfold dropping. rewrite alone_bind, bind_run, alone_bind, bind_run, alone_trying, bind_run.
  unfold attempt, ignore, with_phase. rewrite same_patch by done. by destruct (patch_rb_status _ w) as [w' r].
Qed.

(** The handlers, step by step. *)
Ltac same_steps :=
  repeat match goal with
  | |- same (mret _) _ => apply same_ret
  | |- same (pausing _) _ => apply same_ret
  | |- same (raise _) _ => apply same_raise
  | |- same (moving _ _ _ _) _ => apply same_moving
  | |- same (failing _ _) _ => apply same_failing
  | |- same (trying (step _) ≫= _) _ => apply same_attempt; [first [apply quiet_attempt_member|apply quiet_client|apply quiet_gd]|intros ?]
  | |- same (match ?x with _ => _ end) _ => destruct x
  end.

Lemma same_ensuring cs ns : same (ensuring cs ns) (ensureNamespace cs ns).
Proof. unfold ensuring, ensureNamespace. same_steps. Qed.
Lemma same_deleting : same (deleting_steps ControlNamespace rb) (reconcile_deleting ControlNamespace rb).
Proof. unfold deleting_steps, reconcile_deleting. same_steps. by apply same_last, same_finalizers. Qed.
Lemma same_deletion : same (deletion_steps ControlNamespace rb) (reconcile_deletion ControlNamespace rb).
Proof. unfold deletion_steps, reconcile_deletion. same_steps. Qed.
Lemma same_assigned gd cs depName : same (assigned_steps rb gd cs depName) (reconcile_assigned rb gd cs depName).
Proof.
  unfold assigned_steps, reconcile_assigned. apply same_trying; [auto with go|apply same_ensuring|]. intros r. same_steps.
Qed.
Lemma same_rescheduling gd cs depName :
  same (rescheduling_steps ControlNamespace rb gd cs depName) (reconcile_rescheduling ControlNamespace rb gd cs depName).
Proof. unfold rescheduling_steps, reconcile_rescheduling. same_steps. Qed.
Lemma same_finding cs depName gd dep : same (finding_node cs depName gd dep) (find_actual_node cs depName gd dep).
Proof.
  apply same_attempt; [apply quiet_attempt_member|]. intros [[|p pods]|e]; [|apply same_ret|];
    (apply same_bind; [|same_steps|intros; apply same_ret]);
    (apply preserves_bind; [apply quiet_attempt_member|intros; apply preserves_ret]).
Qed.
Lemma same_dropping {A B} (m : M A) (s : script B) m' :
  preserves w_rbs (attempt m) -> same s m' -> same (dropping (step m) ≫= fun _ => s) (ignore m ≫= fun _ => m').
Proof.
  intros Hm Hs w Hw. specialize (Hm w). rewrite bind_run. unfold attempt, ignore in *. cbn. destruct (m w) as [w' r].
  apply Hs. unfold fresh in *. cbn in *. by rewrite Hm.
Qed.
Lemma same_applying gd cs depName : same (applying_steps rb gd cs depName) (reconcile_applying rb gd cs depName).
Proof.
  unfold applying_steps, reconcile_applying. same_steps.
  - apply same_bind; [auto with go|apply same_finding|]. intros node. apply same_now. intros t. apply same_last.
    unfold with_running. by apply same_patch.
  - apply same_dropping; [apply quiet_attempt_member|apply same_ret].
Qed.
Lemma same_workload : same (workload_steps ControlNamespace rb) (reconcile_workload ControlNamespace rb).
Proof.
  unfold workload_steps, reconcile_workload. same_steps; first [apply same_assigned|apply same_rescheduling|apply same_applying].
Qed.
Lemma same_binding : same (binding_steps ControlNamespace rb) (reconcile_binding ControlNamespace rb).
Proof.
  unfold binding_steps, reconcile_binding. destruct (String.eqb _ _); [apply same_deleting|].
  destruct (DeletionTimestamp (RB_Meta rb)); [apply same_deletion|].
  destruct (ContainsFinalizer rb _) eqn:Hf; cbn [negb]; [|apply same_last; unfold AddFinalizer; rewrite Hf; apply same_finalizers].
  same_steps. apply same_workload.
Qed.
End alone.

(** A call that nobody interrupts is [Reconcile]: the same result and the same
    environment, whatever requests fail. *)
Theorem Reconcile_steps_alone {KUBE : KubeLib} ControlNamespace key w :
  (forall rb, w_rbs w !! key = Some rb -> rb_key rb = key) ->
  alone (Reconcile_steps ControlNamespace key) w = Reconcile ControlNamespace key w.
Proof.
  intros Hkey. unfold Reconcile_steps, Reconcile. rewrite bind_run. unfold attempt. cbn.
  destruct (get_object w_rbs key w) as [w' r] eqn:Hget. cbn [fst snd].
  destruct r as [rb|e]; [|by unfold ignore_not_found; destruct (IsNotFound e)].
  apply same_binding. revert Hget. unfold get_object, request. destruct (fault _); [done|].
  change (w_rbs (tick w)) with (w_rbs w). destruct (w_rbs w !! key) as [rb'|] eqn:Hrb; [|done].
  intros [= <- <-]. unfold fresh. change (w_rbs (tick w)) with (w_rbs w). by rewrite (Hkey _ eq_refl).
Qed.

(** ** Interrupted calls *)

(** What a call for a binding never writes, apart from its cache of clients, the member
    clusters and the bindings. *)
Definition others (w : World) :=
  (w_plans w, w_gds w, w_clusters w, w_secrets w, w_cursors w, w_policy w, w_cluster_clients w).

(** The Deployment that has to go before the binding does, as the binding was read. *)
Definition own_deployment (rb : ReplicaBinding) : Key :=
  (Namespace (RB_Meta rb), member_deployment_name (Ref_Name (RBS_GlobalDeploymentRef (RB_Spec rb))) (RBS_ReplicaIndex (RB_Spec rb))).
Definition absent (rb : ReplicaBinding) (cs : string) (w : World) : Prop :=
  forall mc, w_members w !! cs = Some mc -> mc_deployments mc !! own_deployment rb = None.
Definition gone (rb : ReplicaBinding) (w : World) : Prop :=
  exists cs, w_clients w !! TargetCluster (RB_Spec rb) = Some cs /\ absent rb cs w.

(** What a step of a call on the binding [rb], as it was read, makes of the stored
    binding [old]. *)
Inductive binding_change (rb old : ReplicaBinding) (w : World) : gmap Key ReplicaBinding -> Prop :=
| change_phase st :
    phase_step (RB_Phase (RB_Status rb)) (RB_Phase st) \/
    DeletionTimestamp (RB_Meta rb) <> None /\ RB_Phase st = ReplicaBindingPhaseDeleting ->
    binding_change rb old w (<[rb_key rb := mkRB (RB_Meta old) (RB_Spec old) st]> (w_rbs w))
| change_finalizer l :
    DeletionTimestamp (RB_Meta rb) = None -> replicaBindingFinalizer ∈ l ->
    binding_change rb old w (<[rb_key rb := with_finalizers old l]> (w_rbs w))
| change_released l :
    RB_Phase (RB_Status rb) = ReplicaBindingPhaseDeleting -> gone rb w ->
    binding_change rb old w (<[rb_key rb := with_finalizers old l]> (w_rbs w))
| change_removed :
    RB_Phase (RB_Status rb) = ReplicaBindingPhaseDeleting -> gone rb w -> DeletionTimestamp (RB_Meta old) <> None ->
    binding_change rb old w (delete (rb_key rb) (w_rbs w)).

Definition keeps_to (rb : ReplicaBinding) (w w' : World) : Prop :=
  others w' = others w /\
  (w_rbs w' = w_rbs w \/ exists old, w_rbs w !! rb_key rb = Some old /\ binding_change rb old w (w_rbs w')).

(** Others do not drop the client of the target, and do not create the Deployment. *)
Definition leaves_gone (rb : ReplicaBinding) (w w' : World) : Prop :=
  (forall cs, w_clients w !! TargetCluster (RB_Spec rb) = Some cs -> w_clients w' !! TargetCluster (RB_Spec rb) = Some cs) /\
  forall cs, absent rb cs w -> absent rb cs w'.

Section interrupted.
Context {KUBE : KubeLib} (ControlNamespace : string) (rb : ReplicaBinding) (rely : World -> World -> Prop).
Local Notation free := (free rely (keeps_to rb)).

Lemma keeps_to_refl w : keeps_to rb w w.
Proof. split; [done|by left]. Qed.
Lemma keeps_to_quiet {A} (m : M A) w : preserves (fun w => (others w, w_rbs w)) m -> keeps_to rb w (m w).1.
Proof. intros Hm. specialize (Hm w). injection Hm as Ho Hr. split; [|by left]. unfold others. congruence. Qed.

Lemma keeps_to_member {A} cs (f : MemberCluster -> MemberCluster * result api_error A) w :
  keeps_to rb w (member_request cs f w).1.
Proof. by apply keeps_to_quiet, preserves_member_request. Qed.
Lemma keeps_to_client ns id w : keeps_to rb w (getMemberClient ns id w).1.
Proof. by apply keeps_to_quiet, (MemberClientCache.preserves_GetOrBuild (CACHE:=binding_clients)). Qed.
Lemma keeps_to_gd k w : keeps_to rb w (get_object w_gds k w).1.
Proof. by apply keeps_to_quiet, preserves_get_object. Qed.

Lemma keeps_to_status new w :
  RB_Phase (RB_Status rb) <> RB_Phase (RB_Status new) ->
  phase_step (RB_Phase (RB_Status rb)) (RB_Phase (RB_Status new)) \/
  DeletionTimestamp (RB_Meta rb) <> None /\ RB_Phase (RB_Status new) = ReplicaBindingPhaseDeleting ->
  keeps_to rb w (merge_rb_status rb new w).1.
Proof.
  intros Hne Hstep. unfold merge_rb_status, request. destruct (fault _); [split; [done|by left]|].
  change (w_rbs (tick w)) with (w_rbs w). destruct (w_rbs w !! rb_key rb) as [old|] eqn:Hold; [|split; [done|by left]].
  split; [done|]. right. exists old. split; [done|]. cbn. apply change_phase. cbn.
  by rewrite (merge_field_changed _ _ (RB_Phase (RB_Status old)) Hne).
Qed.

Lemma free_attempt {A B} (m : M A) (f : result api_error A -> script B) :
  (forall w, keeps_to rb w (m w).1) -> (forall r, free (f r)) -> free (trying (step m) ≫= f).
Proof. intros Hm Hf. apply free_bind; [by apply free_trying, free_step|done]. Qed.

Lemma free_moving phase err res :
  RB_Phase (RB_Status rb) <> phase ->
  phase_step (RB_Phase (RB_Status rb)) phase \/ DeletionTimestamp (RB_Meta rb) <> None /\ phase = ReplicaBindingPhaseDeleting ->
  free (moving rb phase err res).
Proof.
  intros Hne Hs. apply free_bind; [apply free_step; intros w; apply keeps_to_refl|]. intros t.
  apply free_bind; [apply free_step; intros w; by apply keeps_to_status|]. intros. apply free_finish.
Qed.
Lemma free_failing msg :
  RB_Phase (RB_Status rb) = ReplicaBindingPhaseAssigned -> free (failing rb msg).
Proof.
  intros Hp. apply free_bind; [apply free_step; intros w; apply keeps_to_refl|]. intros t.
  apply free_bind; [apply free_dropping, free_step|intros; apply free_finish]. intros w.
  apply keeps_to_status; cbn; rewrite Hp; [done|]. left. constructor.
Qed.

(** The handlers, step by step. *)
Ltac free_steps :=
  repeat match goal with
  | |- free (mret _) => apply free_finish
  | |- free (pausing _) => apply free_finish
  | |- free (raise _) => apply free_finish
  | |- free (Finish _) => apply free_finish
  | |- free (trying (step _) ≫= _) =>
      apply free_attempt; [first [intros; apply keeps_to_member|intros; apply keeps_to_client|intros; apply keeps_to_gd]|intros ?]
  | |- free (dropping _ ≫= _) => apply free_bind; [apply free_dropping, free_step; intros; apply keeps_to_member|intros ?]
  | |- free (match ?x with _ => _ end) => destruct x
  end.

Lemma free_ensuring cs ns : free (ensuring cs ns).
Proof. unfold ensuring. free_steps. Qed.
Lemma free_finding cs depName gd dep : free (finding_node cs depName gd dep).
Proof.
  apply free_attempt; [intros; apply keeps_to_member|]. intros [[|p pods]|e]; [|apply free_finish|];
    (apply free_bind; [free_steps|intros; apply free_finish]).
Qed.

Lemma free_assigned gd cs depName :
  RB_Phase (RB_Status rb) = ReplicaBindingPhaseAssigned -> free (assigned_steps rb gd cs depName).
Proof.
  intros Hp. apply free_bind; [apply free_trying, free_ensuring|]. intros [u|e]; [|by apply free_failing].
  free_steps. apply free_moving; rewrite Hp; [done|]. left. constructor.
Qed.
Lemma free_rescheduling gd cs depName :
  RB_Phase (RB_Status rb) = ReplicaBindingPhaseRescheduling -> free (rescheduling_steps ControlNamespace rb gd cs depName).
Proof. intros Hp. unfold rescheduling_steps. free_steps; (apply free_moving; rewrite Hp; [done|]; left; constructor). Qed.
Lemma free_applying gd cs depName :
  RB_Phase (RB_Status rb) = ReplicaBindingPhaseApplying -> free (applying_steps rb gd cs depName).
Proof.
  intros Hp. unfold applying_steps. free_steps.
  - apply free_bind; [apply free_finding|]. intros node. apply free_bind; [apply free_step; intros w; apply keeps_to_refl|].
    intros t. apply free_bind; [|intros; apply free_finish]. apply free_step. intros w.
    apply keeps_to_status; cbn; rewrite Hp; [done|]. left. constructor.
  - apply free_moving; rewrite Hp; [done|]. left. constructor.
Qed.
Lemma free_workload : free (workload_steps ControlNamespace rb).
Proof.
  unfold workload_steps. apply free_attempt; [intros; apply keeps_to_gd|]. intros [gd|e]; [|apply free_finish].
  apply free_attempt; [intros; apply keeps_to_client|]. intros [cs|e]; [|apply free_finish].
  destruct (String.eqb_spec (RB_Phase (RB_Status rb)) ReplicaBindingPhaseAssigned); [by apply free_assigned|].
  destruct (String.eqb_spec (RB_Phase (RB_Status rb)) ReplicaBindingPhaseRescheduling); [by apply free_rescheduling|].
  destruct (String.eqb_spec (RB_Phase (RB_Status rb)) ReplicaBindingPhaseApplying); [by apply free_applying|].
  apply free_finish.
Qed.
Lemma free_deletion :
  RB_Phase (RB_Status rb) <> ReplicaBindingPhaseDeleting -> DeletionTimestamp (RB_Meta rb) <> None ->
  free (deletion_steps ControlNamespace rb).
Proof.
  intros Hp Hd. unfold deletion_steps. apply free_attempt; [intros; apply keeps_to_gd|]. intros g.
  destruct (match g with Ok _ => _ | Err _ => _ end) as [ns gdName]. free_steps; apply free_moving; by auto.
Qed.

Lemma free_finalizer :
  DeletionTimestamp (RB_Meta rb) = None -> ContainsFinalizer rb replicaBindingFinalizer = false ->
  free (step (merge_finalizers rb (AddFinalizer rb replicaBindingFinalizer)) ≫= fun _ => pausing (100 * Millisecond)).
Proof.
  intros Hd Hf. apply free_bind; [|intros; apply free_finish]. apply free_step. intros w.
  unfold AddFinalizer. rewrite Hf. unfold merge_finalizers, request. destruct (fault _); [split; [done|by left]|].
  change (w_rbs (tick w)) with (w_rbs w). destruct (w_rbs w !! rb_key rb) as [old|] eqn:Hold; [|split; [done|by left]].
  cbn [Finalizers RB_Meta with_finalizers]. rewrite merge_field_changed.
  2: { intros H. apply (f_equal length) in H. rewrite length_app in H. cbn in H. lia. }
  assert (Hin : replicaBindingFinalizer ∈ Finalizers (RB_Meta rb) ++ [replicaBindingFinalizer]).
  { apply elem_of_app. right. by apply list_elem_of_singleton. }
  destruct (DeletionTimestamp (RB_Meta old)), (Finalizers (RB_Meta rb) ++ [replicaBindingFinalizer]) as [|f l];
    try (by apply elem_of_nil in Hin);
    (split; [done|]; right; exists old; split; [done|]; cbn; by apply change_finalizer).
Qed.

(** Phase Deleting: the Deployment that was seen to be gone still is when the finalizer
    goes. *)
Hypothesis truthful : forall k e, fault k = Some e -> IsNotFound e = false.
Hypothesis Hrely : forall w w', rely w w' -> leaves_gone rb w w'.

Lemma guarded_deleting :
  RB_Phase (RB_Status rb) = ReplicaBindingPhaseDeleting -> free (deleting_steps ControlNamespace rb).
Proof.
  intros Hp. unfold deleting_steps. destruct (ContainsFinalizer _ _); [|apply free_finish].
  apply guarded_attempt with (fun r w => match r with
    | Ok cs => w_clients w !! TargetCluster (RB_Spec rb) = Some cs | Err _ => True end).
  - intros w _. split; [apply keeps_to_client|]. unfold getMemberClient.
    assert (H := MemberClientCache.GetOrBuild_outcome (CACHE:=binding_clients) (controlNS ControlNamespace rb)
      (TargetCluster (RB_Spec rb)) w).
    destruct (MemberClientCache.GetOrBuild _ _ w) as [w' [cs|e]]; [|done]. destruct H as (_ & _ & H & _).
    cbn in *. rewrite H. apply lookup_insert_eq.
  - intros [cs|e] w w' Hw; [|done]. by apply Hrely.
  - intros [cs|e]; [|by apply free_from, free_finish].
    apply guarded_attempt with (fun r w => match r with Ok _ => True | Err e => IsNotFound e = true -> gone rb w end).
    + intros w Hc. split; [apply keeps_to_member|].
      assert (Hq : w_clients (deployment_get cs (own_deployment rb).1 (own_deployment rb).2 w).1 = w_clients w)
        by by apply (preserves_member_request w_clients).
      destruct (deployment_get cs (own_deployment rb).1 (own_deployment rb).2 w) as [w' [dep|e]] eqn:Hget;
        unfold own_deployment in Hget; cbn [fst snd] in *; rewrite Hget; [done|]. cbn. intros Hnf.
      apply deployment_get_NotFound in Hget as (mc & Hmc & Hdep); [|done|done].
      exists cs. rewrite Hq. split; [done|]. intros mc' Hmc'. rewrite Hmc in Hmc'. by simplify_eq.
    + intros [dep|e] w w' Hw Hgone; [done|]. intros Hnf. destruct (Hgone Hnf) as (cs' & Hc & Ha).
      destruct (Hrely w w' Hw) as [H1 H2]. exists cs'. by auto.
    + intros [dep|e]; [by apply free_from, free_finish|].
      destruct (IsNotFound e); [|by apply (guarded_conseq _ _ _ _ _ _ _ (free_finish _ _ _))].
      apply guarded_bind with (fun _ _ => True); [|intros; apply free_finish|done]. apply guarded_step; [|done].
      intros w Hgone. specialize (Hgone eq_refl). split; [|done]. unfold merge_finalizers, request.
      destruct (fault _); [split; [done|by left]|]. change (w_rbs (tick w)) with (w_rbs w).
      destruct (w_rbs w !! rb_key rb) as [old|] eqn:Hold; [|split; [done|by left]]. cbv zeta.
      destruct (DeletionTimestamp (RB_Meta old)) eqn:Hd, (merge_field _ _ _); (split; [done|]); right; exists old; (split; [done|]);
        cbn; first [apply change_released; done|apply change_removed; congruence].
Qed.

Lemma guarded_binding : free (binding_steps ControlNamespace rb).
Proof.
  unfold binding_steps.
  destruct (String.eqb_spec (RB_Phase (RB_Status rb)) ReplicaBindingPhaseDeleting); [by apply guarded_deleting|].
  destruct (DeletionTimestamp (RB_Meta rb)) eqn:Hd; [apply free_deletion; congruence|].
  destruct (ContainsFinalizer rb _) eqn:Hf; cbn [negb]; [|by apply free_finalizer].
  destruct (str_empty _) eqn:He.
  { destruct (RB_Phase (RB_Status rb)) eqn:Hp; [|done]. apply free_moving; rewrite Hp; [done|]. left. constructor. }
  do 3 (destruct (String.eqb _ _); [apply free_finish|]). apply free_workload.
Qed.
End interrupted.

(** C13: However late the steps of a call come, and whatever others do to the binding and
    to everything else in between, as long as they do not drop its client or create
    its Deployment and NotFound is the truth: every step writes at most the stored
    binding of the key; its spec stays, its phase moves along the phase machine from
    the phase that was read, and its finalizer is touched only to be added, or,
    from phase Deleting, while the cluster it targets does not hold its Deployment. *)
Theorem interrupted_call_safe {KUBE : KubeLib} ControlNamespace rb (rely : World -> World -> Prop) w0 s w :
  (forall k e, fault k = Some e -> IsNotFound e = false) ->
  (forall w w', rely w w' -> leaves_gone rb w w') ->
  rtc (turn rely) (binding_steps ControlNamespace rb, w0) (s, w) ->
  keeps_to rb w (advance s w).2.
Proof.
  intros Ht Hr. apply (guarded_acts rely (keeps_to rb) (fun _ => True) _ s (fun _ _ => True)); try done.
  - intros w'. apply keeps_to_refl.
  - by apply guarded_binding.
Qed.

(** ** A reschedule that is lost *)

Section lost.
Context {KUBE : KubeLib} (ControlNamespace : string).
Hypothesis no_faults : forall k, fault k = None.

(** The pods of a member cluster that answers. *)
Lemma pods_run cs mc ns key value w :
  w_members w !! cs = Some mc ->
  exists w' pods, pods_list cs ns key value w = (w', Ok pods) /\
    w_rbs w' = w_rbs w /\ w_members w' = w_members w /\ w_clock w' = w_clock w.
Proof.
  intros Hmc. unfold pods_list. rewrite (member_request_run no_faults _ mc) by done. cbn. eexists _, _. split; [done|].
  cbn. split_and!; [done| |done]. by apply insert_id.
Qed.

Lemma finding_run cs mc depName gd dep w :
  w_members w !! cs = Some mc ->
  exists node w', alone (finding_node cs depName gd dep) w = (w', Ok node) /\
    w_rbs w' = w_rbs w /\ w_members w' = w_members w /\ w_clock w' = w_clock w.
Proof.
  intros Hmc. unfold finding_node. cbn -[pods_list actual_node].
  destruct (pods_run cs mc (Namespace (GD_Meta gd)) "core.kubex.io/deployName" (Dep_Name dep) w Hmc)
    as (w1 & pods & -> & Hr1 & Hm1 & Hc1). cbn -[pods_list actual_node].
  destruct pods as [|p pods]; [|by eexists _, w1]. cbn -[pods_list actual_node].
  destruct (pods_run cs mc (Namespace (GD_Meta gd)) "core.kubex.io/globaldeploy" (Name (GD_Meta gd)) w1)
    as (w2 & pods & -> & Hr2 & Hm2 & Hc2); [by rewrite Hm1|]. cbn -[pods_list actual_node].
  eexists _, w2. split; [reflexivity|]. by rewrite Hr2, Hm2, Hc2.
Qed.

(** The rest of a call that read the binding Applying, on whatever is stored by then. *)
Lemma applying_late rb gd cs mc dep old w :
  placing ControlNamespace rb gd cs mc (set_rbs <[rb_key rb := rb]> w) ->
  RB_Phase (RB_Status rb) = ReplicaBindingPhaseApplying ->
  mc_deployments mc !! dep_key rb gd = Some dep -> (1 <= AvailableReplicas (Dep_Status dep))%Z ->
  w_rbs w !! rb_key rb = Some old ->
  exists node w', alone (binding_steps ControlNamespace rb) w = (w', Ok Done) /\ w_members w' = w_members w /\
    w_rbs w' = <[rb_key rb := mkRB (RB_Meta old) (RB_Spec old)
      (merge_status (RB_Status rb) (RB_Status (with_running rb (w_clock w) node)) (RB_Status old))]> (w_rbs w).
Proof.
  intros [] Hp Hdep Hav Hold. cbn in placing_gd, placing_client, placing_member.
  assert (Hrest : alone (binding_steps ControlNamespace rb) w = alone (applying_steps rb gd cs (dep_key rb gd).2) (tick w)).
  { unfold binding_steps. rewrite Hp. change (String.eqb ReplicaBindingPhaseApplying ReplicaBindingPhaseDeleting) with false.
    cbv iota. rewrite placing_live. unfold ContainsFinalizer. rewrite bool_decide_eq_true_2 by done.
    change (alone (workload_steps ControlNamespace rb) w = alone (applying_steps rb gd cs (dep_key rb gd).2) (tick w)).
    unfold workload_steps. rewrite Hp. cbv zeta. rewrite alone_attempt, (get_object_run no_faults). cbn [fst snd].
    change (w_gds (tick w)) with (w_gds w). rewrite placing_gd. cbn [require]. rewrite alone_attempt. unfold getMemberClient.
    by rewrite (MemberClientCache.GetOrBuild_cached (CACHE:=binding_clients) _ _ cs). }
  rewrite Hrest. unfold applying_steps. rewrite alone_attempt.
  destruct (deployment_get_run no_faults cs mc (Namespace (GD_Meta gd)) (dep_key rb gd).2 (tick w))
    as (w1 & -> & (Hr1 & _ & Hc1) & Hm1); [done|]. cbn [fst snd].
  change (Namespace (GD_Meta gd), (dep_key rb gd).2) with (dep_key rb gd). rewrite Hdep. cbn [require].
  rewrite (proj2 (Z.leb_le _ _) Hav), alone_bind, bind_run.
  destruct (finding_run cs mc (dep_key rb gd).2 gd dep w1) as (node & w2 & -> & Hr2 & Hm2 & Hc2); [by rewrite Hm1|].
  exists node. rewrite alone_bind, bind_run, alone_step. cbn [now]. rewrite alone_bind, bind_run, alone_step.
  unfold merge_rb_status. rewrite (request_run no_faults). change (w_rbs (tick w2)) with (w_rbs w2).
  rewrite Hr2, Hr1. change (w_rbs (tick w)) with (w_rbs w). rewrite Hold. eexists. split; [reflexivity|]. cbn.
  rewrite Hm2, Hm1, Hr2, Hr1, Hc2, Hc1. done.
Qed.

(** What a move does, in an environment that answers. *)
Lemma apply_move_run plan mv rb w :
  rbs_ok (w_rbs w) -> w_rbs w !! rb_key_of_move mv = Some rb -> needPatch rb mv (buildRescheduleRequestToken plan) = true ->
  RB_Phase (RB_Status rb) <> ReplicaBindingPhaseRescheduling ->
  let w' := (apply_move plan mv w).1 in
  w_gds w' = w_gds w /\ w_clients w' = w_clients w /\ w_members w' = w_members w /\
  w_rbs w' !! rb_key_of_move mv =
    Some (with_rescheduling (with_intent rb mv (buildRescheduleRequestToken plan)) (w_clock w)).
Proof.
  intros Hok Hrb Hneed Hp. cbv zeta. assert (Hb := apply_move_bindings no_faults plan mv w Hok).
  injection Hb as Hb _. rewrite Hb, lookup_alter_eq, Hrb. split_and!; try by apply preserves_apply_move.
  cbn. unfold intended. rewrite Hneed. by apply String.eqb_neq in Hp as ->.
Qed.
End lost.

(** C10: A reschedule can be lost, and be reported as done: when a plan moves a binding
    while a call of the binding controller is between reading the binding, Applying
    and with its Deployment available, and its last patch, the patch overwrites the
    phase Rescheduling with Running. No member cluster changes, the binding is
    Running on its old cluster with the intent in its spec, the plan counts the move
    as Succeeded, and no later call of the binding controller does anything. *)
Theorem reschedule_lost {KUBE : KubeLib} ControlNamespace plan mv rb gd cs mc dep w :
  (forall k, fault k = None) -> rbs_ok (w_rbs w) -> placing ControlNamespace rb gd cs mc w -> rb_key rb = rb_key_of_move mv ->
  RB_Phase (RB_Status rb) = ReplicaBindingPhaseApplying ->
  mc_deployments mc !! dep_key rb gd = Some dep -> (1 <= AvailableReplicas (Dep_Status dep))%Z ->
  needPatch rb mv (buildRescheduleRequestToken plan) = true ->
  exists w' rb',
    rtc (turn (fun w1 w2 => w2 = (apply_move plan mv w1).1)) (Reconcile_steps ControlNamespace (rb_key rb), w)
      (Finish (Ok Done), w') /\
    w_members w' = w_members w /\ w_rbs w' !! rb_key rb = Some rb' /\
    RB_Spec rb' = RB_Spec (with_intent rb mv (buildRescheduleRequestToken plan)) /\
    RB_Phase (RB_Status rb') = ReplicaBindingPhaseRunning /\
    RB_ClusterName (RB_Status rb') = TargetCluster (RB_Spec rb) /\
    (computeMoveStatus plan rb').1 = MoveExecutionStatusSucceeded /\
    (Reconcile ControlNamespace (rb_key rb) w').1 = tick w'.
Proof.
  intros Hno Hok Hpl Hkey Hp Hdep Hav Hneed. assert (Hpl0 := Hpl). destruct Hpl0.
  set (w2 := (apply_move plan mv (tick w)).1).
  destruct (apply_move_run Hno plan mv rb (tick w)) as (Hgds & Hclients & Hmembers & Hrb2);
    [done|by rewrite <- Hkey|done|by rewrite Hp|]. fold w2 in Hgds, Hclients, Hmembers, Hrb2. rewrite <- Hkey in Hrb2. set (old := with_rescheduling _ _) in Hrb2.
  destruct (applying_late ControlNamespace Hno rb gd cs mc dep old w2) as (node & w' & Hrun & Hm' & Hr'); try done.
  { split; try done; cbn; [apply lookup_insert_eq|by rewrite Hgds|by rewrite Hclients|by rewrite Hmembers]. }
  eexists w', _. rewrite Hr', lookup_insert_eq. split_and!; [| |reflexivity|done|..].
  - eapply rtc_l; [apply turn_step|]. unfold Reconcile_steps. cbn -[binding_steps get_object]. rewrite (get_object_run Hno). cbn [fst snd].
    change (w_rbs (tick w)) with (w_rbs w). rewrite placing_rb. cbn [require].
    eapply rtc_l; [by apply turn_other|]. fold w2.
    assert (H := alone_turns (fun w1 w2 => w2 = (apply_move plan mv w1).1) (binding_steps ControlNamespace rb) w2).
    by rewrite Hrun in H.
  - by rewrite Hm', Hmembers.
  - cbn. by rewrite Hp.
  - cbn. unfold merge_field. by destruct (decide _).
  - unfold computeMoveStatus. cbn. rewrite Hp. cbn. by rewrite String.eqb_refl, andb_false_r.
  - unfold Reconcile. rewrite bind_run, attempt_run, (get_object_run Hno). cbn [fst snd]. change (w_rbs (tick w')) with (w_rbs w').
    rewrite Hr', lookup_insert_eq. cbn [require]. unfold reconcile_binding. cbn [RB_Status RB_Meta RB_Phase merge_status].
    rewrite Hp. cbn [RB_Meta with_rescheduling with_intent old]. rewrite placing_live. unfold ContainsFinalizer.
    cbn [RB_Meta]. by rewrite bool_decide_eq_true_2.
Qed.

(** ** A move that is cut short *)

(** The requests of [apply_move] up to the patch of the spec: the process ends there, or
    what follows fails. *)
Definition half_move {KUBE : KubeLib} (plan : ReOrchestrationPlan) (mv : PlanMove) : M unit :=
  rb ← get_object w_rbs (rb_key_of_move mv);
  patch_rb (with_intent rb mv (buildRescheduleRequestToken plan)).

(** A move that ends between its two patches is never taken up again, and counts as
    done: the next pass of the same plan finds the intent and leaves the binding as it
    is, Running on its old cluster, and the monitor takes Running with the token of
    the plan for a move that has succeeded. *)
Theorem move_cut_short {KUBE : KubeLib} plan mv rb w :
  (forall k, fault k = None) -> rbs_ok (w_rbs w) -> w_rbs w !! rb_key_of_move mv = Some rb ->
  RB_Phase (RB_Status rb) = ReplicaBindingPhaseRunning ->
  let w1 := (half_move plan mv w).1 in
  let rb1 := with_intent rb mv (buildRescheduleRequestToken plan) in
  (half_move plan mv w).2 = Ok tt /\ w_rbs w1 !! rb_key_of_move mv = Some rb1 /\ w_members w1 = w_members w /\
  w_rbs (apply_move plan mv w1).1 = w_rbs w1 /\ w_members (apply_move plan mv w1).1 = w_members w /\
  (computeMoveStatus plan rb1).1 = MoveExecutionStatusSucceeded /\
  RB_ClusterName (RB_Status rb1) = RB_ClusterName (RB_Status rb).
Proof.
  intros Hno Hok Hrb Hp w1 rb1. destruct (Hok _ _ Hrb) as [Hkey Hdel]. unfold rb_key in Hkey.
  assert (Hrun : half_move plan mv w = (set_rbs <[rb_key_of_move mv := rb1]> (tick (tick w)), Ok tt)).
  { unfold half_move. rewrite bind_run, (get_object_run Hno). change (w_rbs (tick w)) with (w_rbs w). rewrite Hrb. cbn [require].
    unfold patch_rb. rewrite (request_run Hno). cbn. rewrite Hkey, Hrb. unfold rb1.
    destruct (DeletionTimestamp (RB_Meta rb)), (Finalizers (RB_Meta rb)); try done. by destruct Hdel. }
  subst w1. rewrite Hrun. cbn [fst snd].
  assert (Hrb1 : w_rbs (set_rbs <[rb_key_of_move mv := rb1]> (tick (tick w))) !! rb_key_of_move mv = Some rb1)
    by apply lookup_insert_eq.
  assert (Hok1 : rbs_ok (w_rbs (set_rbs <[rb_key_of_move mv := rb1]> (tick (tick w))))).
  { apply map_Forall_insert_2; [|done]. split; [exact Hkey|exact Hdel]. }
  assert (Hb := apply_move_bindings Hno plan mv _ Hok1). injection Hb as Hb _.
  split_and!; [done|done|done| |by rewrite (preserves_apply_move w_members)| |done].
  - rewrite Hb. apply alter_id. intros rb' Hrb'. rewrite Hrb1 in Hrb'. injection Hrb' as <-. unfold intended, needPatch, rb1. cbn.
    by rewrite !String.eqb_refl.
  - unfold computeMoveStatus, rb1. cbn. rewrite Hp. cbn. by rewrite String.eqb_refl, andb_false_r.
Qed.

(** ** Concrete runs *)

#[local] Existing Instance reliable_kube.

Lemma Reconcile_steps_alone_witness :
  let w := demo_world (demo_rb ReplicaBindingPhaseAssigned None) ∅ in
  alone (Reconcile_steps "kubex-system" ("default", "web-rb-0")) w = Reconcile "kubex-system" ("default", "web-rb-0") w.
Proof. apply (Reconcile_steps_alone "kubex-system" ("default", "web-rb-0")). by intros rb [= <-]. Defined.

(** A binding whose Deployment is gone, while others change the bindings as they like. *)
Definition demo_deleting : ReplicaBinding := demo_rb ReplicaBindingPhaseDeleting (Some 3%Z).
Definition demo_run (steps : nat) : script Result * World :=
  Nat.iter steps (fun c => advance c.1 c.2) (binding_steps "kubex-system" demo_deleting, demo_world demo_deleting ∅).

Lemma interrupted_call_safe_witness :
  keeps_to demo_deleting (demo_run 2).2 (demo_run 3).2 /\ w_rbs (demo_run 3).2 !! ("default", "web-rb-0") = None.
Proof.
  split; [|by_eval].
  apply (interrupted_call_safe "kubex-system" demo_deleting (fun w w' => exists f, w' = set_rbs f w) (demo_world demo_deleting ∅)
    (demo_run 2).1 (demo_run 2).2).
  - done.
  - intros w w' [f ->]. by split.
  - eapply rtc_l; [apply turn_step|]. eapply rtc_l; [apply turn_step|]. apply rtc_refl.
Defined.

(** A second plan moves a binding back that is about to be Running. *)
Definition demo_move_back : PlanMove :=
  mkPlanMove (mkRef "web" "default") 0 (mkLocation "c2" "c2" "n2") (mkLocation "c1" "c1" "n1").
Definition demo_applying : ReplicaBinding := demo_rb ReplicaBindingPhaseApplying None.
Definition demo_available : MemberCluster := demo_member {[("default", "web-r0") := demo_dep]}.
Definition demo_moving : World :=
  set_members (fun _ => <["https://c1" := demo_member ∅]> {["https://c2" := demo_available]}) (demo_world demo_applying ∅).
Definition demo_second_plan : ReOrchestrationPlan := PlanController.demo_plan "Aggressive" fresh_status.

Lemma reschedule_lost_witness :
  exists w' rb',
    rtc (turn (fun w1 w2 => w2 = (apply_move demo_second_plan demo_move_back w1).1))
      (Reconcile_steps "kubex-system" (rb_key demo_applying), demo_moving) (Finish (Ok Done), w') /\
    w_members w' = w_members demo_moving /\ w_rbs w' !! rb_key demo_applying = Some rb' /\
    TargetCluster (RB_Spec rb') = "c1" /\ RB_ClusterName (RB_Status rb') = "c2" /\
    (computeMoveStatus demo_second_plan rb').1 = MoveExecutionStatusSucceeded.
Proof.
  destruct (reschedule_lost "kubex-system" demo_second_plan demo_move_back demo_applying demo_gd "https://c2" demo_available demo_dep
    demo_moving) as (w' & rb' & Hrt & Hm & Hrb & Hspec & _ & Hc & Hst & _); [done| | |by_eval|done|by_eval|done|by_eval|].
  - intros k rb. cbn. intros [<- <-]%lookup_singleton_Some. split; [done|by left].
  - split; try done. apply list_elem_of_singleton. reflexivity.
  - exists w', rb'. split_and!; [exact Hrt|exact Hm|exact Hrb|by rewrite Hspec|exact Hc|exact Hst].
Defined.

Definition demo_stay : World := set_members (fun _ => {["https://c1" := demo_available]}) (PlanController.demo_world demo_second_plan 5).
Lemma move_cut_short_witness :
  (half_move demo_second_plan demo_move demo_stay).2 = Ok tt /\
  w_members (apply_move demo_second_plan demo_move (half_move demo_second_plan demo_move demo_stay).1).1 = {["https://c1" := demo_available]}.
Proof.
  destruct (move_cut_short demo_second_plan demo_move PlanController.demo_rb demo_stay) as (H1 & _ & _ & _ & H2 & _);
    [done| |by_eval|done|by split].
  intros k rb. cbn. intros [<- <-]%lookup_singleton_Some. split; [done|by left].
Defined.
