(* ===== verification/PlanRace.v ===== *)
(** * The plan controller, step by step
    (reorchestrationplan_controller.go, Reconcile)

    PlanController runs a call as a whole. Here it is a script: its requests may come
    late, on plans and bindings that others have changed in the meantime. All its writes
    are patches: they carry the fields that differ from what was read, and are refused by
    nothing. Run alone, the script is [Reconcile]. *)

From S2P Require Import Prelude GoTime ApiTypes KubeApi Scripts PlanController BindingRace.

Local Open Scope string_scope.
Local Open Scope list_scope.

(** ** Patches *)

#[export] Instance move_status_eq_dec : EqDecision MoveStatus.
Proof. solve_decision. Defined.
#[export] Instance condition_eq_dec : EqDecision Condition.
Proof. solve_decision. Defined.

Definition merge_summary (read new stored : PlanExecutionSummary) : PlanExecutionSummary :=
  mkExecutionSummary (merge_field (TotalMoves read) (TotalMoves new) (TotalMoves stored))
    (merge_field (SucceededMoves read) (SucceededMoves new) (SucceededMoves stored))
    (merge_field (FailedMoves read) (FailedMoves new) (FailedMoves stored))
    (merge_field (PendingMoves read) (PendingMoves new) (PendingMoves stored)).
Definition merge_plan_fields (read new stored : ReOrchestrationPlanStatus) : ReOrchestrationPlanStatus :=
  mkPlanStatus (merge_field (Plan_Phase read) (Plan_Phase new) (Plan_Phase stored))
    (merge_summary (Status_Summary read) (Status_Summary new) (Status_Summary stored))
    (merge_field (StartTime read) (StartTime new) (StartTime stored))
    (merge_field (CompletionTime read) (CompletionTime new) (CompletionTime stored))
    (merge_field (MoveStatuses read) (MoveStatuses new) (MoveStatuses stored))
    (merge_field (Plan_Conditions read) (Plan_Conditions new) (Plan_Conditions stored)).

Definition merge_rb_spec (read new stored : ReplicaBindingSpec) : ReplicaBindingSpec :=
  mkRBSpec (RBS_GlobalDeploymentRef stored) (RBS_ReplicaIndex stored)
    (merge_field (TargetCluster read) (TargetCluster new) (TargetCluster stored))
    (merge_field (TargetNodeName read) (TargetNodeName new) (TargetNodeName stored))
    (merge_field (Reschedule read) (Reschedule new) (Reschedule stored))
    (merge_field (RescheduleRequest read) (RescheduleRequest new) (RescheduleRequest stored)).

Section scripts.
Context {KUBE : KubeLib}.
Variable fmt_q : string -> string.

(** [r.Status().Patch(ctx, plan, client.MergeFrom(base))]: the answer, the stored object,
    is decoded into [plan]. *)
Definition merge_plan (base : ReOrchestrationPlan) (st : ReOrchestrationPlanStatus) : M ReOrchestrationPlan :=
  request (fun w =>
    match w_plans w !! plan_key base with
    | None => (w, Err NotFound)
    | Some old =>
        let new := with_status old (merge_plan_fields (Plan_Status base) st (Plan_Status old)) in
        (set_plans <[plan_key base := new]> w, Ok new)
    end).

(** [r.Patch(ctx, &rb, client.MergeFrom(base))], of a binding that differs in its spec. *)
Definition merge_intent (base rb : ReplicaBinding) : M unit :=
  request (fun w =>
    match w_rbs w !! rb_key base with
    | None => (w, Err NotFound)
    | Some old =>
        (set_rbs <[rb_key base := mkRB (RB_Meta old) (merge_rb_spec (RB_Spec base) (RB_Spec rb) (RB_Spec old)) (RB_Status old)]> w,
         Ok tt)
    end).

(** ** The call *)

Definition not_found_is {A} (a : A) (e : api_error) : script A := if IsNotFound e then mret a else raise e.
Definition reading {A} (key : Key) (a : A) (f : ReOrchestrationPlan -> script A) : script A :=
  r ← trying (step (get_object w_plans key));
  match r with
  | Err e => not_found_is a e
  | Ok p => f p
  end.
Definition writing (base : ReOrchestrationPlan) (st : ReOrchestrationPlanStatus) : script unit :=
  step (merge_plan base st) ≫= fun _ => mret tt.

Definition moving_status_if (plan : ReOrchestrationPlan) (mv : PlanMove) (from to msg : string) : script unit :=
  reading (plan_key plan) tt (fun latest =>
    match list_find (fun ms => same_move ms mv = true) (MoveStatuses (Plan_Status latest)) with
    | Some (_, ms) =>
        if String.eqb (MS_Status ms) from then
          match update_first mv (set_move_status to msg) (MoveStatuses (Plan_Status latest)) with
          | Some l => writing latest (with_moves l (Plan_Status latest))
          | None => mret tt
          end
        else mret tt
    | None => mret tt
    end).

Definition moving_status (plan : ReOrchestrationPlan) (mv : PlanMove) (st msg : string) : script unit :=
  reading (plan_key plan) tt (fun latest =>
    writing latest (with_moves (put_move_status mv st msg (MoveStatuses (Plan_Status latest))) (Plan_Status latest))).

Definition recomputing (plan : ReOrchestrationPlan) : script unit :=
  reading (plan_key plan) tt (fun latest =>
    writing latest (with_summary (summarize (MoveStatuses (Plan_Status latest))) (Plan_Status latest))).

Definition applying_move (latest : ReOrchestrationPlan) (mv : PlanMove) : script unit :=
  let rbKey := rb_key_of_move mv in
  let fail msg := dropping (moving_status latest mv MoveExecutionStatusFailed msg) in
  let applied :=
    dropping (moving_status_if latest mv MoveExecutionStatusPending MoveExecutionStatusInProgress
                "reschedule intent applied") in
  r ← trying (step (get_object w_rbs rbKey));
  match r with
  | Err e => fail ("ReplicaBinding " +:+ rbKey.1 +:+ "/" +:+ rbKey.2 +:+ " not found: " +:+ error_text e)
  | Ok rb =>
      let reqToken := buildRescheduleRequestToken latest in
      if needPatch rb mv reqToken then
        p ← trying (step (merge_intent rb (with_intent rb mv reqToken)));
        match p with
        | Err e => fail ("patch ReplicaBinding spec failed: " +:+ error_text e)
        | Ok _ =>
            g ← trying (step (get_object w_rbs rbKey));
            match g with
            | Err e => fail ("re-get ReplicaBinding failed after spec patch: " +:+ error_text e)
            | Ok rbLatest =>
                if String.eqb (RB_Phase (RB_Status rbLatest)) ReplicaBindingPhaseRescheduling then applied
                else
                  t ← step now;
                  s ← trying (step (merge_rb_status rbLatest (with_rescheduling rbLatest t)));
                  match s with
                  | Err e => fail ("patch ReplicaBinding status failed: " +:+ error_text e)
                  | Ok _ => applied
                  end
            end
        end
      else applied
  end.

Definition executing_moves (plan : ReOrchestrationPlan) : script unit :=
  reading (plan_key plan) tt (fun read =>
    t ← step now;
    let unstarted := match StartTime (Plan_Status read) with None => true | Some _ => false end in
    let st := if unstarted then with_start (Some t) (Plan_Status read) else Plan_Status read in
    latest ← (if unstarted || moves_uninitialised read then step (merge_plan read (ensure_moves read st))
              else mret (with_status read (ensure_moves read st)));
    each_step (applying_move latest) (Moves (Plan_Spec latest)) ≫= fun _ =>
    dropping (recomputing latest)).

Definition converging (key : Key) : script Result :=
  reading key Done (fun read =>
    dropping (recomputing read) ≫= fun _ =>
    reading key Done (fun latest =>
      if moves_uninitialised latest then mret (mkResult (500 * Millisecond))
      else
        match final_phase (MoveStatuses (Plan_Status latest)) with
        | None => mret (mkResult (2 * Second))
        | Some finalPhase =>
            if String.eqb (Plan_Phase (Plan_Status latest)) finalPhase &&
               match CompletionTime (Plan_Status latest) with Some _ => true | None => false end
            then mret Done
            else
              t ← step now;
              writing latest (finished_status latest t finalPhase) ≫= fun _ => mret Done
        end)).

Definition observing_move (latest : ReOrchestrationPlan) (mv : PlanMove) : script unit :=
  r ← trying (step (get_object w_rbs (rb_key_of_move mv)));
  match r with
  | Err _ => mret tt
  | Ok rb =>
      let '(desired, msg) := computeMoveStatus latest rb in
      dropping (moving_status latest mv desired msg)
  end.

Definition monitoring_moves (latest : ReOrchestrationPlan) : script Result :=
  t ← step now;
  if timed_out latest t then converging (plan_key latest)
  else
    each_step (observing_move latest) (Moves (Plan_Spec latest)) ≫= fun _ =>
    converging (plan_key latest).

Definition monitoring (plan : ReOrchestrationPlan) : script Result :=
  reading (plan_key plan) Done (fun read =>
    if moves_uninitialised read then
      writing read (ensure_moves read (Plan_Status read)) ≫= fun _ =>
      reading (plan_key plan) Done monitoring_moves
    else monitoring_moves read).

Definition carrying_out (desiredPhase : string) (plan : ReOrchestrationPlan) : script Result :=
  if String.eqb desiredPhase PlanPhaseExecuting then executing_moves plan ≫= fun _ => monitoring plan else mret Done.

Definition plan_steps (key : Key) : script Result :=
  reading key Done (fun plan =>
    let strategy := plan_strategy plan in
    if finished_phase (Plan_Phase (Plan_Status plan)) then mret Done
    else
      t ← step now;
      let desiredPhase := desired_phase strategy in
      let cond := decision_condition plan t (fmt_q strategy) strategy in
      let decided :=
        with_conditions (SetStatusCondition (Plan_Conditions (Plan_Status plan)) cond)
          (with_phase desiredPhase (Plan_Status plan)) in
      if negb (String.eqb (Plan_Phase (Plan_Status plan)) desiredPhase) then
        p ← trying (step (merge_plan plan decided));
        match p with
        | Err e => not_found_is Done e
        | Ok stored => carrying_out desiredPhase stored
        end
      else carrying_out desiredPhase plan).
End scripts.

(** ** Run alone *)

(** The plans sit under their keys, and so do the bindings. *)
Definition keyed (w : World) : Prop := map_Forall (fun k p => plan_key p = k) (w_plans w).
Definition sane (w : World) : Prop := keyed w /\ rbs_ok (w_rbs w).

Section sane.
Context {KUBE : KubeLib}.

Lemma keeps_sane_quiet {A} (m : M A) : preserves w_rbs m -> preserves w_plans m -> keeps sane m.
Proof. intros H1 H2 w Hw. unfold sane, keyed in *. by rewrite H1, H2. Qed.
Lemma keeps_sane_plan p : keeps sane (patch_plan_status p).
Proof.
  apply hoare_request; [done|]. intros w [Hk Hr]. cbn. destruct (w_plans w !! _) as [old|] eqn:Hold; [|done].
  split; [|done]. apply map_Forall_insert_2; [exact (Hk _ _ Hold)|done].
Qed.
Lemma keeps_sane_status rb : keeps sane (patch_rb_status rb).
Proof.
  apply hoare_request; [done|]. intros w [Hk Hr]. cbn. destruct (w_rbs w !! _) as [old|] eqn:Hold; [|done].
  split; [done|]. destruct (Hr _ _ Hold). by apply rbs_ok_insert.
Qed.

(** Case analyses and binds of a computation whose requests keep it. *)
Ltac keeps_sane :=
  repeat match goal with
  | |- keeps _ (mbind _ _) => apply keeps_bind; [|intros ?]
  | |- keeps _ (match ?x with _ => _ end) => destruct x
  | |- keeps _ (let _ := _ in _) => cbv zeta
  | |- keeps _ (attempt _) => apply keeps_attempt
  | |- keeps _ (ignore _) => apply keeps_ignore
  | |- keeps _ (mret _) => apply keeps_ret
  | |- keeps _ (throw _) => apply keeps_throw
  | |- keeps _ now => apply keeps_now
  | |- keeps _ (ignore_not_found _ _) => apply keeps_ignore_not_found
  | |- keeps _ (patch_plan_status _) => apply keeps_sane_plan
  | |- keeps _ (get_object _ _) => by apply keeps_get_object
  end.
Lemma keeps_sane_moving_if p mv from to msg : keeps sane (patchMoveStatusIf p mv from to msg).
Proof. unfold patchMoveStatusIf. keeps_sane. Qed.
Lemma keeps_sane_moving p mv st msg : keeps sane (patchMoveStatus p mv st msg).
Proof. unfold patchMoveStatus. keeps_sane. Qed.
Lemma keeps_sane_recompute p : keeps sane (recomputePlanExecutionSummary p).
Proof. unfold recomputePlanExecutionSummary. keeps_sane. Qed.
Lemma keeps_sane_observe p mv : keeps sane (observe_move p mv).
Proof. unfold observe_move. keeps_sane. apply keeps_sane_moving. Qed.

(** A binding that was read is stored, under its key. *)
Definition at_rb (r : result api_error ReplicaBinding) (w : World) : Prop :=
  sane w /\ match r with Ok rb => w_rbs w !! rb_key rb = Some rb | Err _ => True end.
Lemma hoare_get_rb k : hoare sane (get_object w_rbs k) at_rb.
Proof.
  apply hoare_get_object; [done|done|done|]. intros w rb [Hk Hr] Hrb. split; [done|]. by rewrite (proj1 (Hr _ _ Hrb)).
Qed.
Lemma hoare_patch_intent rb mv tok :
  hoare (at_rb (Ok rb)) (patch_rb (with_intent rb mv tok)) (fun _ => sane).
Proof.
  intros w [Hs Hrb]. destruct (proj2 Hs _ _ Hrb) as [_ Hd]. unfold patch_rb, request. destruct (fault _); [exact Hs|]. cbn.
  change (Namespace (RB_Meta rb), Name (RB_Meta rb)) with (rb_key rb). rewrite Hrb, match_kept by done.
  split; [apply Hs|]. by apply rbs_ok_insert; [apply Hs| |].
Qed.
Lemma keeps_sane_apply p mv : keeps sane (apply_move p mv).
Proof.
  assert (H1 := keeps_sane_moving p mv). assert (H2 := keeps_sane_moving_if p mv). unfold apply_move.
  assert (Hget : forall k B (f : result api_error ReplicaBinding -> M B),
    (forall rb, hoare (at_rb (Ok rb)) (f (Ok rb)) (fun _ => sane)) -> (forall e, keeps sane (f (Err e))) ->
    keeps sane (attempt (get_object w_rbs k) ≫= f)).
  { intros k B f Hf He. apply hoare_bind with at_rb; [apply hoare_attempt, hoare_get_rb|].
    intros [rb|e]; [apply Hf|]. intros w [Hw _]. by apply He. }
  assert (Hweak : forall rb B (m : M B), keeps sane m -> hoare (at_rb (Ok rb)) m (fun _ => sane)).
  { intros rb B m Hm w [Hw _]. by apply Hm. }
  apply Hget; [|intros; by apply keeps_ignore]. intros rb. cbv zeta. destruct (needPatch _ _ _); [|by apply Hweak, keeps_ignore].
  apply hoare_bind with (fun _ => sane); [apply hoare_attempt, hoare_patch_intent|].
  intros [u|e]; [|by apply keeps_ignore]. apply Hget; [|intros; by apply keeps_ignore]. intros rb'. apply Hweak.
  destruct (String.eqb _ _); [by apply keeps_ignore|]. keeps_sane; auto. apply keeps_sane_status.
Qed.
End sane.

Section alone.
Context {KUBE : KubeLib}.

(** A plan that was read is stored. *)
Definition at_plan (p : ReOrchestrationPlan) (w : World) : Prop := sane w /\ w_plans w !! plan_key p = Some p.

Lemma follows_not_found {A} P (a : A) e : follows P (not_found_is a e) (ignore_not_found a e).
Proof. unfold not_found_is, ignore_not_found. destruct (IsNotFound e); [apply follows_ret|apply follows_raise]. Qed.
Lemma follows_reading {A} key (a : A) f g :
  (forall p, follows (at_plan p) (f p) (g p)) ->
  follows sane (reading key a f)
    (r ← attempt (get_object w_plans key); match r with Err e => ignore_not_found a e | Ok p => g p end).
Proof.
  intros Hf. apply follows_trying with (fun r w => match r with Ok p => at_plan p w | Err _ => True end); [apply follows_step| |].
  - apply hoare_get_object; [done|done|done|]. intros w p Hw Hp. split; [done|]. by rewrite (proj1 Hw _ _ Hp).
  - intros [p|e]; [apply Hf|apply follows_not_found].
Qed.

Lemma merge_plan_read st new : merge_plan_fields st new st = new.
Proof. unfold merge_plan_fields, merge_summary. rewrite !merge_field_same. by destruct new as [? [] ? ? ? ?]. Qed.
Lemma merge_plan_run p st w :
  at_plan p w ->
  (merge_plan p st w).1 = (patch_plan_status (with_status p st) w).1 /\
  (merge_plan p st w).2 = match (patch_plan_status (with_status p st) w).2 with Ok _ => Ok (with_status p st) | Err e => Err e end.
Proof.
  intros [_ Hp]. unfold merge_plan, patch_plan_status, request. destruct (fault _); [done|].
  change (w_plans (tick w)) with (w_plans w). cbn [Plan_Meta with_status].
  change (Namespace (Plan_Meta p), Name (Plan_Meta p)) with (plan_key p). rewrite Hp. cbv zeta. by rewrite merge_plan_read.
Qed.
Lemma follows_writing p st : follows (at_plan p) (writing p st) (patch_plan_status (with_status p st)).
Proof.
  intros w Hw. unfold writing. rewrite alone_bind, bind_run, alone_step. destruct (merge_plan_run p st w Hw) as [H1 H2].
  destruct (merge_plan p st w), (patch_plan_status _ w) as [w' [[]|e]]; cbn in *; by subst.
Qed.

Lemma follows_moving_if p mv from to msg : follows sane (moving_status_if p mv from to msg) (patchMoveStatusIf p mv from to msg).
Proof.
  apply follows_reading. intros latest. destruct (list_find _ _) as [[i ms]|]; [|apply follows_ret].
  destruct (String.eqb _ _); [|apply follows_ret]. destruct (update_first _ _ _); [apply follows_writing|apply follows_ret].
Qed.
Lemma follows_moving_status p mv st msg : follows sane (moving_status p mv st msg) (patchMoveStatus p mv st msg).
Proof. apply follows_reading. intros latest. apply follows_writing. Qed.
Lemma follows_recomputing p : follows sane (recomputing p) (recomputePlanExecutionSummary p).
Proof. apply follows_reading. intros latest. apply follows_writing. Qed.

Lemma follows_intent rb mv tok :
  follows (at_rb (Ok rb)) (step (merge_intent rb (with_intent rb mv tok))) (patch_rb (with_intent rb mv tok)).
Proof.
  intros w [Hs Hrb]. destruct (proj2 Hs _ _ Hrb) as [_ Hd]. rewrite alone_step. unfold merge_intent, patch_rb, request.
  destruct (fault _); [done|]. change (w_rbs (tick w)) with (w_rbs w). cbn [RB_Meta with_intent].
  change (Namespace (RB_Meta rb), Name (RB_Meta rb)) with (rb_key rb). rewrite Hrb, match_kept by done.
  unfold merge_rb_spec. cbn. by rewrite !merge_field_same.
Qed.
Lemma follows_rescheduling rb t :
  follows (at_rb (Ok rb)) (step (merge_rb_status rb (with_rescheduling rb t))) (patch_rb_status (with_rescheduling rb t)).
Proof. intros w [_ Hrb]. by apply same_patch. Qed.

Lemma follows_applying p mv : follows sane (applying_move p mv) (apply_move p mv).
Proof.
  assert (H1 : forall st msg, follows sane (dropping (moving_status p mv st msg)) (ignore (patchMoveStatus p mv st msg)))
    by (intros; apply follows_dropping, follows_moving_status).
  assert (H2 : forall from to msg, follows sane (dropping (moving_status_if p mv from to msg)) (ignore (patchMoveStatusIf p mv from to msg)))
    by (intros; apply follows_dropping, follows_moving_if).
  assert (Hweak : forall r A (s : script A) m, follows sane s m -> follows (at_rb r) s m).
  { intros r A s m Hs. eapply follows_conseq; [exact Hs|]. by intros w []. }
  unfold applying_move, apply_move. cbv zeta.
  apply follows_trying with at_rb; [apply follows_step|apply hoare_get_rb|]. intros [rb|e]; [|by apply Hweak].
  destruct (needPatch _ _ _); [|by apply Hweak].
  apply follows_trying with (fun _ => sane); [apply follows_intent|apply hoare_patch_intent|]. intros [u|e]; [|done].
  apply follows_trying with at_rb; [apply follows_step|apply hoare_get_rb|]. intros [rb'|e]; [|by apply Hweak].
  destruct (String.eqb _ _); [by apply Hweak|].
  apply follows_bind with (fun _ => at_rb (Ok rb')); [apply follows_step|by intros w|]. intros t.
  apply follows_trying with (fun _ => sane); [apply follows_rescheduling| |by intros [u'|e]].
  intros w [Hw _]. by apply keeps_sane_status.
Qed.

Lemma keeps_ok {A} I (m : M A) : keeps I m -> hoare I m (fun r w => match r with Ok _ => I w | Err _ => True end).
Proof. intros Hm w Hw. specialize (Hm w Hw). by destruct (m w).2. Qed.

Lemma follows_executing p : follows sane (executing_moves p) (executeMoves p).
Proof.
  apply follows_reading. intros read.
  apply follows_bind with (fun _ => at_plan read); [apply follows_step|by intros w|]. intros t. cbv zeta.
  set (st := if match StartTime (Plan_Status read) with None => true | Some _ => false end then _ else _).
  set (new := with_status read (ensure_moves read st)).
  assert (Hrest : follows sane
    (each_step (applying_move new) (Moves (Plan_Spec new)) ≫= fun _ => dropping (recomputing new))
    (for_each (apply_move new) (Moves (Plan_Spec new)) ≫= fun _ => ignore (recomputePlanExecutionSummary new))).
  { apply follows_bind with (fun _ => sane).
    - apply follows_each. intros mv _. split; [apply follows_applying|apply keeps_sane_apply].
    - apply keeps_ok, keeps_for_each. intros. apply keeps_sane_apply.
    - intros _. apply follows_dropping, follows_recomputing. }
  intros w Hw. rewrite alone_bind, !bind_run. destruct (_ || _).
  - rewrite alone_step. destruct (merge_plan_run read (ensure_moves read st) w Hw) as [H1 H2].
    assert (Hk := keeps_sane_plan new w (proj1 Hw)). fold new in H1, H2.
    destruct (merge_plan _ _ w), (patch_plan_status new w) as [w' [[]|e]]; cbn in *; subst; [by apply Hrest|done].
  - apply Hrest, Hw.
Qed.

Lemma follows_converging key : follows sane (converging key) (convergePlanPhase key).
Proof.
  apply follows_reading. intros read. apply follows_bind with (fun _ => sane).
  - eapply follows_conseq; [apply follows_dropping, follows_recomputing|by intros w []].
  - intros w [Hw _]. apply (keeps_ignore sane); [apply keeps_sane_recompute|done].
  - intros _. apply follows_reading. intros latest. destruct (moves_uninitialised latest); [apply follows_ret|].
    destruct (final_phase _); [|apply follows_ret]. destruct (_ && _); [apply follows_ret|].
    apply follows_bind with (fun _ => at_plan latest); [apply follows_step|by intros w|]. intros t.
    apply follows_last, follows_writing.
Qed.

Lemma follows_observing p mv : follows sane (observing_move p mv) (observe_move p mv).
Proof.
  apply follows_trying with at_rb; [apply follows_step|apply hoare_get_rb|]. intros [rb|e]; [|apply follows_ret].
  destruct (computeMoveStatus p rb) as [desired msg].
  eapply follows_conseq; [apply follows_dropping, follows_moving_status|by intros w []].
Qed.
Lemma follows_monitoring_moves p : follows sane (monitoring_moves p) (monitor_moves p).
Proof.
  apply follows_bind with (fun _ => sane); [apply follows_step|apply keeps_ok, keeps_now|]. intros t.
  destruct (timed_out p t); [apply follows_converging|].
  apply follows_bind with (fun _ => sane); [| |intros; apply follows_converging].
  - apply follows_each. intros mv _. split; [apply follows_observing|apply keeps_sane_observe].
  - apply keeps_ok, keeps_for_each. intros. apply keeps_sane_observe.
Qed.
Lemma follows_monitoring p : follows sane (monitoring p) (monitorAndConverge p).
Proof.
  apply follows_reading. intros read. destruct (moves_uninitialised read).
  - apply follows_bind with (fun _ => sane); [apply follows_writing| |].
    + intros w [Hw _]. by apply (keeps_ok sane), Hw; apply keeps_sane_plan.
    + intros _. apply follows_reading. intros latest.
      eapply follows_conseq; [apply follows_monitoring_moves|by intros w []].
  - eapply follows_conseq; [apply follows_monitoring_moves|by intros w []].
Qed.
Lemma follows_carrying_out phase p :
  follows sane (carrying_out phase p)
    (if String.eqb phase PlanPhaseExecuting then executeMoves p ≫= fun _ => monitorAndConverge p else mret Done).
Proof.
  unfold carrying_out. destruct (String.eqb _ _); [|apply follows_ret].
  apply follows_bind with (fun _ => sane); [apply follows_executing| |intros; apply follows_monitoring].
  apply keeps_ok. unfold executeMoves. apply keeps_bind; [by apply keeps_attempt, keeps_get_object|].
  intros [read|e]; [|apply keeps_ignore_not_found]. apply keeps_bind; [apply keeps_now|]. intros t. cbv zeta.
  apply keeps_bind; [destruct (_ || _); [apply keeps_sane_plan|apply keeps_ret]|]. intros _.
  apply keeps_bind; [apply keeps_for_each; intros; apply keeps_sane_apply|]. intros _. apply keeps_ignore, keeps_sane_recompute.
Qed.
End alone.

(** A call that nobody interrupts is [Reconcile]: the same result and the same
    environment, whatever requests fail. *)
Theorem plan_steps_alone {KUBE : KubeLib} fmt_q key w :
  sane w -> alone (plan_steps fmt_q key) w = Reconcile fmt_q key w.
Proof.
  intros Hw. revert w Hw. change (follows sane (plan_steps fmt_q key) (Reconcile fmt_q key)).
  apply follows_reading. intros p. cbv zeta. destruct (finished_phase _); [apply follows_ret|].
  apply follows_bind with (fun _ => at_plan p); [apply follows_step|by intros w|]. intros t.
  destruct (negb _); [|eapply follows_conseq; [apply follows_carrying_out|by intros w []]].
  intros w Hw. rewrite alone_bind, !bind_run, alone_trying. unfold attempt. rewrite alone_step.
  set (st := with_conditions _ _). destruct (merge_plan_run p st w Hw) as [H1 H2].
  assert (Hk := keeps_sane_plan (with_status p st) w (proj1 Hw)).
  destruct (merge_plan p st w), (patch_plan_status _ w) as [w' [[]|e]]; cbn in *; subst.
  - by apply follows_carrying_out.
  - by apply (follows_not_found (fun _ => True)).
Qed.

(** ** Interrupted calls *)

(** What a call never writes. *)
Definition besides (w : World) :=
  (w_gds w, w_clusters w, w_secrets w, w_members w, w_clients w, w_cursors w, w_clock w, w_policy w, w_cluster_clients w).

(** What a step of a call for the plan under [key] makes of the plans and the bindings:
    the status of the plan; the intent of a binding; its phase. *)
Inductive plan_change (key : Key) (w : World) : gmap Key ReOrchestrationPlan -> gmap Key ReplicaBinding -> Prop :=
| plan_nothing : plan_change key w (w_plans w) (w_rbs w)
| plan_status p st :
    w_plans w !! key = Some p -> plan_change key w (<[key := with_status p st]> (w_plans w)) (w_rbs w)
| plan_intent k old sp :
    w_rbs w !! k = Some old -> RBS_GlobalDeploymentRef sp = RBS_GlobalDeploymentRef (RB_Spec old) ->
    RBS_ReplicaIndex sp = RBS_ReplicaIndex (RB_Spec old) ->
    plan_change key w (w_plans w) (<[k := mkRB (RB_Meta old) sp (RB_Status old)]> (w_rbs w))
| plan_rescheduling k old st :
    w_rbs w !! k = Some old -> RB_Phase st = ReplicaBindingPhaseRescheduling ->
    RB_NodeName st = RB_NodeName (RB_Status old) -> RB_ClusterName st = RB_ClusterName (RB_Status old) ->
    RB_Reschedule st = RB_Reschedule (RB_Status old) ->
    plan_change key w (w_plans w) (<[k := mkRB (RB_Meta old) (RB_Spec old) st]> (w_rbs w)).

Definition keeps_to_plan (key : Key) (w w' : World) : Prop :=
  besides w' = besides w /\ plan_change key w (w_plans w') (w_rbs w').

Section interrupted.
Context {KUBE : KubeLib} (key : Key) (rely : World -> World -> Prop).
Hypothesis Hrely : forall w w', rely w w' -> keyed w -> keyed w'.
Local Notation guarded := (guarded rely (keeps_to_plan key)).
Local Notation steady := (steady rely (keeps_to_plan key) keyed).

Lemma keeps_to_plan_refl w : keeps_to_plan key w w.
Proof. split; [done|constructor]. Qed.
Lemma plan_change_keyed w w' : keeps_to_plan key w w' -> keyed w -> keyed w'.
Proof.
  intros [_ Hc] Hk. unfold keyed. destruct Hc as [|p st Hp|k old sp|k old st]; try exact Hk.
  apply map_Forall_insert_2; [exact (Hk _ _ Hp)|exact Hk].
Qed.

Lemma steady_plan_step {A} (m : M A) : (forall w, keyed w -> keeps_to_plan key w (m w).1) -> steady (step m).
Proof.
  intros Hm. apply steady_step; [exact Hrely|]. intros w Hw. split; [by apply Hm|]. by apply (plan_change_keyed w), Hw; apply Hm.
Qed.
Lemma steady_quiet {A} (m : M A) : preserves (fun w => (besides w, w_plans w, w_rbs w)) m -> steady (step m).
Proof.
  intros Hm. apply steady_plan_step. intros w _. specialize (Hm w). apply pair_eq in Hm as [[H1 H2]%pair_eq H3].
  split; [done|]. rewrite H2, H3. apply plan_nothing.
Qed.
Lemma steady_look {A} (sel : World -> gmap Key A) k : steady (step (get_object sel k)).
Proof. by apply steady_quiet, preserves_get_object. Qed.
Lemma steady_clock : steady (step now).
Proof. apply steady_quiet. by intros w. Qed.

(** A script that gives a plan of the key, and what is done with it. *)
Definition of_key (r : result api_error ReOrchestrationPlan) (w : World) : Prop :=
  keyed w /\ match r with Ok p => plan_key p = key | Err _ => True end.
Lemma stable_of_key r : stable rely (of_key r).
Proof. intros w w' Hr [Hk H]. by split; [eapply Hrely|]. Qed.
Lemma steady_given {A} p (s : script A) :
  (plan_key p = key -> steady s) -> guarded (of_key (Ok p)) s (fun _ => keyed).
Proof.
  intros Hs. destruct (decide (plan_key p = key)) as [Hp|Hp].
  - apply guarded_conseq with keyed (fun _ => keyed); [by apply Hs|by intros w []|done].
  - apply guarded_absurd. by intros w [].
Qed.

Lemma steady_reading {A} (a : A) f : (forall p, plan_key p = key -> steady (f p)) -> steady (reading key a f).
Proof.
  intros Hf. apply guarded_attempt with of_key; [|apply stable_of_key|].
  - intros w Hw. unfold get_object, request. destruct (fault _); [split; [split; [done|exact (plan_nothing key w)]|done]|].
    cbn [fst snd]. change (w_plans (tick w)) with (w_plans w). split; [split; [done|exact (plan_nothing key w)]|].
    split; [done|]. destruct (w_plans w !! key) eqn:Hp; [|done]. exact (Hw _ _ Hp).
  - intros [p|e]; [apply steady_given, Hf|]. unfold not_found_is.
    apply guarded_conseq with keyed (fun _ => keyed); [destruct (IsNotFound e); apply steady_finish|by intros w []|done].
Qed.

Lemma merge_plan_step base st w :
  plan_key base = key -> keyed w -> keeps_to_plan key w (merge_plan base st w).1 /\ of_key (merge_plan base st w).2 (merge_plan base st w).1.
Proof.
  intros Hb Hw. assert (Hk : keeps_to_plan key w (merge_plan base st w).1 /\
    match (merge_plan base st w).2 with Ok p => plan_key p = key | Err _ => True end).
  { unfold merge_plan, request. destruct (fault _); [by split; [split; [done|exact (plan_nothing key w)]|]|].
    rewrite Hb. change (w_plans (tick w)) with (w_plans w).
    destruct (w_plans w !! key) as [old|] eqn:Hold; [|by split; [split; [done|exact (plan_nothing key w)]|]].
    split; [split; [done|exact (plan_status key w old _ Hold)]|]. exact (Hw _ _ Hold). }
  destruct Hk as [Hk Hp]. split; [done|]. split; [by apply (plan_change_keyed w)|done].
Qed.
Lemma steady_writing base st : plan_key base = key -> steady (writing base st).
Proof.
  intros Hb. apply steady_bind; [|intros; apply steady_finish]. apply steady_plan_step. intros w Hw. by apply merge_plan_step.
Qed.

Lemma steady_moving_if p mv from to msg : plan_key p = key -> steady (moving_status_if p mv from to msg).
Proof.
  intros Hp. unfold moving_status_if. rewrite Hp. apply steady_reading. intros latest Hl.
  destruct (list_find _ _) as [[i ms]|]; [|apply steady_finish]. destruct (String.eqb _ _); [|apply steady_finish].
  destruct (update_first _ _ _); [by apply steady_writing|apply steady_finish].
Qed.
Lemma steady_moving_status p mv st msg : plan_key p = key -> steady (moving_status p mv st msg).
Proof. intros Hp. unfold moving_status. rewrite Hp. apply steady_reading. intros latest Hl. by apply steady_writing. Qed.
Lemma steady_recomputing p : plan_key p = key -> steady (recomputing p).
Proof. intros Hp. unfold recomputing. rewrite Hp. apply steady_reading. intros latest Hl. by apply steady_writing. Qed.

(** The two patches of a move. *)
Lemma steady_intent base rb : steady (step (merge_intent base rb)).
Proof.
  apply steady_plan_step. intros w _. unfold merge_intent, request. destruct (fault _); [split; [done|exact (plan_nothing key w)]|].
  change (w_rbs (tick w)) with (w_rbs w). destruct (w_rbs w !! rb_key base) as [old|] eqn:Hold; [|split; [done|exact (plan_nothing key w)]].
  split; [done|]. by apply (plan_intent key w).
Qed.
Lemma steady_rescheduling base t :
  RB_Phase (RB_Status base) <> ReplicaBindingPhaseRescheduling -> steady (step (merge_rb_status base (with_rescheduling base t))).
Proof.
  intros Hp. apply steady_plan_step. intros w _. unfold merge_rb_status, request. destruct (fault _); [split; [done|exact (plan_nothing key w)]|].
  change (w_rbs (tick w)) with (w_rbs w). destruct (w_rbs w !! rb_key base) as [old|] eqn:Hold; [|split; [done|exact (plan_nothing key w)]].
  split; [done|]. apply (plan_rescheduling key w _ old); [done|by apply merge_field_changed|..|done];
    unfold merge_status, merge_field; cbn; by rewrite decide_True.
Qed.
Lemma steady_applying p mv : plan_key p = key -> steady (applying_move p mv).
Proof.
  intros Hp. assert (H1 : forall st msg, steady (dropping (moving_status p mv st msg))) by (intros; by apply steady_dropping, steady_moving_status).
  assert (H2 : forall from to msg, steady (dropping (moving_status_if p mv from to msg))) by (intros; by apply steady_dropping, steady_moving_if).
  unfold applying_move. cbv zeta. apply steady_bind; [apply steady_trying, steady_look|]. intros [rb|e]; [|done].
  destruct (needPatch _ _ _); [|done]. apply steady_bind; [apply steady_trying, steady_intent|]. intros [u|e]; [|done].
  apply steady_bind; [apply steady_trying, steady_look|]. intros [rb'|e]; [|done].
  destruct (String.eqb_spec (RB_Phase (RB_Status rb')) ReplicaBindingPhaseRescheduling); [done|].
  apply steady_bind; [apply steady_clock|]. intros t. apply steady_bind; [by apply steady_trying, steady_rescheduling|]. by intros [u'|e].
Qed.

Lemma steady_executing p : plan_key p = key -> steady (executing_moves p).
Proof.
  intros Hp. unfold executing_moves. rewrite Hp. apply steady_reading. intros read Hr.
  apply steady_bind; [apply steady_clock|]. intros t. cbv zeta. set (st := ensure_moves _ _).
  apply guarded_bind with of_key; [| |by intros e w []].
  - destruct (_ || _); [|by intros w Hw].
    apply guarded_step; [|apply stable_of_key]. intros w Hw. by apply merge_plan_step.
  - intros latest. apply steady_given. intros Hl.
    apply steady_bind; [apply steady_each; intros; by apply steady_applying|]. intros _. by apply steady_dropping, steady_recomputing.
Qed.
Lemma steady_converging : steady (converging key).
Proof.
  apply steady_reading. intros read Hr. apply steady_bind; [by apply steady_dropping, steady_recomputing|]. intros _.
  apply steady_reading. intros latest Hl. destruct (moves_uninitialised latest); [apply steady_finish|].
  destruct (final_phase _); [|apply steady_finish]. destruct (_ && _); [apply steady_finish|].
  apply steady_bind; [apply steady_clock|]. intros t. apply steady_bind; [by apply steady_writing|intros; apply steady_finish].
Qed.
Lemma steady_monitoring_moves p : plan_key p = key -> steady (monitoring_moves p).
Proof.
  intros Hp. apply steady_bind; [apply steady_clock|]. intros t. rewrite Hp. destruct (timed_out p t); [apply steady_converging|].
  apply steady_bind; [|intros; apply steady_converging]. apply steady_each. intros mv. unfold observing_move.
  apply steady_bind; [apply steady_trying, steady_look|]. intros [rb|e]; [|apply steady_finish].
  destruct (computeMoveStatus p rb). by apply steady_dropping, steady_moving_status.
Qed.
Lemma steady_monitoring p : plan_key p = key -> steady (monitoring p).
Proof.
  intros Hp. unfold monitoring. rewrite Hp. apply steady_reading. intros read Hr. destruct (moves_uninitialised read).
  - apply steady_bind; [by apply steady_writing|]. intros _. apply steady_reading. apply steady_monitoring_moves.
  - by apply steady_monitoring_moves.
Qed.
Lemma steady_carrying_out phase p : plan_key p = key -> steady (carrying_out phase p).
Proof.
  intros Hp. unfold carrying_out. destruct (String.eqb _ _); [|apply steady_finish].
  apply steady_bind; [by apply steady_executing|]. intros _. by apply steady_monitoring.
Qed.

Lemma steady_plan_call fmt_q : steady (plan_steps fmt_q key).
Proof.
  apply steady_reading. intros p Hp. cbv zeta. destruct (finished_phase _); [apply steady_finish|].
  apply steady_bind; [apply steady_clock|]. intros t. destruct (negb _); [|by apply steady_carrying_out].
  set (decided := with_conditions _ _). apply guarded_attempt with of_key; [|apply stable_of_key|].
  - intros w Hw. by apply merge_plan_step.
  - intros [stored|e]; [apply steady_given; intros; by apply steady_carrying_out|]. unfold not_found_is.
    apply guarded_conseq with keyed (fun _ => keyed); [destruct (IsNotFound e); apply steady_finish|by intros w []|done].
Qed.
End interrupted.

(** However late the steps of a call for a plan come, and whatever others do in between,
    as long as stored plans sit under their keys: a step writes at most the status of its
    own plan, or the intent of one binding, or the phase of one binding, to Rescheduling,
    and keeps which deployment and replica the binding stands for. *)
Theorem interrupted_plan_call_safe {KUBE : KubeLib} fmt_q key (rely : World -> World -> Prop) w0 s w :
  (forall w w', rely w w' -> keyed w -> keyed w') -> keyed w0 ->
  rtc (turn rely) (plan_steps fmt_q key, w0) (s, w) -> keeps_to_plan key w (advance s w).2.
Proof.
  intros Hr Hk. apply (guarded_acts rely (keeps_to_plan key) keyed (plan_steps fmt_q key) s (fun _ => keyed)); try done.
  - apply keeps_to_plan_refl.
  - by apply steady_plan_call.
Qed.

(** ** A concrete run *)

#[local] Existing Instance reliable_kube.

Definition demo_call : ReOrchestrationPlan := PlanController.demo_plan "Aggressive" fresh_status.
Definition demo_turns (n : nat) : script Result * World :=
  Nat.iter n (fun c => advance c.1 c.2) (plan_steps (fun s => s) (plan_key demo_call), PlanController.demo_world demo_call 5).

Lemma interrupted_plan_call_safe_witness :
  keeps_to_plan (plan_key demo_call) (demo_turns 2).2 (demo_turns 3).2 /\
  Plan_Phase ∘ Plan_Status <$> w_plans (demo_turns 3).2 !! plan_key demo_call = Some PlanPhaseExecuting.
Proof.
  split; [|by_eval].
  apply (interrupted_plan_call_safe (fun s => s) (plan_key demo_call) (fun w w' => exists f, w' = set_rbs f w)
    (PlanController.demo_world demo_call 5) (demo_turns 2).1 (demo_turns 2).2).
  - by intros w w' [f ->].
  - by apply map_Forall_insert_2; [|apply map_Forall_empty].
  - eapply rtc_l; [apply turn_step|]. eapply rtc_l; [apply turn_step|]. apply rtc_refl.
Defined.
Lemma plan_steps_alone_witness :
  alone (plan_steps (fun s => s) (plan_key demo_call)) (PlanController.demo_world demo_call 5) =
  PlanController.Reconcile (fun s => s) (plan_key demo_call) (PlanController.demo_world demo_call 5).
Proof.
  apply plan_steps_alone. split; [by apply map_Forall_insert_2; [|apply map_Forall_empty]|]. apply PlanController.demo_rbs_ok.
Defined.
