(* ===== verification/DoubleMove.v ===== *)
(** * A binding that is moved twice
    (replicabinding_controller.go, reorchestrationplan_controller.go)

    The binding controller takes the cluster to clean up in phase Rescheduling from
    [status.clusterName], which it writes when the binding becomes Running. A plan that
    moves a binding before that finds the cluster of the move before the last one there. *)

From S2P Require Import Prelude GoTime ApiTypes KubeApi MemberClients PlanController ReplicaBinding BindingRace.

Local Open Scope string_scope.
Local Open Scope list_scope.

(** ** A binding on its way to its last cluster *)

Lemma other_cluster cs : cs +:+ "'" <> cs.
Proof. induction cs as [|a cs IH]; [done|]. cbn. intros [= H]. by apply IH. Qed.

Section settling.
Context {KUBE : KubeLib} (ControlNamespace : string) (key : Key) (m : ObjectMeta) (spec : ReplicaBindingSpec) (cs : string).
Hypothesis Hkey : key = (Namespace m, Name m).
Hypothesis Hlive : DeletionTimestamp m = None.
Hypothesis Hfin : replicaBindingFinalizer ∈ Finalizers m.
Hypothesis Htarget : TargetCluster spec <> "".
Hypothesis Hns : (if str_empty ControlNamespace then Namespace m else ControlNamespace) <> "".

(** Its Deployment is created, and the client of the target is known. *)
Definition settling (w : World) : Prop :=
  w_clients w !! TargetCluster spec = Some cs /\
  exists st, w_rbs w !! key = Some (mkRB m spec st) /\
    RB_Phase st ∈ [ReplicaBindingPhaseApplying; ReplicaBindingPhaseRunning; ReplicaBindingPhaseFailed].

(** What a call on it does not change. *)
Definition apart (cs' : string) (w : World) := (w_clients w, w_members w !! cs').

Lemma quiet_member_apart {A} cs' (f : MemberCluster -> MemberCluster * result api_error A) :
  cs' <> cs -> preserves (apart cs') (member_request cs f).
Proof.
  intros Hne w. unfold member_request, request. destruct (fault _); [done|]. change (w_members (tick w)) with (w_members w).
  destruct (w_members w !! cs) as [mc|]; [|done]. destruct (f mc) as [mc' r]. unfold apart. cbn.
  by rewrite lookup_insert_ne.
Qed.

Lemma applying_apart cs' rb gd depName : cs' <> cs -> preserves (apart cs') (reconcile_applying rb gd cs depName).
Proof.
  intros Hne. assert (Hm : forall A (f : MemberCluster -> MemberCluster * result api_error A),
    preserves (apart cs') (attempt (member_request cs f))) by (intros; by apply preserves_attempt, quiet_member_apart).
  assert (Hst : forall b, preserves (apart cs') (patch_rb_status b)) by (intros; by apply preserves_patch_rb_status).
  assert (Hmove : forall phase err res, preserves (apart cs') (move_to rb phase err res)).
  { intros. apply preserves_bind; [apply preserves_now|]. intros t. apply preserves_bind; [apply Hst|intros; apply preserves_ret]. }
  unfold reconcile_applying. apply preserves_bind; [apply Hm|]. intros [dep|e].
  - destruct (_ <=? _)%Z.
    + apply preserves_bind.
      * apply preserves_bind; [apply Hm|]. intros [[|p pods]|e]; [|apply preserves_ret|];
          (apply preserves_bind; [apply preserves_bind; [apply Hm|intros; apply preserves_ret]|intros; apply preserves_ret]).
      * intros node. apply preserves_bind; [apply preserves_now|]. intros t.
        apply preserves_bind; [apply Hst|intros; apply preserves_ret].
    + destruct (isDeploymentFailed dep); [apply Hmove|apply preserves_ret].
  - destruct (IsNotFound e); [|apply preserves_throw].
    apply preserves_bind; [by apply preserves_ignore, quiet_member_apart|intros; apply preserves_ret].
Qed.

(** A call goes to the cluster of the spec only, whatever requests fail. *)
Lemma settling_apart cs' w : cs' <> cs -> settling w -> apart cs' (Reconcile ControlNamespace key w).1 = apart cs' w.
Proof.
  intros Hne (Hc & st & Hrb & Hp). unfold Reconcile. rewrite bind_run. unfold attempt at 1, get_object at 1, request at 1.
  destruct (fault _) as [e|]; [by rewrite (preserves_ignore_not_found (apart cs') Done e)|].
  change (w_rbs (tick w)) with (w_rbs w). rewrite Hrb. cbn [require]. unfold reconcile_binding. cbn [RB_Status RB_Meta].
  assert (String.eqb (RB_Phase st) ReplicaBindingPhaseDeleting = false /\ str_empty (RB_Phase st) = false /\
    String.eqb (RB_Phase st) ReplicaBindingPhasePending = false /\ String.eqb (RB_Phase st) ReplicaBindingPhaseAssigned = false /\
    String.eqb (RB_Phase st) ReplicaBindingPhaseRescheduling = false) as (-> & -> & -> & Ha & Hr).
  { revert Hp. generalize (RB_Phase st). intros ph Hp. repeat (apply elem_of_cons in Hp as [->|Hp]; [done|]). by apply elem_of_nil in Hp. }
  rewrite Hlive. unfold ContainsFinalizer. cbn [RB_Meta]. rewrite bool_decide_eq_true_2 by done. cbn [negb].
  destruct (String.eqb _ ReplicaBindingPhaseFailed); [done|]. destruct (String.eqb _ ReplicaBindingPhaseRunning); [done|].
  unfold reconcile_workload. cbn [RB_Status RB_Spec]. rewrite Ha, Hr.
  rewrite bind_run. unfold attempt at 1, get_object, request. destruct (fault _); [done|]. cbn [fst snd].
  destruct (w_gds _ !! _) as [gd|]; cbn [require]; [|done]. rewrite bind_run. unfold attempt at 1, getMemberClient.
  rewrite (MemberClientCache.GetOrBuild_cached (CACHE:=binding_clients) _ _ cs) by done. cbv iota beta.
  destruct (String.eqb _ ReplicaBindingPhaseApplying); [|done].
  change (apart cs' w) with (apart cs' (tick (tick w))). by apply applying_apart.
Qed.

Lemma settling_call w : settling w -> settling (Reconcile ControlNamespace key w).1.
Proof.
  intros Hw. assert (Hc : w_clients (Reconcile ControlNamespace key w).1 = w_clients w).
  { assert (Hne := other_cluster cs). assert (Ha := settling_apart _ w Hne Hw). by injection Ha. }
  destruct Hw as (Hcl & st & Hrb & Hp). split; [by rewrite Hc|].
  assert (Ho : rb_outcome (w_rbs w) (mkRB m spec st) (w_rbs (Reconcile ControlNamespace key w).1)).
  { unfold Reconcile. rewrite bind_run. unfold attempt, get_object, request.
    destruct (fault _) as [e|]; [rewrite (preserves_ignore_not_found w_rbs Done e); apply outcome_unchanged|].
    cbn [w_rbs tick]. rewrite Hrb. apply (may_end_binding ControlNamespace (w_rbs w)); [|done]. by rewrite Hkey in Hrb. }
  assert (Hk : rb_key (mkRB m spec st) = key) by done. inversion Ho as [H|Hph|Hph|st' Hd|Hd H|st' Hd Hf Hs Hcn H]; rewrite ?Hk in *.
  - by exists st.
  - exfalso. cbn in Hph. rewrite Hph in Hp. apply (bool_decide_eq_true_2 _) in Hp. discriminate Hp.
  - exfalso. cbn in Hph. rewrite Hph in Hp. apply (bool_decide_eq_true_2 _) in Hp. discriminate Hp.
  - exfalso. by apply Hd.
  - exists st. rewrite lookup_insert_eq. unfold AddFinalizer, ContainsFinalizer. cbn [RB_Meta]. by rewrite bool_decide_eq_true_2.
  - exists st'. rewrite lookup_insert_eq. split; [done|]. cbn in Hs. revert Hp Hs. generalize (RB_Phase st). intros ph Hp Hs.
    inversion Hs; subst; first [apply (bool_decide_eq_true_2 _) in Hp; discriminate Hp|apply (bool_decide_eq_true_1 _); reflexivity].
Qed.

Lemma settling_calls cs' n w :
  cs' <> cs -> settling w ->
  let wn := Nat.iter n (fun w => (Reconcile ControlNamespace key w).1) w in
  settling wn /\ w_members wn !! cs' = w_members w !! cs'.
Proof.
  intros Hne Hw. induction n as [|n [IH1 IH2]]; [done|]. cbn. split; [by apply settling_call|].
  assert (Ha := settling_apart cs' _ Hne IH1). injection Ha as _ Ha. exact (eq_trans Ha IH2).
Qed.
End settling.

(** ** The Deployment in between *)

(** C14: A second move that comes before the binding is Running leaves a Deployment
    behind for good: the binding controller cleans up the cluster that
    [status.clusterName] names, which is still the one before the first move. The
    binding goes to the cluster of the second move and a Deployment is placed there,
    and the Deployment of the first move stays through any number of later calls. *)
Theorem second_move_orphans {KUBE : KubeLib} ControlNamespace plan mv rb gd cs1 mc1 cs2 mc2 (dep : Deployment) cs3 mc3 (w : World) (n : nat) :
  (forall k, fault k = None) -> rbs_ok (w_rbs w) -> placing ControlNamespace rb gd cs2 mc2 w -> rb_key rb = rb_key_of_move mv ->
  RB_Phase (RB_Status rb) = ReplicaBindingPhaseApplying -> mc_deployments mc2 !! dep_key rb gd = Some dep ->
  RB_ClusterName (RB_Status rb) <> "" -> w_clients w !! RB_ClusterName (RB_Status rb) = Some cs1 -> w_members w !! cs1 = Some mc1 ->
  (forall dep', mc_deployments mc1 !! dep_key rb gd = Some dep' -> Dep_Finalizers dep' = []) ->
  Loc_ClusterID (PM_Destination mv) <> "" -> w_clients w !! Loc_ClusterID (PM_Destination mv) = Some cs3 ->
  w_members w !! cs3 = Some mc3 -> Namespace (GD_Meta gd) ∈ mc_namespaces mc3 -> cs1 <> cs2 -> cs2 <> cs3 ->
  let call w := (Reconcile ControlNamespace (rb_key rb) w).1 in
  let w2 := call (apply_move plan mv w).1 in
  let wn := Nat.iter n call w2 in
  (exists mc3' dep3, w_members w2 !! cs3 = Some mc3' /\ mc_deployments mc3' !! dep_key rb gd = Some dep3) /\
  (exists rb', w_rbs wn !! rb_key rb = Some rb' /\ TargetCluster (RB_Spec rb') = Loc_ClusterID (PM_Destination mv) /\
     RB_Phase (RB_Status rb') ∈ [ReplicaBindingPhaseApplying; ReplicaBindingPhaseRunning; ReplicaBindingPhaseFailed]) /\
  w_members wn !! cs2 = Some mc2 /\ mc_deployments mc2 !! dep_key rb gd = Some dep.
Proof.
  intros Hno Hok Hpl Hkey Hp Hdep Hcn Hc1 Hm1 Hfin Hd Hc3 Hm3 Hns H12 H23 call w2 wn. destruct Hpl.
  assert (Hneed : needPatch rb mv (buildRescheduleRequestToken plan) = true).
  { unfold needPatch. destruct (String.eqb_spec (TargetCluster (RB_Spec rb)) (Loc_ClusterID (PM_Destination mv))) as [He|]; [|done].
    exfalso. apply H23. rewrite He, Hc3 in placing_client. congruence. }
  destruct (apply_move_run Hno plan mv rb w) as (Hg & Hc & Hm & Hrb); [done|by rewrite <- Hkey|done|by rewrite Hp|].
  rewrite <- Hkey in Hrb. set (old := with_rescheduling _ _) in Hrb. set (w1 := (apply_move plan mv w).1) in *.
  assert (Hpl : placing ControlNamespace old gd cs3 mc3 w1).
  { split; try done; cbn; [by rewrite Hg|by rewrite Hc|by rewrite Hm]. }
  destruct (rescheduling_run ControlNamespace Hno old gd cs3 mc3 cs1 mc1 w1) as (_ & Hcl & Hrbs & _ & Hmem & mc' & Hmc' & Hdep');
    [done|done|done|by rewrite Hc|by rewrite Hm|exact Hfin|].
  change (rb_key old) with (rb_key rb) in *.
  assert (Hset : settling (rb_key rb) (RB_Meta rb) (RB_Spec old) cs3 w2).
  { split; [refine (eq_trans (f_equal _ Hcl) _); by rewrite Hc|].
    eexists. refine (conj (eq_trans (f_equal _ Hrbs) _) _); [apply lookup_insert_eq|by left]. }
  split_and!; [by eexists mc', _| | |done].
  - destruct (settling_calls ControlNamespace (rb_key rb) (RB_Meta rb) (RB_Spec old) cs3 eq_refl placing_live placing_finalizer Hd placing_ns cs2 n w2)
      as [(_ & st & Hst & Hph) _]; [done|done|]. by eexists.
  - destruct (settling_calls ControlNamespace (rb_key rb) (RB_Meta rb) (RB_Spec old) cs3 eq_refl placing_live placing_finalizer Hd placing_ns cs2 n w2)
      as [_ H]; [done|done|]. unfold wn, call. rewrite H. refine (eq_trans (Hmem cs2 _ _) _); [done..|by rewrite Hm].
Qed.

(** ** A concrete run *)

#[local] Existing Instance reliable_kube.

(** A replica on its way from c1 to c2 is moved on to c3. *)
Definition demo_move_on : PlanMove :=
  mkPlanMove (mkRef "web" "default") 0 (mkLocation "c2" "c2" "n2") (mkLocation "c3" "c3" "n3").
Definition demo_three : World :=
  mkWorld ∅ {[rb_key demo_applying := demo_applying]} {[("default", "web") := demo_gd]} ∅ ∅
    (<["https://c1" := demo_member ∅]> (<["https://c2" := demo_available]> {["https://c3" := demo_member ∅]}))
    (<["c1" := "https://c1"]> (<["c2" := "https://c2"]> {["c3" := "https://c3"]})) ∅ 7 0 empty_policy_state ∅.

Lemma second_move_orphans_witness :
  let call w := (Reconcile "kubex-system" (rb_key demo_applying) w).1 in
  let wn := Nat.iter 5 call (call (apply_move demo_second_plan demo_move_on demo_three).1) in
  w_members wn !! "https://c2" = Some demo_available /\
  mc_deployments demo_available !! dep_key demo_applying demo_gd = Some demo_dep.
Proof.
  destruct (second_move_orphans "kubex-system" demo_second_plan demo_move_on demo_applying demo_gd "https://c1" (demo_member ∅)
    "https://c2" demo_available demo_dep "https://c3" (demo_member ∅) demo_three 5) as (_ & _ & H1 & H2);
    [done| | |by_eval|done|by_eval|done|by_eval|by_eval|by intros d H; vm_compute in H|done|by_eval|by_eval
    |reflexivity|done|done|by split].
  - intros k rb. cbn. intros [<- <-]%lookup_singleton_Some. split; [done|by left].
  - split; try done. apply list_elem_of_singleton. reflexivity.
Defined.
