(* ===== verification/Scheduler.v ===== *)
(** * Scheduling of replicas (internal/controller/globaldeployment_controller.go)

    The pure part of the GlobalDeployment controller: the ordered list of
    candidate nodes, the topology-aware next-fit choice with its cursor, the
    requests of a template and the revision labels. *)

From S2P Require Import Prelude GoTime ApiTypes KubeApi.

Local Open Scope string_scope.
Local Open Scope list_scope.
Local Open Scope Z_scope.

Definition revisionLabelKey : string := "kubex.io/revision".
Definition replicaIndexLabelKey : string := "kubex.io/replicaIndex".

(** ** Candidate nodes *)

Record orderedNode := mkOrderedNode {
  ClusterID : string; NodeName : string; Ready : bool; FreeCPU : Quantity; FreeMem : Quantity
}.
Record reqResources := mkReqResources { Req_CPU : Quantity; Req_Mem : Quantity }.

(** Ready, and probed within the last two minutes (or never). *)
Definition ttl : Z := 2 * Minute.
Definition cluster_usable (t : Z) (c : Cluster) : bool :=
  String.eqb (Cluster_Phase (Cluster_Status c)) ClusterPhaseReady &&
  match LastProbeTime (Cluster_Status c) with None => true | Some p => negb (t - p >? ttl) end.

(** Ready, named, with free resources reported. *)
Definition node_usable (n : NodeSummary) : bool :=
  NS_Ready n && negb (str_empty (NS_Name n)) &&
  negb ((NR_CPU (NS_Free n) =? 0) && (NR_Memory (NS_Free n) =? 0)).

Definition ordered_node (clusterID : string) (n : NodeSummary) : orderedNode :=
  mkOrderedNode clusterID (NS_Name n) (NS_Ready n) (NR_CPU (NS_Free n)) (NR_Memory (NS_Free n)).

Definition cluster_nodes (t : Z) (c : Cluster) : list orderedNode :=
  if cluster_usable t c then
    ordered_node (Name (Cluster_Meta c)) <$> List.filter node_usable (Cluster_Nodes (Cluster_Status c))
  else [].

(** [byCluster[id] = append(byCluster[id], item)]. *)
Definition add_node (m : gmap string (list orderedNode)) (n : orderedNode) : gmap string (list orderedNode) :=
  <[ClusterID n := default [] (m !! ClusterID n) ++ [n]]> m.

Definition byCluster (t : Z) (items : list Cluster) : gmap string (list orderedNode) :=
  foldl (fun m c => foldl add_node m (cluster_nodes t c)) ∅ items.

(** More free CPU, then more free memory. *)
Definition more_free (a b : orderedNode) : bool :=
  match FreeCPU a ?= FreeCPU b with
  | Eq => FreeMem b <? FreeMem a
  | c => match c with Gt => true | _ => false end
  end.

(** One round of the interleaving, and all rounds. *)
Definition round (ids : list string) (nodes : string -> list orderedNode) (i : nat) : list orderedNode :=
  omap (fun id => nodes id !! i) ids.
Definition maxLen (ids : list string) (nodes : string -> list orderedNode) : nat :=
  foldl (fun m id => if Nat.ltb m (length (nodes id)) then length (nodes id) else m) 0%nat ids.
Definition interleave (ids : list string) (nodes : string -> list orderedNode) : list orderedNode :=
  concat (round ids nodes <$> seq 0 (maxLen ids nodes)).

Section build.
Context {SORT : GoSort} {MAPS : MapOrder}.

Definition order_nodes (t : Z) (items : list Cluster) : list orderedNode :=
  let by_cluster := byCluster t items in
  let clusterIDs := sort_slice String.ltb (go_range 0 by_cluster).*1 in
  interleave clusterIDs (fun id => sort_slice more_free (default [] (by_cluster !! id))).

(** [func (r) buildOrderedNodes(ctx) ([]orderedNode, error)]. *)
Definition buildOrderedNodes {KUBE : KubeLib} : M (list orderedNode) :=
  items ← list_objects w_clusters (fun _ => true);
  t ← now;
  mret (order_nodes t items).
End build.

(** [func fits(n, req) bool]. *)
Definition fits (n : orderedNode) (req : reqResources) : bool :=
  if (Req_CPU req =? 0) && (Req_Mem req =? 0) then true
  else if FreeCPU n <? Req_CPU req then false
  else if FreeMem n <? Req_Mem req then false
  else true.

(** [func sumDeploymentPodRequests(gd)], with [decodeDeploymentSpecFromRaw]. *)
Section requests.
Context {KUBE : KubeLib}.

Definition decodeDeploymentSpecFromRaw (raw : string) : result string DeploymentSpec :=
  if str_empty raw then Err "empty template"
  else if yaml_fails raw then Err "unmarshal" else Ok (yaml_Unmarshal raw).

Definition add_request (acc : reqResources) (c : option Quantity * option Quantity) : reqResources :=
  mkReqResources (Req_CPU acc + default 0 c.1) (Req_Mem acc + default 0 c.2).

Definition sumDeploymentPodRequests (gd : GlobalDeployment) : reqResources :=
  match decodeDeploymentSpecFromRaw (Template (GD_Spec gd)) with
  | Err _ => mkReqResources 0 0
  | Ok depSpec => foldl add_request (mkReqResources 0 0) (Dep_Requests depSpec)
  end.
End requests.

(** ** The next fit *)

Inductive pick : Type :=
| Slot (n : orderedNode) (nextCursor : Z)
| NoSlot (err : string)
| IndexPanic.

(** The [i]-th pass of the loop; [int] wraps, [%] truncates, and an index below zero
    panics. *)
Fixpoint pick_loop (order : list orderedNode) (start : Z) (ok : orderedNode -> bool) (n : nat) (i : Z) : pick :=
  match n with
  | O => NoSlot "no fit node"
  | S n' =>
      let idx := Z.rem (wrap64 (start + i)) (Z.of_nat (length order)) in
      if idx <? 0 then IndexPanic
      else match order !! Z.to_nat idx with
           | None => IndexPanic
           | Some node => if ok node then Slot node idx else pick_loop order start ok n' (i + 1)
           end
  end.

(** [func pickNextFit(order, cursor, ok)]. *)
Definition pickNextFit (order : list orderedNode) (cursor : Z) (ok : orderedNode -> bool) : pick :=
  match order with
  | [] => NoSlot "no candidate nodes"
  | _ => pick_loop order (wrap64 (cursor + 1)) ok (length order) 0
  end.

(** ** Revisions *)

(** The number of a revision label [v<N>]; other labels have none. *)
Definition revision_number (rev : string) : option Z :=
  match rev with
  | String c rest => if Ascii.eqb c "v" && negb (str_empty rest) then Atoi rest else None
  | EmptyString => None
  end.

(** One pass of the loop of [nextRevisionForReplicaIndex]. *)
Definition revision_step (replicaIndex : Z) (maxN : Z) (b : ReplicaBinding) : Z :=
  if negb (RBS_ReplicaIndex (RB_Spec b) =? replicaIndex) then maxN
  else
    match revision_number (default "" (Labels (RB_Meta b) !! revisionLabelKey)) with
    | Some n => if n >? maxN then n else maxN
    | None => maxN
    end.

(** [func nextRevisionForReplicaIndex(owned, replicaIndex) string]. *)
Definition nextRevisionForReplicaIndex (owned : list ReplicaBinding) (replicaIndex : Z) : string :=
  "v" +:+ pretty (wrap64 (foldl (revision_step replicaIndex) 0 owned + 1)).

(** [func bumpRevision(cur) string]. *)
Definition bumpRevision (cur : string) : string :=
  if str_empty cur then "v1"
  else
    match cur with
    | String c rest =>
        if Ascii.eqb c "v" then
          match Atoi rest with Some n => "v" +:+ pretty (wrap64 (n + 1)) | None => "v2" end
        else "v2"
    | EmptyString => "v2"
    end.

(** ** Lemmas *)

Definition in_cluster (id : string) (n : orderedNode) : bool := String.eqb (ClusterID n) id.

(** All the candidates, in the order of the clusters. *)
Definition candidates (t : Z) (items : list Cluster) : list orderedNode :=
  concat (cluster_nodes t <$> items).

Lemma foldl_add_node l m id :
  default [] (foldl add_node m l !! id) = default [] (m !! id) ++ List.filter (in_cluster id) l /\
  (is_Some (foldl add_node m l !! id) <-> is_Some (m !! id) \/ List.filter (in_cluster id) l <> []).
Proof.
  revert m. induction l as [|n l IH]; intros m; cbn [foldl List.filter].
  { rewrite app_nil_r. split; [done|]. split; [by left|by intros [|]]. }
  destruct (IH (add_node m n)) as [H1 H2]. rewrite H1, H2. unfold add_node.
  destruct (in_cluster id n) eqn:He.
  - apply String.eqb_eq in He as <-. rewrite lookup_insert_eq. cbn. rewrite <- app_assoc.
    split; [done|]. split; [by right|]. intros _. left. by eexists.
  - apply String.eqb_neq in He. by rewrite lookup_insert_ne.
Qed.

Lemma foldl_concat {A B} (f : A -> B -> A) a (ls : list (list B)) :
  foldl (fun a l => foldl f a l) a ls = foldl f a (concat ls).
Proof. revert a. induction ls as [|l ls IH]; intros a; [done|]. cbn. rewrite foldl_app. apply IH. Qed.

Lemma byCluster_candidates t items : byCluster t items = foldl add_node ∅ (candidates t items).
Proof.
  unfold byCluster, candidates. rewrite <- foldl_concat. generalize (∅ : gmap string (list orderedNode)).
  induction items as [|c items IH]; intros m; [done|]. cbn. apply IH.
Qed.

Lemma byCluster_lookup t items id :
  default [] (byCluster t items !! id) = List.filter (in_cluster id) (candidates t items) /\
  (is_Some (byCluster t items !! id) <-> List.filter (in_cluster id) (candidates t items) <> []).
Proof.
  rewrite byCluster_candidates. destruct (foldl_add_node (candidates t items) ∅ id) as [H1 H2].
  rewrite H1, H2, lookup_empty. split; [done|]. split; [intros [[? ?]|?]; done|by right].
Qed.

Lemma maxLen_bound ids nodes id : id ∈ ids -> (length (nodes id) <= maxLen ids nodes)%nat.
Proof.
  unfold maxLen. assert (Hmono : forall ids m, (m <= foldl (fun m id =>
    if Nat.ltb m (length (nodes id)) then length (nodes id) else m) m ids)%nat).
  { clear. induction ids as [|id ids IH]; intros m; cbn [foldl]; [lia|].
    destruct (Nat.ltb_spec m (length (nodes id))); [|apply IH].
    etrans; [|apply IH]. lia. }
  generalize 0%nat. induction ids as [|id' ids IH]; intros m Hin; [by apply not_elem_of_nil in Hin|]. cbn [foldl].
  apply elem_of_cons in Hin as [<-|Hin]; [|by apply IH].
  destruct (Nat.ltb_spec m (length (nodes id))) as [Hlt|Hge]; [apply Hmono|]. etrans; [exact Hge|]. apply Hmono.
Qed.

(** The share of one cluster in a round is at most its next node. *)
Lemma filter_round ids nodes id i :
  NoDup ids -> (forall id' n, n ∈ nodes id' -> ClusterID n = id') ->
  List.filter (in_cluster id) (round ids nodes i) =
  if decide (id ∈ ids) then option_list (nodes id !! i) else [].
Proof.
  intros Hnd Hown. unfold round. induction ids as [|id' ids IH]; [done|].
  apply NoDup_cons in Hnd as [Hn Hnd]. specialize (IH Hnd). cbn [omap list_omap].
  assert (Hhead : List.filter (in_cluster id) (match nodes id' !! i with Some n => n :: omap (fun id => nodes id !! i) ids
            | None => omap (fun id => nodes id !! i) ids end) =
          (if decide (id' = id) then option_list (nodes id !! i) else []) ++
          List.filter (in_cluster id) (omap (fun id => nodes id !! i) ids)).
  { destruct (decide (id' = id)) as [->|Hne].
    - destruct (nodes id !! i) as [n|] eqn:Hi; [|done]. cbn. unfold in_cluster at 1.
      rewrite (Hown id n), String.eqb_refl by (by eapply list_elem_of_lookup_2). done.
    - destruct (nodes id' !! i) as [n|] eqn:Hi; [|done]. cbn. unfold in_cluster at 1.
      rewrite (Hown id' n) by (by eapply list_elem_of_lookup_2). by apply String.eqb_neq in Hne as ->. }
  etrans; [exact Hhead|]. rewrite IH. destruct (decide (id' = id)) as [->|Hne].
  - rewrite (decide_False (P := id ∈ ids)) by done. rewrite decide_True by apply list_elem_of_here. apply app_nil_r.
  - cbn. destruct (decide (id ∈ ids)).
    + by rewrite decide_True by (by apply list_elem_of_further).
    + rewrite decide_False; [done|]. intros [<-|?]%elem_of_cons; done.
Qed.

Lemma concat_lookups {A} (l : list A) k :
  (length l <= k)%nat -> concat ((fun i => option_list (l !! i)) <$> seq 0 k) = l.
Proof.
  revert k. induction l as [|a l IH]; intros k Hk.
  - assert (forall s, concat ((fun i => option_list (@nil A !! i)) <$> seq s k) = []) as H; [|apply H].
    induction k as [|k IH]; intros s; [done|]. cbn. apply IH. cbn. lia.
  - destruct k as [|k]; [cbn in Hk; lia|]. cbn. f_equal. cbn in Hk. rewrite <- seq_shift, <- list_fmap_compose.
    apply IH. lia.
Qed.

Lemma filter_concat {A} (f : A -> bool) ls : List.filter f (concat ls) = concat (List.filter f <$> ls).
Proof. induction ls as [|l ls IH]; [done|]. cbn. by rewrite List.filter_app, IH. Qed.

Lemma filter_interleave ids nodes id :
  NoDup ids -> (forall id' n, n ∈ nodes id' -> ClusterID n = id') ->
  List.filter (in_cluster id) (interleave ids nodes) = if decide (id ∈ ids) then nodes id else [].
Proof.
  intros Hnd Hown. unfold interleave. rewrite filter_concat, <- list_fmap_compose.
  rewrite (list_fmap_ext _ (fun i => if decide (id ∈ ids) then option_list (nodes id !! i) else [])).
  2: { intros j i _. apply filter_round; done. }
  destruct (decide (id ∈ ids)) as [Hin|Hn].
  - apply concat_lookups, maxLen_bound, Hin.
  - induction (seq _ _); [done|]. done.
Qed.

Lemma strict_weak_more_free l : strict_weak more_free l.
Proof.
  unfold more_free. split_and!.
  - intros x _. rewrite Z.compare_refl. apply Z.ltb_irrefl.
  - intros x y z _ _ _.
    destruct (Z.compare_spec (FreeCPU x) (FreeCPU y)), (Z.compare_spec (FreeCPU y) (FreeCPU z)),
      (Z.compare_spec (FreeCPU x) (FreeCPU z)); try done; try lia;
    rewrite ?Z.ltb_lt; lia.
  - intros x y z _ _ _.
    destruct (Z.compare_spec (FreeCPU x) (FreeCPU y)), (Z.compare_spec (FreeCPU y) (FreeCPU z)),
      (Z.compare_spec (FreeCPU x) (FreeCPU z)); try done; try lia;
    rewrite ?Z.ltb_ge; lia.
Qed.

Section order.
Context {SORT : GoSort} {MAPS : MapOrder}.

Lemma filter_order_nodes t items id :
  List.filter (in_cluster id) (order_nodes t items) =
  sort_slice more_free (List.filter (in_cluster id) (candidates t items)).
Proof.
  unfold order_nodes. rewrite filter_interleave.
    - destruct (byCluster_lookup t items id) as [Hl Hs]. rewrite Hl. destruct (decide _) as [|Hn]; [done|].
      destruct (List.filter (in_cluster id) (candidates t items)) eqn:Hf; [symmetry; apply Permutation_nil_r, sort_slice_perm|].
      exfalso. apply Hn. rewrite sort_slice_perm. destruct (proj2 Hs) as [l' Hl']; [done|].
      apply list_elem_of_fmap. exists (id, l'). split; [done|]. by apply elem_of_go_range.
    - rewrite sort_slice_perm. apply NoDup_go_range.
    - intros id' n. rewrite sort_slice_perm. destruct (byCluster_lookup t items id') as [-> _].
      rewrite list_elem_of_In, List.filter_In. intros [_ Hn]. by apply String.eqb_eq.
Qed.

Lemma order_nodes_elem t items n : n ∈ order_nodes t items -> n ∈ candidates t items.
Proof.
  intros Hn. assert (Hf : n ∈ List.filter (in_cluster (ClusterID n)) (order_nodes t items)).
  { apply list_elem_of_In, List.filter_In. split; [by apply list_elem_of_In|apply String.eqb_refl]. }
  rewrite filter_order_nodes, sort_slice_perm in Hf.
  apply list_elem_of_In, List.filter_In in Hf as [Hf _]. by apply list_elem_of_In.
Qed.
End order.

(** ** What a node must be, told without the code *)

Section room.
Context {KUBE : KubeLib}.

(** What the containers of the template ask for together; nothing, when there is no
    template or it cannot be read. *)
Definition requested (gd : GlobalDeployment) (sel : option Quantity * option Quantity -> option Quantity) : Z :=
  if decide (Template (GD_Spec gd) = "" \/ yaml_fails (Template (GD_Spec gd)) = true) then 0
  else foldr Z.add 0 ((fun c => default 0 (sel c)) <$> Dep_Requests (yaml_Unmarshal (Template (GD_Spec gd)))).

(** A replica may go to [node] of [cluster]: a cluster that is Ready and was not probed
    more than two minutes ago lists the node as Ready, with something free, and with
    enough free of what the template asks for, if it asks for anything. *)
Definition has_room (gd : GlobalDeployment) (clusters : gmap Key Cluster) (t : Z) (cluster node : string) : Prop :=
  exists k c n, clusters !! k = Some c /\ n ∈ Cluster_Nodes (Cluster_Status c) /\
    Name (Cluster_Meta c) = cluster /\ NS_Name n = node /\ node <> "" /\
    Cluster_Phase (Cluster_Status c) = "Ready" /\
    (forall p, LastProbeTime (Cluster_Status c) = Some p -> t - p <= 120 * 10 ^ 9) /\
    NS_Ready n = true /\ (NR_CPU (NS_Free n) <> 0 \/ NR_Memory (NS_Free n) <> 0) /\
    (requested gd fst = 0 /\ requested gd snd = 0 \/
     requested gd fst <= NR_CPU (NS_Free n) /\ requested gd snd <= NR_Memory (NS_Free n)).

Lemma add_request_sums l acc : foldl add_request acc l =
  mkReqResources (Req_CPU acc + foldr Z.add 0 ((fun c => default 0 c.1) <$> l))
    (Req_Mem acc + foldr Z.add 0 ((fun c => default 0 c.2) <$> l)).
Proof.
  revert acc. induction l as [|c l IH]; intros acc; cbn; [destruct acc; cbn; f_equal; lia|]. rewrite IH. cbn. f_equal; lia.
Qed.
Lemma sumDeploymentPodRequests_requested gd :
  sumDeploymentPodRequests gd = mkReqResources (requested gd fst) (requested gd snd).
Proof.
  unfold sumDeploymentPodRequests, decodeDeploymentSpecFromRaw, requested.
  destruct (decide _) as [[H|H]|H].
  - by rewrite H.
  - rewrite H. by destruct (str_empty _).
  - destruct (Template (GD_Spec gd)) eqn:Ht; [destruct H; by left|]. cbn [str_empty].
    destruct (yaml_fails _) eqn:Hf; [destruct H; by right|]. by rewrite add_request_sums.
Qed.
Lemma usable_has_room gd clusters k c t n :
  clusters !! k = Some c -> n ∈ cluster_nodes t c -> fits n (sumDeploymentPodRequests gd) = true ->
  has_room gd clusters t (ClusterID n) (NodeName n).
Proof.
  intros Hc Hn Hfit. unfold cluster_nodes in Hn. destruct (cluster_usable t c) eqn:Hu; [|by apply not_elem_of_nil in Hn].
  apply list_elem_of_fmap in Hn as (ns & -> & [Hns Hok]%list_elem_of_In%List.filter_In). apply list_elem_of_In in Hns.
  unfold cluster_usable in Hu. apply andb_true_iff in Hu as [Hready%String.eqb_eq Hfresh].
  unfold node_usable in Hok. apply andb_true_iff in Hok as [[Hr Hname]%andb_true_iff Hfree%negb_true_iff].
  exists k, c, ns. split_and!; [done|done|done|done| |done| |done| |].
  - intros H. cbn in H. by rewrite H in Hname.
  - intros p Hp. rewrite Hp in Hfresh. apply negb_true_iff in Hfresh. change ttl with (120 * 10 ^ 9) in Hfresh.
    revert Hfresh. destruct (Z.gtb_spec (t - p) (120 * 10 ^ 9)); [done|lia].
  - apply andb_false_iff in Hfree as [H%Z.eqb_neq|H%Z.eqb_neq]; auto.
  - revert Hfit. rewrite sumDeploymentPodRequests_requested. unfold fits. cbn.
    destruct (Z.eqb_spec (requested gd fst) 0), (Z.eqb_spec (requested gd snd) 0); cbn; auto;
      (destruct (Z.ltb_spec (NR_CPU (NS_Free ns)) (requested gd fst)); [done|]);
      (destruct (Z.ltb_spec (NR_Memory (NS_Free ns)) (requested gd snd)); [done|]); auto.
Qed.
End room.

(** What the first fitting position means. *)
Definition slot (order : list orderedNode) (cursor i : Z) : Z := Z.rem (cursor + 1 + i) (Z.of_nat (length order)).

Lemma slot_lookup order cursor i :
  0 <= cursor -> 0 <= i -> order <> [] ->
  slot order cursor i = (cursor + 1 + i) `mod` Z.of_nat (length order) /\
  exists n, order !! Z.to_nat (slot order cursor i) = Some n.
Proof.
  intros Hc Hi Hne. assert (0 < Z.of_nat (length order)) by (destruct order; [done|cbn; lia]).
  unfold slot. rewrite Z.rem_mod_nonneg by lia. split; [done|]. apply lookup_lt_is_Some.
  assert (H' := Z.mod_pos_bound (cursor + 1 + i) (Z.of_nat (length order))). lia.
Qed.

Lemma pick_loop_spec order cursor ok n i :
  0 <= cursor -> 0 <= i -> cursor + i + Z.of_nat n < 2 ^ 63 -> order <> [] ->
  match pick_loop order (cursor + 1) ok n i with
  | Slot node idx => exists j, i <= j < i + Z.of_nat n /\ idx = slot order cursor j /\
      order !! Z.to_nat idx = Some node /\ ok node = true /\
      (forall j' node', i <= j' < j -> order !! Z.to_nat (slot order cursor j') = Some node' -> ok node' = false)
  | NoSlot _ => forall j node, i <= j < i + Z.of_nat n ->
      order !! Z.to_nat (slot order cursor j) = Some node -> ok node = false
  | IndexPanic => False
  end.
Proof.
  intros Hc Hi Hmax Hne. revert i Hi Hmax. induction n as [|n IH]; intros i Hi Hmax; [cbn [pick_loop]; intros; lia|]. cbn [pick_loop].
  rewrite wrap64_id by (unfold int64_range; lia). fold (slot order cursor i). destruct (slot_lookup order cursor i Hc Hi Hne) as [Hs [node Hnode]].
  assert (0 < Z.of_nat (length order)) by (destruct order; [done|cbn; lia]).
  destruct (Z.ltb_spec (slot order cursor i) 0).
  { assert (H' := Z.mod_pos_bound (cursor + 1 + i) (Z.of_nat (length order))). lia. }
  rewrite Hnode. destruct (ok node) eqn:Hok.
  - exists i. split_and!; try done; try lia.
  - specialize (IH (i + 1) ltac:(lia) ltac:(lia)). destruct (pick_loop _ _ _ _ _) as [m idx|e|]; [| |done].
    + destruct IH as (j & Hj & -> & Hm & Hokm & Hbefore). exists j. split_and!; try done; try lia.
      intros j' node' Hj'. destruct (decide (j' = i)) as [->|]; [congruence|]. apply Hbefore. lia.
    + intros j node' Hj. destruct (decide (j = i)) as [->|]; [congruence|]. apply IH. lia.
Qed.

(** What is picked is in the list and fits. *)
Lemma pickNextFit_sound order cursor ok node idx :
  pickNextFit order cursor ok = Slot node idx -> node ∈ order /\ ok node = true.
Proof.
  assert (Hloop : forall start n i, pick_loop order start ok n i = Slot node idx -> node ∈ order /\ ok node = true).
  { intros start. induction n as [|n IH]; intros i; cbn [pick_loop]; [done|]. destruct (_ <? 0); [done|].
    destruct (order !! _) as [m|] eqn:Hm; [|done]. destruct (ok m) eqn:Hok; [|apply IH].
    intros [= <- _]. split; [by eapply list_elem_of_lookup_2|done]. }
  unfold pickNextFit. destruct order; [done|]. apply Hloop.
Qed.

(** Every position is within one turn of the cursor. *)
Lemma slot_surjective order cursor node :
  0 <= cursor -> node ∈ order ->
  exists j, 0 <= j < Z.of_nat (length order) /\ order !! Z.to_nat (slot order cursor j) = Some node.
Proof.
  intros Hc [k Hk]%list_elem_of_lookup. assert (Hlt := lookup_lt_Some _ _ _ Hk).
  set (len := Z.of_nat (length order)). exists ((Z.of_nat k - (cursor + 1)) `mod` len).
  assert (Hb : 0 <= (Z.of_nat k - (cursor + 1)) `mod` len < len) by (apply Z.mod_pos_bound; lia).
  split; [done|]. unfold slot. fold len. rewrite Z.rem_mod_nonneg by lia.
  rewrite Zplus_mod_idemp_r. replace (cursor + 1 + (Z.of_nat k - (cursor + 1))) with (Z.of_nat k) by lia.
  rewrite Z.mod_small by lia. by rewrite Nat2Z.id.
Qed.

Lemma revision_max replicaIndex owned m :
  m <= foldl (revision_step replicaIndex) m owned /\
  (forall b n, b ∈ owned -> RBS_ReplicaIndex (RB_Spec b) = replicaIndex ->
     revision_number (default "" (Labels (RB_Meta b) !! revisionLabelKey)) = Some n ->
     n <= foldl (revision_step replicaIndex) m owned).
Proof.
  revert m. induction owned as [|b owned IH]; intros m; cbn [foldl].
  { split; [lia|]. intros b n Hb. by apply not_elem_of_nil in Hb. }
  destruct (IH (revision_step replicaIndex m b)) as [H1 H2].
  assert (Hstep : m <= revision_step replicaIndex m b).
  { unfold revision_step. destruct (negb _); [lia|]. destruct (revision_number _) as [n|]; [|lia].
    destruct (Z.gtb_spec n m); lia. }
  split; [lia|]. intros b' n [<-|Hb']%elem_of_cons Hidx Hn; [|by apply (H2 b')].
  etrans; [|exact H1]. unfold revision_step. rewrite Hidx, Z.eqb_refl. cbn [negb]. rewrite Hn.
  destruct (Z.gtb_spec n m); lia.
Qed.

Lemma revision_number_pretty n : 0 <= n < 2 ^ 63 -> revision_number ("v" +:+ pretty n) = Some n.
Proof.
  intros Hn. change (revision_number ("v" +:+ pretty n)) with (if negb (str_empty (pretty n)) then Atoi (pretty n) else None).
  assert (H := Atoi_pretty n Hn). destruct (str_empty (pretty n)) eqn:He; [|done].
  by destruct (pretty n).
Qed.

Lemma bumpRevision_pretty n : 0 <= n < 2 ^ 63 - 1 -> bumpRevision ("v" +:+ pretty n) = "v" +:+ pretty (n + 1).
Proof.
  intros Hn. change (bumpRevision ("v" +:+ pretty n)) with
    (match Atoi (pretty n) with Some n => "v" +:+ pretty (wrap64 (n + 1)) | None => "v2" end).
  rewrite Atoi_pretty by lia. by rewrite wrap64_id by (unfold int64_range; lia).
Qed.

(** ** Properties *)

Section properties.
Context {SORT : GoSort} {MAPS : MapOrder}.

(** The ordered list holds every usable node of every usable cluster exactly as
    often as the clusters list it, and the nodes of one cluster come in the order
    of decreasing free CPU, then free memory. *)
Theorem order_nodes_spec t items id :
  List.filter (in_cluster id) (order_nodes t items) =
    sort_slice more_free (List.filter (in_cluster id) (candidates t items)) /\
  List.filter (in_cluster id) (order_nodes t items) ≡ₚ List.filter (in_cluster id) (candidates t items) /\
  StronglySorted (fun a b => more_free b a = false) (List.filter (in_cluster id) (order_nodes t items)).
Proof.
  rewrite filter_order_nodes. split_and!; [done|apply sort_slice_perm|apply sort_slice_sorted, strict_weak_more_free].
Qed.

(** C33: from a cursor that is not negative and more than the number of nodes below the
    largest int, [pickNextFit] returns the first fitting node in cyclic order after the
    cursor, with its index as the next cursor, which is again such a cursor; it fails only
    when no node fits, and never indexes out of range. *)
Theorem pickNextFit_spec order cursor ok :
  0 <= cursor -> cursor + Z.of_nat (length order) < 2 ^ 63 ->
  match pickNextFit order cursor ok with
  | Slot node idx => 0 <= idx < Z.of_nat (length order) /\
      exists j, 0 <= j < Z.of_nat (length order) /\
      idx = (cursor + 1 + j) `mod` Z.of_nat (length order) /\
      order !! Z.to_nat idx = Some node /\ ok node = true /\
      (forall j' node', 0 <= j' < j ->
         order !! Z.to_nat ((cursor + 1 + j') `mod` Z.of_nat (length order)) = Some node' -> ok node' = false)
  | NoSlot _ => forall node, node ∈ order -> ok node = false
  | IndexPanic => False
  end.
Proof.
  intros Hc Hmax. destruct order as [|n0 order0]; [intros node Hn; by apply not_elem_of_nil in Hn|].
  set (order := n0 :: order0). assert (Hne : order <> []) by done. assert (Hlen : 0 < Z.of_nat (length order)) by (cbn; lia).
  change (pickNextFit order cursor ok) with (pick_loop order (wrap64 (cursor + 1)) ok (length order) 0).
  rewrite wrap64_id by (unfold int64_range; fold order in Hmax; lia).
  assert (Hspec := pick_loop_spec order cursor ok (length order) 0 Hc ltac:(lia) ltac:(fold order in Hmax; lia) Hne).
  destruct (pick_loop _ _ _ _ _) as [node idx|e|]; [| |done].
  - destruct Hspec as (j & Hj & -> & Hl & Hok & Hb). destruct (slot_lookup order cursor j Hc ltac:(lia) Hne) as [Heq _].
    split; [rewrite Heq; by apply Z.mod_pos_bound|]. exists j. rewrite <- Heq. split_and!; try done; try lia.
    intros j' node' Hj'. destruct (slot_lookup order cursor j' Hc ltac:(lia) Hne) as [<- _]. by apply Hb.
  - intros node Hin. destruct (slot_surjective order cursor node Hc Hin) as (j & Hj & Hl). apply (Hspec j node); [lia|done].
Qed.

(** At the largest int the start wraps, and the index is negative. *)
Example pickNextFit_wraps order n1 n2 n3 ok : order = [n1; n2; n3] -> pickNextFit order (2 ^ 63 - 1) ok = IndexPanic.
Proof. by intros ->. Qed.
End properties.

(** The next revision of a replica is not the label of any binding of that
    replica, as long as no label carries the largest int64. *)
Theorem nextRevisionForReplicaIndex_fresh owned replicaIndex :
  (forall b, b ∈ owned -> revision_number (default "" (Labels (RB_Meta b) !! revisionLabelKey)) <> Some (2 ^ 63 - 1)) ->
  forall b, b ∈ owned -> RBS_ReplicaIndex (RB_Spec b) = replicaIndex ->
    Labels (RB_Meta b) !! revisionLabelKey <> Some (nextRevisionForReplicaIndex owned replicaIndex).
Proof.
  intros Hmax b Hb Hidx Hl. unfold nextRevisionForReplicaIndex in Hl.
  set (maxN := foldl (revision_step replicaIndex) 0 owned) in *.
  destruct (revision_max replicaIndex owned 0) as [H0 Hle]. fold maxN in H0, Hle.
  assert (Hlt : maxN < 2 ^ 63 - 1).
  { subst maxN. clear -Hmax. assert (Hm : 0 < 2 ^ 63 - 1) by lia. revert Hm. generalize 0.
    induction owned as [|b owned IH]; intros m Hm; [done|]. cbn [foldl]. apply IH.
    - intros b' Hb'. apply Hmax. by apply list_elem_of_further.
    - unfold revision_step. destruct (negb _); [done|].
      specialize (Hmax b ltac:(apply list_elem_of_here)).
      destruct (revision_number _) as [n|] eqn:Hn; [|done]. destruct (Z.gtb_spec n m); [|done].
      assert (n < 2 ^ 63).
      { unfold revision_number in Hn. destruct (default _ _) as [|c rest]; [done|].
        destruct (_ && _); [|done]. unfold Atoi in Hn. destruct (split_sign rest) as [neg d].
        destruct d; [done|]. destruct (digits_value 0 _) as [v|]; [|done]. cbn in Hn.
        destruct (_ && _) eqn:Hr; [|done]. apply andb_true_iff in Hr as [_ Hr%Z.ltb_lt]. by simplify_eq. }
      assert (n <> 2 ^ 63 - 1) by congruence. lia. }
  rewrite wrap64_id in Hl by (unfold int64_range; lia).
  specialize (Hle b (maxN + 1) Hb Hidx). rewrite Hl in Hle. cbn [default] in Hle.
  specialize (Hle (revision_number_pretty (maxN + 1) ltac:(lia))). lia.
Qed.

Definition demo_node (cluster name : string) (cpu : Z) : orderedNode := mkOrderedNode cluster name true cpu 0.
Definition demo_binding (rev : string) : ReplicaBinding :=
  mkRB (mkMeta "web-rb-0" "default" "u" 1 {[revisionLabelKey := rev]} ∅ [] None [])
    (mkRBSpec (mkRef "web" "default") 0 "" "" false "") empty_rb_status.

Lemma pickNextFit_spec_witness :
  pickNextFit [demo_node "c1" "n1" 4; demo_node "c2" "n2" 1] 0 (fun n => 2 <=? FreeCPU n) = Slot (demo_node "c1" "n1" 4) 0 /\
  (2 <=? FreeCPU (demo_node "c1" "n1" 4)) = true.
Proof.
  assert (Hrun : pickNextFit [demo_node "c1" "n1" 4; demo_node "c2" "n2" 1] 0 (fun n => 2 <=? FreeCPU n) =
                 Slot (demo_node "c1" "n1" 4) 0) by by_eval.
  assert (H := pickNextFit_spec [demo_node "c1" "n1" 4; demo_node "c2" "n2" 1] 0 (fun n => 2 <=? FreeCPU n)
    ltac:(discriminate) ltac:(reflexivity)).
  rewrite Hrun in H. destruct H as (_ & j & _ & _ & _ & Hok & _). split; [exact Hrun|exact Hok].
Defined.

Lemma nextRevisionForReplicaIndex_fresh_witness :
  nextRevisionForReplicaIndex [demo_binding "v7"] 0 = "v8" /\
  Labels (RB_Meta (demo_binding "v7")) !! revisionLabelKey <> Some (nextRevisionForReplicaIndex [demo_binding "v7"] 0).
Proof.
  split; [by_eval|]. apply (nextRevisionForReplicaIndex_fresh [demo_binding "v7"] 0).
  - intros b Hb. apply list_elem_of_singleton in Hb as ->. vm_compute. discriminate.
  - apply list_elem_of_singleton. reflexivity.
  - reflexivity.
Defined.

(** Revision labels are printed and read back: the label [v<n>] of a number is
    read as that number, bumping it gives the label of the next number, and the
    label drawn for a replica, once a binding carries it, makes the next one drawn
    the bumped label, below the largest int. *)
Theorem revision_roundtrip owned replicaIndex b :
  RBS_ReplicaIndex (RB_Spec b) = replicaIndex ->
  Labels (RB_Meta b) !! revisionLabelKey = Some (nextRevisionForReplicaIndex owned replicaIndex) ->
  foldl (revision_step replicaIndex) 0 owned < 2 ^ 63 - 2 ->
  exists n, revision_number (nextRevisionForReplicaIndex owned replicaIndex) = Some n /\
    nextRevisionForReplicaIndex owned replicaIndex = "v" +:+ pretty n /\
    bumpRevision ("v" +:+ pretty n) = "v" +:+ pretty (n + 1) /\
    nextRevisionForReplicaIndex (owned ++ [b]) replicaIndex = bumpRevision (nextRevisionForReplicaIndex owned replicaIndex).
Proof.
  intros Hidx Hl Hlt. pose proof (proj1 (revision_max replicaIndex owned 0)) as H0.
  unfold nextRevisionForReplicaIndex in *. set (m := foldl (revision_step replicaIndex) 0 owned) in *.
  rewrite wrap64_id in * by (unfold int64_range; lia). exists (m + 1).
  rewrite revision_number_pretty by lia. rewrite foldl_app. cbn [foldl]. fold m.
  assert (default "" (Labels (RB_Meta b) !! revisionLabelKey) = "v" +:+ pretty (m + 1)) as Hr by by rewrite Hl.
  unfold revision_step at 1. rewrite Hidx, Z.eqb_refl, Hr, revision_number_pretty by lia. cbn [negb].
  destruct (Z.gtb_spec (m + 1) m); [|lia]. rewrite bumpRevision_pretty by lia. split_and!; [done..|].
  by rewrite wrap64_id by (unfold int64_range; lia).
Qed.

Lemma revision_roundtrip_witness :
  nextRevisionForReplicaIndex ([demo_binding "v7"] ++ [demo_binding "v8"]) 0 =
    bumpRevision (nextRevisionForReplicaIndex [demo_binding "v7"] 0).
Proof.
  destruct (revision_roundtrip [demo_binding "v7"] 0 (demo_binding "v8") eq_refl eq_refl ltac:(by_computation))
    as (n & _ & _ & _ & H). exact H.
Defined.

