(* ===== verification/GlobalDeployment.v ===== *)
(** * The GlobalDeployment controller (internal/controller/globaldeployment_controller.go)

    One call of the reconciler creates the missing replica bindings, assigns the
    pending ones to nodes, and aggregates the phases. The two handlers of the rolling
    migration, which [Reconcile] does not call, are in RollingMigration; log lines
    are not modelled, and a sleep takes no time. *)

From S2P Require Import Prelude GoTime ApiTypes KubeApi Scheduler.

Local Open Scope string_scope.
Local Open Scope list_scope.

Definition globalDeploymentFinalizer : string := "core.kubex.io/finalizer-globaldeployment".

Definition gd_key (gd : GlobalDeployment) : Key := (Namespace (GD_Meta gd), Name (GD_Meta gd)).

Definition has_finalizer (gd : GlobalDeployment) : bool :=
  bool_decide (globalDeploymentFinalizer ∈ Finalizers (GD_Meta gd)).
Definition with_finalizers (gd : GlobalDeployment) (fs : list string) : GlobalDeployment :=
  let m := GD_Meta gd in
  mkGD (mkMeta (Name m) (Namespace m) (UID m) (Generation m) (Labels m) (Annotations m) fs (DeletionTimestamp m)
          (OwnerReferences m)) (GD_Spec gd) (GD_Status gd).
Definition with_gd_status (gd : GlobalDeployment) (st : GlobalDeploymentStatus) : GlobalDeployment :=
  mkGD (GD_Meta gd) (GD_Spec gd) st.

(** Controlled by the deployment: [ref.Controller != nil && *ref.Controller && ref.UID == gd.UID]. *)
Definition owned_by (gd : GlobalDeployment) (b : ReplicaBinding) : bool :=
  existsb (fun ref => match Owner_Controller ref with Some c => c | None => false end &&
                      String.eqb (Owner_UID ref) (UID (GD_Meta gd))) (OwnerReferences (RB_Meta b)).

(** [replicas], at least zero. *)
Definition replicas_of (gd : GlobalDeployment) : Z :=
  let replicas := default 1%Z (Replicas (GD_Spec gd)) in
  if (replicas <? 0)%Z then 0%Z else replicas.

(** The binding of the [i]-th replica; its controller is the deployment. *)
Definition new_binding (gd : GlobalDeployment) (i : Z) : ReplicaBinding :=
  mkRB
    (mkMeta (Name (GD_Meta gd) +:+ "-rb-" +:+ pretty i) (Namespace (GD_Meta gd)) "" 0
       (<["core.kubex.io/globaldeploy" := Name (GD_Meta gd)]> {["core.kubex.io/replica-index" := pretty i]})
       ∅ [] None [mkOwner "GlobalDeployment" (Name (GD_Meta gd)) (UID (GD_Meta gd)) (Some true)])
    (mkRBSpec (mkRef (Name (GD_Meta gd)) (Namespace (GD_Meta gd))) i "" "" false "")
    empty_rb_status.

Definition with_pending (b : ReplicaBinding) (t : Z) : ReplicaBinding :=
  mkRB (RB_Meta b) (RB_Spec b)
    (mkRBStatus ReplicaBindingPhasePending "" (Some t) "" "" (RB_Reschedule (RB_Status b))).

(** [existing[i] != nil]. *)
Definition existing (owned : list ReplicaBinding) (i : Z) : bool :=
  existsb (fun b => (RBS_ReplicaIndex (RB_Spec b) =? i)%Z) owned.

(** The assignment of a binding to a node: spec, then status. *)
Definition with_target (b : ReplicaBinding) (slot : orderedNode) : ReplicaBinding :=
  let s := RB_Spec b in
  mkRB (RB_Meta b)
    (mkRBSpec (RBS_GlobalDeploymentRef s) (RBS_ReplicaIndex s) (ClusterID slot) (NodeName slot) (Reschedule s)
       (RescheduleRequest s)) (RB_Status b).
Definition with_assigned (b : ReplicaBinding) (t : Z) : ReplicaBinding :=
  let st := RB_Status b in
  mkRB (RB_Meta b) (RB_Spec b)
    (mkRBStatus ReplicaBindingPhaseAssigned "" (Some t) (RB_NodeName st) (RB_ClusterName st) (RB_Reschedule st)).

(** Not scheduled yet. *)
Definition unscheduled (b : ReplicaBinding) : bool :=
  str_empty (RB_Phase (RB_Status b)) || String.eqb (RB_Phase (RB_Status b)) ReplicaBindingPhasePending.

(** The filter handed to [pickNextFit]. *)
Definition acceptable {KUBE : KubeLib} (gd : GlobalDeployment) (n : orderedNode) : bool :=
  if negb (Ready n) then false else fits n (sumDeploymentPodRequests gd).

(** The counters over the phases. *)
Definition status_step (st : GlobalDeploymentStatus) (b : ReplicaBinding) : GlobalDeploymentStatus :=
  let phase := RB_Phase (RB_Status b) in
  let put r f p := mkGDStatus (GD_Phase st) r f p (GD_UpdatedAt st) (ObservedRevision st) in
  if String.eqb phase ReplicaBindingPhaseRunning then put (wrap32 (GD_Running st + 1)) (GD_Failed st) (GD_Pending st)
  else if String.eqb phase ReplicaBindingPhaseFailed then put (GD_Running st) (wrap32 (GD_Failed st + 1)) (GD_Pending st)
  else if String.eqb phase ReplicaBindingPhaseApplying || String.eqb phase ReplicaBindingPhaseAssigned ||
          String.eqb phase ReplicaBindingPhasePending || str_empty phase
  then put (GD_Running st) (GD_Failed st) (wrap32 (GD_Pending st + 1))
  else st.

Definition aggregate_phase (replicas running failed : Z) : string :=
  if (running =? replicas)%Z && (replicas >? 0)%Z then GlobalDeploymentPhaseRunning
  else if (failed >? 0)%Z then GlobalDeploymentPhaseDegraded
  else if (running >? 0)%Z then GlobalDeploymentPhaseProgressing
  else GlobalDeploymentPhasePending.

(** The status written at the end of a call; it starts from the zero status. *)
Definition aggregate (replicas t : Z) (latestOwned : list ReplicaBinding) : GlobalDeploymentStatus :=
  let st := foldl status_step (mkGDStatus "" 0 0 0 (Some t) "") latestOwned in
  mkGDStatus (aggregate_phase replicas (GD_Running st) (GD_Failed st)) (GD_Running st) (GD_Failed st) (GD_Pending st)
    (GD_UpdatedAt st) (ObservedRevision st).

(** A loop that carries a value. *)
Fixpoint fold_each {A S} (f : S -> A -> M S) (s : S) (l : list A) : M S :=
  match l with
  | [] => mret s
  | a :: l' => f s a ≫= fun s' => fold_each f s' l'
  end.

Section controller.
Context {KUBE : KubeLib} {SORT : GoSort} {MAPS : MapOrder}.

Definition after (d : Z) : M Result := mret (mkResult d).

(** The bindings of a namespace that the deployment controls. *)
Definition list_owned (gd : GlobalDeployment) (ns : string) : M (list ReplicaBinding) :=
  items ← list_objects w_rbs (in_namespace ns);
  mret (List.filter (owned_by gd) items).

(** [func (r) getCursor(key)] and [setCursor(key, v)]. *)
Definition getCursor (key : string) : M Z := fun w => (w, Ok (default 0%Z (w_cursors w !! key))).
Definition setCursor (key : string) (v : Z) : M unit := modify (set_cursors <[key := v]>).

(** [func (r) updateGDStatusWithRetry(ctx, key, base, st)]: five attempts. *)
Fixpoint update_status_loop (n : nat) (key : Key) (st : GlobalDeploymentStatus) : M unit :=
  match n with
  | O => throw (OtherError "update globaldeployment status conflict retries exceeded")
  | S n' =>
      latest ← get_object w_gds key;
      r ← attempt (patch_gd_status (with_gd_status latest st));
      match r with
      | Ok _ => mret tt
      | Err Conflict => update_status_loop n' key st
      | Err e => throw e
      end
  end.
Definition updateGDStatusWithRetry (key : Key) (st : GlobalDeploymentStatus) : M unit := update_status_loop 5 key st.

(** The pass of the first loop for the replica [i]. *)
Definition ensure_binding (gd : GlobalDeployment) (owned : list ReplicaBinding) (i : Z) : M unit :=
  if existing owned i then mret tt
  else
    t ← now;
    let b := with_pending (new_binding gd i) t in
    create_rb b ≫= fun _ => update_rb_status b.

(** The pass of the scheduling loop for one binding. *)
Definition schedule_binding (gd : GlobalDeployment) (orderedNodes : list orderedNode) (key : string)
    (cursor : Z) (b : ReplicaBinding) : M Z :=
  latest ← get_object w_rbs (rb_key b);
  if negb (unscheduled latest) then mret cursor
  else
    match pickNextFit orderedNodes cursor (acceptable gd) with
    | NoSlot _ => mret cursor
    | IndexPanic => throw (OtherError "index out of range")
    | Slot slot nextCursor =>
        let specChanged := negb (String.eqb (TargetCluster (RB_Spec latest)) (ClusterID slot)) ||
                           negb (String.eqb (TargetNodeName (RB_Spec latest)) (NodeName slot)) in
        let statusChanged := negb (String.eqb (RB_Phase (RB_Status latest)) ReplicaBindingPhaseAssigned) in
        let latest' := if specChanged then with_target latest slot else latest in
        (if specChanged then update_rb latest' else mret tt) ≫= fun _ =>
        (if statusChanged then (t ← now; update_rb_status (with_assigned latest' t)) else mret tt) ≫= fun _ =>
        setCursor key nextCursor ≫= fun _ => mret nextCursor
    end.

(** The aggregation at the end of a call. *)
Definition report (gd : GlobalDeployment) (key : Key) : M Result :=
  latestOwned ← list_owned gd key.1;
  t ← now;
  updateGDStatusWithRetry key (aggregate (replicas_of gd) t latestOwned) ≫= fun _ =>
  after (5 * Second).

(** From the listing of the bindings to the end of a call. *)
Definition reconcile_replicas (gd : GlobalDeployment) (key : Key) : M Result :=
  owned ← list_owned gd (Namespace (GD_Meta gd));
  for_each (ensure_binding gd owned) (seqZ 0 (replicas_of gd)) ≫= fun _ =>
  o ← attempt buildOrderedNodes;
  match o with
  | Err _ => after (10 * Second)
  | Ok orderedNodes =>
      let ckey := Namespace (GD_Meta gd) +:+ "/" +:+ Name (GD_Meta gd) in
      cursor ← getCursor ckey;
      fold_each (schedule_binding gd orderedNodes ckey) cursor owned ≫= fun _ =>
      report gd key
  end.

(** The pass of the deletion loop for one binding: whether a delete was asked for. *)
Definition delete_binding (deletedAny : bool) (b : ReplicaBinding) : M bool :=
  if match DeletionTimestamp (RB_Meta b) with Some _ => true | None => false end then mret deletedAny
  else if String.eqb (RB_Phase (RB_Status b)) ReplicaBindingPhaseRunning ||
          String.eqb (RB_Phase (RB_Status b)) ReplicaBindingPhaseFailed then
    r ← attempt (delete_rb (rb_key b));
    match r with
    | Ok _ => mret true
    | Err e => if IsNotFound e then mret true else throw e
    end
  else mret deletedAny.

(** [func (r) reconcileDelete(ctx, gd)]. *)
Definition reconcileDelete (gd : GlobalDeployment) : M Result :=
  if negb (has_finalizer gd) then mret Done
  else
    (if String.eqb (GD_Phase (GD_Status gd)) GlobalDeploymentPhaseDeleting then mret tt
     else
       t ← now;
       let st := GD_Status gd in
       ignore (patch_gd_status (with_gd_status gd
         (mkGDStatus GlobalDeploymentPhaseDeleting (GD_Running st) (GD_Failed st) (GD_Pending st) (Some t)
            (ObservedRevision st))))) ≫= fun _ =>
    owned ← list_owned gd (Namespace (GD_Meta gd));
    deletedAny ← fold_each delete_binding false owned;
    if deletedAny : bool then after (300 * Millisecond)
    else
      remaining ← list_owned gd (Namespace (GD_Meta gd));
      match remaining with
      | _ :: _ => after (500 * Millisecond)
      | [] =>
          patch_gd (with_finalizers gd
            (List.filter (fun f => negb (String.eqb f globalDeploymentFinalizer)) (Finalizers (GD_Meta gd)))) ≫= fun _ =>
          mret Done
      end.

(** [func (r) Reconcile(ctx, req)]. *)
Definition Reconcile (key : Key) : M Result :=
  r ← attempt (get_object w_gds key);
  match r with
  | Err e => ignore_not_found Done e
  | Ok gd =>
      if match DeletionTimestamp (GD_Meta gd) with Some _ => true | None => false end then reconcileDelete gd
      else if negb (has_finalizer gd) then
        patch_gd (with_finalizers gd (Finalizers (GD_Meta gd) ++ [globalDeploymentFinalizer])) ≫= fun _ =>
        after (100 * Millisecond)
      else if str_empty (ObservedRevision (GD_Status gd)) then
        let st := GD_Status gd in
        patch_gd_status (with_gd_status gd
          (mkGDStatus (GD_Phase st) (GD_Running st) (GD_Failed st) (GD_Pending st) (GD_UpdatedAt st) "v1")) ≫= fun _ =>
        after (100 * Millisecond)
      else reconcile_replicas gd key
  end.

(** [func (r) markRescheduleStatusSucceeded(ctx, trigger, observedPodName)]. *)
Definition marked_rescheduled (latest : ReplicaBinding) (t : Z) (observedPodName : string) : ReplicaBinding :=
  let st := RB_Status latest in
  let loc := ObservedLocation (RB_Reschedule st) in
  mkRB (RB_Meta latest) (RB_Spec latest)
    (mkRBStatus (RB_Phase st) (LastError st) (LastTransitionTime st) (RB_NodeName st) (RB_ClusterName st)
       (mkRescheduleStatus (RescheduleRequest (RB_Spec latest)) (Some t)
          (mkObserved (TargetCluster (RB_Spec latest)) (TargetNodeName (RB_Spec latest))
             (if str_empty observedPodName then Obs_PodName loc else observedPodName))
          "Succeeded" "reschedule completed" "")).
Definition markRescheduleStatusSucceeded (trigger : ReplicaBinding) (observedPodName : string) : M unit :=
  r ← attempt (get_object w_rbs (rb_key trigger));
  match r with
  | Err e => ignore_not_found tt e
  | Ok latest => t ← now; patch_rb_status (marked_rescheduled latest t observedPodName)
  end.

(** [func (r) bumpObservedRevision(ctx, gd, nextRev)]: ten attempts. *)
Fixpoint bump_loop (n : nat) (key : Key) (nextRev : string) : M unit :=
  match n with
  | O => throw (OtherError ("failed to bump observedRevision to " +:+ nextRev +:+ " due to repeated conflict"))
  | S n' =>
      latest ← get_object w_gds key;
      let st := GD_Status latest in
      if String.eqb (ObservedRevision st) nextRev then mret tt
      else
        r ← attempt (patch_gd_status (with_gd_status latest
              (mkGDStatus (GD_Phase st) (GD_Running st) (GD_Failed st) (GD_Pending st) (GD_UpdatedAt st) nextRev)));
        match r with
        | Ok _ => mret tt
        | Err Conflict => bump_loop n' key nextRev
        | Err e => throw e
        end
  end.
Definition bumpObservedRevision (gd : GlobalDeployment) (nextRev : string) : M unit := bump_loop 10 (gd_key gd) nextRev.
End controller.

(** What a call leaves alone: plans, member clusters, the configuration, the clock. *)
Section quiet.
Context {KUBE : KubeLib} {SORT : GoSort} {MAPS : MapOrder} {T : Type} (proj : World -> T).
Hypothesis Htick : forall w, proj (tick w) = proj w.
Hypothesis Hrbs : forall f w, proj (set_rbs f w) = proj w.
Hypothesis Hgds : forall f w, proj (set_gds f w) = proj w.
Hypothesis Hcursors : forall f w, proj (set_cursors f w) = proj w.

Lemma preserves_fold_each {A S} (f : S -> A -> M S) s l :
  (forall s a, preserves proj (f s a)) -> preserves proj (fold_each f s l).
Proof. intros Hf. revert s. induction l as [|a l IH]; intros s; cbn; quiet; auto. Qed.

Lemma preserves_deployment_call key : preserves proj (Reconcile key).
Proof.
  assert (Hu : forall n k st, preserves proj (update_status_loop n k st)).
  { intros n k st. induction n as [|n IH]; cbn; quiet. }
  assert (Hs : forall k v, preserves proj (setCursor k v)) by (intros k v w; apply Hcursors).
  assert (Hg : forall k, preserves proj (getCursor k)) by (by intros k w).
  unfold Reconcile, reconcileDelete, reconcile_replicas, report, updateGDStatusWithRetry, list_owned,
    buildOrderedNodes, after.
  quiet; auto.
  - apply preserves_fold_each. intros d b. unfold delete_binding. quiet.
  - apply preserves_for_each. intros i. unfold ensure_binding, update_rb_status. quiet.
  - apply preserves_fold_each. intros c b. unfold schedule_binding, update_rb_status, update_rb. quiet; auto.
Qed.
End quiet.

(** ** What a call can do to the bindings *)

Section placement.
Context {KUBE : KubeLib} {SORT : GoSort} {MAPS : MapOrder} (gd : GlobalDeployment) (w0 : World).

(** A node the scheduler may choose: on a usable cluster, usable, and with room for
    the requests of the template. *)
Definition candidate (n : orderedNode) : Prop :=
  exists kc c, w_clusters w0 !! kc = Some c /\ n ∈ cluster_nodes (w_clock w0) c /\ acceptable gd n = true.

(** What became of a binding: a scheduled one is as it was; an unscheduled one
    keeps its metadata, and its target only changes to a candidate. *)
Definition placed (b b' : ReplicaBinding) : Prop :=
  if unscheduled b then
    RB_Meta b' = RB_Meta b /\
    ((RB_Spec b' = RB_Spec b /\ RB_Status b' = RB_Status b) \/
     exists n, candidate n /\ RB_Spec b' = RB_Spec (with_target b n) /\
       (RB_Status b' = RB_Status b \/ RB_Phase (RB_Status b') = ReplicaBindingPhaseAssigned))
  else b' = b.

Lemma placed_refl b : placed b b.
Proof. unfold placed. destruct (unscheduled b); [split; [done|by left]|done]. Qed.

Lemma placed_meta b b' : placed b b' -> RB_Meta b' = RB_Meta b /\ RBS_ReplicaIndex (RB_Spec b') = RBS_ReplicaIndex (RB_Spec b).
Proof.
  unfold placed. destruct (unscheduled b); [|by intros ->]. intros [Hm [[-> _]|(n & _ & -> & _)]]; done.
Qed.

(** The invariant of a call. *)
Definition placing (w : World) : Prop :=
  w_clusters w = w_clusters w0 /\ w_clock w = w_clock w0 /\ rbs_ok (w_rbs w) /\
  forall k b, w_rbs w0 !! k = Some b -> exists b', w_rbs w !! k = Some b' /\ placed b b'.

Definition placing_view (w : World) := (w_rbs w, w_clusters w, w_clock w).

Lemma placing_keeps {A} (m : M A) : preserves placing_view m -> keeps placing m.
Proof.
  intros Hm w. specialize (Hm w). injection Hm as H1 H2 H3. unfold placing. by rewrite H1, H2, H3.
Qed.

Lemma placing_tick w : placing w -> placing (tick w).
Proof. done. Qed.

(** A write to one binding keeps the invariant when the binding stays placed. *)
Lemma placing_write w k b' :
  placing w -> rb_key b' = k -> DeletionTimestamp (RB_Meta b') = None \/ Finalizers (RB_Meta b') <> [] ->
  (forall b, w_rbs w0 !! k = Some b -> placed b b') ->
  placing (set_rbs <[k := b']> (tick w)).
Proof.
  intros (H1 & H2 & H3 & H4) Hk Hd Hp. split_and!; [done|done|by apply rbs_ok_insert|].
  intros k' b Hb. cbn. destruct (decide (k = k')) as [<-|Hne].
  - rewrite lookup_insert_eq. exists b'. split; [done|]. by apply Hp.
  - rewrite lookup_insert_ne by done. by apply H4.
Qed.

Lemma placing_start : rbs_ok (w_rbs w0) -> placing w0.
Proof. intros H. split_and!; try done. intros k b Hb. exists b. split; [done|apply placed_refl]. Qed.

Lemma keeps_fold_each {A S} I (f : S -> A -> M S) s l :
  (forall s a, keeps I (f s a)) -> keeps I (fold_each f s l).
Proof.
  intros Hf. revert s. induction l as [|a l IH]; intros s; [apply keeps_ret|]. cbn. apply keeps_bind; [apply Hf|apply IH].
Qed.

(** A missing binding is created under a free key. *)
Lemma keeps_ensure_binding owned i : keeps placing (ensure_binding gd owned i).
Proof.
  unfold ensure_binding. destruct (existing owned i); [apply keeps_ret|].
  apply keeps_bind; [apply keeps_now|]. intros t. set (b := with_pending (new_binding gd i) t).
  apply hoare_bind with (R := fun _ w => placing w /\ w_rbs w0 !! rb_key b = None /\ exists old, w_rbs w !! rb_key b = Some old /\
    RB_Meta old = RB_Meta b).
  - apply hoare_request; [intros; by apply placing_tick|]. intros w Hw. cbn [fst snd].
    change (Namespace (RB_Meta b), Name (RB_Meta b)) with (rb_key b). change (w_rbs (tick w)) with (w_rbs w).
    destruct (w_rbs w !! rb_key b) as [old|] eqn:Hold; [by apply placing_tick|]. cbn [fst snd].
    assert (Hnone : w_rbs w0 !! rb_key b = None).
    { destruct (w_rbs w0 !! rb_key b) as [b0|] eqn:Hb0; [|done]. destruct Hw as (_ & _ & _ & H4).
      destruct (H4 _ _ Hb0) as (b' & Hb' & _). congruence. }
    split_and!; [|done|].
    + apply placing_write; [done|done|by left|]. intros b1 Hb1. congruence.
    + eexists. cbn. by rewrite lookup_insert_eq.
  - intros _ w (Hw & Hnone & old & Hold & Hmeta).
    refine (hoare_patch_rb_status (fun w => placing w /\ w_rbs w !! rb_key b = Some old) b old (fun _ => placing) _ _ _ w
              (conj Hw Hold)).
    + by intros w' [_ H].
    + intros w' e [H _]. by apply placing_tick.
    + intros w' [H _]. apply placing_write; [done| |left; by rewrite Hmeta|].
      * unfold rb_key. cbn. by rewrite Hmeta.
      * intros b1 Hb1. congruence.
Qed.

Lemma keeps_read {A} (sel : World -> gmap Key A) k : keeps placing (get_object sel k).
Proof. apply placing_keeps, preserves_get_object. done. Qed.

(** The ordered nodes are candidates. *)
Lemma hoare_buildOrderedNodes :
  hoare placing (attempt buildOrderedNodes) (fun r w => placing w /\
    match r with
    | Ok (Ok nodes) => forall n, n ∈ nodes -> acceptable gd n = true -> candidate n
    | _ => True
    end).
Proof.
  apply hoare_attempt.
  apply hoare_bind with (R := fun items w => placing w /\ forall c, c ∈ items -> exists kc, w_clusters w0 !! kc = Some c).
  - apply hoare_request; [intros; split; [by apply placing_tick|done]|]. intros w Hw. cbn [fst snd].
    split; [by apply placing_tick|]. intros c. rewrite list_order_perm. intros ([kc c'] & -> & Hc)%list_elem_of_fmap.
    apply elem_of_map_to_list, map_lookup_filter_Some in Hc as [Hc _]. destruct Hw as (<- & _). by exists kc.
  - intros items. apply hoare_bind with (R := fun t w => placing w /\ t = w_clock w0 /\ forall c, c ∈ items -> exists kc, w_clusters w0 !! kc = Some c).
    + apply hoare_now. intros w [Hw Hc]. split_and!; [done|by destruct Hw as (_ & -> & _)|done].
    + intros t. apply hoare_ret. intros w (Hw & -> & Hc). split; [done|]. intros n Hn Hacc.
      apply order_nodes_elem in Hn. unfold candidates in Hn.
      apply list_elem_of_In, in_concat in Hn as (l & Hl & Hn). apply list_elem_of_In, list_elem_of_fmap in Hl as (c & -> & Hcin).
      destruct (Hc c Hcin) as [kc Hkc]. exists kc, c. split_and!; [done|by apply list_elem_of_In|done].
Qed.

Lemma placed_retarget b0 b n st :
  placed b0 b -> unscheduled b = true -> candidate n ->
  st = RB_Status b \/ RB_Phase st = ReplicaBindingPhaseAssigned ->
  placed b0 (mkRB (RB_Meta b) (RB_Spec (with_target b n)) st).
Proof.
  unfold placed. intros Hp Hu Hn Hst. destruct (unscheduled b0) eqn:H0; [|congruence].
  destruct Hp as [Hm Hp]. split; [done|]. right. exists n.
  assert (Hb : RB_Status b = RB_Status b0).
  { destruct Hp as [[_ Hs]|(n' & _ & _ & [Hs|Hs])]; [done|done|]. unfold unscheduled in Hu. by rewrite Hs in Hu. }
  split_and!; [done| |cbn; by destruct Hst as [->|]; [left|right]].
  destruct Hp as [[Hs _]|(n' & _ & Hs & _)]; cbn in *; by rewrite Hs.
Qed.

(** The binding a pass of the scheduling loop works on. *)
Definition at_binding (k : Key) (latest : ReplicaBinding) (w : World) : Prop :=
  placing w /\ w_rbs w !! k = Some latest.

Lemma at_binding_key k latest w : at_binding k latest w ->
  rb_key latest = k /\ (DeletionTimestamp (RB_Meta latest) = None \/ Finalizers (RB_Meta latest) <> []) /\
  (forall b, w_rbs w0 !! k = Some b -> placed b latest).
Proof.
  intros [(_ & _ & Hok & Hp) Hl]. destruct (Hok _ _ Hl) as [H1 H2]. split_and!; [done|done|].
  intros b Hb. destruct (Hp _ _ Hb) as (b' & Hb' & ?). congruence.
Qed.

(** A write at the binding. *)
Lemma at_binding_write k latest b' w :
  at_binding k latest w -> RB_Meta b' = RB_Meta latest -> (forall b, w_rbs w0 !! k = Some b -> placed b b') ->
  at_binding k b' (set_rbs <[k := b']> (tick w)).
Proof.
  intros Hat Hm Hp. destruct (at_binding_key _ _ _ Hat) as (H1 & H2 & _). destruct Hat as [Hw _].
  split; [|cbn; by rewrite lookup_insert_eq]. apply placing_write; [done| |by rewrite Hm|done].
  unfold rb_key in *. by rewrite Hm.
Qed.

Lemma hoare_retarget k latest slot :
  unscheduled latest = true -> candidate slot ->
  let changed := negb (String.eqb (TargetCluster (RB_Spec latest)) (ClusterID slot)) ||
                 negb (String.eqb (TargetNodeName (RB_Spec latest)) (NodeName slot)) in
  hoare (at_binding k latest)
    (if changed then update_rb (if changed then with_target latest slot else latest) else mret tt)
    (fun r w => match r with Ok _ => at_binding k (with_target latest slot) w | Err _ => placing w end).
Proof.
  intros Hu Hc changed. destruct changed eqn:Hch.
  - apply (hoare_facts _ _ _ _ (at_binding_key k latest)). intros (Hk & Hd & Hp).
    apply (hoare_patch_rb _ (with_target latest slot) latest).
    + intros w' [_ H]. change (rb_key (with_target latest slot)) with (rb_key latest). by rewrite Hk.
    + exact Hd.
    + intros w' e [H _]. by apply placing_tick.
    + intros w' Hat. change (rb_key (with_target latest slot)) with (rb_key latest). rewrite Hk.
      apply (at_binding_write k latest (with_target latest slot)); [done|done|].
      intros b Hb. apply (placed_retarget b latest slot (RB_Status latest)); auto.
  - apply orb_false_iff in Hch as [H1 H2]. rewrite negb_false_iff in H1, H2. apply String.eqb_eq in H1, H2.
    assert (with_target latest slot = latest) as ->.
    { unfold with_target. rewrite <- H1, <- H2. by destruct latest as [? [] ?]. }
    apply hoare_ret. done.
Qed.

Lemma hoare_assign k latest b1 slot :
  unscheduled latest = true -> candidate slot -> RB_Meta b1 = RB_Meta latest -> RB_Status b1 = RB_Status latest ->
  hoare (at_binding k (with_target latest slot))
    (t ← now; update_rb_status (with_assigned b1 t)) (fun _ => placing).
Proof.
  intros Hu Hc Hm Hs. apply hoare_bind with (R := fun _ => at_binding k (with_target latest slot)); [by apply hoare_now|].
  intros t. apply (hoare_facts _ _ _ _ (at_binding_key k (with_target latest slot))). intros (Hk & Hd & Hp).
  assert (Hkey : rb_key (with_assigned b1 t) = k) by (rewrite <- Hk; unfold rb_key; cbn; by rewrite Hm).
  apply (hoare_patch_rb_status _ (with_assigned b1 t) (with_target latest slot)).
  - intros w' [_ H]. by rewrite Hkey.
  - intros w' e [H _]. by apply placing_tick.
  - intros w' Hat. rewrite Hkey. eapply (at_binding_write k _ _ w' Hat); [done|].
    intros b Hb. specialize (Hp b Hb).
    replace (RB_Spec (with_target latest slot)) with (RB_Spec (with_target (with_target latest slot) slot)) by done.
    apply (placed_retarget b (with_target latest slot) slot); [done| |done|by right].
    exact Hu.
Qed.

Lemma keeps_schedule_binding nodes key cursor b :
  (forall n, n ∈ nodes -> acceptable gd n = true -> candidate n) ->
  keeps placing (schedule_binding gd nodes key cursor b).
Proof.
  intros Hnodes. unfold schedule_binding.
  apply hoare_bind with (R := fun latest => at_binding (rb_key b) latest).
  - apply hoare_get_object; [by intros w|done|done|]. intros w latest Hw Hl. split; done.
  - intros latest.
    assert (Hweak : forall A (m : M A), keeps placing m -> hoare (at_binding (rb_key b) latest) m (fun _ => placing)).
    { intros A m Hm. eapply hoare_conseq; [exact Hm|by intros w []|done]. }
    destruct (unscheduled latest) eqn:Hu; cbn [negb]; [|apply Hweak, keeps_ret].
    destruct (pickNextFit _ _ _) as [slot next|e|] eqn:Hpick; [|apply Hweak, keeps_ret|apply Hweak, keeps_throw].
    apply pickNextFit_sound in Hpick as [Hin Hacc]. specialize (Hnodes slot Hin Hacc).
    apply hoare_bind with (R := fun _ => at_binding (rb_key b) (with_target latest slot));
      [exact (hoare_retarget _ latest slot Hu Hnodes)|]. intros [].
    assert (String.eqb (RB_Phase (RB_Status latest)) ReplicaBindingPhaseAssigned = false) as ->.
    { apply String.eqb_neq. intros H. unfold unscheduled in Hu. by rewrite H in Hu. }
    apply hoare_bind with (R := fun _ => placing).
    + eapply hoare_conseq; [apply (hoare_assign (rb_key b) latest _ slot Hu Hnodes)|done|by intros []].
      * by destruct (negb _ || negb _).
      * by destruct (negb _ || negb _).
    + intros []. apply keeps_bind; [by intros w|]. intros. apply keeps_ret.
Qed.
End placement.

(** ** Every replica has a binding *)

Section coverage.
Context {KUBE : KubeLib} {SORT : GoSort} {MAPS : MapOrder} (gd : GlobalDeployment).

(** The deployment controls a binding of the [i]-th replica. *)
Definition covered (i : Z) (w : World) : Prop :=
  exists k b, k.1 = Namespace (GD_Meta gd) /\ w_rbs w !! k = Some b /\ owned_by gd b = true /\
    RBS_ReplicaIndex (RB_Spec b) = i.

Lemma covered_placing i w w' : covered i w -> placing gd w w' -> covered i w'.
Proof.
  intros (k & b & Hns & Hb & Ho & Hi) (_ & _ & _ & Hp). destruct (Hp _ _ Hb) as (b' & Hb' & Hpl).
  apply placed_meta in Hpl as [Hm Hidx]. exists k, b'. split_and!; [done|done| |by rewrite Hidx].
  unfold owned_by. by rewrite Hm.
Qed.

Lemma ensure_binding_covers owned i w w' :
  ensure_binding gd owned i w = (w', Ok tt) -> (existing owned i = true -> covered i w) -> covered i w'.
Proof.
  unfold ensure_binding. destruct (existing owned i); [intros [= <-] H; by apply H|]. intros Hrun _. revert Hrun.
  rewrite bind_run. cbn [now]. rewrite bind_run. unfold create_rb, request. destruct (fault _) as [e|]; [done|].
  set (b := with_pending _ _). change (Namespace (RB_Meta b), Name (RB_Meta b)) with (rb_key b).
  change (w_rbs (tick w)) with (w_rbs w). destruct (w_rbs w !! rb_key b); [done|]. unfold update_rb_status, patch_rb_status, request.
  destruct (fault _) as [e|]; [done|]. change (Namespace (RB_Meta b), Name (RB_Meta b)) with (rb_key b).
  cbn. rewrite lookup_insert_eq. intros [= <-]. exists (rb_key b). eexists. split_and!; [done|cbn; apply lookup_insert_eq| |done].
  unfold owned_by. cbn. rewrite String.eqb_refl. done.
Qed.

Lemma for_each_covers owned l w w' :
  for_each (ensure_binding gd owned) l w = (w', Ok tt) -> rbs_ok (w_rbs w) ->
  (forall i, existing owned i = true -> covered i w) ->
  placing gd w w' /\ forall i, i ∈ l -> covered i w'.
Proof.
  revert w. induction l as [|i l IH]; intros w Hrun Hok Hex.
  { injection Hrun as <-. split; [by apply placing_start|]. intros i Hi. by apply not_elem_of_nil in Hi. }
  assert (Hall : placing gd w (for_each (ensure_binding gd owned) (i :: l) w).1).
  { apply (keeps_for_each (placing gd w)); [intros; apply keeps_ensure_binding|by apply placing_start]. }
  rewrite Hrun in Hall. split; [exact Hall|]. cbn [for_each] in Hrun. rewrite bind_run in Hrun.
  destruct (ensure_binding gd owned i w) as [w1 [[]|e]] eqn:H1; [|done].
  assert (Hp1 : placing gd w w1).
  { assert (H := keeps_ensure_binding gd w owned i w (placing_start gd w Hok)). by rewrite H1 in H. }
  destruct (IH w1 Hrun) as [Hp2 Hcov].
  { by destruct Hp1 as (_ & _ & ? & _). }
  { intros j Hj. apply (covered_placing j w); auto. }
  intros j [->|Hj]%elem_of_cons; [|by apply Hcov]. apply (covered_placing i w1); [|done].
  apply (ensure_binding_covers owned i w); [done|apply Hex].
Qed.

(** Listed bindings of the deployment. *)
Lemma list_owned_run ns w w' owned :
  list_owned gd ns w = (w', Ok owned) ->
  w' = tick w /\ exists items, owned = List.filter (owned_by gd) items /\
    items ≡ₚ (map_to_list (filter (fun e : Key * ReplicaBinding => in_namespace ns e.1 = true) (w_rbs w))).*2.
Proof.
  unfold list_owned. rewrite bind_run. unfold list_objects, request. destruct (fault _); [done|]. cbn.
  intros [= <- <-]. split; [done|]. eexists. split; [done|]. apply list_order_perm.
Qed.

Lemma list_owned_covers ns w w' owned i :
  list_owned gd ns w = (w', Ok owned) -> ns = Namespace (GD_Meta gd) -> existing owned i = true -> covered i w'.
Proof.
  intros Hrun -> Hex. apply list_owned_run in Hrun as (-> & items & -> & Hitems).
  unfold existing in Hex. apply existsb_exists in Hex as (b & Hb & Hi).
  apply List.filter_In in Hb as [Hb Ho]. apply list_elem_of_In in Hb. rewrite Hitems in Hb.
  apply list_elem_of_fmap in Hb as ([k b'] & -> & Hk). apply elem_of_map_to_list, map_lookup_filter_Some in Hk as [Hk Hns].
  exists k, b'. split_and!; [by apply String.eqb_eq|done|done|by apply Z.eqb_eq].
Qed.

(** ** The report *)

Lemma update_status_loop_run n key st w w' :
  update_status_loop n key st w = (w', Ok tt) ->
  (forall g, w_gds w !! key = Some g -> gd_key g = key) ->
  w_rbs w' = w_rbs w /\
  exists g g', w_gds w !! key = Some g /\ w_gds w' !! key = Some g' /\ GD_Meta g' = GD_Meta g /\ GD_Spec g' = GD_Spec g /\ GD_Status g' = st.
Proof.
  revert w. induction n as [|n IH]; intros w; [done|]. cbn [update_status_loop]. rewrite bind_run.
  unfold get_object, request at 1. destruct (fault _) as [e|]; [done|]. cbn [fst snd].
  change (w_gds (tick w)) with (w_gds w). destruct (w_gds w !! key) as [g|] eqn:Hg; cbn [require]; [|done].
  intros Hrun Hkey. specialize (Hkey g eq_refl). revert Hrun.
  rewrite bind_run. unfold attempt, patch_gd_status, request.
  change (Namespace (GD_Meta (with_gd_status g st)), Name (GD_Meta (with_gd_status g st))) with (gd_key g).
  destruct (fault _) as [e|].
  - destruct e; try done. intros Hrun. apply IH in Hrun; [|intros g' Hg'; cbn in Hg'; congruence].
    destruct Hrun as (Hr & g1 & g' & Hg1 & H). split; [done|]. cbn in Hg1.
    assert (g1 = g) as -> by congruence. exists g, g'. split; [done|]. exact H.
  - rewrite Hkey. change (w_gds (tick (tick w))) with (w_gds w). rewrite Hg. cbn. intros [= <-]. split; [done|].
    exists g. eexists. split; [done|]. cbn. by rewrite lookup_insert_eq.
Qed.
End coverage.

(** ** Deletion *)

Section deletion.
Context {KUBE : KubeLib} {SORT : GoSort} {MAPS : MapOrder} (gd : GlobalDeployment).

(** The deployment is stored with its finalizer. *)
Definition held (w : World) : Prop :=
  exists g, w_gds w !! gd_key gd = Some g /\ globalDeploymentFinalizer ∈ Finalizers (GD_Meta g) /\
    UID (GD_Meta g) = UID (GD_Meta gd).

Lemma held_keeps {A} (m : M A) : preserves w_gds m -> keeps held m.
Proof. intros Hm w (g & Hg & Hf & Hu). exists g. by rewrite Hm. Qed.

Lemma quiet_list_owned ns : preserves w_gds (list_owned gd ns).
Proof. apply preserves_bind; [by apply preserves_list_objects|]. intros. apply preserves_ret. Qed.

Lemma quiet_delete_binding d b : preserves w_gds (delete_binding d b).
Proof.
  unfold delete_binding. destruct (DeletionTimestamp _); [apply preserves_ret|].
  destruct (_ || _); [|apply preserves_ret]. apply preserves_bind; [by apply preserves_attempt, preserves_delete_rb|].
  intros [|e]; [apply preserves_ret|]. destruct (IsNotFound e); [apply preserves_ret|apply preserves_throw].
Qed.

Lemma keeps_status gd' : keeps held (patch_gd_status gd').
Proof.
  apply hoare_request; [by intros w e|]. intros w (g & Hg & Hf & Hu). cbn.
  change (Namespace (GD_Meta gd'), Name (GD_Meta gd')) with (gd_key gd').
  destruct (w_gds w !! gd_key gd') as [old|] eqn:Hold; cbn; [|by exists g].
  destruct (decide (gd_key gd' = gd_key gd)) as [He|He]; cbn.
  - rewrite He in *. simplify_eq. eexists. cbn. by rewrite lookup_insert_eq.
  - exists g. cbn. by rewrite lookup_insert_ne.
Qed.

(** No binding of the namespace is controlled by the deployment. *)
Definition none_owned (w : World) : Prop :=
  forall k b, k.1 = Namespace (GD_Meta gd) -> w_rbs w !! k = Some b -> owned_by gd b = false.

Lemma hoare_list_owned :
  hoare held (list_owned gd (Namespace (GD_Meta gd))) (fun r w =>
    match r with Ok l => held w /\ (l = [] -> none_owned w) | Err _ => held w end).
Proof.
  intros w Hw. assert (Hh := held_keeps _ (quiet_list_owned (Namespace (GD_Meta gd))) w Hw).
  destruct (list_owned gd _ w) as [w' [l|e]] eqn:Hrun; [|exact Hh]. split; [exact Hh|]. intros ->.
  apply list_owned_run in Hrun as (-> & items & Hnil & Hitems). intros k b Hk Hb.
  destruct (owned_by gd b) eqn:Ho; [|done]. exfalso.
  assert (Hin : b ∈ List.filter (owned_by gd) items); [|rewrite <- Hnil in Hin; by apply not_elem_of_nil in Hin].
  apply list_elem_of_In, List.filter_In. split; [|done]. apply list_elem_of_In. rewrite Hitems.
  apply list_elem_of_fmap. exists (k, b). split; [done|]. apply elem_of_map_to_list, map_lookup_filter_Some.
  split; [done|]. by apply String.eqb_eq.
Qed.

Lemma keeps_fold_delete l s : keeps held (fold_each delete_binding s l).
Proof. apply keeps_fold_each. intros. apply held_keeps, quiet_delete_binding. Qed.

Lemma hoare_reconcileDelete :
  hoare held (reconcileDelete gd) (fun _ w => held w \/ none_owned w).
Proof.
  assert (Hk : forall A (m : M A), keeps held m -> hoare held m (fun _ w => held w \/ none_owned w)).
  { intros A m Hm. eapply hoare_conseq; [exact Hm|done|]. intros; by left. }
  unfold reconcileDelete. destruct (negb _); [apply Hk, keeps_ret|].
  apply hoare_bind with (R := fun _ => held).
  { destruct (String.eqb _ _); [by intros w|].
    eapply hoare_conseq; [apply (keeps_bind held); [apply keeps_now|intros; apply keeps_ignore, keeps_status]|done|].
    intros [] w; [done|by left]. }
  intros _. apply hoare_bind with (R := fun _ => held).
  { eapply hoare_conseq; [apply hoare_list_owned|done|]. intros [] w; [by intros []|by left]. }
  intros owned. apply hoare_bind with (R := fun _ => held).
  { eapply hoare_conseq; [apply keeps_fold_delete|done|]. intros [] w; [done|by left]. }
  intros [|]; [apply Hk, keeps_ret|].
  apply hoare_bind with (R := fun l w => held w /\ (l = [] -> none_owned w)).
  { eapply hoare_conseq; [apply hoare_list_owned|done|]. intros [] w; [done|by left]. }
  intros [|b l].
  - intros w [_ Hn]. right. specialize (Hn eq_refl). intros k b Hk' Hb. apply (Hn k b Hk').
    rewrite <- Hb. f_equal. symmetry. apply (preserves_bind w_rbs); [by apply preserves_patch_gd|intros; apply preserves_ret].
  - intros w [Hw _]. by left.
Qed.
End deletion.

(** ** Properties *)

Section properties.
Context {KUBE : KubeLib} {SORT : GoSort} {MAPS : MapOrder}.

Lemma quiet_report gd key : preserves placing_view (report gd key).
Proof.
  unfold report. apply preserves_bind.
  - apply preserves_bind; [by apply preserves_list_objects|intros; apply preserves_ret].
  - intros l. apply preserves_bind; [apply preserves_now|]. intros t. apply preserves_bind; [|intros; apply preserves_ret].
    unfold updateGDStatusWithRetry. generalize 5%nat. induction n as [|n IH]; [apply preserves_throw|]. cbn.
    apply preserves_bind; [by apply preserves_get_object|]. intros latest.
    apply preserves_bind; [by apply preserves_attempt, preserves_patch_gd_status|].
    intros [|[]]; first [apply preserves_ret|apply preserves_throw|exact IH].
Qed.

Lemma keeps_report gd w0 key : keeps (placing gd w0) (report gd key).
Proof. apply placing_keeps, quiet_report. Qed.

(** The scheduling and reporting half of a call. *)
Definition schedule_and_report (gd : GlobalDeployment) (key : Key) (owned : list ReplicaBinding) : M Result :=
  o ← attempt buildOrderedNodes;
  match o with
  | Err _ => after (10 * Second)
  | Ok orderedNodes =>
      let ckey := Namespace (GD_Meta gd) +:+ "/" +:+ Name (GD_Meta gd) in
      cursor ← getCursor ckey;
      fold_each (schedule_binding gd orderedNodes ckey) cursor owned ≫= fun _ =>
      report gd key
  end.

Lemma keeps_schedule_and_report gd w0 key owned : keeps (placing gd w0) (schedule_and_report gd key owned).
Proof.
  apply hoare_bind with (R := fun r w => placing gd w0 w /\
    match r with Ok nodes => forall n, n ∈ nodes -> acceptable gd n = true -> candidate gd w0 n | Err _ => True end).
  - eapply hoare_conseq; [apply (hoare_buildOrderedNodes gd w0)|done|]. intros [[l|e]|e] w [H1 H2]; [exact (conj H1 H2)|exact (conj H1 I)|exact H1].
  - intros [nodes|e].
    + apply (hoare_facts _ (forall n, n ∈ nodes -> acceptable gd n = true -> candidate gd w0 n)); [intros w [_ H]; exact H|].
      intros Hn. apply (hoare_conseq _ (placing gd w0) _ _ (fun _ => placing gd w0)); [|intros w [H _]; exact H|done].
      apply keeps_bind; [by intros w|]. intros cursor.
      apply keeps_bind; [|intros; apply keeps_report]. apply keeps_fold_each. intros. by apply keeps_schedule_binding.
    + apply (hoare_conseq _ (placing gd w0) _ _ (fun _ => placing gd w0)); [apply keeps_ret|intros w [H _]; exact H|done].
Qed.

Lemma keeps_reconcile_replicas gd w0 key : keeps (placing gd w0) (reconcile_replicas gd key).
Proof.
  apply keeps_bind.
  - apply placing_keeps, preserves_bind; [by apply preserves_list_objects|intros; apply preserves_ret].
  - intros owned. apply keeps_bind; [apply keeps_for_each; intros; apply keeps_ensure_binding|].
    intros _. apply keeps_schedule_and_report.
Qed.

(** What became of a binding, told without the code: one that is past Pending is as it
    was; another one keeps its metadata, reference, index and reschedule intent, and is
    left alone or sent to a node with room, and Assigned unless that write failed. *)
Definition kept_or_sent (gd : GlobalDeployment) (w : World) (b b' : ReplicaBinding) : Prop :=
  if decide (RB_Phase (RB_Status b) ∈ [""; "Pending"]) then
    RB_Meta b' = RB_Meta b /\
    RBS_GlobalDeploymentRef (RB_Spec b') = RBS_GlobalDeploymentRef (RB_Spec b) /\
    RBS_ReplicaIndex (RB_Spec b') = RBS_ReplicaIndex (RB_Spec b) /\
    Reschedule (RB_Spec b') = Reschedule (RB_Spec b) /\ RescheduleRequest (RB_Spec b') = RescheduleRequest (RB_Spec b) /\
    (b' = b \/
     has_room gd (w_clusters w) (w_clock w) (TargetCluster (RB_Spec b')) (TargetNodeName (RB_Spec b')) /\
     (RB_Status b' = RB_Status b \/ RB_Phase (RB_Status b') = "Assigned"))
  else b' = b.

Lemma unscheduled_spec b : unscheduled b = true <-> RB_Phase (RB_Status b) ∈ [""; "Pending"].
Proof.
  unfold unscheduled. rewrite orb_true_iff, String.eqb_eq, !elem_of_cons, elem_of_nil.
  destruct (RB_Phase (RB_Status b)); cbn; naive_solver.
Qed.
Lemma placed_kept_or_sent gd w b b' : placed gd w b b' -> kept_or_sent gd w b b'.
Proof.
  unfold placed, kept_or_sent. intros H. assert (Hu := unscheduled_spec b). destruct (decide _) as [Hd|Hd].
  2: { destruct (unscheduled b); [|done]. by destruct Hd; apply Hu. }
  rewrite (proj2 Hu Hd) in H. destruct H as (Hm & [[Hs Ht]|(n & (kc & c & Hc & Hn & Hacc) & Hs & Ht)]).
  - split_and!; rewrite ?Hs; try done. left. destruct b, b'. cbn in *. congruence.
  - split_and!; [done|rewrite Hs; done..|]. right. split; [|done]. rewrite Hs. cbn.
    unfold acceptable in Hacc. destruct (negb _); [done|]. by eapply usable_has_room.
Qed.


(** What the steps before the report leave alone. *)
Definition gd_view (w : World) := (w_gds w, w_clock w).

Lemma quiet_schedule_binding gd nodes ckey cursor b : preserves gd_view (schedule_binding gd nodes ckey cursor b).
Proof.
  apply preserves_bind; [by apply preserves_get_object|]. intros latest.
  destruct (negb _); [apply preserves_ret|].
  destruct (pickNextFit _ _ _) as [slot next|e|]; [|apply preserves_ret|apply preserves_throw].
  apply preserves_bind; [destruct (_ || _); [by apply preserves_patch_rb|apply preserves_ret]|]. intros _.
  apply preserves_bind.
  - destruct (negb _); [|apply preserves_ret].
    apply preserves_bind; [apply preserves_now|]. intros t. by apply preserves_patch_rb_status.
  - intros _. apply preserves_bind; [by intros w|]. intros. apply preserves_ret.
Qed.

Lemma quiet_fold_schedule gd nodes ckey l cursor : preserves gd_view (fold_each (schedule_binding gd nodes ckey) cursor l).
Proof.
  revert cursor. induction l as [|b l IH]; intros cursor; [apply preserves_ret|]. cbn.
  apply preserves_bind; [apply quiet_schedule_binding|exact IH].
Qed.

Lemma quiet_ensure_bindings gd owned l : preserves gd_view (for_each (ensure_binding gd owned) l).
Proof.
  induction l as [|i l IH]; [apply preserves_ret|]. cbn. apply preserves_bind; [|intros; exact IH].
  unfold ensure_binding. destruct (existing owned i); [apply preserves_ret|].
  apply preserves_bind; [apply preserves_now|]. intros t.
  apply preserves_bind; [by apply preserves_create_rb|intros; by apply preserves_patch_rb_status].
Qed.

(** A call that ends in the report has gone through the scheduling. *)
Lemma schedule_and_report_run gd key owned w w' :
  schedule_and_report gd key owned w = (w', Ok (mkResult (5 * Second))) ->
  exists w1, gd_view w1 = gd_view w /\ report gd key w1 = (w', Ok (mkResult (5 * Second))).
Proof.
  intros Hrun. apply bind_run_Ok in Hrun as (w1 & r & Hb & Hrun).
  assert (Hv1 : gd_view w1 = gd_view w).
  { change w1 with (w1, Ok (E:=api_error) r).1. rewrite <- Hb. apply preserves_attempt, preserves_bind;
      [by apply preserves_list_objects|]. intros. apply preserves_bind; [apply preserves_now|intros; apply preserves_ret]. }
  destruct r as [nodes|e]; [|done].
  apply bind_run_Ok in Hrun as (w2 & cursor & [= <- <-] & Hrun).
  apply bind_run_Ok in Hrun as (w3 & c' & Hf & Hrun). exists w3. split; [|exact Hrun].
  rewrite <- Hv1. change w3 with (w3, Ok (E:=api_error) c').1. rewrite <- Hf. apply quiet_fold_schedule.
Qed.

(** The report stores the aggregate of what is stored. *)
Lemma report_run gd key w w' r :
  report gd key w = (w', Ok r) -> (forall g, w_gds w !! key = Some g -> gd_key g = key) ->
  exists g g' items, w_gds w !! key = Some g /\ w_gds w' !! key = Some g' /\ GD_Meta g' = GD_Meta g /\
    GD_Spec g' = GD_Spec g /\
    items ≡ₚ (map_to_list (filter (fun e : Key * ReplicaBinding => in_namespace key.1 e.1 = true) (w_rbs w'))).*2 /\
    GD_Status g' = aggregate (replicas_of gd) (w_clock w) (List.filter (owned_by gd) items).
Proof.
  intros Hrun Hkey. apply bind_run_Ok in Hrun as (w1 & owned & Hl & Hrun).
  apply list_owned_run in Hl as (-> & items & -> & Hitems).
  apply bind_run_Ok in Hrun as (w2 & t & [= <- <-] & Hrun). apply bind_run_Ok in Hrun as (w3 & [] & Hu & [= <- _]).
  apply update_status_loop_run in Hu as (Hr & g & g' & Hg & Hg' & Hm & Hs & Hst); [|exact Hkey].
  exists g, g', items. rewrite Hr. done.
Qed.

(** The deployment is the controlling owner of the binding. *)
Definition controls (gd : GlobalDeployment) (b : ReplicaBinding) : Prop :=
  exists ref, ref ∈ OwnerReferences (RB_Meta b) /\ Owner_Controller ref = Some true /\ Owner_UID ref = UID (GD_Meta gd).
Lemma owned_by_controls gd b : owned_by gd b = true <-> controls gd b.
Proof.
  unfold owned_by, controls. rewrite existsb_exists. split; intros (ref & Hin & H).
  - apply list_elem_of_In in Hin. apply andb_true_iff in H as [Hc Hu%String.eqb_eq]. exists ref. by destruct (Owner_Controller ref) as [[]|].
  - destruct H as [Hc Hu]. exists ref. split; [by apply list_elem_of_In|]. rewrite Hc, Hu. apply String.eqb_refl.
Qed.
#[export] Instance controls_decision gd b : Decision (controls gd b).
Proof. refine (cast_if (decide (owned_by gd b = true))); by rewrite <- owned_by_controls. Defined.

(** How many bindings of a namespace the deployment controls whose phase is one of
    [phases], as they are stored. *)
Definition in_phase (gd : GlobalDeployment) (ns : string) (w : World) (phases : list string) : Z :=
  Z.of_nat (size (filter (fun e : Key * ReplicaBinding =>
    e.1.1 = ns /\ controls gd e.2 /\ RB_Phase (RB_Status e.2) ∈ phases) (w_rbs w))).

Definition with_phase_of (phases : list string) (l : list ReplicaBinding) : list ReplicaBinding :=
  filter (fun b => RB_Phase (RB_Status b) ∈ phases) l.

Lemma aggregate_counts t l : let st := foldl status_step (mkGDStatus "" 0 0 0 (Some t) "") l in
  GD_Running st = wrap32 (Z.of_nat (length (with_phase_of ["Running"] l))) /\
  GD_Failed st = wrap32 (Z.of_nat (length (with_phase_of ["Failed"] l))) /\
  GD_Pending st = wrap32 (Z.of_nat (length (with_phase_of ["Applying"; "Assigned"; "Pending"; ""] l))) /\
  GD_UpdatedAt st = Some t /\ ObservedRevision st = "".
Proof.
  cbv zeta. induction l as [|b l IH] using rev_ind; [done|]. rewrite foldl_app. cbn [foldl].
  destruct IH as (H1 & H2 & H3 & H4 & H5). set (st := foldl _ _ l) in *. clearbody st.
  assert (Hsnoc : forall phases, with_phase_of phases (l ++ [b]) =
    with_phase_of phases l ++ if decide (RB_Phase (RB_Status b) ∈ phases) then [b] else []).
  { intros phases. unfold with_phase_of. by rewrite filter_app. }
  assert (Hlen : forall n : nat, Z.of_nat (n + 1) = (Z.of_nat n + 1)%Z) by lia.
  rewrite !Hsnoc, !length_app. unfold status_step.
  destruct (String.eqb_spec (RB_Phase (RB_Status b)) ReplicaBindingPhaseRunning) as [->|Hr].
  { cbn. rewrite !Nat.add_0_r, H1, H2, H3, H4, H5, Hlen, wrap32_succ. done. }
  destruct (String.eqb_spec (RB_Phase (RB_Status b)) ReplicaBindingPhaseFailed) as [->|Hf].
  { cbn. rewrite !Nat.add_0_r, H1, H2, H3, H4, H5, Hlen, wrap32_succ. done. }
  rewrite (decide_False (P := RB_Phase (RB_Status b) ∈ ["Running"])) by (by rewrite list_elem_of_singleton).
  rewrite (decide_False (P := RB_Phase (RB_Status b) ∈ ["Failed"])) by (by rewrite list_elem_of_singleton).
  cbn [length]. rewrite !Nat.add_0_r.
  destruct (_ || _) eqn:Hp.
  - rewrite decide_True; [cbn; by rewrite H3, Hlen, wrap32_succ|]. rewrite !elem_of_cons, elem_of_nil.
    rewrite !orb_true_iff, !String.eqb_eq in Hp. destruct Hp as [[[->| ->]| ->]|He]; [naive_solver..|].
    destruct (RB_Phase (RB_Status b)); [naive_solver|done].
  - rewrite decide_False; [cbn [length]; by rewrite Nat.add_0_r|]. rewrite !elem_of_cons, elem_of_nil.
    rewrite !orb_false_iff, !String.eqb_neq in Hp. destruct Hp as [[[H6 H7] H8] He]. intros [?|[?|[?|[?|[]]]]]; [done..|].
    by destruct (RB_Phase (RB_Status b)).
Qed.

Lemma filter_values {A B} (P : B -> Prop) `{!forall b, Decision (P b)} (l : list (A * B)) :
  filter P l.*2 = (filter (fun e => P e.2) l).*2.
Proof.
  induction l as [|[a b] l IH]; [done|]. rewrite fmap_cons, !filter_cons. cbn [fst snd].
  destruct (decide (P b)); [rewrite fmap_cons; by f_equal|exact IH].
Qed.

(** The list that is counted holds the bindings of the store. *)
Lemma listed_phases (gd : GlobalDeployment) (ns : string) (phases : list string) (rbs : gmap Key ReplicaBinding) (items : list ReplicaBinding) :
  items ≡ₚ (map_to_list (filter (fun e : Key * ReplicaBinding => in_namespace ns e.1 = true) rbs)).*2 ->
  length (with_phase_of phases (List.filter (owned_by gd) items)) =
  size (filter (fun e : Key * ReplicaBinding => e.1.1 = ns /\ controls gd e.2 /\ RB_Phase (RB_Status e.2) ∈ phases) rbs).
Proof.
  intros Hitems.
  assert (Hf : forall l, with_phase_of phases (List.filter (owned_by gd) l) =
    filter (fun b => controls gd b /\ RB_Phase (RB_Status b) ∈ phases) l).
  { unfold with_phase_of. induction l as [|b l IH]; [done|]. cbn [List.filter]. rewrite filter_cons.
    destruct (owned_by gd b) eqn:Ho.
    - assert (Hc : controls gd b) by by apply owned_by_controls. rewrite filter_cons, IH.
      by destruct (decide (RB_Phase _ ∈ phases)), (decide (controls gd b /\ _)); try tauto.
    - rewrite decide_False; [exact IH|]. intros [Hc%owned_by_controls _]. congruence. }
  rewrite Hf, Hitems, filter_values, length_fmap, <- length_map_to_list. apply Permutation_length, NoDup_Permutation.
  - apply NoDup_filter, NoDup_map_to_list.
  - apply NoDup_map_to_list.
  - intros [k b]. rewrite list_elem_of_filter, !elem_of_map_to_list, !map_lookup_filter_Some. unfold in_namespace. cbn.
    rewrite String.eqb_eq. naive_solver.
Qed.

(** The phase that the counters ask for. *)
Definition phase_of_counts (replicas running failed : Z) (phase : string) : Prop :=
  (0 < replicas /\ running = replicas /\ phase = "Running" \/
   ~ (0 < replicas /\ running = replicas) /\
     (0 < failed /\ phase = "Degraded" \/
      failed <= 0 /\ (0 < running /\ phase = "Progressing" \/ running <= 0 /\ phase = "Pending")))%Z.
Lemma aggregate_phase_of_counts replicas running failed :
  phase_of_counts replicas running failed (aggregate_phase replicas running failed).
Proof.
  unfold phase_of_counts, aggregate_phase. destruct (Z.eqb_spec running replicas), (Z.gtb_spec replicas 0); cbn;
    [left; split_and!; [lia|done|done]|right; split; [lia|]..];
    (destruct (Z.gtb_spec failed 0); [left; split; [lia|done]|right; split; [lia|]]);
    (destruct (Z.gtb_spec running 0); [left; split; [lia|done]|right; split; [lia|done]]).
Qed.

(** C39: a call for a live deployment that runs to its end (next call in five seconds)
    leaves a binding it controls for every replica index below the desired count, and a
    status that counts the bindings it controls as they are stored then: the Running ones,
    the Failed ones, and those that are Applying, Assigned, Pending or have no phase, each
    as an int32; the phase is Running when all wanted replicas are, else Degraded when one
    failed, else Progressing when one runs, else Pending. The observed revision is empty,
    so the next call only writes "v1" again: every second call is spent on it. *)
Theorem Reconcile_complete key gd w w' :
  w_gds w !! key = Some gd -> gd_key gd = key -> DeletionTimestamp (GD_Meta gd) = None -> rbs_ok (w_rbs w) ->
  Reconcile key w = (w', Ok (mkResult (5 * Second))) ->
  let replicas := Z.max 0 (default 1%Z (Replicas (GD_Spec gd))) in
  (forall i, (0 <= i < replicas)%Z -> exists k b, k.1 = key.1 /\ w_rbs w' !! k = Some b /\ controls gd b /\
     RBS_ReplicaIndex (RB_Spec b) = i) /\
  exists g, w_gds w' !! key = Some g /\ GD_Meta g = GD_Meta gd /\ GD_Spec g = GD_Spec gd /\
    GD_Running (GD_Status g) = wrap32 (in_phase gd key.1 w' ["Running"]) /\
    GD_Failed (GD_Status g) = wrap32 (in_phase gd key.1 w' ["Failed"]) /\
    GD_Pending (GD_Status g) = wrap32 (in_phase gd key.1 w' ["Applying"; "Assigned"; "Pending"; ""]) /\
    phase_of_counts replicas (GD_Running (GD_Status g)) (GD_Failed (GD_Status g)) (GD_Phase (GD_Status g)) /\
    GD_UpdatedAt (GD_Status g) = Some (w_clock w) /\ ObservedRevision (GD_Status g) = "".
Proof.
  intros Hgd Hkey Hlive Hok Hrun replicas.
  assert (Hreplicas : replicas_of gd = replicas).
  { unfold replicas_of, replicas. destruct (Z.ltb_spec (default 1%Z (Replicas (GD_Spec gd))) 0); lia. }
  unfold Reconcile in Hrun. apply bind_run_Ok in Hrun as (w1 & r & Hget & Hrun).
  assert (Hr : w1 = tick w /\ r = Ok gd \/ exists e, r = Err e).
  { revert Hget. unfold attempt, get_object, request. destruct (fault _); cbn; [intros [= _ <-]; right; by eexists|].
    rewrite Hgd. intros [= <- <-]. by left. }
  destruct Hr as [[-> ->]|[e ->]]; [|revert Hrun; unfold ignore_not_found; by destruct (IsNotFound e)].
  clear Hget. rewrite Hlive in Hrun.
  destruct (negb _); [apply bind_run_Ok in Hrun as (? & ? & _ & ?); done|].
  destruct (str_empty _); [apply bind_run_Ok in Hrun as (? & ? & _ & ?); done|].
  unfold reconcile_replicas in Hrun. apply bind_run_Ok in Hrun as (w2 & owned & Hlist & Hrun).
  assert (Hex := fun i => list_owned_covers gd _ _ _ _ i Hlist eq_refl).
  apply list_owned_run in Hlist as (-> & _ & _ & _).
  apply bind_run_Ok in Hrun as (w3 & [] & Hfor & Hrun).
  assert (Hv3 : gd_view w3 = gd_view w).
  { change w3 with (w3, Ok (E:=api_error) tt).1. rewrite <- Hfor. apply (quiet_ensure_bindings gd owned _ (tick (tick w))). }
  apply for_each_covers in Hfor as [Hp3 Hcov]; [|done|exact Hex].
  destruct Hp3 as (_ & _ & Hok3 & _).
  assert (Hend := keeps_schedule_and_report gd w3 key owned w3 (placing_start gd w3 Hok3)).
  change (schedule_and_report gd key owned w3 = (w', Ok (mkResult (5 * Second)))) in Hrun. rewrite Hrun in Hend. cbn [fst] in Hend.
  split.
  { intros i Hi. destruct (covered_placing gd i w3 w') as (k & b & Hk & Hb & Ho & Hix); [|done|].
    - apply Hcov. rewrite Hreplicas. by apply elem_of_seqZ.
    - exists k, b. rewrite <- Hkey. split_and!; [done|done|by apply owned_by_controls|done]. }
  apply schedule_and_report_run in Hrun as (w4 & Hv4 & Hrun).
  unfold gd_view in Hv3, Hv4. injection Hv3 as Hg3 Ht3. injection Hv4 as Hg4 Ht4.
  apply report_run in Hrun as (g & g' & items & Hg & Hg' & Hm & Hs & Hitems & Hst).
  2: { intros g. rewrite Hg4, Hg3, Hgd. by intros [= <-]. }
  rewrite Hg4, Hg3, Hgd in Hg. injection Hg as <-. exists g'. rewrite Hst, Ht4, Ht3, Hreplicas. unfold aggregate, in_phase.
  destruct (aggregate_counts (w_clock w) (List.filter (owned_by gd) items)) as (H1 & H2 & H3 & H4 & H5).
  set (st := foldl _ _ _) in *. cbn [GD_Running GD_Failed GD_Pending GD_Phase GD_UpdatedAt ObservedRevision].
  split_and!; [done|done|done| | | |apply aggregate_phase_of_counts|done|done]; rewrite ?H1, ?H2, ?H3; by rewrite (listed_phases gd key.1 _ (w_rbs w') items).
Qed.

(** C24: whatever requests fail, a deployment under deletion loses its finalizer (and
    with it possibly its object) only when its namespace holds no binding it
    controls. *)
Theorem reconcileDelete_safe key gd w :
  w_gds w !! key = Some gd -> gd_key gd = key -> DeletionTimestamp (GD_Meta gd) <> None ->
  globalDeploymentFinalizer ∈ Finalizers (GD_Meta gd) ->
  (forall g, w_gds (Reconcile key w).1 !! key = Some g -> globalDeploymentFinalizer ∉ Finalizers (GD_Meta g)) ->
  forall k b, k.1 = Namespace (GD_Meta gd) -> w_rbs (Reconcile key w).1 !! k = Some b -> owned_by gd b = false.
Proof.
  intros Hgd <- Hdel Hfin Hgone.
  enough (H : held gd (Reconcile (gd_key gd) w).1 \/ none_owned gd (Reconcile (gd_key gd) w).1).
  { destruct H as [(g & Hg & Hf & _)|H]; [by apply Hgone in Hg|exact H]. }
  assert (Hheld : held gd (tick w)) by (by exists gd).
  unfold Reconcile. rewrite bind_run. unfold attempt, get_object, request.
  destruct (fault _) as [e|].
  { left. apply (keeps_ignore_not_found (held gd) Done e (tick w)). done. }
  change (w_gds (tick w)) with (w_gds w). rewrite Hgd. cbn [require fst snd].
  destruct (DeletionTimestamp _); [|done]. by apply hoare_reconcileDelete.
Qed.

Lemma fold_delete_idle l d :
  (forall b, b ∈ l -> DeletionTimestamp (RB_Meta b) = None /\
     RB_Phase (RB_Status b) <> ReplicaBindingPhaseRunning /\ RB_Phase (RB_Status b) <> ReplicaBindingPhaseFailed) ->
  forall w, fold_each delete_binding d l w = (w, Ok d).
Proof.
  intros Hl w. induction l as [|b l IH]; [done|]. cbn [fold_each]. rewrite bind_run.
  destruct (Hl b) as (Hd & Hr & Hf); [apply list_elem_of_here|]. unfold delete_binding at 1. rewrite Hd.
  apply String.eqb_neq in Hr as ->. apply String.eqb_neq in Hf as ->. cbn. apply IH.
  intros b' Hb'. apply Hl. by apply list_elem_of_further.
Qed.

(** Not being deleted, and in a phase the deletion of the deployment waits for. *)
Definition waiting (b : ReplicaBinding) : Prop :=
  DeletionTimestamp (RB_Meta b) = None /\
  RB_Phase (RB_Status b) <> ReplicaBindingPhaseRunning /\ RB_Phase (RB_Status b) <> ReplicaBindingPhaseFailed.

(** The deployment holds on, the bindings as they are. *)
Definition stalled (gd : GlobalDeployment) (rbs : gmap Key ReplicaBinding) (w : World) : Prop :=
  w_rbs w = rbs /\ held gd w.

Section stalled.
Context (gd : GlobalDeployment) (rbs : gmap Key ReplicaBinding) (k0 : Key) (b0 : ReplicaBinding).
Hypothesis Hwaiting : forall k b, k.1 = Namespace (GD_Meta gd) -> rbs !! k = Some b -> owned_by gd b = true -> waiting b.
Hypothesis Hk0 : k0.1 = Namespace (GD_Meta gd).
Hypothesis Hb0 : rbs !! k0 = Some b0.
Hypothesis Ho0 : owned_by gd b0 = true.

Lemma stalled_quiet {A} (m : M A) : preserves w_rbs m -> preserves w_gds m -> keeps (stalled gd rbs) m.
Proof. intros H1 H2 w [Hw Hh]. split; [by rewrite H1|by apply held_keeps]. Qed.

Lemma hoare_list_stalled :
  hoare (stalled gd rbs) (list_owned gd (Namespace (GD_Meta gd))) (fun r w => stalled gd rbs w /\
    match r with Ok l => l <> [] /\ (forall b, b ∈ l -> waiting b) | Err _ => True end).
Proof.
  intros v [Hv Hh].
  assert (HI : stalled gd rbs (list_owned gd (Namespace (GD_Meta gd)) v).1).
  { apply stalled_quiet; [|apply quiet_list_owned|done]. unfold list_owned. by quiet. }
  assert (Hn := hoare_list_owned gd v Hh).
  destruct (list_owned gd (Namespace (GD_Meta gd)) v) as [v' [l|e]] eqn:Hl; [|done]. split; [exact HI|].
  destruct HI as [HI _]. cbn in HI, Hn. split.
  - intros ->. destruct Hn as [_ Hn]. specialize (Hn eq_refl k0 b0 Hk0). rewrite HI in Hn. specialize (Hn Hb0). congruence.
  - intros b Hb. apply list_owned_run in Hl as (_ & items & -> & Hitems).
    apply list_elem_of_In, List.filter_In in Hb as [Hb Ho]. apply list_elem_of_In in Hb. rewrite Hitems in Hb.
    apply list_elem_of_fmap in Hb as ([k b'] & -> & Hk). apply elem_of_map_to_list, map_lookup_filter_Some in Hk as [Hk Hns].
    rewrite Hv in Hk. apply (Hwaiting k b'); [by apply String.eqb_eq|done|done].
Qed.

Lemma keeps_stalled_reconcileDelete : keeps (stalled gd rbs) (reconcileDelete gd).
Proof.
  unfold reconcileDelete. destruct (negb _); [apply keeps_ret|]. apply keeps_bind.
  { destruct (String.eqb _ _); [apply keeps_ret|]. apply keeps_bind; [apply keeps_now|]. intros t v [Hv Hh].
    split; [|by apply keeps_ignore; [apply keeps_status|]]. rewrite <- Hv. by apply preserves_ignore, preserves_patch_gd_status. }
  intros _. apply hoare_bind with (R := fun l v => stalled gd rbs v /\ (forall b, b ∈ l -> waiting b)).
  { eapply hoare_conseq; [exact hoare_list_stalled|done|]. intros [l|e] v [H1 H2]; [|exact H1]. split; [exact H1|apply H2]. }
  intros owned v [HI Hl]. rewrite bind_run, fold_delete_idle by done.
  refine (hoare_bind (stalled gd rbs) _ _ (fun l v => stalled gd rbs v /\ l <> []) (fun _ => stalled gd rbs) _ _ v HI).
  { eapply hoare_conseq; [exact hoare_list_stalled|done|]. intros [l|e] v' [H1 H2]; [|exact H1]. split; [exact H1|apply H2]. }
  intros [|b l] v' [H1 H2]; [done|exact H1].
Qed.
End stalled.

(** A deployment under deletion one of whose bindings was never scheduled, while
    none runs, failed or is already being deleted, makes no progress: no call
    changes a binding, schedules one or takes the finalizer, so the deletion
    cannot finish by these controllers: the binding controller leaves a
    Pending binding alone, too. *)
Theorem reconcileDelete_stuck key gd w k0 b0 :
  w_gds w !! key = Some gd -> gd_key gd = key -> DeletionTimestamp (GD_Meta gd) <> None ->
  globalDeploymentFinalizer ∈ Finalizers (GD_Meta gd) ->
  (forall k b, k.1 = Namespace (GD_Meta gd) -> w_rbs w !! k = Some b -> owned_by gd b = true -> waiting b) ->
  k0.1 = Namespace (GD_Meta gd) -> w_rbs w !! k0 = Some b0 -> owned_by gd b0 = true ->
  w_rbs (Reconcile key w).1 = w_rbs w /\ held gd (Reconcile key w).1.
Proof.
  intros Hgd <- Hdel Hfin Hidle Hk0 Hb0 Ho0. change (stalled gd (w_rbs w) (Reconcile (gd_key gd) w).1).
  assert (Hstart : stalled gd (w_rbs w) (tick w)) by (split; [done|by exists gd]).
  unfold Reconcile. rewrite bind_run. unfold attempt, get_object, request.
  destruct (fault _) as [e|].
  { apply (keeps_ignore_not_found (stalled gd (w_rbs w)) Done e (tick w)). done. }
  change (w_gds (tick w)) with (w_gds w). rewrite Hgd. cbn [require fst snd].
  destruct (DeletionTimestamp (GD_Meta gd)); [|done].
  by apply (keeps_stalled_reconcileDelete gd (w_rbs w) k0 b0).
Qed.
End properties.

(** ** Concrete runs *)

#[local] Existing Instance reliable_kube.

Definition demo_gd (deleted : Time) (revision : string) : GlobalDeployment :=
  mkGD (mkMeta "web" "default" "u2" 1 ∅ ∅ [globalDeploymentFinalizer] deleted [])
    (mkGDSpec (Some 2%Z) "{}") (mkGDStatus "" 0 0 0 None revision).
Definition demo_rb (phase : string) : ReplicaBinding :=
  mkRB (mkMeta "web-rb-0" "default" "u1" 1 ∅ ∅ [] None [mkOwner "GlobalDeployment" "web" "u2" (Some true)])
    (mkRBSpec (mkRef "web" "default") 0 "" "" false "")
    (mkRBStatus phase "" None "" "" (mkRescheduleStatus "" None (mkObserved "" "" "") "" "" "")).
Definition demo_world (gd : GlobalDeployment) (rbs : gmap Key ReplicaBinding) : World :=
  mkWorld ∅ rbs {[gd_key gd := gd]} ∅ ∅ ∅ ∅ ∅ 7 0 empty_policy_state ∅.
Definition one_binding (phase : string) : gmap Key ReplicaBinding := {[("default", "web-rb-0") := demo_rb phase]}.

Lemma demo_ok gd phase : rbs_ok (w_rbs (demo_world gd (one_binding phase))).
Proof. apply map_Forall_singleton. split; [reflexivity|by left]. Qed.

(** Containers that ask for 2 of CPU and of memory together; two nodes of one cluster, of
    which only the second has as much free of both. *)
Definition asking_kube : KubeLib :=
  let base := reliable_kube in {|
    yaml_Unmarshal := fun _ => mkDepSpec None None ∅ [(Some 1%Z, None); (Some 1%Z, Some 2%Z)] [] None "";
    yaml_fails := yaml_fails; list_order := @list_order base; list_order_perm := @list_order_perm base;
    SetStatusCondition := SetStatusCondition; RESTConfigFromKubeConfig := RESTConfigFromKubeConfig;
    NewForConfig := NewForConfig; error_text := error_text; fault := fault;
    LabelSelectorAsSelector := LabelSelectorAsSelector; json_DeploymentSpec := json_DeploymentSpec;
    json_Deployment := json_Deployment; MilliValue := MilliValue; Value := Value; rand_String := rand_String;
    new_uid := new_uid; request_timed_out := request_timed_out |}.

Definition demo_free (name : string) (cpu memory : Z) : NodeSummary :=
  mkNodeSummary name name true (mkNodeResources 8 8 10) (mkNodeResources 0 0 0) (mkNodeResources cpu memory 10) ∅.
Definition demo_cluster : Cluster :=
  mkCluster (mkMeta "c1" "kubex-system" "u9" 1 ∅ ∅ [] None []) (mkClusterSpec "" "")
    (mkClusterStatus "Ready" None (Some 5%Z) [] (mkResources (mkResourceList 0 0) (mkResourceList 0 0) 2 0)
       [demo_free "n1" 4 1; demo_free "n2" 2 2]).
Definition demo_room_world (rbs : gmap Key ReplicaBinding) : World :=
  set_clusters (fun _ => {[("kubex-system", "c1") := demo_cluster]}) (demo_world (demo_gd None "v1") rbs).


(** One binding runs; the call creates the other one, which stays Pending without a node:
    one running, one pending, Progressing. *)
Lemma Reconcile_complete_witness :
  exists g, w_gds (Reconcile ("default", "web") (demo_world (demo_gd None "v1") (one_binding "Running"))).1 !! ("default", "web") = Some g /\
    GD_Running (GD_Status g) = 1%Z /\ GD_Pending (GD_Status g) = 1%Z /\ phase_of_counts 2 1 0 (GD_Phase (GD_Status g)).
Proof.
  destruct (Reconcile_complete ("default", "web") (demo_gd None "v1") (demo_world (demo_gd None "v1") (one_binding "Running"))
    (Reconcile ("default", "web") (demo_world (demo_gd None "v1") (one_binding "Running"))).1)
    as (_ & g & Hg & _ & _ & Hr & Hf & Hp & Hphase & _).
  - by_eval.
  - reflexivity.
  - reflexivity.
  - apply demo_ok.
  - apply run_result. by_eval.
  - assert (Hcounts : ((fun g => (GD_Running (GD_Status g), GD_Failed (GD_Status g), GD_Pending (GD_Status g))) <$>
      w_gds (Reconcile ("default", "web") (demo_world (demo_gd None "v1") (one_binding "Running"))).1 !! ("default", "web"))
      = Some (1, 0, 1)%Z) by by_eval.
    exists g. split; [exact Hg|]. rewrite Hg in Hcounts. injection Hcounts as Hr' Hf' Hp'.
    split_and!; [exact Hr'|exact Hp'|]. rewrite Hr', Hf' in Hphase. exact Hphase.
Defined.

Lemma reconcileDelete_safe_witness :
  owned_by (demo_gd (Some 3%Z) "v1") (demo_rb "Running") = true /\
  forall k b, k.1 = "default" -> w_rbs (Reconcile ("default", "web") (demo_world (demo_gd (Some 3%Z) "v1") ∅)).1 !! k = Some b ->
    owned_by (demo_gd (Some 3%Z) "v1") b = false.
Proof.
  split; [reflexivity|].
  apply (reconcileDelete_safe ("default", "web") (demo_gd (Some 3%Z) "v1") (demo_world (demo_gd (Some 3%Z) "v1") ∅)).
  - by_eval.
  - reflexivity.
  - discriminate.
  - apply list_elem_of_singleton. reflexivity.
  - intros g H. exfalso. revert H.
    assert (w_gds (Reconcile ("default", "web") (demo_world (demo_gd (Some 3%Z) "v1") ∅)).1 !! ("default", "web") = None)
      as -> by by_eval. discriminate.
Defined.

Lemma reconcileDelete_stuck_witness :
  w_rbs (Reconcile ("default", "web") (demo_world (demo_gd (Some 3%Z) "v1") (one_binding "Pending"))).1 = one_binding "Pending".
Proof.
  apply (reconcileDelete_stuck ("default", "web") (demo_gd (Some 3%Z) "v1")
    (demo_world (demo_gd (Some 3%Z) "v1") (one_binding "Pending")) ("default", "web-rb-0") (demo_rb "Pending")).
  - by_eval.
  - reflexivity.
  - discriminate.
  - apply list_elem_of_singleton. reflexivity.
  - intros k b _ Hb _. change (({[("default", "web-rb-0") := demo_rb "Pending"]} : gmap Key ReplicaBinding) !! k = Some b) in Hb.
    apply lookup_singleton_Some in Hb as [_ <-]. split_and!; [reflexivity|discriminate|discriminate].
  - reflexivity.
  - by_eval.
  - reflexivity.
Defined.
