(* ===== verification/RollingMigration.v ===== *)
(** * Rolling migration (internal/controller/globaldeployment_controller.go)

    The two handlers of the GlobalDeployment controller that replace the binding of
    a replica by a revision of it: [handleRescheduleRolling], which waits for the
    member cluster to show the new replica ready before it deletes the old
    revisions, and its predecessor [handleRescheduleMVP], which waits for the
    phase of the new binding. [Reconcile] calls neither at this commit. A handler
    returns the result and whether it acted; with an error it always acted. The
    loop over the bindings returns in its first pass that does not [continue], so
    it is a search for the first trigger and the rest of the pass. *)

From S2P Require Import Prelude GoTime ApiTypes KubeApi MemberClients Scheduler GlobalDeployment.

Local Open Scope string_scope.
Local Open Scope list_scope.

(** [cand.Labels[revisionLabelKey]], empty when there is none. *)
Definition revision_label (b : ReplicaBinding) : string :=
  default "" (Labels (RB_Meta b) !! revisionLabelKey).

(** A binding that is to move: a request that is not handled yet, the flag, and a
    destination. *)
Definition is_trigger (b : ReplicaBinding) : bool :=
  let s := RB_Spec b in
  let rs := RB_Reschedule (RB_Status b) in
  if str_empty (RescheduleRequest s) then false
  else if negb (Reschedule s) then false
  else if String.eqb (LastHandledRequest rs) (RescheduleRequest s) && String.eqb (LastResult rs) "Succeeded" then false
  else negb (str_empty (TargetCluster s) || str_empty (TargetNodeName s)).

(** The revision already created for the trigger's request. *)
Definition is_revision_of (trigger cand : ReplicaBinding) : bool :=
  (RBS_ReplicaIndex (RB_Spec cand) =? RBS_ReplicaIndex (RB_Spec trigger))%Z &&
  negb (String.eqb (Name (RB_Meta cand)) (Name (RB_Meta trigger))) &&
  String.eqb (RescheduleRequest (RB_Spec cand)) (RescheduleRequest (RB_Spec trigger)) &&
  negb (str_empty (revision_label cand)).
Definition existing_revision (owned : list ReplicaBinding) (trigger : ReplicaBinding) : string :=
  match List.find (is_revision_of trigger) owned with
  | Some cand => Name (RB_Meta cand)
  | None => ""
  end.

(** [fmt.Sprintf("%s-rb-%d-%s", gd.Name, replicaIndex, nextRev)]. *)
Definition revision_name (gd : GlobalDeployment) (replicaIndex : Z) (rev : string) : string :=
  Name (GD_Meta gd) +:+ "-rb-" +:+ pretty replicaIndex +:+ "-" +:+ rev.

(** The revision of a trigger's binding; its controller is the deployment. *)
Definition revision_binding (gd : GlobalDeployment) (trigger : ReplicaBinding) (name rev : string) : ReplicaBinding :=
  let s := RB_Spec trigger in
  mkRB
    (mkMeta name (Namespace (GD_Meta gd)) "" 0
       (<["core.kubex.io/globaldeploy" := Name (GD_Meta gd)]> (<[revisionLabelKey := rev]>
          {[replicaIndexLabelKey := pretty (RBS_ReplicaIndex s)]}))
       ∅ [] None [mkOwner "GlobalDeployment" (Name (GD_Meta gd)) (UID (GD_Meta gd)) (Some true)])
    (mkRBSpec (mkRef (Name (GD_Meta gd)) (Namespace (GD_Meta gd))) (RBS_ReplicaIndex s) (TargetCluster s)
       (TargetNodeName s) false (RescheduleRequest s))
    empty_rb_status.

(** The member deployment of a replica. *)
Definition member_deployment (gd : GlobalDeployment) (replicaIndex : Z) : string :=
  Name (GD_Meta gd) +:+ "-r" +:+ pretty replicaIndex.

(** A running pod all of whose containers, one at least, are ready. *)
Definition pod_ready (p : Pod) : bool :=
  String.eqb (Pod_Phase p) "Running" && negb (match Pod_ContainersReady p with [] => true | _ => false end) &&
  forallb id (Pod_ContainersReady p).

Definition match_labels (dep : Deployment) : gmap string string := default ∅ (Dep_MatchLabels (Dep_Spec dep)).

(** The pods the fallback keeps of those labelled with the deployment's name. *)
Definition named_for (depName : string) (p : Pod) : bool :=
  String.eqb (Pod_Name p) depName || has_prefix (Pod_Name p) (depName +:+ "-").

(** What the ready gate says: how long to wait, or the pod seen. *)
Inductive gate : Type :=
| Wait (d : Z)
| ReadyPod (podName : string).

(** An old revision of the trigger's replica. *)
Definition is_old_revision (trigger : ReplicaBinding) (newRBName nextRev : string) (cand : ReplicaBinding) : bool :=
  if String.eqb (Name (RB_Meta cand)) (Name (RB_Meta trigger)) || String.eqb (Name (RB_Meta cand)) newRBName then false
  else if negb (RBS_ReplicaIndex (RB_Spec cand) =? RBS_ReplicaIndex (RB_Spec trigger))%Z then false
  else negb (str_empty (revision_label cand) || String.eqb (revision_label cand) nextRev).

Definition without_flag (b : ReplicaBinding) : ReplicaBinding :=
  let s := RB_Spec b in
  mkRB (RB_Meta b)
    (mkRBSpec (RBS_GlobalDeploymentRef s) (RBS_ReplicaIndex s) (TargetCluster s) (TargetNodeName s) false
       (RescheduleRequest s)) (RB_Status b).

(** A binding of the predecessor that is to move, and its revision: labelled
    with revision and index only, and without the request. *)
Definition mvp_trigger (b : ReplicaBinding) : bool :=
  Reschedule (RB_Spec b) && negb (str_empty (TargetCluster (RB_Spec b)) || str_empty (TargetNodeName (RB_Spec b))).
Definition mvp_binding (gd : GlobalDeployment) (trigger : ReplicaBinding) (name rev : string) : ReplicaBinding :=
  let s := RB_Spec trigger in
  mkRB
    (mkMeta name (Namespace (GD_Meta gd)) "" 0
       (<[revisionLabelKey := rev]> {[replicaIndexLabelKey := pretty (RBS_ReplicaIndex s)]})
       ∅ [] None [mkOwner "GlobalDeployment" (Name (GD_Meta gd)) (UID (GD_Meta gd)) (Some true)])
    (mkRBSpec (mkRef (Name (GD_Meta gd)) (Namespace (GD_Meta gd))) (RBS_ReplicaIndex s) (TargetCluster s)
       (TargetNodeName s) false "")
    empty_rb_status.
Definition mvp_old (gd : GlobalDeployment) (trigger : ReplicaBinding) (newRBName : string) (cand : ReplicaBinding) : bool :=
  if String.eqb (Name (RB_Meta cand)) (Name (RB_Meta trigger)) || String.eqb (Name (RB_Meta cand)) newRBName then false
  else if negb (RBS_ReplicaIndex (RB_Spec cand) =? RBS_ReplicaIndex (RB_Spec trigger))%Z then false
  else has_prefix (Name (RB_Meta cand)) (revision_name gd (RBS_ReplicaIndex (RB_Spec trigger)) "").

Section handlers.
Context {KUBE : KubeLib} {CACHE : ClientCache} (ControlNamespace : string).

Definition requeue (d : Z) : M (Result * bool) := mret (mkResult d, true).

(** [func (r) getMemberClient(ctx, namespace, clusterID)]; a missing cache is an
    empty one. *)
Definition getMemberClient (namespace clusterID : string) : M string :=
  MemberClientCache.GetOrBuild namespace clusterID.

Definition control_namespace (gd : GlobalDeployment) : string :=
  if str_empty ControlNamespace then Namespace (GD_Meta gd) else ControlNamespace.

(** The bindings as they are stored now; those passed in when the listing fails. *)
Definition relist (gd : GlobalDeployment) (owned : list ReplicaBinding) : M (list ReplicaBinding) :=
  r ← attempt (list_owned gd (Namespace (GD_Meta gd)));
  mret (match r with Ok latest => latest | Err _ => owned end).

(** The pods of the member deployment: by its selector, else by name. *)
Definition deployment_pods (gd : GlobalDeployment) (cs depName : string) (dep : Deployment) : M (list Pod) :=
  pods ← pods_matching cs (Namespace (GD_Meta gd)) (match_labels dep);
  match pods with
  | _ :: _ => mret pods
  | [] =>
      pods2 ← attempt (pods_list cs (Namespace (GD_Meta gd)) "core.kubex.io/globaldeploy" (Name (GD_Meta gd)));
      mret (match pods2 with Ok l => List.filter (named_for depName) l | Err _ => [] end)
  end.

(** The ready gate: the member cluster's deployment and a pod of it. *)
Definition ready_gate (gd : GlobalDeployment) (newRB : ReplicaBinding) : M gate :=
  client ← attempt (getMemberClient (control_namespace gd) (TargetCluster (RB_Spec newRB)));
  match client with
  | Err _ => mret (Wait (2 * Second))
  | Ok memberCS =>
      let depName := member_deployment gd (RBS_ReplicaIndex (RB_Spec newRB)) in
      got ← attempt (deployment_get memberCS (Namespace (GD_Meta gd)) depName);
      match got with
      | Err _ => mret (Wait (1 * Second))
      | Ok dep =>
          if (AvailableReplicas (Dep_Status dep) <? 1)%Z || (UpdatedReplicas (Dep_Status dep) <? 1)%Z then
            mret (Wait (800 * Millisecond))
          else
            pods ← attempt (deployment_pods gd memberCS depName dep);
            match pods with
            | Err _ => mret (Wait (800 * Millisecond))
            | Ok items =>
                match List.find pod_ready items with
                | None => mret (Wait (800 * Millisecond))
                | Some p => mret (ReadyPod (Pod_Name p))
                end
            end
      end
  end.

(** A new revision in the phase the binding controller applies. *)
Definition create_revision (b : ReplicaBinding) (d : Z) : M (Result * bool) :=
  t ← now;
  create_rb b ≫= fun _ => update_rb_status (with_assigned b t) ≫= fun _ => requeue d.

(** [_ = r.Delete(ctx, &candidate)] for the candidates chosen. *)
Definition delete_chosen (chosen : ReplicaBinding -> bool) (cand : ReplicaBinding) : M unit :=
  if chosen cand then ignore (delete_rb (rb_key cand)) else mret tt.

(** The trigger's flag goes, if it can be read. *)
Definition reset_flag (trigger : ReplicaBinding) : M unit :=
  r ← attempt (get_object w_rbs (rb_key trigger));
  match r with
  | Ok latestTrigger => if Reschedule (RB_Spec latestTrigger) then patch_rb (without_flag latestTrigger) else mret tt
  | Err _ => mret tt
  end.

(** The rest of a pass once the new replica is ready. *)
Definition complete_migration (owned : list ReplicaBinding) (trigger : ReplicaBinding)
    (newRBName nextRev podName : string) : M (Result * bool) :=
  for_each (delete_chosen (is_old_revision trigger newRBName nextRev)) owned ≫= fun _ =>
  markRescheduleStatusSucceeded trigger podName ≫= fun _ =>
  (if Reschedule (RB_Spec trigger) then ignore (reset_flag trigger) else mret tt) ≫= fun _ =>
  requeue (300 * Millisecond).

(** The pass of the loop for the trigger. *)
Definition migrate (gd : GlobalDeployment) (owned : list ReplicaBinding) (trigger : ReplicaBinding) : M (Result * bool) :=
  let existingRevisionRBName := existing_revision owned trigger in
  let nextRev := nextRevisionForReplicaIndex owned (RBS_ReplicaIndex (RB_Spec trigger)) in
  let newRBName := if str_empty existingRevisionRBName
                   then revision_name gd (RBS_ReplicaIndex (RB_Spec trigger)) nextRev
                   else existingRevisionRBName in
  got ← attempt (get_object w_rbs (Namespace (GD_Meta gd), newRBName));
  match got with
  | Err e =>
      if negb (IsNotFound e) then throw e
      else create_revision (revision_binding gd trigger newRBName nextRev) (300 * Millisecond)
  | Ok newRB =>
      g ← ready_gate gd newRB;
      match g with
      | Wait d => requeue d
      | ReadyPod podName => complete_migration owned trigger newRBName nextRev podName
      end
  end.

(** [func (r) handleRescheduleRolling(ctx, gd, owned)]. *)
Definition handleRescheduleRolling (gd : GlobalDeployment) (owned : list ReplicaBinding) : M (Result * bool) :=
  latest ← relist gd owned;
  match List.find is_trigger latest with
  | None => mret (Done, false)
  | Some trigger => migrate gd latest trigger
  end.

(** [func (r) handleRescheduleMVP(ctx, gd, owned)]. *)
Definition advance_revision (gd : GlobalDeployment) (nextRev : string) : M unit :=
  r ← attempt (get_object w_gds (gd_key gd));
  match r with
  | Ok gd2 =>
      let st := GD_Status gd2 in
      patch_gd_status (with_gd_status gd2
        (mkGDStatus (GD_Phase st) (GD_Running st) (GD_Failed st) (GD_Pending st) (GD_UpdatedAt st) nextRev))
  | Err _ => mret tt
  end.
Definition handleRescheduleMVP (gd : GlobalDeployment) (owned : list ReplicaBinding) : M (Result * bool) :=
  match List.find mvp_trigger owned with
  | None => mret (Done, false)
  | Some rb =>
      let nextRev := bumpRevision (ObservedRevision (GD_Status gd)) in
      let newRBName := revision_name gd (RBS_ReplicaIndex (RB_Spec rb)) nextRev in
      got ← attempt (get_object w_rbs (Namespace (GD_Meta gd), newRBName));
      match got with
      | Err e =>
          if negb (IsNotFound e) then throw e
          else create_revision (mvp_binding gd rb newRBName nextRev) (200 * Millisecond)
      | Ok newRB =>
          if negb (String.eqb (RB_Phase (RB_Status newRB)) ReplicaBindingPhaseRunning) then requeue (500 * Millisecond)
          else
            for_each (delete_chosen (mvp_old gd rb newRBName)) owned ≫= fun _ =>
            reset_flag rb ≫= fun _ =>
            advance_revision gd nextRev ≫= fun _ =>
            requeue (200 * Millisecond)
      end
  end.
End handlers.

(** ** What the handlers read *)

Section reads.
Context {KUBE : KubeLib} (gd : GlobalDeployment).

(** The bindings of the deployment stored in its namespace. *)
Definition stored (w : World) (b : ReplicaBinding) : Prop :=
  Namespace (RB_Meta b) = Namespace (GD_Meta gd) /\ owned_by gd b = true /\ w_rbs w !! rb_key b = Some b.

(** A listing is of what is stored; without one, the handler works on what it was
    given. *)
Lemma relist_run owned w :
  rbs_ok (w_rbs w) ->
  exists latest, relist gd owned w = (tick w, Ok latest) /\
    match fault (w_requests w) with
    | None => forall b, b ∈ latest <-> stored w b
    | Some _ => latest = owned
    end.
Proof.
  intros Hok. unfold relist. rewrite bind_run. unfold attempt.
  destruct (list_owned gd (Namespace (GD_Meta gd)) w) as [w' r] eqn:Hl. destruct r as [latest|e].
  - pose proof (list_owned_run gd _ _ _ _ Hl) as (-> & items & -> & Hitems). eexists. split; [done|].
    unfold list_owned, list_objects, request in Hl. rewrite bind_run in Hl. destruct (fault _); [done|].
    intros b. rewrite list_elem_of_In, List.filter_In, <- list_elem_of_In, Hitems, list_elem_of_fmap. split.
    + intros [([k b'] & -> & Hk) Ho]. apply elem_of_map_to_list, map_lookup_filter_Some in Hk as [Hk Hns].
      destruct (Hok _ _ Hk) as [Hkey _]. apply String.eqb_eq in Hns. cbn in Hns |- *. subst k. done.
    + intros (Hns & Ho & Hb). split; [|done]. exists (rb_key b, b). split; [done|].
      apply elem_of_map_to_list, map_lookup_filter_Some. split; [done|]. by apply String.eqb_eq.
  - revert Hl. unfold list_owned, list_objects, request. rewrite bind_run. destruct (fault _); [|done].
    intros [= <- _]. by exists owned.
Qed.
End reads.

(** ** The ready gate *)

Section gate.
Context {KUBE : KubeLib} {CACHE : ClientCache} (ControlNamespace : string) (gd : GlobalDeployment).

(** The bindings and the member clusters, which the gate only reads. *)
Definition objects (w : World) := (w_rbs w, w_members w).

Lemma objects_apart f w : objects (set_cached f w) = objects w.
Proof. unfold objects. by destruct (cached_apart f w) as [-> ->]. Qed.

Lemma objects_same w : objects (set_members (fun m => m) w) = objects w.
Proof. done. Qed.

Lemma preserves_getMemberClient ns id : preserves objects (getMemberClient ns id).
Proof. apply MemberClientCache.preserves_GetOrBuild; [done|apply objects_apart]. Qed.

Lemma preserves_deployment_pods cs depName dep : preserves objects (deployment_pods gd cs depName dep).
Proof.
  unfold deployment_pods, pods_matching, pods_list.
  apply preserves_bind; [by apply preserves_member_read|]. intros [|p l]; [|apply preserves_ret].
  apply preserves_bind; [by apply preserves_attempt, preserves_member_read|]. intros. apply preserves_ret.
Qed.

Lemma preserves_ready_gate newRB : preserves objects (ready_gate ControlNamespace gd newRB).
Proof.
  unfold ready_gate. apply preserves_bind; [apply preserves_attempt, preserves_getMemberClient|].
  intros [cs|e]; [|apply preserves_ret]. apply preserves_bind; [by apply preserves_attempt, preserves_member_read|].
  intros [dep|e]; [|apply preserves_ret]. destruct (_ || _); [apply preserves_ret|].
  apply preserves_bind; [apply preserves_attempt, preserves_deployment_pods|].
  intros [items|e]; [|apply preserves_ret]. destruct (List.find _ _); apply preserves_ret.
Qed.

(** A client for a cluster: a cached one, or the one its secret configures. *)
Definition client_of (w : World) (clusterID cs : string) : Prop :=
  cached w !! clusterID = Some cs \/
  MemberClientCache.configured w (control_namespace ControlNamespace gd) clusterID = Some cs.

(** The pod is one of the deployment's: chosen by its selector, or by label and name. *)
Definition pod_of (dep : Deployment) (depName : string) (p : Pod) : Prop :=
  match_labels dep ⊆ Pod_Labels p \/
  (Pod_Labels p !! "core.kubex.io/globaldeploy" = Some (Name (GD_Meta gd)) /\ named_for depName p = true).

(** The replica runs on the member cluster: its deployment is up to date and
    available, and one of its pods is ready. *)
Definition replica_ready (mc : MemberCluster) (replicaIndex : Z) (podName : string) : Prop :=
  let depName := member_deployment gd replicaIndex in
  exists dep kp p, mc_deployments mc !! (Namespace (GD_Meta gd), depName) = Some dep /\
    (1 <= AvailableReplicas (Dep_Status dep))%Z /\ (1 <= UpdatedReplicas (Dep_Status dep))%Z /\
    mc_pods mc !! kp = Some p /\ kp.1 = Namespace (GD_Meta gd) /\ pod_of dep depName p /\ pod_ready p = true /\
    Pod_Name p = podName.

Lemma member_read_run {A} cs (f : MemberCluster -> result api_error A) w w' a :
  member_request cs (fun mc => (mc, f mc)) w = (w', Ok a) ->
  exists mc, w_members w !! cs = Some mc /\ f mc = Ok a.
Proof.
  unfold member_request, request. destruct (fault _); [done|]. cbn.
  destruct (w_members w !! cs) as [mc|]; [|done]. intros [= _ H]. by exists mc.
Qed.

Lemma chosen_pods (ns : string) (g : Key * Pod -> bool) (pods : gmap Key Pod) p :
  p ∈ omap (fun e => if String.eqb e.1.1 ns && g e then Some e.2 else None) (map_to_list pods) ->
  exists kp, pods !! kp = Some p /\ kp.1 = ns /\ g (kp, p) = true.
Proof.
  intros ([k q] & Hin & Hq)%list_elem_of_omap. apply elem_of_map_to_list in Hin. cbn [fst snd] in Hq.
  destruct (String.eqb k.1 ns && g (k, q)) eqn:Hc; [|done]. apply andb_true_iff in Hc as [Hk Hc]. simplify_eq.
  exists k. split_and!; [done|by apply String.eqb_eq|done].
Qed.

Lemma deployment_pods_run cs depName dep w w' items p :
  deployment_pods gd cs depName dep w = (w', Ok items) -> p ∈ items ->
  exists mc kp, w_members w !! cs = Some mc /\ mc_pods mc !! kp = Some p /\ kp.1 = Namespace (GD_Meta gd) /\
    pod_of dep depName p.
Proof.
  unfold deployment_pods. intros (w1 & pods & Hl & Hrun)%bind_run_Ok Hp.
  assert (Hw1 : w_members w1 = w_members w).
  { change w1 with (w1, Ok (E := api_error) pods).1. rewrite <- Hl.
    by apply (preserves_member_read w_members). }
  apply member_read_run in Hl as (mc & Hmc & [= Hpods]). exists mc. destruct pods as [|q l].
  - apply bind_run_Ok in Hrun as (w2 & pods2 & Ha & [= _ <-]). unfold attempt in Ha.
    destruct (pods_list _ _ _ _ w1) as [w2' r] eqn:Hl2. injection Ha as _ <-.
    destruct r as [l|e]; [|by apply not_elem_of_nil in Hp].
    apply member_read_run in Hl2 as (mc2 & Hmc2 & [= <-]). rewrite Hw1 in Hmc2. assert (mc2 = mc) as -> by congruence.
    apply list_elem_of_In, List.filter_In in Hp as [Hp Hn]. apply list_elem_of_In in Hp.
    apply chosen_pods in Hp as (kp & H1 & H2 & H3%bool_decide_eq_true). exists kp. split_and!; [done..|by right].
  - injection Hrun as _ <-. rewrite <- Hpods in Hp.
    apply chosen_pods in Hp as (kp & H1 & H2 & H3%bool_decide_eq_true). exists kp. split_and!; [done..|by left].
Qed.

(** The gate opens only on a ready replica on a cluster reached by a client of the
    new binding's target. *)
Lemma ready_gate_opens newRB w w' podName :
  ready_gate ControlNamespace gd newRB w = (w', Ok (ReadyPod podName)) ->
  exists cs mc, client_of w (TargetCluster (RB_Spec newRB)) cs /\ w_members w !! cs = Some mc /\
    replica_ready mc (RBS_ReplicaIndex (RB_Spec newRB)) podName.
Proof.
  unfold ready_gate. intros (w1 & r & Hc & Hrun)%bind_run_Ok.
  assert (Hw1 : w_members w1 = w_members w).
  { change w1 with (w1, Ok (E := api_error) r).1. rewrite <- Hc. change (w_members ?x) with (objects x).2.
    f_equal. apply preserves_attempt, preserves_getMemberClient. }
  unfold attempt in Hc. pose proof (MemberClientCache.GetOrBuild_outcome (control_namespace ControlNamespace gd)
    (TargetCluster (RB_Spec newRB)) w) as Hout. change MemberClientCache.GetOrBuild with getMemberClient in Hout.
  destruct (getMemberClient _ _ w) as [w1' r']. injection Hc as -> <-. destruct r' as [cs|e]; [|done].
  destruct Hout as (_ & _ & _ & Hcs). exists cs.
  apply bind_run_Ok in Hrun as (w2 & r & Hd & Hrun). unfold attempt in Hd.
  destruct (deployment_get _ _ _ w1) as [w2' r'] eqn:Hget. injection Hd as -> <-. destruct r' as [dep|e]; [|done].
  assert (Hw2 : w_members w2 = w_members w1).
  { change w2 with (w2, Ok (E := api_error) dep).1. rewrite <- Hget. by apply (preserves_member_read w_members). }
  apply member_read_run in Hget as (mc & Hmc & Hdep). rewrite Hw1 in Hmc. exists mc.
  unfold require in Hdep. destruct (mc_deployments mc !! _) as [d|] eqn:Hdk; [|done]. injection Hdep as ->.
  destruct (Z.ltb_spec (AvailableReplicas (Dep_Status dep)) 1); [done|].
  destruct (Z.ltb_spec (UpdatedReplicas (Dep_Status dep)) 1); [done|]. cbn [orb] in Hrun.
  apply bind_run_Ok in Hrun as (w3 & r & Hp & Hrun). unfold attempt in Hp.
  destruct (deployment_pods _ _ _ _ w2) as [w3' r'] eqn:Hpods. injection Hp as -> <-. destruct r' as [items|e]; [|done].
  destruct (List.find pod_ready items) as [p|] eqn:Hfind; [|done]. injection Hrun as _ <-.
  apply List.find_some in Hfind as [Hin Hready]. apply list_elem_of_In in Hin.
  destruct (deployment_pods_run _ _ _ _ _ _ _ Hpods Hin) as (mc' & kp & Hmc' & Hkp & Hns & Hof).
  rewrite Hw2, Hw1 in Hmc'. assert (mc' = mc) as -> by congruence.
  split_and!; [by destruct Hcs as [|[_ ?]]; [left|right]|done|]. by exists dep, kp, p.
Qed.
End gate.

(** ** Bindings that survive a call *)

Section survival.
Context {KUBE : KubeLib} (P : Key -> Prop) (w0 : World).

(** Outside [P], every binding of the start is stored and no more deleted than it was. *)
Definition spared (w : World) : Prop :=
  rbs_ok (w_rbs w) /\
  forall k b, w_rbs w0 !! k = Some b ->
    P k \/ exists b', w_rbs w !! k = Some b' /\ DeletionTimestamp (RB_Meta b') = DeletionTimestamp (RB_Meta b).

Lemma spared_start : rbs_ok (w_rbs w0) -> spared w0.
Proof. intros H. split; [done|]. intros k b Hb. right. by exists b. Qed.

Lemma spared_keeps {A} (m : M A) : preserves w_rbs m -> keeps spared m.
Proof. intros Hm w [H1 H2]. split; by rewrite Hm. Qed.

(** A stored binding replaced by one that is as deleted. *)
Lemma spared_replace w k old b' :
  spared w -> w_rbs w !! k = Some old -> rb_key b' = k ->
  DeletionTimestamp (RB_Meta b') = DeletionTimestamp (RB_Meta old) -> Finalizers (RB_Meta b') = Finalizers (RB_Meta old) ->
  spared (set_rbs <[k := b']> (tick w)).
Proof.
  intros [Hok Hs] Hold Hk Hd Hf. split.
  - apply rbs_ok_insert; [done|done|]. rewrite Hd, Hf. apply (Hok _ _ Hold).
  - intros k' b Hb. destruct (Hs _ _ Hb) as [|(b1 & Hb1 & Hd1)]; [by left|]. right. cbn.
    destruct (decide (k = k')) as [<-|Hne]; [|rewrite lookup_insert_ne by done; by exists b1].
    rewrite lookup_insert_eq. exists b'. split; [done|]. congruence.
Qed.

Lemma keeps_spared_create b : DeletionTimestamp (RB_Meta b) = None -> keeps spared (create_rb b).
Proof.
  intros Hd. apply hoare_request; [done|]. intros w [Hok Hs]. cbn [fst snd].
  change (Namespace (RB_Meta b), Name (RB_Meta b)) with (rb_key b). change (w_rbs (tick w)) with (w_rbs w).
  destruct (w_rbs w !! rb_key b) as [old|] eqn:Hb; [done|]. split.
  - apply rbs_ok_insert; [done|done|by left].
  - intros k' b' Hb'. destruct (Hs _ _ Hb') as [|(b1 & Hb1 & Hd1)]; [by left|]. right. exists b1. split; [|done].
    cbn. rewrite lookup_insert_ne; [done|]. intros <-. congruence.
Qed.

Lemma keeps_spared_status b : keeps spared (patch_rb_status b).
Proof.
  apply hoare_request; [done|]. intros w Hw. cbn [fst snd].
  change (Namespace (RB_Meta b), Name (RB_Meta b)) with (rb_key b). change (w_rbs (tick w)) with (w_rbs w).
  destruct (w_rbs w !! rb_key b) as [old|] eqn:Hb; [|done]. apply (spared_replace w _ old); [done|done| |done|done].
  destruct Hw as [Hok _]. apply (Hok _ _ Hb).
Qed.

Lemma keeps_spared_delete k : P k -> keeps spared (delete_rb k).
Proof.
  intros HP. apply hoare_request; [done|]. intros w [Hok Hs]. cbn [fst snd].
  change (w_rbs (tick w)) with (w_rbs w). destruct (w_rbs w !! k) as [b|] eqn:Hb; [|done].
  assert (Hother : forall f : gmap Key ReplicaBinding -> gmap Key ReplicaBinding,
    rbs_ok (f (w_rbs w)) -> (forall k', k' <> k -> f (w_rbs w) !! k' = w_rbs w !! k') -> spared (set_rbs f (tick w))).
  { intros f Hf Hne. split; [done|]. intros k' b' Hb'. destruct (decide (k' = k)) as [->|]; [by left|].
    cbn. rewrite Hne by done. by apply Hs. }
  destruct (Hok _ _ Hb) as [Hk _]. destruct (Finalizers (RB_Meta b)) eqn:Hf; cbn [fst].
  - apply Hother; [by apply map_Forall_delete|]. intros. by apply lookup_delete_ne.
  - apply Hother; [|intros; by apply lookup_insert_ne]. apply rbs_ok_insert; [done|exact Hk|]. right. cbn. by rewrite Hf.
Qed.

Lemma keeps_spared_reset_flag trigger : keeps spared (reset_flag trigger).
Proof.
  unfold reset_flag. apply hoare_bind with (R := fun r w => spared w /\
    match r with Ok latest => w_rbs w !! rb_key trigger = Some latest | Err _ => True end).
  - apply hoare_attempt, hoare_get_object; [done|done|done|]. by intros w a Hw Ha.
  - intros [latest|e]; [|by intros w []]. destruct (Reschedule _); [|by intros w []].
    intros w [Hw Hl]. assert (Hk : rb_key latest = rb_key trigger) by (destruct Hw as [Hok _]; apply (Hok _ _ Hl)).
    refine (hoare_patch_rb (fun w => spared w /\ w_rbs w !! rb_key trigger = Some latest) (without_flag latest) latest
      (fun _ => spared) _ _ _ _ w (conj Hw Hl)).
    + intros w' [_ H]. change (rb_key (without_flag latest)) with (rb_key latest). by rewrite Hk.
    + destruct Hw as [Hok _]. apply (Hok _ _ Hl).
    + by intros ? ? [].
    + intros w' [H1 H2]. change (rb_key (without_flag latest)) with (rb_key latest). rewrite Hk.
      by apply (spared_replace w' _ latest).
Qed.

Lemma keeps_spared_deletes chosen l :
  (forall c, c ∈ l -> chosen c = true -> P (rb_key c)) -> keeps spared (for_each (delete_chosen chosen) l).
Proof.
  intros HP. apply keeps_for_each. intros c Hc. unfold delete_chosen. destruct (chosen c) eqn:Hch; [|apply keeps_ret].
  apply keeps_ignore, keeps_spared_delete. by apply HP.
Qed.

Lemma keeps_spared_create_revision b d : DeletionTimestamp (RB_Meta b) = None -> keeps spared (create_revision b d).
Proof.
  intros Hd. apply keeps_bind; [apply keeps_now|]. intros t. apply keeps_bind; [by apply keeps_spared_create|].
  intros _. apply keeps_bind; [apply keeps_spared_status|]. intros. apply keeps_ret.
Qed.

Lemma keeps_spared_complete owned trigger name rev pod :
  (forall c, c ∈ owned -> is_old_revision trigger name rev c = true -> P (rb_key c)) ->
  keeps spared (complete_migration owned trigger name rev pod).
Proof.
  intros HP. apply keeps_bind; [by apply keeps_spared_deletes|]. intros _. apply keeps_bind.
  { apply keeps_bind; [by apply keeps_attempt, keeps_get_object|]. intros [latest|e]; [|apply keeps_ignore_not_found].
    apply keeps_bind; [apply keeps_now|]. intros. apply keeps_spared_status. }
  intros _. apply keeps_bind; [destruct (Reschedule _); [apply keeps_ignore, keeps_spared_reset_flag|apply keeps_ret]|].
  intros. apply keeps_ret.
Qed.
End survival.

(** ** Make before break *)

Section rolling.
Context {KUBE : KubeLib} {CACHE : ClientCache} (ControlNamespace : string) (gd : GlobalDeployment).

Lemma client_of_tick w clusterID cs :
  client_of ControlNamespace gd (tick w) clusterID cs <-> client_of ControlNamespace gd w clusterID cs.
Proof. unfold client_of. by rewrite cached_tick. Qed.

(** What a pass does for its trigger, from the listing on: it deletes nothing, or the
    new binding is stored, its replica is ready, and it deletes old revisions. *)
Lemma migrate_spares owned trigger w0 w :
  spared (fun _ => False) w0 w ->
  let w' := (migrate ControlNamespace gd owned trigger w).1 in
  spared (fun _ => False) w0 w' \/
  exists name rev new cs mc podName,
    w_rbs w !! (Namespace (GD_Meta gd), name) = Some new /\
    client_of ControlNamespace gd w (TargetCluster (RB_Spec new)) cs /\ w_members w !! cs = Some mc /\
    replica_ready gd mc (RBS_ReplicaIndex (RB_Spec new)) podName /\
    spared (fun k => exists c, c ∈ owned /\ is_old_revision trigger name rev c = true /\ rb_key c = k) w0 w'.
Proof.
  intros Hw. unfold migrate. set (rev := nextRevisionForReplicaIndex _ _). set (name := if str_empty _ then _ else _).
  rewrite bind_run. unfold attempt, get_object, request.
  set (create := create_revision _ _).
  assert (Hcreate : keeps (spared (fun _ => False) w0) create) by by apply keeps_spared_create_revision.
  assert (Herr : forall e, spared (fun _ => False) w0 ((if negb (IsNotFound e) then throw e else create) (tick w)).1).
  { intros e. destruct (negb _); [done|]. by apply Hcreate. }
  destruct (fault _) as [e|]; [left; apply Herr|]. cbn [fst snd]. change (w_rbs (tick w)) with (w_rbs w).
  destruct (w_rbs w !! (Namespace (GD_Meta gd), name)) as [new|] eqn:Hnew; [|left; apply (Herr NotFound)]. cbn [require].
  rewrite bind_run. pose proof (preserves_ready_gate ControlNamespace gd new (tick w)) as Hobj.
  destruct (ready_gate ControlNamespace gd new (tick w)) as [w3 [[d|podName]|e]] eqn:Hg; cbn [fst] in Hobj |- *;
    injection Hobj as Hrbs _.
  - left. split; cbn; rewrite Hrbs; apply Hw.
  - right. apply ready_gate_opens in Hg as (cs & mc & Hcs & Hmc & Hready). exists name, rev, new, cs, mc, podName.
    split_and!; [done|by apply client_of_tick|done|done|].
    apply keeps_spared_complete; [intros c Hc Ho; by exists c|]. split; rewrite Hrbs; [apply Hw|].
    intros k b Hb. right. by destruct (proj2 Hw k b Hb).
  - left. split; rewrite Hrbs; apply Hw.
Qed.

(** Whatever requests fail, a call of the rolling handler deletes, or marks
    for deletion, no binding but an old revision of a replica that is to move: one
    the handler saw, with a revision label, with the index of a trigger it saw,
    and neither the trigger nor the new binding. And it does so only once the new
    binding is stored and its replica is ready on the cluster a client of the new
    binding's target reaches: the member deployment is up to date and available,
    and a pod of it runs with all its containers ready. *)
Theorem rolling_makes_before_breaks owned w k b :
  rbs_ok (w_rbs w) -> w_rbs w !! k = Some b ->
  let w' := (handleRescheduleRolling ControlNamespace gd owned w).1 in
  (exists b', w_rbs w' !! k = Some b' /\ DeletionTimestamp (RB_Meta b') = DeletionTimestamp (RB_Meta b)) \/
  exists seen trigger c new name cs mc podName,
    relist gd owned w = (tick w, Ok seen) /\
    trigger ∈ seen /\ is_trigger trigger = true /\
    c ∈ seen /\ rb_key c = k /\ Name (RB_Meta c) <> Name (RB_Meta trigger) /\ Name (RB_Meta c) <> name /\
    RBS_ReplicaIndex (RB_Spec c) = RBS_ReplicaIndex (RB_Spec trigger) /\ revision_label c <> "" /\
    w_rbs w !! (Namespace (GD_Meta gd), name) = Some new /\
    client_of ControlNamespace gd w (TargetCluster (RB_Spec new)) cs /\ w_members w !! cs = Some mc /\
    replica_ready gd mc (RBS_ReplicaIndex (RB_Spec new)) podName.
Proof.
  intros Hok Hb w'. destruct (relist_run gd owned w Hok) as (seen & Hlist & _).
  unfold handleRescheduleRolling in w'. subst w'. rewrite bind_run, Hlist.
  assert (Hstart : spared (fun _ => False) w (tick w)) by exact (spared_start _ w Hok).
  destruct (List.find is_trigger seen) as [trigger|] eqn:Hfind; [|left; by exists b].
  apply List.find_some in Hfind as [Hin Htrig]. apply list_elem_of_In in Hin.
  destruct (migrate_spares seen trigger w (tick w) Hstart)
    as [[_ Hs]|(name & rev & new & cs & mc & podName & Hnew & Hcs & Hmc & Hready & [_ Hs])].
  { left. by destruct (Hs k b Hb). }
  destruct (Hs k b Hb) as [(c & Hc & Hold & Hk)|]; [|by left]. right.
  unfold is_old_revision in Hold. destruct (_ || _) eqn:Hn; [done|].
  apply orb_false_iff in Hn as [Hn1 Hn2]. apply String.eqb_neq in Hn1, Hn2.
  destruct (Z.eqb_spec (RBS_ReplicaIndex (RB_Spec c)) (RBS_ReplicaIndex (RB_Spec trigger))) as [Hi|]; [|done].
  apply negb_true_iff, orb_false_iff in Hold as [Hl _]. rewrite client_of_tick in Hcs.
  exists seen, trigger, c, new, name, cs, mc, podName. split_and!; try done. by intros He; rewrite He in Hl.
Qed.
End rolling.

(** ** One revision for a request *)

Section creation.
Context {KUBE : KubeLib} {CACHE : ClientCache} (ControlNamespace : string) (gd : GlobalDeployment).

(** No binding is stored that was not there. *)
Definition no_new (w0 w : World) : Prop := forall k, w_rbs w0 !! k = None -> w_rbs w !! k = None.

(** A write to a stored binding. *)
Lemma no_new_insert w0 w k old b :
  no_new w0 w -> w_rbs w !! k = Some old -> no_new w0 (set_rbs <[k := b]> (tick w)).
Proof.
  intros H Hk k' Hn. cbn. rewrite lookup_insert_ne; [by apply H|]. intros <-. specialize (H _ Hn). congruence.
Qed.

Lemma no_new_delete w0 w k : no_new w0 w -> no_new w0 (set_rbs (delete k) (tick w)).
Proof. intros H k' Hn. cbn. apply lookup_delete_None. right. by apply H. Qed.

Lemma keeps_no_new_status w0 b : keeps (no_new w0) (patch_rb_status b).
Proof.
  apply hoare_request; [done|]. intros w Hw. cbn [fst snd].
  destruct (w_rbs (tick w) !! _) as [old|] eqn:Hb; [|done]. by eapply no_new_insert.
Qed.

Lemma keeps_no_new_patch w0 b : keeps (no_new w0) (patch_rb b).
Proof.
  apply hoare_request; [done|]. intros w Hw. cbn [fst snd].
  destruct (w_rbs (tick w) !! _) as [old|] eqn:Hb; [|done].
  destruct (DeletionTimestamp (RB_Meta b)), (Finalizers (RB_Meta b)); first [by apply no_new_delete | by eapply no_new_insert].
Qed.

Lemma keeps_no_new_delete w0 k : keeps (no_new w0) (delete_rb k).
Proof.
  apply hoare_request; [done|]. intros w Hw. cbn [fst snd].
  destruct (w_rbs (tick w) !! _) as [old|] eqn:Hb; [|done].
  destruct (Finalizers (RB_Meta old)); first [by apply no_new_delete | by eapply no_new_insert].
Qed.

Lemma keeps_no_new_complete w0 owned trigger name rev pod :
  keeps (no_new w0) (complete_migration owned trigger name rev pod).
Proof.
  assert (Hget : forall k, keeps (no_new w0) (attempt (get_object w_rbs k))) by (intros; by apply keeps_attempt, keeps_get_object).
  apply keeps_bind.
  { apply keeps_for_each. intros c _. unfold delete_chosen. destruct (is_old_revision _ _ _ _); [|apply keeps_ret].
    apply keeps_ignore, keeps_no_new_delete. }
  intros _. apply keeps_bind.
  { apply keeps_bind; [apply Hget|]. intros [latest|e]; [|apply keeps_ignore_not_found].
    apply keeps_bind; [apply keeps_now|]. intros. apply keeps_no_new_status. }
  intros _. apply keeps_bind; [|intros; apply keeps_ret]. destruct (Reschedule _); [|apply keeps_ret].
  apply keeps_ignore, keeps_bind; [apply Hget|]. intros [latest|e]; [|apply keeps_ret].
  destruct (Reschedule _); [apply keeps_no_new_patch|apply keeps_ret].
Qed.

(** A creation writes one free key, or nothing. *)
Lemma create_revision_run b d w :
  w_rbs (create_revision b d w).1 = w_rbs w \/
  (w_rbs w !! rb_key b = None /\
   exists st, w_rbs (create_revision b d w).1 = <[rb_key b := mkRB (RB_Meta b) (RB_Spec b) st]> (w_rbs w) /\
     (st = empty_rb_status \/ st = RB_Status (with_assigned b (w_clock w)))).
Proof.
  unfold create_revision. rewrite bind_run. cbn [now]. rewrite bind_run. unfold create_rb, request.
  destruct (fault _) as [e|]; [by left|]. change (Namespace (RB_Meta b), Name (RB_Meta b)) with (rb_key b).
  change (w_rbs (tick w)) with (w_rbs w). destruct (w_rbs w !! rb_key b) as [old|] eqn:Hb; [by left|].
  right. split; [done|]. rewrite bind_run. unfold update_rb_status, patch_rb_status, request.
  destruct (fault _) as [e|]; [eexists; split; [done|by left]|].
  change (Namespace (RB_Meta (with_assigned b (w_clock w))), Name (RB_Meta (with_assigned b (w_clock w)))) with (rb_key b).
  cbn. rewrite lookup_insert_eq. cbn. rewrite insert_insert_eq. eexists. split; [done|by right].
Qed.

(** The name of the binding a pass is about. *)
Definition pass_name (owned : list ReplicaBinding) (trigger : ReplicaBinding) : string :=
  let found := existing_revision owned trigger in
  if str_empty found
  then revision_name gd (RBS_ReplicaIndex (RB_Spec trigger)) (nextRevisionForReplicaIndex owned (RBS_ReplicaIndex (RB_Spec trigger)))
  else found.

(** A pass stores no new binding, or the revision under its free key. *)
Lemma migrate_creates owned trigger w :
  let nb := revision_binding gd trigger (pass_name owned trigger)
              (nextRevisionForReplicaIndex owned (RBS_ReplicaIndex (RB_Spec trigger))) in
  let w' := (migrate ControlNamespace gd owned trigger w).1 in
  no_new w w' \/
  (w_rbs w !! rb_key nb = None /\ exists st, w_rbs w' = <[rb_key nb := mkRB (RB_Meta nb) (RB_Spec nb) st]> (w_rbs w) /\
     (RB_Phase st = "" \/ RB_Phase st = ReplicaBindingPhaseAssigned)).
Proof.
  intros nb w'. subst w'. unfold migrate. fold (pass_name owned trigger). fold nb.
  rewrite bind_run. unfold attempt, get_object, request.
  assert (Hcreate : no_new w (create_revision nb (300 * Millisecond) (tick w)).1 \/
    (w_rbs w !! rb_key nb = None /\ exists st,
       w_rbs (create_revision nb (300 * Millisecond) (tick w)).1 = <[rb_key nb := mkRB (RB_Meta nb) (RB_Spec nb) st]> (w_rbs w) /\
       (RB_Phase st = "" \/ RB_Phase st = ReplicaBindingPhaseAssigned))).
  { destruct (create_revision_run nb (300 * Millisecond) (tick w)) as [He|(Hn & st & He & Hst)].
    - left. intros k Hk. by rewrite He.
    - right. split; [done|]. exists st. split; [done|]. by destruct Hst as [-> | ->]; [left|right]. }
  assert (Herr : forall e, let w1 := ((if negb (IsNotFound e) then throw e else create_revision nb (300 * Millisecond)) (tick w)).1 in
    no_new w w1 \/ (w_rbs w !! rb_key nb = None /\ exists st, w_rbs w1 = <[rb_key nb := mkRB (RB_Meta nb) (RB_Spec nb) st]> (w_rbs w) /\
       (RB_Phase st = "" \/ RB_Phase st = ReplicaBindingPhaseAssigned))).
  { intros e. destruct (negb _); [left; by intros k Hk|exact Hcreate]. }
  destruct (fault _) as [e|]; [apply Herr|]. cbn [fst snd]. change (w_rbs (tick w)) with (w_rbs w).
  destruct (w_rbs w !! (Namespace (GD_Meta gd), pass_name owned trigger)) as [new|]; [|apply (Herr NotFound)].
  left. cbn [require]. rewrite bind_run. pose proof (preserves_ready_gate ControlNamespace gd new (tick w)) as Hobj.
  destruct (ready_gate ControlNamespace gd new (tick w)) as [w3 [[d|podName]|e]]; cbn [fst] in Hobj |- *; injection Hobj as Hrbs _.
  - intros k Hk. cbn. by rewrite Hrbs.
  - apply keeps_no_new_complete. intros k Hk. by rewrite Hrbs.
  - intros k Hk. by rewrite Hrbs.
Qed.

(** A call whose listing succeeds stores at most one new binding, and leaves the
    others as they are when it does: a revision of a trigger, as its request is
    written in it, with the trigger's replica and destination, not flagged itself,
    controlled by the deployment, and without a phase or assigned. It does so only
    when no stored binding of the deployment is a revision for the same request
    yet, so a trigger gets one however often the handler is called. *)
Theorem rolling_creates_one_revision owned w k b :
  rbs_ok (w_rbs w) -> (forall c, stored gd w c -> Name (RB_Meta c) <> "") -> fault (w_requests w) = None ->
  let w' := (handleRescheduleRolling ControlNamespace gd owned w).1 in
  w_rbs w !! k = None -> w_rbs w' !! k = Some b ->
  w_rbs w' = <[k := b]> (w_rbs w) /\
  exists trigger, stored gd w trigger /\ is_trigger trigger = true /\ is_revision_of trigger b = true /\
    stored gd w' b /\ Reschedule (RB_Spec b) = false /\
    TargetCluster (RB_Spec b) = TargetCluster (RB_Spec trigger) /\
    TargetNodeName (RB_Spec b) = TargetNodeName (RB_Spec trigger) /\
    (RB_Phase (RB_Status b) = "" \/ RB_Phase (RB_Status b) = ReplicaBindingPhaseAssigned) /\
    forall c, stored gd w c -> is_revision_of trigger c = false.
Proof.
  intros Hok Hnames Hnf w' Hfree Hk. subst w'. destruct (relist_run gd owned w Hok) as (seen & Hlist & Hseen).
  rewrite Hnf in Hseen. revert Hk. unfold handleRescheduleRolling. rewrite bind_run, Hlist.
  destruct (List.find is_trigger seen) as [trigger|] eqn:Hfind; [|cbn; congruence].
  apply List.find_some in Hfind as [Hin Htrig]. apply list_elem_of_In, Hseen in Hin.
  destruct (migrate_creates seen trigger (tick w)) as [Hno|(Hn & st & He & Hst)]; [rewrite (Hno k Hfree); congruence|].
  set (nb := revision_binding _ _ _ _) in *. change (w_rbs (tick w)) with (w_rbs w) in Hn, He. rewrite He.
  destruct (decide (k = rb_key nb)) as [->|Hne]; [|rewrite lookup_insert_ne by done; congruence].
  rewrite lookup_insert_eq. intros [= <-]. split; [done|]. exists trigger.
  assert (Hname : Name (RB_Meta nb) <> Name (RB_Meta trigger)).
  { intros Hname. destruct Hin as (Hns & _ & Hst'). revert Hn. unfold rb_key in *. rewrite Hname.
    change (Namespace (RB_Meta nb)) with (Namespace (GD_Meta gd)). rewrite <- Hns. congruence. }
  split_and!; try done.
  - unfold is_revision_of. rewrite !andb_true_iff. split_and!; [| | |reflexivity].
    + apply Z.eqb_refl.
    + by apply negb_true_iff, String.eqb_neq.
    + apply String.eqb_refl.
  - split_and!; [done|unfold owned_by; cbn; by rewrite String.eqb_refl|]. rewrite He. apply lookup_insert_eq.
  - intros c Hc. revert Hn. unfold nb, rb_key. cbn. unfold pass_name, existing_revision.
    destruct (List.find (is_revision_of trigger) seen) as [cand|] eqn:Hf.
    + apply List.find_some in Hf as [Hcand _]. apply list_elem_of_In, Hseen in Hcand.
      assert (str_empty (Name (RB_Meta cand)) = false) as -> by (specialize (Hnames cand Hcand); by destruct (Name (RB_Meta cand))).
      destruct Hcand as (Hns & _ & Hs). unfold rb_key in Hs. rewrite <- Hns. congruence.
    + intros _. apply (List.find_none _ _ Hf). by apply list_elem_of_In, Hseen.
Qed.
End creation.

(** ** A migration that completes *)

Section completion.
Context {KUBE : KubeLib}.
Hypothesis no_faults : forall k, fault k = None.

(** Gone, or being deleted. *)
Definition ending (k : Key) (w : World) : Prop :=
  forall b, w_rbs w !! k = Some b -> DeletionTimestamp (RB_Meta b) <> None.

Lemma delete_rb_run k w :
  ending k (delete_rb k w).1 /\ (forall k', ending k' w -> ending k' (delete_rb k w).1) /\
  (forall k', k' <> k -> w_rbs (delete_rb k w).1 !! k' = w_rbs w !! k') /\ w_clock (delete_rb k w).1 = w_clock w.
Proof.
  unfold delete_rb. rewrite request_run by done. change (w_rbs (tick w)) with (w_rbs w).
  assert (Hend : forall w1 : World, ending k w1 -> (forall k', k' <> k -> w_rbs w1 !! k' = w_rbs w !! k') ->
    forall k', ending k' w -> ending k' w1).
  { intros w1 H1 H2 k' H. destruct (decide (k' = k)) as [->|Hne]; [done|]. intros b. rewrite H2 by done. apply H. }
  destruct (w_rbs w !! k) as [b|] eqn:Hb.
  - destruct (Finalizers _); cbn [fst].
    + assert (H1 : ending k (set_rbs (delete k) (tick w))) by (intros b'; cbn; by rewrite lookup_delete_eq).
      assert (H2 : forall k', k' <> k -> w_rbs (set_rbs (delete k) (tick w)) !! k' = w_rbs w !! k') by (intros; by apply lookup_delete_ne).
      split_and!; [done|by apply Hend|done|done].
    + set (b1 := mark_rb_deleting _ b). assert (H1 : ending k (set_rbs <[k := b1]> (tick w))).
      { intros b'. cbn. rewrite lookup_insert_eq. intros [= <-]. cbn. by destruct (DeletionTimestamp _). }
      assert (H2 : forall k', k' <> k -> w_rbs (set_rbs <[k := b1]> (tick w)) !! k' = w_rbs w !! k') by (intros; by apply lookup_insert_ne).
      split_and!; [done|by apply Hend|done|done].
  - split_and!; [|done|done|done]. intros b. cbn. congruence.
Qed.

Lemma deletes_run chosen l w :
  exists w', for_each (delete_chosen chosen) l w = (w', Ok tt) /\ w_clock w' = w_clock w /\
    (forall k, ending k w -> ending k w') /\
    (forall c, c ∈ l -> chosen c = true -> ending (rb_key c) w') /\
    (forall k, (forall c, c ∈ l -> chosen c = true -> rb_key c <> k) -> w_rbs w' !! k = w_rbs w !! k).
Proof.
  revert w. induction l as [|c l IH]; intros w.
  { exists w. split_and!; [done|done|done| |done]. intros c Hc. by apply not_elem_of_nil in Hc. }
  cbn [for_each]. rewrite bind_run. unfold delete_chosen at 1. destruct (chosen c) eqn:Hch.
  - cbn. destruct (delete_rb_run (rb_key c) w) as (H1 & H2 & H3 & H4).
    destruct (IH (delete_rb (rb_key c) w).1) as (w' & Hrun & Hclock & Hend & Hall & Hother). exists w'. split_and!.
    + exact Hrun.
    + congruence.
    + intros k Hk. by apply Hend, H2.
    + intros c' [->|Hc']%elem_of_cons Ht; [by apply Hend|by apply Hall].
    + intros k Hk. rewrite Hother.
      * apply H3. intros ->. apply (Hk c); [apply list_elem_of_here|done|done].
      * intros c' Hc'. apply Hk. by apply list_elem_of_further.
  - cbn. destruct (IH w) as (w' & Hrun & Hclock & Hend & Hall & Hother). exists w'. split_and!; [done|done|done| |].
    + intros c' [->|Hc']%elem_of_cons Ht; [congruence|by apply Hall].
    + intros k Hk. apply Hother. intros c' Hc'. apply Hk. by apply list_elem_of_further.
Qed.

(** The acknowledgement, and the flag. *)
Lemma mark_run trigger podName w :
  w_rbs w !! rb_key trigger = Some trigger ->
  markRescheduleStatusSucceeded trigger podName w =
    (set_rbs <[rb_key trigger := marked_rescheduled trigger (w_clock w) podName]> (tick (tick w)), Ok tt).
Proof.
  intros Hb. unfold markRescheduleStatusSucceeded. rewrite bind_run. rewrite attempt_run, get_object_run by done. cbn [fst snd].
  change (w_rbs (tick w)) with (w_rbs w). rewrite Hb. cbn [require]. rewrite bind_run. cbn [now].
  unfold patch_rb_status. rewrite request_run by done.
  change (w_rbs (tick (tick w)) !! _) with (w_rbs w !! rb_key trigger). rewrite Hb. done.
Qed.

Lemma reset_flag_run trigger latest w :
  w_rbs w !! rb_key trigger = Some latest -> rb_key latest = rb_key trigger -> Reschedule (RB_Spec latest) = true ->
  DeletionTimestamp (RB_Meta latest) = None ->
  reset_flag trigger w = (set_rbs <[rb_key trigger := without_flag latest]> (tick (tick w)), Ok tt).
Proof.
  intros Hb Hk Hf Hd. unfold reset_flag. rewrite bind_run. rewrite attempt_run, get_object_run by done. cbn [fst snd].
  change (w_rbs (tick w)) with (w_rbs w). rewrite Hb. cbn [require]. rewrite Hf.
  unfold patch_rb. rewrite request_run by done.
  change (Namespace (RB_Meta (without_flag latest)), Name (RB_Meta (without_flag latest))) with (rb_key latest).
  rewrite Hk. change (w_rbs (tick (tick w))) with (w_rbs w). rewrite Hb, match_kept by (left; exact Hd). done.
Qed.

(** Once the gate has opened and no request fails, a call goes to its end: every
    old revision of the replica is gone or being deleted, the trigger keeps its
    place with the request acknowledged, the pod that was seen, and its flag off,
    so that it is no trigger any more; no other binding changes. *)
Theorem complete_migration_effect owned trigger name rev podName w :
  w_rbs w !! rb_key trigger = Some trigger -> is_trigger trigger = true ->
  DeletionTimestamp (RB_Meta trigger) = None ->
  exists w' b, complete_migration owned trigger name rev podName w = (w', Ok (mkResult (300 * Millisecond), true)) /\
    w_rbs w' !! rb_key trigger = Some b /\
    b = without_flag (marked_rescheduled trigger (w_clock w) podName) /\ is_trigger b = false /\
    (forall c, c ∈ owned -> is_old_revision trigger name rev c = true -> ending (rb_key c) w') /\
    (forall k, k <> rb_key trigger -> (forall c, c ∈ owned -> is_old_revision trigger name rev c = true -> rb_key c <> k) ->
       w_rbs w' !! k = w_rbs w !! k).
Proof.
  intros Hst Htrig Hlive.
  assert (Hflag : Reschedule (RB_Spec trigger) = true).
  { unfold is_trigger in Htrig. destruct (str_empty _); [done|]. by destruct (Reschedule _). }
  destruct (deletes_run (is_old_revision trigger name rev) owned w) as (w1 & Hrun & Hclock & _ & Hall & Hother).
  assert (Hw1 : w_rbs w1 !! rb_key trigger = Some trigger).
  { rewrite Hother; [done|]. intros c _ Hold Hk. injection Hk as _ Hname. unfold is_old_revision in Hold.
    by rewrite Hname, String.eqb_refl in Hold. }
  set (marked := marked_rescheduled trigger (w_clock w) podName).
  unfold complete_migration. rewrite bind_run, Hrun, bind_run, mark_run, Hclock by done. fold marked. rewrite Hflag, bind_run.
  set (w2 := set_rbs _ _). assert (Hw2 : w_rbs w2 !! rb_key trigger = Some marked) by apply lookup_insert_eq.
  unfold ignore. rewrite (reset_flag_run trigger marked w2 Hw2) by done.
  eexists. exists (without_flag marked). split_and!; [done|apply lookup_insert_eq|done| | |].
  - unfold is_trigger. cbn. by destruct (str_empty _).
  - intros c Hc Hold b. cbn. rewrite !lookup_insert_ne; [by apply Hall| |].
    all: intros Hk; injection Hk as _ Hname; unfold is_old_revision in Hold; by rewrite <- Hname, String.eqb_refl in Hold.
  - intros k Hne Hk. cbn. rewrite !lookup_insert_ne by done. by apply Hother.
Qed.
End completion.

(** ** The predecessor *)

Section predecessor.
Context {KUBE : KubeLib} (gd : GlobalDeployment).

Lemma keeps_spared_advance P w0 rev : keeps (spared P w0) (advance_revision gd rev).
Proof.
  apply spared_keeps. unfold advance_revision. apply preserves_bind; [by apply preserves_attempt, preserves_get_object|].
  intros [gd2|e]; [|apply preserves_ret]. by apply preserves_patch_gd_status.
Qed.

(** The predecessor deletes, whatever requests fail, only bindings of the trigger's
    replica that are named like its revisions, and only once the phase of the new
    binding is Running; it looks at no member cluster. *)
Theorem mvp_deletes_after_running owned w k b :
  rbs_ok (w_rbs w) -> w_rbs w !! k = Some b ->
  let w' := (handleRescheduleMVP gd owned w).1 in
  (exists b', w_rbs w' !! k = Some b' /\ DeletionTimestamp (RB_Meta b') = DeletionTimestamp (RB_Meta b)) \/
  exists trigger c new, mvp_trigger trigger = true /\ trigger ∈ owned /\ c ∈ owned /\ rb_key c = k /\
    RBS_ReplicaIndex (RB_Spec c) = RBS_ReplicaIndex (RB_Spec trigger) /\
    has_prefix (Name (RB_Meta c)) (revision_name gd (RBS_ReplicaIndex (RB_Spec trigger)) "") = true /\
    w_rbs w !! (Namespace (GD_Meta gd),
      revision_name gd (RBS_ReplicaIndex (RB_Spec trigger)) (bumpRevision (ObservedRevision (GD_Status gd)))) = Some new /\
    RB_Phase (RB_Status new) = ReplicaBindingPhaseRunning.
Proof.
  intros Hok Hb w'. subst w'. unfold handleRescheduleMVP.
  destruct (List.find mvp_trigger owned) as [trigger|] eqn:Hfind; [|left; by exists b].
  apply List.find_some in Hfind as [Hin Htrig]. apply list_elem_of_In in Hin.
  set (rev := bumpRevision _). set (name := revision_name gd _ rev).
  assert (Hstart : forall P, spared P w (tick w)) by (intros P; exact (spared_start P w Hok)).
  assert (Hnone : forall w1, spared (fun _ => False) w w1 ->
    exists b', w_rbs w1 !! k = Some b' /\ DeletionTimestamp (RB_Meta b') = DeletionTimestamp (RB_Meta b)).
  { intros w1 [_ Hs]. by destruct (Hs k b Hb). }
  set (create := create_revision _ _).
  assert (Herr : forall e, spared (fun _ => False) w ((if negb (IsNotFound e) then throw e else create) (tick w)).1).
  { intros e. destruct (negb _); [apply Hstart|]. by apply keeps_spared_create_revision. }
  rewrite bind_run. unfold attempt, get_object, request. destruct (fault _) as [e|]; [left; apply Hnone, Herr|].
  cbn [fst snd]. change (w_rbs (tick w)) with (w_rbs w).
  destruct (w_rbs w !! (Namespace (GD_Meta gd), name)) as [new|] eqn:Hnew; [|left; apply Hnone, (Herr NotFound)].
  cbn [require]. destruct (String.eqb_spec (RB_Phase (RB_Status new)) ReplicaBindingPhaseRunning) as [Hphase|]; cbn [negb];
    [|left; by apply Hnone].
  set (P := fun k => exists c, c ∈ owned /\ mvp_old gd trigger name c = true /\ rb_key c = k).
  match goal with |- context [?m (tick w)] => assert (Hall : spared P w (m (tick w)).1) end.
  { eapply keeps_bind; [|intros ?; eapply keeps_bind; [|intros ?; eapply keeps_bind; [|intros ?; apply keeps_ret]]|apply Hstart].
    - apply keeps_spared_deletes. intros c Hc Hold. by exists c.
    - apply keeps_spared_reset_flag.
    - apply keeps_spared_advance. }
  destruct (proj2 Hall k b Hb) as [(c & Hc & Hold & Hk)|]; [|by left]. right. unfold mvp_old in Hold.
  destruct (_ || _); [done|].
  destruct (Z.eqb_spec (RBS_ReplicaIndex (RB_Spec c)) (RBS_ReplicaIndex (RB_Spec trigger))); [|done].
  by exists trigger, c, new.
Qed.
End predecessor.

(** ** Concrete runs *)

#[local] Existing Instance reliable_kube.
#[local] Existing Instance binding_clients.

(** A replica that is to move to [c1]: its binding is flagged, an old revision is
    stored, and so is the new one, whose replica is ready or not. *)
Definition demo_binding (name : string) (labels : gmap string string) (flag : bool) (request : string) : ReplicaBinding :=
  mkRB (mkMeta name "default" "u" 1 labels ∅ [] None [mkOwner "GlobalDeployment" "web" "u2" (Some true)])
    (mkRBSpec (mkRef "web" "default") 0 "c1" "n1" flag request) empty_rb_status.
Definition demo_trigger : ReplicaBinding := demo_binding "web-rb-0" ∅ true "req".
Definition demo_old : ReplicaBinding := demo_binding "web-rb-0-v1" {[revisionLabelKey := "v1"]} false "".
Definition demo_new : ReplicaBinding := demo_binding "web-rb-0-v2" {[revisionLabelKey := "v2"]} false "req".
Definition demo_member (available : Z) : MemberCluster :=
  mkMember {["default"]}
    {[("default", "web-r0") := mkDeployment "web-r0" "default" ∅ [] false
        (mkDepSpec None (Some {["app" := "web"]}) ∅ [] [] None "") (mkDepStatus available 1 1 [])]}
    {[("default", "web-r0-x") := mkPod "web-r0-x" {["app" := "web"]} "Running" "n1" [] [] [] [true]]} ∅.
Definition moving_world (bindings : list ReplicaBinding) (available : Z) : World :=
  mkWorld ∅ (list_to_map ((fun b => (rb_key b, b)) <$> bindings)) ∅ ∅ ∅ {["ep" := demo_member available]} {["c1" := "ep"]}
    ∅ 7 0 empty_policy_state ∅.

Lemma moving_ok bindings available :
  Forall (fun b => DeletionTimestamp (RB_Meta b) = None) bindings -> rbs_ok (w_rbs (moving_world bindings available)).
Proof.
  intros Hall k b Hb. apply elem_of_list_to_map_2, list_elem_of_fmap in Hb as (b' & [= -> ->] & Hin).
  split; [done|left]. by apply (proj1 (Forall_forall _ _) Hall).
Qed.

(** Ready, the old revision goes; not ready, it stays, and the flag with it. *)
Definition after_call (bindings : list ReplicaBinding) (available : Z) : World :=
  (handleRescheduleRolling "" (demo_gd None "v1") [] (moving_world bindings available)).1.

Example ready_migration :
  w_rbs (after_call [demo_trigger; demo_old; demo_new] 1) !! rb_key demo_old = None /\
  (is_trigger <$> w_rbs (after_call [demo_trigger; demo_old; demo_new] 1) !! rb_key demo_trigger) = Some false.
Proof. split; by_eval. Qed.
Example unready_migration :
  w_rbs (after_call [demo_trigger; demo_old; demo_new] 0) !! rb_key demo_old = Some demo_old /\
  w_rbs (after_call [demo_trigger; demo_old; demo_new] 0) !! rb_key demo_trigger = Some demo_trigger.
Proof. split; by_eval. Qed.

Lemma rolling_makes_before_breaks_witness :
  w_rbs (after_call [demo_trigger; demo_old; demo_new] 1) !! rb_key demo_old = None /\
  exists new mc podName, w_members (moving_world [demo_trigger; demo_old; demo_new] 1) !! "ep" = Some mc /\
    replica_ready (demo_gd None "v1") mc (RBS_ReplicaIndex (RB_Spec new)) podName.
Proof.
  assert (Hgone : w_rbs (after_call [demo_trigger; demo_old; demo_new] 1) !! rb_key demo_old = None) by by_eval.
  split; [exact Hgone|].
  destruct (rolling_makes_before_breaks "" (demo_gd None "v1") [] (moving_world [demo_trigger; demo_old; demo_new] 1)
    (rb_key demo_old) demo_old) as [(b & Hb & _)|(seen & trigger & c & new & name & cs & mc & podName & H)].
  - apply moving_ok. repeat constructor.
  - by_eval.
  - exfalso. change (w_rbs (after_call [demo_trigger; demo_old; demo_new] 1) !! rb_key demo_old = Some b) in Hb. congruence.
  - destruct H as (_ & _ & _ & _ & _ & _ & _ & _ & _ & Hnew & [Hcs|Hcs] & Hmc & Hready).
    + exists new, mc, podName. split; [|exact Hready]. rewrite <- Hmc. f_equal.
      change (({["c1" := "ep"]} : gmap string string) !! TargetCluster (RB_Spec new) = Some cs) in Hcs.
      by apply lookup_singleton_Some in Hcs as [_ Hcs].
    + exfalso. revert Hcs. unfold MemberClientCache.configured, moving_world. cbn. rewrite lookup_empty. discriminate.
Defined.

(** Without a revision yet, a call creates one, assigned to the destination. *)
Definition created : ReplicaBinding :=
  default demo_new (w_rbs (after_call [demo_trigger; demo_old] 0) !! rb_key demo_new).

Lemma rolling_creates_one_revision_witness :
  w_rbs (after_call [demo_trigger; demo_old] 0) =
    <[rb_key demo_new := created]> (w_rbs (moving_world [demo_trigger; demo_old] 0)) /\
  RB_Phase (RB_Status created) = ReplicaBindingPhaseAssigned.
Proof.
  split; [|by_eval].
  refine (proj1 (rolling_creates_one_revision "" (demo_gd None "v1") [] (moving_world [demo_trigger; demo_old] 0)
    (rb_key demo_new) created _ _ _ _ _)).
  - apply moving_ok. repeat constructor.
  - intros c (_ & _ & Hc). apply elem_of_list_to_map_2, list_elem_of_fmap in Hc as (c' & Heq & Hin).
    apply (f_equal snd) in Heq. cbn in Heq. subst c'.
    apply elem_of_cons in Hin as [->|Hin%list_elem_of_singleton]; [|subst]; discriminate.
  - reflexivity.
  - by_eval.
  - by_eval.
Defined.

(** Nor does a second call create another. *)
Example no_second_revision :
  let w1 := after_call [demo_trigger; demo_old] 0 in
  size (w_rbs w1) = 3%nat /\ size (w_rbs (handleRescheduleRolling "" (demo_gd None "v1") [] w1).1) = 3%nat.
Proof. split; by_eval. Qed.
