(* ===== verification/ServerBase.v ===== *)
(** * What the handlers of the REST server share (server/internal/api)

    Requests and responses, paging, label selectors, and the format of times. A
    handler gets its request decoded, or the text of the decoding error
    (gin's ShouldBindJSON and ShouldBindQuery; the check of the fields that are
    [binding:"required"] is [bind]), and gives a response. *)

From Stdlib Require Import Sorted.
From S2P Require Import Prelude GoTime GoText ApiTypes KubeApi.

Local Open Scope string_scope.
Local Open Scope list_scope.

(** ** Requests and responses *)

(** [c.JSON(code, body)]; [c.JSON(code, gin.H{"error": ...})]; and the empty
    response 500 the recovery middleware gives when a handler panics. *)
Inductive Response (A : Type) : Type :=
| Reply (code : Z) (body : A)
| Failure (code : Z) (error : string)
| Recovered.
Arguments Reply {A} code body.
Arguments Failure {A} code error.
Arguments Recovered {A}.

Definition StatusOK : Z := 200.
Definition StatusBadRequest : Z := 400.
Definition StatusNotFound : Z := 404.
Definition StatusConflict : Z := 409.
Definition StatusInternalServerError : Z := 500.

(** A kubeconfig as [clientcmd.Load] reads it: the current context, the cluster of
    each context and the server of each cluster; [None] for a nil entry. *)
Record KubeConfig := mkKubeConfig {
  CurrentContext : string;
  Contexts : gmap string (option string);
  KC_Clusters : gmap string (option string)
}.

(** A Deployment as [yaml.Unmarshal] reads it: what the server looks at, and its
    spec encoded as JSON ([None] on an error). *)
Record YamlDeployment := mkYamlDeployment {
  Y_Kind : string;
  Y_Name : string;
  Y_Namespace : string;
  Y_Replicas : option Z;
  Y_Containers : nat;
  Y_SpecJSON : option string
}.

(** Libraries the server calls: the text of a validation error for the missing
    fields; lower case (the tables of Unicode; on ASCII it is [lower_all]);
    random UUIDs, by event number; kubeconfig, JSON and YAML readers (a JSON value
    stands for itself, [None] for null and on an error); when the API server
    created the object of a UID; and the seconds the local time is ahead of UTC. *)
Class ServerLib := {
  validation_text : list string -> string;
  ToLower : string -> string;
  uuid_NewString : nat -> string;
  kubeconfig_Load : string -> result api_error KubeConfig;
  json_Value : string -> option string;
  yaml_Deployment : string -> option YamlDeployment;
  creation_time : string -> Time;
  local_offset : Z -> Z
}.

(** [metav1.ObjectMeta.CreationTimestamp]. *)
Definition CreationTimestamp {LIB : ServerLib} (m : ObjectMeta) : Time := creation_time (UID m).

Section binding.
Context {LIB : ServerLib}.

(** The required fields of a request that are missing. *)
Definition bind {A} (missing : A -> list string) (decoded : result string A) : result string A :=
  match decoded with
  | Err text => Err text
  | Ok req => match missing req with [] => Ok req | fields => Err (validation_text fields) end
  end.
Definition required (fields : list (string * string)) : list string :=
  omap (fun f => if str_empty f.2 then Some f.1 else None) fields.

(** A handler whose request does not bind answers with the error. *)
Definition bound {A B} (missing : A -> list string) (decoded : result string A)
    (handler : A -> M (Response B)) : M (Response B) :=
  match bind missing decoded with
  | Err text => mret (Failure StatusBadRequest text)
  | Ok req => handler req
  end.
End binding.

(** [ns := strings.TrimSpace(req.Namespace); if ns == "" { ns = configured }]. *)
Definition namespace_or (requested configured : string) : string :=
  let ns := TrimSpace requested in if str_empty ns then configured else ns.

(** ** Pages *)

Definition page_number (page : Z) : Z := if (page <=? 0)%Z then 1%Z else page.
Definition page_size (pageSize : Z) : Z :=
  let pageSize := if (pageSize <=? 0)%Z then 10%Z else pageSize in
  if (pageSize >? 100)%Z then 100%Z else pageSize.

(** [items[start:end]]; [None] when the indices are out of range. *)
Definition slice {A} (items : list A) (start stop : Z) : option (list A) :=
  if (0 <=? start)%Z && (start <=? stop)%Z && (stop <=? Z.of_nat (length items))%Z
  then Some (take (Z.to_nat (stop - start)) (drop (Z.to_nat start) items))
  else None.

Definition page_end (start pageSize total : Z) : Z :=
  let stop := wrap64 (start + pageSize) in if (stop >? total)%Z then total else stop.

(** The items of a page: the int product may wrap around. *)
Definition page_items {A} (items : list A) (page pageSize : Z) : option (list A) :=
  let total := Z.of_nat (length items) in
  let start := wrap64 (wrap64 (page - 1) * pageSize) in
  if (start >=? total)%Z then Some [] else slice items start (page_end start pageSize total).

(** The same where the start is cut at the end of the items. *)
Definition page_items_cut {A} (items : list A) (page pageSize : Z) : option (list A) :=
  let total := Z.of_nat (length items) in
  let start := wrap64 (wrap64 (page - 1) * pageSize) in
  let start := if (start >? total)%Z then total else start in
  slice items start (page_end start pageSize total).

(** A list that answers with a page. *)
Definition reply_page {A B} (page : option (list A)) (body : list A -> B) : Response B :=
  match page with Some items => Reply StatusOK (body items) | None => Recovered end.

(** Newest first: [items[i].CreationTimestamp.After(items[j].CreationTimestamp.Time)];
    no timestamp is the zero time, before every other. *)
Definition zero_time : Z := (-62135596800 * Second)%Z.
Definition instant (t : Time) : Z := default zero_time t.
Definition newer {A} (created : A -> Time) (x y : A) : bool := (instant (created x) >? instant (created y))%Z.

(** ** Label selectors *)

(** [strings.Split(s, ",")]: the text up to the first separator, and the rest. *)
Fixpoint split_on (c : Ascii.ascii) (s : string) : list string :=
  match s with
  | EmptyString => [""]
  | String a s' =>
      if Ascii.eqb a c then "" :: split_on c s'
      else match split_on c s' with
           | part :: parts => String a part :: parts
           | [] => [String a ""]
           end
  end.

(** [strings.SplitN(p, "=", 2)] when it gives two parts. *)
Fixpoint cut_at (c : Ascii.ascii) (s : string) : option (string * string) :=
  match s with
  | EmptyString => None
  | String a s' =>
      if Ascii.eqb a c then Some ("", s')
      else match cut_at c s' with Some (k, v) => Some (String a k, v) | None => None end
  end.

(** One part of a selector. *)
Definition selector_entry (p : string) : option (string * string) :=
  match cut_at "=" (TrimSpace p) with
  | None => None
  | Some (k, v) => if str_empty (TrimSpace k) then None else Some (TrimSpace k, TrimSpace v)
  end.

(** [func parseLabelSelector(s string) map[string]string]. *)
Definition parseLabelSelector (s : string) : gmap string string :=
  let s := TrimSpace s in
  if str_empty s then ∅
  else foldl (fun res p => match selector_entry p with Some (k, v) => <[k := v]> res | None => res end) ∅ (split_on "," s).

(** [func matchLabels(labels, selector map[string]string) bool]; no labels are nil
    labels. *)
Definition matchLabels (labels selector : gmap string string) : bool :=
  if bool_decide (selector = ∅) then true
  else if bool_decide (labels = ∅) then false
  else forallb (fun e => String.eqb (default "" (labels !! e.1)) e.2) (map_to_list selector).

(** ** Times *)

(** Year, month and day of the days since 1970-01-01 (proleptic Gregorian). *)
Definition civil_of_days (days : Z) : Z * Z * Z :=
  (let z := days + 719468 in
   let era := z / 146097 in
   let doe := z mod 146097 in
   let yoe := (doe - doe / 1460 + doe / 36524 - doe / 146096) / 365 in
   let doy := doe - (365 * yoe + yoe / 4 - yoe / 100) in
   let mp := (5 * doy + 2) / 153 in
   let d := doy - (153 * mp + 2) / 5 + 1 in
   let m := if mp <? 10 then mp + 3 else mp - 9 in
   (yoe + era * 400 + (if m <=? 2 then 1 else 0), m, d))%Z.

(** [appendInt(b, x, width)] of package time. *)
Definition padded (width : nat) (x : Z) : string :=
  let digits := pretty (Z.abs x) in
  (if (x <? 0)%Z then "-" else "") +:+ of_bytes (replicate (width - String.length digits) 48%nat) +:+ digits.

(** [t.Format(time.RFC3339)] in a zone [offset] seconds ahead of UTC. *)
Definition format_zone (offset : Z) : string :=
  if (offset =? 0)%Z then "Z"
  else
    let minutes := (Z.abs (Z.quot offset 60))%Z in
    (if (Z.quot offset 60 <? 0)%Z then "-" else "+") +:+ padded 2 (minutes / 60) +:+ ":" +:+ padded 2 (minutes mod 60).
Definition RFC3339 (offset : Z) (t : Z) : string :=
  let seconds := (t / Second + offset)%Z in
  let '(y, m, d) := civil_of_days (seconds / 86400) in
  let s := (seconds mod 86400)%Z in
  padded 4 y +:+ "-" +:+ padded 2 m +:+ "-" +:+ padded 2 d +:+ "T" +:+ padded 2 (s / 3600) +:+ ":" +:+
  padded 2 ((s mod 3600) / 60) +:+ ":" +:+ padded 2 (s mod 60) +:+ format_zone offset.

(** [t.UTC().Format(time.RFC3339)], and empty for the zero time. *)
Definition format_utc (t : Time) : string := RFC3339 0 (instant t).
Definition format_utc_or_empty (t : Time) : string := match t with None => "" | Some _ => format_utc t end.

Example RFC3339_epoch : RFC3339 0 0 = "1970-01-01T00:00:00Z".
Proof. by_eval. Qed.
Example RFC3339_zero : format_utc None = "0001-01-01T00:00:00Z".
Proof. by_eval. Qed.
Example RFC3339_leap : RFC3339 5400 (1709251199 * Second) = "2024-03-01T01:29:59+01:30".
Proof. by_eval. Qed.
Example RFC3339_west : RFC3339 (-3600) 0 = "1969-12-31T23:00:00-01:00".
Proof. by_eval. Qed.
Example parse_selector :
  parseLabelSelector " a=1, b = x=y ,,c, =d,a=2" = <["b" := "x=y"]> {["a" := "2"]}.
Proof. by_eval. Qed.

(** Libraries for concrete runs: a kubeconfig names its server, and a YAML text is the
    Deployment of that name. *)
Definition demo_lib : ServerLib := {|
  validation_text := fun _ => "missing"; ToLower := lower_all; uuid_NewString := fun n => "id-" +:+ pretty n;
  kubeconfig_Load := fun s => Ok (mkKubeConfig "ctx" {["ctx" := Some "c"]} {["c" := Some s]}); json_Value := fun s => Some s;
  yaml_Deployment := fun y => Some (mkYamlDeployment "Deployment" y "" (Some 3%Z) 1 (Some "{spec}"));
  creation_time := fun _ => None; local_offset := fun _ => 0%Z |}.

(** ** Pages cut the list *)

Lemma page_size_range pageSize : (1 <= page_size pageSize <= 100)%Z.
Proof.
  unfold page_size. destruct (Z.leb_spec pageSize 0); [by cbn|].
  destruct (Z.gtb_spec pageSize 100); lia.
Qed.
Lemma page_number_pos page : (1 <= page_number page)%Z.
Proof. unfold page_number. destruct (Z.leb_spec page 0); lia. Qed.

Lemma slice_take {A} (items : list A) (i n : nat) :
  i <= length items ->
  slice items (Z.of_nat i) (Z.of_nat (Nat.min (i + n) (length items))) = Some (take n (drop i items)).
Proof.
  intros Hi. unfold slice. destruct (Z.leb_spec 0 (Z.of_nat i)); [|lia].
  destruct (Z.leb_spec (Z.of_nat i) (Z.of_nat (Nat.min (i + n) (length items)))); [|lia].
  destruct (Z.leb_spec (Z.of_nat (Nat.min (i + n) (length items))) (Z.of_nat (length items))); [|lia].
  cbn [andb]. f_equal. rewrite Nat2Z.id.
  replace (Z.to_nat (Z.of_nat (Nat.min (i + n) (length items)) - Z.of_nat i)) with (Nat.min n (length items - i)) by lia.
  destruct (Nat.le_gt_cases n (length items - i)).
  - by rewrite Nat.min_l.
  - rewrite Nat.min_r by lia. rewrite !take_ge; [done|rewrite length_drop; lia..].
Qed.

Lemma page_end_min (i n total : nat) :
  (Z.of_nat total + 100 < 2 ^ 63)%Z -> n <= 100 -> i <= total ->
  page_end (Z.of_nat i) (Z.of_nat n) (Z.of_nat total) = Z.of_nat (Nat.min (i + n) total).
Proof.
  intros Ht Hn Hi. unfold page_end. rewrite wrap64_id by (unfold int64_range; lia).
  destruct (Z.gtb_spec (Z.of_nat i + Z.of_nat n) (Z.of_nat total)); lia.
Qed.

(** Without overflow a page is the next items behind the pages in front of it. *)
Lemma page_items_run {A} (items : list A) page pageSize :
  (Z.of_nat (length items) + 100 < 2 ^ 63)%Z -> (1 <= page < 2 ^ 63)%Z -> (1 <= pageSize <= 100)%Z ->
  ((page - 1) * pageSize < 2 ^ 63)%Z ->
  let cut := take (Z.to_nat pageSize) (drop (Z.to_nat ((page - 1) * pageSize)) items) in
  page_items items page pageSize = Some cut /\ page_items_cut items page pageSize = Some cut.
Proof.
  intros Hlen Hp Hs Ho. unfold page_items, page_items_cut.
  rewrite !(wrap64_id (page - 1)) by (unfold int64_range; lia).
  rewrite !(wrap64_id ((page - 1) * pageSize)) by (unfold int64_range; nia).
  set (start := ((page - 1) * pageSize)%Z) in *. assert (0 <= start)%Z by (unfold start; nia).
  replace pageSize with (Z.of_nat (Z.to_nat pageSize)) by lia. rewrite Nat2Z.id.
  set (n := Z.to_nat pageSize). assert (n <= 100) by lia.
  replace start with (Z.of_nat (Z.to_nat start)) by lia. rewrite Nat2Z.id. set (i := Z.to_nat start).
  split.
  - destruct (Z.geb_spec (Z.of_nat i) (Z.of_nat (length items))).
    + by rewrite drop_ge, take_nil by lia.
    + rewrite page_end_min by lia. apply slice_take. lia.
  - destruct (Z.gtb_spec (Z.of_nat i) (Z.of_nat (length items))).
    + rewrite page_end_min by lia. rewrite slice_take by lia. rewrite !drop_ge by lia. by rewrite !take_nil.
    + rewrite page_end_min by lia. apply slice_take. lia.
Qed.

(** The pages one after the other are the list. *)
Lemma concat_cuts {A} (items : list A) (n k : nat) :
  concat ((fun p => take n (drop (p * n) items)) <$> seq 0 k) = take (k * n) items.
Proof.
  induction k as [|k IH]; [done|]. rewrite seq_S, fmap_app, concat_app, IH. cbn. rewrite app_nil_r.
  rewrite take_take_drop. f_equal. lia.
Qed.

(** The numbers of the first [k] pages. *)
Definition page_numbers (k : nat) : list Z := (fun p => Z.of_nat p + 1)%Z <$> seq 0 k.

Lemma mapM_Some_fmap {A B} (f : A -> option B) (g : A -> B) l :
  (forall x, x ∈ l -> f x = Some (g x)) -> mapM f l = Some (g <$> l).
Proof.
  intros H. apply mapM_Some. induction l as [|x l IH]; cbn; constructor.
  - apply H. apply list_elem_of_here.
  - apply IH. intros y Hy. apply H. by apply list_elem_of_further.
Qed.

(** C35: Paging cuts the list, whatever page size is asked for: one to a hundred items
    a page, no item twice and none left out, and both ways of cutting agree, as
    long as the int product of the page and the page size does not overflow. From
    a page size of two on there is a page for which it does, and the handler
    panics on it, whatever it lists. *)
Theorem pages_partition {A} (items : list A) pageSize (k : nat) :
  let n := page_size pageSize in
  (Z.of_nat (length items) + 100 < 2 ^ 63)%Z ->
  (Z.of_nat k * n < 2 ^ 63)%Z -> (Z.of_nat (length items) <= Z.of_nat k * n)%Z ->
  (exists pages, mapM (fun p => page_items items (page_number p) n) (page_numbers k) = Some pages /\
     mapM (fun p => page_items_cut items (page_number p) n) (page_numbers k) = Some pages /\
     concat pages = items /\ Forall (fun page => Z.of_nat (length page) <= 100)%Z pages) /\
  ((1 < n)%Z -> exists page, (1 <= page < 2 ^ 63)%Z /\ page_items items page n = None /\ page_items_cut items page n = None).
Proof.
  intros n Hlen Hover Hall. assert (Hn := page_size_range pageSize). fold n in Hn. split.
  - set (cut := fun p => take (Z.to_nat n) (drop (Z.to_nat ((p - 1) * n)) items)).
    assert (Hrun : forall p, p ∈ page_numbers k ->
      page_items items (page_number p) n = Some (cut p) /\ page_items_cut items (page_number p) n = Some (cut p)).
    { intros p (i & -> & Hi%elem_of_seq)%list_elem_of_fmap. unfold page_number.
      destruct (Z.leb_spec (Z.of_nat i + 1) 0); [lia|]. apply page_items_run; [done|nia|done|nia]. }
    exists (cut <$> page_numbers k). split_and!.
    + apply mapM_Some_fmap. intros p Hp. by apply Hrun.
    + apply mapM_Some_fmap. intros p Hp. by apply Hrun.
    + unfold page_numbers. rewrite <- list_fmap_compose.
      rewrite (list_fmap_ext _ (fun p => take (Z.to_nat n) (drop (p * Z.to_nat n) items))).
      * rewrite concat_cuts. apply take_ge. lia.
      * intros j p _. unfold compose, cut. do 2 f_equal. nia.
    + apply Forall_forall. intros page (p & -> & _)%list_elem_of_fmap. unfold cut. rewrite length_take. lia.
  - intros Hn1. exists (2 ^ 63 / n + 2)%Z.
    assert (Hdiv := Z.div_mod (2 ^ 63) n ltac:(lia)). assert (Hmod := Z.mod_pos_bound (2 ^ 63) n ltac:(lia)).
    assert (Hq : (2 ^ 63 / n <= 2 ^ 62)%Z) by (apply Z.div_le_upper_bound; lia).
    assert (Hq0 : (0 <= 2 ^ 63 / n)%Z) by (apply Z.div_pos; lia).
    split; [lia|]. unfold page_items, page_items_cut.
    rewrite !(wrap64_id (2 ^ 63 / n + 2 - 1)) by (unfold int64_range; lia).
    assert (Hneg : (wrap64 ((2 ^ 63 / n + 2 - 1) * n) < 0)%Z).
    { unfold wrap64. replace ((2 ^ 63 / n + 2 - 1) * n + 2 ^ 63)%Z with (n - 2 ^ 63 `mod` n + 1 * 2 ^ 64)%Z by lia.
      rewrite Z.mod_add by lia. rewrite Z.mod_small by lia. lia. }
    set (start := wrap64 _) in *. clearbody start.
    destruct (Z.geb_spec start (Z.of_nat (length items))); [lia|].
    destruct (Z.gtb_spec start (Z.of_nat (length items))); [lia|]. unfold slice.
    destruct (Z.leb_spec 0 start); [lia|done].
Qed.

Lemma pages_partition_witness :
  (exists pages, mapM (fun p => page_items [1; 2; 3; 4; 5] (page_number p) (page_size 2)) (page_numbers 3) = Some pages /\
     concat pages = [1; 2; 3; 4; 5]) /\
  exists page, page_items [1; 2; 3; 4; 5] page 2 = None.
Proof.
  destruct (pages_partition [1; 2; 3; 4; 5] 2 3) as [(pages & H1 & _ & H2 & _) H3]; [by_computation..|].
  split; [by exists pages|]. destruct H3 as (page & _ & H & _); [reflexivity|]. by exists page.
Defined.

(** ** Orders of the listings *)

Lemma strict_weak_newer {A} (created : A -> Time) l : strict_weak (newer created) l.
Proof.
  unfold newer. split_and!.
  - intros x _. destruct (Z.gtb_spec (instant (created x)) (instant (created x))); [lia|done].
  - intros x y z _ _ _. rewrite !Z.gtb_lt. lia.
  - intros x y z _ _ _. rewrite !Z.gtb_ltb, !Z.ltb_ge. lia.
Qed.

(** ** Selecting by labels *)

(** A selector chooses the labelled objects that have its labels; a value that is
    empty also chooses those without the label. *)
Lemma matchLabels_spec labels selector :
  matchLabels labels selector = true <->
  selector = ∅ \/ (labels <> ∅ /\ forall k v, selector !! k = Some v -> default "" (labels !! k) = v).
Proof.
  unfold matchLabels. destruct (bool_decide_reflect (selector = ∅)) as [|Hs]; [naive_solver|].
  destruct (bool_decide_reflect (labels = ∅)) as [Hl|Hl]; [naive_solver|].
  rewrite List.forallb_forall. split.
  - intros H. right. split; [done|]. intros k v Hk. apply String.eqb_eq, (H (k, v)).
    by apply list_elem_of_In, elem_of_map_to_list.
  - intros [|[_ H]]; [done|]. intros [k v] Hin. apply String.eqb_eq, H.
    by apply list_elem_of_In, elem_of_map_to_list in Hin.
Qed.

Lemma matchLabels_subset labels selector :
  (forall k, selector !! k <> Some "") -> matchLabels labels selector = bool_decide (selector ⊆ labels).
Proof.
  intros Hne. destruct (matchLabels labels selector) eqn:Hm; symmetry.
  - apply bool_decide_eq_true, map_subseteq_spec. intros k v Hk. apply matchLabels_spec in Hm as [->|[_ Hm]]; [by rewrite lookup_empty in Hk|].
    specialize (Hm k v Hk). destruct (labels !! k) as [v'|] eqn:Hv; cbn in Hm; [by subst|]. subst. by destruct (Hne k).
  - apply bool_decide_eq_false. intros Hsub. assert (matchLabels labels selector = true) as Heq; [|congruence].
    apply matchLabels_spec. destruct (decide (selector = ∅)) as [->|Hs]; [by left|right]. split.
    + intros ->. apply Hs, map_empty. intros k. destruct (selector !! k) as [v|] eqn:Hk; [|done].
      by apply (proj1 (map_subseteq_spec _ _) Hsub) in Hk.
    + intros k v Hk. by rewrite (proj1 (map_subseteq_spec _ _) Hsub k v Hk).
Qed.
