(* ===== verification/ServerKube.v ===== *)
(** * The server's access to the control cluster (server/internal/kube)

    [ClusterApplier] of cluster_apply.go and the reading of a kubeconfig
    (kubeconfig.go). The typed methods are the same for each kind of object: they
    are written once, for a [Resource], and each method is an instance. The
    resource version that goes with an update is the one just read, so a conflict
    is a fault. *)

From Stdlib Require Import Sorted.
From S2P Require Import Prelude Float64 ApiTypes KubeApi MemberClients ServerBase.

Local Open Scope string_scope.
Local Open Scope list_scope.

Fixpoint IsConflict (e : api_error) : bool :=
  match e with Conflict => true | Wrapped _ e' => IsConflict e' | _ => false end.

(** ** Kinds of objects *)

(** What the API server does for a kind whose status is a subresource: where its
    objects are stored, their metadata, an object with other metadata, and whether
    two objects differ in their spec; [with_status o st] is [o] with the status of
    [st], or none; [accept o] is [o] with the defaults of its CRD, or nothing when its
    schema refuses the spec. *)
Class Resource (A : Type) := {
  objects_of : World -> gmap Key A;
  set_objects : (gmap Key A -> gmap Key A) -> World -> World;
  meta_of : A -> ObjectMeta;
  with_meta : ObjectMeta -> A -> A;
  with_status : A -> option A -> A;
  spec_differs : A -> A -> bool;
  accept : A -> option A;
  objects_tick : forall w, objects_of (tick w) = objects_of w;
  objects_set : forall f w, objects_of (set_objects f w) = f (objects_of w);
  meta_with : forall m o, meta_of (with_meta m o) = m;
  meta_status : forall o st, meta_of (with_status o st) = meta_of o;
  meta_accept : forall o o', accept o = Some o' -> meta_of o' = meta_of o
}.

Definition res_key {A} `{Resource A} (o : A) : Key := (Namespace (meta_of o), Name (meta_of o)).

(** The metadata of a new object, and of an object replaced by what was sent: the
    UID, the generation and the time of deletion are the server's. *)
Definition posted_meta (uid : string) (m : ObjectMeta) : ObjectMeta :=
  mkMeta (Name m) (Namespace m) uid 1 (Labels m) (Annotations m) (Finalizers m) None (OwnerReferences m).
Definition put_meta (changed : bool) (old sent : ObjectMeta) : ObjectMeta :=
  mkMeta (Name old) (Namespace old) (UID old) (if changed then Generation old + 1 else Generation old)%Z
    (Labels sent) (Annotations sent) (Finalizers sent) (DeletionTimestamp old) (OwnerReferences sent).
Definition deleting_meta (t : Z) (m : ObjectMeta) : ObjectMeta :=
  mkMeta (Name m) (Namespace m) (UID m) (Generation m) (Labels m) (Annotations m) (Finalizers m)
    (match DeletionTimestamp m with None => Some t | d => d end) (OwnerReferences m).

(** The namespace the methods write into the object. *)
Definition in_ns {A} `{Resource A} (ns : string) (o : A) : A :=
  let m := meta_of o in
  with_meta (mkMeta (Name m) ns (UID m) (Generation m) (Labels m) (Annotations m) (Finalizers m) (DeletionTimestamp m)
    (OwnerReferences m)) o.

Section rest.
Context {KUBE : KubeLib} {A : Type} {RES : Resource A}.

(** ** Requests to the API server *)

(** GET, LIST in a namespace. *)
Definition rest_get (ns name : string) : M A := get_object objects_of (ns, name).
Definition rest_list (ns : string) : M (list A) := list_objects objects_of (in_namespace ns).

(** POST: the object is stored with its defaults and without its status. *)
Definition refused_spec : api_error := OtherError "is invalid".
Definition rest_post (sent : A) : M unit :=
  request (fun w =>
    match accept sent with
    | None => (w, Err refused_spec)
    | Some o =>
        match objects_of w !! res_key o with
        | Some _ => (w, Err AlreadyExists)
        | None =>
            (set_objects <[res_key o := with_status (with_meta (posted_meta (new_uid (w_requests w)) (meta_of o)) o) None]> w, Ok tt)
        end
    end).

(** PUT: metadata and spec are replaced, the status stays; a UID in the object must
    be the stored one's; an object under deletion that is left without a finalizer
    goes. *)
Definition rest_put (sent : A) : M unit :=
  request (fun w =>
    match objects_of w !! res_key sent with
    | None => (w, Err NotFound)
    | Some old =>
        if negb (str_empty (UID (meta_of sent))) && negb (String.eqb (UID (meta_of sent)) (UID (meta_of old))) then (w, Err Conflict)
        else
          match accept sent with
          | None => (w, Err refused_spec)
          | Some o =>
              match DeletionTimestamp (meta_of old), Finalizers (meta_of o) with
              | Some _, [] => (set_objects (delete (res_key o)) w, Ok tt)
              | _, _ =>
                  (set_objects <[res_key o := with_status (with_meta (put_meta (spec_differs old o) (meta_of old) (meta_of o)) o)
                     (Some old)]> w, Ok tt)
              end
          end
    end).

(** DELETE: an object with finalizers is marked. *)
Definition rest_delete (ns name : string) : M unit :=
  request (fun w =>
    match objects_of w !! (ns, name) with
    | None => (w, Err NotFound)
    | Some o =>
        match Finalizers (meta_of o) with
        | [] => (set_objects (delete (ns, name)) w, Ok tt)
        | _ => (set_objects <[(ns, name) := with_meta (deleting_meta (w_clock w) (meta_of o)) o]> w, Ok tt)
        end
    end).

(** ** The typed methods *)

(** One attempt of [ApplyTyped...CR]: update the object, or create it. *)
Definition apply_once (ns : string) (o : A) : M unit :=
  got ← attempt (rest_get ns (Name (meta_of o)));
  match got with
  | Err e => if IsNotFound e then rest_post o else throw e
  | Ok _ => rest_put o
  end.

(** [retry.RetryOnConflict(retry.DefaultRetry, fn)]: five attempts; the error is that
    of the last one. *)
Fixpoint retry_on_conflict (n : nat) (fn : M unit) : M unit :=
  match n with
  | O => mret tt
  | S n' =>
      r ← attempt fn;
      match r with
      | Ok _ => mret tt
      | Err e => if IsConflict e then match n' with O => throw e | S _ => retry_on_conflict n' fn end else throw e
      end
  end.
(** [func (a) ApplyClusterCR(c, ns, gvr, obj)]: one attempt. *)
Definition ApplyClusterCR (ns : string) (obj : A) : M unit :=
  existing ← attempt (rest_get ns (Name (meta_of obj)));
  match existing with
  | Err e => if IsNotFound e then rest_post obj else throw e
  | Ok _ =>
      r ← attempt (rest_put obj);
      match r with
      | Ok _ => mret tt
      | Err e => throw (Wrapped ("update cluster " +:+ Name (meta_of obj)) e)
      end
  end.

Definition apply_typed (ns : string) (o : A) : M unit := retry_on_conflict 5 (apply_once ns (in_ns ns o)).
End rest.

(** ** Clusters, deployments and policies *)

#[export] Instance spec_float_eq_dec : EqDecision SpecFloat.spec_float.
Proof. solve_decision. Defined.
#[export] Instance cluster_spec_eq_dec : EqDecision ClusterSpec.
Proof. solve_decision. Defined.
#[export] Instance requirement_eq_dec : EqDecision NodeSelectorRequirement.
Proof. solve_decision. Defined.
#[export] Instance selector_eq_dec : EqDecision LabelSelector.
Proof. solve_decision. Defined.
#[export] Instance goal_eq_dec : EqDecision OptimizationGoal.
Proof. solve_decision. Defined.
#[export] Instance policy_spec_eq_dec : EqDecision OptimizationPolicySpec.
Proof. solve_decision. Defined.

Definition empty_resources : Resources := mkResources (mkResourceList 0 0) (mkResourceList 0 0) 0 0.
Definition empty_cluster_status : ClusterStatus := mkClusterStatus "" None None [] empty_resources [].
Definition empty_gd_status : GlobalDeploymentStatus := mkGDStatus "" 0 0 0 None "".
Definition empty_policy_status : OptimizationPolicyStatus := mkPolicyStatus "" 0 0 [] 0 0 ∅ None None [].

#[export] Instance cluster_resource : Resource Cluster.
Proof.
  refine {|
    objects_of := w_clusters;
    set_objects := set_clusters;
    meta_of := Cluster_Meta;
    with_meta := fun m c => mkCluster m (Cluster_Spec c) (Cluster_Status c);
    with_status := fun c old => mkCluster (Cluster_Meta c) (Cluster_Spec c)
      (match old with Some o => Cluster_Status o | None => empty_cluster_status end);
    spec_differs := fun c c' => negb (bool_decide (Cluster_Spec c = Cluster_Spec c'));
    accept := Some
  |}; [done..|by intros o o' [= <-]].
Defined.

#[export] Instance deployment_resource : Resource GlobalDeployment.
Proof.
  refine {|
    objects_of := w_gds;
    set_objects := set_gds;
    meta_of := GD_Meta;
    with_meta := fun m gd => mkGD m (GD_Spec gd) (GD_Status gd);
    with_status := fun gd old => mkGD (GD_Meta gd) (GD_Spec gd)
      (match old with Some o => GD_Status o | None => empty_gd_status end);
    spec_differs := fun gd gd' => negb (bool_decide (GD_Spec gd = GD_Spec gd'));
    accept := Some
  |}; [done..|by intros o o' [= <-]].
Defined.

(** The CRD of policies (core.kubex.io_optimizationpolicies.yaml): its defaults, for the
    fields that are left out when they are empty, and its schema. *)
Definition policy_defaults (s : OptimizationPolicySpec) : OptimizationPolicySpec :=
  mkPolicySpec (Enabled s) (TargetSelector s) (OptimizationGoals s)
    (if str_empty (RunMode s) then OptimizationRunModeOnce else RunMode s) (RebalancePoint s)
    (if str_empty (Strategy s) then OptimizationStrategyPreview else Strategy s) (ImprovementThresholdPercent s).
Definition goal_schema (g : OptimizationGoal) : bool :=
  negb (str_empty (Goal_Type g)) && fle (f64_of_Z 0) (Goal_Weight g) && fle (Goal_Weight g) (f64_of_Z 1).
Definition policy_schema (s : OptimizationPolicySpec) : bool :=
  forallb goal_schema (OptimizationGoals s) &&
  existsb (String.eqb (RunMode s)) [OptimizationRunModeOnce; OptimizationRunModePeriodic] &&
  existsb (String.eqb (Strategy s)) [OptimizationStrategyPreview; OptimizationStrategyConservative; OptimizationStrategyAggressive] &&
  (0 <=? ImprovementThresholdPercent s)%Z && (ImprovementThresholdPercent s <=? 100)%Z.

(** Of the other two kinds the CRDs set no defaults; a spec that their schema refuses is a
    request that fails, and so is metadata that the API server refuses. *)
#[export] Instance policy_resource : Resource OptimizationPolicy.
Proof.
  refine {|
    objects_of := w_policies;
    set_objects := set_policies;
    meta_of := OP_Meta;
    with_meta := fun m p => mkPolicy m (OP_Spec p) (OP_Status p);
    with_status := fun p old => mkPolicy (OP_Meta p) (OP_Spec p)
      (match old with Some o => OP_Status o | None => empty_policy_status end);
    spec_differs := fun p p' => negb (bool_decide (OP_Spec p = OP_Spec p'));
    accept := fun p =>
      let s := policy_defaults (OP_Spec p) in
      if policy_schema s then Some (mkPolicy (OP_Meta p) s (OP_Status p)) else None
  |}; [done..|]. intros o o'. cbv zeta. destruct (policy_schema _); [by intros [= <-]|done].
Defined.

Section applier.
Context {KUBE : KubeLib}.

Definition GetTypedClusterCR : string -> string -> M Cluster := rest_get.
Definition ListTypedClusterCRs : string -> M (list Cluster) := rest_list.
Definition DeleteTypedClusterCR : string -> string -> M unit := rest_delete (A := Cluster).
Definition ApplyTypedClusterCR : string -> Cluster -> M unit := apply_typed.

Definition GetTypedGlobalDeploymentCR : string -> string -> M GlobalDeployment := rest_get.
Definition ListTypedGlobalDeploymentCRs : string -> M (list GlobalDeployment) := rest_list.
Definition DeleteTypedGlobalDeploymentCR : string -> string -> M unit := rest_delete (A := GlobalDeployment).
Definition ApplyTypedGlobalDeploymentCR : string -> GlobalDeployment -> M unit := apply_typed.

Definition GetTypedOptimizationPolicyCR : string -> string -> M OptimizationPolicy := rest_get.
Definition ListTypedOptimizationPolicyCRs : string -> M (list OptimizationPolicy) := rest_list.
Definition DeleteTypedOptimizationPolicyCR : string -> string -> M unit := rest_delete (A := OptimizationPolicy).
Definition ApplyTypedOptimizationPolicyCR : string -> OptimizationPolicy -> M unit := apply_typed.

Definition ListTypedReplicaBindingCRs (ns : string) : M (list ReplicaBinding) := list_objects w_rbs (in_namespace ns).
Definition DeleteTypedReplicaBindingCR (ns name : string) : M unit := delete_rb (ns, name).
Definition GetTypedReOrchestrationPlanCR (ns name : string) : M ReOrchestrationPlan := get_object w_plans (ns, name).
Definition ListTypedReOrchestrationPlanCRs (ns : string) : M (list ReOrchestrationPlan) :=
  list_objects w_plans (in_namespace ns).

(** ** Secrets *)

Definition GetSecret (ns name : string) : M Secret := get_object w_secrets (ns, name).
Definition post_secret (ns name : string) (s : Secret) : M unit :=
  request (fun w => match w_secrets w !! (ns, name) with
                    | Some _ => (w, Err AlreadyExists)
                    | None => (set_secrets <[(ns, name) := s]> w, Ok tt)
                    end).
Definition put_secret (ns name : string) (s : Secret) : M unit :=
  request (fun w => match w_secrets w !! (ns, name) with
                    | None => (w, Err NotFound)
                    | Some _ => (set_secrets <[(ns, name) := s]> w, Ok tt)
                    end).

(** [func (a) CreateSecret(c, ns, s)]: an existing secret is updated. *)
Definition CreateSecret (ns name : string) (s : Secret) : M unit :=
  r ← attempt (post_secret ns name s);
  match r with
  | Ok _ => mret tt
  | Err e =>
      if negb (IsAlreadyExists e) then throw e
      else
        GetSecret ns name ≫= fun _ =>
        put_secret ns name s
  end.
End applier.

(** ** Kubeconfigs *)

(** [func (a) GetNodesFromKubeconfig(ctx, kubeconfigYAML)]. *)
Definition GetNodesFromKubeconfig {KUBE : KubeLib} (kubeconfigYAML : string) : M (list Node) :=
  if str_empty kubeconfigYAML then throw (OtherError "kubeconfig is empty")
  else
    restCfg ← wrapping "build rest config from kubeconfig" (MemberClientCache.lift (RESTConfigFromKubeConfig kubeconfigYAML));
    cs ← wrapping "new clientset for member cluster" (MemberClientCache.lift (NewForConfig restCfg));
    wrapping "list nodes" (nodes_list cs).

(** [func ExtractServerFromKubeconfig(kubeconfigYAML string) (string, error)]; the
    quoted names in the errors are [quote]d. *)
Definition ExtractServerFromKubeconfig {LIB : ServerLib} (quote : string -> string) (kubeconfigYAML : string)
    : result api_error string :=
  if str_empty kubeconfigYAML then Err (OtherError "kubeconfig is empty")
  else
    match kubeconfig_Load kubeconfigYAML with
    | Err e => Err (Wrapped "load kubeconfig" e)
    | Ok cfg =>
        let currentCtx := CurrentContext cfg in
        if str_empty currentCtx then Err (OtherError "kubeconfig.current-context is empty")
        else
          match Contexts cfg !! currentCtx with
          | None | Some None => Err (OtherError ("kubeconfig context " +:+ quote currentCtx +:+ " not found"))
          | Some (Some cluster) =>
              if str_empty cluster then
                Err (OtherError ("kubeconfig context " +:+ quote currentCtx +:+ " has empty cluster"))
              else
                match KC_Clusters cfg !! cluster with
                | None | Some None => Err (OtherError ("kubeconfig cluster " +:+ quote cluster +:+ " not found"))
                | Some (Some server) =>
                    if str_empty server then
                      Err (OtherError ("kubeconfig cluster " +:+ quote cluster +:+ " has empty server"))
                    else Ok server
                end
          end
    end.

(** ** What a call of the applier does *)

Section effects.
Context {KUBE : KubeLib} {A : Type} {RES : Resource A}.
Implicit Types (o : A).

(** The store after an object has been applied. *)
Definition applied (uid : string) o (objs : gmap Key A) : gmap Key A :=
  match objs !! res_key o with
  | None => <[res_key o := with_status (with_meta (posted_meta uid (meta_of o)) o) None]> objs
  | Some old =>
      match DeletionTimestamp (meta_of old), Finalizers (meta_of o) with
      | Some _, [] => delete (res_key o) objs
      | _, _ =>
          <[res_key o := with_status (with_meta (put_meta (spec_differs old o) (meta_of old) (meta_of o)) o) (Some old)]> objs
      end
  end.

(** A computation that applies [o], as it is accepted, when it succeeds and leaves the
    store alone when it fails. *)
Definition applies o (m : M unit) : Prop :=
  forall w, match m w with
            | (w', Ok _) => exists uid o', accept o = Some o' /\ objects_of w' = applied uid o' (objects_of w)
            | (w', Err _) => objects_of w' = objects_of w
            end.

Lemma rest_get_run ns name w :
  exists r, rest_get ns name w = (tick w, r) /\ forall o, r = Ok o -> objects_of w !! (ns, name) = Some o.
Proof.
  unfold rest_get, get_object, request. destruct (fault _) as [e|]; [by exists (Err e)|]. cbn. rewrite objects_tick.
  destruct (objects_of w !! _) as [o|]; eexists; (split; [done|]); intros o'; [by intros [= ->]|done].
Qed.

Lemma accept_key o o' : accept o = Some o' -> res_key o' = res_key o.
Proof. intros H%meta_accept. unfold res_key. by rewrite H. Qed.

Lemma rest_post_outcome o : applies o (rest_post o).
Proof.
  intros w. unfold rest_post, request. destruct (fault _) as [e|]; [apply objects_tick|].
  destruct (accept o) as [o'|] eqn:Ha; [|apply objects_tick]. rewrite objects_tick.
  destruct (objects_of w !! res_key o') eqn:Ho; [apply objects_tick|]. eexists _, o'. split; [done|].
  unfold applied. rewrite Ho, objects_set, objects_tick. done.
Qed.

Lemma rest_put_outcome o : applies o (rest_put o).
Proof.
  intros w. unfold rest_put, request. destruct (fault _) as [e|]; [apply objects_tick|]. rewrite objects_tick.
  destruct (objects_of w !! res_key o) as [old|] eqn:Ho; [|apply objects_tick].
  destruct (_ && _); [apply objects_tick|]. destruct (accept o) as [o'|] eqn:Ha; [|apply objects_tick].
  rewrite <- (accept_key _ _ Ha) in Ho.
  destruct (DeletionTimestamp (meta_of old)) eqn:Hd, (Finalizers (meta_of o')) eqn:Hf;
    (exists "", o'; split; [done|]; unfold applied; by rewrite Ho, Hd, ?Hf, objects_set, objects_tick).
Qed.

Lemma apply_once_applies ns o : applies o (apply_once ns o).
Proof.
  intros w. unfold apply_once. rewrite bind_run. unfold attempt.
  destruct (rest_get_run ns (Name (meta_of o)) w) as (r & -> & _). destruct r as [got|e].
  - assert (H := rest_put_outcome o (tick w)). rewrite objects_tick in H.
    exact H.
  - destruct (IsNotFound e); [|apply objects_tick].
    assert (H := rest_post_outcome o (tick w)). rewrite objects_tick in H.
    exact H.
Qed.

Lemma retry_applies o n fn : applies o fn -> applies o (retry_on_conflict (S n) fn).
Proof.
  intros Hfn. induction n as [|n IH]; intros w; cbn [retry_on_conflict]; rewrite bind_run; unfold attempt;
    specialize (Hfn w); destruct (fn w) as [w1 [u|e]]; [exact Hfn| |exact Hfn|].
  - destruct (IsConflict e); exact Hfn.
  - destruct (IsConflict e); [|exact Hfn]. specialize (IH w1). rewrite Hfn in IH. exact IH.
Qed.

(** An applied object is stored with its metadata and spec, or gone with its last
    finalizer; a failure changes nothing, whatever was retried. *)
Lemma apply_typed_applies ns o : applies (in_ns ns o) (apply_typed ns o).
Proof. apply retry_applies, apply_once_applies. Qed.

Lemma applied_other uid o objs k : k <> res_key o -> applied uid o objs !! k = objs !! k.
Proof.
  intros Hk. unfold applied. destruct (objs !! res_key o) as [old|]; [|by rewrite lookup_insert_ne].
  destruct (DeletionTimestamp (meta_of old)), (Finalizers (meta_of o)); by rewrite ?lookup_insert_ne, ?lookup_delete_ne.
Qed.

Lemma res_key_in_ns ns o : res_key (in_ns ns o) = (ns, Name (meta_of o)).
Proof. unfold res_key, in_ns. by rewrite !meta_with. Qed.

(** Without faults an object that is accepted and claims no UID but the stored one's is
    applied at once. *)
Lemma apply_typed_succeeds ns o w :
  (forall k, fault k = None) -> is_Some (accept (in_ns ns o)) ->
  (UID (meta_of o) = "" \/ exists old, objects_of w !! (ns, Name (meta_of o)) = Some old /\ UID (meta_of old) = UID (meta_of o)) ->
  exists w', apply_typed ns o w = (w', Ok tt).
Proof.
  intros Hno [o1 Ha] Hu. unfold apply_typed. set (o' := in_ns ns o).
  assert (Ho' : UID (meta_of o') = UID (meta_of o) /\ Name (meta_of o') = Name (meta_of o) /\ res_key o' = (ns, Name (meta_of o))).
  { unfold o'. rewrite res_key_in_ns. unfold in_ns. by rewrite meta_with. }
  destruct Ho' as (Hu' & Hn' & Hk').
  assert (Hrun : exists w', apply_once ns o' w = (w', Ok tt)); [|destruct Hrun as [w' Hw']; exists w'; cbn; rewrite bind_run; unfold attempt; by rewrite Hw'].
  unfold apply_once. rewrite bind_run. unfold attempt, rest_get. rewrite get_object_run by done. rewrite objects_tick, Hn'.
  destruct (objects_of w !! (ns, Name (meta_of o))) as [old|] eqn:Hold; cbn [require IsNotFound].
  - unfold rest_put. rewrite request_run by done. rewrite !objects_tick, Hk', Hold, Hu'.
    assert (negb (str_empty (UID (meta_of o))) && negb (String.eqb (UID (meta_of o)) (UID (meta_of old))) = false) as ->.
    { destruct Hu as [->|(old' & [= <-] & ->)]; [done|]. by rewrite String.eqb_refl, andb_false_r. }
    unfold o'. rewrite Ha. destruct (DeletionTimestamp (meta_of old)), (Finalizers (meta_of o1)); by eexists.
  - unfold rest_post. rewrite request_run by done. unfold o' in *. rewrite Ha, !objects_tick, (accept_key _ _ Ha), Hk', Hold. by eexists.
Qed.

(** One that is not accepted is refused, and the store stays as it is. *)
Lemma apply_typed_refused ns o w :
  (forall k, fault k = None) -> accept (in_ns ns o) = None -> UID (meta_of o) = "" ->
  exists w', apply_typed ns o w = (w', Err refused_spec) /\ objects_of w' = objects_of w.
Proof.
  intros Hno Ha Hu. assert (Happ := apply_typed_applies ns o w).
  enough (Hrun : exists w', apply_typed ns o w = (w', Err refused_spec)).
  { destruct Hrun as [w' Hw']. rewrite Hw' in Happ. by exists w'. }
  clear Happ. unfold apply_typed. set (o' := in_ns ns o) in *.
  assert (Hu' : UID (meta_of o') = "") by (unfold o', in_ns; by rewrite meta_with).
  assert (Hn' : res_key o' = (ns, Name (meta_of o'))) by (unfold o', in_ns, res_key; by rewrite meta_with).
  cbn. rewrite bind_run. unfold attempt, apply_once. rewrite bind_run. unfold attempt, rest_get. rewrite get_object_run by done.
  rewrite objects_tick. destruct (objects_of w !! _) as [old|] eqn:Hold; cbn [require IsNotFound].
  - unfold rest_put. rewrite request_run by done. rewrite !objects_tick, Hn', Hold, Hu', Ha. by eexists.
  - unfold rest_post. rewrite request_run by done. rewrite Ha. by eexists.
Qed.

Section quiet.
Context {T : Type} (proj : World -> T).
Hypothesis Htick : forall w, proj (tick w) = proj w.
Hypothesis Hset : forall f w, proj (set_objects f w) = proj w.

Lemma preserves_rest_put o : preserves proj (rest_put o).
Proof.
  apply preserves_request; [done|]. intros w. destruct (objects_of w !! _) as [old|]; [|done]. destruct (_ && _); [done|].
  destruct (accept o) as [o'|]; [|done]. destruct (DeletionTimestamp (meta_of old)), (Finalizers (meta_of o')); apply Hset.
Qed.
Lemma preserves_rest_post o : preserves proj (rest_post o).
Proof.
  apply preserves_request; [done|]. intros w. destruct (accept o) as [o'|]; [|done].
  destruct (objects_of w !! _); [done|apply Hset].
Qed.
Lemma preserves_rest_delete ns name : preserves proj (rest_delete ns name).
Proof.
  apply preserves_request; [done|]. intros w. destruct (objects_of w !! _) as [o|]; [|done].
  destruct (Finalizers (meta_of o)); apply Hset.
Qed.
Lemma preserves_apply_typed ns o : preserves proj (apply_typed ns o).
Proof.
  assert (Honce : forall o, preserves proj (apply_once ns o)).
  { intros o'. unfold apply_once. apply preserves_bind; [by apply preserves_attempt, preserves_get_object|].
    intros [got|e]; [apply preserves_rest_put|]. destruct (IsNotFound e); [apply preserves_rest_post|apply preserves_throw]. }
  unfold apply_typed. generalize 5. intros n. induction n as [|n IH]; [apply preserves_ret|]. cbn [retry_on_conflict].
  apply preserves_bind; [by apply preserves_attempt|]. intros [u|e]; [apply preserves_ret|].
  destruct (IsConflict e); [|apply preserves_throw]. destruct n; [apply preserves_throw|exact IH].
Qed.
End quiet.
End effects.

(** A secret is stored when the call succeeds, and the secrets are as they were
    when it fails. *)
Lemma CreateSecret_outcome {KUBE : KubeLib} ns name s w :
  match CreateSecret ns name s w with
  | (w', Ok _) => w_secrets w' = <[(ns, name) := s]> (w_secrets w)
  | (w', Err _) => w_secrets w' = w_secrets w
  end.
Proof.
  unfold CreateSecret. rewrite bind_run. unfold attempt, post_secret, request at 1. destruct (fault _) as [e|].
  - cbn [negb]. destruct (negb (IsAlreadyExists e)); [done|]. rewrite bind_run. unfold GetSecret, get_object, request at 1.
    destruct (fault _); [done|]. cbn. destruct (w_secrets w !! (ns, name)) eqn:Hs; [|done]. cbn.
    unfold put_secret, request. destruct (fault _); [done|]. cbn. by rewrite Hs.
  - change (w_secrets (tick w)) with (w_secrets w). destruct (w_secrets w !! (ns, name)) eqn:Hs; [|done].
    cbn [IsAlreadyExists negb]. rewrite bind_run. unfold GetSecret, get_object, request at 1.
    destruct (fault _); [done|]. cbn. rewrite Hs. cbn. unfold put_secret, request. destruct (fault _); [done|]. cbn. by rewrite Hs.
Qed.

Lemma CreateSecret_succeeds {KUBE : KubeLib} ns name s w :
  (forall k, fault k = None) -> (CreateSecret ns name s w).2 = Ok tt.
Proof.
  intros Hno. unfold CreateSecret. rewrite bind_run. unfold attempt, post_secret. rewrite request_run by done.
  change (w_secrets (tick w)) with (w_secrets w). destruct (w_secrets w !! (ns, name)) eqn:Hs; [|done]. cbn [IsAlreadyExists negb].
  rewrite bind_run. unfold GetSecret. rewrite get_object_run by done. change (w_secrets (tick (tick w))) with (w_secrets w). rewrite Hs.
  cbn [require]. unfold put_secret. rewrite request_run by done. cbn. by rewrite Hs.
Qed.

Lemma preserves_CreateSecret {KUBE : KubeLib} {T} (proj : World -> T) ns name s :
  (forall w, proj (tick w) = proj w) -> (forall f w, proj (set_secrets f w) = proj w) ->
  preserves proj (CreateSecret ns name s).
Proof.
  intros Ht Hs. unfold CreateSecret. apply preserves_bind.
  { apply preserves_attempt, preserves_request; [done|]. intros w. destruct (w_secrets w !! _); [done|apply Hs]. }
  intros [u|e]; [apply preserves_ret|]. destruct (negb _); [apply preserves_throw|].
  apply preserves_bind; [by apply preserves_get_object|]. intros _. apply preserves_request; [done|].
  intros w. destruct (w_secrets w !! _); [apply Hs|done].
Qed.

(** ** Listings *)

(** The objects stored in a namespace. *)
Definition in_store {A} (objs : gmap Key A) (ns : string) : list A :=
  (map_to_list (filter (fun e : Key * A => in_namespace ns e.1 = true) objs)).*2.

Lemma list_objects_run {KUBE : KubeLib} {A} (sel : World -> gmap Key A) ns w :
  exists r, list_objects sel (in_namespace ns) w = (tick w, r) /\
    forall l, r = Ok l -> sel (tick w) = sel w -> l ≡ₚ in_store (sel w) ns.
Proof.
  unfold list_objects, request. destruct (fault _) as [e|]; eexists; (split; [done|]); [done|].
  intros l [= <-] ->. apply list_order_perm.
Qed.

Lemma in_store_length {A} (objs : gmap Key A) ns : length (in_store objs ns) <= size objs.
Proof. unfold in_store. rewrite length_fmap, length_map_to_list. apply map_size_filter. Qed.

(** What a listing handler shows of the stored objects: the chosen ones, in an
    order, and of them a page. *)
Definition shows {A B} (chosen : A -> bool) (show : A -> B) (less : B -> B -> bool) (objs : list A) (all : list B) : Prop :=
  all ≡ₚ show <$> List.filter chosen objs /\ StronglySorted (fun x y => less y x = false) all.

Lemma sort_shows {SORT : GoSort} {A B} (chosen : A -> bool) (show : A -> B) less objs found :
  (forall l, strict_weak less l) -> found ≡ₚ objs ->
  shows chosen show less objs (sort_slice less (show <$> List.filter chosen found)).
Proof.
  intros Hless Hp. split; [|by apply sort_slice_sorted].
  rewrite sort_slice_perm. apply fmap_Permutation. by apply filter_perm.
Qed.

(** The page shown: of the chosen objects, in order, the items of page [p], and the
    number of all. *)
Definition page_shown {A B} (chosen : A -> bool) (show : A -> B) (less : B -> B -> bool) (objs : list A) (page pageSize : Z)
    (total : Z) (items : list B) : Prop :=
  exists all, shows chosen show less objs all /\ total = Z.of_nat (length all) /\
    items = take (Z.to_nat pageSize) (drop (Z.to_nat ((page - 1) * pageSize)) all).

(** The numbers of a request whose page can be computed. *)
Definition page_fits (total : nat) (page pageSize : Z) : Prop :=
  (Z.of_nat total + 100 < 2 ^ 63)%Z /\ (page < 2 ^ 63)%Z /\ ((page_number page - 1) * page_size pageSize < 2 ^ 63)%Z.

Lemma sorted_page_shown {SORT : GoSort} {A B} (chosen : A -> bool) (show : A -> B)
    (less : B -> B -> bool) (objs : gmap Key A) ns found page pageSize :
  (forall l, strict_weak less l) -> found ≡ₚ in_store objs ns -> page_fits (size objs) page pageSize ->
  let all := sort_slice less (show <$> List.filter chosen found) in
  exists items, page_items all (page_number page) (page_size pageSize) = Some items /\
    page_items_cut all (page_number page) (page_size pageSize) = Some items /\
    page_shown chosen show less (in_store objs ns) (page_number page) (page_size pageSize) (Z.of_nat (length all)) items.
Proof.
  intros Hless Hfound (Hsize & Hpage & Hover) all.
  assert (Hshows : shows chosen show less (in_store objs ns) all) by by apply sort_shows.
  assert (Hlen : (Z.of_nat (length all) + 100 < 2 ^ 63)%Z).
  { destruct Hshows as [Hp _]. apply Permutation_length in Hp. rewrite length_fmap in Hp.
    assert (H1 := List.filter_length_le chosen (in_store objs ns)). assert (H2 := in_store_length objs ns). lia. }
  assert (Hp1 : (1 <= page_number page < 2 ^ 63)%Z) by (unfold page_number; destruct (Z.leb_spec page 0); lia).
  destruct (page_items_run all _ _ Hlen Hp1 (page_size_range pageSize) Hover) as [-> ->].
  eexists. split_and!; [done|done|]. by exists all.
Qed.
