(* ===== verification/ClusterHandler.v ===== *)
(** * The cluster handlers of the REST server (internal/api/cluster_handler.go)

    Import, update, list, read and delete clusters. A quantity in a response stands
    for its text; log lines are not modelled. *)

From S2P Require Import Prelude OptErrors GoText ApiTypes KubeApi MemberClients ServerBase ServerKube.

Local Open Scope string_scope.
Local Open Scope list_scope.

Definition AnnotationDescription : string := "kubex.io/description".
Definition AnnotationName : string := "kubex.io/name".

(** ** Requests and responses *)

Record ListClustersRequest := mkListClusters {
  LC_Page : Z; LC_PageSize : Z; LC_Name : string; LC_Provider : string; LC_Status : string; LC_LabelSelector : string
}.
Record ClusterSummary := mkClusterSummary {
  CS_ClusterID : string; CS_Name : string; CS_Description : string; CS_Provider : string; CS_Status : string;
  CS_APIEndpoint : string; CS_Labels : gmap string string; CS_CreatedAt : string; CS_UpdatedAt : string;
  CS_Message : string
}.
Record ListClustersResponse := mkClusterList {
  LCR_Total : Z; LCR_Page : Z; LCR_PageSize : Z; LCR_Items : list ClusterSummary
}.
Record ImportClusterRequest := mkImportCluster {
  IC_Name : string; IC_Description : string; IC_Provider : string; IC_Kubeconfig : string; IC_Labels : gmap string string
}.
Record ImportClusterResponse := mkImported {
  ICR_ClusterID : string; ICR_Name : string; ICR_Status : string; ICR_Message : string
}.
Record ClusterResources := mkClusterResources {
  CR_Capacity : ResourceList; CR_Allocatable : ResourceList; CR_NodeCount : Z; CR_PodCount : Z
}.
Record NodeItem := mkNodeItem {
  NI_Name : string; NI_UID : string; NI_Ready : bool; NI_Labels : gmap string string;
  NI_Allocatable : ResourceList; NI_Requested : ResourceList; NI_Free : ResourceList
}.
Record GetClusterResponse := mkGetCluster {
  GCR_Cluster : ClusterSummary; GCR_Kubeconfig : string; GCR_Nodes : list NodeItem; GCR_Resources : ClusterResources;
  GCR_SecretName : string; GCR_APIEndpoint : string
}.
Record UpdateClusterRequest := mkUpdateCluster {
  UC_ClusterID : string; UC_Name : string; UC_Description : string; UC_Provider : string; UC_Labels : gmap string string
}.
Record UpdateClusterResponse := mkUpdated {
  UCR_ClusterID : string; UCR_Name : string; UCR_Description : string; UCR_Provider : string;
  UCR_Labels : gmap string string; UCR_UpdatedAt : string; UCR_Message : string
}.
(** A missing list of ids is nil. *)
Record DeleteClustersRequest := mkDeleteClusters { DC_ClusterIDs : option (list string) }.
Record DeleteClusterFail := mkDeleteFail { DF_ClusterID : string; DF_Message : string }.
Record DeleteClustersResponse := mkDeleted {
  DCR_Deleted : list string; DCR_Failed : list DeleteClusterFail; DCR_Message : string
}.

(** ** What a handler computes *)

(** [m[k]] of a map of strings. *)
Definition entry (m : gmap string string) (k : string) : string := default "" (m !! k).

(** The status shown. *)
Definition shown_status (c : Cluster) : string :=
  let status := Cluster_Phase (Cluster_Status c) in
  if str_empty status then ClusterPhaseImporting else status.

Definition cluster_summary {LIB : ServerLib} (c : Cluster) : ClusterSummary :=
  let m := Cluster_Meta c in
  mkClusterSummary (Name m) (entry (Annotations m) AnnotationName) (entry (Annotations m) AnnotationDescription)
    (entry (Labels m) "provider") (shown_status c) (APIEndpoint (Cluster_Spec c)) (Labels m)
    (format_utc (CreationTimestamp m)) (format_utc_or_empty (Cluster_UpdatedAt (Cluster_Status c))) "".

Definition summary_of (r : NodeResources) : ResourceList := mkResourceList (NR_CPU r) (NR_Memory r).
Definition node_item (n : NodeSummary) : NodeItem :=
  mkNodeItem (NS_Name n) (NS_UID n) (NS_Ready n) (NS_Labels n) (summary_of (NS_Allocatable n))
    (summary_of (NS_Requested n)) (summary_of (NS_Free n)).
Definition shown_resources (r : Resources) : ClusterResources :=
  mkClusterResources (Capacity r) (Allocatable r) (NodeCount r) (PodCount r).

(** The annotations and the labels of an updated cluster: an empty description
    clears it; the labels asked for go over the old ones, the provider over both. *)
Definition updated_annotations (req : UpdateClusterRequest) (annotations : gmap string string) : gmap string string :=
  let annotations := if str_empty (UC_Name req) then annotations else <[AnnotationName := UC_Name req]> annotations in
  if str_empty (UC_Description req) then delete AnnotationDescription annotations
  else <[AnnotationDescription := UC_Description req]> annotations.
Definition updated_labels (req : UpdateClusterRequest) (labels : gmap string string) : gmap string string :=
  let newLabels := UC_Labels req ∪ labels in
  if str_empty (UC_Provider req) then newLabels else <["provider" := UC_Provider req]> newLabels.
Definition updated_cluster (req : UpdateClusterRequest) (c : Cluster) : Cluster :=
  let m := Cluster_Meta c in
  mkCluster
    (mkMeta (Name m) (Namespace m) (UID m) (Generation m) (updated_labels req (Labels m))
       (updated_annotations req (Annotations m)) (Finalizers m) (DeletionTimestamp m) (OwnerReferences m))
    (Cluster_Spec c) (Cluster_Status c).

(** The ids to delete: trimmed, not empty, each once. *)
Definition clean_id (ids : list string) (id : string) : list string :=
  let id := TrimSpace id in
  if str_empty id then ids else if bool_decide (id ∈ ids) then ids else ids ++ [id].
Definition clean_ids (ids : list string) : list string := foldl clean_id [] ids.

(** The objects of an import. *)
Definition imported_cluster (req : ImportClusterRequest) (ns clusterID apiEndpoint : string) : Cluster :=
  let labels := IC_Labels req in
  let labels := if str_empty (IC_Provider req) then labels else <["provider" := IC_Provider req]> labels in
  let annotations := if str_empty (IC_Description req) then ∅ else {[AnnotationDescription := IC_Description req]} in
  mkCluster (mkMeta clusterID ns "" 0 labels (<[AnnotationName := IC_Name req]> annotations) [] None [])
    (mkClusterSpec apiEndpoint clusterID) empty_cluster_status.
Definition imported_secret (req : ImportClusterRequest) (owner : Cluster) : Secret :=
  mkSecret [mkOwner "Cluster" (Name (Cluster_Meta owner)) (UID (Cluster_Meta owner)) (Some true)] {["kubeconfig" := IC_Kubeconfig req]}.

Section handlers.
Context {KUBE : KubeLib} {SORT : GoSort} {FMT : GoFmt} {LIB : ServerLib} (ns : string).

(** ** Handlers *)

(** [func (h) UpdateCluster(c)]. *)
Definition UpdateCluster_bound (req : UpdateClusterRequest) : M (Response UpdateClusterResponse) :=
  got ← attempt (GetTypedClusterCR ns (UC_ClusterID req));
  match got with
  | Err e =>
      mret (if IsNotFound e then Failure StatusNotFound "cluster not found"
            else Failure StatusInternalServerError "get cluster failed")
  | Ok cr =>
      let cr := updated_cluster req cr in
      r ← attempt (ApplyTypedClusterCR ns cr);
      match r with
      | Err _ => mret (Failure StatusInternalServerError "update cluster failed")
      | Ok _ =>
          latest ← attempt (GetTypedClusterCR ns (UC_ClusterID req));
          let shown := match latest with Ok c => c | Err _ => cr end in
          let updatedAt := match latest with
                           | Ok c => format_utc_or_empty (Cluster_UpdatedAt (Cluster_Status c))
                           | Err _ => ""
                           end in
          let m := Cluster_Meta shown in
          mret (Reply StatusOK (mkUpdated (UC_ClusterID req) (entry (Annotations m) AnnotationName)
            (entry (Annotations m) AnnotationDescription) (entry (Labels m) "provider") (Labels m) updatedAt
            "Cluster updated successfully"))
      end
  end.
Definition UpdateCluster (decoded : result string UpdateClusterRequest) : M (Response UpdateClusterResponse) :=
  bound (fun req => required [("ClusterID", UC_ClusterID req)]) decoded UpdateCluster_bound.

(** The deletion of one cluster: where it goes in the response. *)
Definition delete_one (resp : DeleteClustersResponse) (id : string) : M DeleteClustersResponse :=
  r ← attempt (DeleteTypedClusterCR ns id);
  match r with
  | Ok _ => mret (mkDeleted (DCR_Deleted resp ++ [id]) (DCR_Failed resp) (DCR_Message resp))
  | Err e =>
      let text := if IsNotFound e then "cluster not found" else error_text e in
      mret (mkDeleted (DCR_Deleted resp) (DCR_Failed resp ++ [mkDeleteFail id text]) (DCR_Message resp))
  end.
Fixpoint delete_all (resp : DeleteClustersResponse) (ids : list string) : M DeleteClustersResponse :=
  match ids with
  | [] => mret resp
  | id :: ids' => delete_one resp id ≫= fun resp' => delete_all resp' ids'
  end.

(** [func (h) DeleteClusters(c)]. *)
Definition DeleteClusters_bound (req : DeleteClustersRequest) : M (Response DeleteClustersResponse) :=
  match clean_ids (default [] (DC_ClusterIDs req)) with
  | [] => mret (Failure StatusBadRequest "clusterIds is required")
  | ids =>
      resp ← delete_all (mkDeleted [] [] "") ids;
      mret (Reply StatusOK (mkDeleted (DCR_Deleted resp) (DCR_Failed resp) "Cluster deletion completed"))
  end.
Definition DeleteClusters (decoded : result string DeleteClustersRequest) : M (Response DeleteClustersResponse) :=
  bound (fun req => match DC_ClusterIDs req with None => ["ClusterIDs"] | Some _ => [] end) decoded DeleteClusters_bound.

(** [func (h) GetCluster(c)]: the request is the cluster id. *)
Definition GetCluster_bound (clusterID : string) : M (Response GetClusterResponse) :=
  got ← attempt (GetTypedClusterCR ns clusterID);
  match got with
  | Err e =>
      mret (if IsNotFound e then Failure StatusNotFound "cluster not found"
            else Failure StatusInternalServerError "get cluster failed")
  | Ok cr =>
      let secretName := SecretRef (Cluster_Spec cr) in
      sec ← attempt (GetSecret ns secretName);
      match sec with
      | Err e =>
          mret (if IsNotFound e then Failure StatusNotFound "cluster secret not found"
                else Failure StatusInternalServerError "get cluster secret failed")
      | Ok sec =>
          mret (Reply StatusOK (mkGetCluster (cluster_summary cr) (entry (Secret_Data sec) "kubeconfig")
            (node_item <$> Cluster_Nodes (Cluster_Status cr)) (shown_resources (Cluster_Resources (Cluster_Status cr)))
            secretName (APIEndpoint (Cluster_Spec cr))))
      end
  end.
Definition GetCluster (decoded : result string string) : M (Response GetClusterResponse) :=
  bound (fun id => required [("ClusterID", id)]) decoded GetCluster_bound.

(** [func (h) ImportCluster(c)]. *)
Definition draw_uuid : M string := n ← loop_number; mret (uuid_NewString n).
Definition ImportCluster_bound (req : ImportClusterRequest) : M (Response ImportClusterResponse) :=
  clusterID ← draw_uuid;
  match ExtractServerFromKubeconfig fmt_q (IC_Kubeconfig req) with
  | Err _ => mret (Failure StatusBadRequest "invalid kubeconfig: cannot extract cluster server")
  | Ok apiEndpoint =>
      r ← attempt (ApplyTypedClusterCR ns (imported_cluster req ns clusterID apiEndpoint));
      match r with
      | Err _ => mret (Failure StatusInternalServerError "apply cluster failed")
      | Ok _ =>
          got ← attempt (GetTypedClusterCR ns clusterID);
          match got with
          | Err _ => mret (Failure StatusInternalServerError "get cluster failed")
          | Ok app =>
              s ← attempt (CreateSecret ns clusterID (imported_secret req app));
              mret (match s with
                    | Err _ => Failure StatusInternalServerError "create secret failed"
                    | Ok _ => Reply StatusOK (mkImported clusterID (IC_Name req) "Importing" "Cluster import started successfully")
                    end)
          end
      end
  end.
Definition ImportCluster (decoded : result string ImportClusterRequest) : M (Response ImportClusterResponse) :=
  bound (fun req => required [("Name", IC_Name req); ("Kubeconfig", IC_Kubeconfig req)]) decoded ImportCluster_bound.

(** The clusters a listing is about. *)
Definition cluster_listed (req : ListClustersRequest) (selector : gmap string string) (c : Cluster) : bool :=
  let m := Cluster_Meta c in
  if negb (str_empty (LC_Name req)) &&
     negb (str_contains (ToLower (entry (Annotations m) AnnotationName)) (ToLower (LC_Name req))) then false
  else if negb (str_empty (LC_Provider req)) && negb (String.eqb (entry (Labels m) "provider") (LC_Provider req)) then false
  else if negb (str_empty (LC_Status req)) && negb (String.eqb (shown_status c) (LC_Status req)) then false
  else negb (negb (bool_decide (selector = ∅)) && negb (matchLabels (Labels m) selector)).

(** [func (h) ListClusters(c)]. *)
Definition ListClusters_bound (req : ListClustersRequest) : M (Response ListClustersResponse) :=
  let page := page_number (LC_Page req) in
  let pageSize := page_size (LC_PageSize req) in
  list ← attempt (ListTypedClusterCRs ns);
  match list with
  | Err _ => mret (Failure StatusInternalServerError "list clusters failed")
  | Ok found =>
      let selector := parseLabelSelector (LC_LabelSelector req) in
      let items := sort_slice (fun x y => String.ltb (CS_Name x) (CS_Name y))
                     (cluster_summary <$> List.filter (cluster_listed req selector) found) in
      mret (reply_page (page_items_cut items page pageSize)
        (mkClusterList (Z.of_nat (length items)) page pageSize))
  end.
Definition ListClusters (decoded : result string ListClustersRequest) : M (Response ListClustersResponse) :=
  bound (fun _ => []) decoded ListClusters_bound.
End handlers.

(** ** What the handlers do to the stored clusters *)

(** Stored clusters sit under their key, and one under deletion has a finalizer. *)
Definition clusters_ok (clusters : gmap Key Cluster) : Prop :=
  map_Forall (fun k c => res_key c = k /\
    (DeletionTimestamp (Cluster_Meta c) = None \/ Finalizers (Cluster_Meta c) <> [])) clusters.

Section updates.
Context {KUBE : KubeLib} {LIB : ServerLib} (ns : string).

(** A request is answered, whatever fails. *)
Definition answers {A} (m : M (Response A)) (w w' : World) (r : Response A) : Prop := m w = (w', Ok r).

(** Applying a changed copy of a stored cluster stores the copy. *)
Lemma applied_update uid req c clusters :
  clusters_ok clusters -> clusters !! (ns, UC_ClusterID req) = Some c ->
  applied uid (in_ns ns (updated_cluster req c)) clusters = <[(ns, UC_ClusterID req) := updated_cluster req c]> clusters.
Proof.
  intros Hok Hc. destruct (Hok _ _ Hc) as [Hk Hd]. unfold res_key in Hk. cbn in Hk. injection Hk as Hns Hname.
  unfold applied. rewrite res_key_in_ns. cbn [meta_of cluster_resource updated_cluster Cluster_Meta Name]. rewrite Hname, Hc.
  cbn [in_ns meta_of cluster_resource with_meta with_status spec_differs updated_cluster Cluster_Meta Cluster_Spec
    Cluster_Status Finalizers DeletionTimestamp].
  rewrite match_kept by exact Hd. f_equal. unfold put_meta, updated_cluster. cbn.
  rewrite bool_decide_eq_true_2 by done. by destruct c as [[] ? ?].
Qed.

(** The labels and annotations after an update, key by key. *)
Definition labels_updated (req : UpdateClusterRequest) (old new : gmap string string) : Prop :=
  forall k, new !! k =
    if bool_decide (k = "provider" /\ UC_Provider req <> "") then Some (UC_Provider req)
    else match UC_Labels req !! k with Some v => Some v | None => old !! k end.
Definition annotations_updated (req : UpdateClusterRequest) (old new : gmap string string) : Prop :=
  forall k, new !! k =
    if bool_decide (k = AnnotationDescription) then (if str_empty (UC_Description req) then None else Some (UC_Description req))
    else if bool_decide (k = AnnotationName /\ UC_Name req <> "") then Some (UC_Name req)
    else old !! k.

Lemma updated_labels_spec req labels : labels_updated req labels (updated_labels req labels).
Proof.
  intros k. unfold updated_labels. set (new := UC_Labels req ∪ labels).
  assert (Hnew : new !! k = match UC_Labels req !! k with Some v => Some v | None => labels !! k end).
  { unfold new. rewrite lookup_union. by destruct (UC_Labels req !! k), (labels !! k). }
  destruct (str_empty (UC_Provider req)) eqn:He.
  - rewrite bool_decide_eq_false_2; [done|]. intros [_ Hne]. by destruct (UC_Provider req).
  - case_bool_decide as Hk; [destruct Hk as [-> _]; by rewrite lookup_insert_eq|]. rewrite lookup_insert_ne; [done|].
    intros <-. apply Hk. split; [done|]. by destruct (UC_Provider req).
Qed.

Lemma updated_annotations_spec req annotations : annotations_updated req annotations (updated_annotations req annotations).
Proof.
  intros k. unfold updated_annotations.
  set (named := if str_empty (UC_Name req) then _ else _).
  assert (Hnamed : named !! k = if bool_decide (k = AnnotationName /\ UC_Name req <> "") then Some (UC_Name req) else annotations !! k).
  { unfold named. destruct (str_empty (UC_Name req)) eqn:He.
    - rewrite bool_decide_eq_false_2; [done|]. intros [_ Hne]. by destruct (UC_Name req).
    - case_bool_decide as Hk; [destruct Hk as [-> _]; by rewrite lookup_insert_eq|]. rewrite lookup_insert_ne; [done|].
      intros <-. apply Hk. split; [done|]. by destruct (UC_Name req). }
  destruct (decide (k = AnnotationDescription)) as [->|Hd].
  - rewrite bool_decide_eq_true_2 by done.
    destruct (str_empty (UC_Description req)); [by rewrite lookup_delete_eq|by rewrite lookup_insert_eq].
  - rewrite (bool_decide_eq_false_2 (k = AnnotationDescription)) by done. rewrite <- Hnamed.
    destruct (str_empty (UC_Description req)); [by rewrite lookup_delete_ne|by rewrite lookup_insert_ne].
Qed.

(** What an update may change of a stored cluster. *)
Definition cluster_updated (req : UpdateClusterRequest) (old new : Cluster) : Prop :=
  Cluster_Spec new = Cluster_Spec old /\ Cluster_Status new = Cluster_Status old /\
  UID (Cluster_Meta new) = UID (Cluster_Meta old) /\ Generation (Cluster_Meta new) = Generation (Cluster_Meta old) /\
  Finalizers (Cluster_Meta new) = Finalizers (Cluster_Meta old) /\
  DeletionTimestamp (Cluster_Meta new) = DeletionTimestamp (Cluster_Meta old) /\
  OwnerReferences (Cluster_Meta new) = OwnerReferences (Cluster_Meta old) /\
  labels_updated req (Labels (Cluster_Meta old)) (Labels (Cluster_Meta new)) /\
  annotations_updated req (Annotations (Cluster_Meta old)) (Annotations (Cluster_Meta new)).

(** An update writes exactly what was asked for, whatever requests fail: when it
    is answered with 200, the cluster is stored as it was but for its labels and
    annotations (the labels asked for over the old ones, the provider over both,
    the description cleared when it is empty), and the answer says what is
    stored; with any other answer the stored clusters are as they were. Without
    faults a request for an id is answered with 200 exactly when the cluster is
    stored. *)
Theorem UpdateCluster_updates req w :
  clusters_ok (w_clusters w) ->
  exists w' r, answers (UpdateCluster ns (Ok req)) w w' r /\
  match r with
  | Reply code resp => code = StatusOK /\
      exists c c', w_clusters w !! (ns, UC_ClusterID req) = Some c /\ cluster_updated req c c' /\
        w_clusters w' = <[(ns, UC_ClusterID req) := c']> (w_clusters w) /\
        UCR_ClusterID resp = UC_ClusterID req /\ UCR_Labels resp = Labels (Cluster_Meta c') /\
        UCR_Name resp = default "" (Annotations (Cluster_Meta c') !! AnnotationName) /\
        UCR_Description resp = UC_Description req
  | _ => w_clusters w' = w_clusters w
  end /\
  ((forall n, fault n = None) -> UC_ClusterID req <> "" ->
   (exists body, r = Reply StatusOK body) <-> is_Some (w_clusters w !! (ns, UC_ClusterID req))).
Proof.
  intros Hok. unfold answers, UpdateCluster, bound. destruct (bind _ _) as [req'|text] eqn:Hb.
  2: { eexists w, _. split_and!; [done..|]. intros _ Hne. exfalso. revert Hb. unfold bind, required. cbn. by destruct (UC_ClusterID req). }
  assert (req' = req) as ->. { revert Hb. unfold bind. destruct (required _); congruence. }
  unfold UpdateCluster_bound. rewrite bind_run. unfold attempt at 1, GetTypedClusterCR at 1.
  destruct (rest_get_run (A := Cluster) ns (UC_ClusterID req) w) as (r & Hget & Hr). rewrite Hget.
  destruct r as [c|e].
  2: { eexists _, _. split_and!; [done|by destruct (IsNotFound e)|]. intros Hno _. unfold rest_get in Hget.
       rewrite get_object_run in Hget by done. injection Hget as Hget. change (objects_of (tick w)) with (w_clusters w) in Hget.
       destruct (w_clusters w !! _); [done|]. injection Hget as <-. split; [by intros [? ?]|by intros [? ?]]. }
  specialize (Hr c eq_refl). cbn in Hr. rewrite bind_run. unfold attempt, ApplyTypedClusterCR.
  pose proof (apply_typed_applies ns (updated_cluster req c) (tick w)) as Happ.
  assert (Hrun : (forall n, fault n = None) -> exists w', apply_typed ns (updated_cluster req c) (tick w) = (w', Ok tt)).
  { intros Hno. apply apply_typed_succeeds; [done|by eexists|]. right. exists c. split; [|done]. destruct (Hok _ _ Hr) as [Hk _].
    unfold res_key in Hk. cbn in Hk |- *. injection Hk as _ ->. exact Hr. }
  destruct (apply_typed ns (updated_cluster req c) (tick w)) as [w1 [u|e]].
  2: { eexists w1, _. split_and!; [done|exact Happ|]. intros Hno. by destruct (Hrun Hno). }
  destruct Happ as (uid & o & [= <-] & Happ). change (w_clusters w1 = applied uid (in_ns ns (updated_cluster req c)) (w_clusters w)) in Happ. rewrite applied_update in Happ by done.
  rewrite bind_run. unfold attempt, GetTypedClusterCR.
  destruct (rest_get_run (A := Cluster) ns (UC_ClusterID req) w1) as (r & -> & Hr').
  eexists _, _. split; [done|]. split; [|intros _ _; split; [by eexists|by eexists]]. split; [done|]. exists c, (updated_cluster req c). split; [done|].
  split; [split_and!; [done..|apply updated_labels_spec|apply updated_annotations_spec]|]. split; [exact Happ|].
  assert (match r with Ok c' => c' | Err _ => updated_cluster req c end = updated_cluster req c) as ->.
  { destruct r as [c'|]; [|done]. specialize (Hr' c' eq_refl). cbn in Hr'. rewrite Happ, lookup_insert_eq in Hr'. congruence. }
  split_and!; [done|done|done|]. cbn. unfold updated_annotations, entry.
  destruct (str_empty (UC_Description req)) eqn:Hd.
  - rewrite lookup_delete_eq. by destruct (UC_Description req).
  - by rewrite lookup_insert_eq.
Qed.
End updates.

(** ** Deletions *)

Section deletions.
Context {KUBE : KubeLib} {LIB : ServerLib} (ns : string).

Lemma clean_ids_spec ids :
  NoDup (clean_ids ids) /\
  forall id, id ∈ clean_ids ids <-> id <> "" /\ exists raw, raw ∈ ids /\ TrimSpace raw = id.
Proof.
  unfold clean_ids. induction ids as [|raw ids [IHn IH]] using rev_ind.
  { split; [constructor|]. intros id. rewrite elem_of_nil. split; [done|]. intros (_ & raw & Hr & _). by apply elem_of_nil in Hr. }
  rewrite foldl_app. cbn [foldl]. set (l := foldl clean_id [] ids) in *. unfold clean_id.
  assert (Hlast : forall id, (exists r, r ∈ ids ++ [raw] /\ TrimSpace r = id) <->
    (exists r, r ∈ ids /\ TrimSpace r = id) \/ TrimSpace raw = id).
  { intros id. setoid_rewrite elem_of_app. setoid_rewrite list_elem_of_singleton. naive_solver. }
  setoid_rewrite Hlast. destruct (str_empty (TrimSpace raw)) eqn:He.
  - split; [done|]. intros id. rewrite IH. split; [naive_solver|]. intros [Hne [H|H]]; [done|].
    rewrite H in He. by destruct id.
  - assert (TrimSpace raw <> "") by (by intros Hr; rewrite Hr in He).
    case_bool_decide as Hin.
    + split; [done|]. intros id. rewrite IH. split; [naive_solver|]. intros [Hne [H'|<-]]; [done|]. by apply IH.
    + split; [apply NoDup_app; split_and!; [done| |apply NoDup_singleton]|].
      * intros x Hx Hx'%list_elem_of_singleton. by subst.
      * intros id. rewrite elem_of_app, list_elem_of_singleton, IH. naive_solver.
Qed.

(** Gone, or being deleted. *)
Definition cluster_ending (id : string) (w : World) : Prop :=
  forall c, w_clusters w !! (ns, id) = Some c -> DeletionTimestamp (Cluster_Meta c) <> None.

Lemma delete_cluster_run id w :
  match DeleteTypedClusterCR ns id w with
  | (w', Ok _) => is_Some (w_clusters w !! (ns, id)) /\ cluster_ending id w' /\
      forall k, k <> (ns, id) -> w_clusters w' !! k = w_clusters w !! k
  | (w', Err _) => w_clusters w' = w_clusters w /\ ((forall n, fault n = None) -> w_clusters w !! (ns, id) = None)
  end.
Proof.
  unfold DeleteTypedClusterCR, rest_delete, request. destruct (fault _) eqn:Hf; [split; [done|congruence]|].
  change (objects_of (A := Cluster) (tick w)) with (w_clusters w).
  destruct (w_clusters w !! (ns, id)) as [c|] eqn:Hc; [|done]. cbn [meta_of cluster_resource].
  destruct (Finalizers (Cluster_Meta c)); (split_and!; [by eexists| |]); unfold cluster_ending; cbn.
  - intros c'. by rewrite lookup_delete_eq.
  - intros k Hk. by apply lookup_delete_ne.
  - intros c'. rewrite lookup_insert_eq. intros [= <-]. cbn. by destruct (DeletionTimestamp _).
  - intros k Hk. by apply lookup_insert_ne.
Qed.

(** Each cluster asked for is in one of the two lists of the answer. *)
Lemma delete_all_run ids resp w :
  NoDup ids ->
  exists w' deleted failed,
    delete_all ns resp ids w = (w', Ok (mkDeleted (DCR_Deleted resp ++ deleted) (DCR_Failed resp ++ failed) (DCR_Message resp))) /\
    deleted ++ (DF_ClusterID <$> failed) ≡ₚ ids /\
    (forall id, id ∈ deleted -> is_Some (w_clusters w !! (ns, id)) /\ cluster_ending id w') /\
    (forall k, (forall id, id ∈ deleted -> k <> (ns, id)) -> w_clusters w' !! k = w_clusters w !! k) /\
    ((forall n, fault n = None) -> forall id, id ∈ DF_ClusterID <$> failed -> w_clusters w !! (ns, id) = None).
Proof.
  revert resp w. induction ids as [|id ids IH]; intros resp w Hnd.
  { exists w, [], []. rewrite !app_nil_r. split_and!; [by destruct resp|done| |done|]; [|intros _]; intros id Hid; by apply elem_of_nil in Hid. }
  apply NoDup_cons in Hnd as [Hid Hnd]. cbn [delete_all]. rewrite bind_run. unfold delete_one. rewrite bind_run. unfold attempt.
  pose proof (delete_cluster_run id w) as Hdel. destruct (DeleteTypedClusterCR ns id w) as [w1 [u|e]].
  - destruct Hdel as (Hsome & Hend & Hother).
    destruct (IH (mkDeleted (DCR_Deleted resp ++ [id]) (DCR_Failed resp) (DCR_Message resp)) w1 Hnd)
      as (w' & deleted & failed & Hrun & Hperm & Hdeleted & Hrest & Hfree).
    exists w', (id :: deleted), failed. cbn [mret M_ret]. rewrite Hrun. cbn [DCR_Deleted DCR_Failed DCR_Message].
    assert (Hnot : id ∉ deleted). { intros H. apply Hid. rewrite <- Hperm. apply elem_of_app. by left. }
    split_and!.
    + by rewrite <- app_assoc.
    + cbn. by rewrite Hperm.
    + intros id' [->|Hin]%elem_of_cons.
      * split; [done|]. intros c. rewrite Hrest; [apply Hend|]. intros id' H [= ->]. done.
      * destruct (Hdeleted id' Hin) as [H1 H2]. split; [|done]. rewrite <- Hother; [done|]. intros [= ->]. done.
    + intros k Hk. rewrite Hrest; [apply Hother, Hk, list_elem_of_here|]. intros id' H. apply Hk. by apply list_elem_of_further.
    + intros Hno id' Hid'. rewrite <- Hother; [by apply Hfree|]. intros [= ->]. apply Hid. rewrite <- Hperm. apply elem_of_app. by right.
  - destruct (IH (mkDeleted (DCR_Deleted resp) (DCR_Failed resp ++
      [mkDeleteFail id (if IsNotFound e then "cluster not found" else error_text e)]) (DCR_Message resp)) w1 Hnd)
      as (w' & deleted & failed & Hrun & Hperm & Hdeleted & Hrest & Hfree). destruct Hdel as [Hdel Hnone].
    exists w', deleted, (mkDeleteFail id (if IsNotFound e then "cluster not found" else error_text e) :: failed).
    cbn [mret M_ret]. rewrite Hrun. cbn [DCR_Deleted DCR_Failed DCR_Message]. rewrite Hdel in Hdeleted, Hrest, Hfree. split_and!; [|  |done|done|].
    + by rewrite <- app_assoc.
    + cbn. rewrite <- Permutation_middle. by rewrite Hperm.
    + intros Hno id' [->|Hid']%elem_of_cons; [by apply Hnone|by apply Hfree].
Qed.

(** C34: A deletion of clusters answers for every cluster asked for, whatever requests
    fail: the ids, trimmed and each once, are in one of the two lists; a deleted
    one was stored and is gone or being deleted now, and every other cluster is as
    it was; without faults only those fail that are not stored. Only an empty list
    of ids is refused. *)
Theorem DeleteClusters_answers ids w :
  exists w' r, answers (DeleteClusters ns (Ok (mkDeleteClusters (Some ids)))) w w' r /\
  match r with
  | Reply code resp => code = StatusOK /\
      NoDup (DCR_Deleted resp ++ (DF_ClusterID <$> DCR_Failed resp)) /\
      (forall id, id ∈ DCR_Deleted resp ++ (DF_ClusterID <$> DCR_Failed resp) <->
         id <> "" /\ exists raw, raw ∈ ids /\ TrimSpace raw = id) /\
      (forall id, id ∈ DCR_Deleted resp -> is_Some (w_clusters w !! (ns, id)) /\ cluster_ending id w') /\
      (forall k, (forall id, id ∈ DCR_Deleted resp -> k <> (ns, id)) -> w_clusters w' !! k = w_clusters w !! k) /\
      ((forall n, fault n = None) ->
       forall id, id ∈ DF_ClusterID <$> DCR_Failed resp -> w_clusters w !! (ns, id) = None)
  | _ => w' = w /\ forall raw, raw ∈ ids -> TrimSpace raw = ""
  end.
Proof.
  unfold answers, DeleteClusters, bound, bind, DeleteClusters_bound. destruct (clean_ids_spec ids) as [Hnd Hids].
  cbn [DC_ClusterIDs from_option]. change (id ids) with ids.
  destruct (clean_ids ids) as [|id rest] eqn:Hc.
  - eexists _, _. split; [done|]. split; [done|]. intros raw Hraw. destruct (decide (TrimSpace raw = "")) as [|Hne]; [done|].
    exfalso. apply (not_elem_of_nil (TrimSpace raw)), Hids. split; [done|]. by exists raw.
  - rewrite <- Hc in *. destruct (delete_all_run (clean_ids ids) (mkDeleted [] [] "") w Hnd)
      as (w' & deleted & failed & Hrun & Hperm & Hdel & Hrest & Hfree).
    rewrite bind_run, Hrun. eexists _, _. split; [done|]. split; [done|]. cbn [DCR_Deleted DCR_Failed app].
    split_and!; [by rewrite Hperm| |done|done|done]. intros x. by rewrite Hperm.
Qed.
End deletions.

(** ** Imports *)

Section imports.
Context {KUBE : KubeLib} {FMT : GoFmt} {LIB : ServerLib} (ns : string).

(** The cluster stored under the new id has the spec and annotations of the import. *)
Lemma imported_stored uid req id server clusters c :
  let new := imported_cluster req ns id server in
  applied uid (in_ns ns new) clusters !! (ns, id) = Some c ->
  Cluster_Spec c = Cluster_Spec new /\ Annotations (Cluster_Meta c) = Annotations (Cluster_Meta new).
Proof.
  intros new. unfold applied. change (res_key (in_ns ns new)) with (ns, id).
  change (Finalizers (meta_of (in_ns ns new))) with (@nil string).
  destruct (clusters !! (ns, id)) as [old|]; [|rewrite lookup_insert_eq; by intros [= <-]].
  destruct (DeletionTimestamp (meta_of old)); [by rewrite lookup_delete_eq|]. rewrite lookup_insert_eq. by intros [= <-].
Qed.

(** C18: An import that is answered with 200 stores the cluster, with the server of its
    kubeconfig, and the kubeconfig in a secret that the cluster controls, under
    the id in the answer; from then on the controllers get the client of that
    kubeconfig for the id. An import that fails stores no secret, and, when it is
    refused with 400, no cluster. Without faults an import with a name and a
    readable kubeconfig succeeds when its new id is not taken. *)
Theorem ImportCluster_configures req w :
  exists w' r, answers (ImportCluster ns (Ok req)) w w' r /\
  match r with
  | Reply code resp => code = StatusOK /\
      let id := ICR_ClusterID resp in
      exists c, w_clusters w' !! (ns, id) = Some c /\ SecretRef (Cluster_Spec c) = id /\
        ExtractServerFromKubeconfig fmt_q (IC_Kubeconfig req) = Ok (APIEndpoint (Cluster_Spec c)) /\
        entry (Annotations (Cluster_Meta c)) AnnotationName = IC_Name req /\
        w_secrets w' = <[(ns, id) := mkSecret [mkOwner "Cluster" (Name (Cluster_Meta c)) (UID (Cluster_Meta c)) (Some true)] {["kubeconfig" := IC_Kubeconfig req]}]>
                         (w_secrets w) /\
        (forall k, k <> (ns, id) -> w_clusters w' !! k = w_clusters w !! k) /\
        forall restCfg cs, RESTConfigFromKubeConfig (IC_Kubeconfig req) = Ok restCfg -> NewForConfig restCfg = Ok cs ->
          id <> "" -> MemberClientCache.configured w' ns id = Some cs
  | Failure code _ => w_secrets w' = w_secrets w /\ (code = StatusBadRequest -> w_clusters w' = w_clusters w)
  | Recovered => False
  end /\
  ((forall n, fault n = None) -> IC_Name req <> "" -> (exists server, ExtractServerFromKubeconfig fmt_q (IC_Kubeconfig req) = Ok server) ->
   w_clusters w !! (ns, uuid_NewString (w_requests w)) = None -> exists body, r = Reply StatusOK body).
Proof.
  unfold answers, ImportCluster, bound. destruct (bind _ _) as [req'|text] eqn:Hb.
  2: { eexists w, _. split_and!; [done..|]. intros _ Hname [server Hs] _. exfalso. revert Hb Hs. unfold bind, required. cbn.
       destruct (IC_Name req); [done|]. by destruct (IC_Kubeconfig req). }
  assert (req' = req /\ str_empty (IC_Kubeconfig req) = false) as [-> Hkc].
  { revert Hb. unfold bind, required. cbn. destruct (str_empty (IC_Name req)), (str_empty (IC_Kubeconfig req)); cbn; by intros [= ->]. }
  unfold ImportCluster_bound. rewrite bind_run. unfold draw_uuid. rewrite bind_run. cbn [loop_number mret M_ret].
  set (id := uuid_NewString (w_requests w)).
  destruct (ExtractServerFromKubeconfig fmt_q (IC_Kubeconfig req)) as [server|e].
  2: { eexists _, _. split_and!; [done..|]. by intros _ _ [? ?]. }
  rewrite bind_run. unfold attempt at 1, ApplyTypedClusterCR. set (new := imported_cluster req ns id server).
  pose proof (apply_typed_applies ns new (tick w)) as Happ.
  pose proof (preserves_apply_typed (A := Cluster) w_secrets (fun _ => eq_refl) (fun _ _ => eq_refl) ns new (tick w)) as Hsec1.
  assert (Hrun : (forall n, fault n = None) -> exists w', apply_typed ns new (tick w) = (w', Ok tt)).
  { intros Hno. apply apply_typed_succeeds; [done|by eexists|by left]. }
  destruct (apply_typed ns new (tick w)) as [w1 [u|e]]; cbn [fst] in Hsec1.
  2: { eexists w1, _. split_and!; [done..|]. intros Hno. by destruct (Hrun Hno). }
  destruct Happ as (uid & o & [= <-] & Happ). change (w_clusters w1 = applied uid (in_ns ns new) (w_clusters w)) in Happ.
  rewrite bind_run. unfold attempt at 1, GetTypedClusterCR.
  assert (Hkey : res_key (in_ns ns new) = (ns, id)) by done.
  destruct (rest_get_run (A := Cluster) ns id w1) as (r & Hget & Hr). rewrite Hget. destruct r as [c|e].
  2: { eexists _, _. split_and!; [done..|]. intros Hno _ _ Hfresh. unfold rest_get in Hget.
       rewrite get_object_run in Hget by done. injection Hget as Hget. change (objects_of (tick w1)) with (w_clusters w1) in Hget.
       fold id in Hfresh. rewrite Happ in Hget. unfold applied in Hget. rewrite Hkey, Hfresh, lookup_insert_eq in Hget. discriminate. }
  specialize (Hr c eq_refl). change (w_clusters w1 !! (ns, id) = Some c) in Hr.
  rewrite bind_run. unfold attempt. pose proof (CreateSecret_outcome ns id (imported_secret req c) (tick w1)) as Hs.
  pose proof (preserves_CreateSecret w_clusters ns id (imported_secret req c) (fun _ => eq_refl) (fun _ _ => eq_refl) (tick w1)) as Hc1.
  assert (Hsucc := CreateSecret_succeeds ns id (imported_secret req c) (tick w1)).
  destruct (CreateSecret ns id (imported_secret req c) (tick w1)) as [w2 [v|e]]; cbn [fst snd] in Hc1, Hsucc.
  2: { eexists w2, _. split; [done|]. cbn. split; [split; [by rewrite Hs|done]|]. intros Hno. by specialize (Hsucc Hno). }
  change (w_clusters w2 = w_clusters w1) in Hc1. change (w_secrets w2 = <[(ns, id) := imported_secret req c]> (w_secrets w1)) in Hs.
  rewrite Hsec1 in Hs. change (w_secrets (tick w)) with (w_secrets w) in Hs.
  rewrite Happ in Hr. destruct (imported_stored _ _ _ _ _ _ Hr) as [Hspec Hann]. rewrite <- Happ in Hr.
  eexists w2, _. split; [done|]. split; [|intros _ _ _ _; by eexists]. split; [done|]. exists c.
  rewrite Hc1, Hspec, Hann. split_and!; [done|done|done| |exact Hs| |].
  - unfold entry. cbn. by rewrite lookup_insert_eq.
  - intros k Hk. rewrite Happ. apply applied_other. by rewrite Hkey.
  - intros restCfg cs H1 H2 Hid. unfold MemberClientCache.configured. rewrite Hc1. cbn [ICR_ClusterID] in *. rewrite Hr. cbn [mbind option_bind].
    rewrite Hspec. cbn [SecretRef Cluster_Spec new imported_cluster]. rewrite Hs, lookup_insert_eq. cbn [mbind option_bind imported_secret Secret_Data].
    rewrite lookup_singleton_eq. cbn. rewrite Hkc, H1, H2. by destruct id.
Qed.
End imports.

(** ** Listings *)

Section listings.
Context {KUBE : KubeLib} {SORT : GoSort} {LIB : ServerLib} (ns : string).

Definition by_name (x y : ClusterSummary) : bool := String.ltb (CS_Name x) (CS_Name y).

(** A listing without overflow shows the clusters of the namespace that pass every
    filter asked for, sorted by name, a page of them, and their number. *)
Lemma ListClusters_lists req w :
  page_fits (size (w_clusters w)) (LC_Page req) (LC_PageSize req) ->
  exists w' r, answers (ListClusters ns (Ok req)) w w' r /\ w_clusters w' = w_clusters w /\
  match r with
  | Reply code resp => code = StatusOK /\
      page_shown (cluster_listed req (parseLabelSelector (LC_LabelSelector req))) cluster_summary by_name
        (in_store (w_clusters w) ns) (page_number (LC_Page req)) (page_size (LC_PageSize req)) (LCR_Total resp) (LCR_Items resp)
  | Failure code _ => code = StatusInternalServerError
  | Recovered => False
  end.
Proof.
  intros Hfits. unfold answers, ListClusters, bound, bind, ListClusters_bound.
  rewrite bind_run. unfold attempt, ListTypedClusterCRs.
  destruct (list_objects_run w_clusters ns w) as (r & Hrun & Hr).
  change (rest_list (A := Cluster) ns) with (list_objects w_clusters (in_namespace ns)). rewrite Hrun.
  destruct r as [found|e]; [|by eexists _, _]. specialize (Hr found eq_refl eq_refl).
  change (fun x y => String.ltb (CS_Name x) (CS_Name y)) with by_name.
  destruct (sorted_page_shown (cluster_listed req (parseLabelSelector (LC_LabelSelector req))) cluster_summary by_name
    (w_clusters w) ns found _ _ (strict_weak_by_text CS_Name) Hr Hfits) as (items & _ & -> & Hshown).
  by eexists _, _.
Qed.
End listings.

(** ** A concrete update *)

Definition demo_stored_cluster : Cluster :=
  mkCluster (mkMeta "c1" "kubex" "u1" 1 {["zone" := "a"]} {[AnnotationDescription := "old"]} [] None [])
    (mkClusterSpec "https://c1" "c1") empty_cluster_status.
Definition demo_update_world : World := set_clusters (fun _ => {[("kubex", "c1") := demo_stored_cluster]}) empty_world.

Lemma UpdateCluster_updates_witness :
  let req := mkUpdateCluster "c1" "" "new" "cloud" {["zone" := "b"]} in
  exists w' body, answers (UpdateCluster (KUBE := reliable_kube) (LIB := demo_lib) "kubex" (Ok req))
    demo_update_world w' (Reply StatusOK body) /\
  UCR_Description body = "new" /\ UCR_Labels body !! "provider" = Some "cloud" /\ UCR_Labels body !! "zone" = Some "b".
Proof.
  intros req.
  destruct (UpdateCluster_updates (KUBE := reliable_kube) (LIB := demo_lib) "kubex" req demo_update_world) as (w' & r & Hans & Hr & Hiff).
  - apply map_Forall_singleton. split; [reflexivity|by left].
  - destruct Hiff as [_ Hiff]; [done|discriminate|]. destruct Hiff as [body ->]; [exists demo_stored_cluster; by_eval|].
    exists w', body. split; [exact Hans|]. destruct Hr as (_ & c & c' & _ & Hup & _ & _ & Hl & _ & Hd). split; [exact Hd|].
    destruct Hup as (_ & _ & _ & _ & _ & _ & _ & Hlabels & _). rewrite Hl. split; rewrite Hlabels; by_eval.
Defined.
