(* ===== verification/DeploymentHandler.v ===== *)
(** * The deployment handlers of the REST server
    (internal/api/globaldeployment_*handler.go)

    Create, list, read and delete GlobalDeployments. The kube layer is the applier
    of ServerKube, which has every method the handlers ask for. Log lines are
    not modelled. *)

From S2P Require Import Prelude GoText ApiTypes KubeApi MemberClients ServerBase ServerKube ClusterHandler.

Local Open Scope string_scope.
Local Open Scope list_scope.

(** ** Requests and responses *)

Record CreateGlobalDeploymentResponse := mkCreatedGD {
  CGR_Name : string; CGR_Namespace : string; CGR_Replicas : Z; CGR_Message : string
}.
Record ListGlobalDeploymentsRequest := mkListGDs { LG_Namespace : string; LG_Name : string; LG_Page : Z; LG_PageSize : Z }.
Record GlobalDeploymentItem := mkGDItem {
  GI_Name : string; GI_Namespace : string; GI_Replicas : Z; GI_Running : Z; GI_Failed : Z; GI_Phase : string; GI_Created : Time
}.
Record ListGlobalDeploymentsResponse := mkGDList { LGR_Total : Z; LGR_Items : list GlobalDeploymentItem }.
(** The key of a deployment that a request is about. *)
Record GlobalDeploymentRequest := mkGDRequest { GR_Name : string; GR_Namespace : string }.
Record GetGlobalDeploymentBinding := mkGDBinding {
  GB_ReplicaIndex : Z; GB_ClusterID : string; GB_ClusterName : string; GB_NodeName : string; GB_Phase : string;
  GB_LastError : string; GB_LastTransitionTime : string
}.
(** The template: none, the value of its JSON, or its raw text. *)
Inductive shown_template := NoTemplate | Decoded (value : string) | RawText (text : string).
Record GetGlobalDeploymentResponse := mkGetGD {
  GGR_Name : string; GGR_Namespace : string; GGR_Labels : gmap string string; GGR_Annotations : gmap string string;
  GGR_Replicas : Z; GGR_Running : Z; GGR_Failed : Z; GGR_Phase : string; GGR_Template : shown_template;
  GGR_Bindings : list GetGlobalDeploymentBinding
}.

(** ** What a handler computes *)

(** [func derefI32(p *int32, def int32) int32]. *)
Definition derefI32 (p : option Z) (def : Z) : Z := default def p.

(** [func validateDeploymentSpec(depSpec)]: the error's text. *)
Definition validateDeploymentSpec (d : YamlDeployment) : result string unit :=
  if (Y_Containers d =? 0)%nat then Err "invalid templateYAML: spec.template.spec.containers must not be empty" else Ok tt.

(** [func parseDeploymentYAML(y, defaultNamespace)]: name, namespace and what was
    read. Only the letters of the kind may differ in case. *)
Definition parseDeploymentYAML {LIB : ServerLib} (y defaultNamespace : string) : result string (string * string * YamlDeployment) :=
  let s := TrimSpace y in
  if str_empty s then Err "yaml is required"
  else
    match yaml_Deployment s with
    | None => Err "invalid yaml: must be a Kubernetes Deployment YAML"
    | Some dep =>
        if negb (String.eqb (lower_all (Y_Kind dep)) "deployment") then Err "invalid yaml: kind must be Deployment"
        else
          let name := TrimSpace (Y_Name dep) in
          if str_empty name then Err "invalid yaml: metadata.name is required"
          else
            let ns := namespace_or (Y_Namespace dep) defaultNamespace in
            let ns := if str_empty ns then "default" else ns in
            match validateDeploymentSpec dep with
            | Err text => Err text
            | Ok _ => Ok (name, ns, dep)
            end
    end.

(** The object of a creation. *)
Definition created_deployment (name ns : string) (replicas : option Z) (template : string) : GlobalDeployment :=
  mkGD (mkMeta name ns "" 0 ∅ ∅ [] None []) (mkGDSpec replicas template) empty_gd_status.

Definition deployment_item {LIB : ServerLib} (gd : GlobalDeployment) : GlobalDeploymentItem :=
  mkGDItem (Name (GD_Meta gd)) (Namespace (GD_Meta gd)) (derefI32 (Replicas (GD_Spec gd)) 1) (GD_Running (GD_Status gd))
    (GD_Failed (GD_Status gd)) (GD_Phase (GD_Status gd)) (CreationTimestamp (GD_Meta gd)).
Definition name_contains (nameFilter name : string) : bool := str_empty nameFilter || str_contains name nameFilter.

Definition template_object {LIB : ServerLib} (raw : string) : shown_template :=
  if str_empty raw then NoTemplate
  else match json_Value raw with Some v => Decoded v | None => RawText raw end.

(** The bindings of a deployment. *)
Definition refers_to (gd : GlobalDeployment) (rb : ReplicaBinding) : bool :=
  let ref := RBS_GlobalDeploymentRef (RB_Spec rb) in
  negb (negb (String.eqb (Ref_Name ref) (Name (GD_Meta gd))) ||
        negb (String.eqb (Ref_Namespace ref) (Namespace (GD_Meta gd)))).
Definition shown_binding {LIB : ServerLib} (clusterName : string) (rb : ReplicaBinding) : GetGlobalDeploymentBinding :=
  mkGDBinding (RBS_ReplicaIndex (RB_Spec rb)) (TargetCluster (RB_Spec rb)) clusterName (TargetNodeName (RB_Spec rb))
    (RB_Phase (RB_Status rb)) (LastError (RB_Status rb))
    (match LastTransitionTime (RB_Status rb) with Some t => RFC3339 (local_offset t) t | None => "" end).

(** The name shown for a cluster: the annotation, else the id. *)
Definition display_name (clusterID : string) (got : result api_error Cluster) : string :=
  match got with
  | Ok cr =>
      let clusterName := TrimSpace (entry (Annotations (Cluster_Meta cr)) AnnotationName) in
      if str_empty clusterName then clusterID else clusterName
  | Err _ => clusterID
  end.

Section handlers.
Context {KUBE : KubeLib} {SORT : GoSort} {LIB : ServerLib} (configured_ns : string).

(** ** Handlers *)

(** [func (h) CreateGlobalDeployment(c)]: the request is the YAML. *)
Definition CreateGlobalDeployment_bound (yaml : string) : M (Response CreateGlobalDeploymentResponse) :=
  match parseDeploymentYAML yaml configured_ns with
  | Err text => mret (Failure StatusBadRequest text)
  | Ok (name, ns, dep) =>
      match Y_SpecJSON dep with
      | None => mret (Failure StatusBadRequest "invalid templateYAML: cannot encode as json")
      | Some depSpecJSON =>
          r ← attempt (ApplyTypedGlobalDeploymentCR ns (created_deployment name ns (Y_Replicas dep) depSpecJSON));
          mret (match r with
                | Err e =>
                    if IsAlreadyExists e then Failure StatusConflict "globalDeployment already exists"
                    else Failure StatusInternalServerError "create globalDeployment failed"
                | Ok _ =>
                    Reply StatusOK (mkCreatedGD name ns (derefI32 (Y_Replicas dep) 1) "GlobalDeployment created successfully")
                end)
      end
  end.
Definition CreateGlobalDeployment (decoded : result string string) : M (Response CreateGlobalDeploymentResponse) :=
  bound (fun yaml => required [("YAML", yaml)]) decoded CreateGlobalDeployment_bound.

(** [func (h) ListGlobalDeployments(c)]. *)
Definition ListGlobalDeployments_bound (req : ListGlobalDeploymentsRequest) : M (Response ListGlobalDeploymentsResponse) :=
  let ns := namespace_or (LG_Namespace req) configured_ns in
  let nameFilter := TrimSpace (LG_Name req) in
  list ← attempt (ListTypedGlobalDeploymentCRs ns);
  match list with
  | Err _ => mret (Failure StatusInternalServerError "list globaldeployments failed")
  | Ok found =>
      let items := sort_slice (newer GI_Created)
        (deployment_item <$> List.filter (fun gd => name_contains nameFilter (Name (GD_Meta gd))) found) in
      mret (reply_page (page_items items (page_number (LG_Page req)) (page_size (LG_PageSize req)))
        (mkGDList (Z.of_nat (length items))))
  end.
Definition ListGlobalDeployments (decoded : result string ListGlobalDeploymentsRequest)
    : M (Response ListGlobalDeploymentsResponse) :=
  bound (fun _ => []) decoded ListGlobalDeployments_bound.

(** The names of the clusters, each read once. *)
Definition cluster_name (cache : gmap string string) (clusterID : string) : M (gmap string string * string) :=
  if str_empty clusterID then mret (cache, "")
  else
    match cache !! clusterID with
    | Some v => mret (cache, v)
    | None =>
        got ← attempt (GetTypedClusterCR configured_ns clusterID);
        let clusterName := display_name clusterID got in
        mret (<[clusterID := clusterName]> cache, clusterName)
    end.
Fixpoint show_bindings (gd : GlobalDeployment) (cache : gmap string string) (items : list ReplicaBinding)
    : M (list GetGlobalDeploymentBinding) :=
  match items with
  | [] => mret []
  | rb :: items' =>
      if refers_to gd rb then
        named ← cluster_name cache (TargetCluster (RB_Spec rb));
        rest ← show_bindings gd named.1 items';
        mret (shown_binding named.2 rb :: rest)
      else show_bindings gd cache items'
  end.

(** [func (h) GetGlobalDeployment(c)]. *)
Definition GetGlobalDeployment_bound (req : GlobalDeploymentRequest) : M (Response GetGlobalDeploymentResponse) :=
  let name := TrimSpace (GR_Name req) in
  let ns := TrimSpace (GR_Namespace req) in
  if str_empty name || str_empty ns then mret (Failure StatusBadRequest "name and namespace are required")
  else
    got ← attempt (GetTypedGlobalDeploymentCR ns name);
    match got with
    | Err _ => mret (Failure StatusInternalServerError "get globaldeployment failed")
    | Ok gd =>
        list ← attempt (ListTypedReplicaBindingCRs ns);
        match list with
        | Err _ => mret (Failure StatusInternalServerError "list replicabindings failed")
        | Ok items =>
            bindings ← show_bindings gd ∅ items;
            mret (Reply StatusOK (mkGetGD (Name (GD_Meta gd)) (Namespace (GD_Meta gd)) (Labels (GD_Meta gd))
              (Annotations (GD_Meta gd)) (derefI32 (Replicas (GD_Spec gd)) 1) (GD_Running (GD_Status gd))
              (GD_Failed (GD_Status gd)) (GD_Phase (GD_Status gd)) (template_object (Template (GD_Spec gd))) bindings))
        end
    end.
Definition key_required (req : GlobalDeploymentRequest) : list string :=
  required [("Name", GR_Name req); ("Namespace", GR_Namespace req)].
Definition GetGlobalDeployment (decoded : result string GlobalDeploymentRequest) : M (Response GetGlobalDeploymentResponse) :=
  bound key_required decoded GetGlobalDeployment_bound.

(** [func buildMemberClientset(kubeconfigYAML)]. *)
Definition buildMemberClientset (kubeconfigYAML : string) : M string :=
  restCfg ← wrapping "build rest config from kubeconfig" (MemberClientCache.lift (RESTConfigFromKubeConfig kubeconfigYAML));
  wrapping "new clientset" (MemberClientCache.lift (NewForConfig restCfg)).

(** [func (h) deleteMemberDeployment(c, k, clusterID, workloadNS, depName)]. *)
Definition deleteMemberDeployment (clusterID workloadNS depName : string) : M unit :=
  let controlNS := if str_empty configured_ns then workloadNS else configured_ns in
  clusterCR ← wrapping "get cluster CR" (GetTypedClusterCR controlNS clusterID);
  sec ← wrapping "get cluster secret" (GetSecret controlNS (SecretRef (Cluster_Spec clusterCR)));
  let kubeconfig := entry (Secret_Data sec) "kubeconfig" in
  let kubeconfig := if str_empty kubeconfig then entry (Secret_Data sec) "value" else kubeconfig in
  if str_empty kubeconfig then
    throw (OtherError ("kubeconfig is empty in secret " +:+ controlNS +:+ "/" +:+ SecretRef (Cluster_Spec clusterCR)))
  else
    cs ← buildMemberClientset kubeconfig;
    r ← attempt (deployment_delete cs workloadNS depName);
    match r with
    | Ok _ => mret tt
    | Err e =>
        if IsNotFound e then mret tt
        else throw (Wrapped ("delete deployment " +:+ workloadNS +:+ "/" +:+ depName) e)
    end.

(** The pass of the loop for one binding. *)
Definition replica_deployment (gd : GlobalDeployment) (rb : ReplicaBinding) : string :=
  Name (GD_Meta gd) +:+ "-r" +:+ pretty (RBS_ReplicaIndex (RB_Spec rb)).
Definition delete_replica (ns : string) (gd : GlobalDeployment) (rb : ReplicaBinding) : M unit :=
  if negb (refers_to gd rb) then mret tt
  else
    (if str_empty (TargetCluster (RB_Spec rb)) then mret tt
     else ignore (deleteMemberDeployment (TargetCluster (RB_Spec rb)) (Namespace (GD_Meta gd)) (replica_deployment gd rb))) ≫= fun _ =>
    ignore (DeleteTypedReplicaBindingCR ns (Name (RB_Meta rb))).

(** [func (h) DeleteGlobalDeployment(c)]: the response is a message. *)
Definition DeleteGlobalDeployment_bound (req : GlobalDeploymentRequest) : M (Response string) :=
  let name := TrimSpace (GR_Name req) in
  let ns := TrimSpace (GR_Namespace req) in
  if str_empty name || str_empty ns then mret (Failure StatusBadRequest "name and namespace are required")
  else
    got ← attempt (GetTypedGlobalDeploymentCR ns name);
    match got with
    | Err e =>
        mret (if IsNotFound e then Failure StatusNotFound "globaldeployment not found"
              else Failure StatusInternalServerError "get globaldeployment failed")
    | Ok gd =>
        list ← attempt (ListTypedReplicaBindingCRs ns);
        match list with
        | Err _ => mret (Failure StatusInternalServerError "list replicabindings failed")
        | Ok items =>
            for_each (delete_replica ns gd) items ≫= fun _ =>
            r ← attempt (DeleteTypedGlobalDeploymentCR ns (Name (GD_Meta gd)));
            mret (match r with
                  | Ok _ => Reply StatusOK "GlobalDeployment deletion started"
                  | Err e =>
                      if IsNotFound e then Reply StatusOK "GlobalDeployment deletion started"
                      else Failure StatusInternalServerError "delete globaldeployment failed"
                  end)
        end
    end.
Definition DeleteGlobalDeployment (decoded : result string GlobalDeploymentRequest) : M (Response string) :=
  bound key_required decoded DeleteGlobalDeployment_bound.
End handlers.

(** ** Creations *)

Section creations.
Context {KUBE : KubeLib} {SORT : GoSort} {LIB : ServerLib} (configured_ns : string).

(** What a creation leaves under the key: a new object, or the old one with a new
    spec and without labels, annotations, finalizers and owners; one under deletion
    goes. *)
Definition overwritten (uid : string) (new : GlobalDeployment) (stored : option GlobalDeployment) : option GlobalDeployment :=
  let m := GD_Meta new in
  match stored with
  | None => Some (mkGD (mkMeta (Name m) (Namespace m) uid 1 ∅ ∅ [] None []) (GD_Spec new) empty_gd_status)
  | Some old =>
      match DeletionTimestamp (GD_Meta old) with
      | Some _ => None
      | None =>
          let generation := Generation (GD_Meta old) in
          Some (mkGD (mkMeta (Name m) (Namespace m) (UID (GD_Meta old))
                        (if bool_decide (GD_Spec old = GD_Spec new) then generation else generation + 1)%Z ∅ ∅ [] None [])
                  (GD_Spec new) (GD_Status old))
      end
  end.

Lemma applied_overwrites uid name ns replicas template gds :
  map_Forall (fun k gd => res_key gd = k) gds ->
  let new := created_deployment name ns replicas template in
  applied uid (in_ns ns new) gds = partial_alter (overwritten uid new) (ns, name) gds.
Proof.
  intros Hkeys new. unfold applied. rewrite res_key_in_ns. change (ns, Name (meta_of new)) with (ns, name).
  apply map_eq. intros k. destruct (decide (k = (ns, name))) as [->|Hk].
  2: { rewrite lookup_partial_alter_ne by done. destruct (gds !! (ns, name)) as [old|]; [|by rewrite lookup_insert_ne].
       cbn [in_ns meta_of deployment_resource with_meta Finalizers GD_Meta new created_deployment].
       destruct (DeletionTimestamp (GD_Meta old)); by rewrite ?lookup_delete_ne, ?lookup_insert_ne. }
  rewrite lookup_partial_alter_eq. destruct (gds !! (ns, name)) as [old|] eqn:Hold; [|by rewrite lookup_insert_eq].
  specialize (Hkeys _ _ Hold). cbn in Hkeys. injection Hkeys as Hns Hname. unfold put_meta. cbn.
  destruct (DeletionTimestamp (GD_Meta old)); [by rewrite lookup_delete_eq|]. rewrite lookup_insert_eq, Hns, Hname.
  by case_bool_decide.
Qed.

(** A creation whose YAML is accepted. *)
Lemma create_accepted_run yaml name ns dep template w :
  map_Forall (fun k gd => res_key gd = k) (w_gds w) ->
  parseDeploymentYAML yaml configured_ns = Ok (name, ns, dep) -> Y_SpecJSON dep = Some template ->
  exists w' r, CreateGlobalDeployment configured_ns (Ok yaml) w = (w', Ok r) /\
    match r with
    | Reply code resp => code = StatusOK /\ CGR_Name resp = name /\ CGR_Namespace resp = ns /\
        exists uid, w_gds w' =
          partial_alter (overwritten uid (created_deployment name ns (Y_Replicas dep) template)) (ns, name) (w_gds w)
    | Failure code _ => code <> StatusBadRequest /\ w_gds w' = w_gds w /\ ~ (forall n, fault n = None)
    | Recovered => False
    end.
Proof.
  intros Hkeys Hp Ht. unfold CreateGlobalDeployment, bound, bind, required. cbn [omap list_omap snd fst].
  destruct (str_empty yaml) eqn:Hy; [by destruct yaml|]. unfold CreateGlobalDeployment_bound. rewrite Hp, Ht.
  rewrite bind_run. unfold attempt, ApplyTypedGlobalDeploymentCR. set (new := created_deployment name ns (Y_Replicas dep) template).
  pose proof (apply_typed_applies ns new w) as Happ.
  assert (Hrun : (forall n, fault n = None) -> exists w', apply_typed ns new w = (w', Ok tt)) by (intros; apply apply_typed_succeeds; [done|by eexists|by left]).
  destruct (apply_typed ns new w) as [w' [u|e]].
  - destruct Happ as (uid & o & [= <-] & Happ). change (w_gds w' = applied uid (in_ns ns new) (w_gds w)) in Happ.
    unfold new in Happ. rewrite applied_overwrites in Happ by done. eexists w', _. split; [done|]. split_and!; [done..|]. by exists uid.
  - eexists w', _. split; [done|].
    destruct (IsAlreadyExists e); (split_and!; [done|exact Happ|]); intros Hno; by destruct (Hrun Hno).
Qed.

(** A creation whose YAML is accepted is never refused because the deployment
    exists: without faults it is answered with 200, and the stored deployment is
    overwritten, its spec with the new one and its labels, annotations, finalizers
    and owners with none; a deployment under deletion is gone at once, whatever
    its finalizers were kept for. A failed creation leaves the deployments alone,
    and so does one that is refused. *)
Theorem CreateGlobalDeployment_overwrites yaml w :
  map_Forall (fun k gd => res_key gd = k) (w_gds w) ->
  exists w' r, answers (CreateGlobalDeployment configured_ns (Ok yaml)) w w' r /\
  match r with
  | Reply code resp => code = StatusOK /\
      exists name ns dep template uid, parseDeploymentYAML yaml configured_ns = Ok (name, ns, dep) /\
        Y_SpecJSON dep = Some template /\ CGR_Name resp = name /\ CGR_Namespace resp = ns /\
        w_gds w' = partial_alter (overwritten uid (created_deployment name ns (Y_Replicas dep) template)) (ns, name) (w_gds w)
  | Failure code _ => w_gds w' = w_gds w /\ (code = StatusBadRequest -> w' = w)
  | Recovered => False
  end /\
  ((forall k, fault k = None) ->
   (exists body, r = Reply StatusOK body) <->
   exists name ns dep template, parseDeploymentYAML yaml configured_ns = Ok (name, ns, dep) /\ Y_SpecJSON dep = Some template).
Proof.
  intros Hkeys. destruct (parseDeploymentYAML yaml configured_ns) as [[[name ns] dep]|text] eqn:Hp; [destruct (Y_SpecJSON dep) as [template|] eqn:Ht|].
  - destruct (create_accepted_run yaml name ns dep template w Hkeys Hp Ht) as (w' & r & Hrun & Hr). exists w', r. split; [done|].
    destruct r as [code resp|code text|]; [|destruct Hr as (Hc & Hg & Hf)|done].
    + destruct Hr as (-> & Hn & Hns & uid & Hg). split; [split; [done|by exists name, ns, dep, template, uid]|].
      intros _. split; [|by eexists]. intros _. by exists name, ns, dep, template.
    + split; [done|]. by intros Hno%Hf.
  - unfold answers, CreateGlobalDeployment, bound, bind, required. cbn [omap list_omap snd fst].
    destruct (str_empty yaml) eqn:Hy; [by destruct yaml|]. unfold CreateGlobalDeployment_bound. rewrite Hp, Ht.
    eexists w, _. split; [done|]. split; [done|]. intros _. split; [by intros [? ?]|].
    intros (? & ? & ? & ? & [= <- <- <-] & ?). congruence.
  - unfold answers, CreateGlobalDeployment, bound, bind, required. cbn [omap list_omap snd fst].
    assert (Hno : forall P : Prop, (exists name ns dep template, @Err string (string * string * YamlDeployment) text = Ok (name, ns, dep) /\
      Y_SpecJSON dep = Some template) -> P) by by intros P (? & ? & ? & ? & ? & _).
    destruct (str_empty yaml) eqn:Hy; [|unfold CreateGlobalDeployment_bound; rewrite Hp];
      (eexists w, _; split; [done|]; split; [done|]; intros _; split; [by intros [? ?]|apply Hno]).
Qed.
End creations.

(** ** Deletions *)

(** A deployment or binding is gone or being deleted. *)
Definition gd_ending (o : option GlobalDeployment) : Prop :=
  match o with None => True | Some gd => DeletionTimestamp (GD_Meta gd) <> None end.
Definition rb_ending (o : option ReplicaBinding) : Prop :=
  match o with None => True | Some rb => DeletionTimestamp (RB_Meta rb) <> None end.

(** What becomes of a binding that at most deletions touch. *)
Definition winds_down (o o' : option ReplicaBinding) : Prop :=
  o' = o \/ o' = None \/ exists t, o' = mark_rb_deleting t <$> o.

(** Member clusters where at most the deployments chosen change. *)
Definition members_but (chosen : Key -> Prop) (ms ms' : gmap string MemberCluster) : Prop :=
  forall cs, match ms !! cs, ms' !! cs with
             | Some mc, Some mc' =>
                 mc_namespaces mc' = mc_namespaces mc /\ mc_pods mc' = mc_pods mc /\ mc_nodes mc' = mc_nodes mc /\
                 forall k, ~ chosen k -> mc_deployments mc' !! k = mc_deployments mc !! k
             | None, None => True
             | _, _ => False
             end.

#[export] Instance winds_down_preorder : PreOrder winds_down.
Proof.
  split; [by left|]. intros o1 o2 o3 [->|[->|[t ->]]] H2; [done|right; left|].
  - destruct H2 as [->|[->|[t ->]]]; done.
  - destruct H2 as [->|[->|[t' ->]]]; [by right; right; exists t|by right; left|]. right. right. exists t.
    destruct o1 as [rb|]; [|done]. unfold mark_rb_deleting. cbn. by destruct (DeletionTimestamp (RB_Meta rb)).
Qed.

#[export] Instance members_but_preorder chosen : PreOrder (members_but chosen).
Proof.
  split.
  - intros ms cs. by destruct (ms !! cs).
  - intros m1 m2 m3 H1 H2 cs. specialize (H1 cs). specialize (H2 cs).
    destruct (m1 !! cs), (m2 !! cs), (m3 !! cs); try done. destruct H1 as (? & ? & ? & H1), H2 as (? & ? & ? & H2).
    split_and!; [congruence..|]. intros k Hk. by rewrite H2, H1.
Qed.

Lemma winds_down_ending o o' : winds_down o o' -> rb_ending o -> rb_ending o'.
Proof.
  intros [->|[->|[t ->]]]; [done|done|]. destruct o as [rb|]; [|done]. cbn. by destruct (DeletionTimestamp (RB_Meta rb)).
Qed.

Lemma members_but_mono (P Q : Key -> Prop) ms ms' : (forall k, P k -> Q k) -> members_but P ms ms' -> members_but Q ms ms'.
Proof.
  intros HPQ H cs. specialize (H cs). destruct (ms !! cs), (ms' !! cs); try done.
  destruct H as (H1 & H2 & H3 & H4). split_and!; [done..|]. intros k Hk. apply H4. auto.
Qed.

Section deletions.
Context {KUBE : KubeLib} {SORT : GoSort} {LIB : ServerLib} (configured_ns : string).

Lemma delete_binding_run k w :
  let w' := (delete_rb k w).1 in
  w_gds w' = w_gds w /\ w_members w' = w_members w /\
  (forall k', k' <> k -> w_rbs w' !! k' = w_rbs w !! k') /\ winds_down (w_rbs w !! k) (w_rbs w' !! k) /\
  ((forall n, fault n = None) -> rb_ending (w_rbs w' !! k)).
Proof.
  unfold delete_rb, request. destruct (fault _) as [e|] eqn:Hfault.
  { split_and!; [done|done|done|by left|]. intros Hno. congruence. }
  change (w_rbs (tick w)) with (w_rbs w). destruct (w_rbs w !! k) as [rb|] eqn:Hrb.
  2: { split_and!; [done|done|done|by left|]. intros _. cbn. by rewrite Hrb. }
  destruct (Finalizers (RB_Meta rb)); cbn; (split_and!; [done|done| | |]).
  - intros k' Hk. by apply lookup_delete_ne.
  - rewrite lookup_delete_eq. by right; left.
  - by rewrite lookup_delete_eq.
  - intros k' Hk. by apply lookup_insert_ne.
  - rewrite lookup_insert_eq. right; right. by exists (w_clock w).
  - intros _. rewrite lookup_insert_eq. cbn. by destruct (DeletionTimestamp (RB_Meta rb)).
Qed.

(** The deletion in a member cluster reaches the one deployment. *)
Lemma keeps_member_delete ms ns name cs chosen :
  chosen (ns, name) -> keeps (fun w => members_but chosen ms (w_members w)) (deployment_delete cs ns name).
Proof.
  intros Hc. apply hoare_request; [done|]. intros w Hw. cbn. destruct (w_members w !! cs) as [mc|] eqn:Hmc; [|exact Hw].
  assert (Hone : forall deps, (forall k, ~ chosen k -> deps !! k = mc_deployments mc !! k) ->
    members_but chosen ms (<[cs := with_deployments mc deps]> (w_members w))).
  { intros deps Hd. etrans; [exact Hw|]. intros cs'. destruct (decide (cs' = cs)) as [->|Hne].
    - by rewrite lookup_insert_eq, Hmc.
    - rewrite lookup_insert_ne by done. by destruct (w_members w !! cs'). }
  assert (Hne : forall k, ~ chosen k -> (ns, name) <> k) by congruence.
  destruct (mc_deployments mc !! (ns, name)) as [dep|] eqn:Hdep; cbn.
  - destruct (Dep_Finalizers dep); apply Hone; intros k Hk%Hne; [by rewrite lookup_delete_ne|by rewrite lookup_insert_ne].
  - rewrite insert_id by done. exact Hw.
Qed.

Lemma keeps_wrapping {A} I msg (m : M A) : keeps I m -> keeps I (wrapping msg m).
Proof. intros Hm. apply keeps_bind; [by apply keeps_attempt|]. intros [v|e]; [apply keeps_ret|apply keeps_throw]. Qed.
Lemma keeps_lift {A} I (r : result api_error A) : keeps I (MemberClientCache.lift r).
Proof. destruct r; [apply keeps_ret|apply keeps_throw]. Qed.

(** The control cluster and the rest of the member clusters stay as they are. *)
Lemma keeps_deleteMemberDeployment (I : World -> Prop) clusterID ns depName :
  (forall w, I w -> I (tick w)) -> (forall cs, keeps I (deployment_delete cs ns depName)) ->
  keeps I (deleteMemberDeployment configured_ns clusterID ns depName).
Proof.
  intros Ht Hd. unfold deleteMemberDeployment. cbv zeta.
  apply keeps_bind; [by apply keeps_wrapping, keeps_get_object|]. intros c.
  apply keeps_bind; [by apply keeps_wrapping, keeps_get_object|]. intros sec.
  destruct (str_empty _); [apply keeps_throw|]. apply keeps_bind.
  { apply keeps_bind; [apply keeps_wrapping, keeps_lift|]. intros cfg. apply keeps_wrapping, keeps_lift. }
  intros cs. apply keeps_bind; [by apply keeps_attempt|]. intros [u|e]; [apply keeps_ret|].
  destruct (IsNotFound e); [apply keeps_ret|apply keeps_throw].
Qed.

(** The keys of the deployment's replicas in the member clusters, and those of its
    bindings among the ones listed. *)
Definition replica_keys (gd : GlobalDeployment) (items : list ReplicaBinding) (k : Key) : Prop :=
  exists rb, rb ∈ items /\ refers_to gd rb = true /\ k = (Namespace (GD_Meta gd), replica_deployment gd rb).
Definition binding_keys (ns : string) (gd : GlobalDeployment) (items : list ReplicaBinding) (k : Key) : Prop :=
  exists rb, rb ∈ items /\ refers_to gd rb = true /\ k = (ns, Name (RB_Meta rb)).

Lemma delete_replica_run ns gd rb w :
  exists w', delete_replica configured_ns ns gd rb w = (w', Ok tt) /\ w_gds w' = w_gds w /\
    members_but (replica_keys gd [rb]) (w_members w) (w_members w') /\
    (forall k, ~ binding_keys ns gd [rb] k -> w_rbs w' !! k = w_rbs w !! k) /\
    (forall k, winds_down (w_rbs w !! k) (w_rbs w' !! k)) /\
    ((forall n, fault n = None) -> forall k, binding_keys ns gd [rb] k -> rb_ending (w_rbs w' !! k)).
Proof.
  unfold delete_replica. destruct (refers_to gd rb) eqn:Href; cbn [negb].
  2: { exists w. split_and!; try done. intros _ k (rb' & ->%list_elem_of_singleton & H & _). congruence. }
  set (m := if str_empty _ then _ else _). rewrite bind_run. set (w1 := (m w).1).
  assert (Hm : m w = (w1, Ok tt)) by (unfold w1, m; destruct (str_empty _); done).
  assert (Hkeep : forall I : World -> Prop, (forall w, I w -> I (tick w)) ->
    (forall cs, keeps I (deployment_delete cs (Namespace (GD_Meta gd)) (replica_deployment gd rb))) -> I w -> I w1).
  { intros I Ht Hd. unfold w1, m. destruct (str_empty _); [done|]. by apply keeps_ignore, keeps_deleteMemberDeployment. }
  rewrite Hm. destruct (delete_binding_run (ns, Name (RB_Meta rb)) w1) as (Hg & Hmem & Hother & Hwind & Hend).
  set (w2 := (delete_rb (ns, Name (RB_Meta rb)) w1).1) in *.
  assert (Hrbs : w_rbs w1 = w_rbs w).
  { apply (Hkeep (fun w' => w_rbs w' = w_rbs w)); [done| |done]. intros cs w' <-. by apply (preserves_member_request w_rbs). }
  assert (Hgds : w_gds w1 = w_gds w).
  { apply (Hkeep (fun w' => w_gds w' = w_gds w)); [done| |done]. intros cs w' <-. by apply (preserves_member_request w_gds). }
  assert (Hsingle : binding_keys ns gd [rb] (ns, Name (RB_Meta rb))) by (exists rb; split_and!; [apply list_elem_of_here|done..]).
  exists w2. split_and!; [done|congruence| | | |].
  - rewrite Hmem. apply (Hkeep (fun w' => members_but (replica_keys gd [rb]) (w_members w) (w_members w'))); [done| |done].
    intros cs. apply keeps_member_delete. exists rb. split_and!; [apply list_elem_of_here|done..].
  - intros k Hk. rewrite Hother, Hrbs; [done|]. intros ->. done.
  - intros k. destruct (decide (k = (ns, Name (RB_Meta rb)))) as [->|Hk]; [by rewrite <- Hrbs|].
    rewrite Hother, Hrbs by done. by left.
  - intros Hno k (rb' & ->%list_elem_of_singleton & _ & ->). by apply Hend.
Qed.

Lemma delete_replicas_run ns gd items w :
  exists w', for_each (delete_replica configured_ns ns gd) items w = (w', Ok tt) /\ w_gds w' = w_gds w /\
    members_but (replica_keys gd items) (w_members w) (w_members w') /\
    (forall k, ~ binding_keys ns gd items k -> w_rbs w' !! k = w_rbs w !! k) /\
    (forall k, winds_down (w_rbs w !! k) (w_rbs w' !! k)) /\
    ((forall n, fault n = None) -> forall k, binding_keys ns gd items k -> rb_ending (w_rbs w' !! k)).
Proof.
  revert w. induction items as [|rb items IH]; intros w.
  { exists w. split_and!; try done. intros _ k (rb & Hrb & _). by apply elem_of_nil in Hrb. }
  cbn [for_each]. rewrite bind_run. destruct (delete_replica_run ns gd rb w) as (w1 & -> & Hg1 & Hm1 & Ho1 & Hw1 & He1).
  destruct (IH w1) as (w2 & -> & Hg2 & Hm2 & Ho2 & Hw2 & He2). exists w2.
  assert (Hl : forall rb' (P : ReplicaBinding -> Prop), (exists r, r ∈ [rb'] /\ P r) -> P rb').
  { by intros rb' P (r & ->%list_elem_of_singleton & Hr). }
  split_and!; [done|congruence| | | |].
  - etrans; [apply (members_but_mono _ _ _ _) with (2 := Hm1)|apply (members_but_mono _ _ _ _) with (2 := Hm2)].
    + intros k (r & ->%list_elem_of_singleton & H). exists rb. split; [apply list_elem_of_here|done].
    + intros k (r & Hr & H). exists r. split; [by apply list_elem_of_further|done].
  - intros k Hk. rewrite Ho2, Ho1; [done| |].
    + intros (r & ->%list_elem_of_singleton & H). apply Hk. exists rb. split; [apply list_elem_of_here|done].
    + intros (r & Hr & H). apply Hk. exists r. split; [by apply list_elem_of_further|done].
  - intros k. etrans; [apply Hw1|apply Hw2].
  - intros Hno k (r & [->|Hr]%elem_of_cons & H).
    + eapply winds_down_ending; [apply Hw2|]. apply He1; [done|]. exists rb. split; [apply list_elem_of_here|done].
    + apply He2; [done|]. by exists r.
Qed.

Definition refers_key (rb : ReplicaBinding) : Key :=
  (Ref_Namespace (RBS_GlobalDeploymentRef (RB_Spec rb)), Ref_Name (RBS_GlobalDeploymentRef (RB_Spec rb))).
Lemma refers_to_key gd rb : refers_to gd rb = true <-> refers_key rb = res_key gd.
Proof.
  unfold refers_to, refers_key, res_key. cbn. rewrite negb_true_iff, orb_false_iff, !negb_false_iff, !String.eqb_eq.
  split; [by intros [-> ->]|by intros [= -> ->]].
Qed.

(** The replicas of the deployment [key] in the member clusters. *)
Definition replica_deployments (rbs : gmap Key ReplicaBinding) (key k : Key) : Prop :=
  exists k' rb, rbs !! k' = Some rb /\ refers_key rb = key /\
    k = (key.1, key.2 +:+ "-r" +:+ pretty (RBS_ReplicaIndex (RB_Spec rb))).

Lemma delete_gd_run ns name w :
  let r := DeleteTypedGlobalDeploymentCR ns name w in
  w_rbs r.1 = w_rbs w /\ w_members r.1 = w_members w /\
  (forall k, k <> (ns, name) -> w_gds r.1 !! k = w_gds w !! k) /\
  ((forall n, fault n = None) -> gd_ending (w_gds r.1 !! (ns, name)) /\ (is_Some (w_gds w !! (ns, name)) -> r.2 = Ok tt)).
Proof.
  cbv zeta. unfold DeleteTypedGlobalDeploymentCR, rest_delete, request. destruct (fault _) eqn:Hfault.
  { split_and!; [done..|]. intros Hno. congruence. }
  change (objects_of (tick w)) with (w_gds w). destruct (w_gds w !! (ns, name)) as [gd|] eqn:Hgd.
  2: { split_and!; [done..|]. intros _. cbn. rewrite Hgd. split; [done|by intros [? ?]]. }
  cbn [meta_of deployment_resource]. destruct (Finalizers (GD_Meta gd)); cbn; (split_and!; [done|done| |intros _; split; [|done]]).
  - intros k Hk. by apply lookup_delete_ne.
  - by rewrite lookup_delete_eq.
  - intros k Hk. by apply lookup_insert_ne.
  - rewrite lookup_insert_eq. cbn. by destruct (DeletionTimestamp (GD_Meta gd)).
Qed.

(** The API server of the cluster [target], by the credentials stored for it: in the
    namespace of the configuration, else in that of the deployment. *)
Definition behind (ns : string) (w : World) (target cs : string) : Prop :=
  let control := if decide (configured_ns = "") then ns else configured_ns in
  exists c sec kubeconfig cfg, w_clusters w !! (control, target) = Some c /\
    w_secrets w !! (control, SecretRef (Cluster_Spec c)) = Some sec /\ kubeconfig <> "" /\
    (Secret_Data sec !! "kubeconfig" = Some kubeconfig \/
     Secret_Data sec !! "kubeconfig" ∈ [None; Some ""] /\ Secret_Data sec !! "value" = Some kubeconfig) /\
    RESTConfigFromKubeConfig kubeconfig = Ok cfg /\ NewForConfig cfg = Ok cs.
(** The Deployment [k] is gone from the member cluster, or under deletion. *)
Definition gone_from (ms : gmap string MemberCluster) (cs : string) (k : Key) : Prop :=
  forall mc, ms !! cs = Some mc -> match mc_deployments mc !! k with None => True | Some dep => Dep_Deleting dep = true end.

Lemma member_delete_gone cs cs' ns name k : keeps (fun w => gone_from (w_members w) cs k) (deployment_delete cs' ns name).
Proof.
  apply hoare_request; [done|]. intros w Hw. cbn. destruct (w_members w !! cs') as [mc|] eqn:Hmc; [|exact Hw].
  destruct (mc_deployments mc !! (ns, name)) as [dep|] eqn:Hdep; cbn; [|by rewrite insert_id].
  assert (Hone : forall deps, (cs' = cs -> match deps !! k with None => True | Some dep => Dep_Deleting dep = true end) ->
    gone_from (<[cs' := with_deployments mc deps]> (w_members w)) cs k).
  { intros deps Hd mc' Hmc'. destruct (decide (cs' = cs)) as [->|Hne].
    - rewrite lookup_insert_eq in Hmc'. injection Hmc' as <-. by apply Hd.
    - rewrite lookup_insert_ne in Hmc' by done. by apply Hw. }
  destruct (Dep_Finalizers dep); apply Hone; intros ->; (destruct (decide ((ns, name) = k)) as [<-|Hne];
    [by rewrite ?lookup_delete_eq, ?lookup_insert_eq|rewrite ?lookup_delete_ne, ?lookup_insert_ne by done; by apply Hw]).
Qed.
Lemma member_delete_done cs ns name w :
  (forall n, fault n = None) -> gone_from (w_members (deployment_delete cs ns name w).1) cs (ns, name).
Proof.
  intros Hno mc. unfold deployment_delete, member_request. rewrite request_run by done. cbn.
  destruct (w_members w !! cs) as [mc0|] eqn:Hmc; cbn; [|congruence].
  destruct (mc_deployments mc0 !! (ns, name)) as [dep|] eqn:Hdep; cbn; [destruct (Dep_Finalizers dep)|]; cbn;
    rewrite lookup_insert_eq; intros [= <-]; cbn; by rewrite ?lookup_delete_eq, ?lookup_insert_eq, ?Hdep.
Qed.

Lemma wrapping_ok {A} msg (m : M A) w w' a : m w = (w', Ok a) -> wrapping msg m w = (w', Ok a).
Proof. intros Hm. unfold wrapping. rewrite bind_run. unfold attempt. by rewrite Hm. Qed.
Lemma member_deployment_done ns target depName cs w :
  (forall n, fault n = None) -> behind ns w target cs ->
  gone_from (w_members (deleteMemberDeployment configured_ns target ns depName w).1) cs (ns, depName).
Proof.
  intros Hno (c & sec & kubeconfig & cfg & Hc & Hsec & Hne & Hk & Hcfg & Hcs). unfold deleteMemberDeployment. cbv zeta.
  assert ((if str_empty configured_ns then ns else configured_ns) = if decide (configured_ns = "") then ns else configured_ns)
    as -> by (by destruct configured_ns).
  rewrite bind_run, (wrapping_ok _ _ w (tick w) c);
    [|unfold GetTypedClusterCR, rest_get; rewrite get_object_run by done; change (objects_of (tick w)) with (w_clusters w); by rewrite Hc].
  rewrite bind_run, (wrapping_ok _ _ (tick w) (tick (tick w)) sec);
    [|unfold GetSecret; rewrite get_object_run by done; change (w_secrets (tick (tick w))) with (w_secrets w); by rewrite Hsec].
  set (found := if str_empty (entry (Secret_Data sec) "kubeconfig") then _ else _).
  assert (Hfound : found = kubeconfig).
  { unfold found, entry. destruct Hk as [-> |[Hk ->]]; [by destruct kubeconfig|]. rewrite !elem_of_cons, elem_of_nil in Hk.
    by destruct Hk as [->|[->|[]]]. }
  rewrite Hfound. assert (str_empty kubeconfig = false) as -> by by destruct kubeconfig.
  assert (Hclient : buildMemberClientset kubeconfig (tick (tick w)) = (tick (tick w), Ok cs)).
  { unfold buildMemberClientset. rewrite Hcfg, bind_run, (wrapping_ok _ _ _ (tick (tick w)) cfg) by done. rewrite Hcs. by apply wrapping_ok. }
  rewrite bind_run, Hclient, bind_run.
  assert (Hd := member_delete_done cs ns depName (tick (tick w)) Hno). unfold attempt.
  destruct (deployment_delete cs ns depName (tick (tick w))) as [w' [u|e]]; cbn in *; [done|]. by destruct (IsNotFound e).
Qed.

(** Without faults the loop reaches every replica whose member cluster has credentials. *)
Lemma replicas_done ns gd items rb cs w :
  (forall n, fault n = None) -> rb ∈ items -> refers_to gd rb = true -> TargetCluster (RB_Spec rb) <> "" ->
  behind (Namespace (GD_Meta gd)) w (TargetCluster (RB_Spec rb)) cs ->
  gone_from (w_members (for_each (delete_replica configured_ns ns gd) items w).1) cs (Namespace (GD_Meta gd), replica_deployment gd rb).
Proof.
  intros Hno Hin Href Htgt. revert w. induction items as [|rb' items IH]; intros w Hb; [by apply elem_of_nil in Hin|].
  cbn [for_each]. rewrite bind_run. destruct (delete_replica_run ns gd rb' w) as (w1 & Hrun & _). rewrite Hrun.
  assert (Hw1 : w1 = (delete_replica configured_ns ns gd rb' w).1) by by rewrite Hrun.
  assert (Hkeep : forall (I : World -> Prop), (forall w, I w -> I (tick w)) -> (forall cs ns name, keeps I (deployment_delete cs ns name)) ->
    (forall f w, I w -> I (set_rbs f w)) -> keeps I (delete_replica configured_ns ns gd rb')).
  { intros I Ht Hd Hrb. unfold delete_replica. destruct (negb _); [apply keeps_ret|]. apply keeps_bind.
    - destruct (str_empty _); [apply keeps_ret|]. by apply keeps_ignore, keeps_deleteMemberDeployment.
    - intros _. apply keeps_ignore, hoare_request; [intros; by apply Ht|]. intros w' Hw'. cbn.
      destruct (w_rbs w' !! _) as [b|]; [|by apply Ht]. destruct (Finalizers (RB_Meta b)); by apply Hrb, Ht. }
  apply elem_of_cons in Hin as [<-|Hin].
  - assert (H1 : gone_from (w_members w1) cs (Namespace (GD_Meta gd), replica_deployment gd rb)).
    { rewrite Hw1. unfold delete_replica. rewrite Href. cbn [negb].
      assert (str_empty (TargetCluster (RB_Spec rb)) = false) as -> by (revert Htgt; by destruct (TargetCluster (RB_Spec rb))).
      rewrite bind_run. unfold ignore at 2.
      unfold ignore. cbn [fst].
      assert (Hq : forall k w, w_members (delete_rb k w).1 = w_members w) by (intros; by apply (preserves_delete_rb w_members)).
      unfold DeleteTypedReplicaBindingCR. rewrite Hq. by apply member_deployment_done. }
    revert H1. generalize w1. clear -Href.
    apply (keeps_for_each (fun w => gone_from (w_members w) cs _)). intros rb'' _. unfold delete_replica.
    destruct (negb _); [apply keeps_ret|]. apply keeps_bind.
    + destruct (str_empty _); [apply keeps_ret|]. apply keeps_ignore, keeps_deleteMemberDeployment; [done|].
      intros cs'. apply member_delete_gone.
    + intros _. apply keeps_ignore. intros w Hw. assert (Hq := preserves_delete_rb w_members ltac:(done) (ns, Name (RB_Meta rb'')) ltac:(done) w).
      unfold DeleteTypedReplicaBindingCR. by rewrite Hq.
  - apply IH; [done|]. rewrite Hw1. apply (Hkeep (fun w => behind (Namespace (GD_Meta gd)) w (TargetCluster (RB_Spec rb)) cs)); try done.
    intros cs' ns' name w' Hw'. unfold behind. unfold deployment_delete.
    by rewrite (preserves_member_request w_clusters), (preserves_member_request w_secrets).
Qed.

(** What a deletion of the deployment [key] may change: it, its bindings, and its
    replicas in the member clusters. *)
Definition reaches_only (key : Key) (w w' : World) : Prop :=
  (forall k, k <> key -> w_gds w' !! k = w_gds w !! k) /\
  (forall k, winds_down (w_rbs w !! k) (w_rbs w' !! k)) /\
  (forall k rb, w_rbs w !! k = Some rb -> refers_key rb <> key -> w_rbs w' !! k = Some rb) /\
  members_but (replica_deployments (w_rbs w) key) (w_members w) (w_members w').

(** The deployment, its bindings, and its replicas in the member clusters that have
    credentials are gone or under deletion. *)
Definition all_ending (key : Key) (w w' : World) : Prop :=
  gd_ending (w_gds w' !! key) /\
  forall k rb, w_rbs w !! k = Some rb -> k.1 = key.1 -> refers_key rb = key -> rb_ending (w_rbs w' !! k) /\
    forall cs, TargetCluster (RB_Spec rb) <> "" -> behind key.1 w (TargetCluster (RB_Spec rb)) cs ->
      gone_from (w_members w') cs (key.1, key.2 +:+ "-r" +:+ pretty (RBS_ReplicaIndex (RB_Spec rb))).

(** What a request for the stored deployment is answered with. *)
Definition deletion_answer (key : Key) (w w' : World) (r : Response string) : Prop :=
  if str_empty key.2 || str_empty key.1 then True
  else match w_gds w !! key with
       | None => r = Failure StatusNotFound "globaldeployment not found"
       | Some _ => r = Reply StatusOK "GlobalDeployment deletion started" /\ all_ending key w w'
       end.

Lemma reaches_nothing key w w' :
  w_gds w' = w_gds w -> w_rbs w' = w_rbs w -> w_members w' = w_members w -> reaches_only key w w'.
Proof. intros Hg Hr Hm. unfold reaches_only. rewrite Hg, Hr, Hm. by split_and!. Qed.

(** The bindings listed in a namespace are those stored in it. *)
Lemma listed_bindings rbs ns items rb :
  rbs_ok rbs -> items ≡ₚ in_store rbs ns -> rb ∈ items <-> rbs !! (ns, Name (RB_Meta rb)) = Some rb.
Proof.
  intros Hrbs ->. unfold in_store. rewrite list_elem_of_fmap. split.
  - intros ([k b] & -> & [Hin Hb]%elem_of_map_to_list%map_lookup_filter_Some). cbn in Hb |- *.
    apply String.eqb_eq in Hb. destruct (Hrbs _ _ Hin) as [Hk _]. unfold rb_key in Hk. subst k. cbn in Hb. by rewrite <- Hb.
  - intros Hk. exists ((ns, Name (RB_Meta rb)), rb). split; [done|].
    apply elem_of_map_to_list, map_lookup_filter_Some. split; [done|]. cbn. apply String.eqb_refl.
Qed.

(** The loop over the bindings and the deletion of the deployment. *)
Lemma delete_found_run ns gd items w w0 :
  w_gds w = w_gds w0 -> w_rbs w = w_rbs w0 -> w_members w = w_members w0 ->
  (forall target cs, behind ns w0 target cs -> behind ns w target cs) -> rbs_ok (w_rbs w) -> items ≡ₚ in_store (w_rbs w) ns -> res_key gd = (ns, Name (GD_Meta gd)) ->
  w_gds w !! (ns, Name (GD_Meta gd)) = Some gd ->
  exists w' r, (for_each (delete_replica configured_ns ns gd) items ≫= fun _ =>
                attempt (DeleteTypedGlobalDeploymentCR ns (Name (GD_Meta gd)))) w = (w', Ok r) /\
    reaches_only (res_key gd) w0 w' /\
    ((forall n, fault n = None) -> r = Ok tt /\ all_ending (res_key gd) w0 w').
Proof.
  intros Eg Er Em Eb Hrbs Hitems Hkey Hgd. assert (Hin := fun rb => listed_bindings _ _ _ rb Hrbs Hitems).
  destruct (delete_replicas_run ns gd items w) as (w1 & Hrun & Hg1 & Hm1 & Ho1 & Hw1 & He1).
  rewrite bind_run, Hrun. unfold attempt.
  destruct (delete_gd_run ns (Name (GD_Meta gd)) w1) as (Hrb2 & Hmem2 & Hother2 & Hfree2).
  destruct (DeleteTypedGlobalDeploymentCR ns (Name (GD_Meta gd)) w1) as [w2 r2]. cbn [fst snd] in *.
  exists w2, r2. split; [done|]. rewrite Hkey. unfold reaches_only, all_ending. rewrite <- Eg, <- Er, <- Em. split; [split_and!|].
  - intros k Hk. by rewrite Hother2, Hg1.
  - intros k. rewrite Hrb2. apply Hw1.
  - intros k rb Hk Hne. rewrite Hrb2, Ho1; [done|]. intros (rb' & Hrb'%Hin & Href%refers_to_key & ->). simplify_eq. congruence.
  - rewrite Hmem2. apply (members_but_mono _ _ _ _) with (2 := Hm1). intros k (rb & Hrb%Hin & Href%refers_to_key & ->).
    exists (ns, Name (RB_Meta rb)), rb. unfold res_key in Hkey. injection Hkey as Hns. cbn in Hns. rewrite Hns.
    split_and!; [done| |done]. rewrite Href. unfold res_key. cbn. by rewrite Hns.
  - intros Hno. destruct (Hfree2 Hno) as [Hend Hok]. rewrite Hok by (rewrite Hg1; by exists gd). split_and!; [done|done|].
    intros k rb Hk Hk1 Href. destruct (Hrbs _ _ Hk) as [<- _]. unfold rb_key in *. cbn in Hk1. rewrite Hk1 in *.
    assert (Hlisted : rb ∈ items) by by apply Hin. assert (Hrefers : refers_to gd rb = true) by (apply refers_to_key; by rewrite Hkey).
    split; [rewrite Hrb2; apply He1; [done|]; by exists rb|]. intros cs Htgt Hb. rewrite Hmem2.
    assert (Hns : Namespace (GD_Meta gd) = ns) by (unfold res_key in Hkey; by injection Hkey).
    assert (Hdone := replicas_done ns gd items rb cs w Hno Hlisted Hrefers Htgt). rewrite Hrun, Hns in Hdone. by apply Hdone, Eb.
Qed.

End deletions.

(** ** Reading *)

Section reading.
Context {KUBE : KubeLib} {SORT : GoSort} {LIB : ServerLib} (configured_ns : string).
Hypothesis no_faults : forall n, fault n = None.

(** The environment after [n] requests that only read. *)
Definition ticks (n : nat) (w : World) : World := Nat.iter n tick w.

Lemma ticks_S n w : ticks (S n) w = ticks n (tick w).
Proof. unfold ticks. by rewrite Nat.iter_succ_r. Qed.
Lemma ticks_add n m w : ticks m (ticks n w) = ticks (n + m) w.
Proof. unfold ticks. by rewrite Nat.add_comm, Nat.iter_add. Qed.
Lemma ticks_clusters n w : w_clusters (ticks n w) = w_clusters w.
Proof. induction n as [|n IH]; [done|exact IH]. Qed.

(** The name of a cluster, read from the store. *)
Definition stored_name (clusters : gmap Key Cluster) (clusterID : string) : string :=
  if str_empty clusterID then "" else display_name clusterID (require (clusters !! (configured_ns, clusterID)) NotFound).

(** The clusters of the deployment's bindings. *)
Definition target_clusters (gd : GlobalDeployment) (items : list ReplicaBinding) : gset string :=
  list_to_set ((fun rb => TargetCluster (RB_Spec rb)) <$> List.filter (refers_to gd) items) ∖ {[""]}.

(** A cache that holds names of the store. *)
Definition cache_ok (clusters : gmap Key Cluster) (cache : gmap string string) : Prop :=
  map_Forall (fun id name => name = stored_name clusters id) cache.

Lemma cluster_name_run cache id w :
  cache_ok (w_clusters w) cache ->
  exists cache', cluster_name configured_ns cache id w =
    (ticks (size (({[id]} : gset string) ∖ {[""]} ∖ dom cache)) w, Ok (cache', stored_name (w_clusters w) id)) /\
    cache_ok (w_clusters w) cache' /\ dom cache' = dom cache ∪ ({[id]} ∖ {[""]}).
Proof.
  intros Hok. unfold cluster_name, stored_name. destruct (str_empty id) eqn:He.
  { assert (id = "") as -> by by destruct id. exists cache.
    assert (({[""]} : gset string) ∖ {[""]} ∖ dom cache = ∅) as -> by set_solver. split_and!; [done|done|set_solver]. }
  assert (id <> "") as Hne by by destruct id.
  destruct (cache !! id) as [name|] eqn:Hc.
  - exists cache. assert (Hd := elem_of_dom_2 _ _ _ Hc). assert (({[id]} : gset string) ∖ {[""]} ∖ dom cache = ∅) as -> by set_solver.
    split_and!; [|done|set_solver]. rewrite (Hok _ _ Hc). unfold stored_name. by rewrite He.
  - assert (id ∉ dom cache) as Hd by by apply not_elem_of_dom. assert (({[id]} : gset string) ∖ {[""]} ∖ dom cache = {[id]}) as -> by set_solver. rewrite size_singleton.
    rewrite bind_run. unfold attempt, GetTypedClusterCR, rest_get. rewrite get_object_run by done.
    eexists. split; [reflexivity|]. split; [|rewrite dom_insert_L; set_solver].
    apply map_Forall_insert_2; [|done]. unfold stored_name. by rewrite He.
Qed.

Lemma show_bindings_run gd items cache w :
  cache_ok (w_clusters w) cache ->
  show_bindings configured_ns gd cache items w =
    (ticks (size (target_clusters gd items ∖ dom cache)) w,
     Ok ((fun rb => shown_binding (stored_name (w_clusters w) (TargetCluster (RB_Spec rb))) rb)
           <$> List.filter (refers_to gd) items)).
Proof.
  unfold target_clusters. revert cache w. induction items as [|rb items IH]; intros cache w Hok; cbn [show_bindings List.filter].
  { cbn [fmap list_fmap list_to_set]. assert ((∅ : gset string) ∖ {[""]} ∖ dom cache = ∅) as -> by set_solver. done. }
  destruct (refers_to gd rb); [|by apply IH]. rewrite bind_run. set (id := TargetCluster (RB_Spec rb)).
  destruct (cluster_name_run cache id w Hok) as (cache' & Hrun & Hok' & Hdom). rewrite Hrun. rewrite bind_run. cbn [fst snd].
  rewrite IH by (by rewrite ticks_clusters). rewrite ticks_clusters, ticks_add, Hdom. cbn [fmap list_fmap]. fold id.
  rewrite <- size_union by set_solver. cbn [list_to_set]. set (rest := list_to_set _).
  assert ((({[id]} : gset string) ∪ rest) ∖ {[""]} ∖ dom cache =
    {[id]} ∖ {[""]} ∖ dom cache ∪ rest ∖ {[""]} ∖ (dom cache ∪ {[id]} ∖ {[""]})) as ->; [|done].
  apply set_eq. intros x. destruct (decide (x = id)); set_solver.
Qed.

(** C27: Without faults a read of a stored deployment shows it with all of its bindings
    and no other, each with the name its cluster has in the store, or its id: the
    cache of names changes nothing but the number of requests, one for the
    deployment, one for the list and one for each cluster, however many bindings
    there are. Nothing is written. *)
Theorem GetGlobalDeployment_shows name ns gd w :
  w_gds w !! (ns, name) = Some gd -> TrimSpace ns = ns -> TrimSpace name = name -> ns <> "" -> name <> "" ->
  exists items resp, items ≡ₚ in_store (w_rbs w) ns /\
    answers (GetGlobalDeployment configured_ns (Ok (mkGDRequest name ns))) w
      (ticks (2 + size (target_clusters gd items)) w) (Reply StatusOK resp) /\
    GGR_Bindings resp = (fun rb => shown_binding (stored_name (w_clusters w) (TargetCluster (RB_Spec rb))) rb)
                          <$> List.filter (refers_to gd) items /\
    GGR_Name resp = Name (GD_Meta gd) /\ GGR_Replicas resp = default 1%Z (Replicas (GD_Spec gd)) /\
    GGR_Phase resp = GD_Phase (GD_Status gd) /\
    (GGR_Template resp = NoTemplate <-> Template (GD_Spec gd) = "").
Proof.
  intros Hgd Hns Hname Hns' Hname'. unfold answers, GetGlobalDeployment, bound, bind, key_required, required. cbn [omap list_omap fst snd GR_Name GR_Namespace].
  assert (str_empty name = false /\ str_empty ns = false) as [E1 E2] by by destruct name, ns. rewrite E1, E2.
  unfold GetGlobalDeployment_bound. cbn [GR_Name GR_Namespace]. rewrite Hns, Hname, E1, E2. cbn [orb].
  rewrite bind_run. unfold attempt at 1, GetTypedGlobalDeploymentCR, rest_get. rewrite get_object_run by done.
  change (objects_of (tick w) !! (ns, name)) with (w_gds w !! (ns, name)). rewrite Hgd. cbn [require].
  rewrite bind_run. unfold attempt at 1, ListTypedReplicaBindingCRs.
  destruct (list_objects_run w_rbs ns (tick w)) as (l & Hlist & Hl). rewrite Hlist.
  destruct l as [items|e]; [|unfold list_objects in Hlist; rewrite request_run in Hlist by done; discriminate].
  exists items. rewrite bind_run, show_bindings_run by apply map_Forall_empty.
  rewrite dom_empty_L, difference_empty_L. eexists. split; [by apply Hl|].
  split; [change (tick (tick w)) with (ticks 2 w); by rewrite ticks_add|]. cbn. split_and!; [done..|].
  unfold template_object. destruct (Template (GD_Spec gd)); cbn; [done|]. destruct (json_Value _); done.
Qed.
End reading.

(** ** Listings *)

(** A listing without overflow shows the deployments of the namespace whose name has
    the text asked for, newest first, a page of them, and their number. *)
Lemma ListGlobalDeployments_lists {KUBE : KubeLib} {SORT : GoSort} {LIB : ServerLib} configured_ns req w :
  page_fits (size (w_gds w)) (LG_Page req) (LG_PageSize req) ->
  exists w' r, answers (ListGlobalDeployments configured_ns (Ok req)) w w' r /\ w_gds w' = w_gds w /\
  match r with
  | Reply code resp => code = StatusOK /\
      page_shown (fun gd => name_contains (TrimSpace (LG_Name req)) (Name (GD_Meta gd))) deployment_item (newer GI_Created)
        (in_store (w_gds w) (namespace_or (LG_Namespace req) configured_ns))
        (page_number (LG_Page req)) (page_size (LG_PageSize req)) (LGR_Total resp) (LGR_Items resp)
  | Failure code _ => code = StatusInternalServerError
  | Recovered => False
  end.
Proof.
  intros Hfits. unfold answers, ListGlobalDeployments, bound, bind, ListGlobalDeployments_bound.
  rewrite bind_run. unfold attempt, ListTypedGlobalDeploymentCRs.
  set (ns := namespace_or (LG_Namespace req) configured_ns).
  destruct (list_objects_run w_gds ns w) as (r & Hrun & Hr).
  change (rest_list (A := GlobalDeployment) ns) with (list_objects w_gds (in_namespace ns)). rewrite Hrun.
  destruct r as [found|e]; [|by eexists _, _]. specialize (Hr found eq_refl eq_refl).
  destruct (sorted_page_shown (fun gd => name_contains (TrimSpace (LG_Name req)) (Name (GD_Meta gd))) deployment_item
    (newer GI_Created) (w_gds w) ns found _ _ (strict_weak_newer GI_Created) Hr Hfits) as (items & -> & _ & Hshown).
  by eexists _, _.
Qed.

(** ** Concrete runs *)

Definition demo_web (fs : list string) : GlobalDeployment :=
  mkGD (mkMeta "web" "default" "u1" 1 {["app" := "web"]} ∅ fs None []) (mkGDSpec None "{}") empty_gd_status.
Definition demo_web_binding (i : Z) (cluster : string) : ReplicaBinding :=
  mkRB (mkMeta ("web-rb-" +:+ pretty i) "default" "u2" 1 ∅ ∅ ["f"] None [])
    (mkRBSpec (mkRef "web" "default") i cluster "n1" false "") empty_rb_status.
Definition demo_web_world : World :=
  set_gds (fun _ => {[("default", "web") := demo_web ["f"]]})
    (set_rbs (fun _ => {[("default", "web-rb-0") := demo_web_binding 0 "c1"]}) empty_world).

Lemma demo_web_keys : map_Forall (fun k gd => res_key gd = k) (w_gds demo_web_world).
Proof. by apply map_Forall_singleton. Qed.

Lemma CreateGlobalDeployment_overwrites_witness :
  exists w' body, answers
    (CreateGlobalDeployment (KUBE := reliable_kube) (LIB := demo_lib) "default" (Ok "web")) demo_web_world w' (Reply StatusOK body) /\
  CGR_Name body = "web".
Proof.
  destruct (CreateGlobalDeployment_overwrites (KUBE := reliable_kube) (LIB := demo_lib) "default" "web" demo_web_world demo_web_keys)
    as (w' & r & Hans & Hr & Hiff).
  destruct Hiff as [_ Hiff]; [done|]. destruct Hiff as [body ->].
  { exists "web", "default", (mkYamlDeployment "Deployment" "web" "" (Some 3%Z) 1 (Some "{spec}")), "{spec}". split; by_eval. }
  exists w', body. split; [exact Hans|]. destruct Hr as (_ & name & ns & dep & template & uid & Hp & _ & Hname & _).
  rewrite Hname. revert Hp. vm_compute. congruence.
Defined.

(** The same, with the replica in its member cluster. *)
Definition demo_deployment (name : string) : Deployment :=
  mkDeployment name "default" ∅ [] false (mkDepSpec None None ∅ [] [] None "") (mkDepStatus 0 0 0 []).
Definition demo_member_world : World :=
  mkWorld ∅ (w_rbs demo_web_world) (w_gds demo_web_world)
    {[("default", "c1") := mkCluster (mkMeta "c1" "default" "u3" 1 ∅ ∅ [] None []) (mkClusterSpec "https://c1" "c1-secret") (empty_cluster_status)]}
    {[("default", "c1-secret") := mkSecret [] {["kubeconfig" := "https://c1"]}]}
    {["https://c1" := mkMember ∅ {[("default", "web-r0") := demo_deployment "web-r0"]} ∅ ∅]} ∅ ∅ 0 0 empty_policy_state ∅.


Lemma GetGlobalDeployment_shows_witness :
  exists w' resp, answers
    (GetGlobalDeployment (KUBE := reliable_kube) (LIB := demo_lib) "default" (Ok (mkGDRequest "web" "default"))) demo_web_world w'
    (Reply StatusOK resp) /\ w_requests w' = 3.
Proof.
  destruct (GetGlobalDeployment_shows (KUBE := reliable_kube) (LIB := demo_lib) "default" (fun _ => eq_refl) "web" "default" (demo_web ["f"])
    demo_web_world) as (items & resp & Hitems & Hans & _); [by_eval|by_eval|by_eval|discriminate|discriminate|].
  eexists _, resp. split; [exact Hans|].
  assert (Hstore : in_store (w_rbs demo_web_world) "default" = [demo_web_binding 0 "c1"]) by by_eval.
  rewrite Hstore in Hitems. apply Permutation_singleton_r in Hitems as ->. by_eval.
Defined.
