(* ===== verification/OptimizationHandler.v ===== *)
(** * The optimization handlers of the REST server
    (internal/api/optimization_handler.go, topology_list.go)

    List, read, create, update and delete policies, list and read plans, list the
    topology config maps. Log lines are not modelled. *)

From S2P Require Import Prelude Float64 GoText ApiTypes KubeApi MemberClients ServerBase ServerKube ClusterHandler.

Local Open Scope string_scope.
Local Open Scope list_scope.

(** ** Requests and responses *)

Record OptimizationHandlerConfig := mkOptConfig { OC_Namespace : string; OC_TopologyNamespace : string }.

Record ListOptimizationPoliciesRequest := mkListPolicies { LP_Namespace : string; LP_Name : string; LP_Page : Z; LP_PageSize : Z }.
Record OptimizationPolicyItem := mkPolicyItem {
  OI_Name : string; OI_Namespace : string; OI_Enabled : bool; OI_RunMode : string; OI_RebalancePoint : string;
  OI_Strategy : string; OI_ThresholdPercent : Z; OI_Phase : string; OI_LastEvaluationTime : Time; OI_Created : Time
}.
Record ListOptimizationPoliciesResponse := mkPolicyList { LPR_Total : Z; LPR_Items : list OptimizationPolicyItem }.
(** The key of a policy or plan that a request is about. *)
Record NamedRequest := mkNamedRequest { NR_Namespace : string; NR_Name : string }.
Record ListReOrchestrationPlansRequest := mkListPlans {
  LO_Namespace : string; LO_PolicyName : string; LO_Page : Z; LO_PageSize : Z
}.
Record ReOrchestrationPlanItem := mkPlanItem {
  PI_Name : string; PI_Namespace : string; PI_PolicyName : string; PI_Phase : string; PI_Moves : Z; PI_Created : Time
}.
Record ListReOrchestrationPlansResponse := mkPlanList { LOR_Total : Z; LOR_Items : list ReOrchestrationPlanItem }.
Record TopologyConfigItem := mkTopologyItem { TI_Name : string; TI_Namespace : string; TI_Created : Time }.

(** ** What a handler computes *)

(** [func NewOptimizationHandler(logger, cfg, kube)]: the defaults. *)
Definition NewOptimizationHandler (cfg : OptimizationHandlerConfig) : OptimizationHandlerConfig :=
  mkOptConfig (if str_empty (OC_Namespace cfg) then "default" else OC_Namespace cfg)
    (if str_empty (OC_TopologyNamespace cfg) then "kubex-system" else OC_TopologyNamespace cfg).

Definition policy_item {LIB : ServerLib} (pol : OptimizationPolicy) : OptimizationPolicyItem :=
  mkPolicyItem (Name (OP_Meta pol)) (Namespace (OP_Meta pol)) (Enabled (OP_Spec pol)) (RunMode (OP_Spec pol))
    (RebalancePoint (OP_Spec pol)) (Strategy (OP_Spec pol)) (ImprovementThresholdPercent (OP_Spec pol))
    (OP_Phase (OP_Status pol)) (LastEvaluationTime (OP_Status pol)) (CreationTimestamp (OP_Meta pol)).
Definition policy_listed (nameFilter : string) (pol : OptimizationPolicy) : bool :=
  negb (negb (str_empty nameFilter) && negb (str_contains (Name (OP_Meta pol)) nameFilter)).

(** The policy a plan is for: its summary's, else the one of its label. *)
Definition plan_policy (p : ReOrchestrationPlan) : string :=
  let pn := TrimSpace (PolicyName (Spec_Summary (Plan_Spec p))) in
  if str_empty pn then
    match Labels (Plan_Meta p) !! "kubex.io/policy" with Some v => TrimSpace v | None => pn end
  else pn.
Definition plan_item {LIB : ServerLib} (p : ReOrchestrationPlan) : ReOrchestrationPlanItem :=
  mkPlanItem (Name (Plan_Meta p)) (Namespace (Plan_Meta p)) (plan_policy p) (Plan_Phase (Plan_Status p))
    (Z.of_nat (length (Moves (Plan_Spec p)))) (CreationTimestamp (Plan_Meta p)).
Definition plan_listed (policyName : string) (p : ReOrchestrationPlan) : bool :=
  negb (negb (str_empty policyName) && negb (String.eqb (plan_policy p) policyName)).

(** The namespace a policy is applied in. *)
Definition policy_namespace (configured : string) (pol : OptimizationPolicy) : string :=
  let ns := Namespace (OP_Meta pol) in
  let ns := if str_empty (TrimSpace ns) then configured else ns in
  if str_empty (TrimSpace ns) then "default" else ns.

Section handlers.
Context {KUBE : KubeLib} {SORT : GoSort} {LIB : ServerLib} (cfg : OptimizationHandlerConfig).

(** ** Policies *)

(** [func (h) ListOptimizationPolicies(c)]. *)
Definition ListOptimizationPolicies_bound (req : ListOptimizationPoliciesRequest) : M (Response ListOptimizationPoliciesResponse) :=
  let ns := namespace_or (LP_Namespace req) (OC_Namespace cfg) in
  let nameFilter := TrimSpace (LP_Name req) in
  list ← attempt (ListTypedOptimizationPolicyCRs ns);
  match list with
  | Err _ => mret (Failure StatusInternalServerError "list optimizationpolicies failed")
  | Ok found =>
      let items := sort_slice (newer OI_Created) (policy_item <$> List.filter (policy_listed nameFilter) found) in
      mret (reply_page (page_items items (page_number (LP_Page req)) (page_size (LP_PageSize req)))
        (mkPolicyList (Z.of_nat (length items))))
  end.
Definition ListOptimizationPolicies (decoded : result string ListOptimizationPoliciesRequest)
    : M (Response ListOptimizationPoliciesResponse) :=
  bound (fun _ => []) decoded ListOptimizationPolicies_bound.

Definition name_required (req : NamedRequest) : list string := required [("Name", NR_Name req)].

(** [func (h) GetOptimizationPolicy(c)]. *)
Definition GetOptimizationPolicy_bound (req : NamedRequest) : M (Response OptimizationPolicy) :=
  let ns := namespace_or (NR_Namespace req) (OC_Namespace cfg) in
  let name := TrimSpace (NR_Name req) in
  if str_empty name then mret (Failure StatusBadRequest "name is required")
  else
    got ← attempt (GetTypedOptimizationPolicyCR ns name);
    mret (match got with
          | Err e =>
              if IsNotFound e then Failure StatusNotFound "optimizationPolicy not found"
              else Failure StatusInternalServerError "get optimizationPolicy failed"
          | Ok pol => Reply StatusOK pol
          end).
Definition GetOptimizationPolicy (decoded : result string NamedRequest) : M (Response OptimizationPolicy) :=
  bound name_required decoded GetOptimizationPolicy_bound.

(** [func (h) applyOptimizationPolicy(c, create)]: the request is the policy, nil when
    it is missing; the response is a message. *)
Definition in_policy_namespace (pol : OptimizationPolicy) : OptimizationPolicy :=
  let m := OP_Meta pol in
  mkPolicy (mkMeta (Name m) (policy_namespace (OC_Namespace cfg) pol) (UID m) (Generation m) (Labels m) (Annotations m)
              (Finalizers m) (DeletionTimestamp m) (OwnerReferences m)) (OP_Spec pol) (OP_Status pol).
Definition apply_bound (create : bool) (req : option OptimizationPolicy) : M (Response string) :=
  match req with
  | None => mret (Failure StatusBadRequest "policy is required")
  | Some sent =>
      let pol := in_policy_namespace sent in
      if str_empty (TrimSpace (Name (OP_Meta pol))) then
        mret (Failure StatusBadRequest "policy.metadata.name is required")
      else
        r ← attempt (ApplyTypedOptimizationPolicyCR (Namespace (OP_Meta pol)) pol);
        mret (match r with
              | Err e =>
                  if create && IsAlreadyExists e then Failure StatusConflict "optimizationPolicy already exists"
                  else Failure StatusInternalServerError "apply optimizationPolicy failed"
              | Ok _ =>
                  Reply StatusOK (if create then "OptimizationPolicy created successfully"
                                  else "OptimizationPolicy updated successfully")
              end)
  end.
Definition applyOptimizationPolicy (create : bool) (decoded : result string (option OptimizationPolicy)) : M (Response string) :=
  bound (fun req => match req with None => ["Policy"] | Some _ => [] end) decoded (apply_bound create).
Definition CreateOptimizationPolicy : result string (option OptimizationPolicy) -> M (Response string) :=
  applyOptimizationPolicy true.
Definition UpdateOptimizationPolicy : result string (option OptimizationPolicy) -> M (Response string) :=
  applyOptimizationPolicy false.

(** [func (h) DeleteOptimizationPolicy(c)]: the response is a message. *)
Definition DeleteOptimizationPolicy_bound (req : NamedRequest) : M (Response string) :=
  let ns := namespace_or (NR_Namespace req) (OC_Namespace cfg) in
  let name := TrimSpace (NR_Name req) in
  if str_empty name then mret (Failure StatusBadRequest "name is required")
  else
    r ← attempt (DeleteTypedOptimizationPolicyCR ns name);
    mret (match r with
          | Err e =>
              if IsNotFound e then Reply StatusOK "already deleted"
              else Failure StatusInternalServerError "delete optimizationPolicy failed"
          | Ok _ => Reply StatusOK "deleted"
          end).
Definition DeleteOptimizationPolicy (decoded : result string NamedRequest) : M (Response string) :=
  bound name_required decoded DeleteOptimizationPolicy_bound.

(** ** Plans *)

(** [func (h) ListReOrchestrationPlans(c)]. *)
Definition ListReOrchestrationPlans_bound (req : ListReOrchestrationPlansRequest) : M (Response ListReOrchestrationPlansResponse) :=
  let ns := namespace_or (LO_Namespace req) (OC_Namespace cfg) in
  let policyName := TrimSpace (LO_PolicyName req) in
  list ← attempt (ListTypedReOrchestrationPlanCRs ns);
  match list with
  | Err _ => mret (Failure StatusInternalServerError "list plans failed")
  | Ok found =>
      let items := sort_slice (newer PI_Created) (plan_item <$> List.filter (plan_listed policyName) found) in
      mret (reply_page (page_items items (page_number (LO_Page req)) (page_size (LO_PageSize req)))
        (mkPlanList (Z.of_nat (length items))))
  end.
Definition ListReOrchestrationPlans (decoded : result string ListReOrchestrationPlansRequest)
    : M (Response ListReOrchestrationPlansResponse) :=
  bound (fun _ => []) decoded ListReOrchestrationPlans_bound.

(** [func (h) GetReOrchestrationPlan(c)]. *)
Definition GetReOrchestrationPlan_bound (req : NamedRequest) : M (Response ReOrchestrationPlan) :=
  let ns := namespace_or (NR_Namespace req) (OC_Namespace cfg) in
  let name := TrimSpace (NR_Name req) in
  if str_empty name then mret (Failure StatusBadRequest "name is required")
  else
    got ← attempt (GetTypedReOrchestrationPlanCR ns name);
    mret (match got with
          | Err e =>
              if IsNotFound e then Failure StatusNotFound "plan not found"
              else Failure StatusInternalServerError "get plan failed"
          | Ok plan => Reply StatusOK plan
          end).
Definition GetReOrchestrationPlan (decoded : result string NamedRequest) : M (Response ReOrchestrationPlan) :=
  bound name_required decoded GetReOrchestrationPlan_bound.

(** ** Topology config maps *)

(** The environment variable with the path of the server's own kubeconfig, the
    reading of the file, and when a config map was created. *)
Context (KUBEX_KUBERNETES_KUBECONFIG : string) (BuildConfigFromFlags : string -> result api_error string)
  (configmap_created : Key -> Time).

(** The keys of the config maps of a namespace. *)
Definition configmaps_list (ns : string) : M (list Key) :=
  request (fun w => (w, Ok (list_order (w_requests w)
    (map_imap (fun k _ => Some k) (filter (fun e => in_namespace ns e.1 = true) (w_configmaps w)))))).

(** [func listConfigMapsByPrefix(c, logger, namespace, namePrefix)]. *)
Definition topology_item (k : Key) : TopologyConfigItem := mkTopologyItem k.2 k.1 (configmap_created k).
Definition listConfigMapsByPrefix (namespace namePrefix : string) : M (list TopologyConfigItem) :=
  let kubeconfig := TrimSpace KUBEX_KUBERNETES_KUBECONFIG in
  if str_empty kubeconfig then mret []
  else
    match BuildConfigFromFlags kubeconfig with
    | Err _ => mret []
    | Ok restCfg =>
        wrapping "init kubernetes client failed" (MemberClientCache.lift (NewForConfig restCfg)) ≫= fun _ =>
        list ← wrapping "list configmaps failed" (configmaps_list namespace);
        mret (sort_slice (newer TI_Created) (topology_item <$>
          List.filter (fun k => negb (negb (str_empty namePrefix) && negb (has_prefix k.2 namePrefix))) list))
    end.

(** [func (h) ListTopologyConfigs(c)]: the request is the namespace. *)
Definition ListTopologyConfigs_bound (requested : string) : M (Response (list TopologyConfigItem)) :=
  let ns := namespace_or requested (OC_TopologyNamespace cfg) in
  items ← attempt (listConfigMapsByPrefix ns "topology-");
  mret (match items with
        | Err e => Failure StatusInternalServerError (error_text e)
        | Ok items => Reply StatusOK items
        end).
Definition ListTopologyConfigs (decoded : result string string) : M (Response (list TopologyConfigItem)) :=
  bound (fun _ => []) decoded ListTopologyConfigs_bound.
End handlers.

(** ** Policies are read back as they were sent *)

Section policies.
Context {KUBE : KubeLib} {SORT : GoSort} {LIB : ServerLib} (cfg : OptimizationHandlerConfig).

(** A policy under deletion that is sent without finalizers goes. *)
Definition vanishes (sent : OptimizationPolicy) (stored : option OptimizationPolicy) : bool :=
  match stored with
  | Some old => match DeletionTimestamp (OP_Meta old), Finalizers (OP_Meta sent) with Some _, [] => true | _, _ => false end
  | None => false
  end.

(** What is read after a policy was sent: its metadata, the old status, and its spec with
    the run mode Once and the strategy Preview where it had none. *)
Definition as_sent (sent : OptimizationPolicy) (stored : option OptimizationPolicy) (p : OptimizationPolicy) : Prop :=
  Enabled (OP_Spec p) = Enabled (OP_Spec sent) /\ TargetSelector (OP_Spec p) = TargetSelector (OP_Spec sent) /\
  OptimizationGoals (OP_Spec p) = OptimizationGoals (OP_Spec sent) /\
  RunMode (OP_Spec p) = (if decide (RunMode (OP_Spec sent) = "") then "Once" else RunMode (OP_Spec sent)) /\
  RebalancePoint (OP_Spec p) = RebalancePoint (OP_Spec sent) /\
  Strategy (OP_Spec p) = (if decide (Strategy (OP_Spec sent) = "") then "Preview" else Strategy (OP_Spec sent)) /\
  ImprovementThresholdPercent (OP_Spec p) = ImprovementThresholdPercent (OP_Spec sent) /\
  Labels (OP_Meta p) = Labels (OP_Meta sent) /\
  Annotations (OP_Meta p) = Annotations (OP_Meta sent) /\ Finalizers (OP_Meta p) = Finalizers (OP_Meta sent) /\
  OP_Status p = match stored with Some old => OP_Status old | None => empty_policy_status end.

(** The spec is one that the CRD describes; a run mode and a strategy may be left out. *)
Record proper_spec (s : OptimizationPolicySpec) : Prop := {
  proper_goals : forall g, g ∈ OptimizationGoals s ->
    Goal_Type g <> "" /\ fle (f64_of_Z 0) (Goal_Weight g) = true /\ fle (Goal_Weight g) (f64_of_Z 1) = true;
  proper_mode : RunMode s ∈ [""; "Once"; "Periodic"];
  proper_strategy : Strategy s ∈ [""; "Preview"; "Conservative"; "Aggressive"];
  proper_threshold : (0 <= ImprovementThresholdPercent s <= 100)%Z
}.

Lemma str_empty_decide {A} (s : string) (x y : A) : (if str_empty s then x else y) = if decide (s = "") then x else y.
Proof. destruct s; [by rewrite decide_True|by rewrite decide_False]. Qed.

Lemma one_of (x : string) l : existsb (String.eqb x) l = true <-> x ∈ l.
Proof.
  rewrite existsb_exists. split.
  - intros (y & Hy & ->%String.eqb_eq). by apply list_elem_of_In.
  - intros Hx. exists x. split; [by apply list_elem_of_In|apply String.eqb_refl].
Qed.
Lemma defaulted_one_of (x d : string) l : "" ∉ l -> d ∈ l ->
  existsb (String.eqb (if str_empty x then d else x)) l = true <-> x ∈ "" :: l.
Proof.
  intros He Hd. rewrite one_of, str_empty_decide, elem_of_cons. destruct (decide (x = "")) as [->|Hx]; naive_solver.
Qed.

Lemma policy_schema_proper s : policy_schema (policy_defaults s) = true <-> proper_spec s.
Proof.
  unfold policy_schema. cbn [policy_defaults OptimizationGoals RunMode Strategy ImprovementThresholdPercent].
  rewrite !andb_true_iff, forallb_forall, !Z.leb_le, !defaulted_one_of; cycle 1.
  1, 3: rewrite !elem_of_cons, elem_of_nil; by intros [?|?]; naive_solver.
  1, 2: apply list_elem_of_here.
  assert (Hgoal : forall g, goal_schema g = true <->
    Goal_Type g <> "" /\ fle (f64_of_Z 0) (Goal_Weight g) = true /\ fle (Goal_Weight g) (f64_of_Z 1) = true).
  { intros g. unfold goal_schema. rewrite !andb_true_iff, negb_true_iff. destruct (Goal_Type g); cbn; naive_solver. }
  split.
  - intros [[[[Hg Hm] Hs] H0] H1]. split; [|done|done|done]. intros g Hin%list_elem_of_In. by apply Hgoal, Hg.
  - intros [Hg Hm Hs [H0 H1]]. split_and!; [|done..]. intros g Hin. by apply Hgoal, Hg, list_elem_of_In.
Qed.

Lemma applied_policy uid sent o ns policies :
  let key := (ns, Name (OP_Meta sent)) in
  accept (in_ns ns (in_policy_namespace cfg sent)) = Some o ->
  match applied uid o policies !! key with
  | Some p => vanishes sent (policies !! key) = false /\ as_sent sent (policies !! key) p
  | None => vanishes sent (policies !! key) = true
  end.
Proof.
  intros key Hadmit. unfold applied. rewrite (accept_key _ _ Hadmit), res_key_in_ns.
  change (ns, Name (meta_of (in_policy_namespace cfg sent))) with key.
  assert (exists m, o = mkPolicy m (policy_defaults (OP_Spec sent)) (OP_Status sent) /\
    Labels m = Labels (OP_Meta sent) /\ Annotations m = Annotations (OP_Meta sent) /\ Finalizers m = Finalizers (OP_Meta sent))
    as (m & -> & Hl & Ha & Hf).
  { cbn in Hadmit. destruct (policy_schema _); [|done]. injection Hadmit as <-. by eexists. }
  clear Hadmit. unfold vanishes, as_sent. rewrite <- Hl, <- Ha, <- Hf.
  destruct (policies !! key) as [old|] eqn:Hold; [|rewrite lookup_insert_eq; cbn; by rewrite !str_empty_decide].
  cbn [meta_of policy_resource OP_Meta]. destruct (DeletionTimestamp (OP_Meta old)); [destruct (Finalizers m) eqn:Hfin|];
    rewrite ?lookup_delete_eq, ?lookup_insert_eq; [done|split; [done|]..]; cbn; by rewrite ?Hfin, !str_empty_decide.
Qed.

(** C26: When no request fails, a policy that is sent is stored exactly when its spec is
    one that the CRD describes, whether the request creates or updates it and whether
    it exists or not; else the request answers 500 and the policies stay as they were. A
    stored one is read back with the labels, annotations, finalizers and spec sent, an
    empty run mode as Once and an empty strategy as Preview, and the status it had; only
    one under deletion that is sent without finalizers is gone. *)
Theorem policy_roundtrip create sent w :
  let ns := policy_namespace (OC_Namespace cfg) sent in
  let name := Name (OP_Meta sent) in
  (forall n, fault n = None) -> TrimSpace ns = ns -> TrimSpace name = name -> name <> "" -> UID (OP_Meta sent) = "" ->
  (proper_spec (OP_Spec sent) ->
   exists w1 w2 msg r,
     answers (applyOptimizationPolicy cfg create (Ok (Some sent))) w w1 (Reply StatusOK msg) /\
     answers (GetOptimizationPolicy cfg (Ok (mkNamedRequest ns name))) w1 w2 r /\
     (forall k, k <> (ns, name) -> w_policies w2 !! k = w_policies w !! k) /\
     if vanishes sent (w_policies w !! (ns, name)) then r = Failure StatusNotFound "optimizationPolicy not found"
     else exists p, r = Reply StatusOK p /\ as_sent sent (w_policies w !! (ns, name)) p) /\
  (~ proper_spec (OP_Spec sent) ->
   exists w1 text, answers (applyOptimizationPolicy cfg create (Ok (Some sent))) w w1 (Failure StatusInternalServerError text) /\
     w_policies w1 = w_policies w).
Proof.
  intros ns name Hno Hns Hname Hne Huid. assert (str_empty name = false) as He by by destruct name.
  assert (str_empty ns = false) as Hens.
  { unfold ns, policy_namespace in Hns |- *. set (n := if str_empty (TrimSpace (Namespace _)) then _ else _) in *.
    destruct (str_empty (TrimSpace n)) eqn:Hn; [done|]. rewrite Hns in Hn. exact Hn. }
  unfold answers, applyOptimizationPolicy, bound, bind, apply_bound.
  change (Name (OP_Meta (in_policy_namespace cfg sent))) with name. rewrite Hname, He.
  change (Namespace (OP_Meta (in_policy_namespace cfg sent))) with ns. rewrite bind_run. unfold attempt, ApplyTypedOptimizationPolicyCR.
  pose proof (apply_typed_applies ns (in_policy_namespace cfg sent) w) as Happ.
  assert (Hadm : forall o, accept (in_ns ns (in_policy_namespace cfg sent)) = Some o -> proper_spec (OP_Spec sent)).
  { intros o Ho. apply policy_schema_proper. cbn in Ho. by destruct (policy_schema _). }
  split; intros Hproper.
  2: { destruct (apply_typed_refused ns (in_policy_namespace cfg sent) w Hno) as (w1 & -> & Hw1); [|exact Huid|].
       - destruct (accept _) as [o|]; [by destruct Hproper; apply (Hadm o)|done].
       - eexists w1, _. split; [by rewrite andb_false_r|exact Hw1]. }
  destruct (apply_typed_succeeds ns (in_policy_namespace cfg sent) w Hno) as [w1 Hrun]; [|left; exact Huid|].
  { cbn. rewrite (proj2 (policy_schema_proper _) Hproper). by eexists. }
  rewrite Hrun in Happ |- *. destruct Happ as (uid & o & Ho & Happ). change (w_policies w1 = applied uid o (w_policies w)) in Happ.
  exists w1. unfold GetOptimizationPolicy, bound, bind, name_required, required. cbn [omap list_omap fst snd NR_Name]. rewrite He.
  unfold GetOptimizationPolicy_bound. cbn [NR_Name NR_Namespace]. rewrite Hname, He. unfold namespace_or. rewrite Hns, Hens.
  rewrite bind_run. unfold attempt, GetTypedOptimizationPolicyCR, rest_get. rewrite get_object_run by done.
  change (objects_of (tick w1) !! (ns, name)) with (w_policies w1 !! (ns, name)). rewrite Happ.
  assert (Hsent := applied_policy uid sent o ns (w_policies w) Ho). cbv zeta in Hsent. fold name in Hsent.
  eexists _, _, _. split; [done|]. split; [done|]. split.
  - intros k Hk. change (w_policies (tick w1)) with (w_policies w1). rewrite Happ. apply applied_other.
    by rewrite (accept_key _ _ Ho), res_key_in_ns.
  - destruct (applied _ _ _ !! _) as [p|]; [|by rewrite Hsent]. destruct Hsent as [-> Hsent]. by exists p.
Qed.

(** A deletion without faults is answered with 200 however often it is asked for,
    and from the first time on the policy is gone or under deletion. *)
Lemma DeleteOptimizationPolicy_idempotent req w :
  (forall n, fault n = None) -> TrimSpace (NR_Name req) <> "" ->
  let key := (namespace_or (NR_Namespace req) (OC_Namespace cfg), TrimSpace (NR_Name req)) in
  exists w' msg, answers (DeleteOptimizationPolicy cfg (Ok req)) w w' (Reply StatusOK msg) /\
    (forall p, w_policies w' !! key = Some p -> DeletionTimestamp (OP_Meta p) <> None) /\
    exists w'' msg', answers (DeleteOptimizationPolicy cfg (Ok req)) w' w'' (Reply StatusOK msg') /\
      w_policies w'' = w_policies w'.
Proof.
  intros Hno Hne. set (ns := namespace_or _ _). set (name := TrimSpace _) in *. intros key.
  assert (Hreq : name_required req = []).
  { unfold name_required, required. cbn. unfold name in Hne. by destruct (NR_Name req). }
  assert (Hrun : forall w, exists msg, DeleteOptimizationPolicy cfg (Ok req) w =
    ((rest_delete (A := OptimizationPolicy) ns name w).1, Ok (Reply StatusOK msg))).
  { intros w0. unfold DeleteOptimizationPolicy, bound, bind. rewrite Hreq. unfold DeleteOptimizationPolicy_bound. fold ns name.
    destruct (str_empty name) eqn:He; [by destruct name|]. rewrite bind_run. unfold attempt, DeleteTypedOptimizationPolicyCR, rest_delete.
    rewrite request_run by done. destruct (objects_of _ !! _) as [o|]; [|by eexists]. destruct (Finalizers _); by eexists. }
  unfold answers. destruct (Hrun w) as [msg ->]. eexists _, msg. split; [done|].
  destruct (Hrun (rest_delete (A := OptimizationPolicy) ns name w).1) as [msg' ->].
  assert (Hdel : forall w0, w_policies (rest_delete (A := OptimizationPolicy) ns name w0).1 =
    match w_policies w0 !! key with
    | None => w_policies w0
    | Some o => match Finalizers (OP_Meta o) with
                | [] => delete key (w_policies w0)
                | _ => <[key := mkPolicy (deleting_meta (w_clock w0) (OP_Meta o)) (OP_Spec o) (OP_Status o)]> (w_policies w0)
                end
    end).
  { intros w0. unfold rest_delete. rewrite request_run by done. change (objects_of (tick w0) !! (ns, name)) with (w_policies w0 !! key).
    destruct (w_policies w0 !! key) as [o|]; [|done]. cbn [meta_of policy_resource]. by destruct (Finalizers (OP_Meta o)). }
  split.
  - intros p. rewrite Hdel. destruct (w_policies w !! key) as [o|] eqn:Ho; [|congruence].
    destruct (Finalizers (OP_Meta o)); [by rewrite lookup_delete_eq|]. rewrite lookup_insert_eq. intros [= <-]. cbn.
    by destruct (DeletionTimestamp (OP_Meta o)).
  - eexists _, msg'. split; [done|]. rewrite Hdel. destruct (w_policies (rest_delete ns name w).1 !! key) as [p|] eqn:Hp; [|done].
    rewrite Hdel in Hp |- *. destruct (w_policies w !! key) as [o|] eqn:Ho; [|congruence].
    destruct (Finalizers (OP_Meta o)) eqn:Hf; [by rewrite lookup_delete_eq in Hp|]. rewrite lookup_insert_eq in Hp. injection Hp as <-.
    cbn. rewrite Hf, insert_insert_eq. f_equal. unfold deleting_meta. cbn. by destruct (DeletionTimestamp (OP_Meta o)).
Qed.

(** ** Listings *)

(** A listing without overflow shows the policies of the namespace whose name has the
    text asked for, newest first. *)
Lemma ListOptimizationPolicies_lists req w :
  page_fits (size (w_policies w)) (LP_Page req) (LP_PageSize req) ->
  exists w' r, answers (ListOptimizationPolicies cfg (Ok req)) w w' r /\
  match r with
  | Reply code resp => code = StatusOK /\
      page_shown (policy_listed (TrimSpace (LP_Name req))) policy_item (newer OI_Created)
        (in_store (w_policies w) (namespace_or (LP_Namespace req) (OC_Namespace cfg)))
        (page_number (LP_Page req)) (page_size (LP_PageSize req)) (LPR_Total resp) (LPR_Items resp)
  | Failure code _ => code = StatusInternalServerError
  | Recovered => False
  end.
Proof.
  intros Hfits. unfold answers, ListOptimizationPolicies, bound, bind, ListOptimizationPolicies_bound.
  rewrite bind_run. unfold attempt, ListTypedOptimizationPolicyCRs. set (ns := namespace_or _ _).
  destruct (list_objects_run w_policies ns w) as (r & Hrun & Hr).
  change (rest_list (A := OptimizationPolicy) ns) with (list_objects w_policies (in_namespace ns)). rewrite Hrun.
  destruct r as [found|e]; [|by eexists _, _]. specialize (Hr found eq_refl eq_refl).
  destruct (sorted_page_shown (policy_listed (TrimSpace (LP_Name req))) policy_item (newer OI_Created)
    (w_policies w) ns found _ _ (strict_weak_newer OI_Created) Hr Hfits) as (items & -> & _ & Hshown).
  by eexists _, _.
Qed.

(** The same for the plans of a policy. *)
Lemma ListReOrchestrationPlans_lists req w :
  page_fits (size (w_plans w)) (LO_Page req) (LO_PageSize req) ->
  exists w' r, answers (ListReOrchestrationPlans cfg (Ok req)) w w' r /\
  match r with
  | Reply code resp => code = StatusOK /\
      page_shown (plan_listed (TrimSpace (LO_PolicyName req))) plan_item (newer PI_Created)
        (in_store (w_plans w) (namespace_or (LO_Namespace req) (OC_Namespace cfg)))
        (page_number (LO_Page req)) (page_size (LO_PageSize req)) (LOR_Total resp) (LOR_Items resp)
  | Failure code _ => code = StatusInternalServerError
  | Recovered => False
  end.
Proof.
  intros Hfits. unfold answers, ListReOrchestrationPlans, bound, bind, ListReOrchestrationPlans_bound.
  rewrite bind_run. unfold attempt, ListTypedReOrchestrationPlanCRs. set (ns := namespace_or _ _).
  destruct (list_objects_run w_plans ns w) as (r & Hrun & Hr). rewrite Hrun.
  destruct r as [found|e]; [|by eexists _, _]. specialize (Hr found eq_refl eq_refl).
  destruct (sorted_page_shown (plan_listed (TrimSpace (LO_PolicyName req))) plan_item (newer PI_Created)
    (w_plans w) ns found _ _ (strict_weak_newer PI_Created) Hr Hfits) as (items & -> & _ & Hshown).
  by eexists _, _.
Qed.

(** Without the variable, as in a pod that uses its service account, no topology is
    listed. *)
Lemma ListTopologyConfigs_in_cluster build created requested w :
  ListTopologyConfigs cfg "" build created (Ok requested) w = (w, Ok (Reply StatusOK [])).
Proof. done. Qed.
End policies.

(** A policy without a run mode, sent twice, at first with an unknown strategy. *)
Definition demo_sent_policy (strategy : string) : OptimizationPolicy :=
  mkPolicy (mkMeta "p" "" "" 0 ∅ ∅ [] None []) (mkPolicySpec true None [mkOptimizationGoal "Cost" (f64_of_Z 1) "" ""] "" "" strategy 10)
    empty_policy_status.
Lemma policy_roundtrip_witness :
  (exists w1 text,
    applyOptimizationPolicy (KUBE := reliable_kube) (LIB := demo_lib) (mkOptConfig "default" "") true
      (Ok (Some (demo_sent_policy "Bold"))) empty_world = (w1, Ok (Failure StatusInternalServerError text)) /\ w_policies w1 = ∅) /\
  exists w1 w2 msg p,
    applyOptimizationPolicy (KUBE := reliable_kube) (LIB := demo_lib) (mkOptConfig "default" "") true
      (Ok (Some (demo_sent_policy "Aggressive"))) empty_world = (w1, Ok (Reply StatusOK msg)) /\
    GetOptimizationPolicy (KUBE := reliable_kube) (LIB := demo_lib) (mkOptConfig "default" "") (Ok (mkNamedRequest "default" "p")) w1 =
      (w2, Ok (Reply StatusOK p)) /\ RunMode (OP_Spec p) = "Once" /\ Strategy (OP_Spec p) = "Aggressive".
Proof.
  split.
  - destruct (policy_roundtrip (KUBE := reliable_kube) (LIB := demo_lib) (mkOptConfig "default" "") true (demo_sent_policy "Bold") empty_world)
      as [_ H]; [done|by_eval|by_eval|discriminate|done|]. apply H. intros [_ _ Hs _].
    rewrite !elem_of_cons, elem_of_nil in Hs. cbn in Hs. naive_solver.
  - destruct (policy_roundtrip (KUBE := reliable_kube) (LIB := demo_lib) (mkOptConfig "default" "") true (demo_sent_policy "Aggressive") empty_world)
      as [H _]; [done|by_eval|by_eval|discriminate|done|].
    destruct H as (w1 & w2 & msg & r & H1 & H2 & _ & Hr); [|].
    { split; [|apply list_elem_of_here| |cbn; lia].
      - intros g ->%list_elem_of_singleton. split_and!; [discriminate|by_eval|by_eval].
      - cbn. rewrite !elem_of_cons. auto. }
    destruct Hr as (p & -> & _ & _ & _ & Hm & _ & Hs & _). exists w1, w2, msg, p. split; [exact H1|]. split; [exact H2|].
    split; [exact Hm|exact Hs].
Defined.
