(* ===== verification/KvHandler.v ===== *)
(** * The key-value handlers of the REST server
    (internal/api/kv_handler.go, internal/storage/kv.go, kv_api_adapter.go)

    The store is etcd: a map of keys, on which a request takes effect or fails. The
    store gives every request five seconds, so a write that fails may still take
    effect, once, at any later time. A handler refines an operation on a map of the
    keys a user sees, with the writes whose fate is open. *)

From S2P Require Import Prelude GoText ApiTypes KubeApi ServerBase.

Local Open Scope string_scope.
Local Open Scope list_scope.

Definition StatusCreated : Z := 201.
Definition StatusNoContent : Z := 204.

(** ** The store *)

(** A write, and what it does to the keys. *)
Inductive etcd_write := EtcdPut (key value : string) | EtcdDelete (key : string).
Definition write_etcd (wr : etcd_write) (m : gmap string string) : gmap string string :=
  match wr with EtcdPut k v => <[k := v]> m | EtcdDelete k => delete k m end.

(** etcd: its keys, the failed writes that may still take effect, and the number of
    requests so far. *)
Record Etcd := mkEtcd { etcd_kv : gmap string string; etcd_open : list etcd_write; etcd_requests : nat }.

(** The requests that fail, and for each request which of the open writes take effect
    just before it, in which order: positions in the list of those still open. *)
Class EtcdFaults := { etcd_fault : nat -> bool; etcd_late : nat -> list nat }.

Section store.
Context {FAULTS : EtcdFaults}.

Fixpoint take_effect (late : list nat) (m : gmap string string) (l : list etcd_write) : gmap string string * list etcd_write :=
  match late with
  | [] => (m, l)
  | i :: late' =>
      match l !! i with
      | Some wr => take_effect late' (write_etcd wr m) (delete i l)
      | None => take_effect late' m l
      end
  end.

(** A request, [None] on an error. It may write; what it answers is read before. *)
Definition etcd_request {A} (write : option etcd_write) (f : gmap string string -> A) (s : Etcd) : Etcd * option A :=
  let n := etcd_requests s in
  let '(m, l) := take_effect (etcd_late n) (etcd_kv s) (etcd_open s) in
  if etcd_fault n then (mkEtcd m (match write with Some wr => l ++ [wr] | None => l end) (S n), None)
  else (mkEtcd (match write with Some wr => write_etcd wr m | None => m end) l (S n), Some (f m)).

(** [type KVStore struct]. *)
Record KVStore := mkKVStore { prefix : string }.

(** [func (s) key(k string) string]. *)
Definition store_key (s : KVStore) (k : string) : string := prefix s +:+ "/kv/" +:+ k.

(** [Put], [Get], [Delete] of the store, and of the adapter. *)
Definition Store_Put (s : KVStore) (key value : string) : Etcd -> Etcd * option unit :=
  etcd_request (Some (EtcdPut (store_key s key) value)) (fun _ => tt).
Definition Store_Get (s : KVStore) (key : string) : Etcd -> Etcd * option (option string) :=
  etcd_request None (fun m => m !! store_key s key).
Definition Store_Delete (s : KVStore) (key : string) : Etcd -> Etcd * option bool :=
  etcd_request (Some (EtcdDelete (store_key s key))) (fun m => bool_decide (is_Some (m !! store_key s key))).

(** ** Handlers *)

(** What a response holds: nothing, a key, or a key with its value. *)
Inductive kv_body := NoBody | KeyBody (key : string) | PairBody (key value : string).

Context {LIB : ServerLib} (store : KVStore).

(** [func (h) create(c)], [get], [update], [delete]. *)
Definition kv_create (decoded : result string (string * string)) (s : Etcd) : Etcd * Response kv_body :=
  match bind (fun req => required [("Key", req.1); ("Value", req.2)]) decoded with
  | Err text => (s, Failure StatusBadRequest text)
  | Ok (key, value) =>
      match Store_Put store key value s with
      | (s', None) => (s', Failure StatusInternalServerError "store put failed")
      | (s', Some _) => (s', Reply StatusCreated (KeyBody key))
      end
  end.
Definition kv_get (key : string) (s : Etcd) : Etcd * Response kv_body :=
  match Store_Get store key s with
  | (s', None) => (s', Failure StatusInternalServerError "store get failed")
  | (s', Some None) => (s', Failure StatusNotFound "not found")
  | (s', Some (Some value)) => (s', Reply StatusOK (PairBody key value))
  end.
Definition kv_update (key : string) (decoded : result string string) (s : Etcd) : Etcd * Response kv_body :=
  match bind (fun value => required [("Value", value)]) decoded with
  | Err text => (s, Failure StatusBadRequest text)
  | Ok value =>
      match Store_Put store key value s with
      | (s', None) => (s', Failure StatusInternalServerError "store put failed")
      | (s', Some _) => (s', Reply StatusOK (KeyBody key))
      end
  end.
Definition kv_delete (key : string) (s : Etcd) : Etcd * Response kv_body :=
  match Store_Delete store key s with
  | (s', None) => (s', Failure StatusInternalServerError "store delete failed")
  | (s', Some deleted) =>
      (s', if deleted then Reply StatusNoContent NoBody else Failure StatusNotFound "not found")
  end.

(** The routes [/kv] and [/kv/:key]. *)
Inductive kv_request :=
| PostKv (decoded : result string (string * string))
| GetKv (key : string)
| PutKv (key : string) (decoded : result string string)
| DeleteKv (key : string).
Definition serve (req : kv_request) : Etcd -> Etcd * Response kv_body :=
  match req with
  | PostKv decoded => kv_create decoded
  | GetKv key => kv_get key
  | PutKv key decoded => kv_update key decoded
  | DeleteKv key => kv_delete key
  end.
Fixpoint serve_all (reqs : list kv_request) (s : Etcd) : Etcd * list (Response kv_body) :=
  match reqs with
  | [] => (s, [])
  | req :: reqs' =>
      let '(s1, resp) := serve req s in
      let '(s2, resps) := serve_all reqs' s1 in (s2, resp :: resps)
  end.

(** ** The specification: a map of keys, and the writes whose fate is open *)

Inductive kv_write := SetKey (key value : string) | DropKey (key : string).
Definition write_kv (wr : kv_write) (m : gmap string string) : gmap string string :=
  match wr with SetKey k v => <[k := v]> m | DropKey k => delete k m end.

(** A request that does not bind changes nothing; one that binds takes effect with its
    answer, or fails with 500, and then a write joins the open ones. *)
Inductive kv_spec : kv_request -> gmap string string * list kv_write -> gmap string string * list kv_write -> Response kv_body -> Prop :=
| spec_post key value m l : key <> "" -> value <> "" ->
    kv_spec (PostKv (Ok (key, value))) (m, l) (<[key := value]> m, l) (Reply StatusCreated (KeyBody key))
| spec_put key value m l : value <> "" ->
    kv_spec (PutKv key (Ok value)) (m, l) (<[key := value]> m, l) (Reply StatusOK (KeyBody key))
| spec_get key value m l : m !! key = Some value ->
    kv_spec (GetKv key) (m, l) (m, l) (Reply StatusOK (PairBody key value))
| spec_get_missing key m l : m !! key = None -> kv_spec (GetKv key) (m, l) (m, l) (Failure StatusNotFound "not found")
| spec_delete key m l : is_Some (m !! key) ->
    kv_spec (DeleteKv key) (m, l) (delete key m, l) (Reply StatusNoContent NoBody)
| spec_delete_missing key m l : m !! key = None ->
    kv_spec (DeleteKv key) (m, l) (m, l) (Failure StatusNotFound "not found")
| spec_bad_post d text s : (forall k v, d = Ok (k, v) -> k = "" \/ v = "") ->
    kv_spec (PostKv d) s s (Failure StatusBadRequest text)
| spec_bad_put key d text s : (forall v, d = Ok v -> v = "") -> kv_spec (PutKv key d) s s (Failure StatusBadRequest text)
| spec_post_fails key value m l : (exists n, etcd_fault n = true) -> key <> "" -> value <> "" ->
    kv_spec (PostKv (Ok (key, value))) (m, l) (m, l ++ [SetKey key value]) (Failure StatusInternalServerError "store put failed")
| spec_put_fails key value m l : (exists n, etcd_fault n = true) -> value <> "" ->
    kv_spec (PutKv key (Ok value)) (m, l) (m, l ++ [SetKey key value]) (Failure StatusInternalServerError "store put failed")
| spec_get_fails key s : (exists n, etcd_fault n = true) ->
    kv_spec (GetKv key) s s (Failure StatusInternalServerError "store get failed")
| spec_delete_fails key m l : (exists n, etcd_fault n = true) ->
    kv_spec (DeleteKv key) (m, l) (m, l ++ [DropKey key]) (Failure StatusInternalServerError "store delete failed").

(** An open write takes effect, and is open no more. *)
Inductive kv_late : gmap string string * list kv_write -> gmap string string * list kv_write -> Prop :=
| late_write m l1 wr l2 : kv_late (m, l1 ++ wr :: l2) (write_kv wr m, l1 ++ l2).

(** Any number of open writes take effect before each request. *)
Inductive kv_specs : list kv_request -> gmap string string * list kv_write -> gmap string string * list kv_write -> list (Response kv_body) -> Prop :=
| specs_nil s : kv_specs [] s s []
| specs_cons req reqs s s1 s2 s3 resp resps :
    rtc kv_late s s1 -> kv_spec req s1 s2 resp -> kv_specs reqs s2 s3 resps -> kv_specs (req :: reqs) s s3 (resp :: resps).

(** ** The handlers refine it *)

Definition full_write (wr : kv_write) : etcd_write :=
  match wr with SetKey k v => EtcdPut (store_key store k) v | DropKey k => EtcdDelete (store_key store k) end.

(** The map is what etcd holds under the prefix, and the rest of etcd is as it was. *)
Definition kv_rel (other full m : gmap string string) : Prop :=
  (forall k, full !! store_key store k = m !! k) /\
  forall k', (forall k, k' <> store_key store k) -> full !! k' = other !! k'.
Definition store_rel (other : gmap string string) (s : Etcd) (a : gmap string string * list kv_write) : Prop :=
  kv_rel other (etcd_kv s) a.1 /\ etcd_open s = full_write <$> a.2.

Lemma append_inj (p s t : string) : p +:+ s = p +:+ t -> s = t.
Proof. induction p as [|a p IH]; cbn; [done|]. intros [= H]. by apply IH. Qed.
Lemma store_key_inj k k' : store_key store k = store_key store k' -> k = k'.
Proof. unfold store_key. intros H%append_inj. by injection H. Qed.

Lemma rel_write other full m wr : kv_rel other full m -> kv_rel other (write_etcd (full_write wr) full) (write_kv wr m).
Proof.
  intros [H1 H2]. destruct wr as [k v|k]; (split; cbn; [intros k'|intros k' Hk']).
  - destruct (decide (k' = k)) as [->|Hk]; [by rewrite !lookup_insert_eq|].
    rewrite !lookup_insert_ne; [apply H1|done|]. intros Heq%store_key_inj. by apply Hk.
  - rewrite lookup_insert_ne by (by apply not_eq_sym). by apply H2.
  - destruct (decide (k' = k)) as [->|Hk]; [by rewrite !lookup_delete_eq|].
    rewrite !lookup_delete_ne; [apply H1|done|]. intros Heq%store_key_inj. by apply Hk.
  - rewrite lookup_delete_ne by (by apply not_eq_sym). by apply H2.
Qed.

Lemma late_refines other late full m l :
  kv_rel other full m -> exists a, rtc kv_late (m, l) a /\
    kv_rel other (take_effect late full (full_write <$> l)).1 a.1 /\
    (take_effect late full (full_write <$> l)).2 = full_write <$> a.2.
Proof.
  revert full m l. induction late as [|i late IH]; intros full m l Hrel; [by exists (m, l)|]. cbn [take_effect].
  rewrite list_lookup_fmap. destruct (l !! i) as [wr|] eqn:Hi; [|by apply IH]. cbn [fmap option_fmap option_map].
  destruct (IH (write_etcd (full_write wr) full) (write_kv wr m) (delete i l)) as (a & Hl & Ha); [by apply rel_write|].
  exists a. rewrite (list_fmap_delete full_write) in Ha. split; [|exact Ha]. eapply rtc_l; [|exact Hl].
  rewrite <- (take_drop_middle _ _ _ Hi) at 1. rewrite delete_take_drop. constructor.
Qed.

(** A request of the store on related states. *)
Lemma request_refines {A} other (write : option kv_write) (f : gmap string string -> A) s a :
  store_rel other s a ->
  exists m l, rtc kv_late a (m, l) /\
    let '(s', r) := etcd_request (full_write <$> write) f s in
    (r = None /\ etcd_fault (etcd_requests s) = true /\
       store_rel other s' (m, match write with Some wr => l ++ [wr] | None => l end)) \/
    exists full, kv_rel other full m /\ r = Some (f full) /\
      store_rel other s' (match write with Some wr => write_kv wr m | None => m end, l).
Proof.
  intros [Hrel Hopen]. destruct a as [m0 l0]. cbn in Hrel, Hopen.
  destruct (late_refines other (etcd_late (etcd_requests s)) (etcd_kv s) m0 l0 Hrel) as ([m l] & Hlate & Hm & Hl).
  exists m, l. split; [exact Hlate|]. unfold etcd_request. rewrite Hopen.
  destruct (take_effect _ _ _) as [full l']. cbn in Hm, Hl. subst l'.
  destruct (etcd_fault _) eqn:Hf.
  - left. split_and!; [done|done|]. split; [exact Hm|]. destruct write as [wr|]; cbn; [by rewrite fmap_app|done].
  - right. exists full. split_and!; [done|done|]. split; [|done]. destruct write as [wr|]; cbn; [by apply rel_write|done].
Qed.

Lemma missing_none (f1 v1 : string) : required [(f1, v1)] = [] -> v1 <> "".
Proof. unfold required. cbn. by destruct v1. Qed.

(** One request. *)
Lemma serve_refines other req s a :
  store_rel other s a ->
  exists a1 a2, rtc kv_late a a1 /\ kv_spec req a1 a2 (serve req s).2 /\ store_rel other (serve req s).1 a2.
Proof.
  intros Hrel. destruct req as [d|key|key d|key]; cbn [serve].
  - unfold kv_create, bind. destruct d as [[key value]|text]; [|exists a, a; split_and!; [done|by constructor|done]].
    destruct (required _) as [|f fs] eqn:Hreq.
    2: { exists a, a. split_and!; [done| |done]. constructor. intros k v [= <- <-]. destruct key; [by left|]. destruct value; [by right|done]. }
    assert (key <> "" /\ value <> "") as [Hkey Hvalue] by by destruct key, value.
    destruct (request_refines other (Some (SetKey key value)) (fun _ => tt) s a Hrel) as (m & l & Hlate & Hr).
    unfold Store_Put. cbn [fmap option_fmap option_map full_write] in Hr. destruct (etcd_request _ _ s) as [s' r]. exists (m, l).
    destruct Hr as [(-> & Hf & Hs)|(full & _ & -> & Hs)]; (eexists; split_and!; [exact Hlate| |exact Hs]).
    + constructor; [by eexists|done..].
    + by constructor.
  - destruct (request_refines other None (fun m => m !! store_key store key) s a Hrel) as (m & l & Hlate & Hr).
    unfold kv_get, Store_Get. cbn [fmap option_fmap option_map] in Hr. destruct (etcd_request _ _ s) as [s' r]. exists (m, l), (m, l).
    destruct Hr as [(-> & Hf & Hs)|(full & [Hk _] & -> & Hs)]; [split_and!; [done|constructor; by eexists|done]|].
    rewrite Hk. destruct (m !! key) eqn:Hm; (split_and!; [done|by constructor|done]).
  - unfold kv_update, bind. destruct d as [value|text]; [|exists a, a; split_and!; [done|by constructor|done]].
    destruct (required _) as [|f fs] eqn:Hreq.
    2: { exists a, a. split_and!; [done| |done]. constructor. intros v [= <-]. by destruct value. }
    apply missing_none in Hreq.
    destruct (request_refines other (Some (SetKey key value)) (fun _ => tt) s a Hrel) as (m & l & Hlate & Hr).
    unfold Store_Put. cbn [fmap option_fmap option_map full_write] in Hr. destruct (etcd_request _ _ s) as [s' r]. exists (m, l).
    destruct Hr as [(-> & Hf & Hs)|(full & _ & -> & Hs)]; (eexists; split_and!; [exact Hlate| |exact Hs]).
    + constructor; [by eexists|done].
    + by constructor.
  - destruct (request_refines other (Some (DropKey key)) (fun m => bool_decide (is_Some (m !! store_key store key))) s a Hrel) as (m & l & Hlate & Hr).
    unfold kv_delete, Store_Delete. cbn [fmap option_fmap option_map full_write] in Hr. destruct (etcd_request _ _ s) as [s' r]. exists (m, l).
    destruct Hr as [(-> & Hf & Hs)|(full & [Hk _] & -> & Hs)]; (eexists; split_and!; [exact Hlate| |exact Hs]).
    + constructor. by eexists.
    + rewrite Hk. cbn [write_kv fst snd]. case_bool_decide as Hm; [by constructor|]. apply eq_None_not_Some in Hm.
      rewrite (delete_id m) by done. by constructor.
Qed.

(** C25: The key-value API refines a map of the keys: however its requests follow each
    other and whatever requests to etcd fail, the answers are those of the map, and a
    key with a missing value is refused with 400. A failed request answers 500; it
    leaves the map as it is, but when it would write, the write stays open: it may
    take effect, once, before any later request, or never. etcd holds this map under the
    prefix of the store, and its other keys are as they were. *)
Theorem kv_refines_map reqs s a other :
  store_rel other s a ->
  exists a', kv_specs reqs a a' (serve_all reqs s).2 /\ store_rel other (serve_all reqs s).1 a'.
Proof.
  revert s a. induction reqs as [|req reqs IH]; intros s a Hrel; cbn [serve_all]; [exists a; split; [constructor|done]|].
  destruct (serve_refines other req s a Hrel) as (a1 & a2 & Hlate & Hspec & Hrel1). destruct (serve req s) as [s1 resp].
  destruct (IH s1 a2 Hrel1) as (a3 & Hspecs & Hrel2). destruct (serve_all reqs s1) as [s2 resps].
  exists a3. split; [by econstructor|done].
Qed.
End store.

Definition reliable_etcd : EtcdFaults := {| etcd_fault := fun _ => false; etcd_late := fun _ => [] |}.

(** The second request fails, and takes effect just before the fourth. *)
Definition slow_etcd : EtcdFaults :=
  {| etcd_fault := fun n => Nat.eqb n 1; etcd_late := fun n => if Nat.eqb n 3 then [0%nat] else [] |}.

(** The deletion answers 500, and the value is still read; later it is gone. *)
Lemma kv_refines_map_witness :
  let reqs := [PostKv (Ok ("a", "1")); PutKv "a" (Ok ""); DeleteKv "a"; GetKv "a"; GetKv "a"] in
  let served := serve_all (FAULTS := slow_etcd) (LIB := demo_lib) (mkKVStore "/kubex") reqs (mkEtcd {["/other" := "x"]} [] 0) in
  served.2 = [Reply StatusCreated (KeyBody "a"); Failure StatusBadRequest "missing";
              Failure StatusInternalServerError "store delete failed";
              Reply StatusOK (PairBody "a" "1"); Failure StatusNotFound "not found"] /\
  etcd_kv served.1 !! "/other" = Some "x".
Proof.
  cbv zeta. split; [by_eval|].
  edestruct (@kv_refines_map slow_etcd demo_lib (mkKVStore "/kubex")
    [PostKv (Ok ("a", "1")); PutKv "a" (Ok ""); DeleteKv "a"; GetKv "a"; GetKv "a"] (mkEtcd {["/other" := "x"]} [] 0) (∅, []) {["/other" := "x"]})
    as (a' & _ & [_ Hother] & _).
  - split; [|done]. split; [|done]. intros k. cbn. rewrite lookup_singleton_ne; [done|discriminate].
  - rewrite Hother; [reflexivity|discriminate].
Defined.
