(* ===== verification/System.v ===== *)
(** * The controllers together

    The system as a transition relation on the environment: in any order, one of
    the five controllers handles an object, the timer of a policy fires, time
    passes, a member cluster changes on its own, the process restarts, or a user
    creates, changes or deletes objects. The relation interleaves whole calls;
    within a call every request may fail. *)

From stdpp Require Import pretty.
From S2P Require Import Prelude OptErrors Objective GoTime ApiTypes KubeApi MemberClients Scheduler.
From S2P Require Import Profiles PolicyInputs.
From S2P Require PlanController ReplicaBinding GlobalDeployment ClusterController PolicyController PolicyEvaluate.

Local Open Scope string_scope.
Local Open Scope list_scope.

(** ** Events *)

(** What a user or another program may change at will: clusters, secrets, config
    maps and policies. *)
Definition set_config (cs : gmap Key Cluster) (ss : gmap Key Secret) (cms : gmap Key (gmap string string))
    (pols : gmap Key OptimizationPolicy) (w : World) : World :=
  mkWorld (w_plans w) (w_rbs w) (w_gds w) cs ss (w_members w) (w_clients w) (w_cursors w) (w_clock w) (w_requests w)
    (mkPolicyState pols (ps_leases (w_policy w)) cms (ps_timers (w_policy w)) (ps_clients (w_policy w)))
    (w_cluster_clients w).

(** A restart loses what the process keeps: clients, cursors and timers. *)
Definition restart (w : World) : World :=
  set_clients (fun _ => ∅) (set_cursors (fun _ => ∅) (set_timers (fun _ => ∅)
    (set_policy_clients (fun _ => ∅) (set_cluster_clients (fun _ => ∅) w)))).

Definition mark_gd_deleting (t : Z) (gd : GlobalDeployment) : GlobalDeployment :=
  let m := GD_Meta gd in
  mkGD (mkMeta (Name m) (Namespace m) (UID m) (Generation m) (Labels m) (Annotations m) (Finalizers m)
          (match DeletionTimestamp m with None => Some t | d => d end) (OwnerReferences m)) (GD_Spec gd) (GD_Status gd).

Inductive event :=
| PlanCall (key : Key)
| BindingCall (key : Key)
| DeploymentCall (key : Key)
| ClusterCall (key : Key)
| PolicyCall (key : Key)
| Evaluation (key : Key)
| Restart
| Elapse (d : Z)
| Members (ms : gmap string MemberCluster)
| Configure (cs : gmap Key Cluster) (ss : gmap Key Secret) (cms : gmap Key (gmap string string))
    (pols : gmap Key OptimizationPolicy).

Section system.
Context {KUBE : KubeLib} {SORT : GoSort} {MAPS : MapOrder}.
Context {DEC : ProfileDecoders} {ORDERS : LoopOrders} {FMT : GoFmt} {TEXT : PolicyController.PolicyTexts}
  {BACK : Backend} {SOUND : PolicyEvaluate.SoundBackend BACK}.
Context (r : PolicyReconciler) (ControlNamespace : string).

(** An evaluation takes place when the timer of the policy is due; the timer is gone
    then. *)
Definition enabled (e : event) (w : World) : bool :=
  match e with
  | Evaluation key => match w_timers w !! key with Some t => (t <=? w_clock w)%Z | None => false end
  | Elapse d => (0 <=? d)%Z
  | _ => true
  end.
Definition handle (e : event) (w : World) : World :=
  match e with
  | PlanCall key => (PlanController.Reconcile fmt_q key w).1
  | BindingCall key => (ReplicaBinding.Reconcile ControlNamespace key w).1
  | DeploymentCall key => (GlobalDeployment.Reconcile key w).1
  | ClusterCall key => (ClusterController.Reconcile key w).1
  | PolicyCall key => (PolicyController.Reconcile r key w).1
  | Evaluation key => (PolicyEvaluate.defaultEvaluate r key (set_timers (delete key) w)).1
  | Restart => restart w
  | Elapse d => set_clock (w_clock w + d) w
  | Members ms => set_members (fun _ => ms) w
  | Configure cs ss cms pols => set_config cs ss cms pols w
  end.

(** The plan an event would create. *)
Definition drawn (e : event) (w : World) : option Key :=
  match e with Evaluation key => PolicyEvaluate.drawn_plan r key (set_timers (delete key) w) | _ => None end.

Definition call (w w' : World) : Prop := exists e, enabled e w = true /\ w' = handle e w.

(** Calls that do not draw the name [k] for a new plan. *)
Definition sparing (k : Key) (w w' : World) : Prop :=
  exists e, enabled e w = true /\ drawn e w <> Some k /\ w' = handle e w.

(** What a user does to the objects: a new plan is not finished. *)
Inductive user_step : World -> World -> Prop :=
| step_new_plan p w :
    w_plans w !! PlanController.plan_key p = None ->
    PlanController.finished_phase (Plan_Phase (Plan_Status p)) = false ->
    user_step w (set_plans <[PlanController.plan_key p := p]> w)
| step_delete_plan key w : user_step w (set_plans (delete key) w)
| step_new_deployment gd w :
    w_gds w !! GlobalDeployment.gd_key gd = None -> user_step w (set_gds <[GlobalDeployment.gd_key gd := gd]> w)
| step_delete_deployment key gd w :
    w_gds w !! key = Some gd -> Finalizers (GD_Meta gd) <> [] ->
    user_step w (set_gds <[key := mark_gd_deleting (w_clock w) gd]> w)
| step_purge_deployment key gd w :
    w_gds w !! key = Some gd -> Finalizers (GD_Meta gd) = [] -> user_step w (set_gds (delete key) w)
| step_delete_binding key w : user_step w (delete_rb key w).1.

Inductive step : World -> World -> Prop :=
| step_call w w' : call w w' -> step w w'
| step_user w w' : user_step w w' -> step w w'.

(** ** The invariant *)

(** A binding is named after its deployment and its replica, and its one owner is a
    controlling reference to the deployment. *)
Definition named (b : ReplicaBinding) : Prop :=
  rb_key b = (Ref_Namespace (RBS_GlobalDeploymentRef (RB_Spec b)),
              Ref_Name (RBS_GlobalDeploymentRef (RB_Spec b)) +:+ "-rb-" +:+ pretty (RBS_ReplicaIndex (RB_Spec b))) /\
  exists uid, OwnerReferences (RB_Meta b) =
    [mkOwner "GlobalDeployment" (Ref_Name (RBS_GlobalDeploymentRef (RB_Spec b))) uid (Some true)].

(** Its deployment is stored, under the controller's finalizer, and controls it. *)
Definition ref_key (b : ReplicaBinding) : Key :=
  (Ref_Namespace (RBS_GlobalDeploymentRef (RB_Spec b)), Ref_Name (RBS_GlobalDeploymentRef (RB_Spec b))).
Definition rooted (gds : gmap Key GlobalDeployment) (b : ReplicaBinding) : Prop :=
  exists gd, gds !! ref_key b = Some gd /\ GlobalDeployment.globalDeploymentFinalizer ∈ Finalizers (GD_Meta gd) /\
    GlobalDeployment.owned_by gd b = true.
Definition sound (gds : gmap Key GlobalDeployment) (b : ReplicaBinding) : Prop := named b /\ rooted gds b.

Definition bindings_ok (gds : gmap Key GlobalDeployment) (rbs : gmap Key ReplicaBinding) : Prop :=
  rbs_ok rbs /\ map_Forall (fun _ b => sound gds b) rbs.

(** A plan that ended is in the phase its moves ask for. *)
Definition ended_ok (p : ReOrchestrationPlan) : Prop :=
  Plan_Phase (Plan_Status p) ∈ [PlanPhaseSucceeded; PlanPhaseFailed; PlanPhasePartiallyFailed] ->
  PlanController.final_phase (MoveStatuses (Plan_Status p)) = Some (Plan_Phase (Plan_Status p)) /\
  (Moves (Plan_Spec p) <> [] -> MoveStatuses (Plan_Status p) <> []).

Definition plans_ok (plans : gmap Key ReOrchestrationPlan) : Prop :=
  map_Forall (fun k p => PlanController.plan_key p = k /\ ended_ok p) plans.

Definition gds_ok (gds : gmap Key GlobalDeployment) : Prop :=
  map_Forall (fun k gd => GlobalDeployment.gd_key gd = k) gds.

Definition system_ok (w : World) : Prop :=
  plans_ok (w_plans w) /\ bindings_ok (w_gds w) (w_rbs w) /\ gds_ok (w_gds w).

(** ** Writes that keep the bindings in order *)

Section writes.
Context (gds0 : gmap Key GlobalDeployment).

Definition ok_bindings (w : World) : Prop := bindings_ok gds0 (w_rbs w).

Lemma bindings_ok_insert rbs k b :
  bindings_ok gds0 rbs -> rb_key b = k -> sound gds0 b ->
  DeletionTimestamp (RB_Meta b) = None \/ Finalizers (RB_Meta b) <> [] -> bindings_ok gds0 (<[k := b]> rbs).
Proof.
  intros [H1 H2] Hk Hn Hd. split; [by apply rbs_ok_insert|by apply map_Forall_insert_2].
Qed.

Lemma bindings_ok_delete rbs k : bindings_ok gds0 rbs -> bindings_ok gds0 (delete k rbs).
Proof. intros [H1 H2]. split; by apply map_Forall_delete. Qed.

Lemma bindings_ok_lookup rbs k b : bindings_ok gds0 rbs -> rbs !! k = Some b ->
  rb_key b = k /\ sound gds0 b /\ (DeletionTimestamp (RB_Meta b) = None \/ Finalizers (RB_Meta b) <> []).
Proof. intros [H1 H2] Hb. destruct (H1 _ _ Hb) as [Hk Hd]. split_and!; [done|exact (H2 _ _ Hb)|done]. Qed.

Lemma keeps_ok_quiet {A} (m : M A) : preserves w_rbs m -> keeps ok_bindings m.
Proof. intros Hm w Hw. unfold ok_bindings. by rewrite Hm. Qed.

Lemma keeps_ok_patch_rb b : sound gds0 b -> keeps ok_bindings (patch_rb b).
Proof.
  intros Hn. apply hoare_request; [done|]. intros w Hw. unfold ok_bindings in *. cbn.
  change (Namespace (RB_Meta b), Name (RB_Meta b)) with (rb_key b).
  destruct (w_rbs w !! rb_key b) as [old|]; [|done].
  destruct (DeletionTimestamp (RB_Meta b)) as [t|] eqn:Hd; [destruct (Finalizers (RB_Meta b)) as [|f fs] eqn:Hf|]; cbn.
  - by apply bindings_ok_delete.
  - apply bindings_ok_insert; [done|done|exact Hn|]. right. cbn. by rewrite Hf.
  - apply bindings_ok_insert; [done|done|exact Hn|]. by left.
Qed.

Lemma keeps_ok_patch_rb_status b : keeps ok_bindings (patch_rb_status b).
Proof.
  apply hoare_request; [done|]. intros w Hw. unfold ok_bindings in *. cbn.
  destruct (w_rbs w !! _) as [old|] eqn:Hold; [|done]. cbn.
  destruct (bindings_ok_lookup _ _ _ Hw Hold) as (Hk & Hn & Hd). by apply bindings_ok_insert.
Qed.

Lemma keeps_ok_create_rb b : sound gds0 b -> DeletionTimestamp (RB_Meta b) = None -> keeps ok_bindings (create_rb b).
Proof.
  intros Hn Hd. apply hoare_request; [done|]. intros w Hw. unfold ok_bindings in *. cbn.
  destruct (w_rbs w !! _); [done|]. cbn. apply bindings_ok_insert; [done|done|done|by left].
Qed.

Lemma keeps_ok_delete_rb k : keeps ok_bindings (delete_rb k).
Proof.
  apply hoare_request; [done|]. intros w Hw. unfold ok_bindings in *. cbn.
  destruct (w_rbs w !! k) as [b|] eqn:Hb; [|done]. destruct (bindings_ok_lookup _ _ _ Hw Hb) as (Hk & Hn & Hd).
  destruct (Finalizers (RB_Meta b)) eqn:Hf; cbn; [by apply bindings_ok_delete|].
  apply bindings_ok_insert; [done|done|done|]. right. cbn. by rewrite Hf.
Qed.

(** What is read is named. *)
Lemma hoare_ok_get k (A : Type) (f : ReplicaBinding -> M A) (g : api_error -> M A) :
  (forall b, sound gds0 b -> keeps ok_bindings (f b)) -> (forall e, keeps ok_bindings (g e)) ->
  keeps ok_bindings (r ← attempt (get_object w_rbs k); match r with Ok b => f b | Err e => g e end).
Proof.
  intros Hf Hg. apply hoare_bind with (R := fun r w => ok_bindings w /\ match r with Ok b => sound gds0 b | Err _ => True end).
  - apply hoare_attempt, hoare_get_object; [done|done|done|]. intros w b Hw Hb. split; [done|].
    by destruct (bindings_ok_lookup _ _ _ Hw Hb) as (_ & ? & _).
  - intros [b|e] w [Hw Hn]; [by apply Hf|by apply Hg].
Qed.

Lemma hoare_ok_read k (A : Type) (f : ReplicaBinding -> M A) :
  (forall b, sound gds0 b -> keeps ok_bindings (f b)) -> keeps ok_bindings (b ← get_object w_rbs k; f b).
Proof.
  intros Hf. apply hoare_bind with (R := fun b w => ok_bindings w /\ sound gds0 b).
  - apply hoare_get_object; [done|done|done|]. intros w b Hw Hb. split; [done|].
    by destruct (bindings_ok_lookup _ _ _ Hw Hb) as (_ & ? & _).
  - intros b w [Hw Hn]. by apply Hf.
Qed.

(** ** The controllers keep the bindings in order *)

Lemma keeps_ok_apply_move latest mv : keeps ok_bindings (PlanController.apply_move latest mv).
Proof.
  assert (Hp : forall st msg, keeps ok_bindings (ignore (PlanController.patchMoveStatus latest mv st msg))).
  { intros. apply keeps_ignore, keeps_ok_quiet, PlanController.preserves_patchMoveStatus; done. }
  assert (Hpi : forall from to msg, keeps ok_bindings (ignore (PlanController.patchMoveStatusIf latest mv from to msg))).
  { intros. apply keeps_ignore, keeps_ok_quiet, PlanController.preserves_patchMoveStatusIf; done. }
  unfold PlanController.apply_move. apply hoare_ok_get; [|auto]. intros rb Hrb.
  destruct (PlanController.needPatch _ _ _); [|auto].
  apply keeps_bind; [apply keeps_attempt, keeps_ok_patch_rb; exact Hrb|]. intros [[]|e]; [|auto].
  apply hoare_ok_get; [|auto]. intros rb' _. destruct (String.eqb _ _); [auto|].
  apply keeps_bind; [apply keeps_now|]. intros t.
  apply keeps_bind; [apply keeps_attempt, keeps_ok_patch_rb_status|]. intros [[]|e]; auto.
Qed.

(** Nothing else of a plan call writes bindings. *)
Lemma keeps_ok_get_plan key A (f : result api_error ReOrchestrationPlan -> M A) :
  (forall r, keeps ok_bindings (f r)) -> keeps ok_bindings (attempt (get_object w_plans key) ≫= f).
Proof. intros Hf. apply keeps_bind; [by apply keeps_ok_quiet, preserves_attempt, preserves_get_object|exact Hf]. Qed.

Lemma keeps_ok_patch_plan p : keeps ok_bindings (patch_plan_status p).
Proof. by apply keeps_ok_quiet, preserves_patch_plan_status. Qed.

Lemma keeps_ok_converge key : keeps ok_bindings (PlanController.convergePlanPhase key).
Proof.
  apply keeps_ok_get_plan. intros [read|e]; [|apply keeps_ignore_not_found].
  apply keeps_bind; [by apply keeps_ignore, keeps_ok_quiet, PlanController.preserves_recompute|]. intros _.
  apply keeps_ok_get_plan. intros [latest|e]; [|apply keeps_ignore_not_found].
  destruct (PlanController.moves_uninitialised latest); [apply keeps_ret|].
  destruct (PlanController.final_phase _); [|apply keeps_ret]. destruct (_ && _); [apply keeps_ret|].
  apply keeps_bind; [apply keeps_now|]. intros t. apply keeps_bind; [apply keeps_ok_patch_plan|intros; apply keeps_ret].
Qed.

Lemma keeps_ok_monitor_moves p : keeps ok_bindings (PlanController.monitor_moves p).
Proof.
  apply keeps_bind; [apply keeps_now|]. intros t. destruct (PlanController.timed_out p t); [apply keeps_ok_converge|].
  apply keeps_bind; [|intros; apply keeps_ok_converge]. apply keeps_for_each. intros mv _.
  apply hoare_ok_get; [|intros; apply keeps_ret]. intros rb _. destruct (PlanController.computeMoveStatus p rb).
  by apply keeps_ignore, keeps_ok_quiet, PlanController.preserves_patchMoveStatus.
Qed.

Lemma keeps_ok_plan_call key : keeps ok_bindings (PlanController.Reconcile fmt_q key).
Proof.
  assert (Hexec : forall p, keeps ok_bindings (PlanController.executeMoves p ≫= fun _ => PlanController.monitorAndConverge p)).
  { intros p. apply keeps_bind.
    - apply keeps_ok_get_plan. intros [read|e]; [|apply keeps_ignore_not_found].
      apply keeps_bind; [apply keeps_now|]. intros t. apply keeps_bind; [destruct (_ || _); [apply keeps_ok_patch_plan|apply keeps_ret]|].
      intros _. apply keeps_bind; [apply keeps_for_each; intros; apply keeps_ok_apply_move|]. intros _.
      by apply keeps_ignore, keeps_ok_quiet, PlanController.preserves_recompute.
    - intros _. apply keeps_ok_get_plan. intros [read|e]; [|apply keeps_ignore_not_found].
      destruct (PlanController.moves_uninitialised read); [|apply keeps_ok_monitor_moves].
      apply keeps_bind; [apply keeps_ok_patch_plan|]. intros _.
      apply keeps_ok_get_plan. intros [latest|e]; [apply keeps_ok_monitor_moves|apply keeps_ignore_not_found]. }
  apply keeps_ok_get_plan. intros [p|e]; [|apply keeps_ignore_not_found].
  cbv zeta. destruct (PlanController.finished_phase _); [apply keeps_ret|]. apply keeps_bind; [apply keeps_now|]. intros t.
  destruct (negb _).
  - apply keeps_bind; [apply keeps_attempt, keeps_ok_patch_plan|]. intros [[]|e]; [|apply keeps_ignore_not_found].
    destruct (String.eqb _ _); [apply Hexec|apply keeps_ret].
  - destruct (String.eqb _ _); [apply Hexec|apply keeps_ret].
Qed.

Lemma ok_outcome rbs rb rbs' :
  bindings_ok gds0 rbs -> rbs !! rb_key rb = Some rb -> ReplicaBinding.rb_outcome rbs rb rbs' -> bindings_ok gds0 rbs'.
Proof.
  intros Hok Hrb Ho. destruct (bindings_ok_lookup _ _ _ Hok Hrb) as (_ & Hn & Hd).
  destruct Ho as [|Hp Hd'|Hp Hd'|st Hdel Hp Hc|Hlive|st Hlive Hf Hs Hc]; [done| |by apply bindings_ok_delete| | |].
  - apply bindings_ok_insert; [done|done|exact Hn|exact Hd'].
  - apply bindings_ok_insert; [done|done|exact Hn|exact Hd].
  - unfold ReplicaBinding.AddFinalizer. destruct (ReplicaBinding.ContainsFinalizer _ _);
      (apply bindings_ok_insert; [done|done|exact Hn|by left]).
  - apply bindings_ok_insert; [done|done|exact Hn|exact Hd].
Qed.

Lemma keeps_ok_binding_call key : keeps ok_bindings (ReplicaBinding.Reconcile ControlNamespace key).
Proof.
  intros w Hw. unfold ReplicaBinding.Reconcile. rewrite bind_run. unfold attempt, get_object, request.
  destruct (fault _) as [e|]; [by apply (keeps_ignore_not_found ok_bindings Done e (tick w))|].
  change (w_rbs (tick w)) with (w_rbs w).
  destruct (w_rbs w !! key) as [rb|] eqn:Hrb; [|done]. cbn [require fst snd].
  destruct (bindings_ok_lookup _ _ _ Hw Hrb) as (<- & _).
  apply (ok_outcome (w_rbs w) rb); [done|done|].
  by apply (ReplicaBinding.may_end_binding ControlNamespace (w_rbs w) rb Hrb).
Qed.

Lemma keeps_ok_schedule_binding gd nodes ckey cursor b :
  keeps ok_bindings (GlobalDeployment.schedule_binding gd nodes ckey cursor b).
Proof.
  apply hoare_ok_read. intros latest Hn. destruct (negb _); [apply keeps_ret|].
  destruct (pickNextFit _ _ _) as [slot next|e|]; [|apply keeps_ret|apply keeps_throw]. cbv zeta.
  apply keeps_bind; [destruct (_ || _); [apply keeps_ok_patch_rb; exact Hn|apply keeps_ret]|]. intros _.
  apply keeps_bind; [|intros; apply keeps_bind; [by intros w|intros; apply keeps_ret]].
  destruct (negb _); [|apply keeps_ret]. apply keeps_bind; [apply keeps_now|]. intros. apply keeps_ok_patch_rb_status.
Qed.

Lemma keeps_ok_schedule_and_report gd key owned :
  keeps ok_bindings (GlobalDeployment.schedule_and_report gd key owned).
Proof.
  apply keeps_bind.
  - apply keeps_attempt, keeps_ok_quiet, preserves_bind; [by apply preserves_list_objects|].
    intros. apply preserves_bind; [apply preserves_now|intros; apply preserves_ret].
  - intros [nodes|e]; [|apply keeps_ret]. apply keeps_bind; [by intros w|]. intros cursor.
    apply keeps_bind; [apply GlobalDeployment.keeps_fold_each; intros; apply keeps_ok_schedule_binding|].
    intros _. apply keeps_ok_quiet. intros w. assert (H := GlobalDeployment.quiet_report gd key w).
    unfold GlobalDeployment.placing_view in H. congruence.
Qed.

Lemma keeps_ok_list_owned gd ns : keeps ok_bindings (GlobalDeployment.list_owned gd ns).
Proof. apply keeps_ok_quiet. unfold GlobalDeployment.list_owned. by quiet. Qed.

Lemma keeps_ok_reconcileDelete gd : keeps ok_bindings (GlobalDeployment.reconcileDelete gd).
Proof.
  unfold GlobalDeployment.reconcileDelete. destruct (negb _); [apply keeps_ret|].
  apply keeps_bind; [by apply keeps_ok_quiet; quiet|]. intros _.
  apply keeps_bind; [apply keeps_ok_list_owned|]. intros owned. apply keeps_bind.
  { apply GlobalDeployment.keeps_fold_each. intros d b. unfold GlobalDeployment.delete_binding.
    destruct (match DeletionTimestamp _ with Some _ => _ | None => _ end); [apply keeps_ret|].
    destruct (_ || _); [|apply keeps_ret].
    apply keeps_bind; [apply keeps_attempt, keeps_ok_delete_rb|]. intros [|e]; [apply keeps_ret|].
    destruct (IsNotFound e); [apply keeps_ret|apply keeps_throw]. }
  intros [|]; [apply keeps_ret|]. apply keeps_bind; [apply keeps_ok_list_owned|]. intros [|b l]; [|apply keeps_ret].
  by apply keeps_ok_quiet; quiet.
Qed.

Lemma sound_new gd i t :
  gds0 !! GlobalDeployment.gd_key gd = Some gd ->
  GlobalDeployment.globalDeploymentFinalizer ∈ Finalizers (GD_Meta gd) ->
  sound gds0 (GlobalDeployment.with_pending (GlobalDeployment.new_binding gd i) t).
Proof.
  intros Hgd Hf. split; [split; [done|by eexists]|]. exists gd. split_and!; [exact Hgd|done|].
  unfold GlobalDeployment.owned_by. cbn. by rewrite String.eqb_refl.
Qed.

Lemma keeps_ok_reconcile_replicas gd key :
  gds0 !! GlobalDeployment.gd_key gd = Some gd ->
  GlobalDeployment.globalDeploymentFinalizer ∈ Finalizers (GD_Meta gd) ->
  keeps ok_bindings (GlobalDeployment.reconcile_replicas gd key).
Proof.
  intros Hgd Hf. apply keeps_bind; [apply keeps_ok_list_owned|]. intros owned. apply keeps_bind.
  - apply keeps_for_each. intros i _. unfold GlobalDeployment.ensure_binding.
    destruct (GlobalDeployment.existing owned i); [apply keeps_ret|]. apply keeps_bind; [apply keeps_now|]. intros t.
    apply keeps_bind; [by apply keeps_ok_create_rb, eq_refl; apply sound_new|intros; apply keeps_ok_patch_rb_status].
  - intros _. apply (keeps_ok_schedule_and_report gd key owned).
Qed.

Lemma ok_deployment_call key w :
  w_gds w = gds0 -> gds_ok gds0 -> ok_bindings w -> ok_bindings (GlobalDeployment.Reconcile key w).1.
Proof.
  intros Hgds Hkeys Hw. unfold GlobalDeployment.Reconcile. rewrite bind_run. unfold attempt, get_object, request.
  destruct (fault _) as [e|]; [by apply (keeps_ignore_not_found ok_bindings Done e (tick w))|].
  change (w_gds (tick w)) with (w_gds w). rewrite Hgds.
  destruct (gds0 !! key) as [gd|] eqn:Hgd; [|done]. cbn [require fst snd].
  change (ok_bindings (tick w)) in Hw. revert Hw. generalize (tick w). clear w Hgds. intros w Hw.
  assert (Hk := Hkeys _ _ Hgd). cbn in Hk. subst key.
  destruct (match DeletionTimestamp _ with Some _ => _ | None => _ end); [by apply keeps_ok_reconcileDelete|].
  destruct (GlobalDeployment.has_finalizer gd) eqn:Hf; cbn [negb].
  - destruct (str_empty _); [by apply (keeps_ok_quiet (_ ≫= _)); [quiet|]|].
    apply bool_decide_eq_true in Hf. by apply keeps_ok_reconcile_replicas.
  - by apply (keeps_ok_quiet (_ ≫= _)); [quiet|].
Qed.
End writes.

(** ** The plans *)

Local Notation finished_phase_of := PlanController.finished_phase.

Lemma desired_unfinished s : finished_phase_of (PlanController.desired_phase s) = false.
Proof. unfold PlanController.desired_phase. destruct (String.eqb _ _); [done|]. by destruct (_ || _). Qed.

Lemma ended_unfinished p : finished_phase_of (Plan_Phase (Plan_Status p)) = false -> ended_ok p.
Proof.
  intros Hf Hin. unfold PlanController.finished_phase in Hf.
  rewrite !elem_of_cons in Hin. by destruct Hin as [Hp|[Hp|[Hp|Hp%not_elem_of_nil]]]; rewrite ?Hp in Hf.
Qed.

Lemma ended_reconciled p st :
  finished_phase_of (Plan_Phase (Plan_Status p)) = false -> PlanController.reconciled p st ->
  ended_ok (PlanController.with_status p st).
Proof.
  intros Hf [->|[Hd|(_ & Hfin & Hinit)]].
  - apply ended_unfinished. exact Hf.
  - apply ended_unfinished. cbn. rewrite Hd. apply desired_unfinished.
  - intros _. split; [exact Hfin|]. intros Hm Hs. unfold PlanController.moves_uninitialised in Hinit.
    rewrite Hs in Hinit. cbn in Hm, Hinit. by destruct (Moves (Plan_Spec p)).
Qed.

(** A call on an object leaves a finished plan alone and changes at most the
    status of an unfinished one. *)
Lemma plan_call_effect key w :
  plans_ok (w_plans w) ->
  w_plans (PlanController.Reconcile fmt_q key w).1 = w_plans w \/
  exists p st, w_plans w !! key = Some p /\ finished_phase_of (Plan_Phase (Plan_Status p)) = false /\
    PlanController.reconciled p st /\
    w_plans (PlanController.Reconcile fmt_q key w).1 = <[key := PlanController.with_status p st]> (w_plans w).
Proof.
  intros Hok. destruct (w_plans w !! key) as [p|] eqn:Hp.
  2: { left. rewrite PlanController.Reconcile_idle; [done|]. intros p Hp'. congruence. }
  destruct (PlanController.finished_phase (Plan_Phase (Plan_Status p))) eqn:Hf.
  { left. rewrite PlanController.Reconcile_idle; [done|]. intros p' Hp'. by simplify_eq. }
  right. destruct (Hok _ _ Hp) as [<- _].
  destruct (PlanController.hoare_Reconcile fmt_q (w_plans w) p Hf w) as (st & Hw & Hst).
  { unfold PlanController.current. by rewrite insert_id. }
  by exists p, st.
Qed.

Lemma plans_ok_plan_call key w : plans_ok (w_plans w) -> plans_ok (w_plans (PlanController.Reconcile fmt_q key w).1).
Proof.
  intros Hok. destruct (plan_call_effect key w Hok) as [->|(p & st & Hp & Hf & Hst & ->)]; [done|].
  apply map_Forall_insert_2; [|done]. destruct (Hok _ _ Hp) as [<- _]. split; [done|by apply ended_reconciled].
Qed.

(** Only plan calls write plans; only deployment calls write deployments. *)
Lemma binding_call_quiet key w :
  w_plans (ReplicaBinding.Reconcile ControlNamespace key w).1 = w_plans w /\
  w_gds (ReplicaBinding.Reconcile ControlNamespace key w).1 = w_gds w.
Proof. split; by apply ReplicaBinding.preserves_binding_call. Qed.

Lemma plan_call_quiet key w : w_gds (PlanController.Reconcile fmt_q key w).1 = w_gds w.
Proof. by apply PlanController.preserves_plan_call. Qed.

Lemma deployment_call_quiet key w : w_plans (GlobalDeployment.Reconcile key w).1 = w_plans w.
Proof. by apply GlobalDeployment.preserves_deployment_call. Qed.

(** ** The deployments *)

(** Invariants of the stored deployments that no status write breaks. *)
Section deployments.
Context (I : gmap Key GlobalDeployment -> Prop).
Local Notation J := (fun w => I (w_gds w)).
Hypothesis Hstatus : forall gd, keeps J (patch_gd_status gd).

Lemma keeps_gds_quiet {A} (m : M A) : preserves w_gds m -> keeps J m.
Proof. intros Hm w Hw. by rewrite Hm. Qed.

Lemma keeps_gds_reconcileDelete gd :
  (forall fs, keeps J (patch_gd (GlobalDeployment.with_finalizers gd fs))) -> keeps J (GlobalDeployment.reconcileDelete gd).
Proof.
  intros Hfin. unfold GlobalDeployment.reconcileDelete. destruct (negb _); [apply keeps_ret|]. apply keeps_bind.
  { destruct (String.eqb _ _); [apply keeps_ret|]. apply keeps_bind; [apply keeps_now|intros]. by apply keeps_ignore. }
  intros _. apply keeps_bind; [apply keeps_gds_quiet, GlobalDeployment.quiet_list_owned|]. intros owned. apply keeps_bind.
  { apply GlobalDeployment.keeps_fold_each. intros. apply keeps_gds_quiet, GlobalDeployment.quiet_delete_binding. }
  intros [|]; [apply keeps_ret|].
  apply keeps_bind; [apply keeps_gds_quiet, GlobalDeployment.quiet_list_owned|]. intros [|b l]; [|apply keeps_ret].
  apply keeps_bind; [apply Hfin|intros; apply keeps_ret].
Qed.

Lemma keeps_gds_report gd key : keeps J (GlobalDeployment.report gd key).
Proof.
  apply keeps_bind; [apply keeps_gds_quiet, GlobalDeployment.quiet_list_owned|]. intros l.
  apply keeps_bind; [apply keeps_now|]. intros t. apply keeps_bind; [|intros; apply keeps_ret].
  unfold GlobalDeployment.updateGDStatusWithRetry. generalize 5%nat. induction n as [|n IH]; [apply keeps_throw|]. cbn.
  apply keeps_bind; [by apply keeps_gds_quiet, preserves_get_object|]. intros latest.
  apply keeps_bind; [by apply keeps_attempt|].
  intros [|[]]; first [apply keeps_ret|apply keeps_throw|exact IH].
Qed.

Lemma keeps_gds_reconcile_replicas gd key : keeps J (GlobalDeployment.reconcile_replicas gd key).
Proof.
  apply keeps_bind; [apply keeps_gds_quiet, GlobalDeployment.quiet_list_owned|]. intros owned. apply keeps_bind.
  { apply keeps_gds_quiet. intros w. assert (H := GlobalDeployment.quiet_ensure_bindings gd owned (seqZ 0 (GlobalDeployment.replicas_of gd)) w).
    unfold GlobalDeployment.gd_view in H. congruence. }
  intros _. apply keeps_bind.
  { apply keeps_gds_quiet. unfold buildOrderedNodes. by quiet. }
  intros [nodes|e]; [|apply keeps_ret]. cbv zeta. apply keeps_bind; [by intros w|]. intros cursor.
  apply keeps_bind; [|intros; apply keeps_gds_report]. apply keeps_gds_quiet. intros w.
  assert (H := GlobalDeployment.quiet_fold_schedule gd nodes
    (Namespace (GD_Meta gd) +:+ "/" +:+ Name (GD_Meta gd)) owned cursor w).
  unfold GlobalDeployment.gd_view in H. congruence.
Qed.

(** A call keeps [I] when the writes of finalizers on the object it handles do. *)
Lemma gds_deployment_call key w :
  (forall gd fs, w_gds w !! key = Some gd -> keeps J (patch_gd (GlobalDeployment.with_finalizers gd fs))) ->
  I (w_gds w) -> I (w_gds (GlobalDeployment.Reconcile key w).1).
Proof.
  intros Hfin Hw. unfold GlobalDeployment.Reconcile. rewrite bind_run. unfold attempt, get_object, request.
  destruct (fault _) as [e|]; [by apply (keeps_ignore_not_found J Done e (tick w))|].
  change (w_gds (tick w)) with (w_gds w). destruct (w_gds w !! key) as [gd|]; [|done]. cbn [require fst snd].
  specialize (Hfin gd). specialize (fun fs => Hfin fs eq_refl).
  change (I (w_gds (tick w))) in Hw. revert Hw. generalize (tick w). intros w1 Hw1.
  destruct (match DeletionTimestamp _ with Some _ => _ | None => _ end); [by apply keeps_gds_reconcileDelete|].
  destruct (negb _); [by apply (keeps_bind J); [apply Hfin|intros; apply keeps_ret|]|].
  destruct (str_empty _); [by apply (keeps_bind J); [apply Hstatus|intros; apply keeps_ret|]|].
  by apply keeps_gds_reconcile_replicas.
Qed.
End deployments.

Lemma keeps_keys_status gd : keeps (fun w => gds_ok (w_gds w)) (patch_gd_status gd).
Proof.
  apply hoare_request; [done|]. intros w Hw. cbn. destruct (w_gds w !! _) as [old|] eqn:Hold; [|done]. cbn.
  apply map_Forall_insert_2; [|done]. exact (Hw _ _ Hold).
Qed.

Lemma keeps_keys_patch gd : keeps (fun w => gds_ok (w_gds w)) (patch_gd gd).
Proof.
  apply hoare_request; [done|]. intros w Hw. cbn. destruct (w_gds w !! _); [|done].
  destruct (DeletionTimestamp (GD_Meta gd)), (Finalizers (GD_Meta gd)); cbn;
    try (by apply map_Forall_insert_2); by apply map_Forall_delete.
Qed.

Lemma gds_ok_deployment_call key w : gds_ok (w_gds w) -> gds_ok (w_gds (GlobalDeployment.Reconcile key w).1).
Proof. intros Hw. apply gds_deployment_call; [apply keeps_keys_status|intros; apply keeps_keys_patch|done]. Qed.

Lemma keeps_held_patch_other gd gd' :
  GlobalDeployment.gd_key gd <> GlobalDeployment.gd_key gd' -> keeps (GlobalDeployment.held gd) (patch_gd gd').
Proof.
  intros Hne. apply hoare_request; [by intros w e|]. intros w (g & Hg & Hf & Hu). exists g. cbn.
  change (Namespace (GD_Meta gd'), Name (GD_Meta gd')) with (GlobalDeployment.gd_key gd').
  destruct (w_gds w !! GlobalDeployment.gd_key gd'); [|done].
  destruct (DeletionTimestamp (GD_Meta gd')), (Finalizers (GD_Meta gd')); cbn;
    rewrite ?lookup_insert_ne, ?lookup_delete_ne by done; done.
Qed.

(** A deployment under its finalizer stays so, or no binding is left for it. *)
Lemma deployment_call_held key w gd :
  gds_ok (w_gds w) -> GlobalDeployment.held gd w ->
  GlobalDeployment.held gd (GlobalDeployment.Reconcile key w).1 \/
  GlobalDeployment.none_owned gd (GlobalDeployment.Reconcile key w).1.
Proof.
  intros Hkeys Hheld. destruct (decide (GlobalDeployment.gd_key gd = key)) as [<-|Hne].
  2: { left. apply (gds_deployment_call (fun gds => exists g, gds !! GlobalDeployment.gd_key gd = Some g /\
         GlobalDeployment.globalDeploymentFinalizer ∈ Finalizers (GD_Meta g) /\ UID (GD_Meta g) = UID (GD_Meta gd)));
         [apply GlobalDeployment.keeps_status| |exact Hheld].
       intros g fs Hg. apply keeps_held_patch_other. rewrite <- (Hkeys _ _ Hg) in Hne. exact Hne. }
  unfold GlobalDeployment.Reconcile. rewrite bind_run. unfold attempt, get_object, request.
  destruct (fault _) as [e|]; [left; by apply (keeps_ignore_not_found (GlobalDeployment.held gd) Done e (tick w))|].
  change (w_gds (tick w)) with (w_gds w). destruct Hheld as (g & Hg & Hf & Hu). rewrite Hg. cbn [require fst snd].
  assert (Hheld : GlobalDeployment.held g (tick w)) by (exists g; rewrite (Hkeys _ _ Hg); done).
  assert (Hsame : forall w', GlobalDeployment.held g w' \/ GlobalDeployment.none_owned g w' ->
            GlobalDeployment.held gd w' \/ GlobalDeployment.none_owned gd w').
  { assert (Hk := Hkeys _ _ Hg). cbn in Hk. intros w'. unfold GlobalDeployment.held, GlobalDeployment.none_owned,
      GlobalDeployment.owned_by. rewrite Hk, Hu. injection Hk as -> _. done. }
  apply Hsame. revert Hheld. generalize (tick w). intros w1 Hheld.
  destruct (match DeletionTimestamp _ with Some _ => _ | None => _ end); [by apply GlobalDeployment.hoare_reconcileDelete|].
  left. assert (GlobalDeployment.has_finalizer g = true) as -> by by apply bool_decide_eq_true. cbn [negb].
  destruct (str_empty _).
  - apply (keeps_bind (GlobalDeployment.held g)); [apply GlobalDeployment.keeps_status|intros; apply keeps_ret|done].
  - apply (keeps_gds_reconcile_replicas (fun gds => exists g', gds !! GlobalDeployment.gd_key g = Some g' /\
      GlobalDeployment.globalDeploymentFinalizer ∈ Finalizers (GD_Meta g') /\ UID (GD_Meta g') = UID (GD_Meta g)));
      [apply GlobalDeployment.keeps_status|exact Hheld].
Qed.

(** ** Every step keeps the system in order *)

Lemma bindings_ok_mono gds gds' rbs :
  bindings_ok gds rbs -> (forall k b, rbs !! k = Some b -> rooted gds b -> rooted gds' b) -> bindings_ok gds' rbs.
Proof.
  intros [H1 H2] Hm. split; [done|]. intros k b Hb. destruct (H2 k b Hb) as [Hn Hr]. split; [done|by apply (Hm k)].
Qed.

Lemma bindings_ok_deployment_call key w :
  gds_ok (w_gds w) -> bindings_ok (w_gds w) (w_rbs w) ->
  bindings_ok (w_gds (GlobalDeployment.Reconcile key w).1) (w_rbs (GlobalDeployment.Reconcile key w).1).
Proof.
  intros Hkeys Hok. assert (Hok' := ok_deployment_call (w_gds w) key w eq_refl Hkeys Hok).
  apply (bindings_ok_mono _ _ _ Hok'). intros k b Hb (g & Hg & Hf & Ho).
  destruct (bindings_ok_lookup _ _ _ _ Hok' Hb) as (<- & [Hn _] & _). assert (Hk := Hkeys _ _ Hg). cbn in Hk.
  destruct (deployment_call_held key w g Hkeys) as [(g' & Hg' & Hf' & Hu)|Hnone].
  - exists g. by rewrite Hk.
  - exists g'. rewrite <- Hk. split_and!; [done|done|]. unfold GlobalDeployment.owned_by in *. by rewrite Hu.
  - exfalso. rewrite (Hnone (rb_key b) b) in Ho; [done| |exact Hb].
    destruct Hn as [Hn _]. rewrite Hn. unfold ref_key in Hk. injection Hk as -> _. done.
Qed.

(** Evaluations, and the calls for policies and clusters. *)
Lemma policy_call_quiet key w : let w' := (PolicyController.Reconcile r key w).1 in
  w_plans w' = w_plans w /\ w_rbs w' = w_rbs w /\ w_gds w' = w_gds w.
Proof. split_and!; by apply PolicyController.preserves_policy_call. Qed.

Lemma cluster_call_quiet key w : let w' := (ClusterController.Reconcile key w).1 in
  w_plans w' = w_plans w /\ w_rbs w' = w_rbs w /\ w_gds w' = w_gds w.
Proof. split_and!; by apply ClusterController.preserves_cluster_call. Qed.

Lemma evaluation_quiet key w : let w' := (PolicyEvaluate.defaultEvaluate r key w).1 in
  w_rbs w' = w_rbs w /\ w_gds w' = w_gds w.
Proof. split; by apply PolicyEvaluate.preserves_evaluation. Qed.

(** A plan an evaluation writes is not finished. *)
Lemma plans_ok_evaluation key w :
  plans_ok (w_plans w) -> plans_ok (w_plans (PolicyEvaluate.defaultEvaluate r key w).1).
Proof.
  intros Hok. destruct (PolicyEvaluate.evaluation_effect r key w) as [->|(k & plan & conds & p & _ & Hk & -> & Hw)]; [done|].
  apply map_Forall_insert_2; [|done]. unfold PolicyEvaluate.written_plan in Hw.
  destruct (w_plans w !! k) as [o|] eqn:Ho.
  - subst p. destruct (Hok _ _ Ho) as [Hko _]. split; [exact Hko|by apply ended_unfinished].
  - destruct Hw as ([uid Hm] & _ & Hst). split.
    + unfold PlanController.plan_key. rewrite Hm. exact Hk.
    + apply ended_unfinished. by destruct Hst as [[-> _]| ->].
Qed.

Lemma handle_ok e w : system_ok w -> system_ok (handle e w).
Proof.
  intros (Hp & Hb & Hg). destruct e as [key|key|key|key|key|key| |d|ms|cs ss cms pols]; try done; cbn [handle].
  - split_and!; [by apply plans_ok_plan_call| |by rewrite plan_call_quiet].
    rewrite plan_call_quiet. by apply keeps_ok_plan_call.
  - split_and!; [by rewrite (proj1 (binding_call_quiet key w))| |by rewrite (proj2 (binding_call_quiet key w))].
    rewrite (proj2 (binding_call_quiet key w)). by apply keeps_ok_binding_call.
  - split_and!; [by rewrite deployment_call_quiet|by apply bindings_ok_deployment_call|by apply gds_ok_deployment_call].
  - destruct (cluster_call_quiet key w) as (H1 & H2 & H3). unfold system_ok. by rewrite H1, H2, H3.
  - destruct (policy_call_quiet key w) as (H1 & H2 & H3). unfold system_ok. by rewrite H1, H2, H3.
  - destruct (evaluation_quiet key (set_timers (delete key) w)) as (H2 & H3). unfold system_ok. rewrite H2, H3.
    split_and!; [by apply plans_ok_evaluation|done|done].
Qed.

Lemma call_ok w w' : call w w' -> system_ok w -> system_ok w'.
Proof. intros (e & _ & ->). apply handle_ok. Qed.

Lemma user_step_ok w w' : user_step w w' -> system_ok w -> system_ok w'.
Proof.
  intros Hs (Hp & Hb & Hg). destruct Hs as [p w Hnew Hf|key w|gd w Hnew|key gd w Hgd Hf|key gd w Hgd Hf|key w].
  - split_and!; [|done|done]. apply map_Forall_insert_2; [|done]. split; [done|by apply ended_unfinished].
  - split_and!; [|done|done]. by apply map_Forall_delete.
  - split_and!; [done| |by apply map_Forall_insert_2]. apply (bindings_ok_mono _ _ _ Hb).
    intros k b _ (g & H1 & H2 & H3). exists g. split_and!; [|done|done]. cbn.
    destruct (decide (GlobalDeployment.gd_key gd = ref_key b)); [congruence|by rewrite lookup_insert_ne].
  - assert (Hk := Hg _ _ Hgd). split_and!; [done| |apply map_Forall_insert_2; [exact Hk|done]].
    apply (bindings_ok_mono _ _ _ Hb). intros k b _ (g & H1 & H2 & H3). cbn.
    destruct (decide (key = ref_key b)) as [He|He].
    + rewrite He in Hgd. simplify_eq. eexists. split; [apply lookup_insert_eq|done].
    + exists g. by rewrite lookup_insert_ne.
  - split_and!; [done| |by apply map_Forall_delete]. apply (bindings_ok_mono _ _ _ Hb).
    intros k b _ (g & H1 & H2 & H3). exists g. split_and!; [|done|done]. cbn.
    destruct (decide (key = ref_key b)) as [He|He]; [|by rewrite lookup_delete_ne].
    rewrite He in Hgd. simplify_eq. rewrite Hf in H2. by apply not_elem_of_nil in H2.
  - assert (H1 : w_plans (delete_rb key w).1 = w_plans w) by by apply (preserves_delete_rb w_plans).
    assert (H2 : w_gds (delete_rb key w).1 = w_gds w) by by apply (preserves_delete_rb w_gds).
    split_and!; rewrite ?H1, ?H2; [done| |done]. by apply keeps_ok_delete_rb.
Qed.

Lemma step_ok w w' : step w w' -> system_ok w -> system_ok w'.
Proof. intros [w1 w2 Hc|w1 w2 Hu]; [by apply call_ok|by apply user_step_ok]. Qed.

Lemma steps_ok w w' : rtc step w w' -> system_ok w -> system_ok w'.
Proof. induction 1 as [w|w w1 w' Hs _ IH]; [done|]. intros Hw. by apply IH, (step_ok w). Qed.

(** ** Names *)

#[local] Arguments String.append : simpl nomatch.

(** Contains the letter b. *)
Fixpoint has_b (s : string) : bool :=
  match s with EmptyString => false | String c s' => Ascii.eqb c "b" || has_b s' end.

Lemma has_b_app s t : has_b (s +:+ t) = has_b s || has_b t.
Proof. induction s as [|c s IH]; [done|]. cbn. by rewrite IH, orb_assoc. Qed.

Lemma pretty_N_go_has_b x s : has_b (pretty_N_go x s) = has_b s.
Proof.
  revert s. induction (N.lt_wf_0 x) as [x _ IH]; intros s.
  destruct (decide (0 < x)%N) as [Hx|Hx].
  - rewrite pretty_N_go_step by done. rewrite IH by (by apply N.div_lt). cbn.
    assert (Hd : forall d, Ascii.eqb (pretty_N_char d) "b" = false) by (by intros d; unfold pretty_N_char; repeat case_match).
    by rewrite Hd.
  - assert (x = 0%N) as -> by lia. by rewrite pretty_N_go_0.
Qed.

Lemma pretty_has_b (i : Z) : has_b (pretty i) = false.
Proof.
  assert (HN : forall n : N, has_b (pretty n) = false).
  { intros n. unfold pretty, pretty_N. destruct (decide _); [done|apply pretty_N_go_has_b]. }
  destruct i as [|p|p]; unfold pretty, pretty_Z; [done|apply HN|]. rewrite has_b_app. apply HN.
Qed.

(** The name of a binding determines its deployment and its replica. *)
Lemma binding_name_inj n n' (i i' : Z) :
  n +:+ "-rb-" +:+ pretty i = n' +:+ "-rb-" +:+ pretty i' -> n = n' /\ i = i'.
Proof.
  assert (Hno : forall m (j j' : Z), "-" +:+ pretty j <> m +:+ "-rb-" +:+ pretty j').
  { intros m j j' He. apply (f_equal has_b) in He. rewrite !has_b_app, pretty_has_b in He. cbn in He.
    by rewrite orb_true_r in He. }
  assert (Hlong : forall m c (j j' : Z), "-rb-" +:+ pretty j <> String c m +:+ "-rb-" +:+ pretty j').
  { intros m c j j' He. cbn in He. injection He as _ He. destruct m as [|? m]; [done|]. injection He as _ He.
    destruct m as [|? m]; [done|]. injection He as _ He. by apply Hno in He. }
  revert n'. induction n as [|c n IH]; intros [|c' n'] He.
  - split; [done|]. by apply (inj pretty), (inj (String.append "-rb-")).
  - by apply Hlong in He.
  - symmetry in He. by apply Hlong in He.
  - cbn in He. injection He as -> He. by destruct (IH n' He) as [-> ->].
Qed.

(** ** What a plan cannot reach *)

Section frame.
Context (gds0 : gmap Key GlobalDeployment) (key k : Key) (b : ReplicaBinding).

(** No move of a plan stored under [key] names the binding. *)
Definition not_aimed (plans : gmap Key ReOrchestrationPlan) : Prop :=
  forall p, plans !! key = Some p ->
    PlanController.plan_key p = key /\ forall mv, mv ∈ Moves (Plan_Spec p) -> PlanController.rb_key_of_move mv <> k.

Definition framed (w : World) : Prop :=
  ok_bindings gds0 w /\ w_rbs w !! k = Some b /\ not_aimed (w_plans w).

Lemma keeps_framed_quiet {A} (m : M A) : preserves w_rbs m -> preserves w_plans m -> keeps framed m.
Proof. intros H1 H2 w Hw. unfold framed, ok_bindings in *. by rewrite H1, H2. Qed.

Lemma keeps_framed_plan p : keeps framed (patch_plan_status p).
Proof.
  apply hoare_request; [done|]. intros w (Hok & Hb & Hp). cbn.
  destruct (w_plans w !! _) as [old|] eqn:Hold; [|done]. split_and!; [exact Hok|exact Hb|]. cbn. intros p'.
  destruct (decide (key = (Namespace (Plan_Meta p), Name (Plan_Meta p)))) as [He|He].
  - rewrite <- He in Hold |- *. rewrite lookup_insert_eq. intros [= <-]. exact (Hp _ Hold).
  - rewrite lookup_insert_ne by done. apply Hp.
Qed.

(** Case analyses and binds; the requests are left. *)
Local Ltac keeping :=
  repeat match goal with
  | |- keeps _ (mbind _ _) => apply keeps_bind; [|intros ?]
  | |- keeps _ (match ?x with _ => _ end) => destruct x
  | |- keeps _ (let _ := _ in _) => cbv zeta
  | |- keeps _ (attempt _) => apply keeps_attempt
  | |- keeps _ (ignore _) => apply keeps_ignore
  | |- keeps _ (mret _) => apply keeps_ret
  | |- keeps _ (throw _) => apply keeps_throw
  | |- keeps _ now => apply keeps_now
  | |- keeps _ (ignore_not_found _ _) => apply keeps_ignore_not_found
  | |- keeps _ (patch_plan_status _) => apply keeps_framed_plan
  | |- keeps _ (get_object _ _) => by apply keeps_framed_quiet; apply preserves_get_object
  end.

Lemma keeps_framed_move_status latest mv st msg : keeps framed (PlanController.patchMoveStatus latest mv st msg).
Proof. unfold PlanController.patchMoveStatus. keeping. Qed.

Lemma keeps_framed_move_status_if latest mv from to msg :
  keeps framed (PlanController.patchMoveStatusIf latest mv from to msg).
Proof. unfold PlanController.patchMoveStatusIf. keeping. Qed.

(** A read of another binding, and what is done with it. *)
Lemma keeps_framed_get k' {A} (f : ReplicaBinding -> M A) (g : api_error -> M A) :
  (forall rb, rb_key rb = k' -> sound gds0 rb -> keeps framed (f rb)) -> (forall e, keeps framed (g e)) ->
  keeps framed (r ← attempt (get_object w_rbs k'); match r with Ok rb => f rb | Err e => g e end).
Proof.
  intros Hf Hg. apply hoare_bind with (R := fun r w => framed w /\
    match r with Ok rb => rb_key rb = k' /\ sound gds0 rb | Err _ => True end).
  - apply hoare_attempt, hoare_get_object; [by intros w (? & ? & ?)|done|done|]. intros w rb Hw Hrb. split; [done|].
    destruct Hw as (Hok & _). by destruct (bindings_ok_lookup _ _ _ _ Hok Hrb) as (? & ? & _).
  - intros [rb|e] w [Hw Hrb]; [destruct Hrb; by apply Hf|by apply Hg].
Qed.

Lemma keeps_framed_patch_rb rb : rb_key rb <> k -> sound gds0 rb -> keeps framed (patch_rb rb).
Proof.
  intros Hne Hs w (Hok & Hb & Hp). split_and!; [by apply keeps_ok_patch_rb| |].
  - unfold patch_rb, request. destruct (fault _); [done|]. cbn.
    change (Namespace (RB_Meta rb), Name (RB_Meta rb)) with (rb_key rb).
    destruct (w_rbs w !! rb_key rb); [|done].
    destruct (DeletionTimestamp (RB_Meta rb)), (Finalizers (RB_Meta rb)); cbn;
      rewrite ?lookup_insert_ne, ?lookup_delete_ne by done; done.
  - by rewrite (preserves_patch_rb w_plans).
Qed.

Lemma keeps_framed_patch_rb_status rb : rb_key rb <> k -> keeps framed (patch_rb_status rb).
Proof.
  intros Hne w (Hok & Hb & Hp). split_and!; [by apply keeps_ok_patch_rb_status| |].
  - unfold patch_rb_status, request. destruct (fault _); [done|]. cbn.
    change (Namespace (RB_Meta rb), Name (RB_Meta rb)) with (rb_key rb).
    destruct (w_rbs w !! rb_key rb); [|done]. cbn. by rewrite lookup_insert_ne.
  - by rewrite (preserves_patch_rb_status w_plans).
Qed.

Lemma keeps_framed_apply_move latest mv :
  PlanController.rb_key_of_move mv <> k -> keeps framed (PlanController.apply_move latest mv).
Proof.
  intros Hne. assert (Hs := keeps_framed_move_status latest mv). assert (Hi := keeps_framed_move_status_if latest mv).
  unfold PlanController.apply_move. apply keeps_framed_get; [|intros; by apply keeps_ignore]. intros rb Hk Hrb. cbv zeta.
  destruct (PlanController.needPatch _ _ _); [|by apply keeps_ignore]. apply keeps_bind.
  { apply keeps_attempt, keeps_framed_patch_rb; [|exact Hrb]. by rewrite <- Hk in Hne. }
  intros [[]|e]; [|by apply keeps_ignore]. apply keeps_framed_get; [|intros; by apply keeps_ignore]. intros rb' Hk' _.
  keeping; auto. apply keeps_framed_patch_rb_status. by rewrite <- Hk' in Hne.
Qed.

(** A read of the plan: its moves are not aimed at the binding. *)
Lemma keeps_framed_plan_read {A} (f : result api_error ReOrchestrationPlan -> M A) :
  (forall p, PlanController.plan_key p = key ->
     (forall mv, mv ∈ Moves (Plan_Spec p) -> PlanController.rb_key_of_move mv <> k) -> keeps framed (f (Ok p))) ->
  (forall e, keeps framed (f (Err e))) ->
  keeps framed (r ← attempt (get_object w_plans key); f r).
Proof.
  intros Hf Hg. apply hoare_bind with (R := fun r w => framed w /\
    match r with
    | Ok p => PlanController.plan_key p = key /\ forall mv, mv ∈ Moves (Plan_Spec p) -> PlanController.rb_key_of_move mv <> k
    | Err _ => True end).
  - apply hoare_attempt, hoare_get_object; [by intros w (? & ? & ?)|done|done|]. intros w p Hw Hp. split; [done|].
    destruct Hw as (_ & _ & Ha). by apply Ha.
  - intros [p|e] w [Hw Hp]; [destruct Hp; by apply Hf|by apply Hg].
Qed.

Lemma keeps_framed_converge : keeps framed (PlanController.convergePlanPhase key).
Proof. unfold PlanController.convergePlanPhase, PlanController.recomputePlanExecutionSummary. keeping. Qed.

Lemma keeps_framed_monitor p : PlanController.plan_key p = key -> keeps framed (PlanController.monitorAndConverge p).
Proof.
  intros Hp. assert (Hm : forall p', PlanController.plan_key p' = key -> keeps framed (PlanController.monitor_moves p')).
  { intros p' Hp'. unfold PlanController.monitor_moves. rewrite Hp'. keeping; try apply keeps_framed_converge.
    apply keeps_for_each. intros mv _. unfold PlanController.observe_move. keeping. apply keeps_framed_move_status. }
  unfold PlanController.monitorAndConverge. rewrite Hp. apply keeps_framed_plan_read; [|intros; apply keeps_ignore_not_found]. intros p1 Hp1 _.
  destruct (PlanController.moves_uninitialised p1); [|by apply Hm]. apply keeps_bind; [apply keeps_framed_plan|]. intros _.
  apply keeps_framed_plan_read; [by intros p2 Hp2 _; apply Hm|intros; apply keeps_ignore_not_found].
Qed.

Lemma keeps_framed_execute p : PlanController.plan_key p = key -> keeps framed (PlanController.executeMoves p).
Proof.
  intros Hp. unfold PlanController.executeMoves. rewrite Hp. apply keeps_framed_plan_read; [|intros; apply keeps_ignore_not_found]. intros p1 Hp1 Hm.
  unfold PlanController.recomputePlanExecutionSummary. keeping.
  all: apply keeps_for_each; intros mv Hmv; by apply keeps_framed_apply_move, Hm.
Qed.

Lemma keeps_framed_plan_call : keeps framed (PlanController.Reconcile fmt_q key).
Proof.
  apply keeps_framed_plan_read; [|intros; apply keeps_ignore_not_found]. intros p Hp _.
  assert (He := keeps_framed_execute p Hp). assert (Hm := keeps_framed_monitor p Hp).
  cbv zeta. keeping; try (by apply keeps_framed_execute); by apply keeps_framed_monitor.
Qed.
End frame.

(** ** Properties *)

(** What the system can become from an empty cluster. *)
Definition reachable (w : World) : Prop := rtc step empty_world w.

Lemma reachable_ok w : reachable w -> system_ok w.
Proof. intros Hw. apply (steps_ok _ _ Hw). split_and!; [apply map_Forall_empty|split; apply map_Forall_empty|apply map_Forall_empty]. Qed.

(** An event leaves a finished plan alone, if it does not draw its name. *)
Lemma handle_finished e w k p :
  drawn e w <> Some k -> system_ok w -> w_plans w !! k = Some p ->
  finished_phase_of (Plan_Phase (Plan_Status p)) = true -> w_plans (handle e w) !! k = Some p.
Proof.
  intros Hdrawn (Hp & _) Hk Hf. destruct e as [key|key|key|key|key|key| |d|ms|cs ss cms pols]; try done; cbn [handle].
  - destruct (plan_call_effect key w Hp) as [->|(p' & st & Hp' & Hf' & _ & ->)]; [done|].
    destruct (decide (key = k)) as [->|Hne]; [congruence|by rewrite lookup_insert_ne].
  - by rewrite (proj1 (binding_call_quiet key w)).
  - by rewrite deployment_call_quiet.
  - by rewrite (proj1 (cluster_call_quiet key w)).
  - by rewrite (proj1 (policy_call_quiet key w)).
  - destruct (PolicyEvaluate.evaluation_effect r key (set_timers (delete key) w)) as [->|(k' & ? & ? & ? & Hd & _ & -> & _)]; [done|].
    destruct (decide (k' = k)) as [->|Hne]; [done|by rewrite lookup_insert_ne].
Qed.

(** However the calls of the five controllers, the evaluations, restarts, cluster
    changes, time and the users' changes interleave, and whatever requests
    fail, every stored binding is named after its deployment and its replica,
    and that deployment is still stored, under the finalizer of its controller,
    and controls the binding: no binding outlives its deployment. *)
Theorem binding_has_deployment w k b :
  reachable w -> w_rbs w !! k = Some b ->
  k = (Ref_Namespace (RBS_GlobalDeploymentRef (RB_Spec b)),
       Ref_Name (RBS_GlobalDeploymentRef (RB_Spec b)) +:+ "-rb-" +:+ pretty (RBS_ReplicaIndex (RB_Spec b))) /\
  exists gd, w_gds w !! ref_key b = Some gd /\
    GlobalDeployment.globalDeploymentFinalizer ∈ Finalizers (GD_Meta gd) /\ GlobalDeployment.owned_by gd b = true.
Proof.
  intros Hw Hb. destruct (reachable_ok w Hw) as (_ & Hok & _).
  by destruct (bindings_ok_lookup _ _ _ _ Hok Hb) as (<- & [[Hn _] Hr] & _).
Qed.

(** C7: when calls and evaluations run one after the other, a plan that succeeded, failed
    or partially failed did so with every move: all its move statuses are Succeeded or
    Failed, the phase tells whether all are the one, all the other, or some each, and there
    are statuses if there are moves; and from then on no call of a controller and no
    evaluation, run as a whole, changes the plan, as long as no evaluation draws its name
    for a new plan. (EvaluationRace has the evaluation that is interrupted before it writes
    the status of its own plan.) *)
Theorem ended_plan_is_final w k p :
  reachable w -> w_plans w !! k = Some p ->
  Plan_Phase (Plan_Status p) ∈ [PlanPhaseSucceeded; PlanPhaseFailed; PlanPhasePartiallyFailed] ->
  PlanController.ended_with (Plan_Phase (Plan_Status p)) (MoveStatuses (Plan_Status p)) /\
  (Moves (Plan_Spec p) <> [] -> MoveStatuses (Plan_Status p) <> []) /\
  forall w', rtc (sparing k) w w' -> w_plans w' !! k = Some p.
Proof.
  intros Hw%reachable_ok Hp Hin. assert (Hend := proj2 (proj1 Hw _ _ Hp) Hin).
  destruct Hend as [H1%PlanController.final_phase_ended H2]. split_and!; [done|done|]. assert (Hf : finished_phase_of (Plan_Phase (Plan_Status p)) = true).
  { destruct (finished_phase_of _) eqn:Hf; [done|]. rewrite !elem_of_cons in Hin.
    by destruct Hin as [Hq|[Hq|[Hq|Hq%not_elem_of_nil]]]; rewrite ?Hq in Hf. }
  intros w' Hc. induction Hc as [w|w w1 w' (e & _ & Hd & ->) _ IH]; [done|].
  apply IH; [by apply handle_ok|by apply handle_finished].
Qed.

(** C16: in every reachable state a call for a plan leaves a binding exactly as it is
    unless one of the plan's moves names the binding's own deployment and
    replica, whatever requests fail: the names of bindings do not collide. *)
Theorem moves_reach_their_bindings w key p k b :
  reachable w -> w_plans w !! key = Some p -> w_rbs w !! k = Some b ->
  (forall mv, mv ∈ Moves (Plan_Spec p) ->
     (Ref_Namespace (PM_GlobalDeploymentRef mv), Ref_Name (PM_GlobalDeploymentRef mv), PM_ReplicaIndex mv) <>
     (Ref_Namespace (RBS_GlobalDeploymentRef (RB_Spec b)), Ref_Name (RBS_GlobalDeploymentRef (RB_Spec b)),
      RBS_ReplicaIndex (RB_Spec b))) ->
  w_rbs (PlanController.Reconcile fmt_q key w).1 !! k = Some b.
Proof.
  intros Hw%reachable_ok Hp Hb Hmoves. destruct Hw as (Hplans & Hok & _).
  destruct (bindings_ok_lookup _ _ _ _ Hok Hb) as (Hk & [Hn _] & _). destruct (Hplans _ _ Hp) as [Hkey _].
  apply (keeps_framed_plan_call (w_gds w) key k b w). split_and!; [exact Hok|exact Hb|].
  intros p' Hp'. simplify_eq. split; [done|]. intros mv Hmv Heq. apply (Hmoves mv Hmv).
  destruct Hn as [Hn _]. rewrite Hn in Heq. injection Heq as Hns Hname. apply binding_name_inj in Hname as [-> ->].
  by rewrite Hns.
Qed.
End system.

(** ** Concrete runs *)

#[local] Existing Instances reliable_kube Ilp.plain_fmt PolicyController.any_loop_order PolicyController.plain_texts
  PolicyEvaluate.plain_decoders PolicyEvaluate.stub_backend PolicyEvaluate.stub_sound.

Definition demo_gd : GlobalDeployment :=
  mkGD (mkMeta "web" "default" "u2" 1 ∅ ∅ [GlobalDeployment.globalDeploymentFinalizer] None [])
    (mkGDSpec (Some 2%Z) "{}") (mkGDStatus "" 0 0 0 None "v1").
Definition demo_plan : ReOrchestrationPlan :=
  mkPlan (mkMeta "plan" "default" "u1" 1 ∅ {["kubex.io/strategy" := "Aggressive"]} [] None [])
    (mkPlanSpec (mkPlanSummary "policy" ∅ None None None None)
       [mkPlanMove (mkRef "web" "default") 7 (mkLocation "c1" "c1" "n1") (mkLocation "c2" "c2" "n2")])
    (mkPlanStatus "" (mkExecutionSummary 0 0 0 0) None None [] []).

Definition handle_demo : event -> World -> World := handle PolicyController.demo_reconciler "kube-system".

(** A user creates a deployment and a plan; the deployment's controller, then the
    plan's, handle them. *)
Definition demo_world1 : World := set_plans <[PlanController.plan_key demo_plan := demo_plan]>
  (set_gds <[GlobalDeployment.gd_key demo_gd := demo_gd]> empty_world).
Definition demo_world2 : World := handle_demo (DeploymentCall ("default", "web")) demo_world1.
Definition demo_world3 : World := handle_demo (PlanCall ("default", "plan")) demo_world2.

Lemma demo_reachable2 : reachable PolicyController.demo_reconciler "kube-system" demo_world2.
Proof.
  eapply rtc_l; [apply step_user, (step_new_deployment demo_gd); reflexivity|].
  eapply rtc_l; [apply step_user, (step_new_plan demo_plan); reflexivity|].
  eapply rtc_l; [apply step_call; exists (DeploymentCall ("default", "web")); by split|]. apply rtc_refl.
Qed.

Lemma demo_reachable3 : reachable PolicyController.demo_reconciler "kube-system" demo_world3.
Proof.
  eapply rtc_r; [exact demo_reachable2|]. apply step_call. exists (PlanCall ("default", "plan")). by split.
Qed.

Lemma binding_has_deployment_witness :
  exists b, w_rbs demo_world2 !! ("default", "web-rb-1") = Some b /\
  exists gd, w_gds demo_world2 !! ref_key b = Some gd /\
    GlobalDeployment.globalDeploymentFinalizer ∈ Finalizers (GD_Meta gd).
Proof.
  destruct (w_rbs demo_world2 !! ("default", "web-rb-1")) as [b|] eqn:Hb; [|exfalso; revert Hb; vm_compute; discriminate].
  exists b. split; [reflexivity|].
  destruct (binding_has_deployment PolicyController.demo_reconciler "kube-system" demo_world2 ("default", "web-rb-1") b demo_reachable2 Hb)
    as (_ & gd & H1 & H2 & _).
  exists gd. split; [exact H1|exact H2].
Defined.

Lemma ended_plan_is_final_witness :
  exists p, w_plans demo_world3 !! ("default", "plan") = Some p /\
    PlanController.ended_with "Failed" (MoveStatuses (Plan_Status p)) /\ MoveStatuses (Plan_Status p) <> [].
Proof.
  destruct (w_plans demo_world3 !! ("default", "plan")) as [p|] eqn:Hp; [|exfalso; revert Hp; vm_compute; discriminate].
  assert (Hphase : Plan_Phase (Plan_Status p) = PlanPhaseFailed).
  { apply (f_equal (fmap (fun p => Plan_Phase (Plan_Status p)))) in Hp. revert Hp. vm_compute. by intros [= ->]. }
  assert (Hmoves : Moves (Plan_Spec p) <> []).
  { intros H. apply (f_equal (fmap (fun p => Moves (Plan_Spec p)))) in Hp. cbn [fmap option_fmap option_map] in Hp. rewrite H in Hp.
    revert Hp. vm_compute. discriminate. }
  destruct (ended_plan_is_final PolicyController.demo_reconciler "kube-system" demo_world3 ("default", "plan") p demo_reachable3 Hp)
    as (H1 & H2 & _).
  { rewrite Hphase. apply list_elem_of_further, list_elem_of_here. }
  exists p. split; [reflexivity|]. rewrite Hphase in H1. split; [exact H1|exact (H2 Hmoves)].
Defined.

Lemma moves_reach_their_bindings_witness :
  exists b, w_rbs demo_world2 !! ("default", "web-rb-1") = Some b /\ w_rbs demo_world3 !! ("default", "web-rb-1") = Some b.
Proof.
  destruct (w_rbs demo_world2 !! ("default", "web-rb-1")) as [b|] eqn:Hb; [|exfalso; revert Hb; vm_compute; discriminate].
  assert (Hi : RBS_ReplicaIndex (RB_Spec b) = 1%Z).
  { apply (f_equal (fmap (fun b => RBS_ReplicaIndex (RB_Spec b)))) in Hb. revert Hb. vm_compute. by intros [= ->]. }
  exists b. split; [reflexivity|].
  apply (moves_reach_their_bindings PolicyController.demo_reconciler "kube-system" demo_world2 ("default", "plan") demo_plan _ b demo_reachable2);
    [by_eval|exact Hb|].
  intros mv Hmv. apply list_elem_of_singleton in Hmv as ->. rewrite Hi. discriminate.
Defined.

(** Two policies, both enabled. *)
Definition demo_policies : gmap Key OptimizationPolicy :=
  list_to_map [(("default", "p"), PolicyController.demo_policy "p"); (("default", "q"), PolicyController.demo_policy "q")].
Definition demo_events : list event :=
  [Configure ∅ ∅ ∅ demo_policies; PolicyCall ("default", "p"); Elapse (31 * Second); PolicyCall ("default", "q")].

Lemma run_reachable es w :
  reachable PolicyController.demo_reconciler "kube-system" w ->
  forallb (fun e => match e with Evaluation _ => false | Elapse d => (0 <=? d)%Z | _ => true end) es = true ->
  reachable PolicyController.demo_reconciler "kube-system" (foldl (fun w e => handle_demo e w) w es).
Proof.
  revert w. induction es as [|e es IH]; intros w Hw Hes; [done|]. cbn in Hes. apply andb_true_iff in Hes as [He Hes].
  apply IH; [|done]. eapply rtc_r; [exact Hw|]. apply step_call. exists e. split; [by destruct e|done].
Qed.

(** The lease does not keep two policies from being active: there is a reachable
    state, without any failed request, where two enabled policies are both Active,
    the second holds the lease, and the timer of the first is still armed and due,
    so that its evaluation is the next event. *)
Example two_policies_active :
  let w := foldl (fun w e => handle_demo e w) empty_world demo_events in
  let active k := match w_policies w !! k with
                  | Some p => String.eqb (OP_Phase (OP_Status p)) OptimizationPolicyPhaseActive
                  | None => false end in
  reachable PolicyController.demo_reconciler "kube-system" w /\
  active ("default", "p") = true /\ active ("default", "q") = true /\
  PolicyController.held PolicyController.demo_reconciler (PolicyController.demo_policy "q") (w_clock w) (w_leases w) /\
  enabled (Evaluation ("default", "p")) w = true.
Proof.
  cbv zeta. split; [apply run_reachable; [apply rtc_refl|reflexivity]|].
  split; [by_eval|]. split; [by_eval|]. split; [|by_eval].
  eexists. split; [|split_and!]; by_eval.
Qed.
