(* ===== verification/DeploymentRace.v ===== *)
(** * The deployment controller, step by step
    (globaldeployment_controller.go, Reconcile)

    GlobalDeployment runs a call as a whole. Here it is a script: its requests may
    come late, on deployments and bindings that others have changed in the meantime.
    [Update] names the resource version of what was read, and is refused when the
    stored object is no longer that one; [Patch] carries the fields that differ. Run
    alone, the script is [Reconcile]. *)

From S2P Require Import Prelude GoTime ApiTypes KubeApi Scripts Scheduler GlobalDeployment.
From S2P Require System.

Local Open Scope string_scope.
Local Open Scope list_scope.

(** ** Writes *)

Section scripts.
Context {KUBE : KubeLib} {SORT : GoSort} {MAPS : MapOrder}.

(** [r.Update(ctx, &rb)] and [r.Status().Update(ctx, &rb)], where [base] is what was
    read. A stored binding that differs from it has another resource version. (One that
    was changed and changed back has another one too: a fault.) *)
Definition update_rb_at (base rb : ReplicaBinding) : M unit :=
  request (fun w =>
    match w_rbs w !! rb_key base with
    | None => (w, Err NotFound)
    | Some old =>
        if decide (old = base)
        then (set_rbs <[rb_key base := mkRB (RB_Meta old) (RB_Spec rb) (RB_Status old)]> w, Ok tt)
        else (w, Err Conflict)
    end).

Definition update_rb_status_at (base rb : ReplicaBinding) : M unit :=
  request (fun w =>
    match w_rbs w !! rb_key base with
    | None => (w, Err NotFound)
    | Some old =>
        if decide (old = base)
        then (set_rbs <[rb_key base := mkRB (RB_Meta old) (RB_Spec old) (RB_Status rb)]> w, Ok tt)
        else (w, Err Conflict)
    end).

(** [r.Status().Update(ctx, latest)] of a deployment. *)
Definition update_gd_status_at (base : GlobalDeployment) (st : GlobalDeploymentStatus) : M unit :=
  request (fun w =>
    match w_gds w !! gd_key base with
    | None => (w, Err NotFound)
    | Some old =>
        if decide (old = base) then (set_gds <[gd_key base := with_gd_status old st]> w, Ok tt) else (w, Err Conflict)
    end).

(** [r.Status().Patch(ctx, gd, client.MergeFrom(base))]: the answer, the stored object,
    is decoded into [gd]. *)
Definition merge_gd_fields (read new stored : GlobalDeploymentStatus) : GlobalDeploymentStatus :=
  mkGDStatus (merge_field (GD_Phase read) (GD_Phase new) (GD_Phase stored))
    (merge_field (GD_Running read) (GD_Running new) (GD_Running stored))
    (merge_field (GD_Failed read) (GD_Failed new) (GD_Failed stored))
    (merge_field (GD_Pending read) (GD_Pending new) (GD_Pending stored))
    (merge_field (GD_UpdatedAt read) (GD_UpdatedAt new) (GD_UpdatedAt stored))
    (merge_field (ObservedRevision read) (ObservedRevision new) (ObservedRevision stored)).
Definition merge_gd_status (base : GlobalDeployment) (st : GlobalDeploymentStatus) : M GlobalDeployment :=
  request (fun w =>
    match w_gds w !! gd_key base with
    | None => (w, Err NotFound)
    | Some old =>
        let new := with_gd_status old (merge_gd_fields (GD_Status base) st (GD_Status old)) in
        (set_gds <[gd_key base := new]> w, Ok new)
    end).

(** [r.Patch(ctx, gd, client.MergeFrom(base))], of a deployment that differs in its
    finalizers. *)
Definition merge_gd_finalizers (base : GlobalDeployment) (fs : list string) : M unit :=
  request (fun w =>
    match w_gds w !! gd_key base with
    | None => (w, Err NotFound)
    | Some old =>
        let l := merge_field (Finalizers (GD_Meta base)) fs (Finalizers (GD_Meta old)) in
        match DeletionTimestamp (GD_Meta old), l with
        | Some _, [] => (set_gds (delete (gd_key base)) w, Ok tt)
        | _, _ => (set_gds <[gd_key base := with_finalizers old l]> w, Ok tt)
        end
    end).

(** ** The call *)

Definition requeued (d : Z) : script Result := mret (mkResult d).

Definition listing_owned (gd : GlobalDeployment) (ns : string) : script (list ReplicaBinding) :=
  items ← step (list_objects w_rbs (in_namespace ns));
  mret (List.filter (owned_by gd) items).

Fixpoint updating_status (n : nat) (key : Key) (st : GlobalDeploymentStatus) : script unit :=
  match n with
  | O => raise (OtherError "update globaldeployment status conflict retries exceeded")
  | S n' =>
      latest ← step (get_object w_gds key);
      r ← trying (step (update_gd_status_at latest st));
      match r with
      | Ok _ => mret tt
      | Err Conflict => updating_status n' key st
      | Err e => raise e
      end
  end.

Definition ensuring_binding (gd : GlobalDeployment) (owned : list ReplicaBinding) (i : Z) : script unit :=
  if existing owned i then mret tt
  else
    t ← step now;
    let b := with_pending (new_binding gd i) t in
    step (create_rb b) ≫= fun _ => step (update_rb_status_at (new_binding gd i) b).

Definition scheduling_binding (gd : GlobalDeployment) (orderedNodes : list orderedNode) (key : string)
    (cursor : Z) (b : ReplicaBinding) : script Z :=
  latest ← step (get_object w_rbs (rb_key b));
  if negb (unscheduled latest) then mret cursor
  else
    match pickNextFit orderedNodes cursor (acceptable gd) with
    | NoSlot _ => mret cursor
    | IndexPanic => raise (OtherError "index out of range")
    | Slot slot nextCursor =>
        let specChanged := negb (String.eqb (TargetCluster (RB_Spec latest)) (ClusterID slot)) ||
                           negb (String.eqb (TargetNodeName (RB_Spec latest)) (NodeName slot)) in
        let statusChanged := negb (String.eqb (RB_Phase (RB_Status latest)) ReplicaBindingPhaseAssigned) in
        let latest' := if specChanged then with_target latest slot else latest in
        (if specChanged then step (update_rb_at latest latest') else mret tt) ≫= fun _ =>
        (if statusChanged then (t ← step now; step (update_rb_status_at latest' (with_assigned latest' t)))
         else mret tt) ≫= fun _ =>
        step (setCursor key nextCursor) ≫= fun _ => mret nextCursor
    end.

Definition reporting (gd : GlobalDeployment) (key : Key) : script Result :=
  latestOwned ← listing_owned gd key.1;
  t ← step now;
  updating_status 5 key (aggregate (replicas_of gd) t latestOwned) ≫= fun _ =>
  requeued (5 * Second).

(** Listing the clusters and ordering their nodes is one request, and one step. *)
Definition replicas_steps (gd : GlobalDeployment) (key : Key) : script Result :=
  owned ← listing_owned gd (Namespace (GD_Meta gd));
  each_step (ensuring_binding gd owned) (seqZ 0 (replicas_of gd)) ≫= fun _ =>
  o ← trying (step buildOrderedNodes);
  match o with
  | Err _ => requeued (10 * Second)
  | Ok orderedNodes =>
      let ckey := Namespace (GD_Meta gd) +:+ "/" +:+ Name (GD_Meta gd) in
      cursor ← step (getCursor ckey);
      folding (scheduling_binding gd orderedNodes ckey) cursor owned ≫= fun _ =>
      reporting gd key
  end.

Definition deleting_binding (deletedAny : bool) (b : ReplicaBinding) : script bool :=
  if match DeletionTimestamp (RB_Meta b) with Some _ => true | None => false end then mret deletedAny
  else if String.eqb (RB_Phase (RB_Status b)) ReplicaBindingPhaseRunning ||
          String.eqb (RB_Phase (RB_Status b)) ReplicaBindingPhaseFailed then
    r ← trying (step (delete_rb (rb_key b)));
    match r with
    | Ok _ => mret true
    | Err e => if IsNotFound e then mret true else raise e
    end
  else mret deletedAny.

(** From the listing of the bindings of a deployment under deletion. *)
Definition draining (gd : GlobalDeployment) : script Result :=
  owned ← listing_owned gd (Namespace (GD_Meta gd));
  deletedAny ← folding deleting_binding false owned;
  if deletedAny : bool then requeued (300 * Millisecond)
  else
    remaining ← listing_owned gd (Namespace (GD_Meta gd));
    match remaining with
    | _ :: _ => requeued (500 * Millisecond)
    | [] =>
        step (merge_gd_finalizers gd
          (List.filter (fun f => negb (String.eqb f globalDeploymentFinalizer)) (Finalizers (GD_Meta gd)))) ≫= fun _ =>
        mret Done
    end.

Definition teardown_steps (gd : GlobalDeployment) : script Result :=
  if negb (has_finalizer gd) then mret Done
  else if String.eqb (GD_Phase (GD_Status gd)) GlobalDeploymentPhaseDeleting then draining gd
  else
    t ← step now;
    let st := GD_Status gd in
    let marked := mkGDStatus GlobalDeploymentPhaseDeleting (GD_Running st) (GD_Failed st) (GD_Pending st) (Some t)
                    (ObservedRevision st) in
    r ← trying (step (merge_gd_status gd marked));
    draining (match r with Ok gd' => gd' | Err _ => with_gd_status gd marked end).

(** [Reconcile] on a deployment that was read, and the whole call. *)
Definition handling (gd : GlobalDeployment) (key : Key) : script Result :=
  if match DeletionTimestamp (GD_Meta gd) with Some _ => true | None => false end then teardown_steps gd
  else if negb (has_finalizer gd) then
    step (merge_gd_finalizers gd (Finalizers (GD_Meta gd) ++ [globalDeploymentFinalizer])) ≫= fun _ =>
    requeued (100 * Millisecond)
  else if str_empty (ObservedRevision (GD_Status gd)) then
    let st := GD_Status gd in
    step (merge_gd_status gd
      (mkGDStatus (GD_Phase st) (GD_Running st) (GD_Failed st) (GD_Pending st) (GD_UpdatedAt st) "v1")) ≫= fun _ =>
    requeued (100 * Millisecond)
  else replicas_steps gd key.
Definition deployment_steps (key : Key) : script Result :=
  r ← trying (step (get_object w_gds key));
  match r with
  | Err e => if IsNotFound e then mret Done else raise e
  | Ok gd => handling gd key
  end.
End scripts.

(** ** Run alone *)

Lemma keeps_both {A} I J (m : M A) : keeps I m -> keeps J m -> keeps (fun w => I w /\ J w) m.
Proof. intros HI HJ w [H1 H2]. split; [by apply HI|by apply HJ]. Qed.
Lemma keeps_result {A} I (m : M A) :
  keeps I m -> hoare I m (fun r w => match r with Ok _ => I w | Err _ => True end).
Proof. intros Hm w Hw. specialize (Hm w Hw). by destruct (m w).2. Qed.
Lemma keeps_gds_keys {A} (m : M A) : preserves w_gds m -> keeps (fun w => System.gds_ok (w_gds w)) m.
Proof. intros Hm w Hw. by rewrite Hm. Qed.

Section alone.
Context {KUBE : KubeLib} {SORT : GoSort} {MAPS : MapOrder}.

(** A write of a binding as it was just read. *)
Lemma follows_update_rb latest new :
  RB_Meta new = RB_Meta latest ->
  follows (fun w => rbs_ok (w_rbs w) /\ w_rbs w !! rb_key latest = Some latest) (step (update_rb_at latest new)) (update_rb new).
Proof.
  intros Hm w [Hok Hl]. rewrite alone_step. unfold update_rb_at, update_rb, patch_rb, request. destruct (fault _); [done|].
  change (w_rbs (tick w)) with (w_rbs w). change (Namespace (RB_Meta new), Name (RB_Meta new)) with (rb_key new).
  assert (rb_key new = rb_key latest) as -> by (unfold rb_key; by rewrite Hm).
  rewrite Hl, decide_True by done. destruct (Hok _ _ Hl) as [_ Hd]. rewrite Hm. by rewrite match_kept.
Qed.
Lemma follows_update_rb_status latest new :
  RB_Meta new = RB_Meta latest ->
  follows (fun w => w_rbs w !! rb_key latest = Some latest) (step (update_rb_status_at latest new)) (update_rb_status new).
Proof.
  intros Hm w Hl. rewrite alone_step. unfold update_rb_status_at, update_rb_status, patch_rb_status, request.
  destruct (fault _); [done|]. change (w_rbs (tick w)) with (w_rbs w).
  change (Namespace (RB_Meta new), Name (RB_Meta new)) with (rb_key new).
  assert (rb_key new = rb_key latest) as -> by (unfold rb_key; by rewrite Hm). by rewrite Hl, decide_True.
Qed.

Lemma follows_listing gd ns P : follows P (listing_owned gd ns) (list_owned gd ns).
Proof. apply follows_bind with (fun _ _ => True); [apply follows_step| |by intros]. intros w _. by destruct (list_objects _ _ w).2. Qed.

Lemma follows_updating n key st :
  follows (fun w => System.gds_ok (w_gds w)) (updating_status n key st) (update_status_loop n key st).
Proof.
  induction n as [|n IH]; [apply follows_raise|]. cbn [updating_status update_status_loop].
  apply follows_bind with (fun latest w => System.gds_ok (w_gds w) /\ w_gds w !! gd_key latest = Some latest); [apply follows_step| |].
  - apply hoare_get_object; [done|done|done|]. intros w latest Hw Hl. split; [done|]. by rewrite (Hw _ _ Hl).
  - intros latest. apply follows_trying with (fun _ w => System.gds_ok (w_gds w)).
    + intros w [_ Hl]. rewrite alone_step. unfold update_gd_status_at, patch_gd_status, request. destruct (fault _); [done|].
      change (w_gds (tick w)) with (w_gds w). cbn [GD_Meta with_gd_status].
      change (Namespace (GD_Meta latest), Name (GD_Meta latest)) with (gd_key latest). by rewrite Hl, decide_True.
    + eapply hoare_conseq; [apply System.keeps_keys_status|by intros w []|done].
    + intros [u|[]]; first [apply follows_ret|apply follows_raise|exact IH].
Qed.

Lemma follows_reporting gd key : follows (fun w => System.gds_ok (w_gds w)) (reporting gd key) (report gd key).
Proof.
  apply follows_bind with (fun _ w => System.gds_ok (w_gds w)); [apply follows_listing|apply keeps_result, keeps_gds_keys, quiet_list_owned|].
  intros l. apply follows_bind with (fun _ w => System.gds_ok (w_gds w)); [apply follows_step|by apply keeps_result, keeps_now|].
  intros t. apply follows_bind with (fun _ _ => True); [apply follows_updating| |by intros].
  intros w _. by destruct (updateGDStatusWithRetry _ _ w).2.
Qed.

Section replicas.
Context (gd : GlobalDeployment) (w0 : World).
Local Notation sane := (fun w => placing gd w0 w /\ System.gds_ok (w_gds w)).

Lemma follows_ensuring owned i : follows sane (ensuring_binding gd owned i) (ensure_binding gd owned i).
Proof.
  unfold ensuring_binding, ensure_binding. destruct (existing owned i); [apply follows_ret|].
  apply follows_bind with (fun _ => sane); [apply follows_step|apply keeps_result, keeps_now|]. intros t.
  apply follows_bind with (fun _ w => w_rbs w !! rb_key (new_binding gd i) = Some (new_binding gd i)).
  - apply follows_step.
  - intros w _. unfold create_rb, request. destruct (fault _); [done|]. cbn.
    destruct (w_rbs w !! _); [done|]. cbn. by rewrite lookup_insert_eq.
  - intros _. by apply (follows_update_rb_status (new_binding gd i)).
Qed.

Lemma follows_scheduling nodes key cursor b :
  follows sane (scheduling_binding gd nodes key cursor b) (schedule_binding gd nodes key cursor b).
Proof.
  unfold scheduling_binding, schedule_binding.
  apply follows_bind with (fun latest w => rbs_ok (w_rbs w) /\ w_rbs w !! rb_key latest = Some latest); [apply follows_step| |].
  - apply hoare_get_object; [done|done|done|]. intros w latest [(_ & _ & Hok & _) _] Hl.
    destruct (Hok _ _ Hl) as [Hk _]. split; [done|by rewrite Hk].
  - intros latest. destruct (negb _); [apply follows_ret|].
    destruct (pickNextFit _ _ _) as [slot next|e|]; [|apply follows_ret|apply follows_raise]. cbv zeta.
    set (latest' := if _ || _ then with_target latest slot else latest).
    assert (Hm : RB_Meta latest' = RB_Meta latest) by (unfold latest'; by destruct (_ || _)).
    apply follows_bind with (fun _ w => w_rbs w !! rb_key latest' = Some latest').
    + unfold latest'. destruct (_ || _); [by apply follows_update_rb|apply follows_ret].
    + unfold latest'. destruct (_ || _); [|by intros w [_ H]]. intros w [Hok Hl].
      destruct (Hok _ _ Hl) as [_ Hd]. unfold update_rb, patch_rb, request. destruct (fault _); [done|]. cbn.
      change (Namespace (RB_Meta latest), Name (RB_Meta latest)) with (rb_key latest).
      change (rb_key (with_target latest slot)) with (rb_key latest).
      rewrite Hl, match_kept by done. apply lookup_insert_eq.
    + intros _. apply follows_bind with (fun _ _ => True).
      * destruct (negb (String.eqb (RB_Phase _) _)); [|apply follows_ret].
        apply follows_bind with (fun _ w => w_rbs w !! rb_key latest' = Some latest'); [apply follows_step|by intros w|].
        intros t. by apply follows_update_rb_status.
      * intros w _. by destruct (_ w).2.
      * intros _. by apply follows_last, follows_step.
Qed.

Lemma follows_folding {A S} P (f : S -> A -> script S) g s l :
  (forall s a, follows P (f s a) (g s a) /\ keeps P (g s a)) -> follows P (folding f s l) (fold_each g s l).
Proof.
  intros Hf. revert s. induction l as [|a l IH]; intros s; [apply follows_ret|]. destruct (Hf s a) as [H1 H2].
  apply follows_bind with (fun _ => P); [exact H1|by apply keeps_result|]. intros s'. apply IH.
Qed.

Lemma follows_replicas key : follows sane (replicas_steps gd key) (reconcile_replicas gd key).
Proof.
  apply follows_bind with (fun _ => sane); [apply follows_listing| |].
  { apply keeps_result, keeps_both; [|apply keeps_gds_keys, quiet_list_owned].
    apply placing_keeps, preserves_bind; [by apply preserves_list_objects|intros; apply preserves_ret]. }
  intros owned. apply follows_bind with (fun _ => sane).
  { apply follows_each. intros i _. split; [apply follows_ensuring|]. apply keeps_both; [apply keeps_ensure_binding|].
    apply keeps_gds_keys. unfold ensure_binding, update_rb_status. by quiet. }
  { apply keeps_result, keeps_for_each. intros i _. apply keeps_both; [apply keeps_ensure_binding|].
    apply keeps_gds_keys. unfold ensure_binding, update_rb_status. by quiet. }
  intros _. apply follows_trying with (fun r w => sane w /\
    match r with Ok nodes => forall n, n ∈ nodes -> acceptable gd n = true -> candidate gd w0 n | Err _ => True end); [apply follows_step| |].
  { intros w [Hp Hg]. assert (H := hoare_buildOrderedNodes gd w0 w Hp).
    assert (Hq : preserves w_gds buildOrderedNodes) by (unfold buildOrderedNodes; by quiet). specialize (Hq w).
    unfold attempt in H. destruct (buildOrderedNodes w) as [w' r]. cbn in *. rewrite Hq. by destruct r, H. }
  intros [nodes|e]; [|apply follows_ret]. cbv zeta.
  intros w [Hs Hn]. revert w Hs. change (follows sane
    (cursor ← step (getCursor (Namespace (GD_Meta gd) +:+ "/" +:+ Name (GD_Meta gd)));
     folding (scheduling_binding gd nodes (Namespace (GD_Meta gd) +:+ "/" +:+ Name (GD_Meta gd))) cursor owned ≫= fun _ => reporting gd key)
    (cursor ← getCursor (Namespace (GD_Meta gd) +:+ "/" +:+ Name (GD_Meta gd));
     fold_each (schedule_binding gd nodes (Namespace (GD_Meta gd) +:+ "/" +:+ Name (GD_Meta gd))) cursor owned ≫= fun _ => report gd key)).
  apply follows_bind with (fun _ => sane); [apply follows_step|by intros w|]. intros cursor.
  assert (Hk : forall s a, keeps sane (schedule_binding gd nodes (Namespace (GD_Meta gd) +:+ "/" +:+ Name (GD_Meta gd)) s a)).
  { intros s a. apply keeps_both; [by apply keeps_schedule_binding|]. apply keeps_gds_keys. intros w.
    assert (H := quiet_schedule_binding gd nodes (Namespace (GD_Meta gd) +:+ "/" +:+ Name (GD_Meta gd)) s a w).
    unfold gd_view in H. congruence. }
  apply follows_bind with (fun _ w => System.gds_ok (w_gds w)).
  - apply follows_folding. intros s a. split; [apply follows_scheduling|apply Hk].
  - eapply hoare_conseq; [apply keeps_result, (keeps_fold_each sane), Hk|done|]. by intros [] w; [intros []|].
  - intros _. apply follows_reporting.
Qed.
End replicas.

(** [reconcileDelete] once the phase is written. *)
Definition drain (gd : GlobalDeployment) : M Result :=
  owned ← list_owned gd (Namespace (GD_Meta gd));
  deletedAny ← fold_each delete_binding false owned;
  if deletedAny : bool then after (300 * Millisecond)
  else
    remaining ← list_owned gd (Namespace (GD_Meta gd));
    match remaining with
    | _ :: _ => after (500 * Millisecond)
    | [] =>
        patch_gd (with_finalizers gd
          (List.filter (fun f => negb (String.eqb f globalDeploymentFinalizer)) (Finalizers (GD_Meta gd)))) ≫= fun _ =>
        mret Done
    end.

(** The deployment is as it was read, but for its status. *)
Definition as_read (gd : GlobalDeployment) (w : World) : Prop :=
  exists st, w_gds w !! gd_key gd = Some (mkGD (GD_Meta gd) (GD_Spec gd) st).
Lemma keeps_as_read {A} gd (m : M A) : preserves w_gds m -> keeps (as_read gd) m.
Proof. intros Hm w [st Hw]. exists st. by rewrite Hm. Qed.

Lemma follows_finalizers gd gd' fs :
  GD_Meta gd' = GD_Meta gd -> follows (as_read gd) (step (merge_gd_finalizers gd' fs)) (patch_gd (with_finalizers gd fs)).
Proof.
  intros Hm w [st Hw]. rewrite alone_step. unfold merge_gd_finalizers, patch_gd, request. destruct (fault _); [done|].
  change (w_gds (tick w)) with (w_gds w). cbn [GD_Meta with_finalizers Finalizers DeletionTimestamp Name Namespace].
  assert (gd_key gd' = gd_key gd) as -> by (unfold gd_key; by rewrite Hm).
  change (Namespace (GD_Meta gd), Name (GD_Meta gd)) with (gd_key gd). rewrite Hw, Hm. cbv zeta. cbn [GD_Meta].
  by rewrite merge_field_same.
Qed.

Lemma follows_draining gd gd' : GD_Meta gd' = GD_Meta gd -> follows (as_read gd) (draining gd') (drain gd).
Proof.
  intros Hm. assert (Hl : forall P, follows P (listing_owned gd' (Namespace (GD_Meta gd'))) (list_owned gd (Namespace (GD_Meta gd)))).
  { intros P. rewrite Hm.
    replace (listing_owned gd' (Namespace (GD_Meta gd))) with (listing_owned gd (Namespace (GD_Meta gd))); [apply follows_listing|].
    destruct gd as [m s st], gd' as [m' s' st']. cbn in Hm. by subst m'. }
  apply follows_bind with (fun _ => as_read gd); [apply Hl|apply keeps_result, keeps_as_read, quiet_list_owned|]. intros owned.
  assert (Hk : forall d b, keeps (as_read gd) (delete_binding d b)) by (intros; apply keeps_as_read, quiet_delete_binding).
  apply follows_bind with (fun _ => as_read gd); [apply follows_folding|by apply keeps_result, keeps_fold_each|].
  { intros d b. split; [|apply Hk]. unfold deleting_binding, delete_binding.
    destruct (match DeletionTimestamp _ with Some _ => _ | None => _ end); [apply follows_ret|]. destruct (_ || _); [|apply follows_ret].
    apply follows_trying with (fun _ _ => True); [apply follows_step|done|]. intros [u|e]; [apply follows_ret|].
    destruct (IsNotFound e); [apply follows_ret|apply follows_raise]. }
  intros [|]; [apply follows_ret|].
  apply follows_bind with (fun _ => as_read gd); [apply Hl|apply keeps_result, keeps_as_read, quiet_list_owned|].
  intros [|b l]; [|apply follows_ret]. apply follows_last. rewrite Hm. by apply follows_finalizers.
Qed.

Lemma merge_gd_read st new : merge_gd_fields st new st = new.
Proof. unfold merge_gd_fields. rewrite !merge_field_same. by destruct new. Qed.

(** The status patch of what was just read, and what comes next. *)
Lemma status_run gd st w :
  w_gds w !! gd_key gd = Some gd ->
  (merge_gd_status gd st w).1 = (patch_gd_status (with_gd_status gd st) w).1 /\ as_read gd (merge_gd_status gd st w).1 /\
  match (merge_gd_status gd st w).2, (patch_gd_status (with_gd_status gd st) w).2 with
  | Ok gd', Ok _ => GD_Meta gd' = GD_Meta gd
  | Err e, Err e' => e = e'
  | _, _ => False
  end.
Proof.
  intros Hw. unfold merge_gd_status, patch_gd_status, request.
  destruct (fault _); [split_and!; [done| |done]; exists (GD_Status gd); change (w_gds w !! gd_key gd = Some (mkGD (GD_Meta gd) (GD_Spec gd) (GD_Status gd))); by destruct gd|].
  change (w_gds (tick w)) with (w_gds w). cbn [GD_Meta with_gd_status].
  change (Namespace (GD_Meta gd), Name (GD_Meta gd)) with (gd_key gd). rewrite Hw. cbv zeta. cbn. rewrite merge_gd_read.
  split_and!; [done| |done]. eexists. cbn. apply lookup_insert_eq.
Qed.

Lemma follows_teardown gd : follows (fun w => w_gds w !! gd_key gd = Some gd) (teardown_steps gd) (reconcileDelete gd).
Proof.
  unfold teardown_steps, reconcileDelete. destruct (negb _); [apply follows_ret|]. fold (drain gd).
  intros w Hw. destruct (String.eqb (GD_Phase _) _).
  - rewrite bind_run. apply (follows_draining gd gd eq_refl). exists (GD_Status gd). rewrite Hw. by destruct gd.
  - rewrite bind_run. cbv zeta. cbn [alone]. change (alone (step now ≫= ?f) w) with (alone (f (w_clock w)) w).
    rewrite bind_run. change (now w) with (w, Ok (A:=Z) (E:=api_error) (w_clock w)). cbv iota beta. unfold ignore.
    set (st := mkGDStatus _ _ _ _ _ _). destruct (status_run gd st w Hw) as (H1 & H2 & H3).
    change (alone (trying (step ?m) ≫= ?f) w) with (alone (f (m w).2) (m w).1). rewrite <- H1.
    apply (follows_draining gd); [|exact H2]. destruct (merge_gd_status gd st w).2; [|done].
    by destruct (patch_gd_status _ w).2.
Qed.
End alone.

(** A call that nobody interrupts is [Reconcile]: the same result and the same
    environment, whatever requests fail. *)
Theorem deployment_steps_alone {KUBE : KubeLib} {SORT : GoSort} {MAPS : MapOrder} key w :
  rbs_ok (w_rbs w) -> System.gds_ok (w_gds w) -> alone (deployment_steps key) w = Reconcile key w.
Proof.
  intros Hok Hkeys. unfold deployment_steps, Reconcile. rewrite bind_run. unfold attempt.
  change (alone (trying (step ?m) ≫= ?f) w) with (alone (f (m w).2) (m w).1).
  unfold get_object, request. destruct (fault _) as [e|]; cbn [fst snd]; [unfold ignore_not_found; by destruct (IsNotFound e)|].
  change (w_gds (tick w)) with (w_gds w). destruct (w_gds w !! key) as [gd|] eqn:Hgd; cbn [require]; [|done].
  assert (Hk := Hkeys _ _ Hgd). cbn in Hk. subst key. change (w_gds w) with (w_gds (tick w)) in *.
  change (w_rbs w) with (w_rbs (tick w)) in Hok. revert Hok Hkeys Hgd. generalize (tick w). clear w. intros w Hok Hkeys Hgd.
  assert (Hread : as_read gd w) by (exists (GD_Status gd); rewrite Hgd; by destruct gd).
  unfold handling. destruct (match DeletionTimestamp _ with Some _ => _ | None => _ end); [by apply follows_teardown|].
  destruct (negb _); [by apply (follows_last (as_read gd)), Hread; apply follows_finalizers|].
  destruct (str_empty _).
  - cbv zeta. set (st := mkGDStatus _ _ _ _ _ _). destruct (status_run gd st w Hgd) as (H1 & _ & H3).
    rewrite alone_bind, !bind_run, alone_step. destruct (merge_gd_status gd st w) as [w1 r1], (patch_gd_status _ w) as [w2 r2].
    cbn in *. subst w2. destruct r1, r2; [done|done|done|by subst].
  - apply (follows_replicas gd w). split; [by apply placing_start|done].
Qed.

(** ** Interrupted calls *)

(** The deployments sit under their keys, and every binding has its deployment. *)
Definition in_order (w : World) : Prop := System.gds_ok (w_gds w) /\ System.bindings_ok (w_gds w) (w_rbs w).

(** Every stored binding belongs to another deployment. *)
Definition deserted (key : Key) (w : World) : Prop := System.bindings_ok (delete key (w_gds w)) (w_rbs w).

(** What a call never writes. *)
Definition untouched (w : World) :=
  (w_plans w, w_clusters w, w_secrets w, w_members w, w_clients w, w_clock w, w_policy w, w_cluster_clients w).

(** What a step of a call for the deployment under [key] makes of the deployments and
    the bindings. *)
Inductive deployment_change (key : Key) (w : World) : gmap Key GlobalDeployment -> gmap Key ReplicaBinding -> Prop :=
| change_nothing : deployment_change key w (w_gds w) (w_rbs w)
| change_created gd i :
    gd_key gd = key -> held gd w -> w_rbs w !! rb_key (new_binding gd i) = None ->
    deployment_change key w (w_gds w) (<[rb_key (new_binding gd i) := new_binding gd i]> (w_rbs w))
| change_binding old b :
    w_rbs w !! rb_key old = Some old -> unscheduled old = true -> RB_Meta b = RB_Meta old ->
    RBS_GlobalDeploymentRef (RB_Spec b) = RBS_GlobalDeploymentRef (RB_Spec old) ->
    RBS_ReplicaIndex (RB_Spec b) = RBS_ReplicaIndex (RB_Spec old) ->
    Reschedule (RB_Spec b) = Reschedule (RB_Spec old) /\ RescheduleRequest (RB_Spec b) = RescheduleRequest (RB_Spec old) ->
    RB_Status b = RB_Status old \/ RB_Phase (RB_Status b) ∈ [ReplicaBindingPhasePending; ReplicaBindingPhaseAssigned] ->
    deployment_change key w (w_gds w) (<[rb_key old := b]> (w_rbs w))
| change_marked k b :
    w_rbs w !! k = Some b -> Finalizers (RB_Meta b) <> [] ->
    deployment_change key w (w_gds w) (<[k := mark_rb_deleting (w_clock w) b]> (w_rbs w))
| change_deleted k b :
    w_rbs w !! k = Some b -> Finalizers (RB_Meta b) = [] ->
    deployment_change key w (w_gds w) (delete k (w_rbs w))
| change_status g st :
    w_gds w !! key = Some g -> deployment_change key w (<[key := with_gd_status g st]> (w_gds w)) (w_rbs w)
| change_held g l :
    w_gds w !! key = Some g -> globalDeploymentFinalizer ∈ l ->
    deployment_change key w (<[key := with_finalizers g l]> (w_gds w)) (w_rbs w)
| change_let_go g l :
    w_gds w !! key = Some g -> deserted key w ->
    deployment_change key w (<[key := with_finalizers g l]> (w_gds w)) (w_rbs w)
| change_gone : deserted key w -> deployment_change key w (delete key (w_gds w)) (w_rbs w).

Definition keeps_to_deployment (key : Key) (w w' : World) : Prop :=
  untouched w' = untouched w /\ deployment_change key w (w_gds w') (w_rbs w').

(** The others keep the order, leave a deployment under its finalizer where it is, and
    create no binding for a deployment that has none. *)
Definition considerate (key : Key) (w w' : World) : Prop :=
  in_order w -> in_order w' /\
  forall gd, gd_key gd = key -> held gd w -> held gd w' /\ (deserted key w -> deserted key w').

Lemma app_cons_ne {A} (l : list A) a : l <> l ++ [a].
Proof. intros H. apply (f_equal length) in H. rewrite length_app in H. cbn in H. lia. Qed.

(** A write of a deployment under the finalizer it keeps. *)
Lemma rooted_insert key g g' gds b :
  gds !! key = Some g -> UID (GD_Meta g') = UID (GD_Meta g) ->
  (globalDeploymentFinalizer ∈ Finalizers (GD_Meta g) -> globalDeploymentFinalizer ∈ Finalizers (GD_Meta g')) ->
  System.rooted gds b -> System.rooted (<[key := g']> gds) b.
Proof.
  intros Hg Hu Hf (d & Hd & Hfd & Ho). destruct (decide (System.ref_key b = key)) as [He|He].
  - rewrite He, Hg in Hd. injection Hd as <-. exists g'. rewrite He, lookup_insert_eq. split_and!; [done|by apply Hf|].
    unfold owned_by in *. by rewrite Hu.
  - exists d. by rewrite lookup_insert_ne.
Qed.
Lemma rooted_delete key gds gds' b :
  (forall k, k <> key -> gds' !! k = gds !! k) -> System.rooted (delete key gds) b -> System.rooted gds' b.
Proof.
  intros Heq (d & Hd & H). apply lookup_delete_Some in Hd as [Hne Hd]. exists d. by rewrite Heq.
Qed.

Lemma deployment_change_in_order key w w' : keeps_to_deployment key w w' -> in_order w -> in_order w'.
Proof.
  intros [_ Hc] [Hg Hb]. unfold in_order.
  destruct Hc as [|gd i <- (g & Hgd & Hf & Hu) Hnone|old b Hold Hu Hm Href Hi _ Hst|k b Hk Hf|k b Hk Hf|g st Hgd|g l Hgd Hl|g l Hgd Hd|Hd]; (split; [try exact Hg|]).
  - exact Hb.
  - apply System.bindings_ok_insert; [done|done| |by left]. split; [split; [done|by eexists]|].
    exists g. split_and!; [exact Hgd|done|]. unfold owned_by. cbn. by rewrite Hu, String.eqb_refl.
  - destruct (System.bindings_ok_lookup _ _ _ _ Hb Hold) as (_ & [[Hn1 Hn2] Hr] & Hd).
    apply System.bindings_ok_insert; [done|unfold rb_key; by rewrite Hm| |by rewrite Hm]. split.
    + split; [unfold rb_key; rewrite Hm, Href, Hi; exact Hn1|rewrite Hm, Href; exact Hn2].
    + unfold System.rooted, System.ref_key, owned_by in *. rewrite Hm, Href. exact Hr.
  - destruct (System.bindings_ok_lookup _ _ _ _ Hb Hk) as (Hk' & Hs & Hd).
    apply System.bindings_ok_insert; [done|exact Hk'|exact Hs|by right].
  - by apply System.bindings_ok_delete.
  - apply map_Forall_insert_2; [exact (Hg _ _ Hgd)|done].
  - apply (System.bindings_ok_mono _ _ _ Hb). intros k b _. by apply (rooted_insert key g).
  - apply map_Forall_insert_2; [exact (Hg _ _ Hgd)|done].
  - apply (System.bindings_ok_mono _ _ _ Hb). intros k b _. by apply (rooted_insert key g).
  - apply map_Forall_insert_2; [exact (Hg _ _ Hgd)|done].
  - apply (System.bindings_ok_mono _ _ _ Hd). intros k b _. apply (rooted_delete key). intros k' Hk'. by rewrite lookup_insert_ne.
  - by apply map_Forall_delete.
  - exact Hd.
Qed.

(** No binding of the deployment: none at all that depends on it. *)
Lemma none_owned_deserted gd w : in_order w -> held gd w -> none_owned gd w -> deserted (gd_key gd) w.
Proof.
  intros [Hg Hb] (g & Hgd & Hf & Hu) Hnone. apply (System.bindings_ok_mono _ _ _ Hb). intros k b Hk (d & Hd & Hfd & Ho).
  exists d. split; [|done]. rewrite lookup_delete_ne; [done|]. intros He.
  destruct (System.bindings_ok_lookup _ _ _ _ Hb Hk) as (<- & [[Hn _] _] & _).
  rewrite <- He, Hgd in Hd. injection Hd as <-. unfold owned_by in Ho. rewrite Hu in Ho. fold (owned_by gd b) in Ho.
  rewrite (Hnone (rb_key b) b) in Ho; [done| |done]. rewrite Hn. unfold System.ref_key in He. by injection He as ->.
Qed.

Section interrupted.
Context {KUBE : KubeLib} {SORT : GoSort} {MAPS : MapOrder} (key : Key) (rely : World -> World -> Prop).
Hypothesis Hrely : forall w w', rely w w' -> considerate key w w'.
Local Notation guarded := (guarded rely (keeps_to_deployment key)).
Local Notation steady := (steady rely (keeps_to_deployment key)).

Lemma stable_in_order : stable rely in_order.
Proof. intros w w' Hr Hw. by destruct (Hrely w w' Hr Hw). Qed.

(** Steps that write neither deployments nor bindings. *)
Definition dep_view (w : World) := (untouched w, w_gds w, w_rbs w).
Lemma still_keeps {A} (m : M A) w : preserves dep_view m -> keeps_to_deployment key w (m w).1.
Proof.
  intros Hm. specialize (Hm w). apply pair_eq in Hm as [[Hu Hg]%pair_eq Hr]. split; [done|].
  rewrite Hg, Hr. constructor.
Qed.
Lemma still_in_order {A} (m : M A) : preserves dep_view m -> keeps in_order m.
Proof. intros Hm w Hw. exact (deployment_change_in_order key w _ (still_keeps m w Hm) Hw). Qed.

Section live.
Context (gd : GlobalDeployment) (Hkey : gd_key gd = key).

Definition live (w : World) : Prop := in_order w /\ held gd w.
Lemma stable_live : stable rely live.
Proof. intros w w' Hr [Ho Hh]. destruct (Hrely _ _ Hr Ho) as [Ho' H]. split; [done|by apply H]. Qed.

(** A step that keeps the deployment under its finalizer. *)
Lemma steady_live {A} (m : M A) :
  (forall w, live w -> keeps_to_deployment key w (m w).1 /\ held gd (m w).1) -> steady live (step m).
Proof.
  intros Hm. apply steady_step; [apply stable_live|]. intros w Hw. destruct (Hm w Hw) as [H1 H2].
  split; [done|]. split; [|done]. destruct Hw as [Hw _]. by apply (deployment_change_in_order key w).
Qed.
Lemma steady_still {A} (m : M A) : preserves dep_view m -> steady live (step m).
Proof.
  intros Hm. apply steady_live. intros w [_ (g & Hg & H)]. split; [by apply still_keeps|]. exists g. split; [|done].
  specialize (Hm w). apply pair_eq in Hm as [[_ Hgds]%pair_eq _]. by rewrite Hgds.
Qed.

(** Requests on bindings. *)
Lemma steady_binding {A} (f : World -> World * result api_error A) :
  (forall w, live w -> w_gds (f (tick w)).1 = w_gds w /\ keeps_to_deployment key w (f (tick w)).1) -> steady live (step (request f)).
Proof.
  intros Hf. apply steady_live. intros w Hw. unfold request. destruct (fault _).
  - split; [|by destruct Hw as [_ (g & ?)]; exists g]. split; [done|exact (change_nothing key w)].
  - destruct (Hf w Hw) as [Hg Hc]. split; [exact Hc|]. destruct Hw as [_ (g & H)]. exists g. by rewrite Hg.
Qed.

Lemma steady_create i t : steady live (step (create_rb (with_pending (new_binding gd i) t))).
Proof.
  apply steady_binding. intros w Hw. cbv beta zeta. change (w_rbs (tick w)) with (w_rbs w).
  change (Namespace (RB_Meta (with_pending (new_binding gd i) t)), Name (RB_Meta (with_pending (new_binding gd i) t)))
    with (rb_key (new_binding gd i)).
  destruct (w_rbs w !! rb_key (new_binding gd i)) eqn:Hn; (split; [done|split; [done|]]); [exact (change_nothing key w)|].
  exact (change_created key w gd i Hkey (proj2 Hw) Hn).
Qed.
Lemma steady_status base b :
  unscheduled base = true -> RB_Phase (RB_Status b) ∈ [ReplicaBindingPhasePending; ReplicaBindingPhaseAssigned] ->
  steady live (step (update_rb_status_at base b)).
Proof.
  intros Hu Hp. apply steady_binding. intros w _. cbv beta zeta. change (w_rbs (tick w)) with (w_rbs w). destruct (w_rbs w !! rb_key base) as [old|] eqn:Hold.
  2: { split; [done|]. split; [done|exact (change_nothing key w)]. }
  destruct (decide (old = base)) as [->|]; (split; [done|split; [done|]]); [|exact (change_nothing key w)].
  apply (change_binding key w base); try done. by right.
Qed.
Lemma steady_target base slot :
  unscheduled base = true -> steady live (step (update_rb_at base (with_target base slot))).
Proof.
  intros Hu. apply steady_binding. intros w _. cbv beta zeta. change (w_rbs (tick w)) with (w_rbs w). destruct (w_rbs w !! rb_key base) as [old|] eqn:Hold.
  2: { split; [done|]. split; [done|exact (change_nothing key w)]. }
  destruct (decide (old = base)) as [->|]; (split; [done|split; [done|]]); [|exact (change_nothing key w)].
  apply (change_binding key w base); try done. by left.
Qed.
Lemma steady_delete k : steady live (step (delete_rb k)).
Proof.
  apply steady_binding. intros w _. cbv beta zeta. change (w_rbs (tick w)) with (w_rbs w). destruct (w_rbs w !! k) as [b|] eqn:Hb; [|split; [done|split; [done|exact (change_nothing key w)]]].
  destruct (Finalizers (RB_Meta b)) eqn:Hf; (split; [done|split; [done|]]).
  - by apply (change_deleted key w k b).
  - apply (change_marked key w k b); [done|congruence].
Qed.

(** The call on a deployment that is not under deletion. *)
Lemma steady_now : steady live (step now).
Proof. apply steady_still. by intros w. Qed.
Lemma steady_listing g ns : steady live (listing_owned g ns).
Proof. apply steady_bind; [by apply steady_still, preserves_list_objects|intros; apply steady_finish]. Qed.

Lemma steady_ensuring owned i : steady live (ensuring_binding gd owned i).
Proof.
  unfold ensuring_binding. destruct (existing owned i); [by apply steady_finish|].
  apply steady_bind; [apply steady_now|]. intros t. cbv zeta.
  apply steady_bind; [apply steady_create|]. intros _. apply steady_status; [done|]. by left.
Qed.
Lemma steady_scheduling nodes ckey cursor b : steady live (scheduling_binding gd nodes ckey cursor b).
Proof.
  unfold scheduling_binding.
  apply steady_bind; [by apply steady_still, preserves_get_object|]. intros latest.
  destruct (unscheduled latest) eqn:Hu; cbn [negb]; [|by apply steady_finish].
  destruct (pickNextFit _ _ _) as [slot next|e|]; [|by apply steady_finish|by apply steady_finish]. cbv zeta.
  set (changed := negb (String.eqb (TargetCluster _) _) || _).
  apply steady_bind; [destruct changed; [by apply steady_target|by apply steady_finish]|]. intros _.
  apply steady_bind; [ |intros _; apply steady_bind; [by apply steady_still|intros; by apply steady_finish]].
  destruct (negb (String.eqb (RB_Phase _) _)); [|by apply steady_finish]. apply steady_bind; [apply steady_now|]. intros t.
  apply steady_status; [by destruct changed|]. right. by left.
Qed.

(** The reads and writes of the status: the object that is read sits under the key. *)
Lemma steady_updating n st : steady live (updating_status n key st).
Proof.
  assert (Hst := stable_live). induction n as [|n IH]; [by apply steady_finish|]. cbn [updating_status].
  set (R := fun (r : result api_error GlobalDeployment) w => live w /\ match r with Ok latest => gd_key latest = key | Err _ => True end).
  apply guarded_bind with R; [apply guarded_step| |by intros e w []].
  - intros w Hw. split; [by apply still_keeps, preserves_get_object|]. unfold get_object, request. destruct (fault _); [done|].
    cbn [fst snd]. split; [done|]. change (w_gds (tick w)) with (w_gds w). destruct (w_gds w !! key) eqn:Hg; [|done].
    destruct Hw as [[Hkeys _] _]. exact (Hkeys _ _ Hg).
  - intros r w w' Hr [Hw H]. split; [by eapply Hst|done].
  - intros latest. apply guarded_conseq with (fun w => live w /\ gd_key latest = key) (fun _ => live); [|done|done].
    apply guarded_attempt with (fun _ => live); [|by intros|].
    + intros w [Hw Hl]. unfold update_gd_status_at, request. destruct (fault _).
      { split; [|done]. split; [done|exact (change_nothing key w)]. }
      rewrite Hl. change (w_gds (tick w)) with (w_gds w). destruct (w_gds w !! key) as [old|] eqn:Hold.
      2: { split; [|done]. split; [done|exact (change_nothing key w)]. }
      destruct (decide (old = latest)) as [->|]; [|split; [|done]; split; [done|exact (change_nothing key w)]].
      assert (Hk : keeps_to_deployment key w (set_gds <[key:=with_gd_status latest st]> (tick w))) by (split; [done|by apply (change_status key w)]).
      split; [done|]. destruct Hw as [Ho (g & Hg & H)]. split; [by apply (deployment_change_in_order key w)|].
      rewrite Hkey in Hg. rewrite Hg in Hold. injection Hold as ->. eexists. cbn. rewrite Hkey. split; [apply lookup_insert_eq|exact H].
    + intros [u|[]]; first [by apply steady_finish|exact IH].
Qed.
Lemma steady_reporting : steady live (reporting gd key).
Proof.
  apply steady_bind; [apply steady_listing|]. intros l.
  apply steady_bind; [apply steady_now|]. intros t. apply steady_bind; [apply steady_updating|]. intros. by apply steady_finish.
Qed.
Lemma steady_replicas : steady live (replicas_steps gd key).
Proof.
  apply steady_bind; [apply steady_listing|]. intros owned.
  apply steady_bind; [apply steady_each, steady_ensuring|]. intros _.
  apply steady_bind; [apply steady_trying, steady_still; unfold buildOrderedNodes; by quiet|].
  intros [nodes|e]; [|by apply steady_finish]. cbv zeta. apply steady_bind; [by apply steady_still|]. intros cursor.
  apply steady_bind; [apply steady_folding, steady_scheduling|]. intros _. apply steady_reporting.
Qed.
End live.

(** A deployment under deletion: its finalizer goes while no binding depends on it. *)
Lemma stable_deserted gd : gd_key gd = key -> stable rely (fun w => live gd w /\ deserted key w).
Proof.
  intros Hk w w' Hr [[Ho Hh] Hd]. destruct (Hrely _ _ Hr Ho) as [Ho' H]. destruct (H gd Hk Hh) as [Hh' Hd']. by split; [|apply Hd'].
Qed.

Lemma guarded_let_go gd fs :
  gd_key gd = key -> guarded (fun w => live gd w /\ deserted key w) (step (merge_gd_finalizers gd fs)) (fun _ _ => True).
Proof.
  intros Hk. apply guarded_step; [|done]. intros w [[Ho (g & Hg & _)] Hd]. split; [|done].
  unfold merge_gd_finalizers, request. destruct (fault _); [split; [done|exact (change_nothing key w)]|].
  change (w_gds (tick w)) with (w_gds w). rewrite Hg. cbv zeta. rewrite Hk in *.
  destruct (DeletionTimestamp _), (merge_field _ _ _); (split; [done|]);
    first [by apply (change_let_go key w)|by apply (change_gone key w)].
Qed.

Lemma guarded_draining gd : gd_key gd = key -> guarded (live gd) (draining gd) (fun _ _ => True).
Proof.
  intros Hk. assert (Hst := stable_live gd Hk). apply guarded_bind with (fun _ => live gd); [by apply steady_listing| |done]. intros owned.
  apply guarded_bind with (fun _ => live gd); [| |done].
  { apply steady_folding. intros d b. unfold deleting_binding. destruct (match DeletionTimestamp _ with Some _ => _ | None => _ end); [by apply steady_finish|].
    destruct (_ || _); [|by apply steady_finish]. apply steady_bind; [by apply steady_trying, steady_delete|].
    intros [u|e]; [by apply steady_finish|]. by destruct (IsNotFound e); apply steady_finish. }
  intros [|]; [by apply (guarded_conseq _ _ _ _ _ _ _ (free_finish _ _ _))|].
  set (R := fun (r : result api_error (list ReplicaBinding)) w => match r with
    | Ok items => live gd w /\ (List.filter (owned_by gd) items = [] -> deserted key w) | Err _ => True end).
  apply guarded_bind with (fun r w => match r with Ok l => live gd w /\ (l = [] -> deserted key w) | Err _ => True end).
  - apply guarded_bind with R; [apply guarded_step| |done].
    + intros w [Ho Hh]. split; [by apply still_keeps, preserves_list_objects|].
      assert (Ho' := still_in_order _ (preserves_list_objects dep_view ltac:(done) w_rbs (in_namespace (Namespace (GD_Meta gd)))) w Ho).
      assert (H := hoare_list_owned gd w Hh). unfold list_owned in H. rewrite bind_run in H.
      destruct (list_objects _ _ w) as [w' [items|e]]; [|done]. cbn in *. destruct H as [Hh' Hn]. split; [done|].
      intros Hnil. rewrite <- Hk. by apply none_owned_deserted, Hn.
    + intros [items|e] w w' Hr; [|done]. intros [Hw Hd]. split; [by eapply Hst|]. intros Hnil.
      by apply (stable_deserted gd Hk w w' Hr (conj Hw (Hd Hnil))).
    + by intros items w Hw.
  - intros [|b l].
    + apply guarded_bind with (fun _ _ => True); [|intros; apply free_finish|done].
      apply guarded_conseq with (fun w => live gd w /\ deserted key w) (fun _ _ => True); [by apply guarded_let_go| |done].
      intros w [Hw Hd]. by split; [|apply Hd].
    + by apply (guarded_conseq _ _ _ _ _ _ _ (free_finish _ _ _)).
  - done.
Qed.

(** The status patch: its answer is the stored deployment. *)
Lemma merge_gd_status_live gd st w :
  gd_key gd = key -> live gd w ->
  keeps_to_deployment key w (merge_gd_status gd st w).1 /\
  match (merge_gd_status gd st w).2 with
  | Ok g => gd_key g = key /\ live g (merge_gd_status gd st w).1
  | Err _ => live gd (merge_gd_status gd st w).1
  end.
Proof.
  intros Hk Hw. unfold merge_gd_status, request. destruct (fault _); [by split; [split; [done|exact (change_nothing key w)]|]|].
  rewrite Hk. change (w_gds (tick w)) with (w_gds w). destruct (w_gds w !! key) as [old|] eqn:Hold; cbv zeta; cbn [fst snd].
  2: { split; [|done]. split; [done|exact (change_nothing key w)]. }
  set (new := with_gd_status old _). assert (Hc : keeps_to_deployment key w (set_gds <[key:=new]> (tick w))) by (split; [done|exact (change_status key w old _ Hold)]).
  destruct Hw as [Ho (g & Hg & Hf & Hu)]. assert (Hkn : gd_key new = key) by exact (proj1 Ho _ _ Hold).
  split; [done|]. split; [done|]. split; [by apply (deployment_change_in_order key w)|].
  exists new. rewrite Hk, Hold in Hg. injection Hg as ->. rewrite Hkn. split; [apply lookup_insert_eq|done].
Qed.

Lemma guarded_teardown gd :
  gd_key gd = key -> guarded (fun w => in_order w /\ (has_finalizer gd = true -> held gd w)) (teardown_steps gd) (fun _ _ => True).
Proof.
  intros Hk. unfold teardown_steps. destruct (has_finalizer gd); cbn [negb]; [|by apply (guarded_conseq _ _ _ _ _ _ _ (free_finish _ _ _))].
  apply guarded_conseq with (live gd) (fun _ _ => True); [|intros w [Ho Hh]; by split; [|apply Hh]|done].
  destruct (String.eqb _ _); [by apply guarded_draining|].
  apply guarded_bind with (fun _ => live gd); [by apply steady_now| |done]. intros t. cbv zeta.
  apply guarded_attempt with (fun r w => match r with Ok g => gd_key g = key /\ live g w | Err _ => live gd w end).
  - intros w Hw. by apply merge_gd_status_live.
  - intros [g|e] w w' Hr; [|by apply (stable_live gd Hk)]. intros [Hg Hw]. split; [done|]. by apply (stable_live g Hg w).
  - intros [g|e].
    + apply guarded_conseq with (fun w => gd_key g = key /\ live g w) (fun _ _ => True); [|done|done].
      destruct (decide (gd_key g = key)) as [Hg|Hg].
      * apply guarded_conseq with (live g) (fun _ _ => True); [by apply guarded_draining|by intros w []|done].
      * apply guarded_absurd. by intros w [].
    + apply guarded_draining. exact Hk.
Qed.

Lemma guarded_handling gd :
  gd_key gd = key -> guarded (fun w => in_order w /\ (has_finalizer gd = true -> held gd w)) (handling gd key) (fun _ _ => True).
Proof.
  intros Hk. unfold handling. destruct (match DeletionTimestamp _ with Some _ => _ | None => _ end); [by apply guarded_teardown|].
  destruct (has_finalizer gd) eqn:Hf; cbn [negb].
  - apply guarded_conseq with (live gd) (fun _ _ => True); [|intros w [Ho Hh]; by split; [|apply Hh]|done].
    destruct (str_empty _).
    + apply guarded_bind with (fun _ _ => True); [|intros; apply free_finish|done]. apply guarded_step; [|done].
      intros w Hw. by split; [apply merge_gd_status_live|].
    + apply guarded_conseq with (live gd) (fun _ => live gd); [by apply steady_replicas|done|done].
  - apply guarded_bind with (fun _ _ => True); [|intros; apply free_finish|done]. apply guarded_step; [|done].
    intros w _. split; [|done]. unfold merge_gd_finalizers, request. destruct (fault _); [split; [done|exact (change_nothing key w)]|].
    rewrite Hk. change (w_gds (tick w)) with (w_gds w).
    destruct (w_gds w !! key) as [old|] eqn:Hold; [|split; [done|exact (change_nothing key w)]]. cbv zeta.
    rewrite merge_field_changed by apply app_cons_ne.
    assert (Hin : globalDeploymentFinalizer ∈ Finalizers (GD_Meta gd) ++ [globalDeploymentFinalizer]).
    { apply elem_of_app. right. by apply list_elem_of_singleton. }
    destruct (DeletionTimestamp _), (Finalizers (GD_Meta gd) ++ _) as [|f l] eqn:Hl; try (by apply elem_of_nil in Hin);
      (split; [done|exact (change_held key w old _ Hold Hin)]).
Qed.

Lemma guarded_call : guarded in_order (deployment_steps key) (fun _ _ => True).
Proof.
  apply guarded_attempt with (fun r w => match r with
    | Ok gd => gd_key gd = key /\ in_order w /\ (has_finalizer gd = true -> held gd w) | Err _ => True end).
  - intros w Ho. split; [by apply still_keeps, preserves_get_object|]. unfold get_object, request. destruct (fault _); [done|].
    cbn [fst snd]. change (w_gds (tick w)) with (w_gds w). destruct (w_gds w !! key) as [gd|] eqn:Hgd; [|done].
    cbn. assert (Hk : gd_key gd = key) by exact (proj1 Ho _ _ Hgd). split; [done|]. split; [exact Ho|].
    intros Hf. apply bool_decide_eq_true in Hf. exists gd. by rewrite Hk.
  - intros [gd|e] w w' Hr; [|done]. intros (Hk & Ho & Hh). destruct (Hrely w w' Hr Ho) as [Ho' H]. split; [done|]. split; [exact Ho'|].
    intros Hf. by apply (H gd Hk), Hh.
  - intros [gd|e].
    + destruct (decide (gd_key gd = key)) as [Hk|Hk].
      * apply guarded_conseq with (fun w => in_order w /\ (has_finalizer gd = true -> held gd w)) (fun _ _ => True);
          [by apply guarded_handling|by intros w []|done].
      * apply guarded_absurd. by intros w [].
    + by destruct (IsNotFound e); apply free_finish.
Qed.
End interrupted.

(** C12: However late the steps of a call for a deployment come, as long as the others
    are considerate: every step writes at most its own deployment, one binding, and
    nothing else. A binding that it creates belongs to the deployment, which is stored
    under its finalizer at that moment; a binding that it sends to a node is
    unscheduled at that moment, whatever changed since it was read; the finalizer of
    the deployment goes only while no stored binding depends on it. Every binding has
    its deployment after the step. *)
Theorem interrupted_deployment_call_safe {KUBE : KubeLib} {SORT : GoSort} {MAPS : MapOrder} key (rely : World -> World -> Prop) w0 s w :
  (forall w w', rely w w' -> considerate key w w') -> in_order w0 -> rtc (turn rely) (deployment_steps key, w0) (s, w) ->
  keeps_to_deployment key w (advance s w).2 /\ in_order (advance s w).2.
Proof.
  intros Hr Ho Hrt. assert (Hst := stable_in_order key rely Hr).
  assert (Hg := guarded_call key rely Hr).
  assert (Hk : keeps_to_deployment key w (advance s w).2).
  { apply (guarded_acts rely _ in_order (deployment_steps key) s (fun _ _ => True) w0); try done.
    intros w'. split; [done|exact (change_nothing key w')]. }
  split; [done|]. apply (deployment_change_in_order key w _ Hk).
  apply (guarded_keeps rely (keeps_to_deployment key) in_order (deployment_steps key) (fun _ _ => True) in_order w0 (s, w)); try done.
  intros w1 w2 H. by apply (deployment_change_in_order key).
Qed.

(** ** Concrete runs *)

#[local] Existing Instances reliable_kube.

Definition demo_new : World := set_gds <[gd_key System.demo_gd := System.demo_gd]> empty_world.
Definition demo_turns (n : nat) : script Result * World :=
  Nat.iter n (fun c => advance c.1 c.2) (deployment_steps ("default", "web"), demo_new).

Lemma demo_new_in_order : in_order demo_new.
Proof. split; [by apply map_Forall_insert_2; [|apply map_Forall_empty]|]. split; apply map_Forall_empty. Qed.

Lemma deployment_steps_alone_witness :
  alone (deployment_steps ("default", "web")) demo_new = Reconcile ("default", "web") demo_new.
Proof. apply deployment_steps_alone; [apply map_Forall_empty|]. by apply map_Forall_insert_2; [|apply map_Forall_empty]. Defined.

(** The fourth step creates a binding. *)
Lemma interrupted_deployment_call_safe_witness :
  keeps_to_deployment ("default", "web") (demo_turns 3).2 (demo_turns 4).2 /\
  w_rbs (demo_turns 3).2 !! ("default", "web-rb-0") = None /\
  RB_Spec <$> w_rbs (demo_turns 4).2 !! ("default", "web-rb-0") = Some (RB_Spec (new_binding System.demo_gd 0)).
Proof.
  split; [|split; by_eval].
  apply (interrupted_deployment_call_safe ("default", "web") (fun w w' => exists f, w' = set_members f w) demo_new
    (demo_turns 3).1 (demo_turns 3).2).
  - intros w w' [f ->] Ho. split; [exact Ho|]. intros gd _ Hh. split; [exact Hh|done].
  - apply demo_new_in_order.
  - eapply rtc_l; [apply turn_step|]. eapply rtc_l; [apply turn_step|]. eapply rtc_l; [apply turn_step|]. apply rtc_refl.
Defined.
