(* ===== verification/DeletionRace.v ===== *)
(** * The deletion of a deployment by the server, step by step
    (server/internal/api/globaldeployment_delete_handler.go)

    DeploymentHandler answers a request as a whole. Here the handler is a script: the
    controllers may work between its requests. Run alone, it is [DeleteGlobalDeployment]. *)

From S2P Require Import Prelude GoText ApiTypes KubeApi MemberClients Scripts ServerBase ServerKube ClusterHandler DeploymentHandler.

Local Open Scope string_scope.
Local Open Scope list_scope.

(** ** The handler *)

(** [fmt.Errorf("msg: %w", err)], and a computation without a request. *)
Definition wrapped {A} (msg : string) (s : script A) : script A :=
  r ← trying s; match r with Ok v => mret v | Err e => raise (Wrapped msg e) end.
Definition given {A} (r : result api_error A) : script A := Finish r.

Section scripts.
Context {KUBE : KubeLib} {SORT : GoSort} {LIB : ServerLib} (configured_ns : string).

Definition deleting_member (clusterID workloadNS depName : string) : script unit :=
  let controlNS := if str_empty configured_ns then workloadNS else configured_ns in
  clusterCR ← wrapped "get cluster CR" (step (GetTypedClusterCR controlNS clusterID));
  sec ← wrapped "get cluster secret" (step (GetSecret controlNS (SecretRef (Cluster_Spec clusterCR))));
  let kubeconfig := entry (Secret_Data sec) "kubeconfig" in
  let kubeconfig := if str_empty kubeconfig then entry (Secret_Data sec) "value" else kubeconfig in
  if str_empty kubeconfig then
    raise (OtherError ("kubeconfig is empty in secret " +:+ controlNS +:+ "/" +:+ SecretRef (Cluster_Spec clusterCR)))
  else
    restCfg ← wrapped "build rest config from kubeconfig" (given (RESTConfigFromKubeConfig kubeconfig));
    cs ← wrapped "new clientset" (given (NewForConfig restCfg));
    r ← trying (step (deployment_delete cs workloadNS depName));
    match r with
    | Ok _ => mret tt
    | Err e =>
        if IsNotFound e then mret tt
        else raise (Wrapped ("delete deployment " +:+ workloadNS +:+ "/" +:+ depName) e)
    end.

Definition deleting_replica (ns : string) (gd : GlobalDeployment) (rb : ReplicaBinding) : script unit :=
  if negb (refers_to gd rb) then mret tt
  else
    (if str_empty (TargetCluster (RB_Spec rb)) then mret tt
     else dropping (deleting_member (TargetCluster (RB_Spec rb)) (Namespace (GD_Meta gd)) (replica_deployment gd rb))) ≫= fun _ =>
    dropping (step (DeleteTypedReplicaBindingCR ns (Name (RB_Meta rb)))).

Definition deletion_bound (req : GlobalDeploymentRequest) : script (Response string) :=
  let name := TrimSpace (GR_Name req) in
  let ns := TrimSpace (GR_Namespace req) in
  if str_empty name || str_empty ns then mret (Failure StatusBadRequest "name and namespace are required")
  else
    got ← trying (step (GetTypedGlobalDeploymentCR ns name));
    match got with
    | Err e =>
        mret (if IsNotFound e then Failure StatusNotFound "globaldeployment not found"
              else Failure StatusInternalServerError "get globaldeployment failed")
    | Ok gd =>
        list ← trying (step (ListTypedReplicaBindingCRs ns));
        match list with
        | Err _ => mret (Failure StatusInternalServerError "list replicabindings failed")
        | Ok items =>
            each_step (deleting_replica ns gd) items ≫= fun _ =>
            r ← trying (step (DeleteTypedGlobalDeploymentCR ns (Name (GD_Meta gd))));
            mret (match r with
                  | Ok _ => Reply StatusOK "GlobalDeployment deletion started"
                  | Err e =>
                      if IsNotFound e then Reply StatusOK "GlobalDeployment deletion started"
                      else Failure StatusInternalServerError "delete globaldeployment failed"
                  end)
        end
    end.
Definition deletion_request (decoded : result string GlobalDeploymentRequest) : script (Response string) :=
  match bind key_required decoded with
  | Err text => mret (Failure StatusBadRequest text)
  | Ok req => deletion_bound req
  end.

(** ** Run alone *)

(** Agreement in every state. *)
Local Notation everywhere := (follows (fun _ => True)).

Lemma everywhere_bind {A B} (s : script A) m (f : A -> script B) g :
  everywhere s m -> (forall a, everywhere (f a) (g a)) -> everywhere (s ≫= f) (m ≫= g).
Proof. intros Hs Hf. apply follows_bind with (fun _ _ => True); [done| |done]. intros w _. by destruct (m w).2. Qed.
Lemma everywhere_trying {A B} (s : script A) m (f : result api_error A -> script B) g :
  everywhere s m -> (forall r, everywhere (f r) (g r)) -> everywhere (trying s ≫= f) (attempt m ≫= g).
Proof. intros Hs Hf. by apply follows_trying with (fun _ _ => True). Qed.
Lemma everywhere_wrapped {A} msg (s : script A) m : everywhere s m -> everywhere (wrapped msg s) (wrapping msg m).
Proof. intros Hs. apply everywhere_trying; [done|]. intros [v|e]; [apply follows_ret|apply follows_raise]. Qed.
Lemma everywhere_given {A} (r : result api_error A) : everywhere (given r) (MemberClientCache.lift r).
Proof. destruct r; [apply follows_ret|apply follows_raise]. Qed.

(** A clientset, and what is done with it. *)
Lemma everywhere_clientset {B} kubeconfig (f : string -> script B) g :
  (forall cs, everywhere (f cs) (g cs)) ->
  everywhere (restCfg ← wrapped "build rest config from kubeconfig" (given (RESTConfigFromKubeConfig kubeconfig));
        cs ← wrapped "new clientset" (given (NewForConfig restCfg)); f cs)
    (cs ← buildMemberClientset kubeconfig; g cs).
Proof.
  intros Hf w _. unfold buildMemberClientset, wrapped, wrapping, given. rewrite !bind_run. unfold attempt.
  destruct (RESTConfigFromKubeConfig kubeconfig) as [cfg|e]; [|done]. cbn. destruct (NewForConfig cfg) as [cs|e]; [|done].
  cbn. by apply Hf.
Qed.

Lemma everywhere_member clusterID ns depName : everywhere (deleting_member clusterID ns depName) (deleteMemberDeployment configured_ns clusterID ns depName).
Proof.
  apply everywhere_bind; [apply everywhere_wrapped, follows_step|]. intros c. apply everywhere_bind; [apply everywhere_wrapped, follows_step|]. intros sec.
  cbv zeta. destruct (str_empty _); [apply follows_raise|]. apply everywhere_clientset. intros cs.
  apply everywhere_trying; [apply follows_step|]. intros [u|e]; [apply follows_ret|]. destruct (IsNotFound e); [apply follows_ret|apply follows_raise].
Qed.
Lemma everywhere_replica ns gd rb : everywhere (deleting_replica ns gd rb) (delete_replica configured_ns ns gd rb).
Proof.
  unfold deleting_replica, delete_replica. destruct (negb _); [apply follows_ret|]. apply everywhere_bind; [|intros; apply follows_dropping, follows_step].
  destruct (str_empty _); [apply follows_ret|apply follows_dropping, everywhere_member].
Qed.

(** Undisturbed, the steps are the handler. *)
Theorem deletion_request_alone decoded w : alone (deletion_request decoded) w = DeleteGlobalDeployment configured_ns decoded w.
Proof.
  enough (H : everywhere (deletion_request decoded) (DeleteGlobalDeployment configured_ns decoded)) by by apply H.
  unfold deletion_request, DeleteGlobalDeployment, bound. destruct (bind key_required decoded) as [req|text]; [|apply follows_ret].
  unfold deletion_bound, DeleteGlobalDeployment_bound. cbv zeta. destruct (_ || _); [apply follows_ret|].
  apply everywhere_trying; [apply follows_step|]. intros [gd|e]; [|apply follows_ret].
  apply everywhere_trying; [apply follows_step|]. intros [items|e]; [|apply follows_ret].
  apply everywhere_bind; [apply follows_each; intros rb _; split; [apply everywhere_replica|by intros w' _]|].
  intros _. apply everywhere_trying; [apply follows_step|]. intros r. apply follows_ret.
Qed.
End scripts.
