(* ===== verification/Interleaving.v ===== *)
(** * The system, request by request

    System interleaves whole calls. Here the calls of the binding, plan and deployment
    controllers are under way at the same time, as scripts, and so are the requests for
    deletions that the server is answering: their requests interleave with each other,
    with whole calls of the other controllers, with the users, and a crash can end them
    anywhere. As controller-runtime runs it, one call of the deployment controller is under
    way at a time; of the others there can be any number. *)

From S2P Require Import Prelude OptErrors Objective GoTime ApiTypes KubeApi Scripts MemberClients Scheduler Profiles PolicyInputs.
From S2P Require Import System GlobalDeployment DeploymentRace.
From S2P Require Import ServerBase ServerKube DeploymentHandler.
From S2P Require BindingRace PlanRace DeletionRace.

Local Open Scope string_scope.
Local Open Scope list_scope.

(** ** Scripts under way *)

Section in_flight.
Context (rely guarantee : World -> World -> Prop) {A : Type}.

(** What is left of a script is guarded from a condition that holds. *)
Definition in_flight (s : script A) (w : World) : Prop :=
  exists P Q, stable rely P /\ P w /\ guarded rely guarantee P s Q.

Lemma in_flight_other s w w' : rely w w' -> in_flight s w -> in_flight s w'.
Proof. intros Hr (P & Q & HP & Hw & Hs). exists P, Q. split; [done|]. split; [by eapply HP|done]. Qed.
Lemma in_flight_advance s w : in_flight s w -> in_flight (advance s w).1 (advance s w).2.
Proof.
  intros (P & Q & HP & Hw & Hs).
  destruct (guarded_turn rely guarantee P s Q w _ Hs HP Hw (turn_step _ s w)) as (P' & H1 & H2 & H3). by exists P', Q.
Qed.
Lemma in_flight_acts s w : (forall w, guarantee w w) -> in_flight s w -> guarantee w (advance s w).2.
Proof.
  intros Hrefl (P & Q & HP & Hw & Hs). destruct s as [r|X m next]; [apply Hrefl|]. destruct Hs as (R & Hm & _). by apply Hm.
Qed.
End in_flight.

(** ** Steps that write no deployment *)

(** Whatever deployments are stored, every binding that had its deployment has it still. *)
Definition mild (w w' : World) : Prop :=
  w_gds w' = w_gds w /\ forall gds, bindings_ok gds (w_rbs w) -> bindings_ok gds (w_rbs w').

Lemma mild_refl w : mild w w.
Proof. done. Qed.
Lemma mild_quiet {A} (m : M A) w : preserves w_gds m -> preserves w_rbs m -> mild w (m w).1.
Proof. intros Hg Hr. unfold mild. by rewrite Hg, Hr. Qed.
Lemma mild_keeps {A} (m : M A) w : preserves w_gds m -> (forall gds, keeps (ok_bindings gds) m) -> mild w (m w).1.
Proof. intros Hg Hr. split; [apply Hg|]. intros gds. exact (Hr gds w). Qed.

(** A write of a binding that keeps its metadata, and what it stands for. *)
Lemma mild_insert w k old b :
  w_rbs w !! k = Some old -> RB_Meta b = RB_Meta old ->
  RBS_GlobalDeploymentRef (RB_Spec b) = RBS_GlobalDeploymentRef (RB_Spec old) ->
  RBS_ReplicaIndex (RB_Spec b) = RBS_ReplicaIndex (RB_Spec old) -> mild w (set_rbs <[k := b]> w).
Proof.
  intros Hold Hm Href Hi. split; [done|]. intros gds Hok.
  destruct (bindings_ok_lookup _ _ _ _ Hok Hold) as (<- & [[Hn1 Hn2] Hr] & Hd).
  apply bindings_ok_insert; [done|unfold rb_key; by rewrite Hm| |by rewrite Hm]. split.
  - split; [unfold rb_key; rewrite Hm, Href, Hi; exact Hn1|rewrite Hm, Href; exact Hn2].
  - unfold rooted, ref_key, owned_by in *. rewrite Hm, Href. exact Hr.
Qed.

Section mild.
Context {KUBE : KubeLib}.

Lemma mild_request {A} (f : World -> World * result api_error A) w :
  mild w (f (tick w)).1 -> mild w (request f w).1.
Proof. intros Hf. unfold request. by destruct (fault _). Qed.
Lemma mild_get {A} (sel : World -> gmap Key A) k w : mild w (get_object sel k w).1.
Proof. by apply mild_quiet; apply preserves_get_object. Qed.
Lemma mild_member {A} cs (f : MemberCluster -> MemberCluster * result api_error A) w : mild w (member_request cs f w).1.
Proof. by apply mild_quiet; apply preserves_member_request. Qed.
Lemma mild_client ns id w : mild w (ReplicaBinding.getMemberClient ns id w).1.
Proof. by apply mild_quiet; apply (MemberClientCache.preserves_GetOrBuild (CACHE := binding_clients)). Qed.
Lemma mild_rb_status base rb w : mild w (BindingRace.merge_rb_status base rb w).1.
Proof.
  apply mild_request. change (w_rbs (tick w)) with (w_rbs w). destruct (w_rbs w !! rb_key base) as [old|] eqn:Hold; [|done].
  by apply (mild_insert (tick w) _ old).
Qed.
Lemma mild_finalizers base rb w : mild w (BindingRace.merge_finalizers base rb w).1.
Proof.
  apply mild_request. change (w_rbs (tick w)) with (w_rbs w). destruct (w_rbs w !! rb_key base) as [old|] eqn:Hold; [|done]. cbv zeta.
  set (l := merge_field _ _ _).
  assert (Hput : DeletionTimestamp (RB_Meta old) = None \/ l <> [] ->
    mild w (set_rbs <[rb_key base := ReplicaBinding.with_finalizers old l]> (tick w))).
  { intros Hd. split; [done|]. intros gds Hok. destruct (bindings_ok_lookup _ _ _ _ Hok Hold) as (Hk & Hs & _).
    by apply bindings_ok_insert. }
  destruct (DeletionTimestamp (RB_Meta old)), l; try (by apply Hput; auto).
  split; [done|]. intros gds. apply bindings_ok_delete.
Qed.
Lemma mild_plan base st w : mild w (PlanRace.merge_plan base st w).1.
Proof. apply mild_request. change (w_plans (tick w)) with (w_plans w). by destruct (w_plans w !! _). Qed.
Lemma mild_intent base rb w : mild w (PlanRace.merge_intent base rb w).1.
Proof.
  apply mild_request. change (w_rbs (tick w)) with (w_rbs w). destruct (w_rbs w !! rb_key base) as [old|] eqn:Hold; [|done].
  by apply (mild_insert (tick w) _ old).
Qed.

(** The scripts of the binding and the plan controller are made of such steps. *)
Context (rely : World -> World -> Prop).
Local Notation free := (free rely mild).

Ltac mild_steps :=
  repeat match goal with
  | |- free (Finish _) => apply free_finish
  | |- free (mret _) => apply free_finish
  | |- free (raise _) => apply free_finish
  | |- free (mbind _ _) => apply free_bind; [|intros ?]
  | |- free (trying _) => apply free_trying
  | |- free (dropping _) => apply free_dropping
  | |- free (each_step _ _) => apply free_each; intros ?
  | |- free (Scripts.step _) =>
      apply free_step; intros ?; first [apply mild_get|apply mild_member|apply mild_client|apply mild_rb_status
        |apply mild_finalizers|apply mild_plan|apply mild_intent|apply mild_refl]
  | |- free (match ?x with _ => _ end) => destruct x
  | |- free (let _ := _ in _) => cbv zeta
  end.

Lemma free_binding_call ns key : free (BindingRace.Reconcile_steps ns key).
Proof.
  assert (Hm : forall rb phase err res, free (BindingRace.moving rb phase err res)) by (intros; unfold BindingRace.moving; mild_steps).
  unfold BindingRace.Reconcile_steps, BindingRace.binding_steps, BindingRace.deleting_steps, BindingRace.deletion_steps,
    BindingRace.workload_steps, BindingRace.assigned_steps, BindingRace.rescheduling_steps, BindingRace.applying_steps,
    BindingRace.finding_node, BindingRace.failing, BindingRace.ensuring, BindingRace.pausing.
  mild_steps; apply Hm.
Qed.
Lemma free_plan_call fmt_q key : free (PlanRace.plan_steps fmt_q key).
Proof.
  assert (Hr : forall A k (a : A) f, (forall p, free (f p)) -> free (PlanRace.reading k a f)).
  { intros A k a f Hf. unfold PlanRace.reading, PlanRace.not_found_is. mild_steps. apply Hf. }
  assert (Hw : forall p st, free (PlanRace.writing p st)) by (intros; unfold PlanRace.writing; mild_steps).
  assert (Hs : forall p mv st msg, free (PlanRace.moving_status p mv st msg)) by (intros; apply Hr; intros; apply Hw).
  assert (Hi : forall p mv from to msg, free (PlanRace.moving_status_if p mv from to msg)) by (intros; apply Hr; intros; mild_steps; apply Hw).
  assert (Hc : forall p, free (PlanRace.recomputing p)) by (intros; apply Hr; intros; apply Hw).
  assert (Ha : forall p mv, free (PlanRace.applying_move p mv)) by (intros; unfold PlanRace.applying_move; mild_steps; auto).
  assert (He : forall p, free (PlanRace.executing_moves p)) by (intros; apply Hr; intros; mild_steps; auto).
  assert (Hv : forall k, free (PlanRace.converging k)).
  { intros. apply Hr. intros. mild_steps; [apply Hc|]. apply Hr. intros. mild_steps. apply Hw. }
  assert (Ho : forall p, free (PlanRace.monitoring_moves p)).
  { intros. unfold PlanRace.monitoring_moves, PlanRace.observing_move. mild_steps; auto. }
  assert (Hn : forall p, free (PlanRace.monitoring p)) by (intros; apply Hr; intros; mild_steps; auto).
  apply Hr. intros. unfold PlanRace.carrying_out, PlanRace.not_found_is. mild_steps; auto.
Qed.
End mild.

(** ** The system *)

Record state := mkState {
  st_world : World;
  st_calls : list (script Result);
  st_deployment : option (Key * script Result);
  st_deletions : list (script (Response string))
}.

Section interleaving.
Context {KUBE : KubeLib} {SORT : GoSort} {MAPS : MapOrder}.
Context {DEC : ProfileDecoders} {ORDERS : LoopOrders} {FMT : GoFmt} {TEXT : PolicyController.PolicyTexts}
  {BACK : Backend} {SOUND : PolicyEvaluate.SoundBackend BACK} {LIB : ServerLib}.
Context (r : PolicyReconciler) (ControlNamespace configured_ns : string).

(** What is not taken apart: not the calls for deployments, and not a restart, which ends
    the calls under way. *)
Definition whole (e : event) : bool := match e with DeploymentCall _ | Restart => false | _ => true end.

Inductive starts : script Result -> Prop :=
| starts_binding key : starts (BindingRace.Reconcile_steps ControlNamespace key)
| starts_plan key : starts (PlanRace.plan_steps fmt_q key).

Inductive transition : state -> state -> Prop :=
| go_event e w calls d del :
    whole e = true -> enabled e w = true ->
    transition (mkState w calls d del) (mkState (handle r ControlNamespace e w) calls d del)
| go_user w w' calls d del : user_step w w' -> transition (mkState w calls d del) (mkState w' calls d del)
| go_start s w calls d del : starts s -> transition (mkState w calls d del) (mkState w (s :: calls) d del)
| go_turn w l s l' d del :
    transition (mkState w (l ++ s :: l') d del) (mkState (advance s w).2 (l ++ (advance s w).1 :: l') d del)
| go_deployment key w calls del :
    transition (mkState w calls None del) (mkState w calls (Some (key, deployment_steps key)) del)
| go_deployment_turn key s w calls del :
    transition (mkState w calls (Some (key, s)) del) (mkState (advance s w).2 calls (Some (key, (advance s w).1)) del)
| go_return key v w calls del : transition (mkState w calls (Some (key, Finish v)) del) (mkState w calls None del)
| go_crash w calls d del : transition (mkState w calls d del) (mkState (restart w) [] None del)
| go_deletion decoded w calls d del :
    transition (mkState w calls d del) (mkState w calls d (DeletionRace.deletion_request configured_ns decoded :: del))
| go_deletion_turn w calls d l s l' :
    transition (mkState w calls d (l ++ s :: l')) (mkState (advance s w).2 calls d (l ++ (advance s w).1 :: l'))
| go_server_crash w calls d del : transition (mkState w calls d del) (mkState w calls d []).

Definition initial : state := mkState empty_world [] None [].
Definition reached (s : state) : Prop := rtc transition initial s.

(** ** The invariant *)

Definition all_considerate (w w' : World) : Prop := forall key, considerate key w w'.
Definition ready (s : state) : Prop :=
  in_order (st_world s) /\
  Forall (fun c => in_flight (fun _ _ => True) mild c (st_world s)) (st_calls s) /\
  match st_deployment s with
  | Some (key, c) => in_flight (considerate key) (keeps_to_deployment key) c (st_world s)
  | None => True
  end /\
  Forall (fun c => in_flight (fun _ _ => True) all_considerate c (st_world s)) (st_deletions s).

(** A change of the world that the calls under way are ready for. *)
Lemma flights_change {A} guarantee (l : list (script A)) w w' :
  Forall (fun c => in_flight (fun _ _ => True) guarantee c w) l -> Forall (fun c => in_flight (fun _ _ => True) guarantee c w') l.
Proof. intros Hf. eapply Forall_impl; [exact Hf|]. intros c. by apply in_flight_other. Qed.
Lemma ready_change w w' calls d del :
  all_considerate w w' -> ready (mkState w calls d del) -> ready (mkState w' calls d del).
Proof.
  intros Hc (Ho & Hf & Hd & Hl). split; [by apply (Hc ("", "")) in Ho as [? _]|]. cbn in *. split_and!.
  - by apply (flights_change _ _ w).
  - destruct d as [[key c]|]; [|done]. by eapply in_flight_other.
  - by apply (flights_change _ _ w).
Qed.

(** The next step of one of them. *)
Lemma flights_advance {A} guarantee (l l' : list (script A)) c w :
  (forall w, guarantee w w) -> Forall (fun c => in_flight (fun _ _ => True) guarantee c w) (l ++ c :: l') ->
  guarantee w (advance c w).2 /\
  Forall (fun x => in_flight (fun _ _ => True) guarantee x (advance c w).2) (l ++ (advance c w).1 :: l').
Proof.
  intros Hrefl Hf. assert (Hf' := flights_change _ _ w (advance c w).2 Hf). apply Forall_app in Hf as [_ [Hc _]%Forall_cons].
  apply Forall_app in Hf' as [Hl [_ Hl']%Forall_cons]. split; [by eapply in_flight_acts|].
  apply Forall_app. split; [done|]. constructor; [by apply in_flight_advance|done].
Qed.

Lemma considerate_mild key w w' : mild w w' -> considerate key w w'.
Proof.
  intros [Hg Hr] [H1 H2]. split; [split; rewrite Hg; auto|]. intros gd _ (g & H). split; [exists g; by rewrite Hg|].
  unfold deserted. rewrite Hg. apply Hr.
Qed.

Lemma mild_event e w : whole e = true -> mild w (handle r ControlNamespace e w).
Proof.
  intros He. destruct e as [key|key|key|key|key|key| |d|ms|cs ss cms pols]; try done; cbn [handle].
  - apply mild_keeps; [intros w'; apply plan_call_quiet|]. intros gds. apply keeps_ok_plan_call.
  - apply mild_keeps; [intros w'; apply binding_call_quiet|]. intros gds. apply keeps_ok_binding_call.
  - destruct (cluster_call_quiet key w) as (_ & H2 & H3). unfold mild. by rewrite H2, H3.
  - destruct (policy_call_quiet r key w) as (_ & H2 & H3). unfold mild. by rewrite H2, H3.
  - destruct (evaluation_quiet r key (set_timers (delete key) w)) as (H2 & H3). unfold mild. by rewrite H2, H3.
Qed.

(** A write of the deployments that keeps those under the finalizer. *)
Lemma considerate_deployments key w gds' :
  gds_ok gds' ->
  (forall k g, w_gds w !! k = Some g -> globalDeploymentFinalizer ∈ Finalizers (GD_Meta g) ->
     exists g', gds' !! k = Some g' /\ globalDeploymentFinalizer ∈ Finalizers (GD_Meta g') /\ UID (GD_Meta g') = UID (GD_Meta g)) ->
  considerate key w (set_gds (fun _ => gds') w).
Proof.
  intros Hok Hkeep [Hg Hb].
  assert (Hroot : forall b, rooted (w_gds w) b -> rooted gds' b).
  { intros b (g & Hgd & Hf & Ho). destruct (Hkeep _ _ Hgd Hf) as (g' & Hg' & Hf' & Hu). exists g'. split_and!; [done|done|].
    unfold owned_by in *. by rewrite Hu. }
  split; [split; [exact Hok|]|].
  - apply (bindings_ok_mono _ _ _ Hb). intros k b _. apply Hroot.
  - intros gd Hk (g & Hgd & Hf & Hu). split.
    + destruct (Hkeep _ _ Hgd Hf) as (g' & Hg' & Hf' & Hu'). exists g'. split_and!; [done|done|congruence].
    + intros Hd. apply (bindings_ok_mono _ _ _ Hd). intros k b _ (g0 & Hg0 & Hf0 & Ho).
      apply lookup_delete_Some in Hg0 as [Hne Hg0]. destruct (Hkeep _ _ Hg0 Hf0) as (g' & Hg' & Hf' & Hu').
      exists g'. rewrite lookup_delete_ne by done. split_and!; [done|done|]. unfold owned_by in *. by rewrite Hu'.
Qed.

Lemma considerate_user key w w' : in_order w -> user_step w w' -> considerate key w w'.
Proof.
  intros [Hg _] Hu. destruct Hu as [p w Hnew Hf|k w|gd w Hnew|k gd w Hgd Hf|k gd w Hgd Hf|k w].
  - by apply considerate_mild.
  - by apply considerate_mild.
  - apply (considerate_deployments key w (<[gd_key gd := gd]> (w_gds w))); [by apply map_Forall_insert_2|].
    intros k g Hk Hin. exists g. rewrite lookup_insert_ne; [done|congruence].
  - apply (considerate_deployments key w (<[k := mark_gd_deleting (w_clock w) gd]> (w_gds w))).
    + apply map_Forall_insert_2; [exact (Hg _ _ Hgd)|done].
    + intros k' g Hk Hin. destruct (decide (k = k')) as [->|Hne]; [|exists g; by rewrite lookup_insert_ne].
      rewrite Hgd in Hk. injection Hk as ->. eexists. rewrite lookup_insert_eq. by split.
  - apply (considerate_deployments key w (delete k (w_gds w))); [by apply map_Forall_delete|].
    intros k' g Hk Hin. exists g. rewrite lookup_delete_ne; [done|]. intros ->.
    rewrite Hgd in Hk. injection Hk as ->. rewrite Hf in Hin. by apply not_elem_of_nil in Hin.
  - apply considerate_mild, mild_keeps; [by apply preserves_delete_rb|]. intros gds. apply keeps_ok_delete_rb.
Qed.

Lemma in_flight_start c w : starts c -> in_flight (fun _ _ => True) mild c w.
Proof.
  intros Hc. exists (fun _ => True), (fun _ _ => True). split; [done|]. split; [done|].
  destruct Hc; [apply free_binding_call|apply free_plan_call].
Qed.

(** The requests of a deletion: reads, requests to member clusters, deletions of bindings,
    and the deletion of the deployment. *)
Lemma considerate_deletion ns name w : all_considerate w (DeleteTypedGlobalDeploymentCR ns name w).1.
Proof.
  intros key Hin. unfold DeleteTypedGlobalDeploymentCR, rest_delete, request.
  destruct (fault _); [by apply considerate_mild|]. cbn. change (w_gds (tick w)) with (w_gds w).
  destruct (w_gds w !! (ns, name)) as [gd|] eqn:Hgd; [|by apply considerate_mild].
  destruct (Finalizers (GD_Meta gd)) as [|f fs] eqn:Hf.
  - apply (considerate_user key (tick w) (set_gds (delete (ns, name)) (tick w)) Hin); [by apply (step_purge_deployment _ gd)|done].
  - apply (considerate_user key (tick w) (set_gds <[(ns, name) := mark_gd_deleting (w_clock w) gd]> (tick w)) Hin); [|done].
    apply (step_delete_deployment _ gd (tick w)); [done|by rewrite Hf].
Qed.
Lemma mild_all w w' : mild w w' -> all_considerate w w'.
Proof. intros Hm key. by apply considerate_mild. Qed.
Lemma mild_list {A} (sel : World -> gmap Key A) within w : mild w (list_objects sel within w).1.
Proof. by apply mild_quiet; apply preserves_list_objects. Qed.
Lemma mild_delete_rb k w : mild w (delete_rb k w).1.
Proof. apply mild_keeps; [by apply preserves_delete_rb|]. intros gds. apply keeps_ok_delete_rb. Qed.

Lemma in_flight_deletion decoded w : in_flight (fun _ _ => True) all_considerate (DeletionRace.deletion_request configured_ns decoded) w.
Proof.
  exists (fun _ => True), (fun _ _ => True). split; [done|]. split; [done|].
  change (free (fun _ _ => True) all_considerate (DeletionRace.deletion_request configured_ns decoded)).
  assert (Hs : forall A (m : M A), (forall w, mild w (m w).1) -> free (fun _ _ => True) all_considerate (Scripts.step m))
    by (intros; apply free_step; intros; by apply mild_all).
  assert (Hwr : forall A msg (s : script A), free (fun _ _ => True) all_considerate s ->
    free (fun _ _ => True) all_considerate (DeletionRace.wrapped msg s)).
  { intros A msg s Hf. apply free_bind; [by apply free_trying|]. intros [v|e]; apply free_finish. }
  assert (Hm : forall c n d, free (fun _ _ => True) all_considerate (DeletionRace.deleting_member configured_ns c n d)).
  { intros c n d. unfold DeletionRace.deleting_member. cbv zeta. apply free_bind; [apply Hwr, Hs, mild_get|]. intros cl.
    apply free_bind; [apply Hwr, Hs, mild_get|]. intros sec. destruct (str_empty _); [apply free_finish|].
    apply free_bind; [apply Hwr, free_finish|]. intros cfg. apply free_bind; [apply Hwr, free_finish|]. intros cs.
    apply free_bind; [apply free_trying, Hs, mild_member|]. intros [u|e]; [apply free_finish|destruct (IsNotFound e); apply free_finish]. }
  unfold DeletionRace.deletion_request. destruct (bind _ _); [|apply free_finish]. unfold DeletionRace.deletion_bound. cbv zeta.
  destruct (_ || _); [apply free_finish|]. apply free_bind; [apply free_trying, Hs, mild_get|]. intros [gd|e]; [|apply free_finish].
  apply free_bind; [apply free_trying, Hs, mild_list|]. intros [items|e]; [|apply free_finish]. apply free_bind.
  - apply free_each. intros rb. unfold DeletionRace.deleting_replica. destruct (negb _); [apply free_finish|].
    apply free_bind; [destruct (str_empty _); [apply free_finish|apply free_dropping, Hm]|]. intros _.
    apply free_dropping, Hs, mild_delete_rb.
  - intros _. apply free_bind; [apply free_trying, free_step; intros; apply considerate_deletion|intros; apply free_finish].
Qed.

Lemma ready_step s s' : transition s s' -> ready s -> ready s'.
Proof.
  intros Hs Hr. destruct Hs as [e w calls d del He Hen|w w' calls d del Hu|c w calls d del Hc|w l c l' d del|key w calls del
    |key c w calls del|key v w calls del|w calls d del|decoded w calls d del|w calls d l c l'|w calls d del].
  - apply (ready_change w); [|done]. by apply mild_all, mild_event.
  - apply (ready_change w); [|done]. intros key. apply considerate_user; [apply Hr|done].
  - destruct Hr as (Ho & Hf & Hd & Hl). split_and!; [done| |done|done]. constructor; [by apply in_flight_start|done].
  - destruct (Hr) as (Ho & Hf & Hd & Hl). destruct (flights_advance mild l l' c w mild_refl Hf) as [Hm Hf'].
    destruct (ready_change w (advance c w).2 (l ++ c :: l') d del (mild_all _ _ Hm) Hr) as (Ho' & _ & Hd' & Hl'). by split_and!.
  - destruct Hr as (Ho & Hf & _ & Hl). split_and!; [done|done| |done]. exists in_order, (fun _ _ => True).
    split; [by apply (stable_in_order key)|]. split; [done|]. by apply guarded_call.
  - destruct Hr as (Ho & Hf & Hd & Hl). cbn in *.
    assert (Hk : keeps_to_deployment key w (advance c w).2).
    { eapply in_flight_acts; [|exact Hd]. intros w'. split; [done|exact (change_nothing key w')]. }
    split; [by apply (deployment_change_in_order key w)|]. cbn. split_and!.
    + by apply (flights_change _ _ w).
    + by apply in_flight_advance.
    + by apply (flights_change _ _ w).
  - destruct Hr as (Ho & Hf & _ & Hl). by split_and!.
  - destruct Hr as (Ho & _ & _ & Hl). split_and!; [exact Ho|constructor|done|by apply (flights_change _ _ w)].
  - destruct Hr as (Ho & Hf & Hd & Hl). split_and!; [done|done|done|]. constructor; [apply in_flight_deletion|done].
  - destruct (Hr) as (Ho & Hf & Hd & Hl).
    destruct (flights_advance all_considerate l l' c w) as [Hm Hl']; [by intros w' key; apply considerate_mild|exact Hl|].
    destruct (ready_change w (advance c w).2 calls d (l ++ c :: l') Hm Hr) as (Ho' & Hf' & Hd' & _). by split_and!.
  - destruct Hr as (Ho & Hf & Hd & _). by split_and!.
Qed.

Lemma reached_ready s : reached s -> ready s.
Proof.
  intros Hr. assert (H : ready initial).
  { split; [split; [apply map_Forall_empty|split; apply map_Forall_empty]|]. by split_and!. }
  revert H. induction Hr as [s|s s1 s2 Hs _ IH]; [done|]. intros H. by apply IH, (ready_step s).
Qed.

(** C1: however the requests of the calls under way interleave, with each other, with
    the other controllers, with deletions that the server answers, with users who create
    and delete deployments, plans and bindings, with crashes of both processes, and
    whatever requests fail: every stored binding is named
    after its deployment and its replica, and that deployment is still stored, under the
    finalizer of its controller, and controls the binding. *)
Theorem requests_keep_bindings s k b :
  reached s -> w_rbs (st_world s) !! k = Some b ->
  k = (Ref_Namespace (RBS_GlobalDeploymentRef (RB_Spec b)),
       Ref_Name (RBS_GlobalDeploymentRef (RB_Spec b)) +:+ "-rb-" +:+ pretty (RBS_ReplicaIndex (RB_Spec b))) /\
  exists gd, w_gds (st_world s) !! ref_key b = Some gd /\ globalDeploymentFinalizer ∈ Finalizers (GD_Meta gd) /\ owned_by gd b = true.
Proof.
  intros Hr Hb. destruct (reached_ready s Hr) as ((_ & Hok) & _).
  by destruct (bindings_ok_lookup _ _ _ _ Hok Hb) as (<- & [[Hn _] Hroot] & _).
Qed.
End interleaving.

(** ** A concrete run *)

#[local] Existing Instances reliable_kube Ilp.plain_fmt PolicyController.any_loop_order PolicyController.plain_texts
  PolicyEvaluate.plain_decoders PolicyEvaluate.stub_backend PolicyEvaluate.stub_sound demo_lib.

Definition run {A} (n : nat) (c : script A * World) : script A * World := Nat.iter n (fun c => advance c.1 c.2) c.

(** The server deletes a deployment while its controller creates the bindings: the first
    one goes with it, the second one is created after the answer. *)
Definition demo_early : script Result * World := run 5 (deployment_steps ("default", "web"), demo_new).
Definition demo_deletion : script (Response string) :=
  DeletionRace.deletion_request "kubex-system" (Ok (mkGDRequest "web" "default")).
Definition demo_deleted : script (Response string) * World := run 4 (demo_deletion, demo_early.2).
Definition demo_late : script Result * World := run 2 (demo_early.1, demo_deleted.2).
Definition demo_state : state := mkState demo_late.2 [] (Some (("default", "web"), demo_late.1)) [demo_deleted.1].

Example demo_answered :
  demo_deleted.1 = Finish (Ok (Reply StatusOK "GlobalDeployment deletion started")) /\
  (DeletionTimestamp ∘ GD_Meta <$> w_gds demo_deleted.2 !! ("default", "web")) = Some (Some 0%Z).
Proof. split; by_eval. Qed.

Section demo.
Context (r : PolicyReconciler) (ns configured_ns : string).
Local Notation goes := (rtc (transition r ns configured_ns)).

Lemma turns_reached key n s w calls del :
  goes (mkState w calls (Some (key, s)) del) (mkState (run n (s, w)).2 calls (Some (key, (run n (s, w)).1)) del).
Proof.
  induction n as [|n IH]; [apply rtc_refl|]. eapply rtc_r; [exact IH|].
  change (run (S n) (s, w)) with (advance (run n (s, w)).1 (run n (s, w)).2). apply go_deployment_turn.
Qed.
Lemma deletion_reached n s w calls d : goes (mkState w calls d [s]) (mkState (run n (s, w)).2 calls d [(run n (s, w)).1]).
Proof.
  induction n as [|n IH]; [apply rtc_refl|]. eapply rtc_r; [exact IH|].
  change (run (S n) (s, w)) with (advance (run n (s, w)).1 (run n (s, w)).2).
  apply (go_deletion_turn r ns configured_ns _ calls d [] (run n (s, w)).1 []).
Qed.
End demo.

Lemma demo_reached : reached PolicyController.demo_reconciler "kube-system" "kubex-system" demo_state.
Proof.
  eapply rtc_l; [apply go_user, (step_new_deployment System.demo_gd); reflexivity|].
  eapply rtc_l; [apply (go_deployment _ _ _ ("default", "web"))|].
  etrans; [apply (turns_reached _ _ _ _ 5)|].
  eapply rtc_l; [apply (go_deletion _ _ _ (Ok (mkGDRequest "web" "default")))|].
  etrans; [apply (deletion_reached _ _ _ 4)|]. apply (turns_reached _ _ _ _ 2).
Qed.

Lemma requests_keep_bindings_witness :
  exists b, w_rbs demo_late.2 !! ("default", "web-rb-1") = Some b /\
  exists gd, w_gds demo_late.2 !! ref_key b = Some gd /\ globalDeploymentFinalizer ∈ Finalizers (GD_Meta gd).
Proof.
  destruct (w_rbs demo_late.2 !! ("default", "web-rb-1")) as [b|] eqn:Hb; [|exfalso; revert Hb; vm_compute; discriminate].
  exists b. split; [reflexivity|].
  destruct (requests_keep_bindings PolicyController.demo_reconciler "kube-system" "kubex-system" demo_state
    ("default", "web-rb-1") b demo_reached Hb) as (_ & gd & H1 & H2 & _).
  exists gd. split; [exact H1|exact H2].
Defined.
