(* ===== verification/Manager.v ===== *)
(** * The manager process (cmd/main.go and the SetupWithManager functions)

    What the process gives its reconcilers, and what it calls them for: the changes
    each controller watches, and the requests a change makes. *)

From S2P Require Import Prelude OptTypes OptErrors Plugins Objective Plan GoTime GoText ApiTypes KubeApi MemberClients Scheduler.
From S2P Require Import Profiles PolicyInputs System.
From S2P Require PolicyController PolicyEvaluate GlobalDeployment.

Local Open Scope string_scope.
Local Open Scope list_scope.

(** ** Reconcilers *)

(** What [main] puts into the reconcilers besides the client and the scheme. *)
Record Reconcilers := mkReconcilers {
  gd_ControlNamespace : string;
  rb_ControlNamespace : string;
  policy_reconciler : PolicyReconciler
}.

(** [func (r) SetupWithManager(mgr)] of the policy reconciler: the fields left empty. *)
Definition SetupWithManager (r : PolicyReconciler) : PolicyReconciler :=
  mkPolicyReconciler
    (if str_empty (LockNamespace r) then "kubex-system" else LockNamespace r)
    (if str_empty (LockName r) then "kubex-optimization-policy-lock" else LockName r)
    (if (R_LeaseDurationSeconds r =? 0)%Z then 15 else R_LeaseDurationSeconds r)
    (ProfilesNamespace r) (SolverTimeout r)
    (if str_empty (R_ControlNamespace r) then "kubex-system" else R_ControlNamespace r) (POD_NAME r).

(** [main], with the value of the flag [control-namespace] and of the variable
    [POD_NAME]. *)
Definition main_reconcilers (control_namespace POD_NAME : string) : Reconcilers :=
  let controlNamespace := TrimSpace control_namespace in
  mkReconcilers controlNamespace controlNamespace
    (SetupWithManager (mkPolicyReconciler "" "" 0 controlNamespace 0 "" POD_NAME)).

(** ** Watches *)

(** The handler [controller-runtime] installs for [Owns]: an object makes requests
    for its owners; for one with a controlling reference as its only owner, the
    request for that owner, in the namespace of the object. *)
Class OwnerHandler := {
  owner_requests : string -> ObjectMeta -> list Key;
  owner_requests_controlled : forall kind m owner,
    OwnerReferences m = [owner] -> Owner_Kind owner = kind -> Owner_Controller owner = Some true ->
    owner_requests kind m = [(Namespace m, Owner_Name owner)]
}.

(** An object that was created, changed or deleted. *)
Inductive changed :=
| ClusterChanged (m : ObjectMeta)
| SecretChanged (ns name : string)
| DeploymentChanged (m : ObjectMeta)
| BindingChanged (m : ObjectMeta)
| PolicyChanged (m : ObjectMeta)
| PlanChanged (m : ObjectMeta).

Definition meta_key (m : ObjectMeta) : Key := (Namespace m, Name m).

Section watches.
Context {KUBE : KubeLib} {OWNERS : OwnerHandler}.

(** [mapSecretToClusters]. *)
Definition mapSecretToClusters (ns name : string) : M (list Key) :=
  l ← attempt (list_objects w_clusters (in_namespace ns));
  match l with
  | Err _ => mret []
  | Ok clusters =>
      mret ((fun c => meta_key (Cluster_Meta c)) <$>
              List.filter (fun c => String.eqb (SecretRef (Cluster_Spec c)) name) clusters)
  end.

(** The calls a change leads to: [For], [Owns] and [WatchesRawSource] of the five
    controllers. *)
Definition enqueued (c : changed) : M (list event) :=
  match c with
  | ClusterChanged m => mret [ClusterCall (meta_key m)]
  | SecretChanged ns name => keys ← mapSecretToClusters ns name; mret (ClusterCall <$> keys)
  | DeploymentChanged m => mret [DeploymentCall (meta_key m)]
  | BindingChanged m =>
      mret (BindingCall (meta_key m) :: (DeploymentCall <$> owner_requests "GlobalDeployment" m))
  | PolicyChanged m => mret [PolicyCall (meta_key m)]
  | PlanChanged m => mret [PlanCall (meta_key m)]
  end.
End watches.

(** ** What a change of a binding or of a secret leads to *)

Section reached.
Context {KUBE : KubeLib} {OWNERS : OwnerHandler} {SORT : GoSort} {MAPS : MapOrder}.
Context {DEC : ProfileDecoders} {ORDERS : LoopOrders} {FMT : GoFmt} {TEXT : PolicyController.PolicyTexts}
  {BACK : Backend} {SOUND : PolicyEvaluate.SoundBackend BACK}.

(** C29: In every state the controllers of the process reach, whatever the users do and
    whatever requests fail, a change of a stored binding leads to a call for the
    binding and to one for its deployment, which is stored, holds the finalizer of
    its controller and controls the binding; and to no other. *)
Theorem binding_change_reaches_deployment control_namespace POD_NAME w k b :
  let p := main_reconcilers control_namespace POD_NAME in
  reachable (policy_reconciler p) (rb_ControlNamespace p) w -> w_rbs w !! k = Some b ->
  exists gd, enqueued (BindingChanged (RB_Meta b)) w = (w, Ok [BindingCall k; DeploymentCall (GlobalDeployment.gd_key gd)]) /\
    w_gds w !! GlobalDeployment.gd_key gd = Some gd /\
    GlobalDeployment.globalDeploymentFinalizer ∈ Finalizers (GD_Meta gd) /\ GlobalDeployment.owned_by gd b = true.
Proof.
  cbv zeta. intros Hw Hb. destruct (reachable_ok _ _ w Hw) as (_ & Hok & Hg).
  destruct (bindings_ok_lookup _ _ _ _ Hok Hb) as (<- & [[Hn [uid Ho]] (gd & Hgd & Hf & Hown)] & _).
  assert (Hk := Hg _ _ Hgd). cbn in Hk. exists gd. rewrite Hk. split_and!; [|done..].
  unfold enqueued. rewrite (owner_requests_controlled _ _ _ Ho eq_refl eq_refl). cbn [fmap list_fmap].
  replace (Namespace (RB_Meta b)) with (Ref_Namespace (RBS_GlobalDeploymentRef (RB_Spec b))); [done|].
  by injection Hn.
Qed.

(** A change of a secret leads to one call for every stored cluster of its namespace
    that names the secret as its kubeconfig, and to no other call; if the clusters
    cannot be listed it leads to none, and the change is not seen again. *)
Theorem secret_change_reaches_clusters ns name w :
  (forall k c, w_clusters w !! k = Some c -> meta_key (Cluster_Meta c) = k) ->
  exists keys, enqueued (SecretChanged ns name) w = (tick w, Ok (ClusterCall <$> keys)) /\
    match fault (w_requests w) with
    | Some _ => keys = []
    | None => NoDup keys /\
        forall k, k ∈ keys <-> k.1 = ns /\ exists c, w_clusters w !! k = Some c /\ SecretRef (Cluster_Spec c) = name
    end.
Proof.
  intros Hkeys. unfold enqueued, mapSecretToClusters. rewrite bind_run, bind_run. unfold attempt, list_objects, request.
  destruct (fault (w_requests w)) as [e|]; [by exists []|]. eexists. split; [reflexivity|].
  change (w_clusters (tick w)) with (w_clusters w).
  set (here := filter (fun e : Key * Cluster => in_namespace ns e.1 = true) (w_clusters w)).
  assert (Hhere : forall k c, here !! k = Some c <-> w_clusters w !! k = Some c /\ k.1 = ns).
  { intros k c. unfold here. rewrite map_lookup_filter_Some. unfold in_namespace. cbn. by rewrite String.eqb_eq. }
  assert (Hperm := list_order_perm (w_requests (tick w)) here). set (l := list_order _ here) in *.
  assert (Hin : forall c, c ∈ l <-> exists k, here !! k = Some c).
  { intros c. rewrite Hperm, list_elem_of_fmap. split.
    - intros ([k c'] & -> & Hk%elem_of_map_to_list). by exists k.
    - intros [k Hk]. exists (k, c). by rewrite elem_of_map_to_list. }
  assert (Hnodup : NoDup ((fun c => meta_key (Cluster_Meta c)) <$> l)).
  { rewrite Hperm, <- list_fmap_compose. replace (compose _ _ <$> map_to_list here) with (map_to_list here).*1; [apply NoDup_fst_map_to_list|].
    apply list_fmap_ext. intros i [k c] Hi. cbn. symmetry. apply Hkeys.
    apply list_elem_of_lookup_2, elem_of_map_to_list in Hi. by apply Hhere in Hi as [? _]. }
  split.
  - revert Hnodup. clear. induction l as [|c l IH]; [done|]. cbn. intros [Hc Hl]%NoDup_cons.
    destruct (String.eqb _ _); [|by apply IH]. cbn. apply NoDup_cons. split; [|by apply IH].
    intros Hc'. apply Hc. apply list_elem_of_fmap in Hc' as (c' & -> & Hc'). apply list_elem_of_fmap. exists c'. split; [done|].
    apply list_elem_of_In in Hc'. apply filter_In in Hc' as [Hc' _]. by apply list_elem_of_In.
  - intros k. rewrite list_elem_of_fmap. setoid_rewrite list_elem_of_In. setoid_rewrite filter_In.
    setoid_rewrite <- list_elem_of_In. setoid_rewrite Hin. setoid_rewrite String.eqb_eq. split.
    + intros (c & -> & [k' Hk'] & Hs). apply Hhere in Hk' as [Hk' Hns]. rewrite (Hkeys _ _ Hk'). eauto.
    + intros (Hns & c & Hc & Hs). exists c. rewrite (Hkeys _ _ Hc). split; [done|]. split; [|done]. exists k. by apply Hhere.
Qed.
End reached.

(** ** The namespace of the clusters *)

(** The policy reconciler keeps the namespace [SetupWithManager] falls back to,
    whatever the flag says; those of the deployments and the bindings follow it. *)
Lemma control_namespaces control_namespace POD_NAME :
  let p := main_reconcilers control_namespace POD_NAME in
  gd_ControlNamespace p = TrimSpace control_namespace /\ rb_ControlNamespace p = TrimSpace control_namespace /\
  ProfilesNamespace (policy_reconciler p) = TrimSpace control_namespace /\
  R_ControlNamespace (policy_reconciler p) = "kubex-system".
Proof. by split_and!. Qed.

Section elsewhere.
Context {KUBE : KubeLib} {DEC : ProfileDecoders} {ORDERS : LoopOrders} {SORT : GoSort} {FMT : GoFmt}
  {TEXT : PolicyController.PolicyTexts} {BACK : Backend}.
Context (r : PolicyReconciler) (pol : OptimizationPolicy).
Hypothesis Hdefault : R_ControlNamespace r = "kubex-system".
Hypothesis Hstable : stable_replicas (CurrentLayout (OP_Status pol)) <> [].

(** No cluster is in the default namespace, and none was in use before. *)
Definition elsewhere (w : World) : Prop :=
  (forall id, w_clusters w !! ("kubex-system", id) = None) /\ ps_clients (w_policy w) = ∅.

(** A computation that cannot return. *)
Local Notation fails m := (PolicyEvaluate.yields elsewhere m (fun _ => False)).

Lemma fails_bind {A B} (m : M A) (f : A -> M B) : fails m -> fails (m ≫= f).
Proof. intros Hm. by apply (PolicyEvaluate.yields_bind _ _ _ _ _ Hm). Qed.
Lemma fails_wrapping {A} msg (m : M A) : fails m -> fails (wrapping msg m).
Proof.
  intros Hm w Hw. destruct (Hm w Hw) as [Hw' Hr]. unfold wrapping, attempt. rewrite bind_run.
  destruct (m w) as [w' [a|e]]; [done|]. by split.
Qed.

Lemma fails_getMemberClient id : fails (getMemberClient r id).
Proof.
  intros w [Hc Hp]. unfold getMemberClient, MemberClientCache.GetOrBuild. rewrite Hdefault. cbn [str_empty].
  destruct (str_empty id); [by split|]. rewrite bind_run. unfold MemberClientCache.Get. cbn [cached policy_clients].
  rewrite Hp, lookup_empty, bind_run. unfold get_object, request.
  destruct (fault (w_requests w)); [by split|]. change (w_clusters (tick w)) with (w_clusters w). rewrite Hc. by split.
Qed.

Lemma fails_contexts ids : ids <> [] -> fails (buildNodeContexts r ids).
Proof.
  destruct ids as [|id ids]; [done|]. intros _. unfold buildNodeContexts. cbn [build_contexts]. apply fails_bind.
  unfold build_context. destruct (_ || _); [by intros w Hw|]. apply fails_bind, fails_wrapping, fails_getMemberClient.
Qed.

Lemma stable_placement_inhabited : exists rk n, stable_placement (CurrentLayout (OP_Status pol)) !! rk = Some n.
Proof.
  unfold stable_placement. assert (H := Hstable). unfold stable_replicas in H.
  destruct (List.filter Stable _) as [|loc l] in H |- *; [done|]. clear H. exists (replica_of loc). cbn.
  assert (forall (m : gmap ReplicaKey ClusterNodeID) n, m !! replica_of loc = Some n ->
    exists n', foldl (fun m loc => <[replica_of loc := node_of loc]> m) m l !! replica_of loc = Some n') as H.
  { induction l as [|loc' l IH]; intros m n Hm; [by exists n|]. cbn.
    destruct (decide (replica_of loc' = replica_of loc)) as [He|Hne].
    - apply (IH _ (node_of loc')). rewrite He. apply lookup_insert_eq.
    - apply (IH _ n). by rewrite lookup_insert_ne. }
  apply (H _ (node_of loc)). apply lookup_insert_eq.
Qed.

(** A replica that is placed makes a candidate. *)
Lemma placement_nodes_inhabited k placement rk n : placement !! rk = Some n -> placement_nodes k placement <> [].
Proof.
  intros Hn Hnil. unfold placement_nodes in Hnil. apply fmap_nil_inv in Hnil.
  assert (Hin : (rk, n) ∈ range_loop k 0 placement) by by apply elem_of_range_loop.
  assert (Hall : forall l m, (m !! n = Some tt \/ (rk, n) ∈ l) ->
    foldl (fun (m : gmap ClusterNodeID unit) e => <[e.2 := tt]> m) m l !! n = Some tt).
  { clear. induction l as [|[rk' n'] l IH]; intros m H; cbn.
    - destruct H as [H|H]; [done|by apply elem_of_nil in H].
    - apply IH. destruct (decide (n' = n)) as [->|Hne]; [left; apply lookup_insert_eq|].
      rewrite lookup_insert_ne by done. destruct H as [H|H]; [by left|]. apply elem_of_cons in H as [H|H]; [by simplify_eq|by right]. }
  assert (H : (n, tt) ∈ range_loop k 1 (foldl (fun (m : gmap ClusterNodeID unit) e => <[e.2 := tt]> m) ∅ (range_loop k 0 placement))).
  { apply elem_of_range_loop. cbn. apply Hall. by right. }
  rewrite Hnil in H. by apply elem_of_nil in H.
Qed.

Lemma yields_candidates_inhabited :
  PolicyEvaluate.yields elsewhere (candidate_nodes (stable_placement (CurrentLayout (OP_Status pol)))) (fun l => l <> []).
Proof.
  unfold candidate_nodes. apply PolicyEvaluate.yields_bind with (P := fun _ => True).
  { intros w Hw. unfold list_objects, request. by destruct (fault (w_requests w)). }
  intros clusters _. destruct (ready_nodes clusters) as [|n l]; [|by apply PolicyEvaluate.yields_ret].
  apply PolicyEvaluate.yields_bind with (P := fun _ => True); [by intros w Hw|]. intros k _.
  apply PolicyEvaluate.yields_ret. destruct stable_placement_inhabited as (rk & n & Hn).
  by apply (placement_nodes_inhabited _ _ rk n).
Qed.

Lemma fails_gather b : fails (gather r b pol).
Proof.
  unfold gather. eapply PolicyEvaluate.yields_bind; [apply yields_candidates_inhabited|]. intros cs Hcs.
  by apply fails_bind, fails_contexts.
Qed.

Lemma fails_improvement : fails (computeImprovementPct r pol).
Proof. unfold computeImprovementPct. destruct (stable_replicas _) eqn:He in |- *; [by destruct Hstable|]. apply fails_bind, fails_gather. Qed.

Lemma fails_plan_spec t : fails (PolicyEvaluate.plan_spec r pol t).
Proof. unfold PolicyEvaluate.plan_spec. destruct (stable_replicas _) eqn:He in |- *; [by destruct Hstable|]. apply fails_bind, fails_gather. Qed.

Lemma keeps_improvement t : keeps elsewhere (PolicyEvaluate.improvement r pol t).
Proof.
  unfold PolicyEvaluate.improvement. apply keeps_bind.
  { apply keeps_attempt. intros w Hw. exact (proj1 (fails_improvement w Hw)). }
  intros [v|e]; [apply keeps_ret|]. destruct (PolicyEvaluate.solver_disabled e); [apply keeps_ret|].
  destruct (if PolicyEvaluate.deadline_error e then _ else _) as [reason msg].
  apply keeps_bind; [|intros; apply keeps_throw]. apply keeps_ignore. intros w Hw.
  assert (Hq : preserves (fun w => (w_clusters w, ps_clients (w_policy w)))
    (PolicyController.setStatusPhaseAndCondition pol (OP_Phase (OP_Status pol))
       (PolicyEvaluate.rebalance_condition pol t "False" reason msg))).
  { unfold PolicyController.setStatusPhaseAndCondition, PolicyController.write_policy. destruct (_ || _); [|apply preserves_ret].
    apply preserves_bind; [|intros; apply preserves_ret]. unfold patch_policy_status. apply preserves_request; [done|].
    intros w0. cbn. by destruct (w_policies w0 !! _). }
  specialize (Hq w). injection Hq as H1 H2. destruct Hw as [Hc Hp]. split; [by rewrite H1|by rewrite H2].
Qed.

Lemma evaluate_active_stuck t w : elsewhere w -> w_plans (PolicyEvaluate.evaluate_active r pol t w).1 = w_plans w.
Proof.
  intros Hw. unfold PolicyEvaluate.evaluate_active. rewrite bind_run.
  assert (H1 := PolicyEvaluate.quiet_improved r w_plans ltac:(done) ltac:(done) ltac:(done) pol t w).
  assert (H2 := keeps_improvement t w Hw). destruct (PolicyEvaluate.improvement r pol t w) as [w1 [v|e]]; cbn [fst snd] in H1, H2; [|done].
  rewrite bind_run. cbn [loop_number fst]. rewrite bind_run.
  assert (H3 := PolicyEvaluate.quiet_plan_spec r w_plans ltac:(done) ltac:(done) ltac:(done) pol t (tick w1)).
  assert (H4 := fails_plan_spec t (tick w1) H2).
  destruct (PolicyEvaluate.plan_spec r pol t (tick w1)) as [w2 [s|e]]; cbn [fst snd] in H3, H4; [tauto|].
  cbn [fst]. by rewrite H3.
Qed.
End elsewhere.

(** C30: The policy reconciler does not follow the flag: when the clusters are in another
    namespace than the default, the one the flag names or any other, no evaluation
    of a policy with stable replicas writes a plan, because it looks the clusters
    of its candidates up in the default namespace. *)
Theorem evaluation_ignores_control_namespace {KUBE : KubeLib} {DEC : ProfileDecoders} {ORDERS : LoopOrders} {SORT : GoSort}
    {FMT : GoFmt} {TEXT : PolicyController.PolicyTexts} {BACK : Backend} control_namespace POD_NAME key w :
  elsewhere w ->
  (forall pol, w_policies w !! key = Some pol -> stable_replicas (CurrentLayout (OP_Status pol)) <> []) ->
  w_plans (PolicyEvaluate.defaultEvaluate (policy_reconciler (main_reconcilers control_namespace POD_NAME)) key w).1 = w_plans w.
Proof.
  intros Hw Hstable. set (r := policy_reconciler _).
  destruct (PolicyEvaluate.defaultEvaluate_cases r key w) as [H|(pol & Hpol & _ & ->)]; [exact H|].
  set (w1 := (patch_policy_status _ _ _).1).
  assert (Hq : (w_plans w1, (w_clusters w1, ps_clients (w_policy w1))) = (w_plans w, (w_clusters w, ps_clients (w_policy w)))).
  { unfold w1, patch_policy_status, request. destruct (fault _); [done|]. by destruct (w_policies _ !! _). }
  injection Hq as H1 H2 H3. rewrite evaluate_active_stuck; [exact H1|done| |].
  - cbn. by apply Hstable.
  - destruct Hw as [Hc Hp]. split; [by rewrite H2|by rewrite H3].
Qed.

(** ** Concrete runs *)

#[local] Existing Instances reliable_kube Ilp.plain_fmt PolicyController.any_loop_order PolicyController.plain_texts
  PolicyEvaluate.plain_decoders PolicyEvaluate.stub_backend PolicyEvaluate.stub_sound.

(** One request for every controlling reference of the kind. *)
Definition plain_owners : OwnerHandler.
Proof.
  refine {| owner_requests := fun kind m =>
    (fun o => (Namespace m, Owner_Name o)) <$>
      List.filter (fun o => String.eqb (Owner_Kind o) kind && match Owner_Controller o with Some c => c | None => false end)
        (OwnerReferences m) |}.
  intros kind m owner -> <- Hc. cbn. by rewrite String.eqb_refl, Hc.
Defined.
#[local] Existing Instance plain_owners.

Definition demo_process : Reconcilers := main_reconcilers " prod " "pod-1".

Lemma demo_process_reachable : reachable (policy_reconciler demo_process) (rb_ControlNamespace demo_process) demo_world2.
Proof.
  eapply rtc_l; [apply step_user, (step_new_deployment demo_gd); reflexivity|].
  eapply rtc_l; [apply step_user, (step_new_plan demo_plan); reflexivity|].
  eapply rtc_l; [apply step_call; exists (DeploymentCall ("default", "web")); by split|]. apply rtc_refl.
Qed.

Lemma binding_change_reaches_deployment_witness :
  exists b, w_rbs demo_world2 !! ("default", "web-rb-1") = Some b /\
  (enqueued (BindingChanged (RB_Meta b)) demo_world2).2 = Ok [BindingCall ("default", "web-rb-1"); DeploymentCall ("default", "web")].
Proof.
  destruct (w_rbs demo_world2 !! ("default", "web-rb-1")) as [b|] eqn:Hb; [|exfalso; revert Hb; vm_compute; discriminate].
  exists b. split; [reflexivity|].
  destruct (binding_change_reaches_deployment " prod " "pod-1" demo_world2 ("default", "web-rb-1") b demo_process_reachable Hb)
    as (gd & -> & Hgd & _). cbn [snd].
  assert (Hkeys : map_Forall (fun k g => GlobalDeployment.gd_key g = k -> k = ("default", "web")) (w_gds demo_world2)).
  { apply (bool_decide_eq_true_1 _). by_eval. }
  by rewrite (Hkeys _ _ Hgd eq_refl).
Defined.

Definition demo_member (name secret : string) : Cluster :=
  mkCluster (mkMeta name "kubex-system" "u" 1 ∅ ∅ [] None []) (mkClusterSpec "" secret)
    (mkClusterStatus ClusterPhaseReady None None [] (mkResources (mkResourceList 0 0) (mkResourceList 0 0) 2 0) []).
Definition demo_members : World :=
  set_clusters (fun _ => <[("kubex-system", "c1") := demo_member "c1" "s1"]> {[("kubex-system", "c2") := demo_member "c2" "s2"]})
    empty_world.

Lemma secret_change_reaches_clusters_witness :
  exists keys, (enqueued (SecretChanged "kubex-system" "s1") demo_members).2 = Ok (ClusterCall <$> keys) /\
    ("kubex-system", "c1") ∈ keys /\ ("kubex-system", "c2") ∉ keys.
Proof.
  destruct (secret_change_reaches_clusters "kubex-system" "s1" demo_members) as (keys & -> & _ & Hin).
  - assert (H : map_Forall (fun k c => meta_key (Cluster_Meta c) = k) (w_clusters demo_members)); [|exact H].
    apply (bool_decide_eq_true_1 _). by_eval.
  - exists keys. rewrite !Hin. split_and!; [done|done|by exists (demo_member "c1" "s1")|]. intros (_ & c & Hc & Hs).
    injection Hc as <-. done.
Defined.

(** The clusters in "prod", as the flag says; a replica on the dearer of two nodes. *)
Definition demo_prod_world : World :=
  set_clusters (fun _ => {[("prod", "c1") := mkCluster (mkMeta "c1" "prod" "u" 1 ∅ ∅ [] None [])
      (Cluster_Spec PolicyEvaluate.demo_cluster) (Cluster_Status PolicyEvaluate.demo_cluster)]})
    (set_policy_clients (fun _ => ∅) (PolicyEvaluate.demo_evaluation_world "Cost" 10)).

Lemma evaluation_ignores_control_namespace_witness :
  w_plans (PolicyEvaluate.defaultEvaluate (policy_reconciler demo_process) ("default", "p") demo_prod_world).1 = ∅.
Proof.
  apply (evaluation_ignores_control_namespace " prod " "pod-1" ("default", "p") demo_prod_world).
  - split; [intros id; by apply lookup_singleton_ne|done].
  - intros pol Hpol. injection Hpol as <-. discriminate.
Defined.
