(* ===== verification/ServerSystem.v ===== *)
(** * The controllers and the REST server together

    The server's requests as further steps of the system of System: the creation of a
    deployment that has bindings already leaves these without a deployment under the
    controller's finalizer; no other request does that to a binding. *)

From S2P Require Import Prelude OptErrors Objective GoTime GoText ApiTypes KubeApi MemberClients Scheduler.
From S2P Require Import Profiles PolicyInputs ServerBase ServerKube ClusterHandler DeploymentHandler OptimizationHandler System.
From S2P Require PolicyController PolicyEvaluate GlobalDeployment PlanController.

Local Open Scope string_scope.
Local Open Scope list_scope.

(** ** Requests of the API *)

(** The routes that reach the Kubernetes API, each with its decoded request. *)
Inductive api_request :=
| ApiImportCluster (d : result string ImportClusterRequest)
| ApiUpdateCluster (d : result string UpdateClusterRequest)
| ApiDeleteClusters (d : result string DeleteClustersRequest)
| ApiGetCluster (d : result string string)
| ApiListClusters (d : result string ListClustersRequest)
| ApiCreateGlobalDeployment (d : result string string)
| ApiGetGlobalDeployment (d : result string GlobalDeploymentRequest)
| ApiListGlobalDeployments (d : result string ListGlobalDeploymentsRequest)
| ApiDeleteGlobalDeployment (d : result string GlobalDeploymentRequest)
| ApiListOptimizationPolicies (d : result string ListOptimizationPoliciesRequest)
| ApiGetOptimizationPolicy (d : result string NamedRequest)
| ApiCreateOptimizationPolicy (d : result string (option OptimizationPolicy))
| ApiUpdateOptimizationPolicy (d : result string (option OptimizationPolicy))
| ApiDeleteOptimizationPolicy (d : result string NamedRequest)
| ApiListReOrchestrationPlans (d : result string ListReOrchestrationPlansRequest)
| ApiGetReOrchestrationPlan (d : result string NamedRequest)
| ApiListTopologyConfigs (d : result string string).

Section server.
Context {KUBE : KubeLib} {SORT : GoSort} {FMT : GoFmt} {LIB : ServerLib}.
Context (ns : string) (cfg : OptimizationHandlerConfig) (kubeconfig_env : string)
  (BuildConfigFromFlags : string -> result api_error string) (configmap_created : Key -> Time).

(** The environment after a request. *)
Definition api (req : api_request) (w : World) : World :=
  match req with
  | ApiImportCluster d => (ImportCluster ns d w).1
  | ApiUpdateCluster d => (UpdateCluster ns d w).1
  | ApiDeleteClusters d => (DeleteClusters ns d w).1
  | ApiGetCluster d => (GetCluster ns d w).1
  | ApiListClusters d => (ListClusters ns d w).1
  | ApiCreateGlobalDeployment d => (CreateGlobalDeployment ns d w).1
  | ApiGetGlobalDeployment d => (GetGlobalDeployment ns d w).1
  | ApiListGlobalDeployments d => (ListGlobalDeployments ns d w).1
  | ApiDeleteGlobalDeployment d => (DeleteGlobalDeployment ns d w).1
  | ApiListOptimizationPolicies d => (ListOptimizationPolicies cfg d w).1
  | ApiGetOptimizationPolicy d => (GetOptimizationPolicy cfg d w).1
  | ApiCreateOptimizationPolicy d => (CreateOptimizationPolicy cfg d w).1
  | ApiUpdateOptimizationPolicy d => (UpdateOptimizationPolicy cfg d w).1
  | ApiDeleteOptimizationPolicy d => (DeleteOptimizationPolicy cfg d w).1
  | ApiListReOrchestrationPlans d => (ListReOrchestrationPlans cfg d w).1
  | ApiGetReOrchestrationPlan d => (GetReOrchestrationPlan cfg d w).1
  | ApiListTopologyConfigs d =>
      (ListTopologyConfigs cfg kubeconfig_env BuildConfigFromFlags configmap_created d w).1
  end.

(** The deployment a request creates: its key and the decoded YAML. *)
Definition created_by (req : api_request) : option (Key * YamlDeployment) :=
  match req with
  | ApiCreateGlobalDeployment (Ok yaml) =>
      match parseDeploymentYAML yaml ns with
      | Ok (name, gd_ns, dep) => match Y_SpecJSON dep with Some _ => Some ((gd_ns, name), dep) | None => None end
      | Err _ => None
      end
  | _ => None
  end.

(** A creation of a deployment that has bindings. *)
Definition takes_over (req : api_request) (w : World) : Prop :=
  exists key dep k b, created_by req = Some (key, dep) /\ w_rbs w !! k = Some b /\ ref_key b = key.

(** ** Requests that do not write plans, bindings and deployments *)

Definition view (w : World) := (w_plans w, w_rbs w, w_gds w).

Lemma keeps_view {A} (m : M A) : preserves view m -> keeps system_ok m.
Proof. intros Hm w Hw. unfold system_ok. injection (Hm w) as -> -> ->. exact Hw. Qed.

Lemma quiet_bound {A B} missing (d : result string A) (h : A -> M (Response B)) :
  (forall a, preserves view (h a)) -> preserves view (bound missing d h).
Proof. intros Hh. unfold bound. destruct (bind missing d); [apply Hh|apply preserves_ret]. Qed.

Lemma keeps_bound {A B} I missing (d : result string A) (h : A -> M (Response B)) :
  (forall a, keeps I (h a)) -> keeps I (bound missing d h).
Proof. intros Hh. unfold bound. destruct (bind missing d); [apply Hh|apply keeps_ret]. Qed.

Lemma quiet_apply_cluster c : preserves view (ApplyTypedClusterCR ns c).
Proof. by apply preserves_apply_typed. Qed.
Lemma quiet_apply_policy n p : preserves view (ApplyTypedOptimizationPolicyCR n p).
Proof. by apply preserves_apply_typed. Qed.
Lemma quiet_delete_cluster n id : preserves view (DeleteTypedClusterCR n id).
Proof. by apply preserves_rest_delete. Qed.
Lemma quiet_delete_policy n name : preserves view (DeleteTypedOptimizationPolicyCR n name).
Proof. by apply preserves_rest_delete. Qed.
Lemma quiet_create_secret n name s : preserves view (CreateSecret n name s).
Proof. by apply preserves_CreateSecret. Qed.
Lemma quiet_get {A} (sel : World -> gmap Key A) k : preserves view (get_object sel k).
Proof. by apply preserves_get_object. Qed.
Lemma quiet_list {A} (sel : World -> gmap Key A) within : preserves view (list_objects sel within).
Proof. by apply preserves_list_objects. Qed.

(** A handler of quiet requests: its case analyses, then the lemmas above. *)
Ltac quiet_handler :=
  repeat first
    [ apply quiet_apply_cluster | apply quiet_apply_policy | apply quiet_delete_cluster | apply quiet_delete_policy
    | apply quiet_create_secret | apply quiet_get | apply quiet_list | quiet_one ].

Lemma quiet_UpdateCluster d : preserves view (UpdateCluster ns d).
Proof. apply quiet_bound. intros req. unfold UpdateCluster_bound. quiet_handler. Qed.
Lemma quiet_GetCluster d : preserves view (GetCluster ns d).
Proof. apply quiet_bound. intros req. unfold GetCluster_bound. quiet_handler. Qed.
Lemma quiet_ListClusters d : preserves view (ListClusters ns d).
Proof. apply quiet_bound. intros req. unfold ListClusters_bound. quiet_handler. Qed.
Lemma quiet_ImportCluster d : preserves view (ImportCluster ns d).
Proof. apply quiet_bound. intros req. unfold ImportCluster_bound, draw_uuid. quiet_handler. all: by intros w. Qed.
Lemma quiet_DeleteClusters d : preserves view (DeleteClusters ns d).
Proof.
  apply quiet_bound. intros req. unfold DeleteClusters_bound. destruct (clean_ids _) as [|id ids]; [apply preserves_ret|].
  apply preserves_bind; [|intros; apply preserves_ret]. generalize (id :: ids), (mkDeleted [] [] ""). clear.
  intros ids. induction ids as [|id ids IH]; intros resp; [apply preserves_ret|]. cbn [delete_all].
  apply preserves_bind; [|intros; apply IH]. unfold delete_one. quiet_handler.
Qed.
Lemma quiet_GetGlobalDeployment d : preserves view (GetGlobalDeployment ns d).
Proof.
  apply quiet_bound. intros req. unfold GetGlobalDeployment_bound. quiet_handler.
  generalize (∅ : gmap string string) as cache. match goal with |- forall cache, preserves _ (show_bindings _ ?gd _ ?l) => induction l as [|rb l IH]; intros cache end;
    [apply preserves_ret|]. cbn [show_bindings]. unfold cluster_name. quiet_handler; apply IH.
Qed.
Lemma quiet_ListGlobalDeployments d : preserves view (ListGlobalDeployments ns d).
Proof. apply quiet_bound. intros req. unfold ListGlobalDeployments_bound. quiet_handler. Qed.
Lemma quiet_policies d1 d2 d3 d4 create :
  preserves view (ListOptimizationPolicies cfg d1) /\ preserves view (GetOptimizationPolicy cfg d2) /\
  preserves view (applyOptimizationPolicy cfg create d3) /\ preserves view (DeleteOptimizationPolicy cfg d4).
Proof.
  split_and!; apply quiet_bound; intros req;
    unfold ListOptimizationPolicies_bound, GetOptimizationPolicy_bound, apply_bound, DeleteOptimizationPolicy_bound; quiet_handler.
Qed.
Lemma quiet_plans d1 d2 :
  preserves view (ListReOrchestrationPlans cfg d1) /\ preserves view (GetReOrchestrationPlan cfg d2).
Proof. split; apply quiet_bound; intros req; unfold ListReOrchestrationPlans_bound, GetReOrchestrationPlan_bound; quiet_handler. Qed.
Lemma quiet_ListTopologyConfigs d :
  preserves view (ListTopologyConfigs cfg kubeconfig_env BuildConfigFromFlags configmap_created d).
Proof.
  apply quiet_bound. intros req. unfold ListTopologyConfigs_bound, listConfigMapsByPrefix, wrapping, MemberClientCache.lift.
  quiet_handler. by apply preserves_request.
Qed.

(** ** Deletions *)

Lemma keeps_delete_binding k : keeps system_ok (delete_rb k).
Proof.
  intros w (Hp & Hb & Hg). assert (H1 : w_plans (delete_rb k w).1 = w_plans w) by by apply (preserves_delete_rb w_plans).
  assert (H2 : w_gds (delete_rb k w).1 = w_gds w) by by apply (preserves_delete_rb w_gds).
  split_and!; rewrite ?H1, ?H2; [done| |done]. by apply keeps_ok_delete_rb.
Qed.

(** A deployment that is marked keeps its finalizers; one that goes has none, so no
    binding refers to it. *)
Lemma keeps_delete_deployment gd_ns name : keeps system_ok (DeleteTypedGlobalDeploymentCR gd_ns name).
Proof.
  apply hoare_request; [done|]. intros w (Hp & Hb & Hg). change (objects_of (tick w)) with (w_gds w).
  destruct (w_gds w !! (gd_ns, name)) as [gd|] eqn:Hgd; [|done]. cbn [meta_of deployment_resource]. assert (Hk := Hg _ _ Hgd).
  destruct (Finalizers (GD_Meta gd)) as [|f fs] eqn:Hf; cbn; (split_and!; [done| |]); cbn.
  - apply (bindings_ok_mono _ _ _ Hb). intros k b _ (g & H1 & H2 & H3). exists g. split_and!; [|done|done].
    rewrite lookup_delete_ne; [done|]. intros He. rewrite <- He in H1. simplify_eq. rewrite Hf in H2. by apply elem_of_nil in H2.
  - by apply map_Forall_delete.
  - apply (bindings_ok_mono _ _ _ Hb). intros k b _ (g & H1 & H2 & H3).
    destruct (decide ((gd_ns, name) = ref_key b)) as [He|Hne]; [|exists g; by rewrite lookup_insert_ne].
    rewrite He in Hgd |- *. simplify_eq. eexists. rewrite lookup_insert_eq. split_and!; [done|exact H2|exact H3].
  - apply map_Forall_insert_2; [exact Hk|done].
Qed.

Lemma keeps_delete_replica gd_ns gd rb : keeps system_ok (delete_replica ns gd_ns gd rb).
Proof.
  unfold delete_replica. destruct (negb _); [apply keeps_ret|]. apply keeps_bind.
  - destruct (str_empty _); [apply keeps_ret|]. apply keeps_ignore, keeps_deleteMemberDeployment; [done|].
    intros cs. apply keeps_view. by apply (preserves_member_request view).
  - intros _. apply keeps_ignore, keeps_delete_binding.
Qed.

Lemma keeps_DeleteGlobalDeployment d : keeps system_ok (DeleteGlobalDeployment ns d).
Proof.
  apply keeps_bound. intros req. unfold DeleteGlobalDeployment_bound. cbv zeta. destruct (_ || _); [apply keeps_ret|].
  apply keeps_bind; [apply keeps_attempt, keeps_view, quiet_get|]. intros [gd|e]; [|apply keeps_ret].
  apply keeps_bind; [apply keeps_attempt, keeps_view, quiet_list|]. intros [items|e]; [|apply keeps_ret].
  apply keeps_bind; [apply keeps_for_each; intros; apply keeps_delete_replica|]. intros _.
  apply keeps_bind; [apply keeps_attempt, keeps_delete_deployment|]. intros. apply keeps_ret.
Qed.

(** ** Creations *)

Definition rbs_view (w : World) := (w_plans w, w_rbs w).
Lemma quiet_creation d : preserves rbs_view (CreateGlobalDeployment ns d).
Proof.
  unfold CreateGlobalDeployment, bound. destruct (bind _ _) as [yaml|]; [|apply preserves_ret].
  unfold CreateGlobalDeployment_bound. destruct (parseDeploymentYAML yaml ns) as [[[name gd_ns] dep]|]; [|apply preserves_ret].
  destruct (Y_SpecJSON dep); [|apply preserves_ret]. apply preserves_bind; [|intros; apply preserves_ret].
  by apply preserves_attempt, preserves_apply_typed.
Qed.

Lemma rejected_creation d w : created_by (ApiCreateGlobalDeployment d) = None -> (CreateGlobalDeployment ns d w).1 = w.
Proof.
  unfold created_by, CreateGlobalDeployment, bound, bind. destruct d as [yaml|text]; [|done].
  destruct (required _); [|done]. unfold CreateGlobalDeployment_bound.
  destruct (parseDeploymentYAML yaml ns) as [[[name gd_ns] dep]|]; [|done]. by destruct (Y_SpecJSON dep).
Qed.

(** What a creation does to the stored deployments: at most it overwrites one, which
    is then without finalizers, and without faults it does. *)
Lemma creation_gds d key dep w :
  gds_ok (w_gds w) -> created_by (ApiCreateGlobalDeployment d) = Some (key, dep) ->
  let gds := w_gds (CreateGlobalDeployment ns d w).1 in
  (gds = w_gds w /\ ~ (forall n, fault n = None)) \/
  (exists f, gds = partial_alter f key (w_gds w)) /\
    forall gd, gds !! key = Some gd -> GlobalDeployment.gd_key gd = key /\ Finalizers (GD_Meta gd) = [].
Proof.
  intros Hg Hc. destruct d as [yaml|]; [|done]. unfold created_by in Hc.
  destruct (parseDeploymentYAML yaml ns) as [[[name gd_ns] dep']|] eqn:Hp; [|done].
  destruct (Y_SpecJSON dep') as [template|] eqn:Ht; [|done]. injection Hc as <- ->.
  destruct (create_accepted_run ns yaml name gd_ns dep template w Hg Hp Ht) as (w' & r & -> & Hr). cbn [fst].
  destruct r as [code resp|code text|]; [right|left; naive_solver|done]. destruct Hr as (_ & _ & _ & uid & Hr).
  rewrite Hr. split; [by eexists|]. intros gd. rewrite lookup_partial_alter_eq. unfold overwritten.
  destruct (w_gds w !! (gd_ns, name)) as [old|]; [destruct (DeletionTimestamp _); [done|]|]; by intros [= <-].
Qed.

Lemma creation_keeps d w :
  ~ takes_over (ApiCreateGlobalDeployment d) w -> system_ok w -> system_ok (CreateGlobalDeployment ns d w).1.
Proof.
  intros Hto (Hp & Hb & Hg). assert (Hq := quiet_creation d w). injection Hq as Hq1 Hq2.
  unfold system_ok. rewrite Hq1, Hq2. destruct (created_by (ApiCreateGlobalDeployment d)) as [[key dep]|] eqn:Hc.
  2: { by rewrite rejected_creation. }
  destruct (creation_gds d key dep w Hg Hc) as [[-> _]|[[f Hf] Hkey]]; [done|]. split_and!; [done| |].
  - apply (bindings_ok_mono _ _ _ Hb). intros k b Hk (g & H1 & H2 & H3). exists g. split_and!; [|done|done].
    rewrite Hf, lookup_partial_alter_ne; [done|]. intros ->. apply Hto. by exists (ref_key b), dep, k, b.
  - intros k gd Hgd. destruct (decide (k = key)) as [->|Hne]; [by destruct (Hkey _ Hgd)|].
    rewrite Hf, lookup_partial_alter_ne in Hgd by done. by apply Hg.
Qed.

(** All requests but two leave plans, bindings and deployments alone. *)
Lemma api_cases req w :
  view (api req w) = view w \/
  (exists d, req = ApiCreateGlobalDeployment d) \/ (exists d, req = ApiDeleteGlobalDeployment d).
Proof.
  destruct req as [d|d|d|d|d|d|d|d|d|d|d|d|d|d|d|d|d]; cbn [api];
    try (right; left; by eexists); try (right; right; by eexists); left.
  - apply quiet_ImportCluster.
  - apply quiet_UpdateCluster.
  - apply quiet_DeleteClusters.
  - apply quiet_GetCluster.
  - apply quiet_ListClusters.
  - apply quiet_GetGlobalDeployment.
  - apply quiet_ListGlobalDeployments.
  - apply (proj1 (quiet_policies d (Err "") (Err "") (Err "") true)).
  - apply (proj1 (proj2 (quiet_policies (Err "") d (Err "") (Err "") true))).
  - apply (proj1 (proj2 (proj2 (quiet_policies (Err "") (Err "") d (Err "") true)))).
  - apply (proj1 (proj2 (proj2 (quiet_policies (Err "") (Err "") d (Err "") false)))).
  - apply (proj2 (proj2 (proj2 (quiet_policies (Err "") (Err "") (Err "") d true)))).
  - apply (proj1 (quiet_plans d (Err ""))).
  - apply (proj2 (quiet_plans (Err "") d)).
  - apply quiet_ListTopologyConfigs.
Qed.

Lemma api_keeps req w : ~ takes_over req w -> system_ok w -> system_ok (api req w).
Proof.
  destruct (api_cases req w) as [Hv|[[d ->]|[d ->]]]; intros Hto Hw.
  - unfold system_ok. unfold view in Hv. injection Hv as -> -> ->. exact Hw.
  - by apply creation_keeps.
  - by apply keeps_DeleteGlobalDeployment.
Qed.

(** ** Bindings without a deployment under the finalizer *)

(** The deployment that the binding at [k] refers to is not stored, or not under the
    controller's finalizer, or does not control the binding. *)
Definition unprotected (w : World) (k : Key) : Prop := exists b, w_rbs w !! k = Some b /\ ~ rooted (w_gds w) b.

Section protection.
Context (allowed : Key -> Prop).

(** Only the bindings at allowed keys are without protection. *)
Definition protected (w : World) : Prop :=
  gds_ok (w_gds w) /\ forall k b, w_rbs w !! k = Some b -> allowed k \/ rooted (w_gds w) b.

Lemma protected_quiet {A} (m : M A) : preserves view m -> keeps protected m.
Proof. intros Hm w Hw. unfold protected. injection (Hm w) as _ -> ->. exact Hw. Qed.

Lemma protected_delete_binding k : keeps protected (delete_rb k).
Proof.
  apply hoare_request; [done|]. intros w [Hg Hb]. change (w_rbs (tick w)) with (w_rbs w).
  destruct (w_rbs w !! k) as [b|] eqn:Hk; [|done]. destruct (Finalizers (RB_Meta b)); cbn; (split; [exact Hg|]); cbn; intros k' b' Hb'.
  - apply lookup_delete_Some in Hb' as [_ Hb']. by apply Hb.
  - apply lookup_insert_Some in Hb' as [[<- <-]|[_ Hb']]; [|by apply Hb]. exact (Hb k b Hk).
Qed.

Lemma protected_delete_deployment gd_ns name : keeps protected (DeleteTypedGlobalDeploymentCR gd_ns name).
Proof.
  apply hoare_request; [done|]. intros w [Hg Hb]. change (objects_of (tick w)) with (w_gds w).
  destruct (w_gds w !! (gd_ns, name)) as [gd|] eqn:Hgd; [|done]. cbn [meta_of deployment_resource]. assert (Hk := Hg _ _ Hgd).
  destruct (Finalizers (GD_Meta gd)) as [|f fs] eqn:Hf; cbn; split; cbn.
  - by apply map_Forall_delete.
  - intros k b Hb'. destruct (Hb k b Hb') as [Hl|(g & H1 & H2 & H3)]; [by left|right]. exists g. split_and!; [|done|done].
    rewrite lookup_delete_ne; [done|]. intros He. rewrite <- He in H1. simplify_eq. rewrite Hf in H2. by apply elem_of_nil in H2.
  - apply map_Forall_insert_2; [exact Hk|done].
  - intros k b Hb'. destruct (Hb k b Hb') as [Hl|(g & H1 & H2 & H3)]; [by left|right].
    destruct (decide ((gd_ns, name) = ref_key b)) as [He|Hne]; [|exists g; by rewrite lookup_insert_ne].
    rewrite He in Hgd |- *. simplify_eq. eexists. rewrite lookup_insert_eq. split_and!; [done|exact H2|exact H3].
Qed.

Lemma protected_DeleteGlobalDeployment d : keeps protected (DeleteGlobalDeployment ns d).
Proof.
  apply keeps_bound. intros req. unfold DeleteGlobalDeployment_bound. cbv zeta. destruct (_ || _); [apply keeps_ret|].
  apply keeps_bind; [apply keeps_attempt, protected_quiet, quiet_get|]. intros [gd|e]; [|apply keeps_ret].
  apply keeps_bind; [apply keeps_attempt, protected_quiet, quiet_list|]. intros [items|e]; [|apply keeps_ret].
  apply keeps_bind; [|intros _; apply keeps_bind; [apply keeps_attempt, protected_delete_deployment|intros; apply keeps_ret]].
  apply keeps_for_each. intros rb _. unfold delete_replica. destruct (negb _); [apply keeps_ret|]. apply keeps_bind.
  - destruct (str_empty _); [apply keeps_ret|]. apply keeps_ignore, keeps_deleteMemberDeployment; [done|].
    intros cs. apply protected_quiet. by apply (preserves_member_request view).
  - intros _. apply keeps_ignore, protected_delete_binding.
Qed.
End protection.

(** The deployments keep their keys under every request. *)
Lemma api_gds_ok req w : gds_ok (w_gds w) -> gds_ok (w_gds (api req w)).
Proof.
  intros Hg. destruct (api_cases req w) as [Hv|[[d ->]|[d ->]]].
  - unfold view in Hv. by injection Hv as _ _ ->.
  - cbn [api]. destruct (created_by (ApiCreateGlobalDeployment d)) as [[key dep]|] eqn:Hc; [|by rewrite rejected_creation].
    destruct (creation_gds d key dep w Hg Hc) as [[-> _]|[[f Hf] Hkey]]; [done|].
    intros k gd Hgd. destruct (decide (k = key)) as [->|Hne]; [by destruct (Hkey _ Hgd)|].
    rewrite Hf, lookup_partial_alter_ne in Hgd by done. by apply Hg.
  - destruct (protected_DeleteGlobalDeployment (fun _ => True) d w) as [H _]; [|exact H]. split; [exact Hg|by left].
Qed.

Lemma rooted_dec gds b : Decision (rooted gds b).
Proof.
  destruct (gds !! ref_key b) as [gd|] eqn:Hg; [|right; intros (gd & H & _); congruence].
  destruct (decide (GlobalDeployment.globalDeploymentFinalizer ∈ Finalizers (GD_Meta gd) /\ GlobalDeployment.owned_by gd b = true)) as [H|H].
  - left. by exists gd.
  - right. intros (gd' & Hg' & H'). simplify_eq. by apply H.
Qed.

(** A request that takes no deployment over leaves only those bindings unprotected that
    were so before. *)
Lemma api_protects req w k : gds_ok (w_gds w) -> ~ takes_over req w -> unprotected (api req w) k -> unprotected w k.
Proof.
  intros Hg Hto (b & Hb & Hnot). destruct (api_cases req w) as [Hv|[[d ->]|[d ->]]].
  - unfold view in Hv. injection Hv as _ Hr Hgs. rewrite Hr in Hb. rewrite Hgs in Hnot. by exists b.
  - cbn [api] in Hb, Hnot. assert (Hq := quiet_creation d w). injection Hq as _ Hq. rewrite Hq in Hb. exists b. split; [done|].
    intros (g & H1 & H2 & H3). apply Hnot. destruct (created_by (ApiCreateGlobalDeployment d)) as [[key dep]|] eqn:Hc.
    2: { rewrite rejected_creation by done. by exists g. }
    destruct (creation_gds d key dep w Hg Hc) as [[-> _]|[[f Hf] _]]; [by exists g|].
    exists g. split_and!; [|done|done]. rewrite Hf, lookup_partial_alter_ne; [done|].
    intros ->. apply Hto. by exists (ref_key b), dep, k, b.
  - destruct (protected_DeleteGlobalDeployment (unprotected w) d w) as [_ H].
    { split; [exact Hg|]. intros k' b' Hb'. destruct (rooted_dec (w_gds w) b'); [by right|left; by exists b']. }
    destruct (H k b Hb) as [Hk|Hr]; [exact Hk|done].
Qed.

(** ** The whole system *)

Section whole.
Context {MAPS : MapOrder} {DEC : ProfileDecoders} {ORDERS : LoopOrders} {TEXT : PolicyController.PolicyTexts}
  {BACK : Backend} {SOUND : PolicyEvaluate.SoundBackend BACK} (r : PolicyReconciler) (ControlNamespace : string).

(** Steps of the controllers and the users, and any request of the API. *)
Definition served (w w' : World) : Prop :=
  step r ControlNamespace w w' \/ exists req, w' = api req w.

(** The same without creations of deployments that have bindings. *)
Definition orderly (w w' : World) : Prop :=
  step r ControlNamespace w w' \/ exists req, ~ takes_over req w /\ w' = api req w.

Lemma orderly_ok w : rtc orderly empty_world w -> system_ok w.
Proof.
  assert (Hempty : system_ok empty_world) by (split_and!; [apply map_Forall_empty|split; apply map_Forall_empty|apply map_Forall_empty]).
  revert Hempty. generalize empty_world. intros w0 H0 Hw. induction Hw as [w0|w0 w1 w2 [Hs|(req & Hto & ->)] _ IH]; [done| |].
  - apply IH. by apply (step_ok r ControlNamespace w0).
  - apply IH. by apply api_keeps.
Qed.

Lemma handle_gds_ok e w : gds_ok (w_gds w) -> gds_ok (w_gds (handle r ControlNamespace e w)).
Proof.
  intros Hg. destruct e as [key|key|key|key|key|key| |d|ms|cs ss cms pols]; try done; cbn [handle].
  - by rewrite plan_call_quiet.
  - by rewrite (proj2 (binding_call_quiet ControlNamespace key w)).
  - by apply gds_ok_deployment_call.
  - by destruct (cluster_call_quiet key w) as (_ & _ & ->).
  - by destruct (policy_call_quiet r key w) as (_ & _ & ->).
  - by destruct (evaluation_quiet r key (set_timers (delete key) w)) as [_ ->].
Qed.

Lemma step_gds_ok w w' : step r ControlNamespace w w' -> gds_ok (w_gds w) -> gds_ok (w_gds w').
Proof.
  intros [w1 w2 (e & _ & ->)|w1 w2 Hu] Hg; [by apply handle_gds_ok|].
  destruct Hu as [p w0 Hnew Hf|key w0|gd w0 Hnew|key gd w0 Hgd Hf|key gd w0 Hgd Hf|key w0]; [done|done| | | |].
  - by apply map_Forall_insert_2.
  - apply map_Forall_insert_2; [exact (Hg _ _ Hgd)|done].
  - by apply map_Forall_delete.
  - by rewrite (preserves_delete_rb w_gds).
Qed.

Lemma served_gds_ok w : rtc served empty_world w -> gds_ok (w_gds w).
Proof.
  assert (Hempty : gds_ok (w_gds empty_world)) by apply map_Forall_empty.
  revert Hempty. generalize empty_world. intros w0 H0 Hw. induction Hw as [w0|w0 w1 w2 [Hs|(req & ->)] _ IH]; [done| |].
  - apply IH. by apply (step_gds_ok w0).
  - apply IH. by apply api_gds_ok.
Qed.

(** C2: However the controllers' calls, the users and the requests of the API interleave,
    and whatever requests to the clusters fail: a request of the API that does not create
    a deployment with bindings leaves no binding unprotected that was not so before, and
    as long as no such creation was handled every binding is protected. The creation of
    a deployment that has bindings, when nothing fails, leaves every one of them
    unprotected: it is not refused, and takes the deployment or its finalizer away. *)
Theorem only_creation_unprotects req w :
  rtc served empty_world w ->
  (~ takes_over req w -> forall k, unprotected (api req w) k -> unprotected w k) /\
  (rtc orderly empty_world w -> forall k, ~ unprotected w k) /\
  ((forall n, fault n = None) -> forall key dep, created_by req = Some (key, dep) ->
     forall k b, w_rbs w !! k = Some b -> ref_key b = key -> unprotected (api req w) k).
Proof.
  intros Hg%served_gds_ok. split_and!.
  - intros Hto k. by apply api_protects.
  - intros (_ & Hok & _)%orderly_ok k (b & Hb & Hnot). by destruct (bindings_ok_lookup _ _ _ _ Hok Hb) as (_ & [_ Hr] & _).
  - intros Hno key dep Hc k b Hb Href. destruct req as [| | | | |d| | | | | | | | | | |]; try done. cbn [api].
    assert (Hq := quiet_creation d w). injection Hq as _ Hq. exists b. rewrite Hq. split; [done|].
    destruct (creation_gds d key dep w Hg Hc) as [[_ Hf]|[_ Hkey]]; [done|].
    intros (gd & Hgd & Hfin & _). rewrite Href in Hgd. destruct (Hkey _ Hgd) as [_ Hnil]. rewrite Hnil in Hfin. by apply elem_of_nil in Hfin.
Qed.
End whole.
End server.

(** ** A creation over a stored deployment *)

#[local] Existing Instances reliable_kube Ilp.plain_fmt PolicyController.any_loop_order PolicyController.plain_texts
  PolicyEvaluate.plain_decoders PolicyEvaluate.stub_backend PolicyEvaluate.stub_sound demo_lib.

Definition demo_creation (name : string) : api_request := ApiCreateGlobalDeployment (Ok name).

(** The deployment "web" has bindings: creating it again takes its finalizer, so its
    binding is unprotected, and stays so when the deployment "db" is created, which does
    no harm to any binding. *)
Lemma only_creation_unprotects_witness :
  let api := api "default" (NewOptimizationHandler (mkOptConfig "" "")) "" (fun s => Ok s) (fun _ => None) in
  let w := api (demo_creation "web") demo_world2 in
  unprotected w ("default", "web-rb-1") /\ ~ unprotected demo_world2 ("default", "web-rb-1") /\
  (forall k, unprotected (api (demo_creation "db") w) k -> unprotected w k) /\
  w_gds (api (demo_creation "db") w) !! ("default", "db") <> None.
Proof.
  cbv zeta.
  assert (Hreach : rtc (served "default" (NewOptimizationHandler (mkOptConfig "" "")) "" (fun s => Ok s) (fun _ => None)
    PolicyController.demo_reconciler "kube-system") empty_world demo_world2).
  { eapply rtc_subrel; [|exact demo_reachable2]. intros w w' Hs. by left. }
  split_and!.
  - destruct (w_rbs demo_world2 !! ("default", "web-rb-1")) as [b|] eqn:Hb; [|exfalso; revert Hb; vm_compute; discriminate].
    assert (Href : ref_key <$> w_rbs demo_world2 !! ("default", "web-rb-1") = Some ("default", "web")) by by_eval.
    rewrite Hb in Href.
    destruct (only_creation_unprotects _ _ _ _ _ _ _ (demo_creation "web") _ Hreach) as (_ & _ & Hun).
    apply (Hun (fun _ => eq_refl) ("default", "web") (mkYamlDeployment "Deployment" "web" "" (Some 3%Z) 1 (Some "{spec}")) ltac:(by_eval) _ b Hb).
    cbn in Href. congruence.
  - destruct (only_creation_unprotects _ _ _ _ _ _ _ (demo_creation "web") _ Hreach) as (_ & H & _). apply H.
    eapply rtc_subrel; [|exact demo_reachable2]. intros w w' Hs. by left.
  - destruct (only_creation_unprotects "default" (NewOptimizationHandler (mkOptConfig "" "")) "" (fun s => Ok s) (fun _ => None)
      PolicyController.demo_reconciler "kube-system" (demo_creation "db")
      (api "default" (NewOptimizationHandler (mkOptConfig "" "")) "" (fun s => Ok s) (fun _ => None) (demo_creation "web") demo_world2)) as (H & _).
    { eapply rtc_r; [exact Hreach|]. right. by eexists. }
    apply H. intros (key & dep & k & b & Hc & Hb & Href).
    assert (Hkey : key = ("default", "db")). { revert Hc. vm_compute. congruence. }
    assert (Hall : map_Forall (fun _ b => ref_key b <> ("default", "db"))
      (w_rbs (api "default" (NewOptimizationHandler (mkOptConfig "" "")) "" (fun s => Ok s) (fun _ => None) (demo_creation "web") demo_world2)));
      [|by apply (Hall k b Hb); rewrite Href].
    apply (bool_decide_eq_true_1 _). by_eval.
  - intros H. apply (f_equal (fun o => match o with None => true | Some _ => false end)) in H. revert H. vm_compute. discriminate.
Defined.
