(* ===== verification/Router.v ===== *)
(** * The routes of the REST server
    (server/internal/api/router.go, the Register functions of the handlers,
    server/internal/config/config.go, cmd/server/main.go)

    A request of HTTP goes to the handler of its route; the state of the server is
    the Kubernetes environment and etcd. *)

From S2P Require Import Prelude OptErrors Objective GoTime GoText ApiTypes KubeApi MemberClients Scheduler.
From S2P Require Import Profiles PolicyInputs ServerBase ServerKube ClusterHandler DeploymentHandler OptimizationHandler.
From S2P Require Import KvHandler System ServerSystem.

Local Open Scope string_scope.
Local Open Scope list_scope.

(** ** Configuration *)

Record EtcdConfig := mkEtcdConfig { Endpoints : list string; Etcd_Prefix : string; DialTimeoutSeconds : Z }.
Record ClusterCRDConfig := mkCRDConfig { CRD_Group : string; CRD_Version : string; CRD_Plural : string }.
Record KubernetesConfig := mkKubernetesConfig {
  KubeconfigPath : string;
  Kube_Namespace : string;
  ClusterCRD : ClusterCRDConfig
}.
Record Config := mkConfig {
  ServerAddr : string;
  LogLevel : string;
  Cfg_Etcd : EtcdConfig;
  Cfg_Kubernetes : KubernetesConfig
}.

(** viper: what the environment or the configuration file sets for a key, and the
    error of decoding it. *)
Class Viper := {
  set_string : string -> option string;
  set_strings : string -> option (list string);
  set_int : string -> option Z;
  decode_error : option string
}.

(** [func Load() (Config, error)]. *)
Definition Load {VIPER : Viper} : result string Config :=
  match decode_error with
  | Some text => Err text
  | None =>
      Ok (mkConfig (default ":8080" (set_string "server_addr")) (default "info" (set_string "log_level"))
            (mkEtcdConfig (default ["http://localhost:2379"] (set_strings "etcd.endpoints"))
               (default "/kubex" (set_string "etcd.prefix")) (default 5%Z (set_int "etcd.dial_timeout_seconds")))
            (mkKubernetesConfig (default "" (set_string "kubernetes.kubeconfig"))
               (default "kubex-system" (set_string "kubernetes.namespace"))
               (mkCRDConfig (default "core.kubex.io" (set_string "kubernetes.cluster_crd.group"))
                  (default "v1alpha1" (set_string "kubernetes.cluster_crd.version"))
                  (default "clusters" (set_string "kubernetes.cluster_crd.plural")))))
  end.

(** What [main] gives the handlers: the store, the namespace of the clusters and
    deployments, the configuration of the optimization handlers. *)
Record Dependencies := mkDependencies {
  Dep_KV : KVStore;
  Dep_Endpoints : list string;
  Dep_Namespace : string;
  Dep_Optimization : OptimizationHandlerConfig
}.
Definition main_dependencies (cfg : Config) : Dependencies :=
  let ns := Kube_Namespace (Cfg_Kubernetes cfg) in
  mkDependencies (mkKVStore (Etcd_Prefix (Cfg_Etcd cfg))) (Endpoints (Cfg_Etcd cfg)) ns
    (NewOptimizationHandler (mkOptConfig ns ns)).

(** ** Routes *)

(** The handlers by name. *)
Inductive target :=
| Healthz | Readyz
| KvCreate | KvGet | KvUpdate | KvDelete
| ImportCluster_route | ListClusters_route | GetCluster_route | DeleteClusters_route | UpdateCluster_route
| CreateGlobalDeployment_route | GetGlobalDeployment_route | ListGlobalDeployments_route | DeleteGlobalDeployment_route
| ListOptimizationPolicies_route | GetOptimizationPolicy_route | CreateOptimizationPolicy_route
| UpdateOptimizationPolicy_route | DeleteOptimizationPolicy_route
| ListReOrchestrationPlans_route | GetReOrchestrationPlan_route | ListTopologyConfigs_route.

(** A route: method, path, handler. *)
Definition route : Type := string * string * target.

(** The [Register] functions. *)
Definition KVHandler_Register : list route :=
  [("POST", "/kv", KvCreate); ("GET", "/kv/:key", KvGet); ("PUT", "/kv/:key", KvUpdate); ("DELETE", "/kv/:key", KvDelete)].
Definition ClusterHandler_Register : list route :=
  [("POST", "/ImportCluster", ImportCluster_route); ("GET", "/ListClusters", ListClusters_route);
   ("GET", "/GetCluster", GetCluster_route); ("POST", "/DeleteClusters", DeleteClusters_route);
   ("POST", "/UpdateCluster", UpdateCluster_route)].
Definition GlobalDeploymentHandler_Register : list route :=
  [("POST", "/CreateGlobalDeployment", CreateGlobalDeployment_route); ("POST", "/GetGlobalDeployment", GetGlobalDeployment_route);
   ("POST", "/ListGlobalDeployments", ListGlobalDeployments_route); ("POST", "/DeleteGlobalDeployment", DeleteGlobalDeployment_route)].
Definition OptimizationHandler_Register : list route :=
  [("POST", "/ListOptimizationPolicies", ListOptimizationPolicies_route); ("POST", "/GetOptimizationPolicy", GetOptimizationPolicy_route);
   ("POST", "/CreateOptimizationPolicy", CreateOptimizationPolicy_route); ("POST", "/UpdateOptimizationPolicy", UpdateOptimizationPolicy_route);
   ("POST", "/DeleteOptimizationPolicy", DeleteOptimizationPolicy_route);
   ("POST", "/ListReOrchestrationPlans", ListReOrchestrationPlans_route); ("POST", "/GetReOrchestrationPlan", GetReOrchestrationPlan_route);
   ("POST", "/ListTopologyConfigs", ListTopologyConfigs_route)].

(** [func NewRouter(dep) *gin.Engine]: the table of its routes. *)
Definition Group (prefix : string) (routes : list route) : list route :=
  (fun r => (r.1.1, prefix +:+ r.1.2, r.2)) <$> routes.
Definition NewRouter : list route :=
  [("GET", "/healthz", Healthz); ("GET", "/readyz", Readyz)] ++
  Group "/api/v1" (KVHandler_Register ++ ClusterHandler_Register ++ GlobalDeploymentHandler_Register ++
                   OptimizationHandler_Register).

(** ** Matching *)

(** A path between its slashes; a segment [:name] of a route stands for any segment
    that is not empty. *)
Definition segments (path : string) : list string := split_on "/"%char path.
Definition is_param (segment : string) : bool := has_prefix segment ":".
Fixpoint matches (pattern path : list string) : option (list string) :=
  match pattern, path with
  | [], [] => Some []
  | p :: pattern', s :: path' =>
      if is_param p then if str_empty s then None else cons s <$> matches pattern' path'
      else if String.eqb p s then matches pattern' path' else None
  | _, _ => None
  end.

(** Two routes that match one request; gin refuses such a table. *)
Fixpoint overlap (p q : list string) : bool :=
  match p, q with
  | [], [] => true
  | a :: p', b :: q' => (is_param a || is_param b || String.eqb a b) && overlap p' q'
  | _, _ => false
  end.
Definition route_overlap (r r' : route) : bool :=
  String.eqb r.1.1 r'.1.1 && overlap (segments r.1.2) (segments r'.1.2).
Fixpoint unambiguous (table : list route) : bool :=
  match table with
  | [] => true
  | r :: table' => negb (existsb (route_overlap r) table') && unambiguous table'
  end.

(** gin: a request goes to the handler of the route it matches, on its decoded path,
    with the values of the parameters; without one gin answers itself. *)
Class Gin := {
  gin_find : list route -> string -> string -> option (target * list string);
  gin_find_spec : forall table method path t values, unambiguous table = true ->
    gin_find table method path = Some (t, values) <->
    exists pattern, (method, pattern, t) ∈ table /\ matches (segments pattern) (segments path) = Some values
}.

(** ** Requests *)

Record HttpRequest := mkHttp { Http_Method : string; Http_Path : string; Http_Query : string; Http_Body : string }.

(** gin's binding of a query and encoding/json: the request of a handler, or the text
    of the error. *)
Class Decoders := {
  json_ImportCluster : string -> result string ImportClusterRequest;
  json_UpdateCluster : string -> result string UpdateClusterRequest;
  json_DeleteClusters : string -> result string DeleteClustersRequest;
  query_GetCluster : string -> result string string;
  query_ListClusters : string -> result string ListClustersRequest;
  json_yaml : string -> result string string;
  json_GlobalDeployment : string -> result string GlobalDeploymentRequest;
  json_ListGlobalDeployments : string -> result string ListGlobalDeploymentsRequest;
  json_ListPolicies : string -> result string ListOptimizationPoliciesRequest;
  json_Named : string -> result string NamedRequest;
  json_Policy : string -> result string (option OptimizationPolicy);
  json_ListPlans : string -> result string ListReOrchestrationPlansRequest;
  json_Topology : string -> result string string;
  json_kv : string -> result string (string * string);
  json_kv_value : string -> result string string
}.

(** What a request asks of the server: a probe, the key-value store, or the
    Kubernetes API. *)
Inductive asked :=
| AskHealth
| AskReady
| AskKv (req : kv_request)
| AskApi (req : api_request).

Section decoded.
Context {DECODE : Decoders}.

(** The handler of a route on a request ([ShouldBindJSON], [ShouldBindQuery],
    [c.Param("key")]). *)
Definition asks (t : target) (values : list string) (http : HttpRequest) : asked :=
  let body := Http_Body http in
  let query := Http_Query http in
  let key := default "" (head values) in
  match t with
  | Healthz => AskHealth
  | Readyz => AskReady
  | KvCreate => AskKv (PostKv (json_kv body))
  | KvGet => AskKv (GetKv key)
  | KvUpdate => AskKv (PutKv key (json_kv_value body))
  | KvDelete => AskKv (DeleteKv key)
  | ImportCluster_route => AskApi (ApiImportCluster (json_ImportCluster body))
  | ListClusters_route => AskApi (ApiListClusters (query_ListClusters query))
  | GetCluster_route => AskApi (ApiGetCluster (query_GetCluster query))
  | DeleteClusters_route => AskApi (ApiDeleteClusters (json_DeleteClusters body))
  | UpdateCluster_route => AskApi (ApiUpdateCluster (json_UpdateCluster body))
  | CreateGlobalDeployment_route => AskApi (ApiCreateGlobalDeployment (json_yaml body))
  | GetGlobalDeployment_route => AskApi (ApiGetGlobalDeployment (json_GlobalDeployment body))
  | ListGlobalDeployments_route => AskApi (ApiListGlobalDeployments (json_ListGlobalDeployments body))
  | DeleteGlobalDeployment_route => AskApi (ApiDeleteGlobalDeployment (json_GlobalDeployment body))
  | ListOptimizationPolicies_route => AskApi (ApiListOptimizationPolicies (json_ListPolicies body))
  | GetOptimizationPolicy_route => AskApi (ApiGetOptimizationPolicy (json_Named body))
  | CreateOptimizationPolicy_route => AskApi (ApiCreateOptimizationPolicy (json_Policy body))
  | UpdateOptimizationPolicy_route => AskApi (ApiUpdateOptimizationPolicy (json_Policy body))
  | DeleteOptimizationPolicy_route => AskApi (ApiDeleteOptimizationPolicy (json_Named body))
  | ListReOrchestrationPlans_route => AskApi (ApiListReOrchestrationPlans (json_ListPlans body))
  | GetReOrchestrationPlan_route => AskApi (ApiGetReOrchestrationPlan (json_Named body))
  | ListTopologyConfigs_route => AskApi (ApiListTopologyConfigs (json_Topology body))
  end.
End decoded.

(** ** Answers *)

Definition StatusServiceUnavailable : Z := 503.
Definition status_of {A} (r : Response A) : Z :=
  match r with Reply code _ => code | Failure code _ => code | Recovered => StatusInternalServerError end.

(** The status of a response, of the server's own handlers; or gin answers, without a
    handler; or a handler ends without a response. *)
Inductive http_answer := ByGin | Status (code : Z) | NoAnswer.

Record ServerState := mkServer { srv_world : World; srv_etcd : Etcd }.

Section server.
Context {KUBE : KubeLib} {SORT : GoSort} {FMT : GoFmt} {LIB : ServerLib} {FAULTS : EtcdFaults} {DECODE : Decoders} {GIN : Gin}.
Context (dep : Dependencies) (kubeconfig_env : string) (BuildConfigFromFlags : string -> result api_error string)
  (configmap_created : Key -> Time).

Definition answered {A} (m : M (Response A)) : M Z := r ← m; mret (status_of r).

(** The handlers of the Kubernetes API, with their status. *)
Definition api_answer (req : api_request) : M Z :=
  let ns := Dep_Namespace dep in
  let cfg := Dep_Optimization dep in
  match req with
  | ApiImportCluster d => answered (ImportCluster ns d)
  | ApiUpdateCluster d => answered (UpdateCluster ns d)
  | ApiDeleteClusters d => answered (DeleteClusters ns d)
  | ApiGetCluster d => answered (GetCluster ns d)
  | ApiListClusters d => answered (ListClusters ns d)
  | ApiCreateGlobalDeployment d => answered (CreateGlobalDeployment ns d)
  | ApiGetGlobalDeployment d => answered (GetGlobalDeployment ns d)
  | ApiListGlobalDeployments d => answered (ListGlobalDeployments ns d)
  | ApiDeleteGlobalDeployment d => answered (DeleteGlobalDeployment ns d)
  | ApiListOptimizationPolicies d => answered (ListOptimizationPolicies cfg d)
  | ApiGetOptimizationPolicy d => answered (GetOptimizationPolicy cfg d)
  | ApiCreateOptimizationPolicy d => answered (CreateOptimizationPolicy cfg d)
  | ApiUpdateOptimizationPolicy d => answered (UpdateOptimizationPolicy cfg d)
  | ApiDeleteOptimizationPolicy d => answered (DeleteOptimizationPolicy cfg d)
  | ApiListReOrchestrationPlans d => answered (ListReOrchestrationPlans cfg d)
  | ApiGetReOrchestrationPlan d => answered (GetReOrchestrationPlan cfg d)
  | ApiListTopologyConfigs d =>
      answered (ListTopologyConfigs cfg kubeconfig_env BuildConfigFromFlags configmap_created d)
  end.

(** The probe [/readyz]. *)
Definition readyz (s : Etcd) : Etcd * Z :=
  match Dep_Endpoints dep with
  | [] => (s, StatusServiceUnavailable)
  | _ =>
      match etcd_request None (fun _ => tt) s with
      | (s', None) => (s', StatusServiceUnavailable)
      | (s', Some _) => (s', StatusOK)
      end
  end.

(** One request. *)
Definition serve_asked (a : asked) (s : ServerState) : ServerState * http_answer :=
  match a with
  | AskHealth => (s, Status StatusOK)
  | AskReady => let '(e, code) := readyz (srv_etcd s) in (mkServer (srv_world s) e, Status code)
  | AskKv req =>
      let '(e, r) := serve (Dep_KV dep) req (srv_etcd s) in (mkServer (srv_world s) e, Status (status_of r))
  | AskApi req =>
      let '(w, r) := api_answer req (srv_world s) in
      (mkServer w (srv_etcd s), match r with Ok code => Status code | Err _ => NoAnswer end)
  end.
Definition routed (http : HttpRequest) : option asked :=
  match gin_find NewRouter (Http_Method http) (Http_Path http) with
  | None => None
  | Some (t, values) => Some (asks t values http)
  end.
Definition serve_http (http : HttpRequest) (s : ServerState) : ServerState * http_answer :=
  match routed http with None => (s, ByGin) | Some a => serve_asked a s end.
Fixpoint serve_https (https : list HttpRequest) (s : ServerState) : ServerState :=
  match https with [] => s | http :: rest => serve_https rest (serve_http http s).1 end.

(** The environment after a request of the API is the one of ServerSystem. *)
Lemma answered_world {A} (m : M (Response A)) w : (answered m w).1 = (m w).1.
Proof. unfold answered. rewrite bind_run. by destruct (m w) as [w' []]. Qed.
Lemma api_answer_world req w :
  (api_answer req w).1 = api (Dep_Namespace dep) (Dep_Optimization dep) kubeconfig_env BuildConfigFromFlags configmap_created req w.
Proof. destruct req; apply answered_world. Qed.

(** A request of HTTP works on the environment as the request of the API it is routed
    to, or leaves it alone. *)
Lemma http_is_api http s :
  srv_world (serve_http http s).1 = srv_world s \/
  exists req, routed http = Some (AskApi req) /\ srv_etcd (serve_http http s).1 = srv_etcd s /\
    srv_world (serve_http http s).1 =
      api (Dep_Namespace dep) (Dep_Optimization dep) kubeconfig_env BuildConfigFromFlags configmap_created req (srv_world s).
Proof.
  unfold serve_http. destruct (routed http) as [[| |req|req]|]; cbn [serve_asked]; [by left| | | |by left].
  - left. by destruct (readyz (srv_etcd s)).
  - left. by destruct (serve (Dep_KV dep) req (srv_etcd s)).
  - right. exists req. rewrite <- api_answer_world. by destruct (api_answer req (srv_world s)).
Qed.

(** The table is one gin accepts. *)
Lemma NewRouter_unambiguous : unambiguous NewRouter = true.
Proof. by_eval. Qed.

(** ** What every answer is *)

Definition codes : list Z := [200; 201; 204; 400; 404; 409; 500; 503]%Z.

(** What is stored, in the control cluster and in the member clusters. *)
Definition objects (w : World) :=
  (w_plans w, w_rbs w, w_gds w, w_clusters w, w_secrets w, w_members w, w_policy w).

(** A handler answers with a known status, and with 400 only while nothing has been
    written: [clean] says that nothing has been before. *)
Definition proper {A} (clean : bool) (m : M (Response A)) : Prop :=
  forall w, exists r, (m w).2 = Ok r /\ status_of r ∈ codes /\
    (status_of r = StatusBadRequest -> clean = true /\ objects (m w).1 = objects w).

(** A computation that cannot fail. *)
Definition returns {A} (m : M A) : Prop := forall w, exists a, (m w).2 = Ok a.

Lemma returns_ret {A} (a : A) : returns (mret a).
Proof. intros w. by exists a. Qed.
Lemma returns_attempt {A} (m : M A) : returns (attempt m).
Proof. intros w. unfold attempt. destruct (m w) as [w' r]. by exists r. Qed.
Lemma returns_ignore {A} (m : M A) : returns (ignore m).
Proof. intros w. by exists tt. Qed.
Lemma returns_bind {A B} (m : M A) (f : A -> M B) : returns m -> (forall a, returns (f a)) -> returns (m ≫= f).
Proof. intros Hm Hf w. destruct (Hm w) as [a Ha]. rewrite bind_run. destruct (m w) as [w' r]. cbn in Ha. subst r. apply Hf. Qed.
Lemma returns_for_each {A} (f : A -> M unit) l : (forall a, returns (f a)) -> returns (for_each f l).
Proof. intros Hf. induction l as [|a l IH]; [apply returns_ret|]. apply returns_bind; auto. Qed.

Section proper.
Context {A B : Type}.
Implicit Types (f : B -> M (Response A)).

(** Both conditions, decided. *)
Definition known_code (clean : bool) (code : Z) : bool :=
  existsb (Z.eqb code) codes && (clean || negb (code =? StatusBadRequest)%Z).
Lemma proper_ret clean (r : Response A) : known_code clean (status_of r) = true -> proper clean (mret r).
Proof.
  intros [H1 H2]%andb_prop w. apply existsb_exists in H1 as (c & Hc & Heq%Z.eqb_eq). exists r. rewrite Heq in H2 |- *.
  split_and!; [done|by apply list_elem_of_In|]. intros ->. split; [|done]. by destruct clean.
Qed.

Lemma proper_quiet clean (m : M B) f :
  returns m -> preserves objects m -> (forall b, proper clean (f b)) -> proper clean (m ≫= f).
Proof.
  intros Hr Hq Hf w. destruct (Hr w) as [b Hb]. specialize (Hq w). rewrite bind_run. destruct (m w) as [w' r].
  cbn in Hb, Hq. subst r. destruct (Hf b w') as (x & Hx & Hc & H400). exists x. split_and!; [done|done|].
  intros H. destruct (H400 H) as [H1 H2]. split; [done|by rewrite H2].
Qed.
Lemma proper_write clean (m : M B) f : returns m -> (forall b, proper false (f b)) -> proper clean (m ≫= f).
Proof.
  intros Hr Hf w. destruct (Hr w) as [b Hb]. rewrite bind_run. destruct (m w) as [w' r]. cbn in Hb. subst r.
  destruct (Hf b w') as (x & Hx & Hc & H400). exists x. split_and!; [done|done|].
  intros H. by destruct (H400 H) as [H1 _].
Qed.
End proper.

Lemma proper_bound {A B} missing (d : result string A) (h : A -> M (Response B)) :
  (forall a, proper true (h a)) -> proper true (bound missing d h).
Proof.
  intros Hh. unfold bound. destruct (bind missing d); [apply Hh|]. by apply proper_ret.
Qed.

(** A handler: its case analyses, its reads, its writes, its answers. *)
Ltac proper_handler :=
  repeat match goal with
  | |- proper _ (match ?x with _ => _ end) => destruct x
  | |- proper _ (let _ := _ in _) => cbv zeta
  | |- proper _ (mret _) => apply proper_ret; repeat case_match; reflexivity
  | |- proper _ (attempt (get_object _ _) ≫= _) => apply proper_quiet; [apply returns_attempt|by quiet|intros ?]
  | |- proper _ (attempt (list_objects _ _) ≫= _) => apply proper_quiet; [apply returns_attempt|by quiet|intros ?]
  | |- proper _ (attempt _ ≫= _) => apply proper_write; [apply returns_attempt|intros ?]
  end.

Lemma proper_page {A B} clean (page : option (list A)) (body : list A -> B) : proper clean (mret (reply_page page body)).
Proof. apply proper_ret. by destruct page, clean. Qed.

Lemma proper_clusters ns d1 d2 d3 d4 d5 :
  proper true (ImportCluster ns d1) /\ proper true (UpdateCluster ns d2) /\ proper true (DeleteClusters ns d3) /\
  proper true (GetCluster ns d4) /\ proper true (ListClusters ns d5).
Proof.
  split_and!; apply proper_bound; intros req.
  - unfold ImportCluster_bound, draw_uuid. apply proper_quiet; [|by intros w|].
    + intros w. by eexists.
    + intros id. proper_handler.
  - unfold UpdateCluster_bound. proper_handler.
  - unfold DeleteClusters_bound. destruct (clean_ids _) as [|id ids]; [proper_handler|].
    apply proper_write; [|intros; proper_handler]. generalize (id :: ids), (mkDeleted [] [] ""). clear.
    intros ids. induction ids as [|id ids IH]; intros resp; [apply returns_ret|]. cbn [delete_all].
    apply returns_bind; [|apply IH]. unfold delete_one. apply returns_bind; [apply returns_attempt|].
    intros []; apply returns_ret.
  - unfold GetCluster_bound. proper_handler.
  - unfold ListClusters_bound. proper_handler. apply proper_page.
Qed.

Lemma returns_show_bindings ns gd l cache : returns (show_bindings ns gd cache l).
Proof.
  revert cache. induction l as [|rb l IH]; intros cache; [apply returns_ret|]. cbn [show_bindings].
  destruct (refers_to _ _); [|apply IH].
  apply returns_bind; [|intros; apply returns_bind; [apply IH|intros; apply returns_ret]].
  unfold cluster_name. destruct (str_empty _); [apply returns_ret|]. destruct (cache !! _); [apply returns_ret|].
  apply returns_bind; [apply returns_attempt|intros; apply returns_ret].
Qed.

Lemma proper_deployments ns d1 d2 d3 d4 :
  proper true (CreateGlobalDeployment ns d1) /\ proper true (GetGlobalDeployment ns d2) /\
  proper true (ListGlobalDeployments ns d3) /\ proper true (DeleteGlobalDeployment ns d4).
Proof.
  split_and!; apply proper_bound; intros req.
  - unfold CreateGlobalDeployment_bound. proper_handler.
  - unfold GetGlobalDeployment_bound. proper_handler. apply proper_write; [apply returns_show_bindings|intros; proper_handler].
  - unfold ListGlobalDeployments_bound. proper_handler. apply proper_page.
  - unfold DeleteGlobalDeployment_bound. proper_handler. apply proper_write; [|intros; proper_handler].
    apply returns_for_each. intros rb. unfold delete_replica. destruct (negb _); [apply returns_ret|].
    apply returns_bind; [|intros; apply returns_ignore]. destruct (str_empty _); [apply returns_ret|apply returns_ignore].
Qed.

Lemma proper_policies cfg d1 d2 d3 d4 create :
  proper true (ListOptimizationPolicies cfg d1) /\ proper true (GetOptimizationPolicy cfg d2) /\
  proper true (applyOptimizationPolicy cfg create d3) /\ proper true (DeleteOptimizationPolicy cfg d4).
Proof.
  split_and!; apply proper_bound; intros req;
    unfold ListOptimizationPolicies_bound, GetOptimizationPolicy_bound, apply_bound, DeleteOptimizationPolicy_bound;
    proper_handler; apply proper_page.
Qed.
Lemma proper_plans cfg d1 d2 d3 :
  proper true (ListReOrchestrationPlans cfg d1) /\ proper true (GetReOrchestrationPlan cfg d2) /\
  proper true (ListTopologyConfigs cfg kubeconfig_env BuildConfigFromFlags configmap_created d3).
Proof.
  split_and!; apply proper_bound; intros req;
    unfold ListReOrchestrationPlans_bound, GetReOrchestrationPlan_bound, ListTopologyConfigs_bound;
    proper_handler; apply proper_page.
Qed.

Lemma proper_api req w :
  exists code, (api_answer req w).2 = Ok code /\ code ∈ codes /\
    (code = StatusBadRequest -> objects (api_answer req w).1 = objects w).
Proof.
  assert (Hm : forall A (m : M (Response A)), proper true m ->
    exists code, (answered m w).2 = Ok code /\ code ∈ codes /\ (code = StatusBadRequest -> objects (answered m w).1 = objects w)).
  { intros A m Hm. destruct (Hm w) as (r & Hr & Hc & H400). rewrite answered_world. exists (status_of r).
    split_and!; [|done|intros H; by destruct (H400 H)]. unfold answered. rewrite bind_run. destruct (m w) as [w' res]. cbn in Hr. by subst res. }
  destruct req as [d|d|d|d|d|d|d|d|d|d|d|d|d|d|d|d|d]; cbn [api_answer]; apply Hm;
    first
      [ apply (proper_clusters (Dep_Namespace dep) d (Err "") (Err "") (Err "") (Err ""))
      | apply (proper_clusters (Dep_Namespace dep) (Err "") d (Err "") (Err "") (Err ""))
      | apply (proper_clusters (Dep_Namespace dep) (Err "") (Err "") d (Err "") (Err ""))
      | apply (proper_clusters (Dep_Namespace dep) (Err "") (Err "") (Err "") d (Err ""))
      | apply (proper_clusters (Dep_Namespace dep) (Err "") (Err "") (Err "") (Err "") d)
      | apply (proper_deployments (Dep_Namespace dep) d (Err "") (Err "") (Err ""))
      | apply (proper_deployments (Dep_Namespace dep) (Err "") d (Err "") (Err ""))
      | apply (proper_deployments (Dep_Namespace dep) (Err "") (Err "") d (Err ""))
      | apply (proper_deployments (Dep_Namespace dep) (Err "") (Err "") (Err "") d)
      | apply (proper_policies (Dep_Optimization dep) d (Err "") (Err "") (Err "") true)
      | apply (proper_policies (Dep_Optimization dep) (Err "") d (Err "") (Err "") true)
      | apply (proper_policies (Dep_Optimization dep) (Err "") (Err "") d (Err "") true)
      | apply (proper_policies (Dep_Optimization dep) (Err "") (Err "") d (Err "") false)
      | apply (proper_policies (Dep_Optimization dep) (Err "") (Err "") (Err "") d true)
      | apply (proper_plans (Dep_Optimization dep) d (Err "") (Err ""))
      | apply (proper_plans (Dep_Optimization dep) (Err "") d (Err ""))
      | apply (proper_plans (Dep_Optimization dep) (Err "") (Err "") d) ].
Qed.

(** C28: Every request is answered, with one of the statuses 200, 201, 204, 400, 404, 409,
    500 and 503, or, when no route matches it, by gin without any effect; a request
    answered with 400 has changed nothing that is stored, in the clusters or in
    etcd. *)
Theorem http_answers http s :
  let '(s', a) := serve_http http s in
  match a with
  | ByGin => s' = s /\ forall pattern t, (Http_Method http, pattern, t) ∈ NewRouter ->
      matches (segments pattern) (segments (Http_Path http)) = None
  | Status code => code ∈ codes /\
      (code = StatusBadRequest -> objects (srv_world s') = objects (srv_world s) /\ srv_etcd s' = srv_etcd s)
  | NoAnswer => False
  end.
Proof.
  assert (Hknown : forall code (P : Prop), known_code false code = true -> code ∈ codes /\ (code = StatusBadRequest -> P)).
  { intros code P [H1 H2]%andb_prop. apply existsb_exists in H1 as (c & Hc & ->%Z.eqb_eq). split; [by apply list_elem_of_In|].
    intros ->. done. }
  unfold serve_http. destruct (routed http) as [a|] eqn:Hrouted.
  2: { split; [done|]. intros pattern t Hin. destruct (matches _ _) as [values|] eqn:Hm; [|done]. exfalso.
       unfold routed in Hrouted. rewrite (proj2 (gin_find_spec _ _ _ t values NewRouter_unambiguous)) in Hrouted; [done|by exists pattern]. }
  clear Hrouted. destruct a as [| |req|req]; cbn [serve_asked].
  - exact (Hknown 200%Z _ eq_refl).
  - unfold readyz. destruct (Dep_Endpoints dep); [exact (Hknown 503%Z _ eq_refl)|]. unfold etcd_request.
    destruct (take_effect _ _ _), (etcd_fault _); [exact (Hknown 503%Z _ eq_refl)|exact (Hknown 200%Z _ eq_refl)].
  - assert (H : status_of (serve (Dep_KV dep) req (srv_etcd s)).2 ∈ codes /\
      (status_of (serve (Dep_KV dep) req (srv_etcd s)).2 = StatusBadRequest ->
       (serve (Dep_KV dep) req (srv_etcd s)).1 = srv_etcd s)).
    { assert (Hcode : forall (r : Response kv_body) (e : Etcd), known_code true (status_of r) = true ->
        (status_of r <> StatusBadRequest \/ e = srv_etcd s) ->
        status_of r ∈ codes /\ (status_of r = StatusBadRequest -> e = srv_etcd s)).
      { intros r e [H1 _]%andb_prop He. apply existsb_exists in H1 as (c & Hc & Heq%Z.eqb_eq). rewrite Heq in He |- *.
        split; [by apply list_elem_of_In|]. intros ->. by destruct He as [| ->]. }
      apply Hcode; destruct req as [d|key|key d|key]; cbn [serve];
        unfold kv_create, kv_get, kv_update, kv_delete, Store_Put, Store_Get, Store_Delete, etcd_request;
        repeat case_match; simplify_eq/=; first [reflexivity|by right|by left]. }
    destruct (serve (Dep_KV dep) req (srv_etcd s)) as [e r]. destruct H as [H1 H2]. split; [done|]. intros H. split; [done|by apply H2].
  - assert (H := proper_api req (srv_world s)). destruct (api_answer req (srv_world s)) as [w r].
    destruct H as (code & Hr & Hc & H400). cbn in Hr. subst r. split; [done|]. intros H. split; [by apply H400|done].
Qed.

(** ** Keys with a slash *)

(** A parameter is one segment of the path. *)
Lemma split_on_part c x s : s ∈ split_on c x -> split_on c s = [s].
Proof.
  revert s. induction x as [|a x IH]; intros s; cbn; [by intros ->%list_elem_of_singleton|].
  destruct (Ascii.eqb a c) eqn:Hac; [intros [->|Hs]%elem_of_cons; [done|by apply IH]|].
  destruct (split_on c x) as [|part parts]; [intros ->%list_elem_of_singleton; cbn; by rewrite Hac|].
  intros [->|Hs]%elem_of_cons; [|apply IH; by apply list_elem_of_further].
  cbn. by rewrite Hac, (IH part (list_elem_of_here _ _)).
Qed.

Lemma matches_values pattern path values v : matches pattern path = Some values -> v ∈ values -> v ∈ path.
Proof.
  revert path values. induction pattern as [|p pattern IH]; intros [|x path] values; try done; cbn.
  { intros [= <-] Hv. by apply elem_of_nil in Hv. }
  destruct (is_param p).
  - destruct (str_empty x); [done|]. destruct (matches pattern path) as [vs|] eqn:Hm; [|done]. intros [= <-] [->|Hv]%elem_of_cons.
    + apply list_elem_of_here.
    + apply list_elem_of_further. by eapply IH.
  - destruct (String.eqb p x); [|done]. intros Hm Hv. apply list_elem_of_further. by eapply IH.
Qed.

Definition asked_key (a : asked) : option string :=
  match a with
  | AskKv (GetKv key) | AskKv (PutKv key _) | AskKv (DeleteKv key) => Some key
  | _ => None
  end.

Lemma routed_key http a key : routed http = Some a -> asked_key a = Some key -> segments key = [key].
Proof.
  unfold routed. destruct (gin_find _ _ _) as [[t values]|] eqn:Hfind; [|done]. intros [= <-] Hkey.
  apply (gin_find_spec _ _ _ _ _ NewRouter_unambiguous) in Hfind as (pattern & _ & Hm).
  assert (Hvalue : segments (default "" (head values)) = [default "" (head values)]).
  { destruct values as [|v values]; [done|]. cbn. apply (split_on_part _ (Http_Path http)).
    apply (matches_values _ _ _ v Hm), list_elem_of_here. }
  destruct t; cbn in Hkey; try done; injection Hkey as <-; exact Hvalue.
Qed.

(** A key is stored, and no failed deletion of it may still take effect. *)
Definition settled (s : Etcd) (k : string) : Prop :=
  is_Some (etcd_kv s !! store_key (Dep_KV dep) k) /\ EtcdDelete (store_key (Dep_KV dep) k) ∉ etcd_open s.

Lemma write_keeps wr full (m : gmap string string) : wr <> EtcdDelete full -> is_Some (m !! full) -> is_Some (write_etcd wr m !! full).
Proof.
  intros Hne Hm. destruct wr as [k v|k]; cbn.
  - destruct (decide (k = full)) as [->|Hn]; [rewrite lookup_insert_eq; by eexists|by rewrite lookup_insert_ne].
  - rewrite lookup_delete_ne; [done|]. intros ->. by apply Hne.
Qed.
Lemma take_effect_keeps late full m l :
  is_Some (m !! full) -> EtcdDelete full ∉ l ->
  is_Some ((take_effect late m l).1 !! full) /\ EtcdDelete full ∉ (take_effect late m l).2.
Proof.
  revert m l. induction late as [|i late IH]; intros m l Hm Hl; [done|]. cbn [take_effect].
  destruct (l !! i) as [wr|] eqn:Hi; [|by apply IH]. apply IH.
  - apply write_keeps; [|done]. intros ->. apply Hl. by apply list_elem_of_lookup_2 in Hi.
  - intros Hin. apply Hl. rewrite delete_take_drop in Hin. apply elem_of_app in Hin as [Hin|Hin].
    + apply elem_of_take in Hin as (j & Hj & _). by apply list_elem_of_lookup_2 in Hj.
    + apply list_elem_of_lookup_1 in Hin as [j Hj]. rewrite lookup_drop in Hj. by apply list_elem_of_lookup_2 in Hj.
Qed.
Lemma request_keeps {A} write (f : gmap string string -> A) s k :
  settled s k -> write <> Some (EtcdDelete (store_key (Dep_KV dep) k)) -> settled (etcd_request write f s).1 k.
Proof.
  intros [Hm Hl] Hne. unfold etcd_request.
  destruct (take_effect_keeps (etcd_late (etcd_requests s)) _ _ _ Hm Hl) as [Hm' Hl'].
  destruct (take_effect _ _ _) as [m l]. destruct (etcd_fault _); (split; cbn in *; [|]).
  - done.
  - destruct write as [wr|]; [|done]. intros [H|H%list_elem_of_singleton]%elem_of_app; [done|by apply Hne; rewrite H].
  - destruct write as [wr|]; [|done]. apply write_keeps; [|done]. intros ->. by apply Hne.
  - done.
Qed.

(** A stored key stays stored unless a request asks for its deletion. *)
Lemma serve_asked_keeps a s k :
  asked_key a <> Some k -> settled (srv_etcd s) k -> settled (srv_etcd (serve_asked a s).1) k.
Proof.
  intros Hne Hk. destruct a as [| |req|req]; cbn [serve_asked]; [done| | |].
  - unfold readyz. destruct (Dep_Endpoints dep); [done|].
    assert (H := request_keeps None (fun _ => tt) _ _ Hk). by destruct (etcd_request _ _ _) as [e [u|]]; apply H.
  - destruct req as [d|key|key d|key]; cbn [serve].
    + unfold kv_create, Store_Put. destruct (bind _ d) as [[key value]|]; [|done].
      assert (H := request_keeps (Some (EtcdPut (store_key (Dep_KV dep) key) value)) (fun _ => tt) _ _ Hk).
      by destruct (etcd_request _ _ _) as [e [u|]]; apply H.
    + unfold kv_get, Store_Get. assert (H := request_keeps None (fun m => m !! store_key (Dep_KV dep) key) _ _ Hk).
      by destruct (etcd_request _ _ _) as [e [[v|]|]]; apply H.
    + unfold kv_update, Store_Put. destruct (bind _ d) as [value|]; [|done].
      assert (H := request_keeps (Some (EtcdPut (store_key (Dep_KV dep) key) value)) (fun _ => tt) _ _ Hk).
      by destruct (etcd_request _ _ _) as [e [u|]]; apply H.
    + unfold kv_delete, Store_Delete.
      assert (H := request_keeps (Some (EtcdDelete (store_key (Dep_KV dep) key)))
        (fun m => bool_decide (is_Some (m !! store_key (Dep_KV dep) key))) _ _ Hk).
      destruct (etcd_request _ _ _) as [e [u|]]; (apply H; intros [= Heq]; apply Hne; cbn; f_equal; by eapply store_key_inj).
  - by destruct (api_answer req (srv_world s)).
Qed.

(** The key of a value may hold a slash, but a route parameter is one segment of the
    path: a key with a slash is accepted by POST with 201, no request reads,
    changes or deletes it by its name, and once stored it stays, whatever requests
    follow. *)
Theorem slashed_keys_stay k s :
  segments k <> [k] ->
  (forall http value, Http_Method http = "POST" -> Http_Path http = "/api/v1/kv" ->
     json_kv (Http_Body http) = Ok (k, value) -> value <> "" -> etcd_fault (etcd_requests (srv_etcd s)) = false ->
     (serve_http http s).2 = Status StatusCreated /\
     etcd_kv (srv_etcd (serve_http http s).1) !! store_key (Dep_KV dep) k = Some value) /\
  (forall http, (asked_key <$> routed http) <> Some (Some k)) /\
  (settled (srv_etcd s) k -> forall https, settled (srv_etcd (serve_https https s)) k).
Proof.
  intros Hk. assert (Hrouted : forall http, (asked_key <$> routed http) <> Some (Some k)).
  { intros http H. destruct (routed http) as [a|] eqn:Ha; [|done]. injection H as H. by apply Hk, (routed_key http a). }
  split_and!; [|exact Hrouted|].
  - intros http value Hm Hp Hj Hv Hf. unfold serve_http, routed.
    rewrite (proj2 (gin_find_spec NewRouter (Http_Method http) (Http_Path http) KvCreate [] NewRouter_unambiguous)).
    2: { exists "/api/v1/kv". rewrite Hm, Hp. split; [|by_eval]. apply list_elem_of_In. cbn. auto. }
    cbn [asks serve_asked serve]. unfold kv_create, bind. rewrite Hj. unfold Store_Put, etcd_request.
    destruct (take_effect _ _ _) as [m l]. rewrite Hf. assert (Hkey : k <> "") by (intros ->; by apply Hk).
    destruct k as [|a k]; [done|]. destruct value as [|b value]; [done|]. cbn. split; [done|]. apply lookup_insert_eq.
  - intros Hs https. revert s Hs. induction https as [|http https IH]; intros s Hs; [done|]. cbn [serve_https]. apply IH.
    unfold serve_http. destruct (routed http) as [a|] eqn:Ha; [|done]. apply serve_asked_keeps; [|done].
    intros H. apply (Hrouted http). rewrite Ha. cbn. by rewrite H.
Qed.
End server.

(** ** A router *)

Lemma matches_tail a p s x vp : matches (a :: p) (s :: x) = Some vp -> exists vp', matches p x = Some vp'.
Proof.
  cbn. destruct (is_param a).
  - destruct (str_empty s); [done|]. destruct (matches p x) as [v|]; [|done]. by exists v.
  - destruct (String.eqb a s); [|done]. by exists vp.
Qed.
Lemma matches_overlap p q x vp vq : matches p x = Some vp -> matches q x = Some vq -> overlap p q = true.
Proof.
  revert q x vp vq. induction p as [|a p IH]; intros [|b q] [|s x] vp vq; try done. cbn. intros Hp Hq.
  apply andb_true_intro. split.
  - destruct (is_param a); [done|]. destruct (is_param b); [done|]. cbn.
    destruct (String.eqb_spec a s) as [->|]; [|done]. destruct (String.eqb_spec b s) as [->|]; [|done]. apply String.eqb_refl.
  - destruct (matches_tail a p s x vp Hp) as [vp' Hp'], (matches_tail b q s x vq Hq) as [vq' Hq']. by eapply IH.
Qed.

(** The first route that matches. *)
Fixpoint first_match (table : list route) (method path : string) : option (target * list string) :=
  match table with
  | [] => None
  | r :: table' =>
      if String.eqb r.1.1 method then
        match matches (segments r.1.2) (segments path) with
        | Some values => Some (r.2, values)
        | None => first_match table' method path
        end
      else first_match table' method path
  end.

Definition first_match_gin : Gin.
Proof.
  refine {| gin_find := first_match |}. intros table method path t values Hu. induction table as [|[[m pattern] t'] table IH].
  { split; [done|]. intros (pattern & Hin & _). by apply elem_of_nil in Hin. }
  cbn in Hu. apply andb_prop in Hu as [Hu1 Hu2]. specialize (IH Hu2). cbn [first_match fst snd].
  assert (Hrest : forall pattern', (method, pattern', t) ∈ table -> matches (segments pattern') (segments path) = Some values ->
    m = method -> matches (segments pattern) (segments path) = None).
  { intros pattern' Hin Hm ->. destruct (matches (segments pattern) (segments path)) as [vs|] eqn:Hp; [|done]. exfalso.
    apply negb_true_iff in Hu1. rewrite <- not_true_iff_false in Hu1. apply Hu1, existsb_exists.
    exists (method, pattern', t). split; [by apply list_elem_of_In|]. unfold route_overlap. cbn.
    rewrite String.eqb_refl. cbn. by eapply matches_overlap. }
  destruct (String.eqb_spec m method) as [->|Hne].
  - destruct (matches (segments pattern) (segments path)) as [vs|] eqn:Hp.
    + split; [intros Heq; simplify_eq; exists pattern; split; [apply list_elem_of_here|done]|].
      intros (pattern' & Hin & Hm). apply elem_of_cons in Hin as [Heq|Hin]; [by simplify_eq|]. by specialize (Hrest _ Hin Hm eq_refl).
    + rewrite IH. split; intros (pattern' & Hin & Hm); exists pattern'; (split; [|done]).
      * by apply list_elem_of_further.
      * apply elem_of_cons in Hin as [Heq|Hin]; [by simplify_eq|done].
  - rewrite IH. split; intros (pattern' & Hin & Hm); exists pattern'; (split; [|done]).
    + by apply list_elem_of_further.
    + apply elem_of_cons in Hin as [Heq|Hin]; [by simplify_eq|done].
Defined.

(** ** A key with a slash *)

#[local] Existing Instances reliable_kube Ilp.plain_fmt demo_lib reliable_etcd first_match_gin.

(** The body of a request is the key itself. *)
Definition demo_decoders : Decoders := {|
  json_ImportCluster := fun _ => Err "";
  json_UpdateCluster := fun _ => Err "";
  json_DeleteClusters := fun _ => Err "";
  query_GetCluster := fun q => Ok q;
  query_ListClusters := fun _ => Err "";
  json_yaml := fun b => Ok b;
  json_GlobalDeployment := fun _ => Err "";
  json_ListGlobalDeployments := fun _ => Err "";
  json_ListPolicies := fun _ => Err "";
  json_Named := fun _ => Err "";
  json_Policy := fun _ => Err "";
  json_ListPlans := fun _ => Err "";
  json_Topology := fun _ => Err "";
  json_kv := fun b => Ok (b, "1");
  json_kv_value := fun b => Ok b
|}.
#[local] Existing Instance demo_decoders.

Definition no_viper : Viper :=
  {| set_string := fun _ => None; set_strings := fun _ => None; set_int := fun _ => None; decode_error := None |}.
Definition demo_dependencies : Dependencies :=
  match Load (VIPER := no_viper) with Ok cfg => main_dependencies cfg | Err _ => mkDependencies (mkKVStore "") [] "" (mkOptConfig "" "") end.
Definition demo_serve : HttpRequest -> ServerState -> ServerState * http_answer :=
  serve_http demo_dependencies "" (fun s => Ok s) (fun _ => None).
Definition demo_server : ServerState := mkServer empty_world (mkEtcd ∅ [] 0).

Example demo_answers :
  (demo_serve (mkHttp "GET" "/readyz" "" "") demo_server).2 = Status 200 /\
  (demo_serve (mkHttp "POST" "/api/v1/kv" "" "a/b") demo_server).2 = Status 201 /\
  (demo_serve (mkHttp "GET" "/api/v1/kv/a/b" "" "") demo_server).2 = ByGin /\
  (demo_serve (mkHttp "GET" "/api/v1/kv/a" "" "") demo_server).2 = Status 404 /\
  (demo_serve (mkHttp "GET" "/api/v1/GetCluster" "c1" "") demo_server).2 = Status 404 /\
  (demo_serve (mkHttp "POST" "/api/v1/ImportCluster" "" "") demo_server).2 = Status 400.
Proof. split_and!; by_eval. Qed.

Lemma slashed_keys_stay_witness :
  let s := (demo_serve (mkHttp "POST" "/api/v1/kv" "" "a/b") demo_server).1 in
  etcd_kv (srv_etcd s) !! "/kubex/kv/a/b" = Some "1" /\
  is_Some (etcd_kv (srv_etcd (demo_serve (mkHttp "DELETE" "/api/v1/kv/a/b" "" "") s).1) !! "/kubex/kv/a/b").
Proof.
  destruct (slashed_keys_stay demo_dependencies "" (fun s => Ok s) (fun _ => None) "a/b" demo_server) as (Hpost & _ & _); [discriminate|].
  destruct (Hpost (mkHttp "POST" "/api/v1/kv" "" "a/b") "1") as [_ H]; [done|done|done|done|done|]. split; [exact H|].
  set (s := (demo_serve (mkHttp "POST" "/api/v1/kv" "" "a/b") demo_server).1).
  destruct (slashed_keys_stay demo_dependencies "" (fun s => Ok s) (fun _ => None) "a/b" s) as (_ & _ & Hstay); [discriminate|].
  apply (Hstay ltac:(split; [by exists "1"|apply not_elem_of_nil]) [mkHttp "DELETE" "/api/v1/kv/a/b" "" ""]).
Defined.
