(* ===== verification/Pipeline.v ===== *)
(** * From an evaluation to the bindings

    The evaluation of a policy, then the plan controller on the plan it created:
    where the replica bindings are sent. *)

From S2P Require Import Prelude Float64 OptTypes OptErrors Objective GoTime ApiTypes KubeApi.
From S2P Require Import Profiles PolicyInputs PolicyController PolicyEvaluate.
From S2P Require PlanController System.

Local Open Scope string_scope.
Local Open Scope list_scope.

Section pipeline.
Context {KUBE : KubeLib} {DEC : ProfileDecoders} {ORDERS : LoopOrders} {SORT : GoSort} {FMT : GoFmt}
  {TEXT : PolicyTexts} {BACK : Backend} {SOUND : SoundBackend BACK}.
Context (r : PolicyReconciler).

Lemma created_strategy uid plan spec st :
  PlanController.plan_strategy (mkPlan (created_meta uid (Plan_Meta plan)) spec st) = PlanController.plan_strategy plan.
Proof. done. Qed.

(** A plan that is there after an evaluation and was not before. *)
Lemma evaluation_creates key w k p :
  w_plans w !! k = None -> w_plans (defaultEvaluate r key w).1 !! k = Some p ->
  exists pol, w_policies w !! key = Some pol /\
    sound_moves pol (w_clusters w) (Moves (Plan_Spec p)) /\
    PlanController.plan_strategy p = Strategy (OP_Spec pol) /\ PlanController.plan_key p = k /\
    PlanController.finished_phase (Plan_Phase (Plan_Status p)) = false /\
    w_plans (defaultEvaluate r key w).1 = <[k := p]> (w_plans w).
Proof.
  intros Hnone. destruct (defaultEvaluate_cases r key w) as [->|(pol & Hpol & Hact & ->)]; [congruence|].
  set (w2 := (patch_policy_status _ _ _).1). set (pol' := with_policy_status _ _).
  assert (w_plans w2 = w_plans w) as Hp
    by (unfold w2; rewrite (preserves_patch_policy_status w_plans ltac:(done) key _ ltac:(done) _); done).
  assert (w_clusters w2 = w_clusters w) as Hc
    by (unfold w2; rewrite (preserves_patch_policy_status w_clusters ltac:(done) key _ ltac:(done) _); done).
  destruct (evaluate_active_outcome r pol' (w_clock w) w2) as [H|(v & spec & q & Hm & Hw & Hwr)];
    rewrite Hp, ?Hc in *; [congruence|]. set (suffix := drawn_suffix _ _ _ _) in *.
  rewrite Hw. destruct (decide (new_plan_key pol' suffix = k)) as [<-|Hne]; [|rewrite lookup_insert_ne by done; congruence].
  rewrite lookup_insert_eq, Hnone in *. intros [= ->]. exists pol. split; [done|].
  pose proof (final_plan_strategy pol' (w_clock w) v.1 suffix v spec) as Hst.
  assert (Plan_Spec (final_plan pol' (w_clock w) v.1 (new_plan pol' suffix v) spec).1 = spec /\
    PlanController.plan_key (final_plan pol' (w_clock w) v.1 (new_plan pol' suffix v) spec).1 = new_plan_key pol' suffix)
    as [Hspec Hkey] by (unfold final_plan; by destruct (below_threshold _ _)).
  destruct (final_plan _ _ _ _ _) as [plan conds]. cbn [fst] in *.
  destruct Hwr as ([uid Hmeta] & Hs & Hstat). destruct p as [meta spec' st]. cbn in Hmeta, Hs, Hstat |- *. subst meta spec'.
  rewrite Hspec. split_and!; [exact Hm|exact Hst|exact Hkey|by destruct Hstat as [[-> _]| ->]|done].
Qed.

(** The key of the binding of a replica. *)
Definition replica_key (rk : ReplicaKey) : Key :=
  (RK_Namespace rk, RK_Name rk +:+ "-rb-" +:+ pretty (ReplicaIndex rk)).
#[local] Instance replica_key_inj : Inj (=) (=) replica_key.
Proof.
  intros [ns n i] [ns' n' i'] H. injection H as -> H. by apply System.binding_name_inj in H as [-> ->].
Qed.

Lemma rb_keys_NoDup moves l : NoDup l -> move_replica <$> moves `sublist_of` l ->
  NoDup (PlanController.rb_key_of_move <$> moves).
Proof.
  intros Hl Hsub%(sublist_NoDup _ _ Hl). apply (NoDup_fmap_2 replica_key) in Hsub.
  rewrite <- list_fmap_compose in Hsub. exact Hsub.
Qed.

(** Where a move of the plan [p] leaves the binding: at a candidate node that is not
    the one the layout has the replica on, asked for under the plan's token. *)
Definition sent_by (pol : OptimizationPolicy) (clusters : gmap Key Cluster) (p : ReOrchestrationPlan)
    (mv : PlanMove) (rb : ReplicaBinding) : Prop :=
  let dst := mkNode (TargetCluster (RB_Spec rb)) (TargetNodeName (RB_Spec rb)) in
  candidate pol clusters dst /\
  stable_placement (CurrentLayout (OP_Status pol)) !! move_replica mv <> Some dst /\
  Reschedule (RB_Spec rb) = true /\
  RescheduleRequest (RB_Spec rb) = PlanController.buildRescheduleRequestToken p.

(** C5: End to end, when no request fails: the plan an evaluation creates for a
    conservative or aggressive policy whose layout lists no replica twice is
    executed by the next call for it: every stored binding of a move is sent to
    the destination of the move, which is a candidate node other than the one the
    layout has the replica on, under the plan's token; no other binding changes. *)
Theorem evaluated_plan_places key w k p pol :
  (forall i, fault i = None) -> rbs_ok (w_rbs w) -> w_policies w !! key = Some pol ->
  Strategy (OP_Spec pol) ∈ [OptimizationStrategyConservative; OptimizationStrategyAggressive] ->
  NoDup (stable_replicas (CurrentLayout (OP_Status pol))) ->
  w_plans w !! k = None -> w_plans (defaultEvaluate r key w).1 !! k = Some p ->
  let w2 := (PlanController.Reconcile fmt_q k (defaultEvaluate r key w).1).1 in
  (forall j, j ∉ PlanController.rb_key_of_move <$> Moves (Plan_Spec p) -> w_rbs w2 !! j = w_rbs w !! j) /\
  (forall mv rb, mv ∈ Moves (Plan_Spec p) -> w_rbs w !! PlanController.rb_key_of_move mv = Some rb ->
     exists rb', w_rbs w2 !! PlanController.rb_key_of_move mv = Some rb' /\ sent_by pol (w_clusters w) p mv rb').
Proof.
  intros Hf Hok Hpol Hstrat Hnd Hnone Hp. cbv zeta.
  destruct (evaluation_creates key w k p Hnone Hp) as (pol' & Hpol' & [Hsound Hsub] & Hst & <- & Hnf & Hplans).
  rewrite Hpol in Hpol'. injection Hpol' as <-.
  assert (w_rbs (defaultEvaluate r key w).1 = w_rbs w) as Hrbs by by apply preserves_evaluation.
  rewrite (PlanController.Reconcile_bindings Hf fmt_q (w_plans w) p); [|exact Hplans|by rewrite Hrbs|done|].
  2: { rewrite Hst. rewrite !elem_of_cons, elem_of_nil in Hstrat. by destruct Hstrat as [-> |[-> |?]]. }
  rewrite Hrbs.
  pose proof (rb_keys_NoDup _ _ Hnd Hsub) as Hkeys. split; [intros j; apply PlanController.apply_intents_other|].
  intros mv rb Hmv Hrb. rewrite PlanController.apply_intents_lookup, Hrb by done. eexists. split; [done|]. unfold sent_by.
  match goal with |- context [PlanController.intended ?tok ?t mv rb] =>
    destruct (PlanController.intended_spec tok t mv rb) as (-> & -> & -> & ->) end.
  rewrite Forall_forall in Hsound. destruct (Hsound mv Hmv) as (rk & src & dst & _ & Hsrc & Hcand & Hne & Href & Hidx & _ & _ & -> & ->).
  unfold move_replica. rewrite Href, Hidx. destruct rk as [ns n i], dst as [c m]. cbn in *.
  split_and!; [exact Hcand| |done|done]. rewrite Hsrc. congruence.
Qed.
End pipeline.

(** ** A concrete run: the replica of the demo policy, on its way from [n2] to [n1] *)

#[local] Existing Instances reliable_kube Ilp.plain_fmt.

Definition demo_pipeline_world : World :=
  set_rbs (fun _ => {[("default", "web-rb-0") := demo_binding 0 "c1" "n2" "Running"]}) (demo_evaluation_world "Cost" 10).
Definition demo_pipeline_plan : Key := ("default", "p-13").
Definition demo_planned : World :=
  (defaultEvaluate (BACK := demo_backend) demo_reconciler ("default", "p") demo_pipeline_world).1.

Lemma evaluated_plan_places_witness :
  exists rb', w_rbs (PlanController.Reconcile fmt_q demo_pipeline_plan demo_planned).1 !! ("default", "web-rb-0") = Some rb' /\
    candidate (demo_active "Cost" 10) (w_clusters demo_pipeline_world)
      (mkNode (TargetCluster (RB_Spec rb')) (TargetNodeName (RB_Spec rb'))).
Proof.
  destruct (w_plans demo_planned !! demo_pipeline_plan) as [p|] eqn:Hp; [|exfalso; revert Hp; vm_compute; discriminate].
  assert (PlanController.rb_key_of_move <$> Moves (Plan_Spec p) = [("default", "web-rb-0")]) as Hmoves.
  { apply (f_equal (fmap (fun p => PlanController.rb_key_of_move <$> Moves (Plan_Spec p)))) in Hp.
    revert Hp. vm_compute. intros H. by injection H as ->. }
  destruct (Moves (Plan_Spec p)) as [|mv l] eqn:Hl; [discriminate|]. injection Hmoves as Hns Hname _.
  assert (mv ∈ Moves (Plan_Spec p)) as Hin by (rewrite Hl; apply list_elem_of_here).
  assert (PlanController.rb_key_of_move mv = ("default", "web-rb-0")) as Hkey
    by (unfold PlanController.rb_key_of_move; by rewrite Hns, Hname).
  destruct (evaluated_plan_places (BACK := demo_backend) (SOUND := ortools_sound _ _) demo_reconciler ("default", "p")
    demo_pipeline_world demo_pipeline_plan p (demo_active "Cost" 10)) as [_ H]; [reflexivity| |reflexivity| | |reflexivity|exact Hp|].
  - apply rbs_ok_insert; [apply map_Forall_empty|reflexivity|by left].
  - apply list_elem_of_here.
  - apply NoDup_singleton.
  - destruct (H mv (demo_binding 0 "c1" "n2" "Running") Hin) as (rb' & Hrb' & Hc & _); [by rewrite Hkey|].
    rewrite Hkey in Hrb'. exists rb'. split; [exact Hrb'|exact Hc].
Defined.
