(* ===== verification/EvaluationRace.v ===== *)
(** * An evaluation, step by step
    (optimizationpolicy_controller.go, defaultEvaluate, from the creation of the plan on)

    PolicyEvaluate runs an evaluation as a whole. Here the creation of the plan, the
    patch of its status and that of the policy come one by one, and the plan controller
    may be faster: it is called as soon as the plan is created. *)

From S2P Require Import Prelude OptErrors Plugins Objective Plan GoTime GoText ApiTypes KubeApi MemberClients Scripts Scheduler.
From S2P Require Import Profiles PolicyInputs PolicyController PolicyEvaluate.
From S2P Require Ilp PlanController Pipeline.

Local Open Scope string_scope.
Local Open Scope list_scope.

(** ** The evaluation as a script *)

(** What is there before the plan is created: the policy, the time, the plan and the
    conditions of its status. *)
Definition prepared : Type := OptimizationPolicy * Z * ReOrchestrationPlan * list Condition.
Definition prepared_plan (x : prepared) : ReOrchestrationPlan := x.1.2.

Section evaluation.
Context {KUBE : KubeLib} {DEC : ProfileDecoders} {ORDERS : LoopOrders} {SORT : GoSort} {FMT : GoFmt}
  {TEXT : PolicyTexts} {BACK : Backend}.
Context (r : PolicyReconciler).

(** [defaultEvaluate] up to [r.Create(ctx, plan)]. *)
Definition preparing_active (pol : OptimizationPolicy) (t : Z) : M (option prepared) :=
  v ← improvement r pol t;
  let v := annotated_improvement pol v in
  k ← loop_number;
  let plan := new_plan pol (rand_String k) v in
  s ← plan_spec r pol t;
  match s with
  | None => mret None
  | Some spec => let '(plan', conds) := final_plan pol t v.1 plan spec in mret (Some (pol, t, plan', conds))
  end.
Definition preparing (key : Key) : M (option prepared) :=
  cur ← attempt (get_object w_policies key);
  t ← now;
  if match cur with Ok c => evaluated_recently c t | Err _ => false end then mret None
  else
    g ← attempt (get_object w_policies key);
    match g with
    | Err e => ignore_not_found None e
    | Ok pol0 =>
        ignore (patch_policy_status key (set_evaluated t)) ≫= fun _ =>
        let pol := with_policy_status pol0 (set_evaluated t (OP_Status pol0)) in
        if negb (String.eqb (OP_Phase (OP_Status pol)) OptimizationPolicyPhaseActive) then mret None
        else preparing_active pol t
    end.

(** The patches after [r.Create(ctx, plan)], and that with the creation. *)
Definition status_due (x : prepared) : script unit :=
  let '(pol, t, plan, conds) := x in
  step (patch_new_plan_status (PlanController.plan_key plan) PlanPhasePending conds) ≫= fun _ =>
  let cond := rebalance_condition pol t "True" "PlanCreated"
                ("created plan " +:+ Namespace (Plan_Meta plan) +:+ "/" +:+ Name (Plan_Meta plan)) in
  step (patch_policy_status (policy_key pol)
    (set_result (mkLocalRef (Name (Plan_Meta plan)) (Namespace (Plan_Meta plan)))
       (SetStatusCondition (OP_Conditions (OP_Status pol)) cond))).

Definition persisting (x : prepared) : script unit :=
  c ← trying (step (create_plan (prepared_plan x)));
  match c with
  | Err e => if negb (IsAlreadyExists e) then raise e else status_due x
  | Ok _ => status_due x
  end.

Definition evaluating (key : Key) : script unit :=
  x ← step (preparing key);
  match x with None => mret tt | Some x => persisting x end.

(** ** Run alone *)

Lemma persisting_alone pol t plan conds w : alone (persisting (pol, t, plan, conds)) w = persist_plan pol t plan conds w.
Proof.
  unfold persisting, persist_plan. rewrite alone_bind, !bind_run, alone_trying.
  unfold attempt. rewrite alone_step. unfold prepared_plan. cbn [fst snd].
  assert (Hdue : forall w, alone (status_due (pol, t, plan, conds)) w =
    (patch_new_plan_status (PlanController.plan_key plan) PlanPhasePending conds ≫= fun _ =>
     patch_policy_status (policy_key pol) (set_result (mkLocalRef (Name (Plan_Meta plan)) (Namespace (Plan_Meta plan)))
       (SetStatusCondition (OP_Conditions (OP_Status pol)) (rebalance_condition pol t "True" "PlanCreated"
          ("created plan " +:+ Namespace (Plan_Meta plan) +:+ "/" +:+ Name (Plan_Meta plan)))))) w).
  { intros w1. unfold status_due. rewrite alone_bind, !bind_run, alone_step. destruct (patch_new_plan_status _ _ _ w1) as [w2 [u|e]]; [|done].
    apply alone_step. }
  destruct (create_plan plan w) as [w1 [u|e]]; rewrite bind_run; cbn; [apply Hdue|].
  destruct (negb (IsAlreadyExists e)); [done|apply Hdue].
Qed.

Lemma preparing_active_spec pol t w :
  evaluate_active r pol t w =
  (x ← preparing_active pol t; match x with None => mret tt | Some (pol, t, plan, conds) => persist_plan pol t plan conds end) w.
Proof.
  unfold evaluate_active, preparing_active. rewrite !bind_run. destruct (improvement r pol t w) as [w1 [v|e]]; [|done].
  rewrite !bind_run. cbn [loop_number]. rewrite !bind_run. destruct (plan_spec r pol t _) as [w2 [[spec|]|e]]; [|done|done].
  by destruct (final_plan _ _ _ _ _).
Qed.

(** Undisturbed, the steps are the evaluation. *)
Theorem evaluation_steps_alone key w : alone (evaluating key) w = defaultEvaluate r key w.
Proof.
  unfold evaluating. rewrite alone_bind, bind_run, alone_step. unfold preparing, defaultEvaluate. rewrite !bind_run.
  unfold attempt. destruct (get_object w_policies key w) as [w1 cur]. rewrite !bind_run. cbn [now].
  destruct (match cur with Ok c => _ | Err _ => _ end); [done|]. rewrite !bind_run.
  destruct (get_object w_policies key w1) as [w2 [pol0|e]]; [|unfold ignore_not_found; by destruct (IsNotFound e)].
  rewrite !bind_run. unfold ignore. destruct (negb _); [done|].
  rewrite preparing_active_spec, bind_run. destruct (preparing_active _ _ _) as [w3 [[[[[pol t] plan] conds]|]|e]]; [|done|done].
  apply persisting_alone.
Qed.
End evaluation.

(** ** A plan that ends before its first status is written *)

(** The script once the plan is created. *)
Lemma evaluating_turns {KUBE : KubeLib} {DEC : ProfileDecoders} {ORDERS : LoopOrders} {SORT : GoSort} {FMT : GoFmt}
    {TEXT : PolicyTexts} {BACK : Backend} r rely key w0 w1 x :
  preparing r key w0 = (w1, Ok (Some x)) -> is_ok (create_plan (prepared_plan x) w1).2 = true ->
  rtc (turn rely) (evaluating r key, w0) (status_due x, (create_plan (prepared_plan x) w1).1).
Proof.
  intros H1 H2. assert (A1 : advance (evaluating r key) w0 = (persisting x, w1)) by (cbn; by rewrite H1).
  assert (A2 : advance (persisting x) w1 = (status_due x, (create_plan (prepared_plan x) w1).1)).
  { unfold persisting. cbn. by destruct (create_plan (prepared_plan x) w1) as [w2 [[]|e]]. }
  eapply rtc_l; [apply turn_step|]. rewrite A1. eapply rtc_l; [apply turn_step|]. rewrite A2. apply rtc_refl.
Qed.

Lemma status_due_step {KUBE : KubeLib} {TEXT : PolicyTexts} x w :
  advance (status_due x) w =
  ((advance (status_due x) w).1,
   (patch_new_plan_status (PlanController.plan_key (prepared_plan x)) PlanPhasePending x.2 w).1).
Proof. by destruct x as [[[pol t] plan] conds]. Qed.

(** C15: When the plan controller is faster: a plan may end before the evaluation that
    created it writes the first status. That write takes the plan back to Pending,
    whatever it was, and keeps the statuses of its moves. A call for the plan did nothing
    any more; the next one carries its moves out again: a binding that another plan has
    sent elsewhere in the meantime is sent back. *)
Theorem late_status_reapplies {KUBE : KubeLib} {TEXT : PolicyTexts} fmt_q (x : prepared) p w :
  (forall i, fault i = None) -> rbs_ok (w_rbs w) ->
  w_plans w !! PlanController.plan_key p = Some p -> PlanController.plan_key (prepared_plan x) = PlanController.plan_key p ->
  PlanController.finished_phase (Plan_Phase (Plan_Status p)) = true ->
  PlanController.desired_phase (PlanController.plan_strategy p) = PlanPhaseExecuting ->
  let w' := (advance (status_due x) w).2 in
  w_rbs (PlanController.Reconcile fmt_q (PlanController.plan_key p) w).1 = w_rbs w /\
  (exists p', w_plans w' !! PlanController.plan_key p = Some p' /\ Plan_Phase (Plan_Status p') = PlanPhasePending /\
     MoveStatuses (Plan_Status p') = MoveStatuses (Plan_Status p)) /\
  w_rbs w' = w_rbs w /\
  forall mv rb, NoDup (PlanController.rb_key_of_move <$> Moves (Plan_Spec p)) -> mv ∈ Moves (Plan_Spec p) ->
    w_rbs w !! PlanController.rb_key_of_move mv = Some rb ->
    PlanController.needPatch rb mv (PlanController.buildRescheduleRequestToken p) = true ->
    exists rb', w_rbs (PlanController.Reconcile fmt_q (PlanController.plan_key p) w').1 !! PlanController.rb_key_of_move mv = Some rb' /\
      TargetCluster (RB_Spec rb') = Loc_ClusterID (PM_Destination mv) /\
      TargetNodeName (RB_Spec rb') = Loc_NodeName (PM_Destination mv) /\
      RB_Phase (RB_Status rb') = ReplicaBindingPhaseRescheduling.
Proof.
  intros Hf Hok Hp Hkey Hfin Hd. cbv zeta. rewrite status_due_step. cbn [snd]. rewrite Hkey. split.
  { unfold PlanController.Reconcile. rewrite bind_run, attempt_run, (get_object_run Hf). cbn [fst snd].
    change (w_plans (tick w)) with (w_plans w). rewrite Hp. cbn [require]. cbv zeta. by rewrite Hfin. }
  set (p' := PlanController.with_status p (merge_plan_status PlanPhasePending x.2 (Plan_Status p))).
  assert (Hw' : (patch_new_plan_status (PlanController.plan_key p) PlanPhasePending x.2 w).1 =
    set_plans <[PlanController.plan_key p := p']> (tick w)).
  { unfold patch_new_plan_status. rewrite (request_run Hf). change (w_plans (tick w)) with (w_plans w). by rewrite Hp. }
  rewrite Hw'. split_and!; [|done|].
  - exists p'. split; [apply lookup_insert_eq|done].
  - intros mv rb Hnd Hmv Hrb Hneed. change (PlanController.plan_key p) with (PlanController.plan_key p') at 1.
    rewrite (PlanController.Reconcile_bindings Hf fmt_q (w_plans w) p'); [|done|exact Hok|done|exact Hd].
    rewrite PlanController.apply_intents_lookup by done. cbn [w_rbs set_plans tick w_clock]. rewrite Hrb. eexists. split; [done|].
    change (PlanController.buildRescheduleRequestToken p') with (PlanController.buildRescheduleRequestToken p).
    destruct (PlanController.intended_spec (PlanController.buildRescheduleRequestToken p) (w_clock w) mv rb) as (H1 & H2 & _ & _).
    split_and!; [exact H1|exact H2|]. unfold PlanController.intended. rewrite Hneed.
    by destruct (String.eqb_spec (RB_Phase (RB_Status rb)) ReplicaBindingPhaseRescheduling).
Qed.

(** ** A concrete run: the plan ended, another one sent the replica to [c2], and then
    the status of the first one is written *)

#[local] Existing Instances reliable_kube Ilp.plain_fmt.

Definition demo_prepared : World * result api_error (option prepared) :=
  preparing (BACK := demo_backend) demo_reconciler ("default", "p") Pipeline.demo_pipeline_world.
Definition demo_x : prepared :=
  match demo_prepared.2 with
  | Ok (Some x) => x
  | _ => (demo_active "Cost" 10, 0%Z, PlanController.demo_plan "Aggressive" PlanController.fresh_status, [])
  end.
Definition ended (p : ReOrchestrationPlan) : ReOrchestrationPlan :=
  PlanController.with_status p (PlanController.with_phase PlanPhaseSucceeded (Plan_Status p)).
Definition elsewhere (rb : ReplicaBinding) : ReplicaBinding :=
  mkRB (RB_Meta rb) (mkRBSpec (RBS_GlobalDeploymentRef (RB_Spec rb)) (RBS_ReplicaIndex (RB_Spec rb)) "c2" "n9" true "other") (RB_Status rb).
Definition by_others (w : World) : World := set_rbs (fmap elsewhere) (set_plans (fmap ended) w).
Definition demo_raced : World := by_others (create_plan (prepared_plan demo_x) demo_prepared.1).1.

Lemma demo_raced_reached :
  rtc (turn (fun w w' => w' = by_others w))
    (evaluating (BACK := demo_backend) demo_reconciler ("default", "p"), Pipeline.demo_pipeline_world) (status_due demo_x, demo_raced).
Proof.
  eapply rtc_r; [apply (evaluating_turns (BACK := demo_backend) demo_reconciler _ _ _ demo_prepared.1 demo_x)|by apply turn_other].
  - fold demo_prepared. unfold demo_x. assert (H : (match demo_prepared.2 with Ok (Some _) => true | _ => false end) = true) by by_eval.
    destruct demo_prepared as [w1 [[x|]|e]]; [done|discriminate H..].
  - by_eval.
Qed.

Lemma late_status_reapplies_witness :
  let w' := (advance (status_due demo_x) demo_raced).2 in
  (TargetCluster ∘ RB_Spec <$> w_rbs demo_raced !! ("default", "web-rb-0")) = Some "c2" /\
  exists rb', w_rbs (PlanController.Reconcile (fun s => s) Pipeline.demo_pipeline_plan w').1 !! ("default", "web-rb-0") = Some rb' /\
    TargetCluster (RB_Spec rb') = "c1" /\ RB_Phase (RB_Status rb') = ReplicaBindingPhaseRescheduling.
Proof.
  cbv zeta. split; [by_eval|].
  destruct (w_plans demo_raced !! Pipeline.demo_pipeline_plan) as [p|] eqn:Hp; [|exfalso; revert Hp; vm_compute; discriminate].
  assert (Hc : forall A (f : ReOrchestrationPlan -> A) v, f <$> w_plans demo_raced !! Pipeline.demo_pipeline_plan = Some v -> f p = v)
    by (intros A f v H; rewrite Hp in H; by injection H).
  assert (Hkey : PlanController.plan_key p = Pipeline.demo_pipeline_plan) by (apply Hc; by_eval).
  assert (Hmoves : (fun mv => (PlanController.rb_key_of_move mv, Loc_ClusterID (PM_Destination mv))) <$> Moves (Plan_Spec p) =
    [(("default", "web-rb-0"), "c1")]) by (apply (Hc _ (fun p => _ <$> Moves (Plan_Spec p))); by_eval).
  destruct (Moves (Plan_Spec p)) as [|mv [|]] eqn:Hl; [discriminate..| |discriminate]. injection Hmoves as Hns Hname Hcluster.
  destruct (late_status_reapplies (fun s => s) demo_x p demo_raced) as (_ & _ & _ & H).
  - reflexivity.
  - assert (w_rbs demo_raced = {[("default", "web-rb-0") := elsewhere (demo_binding 0 "c1" "n2" "Running")]}) as -> by by_eval.
    apply map_Forall_singleton. split; [reflexivity|by left].
  - by rewrite Hkey.
  - rewrite Hkey. by_eval.
  - apply (Hc _ (fun p => PlanController.finished_phase (Plan_Phase (Plan_Status p)))). by_eval.
  - apply (Hc _ (fun p => PlanController.desired_phase (PlanController.plan_strategy p))). by_eval.
  - destruct (w_rbs demo_raced !! ("default", "web-rb-0")) as [rb|] eqn:Hrb; [|exfalso; revert Hrb; vm_compute; discriminate].
    assert (Hk : PlanController.rb_key_of_move mv = ("default", "web-rb-0")) by (unfold PlanController.rb_key_of_move; by rewrite Hns, Hname).
    destruct (H mv rb) as (rb' & H1 & H2 & _ & H3); [rewrite Hl; apply NoDup_singleton|rewrite Hl; apply list_elem_of_here|by rewrite Hk| |].
    + unfold PlanController.needPatch. assert (TargetCluster (RB_Spec rb) = "c2") as ->; [|by rewrite Hcluster].
      apply (inj Some). change (TargetCluster ∘ RB_Spec <$> Some rb = Some "c2"). rewrite <- Hrb. by_eval.
    + exists rb'. rewrite Hkey, Hk in H1. split_and!; [exact H1|by rewrite H2|exact H3].
Defined.
