(* ===== verification/Metrics.v ===== *)
(** * The metrics of the controllers
    (metrics.go, and the calls of its collectors in reorchestrationplan_controller.go
    and optimizationpolicy_controller.go)

    The registration of the collectors, once per process; what the two functions that
    write move statuses count; and what an evaluation counts. *)

From S2P Require Import Prelude OptErrors Plugins Objective GoTime GoText ApiTypes KubeApi Profiles PolicyInputs PolicyController PolicyEvaluate.
From S2P Require Import PlanController.
From S2P Require Ilp.

Local Open Scope string_scope.
Local Open Scope list_scope.

(** ** Registration *)

(** The collectors by their full names: namespace and name. *)
Definition plansCreated : string := "kubex_reorchestration_plans_created_total".
Definition movesTotal : string := "kubex_reorchestration_moves_total".
Definition scoringPluginErrors : string := "kubex_scoring_plugin_errors_total".
Definition activePolicyGauge : string := "kubex_active_optimization_policy".
Definition calculationDuration : string := "kubex_reorchestration_calculation_duration_seconds".
Definition moveDuration : string := "kubex_reorchestration_move_duration_seconds".
Definition collectors : list string :=
  [plansCreated; movesTotal; scoringPluginErrors; activePolicyGauge; calculationDuration; moveDuration].

(** The registries of the process by name, with the names each holds, and whether
    [metricsOnce] has run. *)
Record MetricsState := mkMetrics { metricsOnce : bool; registries : gmap string (list string) }.
Definition registry (name : string) (s : MetricsState) : list string := default [] (registries s !! name).

(** [metrics.Registry] of controller-runtime. *)
Definition default_registry : string := "controller-runtime".

(** [reg.MustRegister(c)]: [None] is the panic on a name that is taken. *)
Definition MustRegister (reg c : string) (s : MetricsState) : option MetricsState :=
  if bool_decide (c ∈ registry reg s) then None
  else Some (mkMetrics (metricsOnce s) (<[reg := registry reg s ++ [c]]> (registries s))).
Fixpoint register_all (reg : string) (cs : list string) (s : MetricsState) : option MetricsState :=
  match cs with
  | [] => Some s
  | c :: cs' => MustRegister reg c s ≫= register_all reg cs'
  end.

(** [func ensureMetricsRegistered(reg)]; a nil registry is [None]. *)
Definition ensureMetricsRegistered (reg : option string) (s : MetricsState) : option MetricsState :=
  if metricsOnce s then Some s
  else register_all (default default_registry reg) collectors (mkMetrics true (registries s)).

Lemma register_all_fresh reg cs s :
  NoDup cs -> (forall c, c ∈ cs -> c ∉ registry reg s) ->
  exists s', register_all reg cs s = Some s' /\ metricsOnce s' = metricsOnce s /\ registry reg s' = registry reg s ++ cs.
Proof.
  revert s. induction cs as [|c cs IH]; intros s Hnd Hfresh; [exists s; by rewrite app_nil_r|].
  apply NoDup_cons in Hnd as [Hc Hnd]. cbn. unfold MustRegister. rewrite bool_decide_eq_false_2; [|by apply Hfresh, list_elem_of_here].
  cbn. set (s1 := mkMetrics _ _). assert (Hs1 : registry reg s1 = registry reg s ++ [c]) by (unfold registry; cbn; by rewrite lookup_insert_eq).
  destruct (IH s1) as (s' & H1 & H2 & H3); [done| |exists s'; rewrite H1, H3, Hs1, <- app_assoc; by split_and!].
  intros c' Hc'. rewrite Hs1, elem_of_app, list_elem_of_singleton. intros [H| ->]; [|done].
  revert H. by apply Hfresh, list_elem_of_further.
Qed.

(** The reconcilers of policies and plans both ask for the registration; so may any other
    caller, with any registry. *)
Fixpoint registrations (regs : list (option string)) (s : MetricsState) : option MetricsState :=
  match regs with
  | [] => Some s
  | reg :: regs' => ensureMetricsRegistered reg s ≫= registrations regs'
  end.

(** From the start of the process, where the registry holds none of the names, any
    number of registrations succeeds, and the first one decides: its registry has every
    collector once. *)
Theorem metrics_registered_once reg regs s :
  metricsOnce s = false -> (forall c, c ∈ collectors -> c ∉ registry (default default_registry reg) s) ->
  exists s', registrations (reg :: regs) s = Some s' /\
    registry (default default_registry reg) s' = registry (default default_registry reg) s ++ collectors.
Proof.
  intros Ho Hf. cbn. unfold ensureMetricsRegistered at 1. rewrite Ho.
  destruct (register_all_fresh (default default_registry reg) collectors (mkMetrics true (registries s))) as (s' & H1 & H2 & H3);
    [by apply (bool_decide_unpack _); by_eval|exact Hf|]. exists s'. rewrite H1. split; [|exact H3].
  cbn. clear H1 H3. cbn in H2. induction regs as [|r regs IH]; [done|]. cbn. unfold ensureMetricsRegistered at 1. by rewrite H2.
Qed.

(** ** What is counted *)

(** A status write of a move, as the controller makes them: [patchMoveStatusIf] and
    [patchMoveStatus]. *)
Inductive status_write :=
| WriteIf (mv : PlanMove) (from to msg : string)
| Write (mv : PlanMove) (st msg : string).

(** The statuses after a write on those that were read, and the labels that it counts
    in [movesTotal]. *)
Definition written (u : status_write) (l : list MoveStatus) : list MoveStatus * list string :=
  match u with
  | WriteIf mv from to msg =>
      match list_find (fun ms => same_move ms mv = true) l with
      | Some (_, ms) =>
          if String.eqb (MS_Status ms) from then (default l (update_first mv (set_move_status to msg) l), [to]) else (l, [])
      | None => (l, [])
      end
  | Write mv st msg =>
      (put_move_status mv st msg l, match update_first mv (set_move_status st msg) l with Some _ => [] | None => [st] end)
  end.
Fixpoint all_written (us : list status_write) (l : list MoveStatus) : list string :=
  match us with
  | [] => []
  | u :: us' => (written u l).2 ++ all_written us' (written u l).1
  end.

(** [moveDuration] observes 0 for a label that is terminal. *)
Definition observes (label : string) : bool :=
  String.eqb label MoveExecutionStatusSucceeded || String.eqb label MoveExecutionStatusFailed.

(** The writes of the controller for a plan: to its moves; the conditional one from
    Pending to InProgress. *)
Definition write_of (plan : ReOrchestrationPlan) (u : status_write) : Prop :=
  match u with
  | WriteIf mv from to _ =>
      mv ∈ Moves (Plan_Spec plan) /\ from = MoveExecutionStatusPending /\ to = MoveExecutionStatusInProgress
  | Write mv _ _ => mv ∈ Moves (Plan_Spec plan)
  end.

(** Every move has a status. *)
Definition all_present (moves : list PlanMove) (l : list MoveStatus) : Prop :=
  forall mv, mv ∈ moves -> exists ms, ms ∈ l /\ same_move ms mv = true.

Lemma same_move_set st msg ms mv : same_move (set_move_status st msg ms) mv = same_move ms mv.
Proof. done. Qed.
Lemma update_first_present mv st msg l l' moves :
  update_first mv (set_move_status st msg) l = Some l' -> all_present moves l -> all_present moves l'.
Proof.
  intros Hu Hp. assert (Hin : forall ms, ms ∈ l -> ms ∈ l' \/ set_move_status st msg ms ∈ l').
  { clear Hp. revert l' Hu. induction l as [|ms l IH]; intros l' Hu ms' Hms; [done|]. cbn in Hu.
    destruct (same_move ms mv).
    - injection Hu as <-. apply elem_of_cons in Hms as [->|Hms]; [right; apply list_elem_of_here|left; by apply list_elem_of_further].
    - destruct (update_first _ _ l) as [r|] eqn:Hr; [|done]. injection Hu as <-.
      apply elem_of_cons in Hms as [->|Hms]; [left; apply list_elem_of_here|].
      destruct (IH r eq_refl ms' Hms); [left|right]; by apply list_elem_of_further. }
  intros mv' Hmv'. destruct (Hp mv' Hmv') as (ms & Hms & Hs). destruct (Hin ms Hms); eauto.
Qed.
Lemma update_first_found mv f l ms : ms ∈ l -> same_move ms mv = true -> is_Some (update_first mv f l).
Proof.
  intros Hin Hs. induction l as [|ms' l IH]; [by apply not_elem_of_nil in Hin|]. cbn. destruct (same_move ms' mv) eqn:Hs'; [by eexists|].
  apply elem_of_cons in Hin as [->|Hin]; [congruence|]. destruct (IH Hin) as [r ->]. by eexists.
Qed.

Lemma written_present plan u l :
  write_of plan u -> all_present (Moves (Plan_Spec plan)) l ->
  all_present (Moves (Plan_Spec plan)) (written u l).1 /\ forall label, label ∈ (written u l).2 -> label = MoveExecutionStatusInProgress.
Proof.
  intros Hu Hp. destruct u as [mv from to msg|mv st msg]; cbn.
  - destruct Hu as (Hmv & -> & ->). destruct (list_find _ l) as [[i ms]|]; [|split; [done|by intros ? ?%not_elem_of_nil]].
    destruct (String.eqb _ _); [|split; [done|by intros ? ?%not_elem_of_nil]]. split; [|by intros ? ->%list_elem_of_singleton]. cbn.
    destruct (update_first mv _ l) eqn:Hup; [|done]. by eapply update_first_present.
  - destruct (Hp mv Hu) as (ms & Hin & Hs). destruct (update_first_found mv (set_move_status st msg) l ms Hin Hs) as [l' Hl'].
    unfold put_move_status. rewrite Hl'. split; [by eapply update_first_present|by intros ? ?%not_elem_of_nil].
Qed.

(** Once a plan has its statuses, as [executeMoves] and [monitorAndConverge] create them
    before anything else, the controller counts moves that are in progress and nothing
    else, however many succeed or fail: the counter of moves has no Succeeded or Failed,
    and the duration of a move is never observed. *)
Theorem ended_moves_uncounted plan us :
  Forall (write_of plan) us ->
  let labels := all_written us (initial_move_statuses (Moves (Plan_Spec plan))) in
  Forall (fun label => label = MoveExecutionStatusInProgress /\ observes label = false) labels.
Proof.
  intros Hus. cbv zeta. assert (Hp : all_present (Moves (Plan_Spec plan)) (initial_move_statuses (Moves (Plan_Spec plan)))).
  { intros mv Hmv. eexists. split; [by apply list_elem_of_fmap_2|]. unfold same_move. cbn. by rewrite !String.eqb_refl, Z.eqb_refl. }
  revert Hp. generalize (initial_move_statuses (Moves (Plan_Spec plan))) as l. induction Hus as [|u us Hu _ IH]; intros l Hp; [constructor|].
  destruct (written_present plan u l Hu Hp) as [H1 H2]. apply Forall_app. split; [|by apply IH].
  apply Forall_forall. intros label Hl. by rewrite (H2 label Hl).
Qed.

(** ** Evaluations *)

(** What an evaluation does to its collectors. *)
Inductive metric_event := ActiveGaugeSet (v : Z) | PlanCounted | CalculationObserved.
#[export] Instance metric_event_dec : EqDecision metric_event.
Proof. solve_decision. Defined.


Section evaluations.
Context {KUBE : KubeLib} {DEC : ProfileDecoders} {ORDERS : LoopOrders} {SORT : GoSort} {FMT : GoFmt}
  {TEXT : PolicyTexts} {BACK : Backend}.
Context (r : PolicyReconciler).

(** An Active policy: the gauge is set, the counter goes up with the plan that is
    prepared, and the duration is observed at the end, whatever that is. *)
Definition active_events (pol : OptimizationPolicy) (t : Z) : M (list metric_event) :=
  v ← attempt (improvement r pol t);
  match v with
  | Err _ => mret [ActiveGaugeSet 1; CalculationObserved]
  | Ok _ => mret [ActiveGaugeSet 1; PlanCounted; CalculationObserved]
  end.

(** [func (r) defaultEvaluate(ctx, key) error]: its calls of the collectors. *)
Definition evaluation_events (key : Key) : M (list metric_event) :=
  cur ← attempt (get_object w_policies key);
  t ← now;
  if match cur with Ok c => evaluated_recently c t | Err _ => false end then mret []
  else
    g ← attempt (get_object w_policies key);
    match g with
    | Err _ => mret []
    | Ok pol0 =>
        ignore (patch_policy_status key (set_evaluated t)) ≫= fun _ =>
        let pol := with_policy_status pol0 (set_evaluated t (OP_Status pol0)) in
        if negb (String.eqb (OP_Phase (OP_Status pol)) OptimizationPolicyPhaseActive) then mret []
        else active_events pol t
    end.

Definition plans_counted (res : World * result api_error (list metric_event)) : nat :=
  match res.2 with Ok evs => length (filter (eq PlanCounted) evs) | Err _ => 0 end.
End evaluations.

(** A run counts nothing and writes no plan, or goes on with an Active policy. *)
Lemma evaluation_events_cases {KUBE : KubeLib} {DEC : ProfileDecoders} {ORDERS : LoopOrders} {SORT : GoSort}
    {FMT : GoFmt} {TEXT : PolicyTexts} {BACK : Backend} r key w :
  ((evaluation_events r key w).2 = Ok [] /\ w_plans (defaultEvaluate r key w).1 = w_plans w) \/
  exists pol w2, evaluation_events r key w = active_events r pol (w_clock w) w2 /\
    defaultEvaluate r key w = evaluate_active r pol (w_clock w) w2 /\ w_plans w2 = w_plans w.
Proof.
  remember (evaluation_events r key w) as out eqn:Hout. remember (defaultEvaluate r key w) as run eqn:Hrun.
  unfold evaluation_events in Hout. unfold defaultEvaluate in Hrun. rewrite bind_run in Hout. rewrite bind_run in Hrun.
  unfold attempt at 1 in Hout. unfold attempt at 1 in Hrun. pose proof (get_object_result w_policies key w eq_refl) as H1.
  destruct (get_object _ _ w) as [w1 cur]. assert (w1 = tick w) as -> by (by destruct cur, H1).
  rewrite bind_run in Hout. rewrite bind_run in Hrun. cbn [now] in Hout, Hrun.
  destruct (match cur with Ok c => _ | Err _ => _ end); [left; by rewrite Hout, Hrun|].
  rewrite bind_run in Hout. rewrite bind_run in Hrun. unfold attempt in Hout, Hrun.
  pose proof (get_object_result w_policies key (tick w) eq_refl) as H.
  destruct (get_object _ _ (tick w)) as [w1 [pol0|e]]; destruct H as [-> H].
  2: { left. rewrite Hout, Hrun. unfold ignore_not_found. by destruct (IsNotFound e). }
  rewrite bind_run in Hout. rewrite bind_run in Hrun. unfold ignore in Hout, Hrun.
  assert (Hp := preserves_patch_policy_status w_plans ltac:(done) key (set_evaluated (w_clock w)) ltac:(done) (tick (tick w))).
  destruct (negb _); [left; rewrite Hout, Hrun; split; [done|exact Hp]|].
  right. do 2 eexists. split; [exact Hout|]. split; [exact Hrun|exact Hp].
Qed.

(** An evaluation counts at most one plan, and counts it when it writes one; the gauge
    of an active policy is set to 1 by some evaluations, and to 0 by none. *)
Theorem evaluation_counts {KUBE : KubeLib} {DEC : ProfileDecoders} {ORDERS : LoopOrders} {SORT : GoSort}
    {FMT : GoFmt} {TEXT : PolicyTexts} {BACK : Backend} r key w :
  let counted := plans_counted (evaluation_events r key w) in
  counted <= 1 /\ (counted = 0 -> w_plans (defaultEvaluate r key w).1 = w_plans w) /\
  forall evs v, (evaluation_events r key w).2 = Ok evs -> ActiveGaugeSet v ∈ evs -> v = 1%Z.
Proof.
  cbv zeta. destruct (evaluation_events_cases r key w) as [[Hev Hw]|(pol & w2 & Hev & -> & Hw)]; unfold plans_counted; rewrite Hev.
  - rewrite Hw. split_and!; [cbn; lia|done|by intros evs v [= <-] ?%not_elem_of_nil].
  - unfold active_events, evaluate_active. rewrite !bind_run. unfold attempt.
    pose proof (quiet_improved r w_plans ltac:(done) ltac:(done) ltac:(done) pol (w_clock w) w2) as Hq.
    assert (Hgauge : forall v l, Forall (fun ev => forall z, ev = ActiveGaugeSet z -> z = 1%Z) l -> ActiveGaugeSet v ∈ l -> v = 1%Z)
      by (intros v l Hl Hv; rewrite Forall_forall in Hl; by apply (Hl _ Hv)).
    destruct (improvement r pol (w_clock w) w2) as [w3 [v|e]]; cbn [fst snd mret M_ret]; (split; [vm_compute; lia|split]).
    + intros H. exfalso. revert H. by vm_compute.
    + intros evs z [= <-]. apply Hgauge. repeat constructor; by intros ? [= <-].
    + intros _. etrans; [exact Hq|exact Hw].
    + intros evs z [= <-]. apply Hgauge. repeat constructor; by intros ? [= <-].
Qed.

(** ** Concrete runs *)

#[local] Existing Instance Ilp.plain_fmt.

Definition with_faults (f : nat -> option api_error) (K : KubeLib) : KubeLib.
Proof.
  refine {|
    yaml_Unmarshal := yaml_Unmarshal; yaml_fails := yaml_fails; list_order := fun A => list_order;
    SetStatusCondition := SetStatusCondition; RESTConfigFromKubeConfig := RESTConfigFromKubeConfig; NewForConfig := NewForConfig;
    error_text := error_text; fault := f; LabelSelectorAsSelector := LabelSelectorAsSelector;
    json_DeploymentSpec := json_DeploymentSpec; json_Deployment := json_Deployment; MilliValue := MilliValue; Value := Value;
    rand_String := rand_String; new_uid := new_uid; request_timed_out := request_timed_out
  |}. intros A. exact list_order_perm.
Defined.

Lemma metrics_registered_once_witness :
  let s := mkMetrics false ∅ in
  exists s', registrations [None; None] s = Some s' /\ registry default_registry s' = collectors.
Proof.
  destruct (metrics_registered_once None [None] (mkMetrics false ∅)) as (s' & H1 & H2); [done|by intros c _ ?%not_elem_of_nil|].
  exists s'. split; [exact H1|exact H2].
Defined.

Definition demo_writes (mv : PlanMove) : list status_write :=
  [WriteIf mv "Pending" "InProgress" "reschedule intent applied"; Write mv "Succeeded" "reschedule completed"].
Lemma ended_moves_uncounted_witness :
  all_written (demo_writes demo_move) (initial_move_statuses [demo_move]) = ["InProgress"] /\
  Forall (fun label => label = MoveExecutionStatusInProgress /\ observes label = false)
    (all_written (demo_writes demo_move) (initial_move_statuses (Moves (Plan_Spec (demo_plan "Aggressive" fresh_status))))).
Proof.
  split; [reflexivity|]. apply (ended_moves_uncounted (demo_plan "Aggressive" fresh_status)).
  assert (H : demo_move ∈ Moves (Plan_Spec (demo_plan "Aggressive" fresh_status))) by apply list_elem_of_here.
  constructor; [done|]. by constructor.
Defined.

(** The environment in which the request for the new plan is refused. *)
Definition refused_plan : KubeLib := with_faults (fun n => if Nat.eqb n 27 then Some (OtherError "denied") else None) reliable_kube.

(** The counter is of plans that are prepared: an evaluation whose plan the API server
    refuses counts it like the one whose plan is created. *)
Lemma evaluation_counts_witness :
  let counted K := plans_counted (evaluation_events (KUBE := K) (BACK := demo_backend) demo_reconciler ("default", "p")
    (demo_evaluation_world "Cost" 10)) in
  let plans K := size (w_plans (defaultEvaluate (KUBE := K) (BACK := demo_backend) demo_reconciler ("default", "p")
    (demo_evaluation_world "Cost" 10)).1) in
  counted reliable_kube = 1 /\ plans reliable_kube = 1 /\ counted refused_plan = 1 /\ plans refused_plan = 0 /\
  counted refused_plan <= 1.
Proof.
  cbv zeta. do 4 (split; [by_eval|]).
  apply (evaluation_counts (KUBE := refused_plan) (BACK := demo_backend) demo_reconciler ("default", "p") (demo_evaluation_world "Cost" 10)).
Defined.
