(* ===== verification/Startup.v ===== *)
(** * The start of the two processes
    (controller/cmd/main.go; server/cmd/server/main.go, internal/kube/client.go,
    internal/storage/etcd.go, internal/logging/logging.go, internal/api/middleware.go)

    The constructors of the libraries are parameters: what they are given, in which
    order, and what becomes of the process when one of them fails. *)

From S2P Require Import Prelude OptErrors Objective GoTime GoText ApiTypes KubeApi Scheduler ServerBase Router.
From S2P Require Import Metrics.

Local Open Scope string_scope.
Local Open Scope list_scope.

(** ** Steps that end the process when they fail *)

(** How a process ends: the message and the error it is logged with. *)
Inductive ending := Served | Exit (code : Z) (msg error : string) | Panicked (error : string).

Section sequences.
Context {A : Type} (fails : A -> option string).

(** Each step with what its error leads to. The steps that were begun, and the end. *)
Fixpoint in_turn (steps : list (A * (string -> ending))) : list A * ending :=
  match steps with
  | [] => ([], Served)
  | (a, stop) :: rest =>
      match fails a with
      | Some e => ([a], stop e)
      | None => let '(begun, fin) := in_turn rest in (a :: begun, fin)
      end
  end.

Lemma in_turn_spec steps :
  let '(begun, fin) := in_turn steps in
  (begun = steps.*1 /\ fin = Served /\ Forall (fun a => fails a = None) begun) \/
  exists before a stop e after, steps = before ++ (a, stop) :: after /\ begun = before.*1 ++ [a] /\ fin = stop e /\
    Forall (fun a => fails a = None) before.*1 /\ fails a = Some e.
Proof.
  induction steps as [|[a stop] steps IH]; [left; by split_and!|]. cbn. destruct (fails a) as [e|] eqn:Hf.
  - right. exists [], a, stop, e, steps. by split_and!.
  - destruct (in_turn steps) as [begun fin]. destruct IH as [(-> & -> & H)|(before & a' & stop' & e & after & -> & -> & -> & H & He)].
    + left. split_and!; [done|done|by constructor].
    + right. exists ((a, stop) :: before), a', stop', e, after. split_and!; [done|done|done|by constructor|done].
Qed.

(** A step is begun exactly when those before it succeed. *)
Lemma in_turn_begun steps before a stop after :
  steps = before ++ (a, stop) :: after -> NoDup steps.*1 ->
  a ∈ (in_turn steps).1 <-> Forall (fun a => fails a = None) before.*1.
Proof.
  intros ->. induction before as [|[b stop'] before IH]; cbn.
  - intros _. destruct (fails a); [by split; [|intros; apply list_elem_of_here]|].
    destruct (in_turn after). split; [done|]. intros. apply list_elem_of_here.
  - intros [Hb Hnd]%NoDup_cons. specialize (IH Hnd). assert (Hne : a <> b).
    { intros ->. apply Hb. rewrite fmap_app. apply elem_of_app. right. apply list_elem_of_here. }
    destruct (fails b) as [e|] eqn:Hf.
    + rewrite Forall_cons, Hf. split; [intros ->%list_elem_of_singleton; done|by intros [? _]].
    + destruct (in_turn _) as [begun fin]. cbn in *. rewrite elem_of_cons, Forall_cons, <- IH. naive_solver.
Qed.
End sequences.

(** ** The controller manager *)

(** The flags of [main]. *)
Record Flags := mkFlags {
  metricsAddr : string;
  probeAddr : string;
  enableLeaderElection : bool;
  secureMetrics : bool;
  webhookCertPath : string; webhookCertName : string; webhookCertKey : string;
  metricsCertPath : string; metricsCertName : string; metricsCertKey : string;
  enableHTTP2 : bool;
  controlNamespace : string
}.
Definition default_flags : Flags :=
  mkFlags "0" ":8081" false true "" "tls.crt" "tls.key" "" "tls.crt" "tls.key" false "kubex-system".

(** [tls.Config], as far as it is touched; and the options of a server. *)
Record TLSConfig := mkTLS { NextProtos : list string; TLS_Rest : string }.
Definition disableHTTP2 (c : TLSConfig) : TLSConfig := mkTLS ["http/1.1"] (TLS_Rest c).
Definition tlsOpts (f : Flags) : list (TLSConfig -> TLSConfig) := if enableHTTP2 f then [] else [disableHTTP2].

(** Empty names stand for the defaults of the library. *)
Record Certificates := mkCerts { CertDir : string; CertName : string; KeyName : string }.
Definition no_certificates : Certificates := mkCerts "" "" "".
Record WebhookOptions := mkWebhook { WH_TLSOpts : list (TLSConfig -> TLSConfig); WH_Certs : Certificates }.
Inductive Filter := WithAuthenticationAndAuthorization.
Record MetricsOptions := mkMetricsOptions {
  BindAddress : string;
  SecureServing : bool;
  M_TLSOpts : list (TLSConfig -> TLSConfig);
  FilterProvider : option Filter;
  M_Certs : Certificates
}.
Record ManagerOptions := mkManagerOptions {
  Metrics : MetricsOptions;
  WebhookServer : WebhookOptions;
  HealthProbeBindAddress : string;
  LeaderElection : bool;
  LeaderElectionID : string
}.

Definition webhookServerOptions (f : Flags) : WebhookOptions :=
  mkWebhook (tlsOpts f)
    (if str_empty (webhookCertPath f) then no_certificates
     else mkCerts (webhookCertPath f) (webhookCertName f) (webhookCertKey f)).
Definition metricsServerOptions (f : Flags) : MetricsOptions :=
  mkMetricsOptions (metricsAddr f) (secureMetrics f) (tlsOpts f)
    (if secureMetrics f then Some WithAuthenticationAndAuthorization else None)
    (if str_empty (metricsCertPath f) then no_certificates
     else mkCerts (metricsCertPath f) (metricsCertName f) (metricsCertKey f)).
Definition manager_options (f : Flags) : ManagerOptions :=
  mkManagerOptions (metricsServerOptions f) (webhookServerOptions f) (probeAddr f) (enableLeaderElection f) "3cf5d643.kubex.io".

(** The steps of [main] after the flags: the configuration of the API server, the
    manager, the controllers, the probes, and the run until a signal. *)
Inductive main_step :=
| GetConfigOrDie
| NewManager (o : ManagerOptions)
| SetupController (name : string) (namespace : option string)
| AddHealthzCheck (name : string)
| AddReadyzCheck (name : string)
| Start.

Definition exits (msg : string) : string -> ending := Exit 1 msg.

(** The reconcilers in the order they are set up, with the control namespace of those
    that are given one. *)
Definition controllers (f : Flags) : list (string * option string) :=
  let ns := TrimSpace (controlNamespace f) in
  [("Cluster", None); ("GlobalDeployment", Some ns); ("ReplicaBinding", Some ns); ("OptimizationPolicy", Some ns);
   ("ReOrchestrationPlan", None)].

(** How [ctrl.GetConfigOrDie] ends the process is the library's. *)
Definition main_steps (die : string -> ending) (f : Flags) : list (main_step * (string -> ending)) :=
  [(GetConfigOrDie, die); (NewManager (manager_options f), exits "Failed to start manager")] ++
  ((fun c => (SetupController c.1 c.2, exits "Failed to create controller")) <$> controllers f) ++
  [(AddHealthzCheck "healthz", exits "Failed to set up health check"); (AddReadyzCheck "readyz", exits "Failed to set up ready check");
   (Start, exits "Failed to run manager")].
Definition main (die : string -> ending) (fails : main_step -> option string) (f : Flags) : list main_step * ending :=
  in_turn fails (main_steps die f).

(** What the TLS options of a server make of its configuration. *)
Definition configured (opts : list (TLSConfig -> TLSConfig)) (c : TLSConfig) : TLSConfig := foldl (fun c opt => opt c) c opts.

Lemma main_steps_distinct die f : NoDup (main_steps die f).*1.
Proof.
  repeat (apply NoDup_cons; split;
    [intros H; repeat (apply elem_of_cons in H as [H|H]; [discriminate H|]); by apply not_elem_of_nil in H|]).
  apply NoDup_nil_2.
Qed.

(** What the steps are. *)
Lemma main_steps_exit die f a stop : (a, stop) ∈ main_steps die f -> a = GetConfigOrDie /\ stop = die \/ exists msg, stop = exits msg.
Proof. intros H. apply elem_of_cons in H as [[= -> ->]|H]; [by left|right]. cbn in H.
  repeat (apply elem_of_cons in H as [[= _ ->]|H]; [by eexists|]). by apply not_elem_of_nil in H. Qed.
Lemma main_steps_manager die f o : NewManager o ∈ (main_steps die f).*1 -> o = manager_options f.
Proof. intros H. cbn in H. repeat (apply elem_of_cons in H as [H|H]; [first [discriminate H|by injection H]|]). by apply not_elem_of_nil in H. Qed.
Lemma main_steps_begun die fails f a : a ∈ (main die fails f).1 -> a ∈ (main_steps die f).*1.
Proof.
  assert (Hspec := in_turn_spec fails (main_steps die f)). fold (main die fails f) in Hspec. destruct (main die fails f) as [begun fin].
  destruct Hspec as [(-> & _)|(before & a' & stop & e & after & -> & -> & _)]; [done|].
  rewrite fmap_app. cbn. intros [Ho| ->%list_elem_of_singleton]%elem_of_app; apply elem_of_app; [by left|right; apply list_elem_of_here].
Qed.

(** Whatever the flags and whatever step fails: the manager is started only when
    its configuration, all five controllers and both probes are set up, and otherwise
    the process ends after the first step that fails, with 1 and a message unless the
    configuration is missing; both servers of the
    manager speak HTTP/1.1 only, unless HTTP/2 is asked for, and the metrics are served
    behind the authorization filter exactly when they are served over TLS. *)
Theorem manager_starts_complete die fails f :
  (forall e, die e <> Served) ->
  let '(begun, fin) := main die fails f in
  (Start ∈ begun -> fails (NewManager (manager_options f)) = None /\
     Forall (fun c => fails (SetupController c.1 c.2) = None) (controllers f) /\
     fails (AddHealthzCheck "healthz") = None /\ fails (AddReadyzCheck "readyz") = None) /\
  (fin = Served <-> Forall (fun s => fails s.1 = None) (main_steps die f)) /\
  (fin <> Served -> exists s e, last begun = Some s /\ fails s = Some e /\
     (s = GetConfigOrDie /\ fin = die e \/ exists msg, fin = Exit 1 msg e)) /\
  (forall o c, NewManager o ∈ begun ->
     (forall opts, opts ∈ [M_TLSOpts (Metrics o); WH_TLSOpts (WebhookServer o)] ->
        NextProtos (configured opts c) = if enableHTTP2 f then NextProtos c else ["http/1.1"]) /\
     (FilterProvider (Metrics o) = Some WithAuthenticationAndAuthorization <-> SecureServing (Metrics o) = true)).
Proof.
  intros Hdie. assert (Hspec := in_turn_spec fails (main_steps die f)).
  assert (Hstart := in_turn_begun fails (main_steps die f) (take 9 (main_steps die f)) Start (exits "Failed to run manager") [] eq_refl).
  assert (Hbegun := main_steps_begun die fails f).
  fold (main die fails f) in Hspec, Hstart. destruct (main die fails f) as [begun fin]. cbn [fst] in *. split_and!.
  - intros Hs. apply Hstart in Hs; [|apply main_steps_distinct]. cbn in Hs.
    rewrite !Forall_cons in Hs. unfold controllers. rewrite !Forall_cons. destruct Hs as (? & ? & ? & ? & ? & ? & ? & ? & ? & ?). by split_and!.
  - destruct Hspec as [(-> & -> & H)|(before & a & stop & e & after & Hsteps & -> & -> & H & He)].
    + split; [|done]. intros _. by rewrite Forall_fmap in H.
    + split; [destruct (main_steps_exit die f a stop) as [[_ ->]|[msg ->]]; [|intros; by edestruct Hdie|done];
        rewrite Hsteps; apply elem_of_app; right; apply list_elem_of_here|].
      rewrite Hsteps, Forall_app, Forall_cons. cbn. rewrite He. by intros (_ & ? & _).
  - intros Hne. destruct Hspec as [(_ & -> & _)|(before & a & stop & e & after & Hsteps & -> & -> & H & He)]; [done|].
    exists a, e. rewrite last_snoc. split_and!; [done..|].
    destruct (main_steps_exit die f a stop) as [[-> ->]|[msg ->]]; [|by left|right; by exists msg].
    rewrite Hsteps. apply elem_of_app. right. apply list_elem_of_here.
  - intros o c Ho%Hbegun%main_steps_manager. subst o. split.
    + intros opts [->|[->|[]%not_elem_of_nil]%elem_of_cons]%elem_of_cons; cbn; unfold tlsOpts; by destruct (enableHTTP2 f).
    + cbn. by destruct (secureMetrics f).
Qed.

(** ** The connections of the server *)

(** [rest.Config], as far as it is touched. *)
Record RestConfig := mkRest {
  RC_Rest : string;
  RC_GroupVersion : option (string * string);
  RC_APIPath : string;
  RC_NegotiatedSerializer : bool;
  RC_UserAgent : string
}.

(** The libraries: reading a level of zap and building a logger; a client of etcd from
    its endpoints and the timeout of a dial; the configurations and clients of client-go;
    an error is its text. *)
Class ServerStart := {
  Level_Set : string -> result string string;
  zap_Build : string -> option string;
  clientv3_New : list string -> Z -> option string;
  clientcmd_BuildConfigFromFlags : string -> string -> result string RestConfig;
  rest_InClusterConfig : result string RestConfig;
  kubernetes_NewForConfig : RestConfig -> option string;
  dynamic_NewForConfig : RestConfig -> option string;
  rest_RESTClientFor : RestConfig -> option string;
  DefaultKubernetesUserAgent : string
}.

Section server_start.
Context {VIPER : Viper} {FMT : GoFmt} {LIB : ServerLib} {LIBS : ServerStart}.

(** [func New(level string)] of the logger: the level of the logger. *)
Definition logging_New (level : string) : result string string :=
  match Level_Set (ToLower level) with
  | Err e => Err e
  | Ok lvl => match zap_Build lvl with Some e => Err e | None => Ok lvl end
  end.

(** [func NewEtcdClient(cfg config.EtcdConfig)]: the endpoints and the timeout of the
    client; the product of the seconds is of 64 bits. *)
Definition dial_timeout (cfg : EtcdConfig) : Z := wrap64 (wrap64 (DialTimeoutSeconds cfg) * Second).
Definition NewEtcdClient (cfg : EtcdConfig) : result string (list string * Z) :=
  match clientv3_New (Endpoints cfg) (dial_timeout cfg) with
  | Some e => Err e
  | None => Ok (Endpoints cfg, dial_timeout cfg)
  end.

(** [type Clients struct]: each client by the configuration it has. *)
Record Clients := mkClients { Clients_RestConfig : RestConfig; Clientset : RestConfig; Dynamic : RestConfig; RESTClient : RestConfig }.

Definition rest_config (cfg : KubernetesConfig) : result string RestConfig :=
  if negb (str_empty (KubeconfigPath cfg))
  then match clientcmd_BuildConfigFromFlags "" (KubeconfigPath cfg) with
       | Err e => Err ("build kubeconfig from " +:+ fmt_q (KubeconfigPath cfg) +:+ ": " +:+ e)
       | Ok c => Ok c
       end
  else match rest_InClusterConfig with
       | Err e => Err ("build in-cluster config: " +:+ e)
       | Ok c => Ok c
       end.
Definition crd_config (c : RestConfig) : RestConfig :=
  mkRest (RC_Rest c) (Some ("core.kubex.io", "v1alpha1")) "/apis" true DefaultKubernetesUserAgent.

(** [func NewClients(cfg config.KubernetesConfig) (Clients, error)]. *)
Definition NewClients (cfg : KubernetesConfig) : result string Clients :=
  match rest_config cfg with
  | Err e => Err e
  | Ok c =>
      match kubernetes_NewForConfig c with
      | Some e => Err ("new clientset: " +:+ e)
      | None =>
          match dynamic_NewForConfig c with
          | Some e => Err ("new dynamic client: " +:+ e)
          | None =>
              match rest_RESTClientFor (crd_config c) with
              | Some e => Err ("new rest client: " +:+ e)
              | None => Ok (mkClients c c c (crd_config c))
              end
          end
      end
  end.

(** ** The server *)

(** What serves: the level of the log, the clients, what the handlers are given and
    the address. *)
Record Serving := mkServing {
  serving_level : string;
  serving_etcd : list string * Z;
  serving_clients : Clients;
  serving_dependencies : Dependencies;
  serving_addr : string
}.

(** [main] up to [ListenAndServe]: [panic] without a logger, [logger.Fatal] with one. *)
Definition server_start : ending + Serving :=
  match Load with
  | Err e => inl (Panicked e)
  | Ok cfg =>
      match logging_New (LogLevel cfg) with
      | Err e => inl (Panicked e)
      | Ok level =>
          match NewEtcdClient (Cfg_Etcd cfg) with
          | Err e => inl (Exit 1 "failed to init etcd client" e)
          | Ok etcd =>
              match NewClients (Cfg_Kubernetes cfg) with
              | Err e => inl (Exit 1 "failed to init kubernetes clients" e)
              | Ok clients => inr (mkServing level etcd clients (main_dependencies cfg) (ServerAddr cfg))
              end
          end
      end
  end.
End server_start.

(** What happens to a server that listens: its listener fails, or is closed; a signal
    arrives, and [Shutdown] has ten seconds. *)
Inductive server_event := ListenFailed (e : string) | ListenerClosed | Signalled (shutdown_error : option string).

(** The end of the process and the errors it logs before. *)
Fixpoint server_run (events : list server_event) : option (ending * list string) :=
  match events with
  | [] => None
  | ListenFailed e :: _ => Some (Exit 1 "server crashed" e, [])
  | ListenerClosed :: events' => server_run events'
  | Signalled None :: _ => Some (Served, [])
  | Signalled (Some e) :: _ => Some (Served, ["shutdown error: " +:+ e])
  end.

(** ** Requests in the log *)

Record LogLine := mkLogLine { Log_Method : string; Log_Path : string; Log_Status : Z; Log_Latency : Z; Log_ClientIP : string }.

(** [func requestLogger(logger)], a middleware inside [gin.Recovery]: the line is written
    after [c.Next()] returns, which it does not when a handler panics. *)
Definition requestLogger {A} (method path ip : string) (start finish : Z) (r : Response A) : option LogLine :=
  match r with
  | Recovered => None
  | _ => Some (mkLogLine method path (status_of r) (wrap64 (finish - start)) ip)
  end.

(** ** Theorems of the server *)

Section theorems.
Context {VIPER : Viper} {FMT : GoFmt} {LIB : ServerLib} {LIBS : ServerStart}.

(** A server whose clients are made has three of the same API server, with the same
    credentials; the client of the custom resources speaks to [core.kubex.io/v1alpha1]
    whatever the configuration says. *)
Lemma NewClients_spec cfg cl :
  NewClients cfg = Ok cl <->
  rest_config cfg = Ok (Clients_RestConfig cl) /\ Clientset cl = Clients_RestConfig cl /\ Dynamic cl = Clients_RestConfig cl /\
  RESTClient cl = crd_config (Clients_RestConfig cl) /\
  kubernetes_NewForConfig (Clients_RestConfig cl) = None /\ dynamic_NewForConfig (Clients_RestConfig cl) = None /\
  rest_RESTClientFor (RESTClient cl) = None.
Proof.
  unfold NewClients. split.
  - destruct (rest_config cfg) as [c|]; [|done]. destruct (kubernetes_NewForConfig c) eqn:H1; [done|].
    destruct (dynamic_NewForConfig c) eqn:H2; [done|]. destruct (rest_RESTClientFor (crd_config c)) eqn:H3; [done|].
    by intros [= <-].
  - destruct cl as [c cs d rc]. cbn. intros (-> & -> & -> & -> & -> & -> & ->). done.
Qed.

(** The server starts exactly when the configuration can be read and every client it
    needs can be made. It ends by a panic exactly when there is no logger yet, and with
    a logged error otherwise; nothing is served before all its parts are there. *)
Theorem server_starts_complete :
  match server_start with
  | inr s =>
      exists cfg, Load = Ok cfg /\ logging_New (LogLevel cfg) = Ok (serving_level s) /\
        clientv3_New (Endpoints (Cfg_Etcd cfg)) (dial_timeout (Cfg_Etcd cfg)) = None /\
        NewClients (Cfg_Kubernetes cfg) = Ok (serving_clients s) /\
        RC_GroupVersion (RESTClient (serving_clients s)) = Some ("core.kubex.io", "v1alpha1") /\
        serving_dependencies s = main_dependencies cfg /\ serving_addr s = ServerAddr cfg
  | inl fin =>
      (exists e, fin = Panicked e /\ forall cfg, Load = Ok cfg -> logging_New (LogLevel cfg) = Err e) \/
      (exists cfg level msg e, Load = Ok cfg /\ logging_New (LogLevel cfg) = Ok level /\ fin = Exit 1 msg e /\
         (NewEtcdClient (Cfg_Etcd cfg) = Err e \/ NewClients (Cfg_Kubernetes cfg) = Err e))
  end.
Proof.
  unfold server_start. destruct Load as [cfg|e] eqn:HL; [|left; by exists e].
  destruct (logging_New _) as [level|e] eqn:Hl; [|left; exists e; split; [done|by intros ? [= <-]]].
  unfold NewEtcdClient. destruct (clientv3_New _ _) as [e|] eqn:He.
  { right. exists cfg, level, "failed to init etcd client", e. split_and!; [done..|]. left. by rewrite He. }
  destruct (NewClients _) as [cl|e] eqn:Hc.
  - exists cfg. split_and!; try done. apply NewClients_spec in Hc as (_ & _ & _ & Hrc & _). cbn. by rewrite Hrc.
  - right. exists cfg, level, "failed to init kubernetes clients", e. rewrite Hc. split_and!; [done..|by right].
Qed.

(** A configured timeout is the timeout of a dial unless it exceeds 292 years. *)
Lemma dial_timeout_exact cfg :
  (- 9223372036 <= DialTimeoutSeconds cfg)%Z -> (DialTimeoutSeconds cfg <= 9223372036)%Z -> dial_timeout cfg = (DialTimeoutSeconds cfg * Second)%Z.
Proof.
  intros Hl Hu. unfold dial_timeout. rewrite (wrap64_id (DialTimeoutSeconds cfg)) by (unfold int64_range; lia).
  apply wrap64_id. unfold int64_range, Second, Millisecond. lia.
Qed.
End theorems.

(** Once it listens, the server ends by itself only when its listener fails, and a
    signal ends it with 0 even when its connections do not end in time. *)
Lemma server_run_spec events :
  match server_run events with
  | None => Forall (eq ListenerClosed) events
  | Some (fin, _) =>
      exists closed event rest, events = closed ++ event :: rest /\ Forall (eq ListenerClosed) closed /\
        (fin = Served <-> exists e, event = Signalled e) /\ (fin <> Served -> exists e, event = ListenFailed e)
  end.
Proof.
  induction events as [|ev events IH]; [constructor|]. destruct ev as [e| |[e|]]; cbn.
  - exists [], (ListenFailed e), events. split_and!; [done|constructor| |by eexists]. split; [done|by intros [? ?]].
  - destruct (server_run events) as [[fin log]|]; [|by constructor].
    destruct IH as (closed & ev & rest & -> & H1 & H2 & H3). exists (ListenerClosed :: closed), ev, rest. split_and!; [done|by constructor|done..].
  - exists [], (Signalled (Some e)), events. split_and!; [done|constructor| |done]. split; [by eexists|done].
  - exists [], (Signalled None), events. split_and!; [done|constructor| |done]. split; [by eexists|done].
Qed.

(** A request is missing from the log exactly when its handler panics; one that is
    logged has the status it is answered with. *)
Lemma unlogged_iff_panicked {A} method path ip start finish (r : Response A) :
  requestLogger method path ip start finish r = None <-> r = Recovered.
Proof. by destruct r. Qed.

(** ** Concrete runs *)

(** A manager whose third controller cannot be set up. *)
Definition demo_failure (s : main_step) : option string :=
  match s with SetupController "ReplicaBinding" _ => Some "no kind is registered" | _ => None end.
Example manager_stops_early :
  main (Exit 1 "") demo_failure default_flags =
  ([GetConfigOrDie; NewManager (manager_options default_flags); SetupController "Cluster" None;
    SetupController "GlobalDeployment" (Some "kubex-system"); SetupController "ReplicaBinding" (Some "kubex-system")],
   Exit 1 "Failed to create controller" "no kind is registered").
Proof. by_eval. Qed.

Lemma manager_starts_complete_witness :
  let '(begun, fin) := main (Exit 1 "") demo_failure default_flags in
  fin <> Served /\ exists s e, last begun = Some s /\ demo_failure s = Some e.
Proof.
  assert (H := manager_starts_complete (Exit 1 "") demo_failure default_flags ltac:(discriminate)).
  assert (Hserved : (main (Exit 1 "") demo_failure default_flags).2 <> Served) by (intros H'; vm_compute in H'; discriminate H').
  destruct (main _ _ _) as [begun fin]. destruct H as (_ & _ & H & _). split; [exact Hserved|].
  destruct (H Hserved) as (s & e & Hs & He & _). by exists s, e.
Defined.

(** A page far past the end: the list panics, and the request is not in the log. *)
Example far_page_unlogged :
  let r := reply_page (page_items ["c1"; "c2"; "c3"] (2 ^ 62 + 1) 3) id in
  status_of r = StatusInternalServerError /\ requestLogger "GET" "/api/v1/ListClusters" "::1" 0 1 r = None.
Proof. split; by_eval. Qed.
